(* ===== verification/_CoqProject ===== *)
-Q . S2P
Prelude.v
CMonad.v
CString.v
MangoTypes.v
MangoHelper.v
MangoHelperFacts.v
MangoHttpFacts.v
MangoBase64.v
MangoPort.v
MangoPortFacts.v
MangoWS.v
MangoWSFacts.v
MangoDP.v
MangoDPFacts.v
MangoChunkedFacts.v
MangoSM.v
MangoInvariant.v
Mango.v
Process.v
MangoTls.v
MangoTlsFacts.v
MangoApiFacts.v
MangoSession.v
Crc.v
CrcFacts.v
Fsm.v
FsmFacts.v
MyCache.v
FbIo.v
Flash.v
CmdMem.v
FlashFacts.v
MemDump.v
MemDumpFacts.v
Fcmd.v
FcmdFacts.v
FcmdCallFacts.v
JpgeTypes.v
JpgeDct.v
JpgeDctFacts.v
Jpge.v
JpgeOutFacts.v
JpegSpec.v
JpgeCodeFacts.v
JpgeScanFacts.v
JpgeImageFacts.v
JpgeHeadFacts.v
JpgeOpenFacts.v
JpegFile.v
JpgeFileFacts.v
Yuv.v
ToJpg.v
ToJpgFacts.v
TransferTheorems.v
ClientTheorems.v
DeviceTheorems.v
Bitmap.v
Camera.v
CameraFacts.v
JpegTheorems.v
CommandTheorems.v
TlsTheorems.v
JsonDouble.v
JsonHeap.v
CJson.v
CJsonParse.v
CJsonPrint.v
JsonLogic.v
CJsonFacts.v
CJsonText.v
CJsonTextFacts.v
CJsonParseFacts.v
JsonNumberFacts.v
CJsonPrintFacts.v
CJsonPrintPlainFacts.v
CJsonPrintValueFacts.v
CJsonRoundTrip.v
CJsonReadBack.v
CJsonApiFacts.v
JsonTheorems.v
