(* ===== verification/Prelude.v ===== *)
(** A verification of the firmware components of the mangoxx Linux SDK.

    The repository simulates firmware on Linux.  This library models and proves
    its own logic: the HTTP/1.1 and WebSocket client mango
    (src/components/mango), the checksums (src/components/crc), the scheduler,
    the command line and the commands of the sample application
    (src/apps/sample_fcmd), the simulated flash below the file system
    (src/components/spiffs), the JSON library (src/components/cJSON), and the
    JPEG encoder with the conversion of camera images, its cache and its frame
    ring buffer (src/components/jpge).

    * Conventions

    C integers are [Z] with their wrap-around written out (u8, u16, u32, s32
    below); arrays are [list Z], and [zget], [zset], [zsub] and [zblit] are
    access, update, slice and memcpy by index, undefined outside the array.
    Stateful code is a computation of the monad [M] of CMonad: it returns a
    result and a state, or stops with a failure: [Fault site] (an access out of
    bounds), [Hang site] (a violated MANGO_ENSURE, which loops forever),
    [Exit site] (a call of exit) or [OutOfFuel].  [wpg Fl m Q s] says that [m] run from [s] ends in [Q] or stops
    with a failure in [Fl]; [wp] allows no failure, so it includes termination.
    Loops are [loop fuel body].  Their fuel is enough when it does not depend on
    the environment (the bound is written at the loop: one round more than the
    bytes or slots there are); the loops that wait for the operating system
    take the parameter [fuel], and the theorems that promise a result say which
    fuel is enough: one round per byte of a transfer, 65536 for every transfer.

    * mango

    The client is the record [mangoHttpClient_t] (MangoTypes.v), the operating
    system, the peer and the application's callback are an [environment], a
    record of functions of what has happened so far: the [trace] of a [world].
    [environment_ok] says what POSIX promises of it (recv returns at most what
    was asked for, and so on).

    - MangoTypes.v    mangoTypes.h, mangoConfig.h, mangoInternal.h
    - CString.v       the functions of string.h that the code uses, and those of
                      ctype.h and stdlib.h
    - MangoHelper.v   mangoHelper.c;       facts in MangoHelperFacts.v (numbers),
                      MangoHttpFacts.v (status line and headers)
    - MangoBase64.v   crypto/mangoCrypto_base64.c, with RFC 4648
    - MangoPort.v     mangoPort.c, mangoSocket_read/write; MangoPortFacts.v
    - MangoWS.v       mangoWS.c, with a decoder of RFC 6455; MangoWSFacts.v
    - MangoDP.v       mangoDP.c; MangoDPFacts.v (what the application is given,
                      and the processors on arbitrary bytes),
                      MangoChunkedFacts.v (the chunked coding as a relation on
                      streams, the decoder and the encoder, and a body sent by
                      the one and received by the other)
    - MangoSM.v       mangoSM.c: every state function and the engine that throws
                      events at it
    - MangoInvariant.v  the invariant of every state, that every handler keeps
                      it (mangoWB_shrink first), and that a call ends at rest
    - Mango.v         mango.c, the functions of the application interface;
                      MangoApiFacts.v
    - MangoSession.v  sequences of calls, which begin with mango_connect or
      with mango_sslconnect, and scripted peers

    Connections have a model of their own, of what the process holds:

    - Process.v       the objects of the process (blocks of the heap, sockets,
      objects of OpenSSL) as a finite map, the functions that create and release
      them, and the history of the calls; a call may fail, and the argument
      [succeeds] says which
    - MangoTls.v      mango_connect and mango_sslconnect with their error exits,
      mango_disconnect and mango_ssldisconnect, the verification modes, the
      loading and freeing of certificates
    - MangoTlsFacts.v  what they hold when they return
      ([holding])

    The layers interact as in the code: an API call stores its arguments in the
    client and runs mangoSM_PROCESS; the state functions call the port layer,
    the helpers and the data processor that the response selected; the
    processors call the application.  Lemmas [wpg_f] state what [f] does for
    every continuation, so that each layer is proved from the lemmas of the
    one below; MangoPortFacts.v puts the contract of the writer in the class
    [can_write], which the proofs of the layers above use.

    * The JPEG encoder

    - JpgeTypes.v   the tables and struct jpeg_encoder, its fields grouped by
      what changes them
    - JpgeDct.v     the pure part of jpge.c (colours, DCT2D, quantization,
      Huffman codes) as functions into [option]; JpgeDctFacts.v
    - Jpge.v        the rest of jpge.c, in the monad: put_bits and the output
      buffer, the markers, blocks, rows of MCUs, jpge_init,
      jpge_process_scanline.  The callback and malloc are parameters
    - Yuv.v, ToJpg.v   yuv.c and to_jpg.c: the formats of the camera, and
      fmt2jpg with the client of the encoder that fills a buffer

    JpegSpec.v is the entropy coding of ITU T.81 as an encoder and a decoder on
    bit strings, JpegFile.v a decoder for the files (markers, tables, scan);
    neither mentions the code.  The facts follow the layers of jpge.c:
    JpgeOutFacts.v (bytes and bits behind the output buffer), JpgeCodeFacts.v (a
    block, from its samples and its coefficients to bits), JpgeScanFacts.v
    (the bits of a sequence of blocks, as the encoder writes them, and their
    decoding), JpgeImageFacts.v (rows of MCUs,
    lines, padding, the end), JpgeHeadFacts.v (headers and standard tables),
    JpgeOpenFacts.v (what stays, and the interface of jpge.h), JpgeFileFacts.v (the file is decoded to the blocks of
    the image), ToJpgFacts.v (to_jpg.c).  All loops of the encoder run for a
    number of rounds that its arguments give; there is no fuel.

    * The command line

    - Fcmd.v      fcmd.c, fcmd_cfg.h and the loop of main.c: a line is an array,
      pointers into it are offsets, the functions of the table are names, and
      what happens (output and calls with their arguments and the memory of
      the strings) is a list of events.  FcmdFacts.v describes the lines that
      are typed and proves the parser of the arguments: what the separators are
      ([breaks_from]), what get_args leaves ([parsed], [arguments_at]).
      FcmdCallFacts.v: the table, the name that is looked up, the call
      ([outcome_of]), the login ([locked])
    - CmdMem.v   sfmw, sfmc and sfmu of cmd_mem.c, on the flash; the address
      that malloc returns is a parameter, because the code casts it to uint32_t
    - MemDump.v   md, cmp and sfmd of cmd_mem.c, on a memory that is a partial
      function of the address; MemDumpFacts.v has a reader of the dump
    - Bitmap.v, Camera.v   bitmap.c and cmd_jpge.c: a BMP file is read into the
      frame buffer, its lines are exchanged, and to_jpg.c compresses it;
      CameraFacts.v composes this with ToJpgFacts.v ([picture_written])

    The loops over a line have its length as fuel, those that read or write
    files the length of the file.

    * JSON

    - JsonDouble.v  the doubles of cJSON.c as the Standard Library specifies
      binary64, with what printf writes of them
    - JsonHeap.v    its memory: struct cJSON, strings, print buffers and tables
      of strings as objects of a finite map; reading a byte that was not written
      and touching an object that was freed are faults
    - CJson.v       the functions on items; CJsonParse.v the parser and
      cJSON_Minify; CJsonPrint.v the printer, with and without a buffer
    - JsonLogic.v   a separation logic of exact assertions for this memory, as a
      logic of Iris's proof mode: [swp m Q] says that [m] returns, that its part
      of the memory becomes [Q] of the result and that the rest is as before.
      Assertions are not affine, so nothing can be lost: a computation that
      leaves [emp] has freed all.  The rules of the accesses follow
    - CJsonFacts.v  an item with all it owns is a [tree] ([tree_at]), a chain of
      items a list of trees ([segment_of]); the functions on arrays,
      names, and cJSON_Duplicate
    - CJsonText.v   JSON texts without memory: [text_value] reads a tree from a
      text, [render] makes a text of a tree.  The parser refines the first:
      CJsonTextFacts.v (scanning, the two passes over a string, the grammar
      itself, and the escapes on which the passes disagree), CJsonParseFacts.v.  The printer writes the second:
      CJsonPrintFacts.v (the buffer that grows, strings, lists into a buffer),
      CJsonPrintPlainFacts.v (through tables of strings),
      CJsonPrintValueFacts.v (all values)
    - JsonNumberFacts.v  ints are exact as doubles; the texts
      of numbers.  CJsonRoundTrip.v, CJsonReadBack.v: what [render] makes is
      what [text_value] reads
    - CJsonApiFacts.v  [triple P m Q], the functions of cJSON.h as wholes

    Parameters are which allocations succeed, pow, and the int that an
    impossible conversion of a double gives.  Loops over the text have its
    length as fuel, loops over items and strings the parameter [fuel]; the
    theorems ask for one round more than there are items or characters.

    * The other components

    - Crc.v, CrcFacts.v   crc.c for any width from 8 to 32 bits and any
      polynomial: the table-driven and the bitwise computation, linearity, error
      detection
    - Fsm.v, FsmFacts.v   fsm.c: queues, dispatch, timers; the
      handlers are parameters ([application_ok] says what they promise)
    - MyCache.v   my_cache.c
    - FbIo.v   fb_io.h
    - Flash.v, FlashFacts.v   flash_device.c (the chip and its file) and the
      functions of flash_spiffs.c that spiffs calls, with the commands of
      CmdMem.v; what read and write return
      is a parameter

    * Theorems

    TransferTheorems.v: conversions, status line, header lookup, base64; reading and writing, websocket frames, raw and chunked
    bodies, a chunked body from the sender to the receiver, the working buffer.
    ClientTheorems.v: sessions (the invariant and
    the absence of faults whatever the server sends), building requests,
    sending data and frames, complete runs.  DeviceTheorems.v: checksums,
    scheduler, cache, frame buffer; flash, its alignment layer
    and its commands, as operations on an array of bytes.  JpegTheorems.v: the
    file that fmt2jpg writes is decoded to the quantized transform of the
    picture; the transform, the quantization, the Huffman codes, the bit stream
    against their references, and the blocks that are coded read back; errors of jpge_init;
    colours; a BMP file becomes a JPEG file of the same picture.
    TlsTheorems.v: a connection that fails gives back everything it took, and
    one that is closed too; certificates that are loaded and freed, and those
    that are used after they were freed.
    CommandTheorems.v: a typed call reaches the function with the arguments that
    were typed, nothing happens without the password, the table is well-formed,
    what the parser has no room for; dumps of memory can be read back.
    JsonTheorems.v: the parser builds what the text says and keeps nothing when
    it fails, all printers write the same text, a tree is read back from it;
    arrays and objects are lists, copying and deletion; where the parser is not
    safe.
    Each theorem with a hypothesis is followed by a [_witness] that
    applies it to a concrete input.

    * Failures that remain

    [sm_failure] lists what a call can run into: a chunk-size line of 256 bytes
    or more (its length is kept in a uint8_t), a Content-Length of 11
    characters or more in a request (the local buffer is not terminated), and
    an environment that keeps the client waiting.  Other defects are stated
    as theorems: mangoHelper_dec2hexstr(0), the select loop of mangoPort_write,
    short responses, frames above 65527 bytes, cache_write at the end of the
    block, fb_io_space_tail_len of an empty ring, a transfer of spiffs at the end of
    the flash; in the encoder, the weights of green in yuv.c, a YUV422 line of
    odd width, and an output buffer that is too small, which fmt2jpg does not
    report; in the command line, ten numbers, a nested parenthesis before a
    string, a line that begins with a parenthesis, and a string with quotes
    inside it when what is between them begins with a parenthesis or with white
    space and a comma; sfmw and sfmu, whose buffer is lost when its address has
    more than 32 bits; a certificate authority
    that was used in a connection can no longer be freed, because d2i_X509 has
    moved the pointer to it; in cJSON, an escape that is cut short, behind which
    parse_string runs out of its block (the parser is proved for the texts
    without one, [readable]).  CRC-32 is right where long has four bytes.  The theorem on BMP files
    has the conditions that camera_run does not check: a long of four bytes,
    lines without padding, a file that fits the frame buffer, a short name.

    * Not modelled

    What OpenSSL does inside its functions, debug
    output and one-line wrappers of the operating system; mounting and
    unmounting spiffs, and mkspiffs; the other libraries that the repository
    carries (spiffs, minilzo, tinyxml2) and the demonstrations, among them
    cmd_linux.c.  Modelled without a theorem of their own: cJSON_Minify, the
    references and the arrays that cJSON.c creates from C arrays.  Addresses of the name service are a parameter of
    mango_connect; time is what gettimeofday answers. *)

From Stdlib Require Export ZArith Lia Bool.
From stdpp Require Export base list strings.

#[export] Set Default Goal Selector "!".
Open Scope Z_scope.

(** * Machine integers

    A w-bit unsigned value is a [Z] in [0, 2^w); the wrap-around of an
    assignment to a [uintN_t] object is written out where the source assigns. *)

Definition u8 (x : Z) : Z := x mod 256.
Definition u16 (x : Z) : Z := x mod 65536.
Definition u32 (x : Z) : Z := x mod 4294967296.
(** Conversion to a 32-bit [int] (two's complement). *)
Definition s32 (x : Z) : Z := (x + 2147483648) mod 4294967296 - 2147483648.

Definition is_u8 (x : Z) : Prop := 0 <= x < 256.
Definition is_u16 (x : Z) : Prop := 0 <= x < 65536.
Definition is_u32 (x : Z) : Prop := 0 <= x < 4294967296.

Lemma u8_range x : is_u8 (u8 x).
Proof. apply Z.mod_pos_bound; lia. Qed.
Lemma u16_range x : is_u16 (u16 x).
Proof. apply Z.mod_pos_bound; lia. Qed.
Lemma u32_range x : is_u32 (u32 x).
Proof. apply Z.mod_pos_bound; lia. Qed.
Lemma u8_small x : is_u8 x -> u8 x = x.
Proof. apply Z.mod_small. Qed.
Lemma u16_small x : is_u16 x -> u16 x = x.
Proof. apply Z.mod_small. Qed.
Lemma u32_small x : is_u32 x -> u32 x = x.
Proof. apply Z.mod_small. Qed.
Lemma s32_small x : -2147483648 <= x < 2147483648 -> s32 x = x.
Proof. intros H. unfold s32. rewrite Z.mod_small; lia. Qed.

Create HintDb cint.
Create Rewrite HintDb cint.
#[export] Hint Resolve u8_range u16_range u32_range : cint.
#[export] Hint Rewrite u8_small u16_small u32_small s32_small
  using (unfold is_u8, is_u16, is_u32 in *; lia) : cint.

(** ** Bit operations as arithmetic *)

Lemma lor_shiftl a b k : 0 <= k -> 0 <= a < 2 ^ k -> Z.lor a (Z.shiftl b k) = a + b * 2 ^ k.
Proof.
  intros Hk Ha. rewrite <- Z.shiftl_mul_pow2 by done.
  assert (Z.land a (Z.shiftl b k) = 0) as Hl.
  { apply Z.bits_inj'. intros i Hi. rewrite Z.land_spec, Z.bits_0.
    destruct (Z.ltb_spec i k).
    - rewrite Z.shiftl_spec_low by done. apply andb_false_r.
    - replace (Z.testbit a i) with false; [done|]. symmetry.
      rewrite <- (Z.mod_small a (2 ^ k)) by done. by rewrite Z.mod_pow2_bits_high by lia. }
  by rewrite Z.add_nocarry_lxor, Z.lxor_lor by done.
Qed.

Lemma mod_lor a b k :
  0 <= k -> Z.lor a b mod 2 ^ k = Z.lor (a mod 2 ^ k) (b mod 2 ^ k).
Proof. intros Hk. by rewrite <- !Z.land_ones, Z.land_lor_distr_l by done. Qed.

Lemma lor_u32 a b : is_u32 a -> is_u32 b -> is_u32 (Z.lor a b).
Proof.
  unfold is_u32. change 4294967296 with (2 ^ 32). intros Ha Hb.
  rewrite <- (Z.mod_small a (2 ^ 32)), <- (Z.mod_small b (2 ^ 32)), <- mod_lor by lia.
  by apply Z.mod_pos_bound.
Qed.

(** * Arrays

    A C array is the list of its elements; an index is a [Z], and an access
    outside the object is [None]. *)

Definition zlen {A} (l : list A) : Z := Z.of_nat (length l).

Definition zget {A} (l : list A) (i : Z) : option A :=
  if 0 <=? i then l !! Z.to_nat i else None.

Definition zset {A} (l : list A) (i : Z) (v : A) : option (list A) :=
  if (0 <=? i) && (i <? zlen l) then Some (<[Z.to_nat i := v]> l) else None.

(** [zsub l off n]: the [n] elements from [off]. *)
Definition zsub {A} (l : list A) (off n : Z) : list A :=
  take (Z.to_nat n) (drop (Z.to_nat off) l).

(** [zblit l off d]: memcpy(&l[off], d, length d). *)
Definition zblit {A} (l : list A) (off : Z) (d : list A) : option (list A) :=
  if (0 <=? off) && (off + zlen d <=? zlen l)
  then Some (take (Z.to_nat off) l ++ d ++ drop (Z.to_nat (off + zlen d)) l)
  else None.

(** The bytes of a string literal. *)
Definition bytes (s : string) : list Z :=
  map (fun c => Z.of_N (Ascii.N_of_ascii c)) (String.list_ascii_of_string s).

Section Arrays.
Context {A : Type}.
Implicit Types (l d : list A) (i off n : Z) (v : A).

Lemma zlen_nonneg l : 0 <= zlen l.
Proof. unfold zlen. lia. Qed.

Lemma zlen_nil : zlen (@nil A) = 0.
Proof. reflexivity. Qed.

Lemma zlen_cons v l : zlen (v :: l) = zlen l + 1.
Proof. unfold zlen. cbn [length]. lia. Qed.

Lemma zlen_app l d : zlen (l ++ d) = zlen l + zlen d.
Proof. unfold zlen. rewrite length_app. lia. Qed.

Lemma zlen_zero_nil l : zlen l = 0 -> l = [].
Proof. unfold zlen. destruct l; cbn [length]; [done | lia]. Qed.

Lemma zget_Some_range l i v : zget l i = Some v -> 0 <= i < zlen l.
Proof.
  unfold zget, zlen. destruct (Z.leb_spec 0 i); [ | done].
  intros E%lookup_lt_Some. lia.
Qed.

Lemma zget_is_Some l i : 0 <= i < zlen l -> is_Some (zget l i).
Proof.
  unfold zget, zlen. intros H. destruct (Z.leb_spec 0 i); [ | lia].
  apply lookup_lt_is_Some. lia.
Qed.

Lemma zget_None l i : zlen l <= i -> zget l i = None.
Proof.
  unfold zget, zlen. intros H. destruct (Z.leb_spec 0 i); [ | done].
  apply lookup_ge_None. lia.
Qed.

Lemma zget_app_l l d i : i < zlen l -> zget (l ++ d) i = zget l i.
Proof.
  unfold zget, zlen. intros H. destruct (Z.leb_spec 0 i); [ | done].
  apply lookup_app_l. lia.
Qed.

Lemma zget_app_r l d i : zlen l <= i -> zget (l ++ d) i = zget d (i - zlen l).
Proof.
  unfold zget, zlen. intros H.
  destruct (Z.leb_spec 0 i), (Z.leb_spec 0 (i - Z.of_nat (length l))); try lia.
  rewrite lookup_app_r by lia. f_equal. lia.
Qed.

Lemma zget_0 v l : zget (v :: l) 0 = Some v.
Proof. reflexivity. Qed.

Lemma zget_cons v l i : 0 < i -> zget (v :: l) i = zget l (i - 1).
Proof.
  intros. change (v :: l) with ([v] ++ l). rewrite zget_app_r; [done|].
  change (zlen [v]) with 1. lia.
Qed.

Lemma zset_Some l i v l' :
  zset l i v = Some l' -> 0 <= i < zlen l /\ l' = <[Z.to_nat i := v]> l.
Proof.
  unfold zset.
  destruct (Z.leb_spec 0 i), (Z.ltb_spec i (zlen l)); cbn; intros E; try done.
  split; [lia | congruence].
Qed.

Lemma zset_is_Some l i v :
  0 <= i < zlen l -> zset l i v = Some (<[Z.to_nat i := v]> l).
Proof.
  unfold zset. intros H.
  destruct (Z.leb_spec 0 i), (Z.ltb_spec i (zlen l)); (done || lia).
Qed.

Lemma zset_None l i v : ~ (0 <= i < zlen l) -> zset l i v = None.
Proof.
  unfold zset. intros H.
  destruct (Z.leb_spec 0 i), (Z.ltb_spec i (zlen l)); (done || lia).
Qed.

Lemma zlen_insert l (k : nat) v : zlen (<[k := v]> l) = zlen l.
Proof. unfold zlen. by rewrite length_insert. Qed.

Lemma zget_insert_eq l i v :
  0 <= i < zlen l -> zget (<[Z.to_nat i := v]> l) i = Some v.
Proof.
  unfold zget, zlen. intros H. destruct (Z.leb_spec 0 i); [ | lia].
  apply list_lookup_insert_eq. lia.
Qed.

Lemma zget_insert_ne l i j v :
  0 <= i -> 0 <= j -> i <> j -> zget (<[Z.to_nat i := v]> l) j = zget l j.
Proof.
  unfold zget. intros Hi Hj H. destruct (Z.leb_spec 0 j); [ | lia].
  apply list_lookup_insert_ne. lia.
Qed.

Lemma insert_same l i v :
  zget l i = Some v -> <[Z.to_nat i := v]> l = l.
Proof.
  unfold zget. destruct (Z.leb_spec 0 i); [ | done]. apply list_insert_id.
Qed.

Lemma zlen_zsub l off n :
  0 <= off -> 0 <= n -> off + n <= zlen l -> zlen (zsub l off n) = n.
Proof.
  unfold zlen, zsub. intros. rewrite length_take, length_drop. lia.
Qed.

Lemma zget_zsub l off n i :
  0 <= off -> 0 <= i < n -> zget (zsub l off n) i = zget l (off + i).
Proof.
  unfold zget, zsub. intros Hoff Hi.
  destruct (Z.leb_spec 0 i), (Z.leb_spec 0 (off + i)); try lia.
  rewrite lookup_take_lt by lia. rewrite lookup_drop. f_equal. lia.
Qed.

Lemma zsub_all l : zsub l 0 (zlen l) = l.
Proof. unfold zsub, zlen. rewrite Nat2Z.id. by rewrite drop_0, firstn_all. Qed.

Lemma zsub_0 l off : zsub l off 0 = [].
Proof. done. Qed.

Lemma zsub_split l off n m :
  0 <= off -> 0 <= n -> 0 <= m ->
  zsub l off (n + m) = zsub l off n ++ zsub l (off + n) m.
Proof.
  unfold zsub. intros.
  replace (Z.to_nat (off + n)) with (Z.to_nat off + Z.to_nat n)%nat by lia.
  rewrite <- drop_drop.
  replace (Z.to_nat (n + m)) with (Z.to_nat n + Z.to_nat m)%nat by lia.
  by rewrite take_take_drop.
Qed.

Lemma zblit_is_Some l off d :
  0 <= off -> off + zlen d <= zlen l ->
  zblit l off d =
    Some (take (Z.to_nat off) l ++ d ++ drop (Z.to_nat (off + zlen d)) l).
Proof.
  unfold zblit. intros.
  destruct (Z.leb_spec 0 off), (Z.leb_spec (off + zlen d) (zlen l)); (done || lia).
Qed.

Lemma zblit_ex l off d :
  0 <= off -> off + zlen d <= zlen l -> exists l', zblit l off d = Some l'.
Proof. intros. rewrite zblit_is_Some by lia. by eexists. Qed.

Lemma zblit_zlen l off d l' : zblit l off d = Some l' -> zlen l' = zlen l.
Proof.
  unfold zblit.
  destruct (Z.leb_spec 0 off), (Z.leb_spec (off + zlen d) (zlen l)); cbn;
    intros E; try done. injection E as <-.
  unfold zlen in *. rewrite !length_app, length_take, length_drop. lia.
Qed.

(** [holds l i d]: the array [l] contains [d] from index [i] on. *)
Fixpoint holds l (i : Z) d : Prop :=
  match d with
  | [] => True
  | v :: d => zget l i = Some v /\ holds l (i + 1) d
  end.

Lemma holds_app l i d1 d2 :
  holds l i (d1 ++ d2) <-> holds l i d1 /\ holds l (i + zlen d1) d2.
Proof.
  revert i. induction d1 as [|v d1 IH]; intros i; cbn [app holds].
  - rewrite zlen_nil, Z.add_0_r. tauto.
  - rewrite IH, zlen_cons. replace (i + 1 + zlen d1) with (i + (zlen d1 + 1)) by lia.
    tauto.
Qed.

Lemma holds_shift l l' i j d :
  (forall k, 0 <= k < zlen d -> zget l (i + k) = zget l' (j + k)) ->
  holds l i d -> holds l' j d.
Proof.
  revert i j. induction d as [|v d IH]; intros i j H; cbn; [done|].
  rewrite zlen_cons in H. intros [Hv Hd]. split.
  - specialize (H 0). rewrite !Z.add_0_r in H. rewrite <- H, Hv; [done|].
    pose proof (zlen_nonneg d). lia.
  - apply (IH (i + 1)); [|done]. intros k Hk. specialize (H (k + 1)).
    replace (i + 1 + k) with (i + (k + 1)) by lia.
    replace (j + 1 + k) with (j + (k + 1)) by lia. apply H. lia.
Qed.

Lemma holds_get l i d k v :
  holds l i d -> zget d k = Some v -> zget l (i + k) = Some v.
Proof.
  revert i k. induction d as [|x d IH]; intros i k; cbn [holds].
  - intros _ H. apply zget_Some_range in H. unfold zlen in H. cbn in H. lia.
  - intros [Hx Hd] Hk. pose proof (zget_Some_range _ _ _ Hk) as Hr.
    destruct (decide (k = 0)) as [->|].
    + rewrite zget_0 in Hk. rewrite Z.add_0_r. congruence.
    + rewrite zget_cons in Hk by lia.
      replace (i + k) with (i + 1 + (k - 1)) by lia. by apply IH.
Qed.

Lemma holds_insert_after l i d k v :
  0 <= i -> i + zlen d <= k -> holds l i d -> holds (<[Z.to_nat k := v]> l) i d.
Proof.
  intros Hi Hk. apply holds_shift. intros j Hj. by rewrite zget_insert_ne by lia.
Qed.

Lemma holds_bound l i d : holds l i d -> d <> [] -> 0 <= i /\ i + zlen d <= zlen l.
Proof.
  intros H Hd.
  assert (forall k, 0 <= k < zlen d -> 0 <= i + k < zlen l) as Hb.
  { intros k Hk. destruct (zget_is_Some d k Hk) as [v Hv].
    eapply zget_Some_range, holds_get; eauto. }
  assert (0 < zlen d) by (destruct d; [done|]; rewrite zlen_cons;
                          pose proof (zlen_nonneg d); lia).
  specialize (Hb 0 ltac:(lia)) as Hb0. specialize (Hb (zlen d - 1) ltac:(lia)). lia.
Qed.

Lemma holds_self l : holds l 0 l.
Proof.
  assert (forall k, holds (take k l ++ drop k l) (zlen (take k l)) (drop k l)) as H.
  { intros k. generalize (take k l), (drop k l). clear l k. intros a b. revert a.
    induction b as [|v b IH]; intros a; cbn; [done|]. split.
    - rewrite zget_app_r, Z.sub_diag by lia. apply zget_0.
    - specialize (IH (a ++ [v])). rewrite <- app_assoc in IH.
      by rewrite zlen_app in IH. }
  specialize (H O). by rewrite take_drop in H.
Qed.

Lemma holds_zsub l i d : 0 <= i -> holds l i d -> zsub l i (zlen d) = d.
Proof.
  revert i. induction d as [|v d IH]; intros i Hi H.
  - apply zsub_0.
  - destruct H as [Hv Hd]. rewrite zlen_cons, Z.add_comm.
    pose proof (zlen_nonneg d). rewrite zsub_split by lia. rewrite IH by (lia || done).
    unfold zget in Hv. destruct (Z.leb_spec 0 i); [|done].
    unfold zsub. by rewrite (drop_S _ _ _ Hv).
Qed.

(** Writing an array element by element. *)
(** Conversely, a part of an array is what it holds there. *)
Lemma holds_of_zsub l off n :
  0 <= off -> 0 <= n -> off + n <= zlen l -> holds l off (zsub l off n).
Proof.
  intros Ho Hn Hl. pose proof (holds_self l) as H. rewrite <- (zsub_all l) in H at 2.
  replace (zlen l) with (off + (n + (zlen l - off - n))) in H by lia.
  rewrite (zsub_split l 0 off), zsub_split in H by lia.
  apply holds_app in H as [_ H]. apply holds_app in H as [H _].
  rewrite zlen_zsub in H by lia. exact H.
Qed.

Lemma zblit_nil l i : 0 <= i <= zlen l -> zblit l i [] = Some l.
Proof.
  intros H. rewrite zblit_is_Some by (rewrite ?zlen_nil; lia).
  cbn [app]. rewrite zlen_nil, Z.add_0_r. by rewrite take_drop.
Qed.

Lemma zget_zblit l i d l' k :
  zblit l i d = Some l' -> 0 <= k ->
  zget l' k = if (i <=? k) && (k <? i + zlen d) then zget d (k - i) else zget l k.
Proof.
  unfold zblit.
  destruct (Z.leb_spec 0 i), (Z.leb_spec (i + zlen d) (zlen l)); cbn; try done.
  intros [= <-] Hk. pose proof (zlen_nonneg d).
  assert (zlen (take (Z.to_nat i) l) = i) as Ht.
  { unfold zlen in *. rewrite length_take. lia. }
  destruct (Z.leb_spec i k); cbn.
  - rewrite zget_app_r by lia. rewrite Ht. destruct (Z.ltb_spec k (i + zlen d)).
    + by rewrite zget_app_l by lia.
    + rewrite zget_app_r by lia. unfold zget.
      destruct (Z.leb_spec 0 (k - i - zlen d)), (Z.leb_spec 0 k); try lia.
      rewrite lookup_drop. f_equal. lia.
  - rewrite zget_app_l by lia. unfold zget. destruct (Z.leb_spec 0 k); [|lia].
    apply lookup_take_lt. lia.
Qed.

Lemma zget_ext l l' :
  zlen l = zlen l' -> (forall k, 0 <= k < zlen l -> zget l k = zget l' k) -> l = l'.
Proof.
  intros Hl H. apply list_eq. intros k.
  destruct (decide (k < length l)%nat) as [Hk|Hk].
  - specialize (H (Z.of_nat k)). unfold zget, zlen in *.
    destruct (Z.leb_spec 0 (Z.of_nat k)); [|lia]. rewrite Nat2Z.id in H. apply H. lia.
  - unfold zlen in *. rewrite !(proj2 (lookup_ge_None _ _)); [done|lia|lia].
Qed.

Lemma zblit_range l i d l' :
  zblit l i d = Some l' -> 0 <= i /\ i + zlen d <= zlen l.
Proof.
  unfold zblit.
  destruct (Z.leb_spec 0 i), (Z.leb_spec (i + zlen d) (zlen l)); cbn; try done.
Qed.

Lemma zblit_snoc l i d l' v :
  zblit l i d = Some l' -> i + zlen d < zlen l ->
  zset l' (i + zlen d) v = zblit l i (d ++ [v]).
Proof.
  intros E Hl. pose proof (zblit_range _ _ _ _ E). pose proof (zblit_zlen _ _ _ _ E).
  pose proof (zlen_nonneg d).
  assert (zlen (d ++ [v]) = zlen d + 1) as Hd by (by rewrite zlen_app).
  rewrite zset_is_Some by lia.
  destruct (zblit l i (d ++ [v])) as [l2|] eqn:E2.
  2: { rewrite zblit_is_Some in E2 by lia. done. }
  f_equal. pose proof (zblit_zlen _ _ _ _ E2).
  apply zget_ext; rewrite zlen_insert; [lia|]. intros k Hk.
  rewrite (zget_zblit _ _ _ _ _ E2), Hd by lia.
  destruct (decide (k = i + zlen d)) as [->|Hne].
  - rewrite zget_insert_eq by lia.
    destruct (Z.leb_spec i (i + zlen d)), (Z.ltb_spec (i + zlen d) (i + (zlen d + 1)));
      cbn; try lia.
    rewrite zget_app_r by lia. replace (i + zlen d - i - zlen d) with 0 by lia.
    by rewrite zget_0.
  - rewrite zget_insert_ne, (zget_zblit _ _ _ _ _ E) by lia.
    destruct (Z.leb_spec i k), (Z.ltb_spec k (i + zlen d)),
      (Z.ltb_spec k (i + (zlen d + 1))); cbn; try lia; try done.
    by rewrite zget_app_l by lia.
Qed.

Lemma zblit_cons l i d l' v :
  zblit l (i + 1) d = Some l' -> 0 <= i -> zset l' i v = zblit l i (v :: d).
Proof.
  intros E Hi. pose proof (zblit_range _ _ _ _ E). pose proof (zblit_zlen _ _ _ _ E).
  pose proof (zlen_nonneg d).
  rewrite zset_is_Some by lia.
  destruct (zblit l i (v :: d)) as [l2|] eqn:E2.
  2: { rewrite zblit_is_Some in E2 by (rewrite ?zlen_cons; lia). done. }
  f_equal. pose proof (zblit_zlen _ _ _ _ E2).
  apply zget_ext; rewrite zlen_insert; [lia|]. intros k Hk.
  rewrite (zget_zblit _ _ _ _ _ E2), zlen_cons by lia.
  destruct (decide (k = i)) as [->|Hne].
  - rewrite zget_insert_eq by lia.
    destruct (Z.leb_spec i i), (Z.ltb_spec i (i + (zlen d + 1))); cbn; try lia.
    by rewrite Z.sub_diag, zget_0.
  - rewrite zget_insert_ne, (zget_zblit _ _ _ _ _ E) by lia.
    destruct (Z.leb_spec (i + 1) k), (Z.leb_spec i k), (Z.ltb_spec k (i + 1 + zlen d)),
      (Z.ltb_spec k (i + (zlen d + 1))); cbn; try lia; try done.
    rewrite zget_cons by lia. f_equal. lia.
Qed.

Lemma zblit_holds l i d l' : zblit l i d = Some l' -> holds l' i d.
Proof.
  intros E. pose proof (zblit_range _ _ _ _ E) as [Hi _].
  apply (holds_shift d l' 0 i); [|apply holds_self]. intros k Hk.
  rewrite (zget_zblit _ _ _ _ _ E) by lia.
  destruct (Z.leb_spec i (i + k)), (Z.ltb_spec (i + k) (i + zlen d)); cbn; try lia.
  f_equal. lia.
Qed.

Lemma zblit_holds_before l i d l' j e :
  zblit l i d = Some l' -> 0 <= j -> j + zlen e <= i -> holds l j e -> holds l' j e.
Proof.
  intros E Hj Hi. apply holds_shift. intros k Hk.
  rewrite (zget_zblit _ _ _ _ _ E) by lia.
  destruct (Z.leb_spec i (j + k)); cbn; [lia | done].
Qed.
End Arrays.

(** Appending to what has been stored. *)
Lemma zblit_app (l : list Z) i d1 d2 l' :
  zblit l i d1 = Some l' -> i + zlen d1 + zlen d2 <= zlen l ->
  zblit l' (i + zlen d1) d2 = zblit l i (d1 ++ d2).
Proof.
  intros H1 Hl. revert d1 l' H1 Hl. induction d2 as [|x d2 IH]; intros d1 l' H1 Hl.
  - rewrite app_nil_r, H1. apply zblit_nil. pose proof (zblit_range _ _ _ _ H1).
    rewrite (zblit_zlen _ _ _ _ H1). pose proof (zlen_nonneg d1). lia.
  - rewrite zlen_cons in Hl. pose proof (zlen_nonneg d2). pose proof (zlen_nonneg d1).
    pose proof (zblit_range _ _ _ _ H1) as [Hi _].
    pose proof (zblit_zlen _ _ _ _ H1) as Hll.
    destruct (zblit_ex l i (d1 ++ [x]) Hi) as [l1 Hl1].
    { rewrite zlen_app. change (zlen [x]) with 1. lia. }
    assert (zlen (d1 ++ [x]) = zlen d1 + 1) as Hd by (by rewrite zlen_app).
    specialize (IH (d1 ++ [x]) l1 Hl1 ltac:(lia)).
    rewrite <- app_assoc in IH. cbn [app] in IH. rewrite <- IH, Hd.
    pose proof (zblit_snoc _ _ _ _ x H1 ltac:(lia)) as Hs. rewrite Hl1 in Hs.
    apply zset_Some in Hs as [Hr ->].
    destruct (zblit_ex l' (i + zlen d1) (x :: d2) ltac:(lia)) as [a Ha];
      [rewrite zlen_cons; lia|].
    destruct (zblit_ex (<[Z.to_nat (i + zlen d1) := x]> l') (i + (zlen d1 + 1)) d2 ltac:(lia))
      as [b Hb]; [rewrite zlen_insert; lia|].
    rewrite Ha, Hb. f_equal. pose proof (zblit_zlen _ _ _ _ Ha) as La.
    pose proof (zblit_zlen _ _ _ _ Hb) as Lb. rewrite zlen_insert in Lb.
    apply zget_ext; [lia|]. intros k Hk.
    rewrite (zget_zblit _ _ _ _ _ Ha), (zget_zblit _ _ _ _ _ Hb), zlen_cons by lia.
    destruct (Z.leb_spec (i + zlen d1) k), (Z.leb_spec (i + (zlen d1 + 1)) k),
      (Z.ltb_spec k (i + zlen d1 + (zlen d2 + 1))), (Z.ltb_spec k (i + (zlen d1 + 1) + zlen d2));
      cbn [andb]; try lia.
    + rewrite zget_cons by lia. f_equal. lia.
    + by rewrite zget_insert_ne by lia.
    + replace k with (i + zlen d1) by lia. by rewrite Z.sub_diag, zget_0, zget_insert_eq by lia.
    + by rewrite zget_insert_ne by lia.
Qed.

Lemma zlen_map {A B} (f : A -> B) l : zlen (map f l) = zlen l.
Proof. unfold zlen. by rewrite length_map. Qed.

Lemma zlen_replicate {A} n (x : A) : zlen (replicate n x) = Z.of_nat n.
Proof. unfold zlen. by rewrite length_replicate. Qed.

Create HintDb zlen.
Create Rewrite HintDb zlen.
#[export] Hint Rewrite @zlen_nil @zlen_cons @zlen_app @zlen_insert @zlen_map @zlen_replicate : zlen.
#[export] Hint Resolve zlen_nonneg : zlen.
