(* ===== verification/CMonad.v ===== *)
(** Executable semantics of the C code: a state monad whose computations may
    stop abnormally, and the weakest-precondition calculus the proofs use.

    [Stop (Hang f)]: a failed MANGO_ENSURE of function [f], which prints and
    spins in while(1);
    [Stop (Fault f)]: the access of function [f] outside an object or through
    a null or foreign pointer (undefined behaviour in C);
    [Stop (Exit f)]: function [f] called exit;
    [Stop OutOfFuel]: the bound given to an unbounded loop was reached. *)

From S2P Require Import Prelude.

Inductive failure : Type :=
| Hang (site : string)
| Fault (site : string)
| Exit (site : string)
| OutOfFuel.

#[export] Instance failure_eq_dec : EqDecision failure.
Proof. solve_decision. Defined.

Inductive outcome (A : Type) : Type :=
| Ok (a : A)
| Stop (f : failure).
Arguments Ok {A} a.
Arguments Stop {A} f.

Definition M (S A : Type) : Type := S -> outcome (A * S).

Section Operations.
Context {S : Type}.

Definition ret {A} (a : A) : M S A := fun s => Ok (a, s).
Definition bind {A B} (m : M S A) (k : A -> M S B) : M S B := fun s =>
  match m s with
  | Ok (a, s') => k a s'
  | Stop f => Stop f
  end.
Definition get : M S S := fun s => Ok (s, s).
Definition put (s : S) : M S unit := fun _ => Ok (tt, s).
Definition gets {A} (f : S -> A) : M S A := fun s => Ok (f s, s).
Definition modify (f : S -> S) : M S unit := fun s => Ok (tt, f s).
Definition stop {A} (f : failure) : M S A := fun _ => Stop f.
(** The value of an access that is undefined behaviour when it is [None]. *)
Definition access {A} (site : string) (o : option A) : M S A :=
  match o with
  | Some a => ret a
  | None => stop (Fault site)
  end.
(** MANGO_ENSURE(cond, msg). *)
Definition ensure (site : string) (cond : bool) : M S unit :=
  if cond then ret tt else stop (Hang site).

(** while/do-while loops: the body either goes on with a new local state or
    leaves the loop with a result. *)
Fixpoint loop {A B} (fuel : nat) (body : A -> M S (A + B)) (a : A) : M S B :=
  match fuel with
  | O => stop OutOfFuel
  | Datatypes.S n => fun s =>
      match body a s with
      | Ok (inl a', s') => loop n body a' s'
      | Ok (inr b, s') => Ok (b, s')
      | Stop f => Stop f
      end
  end.
End Operations.

Declare Scope c_scope.
Delimit Scope c_scope with c.
Notation "x <- m ;; k" := (bind m (fun x => k))
  (at level 100, m at next level, right associativity) : c_scope.
Notation "'let*' p ':=' m 'in' k" := (bind m (fun p => k))
  (at level 100, p pattern, m at next level, k at level 200,
   right associativity) : c_scope.
Notation "m ;; k" := (bind m (fun _ => k))
  (at level 100, right associativity) : c_scope.
Open Scope c_scope.

(** * Weakest preconditions

    [wpg E m Q s]: run from [s], [m] either returns a result and a state in
    [Q], or stops with a failure that [E] allows. *)

Definition wpg (E : failure -> Prop) {S A} (m : M S A)
    (Q : A -> S -> Prop) (s : S) : Prop :=
  match m s with
  | Ok (a, s') => Q a s'
  | Stop f => E f
  end.

(** Total correctness: the computation returns. *)
Definition never (f : failure) : Prop := False.
Abbreviation wp := (wpg never).
(** Partial correctness: the only other outcome is that the fuel runs out. *)
Definition fuel_only (f : failure) : Prop := f = OutOfFuel.
Abbreviation wlp := (wpg fuel_only).

Section Wp.
Context {S : Type} (E : failure -> Prop).

Lemma wpg_ret {A} (a : A) Q (s : S) : Q a s -> wpg E (ret a) Q s.
Proof. done. Qed.

Lemma wpg_bind {A B} (m : M S A) (k : A -> M S B) Q s :
  wpg E m (fun a => wpg E (k a) Q) s -> wpg E (bind m k) Q s.
Proof. unfold wpg, bind. by destruct (m s) as [[a s']|f]. Qed.

Lemma wpg_get Q (s : S) : Q s s -> wpg E get Q s.
Proof. done. Qed.
Lemma wpg_put Q (s s' : S) : Q tt s' -> wpg E (put s') Q s.
Proof. done. Qed.
Lemma wpg_gets {A} (f : S -> A) Q s : Q (f s) s -> wpg E (gets f) Q s.
Proof. done. Qed.
Lemma wpg_modify (f : S -> S) Q s : Q tt (f s) -> wpg E (modify f) Q s.
Proof. done. Qed.
Lemma wpg_stop {A} f (Q : A -> S -> Prop) s : E f -> wpg E (stop f) Q s.
Proof. done. Qed.
Lemma wpg_access_Some {A} site (o : option A) a Q (s : S) :
  o = Some a -> Q a s -> wpg E (access site o) Q s.
Proof. by intros ->. Qed.
Lemma wpg_access {A} site (o : option A) Q (s : S) :
  (forall a, o = Some a -> Q a s) -> (o = None -> E (Fault site)) ->
  wpg E (access site o) Q s.
Proof. destruct o; cbn; intros H1 H2; [by apply H1 | by apply H2]. Qed.
Lemma wpg_ensure site (b : bool) Q (s : S) :
  b = true -> Q tt s -> wpg E (ensure site b) Q s.
Proof. by intros ->. Qed.

(** A computation has one outcome, so what is known of it adds up. *)
Lemma wpg_conj (E' : failure -> Prop) {A} (m : M S A) (Q Q' : A -> S -> Prop) s :
  wpg E m Q s -> wpg E' m Q' s -> wpg E m (fun a s' => Q a s' /\ Q' a s') s.
Proof. unfold wpg. by destruct (m s) as [[a s']|f]. Qed.

Lemma wpg_mono {A} (m : M S A) (Q Q' : A -> S -> Prop) s :
  wpg E m Q s -> (forall a s', Q a s' -> Q' a s') -> wpg E m Q' s.
Proof. unfold wpg. destruct (m s) as [[a s']|f]; eauto. Qed.

Lemma wpg_ext {A} (m m' : M S A) Q s : m s = m' s -> wpg E m' Q s -> wpg E m Q s.
Proof. unfold wpg. by intros ->. Qed.

(** One round of a loop. *)
Lemma wpg_loop_S {A B} (body : A -> M S (A + B)) n a (Q : B -> S -> Prop) s :
  wpg E (body a) (fun r s' =>
    match r with
    | inl a' => wpg E (loop n body a') Q s'
    | inr b => Q b s'
    end) s ->
  wpg E (loop (Datatypes.S n) body a) Q s.
Proof.
  unfold wpg at 1 3. cbn [loop].
  by destruct (body a s) as [[[a'|b] s']|f].
Qed.

(** A loop that keeps [I] and decreases [mu] returns within [mu] + 1 rounds. *)
Lemma wpg_loop {A B} (body : A -> M S (A + B)) (I : A -> S -> Prop)
    (mu : A -> S -> nat) (Q : B -> S -> Prop) :
  (forall a s, I a s ->
     wpg E (body a) (fun r s' =>
       match r with
       | inl a' => I a' s' /\ (mu a' s' < mu a s)%nat
       | inr b => Q b s'
       end) s) ->
  forall fuel a s, I a s -> (mu a s < fuel)%nat -> wpg E (loop fuel body a) Q s.
Proof.
  intros Hbody fuel. induction fuel as [|n IH]; intros a s HI Hmu; [lia|].
  specialize (Hbody a s HI). unfold wpg in *. cbn [loop].
  destruct (body a s) as [[[a'|b] s']|f]; [ | done | done].
  destruct Hbody as [HI' Hlt]. apply IH; [done | lia].
Qed.

(** Partial correctness of a loop: [E] allows the fuel to run out. *)
Lemma wpg_loop_partial {A B} (body : A -> M S (A + B)) (I : A -> S -> Prop)
    (Q : B -> S -> Prop) :
  E OutOfFuel ->
  (forall a s, I a s ->
     wpg E (body a) (fun r s' =>
       match r with inl a' => I a' s' | inr b => Q b s' end) s) ->
  forall fuel a s, I a s -> wpg E (loop fuel body a) Q s.
Proof.
  intros HE Hbody fuel. induction fuel as [|n IH]; intros a s HI; [done|].
  specialize (Hbody a s HI). unfold wpg in *. cbn [loop].
  destruct (body a s) as [[[a'|b] s']|f]; [by apply IH | done | done].
Qed.
End Wp.

(** The failures allowed may be weakened. *)
Lemma wpg_weaken (E E' : failure -> Prop) {S A} (m : M S A) Q s :
  wpg E m Q s -> (forall f, E f -> E' f) -> wpg E' m Q s.
Proof. unfold wpg. destruct (m s) as [[a s']|f]; eauto. Qed.

Lemma wp_run {S A} (m : M S A) (Q : A -> S -> Prop) s :
  wp m Q s -> exists a s', m s = Ok (a, s') /\ Q a s'.
Proof. unfold wpg, never. destruct (m s) as [[a s']|f]; [eauto | done]. Qed.

Lemma run_wpg (E : failure -> Prop) {S A} (m : M S A) (Q : A -> S -> Prop) s a s' :
  m s = Ok (a, s') -> Q a s' -> wpg E m Q s.
Proof. unfold wpg. by intros ->. Qed.

(** One step of symbolic execution. *)
Ltac wp_step :=
  cbn beta iota;
  lazymatch goal with
  | |- wpg _ (bind _ _) _ _ => apply wpg_bind
  | |- wpg _ (ret _) _ _ => apply wpg_ret
  | |- wpg _ get _ _ => apply wpg_get
  | |- wpg _ (put _) _ _ => apply wpg_put
  | |- wpg _ (gets _) _ _ => apply wpg_gets
  | |- wpg _ (modify _) _ _ => apply wpg_modify
  | |- wpg _ (ensure _ _) _ _ => apply wpg_ensure
  | |- wpg _ (access _ (Some _)) _ _ => apply wpg_ret
  end.
Ltac wp_steps := repeat (wp_step; cbn beta iota).
