(* ===== verification/CString.v ===== *)
(** The functions of the C library that the sources use on strings and
    memory (string.h, ctype.h), on arrays of bytes.

    A [char *] is an index into the array that holds it.  [cstr m p] is the
    string at [p], without its terminator, and [None] when the object ends
    before a NUL byte is found (the C function would read past the object).

    The second part has the functions that the command line uses: isspace,
    strpbrk, strchr, strncmp and strtol. *)

From S2P Require Import Prelude.
From S2P Require Import CMonad.

Fixpoint until_nul (l : list Z) : option (list Z) :=
  match l with
  | [] => None
  | c :: l => if c =? 0 then Some [] else (c ::.) <$> until_nul l
  end.

Definition cstr (m : list Z) (p : Z) : option (list Z) :=
  if 0 <=? p then until_nul (drop (Z.to_nat p) m) else None.

Definition strlen (m : list Z) (p : Z) : option Z := zlen <$> cstr m p.

Fixpoint is_prefix (p l : list Z) : bool :=
  match p, l with
  | [], _ => true
  | x :: p, y :: l => (x =? y) && is_prefix p l
  | _, _ => false
  end.

(** Offset of the first occurrence of [needle] in the string [s]. *)
Fixpoint find_sub (needle s : list Z) : option Z :=
  if is_prefix needle s then Some 0
  else match s with
       | [] => None
       | _ :: s => Z.succ <$> find_sub needle s
       end.

(** strstr(&m[p], needle): outer [None] when &m[p] is not terminated. *)
Definition strstr (m : list Z) (p : Z) (needle : list Z) : option (option Z) :=
  s ← cstr m p; Some (Z.add p <$> find_sub needle s).

(** tolower in the C locale. *)
Definition tolower (c : Z) : Z := if (65 <=? c) && (c <=? 90) then c + 32 else c.

(** strncasecmp(&m[p], name, strlen(name)) == 0. *)
Fixpoint is_prefix_nocase (name l : list Z) : bool :=
  match name, l with
  | [], _ => true
  | x :: name, y :: l => (tolower x =? tolower y) && is_prefix_nocase name l
  | _, _ => false
  end.

Definition isdigit (c : Z) : bool := (48 <=? c) && (c <=? 57).

(** * Properties *)

Lemma until_nul_spec l s :
  until_nul l = Some s <-> exists r, l = s ++ 0 :: r /\ Forall (fun c => c <> 0) s.
Proof.
  revert s. induction l as [|c l IH]; intros s; cbn.
  - split; [done|]. intros (r & E & _). by destruct s.
  - destruct (Z.eqb_spec c 0) as [->|Hc].
    + split.
      * intros [= <-]. by exists l.
      * intros (r & E & Hs). destruct s as [|x s]; [done|].
        injection E as <- _. by apply Forall_cons in Hs as [Hx _].
    + split.
      * destruct (until_nul l) as [s'|]; cbn; [|done]. intros [= <-].
        destruct (proj1 (IH s') eq_refl) as (r & -> & Hs). exists r.
        split; [done | by constructor].
      * intros (r & E & Hs). destruct s as [|x s]; [cbn in E; congruence|].
        injection E as -> ->. apply Forall_cons in Hs as [_ Hs].
        rewrite (proj2 (IH s)) by eauto. done.
Qed.

Lemma until_nul_app s r : Forall (fun c => c <> 0) s -> until_nul (s ++ 0 :: r) = Some s.
Proof. intros Hs. apply until_nul_spec. eauto. Qed.

Lemma until_nul_is_Some l i : zget l i = Some 0 -> is_Some (until_nul l).
Proof.
  revert i. induction l as [|c l IH]; intros i Hi.
  - apply zget_Some_range in Hi. unfold zlen in Hi. cbn in Hi. lia.
  - cbn. destruct (Z.eqb_spec c 0) as [->|Hc]; [by eexists|].
    apply fmap_is_Some. apply (IH (i - 1)).
    pose proof (zget_Some_range _ _ _ Hi) as Hr.
    destruct (decide (i = 0)) as [->|].
    + rewrite zget_0 in Hi. congruence.
    + rewrite zget_cons in Hi by lia. done.
Qed.

(** A NUL at or after [p] ends the string at [p]. *)
Lemma cstr_is_Some m p i : 0 <= p <= i -> zget m i = Some 0 -> is_Some (cstr m p).
Proof.
  intros Hp Hi. unfold cstr. destruct (Z.leb_spec 0 p); [|lia].
  apply (until_nul_is_Some _ (i - p)).
  unfold zget in *. destruct (Z.leb_spec 0 i), (Z.leb_spec 0 (i - p)); try lia.
  rewrite lookup_drop. rewrite <- Hi. f_equal. lia.
Qed.

Lemma cstr_spec m p s :
  cstr m p = Some s ->
  0 <= p /\ exists r, m = take (Z.to_nat p) m ++ s ++ 0 :: r /\ zlen (take (Z.to_nat p) m) = p /\
                 Forall (fun c => c <> 0) s.
Proof.
  unfold cstr. destruct (Z.leb_spec 0 p); [|done].
  intros (r & E & Hs)%until_nul_spec. split; [done|]. exists r.
  rewrite <- E, take_drop. repeat split; [|done].
  unfold zlen. rewrite length_take.
  assert (length (drop (Z.to_nat p) m) <> 0)%nat as Hl.
  { rewrite E, length_app. cbn. lia. }
  rewrite length_drop in Hl. lia.
Qed.

Lemma cstr_bound m p s : cstr m p = Some s -> 0 <= p /\ p + zlen s < zlen m.
Proof.
  intros (Hp & r & E & Ht & _)%cstr_spec. split; [done|].
  rewrite E. rewrite !zlen_app, zlen_cons, Ht. pose proof (zlen_nonneg r). lia.
Qed.

Lemma cstr_get m p s i c :
  cstr m p = Some s -> zget s i = Some c -> zget m (p + i) = Some c.
Proof.
  intros (Hp & r & E & Ht & _)%cstr_spec Hi. pose proof (zget_Some_range _ _ _ Hi).
  rewrite E, zget_app_r, Ht by lia. replace (p + i - p) with i by lia.
  rewrite zget_app_l; [done | lia].
Qed.

Lemma cstr_get_end m p s : cstr m p = Some s -> zget m (p + zlen s) = Some 0.
Proof.
  intros (Hp & r & E & Ht & _)%cstr_spec.
  rewrite E, zget_app_r, Ht by (pose proof (zlen_nonneg s); lia).
  replace (p + zlen s - p) with (zlen s) by lia.
  rewrite zget_app_r, Z.sub_diag by lia. done.
Qed.

(** Moving a pointer inside a string drops the characters it passes. *)
Lemma cstr_advance m p s k :
  cstr m p = Some s -> 0 <= k <= zlen s -> cstr m (p + k) = Some (drop (Z.to_nat k) s).
Proof.
  intros E Hk. pose proof (cstr_bound _ _ _ E) as [Hp _].
  unfold cstr in *. destruct (Z.leb_spec 0 p), (Z.leb_spec 0 (p + k)); try lia.
  apply until_nul_spec in E as (r & E & Hs). apply until_nul_spec. exists r.
  replace (Z.to_nat (p + k)) with (Z.to_nat p + Z.to_nat k)%nat by lia.
  rewrite <- drop_drop, E. split.
  - rewrite drop_app_le by (unfold zlen in Hk; lia). done.
  - by apply Forall_drop.
Qed.

Lemma is_prefix_app p r : is_prefix p (p ++ r) = true.
Proof. induction p as [|x p IH]; cbn; [done|]. by rewrite Z.eqb_refl. Qed.

Lemma is_prefix_spec p l : is_prefix p l = true <-> exists r, l = p ++ r.
Proof.
  split; [|intros (r & ->); apply is_prefix_app].
  revert l. induction p as [|x p IH]; intros l; cbn; [by exists l|].
  destruct l as [|y l]; [done|]. intros [->%Z.eqb_eq (r & ->)%IH]%andb_true_iff.
  by exists r.
Qed.

Lemma find_sub_Some needle s k :
  find_sub needle s = Some k ->
  exists a b, s = a ++ needle ++ b /\ zlen a = k.
Proof.
  revert k. induction s as [|c s IH]; intros k; cbn.
  - destruct (is_prefix needle []) eqn:E; [|done]. intros [= <-].
    apply is_prefix_spec in E as (r & E). exists [], r. by rewrite <- E.
  - destruct (is_prefix needle (c :: s)) eqn:E.
    + intros [= <-]. apply is_prefix_spec in E as (r & E). by exists [], r.
    + destruct (find_sub needle s) as [j|] eqn:Ej; cbn; [|done]. intros [= <-].
      destruct (IH j eq_refl) as (a & b & -> & Ha). exists (c :: a), b.
      split; [done|]. rewrite zlen_cons. lia.
Qed.

Lemma find_sub_app needle a b : is_Some (find_sub needle (a ++ needle ++ b)).
Proof.
  induction a as [|c a IH]; cbn [app].
  - destruct (needle ++ b) as [|c s] eqn:E.
    + destruct needle; [|done]. by eexists.
    + cbn. rewrite <- E, is_prefix_app. by eexists.
  - cbn. destruct (is_prefix needle (c :: a ++ needle ++ b)); [by eexists|].
    by apply fmap_is_Some.
Qed.

Lemma find_sub_range needle s k :
  find_sub needle s = Some k -> 0 <= k /\ k + zlen needle <= zlen s.
Proof.
  intros (a & b & -> & <-)%find_sub_Some. rewrite !zlen_app.
  pose proof (zlen_nonneg a). pose proof (zlen_nonneg b). lia.
Qed.

Lemma strstr_Some m p needle q :
  strstr m p needle = Some (Some q) ->
  exists s k, cstr m p = Some s /\ find_sub needle s = Some k /\ q = p + k.
Proof.
  unfold strstr. destruct (cstr m p) as [s|] eqn:E; cbn; [|done].
  destruct (find_sub needle s) as [k|] eqn:F; cbn; [|done].
  intros [= <-]. eauto.
Qed.

Lemma is_prefix_nocase_length name l :
  is_prefix_nocase name l = true -> (length name <= length l)%nat.
Proof.
  revert l. induction name as [|x name IH]; intros [|y l]; cbn; try (done || lia).
  intros [_ H%IH]%andb_true_iff. lia.
Qed.

Lemma is_prefix_nocase_app name r : is_prefix_nocase name (name ++ r) = true.
Proof. induction name; cbn; [done|]. by rewrite Z.eqb_refl. Qed.

(** Characters of a string and of the array it lies in. *)
Lemma cstr_holds m p s : cstr m p = Some s -> holds m p (s ++ [0]).
Proof.
  intros E. pose proof (cstr_bound _ _ _ E) as [Hp _].
  apply (holds_shift (s ++ [0]) m 0 p); [|apply holds_self].
  intros k Hk. rewrite zlen_app in Hk. change (zlen [0]) with 1 in Hk.
  destruct (decide (k < zlen s)) as [Hlt|Hge].
  - rewrite zget_app_l by lia. destruct (zget_is_Some s k ltac:(lia)) as [c Hc].
    rewrite (cstr_get _ _ _ _ _ E Hc). done.
  - replace k with (zlen s) by lia. rewrite (cstr_get_end _ _ _ E), zget_app_r by lia.
    by rewrite Z.add_0_l, Z.sub_diag.
Qed.

Lemma holds_cstr m p s :
  0 <= p -> holds m p (s ++ [0]) -> Forall (fun c => c <> 0) s -> cstr m p = Some s.
Proof.
  intros Hp Hm Hs. unfold cstr. destruct (Z.leb_spec 0 p); [|lia].
  apply until_nul_spec. revert p Hp Hm H. induction Hs as [|c s Hc Hs IH]; intros p Hp Hm H.
  - destruct Hm as [Hm _]. exists (drop (Z.to_nat (p + 1)) m). split; [|constructor].
    unfold zget in Hm. destruct (Z.leb_spec 0 p); [|lia].
    rewrite (drop_S _ _ _ Hm). cbn [app]. do 2 f_equal. lia.
  - destruct Hm as [Hm Hm']. destruct (IH (p + 1)) as (r & E & _); [lia | done | lia |].
    exists r. split; [|by constructor].
    unfold zget in Hm. destruct (Z.leb_spec 0 p); [|lia].
    rewrite (drop_S _ _ _ Hm). cbn [app]. f_equal. rewrite <- E. f_equal. lia.
Qed.

Lemma cstr_nonzero m p s : cstr m p = Some s -> Forall (fun c => c <> 0) s.
Proof. by intros (_ & r & _ & _ & H)%cstr_spec. Qed.

(** Writing a NUL inside a string truncates it. *)
Lemma cstr_truncate m p s k :
  cstr m p = Some s -> 0 <= k <= zlen s ->
  cstr (<[Z.to_nat (p + k) := 0]> m) p = Some (take (Z.to_nat k) s).
Proof.
  intros E Hk. pose proof (cstr_bound _ _ _ E) as [Hp Hb].
  apply holds_cstr; [done| |apply Forall_take, (cstr_nonzero _ _ _ E)].
  assert (zlen (take (Z.to_nat k) s) = k) as Hl.
  { unfold zlen in *. rewrite length_take. lia. }
  apply holds_app. rewrite Hl. split.
  - apply holds_insert_after; [lia|lia|].
    pose proof (cstr_holds _ _ _ E) as H.
    rewrite <- (take_drop (Z.to_nat k) s), <- app_assoc in H. by apply holds_app in H as [H _].
  - cbn. split; [|done]. apply zget_insert_eq. lia.
Qed.

(** Writing after the terminator changes nothing. *)
Lemma cstr_insert_after m p s k v :
  cstr m p = Some s -> p + zlen s < k -> cstr (<[Z.to_nat k := v]> m) p = Some s.
Proof.
  intros E Hk. pose proof (cstr_bound _ _ _ E) as [Hp Hb].
  apply holds_cstr; [done| |apply (cstr_nonzero _ _ _ E)].
  apply holds_insert_after; [done| |by apply cstr_holds].
  rewrite zlen_app. change (zlen [0]) with 1. lia.
Qed.

Lemma strstr_cstr m p s needle :
  cstr m p = Some s -> strstr m p needle = Some (Z.add p <$> find_sub needle s).
Proof. unfold strstr. by intros ->. Qed.

(** More of the C library: strpbrk, strchr and strncmp of string.h, isspace,
    and strtol with base 0.  [long_bits] is the width of long. *)

(** isspace of ctype.h in the C locale. *)
Definition isspace (c : Z) : bool := (c =? 32) || ((9 <=? c) && (c <=? 13)).

Definition one_of (key : list Z) (c : Z) : bool := existsb (Z.eqb c) key.

(** Offset of the first character of [s] that satisfies [f]. *)
Fixpoint find_char (f : Z -> bool) (s : list Z) : option Z :=
  match s with
  | [] => None
  | c :: s => if f c then Some 0 else Z.succ <$> find_char f s
  end.

(** strpbrk(&m[p], key) and strchr(&m[p], c) with [c] not NUL: outer [None]
    when &m[p] is not terminated. *)
Definition strpbrk (m : list Z) (p : Z) (key : list Z) : option (option Z) :=
  s ← cstr m p; Some (Z.add p <$> find_char (one_of key) s).
Definition strchr (m : list Z) (p c : Z) : option (option Z) :=
  s ← cstr m p; Some (Z.add p <$> find_char (Z.eqb c) s).

(** strncmp(a, b, n) == 0 on two strings. *)
Fixpoint strn_eq (n : nat) (a b : list Z) : bool :=
  match n with
  | O => true
  | Datatypes.S n =>
      match a, b with
      | [], [] => true
      | x :: a, y :: b => (x =? y) && strn_eq n a b
      | _, _ => false
      end
  end.

Definition digit_value (c : Z) : Z :=
  if isdigit c then c - 48
  else if (97 <=? c) && (c <=? 122) then c - 87
  else if (65 <=? c) && (c <=? 90) then c - 55
  else 36.

(** The number that the digits at the beginning of [s] continue. *)
Fixpoint digits (base acc : Z) (s : list Z) : Z :=
  match s with
  | c :: s' => if digit_value c <? base then digits base (acc * base + digit_value c) s' else acc
  | [] => acc
  end.

Fixpoint skip_space (s : list Z) : list Z :=
  match s with
  | c :: s' => if isspace c then skip_space s' else s
  | [] => []
  end.

(** The digits with the prefix that selects the base: 0x, 0 or none. *)
Definition strtol_unsigned (s : list Z) : Z :=
  match s with
  | c :: s' =>
      if c =? 48 then
        match s' with
        | x :: d :: hex =>
            if ((x =? 120) || (x =? 88)) && (digit_value d <? 16) then digits 16 0 (d :: hex)
            else digits 8 0 s
        | _ => digits 8 0 s
        end
      else digits 10 0 s
  | [] => 0
  end.

Definition saturate (bits v : Z) : Z := Z.max (- 2 ^ (bits - 1)) (Z.min (2 ^ (bits - 1) - 1) v).

(** strtol(s, NULL, 0). *)
Definition strtol (long_bits : Z) (s : list Z) : Z :=
  match skip_space s with
  | [] => 0
  | c :: s' =>
      if c =? 45 then saturate long_bits (- strtol_unsigned s')
      else if c =? 43 then saturate long_bits (strtol_unsigned s')
      else saturate long_bits (strtol_unsigned (c :: s'))
  end.

(** * Properties *)

Lemma find_char_app f a c r :
  Forall (fun x => f x = false) a -> f c = true -> find_char f (a ++ c :: r) = Some (zlen a).
Proof.
  intros Ha Hc. induction Ha as [|x a Hx Ha IH]; cbn [app find_char].
  - by rewrite Hc.
  - rewrite Hx, IH, zlen_cons. done.
Qed.

Lemma find_char_none f a : Forall (fun x => f x = false) a -> find_char f a = None.
Proof. induction 1 as [|x a Hx Ha IH]; cbn; [done|]. by rewrite Hx, IH. Qed.

Lemma strn_eq_refl n a : strn_eq n a a = true.
Proof.
  revert a. induction n as [|n IH]; intros [|x a]; cbn; try done. by rewrite Z.eqb_refl, IH.
Qed.

(** Comparing strings up to [n] characters compares their beginnings. *)
Lemma strn_eq_spec n a b : strn_eq n a b = true <-> take n a = take n b.
Proof.
  revert a b. induction n as [|n IH]; intros a b; cbn [strn_eq]; [done|].
  destruct a as [|x a], b as [|y b]; cbn [take]; try done.
  rewrite andb_true_iff, Z.eqb_eq, IH. split; [intros [-> ->]|intros [= -> ->]]; done.
Qed.

Lemma saturate_small bits v : - 2 ^ (bits - 1) <= v < 2 ^ (bits - 1) -> saturate bits v = v.
Proof. unfold saturate. lia. Qed.
