(* ===== verification/MangoTypes.v ===== *)
(** mango HTTP client: data types (mangoTypes.h, mangoConfig.h,
    mangoInternal.h) and the world the client runs in.

    Enumerations are inductive types with the source's constructors; function
    pointers of the client ([curState], [inputDataProcessor], ...) are
    inductive types naming the functions they may point to; the HTTP status
    codes MANGO_ERR_HTTP_xxx of [mangoErr_t] are [MANGO_ERR_HTTP xxx].

    The operating system, the TLS library and the application callback are the
    parameters of an [environment]: each answers as a function of the history
    of the run, which is the [trace] of the world. *)

From S2P Require Import Prelude.
From S2P Require Import CMonad.
From S2P Require Import CString.

(** * Enumerations *)

Inductive mangoWsFrameType_t : Type :=
| MANGO_WS_FRAME_TYPE_CONT
| MANGO_WS_FRAME_TYPE_TEXT
| MANGO_WS_FRAME_TYPE_BINARY
| MANGO_WS_FRAME_TYPE_CLOSE
| MANGO_WS_FRAME_TYPE_PING
| MANGO_WS_FRAME_TYPE_PONG.

(** The values the enumerators are given. *)
Definition ws_frame_type_code (t : mangoWsFrameType_t) : Z :=
  match t with
  | MANGO_WS_FRAME_TYPE_CONT => 0
  | MANGO_WS_FRAME_TYPE_TEXT => 1
  | MANGO_WS_FRAME_TYPE_BINARY => 2
  | MANGO_WS_FRAME_TYPE_CLOSE => 8
  | MANGO_WS_FRAME_TYPE_PING => 9
  | MANGO_WS_FRAME_TYPE_PONG => 10
  end.

Inductive mangoErr_t : Type :=
| MANGO_OK
| MANGO_ERR
| MANGO_ERR_CONNECTION
| MANGO_ERR_ABORTED
| MANGO_ERR_APICALLNOTSUPPORTED
| MANGO_ERR_INVALIDREQHEADERS
| MANGO_ERR_RESPTIMEOUT
| MANGO_ERR_RESPFORMAT
| MANGO_ERR_DATAPROCESSING
| MANGO_ERR_WORKBUFSMALL
| MANGO_ERR_CONTENTLENGTH
| MANGO_ERR_WRITETIMEOUT
| MANGO_ERR_TEMPBUFSMALL
| MANGO_ERR_APPABORTED
| MANGO_ERR_MOREDATANEEDED
| MANGO_ERR_WEBSOCKETCLOSED
| MANGO_ERR_HTTP (status : Z).

Inductive mangoArgType_e : Type :=
| MANGO_ARG_TYPE_HTTP_REQUEST_READY
| MANGO_ARG_TYPE_HTTP_RESP_RECEIVED
| MANGO_ARG_TYPE_HTTP_DATA_RECEIVED
| MANGO_ARG_TYPE_WEBSOCKET_DATA_RECEIVED
| MANGO_ARG_TYPE_WEBSOCKET_CLOSE
| MANGO_ARG_TYPE_WEBSOCKET_PING.

Inductive mangoHttpMethod_e : Type :=
| MANGO_HTTP_METHOD_HEAD
| MANGO_HTTP_METHOD_GET
| MANGO_HTTP_METHOD_POST
| MANGO_HTTP_METHOD_POST_CHUNKED
| MANGO_HTTP_METHOD_PUT.

Inductive mangoHttpAuth_t : Type :=
| MANGO_HTTP_AUTH__BASIC.

Inductive mangoEvent_e : Type :=
| EVENT_NONE
| EVENT_ENTRY
| EVENT_PROCESS
| EVENT_READ
| EVENT_WRITE
| EVENT_TIMEOUT
| EVENT_APICALL_httpRequestProcess
| EVENT_APICALL_httpDataSend
| EVENT_APICALL_wsPoll
| EVENT_APICALL_wsFrameSend
| EVENT_APICALL_wsClose.

(** The state functions [curState] and [nxtState] point to. *)
Inductive mangoState : Type :=
| mangoSM__ABORTED
| mangoSM__DISCONNECTED
| mangoSM__HTTP_CONNECTED
| mangoSM__HTTP_SENDING_HEADERS
| mangoSM__HTTP_RECVING_HEADERS
| mangoSM__HTTP_RECVING_DATA
| mangoSM__HTTP_SENDING_DATA
| mangoSM__HTTP_SENDING_PACKET
| mangoSM__WS_CONNECTED
| mangoSM__WS_POLLING
| mangoSM__WS_SENDING_FRAME
| mangoSM__WS_CLOSING.

(** The input and output data processors. *)
Inductive mangoIDP : Type := mangoIDP_RAW | mangoIDP_CHUNKED | mangoIDP_WEBSOCKET.
Inductive mangoODP : Type := mangoODP_RAW | mangoODP_CHUNKED.

#[export] Instance mangoErr_t_eq_dec : EqDecision mangoErr_t.
Proof. solve_decision. Defined.
#[export] Instance mangoHttpMethod_e_eq_dec : EqDecision mangoHttpMethod_e.
Proof. solve_decision. Defined.
#[export] Instance mangoWsFrameType_t_eq_dec : EqDecision mangoWsFrameType_t.
Proof. solve_decision. Defined.
#[export] Instance mangoState_eq_dec : EqDecision mangoState.
Proof. solve_decision. Defined.

Definition is_ok (err : mangoErr_t) : bool := bool_decide (err = MANGO_OK).

(** * Structures *)

(** The callback's argument.  [arg_data] holds the [buflen] bytes at [buf];
    a field the caller leaves unassigned is [None]. *)
Record mangoArg_t : Type := mkArg {
  argType : mangoArgType_e;
  arg_data : list Z;
  arg_statusCode : option Z;
  arg_frameID : option Z
}.

Record mangoStats_t : Type := mkStats { txBytes : Z; rxBytes : Z; stats_time : Z }.

Record mangoIDPArgsRaw_t : Type := mkIDPRaw {
  idp_fileSz : Z; idp_fileSzProcessed : Z }.
Record mangoIDPArgsChunked_t : Type := mkIDPChunked {
  chunk_state : Z; chunkSz : Z; chunkSzProcessed : Z }.
Record mangoIDPArgsWebsocket_t : Type := mkIDPWebsocket {
  ws_state : Z; ws_header0 : Z; ws_header1 : Z;
  frameSz : Z; frameSzProcessed : Z; frameID : Z }.
Record mangoODPArgsRaw_t : Type := mkODPRaw {
  odp_fileSz : Z; odp_fileSzProcessed : Z }.
(** [odp_workingBuffer] is the index into the client's working buffer the
    pointer stands for, [None] for NULL. *)
Record mangoODPArgsChunked_t : Type := mkODPChunked {
  odp_workingBuffer : option Z; odp_workingBufferSz : Z }.

(** What [smAPICallArgs] points to. *)
Inductive mangoAPICallArgs : Type :=
| APICallArgs_NULL
| mangoHTTPDataSendArgs (buf : list Z) (buflen : Z)
| mangoWSPollArgs (timeout : Z)
| mangoWSFrameSendArgs (buf : list Z) (buflen : Z) (type : mangoWsFrameType_t).

(** The member of the client [dataProcessorArgs] points to. *)
Inductive mangoDPArgs : Type :=
| DPArgs_NULL
| DPArgs_IDPRaw
| DPArgs_IDPChunked
| DPArgs_IDPWebsocket
| DPArgs_ODPRaw
| DPArgs_ODPChunked.

(** The client.  [userFunc] says whether the callback pointer is non-NULL; the
    TLS handles and [userArgs] belong to the environment. *)
Record mangoHttpClient_t : Type := mkClient {
  socketfd : Z;
  secure : Z;
  httpMethod : mangoHttpMethod_e;
  httpResponseStatusCode : Z;
  workingBuffer : list Z;
  workingBufferIndexLeft : Z;
  workingBufferIndexRight : Z;
  smExitError : mangoErr_t;
  smTimeout : Z;
  smEventTimeout : Z;
  smAPICallArgs : mangoAPICallArgs;
  smEntryTimestamp : Z;
  subscribedEvent : mangoEvent_e;
  curState : mangoState;
  nxtState : mangoState;
  userFunc : bool;
  dataProcessorArgs : mangoDPArgs;
  dataProcessorCompleted : bool;
  inputDataProcessor : option mangoIDP;
  outputDataProcessor : option mangoODP;
  IDPArgsRaw : mangoIDPArgsRaw_t;
  IDPArgsChunked : mangoIDPArgsChunked_t;
  IDPArgsWebsocket : mangoIDPArgsWebsocket_t;
  ODPArgsRaw : mangoODPArgsRaw_t;
  ODPArgsChunked : mangoODPArgsChunked_t;
  stats : mangoStats_t
}.

(** Assignments to one field. *)

Definition set_socketfd (v : Z) (hc : mangoHttpClient_t) : mangoHttpClient_t :=
  mkClient v (secure hc) (httpMethod hc) (httpResponseStatusCode hc) (workingBuffer hc)
    (workingBufferIndexLeft hc) (workingBufferIndexRight hc) (smExitError hc) (smTimeout hc)
    (smEventTimeout hc) (smAPICallArgs hc) (smEntryTimestamp hc) (subscribedEvent hc)
    (curState hc) (nxtState hc) (userFunc hc) (dataProcessorArgs hc) (dataProcessorCompleted
    hc) (inputDataProcessor hc) (outputDataProcessor hc) (IDPArgsRaw hc) (IDPArgsChunked hc)
    (IDPArgsWebsocket hc) (ODPArgsRaw hc) (ODPArgsChunked hc) (stats hc).
Definition set_secure (v : Z) (hc : mangoHttpClient_t) : mangoHttpClient_t :=
  mkClient (socketfd hc) v (httpMethod hc) (httpResponseStatusCode hc) (workingBuffer hc)
    (workingBufferIndexLeft hc) (workingBufferIndexRight hc) (smExitError hc) (smTimeout hc)
    (smEventTimeout hc) (smAPICallArgs hc) (smEntryTimestamp hc) (subscribedEvent hc)
    (curState hc) (nxtState hc) (userFunc hc) (dataProcessorArgs hc) (dataProcessorCompleted
    hc) (inputDataProcessor hc) (outputDataProcessor hc) (IDPArgsRaw hc) (IDPArgsChunked hc)
    (IDPArgsWebsocket hc) (ODPArgsRaw hc) (ODPArgsChunked hc) (stats hc).
Definition set_httpMethod (v : mangoHttpMethod_e) (hc : mangoHttpClient_t) : mangoHttpClient_t :=
  mkClient (socketfd hc) (secure hc) v (httpResponseStatusCode hc) (workingBuffer hc)
    (workingBufferIndexLeft hc) (workingBufferIndexRight hc) (smExitError hc) (smTimeout hc)
    (smEventTimeout hc) (smAPICallArgs hc) (smEntryTimestamp hc) (subscribedEvent hc)
    (curState hc) (nxtState hc) (userFunc hc) (dataProcessorArgs hc) (dataProcessorCompleted
    hc) (inputDataProcessor hc) (outputDataProcessor hc) (IDPArgsRaw hc) (IDPArgsChunked hc)
    (IDPArgsWebsocket hc) (ODPArgsRaw hc) (ODPArgsChunked hc) (stats hc).
Definition set_httpResponseStatusCode (v : Z) (hc : mangoHttpClient_t) : mangoHttpClient_t :=
  mkClient (socketfd hc) (secure hc) (httpMethod hc) v (workingBuffer hc)
    (workingBufferIndexLeft hc) (workingBufferIndexRight hc) (smExitError hc) (smTimeout hc)
    (smEventTimeout hc) (smAPICallArgs hc) (smEntryTimestamp hc) (subscribedEvent hc)
    (curState hc) (nxtState hc) (userFunc hc) (dataProcessorArgs hc) (dataProcessorCompleted
    hc) (inputDataProcessor hc) (outputDataProcessor hc) (IDPArgsRaw hc) (IDPArgsChunked hc)
    (IDPArgsWebsocket hc) (ODPArgsRaw hc) (ODPArgsChunked hc) (stats hc).
Definition set_workingBuffer (v : list Z) (hc : mangoHttpClient_t) : mangoHttpClient_t :=
  mkClient (socketfd hc) (secure hc) (httpMethod hc) (httpResponseStatusCode hc) v
    (workingBufferIndexLeft hc) (workingBufferIndexRight hc) (smExitError hc) (smTimeout hc)
    (smEventTimeout hc) (smAPICallArgs hc) (smEntryTimestamp hc) (subscribedEvent hc)
    (curState hc) (nxtState hc) (userFunc hc) (dataProcessorArgs hc) (dataProcessorCompleted
    hc) (inputDataProcessor hc) (outputDataProcessor hc) (IDPArgsRaw hc) (IDPArgsChunked hc)
    (IDPArgsWebsocket hc) (ODPArgsRaw hc) (ODPArgsChunked hc) (stats hc).
Definition set_workingBufferIndexLeft (v : Z) (hc : mangoHttpClient_t) : mangoHttpClient_t :=
  mkClient (socketfd hc) (secure hc) (httpMethod hc) (httpResponseStatusCode hc)
    (workingBuffer hc) v (workingBufferIndexRight hc) (smExitError hc) (smTimeout hc)
    (smEventTimeout hc) (smAPICallArgs hc) (smEntryTimestamp hc) (subscribedEvent hc)
    (curState hc) (nxtState hc) (userFunc hc) (dataProcessorArgs hc) (dataProcessorCompleted
    hc) (inputDataProcessor hc) (outputDataProcessor hc) (IDPArgsRaw hc) (IDPArgsChunked hc)
    (IDPArgsWebsocket hc) (ODPArgsRaw hc) (ODPArgsChunked hc) (stats hc).
Definition set_workingBufferIndexRight (v : Z) (hc : mangoHttpClient_t) : mangoHttpClient_t :=
  mkClient (socketfd hc) (secure hc) (httpMethod hc) (httpResponseStatusCode hc)
    (workingBuffer hc) (workingBufferIndexLeft hc) v (smExitError hc) (smTimeout hc)
    (smEventTimeout hc) (smAPICallArgs hc) (smEntryTimestamp hc) (subscribedEvent hc)
    (curState hc) (nxtState hc) (userFunc hc) (dataProcessorArgs hc) (dataProcessorCompleted
    hc) (inputDataProcessor hc) (outputDataProcessor hc) (IDPArgsRaw hc) (IDPArgsChunked hc)
    (IDPArgsWebsocket hc) (ODPArgsRaw hc) (ODPArgsChunked hc) (stats hc).
Definition set_smExitError (v : mangoErr_t) (hc : mangoHttpClient_t) : mangoHttpClient_t :=
  mkClient (socketfd hc) (secure hc) (httpMethod hc) (httpResponseStatusCode hc)
    (workingBuffer hc) (workingBufferIndexLeft hc) (workingBufferIndexRight hc) v (smTimeout
    hc) (smEventTimeout hc) (smAPICallArgs hc) (smEntryTimestamp hc) (subscribedEvent hc)
    (curState hc) (nxtState hc) (userFunc hc) (dataProcessorArgs hc) (dataProcessorCompleted
    hc) (inputDataProcessor hc) (outputDataProcessor hc) (IDPArgsRaw hc) (IDPArgsChunked hc)
    (IDPArgsWebsocket hc) (ODPArgsRaw hc) (ODPArgsChunked hc) (stats hc).
Definition set_smTimeout (v : Z) (hc : mangoHttpClient_t) : mangoHttpClient_t :=
  mkClient (socketfd hc) (secure hc) (httpMethod hc) (httpResponseStatusCode hc)
    (workingBuffer hc) (workingBufferIndexLeft hc) (workingBufferIndexRight hc) (smExitError
    hc) v (smEventTimeout hc) (smAPICallArgs hc) (smEntryTimestamp hc) (subscribedEvent hc)
    (curState hc) (nxtState hc) (userFunc hc) (dataProcessorArgs hc) (dataProcessorCompleted
    hc) (inputDataProcessor hc) (outputDataProcessor hc) (IDPArgsRaw hc) (IDPArgsChunked hc)
    (IDPArgsWebsocket hc) (ODPArgsRaw hc) (ODPArgsChunked hc) (stats hc).
Definition set_smEventTimeout (v : Z) (hc : mangoHttpClient_t) : mangoHttpClient_t :=
  mkClient (socketfd hc) (secure hc) (httpMethod hc) (httpResponseStatusCode hc)
    (workingBuffer hc) (workingBufferIndexLeft hc) (workingBufferIndexRight hc) (smExitError
    hc) (smTimeout hc) v (smAPICallArgs hc) (smEntryTimestamp hc) (subscribedEvent hc)
    (curState hc) (nxtState hc) (userFunc hc) (dataProcessorArgs hc) (dataProcessorCompleted
    hc) (inputDataProcessor hc) (outputDataProcessor hc) (IDPArgsRaw hc) (IDPArgsChunked hc)
    (IDPArgsWebsocket hc) (ODPArgsRaw hc) (ODPArgsChunked hc) (stats hc).
Definition set_smAPICallArgs (v : mangoAPICallArgs) (hc : mangoHttpClient_t) : mangoHttpClient_t :=
  mkClient (socketfd hc) (secure hc) (httpMethod hc) (httpResponseStatusCode hc)
    (workingBuffer hc) (workingBufferIndexLeft hc) (workingBufferIndexRight hc) (smExitError
    hc) (smTimeout hc) (smEventTimeout hc) v (smEntryTimestamp hc) (subscribedEvent hc)
    (curState hc) (nxtState hc) (userFunc hc) (dataProcessorArgs hc) (dataProcessorCompleted
    hc) (inputDataProcessor hc) (outputDataProcessor hc) (IDPArgsRaw hc) (IDPArgsChunked hc)
    (IDPArgsWebsocket hc) (ODPArgsRaw hc) (ODPArgsChunked hc) (stats hc).
Definition set_smEntryTimestamp (v : Z) (hc : mangoHttpClient_t) : mangoHttpClient_t :=
  mkClient (socketfd hc) (secure hc) (httpMethod hc) (httpResponseStatusCode hc)
    (workingBuffer hc) (workingBufferIndexLeft hc) (workingBufferIndexRight hc) (smExitError
    hc) (smTimeout hc) (smEventTimeout hc) (smAPICallArgs hc) v (subscribedEvent hc)
    (curState hc) (nxtState hc) (userFunc hc) (dataProcessorArgs hc) (dataProcessorCompleted
    hc) (inputDataProcessor hc) (outputDataProcessor hc) (IDPArgsRaw hc) (IDPArgsChunked hc)
    (IDPArgsWebsocket hc) (ODPArgsRaw hc) (ODPArgsChunked hc) (stats hc).
Definition set_subscribedEvent (v : mangoEvent_e) (hc : mangoHttpClient_t) : mangoHttpClient_t :=
  mkClient (socketfd hc) (secure hc) (httpMethod hc) (httpResponseStatusCode hc)
    (workingBuffer hc) (workingBufferIndexLeft hc) (workingBufferIndexRight hc) (smExitError
    hc) (smTimeout hc) (smEventTimeout hc) (smAPICallArgs hc) (smEntryTimestamp hc) v
    (curState hc) (nxtState hc) (userFunc hc) (dataProcessorArgs hc) (dataProcessorCompleted
    hc) (inputDataProcessor hc) (outputDataProcessor hc) (IDPArgsRaw hc) (IDPArgsChunked hc)
    (IDPArgsWebsocket hc) (ODPArgsRaw hc) (ODPArgsChunked hc) (stats hc).
Definition set_curState (v : mangoState) (hc : mangoHttpClient_t) : mangoHttpClient_t :=
  mkClient (socketfd hc) (secure hc) (httpMethod hc) (httpResponseStatusCode hc)
    (workingBuffer hc) (workingBufferIndexLeft hc) (workingBufferIndexRight hc) (smExitError
    hc) (smTimeout hc) (smEventTimeout hc) (smAPICallArgs hc) (smEntryTimestamp hc)
    (subscribedEvent hc) v (nxtState hc) (userFunc hc) (dataProcessorArgs hc)
    (dataProcessorCompleted hc) (inputDataProcessor hc) (outputDataProcessor hc) (IDPArgsRaw
    hc) (IDPArgsChunked hc) (IDPArgsWebsocket hc) (ODPArgsRaw hc) (ODPArgsChunked hc) (stats
    hc).
Definition set_nxtState (v : mangoState) (hc : mangoHttpClient_t) : mangoHttpClient_t :=
  mkClient (socketfd hc) (secure hc) (httpMethod hc) (httpResponseStatusCode hc)
    (workingBuffer hc) (workingBufferIndexLeft hc) (workingBufferIndexRight hc) (smExitError
    hc) (smTimeout hc) (smEventTimeout hc) (smAPICallArgs hc) (smEntryTimestamp hc)
    (subscribedEvent hc) (curState hc) v (userFunc hc) (dataProcessorArgs hc)
    (dataProcessorCompleted hc) (inputDataProcessor hc) (outputDataProcessor hc) (IDPArgsRaw
    hc) (IDPArgsChunked hc) (IDPArgsWebsocket hc) (ODPArgsRaw hc) (ODPArgsChunked hc) (stats
    hc).
Definition set_userFunc (v : bool) (hc : mangoHttpClient_t) : mangoHttpClient_t :=
  mkClient (socketfd hc) (secure hc) (httpMethod hc) (httpResponseStatusCode hc)
    (workingBuffer hc) (workingBufferIndexLeft hc) (workingBufferIndexRight hc) (smExitError
    hc) (smTimeout hc) (smEventTimeout hc) (smAPICallArgs hc) (smEntryTimestamp hc)
    (subscribedEvent hc) (curState hc) (nxtState hc) v (dataProcessorArgs hc)
    (dataProcessorCompleted hc) (inputDataProcessor hc) (outputDataProcessor hc) (IDPArgsRaw
    hc) (IDPArgsChunked hc) (IDPArgsWebsocket hc) (ODPArgsRaw hc) (ODPArgsChunked hc) (stats
    hc).
Definition set_dataProcessorArgs (v : mangoDPArgs) (hc : mangoHttpClient_t) : mangoHttpClient_t :=
  mkClient (socketfd hc) (secure hc) (httpMethod hc) (httpResponseStatusCode hc)
    (workingBuffer hc) (workingBufferIndexLeft hc) (workingBufferIndexRight hc) (smExitError
    hc) (smTimeout hc) (smEventTimeout hc) (smAPICallArgs hc) (smEntryTimestamp hc)
    (subscribedEvent hc) (curState hc) (nxtState hc) (userFunc hc) v (dataProcessorCompleted
    hc) (inputDataProcessor hc) (outputDataProcessor hc) (IDPArgsRaw hc) (IDPArgsChunked hc)
    (IDPArgsWebsocket hc) (ODPArgsRaw hc) (ODPArgsChunked hc) (stats hc).
Definition set_dataProcessorCompleted (v : bool) (hc : mangoHttpClient_t) : mangoHttpClient_t :=
  mkClient (socketfd hc) (secure hc) (httpMethod hc) (httpResponseStatusCode hc)
    (workingBuffer hc) (workingBufferIndexLeft hc) (workingBufferIndexRight hc) (smExitError
    hc) (smTimeout hc) (smEventTimeout hc) (smAPICallArgs hc) (smEntryTimestamp hc)
    (subscribedEvent hc) (curState hc) (nxtState hc) (userFunc hc) (dataProcessorArgs hc) v
    (inputDataProcessor hc) (outputDataProcessor hc) (IDPArgsRaw hc) (IDPArgsChunked hc)
    (IDPArgsWebsocket hc) (ODPArgsRaw hc) (ODPArgsChunked hc) (stats hc).
Definition set_inputDataProcessor (v : option mangoIDP) (hc : mangoHttpClient_t) : mangoHttpClient_t :=
  mkClient (socketfd hc) (secure hc) (httpMethod hc) (httpResponseStatusCode hc)
    (workingBuffer hc) (workingBufferIndexLeft hc) (workingBufferIndexRight hc) (smExitError
    hc) (smTimeout hc) (smEventTimeout hc) (smAPICallArgs hc) (smEntryTimestamp hc)
    (subscribedEvent hc) (curState hc) (nxtState hc) (userFunc hc) (dataProcessorArgs hc)
    (dataProcessorCompleted hc) v (outputDataProcessor hc) (IDPArgsRaw hc) (IDPArgsChunked
    hc) (IDPArgsWebsocket hc) (ODPArgsRaw hc) (ODPArgsChunked hc) (stats hc).
Definition set_outputDataProcessor (v : option mangoODP) (hc : mangoHttpClient_t) : mangoHttpClient_t :=
  mkClient (socketfd hc) (secure hc) (httpMethod hc) (httpResponseStatusCode hc)
    (workingBuffer hc) (workingBufferIndexLeft hc) (workingBufferIndexRight hc) (smExitError
    hc) (smTimeout hc) (smEventTimeout hc) (smAPICallArgs hc) (smEntryTimestamp hc)
    (subscribedEvent hc) (curState hc) (nxtState hc) (userFunc hc) (dataProcessorArgs hc)
    (dataProcessorCompleted hc) (inputDataProcessor hc) v (IDPArgsRaw hc) (IDPArgsChunked
    hc) (IDPArgsWebsocket hc) (ODPArgsRaw hc) (ODPArgsChunked hc) (stats hc).
Definition set_IDPArgsRaw (v : mangoIDPArgsRaw_t) (hc : mangoHttpClient_t) : mangoHttpClient_t :=
  mkClient (socketfd hc) (secure hc) (httpMethod hc) (httpResponseStatusCode hc)
    (workingBuffer hc) (workingBufferIndexLeft hc) (workingBufferIndexRight hc) (smExitError
    hc) (smTimeout hc) (smEventTimeout hc) (smAPICallArgs hc) (smEntryTimestamp hc)
    (subscribedEvent hc) (curState hc) (nxtState hc) (userFunc hc) (dataProcessorArgs hc)
    (dataProcessorCompleted hc) (inputDataProcessor hc) (outputDataProcessor hc) v
    (IDPArgsChunked hc) (IDPArgsWebsocket hc) (ODPArgsRaw hc) (ODPArgsChunked hc) (stats hc).
Definition set_IDPArgsChunked (v : mangoIDPArgsChunked_t) (hc : mangoHttpClient_t) : mangoHttpClient_t :=
  mkClient (socketfd hc) (secure hc) (httpMethod hc) (httpResponseStatusCode hc)
    (workingBuffer hc) (workingBufferIndexLeft hc) (workingBufferIndexRight hc) (smExitError
    hc) (smTimeout hc) (smEventTimeout hc) (smAPICallArgs hc) (smEntryTimestamp hc)
    (subscribedEvent hc) (curState hc) (nxtState hc) (userFunc hc) (dataProcessorArgs hc)
    (dataProcessorCompleted hc) (inputDataProcessor hc) (outputDataProcessor hc) (IDPArgsRaw
    hc) v (IDPArgsWebsocket hc) (ODPArgsRaw hc) (ODPArgsChunked hc) (stats hc).
Definition set_IDPArgsWebsocket (v : mangoIDPArgsWebsocket_t) (hc : mangoHttpClient_t) : mangoHttpClient_t :=
  mkClient (socketfd hc) (secure hc) (httpMethod hc) (httpResponseStatusCode hc)
    (workingBuffer hc) (workingBufferIndexLeft hc) (workingBufferIndexRight hc) (smExitError
    hc) (smTimeout hc) (smEventTimeout hc) (smAPICallArgs hc) (smEntryTimestamp hc)
    (subscribedEvent hc) (curState hc) (nxtState hc) (userFunc hc) (dataProcessorArgs hc)
    (dataProcessorCompleted hc) (inputDataProcessor hc) (outputDataProcessor hc) (IDPArgsRaw
    hc) (IDPArgsChunked hc) v (ODPArgsRaw hc) (ODPArgsChunked hc) (stats hc).
Definition set_ODPArgsRaw (v : mangoODPArgsRaw_t) (hc : mangoHttpClient_t) : mangoHttpClient_t :=
  mkClient (socketfd hc) (secure hc) (httpMethod hc) (httpResponseStatusCode hc)
    (workingBuffer hc) (workingBufferIndexLeft hc) (workingBufferIndexRight hc) (smExitError
    hc) (smTimeout hc) (smEventTimeout hc) (smAPICallArgs hc) (smEntryTimestamp hc)
    (subscribedEvent hc) (curState hc) (nxtState hc) (userFunc hc) (dataProcessorArgs hc)
    (dataProcessorCompleted hc) (inputDataProcessor hc) (outputDataProcessor hc) (IDPArgsRaw
    hc) (IDPArgsChunked hc) (IDPArgsWebsocket hc) v (ODPArgsChunked hc) (stats hc).
Definition set_ODPArgsChunked (v : mangoODPArgsChunked_t) (hc : mangoHttpClient_t) : mangoHttpClient_t :=
  mkClient (socketfd hc) (secure hc) (httpMethod hc) (httpResponseStatusCode hc)
    (workingBuffer hc) (workingBufferIndexLeft hc) (workingBufferIndexRight hc) (smExitError
    hc) (smTimeout hc) (smEventTimeout hc) (smAPICallArgs hc) (smEntryTimestamp hc)
    (subscribedEvent hc) (curState hc) (nxtState hc) (userFunc hc) (dataProcessorArgs hc)
    (dataProcessorCompleted hc) (inputDataProcessor hc) (outputDataProcessor hc) (IDPArgsRaw
    hc) (IDPArgsChunked hc) (IDPArgsWebsocket hc) (ODPArgsRaw hc) v (stats hc).
Definition set_stats (v : mangoStats_t) (hc : mangoHttpClient_t) : mangoHttpClient_t :=
  mkClient (socketfd hc) (secure hc) (httpMethod hc) (httpResponseStatusCode hc)
    (workingBuffer hc) (workingBufferIndexLeft hc) (workingBufferIndexRight hc) (smExitError
    hc) (smTimeout hc) (smEventTimeout hc) (smAPICallArgs hc) (smEntryTimestamp hc)
    (subscribedEvent hc) (curState hc) (nxtState hc) (userFunc hc) (dataProcessorArgs hc)
    (dataProcessorCompleted hc) (inputDataProcessor hc) (outputDataProcessor hc) (IDPArgsRaw
    hc) (IDPArgsChunked hc) (IDPArgsWebsocket hc) (ODPArgsRaw hc) (ODPArgsChunked hc) v.

(** Assignments to members of the structures of the client. *)

Definition set_chunk_state (v : Z) (a : mangoIDPArgsChunked_t) : mangoIDPArgsChunked_t :=
  mkIDPChunked v (chunkSz a) (chunkSzProcessed a).
Definition set_chunkSz (v : Z) (a : mangoIDPArgsChunked_t) : mangoIDPArgsChunked_t :=
  mkIDPChunked (chunk_state a) v (chunkSzProcessed a).
Definition set_chunkSzProcessed (v : Z) (a : mangoIDPArgsChunked_t) : mangoIDPArgsChunked_t :=
  mkIDPChunked (chunk_state a) (chunkSz a) v.
Definition set_ws_state (v : Z) (a : mangoIDPArgsWebsocket_t) : mangoIDPArgsWebsocket_t :=
  mkIDPWebsocket v (ws_header0 a) (ws_header1 a) (frameSz a) (frameSzProcessed a) (frameID a).
Definition set_ws_header (h0 h1 : Z) (a : mangoIDPArgsWebsocket_t) : mangoIDPArgsWebsocket_t :=
  mkIDPWebsocket (ws_state a) h0 h1 (frameSz a) (frameSzProcessed a) (frameID a).
Definition set_frameSz (v : Z) (a : mangoIDPArgsWebsocket_t) : mangoIDPArgsWebsocket_t :=
  mkIDPWebsocket (ws_state a) (ws_header0 a) (ws_header1 a) v (frameSzProcessed a) (frameID a).
Definition set_frameSzProcessed (v : Z) (a : mangoIDPArgsWebsocket_t) : mangoIDPArgsWebsocket_t :=
  mkIDPWebsocket (ws_state a) (ws_header0 a) (ws_header1 a) (frameSz a) v (frameID a).
Definition set_frameID (v : Z) (a : mangoIDPArgsWebsocket_t) : mangoIDPArgsWebsocket_t :=
  mkIDPWebsocket (ws_state a) (ws_header0 a) (ws_header1 a) (frameSz a) (frameSzProcessed a) v.
Definition set_txBytes (v : Z) (a : mangoStats_t) : mangoStats_t :=
  mkStats v (rxBytes a) (stats_time a).
Definition set_rxBytes (v : Z) (a : mangoStats_t) : mangoStats_t :=
  mkStats (txBytes a) v (stats_time a).
Definition set_stats_time (v : Z) (a : mangoStats_t) : mangoStats_t :=
  mkStats (txBytes a) (rxBytes a) v.

(** * Configuration and working buffer *)

Definition MANGO_WORKING_BUFFER_SZ : Z := 4096.
Definition MANGO_HTTP_RESPONSE_TIMEOUT_MS : Z := 10000.
Definition MANGO_SOCKET_CONNECT_TIMEOUT_MS : Z := 5000.
Definition MANGO_SOCKET_WRITE_TIMEOUT_MS : Z := 10000.
(** (uint32_t) (-1). *)
Definition MANGO_TIMEOUT_INFINITE : Z := u32 (-1).
Definition MANGO_FILE_SZ_INFINITE : Z := u32 (-1).

Definition MANGO_WB_TOT_SZ : Z := MANGO_WORKING_BUFFER_SZ - 1.
Definition MANGO_WB_USED_SZ (hc : mangoHttpClient_t) : Z :=
  workingBufferIndexRight hc - workingBufferIndexLeft hc.
Definition MANGO_WB_FREE_SZ (hc : mangoHttpClient_t) : Z :=
  MANGO_WORKING_BUFFER_SZ - workingBufferIndexRight hc - 1.

(** Header names (mango.h). *)
Definition MANGO_HDR__CONTENT_LENGTH : list Z := bytes "Content-Length".
Definition MANGO_HDR__TRANSFER_ENCODING : list Z := bytes "Transfer-Encoding".
Definition MANGO_HDR__EXPECT : list Z := bytes "Expect".
Definition MANGO_HDR__AUTHORIZATION : list Z := bytes "Authorization".

(** * The environment and the world *)

(** The two ways the bytes travel: recv/send, or SSL_read/SSL_write. *)
Inductive transport : Type := PLAIN | TLS.

(** What a run does with the outside, newest event first in a trace. *)
Inductive sysEvent : Type :=
| SysTime (sec usec : Z)
| SysSelect (write watched : bool) (usec : Z) (r : Z) (isset : bool) (usec_left : Z)
| SysRecv (t : transport) (len : Z) (r : Z) (data : list Z)
| SysSend (t : transport) (data : list Z) (r : Z)
| SysMalloc (size : Z) (ok : bool)
| AppCall (arg : mangoArg_t) (err : mangoErr_t).

Record environment : Type := mkEnvironment {
  gettimeofday : list sysEvent -> Z * Z;
  (** select on one descriptor: its presence in the set passed, tv_usec;
      the return value, its presence in the set left and the tv_usec left. *)
  sys_select : list sysEvent -> bool -> bool -> Z -> Z * bool * Z;
  sys_recv : list sysEvent -> transport -> Z -> Z * list Z;
  sys_send : list sysEvent -> transport -> list Z -> Z;
  sys_malloc : list sysEvent -> Z -> bool;
  application : list sysEvent -> mangoArg_t -> mangoErr_t
}.

Definition is_byte (c : Z) : Prop := 0 <= c < 256.

(** The documented behaviour of the system calls the client relies on. *)
Class environment_ok (E : environment) : Prop := {
  recv_ok tr t len : 0 <= len ->
    let '(r, d) := sys_recv E tr t len in
    -1 <= r <= len /\ zlen d = Z.max 0 r /\ Forall is_byte d;
  send_ok tr t d : -1 <= sys_send E tr t d <= zlen d;
  (** A timed out select clears the set; it reports only what it was given. *)
  select_ok tr w watched usec :
    let '(r, isset, _) := sys_select E tr w watched usec in
    -1 <= r <= 1 /\ (r = 0 -> isset = false) /\ (0 < r -> watched = true /\ isset = true) /\
    (r < 0 -> isset = watched)
}.

Record world : Type := mkWorld {
  client : mangoHttpClient_t;
  trace : list sysEvent
}.

Definition upd_client (f : mangoHttpClient_t -> mangoHttpClient_t) (w : world) : world :=
  mkWorld (f (client w)) (trace w).
Definition log_event (e : sysEvent) (w : world) : world :=
  mkWorld (client w) (e :: trace w).

(** Reading a member of the client, and assigning one. *)
Definition hc {A} (f : mangoHttpClient_t -> A) : M world A := gets (fun w => f (client w)).
Definition assign (f : mangoHttpClient_t -> mangoHttpClient_t) : M world unit :=
  modify (upd_client f).

Lemma wpg_hc (Fl : failure -> Prop) {A} (f : mangoHttpClient_t -> A) Q w :
  Q (f (client w)) w -> wpg Fl (hc f) Q w.
Proof. done. Qed.
Lemma wpg_assign (Fl : failure -> Prop) f Q w :
  Q tt (upd_client f w) -> wpg Fl (assign f) Q w.
Proof. done. Qed.

(** Symbolic execution with the accesses to the client. *)
Ltac mg_step :=
  cbn beta iota;
  lazymatch goal with
  | |- wpg _ (hc _) _ _ => apply wpg_hc
  | |- wpg _ (assign _) _ _ => apply wpg_assign
  | |- _ => wp_step
  end.
Ltac mg_steps := repeat mg_step.

(** Calls to the outside: ask the environment, record the answer. *)
Section Calls.
Context (E : environment).

Definition do_gettimeofday : M world (Z * Z) := fun w =>
  let '(s, u) := gettimeofday E (trace w) in
  Ok ((s, u), log_event (SysTime s u) w).
Definition do_select (write watched : bool) (usec : Z) : M world (Z * bool * Z) := fun w =>
  let '(r, b, rest) := sys_select E (trace w) write watched usec in
  Ok ((r, b, rest), log_event (SysSelect write watched usec r b rest) w).
Definition do_recv (t : transport) (len : Z) : M world (Z * list Z) := fun w =>
  let '(r, d) := sys_recv E (trace w) t len in
  Ok ((r, d), log_event (SysRecv t len r d) w).
Definition do_send (t : transport) (d : list Z) : M world Z := fun w =>
  let r := sys_send E (trace w) t d in
  Ok (r, log_event (SysSend t d r) w).
Definition do_malloc (size : Z) : M world bool := fun w =>
  let b := sys_malloc E (trace w) size in
  Ok (b, log_event (SysMalloc size b) w).
(** hc->userFunc(&funcArgs, hc->userArgs). *)
Definition do_userFunc (arg : mangoArg_t) : M world mangoErr_t := fun w =>
  if userFunc (client w)
  then let err := application E (trace w) arg in
       Ok (err, log_event (AppCall arg err) w)
  else Stop (Fault "userFunc").
End Calls.
