(* ===== verification/MangoHelper.v ===== *)
(** mangoHelper.c: number/string conversions, HTTP response verification and
    header lookup.

    Strings live in byte arrays; a function that writes through a pointer
    takes and returns the array.  The comparisons of [char]s with constants in
    [1, 127] have the same outcome for signed and unsigned [char], so bytes
    stay in [0, 256). *)

From S2P Require Import Prelude.
From S2P Require Import CMonad.
From S2P Require Import CString.

Section Definitions.
Context {S : Type}.

(** The hexadecimal digits of [dec], most significant first, in front of
    [acc]: the eight assignments hex[i--] = (dec & 0xF); dec >>= 4. *)
Fixpoint nibbles (n : nat) (dec : Z) (acc : list Z) : list Z :=
  match n with
  | O => acc
  | Datatypes.S n => nibbles n (Z.shiftr dec 4) (Z.land dec 15 :: acc)
  end.

Definition hex_char (d : Z) : Z := if d <=? 9 then 48 + d else 65 - 10 + d.

(** while(hex[i] == 0){i++;} *)
Definition hex_skip_body (hex : list Z) (i : Z) : M S (Z + Z) :=
  c <- access "mangoHelper_dec2hexstr" (zget hex i) ;;
  ret (if c =? 0 then inl (u8 (i + 1)) else inr i).

(** while(i < 8){hexbuf[k++] = ...; i++;} *)
Definition hex_write_body (hex : list Z) (p : Z) (st : list Z * Z * Z)
    : M S (list Z * Z * Z + list Z * Z) :=
  let '(m, i, k) := st in
  if i <? 8
  then c <- access "mangoHelper_dec2hexstr" (zget hex i) ;;
       m <- access "mangoHelper_dec2hexstr" (zset m (p + k) (hex_char c)) ;;
       ret (inl (m, i + 1, u8 (k + 1)))
  else ret (inr (m, k)).

(** [hexbuf] is the pointer &m[p]. *)
Definition mangoHelper_dec2hexstr (dec : Z) (m : list Z) (p : Z) : M S (list Z) :=
  let site := "mangoHelper_dec2hexstr"%string in
  m <- (if dec =? 0
        then m <- access site (zset m p 48) ;; access site (zset m (p + 1) 0)
        else ret m) ;;
  let hex := nibbles 8 dec [0] in
  i <- loop 257 (hex_skip_body hex) 0 ;;
  let* (m, k) := loop 9 (hex_write_body hex p) (m, i, 0) in
  access site (zset m (p + k) 0).

(** do{ ++p; shifter = shifter/10; }while(shifter); *)
Definition dec_count_body (st : Z * Z) : M S (Z * Z + Z) :=
  let '(q, shifter) := st in
  let q := q + 1 in
  let shifter := shifter / 10 in
  ret (if shifter =? 0 then inr q else inl (q, shifter)).

(** do{ *--p = digit[dec%10]; dec = dec/10; }while(dec); *)
Definition dec_write_body (st : list Z * Z * Z) : M S (list Z * Z * Z + list Z) :=
  let '(m, q, dec) := st in
  let q := q - 1 in
  d <- access "mangoHelper_dec2decstr" (zget (bytes "0123456789") (dec mod 10)) ;;
  m <- access "mangoHelper_dec2decstr" (zset m q d) ;;
  let dec := dec / 10 in
  ret (if dec =? 0 then inr m else inl (m, q, dec)).

(** [decbuf] is the pointer &m[p]. *)
Definition mangoHelper_dec2decstr (dec : Z) (m : list Z) (p : Z) : M S (list Z) :=
  q <- loop 11 dec_count_body (p, dec) ;;
  m <- access "mangoHelper_dec2decstr" (zset m q 0) ;;
  loop 11 dec_write_body (m, q, dec).

Definition is_hex_char (c : Z) : bool :=
  ((47 <? c) && (c <? 58)) || ((64 <? c) && (c <? 71)) || ((96 <? c) && (c <? 103)).

(** The value of a hexadecimal digit: the else-if chain of hexstr2dec. *)
Definition hex_digit (c : Z) : option Z :=
  if (47 <? c) && (c <? 58) then Some (c - 48)
  else if (64 <? c) && (c <? 71) then Some (c - 65 + 10)
  else if (96 <? c) && (c <? 103) then Some (c - 97 + 10)
  else None.

(** One round of while( *hexstr): the pointer, [*dec] and [i]. *)
Definition hexstr2dec_body (m : list Z) (st : Z * Z * Z) : M S (Z * Z * Z + Z * Z) :=
  let '(p, dec, i) := st in
  let finish := if i =? 0 then (-1, 0) else (0, dec) in
  c <- access "mangoHelper_hexstr2dec" (zget m p) ;;
  if c =? 0 then ret (inr finish)
  else
    match hex_digit c with
    | None => ret (inr finish)
    | Some d =>
        let dec := u32 (dec + d) in
        let p := p + 1 in
        c <- access "mangoHelper_hexstr2dec" (zget m p) ;;
        let dec := if is_hex_char c then u32 (Z.shiftl dec 4) else dec in
        let i := u8 (i + 1) in
        ret (if i =? 9 then inr (-1, 0) else inl (p, dec, i))
    end.

(** Returns the retval and [*dec]; [hexstr] is &m[p]. *)
Definition mangoHelper_hexstr2dec (m : list Z) (p : Z) : M S (Z * Z) :=
  c0 <- access "mangoHelper_hexstr2dec" (zget m p) ;;
  p <- (if c0 =? 48
        then c1 <- access "mangoHelper_hexstr2dec" (zget m (p + 1)) ;;
             ret (if (c1 =? 120) || (c1 =? 88) then p + 2 else p)
        else ret p) ;;
  loop 10 (hexstr2dec_body m) (p, 0, 0).

Definition is_dec_char (c : Z) : bool := (47 <? c) && (c <? 58).

(** One round of the digit loop: the pointer, [*dec] and [i]. *)
Definition decstr2dec_body (m : list Z) (st : Z * Z * Z) : M S (Z * Z * Z + Z * Z) :=
  let '(p, dec, i) := st in
  c <- access "mangoHelper_decstr2dec" (zget m p) ;;
  if is_dec_char c
  then
    let dec := u32 (dec + (c - 48)) in
    let p := p + 1 in
    c <- access "mangoHelper_decstr2dec" (zget m p) ;;
    let dec := if is_dec_char c then u32 (dec * 10) else dec in
    let i := u8 (i + 1) in
    ret (if i =? 11 then inr (-1, 0) else inl (p, dec, i))
  else ret (inr (if i =? 0 then (-1, 0) else (0, dec))).

(** Returns the retval and [*dec]; [decstr] is &m[p]. *)
Definition mangoHelper_decstr2dec (m : list Z) (p : Z) : M S (Z * Z) :=
  loop 12 (decstr2dec_body m) (p, 0, 0).

(** The loop that moves a pointer past spaces. *)
Definition skip_spaces_body (site : string) (m : list Z) (p : Z) : M S (Z + Z) :=
  c <- access site (zget m p) ;;
  ret (if c =? 32 then inl (p + 1) else inr p).

Definition skip_spaces (site : string) (m : list Z) (p : Z) : M S Z :=
  loop (Datatypes.S (length m)) (skip_spaces_body site m) p.

(** One round of the status-code loop of httpReponseVerify: the pointer,
    strBuf and strBufIndex; at the end strBuf and endCharFound, or [None]
    for "return -1". *)
Definition status_digits_body (m : list Z) (st : Z * list Z * Z)
    : M S (Z * list Z * Z + option (list Z * bool)) :=
  let '(p, strBuf, strBufIndex) := st in
  if strBufIndex <? zlen strBuf - 1
  then
    c <- access "mangoHelper_httpReponseVerify" (zget m p) ;;
    if (48 <=? c) && (c <=? 57)
    then b <- access "mangoHelper_httpReponseVerify" (zset strBuf strBufIndex c) ;;
         ret (inl (p + 1, b, strBufIndex + 1))
    else if c =? 32
    then b <- access "mangoHelper_httpReponseVerify" (zset strBuf strBufIndex 0) ;;
         ret (inr (Some (b, true)))
    else ret (inr None)
  else ret (inr (Some (strBuf, false))).

Definition status_digits (m : list Z) (p : Z) : M S (option (list Z * bool)) :=
  loop 5 (status_digits_body m) (p, [0; 0; 0; 0; 0], 0).

(** [response] is the pointer &m[0]. *)
Definition mangoHelper_httpReponseVerify (m : list Z) : M S (Z * list Z) :=
  let site := "mangoHelper_httpReponseVerify"%string in
  e <- access site (strstr m 0 [13; 10; 13; 10]) ;;
  match e with
  | None => ret (0, m)
  | Some e =>
      m <- access site (zset m (e + 2) 0) ;;
      m <- access site (zset m (e + 3) 0) ;;
      sp <- access site (strstr m 0 [32]) ;;
      match sp with
      | None => ret (-1, m)
      | Some sp =>
          p <- skip_spaces site m sp ;;
          r <- status_digits m p ;;
          match r with
          | None => ret (-1, m)
          | Some (strBuf, endCharFound) =>
              if negb endCharFound then ret (-1, m)
              else
                let* (retval, statusCode) := mangoHelper_decstr2dec strBuf 0 in
                if negb (retval =? 0) then ret (-1, m)
                else if (statusCode <? 100) || (600 <=? statusCode)
                then ret (-1, m)
                else ret (statusCode, m)
          end
      end
  end.

(** One round of the search loop of httpHeaderGet: the pointer to the header
    found, or [None] for "return -1". *)
Definition header_search_body (m : list Z) (headerName : list Z) (response : Z)
    : M S (Z + option Z) :=
  e <- access "mangoHelper_httpHeaderGet" (strstr m response [13; 10]) ;;
  match e with
  | None => ret (inr None)
  | Some e =>
      let p := e + 2 in
      s <- access "mangoHelper_httpHeaderGet" (cstr m p) ;;
      ret (if is_prefix_nocase headerName s then inr (Some p) else inl p)
  end.

Definition header_search (m : list Z) (response : Z) (headerName : list Z)
    : M S (option Z) :=
  loop (Datatypes.S (length m)) (header_search_body m headerName) response.

(** One round of the copy loop: the pointer, headerValue and index; at the
    end headerValue, index and endCharFound. *)
Definition header_copy_body (m : list Z) (headerValueLen : Z) (st : Z * list Z * Z)
    : M S (Z * list Z * Z + list Z * Z * bool) :=
  let '(p, v, index) := st in
  if index <? headerValueLen
  then
    c <- access "mangoHelper_httpHeaderGet" (zget m p) ;;
    if negb (c =? 13)
    then v <- access "mangoHelper_httpHeaderGet" (zset v index c) ;;
         ret (if index =? headerValueLen - 1 then inr (v, index, false)
              else inl (p + 1, v, index + 1))
    else v <- access "mangoHelper_httpHeaderGet" (zset v index 0) ;;
         ret (inr (v, index, true))
  else ret (inr (v, index, false)).

Definition header_copy (m : list Z) (p : Z) (headerValue : list Z) (headerValueLen : Z)
    : M S (list Z * Z * bool) :=
  loop (Datatypes.S (Z.to_nat headerValueLen)) (header_copy_body m headerValueLen)
    (p, headerValue, 0).

(** One round of the loop that clears the spaces after the value. *)
Definition header_trim_body (st : list Z * Z) : M S (list Z * Z + list Z) :=
  let '(v, p) := st in
  c <- access "mangoHelper_httpHeaderGet" (zget v p) ;;
  if c =? 32
  then v <- access "mangoHelper_httpHeaderGet" (zset v p 0) ;; ret (inl (v, p - 1))
  else ret (inr v).

Definition header_trim (headerValue : list Z) (index : Z) : M S (list Z) :=
  loop (Datatypes.S (length headerValue)) header_trim_body (headerValue, index - 1).

(** [response] is &m[response], [headerName] its characters, [headerValue]
    the caller's buffer ([] for NULL). *)
Definition mangoHelper_httpHeaderGet (m : list Z) (response : Z) (headerName : list Z)
    (headerValue : list Z) (headerValueLen : Z) : M S (Z * list Z) :=
  let site := "mangoHelper_httpHeaderGet"%string in
  r <- header_search m response headerName ;;
  match r with
  | None => ret (-1, headerValue)
  | Some p =>
      p <- skip_spaces site m (p + zlen headerName) ;;
      c <- access site (zget m p) ;;
      if negb (c =? 58) then ret (-1, headerValue)
      else
        p <- skip_spaces site m (p + 1) ;;
        let* (v, index, endCharFound) := header_copy m p headerValue headerValueLen in
        if negb endCharFound then ret (0, v)
        else if index =? 0 then ret (1, v)
        else v <- header_trim v index ;; ret (1, v)
  end.
End Definitions.
