(* ===== verification/MangoHelperFacts.v ===== *)
(** Correctness of the helper functions of mangoHelper.c: the number
    conversions are inverse to each other, and the HTTP response functions
    stay inside their strings and return what the message says. *)

From S2P Require Import Prelude.
From S2P Require Import CMonad.
From S2P Require Import CString.
From S2P Require Import MangoHelper.

(** * Positional notation *)

Definition digits_value (base v : Z) (ds : list Z) : Z :=
  fold_left (fun a d => base * a + d) ds v.

Definition digits_ok (base : Z) (ds : list Z) : Prop := Forall (fun d => 0 <= d < base) ds.

Lemma digits_value_app base v ds1 ds2 :
  digits_value base v (ds1 ++ ds2) = digits_value base (digits_value base v ds1) ds2.
Proof. apply fold_left_app. Qed.

Lemma digits_value_bound base v ds :
  1 < base -> 0 <= v -> digits_ok base ds ->
  v <= digits_value base v ds < (v + 1) * base ^ zlen ds.
Proof.
  intros Hb. revert v. induction ds as [|d ds IH]; intros v Hv Hds.
  - rewrite zlen_nil. unfold digits_value. cbn [fold_left]. lia.
  - apply Forall_cons in Hds as [Hd Hds].
    specialize (IH (base * v + d) ltac:(nia) Hds).
    change (digits_value base v (d :: ds)) with (digits_value base (base * v + d) ds).
    rewrite zlen_cons, Z.pow_add_r, Z.pow_1_r by (pose proof (zlen_nonneg ds); lia).
    assert (0 < base ^ zlen ds) by (apply Z.pow_pos_nonneg; [lia | apply zlen_nonneg]).
    nia.
Qed.

(** * Reading digits

    Both parsers run the same loop: add the digit; multiply when another digit
    follows. *)

Lemma hex_char_cases d :
  0 <= d < 16 ->
  (47 < hex_char d < 58 /\ d = hex_char d - 48) \/
  (64 < hex_char d < 71 /\ d = hex_char d - 65 + 10).
Proof. unfold hex_char. intros Hd. destruct (Z.leb_spec d 9); lia. Qed.

Lemma hex_char_is_hex d : 0 <= d < 16 -> is_hex_char (hex_char d) = true.
Proof.
  intros Hd. pose proof (hex_char_cases d Hd). unfold is_hex_char.
  rewrite !orb_true_iff, !andb_true_iff, !Z.ltb_lt. lia.
Qed.

Lemma hex_digit_char d : 0 <= d < 16 -> hex_digit (hex_char d) = Some d.
Proof.
  intros Hd. pose proof (hex_char_cases d Hd) as H. unfold hex_digit.
  destruct (Z.ltb_spec 47 (hex_char d)), (Z.ltb_spec (hex_char d) 58),
    (Z.ltb_spec 64 (hex_char d)), (Z.ltb_spec (hex_char d) 71); cbn [andb];
    try (f_equal; lia); lia.
Qed.

Lemma hex_digit_None c : is_hex_char c = false -> hex_digit c = None.
Proof.
  unfold is_hex_char, hex_digit.
  intros [[-> ->]%orb_false_iff ->]%orb_false_iff. done.
Qed.

Lemma hex_char_not_0 d : 0 <= d -> hex_char d <> 0.
Proof. unfold hex_char. intros. destruct (Z.leb_spec d 9); lia. Qed.

Section Reading.
Context {S : Type} (E : failure -> Prop).
Implicit Types (Q : Z * Z -> S -> Prop).

Lemma hex_digit_facts x d :
  hex_digit x = Some d -> x <> 0 /\ is_hex_char x = true /\ 0 <= d < 16.
Proof.
  unfold hex_digit, is_hex_char.
  destruct (Z.ltb_spec 47 x), (Z.ltb_spec x 58), (Z.ltb_spec 64 x), (Z.ltb_spec x 71),
    (Z.ltb_spec 96 x), (Z.ltb_spec x 103); cbn [andb orb]; intros [= <-]; lia.
Qed.

(** The characters [cs] are hexadecimal digits of values [ds]. *)
Definition hex_chars (cs ds : list Z) : Prop := Forall2 (fun c d => hex_digit c = Some d) cs ds.

Lemma hex_chars_map ds : digits_ok 16 ds -> hex_chars (map hex_char ds) ds.
Proof. induction 1; cbn; constructor; [by apply hex_digit_char | done]. Qed.

Lemma hex_chars_ok cs ds : hex_chars cs ds -> digits_ok 16 ds /\ length cs = length ds.
Proof.
  induction 1 as [|x d cs ds Hx _ [IH1 IH2]]; [by split; [constructor|]|]. split.
  - constructor; [by apply hex_digit_facts in Hx as (_ & _ & ?) | done].
  - cbn. by rewrite IH2.
Qed.

Lemma wpg_hexstr2dec_loop m c Q s :
  is_hex_char c = false -> forall cs ds, hex_chars cs ds -> forall v i p n,
  0 <= i -> i + zlen ds <= 8 -> (0 < i \/ ds <> []) ->
  0 <= v -> (v + 1) * 16 ^ zlen ds <= 4294967296 ->
  holds m p (cs ++ [c]) -> (length ds < n)%nat ->
  Q (0, digits_value 16 v ds) s ->
  wpg E (loop n (hexstr2dec_body m)
           (p, (if decide (ds = []) then v else 16 * v), i)) Q s.
Proof.
  intros Hc cs ds Hcs. induction Hcs as [|x d cs ds Hx Hcs IH];
    intros v i p n Hi Hi8 Hne Hv Hb Hm Hn HQ;
    (destruct n as [|n]; [lia|]); apply wpg_loop_S; cbn [hexstr2dec_body].
  - destruct Hm as [Hm _]. wp_step. eapply wpg_access_Some; [exact Hm|].
    rewrite (hex_digit_None c Hc). destruct (Z.eqb_spec i 0); [destruct Hne; [lia | done]|].
    by destruct (c =? 0).
  - destruct Hm as [Hm Hm'].
    apply hex_digit_facts in Hx as Hxf. destruct Hxf as (Hx0 & _ & Hd).
    rewrite zlen_cons in Hi8, Hb. pose proof (zlen_nonneg ds).
    rewrite Z.pow_add_r, Z.pow_1_r in Hb by lia.
    assert (1 <= 16 ^ zlen ds) by (apply (Z.pow_le_mono_r 16 0); lia).
    wp_step. eapply wpg_access_Some; [exact Hm|].
    destruct (Z.eqb_spec x 0) as [E0|_]; [done|].
    rewrite Hx. cbn zeta.
    rewrite decide_False by done.
    rewrite (u32_small (16 * v + d)) by (unfold is_u32; nia).
    rewrite (u8_small (i + 1)) by (unfold is_u8; lia).
    assert (wpg E (loop n (hexstr2dec_body m)
      (p + 1, if decide (ds = []) then 16 * v + d else 16 * (16 * v + d), i + 1)) Q s)
      as Hnext.
    { apply IH; try done; try lia; [nia|]. cbn [length] in Hn. lia. }
    destruct Hcs as [|x' d' cs ds Hx' Hcs].
    + destruct Hm' as [Hm' _]. wp_step. eapply wpg_access_Some; [exact Hm'|].
      rewrite Hc. wp_steps. destruct (Z.eqb_spec (i + 1) 9); [lia|].
      by rewrite decide_True in Hnext.
    + destruct Hm' as [Hm' _]. wp_step. eapply wpg_access_Some; [exact Hm'|].
      apply hex_digit_facts in Hx' as (_ & -> & Hd').
      wp_steps. rewrite zlen_cons in Hi8.
      pose proof (zlen_nonneg ds).
      destruct (Z.eqb_spec (i + 1) 9); [lia|].
      rewrite decide_False in Hnext by done.
      rewrite Z.shiftl_mul_pow2 by lia. change (2 ^ 4) with 16.
      rewrite u32_small; [by rewrite Z.mul_comm|].
      rewrite zlen_cons, Z.pow_add_r, Z.pow_1_r in Hb by lia.
      assert (1 <= 16 ^ zlen ds) by (apply (Z.pow_le_mono_r 16 0); lia).
      unfold is_u32. nia.
Qed.

(** mangoHelper_hexstr2dec reads the hexadecimal digits up to the first
    character that is not one. *)
Lemma wpg_hexstr2dec_chars m p cs ds c Q s :
  ds <> [] -> hex_chars cs ds -> zlen ds <= 8 ->
  holds m p (cs ++ [c]) -> is_hex_char c = false -> c <> 120 -> c <> 88 ->
  Q (0, digits_value 16 0 ds) s ->
  wpg E (mangoHelper_hexstr2dec m p) Q s.
Proof.
  intros Hne Hcs Hlen Hm Hc Hx HX HQ. unfold mangoHelper_hexstr2dec.
  assert (wpg E (loop 10 (hexstr2dec_body m) (p, 0, 0)) Q s) as Hloop.
  { pose proof (wpg_hexstr2dec_loop m c Q s Hc cs ds Hcs 0 0 p 10) as H.
    rewrite decide_False in H by done. apply H; try done; try lia.
    - by right.
    - pose proof (Z.pow_le_mono_r 16 (zlen ds) 8). lia.
    - unfold zlen in Hlen. lia. }
  destruct Hcs as [|x0 d0 cs ds Hx0 Hcs]; [done|].
  pose proof Hm as [Hm0 Hm1].
  wp_step. eapply wpg_access_Some; [exact Hm0|]. wp_step.
  destruct (x0 =? 48); [|by wp_steps].
  assert (exists c1 r, cs ++ [c] = c1 :: r /\ c1 <> 120 /\ c1 <> 88)
    as (c1 & r & Er & Hn1 & Hn2).
  { destruct Hcs as [|x1 d1 cs ds Hx1 Hcs]; [by exists c, []|].
    cbn. do 2 eexists. split; [done|].
    split; intros ->; vm_compute in Hx1; discriminate Hx1. }
  rewrite Er in Hm1. destruct Hm1 as [Hm1 _].
  wp_step. eapply wpg_access_Some; [exact Hm1|]. wp_steps.
  by destruct (Z.eqb_spec c1 120), (Z.eqb_spec c1 88).
Qed.

Lemma wpg_hexstr2dec m p ds c Q s :
  ds <> [] -> digits_ok 16 ds -> zlen ds <= 8 ->
  holds m p (map hex_char ds ++ [c]) -> is_hex_char c = false -> c <> 120 -> c <> 88 ->
  Q (0, digits_value 16 0 ds) s ->
  wpg E (mangoHelper_hexstr2dec m p) Q s.
Proof.
  intros Hne Hok. apply wpg_hexstr2dec_chars; [done | by apply hex_chars_map].
Qed.

Lemma is_dec_char_digit d : 0 <= d < 10 -> is_dec_char (48 + d) = true.
Proof. unfold is_dec_char. intros. rewrite andb_true_iff, !Z.ltb_lt. lia. Qed.

Lemma wpg_decstr2dec_loop m c Q s :
  is_dec_char c = false -> forall ds v i p n,
  digits_ok 10 ds -> 0 <= i -> i + zlen ds <= 10 -> (0 < i \/ ds <> []) ->
  0 <= v -> digits_value 10 v ds < 4294967296 ->
  holds m p (map (Z.add 48) ds ++ [c]) -> (length ds < n)%nat ->
  Q (0, digits_value 10 v ds) s ->
  wpg E (loop n (decstr2dec_body m)
           (p, (if decide (ds = []) then v else 10 * v), i)) Q s.
Proof.
  intros Hc ds. induction ds as [|d ds IH];
    intros v i p n Hok Hi Hi8 Hne Hv Hb Hm Hn HQ;
    (destruct n as [|n]; [lia|]); apply wpg_loop_S; cbn [decstr2dec_body].
  - destruct Hm as [Hm _]. wp_step. eapply wpg_access_Some; [exact Hm|].
    rewrite Hc. destruct (Z.eqb_spec i 0); [destruct Hne; [lia | done]|]. done.
  - apply Forall_cons in Hok as [Hd Hok]. destruct Hm as [Hm Hm'].
    rewrite zlen_cons in Hi8. pose proof (zlen_nonneg ds).
    change (digits_value 10 v (d :: ds)) with (digits_value 10 (10 * v + d) ds) in *.
    pose proof (digits_value_bound 10 (10 * v + d) ds ltac:(lia) ltac:(lia) Hok).
    wp_step. eapply wpg_access_Some; [exact Hm|].
    rewrite is_dec_char_digit by done. cbn zeta.
    rewrite decide_False by done.
    replace (10 * v + (48 + d - 48)) with (10 * v + d) by lia.
    rewrite (u32_small (10 * v + d)) by (unfold is_u32; lia).
    rewrite (u8_small (i + 1)) by (unfold is_u8; lia).
    assert (wpg E (loop n (decstr2dec_body m)
      (p + 1, if decide (ds = []) then 10 * v + d else 10 * (10 * v + d), i + 1)) Q s)
      as Hnext.
    { apply IH; try done; try lia. cbn [length] in Hn. lia. }
    destruct ds as [|d' ds].
    + destruct Hm' as [Hm' _]. wp_step. eapply wpg_access_Some; [exact Hm'|].
      rewrite Hc. wp_steps. destruct (Z.eqb_spec (i + 1) 11); [lia|].
      by rewrite decide_True in Hnext.
    + destruct Hm' as [Hm' _]. wp_step. eapply wpg_access_Some; [exact Hm'|].
      apply Forall_cons in Hok as [Hd' Hok].
      rewrite is_dec_char_digit by done. wp_steps. rewrite zlen_cons in Hi8.
      pose proof (zlen_nonneg ds).
      destruct (Z.eqb_spec (i + 1) 11); [lia|].
      rewrite decide_False in Hnext by done.
      change (digits_value 10 (10 * v + d) (d' :: ds))
        with (digits_value 10 (10 * (10 * v + d) + d') ds) in *.
      pose proof (digits_value_bound 10 (10 * (10 * v + d) + d') ds
        ltac:(lia) ltac:(lia) Hok).
      rewrite u32_small by (unfold is_u32; lia). by rewrite Z.mul_comm.
Qed.

(** mangoHelper_decstr2dec reads at most ten decimal digits, up to the first
    character that is not one. *)
Lemma wpg_decstr2dec m p ds c Q s :
  ds <> [] -> digits_ok 10 ds -> zlen ds <= 10 -> digits_value 10 0 ds < 4294967296 ->
  holds m p (map (Z.add 48) ds ++ [c]) -> is_dec_char c = false ->
  Q (0, digits_value 10 0 ds) s ->
  wpg E (mangoHelper_decstr2dec m p) Q s.
Proof.
  intros Hne Hok Hlen Hv Hm Hc HQ. unfold mangoHelper_decstr2dec.
  pose proof (wpg_decstr2dec_loop m c Q s Hc ds 0 0 p 12) as H.
  rewrite decide_False in H by done. apply H; try done; try lia.
  - by right.
  - unfold zlen in Hlen. lia.
Qed.

(** On any memory the parsers return, or read outside it. *)
Lemma wpg_hexstr2dec_any m p (Q : Z * Z -> S -> Prop) s :
  E (Fault "mangoHelper_hexstr2dec") -> (forall r, Q r s) ->
  wpg E (mangoHelper_hexstr2dec m p) Q s.
Proof.
  intros HF HQ. unfold mangoHelper_hexstr2dec.
  assert (forall q, wpg E (loop 10 (hexstr2dec_body m) (q, 0, 0)) Q s) as Hloop.
  { intros q. apply (wpg_loop E _ (fun '(_, _, i) s' => s' = s /\ 0 <= i < 9)
      (fun '(_, _, i) _ => Z.to_nat (9 - i))); [|split; [done|lia]|lia].
    intros [[p' v] i] ? [-> Hi]. cbn [hexstr2dec_body].
    wp_step. apply wpg_access; [intros x _|done].
    destruct (x =? 0); [by wp_step|]. destruct (hex_digit x); [|by wp_step].
    wp_step. apply wpg_access; [intros y _|done]. wp_step.
    rewrite u8_small by (unfold is_u8; lia).
    destruct (Z.eqb_spec (i + 1) 9); [done|]. split; [split; [done|lia]|lia]. }
  wp_step. apply wpg_access; [intros x _|done]. wp_step.
  destruct (x =? 48); [|by wp_step].
  wp_step. apply wpg_access; [intros y _|done]. wp_step.
  by destruct ((y =? 120) || (y =? 88)).
Qed.

Lemma wpg_decstr2dec_any m p (Q : Z * Z -> S -> Prop) s :
  E (Fault "mangoHelper_decstr2dec") ->
  (forall r v, is_u32 v -> Q (r, v) s) ->
  wpg E (mangoHelper_decstr2dec m p) Q s.
Proof.
  intros HF HQ.
  apply (wpg_loop E _ (fun '(_, v, i) s' => s' = s /\ 0 <= i < 11 /\ is_u32 v)
    (fun '(_, _, i) _ => Z.to_nat (11 - i))); [|split; [done|unfold is_u32; lia]|lia].
  intros [[p' v] i] ? (-> & Hi & Hv). cbn [decstr2dec_body].
  assert (is_u32 0) by (unfold is_u32; lia).
  wp_step. apply wpg_access; [intros x _|done].
  destruct (is_dec_char x); [|wp_step; destruct (i =? 0); by apply HQ].
  wp_step. apply wpg_access; [intros y _|done]. wp_step.
  rewrite u8_small by (unfold is_u8; lia).
  destruct (Z.eqb_spec (i + 1) 11); [by apply HQ|]. split; [|lia]. split; [done|].
  split; [lia|]. destruct (is_dec_char y); apply u32_range.
Qed.
End Reading.

(** * Writing digits *)

Fixpoint strip_zeros (ds : list Z) : list Z :=
  match ds with
  | d :: ds' => if d =? 0 then strip_zeros ds' else ds
  | [] => []
  end.

(** The hexadecimal digits of a 32-bit number, without leading zeros. *)
Definition hex_digits (n : Z) : list Z := strip_zeros (nibbles 8 n []).

Fixpoint dec_digits_aux (fuel : nat) (n : Z) (acc : list Z) : list Z :=
  match fuel with
  | O => acc
  | Datatypes.S fuel =>
      if n <? 10 then n :: acc else dec_digits_aux fuel (n / 10) (n mod 10 :: acc)
  end.

(** The decimal digits of a 32-bit number. *)
Definition dec_digits (n : Z) : list Z := dec_digits_aux 10 n [].

Lemma nibbles_value k n v acc :
  0 <= n ->
  digits_value 16 v (nibbles k n acc) =
  digits_value 16 (v * 16 ^ Z.of_nat k + n mod 16 ^ Z.of_nat k) acc.
Proof.
  revert n v acc. induction k as [|k IH]; intros n v acc Hn; cbn [nibbles].
  - rewrite Z.mod_1_r. f_equal. lia.
  - rewrite IH by (apply Z.shiftr_nonneg; lia).
    change (digits_value 16 ?x (Z.land n 15 :: acc)) with
      (digits_value 16 (16 * x + Z.land n 15) acc).
    f_equal. change 15 with (Z.ones 4). rewrite Z.land_ones, Z.shiftr_div_pow2 by lia.
    change (2 ^ 4) with 16.
    rewrite Nat2Z.inj_succ, Z.pow_succ_r by lia.
    assert (0 < 16 ^ Z.of_nat k) by (apply Z.pow_pos_nonneg; lia).
    rewrite Z.rem_mul_r by lia. ring.
Qed.

Lemma nibbles_ok k n acc : digits_ok 16 acc -> digits_ok 16 (nibbles k n acc).
Proof.
  revert n acc. induction k as [|k IH]; intros n acc H; cbn [nibbles]; [done|].
  apply IH. constructor; [|done]. change 15 with (Z.ones 4).
  rewrite Z.land_ones by lia. apply Z.mod_pos_bound. lia.
Qed.

Lemma nibbles_length k n acc : zlen (nibbles k n acc) = Z.of_nat k + zlen acc.
Proof.
  revert n acc. induction k as [|k IH]; intros n acc; cbn [nibbles]; [lia|].
  rewrite IH, zlen_cons. lia.
Qed.

Lemma strip_zeros_split ds :
  exists z, ds = replicate z 0 ++ strip_zeros ds.
Proof.
  induction ds as [|d ds [z IH]]; cbn; [by exists O|].
  destruct (Z.eqb_spec d 0) as [->|]; [|by exists O].
  exists (Datatypes.S z). cbn. by f_equal.
Qed.

Lemma strip_zeros_head ds d r : strip_zeros ds = d :: r -> d <> 0.
Proof.
  induction ds as [|x ds IH]; cbn; [done|].
  destruct (Z.eqb_spec x 0); [done|]. congruence.
Qed.

Lemma digits_value_zeros base z ds :
  digits_value base 0 (replicate z 0 ++ ds) = digits_value base 0 ds.
Proof.
  induction z as [|z IH]; [done|]. cbn [replicate app].
  change (digits_value base 0 (0 :: replicate z 0 ++ ds))
    with (digits_value base (base * 0 + 0) (replicate z 0 ++ ds)).
  rewrite Z.mul_0_r. exact IH.
Qed.

Lemma hex_digits_value n : is_u32 n -> digits_value 16 0 (hex_digits n) = n.
Proof.
  intros Hn. unfold is_u32 in Hn. unfold hex_digits.
  destruct (strip_zeros_split (nibbles 8 n [])) as [z Hz].
  rewrite <- (digits_value_zeros 16 z), <- Hz, nibbles_value by lia.
  change (16 ^ Z.of_nat 8) with 4294967296. unfold digits_value. cbn [fold_left].
  rewrite Z.mod_small; lia.
Qed.

Lemma hex_digits_ok n : digits_ok 16 (hex_digits n).
Proof.
  unfold hex_digits. destruct (strip_zeros_split (nibbles 8 n [])) as [z Hz].
  assert (digits_ok 16 (nibbles 8 n [])) as H by (apply nibbles_ok; constructor).
  revert H. rewrite Hz at 1. by intros [_ H]%Forall_app.
Qed.

Lemma hex_digits_length n : zlen (hex_digits n) <= 8.
Proof.
  unfold hex_digits. pose proof (nibbles_length 8 n []) as H.
  destruct (strip_zeros_split (nibbles 8 n [])) as [z Hz].
  apply (f_equal zlen) in Hz. rewrite zlen_app in Hz. rewrite zlen_nil in H.
  pose proof (zlen_nonneg (replicate z 0)). lia.
Qed.

Lemma hex_digits_nonempty n : is_u32 n -> n <> 0 -> hex_digits n <> [].
Proof.
  intros Hn Hn0 H. pose proof (hex_digits_value n Hn) as Hv. rewrite H in Hv. done.
Qed.

Lemma dec_digits_aux_app f n acc :
  dec_digits_aux f n acc = dec_digits_aux f n [] ++ acc.
Proof.
  revert n acc. induction f as [|f IH]; intros n acc; cbn; [done|].
  destruct (n <? 10); [done|]. rewrite IH, (IH _ [_]), <- app_assoc. done.
Qed.

Lemma dec_digits_aux_value f n acc :
  0 <= n < 10 ^ Z.of_nat f ->
  digits_value 10 0 (dec_digits_aux f n acc) = digits_value 10 n acc.
Proof.
  revert n acc. induction f as [|f IH]; intros n acc Hn; cbn [dec_digits_aux].
  - change (10 ^ Z.of_nat 0) with 1 in Hn. by replace n with 0 by lia.
  - rewrite Nat2Z.inj_succ, Z.pow_succ_r in Hn by lia.
    destruct (Z.ltb_spec n 10).
    + change (digits_value 10 0 (n :: acc)) with (digits_value 10 (10 * 0 + n) acc).
      by rewrite Z.mul_0_r.
    + rewrite IH by (split; [apply Z.div_pos; lia | apply Z.div_lt_upper_bound; lia]).
      change (digits_value 10 ?x (n mod 10 :: acc)) with
        (digits_value 10 (10 * x + n mod 10) acc).
      f_equal. symmetry. apply Z.div_mod. lia.
Qed.

Lemma dec_digits_aux_ok f n acc :
  0 <= n -> digits_ok 10 acc -> digits_ok 10 (dec_digits_aux f n acc).
Proof.
  revert n acc. induction f as [|f IH]; intros n acc Hn H; cbn [dec_digits_aux]; [done|].
  destruct (Z.ltb_spec n 10); [by constructor|].
  apply IH; [apply Z.div_pos; lia|]. constructor; [|done]. apply Z.mod_pos_bound. lia.
Qed.

Lemma dec_digits_aux_length f n acc :
  zlen (dec_digits_aux f n acc) <= Z.of_nat f + zlen acc.
Proof.
  revert n acc. induction f as [|f IH]; intros n acc; cbn [dec_digits_aux]; [lia|].
  destruct (n <? 10); [rewrite zlen_cons; lia|].
  specialize (IH (n / 10) (n mod 10 :: acc)). rewrite zlen_cons in IH. lia.
Qed.

Lemma dec_digits_aux_nonempty f n acc :
  dec_digits_aux (Datatypes.S f) n acc <> [].
Proof.
  revert n acc. induction f as [|f IH]; intros n acc.
  - cbn. by destruct (n <? 10).
  - cbn [dec_digits_aux]. destruct (n <? 10); [done|]. apply IH.
Qed.

Section Writing.
Context {S : Type} (E : failure -> Prop).

Lemma wpg_hex_skip c r z (Q : Z -> S -> Prop) s :
  c <> 0 -> (z < 256)%nat -> forall n j, (j <= z)%nat -> (z - j < n)%nat ->
  Q (Z.of_nat z) s ->
  wpg E (loop n (hex_skip_body (replicate z 0 ++ c :: r)) (Z.of_nat j)) Q s.
Proof.
  intros Hc Hz n. induction n as [|n IH]; intros j Hj Hn HQ; [lia|].
  apply wpg_loop_S. unfold hex_skip_body at 1. wp_step.
  pose proof (zlen_replicate z 0) as Hl.
  destruct (decide (j = z)) as [->|Hne].
  - eapply (wpg_access_Some _ _ _ c).
    { rewrite zget_app_r by lia. rewrite Hl, Z.sub_diag. apply zget_0. }
    wp_steps. by destruct (Z.eqb_spec c 0).
  - eapply (wpg_access_Some _ _ _ 0).
    { rewrite zget_app_l by lia. unfold zget. destruct (Z.leb_spec 0 (Z.of_nat j)); [|lia].
      apply lookup_replicate. split; [done | lia]. }
    wp_steps. rewrite u8_small by (unfold is_u8; lia).
    replace (Z.of_nat j + 1) with (Z.of_nat (Datatypes.S j)) by lia.
    apply IH; [lia | lia | done].
Qed.

Lemma wpg_hex_write hex p m0 (Q : list Z * Z -> S -> Prop) s :
  0 <= p -> forall ds n i k wr m,
  0 <= i -> i + zlen ds = 8 -> holds hex i ds -> (length ds < n)%nat ->
  zblit m0 p wr = Some m -> k = zlen wr -> k <= i ->
  p + zlen wr + zlen ds <= zlen m0 ->
  (forall m', zblit m0 p (wr ++ map hex_char ds) = Some m' ->
     Q (m', zlen wr + zlen ds) s) ->
  wpg E (loop n (hex_write_body hex p) (m, i, k)) Q s.
Proof.
  intros Hp ds. induction ds as [|d ds IH]; intros n i k wr m Hi Hi8 Hh Hn Hw Hk Hki Hfit HQ;
    (destruct n as [|n]; [lia|]); apply wpg_loop_S; cbn [hex_write_body].
  - rewrite zlen_nil in *. destruct (Z.ltb_spec i 8); [lia|]. wp_steps. subst k.
    specialize (HQ m). cbn [map] in HQ. rewrite app_nil_r, Z.add_0_r in HQ. by apply HQ.
  - rewrite zlen_cons in *. pose proof (zlen_nonneg ds). pose proof (zlen_nonneg wr).
    destruct (Z.ltb_spec i 8); [|lia].
    destruct Hh as [Hd Hh]. wp_step. eapply wpg_access_Some; [exact Hd|].
    pose proof (zblit_zlen _ _ _ _ Hw) as Hml.
    assert (zset m (p + zlen wr) (hex_char d) =
            zblit m0 p (wr ++ [hex_char d])) as Ew by (apply zblit_snoc; [done | lia]).
    destruct (zblit m0 p (wr ++ [hex_char d])) as [m2|] eqn:Ew2.
    2: { rewrite zblit_is_Some in Ew2; [done | lia |].
         rewrite zlen_app, zlen_cons, zlen_nil. lia. }
    subst k. wp_step. eapply wpg_access_Some; [exact Ew|]. wp_steps.
    rewrite u8_small by (unfold is_u8; lia).
    apply (IH n (i + 1) (zlen wr + 1) (wr ++ [hex_char d])); try done; try lia.
    + cbn [length] in Hn. lia.
    + by rewrite zlen_app.
    + rewrite zlen_app, zlen_cons, zlen_nil. lia.
    + intros m' Hm'. rewrite <- app_assoc in Hm'. apply HQ in Hm'.
      rewrite zlen_app, zlen_cons, zlen_nil.
      replace (zlen wr + (0 + 1) + zlen ds) with (zlen wr + (zlen ds + 1)) by lia. done.
Qed.

(** mangoHelper_dec2hexstr writes the hexadecimal digits of a nonzero number
    and a terminator. *)
Lemma wpg_dec2hexstr n m p (Q : list Z -> S -> Prop) s :
  is_u32 n -> n <> 0 -> 0 <= p -> p + zlen (hex_digits n) < zlen m ->
  (forall m', zblit m p (map hex_char (hex_digits n) ++ [0]) = Some m' -> Q m' s) ->
  wpg E (mangoHelper_dec2hexstr n m p) Q s.
Proof.
  intros Hn Hn0 Hp Hfit HQ. unfold mangoHelper_dec2hexstr.
  destruct (Z.eqb_spec n 0); [done|]. wp_step. wp_step.
  assert (nibbles 8 n [0] = nibbles 8 n [] ++ [0]) as -> by done.
  pose proof (hex_digits_nonempty n Hn Hn0) as Hne.
  pose proof (nibbles_length 8 n []) as Hlen. rewrite zlen_nil in Hlen.
  unfold hex_digits in *. clear Hn Hn0. revert Hlen Hne Hfit HQ.
  generalize (nibbles 8 n []). intros nb Hlen Hne Hfit HQ.
  destruct (strip_zeros_split nb) as [z Hz].
  pose proof (f_equal zlen Hz) as Hzl. rewrite zlen_app in Hzl.
  pose proof (zlen_replicate z 0) as Hl.
  destruct (strip_zeros nb) as [|c r] eqn:Es; [done|].
  pose proof (strip_zeros_head _ _ _ Es) as Hc.
  rewrite Hz. wp_step. rewrite <- app_assoc. cbn [app].
  pose proof (zlen_nonneg (c :: r)).
  apply (wpg_hex_skip c (r ++ [0]) z _ s Hc ltac:(lia) 257 O); [lia | lia |].
  wp_step.
  apply (wpg_hex_write _ p m _ s Hp (c :: r) 9 (Z.of_nat z) 0 [] m);
    rewrite ?zlen_nil; try done; try lia.
  - change (c :: r ++ [0]) with ((c :: r) ++ [0]).
    rewrite <- Hl. pose proof (holds_self (replicate z 0 ++ (c :: r) ++ [0])) as Hh.
    by apply holds_app in Hh as [_ [Hh _]%holds_app].
  - unfold zlen in *. lia.
  - apply zblit_nil. lia.
  - intros m' Hm'. cbn [app] in Hm'. rewrite Z.add_0_l.
    destruct (zblit_ex m p (map hex_char (c :: r) ++ [0]) Hp) as [m2 E2].
    { rewrite zlen_app, zlen_map. change (zlen [0]) with 1. lia. }
    pose proof (zblit_snoc _ _ _ _ 0 Hm' ltac:(rewrite zlen_map; lia)) as Hs.
    rewrite zlen_map, E2 in Hs. eapply wpg_access_Some; [exact Hs|]. by apply HQ.
Qed.

Lemma zget_digits d : 0 <= d < 10 -> zget (bytes "0123456789") d = Some (48 + d).
Proof.
  intros H. assert (d = 0 \/ d = 1 \/ d = 2 \/ d = 3 \/ d = 4 \/ d = 5 \/ d = 6 \/ d = 7
    \/ d = 8 \/ d = 9) as Hd by lia.
  by repeat destruct Hd as [->|Hd]; [..| rewrite Hd].
Qed.

Lemma wpg_dec_count (Q : Z -> S -> Prop) s : forall f n q k,
  0 <= n < 10 ^ Z.of_nat f -> (0 < f)%nat -> (f <= k)%nat ->
  Q (q + zlen (dec_digits_aux f n [])) s ->
  wpg E (loop k dec_count_body (q, n)) Q s.
Proof.
  induction f as [|f IH]; intros n q k Hn Hf Hk HQ; [lia|].
  destruct k as [|k]; [lia|]. apply wpg_loop_S. cbn [dec_count_body]. wp_steps.
  rewrite Nat2Z.inj_succ, Z.pow_succ_r in Hn by lia.
  cbn [dec_digits_aux] in HQ. destruct (Z.ltb_spec n 10).
  - rewrite Z.div_small by lia. cbn. done.
  - assert (0 < n / 10) by (apply Z.div_str_pos; lia).
    destruct (Z.eqb_spec (n / 10) 0); [lia|].
    assert (n / 10 < 10 ^ Z.of_nat f) by (apply Z.div_lt_upper_bound; lia).
    rewrite dec_digits_aux_app, zlen_app, zlen_cons, zlen_nil in HQ.
    destruct f as [|f]; [change (10 ^ Z.of_nat 0) with 1 in *; lia|].
    apply IH; try lia.
    by replace (q + 1 + zlen (dec_digits_aux (Datatypes.S f) (n / 10) [])) with
      (q + (zlen (dec_digits_aux (Datatypes.S f) (n / 10) []) + (0 + 1))) by lia.
Qed.

Lemma wpg_dec_write m0 (Q : list Z -> S -> Prop) s : forall f n q k suf m,
  0 <= n < 10 ^ Z.of_nat f -> (0 < f)%nat -> (f <= k)%nat ->
  zblit m0 q suf = Some m -> 0 <= q - zlen (dec_digits_aux f n []) ->
  (forall m', zblit m0 (q - zlen (dec_digits_aux f n []))
                (map (Z.add 48) (dec_digits_aux f n []) ++ suf) = Some m' -> Q m' s) ->
  wpg E (loop k dec_write_body (m, q, n)) Q s.
Proof.
  induction f as [|f IH]; intros n q k suf m Hn Hf Hk Hm Hq HQ; [lia|].
  destruct k as [|k]; [lia|]. apply wpg_loop_S. cbn [dec_write_body].
  rewrite Nat2Z.inj_succ, Z.pow_succ_r in Hn by lia.
  assert (1 <= q) as Hq1.
  { pose proof (dec_digits_aux_nonempty f n []) as Hne.
    destruct (dec_digits_aux (Datatypes.S f) n []) as [|x l]; [done|].
    rewrite zlen_cons in Hq. pose proof (zlen_nonneg l). lia. }
  pose proof (zblit_range _ _ _ _ Hm) as Hr. pose proof (zlen_nonneg suf).
  replace q with (q - 1 + 1) in Hm by lia.
  pose proof (zblit_cons _ _ _ _ (48 + n mod 10) Hm ltac:(lia)) as Hs.
  pose proof (Z.mod_pos_bound n 10 ltac:(lia)) as Hmod.
  destruct (zblit m0 (q - 1) ((48 + n mod 10) :: suf)) as [m2|] eqn:E2.
  2: { rewrite zblit_is_Some in E2; [done | lia |]. rewrite zlen_cons. lia. }
  wp_step. eapply wpg_access_Some; [by apply zget_digits|].
  wp_step. eapply wpg_access_Some; [exact Hs|]. wp_steps.
  cbn [dec_digits_aux] in Hq, HQ. destruct (Z.ltb_spec n 10).
  - rewrite (Z.div_small n 10) by lia. cbn [Z.eqb]. apply HQ.
    rewrite zlen_cons, zlen_nil. cbn [map app].
    rewrite (Z.mod_small n 10) in E2 by lia. done.
  - assert (0 < n / 10) by (apply Z.div_str_pos; lia).
    destruct (Z.eqb_spec (n / 10) 0); [lia|].
    assert (n / 10 < 10 ^ Z.of_nat f) by (apply Z.div_lt_upper_bound; lia).
    rewrite dec_digits_aux_app, zlen_app in Hq. rewrite dec_digits_aux_app, zlen_app in HQ. change (zlen [n mod 10]) with 1 in *.
    destruct f as [|f]; [change (10 ^ Z.of_nat 0) with 1 in *; lia|].
    eapply IH; [lia | lia | lia | exact E2 | lia |].
    intros m' Hm'. apply HQ. rewrite map_app, <- app_assoc.
    rewrite <- Hm'. f_equal. lia.
Qed.

(** mangoHelper_dec2decstr writes the decimal digits of a number and a
    terminator. *)
Lemma wpg_dec2decstr n m p (Q : list Z -> S -> Prop) s :
  is_u32 n -> 0 <= p -> p + zlen (dec_digits n) < zlen m ->
  (forall m', zblit m p (map (Z.add 48) (dec_digits n) ++ [0]) = Some m' -> Q m' s) ->
  wpg E (mangoHelper_dec2decstr n m p) Q s.
Proof.
  intros Hn Hp Hfit HQ. unfold mangoHelper_dec2decstr, dec_digits in *.
  unfold is_u32 in Hn. pose proof (zlen_nonneg (dec_digits_aux 10 n [])).
  wp_step. eapply (wpg_dec_count _ _ 10); [|lia|lia|].
  { change (10 ^ Z.of_nat 10) with 10000000000. lia. }
  wp_step.
  assert (zset m (p + zlen (dec_digits_aux 10 n [])) 0 =
    zblit m (p + zlen (dec_digits_aux 10 n [])) [0]) as E1.
  { apply zblit_cons; [|lia]. apply zblit_nil. lia. }
  destruct (zblit m (p + zlen (dec_digits_aux 10 n [])) [0]) as [m1|] eqn:E2.
  2: { rewrite zblit_is_Some in E2; [done | lia |]. rewrite zlen_cons, zlen_nil. lia. }
  eapply wpg_access_Some; [exact E1|].
  eapply (wpg_dec_write m _ s 10); [|lia|lia|exact E2|lia|].
  { change (10 ^ Z.of_nat 10) with 10000000000. lia. }
  intros m'. replace (p + zlen (dec_digits_aux 10 n []) - zlen (dec_digits_aux 10 n []))
    with p by lia. apply HQ.
Qed.
End Writing.
