(* ===== verification/MangoHttpFacts.v ===== *)
(** Correctness of the HTTP message functions of mangoHelper.c:
    mangoHelper_httpReponseVerify finds the end of the header and the status
    code, mangoHelper_httpHeaderGet finds a header and copies its value.  Both
    are compared with a description of the message as a list of characters.

    The second part is about the headers. *)

From S2P Require Import Prelude.
From S2P Require Import CMonad.
From S2P Require Import CString.
From S2P Require Import MangoHelper.
From S2P Require Import MangoHelperFacts.

Definition CRLF : list Z := [13; 10].

Fixpoint drop_spaces (s : list Z) : list Z :=
  match s with
  | c :: s' => if c =? 32 then drop_spaces s' else s
  | [] => []
  end.

(** At most [n] - 1 digits followed by a space. *)
Fixpoint status_of (n : nat) (s : list Z) : option (list Z) :=
  match n, s with
  | Datatypes.S n, c :: s =>
      if isdigit c then cons (c - 48) <$> status_of n s
      else if c =? 32 then Some [] else None
  | _, _ => None
  end.

(** What httpReponseVerify makes of the bytes received so far. *)
Definition response_status (s : list Z) : Z :=
  match find_sub (CRLF ++ CRLF) s with
  | None => 0
  | Some e =>
      let header := take (Z.to_nat (e + 2)) s in
      match find_sub [32] header with
      | None => -1
      | Some sp =>
          match status_of 4 (drop_spaces (drop (Z.to_nat sp) header)) with
          | None | Some [] => -1
          | Some ds =>
              let v := digits_value 10 0 ds in
              if (v <? 100) || (600 <=? v) then -1 else v
          end
      end
  end.

Lemma drop_spaces_split s :
  exists k, s = replicate k 32 ++ drop_spaces s.
Proof.
  induction s as [|c s [k IH]]; cbn; [by exists O|].
  destruct (Z.eqb_spec c 32) as [->|]; [|by exists O].
  exists (Datatypes.S k). cbn. by f_equal.
Qed.

Lemma drop_spaces_length s : zlen (drop_spaces s) <= zlen s.
Proof.
  destruct (drop_spaces_split s) as [k E].
  rewrite E at 2. rewrite zlen_app. pose proof (zlen_nonneg (replicate k 32)). lia.
Qed.

Lemma drop_spaces_drop s :
  drop_spaces s = drop (Z.to_nat (zlen s - zlen (drop_spaces s))) s.
Proof.
  destruct (drop_spaces_split s) as [k E].
  assert (zlen s = Z.of_nat k + zlen (drop_spaces s)) as H.
  { rewrite E at 1. by rewrite zlen_app, zlen_replicate. }
  rewrite H. replace (Z.of_nat k + zlen (drop_spaces s) - zlen (drop_spaces s))
    with (Z.of_nat k) by lia. rewrite Nat2Z.id. rewrite E at 2.
  rewrite drop_app_ge; rewrite length_replicate; [|lia]. by rewrite Nat.sub_diag.
Qed.

Lemma drop_spaces_head s c r : drop_spaces s = c :: r -> c <> 32.
Proof.
  induction s as [|x s IH]; cbn; [done|]. destruct (Z.eqb_spec x 32); [done|]. congruence.
Qed.

Lemma status_of_ok n s ds :
  status_of n s = Some ds ->
  digits_ok 10 ds /\ (length ds < n)%nat /\ exists r, s = map (Z.add 48) ds ++ 32 :: r.
Proof.
  revert s ds. induction n as [|n IH]; intros s ds; [done|].
  destruct s as [|c s]; [done|]. cbn.
  unfold isdigit. destruct (Z.leb_spec 48 c), (Z.leb_spec c 57); cbn.
  1: { destruct (status_of n s) as [ds'|] eqn:E; cbn; [|done]. intros [= <-].
       apply IH in E as (Hok & Hl & r & ->). split; [|split].
       - constructor; [lia | done].
       - cbn [length]. lia.
       - exists r. cbn [map app]. f_equal. lia. }
  all: destruct (Z.eqb_spec c 32) as [->|]; [|done]; intros [= <-];
    repeat split; [constructor | cbn; lia | by eexists].
Qed.

Section Verify.
Context {S : Type} (E : failure -> Prop).

Lemma wpg_skip_spaces site m p s (Q : Z -> S -> Prop) st :
  cstr m p = Some s ->
  Q (p + (zlen s - zlen (drop_spaces s))) st ->
  wpg E (skip_spaces site m p) Q st.
Proof.
  intros Hs HQ. unfold skip_spaces.
  assert (length s < Datatypes.S (length m))%nat as Hn.
  { pose proof (cstr_bound _ _ _ Hs). unfold zlen in *. lia. }
  revert Hn. generalize (Datatypes.S (length m)) as n. revert p Hs HQ.
  induction s as [|c s IH]; intros p Hs HQ n Hn;
    (destruct n as [|n]; [lia|]); apply wpg_loop_S; unfold skip_spaces_body.
  - pose proof (cstr_get_end _ _ _ Hs) as H0.
    rewrite zlen_nil, Z.add_0_r in H0. wp_step.
    eapply wpg_access_Some; [exact H0|]. wp_steps. cbn in HQ.
    by rewrite Z.add_0_r in HQ.
  - pose proof (cstr_get _ _ _ 0 c Hs eq_refl) as H0. rewrite Z.add_0_r in H0.
    wp_step. eapply wpg_access_Some; [exact H0|]. wp_steps.
    cbn [drop_spaces] in HQ. destruct (Z.eqb_spec c 32) as [->|].
    + apply IH; [| |cbn in Hn; lia].
      * apply (cstr_advance _ _ _ 1 Hs). rewrite zlen_cons.
        pose proof (zlen_nonneg s). lia.
      * rewrite zlen_cons in HQ.
        by replace (p + 1 + (zlen s - zlen (drop_spaces s))) with
          (p + (zlen s + 1 - zlen (drop_spaces s))) by lia.
    + by rewrite Z.sub_diag, Z.add_0_r in HQ.
Qed.

Lemma wpg_status_loop m (Q : option (list Z * bool) -> S -> Prop) st : forall n s p pre,
  cstr m p = Some s -> zlen pre = Z.of_nat (4 - n) -> (n <= 4)%nat ->
  match status_of n s with
  | Some ds => forall k, Q (Some (map (Z.add 48) (pre ++ ds) ++ replicate (Datatypes.S k) 0, true)) st
  | None => forall r, (forall b, r <> Some (b, true)) -> Q r st
  end ->
  wpg E (loop (Datatypes.S n) (status_digits_body m)
           (p, map (Z.add 48) pre ++ replicate (Datatypes.S n) 0, zlen pre)) Q st.
Proof.
  induction n as [|n IH]; intros s p pre Hs Hpre Hn HQ; apply wpg_loop_S;
    cbn [status_digits_body]; rewrite zlen_app, zlen_map, zlen_replicate, Hpre.
  - destruct (Z.ltb_spec (Z.of_nat (4 - 0)) (Z.of_nat (4 - 0) + Z.of_nat 1 - 1)); [lia|].
    wp_step. apply HQ. done.
  - destruct (Z.ltb_spec (Z.of_nat (4 - Datatypes.S n))
      (Z.of_nat (4 - Datatypes.S n) + Z.of_nat (Datatypes.S (Datatypes.S n)) - 1)); [|lia].
    assert (forall v, zset (map (Z.add 48) pre ++ replicate (Datatypes.S (Datatypes.S n)) 0)
      (Z.of_nat (4 - Datatypes.S n)) v =
      Some (map (Z.add 48) pre ++ v :: replicate (Datatypes.S n) 0)) as Hset.
    { intros v. rewrite zset_is_Some.
      - f_equal. rewrite insert_app_r_alt; rewrite length_map; unfold zlen in Hpre; [|lia].
        replace (Z.to_nat (Z.of_nat (4 - Datatypes.S n)) - length pre)%nat with O by lia. done.
      - rewrite zlen_app, zlen_map, zlen_replicate. lia. }
    destruct s as [|c s].
    + pose proof (cstr_get_end _ _ _ Hs) as H0. rewrite zlen_nil, Z.add_0_r in H0.
      wp_step. eapply wpg_access_Some; [exact H0|]. cbn. by apply HQ.
    + pose proof (cstr_get _ _ _ 0 c Hs eq_refl) as H0. rewrite Z.add_0_r in H0.
      wp_step. eapply wpg_access_Some; [exact H0|]. cbn [status_of] in HQ.
      unfold isdigit in HQ. destruct ((48 <=? c) && (c <=? 57)) eqn:Ed.
      * wp_step. eapply wpg_access_Some; [apply Hset|]. wp_step. cbv beta iota.
        specialize (IH s (p + 1) (pre ++ [c - 48])).
        rewrite map_app, <- app_assoc, zlen_app in IH. cbn [map app] in IH.
        replace (48 + (c - 48)) with c in IH by lia.
        change (zlen [c - 48]) with 1 in IH. rewrite Hpre in IH. apply IH; [|lia|lia|].
        { apply (cstr_advance _ _ _ 1 Hs). rewrite zlen_cons.
          pose proof (zlen_nonneg s). lia. }
        destruct (status_of n s) as [ds|]; cbn in HQ; [|done].
        intros k. specialize (HQ k). by rewrite <- app_assoc.
      * destruct (Z.eqb_spec c 32) as [->|].
        -- wp_step. eapply wpg_access_Some; [apply Hset|]. wp_step.
           specialize (HQ (Datatypes.S n)). by rewrite app_nil_r in HQ.
        -- wp_step. by apply HQ.
Qed.

(** The status code digits, as strBuf holds them. *)
Lemma wpg_status_digits m p s (Q : option (list Z * bool) -> S -> Prop) st :
  cstr m p = Some s ->
  match status_of 4 s with
  | Some ds => forall k, Q (Some (map (Z.add 48) ds ++ replicate (Datatypes.S k) 0, true)) st
  | None => forall r, (forall b, r <> Some (b, true)) -> Q r st
  end ->
  wpg E (status_digits m p) Q st.
Proof.
  intros Hs HQ. by apply (wpg_status_loop m Q st 4 s p []).
Qed.

(** What httpReponseVerify leaves in the array: the last CRLF cut off. *)
Definition response_trim (s m : list Z) : list Z :=
  match find_sub (CRLF ++ CRLF) s with
  | None => m
  | Some e => <[Z.to_nat (e + 3) := 0]> (<[Z.to_nat (e + 2) := 0]> m)
  end.

Lemma response_trim_cstr m s e :
  cstr m 0 = Some s -> find_sub (CRLF ++ CRLF) s = Some e ->
  cstr (response_trim s m) 0 = Some (take (Z.to_nat (e + 2)) s).
Proof.
  intros Hs He. unfold response_trim. rewrite He.
  pose proof (find_sub_range _ _ _ He) as [He0 Hel]. change (zlen (CRLF ++ CRLF)) with 4 in Hel.
  apply cstr_insert_after.
  - apply (cstr_truncate m 0 s (e + 2) Hs). lia.
  - unfold zlen in *. rewrite length_take. lia.
Qed.

Lemma response_trim_zlen m s : zlen (response_trim s m) = zlen m.
Proof. unfold response_trim. destruct (find_sub _ s); by rewrite ?zlen_insert. Qed.

Lemma wpg_decstr2dec_nil m p (Q : Z * Z -> S -> Prop) st :
  zget m p = Some 0 -> Q (-1, 0) st -> wpg E (mangoHelper_decstr2dec m p) Q st.
Proof.
  intros H0 HQ. apply wpg_loop_S. cbn. wp_step. eapply wpg_access_Some; [exact H0|]. done.
Qed.

(** httpReponseVerify computes [response_status] of the string it is given. *)
Lemma wpg_httpReponseVerify m s (Q : Z * list Z -> S -> Prop) st :
  cstr m 0 = Some s ->
  Q (response_status s, response_trim s m) st ->
  wpg E (mangoHelper_httpReponseVerify m) Q st.
Proof.
  intros Hs HQ. unfold mangoHelper_httpReponseVerify.
  wp_step. eapply wpg_access_Some; [by apply strstr_cstr|].
  unfold response_status in HQ. change [13; 10; 13; 10] with (CRLF ++ CRLF).
  destruct (find_sub (CRLF ++ CRLF) s) as [e|] eqn:He; cbn [fmap option_fmap option_map].
  2: { wp_step. unfold response_trim in HQ. by rewrite He in HQ. }
  pose proof (find_sub_range _ _ _ He) as [He0 Hel]. change (zlen (CRLF ++ CRLF)) with 4 in Hel.
  pose proof (cstr_bound _ _ _ Hs) as [_ Hb].
  pose proof (response_trim_cstr _ _ _ Hs He) as Ht.
  unfold response_trim in *. rewrite He in *. rewrite Z.add_0_l.
  wp_step. eapply wpg_access_Some; [apply zset_is_Some; lia|].
  wp_step. eapply wpg_access_Some; [apply zset_is_Some; rewrite zlen_insert; lia|].
  revert HQ Ht. generalize (<[Z.to_nat (e + 3) := 0]> (<[Z.to_nat (e + 2) := 0]> m)).
  intros m' HQ Ht.
  wp_step. eapply wpg_access_Some; [by apply strstr_cstr|].
  destruct (find_sub [32] (take (Z.to_nat (e + 2)) s)) as [sp|] eqn:Hsp;
    cbn [fmap option_fmap option_map]; [|by wp_step].
  pose proof (find_sub_range _ _ _ Hsp) as [Hsp0 Hspl].
  pose proof (zlen_nonneg ([32] : list Z)).
  pose proof (cstr_advance _ _ _ sp Ht ltac:(lia)) as Hd. rewrite Z.add_0_l in *.
  wp_step. eapply wpg_skip_spaces; [exact Hd|].
  pose proof (drop_spaces_length (drop (Z.to_nat sp) (take (Z.to_nat (e + 2)) s))) as Hdl.
  pose proof (zlen_nonneg (drop_spaces (drop (Z.to_nat sp) (take (Z.to_nat (e + 2)) s)))).
  pose proof (cstr_advance _ _ _ (zlen (drop (Z.to_nat sp) (take (Z.to_nat (e + 2)) s)) -
    zlen (drop_spaces (drop (Z.to_nat sp) (take (Z.to_nat (e + 2)) s)))) Hd ltac:(lia)) as Hx.
  rewrite <- drop_spaces_drop in Hx.
  wp_step. eapply wpg_status_digits; [exact Hx|].
  destruct (status_of 4 _) as [ds|] eqn:Eds.
  2: { intros [[b [|]]|] Hr; [by specialize (Hr b)| |]; exact HQ. }
  intros k. apply status_of_ok in Eds as (Hok & Hlen & _). cbn [negb].
  assert (holds (map (Z.add 48) ds ++ replicate (Datatypes.S k) 0) 0
            (map (Z.add 48) ds ++ [0])) as Hh.
  { pose proof (holds_self (map (Z.add 48) ds ++ replicate (Datatypes.S k) 0)) as Hh.
    change (replicate (Datatypes.S k) 0) with ([0] ++ replicate k 0) in Hh at 2.
    rewrite app_assoc in Hh. by apply holds_app in Hh as [Hh _]. }
  wp_step. destruct ds as [|d ds].
  - destruct Hh as [Hh _]. eapply wpg_decstr2dec_nil; [exact Hh|]. exact HQ.
  - pose proof (digits_value_bound 10 0 (d :: ds) ltac:(lia) ltac:(lia) Hok) as Hv.
    pose proof (Z.pow_le_mono_r 10 (zlen (d :: ds)) 9 ltac:(lia)
      ltac:(unfold zlen; lia)) as Hp. change (10 ^ 9) with 1000000000 in Hp.
    apply (wpg_decstr2dec _ _ _ (d :: ds) 0); try done; [unfold zlen; lia | lia |].
    cbn beta iota zeta in HQ |- *. change (negb (0 =? 0)) with false. cbv iota.
    by destruct ((_ <? 100) || (600 <=? _)); wp_step.
Qed.
End Verify.

Lemma response_status_range s :
  response_status s = -1 \/ response_status s = 0 \/ 100 <= response_status s < 600.
Proof.
  unfold response_status. destruct (find_sub (CRLF ++ CRLF) s) as [e|]; [|lia].
  destruct (find_sub [32] _) as [sp|]; [|lia].
  destruct (status_of 4 _) as [[|d ds]|]; [lia| |lia].
  destruct (Z.ltb_spec (digits_value 10 0 (d :: ds)) 100); cbn [orb]; [lia|].
  destruct (Z.leb_spec 600 (digits_value 10 0 (d :: ds))); lia.
Qed.

Lemma response_status_incomplete s :
  response_status s = 0 <-> find_sub (CRLF ++ CRLF) s = None.
Proof.
  unfold response_status. destruct (find_sub (CRLF ++ CRLF) s) as [e|]; [|done].
  split; [|done]. intros H. exfalso. revert H.
  destruct (find_sub [32] _) as [sp|]; [|done].
  destruct (status_of 4 _) as [[|d ds]|]; [done| |done].
  destruct (Z.ltb_spec (digits_value 10 0 (d :: ds)) 100); cbn [orb]; [done|].
  destruct (Z.leb_spec 600 (digits_value 10 0 (d :: ds))); [done|]. lia.
Qed.

(** Correctness of mangoHelper_httpHeaderGet: on a message whose last line is
    complete it stays inside the message and the caller's buffer, finds the
    first line that starts with the header's name, and copies its value. *)

(** The rest of the message from the first line, after the start line, that
    begins with the name. *)
Fixpoint header_find (name s : list Z) : option (list Z) :=
  match s with
  | [] => None
  | _ :: s' =>
      if is_prefix CRLF s && is_prefix_nocase name (drop 1 s')
      then Some (drop 1 s')
      else header_find name s'
  end.

Fixpoint before_cr (s : list Z) : list Z :=
  match s with
  | c :: s' => if c =? 13 then [] else c :: before_cr s'
  | [] => []
  end.

(** A line without the spaces at its end. *)
Fixpoint trim_end (s : list Z) : list Z :=
  match s with
  | [] => []
  | c :: s' =>
      match trim_end s' with
      | [] => if c =? 32 then [] else [c]
      | t => c :: t
      end
  end.

(** The text of the header [name] between the colon and the line's end. *)
Definition header_raw (name s : list Z) : option (list Z) :=
  r ← header_find name s;
  match drop_spaces (drop (length name) r) with
  | c :: r => if c =? 58 then Some (before_cr (drop_spaces r)) else None
  | [] => None
  end.

Definition header_value (name s : list Z) : option (list Z) :=
  trim_end <$> header_raw name s.

Definition ends_crlf (s : list Z) : Prop := exists x, s = x ++ CRLF.

Definition header_name (name : list Z) : Prop :=
  name <> [] /\ Forall (fun c => c <> 13) name.

(** * Facts about the description *)

Lemma header_find_suffix name s r :
  header_find name s = Some r ->
  (exists x, s = x ++ CRLF ++ r) /\ is_prefix_nocase name r = true.
Proof.
  induction s as [|c s IH]; [done|]. cbn [header_find].
  destruct (is_prefix CRLF (c :: s) && is_prefix_nocase name (drop 1 s)) eqn:E.
  - intros [= <-]. apply andb_true_iff in E as [[r Er]%is_prefix_spec Hp].
    split; [|done]. injection Er as -> ->. by exists [].
  - intros H. destruct (IH H) as [[x ->] Hp]. split; [|done]. by exists (c :: x).
Qed.

Lemma ends_crlf_suffix x r :
  r <> [] -> ends_crlf (x ++ CRLF ++ r) -> 13 ∈ r.
Proof.
  intros Hr [y Hy].
  destruct (exists_last Hr) as (r1 & c1 & ->). rewrite !app_assoc in Hy.
  change CRLF with ([13] ++ [10]) in Hy at 2. rewrite app_assoc in Hy.
  apply app_inj_tail in Hy as [Hy _].
  destruct r1 as [|c r1 _] using rev_ind.
  - rewrite app_nil_r in Hy. change CRLF with ([13] ++ [10]) in Hy. rewrite app_assoc in Hy.
    by apply app_inj_tail in Hy as [_ Hy].
  - rewrite app_assoc in Hy. apply app_inj_tail in Hy as [_ ->].
    apply elem_of_app. left. apply elem_of_app. right. by left.
Qed.

Lemma tolower_cr c : tolower c = 13 <-> c = 13.
Proof.
  unfold tolower. destruct (Z.leb_spec 65 c), (Z.leb_spec c 90); cbn; lia.
Qed.

Lemma prefix_nocase_cr name r :
  Forall (fun c => c <> 13) name -> is_prefix_nocase name r = true -> 13 ∈ r ->
  13 ∈ drop (length name) r.
Proof.
  intros Hn. revert r. induction Hn as [|x name Hx _ IH]; intros r Hp Hr; [done|].
  destruct r as [|y r]; [done|]. cbn in Hp. apply andb_true_iff in Hp as [Hxy%Z.eqb_eq Hp].
  apply elem_of_cons in Hr as [<-|Hr]; [|by apply IH].
  by apply (proj1 (tolower_cr x)) in Hxy.
Qed.

Lemma drop_spaces_cr s : 13 ∈ s -> 13 ∈ drop_spaces s.
Proof.
  induction s as [|c s IH]; [done|]. cbn. intros [<-|H]%elem_of_cons; [by left|].
  destruct (Z.eqb_spec c 32) as [->|]; [by apply IH | by right].
Qed.

Lemma before_cr_split s : 13 ∈ s -> exists r, s = before_cr s ++ 13 :: r.
Proof.
  induction s as [|c s IH]; [by intros ?%elem_of_nil|]. cbn. intros H.
  destruct (Z.eqb_spec c 13) as [->|]; [by exists s|].
  apply elem_of_cons in H as [?|H]; [done|]. destruct (IH H) as [r Hr].
  exists r. cbn. by f_equal.
Qed.

Lemma before_cr_no_cr s : Forall (fun c => c <> 13) (before_cr s).
Proof. induction s as [|c s IH]; cbn; [constructor|]. destruct (Z.eqb_spec c 13); by constructor. Qed.

Lemma trim_end_split s : exists k, s = trim_end s ++ replicate k 32.
Proof.
  induction s as [|c s [k IH]]; [by exists O|]. cbn.
  destruct (trim_end s) as [|t ts].
  - destruct (Z.eqb_spec c 32) as [->|].
    + exists (Datatypes.S k). cbn in *. by f_equal.
    + exists k. cbn in *. by f_equal.
  - exists k. cbn. by f_equal.
Qed.

Lemma trim_end_last s x c : trim_end s = x ++ [c] -> c <> 32.
Proof.
  revert x. induction s as [|d s IH]; intros x; cbn; [by destruct x|].
  destruct (trim_end s) as [|t ts].
  - destruct (Z.eqb_spec d 32); [by destruct x|].
    destruct x as [|? [|??]]; cbn; congruence.
  - destruct x as [|y x]; cbn; [congruence|]. intros [= -> E]. by apply (IH x).
Qed.

Lemma trim_end_nonempty c s : c <> 32 -> trim_end (c :: s) <> [].
Proof. intros Hc. cbn. destruct (trim_end s); [|done]. by destruct (Z.eqb_spec c 32). Qed.

Section Lookup.
Context {S : Type} (E : failure -> Prop).

(** The search loop visits the line starts. *)
Lemma wpg_header_search_loop m name (Q : option Z -> S -> Prop) st : forall k s p n,
  (length s <= k)%nat -> cstr m p = Some s -> (length s < n)%nat ->
  match header_find name s with
  | Some r => Q (Some (p + (zlen s - zlen r))) st
  | None => Q None st
  end ->
  wpg E (loop n (header_search_body m name) p) Q st.
Proof.
  induction k as [k IH] using lt_wf_ind. intros s p n Hk Hs Hn HQ.
  destruct n as [|n]; [lia|]. apply wpg_loop_S. unfold header_search_body.
  wp_step. eapply wpg_access_Some; [by apply strstr_cstr|].
  assert (forall x r, s = x ++ CRLF ++ r -> find_sub CRLF s = Some (zlen x) ->
    header_find name s = if is_prefix_nocase name r then Some r else header_find name r)
    as Hfind.
  { clear. intros x r -> . induction x as [|c x IHx]; intros Hf.
    - clear Hf. unfold CRLF. cbn -[drop]. change (drop 1 (10 :: r)) with r.
      done.
    - cbn [app header_find find_sub] in *. destruct (is_prefix CRLF (c :: x ++ CRLF ++ r)) eqn:Hp.
      { injection Hf as Hf. rewrite zlen_cons in Hf. pose proof (zlen_nonneg x). lia. }
      cbn [andb]. apply IHx. destruct (find_sub CRLF (x ++ CRLF ++ r)) as [j|]; cbn in Hf; [|done].
      injection Hf as Hf. rewrite zlen_cons in Hf. f_equal. lia. }
  assert (find_sub CRLF s = None -> header_find name s = None) as Hnone.
  { clear. induction s as [|c s IHs]; [done|]. cbn [find_sub header_find].
    destruct (is_prefix CRLF (c :: s)); [done|]. cbn [andb].
    destruct (find_sub CRLF s); [done|]. auto. }
  change [13; 10] with CRLF.
  destruct (find_sub CRLF s) as [j|] eqn:Hf; cbn [fmap option_fmap option_map].
  2: { rewrite Hnone in HQ by done. exact HQ. }
  destruct (find_sub_Some _ _ _ Hf) as (x & r & Hx & Hj).
  specialize (Hfind x r Hx ltac:(congruence)). rewrite Hfind in HQ.
  assert (zlen s = j + 2 + zlen r) as Hl.
  { rewrite Hx, !zlen_app, Hj. change (zlen CRLF) with 2. lia. }
  assert (cstr m (p + j + 2) = Some r) as Hr.
  { replace (p + j + 2) with (p + (j + 2)) by lia.
    rewrite (cstr_advance _ _ _ (j + 2) Hs).
    - f_equal. rewrite Hx, app_assoc. rewrite drop_app_ge; rewrite ?length_app; unfold zlen in *.
      + replace (Z.to_nat (j + 2) - (length x + length CRLF))%nat with O; [done|].
        change (length CRLF) with 2%nat. lia.
      + change (length CRLF) with 2%nat. lia.
    - pose proof (zlen_nonneg r). pose proof (zlen_nonneg x). lia. }
  pose proof (zlen_nonneg x).
  wp_step. eapply wpg_access_Some; [exact Hr|]. wp_step.
  destruct (is_prefix_nocase name r).
  - replace (p + j + 2) with (p + (zlen s - zlen r)) by lia. done.
  - unfold zlen in *. apply (IH (length r) ltac:(lia) r); [lia | done | lia |].
    destruct (header_find name r) as [r'|]; [|done].
    by replace (p + j + 2 + (Z.of_nat (length r) - Z.of_nat (length r'))) with
      (p + (Z.of_nat (length s) - Z.of_nat (length r'))) by lia.
Qed.

(** The copy loop on a value that a CR ends. *)
Lemma wpg_header_copy_loop m len (Q : list Z * Z * bool -> S -> Prop) st : forall raw p v i n v0 pre,
  holds m p (raw ++ [13]) -> Forall (fun c => c <> 13) raw ->
  zblit v0 0 pre = Some v -> i = zlen pre -> zlen v0 = len -> i < len ->
  (Z.to_nat (len - i) < n)%nat ->
  (zlen pre + zlen raw < len ->
     forall v', zblit v0 0 (pre ++ raw ++ [0]) = Some v' -> Q (v', zlen pre + zlen raw, true) st) ->
  (len <= zlen pre + zlen raw -> forall v' i', zlen v' = len -> Q (v', i', false) st) ->
  wpg E (loop n (header_copy_body m len) (p, v, i)) Q st.
Proof.
  induction raw as [|c raw IH]; intros p v i n v0 pre Hm Hok Hv Hi Hlen Hil Hn HQ1 HQ2;
    (destruct n as [|n]; [lia|]); apply wpg_loop_S; cbn [header_copy_body];
    pose proof (zblit_zlen _ _ _ _ Hv) as Hvl; (destruct (Z.ltb_spec i len); [|lia]);
    destruct Hm as [Hc Hm]; wp_step; (eapply wpg_access_Some; [exact Hc|]).
  - rewrite Z.eqb_refl. cbn [negb]. wp_step.
    pose proof (zblit_snoc _ _ _ _ 0 Hv ltac:(lia)) as Hs. rewrite Z.add_0_l in Hs.
    destruct (zblit_ex v0 0 (pre ++ [0]) ltac:(lia)) as [v' Hv'].
    { rewrite zlen_app. change (zlen [0]) with 1. lia. }
    rewrite Hv' in Hs. subst i. eapply wpg_access_Some; [exact Hs|]. wp_step.
    rewrite zlen_nil, Z.add_0_r in HQ1. by apply HQ1.
  - apply Forall_cons in Hok as [Hc13 Hok]. destruct (Z.eqb_spec c 13); [done|].
    cbn [negb]. wp_step.
    pose proof (zblit_snoc _ _ _ _ c Hv ltac:(lia)) as Hs. rewrite Z.add_0_l in Hs.
    destruct (zblit_ex v0 0 (pre ++ [c]) ltac:(lia)) as [v' Hv'].
    { rewrite zlen_app. change (zlen [c]) with 1. lia. }
    rewrite Hv' in Hs. subst i. eapply wpg_access_Some; [exact Hs|]. wp_step.
    rewrite zlen_cons in *. pose proof (zlen_nonneg raw).
    destruct (Z.eqb_spec (zlen pre) (len - 1)).
    + apply HQ2; [lia|]. by rewrite (zblit_zlen _ _ _ _ Hv').
    + assert (zlen (pre ++ [c]) = zlen pre + 1) as Hpc by (by rewrite zlen_app).
      apply (IH _ v' _ n v0 (pre ++ [c])); try done; try lia.
      * rewrite Hpc. intros Hl v2. rewrite <- app_assoc. intros Hv2.
        replace (zlen pre + 1 + zlen raw) with (zlen pre + (zlen raw + 1)) by lia.
        apply HQ1; [lia | done].
      * rewrite Hpc. intros. apply HQ2; lia.
Qed.

(** The loop that cuts the spaces at the end of the value. *)
Lemma wpg_header_trim_loop t (Q : list Z -> S -> Prop) st : forall j v n,
  t <> [] -> (forall x c, t = x ++ [c] -> c <> 32) ->
  holds v 0 (t ++ replicate j 32 ++ [0]) -> (j < n)%nat ->
  (forall v', zlen v' = zlen v -> holds v' 0 (t ++ [0]) -> Q v' st) ->
  wpg E (loop n header_trim_body (v, zlen t + Z.of_nat j - 1)) Q st.
Proof.
  induction j as [|j IH]; intros v n Ht Hlast Hv Hn HQ;
    (destruct n as [|n]; [lia|]); apply wpg_loop_S; cbn [header_trim_body].
  - destruct (exists_last Ht) as (x & c & Ex).
    assert (zget v (zlen t + Z.of_nat 0 - 1) = Some c) as Hc.
    { replace (zlen t + Z.of_nat 0 - 1) with (0 + (zlen t - 1)) by lia.
      apply (holds_get _ _ (t ++ replicate 0 32 ++ [0])); [done|].
      rewrite zget_app_l by lia. rewrite Ex, zlen_app. change (zlen [c]) with 1.
      rewrite zget_app_r by lia. replace (zlen x + 1 - 1 - zlen x) with 0 by lia. done. }
    wp_step. eapply wpg_access_Some; [exact Hc|].
    destruct (Z.eqb_spec c 32) as [->|]; [by apply Hlast in Ex|]. wp_step. by apply HQ.
  - set (q := zlen t + Z.of_nat (Datatypes.S j) - 1).
    pose proof (zlen_nonneg t).
    replace (Datatypes.S j) with (j + 1)%nat in Hv by lia.
    rewrite replicate_add, <- app_assoc in Hv. cbn [replicate app] in Hv.
    pose proof (holds_bound _ _ _ Hv ltac:(by destruct t)) as [_ Hb].
    rewrite !zlen_app, zlen_replicate in Hb. change (zlen [32; 0]) with 2 in Hb.
    rewrite app_assoc in Hv. apply holds_app in Hv as [Hv1 [Hv2 _]].
    rewrite zlen_app, zlen_replicate in Hv2.
    replace (0 + (zlen t + Z.of_nat j)) with q in Hv2 by lia.
    wp_step. eapply wpg_access_Some; [exact Hv2|]. cbn [Z.eqb Pos.eqb].
    wp_step. eapply wpg_access_Some; [apply zset_is_Some; lia|]. wp_step.
    replace (q - 1) with (zlen t + Z.of_nat j - 1) by lia.
    apply IH; try done; [|lia|by rewrite zlen_insert].
    rewrite app_assoc. apply holds_app. split.
    + apply holds_insert_after; [lia| |done]. rewrite zlen_app, zlen_replicate. lia.
    + rewrite zlen_app, zlen_replicate. cbn. split; [|done].
      replace (0 + (zlen t + Z.of_nat j)) with q by lia. apply zget_insert_eq. lia.
Qed.

Lemma drop_cstr m p s k :
  cstr m p = Some s -> (k <= length s)%nat -> cstr m (p + Z.of_nat k) = Some (drop k s).
Proof.
  intros Hs Hk. rewrite (cstr_advance _ _ _ (Z.of_nat k) Hs) by (unfold zlen; lia).
  by rewrite Nat2Z.id.
Qed.

Lemma drop_spaces_cstr m p s :
  cstr m p = Some s ->
  cstr m (p + (zlen s - zlen (drop_spaces s))) = Some (drop_spaces s).
Proof.
  intros Hs. pose proof (drop_spaces_length s). pose proof (zlen_nonneg (drop_spaces s)).
  rewrite (cstr_advance _ _ _ _ Hs) by lia. by rewrite <- drop_spaces_drop.
Qed.

(** Copying and trimming a value that a CR ends. *)
Lemma wpg_header_copy_trim m q raw v len (Q : Z * list Z -> S -> Prop) st :
  holds m q (raw ++ [13]) -> Forall (fun c => c <> 13) raw -> Forall (fun c => c <> 0) raw ->
  (forall c r, raw = c :: r -> c <> 32) -> zlen v = len ->
  (zlen raw < len -> forall v', zlen v' = len -> cstr v' 0 = Some (trim_end raw) ->
     Q (1, v') st) ->
  (len <= zlen raw -> forall v', zlen v' = len -> Q (0, v') st) ->
  wpg E (let* (v, index, endCharFound) := header_copy m q v len in
         if negb endCharFound then ret (0, v)
         else if index =? 0 then ret (1, v)
         else v <- header_trim v index ;; ret (1, v)) Q st.
Proof.
  intros Hm Hcr Hnz Hsp Hlen HQ1 HQ2. pose proof (zlen_nonneg raw). pose proof (zlen_nonneg v).
  wp_step. unfold header_copy. destruct (decide (len = 0)) as [->|Hl0].
  { apply wpg_loop_S. cbn [header_copy_body]. change (0 <? 0) with false. wp_step.
    change (negb false) with true. cbv iota. wp_step. by apply HQ2. }
  apply (wpg_header_copy_loop m len _ st raw q v 0 _ v []); try done; try lia.
  - apply zblit_nil. lia.
  - rewrite zlen_nil, !Z.add_0_l. cbn [app negb]. intros Hlt v' Hv'.
    pose proof (zblit_zlen _ _ _ _ Hv') as Hvl. pose proof (zblit_holds _ _ _ _ Hv') as Hh.
    destruct (Z.eqb_spec (zlen raw) 0) as [Hz|Hz].
    { apply zlen_zero_nil in Hz as ->. wp_step. apply HQ1; [done | lia |].
      apply holds_cstr; [done | done | constructor]. }
    destruct raw as [|c raw]; [by rewrite zlen_nil in Hz|].
    destruct (trim_end_split (c :: raw)) as [j Hj].
    assert (trim_end (c :: raw) <> []) as Hte by (apply trim_end_nonempty; by eapply Hsp).
    assert (zlen (c :: raw) = zlen (trim_end (c :: raw)) + Z.of_nat j) as Hjl.
    { rewrite Hj at 1. by rewrite zlen_app, zlen_replicate. }
    wp_step. unfold header_trim. rewrite Hjl.
    rewrite Hj, <- app_assoc in Hh.
    apply wpg_header_trim_loop; [done | apply trim_end_last | exact Hh | |].
    + unfold zlen in *. lia.
    + intros v2 Hv2 Hh2. wp_step. apply HQ1; [done | lia |].
      apply holds_cstr; [done | done |]. rewrite Hj in Hnz. by apply Forall_app in Hnz as [? _].
  - rewrite zlen_nil, !Z.add_0_l. intros Hle v' i' Hv'. cbn [negb]. wp_step. by apply HQ2.
Qed.

(** httpHeaderGet returns 1 and the value, 0 when the value does not fit, or
    -1 when there is no such header. *)
Lemma wpg_httpHeaderGet m p s name v len (Q : Z * list Z -> S -> Prop) st :
  cstr m p = Some s -> ends_crlf s -> header_name name -> zlen v = len ->
  match header_raw name s with
  | None => Q (-1, v) st
  | Some raw =>
      (zlen raw < len -> forall v', zlen v' = len -> cstr v' 0 = Some (trim_end raw) ->
         Q (1, v') st) /\
      (len <= zlen raw -> forall v', zlen v' = len -> Q (0, v') st)
  end ->
  wpg E (mangoHelper_httpHeaderGet m p name v len) Q st.
Proof.
  intros Hs Hcrlf [Hne Hncr] Hlen HQ. unfold mangoHelper_httpHeaderGet, header_raw in *.
  wp_step. unfold header_search. eapply (wpg_header_search_loop m name _ st (length s) s);
    [lia | exact Hs | pose proof (cstr_bound _ _ _ Hs); unfold zlen in *; lia |].
  destruct (header_find name s) as [r|] eqn:Hf; cbn [mbind option_bind] in HQ; [|exact HQ].
  destruct (header_find_suffix _ _ _ Hf) as [[x Hx] Hpre].
  pose proof (is_prefix_nocase_length _ _ Hpre) as Hl.
  assert (cstr m (p + (zlen s - zlen r)) = Some r) as Hr.
  { assert (zlen s = zlen x + 2 + zlen r) as Hsl
      by (rewrite Hx, !zlen_app; change (zlen CRLF) with 2; lia).
    pose proof (zlen_nonneg r). pose proof (zlen_nonneg x).
    rewrite (cstr_advance _ _ _ _ Hs) by lia. f_equal.
    rewrite Hx at 2. rewrite app_assoc. rewrite drop_app_ge; rewrite length_app;
      change (length CRLF) with 2%nat; unfold zlen in *; [|lia].
    by replace (Z.to_nat (Z.of_nat (length s) - Z.of_nat (length r)) - (length x + 2))%nat
      with O by lia. }
  assert (13 ∈ r) as Hcr.
  { apply (ends_crlf_suffix x); [by intros ->; destruct name|]. by rewrite <- Hx. }
  apply (prefix_nocase_cr _ _ Hncr Hpre), drop_spaces_cr in Hcr.
  pose proof (drop_cstr _ _ _ _ Hr Hl) as H1. fold (zlen name) in H1.
  wp_step. eapply wpg_skip_spaces; [exact H1|].
  pose proof (drop_spaces_cstr _ _ _ H1) as H2.
  destruct (drop_spaces (drop (length name) r)) as [|c r2] eqn:Ec;
    [by apply elem_of_nil in Hcr|].
  pose proof (cstr_get _ _ _ 0 _ H2 eq_refl) as H3. rewrite Z.add_0_r in H3.
  wp_step. eapply wpg_access_Some; [exact H3|].
  destruct (Z.eqb_spec c 58) as [->|]; cbn [negb]; [|by wp_step].
  apply elem_of_cons in Hcr as [?|Hcr]; [done|].
  pose proof (drop_cstr _ _ _ 1 H2 ltac:(cbn; lia)) as H4. change (drop 1 (58 :: r2)) with r2 in H4.
  change (Z.of_nat 1) with 1 in H4.
  wp_step. eapply wpg_skip_spaces; [exact H4|]. apply drop_spaces_cstr in H4.
  apply drop_spaces_cr, before_cr_split in Hcr as [r3 Hraw].
  pose proof (cstr_holds _ _ _ H4) as H5. rewrite Hraw in H5 at 2.
  change (13 :: r3) with ([13] ++ r3) in H5. rewrite app_assoc, <- app_assoc in H5.
  apply holds_app in H5 as [H5 _].
  pose proof (cstr_nonzero _ _ _ H4) as Hnz.
  destruct HQ as [HQ1 HQ2].
  apply (wpg_header_copy_trim m _ (before_cr (drop_spaces r2))); try done.
  - apply before_cr_no_cr.
  - rewrite Hraw in Hnz. by apply Forall_app in Hnz as [? _].
  - intros c r4 Hc. rewrite Hc in Hraw. by apply drop_spaces_head in Hraw.
Qed.
End Lookup.
