(* ===== verification/MangoBase64.v ===== *)
(** mangoCrypto_base64.c: the encoder behind HTTP basic authentication, its
    comparison with the encoding of RFC 4648, and the round trip through a
    decoder. *)

From S2P Require Import Prelude.
From S2P Require Import CMonad.

Definition base64chars : list Z :=
  bytes "ABCDEFGHIJKLMNOPQRSTUVWXYZabcdefghijklmnopqrstuvwxyz0123456789+/".

Section Encode.
Context {S : Type}.

(** if(resultIndex >= resultSize) return -1; result[resultIndex++] = c;
    the state is [inl] once -1 has been returned. *)
Definition b64_put (p resultSize : Z) (c : Z) (st : list Z + list Z * Z)
    : M S (list Z + list Z * Z) :=
  match st with
  | inl m => ret (inl m)
  | inr (m, resultIndex) =>
      if resultSize <=? resultIndex then ret (inl m)
      else m <- access "mangoCrypto_base64Encode" (zset m (p + resultIndex) c) ;;
           ret (inr (m, resultIndex + 1))
  end.

(** b64_put of base64chars[n]. *)
Definition b64_put_char (p resultSize : Z) (n : Z) (st : list Z + list Z * Z)
    : M S (list Z + list Z * Z) :=
  match st with
  | inl m => ret (inl m)
  | inr _ =>
      c <- access "mangoCrypto_base64Encode" (zget base64chars n) ;;
      b64_put p resultSize c st
  end.

(** One round of the loop over the data. *)
Definition b64_body (data : list Z) (dataLength p resultSize : Z)
    (a : Z * (list Z + list Z * Z))
    : M S (Z * (list Z + list Z * Z) + (list Z + list Z * Z)) :=
  let '(x, st) := a in
  let site := "mangoCrypto_base64Encode"%string in
  match st with
  | inl m => ret (inr (inl m))
  | inr _ =>
      if x <? dataLength
      then
        d0 <- access site (zget data x) ;;
        let n := u32 (Z.shiftl d0 16) in
        n <- (if x + 1 <? dataLength
              then d1 <- access site (zget data (x + 1)) ;; ret (u32 (n + Z.shiftl d1 8))
              else ret n) ;;
        n <- (if x + 2 <? dataLength
              then d2 <- access site (zget data (x + 2)) ;; ret (u32 (n + d2))
              else ret n) ;;
        let n0 := Z.land (u8 (Z.shiftr n 18)) 63 in
        let n1 := Z.land (u8 (Z.shiftr n 12)) 63 in
        let n2 := Z.land (u8 (Z.shiftr n 6)) 63 in
        let n3 := Z.land (u8 n) 63 in
        st <- b64_put_char p resultSize n0 st ;;
        st <- b64_put_char p resultSize n1 st ;;
        st <- (if x + 1 <? dataLength then b64_put_char p resultSize n2 st else ret st) ;;
        st <- (if x + 2 <? dataLength then b64_put_char p resultSize n3 st else ret st) ;;
        ret (inl (x + 3, st))
      else ret (inr st)
  end.

(** for (; padCount < 3; padCount++): one '='. *)
Definition b64_pad_body (p resultSize : Z) (a : Z * (list Z + list Z * Z))
    : M S (Z * (list Z + list Z * Z) + (list Z + list Z * Z)) :=
  let '(padCount, st) := a in
  match st with
  | inl m => ret (inr (inl m))
  | inr _ =>
      if padCount <? 3
      then st <- b64_put p resultSize 61 st ;; ret (inl (padCount + 1, st))
      else ret (inr st)
  end.

(** [result] is the pointer &m[p]; returns the retval and the array. *)
Definition mangoCrypto_base64Encode (data : list Z) (dataLength : Z)
    (m : list Z) (p resultSize : Z) : M S (Z * list Z) :=
  let padCount := dataLength mod 3 in
  st <- loop (Datatypes.S (Datatypes.S (Z.to_nat dataLength)))
          (b64_body data dataLength p resultSize) (0, inr (m, 0)) ;;
  st <- (if 0 <? padCount then loop 4 (b64_pad_body p resultSize) (padCount, st)
         else ret st) ;;
  match st with
  | inl m => ret (-1, m)
  | inr (m, resultIndex) =>
      if resultSize <=? resultIndex then ret (-1, m)
      else m <- access "mangoCrypto_base64Encode" (zset m (p + resultIndex) 0) ;;
           ret (s32 resultIndex, m)
  end.
End Encode.

(** * The encoding of RFC 4648 *)

(** The character of a 6-bit value. *)
Definition b64_char (v : Z) : Z :=
  if v <? 26 then 65 + v
  else if v <? 52 then 97 + (v - 26)
  else if v <? 62 then 48 + (v - 52)
  else if v =? 62 then 43 else 47.

Fixpoint b64_encode (data : list Z) : list Z :=
  match data with
  | [] => []
  | [a] => [b64_char (a / 4); b64_char (a mod 4 * 16); 61; 61]
  | [a; b] => [b64_char (a / 4); b64_char (a mod 4 * 16 + b / 16);
               b64_char (b mod 16 * 4); 61]
  | a :: b :: c :: data =>
      b64_char (a / 4) :: b64_char (a mod 4 * 16 + b / 16) ::
      b64_char (b mod 16 * 4 + c / 64) :: b64_char (c mod 64) :: b64_encode data
  end.

Definition b64_value (c : Z) : option Z :=
  if (65 <=? c) && (c <=? 90) then Some (c - 65)
  else if (97 <=? c) && (c <=? 122) then Some (c - 97 + 26)
  else if (48 <=? c) && (c <=? 57) then Some (c - 48 + 52)
  else if c =? 43 then Some 62 else if c =? 47 then Some 63 else None.

(** A decoder of padded base64. *)
Fixpoint b64_decode (s : list Z) : option (list Z) :=
  match s with
  | [] => Some []
  | c0 :: c1 :: c2 :: c3 :: s =>
      v0 ← b64_value c0; v1 ← b64_value c1;
      match b64_value c2, b64_value c3 with
      | Some v2, Some v3 =>
          r ← b64_decode s;
          Some (v0 * 4 + v1 / 16 :: v1 mod 16 * 16 + v2 / 4 :: v2 mod 4 * 64 + v3 :: r)
      | Some v2, None =>
          if (c3 =? 61) && bool_decide (s = [])
          then Some [v0 * 4 + v1 / 16; v1 mod 16 * 16 + v2 / 4] else None
      | None, _ =>
          if (c2 =? 61) && (c3 =? 61) && bool_decide (s = [])
          then Some [v0 * 4 + v1 / 16] else None
      end
  | _ => None
  end.

Lemma b64_value_char v : 0 <= v < 64 -> b64_value (b64_char v) = Some v.
Proof.
  intros Hv. unfold b64_char.
  destruct (Z.ltb_spec v 26), (Z.ltb_spec v 52), (Z.ltb_spec v 62), (Z.eqb_spec v 62);
    try lia; unfold b64_value;
    repeat match goal with
           | |- context [?a <=? ?b] => destruct (Z.leb_spec a b); try lia
           | |- context [?a =? ?b] => destruct (Z.eqb_spec a b); try lia
           end; cbn [andb]; f_equal; lia.
Qed.

Ltac div_lia := Z.to_euclidean_division_equations; lia.

(** A list by groups of three, for the induction on the data. *)
Lemma triple_ind (P : list Z -> Prop) :
  P [] -> (forall a, P [a]) -> (forall a b, P [a; b]) ->
  (forall a b c l, P l -> P (a :: b :: c :: l)) -> forall l, P l.
Proof.
  intros H0 H1 H2 H3.
  assert (forall l, P l /\ (forall a, P (a :: l)) /\ (forall a b, P (a :: b :: l))) as H.
  { intros l. induction l as [|x l (IH1 & IH2 & IH3)]; [by repeat split|].
    repeat split; [done | done |]. intros a b. by apply H3. }
  intros l. apply H.
Qed.

Lemma b64_roundtrip data : Forall is_u8 data -> b64_decode (b64_encode data) = Some data.
Proof.
  induction data as [|a|a b|a b c data IH] using triple_ind; intros H.
  - done.
  - apply Forall_cons in H as [Ha _]. unfold is_u8 in Ha. cbn [b64_encode b64_decode].
    rewrite !b64_value_char by div_lia. cbn. do 2 f_equal. div_lia.
  - apply Forall_cons in H as [Ha [Hb _]%Forall_cons]. unfold is_u8 in *.
    cbn [b64_encode b64_decode].
    rewrite !b64_value_char by div_lia. cbn. do 2 f_equal; [|f_equal]; div_lia.
  - apply Forall_cons in H as [Ha [Hb [Hc Hd]%Forall_cons]%Forall_cons]. unfold is_u8 in *.
    cbn [b64_encode b64_decode].
    rewrite !b64_value_char by div_lia. rewrite IH by done. cbn.
    f_equal. repeat f_equal; div_lia.
Qed.

Lemma b64_encode_length data : zlen (b64_encode data) = (zlen data + 2) / 3 * 4.
Proof.
  induction data as [|a|a b|a b c data IH] using triple_ind; [done | done | done |].
  cbn [b64_encode]. rewrite !zlen_cons, IH. pose proof (zlen_nonneg data). div_lia.
Qed.

Lemma b64_char_nonzero v : 0 <= v -> b64_char v <> 0.
Proof.
  intros Hv. unfold b64_char.
  destruct (Z.ltb_spec v 26), (Z.ltb_spec v 52), (Z.ltb_spec v 62), (Z.eqb_spec v 62); lia.
Qed.

Lemma b64_encode_nonzero data : Forall is_u8 data -> Forall (fun c => c <> 0) (b64_encode data).
Proof.
  induction data as [|a|a b|a b c data IH] using triple_ind; intros H; cbn [b64_encode];
    repeat (apply Forall_cons in H as [? H]); unfold is_u8 in *;
    repeat constructor; try (apply b64_char_nonzero; div_lia); try done; by apply IH.
Qed.

(** * The code computes it *)

(** The encoding without its padding. *)
Fixpoint b64_chars (data : list Z) : list Z :=
  match data with
  | [] => []
  | [a] => [b64_char (a / 4); b64_char (a mod 4 * 16)]
  | [a; b] => [b64_char (a / 4); b64_char (a mod 4 * 16 + b / 16); b64_char (b mod 16 * 4)]
  | a :: b :: c :: data =>
      [b64_char (a / 4); b64_char (a mod 4 * 16 + b / 16);
       b64_char (b mod 16 * 4 + c / 64); b64_char (c mod 64)] ++ b64_chars data
  end.

Definition b64_pad (n : Z) : list Z :=
  if n mod 3 =? 0 then [] else replicate (Z.to_nat (3 - n mod 3)) 61.

Lemma b64_encode_pad data : b64_encode data = b64_chars data ++ b64_pad (zlen data).
Proof.
  induction data as [|a|a b|a b c data IH] using triple_ind; [done | done | done |].
  cbn [b64_encode b64_chars app]. rewrite IH. do 4 f_equal. f_equal.
  unfold b64_pad. rewrite !zlen_cons.
  replace (zlen data + 1 + 1 + 1) with (zlen data + 1 * 3) by lia.
  by rewrite Z.mod_add by lia.
Qed.

Lemma base64chars_get v : 0 <= v < 64 -> zget base64chars v = Some (b64_char v).
Proof.
  intros Hv.
  assert (Forall (fun v => zget base64chars v = Some (b64_char v))
    (Z.of_nat <$> seq 0 64)) as H.
  { apply (bool_decide_unpack _). vm_compute. exact I. }
  rewrite Forall_forall in H. apply H. apply list_elem_of_fmap.
  exists (Z.to_nat v). split; [lia|]. apply elem_of_seq. lia.
Qed.

(** The four 6-bit values the code takes out of its 24-bit number. *)
Lemma b64_sextets a b c :
  is_u8 a -> is_u8 b -> is_u8 c ->
  let n := u32 (u32 (u32 (Z.shiftl a 16) + Z.shiftl b 8) + c) in
  Z.land (u8 (Z.shiftr n 18)) 63 = a / 4 /\
  Z.land (u8 (Z.shiftr n 12)) 63 = a mod 4 * 16 + b / 16 /\
  Z.land (u8 (Z.shiftr n 6)) 63 = b mod 16 * 4 + c / 64 /\
  Z.land (u8 n) 63 = c mod 64.
Proof.
  unfold is_u8. intros Ha Hb Hc. cbv zeta. rewrite !Z.shiftl_mul_pow2 by lia.
  change (2 ^ 16) with 65536. change (2 ^ 8) with 256.
  rewrite (u32_small (a * 65536)) by (unfold is_u32; lia).
  rewrite (u32_small (a * 65536 + b * 256)) by (unfold is_u32; lia).
  rewrite (u32_small (a * 65536 + b * 256 + c)) by (unfold is_u32; lia).
  change 63 with (Z.ones 6). rewrite !Z.land_ones, !Z.shiftr_div_pow2 by lia.
  change (2 ^ 6) with 64. change (2 ^ 12) with 4096. change (2 ^ 18) with 262144.
  unfold u8. repeat split; div_lia.
Qed.

Section Correct.
Context {S : Type} (E : failure -> Prop).
Variables (m0 : list Z) (p rs : Z).
Hypothesis (Hp : 0 <= p) (Hrs : 0 <= rs) (Hfit : p + rs <= zlen m0).

(** After the characters [wr]: all written, or the buffer full and -1
    returned. *)
Definition b64_state (wr : list Z) (st : list Z + list Z * Z) : Prop :=
  match st with
  | inr (m, i) => i = zlen wr /\ zlen wr <= rs /\ zblit m0 p wr = Some m
  | inl m => rs < zlen wr /\ zblit m0 p (take (Z.to_nat rs) wr) = Some m
  end.

Lemma b64_state_full wr wr' m : b64_state wr (inl m) -> b64_state (wr ++ wr') (inl m).
Proof.
  intros [Hl Hm]. split.
  - rewrite zlen_app. pose proof (zlen_nonneg wr'). lia.
  - rewrite take_app_le; [done|]. unfold zlen in *. lia.
Qed.

Lemma wpg_b64_put wr c st (Q : _ -> S -> Prop) s :
  b64_state wr st -> (forall st', b64_state (wr ++ [c]) st' -> Q st' s) ->
  wpg E (b64_put p rs c st) Q s.
Proof.
  intros Hst HQ. destruct st as [m|[m i]]; cbn [b64_put].
  { wp_step. apply HQ. by apply b64_state_full. }
  destruct Hst as (-> & Hl & Hm).
  destruct (Z.leb_spec rs (zlen wr)).
  - wp_step. apply HQ. split.
    + rewrite zlen_app. change (zlen [c]) with 1. lia.
    + rewrite take_app_le by (unfold zlen in *; lia).
      rewrite firstn_all2; [done|]. unfold zlen in *. lia.
  - pose proof (zblit_snoc _ _ _ _ c Hm ltac:(lia)) as Hs.
    destruct (zblit_ex m0 p (wr ++ [c]) Hp) as [m' Hm'].
    { rewrite zlen_app. change (zlen [c]) with 1. lia. }
    rewrite Hm' in Hs. wp_step. eapply wpg_access_Some; [exact Hs|]. wp_step.
    apply HQ. split; [by rewrite zlen_app|]. split; [|done].
    rewrite zlen_app. change (zlen [c]) with 1. lia.
Qed.

Lemma wpg_b64_put_char wr v st (Q : _ -> S -> Prop) s :
  0 <= v < 64 ->
  b64_state wr st -> (forall st', b64_state (wr ++ [b64_char v]) st' -> Q st' s) ->
  wpg E (b64_put_char p rs v st) Q s.
Proof.
  intros Hv Hst HQ. unfold b64_put_char. destruct st as [m|mi].
  - wp_step. apply HQ. by apply b64_state_full.
  - wp_step. eapply wpg_access_Some; [by apply base64chars_get|]. by eapply wpg_b64_put.
Qed.

Ltac apply_state HQ :=
  apply HQ;
  match goal with
  | H : b64_state _ ?st |- b64_state _ ?st => rewrite <- ?app_assoc in H; exact H
  end.

(** One round encodes the next (at most) three bytes. *)
Lemma wpg_b64_body pre d data wr m (Q : _ -> S -> Prop) s :
  let a := pre ++ d :: data in
  Forall is_u8 (d :: data) -> b64_state wr (inr (m, zlen wr)) ->
  (forall st, b64_state (wr ++ b64_chars (take 3 (d :: data))) st ->
     Q (inl (zlen pre + 3, st)) s) ->
  wpg E (b64_body a (zlen a) p rs (zlen pre, inr (m, zlen wr))) Q s.
Proof.
  intros a Hok Hst HQ. subst a.
  assert (forall k, 0 <= k -> zget (pre ++ d :: data) (zlen pre + k) = zget (d :: data) k) as Hg.
  { intros k Hk. rewrite zget_app_r by lia. f_equal. lia. }
  cbn [b64_body]. rewrite zlen_app, zlen_cons. pose proof (zlen_nonneg data).
  pose proof (zlen_nonneg pre).
  destruct (Z.ltb_spec (zlen pre) (zlen pre + (zlen data + 1))); [|lia].
  wp_step. eapply wpg_access_Some.
  { rewrite <- (Z.add_0_r (zlen pre)), Hg by lia. apply zget_0. }
  apply Forall_cons in Hok as [Hd Hok]. cbv zeta.
  destruct data as [|e data]; [|destruct data as [|f data]].
  - rewrite !zlen_nil.
    destruct (Z.ltb_spec (zlen pre + 1) (zlen pre + (0 + 1))); [lia|].
    destruct (Z.ltb_spec (zlen pre + 2) (zlen pre + (0 + 1))); [lia|].
    pose proof (b64_sextets d 0 0 Hd) as Hx. unfold is_u8 in *.
    destruct (Hx ltac:(lia) ltac:(lia)) as (X0 & X1 & _).
    change (Z.shiftl 0 8) with 0 in X0, X1. rewrite !Z.add_0_r in X0, X1.
    rewrite !(u32_small (u32 (u32 _))), !(u32_small (u32 _)) in X0, X1 by apply u32_range.
    change (0 / 16) with 0 in X1. rewrite Z.add_0_r in X1.
    wp_steps. rewrite X0, X1. clear Hx X0 X1.
    do 2 (wp_steps; eapply wpg_b64_put_char; [div_lia | eassumption | intros ? ?]).
    wp_steps. by apply_state HQ.
  - apply Forall_cons in Hok as [He _]. rewrite !zlen_cons, !zlen_nil.
    destruct (Z.ltb_spec (zlen pre + 1) (zlen pre + (0 + 1 + 1))); [|lia].
    destruct (Z.ltb_spec (zlen pre + 2) (zlen pre + (0 + 1 + 1))); [lia|].
    pose proof (b64_sextets d e 0 Hd He) as Hx. unfold is_u8 in *.
    destruct (Hx ltac:(lia)) as (X0 & X1 & X2 & _).
    rewrite !Z.add_0_r in X0, X1, X2.
    rewrite !(u32_small (u32 (u32 _ + _))) in X0, X1, X2 by apply u32_range.
    wp_steps. eapply wpg_access_Some; [rewrite Hg by lia; reflexivity|].
    change (0 / 64) with 0 in X2. rewrite Z.add_0_r in X2.
    wp_steps. rewrite X0, X1, X2. clear Hx X0 X1 X2.
    do 3 (wp_steps; eapply wpg_b64_put_char; [div_lia | eassumption | intros ? ?]).
    wp_steps. by apply_state HQ.
  - apply Forall_cons in Hok as [He [Hf _]%Forall_cons]. rewrite !zlen_cons.
    pose proof (zlen_nonneg data).
    destruct (Z.ltb_spec (zlen pre + 1) (zlen pre + (zlen data + 1 + 1 + 1))); [|lia].
    destruct (Z.ltb_spec (zlen pre + 2) (zlen pre + (zlen data + 1 + 1 + 1))); [|lia].
    pose proof (b64_sextets d e f Hd He Hf) as (X0 & X1 & X2 & X3). unfold is_u8 in *.
    wp_steps. eapply wpg_access_Some; [rewrite Hg by lia; reflexivity|].
    wp_steps. eapply wpg_access_Some; [rewrite Hg by lia; reflexivity|].
    wp_steps. rewrite X0, X1, X2, X3. clear X0 X1 X2 X3.
    do 4 (wp_steps; eapply wpg_b64_put_char; [div_lia | eassumption | intros ? ?]).
    wp_steps. by apply_state HQ.
Qed.

Lemma b64_chars_take data : data <> [] ->
  b64_chars data = b64_chars (take 3 data) ++ b64_chars (drop 3 data).
Proof. destruct data as [|a [|b [|c data]]]; done. Qed.

(** The loop over the data, from any position and state. *)
Lemma wpg_b64_loop n : forall pre data wr st (Q : _ -> S -> Prop) s,
  Forall is_u8 data -> b64_state wr st -> (Datatypes.S (length data) < n)%nat ->
  (forall st', b64_state (wr ++ b64_chars data) st' -> Q st' s) ->
  wpg E (loop n (b64_body (pre ++ data) (zlen (pre ++ data)) p rs) (zlen pre, st)) Q s.
Proof.
  induction n as [|n IH]; intros pre data wr st Q s Hok Hst Hn HQ; [lia|].
  apply wpg_loop_S. destruct st as [m|[m i]].
  { cbn [b64_body]. wp_step. apply HQ. by apply b64_state_full. }
  pose proof Hst as (-> & _ & _).
  destruct data as [|d data].
  - rewrite app_nil_r. cbn [b64_body]. rewrite Z.ltb_irrefl. wp_step. apply HQ.
    cbn. by rewrite app_nil_r.
  - apply wpg_b64_body; [done | done |]. intros st Hst'.
    rewrite b64_chars_take in HQ by done.
    destruct data as [|e [|f data]].
    + destruct n as [|n]; [cbn in Hn; lia|]. apply wpg_loop_S.
      destruct st as [m'|mi]; cbn [b64_body].
      * wp_step. apply HQ. by rewrite app_nil_r.
      * rewrite zlen_app. change (zlen [d]) with 1.
        destruct (Z.ltb_spec (zlen pre + 3) (zlen pre + 1)); [lia|]. wp_step. apply HQ.
        by rewrite app_nil_r.
    + destruct n as [|n]; [cbn in Hn; lia|]. apply wpg_loop_S.
      destruct st as [m'|mi]; cbn [b64_body].
      * wp_step. apply HQ. by rewrite app_nil_r.
      * rewrite zlen_app. change (zlen [d; e]) with 2.
        destruct (Z.ltb_spec (zlen pre + 3) (zlen pre + 2)); [lia|]. wp_step. apply HQ.
        by rewrite app_nil_r.
    + specialize (IH (pre ++ [d; e; f]) data). rewrite <- app_assoc in IH. cbn [app] in IH.
      assert (zlen (pre ++ [d; e; f]) = zlen pre + 3) as Hp3 by (by rewrite zlen_app).
      rewrite Hp3 in IH.
      eapply IH; [|exact Hst'|cbn in Hn; lia|].
      * by repeat (apply Forall_cons in Hok as [_ Hok]).
      * intros st' Hs. apply HQ. by rewrite app_assoc.
Qed.

Lemma wpg_b64_pad k : forall wr st (Q : _ -> S -> Prop) s n,
  (k <= 3)%nat -> b64_state wr st -> (Datatypes.S k <= n)%nat ->
  (forall st', b64_state (wr ++ replicate k 61) st' -> Q st' s) ->
  wpg E (loop n (b64_pad_body p rs) (3 - Z.of_nat k, st)) Q s.
Proof.
  induction k as [|k IH]; intros wr st Q s n Hk Hst Hn HQ;
    (destruct n as [|n]; [lia|]); apply wpg_loop_S; destruct st as [m|mi];
    cbn [b64_pad_body].
  - wp_step. apply HQ. by apply b64_state_full.
  - change (3 - Z.of_nat 0 <? 3) with false. wp_step. apply HQ.
    by rewrite app_nil_r.
  - wp_step. apply HQ. by apply b64_state_full.
  - destruct (Z.ltb_spec (3 - Z.of_nat (Datatypes.S k)) 3); [|lia].
    wp_step. eapply wpg_b64_put; [done|]. intros st' Hst'. wp_step.
    replace (3 - Z.of_nat (Datatypes.S k) + 1) with (3 - Z.of_nat k) by lia.
    eapply IH; [lia | exact Hst' | lia |]. intros st2. rewrite <- app_assoc. apply HQ.
Qed.

(** The encoder writes the RFC 4648 encoding and a terminator, or returns -1
    with the buffer full. *)
Lemma wpg_base64Encode data (Q : Z * list Z -> S -> Prop) s :
  Forall is_u8 data -> zlen (b64_encode data) < 2147483648 ->
  (zlen (b64_encode data) < rs -> forall m', zblit m0 p (b64_encode data ++ [0]) = Some m' ->
     Q (zlen (b64_encode data), m') s) ->
  (rs <= zlen (b64_encode data) -> forall m',
     zblit m0 p (take (Z.to_nat rs) (b64_encode data)) = Some m' -> Q (-1, m') s) ->
  wpg E (mangoCrypto_base64Encode data (zlen data) m0 p rs) Q s.
Proof.
  intros Hok Hmax HQ1 HQ2. unfold mangoCrypto_base64Encode.
  assert (b64_state [] (inr (m0, 0))) as H0.
  { split; [done|]. split; [done|]. apply zblit_nil. lia. }
  wp_step. apply (wpg_b64_loop _ [] data [] _ _ _ Hok H0); [unfold zlen; lia|].
  cbn [app]. intros st1 H1.
  assert (forall st, b64_state (b64_encode data) st ->
    wpg E (match st with
           | inl m => ret (-1, m)
           | inr (m, resultIndex) =>
               if rs <=? resultIndex then ret (-1, m)
               else m <- access "mangoCrypto_base64Encode" (zset m (p + resultIndex) 0) ;;
                    ret (s32 resultIndex, m)
           end) Q s) as Hend.
  { intros [m|[m i]].
    - intros [Hl Hm]. wp_step. apply HQ2; [lia | done].
    - intros (-> & Hl & Hm). destruct (Z.leb_spec rs (zlen (b64_encode data))).
      + wp_step. apply HQ2; [done|]. rewrite firstn_all2; [done|]. unfold zlen in *. lia.
      + pose proof (zblit_snoc _ _ _ _ 0 Hm ltac:(lia)) as Hs.
        destruct (zblit_ex m0 p (b64_encode data ++ [0]) Hp) as [m' Hm'].
        { rewrite zlen_app. change (zlen [0]) with 1. lia. }
        rewrite Hm' in Hs. wp_step. eapply wpg_access_Some; [exact Hs|]. wp_step.
        rewrite s32_small by (pose proof (zlen_nonneg (b64_encode data)); lia).
        by apply HQ1. }
  rewrite b64_encode_pad in Hend. unfold b64_pad in Hend. wp_step.
  pose proof (Z.mod_pos_bound (zlen data) 3 ltac:(lia)) as Hmod.
  destruct (Z.eqb_spec (zlen data mod 3) 0) as [Hz|Hz].
  - rewrite Hz. change (0 <? 0) with false. wp_step. apply Hend. by rewrite app_nil_r.
  - destruct (Z.ltb_spec 0 (zlen data mod 3)); [|lia].
    pose proof (wpg_b64_pad (Z.to_nat (3 - zlen data mod 3)) (b64_chars data) st1) as Hpad.
    replace (3 - Z.of_nat (Z.to_nat (3 - zlen data mod 3))) with (zlen data mod 3) in Hpad by lia.
    apply Hpad; [lia | done | lia | exact Hend].
Qed.
End Correct.
