(* ===== verification/MangoPort.v ===== *)
(** mangoPort.c: the clock, and reading from and writing to the connection over
    TCP (recv, send) or TLS (SSL_read, SSL_write); mangoHelper_elapsedTime of
    mangoHelper.c and mangoSocket_read/write of mangoSM.c, the two functions
    that choose the transport.

    The buffer that is read into is always the client's working buffer, so
    [data] is an index into it; the bytes that are written may lie anywhere
    and are passed as a list.  [fuel] bounds the rounds of the loops, which end
    when the operating system lets them. *)

From S2P Require Import Prelude.
From S2P Require Import CMonad.
From S2P Require Import MangoTypes.

Section Port.
Context (E : environment) (fuel : nat).

Definition mangoPort_timeNow : M world Z :=
  let* (tv_sec, tv_usec) := do_gettimeofday E in
  ret (u32 (tv_sec * 1000 + Z.quot tv_usec 1000)).

Definition mangoHelper_elapsedTime (start : Z) : M world Z :=
  now <- mangoPort_timeNow ;;
  if start <=? now then ret (u32 (now - start))
  else ret (u32 (now + u32 (4294967295 - start))).

(** (x < datalen) && (mangoHelper_elapsedTime(start) < timeout), the
    condition of the transfer loops. *)
Definition port_again (x datalen start timeout : Z) : M world bool :=
  if x <? datalen
  then elapsed <- mangoHelper_elapsedTime start ;; ret (elapsed <? timeout)
  else ret false.

(** One round of the loop of mangoPort_read and mangoPort_sslread: [t] tells
    recv from SSL_read. *)
Definition port_read_body (t : transport) (data datalen start timeout : Z) (received : Z)
    : M world (Z + Z) :=
  let* (retval, d) := do_recv E t (u32 (datalen - received)) in
  if retval <? 0 then ret (inr (u32 retval))
  else
    received <- (if 0 <? retval
                 then wb <- hc workingBuffer ;;
                      wb <- access "mangoPort_read" (zblit wb (data + received) d) ;;
                      assign (set_workingBuffer wb) ;;
                      ret (u32 (received + retval))
                 else ret received) ;;
    again <- port_again received datalen start timeout ;;
    ret (if again then inl received else inr received).

(** mangoPort_read; mangoPort_sslread is the same text with SSL_read for recv. *)
Definition mangoPort_read (t : transport) (data datalen timeout : Z) : M world Z :=
  let datalen := u16 datalen in
  start <- mangoPort_timeNow ;;
  let* (r, isset, _) := do_select E false true (u32 (timeout * 1000)) in
  received <- (if (0 <? r) && isset
               then loop fuel (port_read_body t data datalen start timeout) 0
               else ret 0) ;;
  ret (s32 received).

(** do { readysock = select(...); } while(readysock <= 0); the set and the
    timeval are the ones the previous call left. *)
Definition port_select_body (st : bool * Z) : M world (bool * Z + bool) :=
  let '(watched, usec) := st in
  let* (readysock, isset, rest) := do_select E true watched usec in
  ret (if readysock <=? 0 then inl (isset, rest) else inr isset).

(** One round of the loop of mangoPort_write and mangoPort_sslwrite: [t]
    tells send from SSL_write. *)
Definition port_write_body (t : transport) (data : list Z) (datalen start timeout : Z)
    (sent : Z) : M world (Z + Z) :=
  let len := u32 (datalen - sent) in
  d <- access "mangoPort_write"
         (if (0 <=? sent) && (sent + len <=? zlen data) then Some (zsub data sent len)
          else None) ;;
  retval <- do_send E t d ;;
  if retval <? 0 then ret (inr (u32 retval))
  else
    let sent := if 0 <? retval then u32 (sent + retval) else sent in
    again <- port_again sent datalen start timeout ;;
    ret (if again then inl sent else inr sent).

(** mangoPort_write; mangoPort_sslwrite is the same text with SSL_write for
    send. *)
Definition mangoPort_write (t : transport) (data : list Z) (datalen timeout : Z)
    : M world Z :=
  let datalen := u16 datalen in
  start <- mangoPort_timeNow ;;
  isset <- loop fuel port_select_body (true, u32 (timeout * 1000)) ;;
  sent <- (if isset then loop fuel (port_write_body t data datalen start timeout) 0
           else ret 0) ;;
  ret (s32 sent).

Definition mangoPort_sslread (data datalen timeout : Z) : M world Z :=
  mangoPort_read TLS data datalen timeout.

Definition mangoPort_sslwrite (data : list Z) (datalen timeout : Z) : M world Z :=
  mangoPort_write TLS data datalen timeout.

Definition mangoSocket_read (data datalen timeout : Z) : M world Z :=
  let datalen := u16 datalen in
  let timeout := if timeout =? 0 then 1 else timeout in
  sec <- hc secure ;;
  retval <- (if sec =? 0 then mangoPort_read PLAIN data datalen timeout
             else mangoPort_sslread data datalen timeout) ;;
  (if retval <=? 0 then ret tt
   else st <- hc stats ;; assign (set_stats (set_rxBytes (u32 (rxBytes st + retval)) st))) ;;
  ret retval.

Definition mangoSocket_write (data : list Z) (datalen timeout : Z) : M world Z :=
  let datalen := u16 datalen in
  let timeout := if timeout =? 0 then 1 else timeout in
  sec <- hc secure ;;
  retval <- (if sec =? 0 then mangoPort_write PLAIN data datalen timeout
             else mangoPort_sslwrite data datalen timeout) ;;
  (if retval <=? 0 then ret tt
   else st <- hc stats ;; assign (set_stats (set_txBytes (u32 (txBytes st + retval)) st))) ;;
  ret retval.
End Port.
