(* ===== verification/MangoPortFacts.v ===== *)
(** Correctness of mangoPort.c: reading stores exactly the bytes the transport
    delivers, in order and inside the buffer; writing hands over a prefix of
    the data, in order and without repetition; when these functions return,
    and when the select loop of the writer never does. *)

From S2P Require Import Prelude.
From S2P Require Import CMonad.
From S2P Require Import MangoTypes.
From S2P Require Import MangoPort.

(** * What a run received, sent and told the application *)

Fixpoint received (tr : list sysEvent) : list Z :=
  match tr with
  | [] => []
  | SysRecv _ _ _ d :: tr => received tr ++ d
  | _ :: tr => received tr
  end.

Fixpoint accepted (tr : list sysEvent) : list Z :=
  match tr with
  | [] => []
  | SysSend _ d r :: tr => accepted tr ++ take (Z.to_nat r) d
  | _ :: tr => accepted tr
  end.

(** The arguments of the callback, oldest first. *)
Fixpoint app_calls (tr : list sysEvent) : list mangoArg_t :=
  match tr with
  | [] => []
  | AppCall a _ :: tr => app_calls tr ++ [a]
  | _ :: tr => app_calls tr
  end.

(** [io_step tr tr' rx tx calls]: from [tr] to [tr'] the run received [rx],
    sent [tx] and made [calls]. *)
Definition io_step (tr tr' : list sysEvent) (rx tx : list Z) (calls : list mangoArg_t) : Prop :=
  received tr' = received tr ++ rx /\ accepted tr' = accepted tr ++ tx /\
  app_calls tr' = app_calls tr ++ calls.

Definition quiet (tr tr' : list sysEvent) : Prop := io_step tr tr' [] [] [].

Lemma io_step_refl tr : quiet tr tr.
Proof. repeat split; by rewrite app_nil_r. Qed.

Lemma io_step_trans tr1 tr2 tr3 rx rx' tx tx' c c' :
  io_step tr1 tr2 rx tx c -> io_step tr2 tr3 rx' tx' c' ->
  io_step tr1 tr3 (rx ++ rx') (tx ++ tx') (c ++ c').
Proof.
  intros (H1 & H2 & H3) (H4 & H5 & H6). unfold io_step.
  rewrite H4, H5, H6, H1, H2, H3. by rewrite !app_assoc.
Qed.

Lemma io_step_quiet_r tr1 tr2 tr3 rx tx c :
  io_step tr1 tr2 rx tx c -> quiet tr2 tr3 -> io_step tr1 tr3 rx tx c.
Proof. intros H1 H2. pose proof (io_step_trans _ _ _ _ _ _ _ _ _ H1 H2) as H. by rewrite !app_nil_r in H. Qed.

Lemma io_step_quiet_l tr1 tr2 tr3 rx tx c :
  quiet tr1 tr2 -> io_step tr2 tr3 rx tx c -> io_step tr1 tr3 rx tx c.
Proof. intros H1 H2. exact (io_step_trans _ _ _ _ _ _ _ _ _ H1 H2). Qed.

Lemma quiet_trans tr1 tr2 tr3 : quiet tr1 tr2 -> quiet tr2 tr3 -> quiet tr1 tr3.
Proof. apply io_step_quiet_r. Qed.

Lemma quiet_time tr s u : quiet tr (SysTime s u :: tr).
Proof. exact (io_step_refl tr). Qed.
Lemma quiet_select tr a b c d e f : quiet tr (SysSelect a b c d e f :: tr).
Proof. exact (io_step_refl tr). Qed.
Lemma quiet_malloc tr s b : quiet tr (SysMalloc s b :: tr).
Proof. exact (io_step_refl tr). Qed.
Create HintDb io.
#[export] Hint Resolve io_step_refl quiet_time quiet_select quiet_malloc : io.

Lemma set_workingBuffer_id c : set_workingBuffer (workingBuffer c) c = c.
Proof. by destruct c. Qed.

Section Facts.
Context (E : environment) `{environment_ok E}.
Context (Fl : failure -> Prop) (fuel : nat).

Lemma wpg_timeNow w (Q : Z -> world -> Prop) :
  (forall n tr', is_u32 n -> quiet (trace w) tr' -> Q n (mkWorld (client w) tr')) ->
  wpg Fl (mangoPort_timeNow E) Q w.
Proof.
  intros HQ. unfold mangoPort_timeNow. wp_step. unfold do_gettimeofday, wpg at 1.
  destruct (gettimeofday E (trace w)) as [s u]. wp_step.
  apply HQ; [apply u32_range | apply quiet_time].
Qed.

Lemma wpg_elapsedTime start w (Q : Z -> world -> Prop) :
  (forall n tr', is_u32 n -> quiet (trace w) tr' -> Q n (mkWorld (client w) tr')) ->
  wpg Fl (mangoHelper_elapsedTime E start) Q w.
Proof.
  intros HQ. unfold mangoHelper_elapsedTime. wp_step. apply wpg_timeNow.
  intros n tr' _ Hq. destruct (start <=? n); wp_step; apply HQ; (done || apply u32_range).
Qed.

Lemma wpg_port_again x datalen start timeout w (Q : bool -> world -> Prop) :
  (forall b tr', (b = true -> x < datalen) -> quiet (trace w) tr' ->
     Q b (mkWorld (client w) tr')) ->
  wpg Fl (port_again E x datalen start timeout) Q w.
Proof.
  intros HQ. unfold port_again. destruct (Z.ltb_spec x datalen).
  - wp_step. apply wpg_elapsedTime. intros n tr' _ Hq. wp_step. by apply HQ.
  - wp_step. destruct w. apply HQ; [done | apply io_step_refl].
Qed.

Lemma wpg_recv t len w (Q : Z * list Z -> world -> Prop) :
  0 <= len ->
  (forall r d tr', -1 <= r <= len -> zlen d = Z.max 0 r -> Forall is_byte d ->
     io_step (trace w) tr' d [] [] -> r = (sys_recv E (trace w) t len).1 ->
     Q (r, d) (mkWorld (client w) tr')) ->
  wpg Fl (do_recv E t len) Q w.
Proof.
  intros Hl HQ. unfold do_recv, wpg. pose proof (recv_ok (trace w) t len Hl) as Hr.
  destruct (sys_recv E (trace w) t len) as [r d]. destruct Hr as (Hr & Hd & Hb).
  apply HQ; [done | done | done | |done]. repeat split; cbn; by rewrite ?app_nil_r.
Qed.

Lemma wpg_send t d w (Q : Z -> world -> Prop) :
  (forall r tr', -1 <= r <= zlen d -> r = sys_send E (trace w) t d ->
     io_step (trace w) tr' [] (take (Z.to_nat r) d) [] -> Q r (mkWorld (client w) tr')) ->
  wpg Fl (do_send E t d) Q w.
Proof.
  intros HQ. unfold do_send, wpg. pose proof (send_ok (trace w) t d) as Hr.
  apply HQ; [done | done |]. repeat split; cbn; by rewrite ?app_nil_r.
Qed.

Lemma wpg_select wr watched usec w (Q : Z * bool * Z -> world -> Prop) :
  (forall r b rest tr', -1 <= r <= 1 -> (r = 0 -> b = false) -> (0 < r -> watched = true /\ b = true) ->
     (r < 0 -> b = watched) ->
     quiet (trace w) tr' -> Q (r, b, rest) (mkWorld (client w) tr')) ->
  wpg Fl (do_select E wr watched usec) Q w.
Proof.
  intros HQ. unfold do_select, wpg. pose proof (select_ok (trace w) wr watched usec) as Hr.
  destruct (sys_select E (trace w) wr watched usec) as [[r b] rest].
  destruct Hr as (H1 & H2 & H3 & H4). apply HQ; try done. apply quiet_select.
Qed.

(** ** Reading *)

(** The state after [d] has been read into the buffer at [data]. *)
Definition read_state (w : world) (data datalen : Z) (d : list Z) (w' : world) : Prop :=
  zblit (workingBuffer (client w)) data d = Some (workingBuffer (client w')) /\
  client w' = set_workingBuffer (workingBuffer (client w')) (client w) /\
  zlen d <= datalen /\ Forall is_byte d /\ io_step (trace w) (trace w') d [] [].

Lemma read_state_quiet w data datalen d c tr tr' :
  read_state w data datalen d (mkWorld c tr) -> quiet tr tr' ->
  read_state w data datalen d (mkWorld c tr').
Proof.
  intros (H1 & H2 & H3 & H4 & H5) Hq. repeat split; try done; cbn in *;
    by apply (io_step_quiet_r _ _ _ _ _ _ H5 Hq).
Qed.

Lemma wpg_port_read_body w t data datalen start timeout d w1
    (Q : Z + Z -> world -> Prop) :
  0 <= data -> data + datalen <= zlen (workingBuffer (client w)) -> is_u16 datalen ->
  read_state w data datalen d w1 ->
  (forall d' w2, read_state w data datalen d' w2 -> zlen d <= zlen d' ->
     Q (inr (u32 (-1))) w2 /\ Q (inr (zlen d')) w2 /\
     (zlen d' < datalen ->
      zlen d < zlen d' \/ (exists tr len, 0 < len /\ (sys_recv E tr t len).1 = 0) ->
      Q (inl (zlen d')) w2)) ->
  wpg Fl (port_read_body E t data datalen start timeout (zlen d)) Q w1.
Proof.
  intros Hdata Hfit Hdl Hst HQ. pose proof Hst as (Hb & Hc & Hl & Hok & Hio).
  unfold is_u16 in Hdl. pose proof (zlen_nonneg d).
  unfold port_read_body. wp_step. rewrite u32_small by (unfold is_u32; lia).
  apply wpg_recv; [lia|]. intros r d1 tr1 Hr Hd1 Hd1b Hio1 Hsr.
  cbn beta iota. destruct (Z.ltb_spec r 0).
  - wp_step. replace r with (-1) by lia. apply (HQ d); [|lia].
    replace d1 with (@nil Z) in Hio1 by (symmetry; apply zlen_zero_nil; lia).
    destruct w1. by apply (read_state_quiet _ _ _ _ _ _ _ Hst).
  - assert (wpg Fl (if 0 <? r
              then wb <- hc workingBuffer ;;
                   wb <- access "mangoPort_read" (zblit wb (data + zlen d) d1) ;;
                   assign (set_workingBuffer wb) ;; ret (u32 (zlen d + r))
              else ret (zlen d))
            (fun n w2 => n = zlen (d ++ d1) /\ read_state w data datalen (d ++ d1) w2)
            (mkWorld (client w1) tr1)) as Hmid.
    { assert (zlen (d ++ d1) = zlen d + r) as Hl2 by (rewrite zlen_app; lia).
      pose proof (zblit_app _ _ _ d1 _ Hb ltac:(lia)) as Happ.
      destruct (zblit_ex (workingBuffer (client w)) data (d ++ d1) Hdata) as [wb' Hwb'];
        [lia|]. rewrite Hwb' in Happ.
      assert (forall c, c = set_workingBuffer wb' (client w) ->
        read_state w data datalen (d ++ d1) (mkWorld c tr1)) as Hrs.
      { intros c ->. repeat split; cbn; [done | lia | by apply Forall_app |..];
          pose proof (io_step_trans _ _ _ _ _ _ _ _ _ Hio Hio1) as Hx; apply Hx. }
      destruct (Z.ltb_spec 0 r).
      - mg_steps. eapply wpg_access_Some; [exact Happ|]. mg_steps.
        rewrite u32_small by (unfold is_u32; lia). split; [lia|].
        apply Hrs. cbn. by rewrite Hc.
      - wp_step. assert (d1 = []) as -> by (apply zlen_zero_nil; lia).
        rewrite app_nil_r in *. split; [done|]. apply Hrs. rewrite Hc.
        rewrite Hwb' in Hb. injection Hb as ->. done. }
    wp_step. eapply wpg_mono; [exact Hmid|]. intros n w2 [-> Hs2].
    wp_step. apply wpg_port_again. intros b tr2 Hb2 Hq2. wp_step.
    destruct (HQ (d ++ d1) (mkWorld (client w2) tr2)) as (_ & HQ1 & HQ2).
    + destruct w2. by apply (read_state_quiet _ _ _ _ _ _ _ Hs2).
    + rewrite zlen_app. pose proof (zlen_nonneg d1). lia.
    + destruct b; [|exact HQ1]. specialize (Hb2 eq_refl). apply HQ2; [done|].
      rewrite zlen_app in *. destruct (decide (r = 0)) as [Hr0|]; [right|left; lia].
      exists (trace w1), (datalen - zlen d). split; [pose proof (zlen_nonneg d1); lia | congruence].
Qed.

(** mangoPort_read, by its loop. *)
Lemma wpg_port_read_loop t data datalen timeout w (Q : Z -> world -> Prop) :
  0 <= data -> data + datalen <= zlen (workingBuffer (client w)) -> is_u16 datalen ->
  (forall r d w', read_state w data datalen d w' -> r = -1 \/ r = zlen d -> Q r w') ->
  (forall start w0, read_state w data datalen [] w0 ->
     (forall (r : Z) d w', read_state w data datalen d w' -> r = u32 (-1) \/ r = zlen d ->
        wpg Fl (ret (s32 r)) Q w') ->
     wpg Fl (loop fuel (port_read_body E t data datalen start timeout) 0)
       (fun r w' => wpg Fl (ret (s32 r)) Q w') w0) ->
  wpg Fl (mangoPort_read E fuel t data datalen timeout) Q w.
Proof.
  intros Hdata Hfit Hdl HQ Hloop. unfold mangoPort_read. rewrite (u16_small datalen Hdl).
  wp_step. apply wpg_timeNow. intros start tr1 _ Hq1.
  wp_step. apply wpg_select. intros r b rest tr2 _ _ _ _ Hq2.
  assert (read_state w data datalen [] (mkWorld (client w) tr2)) as H0.
  { unfold is_u16 in Hdl. pose proof (quiet_trans _ _ _ Hq1 Hq2). split_and!; cbn; try done.
    - apply zblit_nil. lia.
    - by rewrite set_workingBuffer_id.
    - change (zlen (@nil Z)) with 0. lia. }
  assert (forall d : list Z, zlen d <= datalen -> s32 (zlen d) = zlen d) as Hs32.
  { intros d Hd. unfold is_u16 in Hdl. pose proof (zlen_nonneg d). apply s32_small. lia. }
  wp_step. cbn beta iota. destruct ((0 <? r) && b).
  2: { wp_steps. apply (HQ 0 []); [done | by right]. }
  apply Hloop; [done|]. intros r' d w' Hst Hr. wp_step. apply (HQ _ d); [done|].
  destruct Hr as [->| ->]; [by left|right]. apply Hs32. apply Hst.
Qed.

(** mangoPort_read: the buffer receives the bytes the transport delivers. *)
Lemma wpg_port_read t data datalen timeout w (Q : Z -> world -> Prop) :
  Fl OutOfFuel ->
  0 <= data -> data + datalen <= zlen (workingBuffer (client w)) -> is_u16 datalen ->
  (forall r d w', read_state w data datalen d w' -> r = -1 \/ r = zlen d -> Q r w') ->
  wpg Fl (mangoPort_read E fuel t data datalen timeout) Q w.
Proof.
  intros HF Hdata Hfit Hdl HQ. apply wpg_port_read_loop; [done | done | done | done|].
  intros start w0 H0 HQ'.
  apply (wpg_loop_partial _ _ (fun n w' => exists d, n = zlen d /\ read_state w data datalen d w'));
    [done| |by exists []].
  intros n w1 (d & -> & Hst). apply (wpg_port_read_body w); try done.
  intros d' w2 Hst2 _. split; [by apply (HQ' _ d'); [|left]|].
  split; [by apply (HQ' _ d'); [|right]|]. by exists d'.
Qed.

(** It returns when every recv brings something or fails: one round per byte
    is enough. *)
Lemma wpg_port_read_total t data datalen timeout w (Q : Z -> world -> Prop) :
  (forall tr len, 0 < len -> (sys_recv E tr t len).1 <> 0) ->
  (Z.to_nat datalen < fuel)%nat ->
  0 <= data -> data + datalen <= zlen (workingBuffer (client w)) -> is_u16 datalen ->
  (forall r d w', read_state w data datalen d w' -> r = -1 \/ r = zlen d -> Q r w') ->
  wpg Fl (mangoPort_read E fuel t data datalen timeout) Q w.
Proof.
  intros Hlive Hfuel Hdata Hfit Hdl HQ. apply wpg_port_read_loop; [done | done | done | done|].
  intros start w0 H0 HQ'.
  apply (wpg_loop Fl _ (fun n w' => exists d, n = zlen d /\ read_state w data datalen d w')
    (fun n _ => Z.to_nat (datalen - n))).
  - intros n w1 (d & -> & Hst). apply (wpg_port_read_body w); try done.
    intros d' w2 Hst2 _. pose proof (zlen_nonneg d'). pose proof Hst2 as (_ & _ & Hl2 & _).
    split; [by apply (HQ' _ d'); [|left]|]. split; [by apply (HQ' _ d'); [|right]|].
    intros Hlt [Hd|(tr & len & Hlen & Hz)]; [|by apply Hlive in Hz].
    split; [by exists d'|]. pose proof (zlen_nonneg d). lia.
  - by exists [].
  - rewrite Z.sub_0_r. done.
Qed.

(** ** Writing *)

(** The state after the first [k] bytes of [data] have been handed over. *)
Definition write_state (w : world) (data : list Z) (datalen k : Z) (w' : world) : Prop :=
  client w' = client w /\ 0 <= k <= datalen /\
  io_step (trace w) (trace w') [] (take (Z.to_nat k) data) [].

Lemma write_state_quiet w data datalen k w1 c tr :
  write_state w data datalen k w1 -> c = client w1 -> quiet (trace w1) tr ->
  write_state w data datalen k (mkWorld c tr).
Proof.
  intros (H1 & H2 & H3) -> Hq. repeat split; try done; try lia; cbn;
    by apply (io_step_quiet_r _ _ _ _ _ _ H3 Hq).
Qed.

(** The select loop returns with the descriptor in the set. *)
Lemma wpg_port_select w (Q : bool -> world -> Prop) watched usec :
  Fl OutOfFuel ->
  (forall tr', quiet (trace w) tr' -> Q true (mkWorld (client w) tr')) ->
  wpg Fl (loop fuel (port_select_body E) (watched, usec)) Q w.
Proof.
  intros HF HQ.
  apply (wpg_loop_partial _ _ (fun _ w' => client w' = client w /\ quiet (trace w) (trace w')));
    [done | | split; [done | apply io_step_refl]].
  intros [wd us] w1 [Hc Hq]. cbn [port_select_body]. wp_step.
  apply wpg_select. intros r b rest tr' _ _ Hpos _ Hq'. wp_step.
  pose proof (quiet_trans _ _ _ Hq Hq') as Hq2.
  destruct (Z.leb_spec r 0); [done|]. destruct (Hpos ltac:(lia)) as [_ ->].
  rewrite Hc. by apply HQ.
Qed.

Lemma wpg_port_write_body w t data datalen start timeout k w1
    (Q : Z + Z -> world -> Prop) :
  datalen <= zlen data -> is_u16 datalen -> write_state w data datalen k w1 ->
  (forall k' w2, write_state w data datalen k' w2 -> k <= k' ->
     Q (inr (u32 (-1))) w2 /\ Q (inr k') w2 /\
     (k' < datalen -> k < k' \/ (exists tr d, d <> [] /\ sys_send E tr t d = 0) ->
      Q (inl k') w2)) ->
  wpg Fl (port_write_body E t data datalen start timeout k) Q w1.
Proof.
  intros Hfit Hdl Hst HQ. pose proof Hst as (Hc & Hk & Hio). unfold is_u16 in Hdl.
  unfold port_write_body. cbv zeta. rewrite u32_small by (unfold is_u32; lia).
  destruct (Z.leb_spec 0 k), (Z.leb_spec (k + (datalen - k)) (zlen data)); cbn [andb]; try lia.
  wp_step. wp_step. wp_step. apply wpg_send. intros r tr1 Hr Hsr Hio1.
  assert (zlen (zsub data k (datalen - k)) = datalen - k) as Hl by (apply zlen_zsub; lia).
  rewrite Hl in Hr. cbn beta iota.
  destruct (Z.ltb_spec r 0).
  - wp_step. replace r with (-1) by lia.
    replace (Z.to_nat r) with O in Hio1 by lia. cbn [take] in Hio1.
    apply (HQ k); [|lia]. by apply (write_state_quiet _ _ _ _ _ _ _ Hst).
  - assert (write_state w data datalen (k + r) (mkWorld (client w1) tr1)) as Hst1.
    { split; [done|]. split; [lia|].
      pose proof (io_step_trans _ _ _ _ _ _ _ _ _ Hio Hio1) as Hx.
      replace (take (Z.to_nat (k + r)) data) with
        (take (Z.to_nat k) data ++ take (Z.to_nat r) (zsub data k (datalen - k))); [done|].
      unfold zsub. rewrite take_take, Nat.min_l by lia.
      replace (Z.to_nat (k + r)) with (Z.to_nat k + Z.to_nat r)%nat by lia.
      by rewrite take_take_drop. }
    assert ((if 0 <? r then u32 (k + r) else k) = k + r) as ->.
    { destruct (Z.ltb_spec 0 r); [|lia]. apply u32_small. unfold is_u32. lia. }
    wp_step. apply wpg_port_again. intros b tr2 Hb2 Hq2. wp_step.
    destruct (HQ (k + r) (mkWorld (client w1) tr2)) as (_ & HQ1 & HQ2); [|lia|].
    + by apply (write_state_quiet _ _ _ _ _ _ _ Hst1).
    + destruct b; [|exact HQ1]. specialize (Hb2 eq_refl). apply HQ2; [done|].
      destruct (decide (r = 0)) as [Hr0|]; [right | left; lia].
      do 2 eexists. split; [|by rewrite <- Hr0, Hsr].
      intros Hnil. rewrite Hnil, zlen_nil in Hl. lia.
Qed.

(** mangoPort_write: a prefix of the data, in order. *)
Lemma wpg_port_write t data datalen timeout w (Q : Z -> world -> Prop) :
  Fl OutOfFuel -> u16 datalen <= zlen data ->
  (forall r k w', write_state w data (u16 datalen) k w' -> r = -1 \/ r = k -> Q r w') ->
  wpg Fl (mangoPort_write E fuel t data datalen timeout) Q w.
Proof.
  intros HF Hfit HQ. pose proof (u16_range datalen) as Hdl. unfold mangoPort_write.
  revert Hdl Hfit HQ. generalize (u16 datalen). clear datalen. intros datalen Hdl Hfit HQ.
  wp_step. apply wpg_timeNow. intros start tr1 _ Hq1. cbn beta iota.
  wp_step. apply wpg_port_select; [done|]. intros tr2 Hq2. cbn beta iota.
  assert (write_state w data datalen 0 (mkWorld (client w) tr2)) as H0.
  { unfold is_u16 in Hdl. split; [done|]. split; [lia|]. apply (quiet_trans _ _ _ Hq1 Hq2). }
  wp_step.
  apply (wpg_loop_partial _ _ (fun n w' => write_state w data datalen n w')); [done| |done].
  intros n w1 Hst. apply (wpg_port_write_body w); try done.
  intros k' w2 Hst2 _. pose proof Hst2 as (_ & Hk & _). unfold is_u16 in Hdl.
  split; [|split; [|done]].
  - wp_step. apply (HQ _ k'); [done | by left].
  - wp_step. apply (HQ _ k'); [done|]. right. apply s32_small. lia.
Qed.

(** It returns when the socket becomes writable at once and every send makes
    progress: one round per byte is enough. *)
Lemma wpg_port_write_total t data datalen timeout w (Q : Z -> world -> Prop) :
  (forall tr usec, 0 < (sys_select E tr true true usec).1.1) ->
  (forall tr d, d <> [] -> sys_send E tr t d <> 0) ->
  (Z.to_nat (u16 datalen) < fuel)%nat -> u16 datalen <= zlen data ->
  (forall r k w', write_state w data (u16 datalen) k w' -> r = -1 \/ r = k -> Q r w') ->
  wpg Fl (mangoPort_write E fuel t data datalen timeout) Q w.
Proof.
  intros Hsel Hsend Hfuel Hfit HQ. pose proof (u16_range datalen) as Hdl.
  unfold mangoPort_write. revert Hdl Hfuel Hfit HQ. generalize (u16 datalen).
  clear datalen. intros datalen Hdl Hfuel Hfit HQ. unfold is_u16 in Hdl.
  wp_step. apply wpg_timeNow. intros start tr1 _ Hq1. cbn beta iota.
  wp_step. destruct fuel as [|n]; [lia|]. apply wpg_loop_S. cbn [port_select_body].
  wp_step. unfold do_select, wpg at 1. cbn [trace].
  specialize (Hsel tr1 (u32 (timeout * 1000))).
  pose proof (select_ok tr1 true true (u32 (timeout * 1000))) as Hok.
  destruct (sys_select E tr1 true true _) as [[r b] rest]. cbn in Hsel.
  destruct Hok as (_ & _ & Hpos & _). destruct (Hpos Hsel) as [_ ->].
  wp_step. destruct (Z.leb_spec r 0); [lia|]. wp_step.
  apply (wpg_loop Fl _ (fun k w' => write_state w data datalen k w')
    (fun k _ => Z.to_nat (datalen - k))); [|split; [done|]; split; [lia|exact Hq1]|lia].
  intros k w1 Hst. apply (wpg_port_write_body w); try done.
  intros k' w2 Hst2 _. pose proof Hst2 as (_ & Hk & _).
  split; [|split].
  - wp_step. apply (HQ _ k'); [done | by left].
  - wp_step. apply (HQ _ k'); [done|]. right. apply s32_small. lia.
  - intros Hlt [Hk'|(tr & d & Hd & Hz)]; [|by apply Hsend in Hz]. split; [done|].
    destruct Hst as (_ & Hk0 & _). lia.
Qed.

(** A select that times out clears the set, which is never armed again. *)
Lemma port_select_stuck n usec w :
  loop n (port_select_body E) (false, usec) w = Stop OutOfFuel.
Proof.
  revert usec w. induction n as [|n IH]; intros usec w; [done|]. cbn [loop].
  unfold port_select_body, bind, do_select.
  pose proof (select_ok (trace w) true false usec) as Hok.
  destruct (sys_select E (trace w) true false usec) as [[r b] rest].
  destruct Hok as (Hr & Hz & Hpos & Hneg). cbn [ret].
  destruct (Z.leb_spec r 0); [|by destruct (Hpos ltac:(lia))].
  cbn [ret]. assert (b = false) as ->; [|apply IH].
  destruct (decide (r = 0)); [by apply Hz | apply Hneg; lia].
Qed.
End Facts.

(** * What the writer promises

    The contract of mangoPort_write, against which its callers are verified:
    whatever it returns, it has handed over a prefix of the data.  It holds of
    every environment when the fuel may run out, and with total correctness
    when the connection makes progress. *)

Class can_write (Fl : failure -> Prop) (E : environment) (fuel : nat) : Prop :=
  wpg_can_write t data datalen timeout w (Q : Z -> world -> Prop) :
    u16 datalen <= zlen data ->
    (forall r k w', write_state w data (u16 datalen) k w' -> r = -1 \/ r = k -> Q r w') ->
    wpg Fl (mangoPort_write E fuel t data datalen timeout) Q w.

(** A socket that is writable and takes at least a byte, or reports an error. *)
Class live_connection (E : environment) : Prop := {
  live_select tr usec : 0 < (sys_select E tr true true usec).1.1;
  live_send tr t d : d <> [] -> sys_send E tr t d <> 0
}.

Lemma can_write_partial (Fl : failure -> Prop) E fuel :
  environment_ok E -> Fl OutOfFuel -> can_write Fl E fuel.
Proof. intros HE HF t data datalen timeout w Q Hfit HQ. by apply wpg_port_write. Qed.

Lemma can_write_live Fl E fuel :
  environment_ok E -> live_connection E -> 65536 <= Z.of_nat fuel -> can_write Fl E fuel.
Proof.
  intros HE HL Hfuel t data datalen timeout w Q Hfit HQ.
  apply wpg_port_write_total; try done; [apply live_select | intros; by apply live_send |].
  pose proof (u16_range datalen) as Hu. unfold is_u16 in Hu. lia.
Qed.

#[export] Hint Extern 4 (can_write _ _ _) =>
  (apply can_write_partial; [assumption | first [assumption | constructor | reflexivity]])
  : typeclass_instances.
