(* ===== verification/MangoWS.v ===== *)
(** mangoWS.c: building, masking and sending websocket frames.

    The frame is an array of the size the code allocates; its bytes are 0
    before they are written (those that are sent are always written first).
    The client's frames leave through mangoPort_write, as in the code, whatever
    the transport of the client is. *)

From S2P Require Import Prelude.
From S2P Require Import CMonad.
From S2P Require Import MangoTypes.
From S2P Require Import MangoPort.

Section WS.
Context (E : environment) (fuel : nat).

(** frame[i++] = x, for the successive values of a list. *)
Fixpoint frame_puts {S} (xs : list Z) (st : list Z * Z) : M S (list Z * Z) :=
  match xs with
  | [] => ret st
  | x :: xs =>
      frame <- access "mangoWS_frameSend" (zset st.1 st.2 (u8 x)) ;;
      frame_puts xs (frame, st.2 + 1)
  end.

Definition ws_maskingkey : M world (list Z) :=
  t0 <- mangoPort_timeNow E ;;
  t1 <- mangoPort_timeNow E ;;
  let k0 := u8 t0 in
  let k1 := u8 (Z.shiftr t1 8) in
  let k2 := Z.land k0 k1 in
  let k3 := Z.lxor k1 k2 in
  ret [k0; k1; k2; k3].

(** The header bytes, in the order of the frame[i++] assignments, and framelen. *)
Definition ws_header (type : mangoWsFrameType_t) (maskingkey : list Z) (buflen : Z)
    : list Z * Z :=
  let op := Z.lor 128 (ws_frame_type_code type) in
  if buflen <=? 125
  then (op :: Z.lor 128 buflen :: maskingkey, u32 (buflen + 6))
  else if buflen <=? 65535
  then (op :: Z.lor 128 126 :: Z.land (Z.shiftr buflen 8) 255 :: Z.land buflen 255 ::
        maskingkey, u32 (buflen + 8))
  else (op :: Z.lor 128 127 :: 0 :: 0 :: 0 :: 0 ::
        Z.land (Z.shiftr buflen 24) 255 :: Z.land (Z.shiftr buflen 16) 255 ::
        Z.land (Z.shiftr buflen 8) 255 :: Z.land buflen 255 :: maskingkey,
        u32 (buflen + 14)).

(** frame[i++] = buf[k] ^ maskingkey[j]; k++ for the successive [j]. *)
Fixpoint mask_puts {S} (buf maskingkey : list Z) (js : list Z) (st : list Z * Z * Z)
    : M S (list Z * Z * Z) :=
  match js with
  | [] => ret st
  | j :: js =>
      let '(frame, i, k) := st in
      b <- access "mangoWS_frameSend" (zget buf k) ;;
      m <- access "mangoWS_frameSend" (zget maskingkey j) ;;
      let* (frame, i) := frame_puts [Z.lxor b m] (frame, i) in
      mask_puts buf maskingkey js (frame, i, k + 1)
  end.

(** One round of while(buflen >= 8). *)
Definition mask8_body {S} (buf maskingkey : list Z) (st : list Z * Z * Z * Z)
    : M S (list Z * Z * Z * Z + list Z * Z * Z * Z) :=
  let '(frame, i, k, buflen) := st in
  if 8 <=? buflen
  then let* (frame, i, k) :=
         mask_puts buf maskingkey [0; 1; 2; 3; 0; 1; 2; 3] (frame, i, k) in
       ret (inl (frame, i, k, buflen - 8))
  else ret (inr st).

(** One round of while(buflen > 0). *)
Definition mask1_body {S} (buf maskingkey : list Z) (st : list Z * Z * Z * Z)
    : M S (list Z * Z * Z * Z + list Z) :=
  let '(frame, i, k, buflen) := st in
  if 0 <? buflen
  then let* (frame, i, k) := mask_puts buf maskingkey [k mod 4] (frame, i, k) in
       ret (inl (frame, i, k, buflen - 1))
  else ret (inr frame).

(** The frame: header, key and masked payload; and framelen. *)
Definition ws_build {S} (frame : list Z) (type : mangoWsFrameType_t)
    (maskingkey buf : list Z) (buflen : Z) : M S (list Z * Z) :=
  let '(header, framelen) := ws_header type maskingkey buflen in
  let* (frame, i) := frame_puts header (frame, 0) in
  st <- loop (Datatypes.S (length buf)) (mask8_body buf maskingkey) (frame, i, 0, buflen) ;;
  frame <- loop (Datatypes.S (length buf)) (mask1_body buf maskingkey) st ;;
  ret (frame, framelen).

(** The payload after the switch on the type: buf and buflen. *)
Definition ws_payload {S} (buf : list Z) (buflen : Z) (type : mangoWsFrameType_t)
    : M S (list Z * Z) :=
  match type with
  | MANGO_WS_FRAME_TYPE_CONT => ensure "mangoWS_frameSend" false ;; ret (buf, buflen)
  | MANGO_WS_FRAME_TYPE_PING => ensure "mangoWS_frameSend" false ;; ret (buf, buflen)
  | MANGO_WS_FRAME_TYPE_PONG => ret (buf, 0)
  | MANGO_WS_FRAME_TYPE_CLOSE =>
      ret ([Z.shiftr (Z.land 1000 65280) 8; Z.land 1000 255], 2)
  | MANGO_WS_FRAME_TYPE_TEXT => ret (buf, buflen)
  | MANGO_WS_FRAME_TYPE_BINARY => ret (buf, buflen)
  end.

Definition ws_uses_frame0 (type : mangoWsFrameType_t) : bool :=
  match type with
  | MANGO_WS_FRAME_TYPE_PONG | MANGO_WS_FRAME_TYPE_CLOSE => true
  | _ => false
  end.

Definition mangoWS_frameSend (buf : list Z) (buflen : Z) (type : mangoWsFrameType_t)
    : M world mangoErr_t :=
  maskingkey <- ws_maskingkey ;;
  let* (buf, buflen) := ws_payload buf buflen type in
  frame <- (if ws_uses_frame0 type then ret (Some (replicate 8 0))
            else ok <- do_malloc E (u32 (buflen + 14)) ;;
                 ret (if ok : bool then Some (replicate (Z.to_nat (u32 (buflen + 14))) 0)
                      else None)) ;;
  match frame with
  | None => ret MANGO_OK
  | Some frame =>
      let* (frame, framelen) := ws_build frame type maskingkey buf buflen in
      retval <- mangoPort_write E fuel PLAIN frame framelen MANGO_SOCKET_WRITE_TIMEOUT_MS ;;
      if retval <? 0 then ret MANGO_ERR
      else if u32 retval =? framelen then ret MANGO_OK else ret MANGO_ERR
  end.

Definition mangoWS_close : M world mangoErr_t :=
  mangoWS_frameSend [] 0 MANGO_WS_FRAME_TYPE_CLOSE.

Definition mangoWS_pong : M world mangoErr_t :=
  mangoWS_frameSend [] 0 MANGO_WS_FRAME_TYPE_PONG.
End WS.
