(* ===== verification/MangoWSFacts.v ===== *)
(** Correctness of mangoWS.c: the frames are those of RFC 6455, a receiver
    decodes them to the payload, and mangoWS_frameSend reports success only
    when the whole frame has been handed to the transport. *)

From S2P Require Import Prelude.
From S2P Require Import CMonad.
From S2P Require Import MangoTypes.
From S2P Require Import MangoPort.
From S2P Require Import MangoPortFacts.
From S2P Require Import MangoWS.

(** * Frames *)

Definition key_at (key : list Z) (k : Z) : Z := nth (Z.to_nat (k mod 4)) key 0.

(** The payload masked from position [k] on. *)
Fixpoint ws_mask (key : list Z) (k : Z) (payload : list Z) : list Z :=
  match payload with
  | [] => []
  | b :: payload => Z.lxor b (key_at key k) :: ws_mask key (k + 1) payload
  end.

(** Big-endian bytes. *)
Fixpoint be_bytes (n : nat) (v : Z) : list Z :=
  match n with
  | O => []
  | Datatypes.S n => v / 256 ^ Z.of_nat n mod 256 :: be_bytes n v
  end.

Definition be_value (l : list Z) : Z := fold_left (fun a b => 256 * a + b) l 0.

(** A final, masked frame (RFC 6455, section 5.2). *)
Definition ws_frame (type : mangoWsFrameType_t) (key payload : list Z) : list Z :=
  let len := zlen payload in
  [128 + ws_frame_type_code type] ++
  (if len <=? 125 then [128 + len]
   else if len <=? 65535 then (128 + 126) :: be_bytes 2 len
   else (128 + 127) :: be_bytes 8 len) ++
  key ++ ws_mask key 0 payload.

(** A receiver: opcode and payload of a frame. *)
Definition ws_decode (frame : list Z) : option (Z * list Z) :=
  match frame with
  | b0 :: b1 :: rest =>
      if (128 <=? b0) && (b0 <? 144) && (128 <=? b1) then
        let len7 := b1 - 128 in
        let n := if len7 =? 126 then 2%nat else if len7 =? 127 then 8%nat else 0%nat in
        let len := if len7 <? 126 then len7 else be_value (take n rest) in
        let key := take 4 (drop n rest) in
        let payload := drop 4 (drop n rest) in
        if (zlen key =? 4) && (zlen payload =? len)
        then Some (b0 - 128, ws_mask key 0 payload) else None
      else None
  | _ => None
  end.

Lemma ws_mask_length key k payload : zlen (ws_mask key k payload) = zlen payload.
Proof.
  revert k. induction payload as [|b l IH]; intros k; cbn [ws_mask]; [done|].
  by rewrite !zlen_cons, IH.
Qed.

Lemma ws_mask_app key k a b :
  ws_mask key k (a ++ b) = ws_mask key k a ++ ws_mask key (k + zlen a) b.
Proof.
  revert k. induction a as [|x a IH]; intros k; cbn [ws_mask app].
  - by rewrite zlen_nil, Z.add_0_r.
  - rewrite IH, zlen_cons. do 3 f_equal. lia.
Qed.

(** Masking twice with the same key gives the payload back. *)
Lemma ws_mask_involutive key k payload : ws_mask key k (ws_mask key k payload) = payload.
Proof.
  revert k. induction payload as [|b l IH]; intros k; cbn [ws_mask]; [done|].
  rewrite IH. f_equal. by rewrite Z.lxor_assoc, Z.lxor_nilpotent, Z.lxor_0_r.
Qed.

Lemma be_bytes_length n v : length (be_bytes n v) = n.
Proof. induction n; cbn; congruence. Qed.

Lemma zlen_be_bytes n v : zlen (be_bytes n v) = Z.of_nat n.
Proof. unfold zlen. by rewrite be_bytes_length. Qed.

Lemma be_value_bytes n v acc :
  0 <= v -> fold_left (fun a b => 256 * a + b) (be_bytes n v) acc =
  256 ^ Z.of_nat n * acc + v mod 256 ^ Z.of_nat n.
Proof.
  intros Hv. revert acc. induction n as [|n IH]; intros acc; cbn [be_bytes fold_left].
  - rewrite Z.mod_1_r. change (256 ^ Z.of_nat 0) with 1. lia.
  - rewrite IH, Nat2Z.inj_succ, Z.pow_succ_r by lia.
    assert (0 < 256 ^ Z.of_nat n) by (apply Z.pow_pos_nonneg; lia).
    rewrite (Z.mul_comm 256 (256 ^ _)), Z.rem_mul_r by lia. ring.
Qed.

Lemma ws_frame_decode type key payload :
  zlen key = 4 -> zlen payload < 256 ^ 8 ->
  ws_decode (ws_frame type key payload) = Some (ws_frame_type_code type, payload).
Proof.
  intros Hk Hl. unfold ws_frame. pose proof (zlen_nonneg payload) as Hp.
  assert (forall n l, n = length l -> ws_frame_type_code type = ws_frame_type_code type ->
    take 4 (drop n (l ++ key ++ ws_mask key 0 payload)) = key /\
    drop 4 (drop n (l ++ key ++ ws_mask key 0 payload)) = ws_mask key 0 payload /\
    take n (l ++ key ++ ws_mask key 0 payload) = l) as Hsplit.
  { intros n l -> _. rewrite drop_app_length, take_app_length.
    assert (4%nat = length key) as -> by (unfold zlen in Hk; lia).
    by rewrite take_app_length, drop_app_length. }
  assert (128 <= 128 + ws_frame_type_code type < 144) as Hop by (by destruct type).
  assert (forall b1 l, 128 <= b1 ->
    let len7 := b1 - 128 in
    length l = (if len7 =? 126 then 2%nat else if len7 =? 127 then 8%nat else 0%nat) ->
    (if len7 <? 126 then len7 else be_value l) = zlen payload ->
    ws_decode (128 + ws_frame_type_code type :: b1 :: l ++ key ++ ws_mask key 0 payload) =
    Some (ws_frame_type_code type, payload)) as Hgen.
  { intros b1 l Hb1 len7 Hn Hlen. unfold ws_decode.
    destruct (Z.leb_spec 128 (128 + ws_frame_type_code type)),
      (Z.ltb_spec (128 + ws_frame_type_code type) 144), (Z.leb_spec 128 b1); try lia.
    cbn [andb]. fold len7. cbv zeta.
    destruct (Hsplit _ l (eq_sym Hn) eq_refl) as (-> & -> & ->).
    rewrite ws_mask_length, Hlen, Hk, !Z.eqb_refl. cbn [andb].
    rewrite ws_mask_involutive. do 2 f_equal. lia. }
  cbv zeta. destruct (Z.leb_spec (zlen payload) 125).
  - apply (Hgen (128 + zlen payload) []); [lia| |].
    + replace (128 + zlen payload - 128) with (zlen payload) by lia.
      destruct (Z.eqb_spec (zlen payload) 126), (Z.eqb_spec (zlen payload) 127); (lia || done).
    + destruct (Z.ltb_spec (128 + zlen payload - 128) 126); lia.
  - destruct (Z.leb_spec (zlen payload) 65535).
    + apply (Hgen (128 + 126) (be_bytes 2 (zlen payload))); [lia | done |].
      cbn -[be_bytes]. unfold be_value. rewrite be_value_bytes by lia.
      rewrite Z.mul_0_r, Z.add_0_l, Z.mod_small; [done|]. change (256 ^ Z.of_nat 2) with 65536. lia.
    + apply (Hgen (128 + 127) (be_bytes 8 (zlen payload))); [lia | done |].
      cbn -[be_bytes]. unfold be_value. rewrite be_value_bytes by lia.
      rewrite Z.mul_0_r, Z.add_0_l, Z.mod_small; [done|]. done.
Qed.

Lemma zlen_ws_frame type key payload :
  zlen key = 4 ->
  zlen (ws_frame type key payload) =
  zlen payload + (if zlen payload <=? 125 then 6 else if zlen payload <=? 65535 then 8 else 14).
Proof.
  intros Hk. unfold ws_frame. cbv zeta. rewrite !zlen_app, ws_mask_length, Hk.
  change (zlen [128 + ws_frame_type_code type]) with 1.
  destruct (zlen payload <=? 125); [change (zlen [128 + zlen payload]) with 1; lia|].
  destruct (zlen payload <=? 65535); rewrite zlen_cons, zlen_be_bytes; lia.
Qed.

(** * The code builds them *)

Lemma lor_128 x : 0 <= x < 128 -> Z.lor 128 x = 128 + x.
Proof.
  intros Hx.
  assert (Forall (fun x => Z.lor 128 x = 128 + x) (Z.of_nat <$> seq 0 128)) as H.
  { apply (bool_decide_unpack _). vm_compute. exact I. }
  rewrite Forall_forall in H. apply H. apply list_elem_of_fmap.
  exists (Z.to_nat x). split; [lia|]. apply elem_of_seq. lia.
Qed.

Lemma land_255 x : Z.land x 255 = x mod 256.
Proof. change 255 with (Z.ones 8). by rewrite Z.land_ones by lia. Qed.

Lemma land_u8 a b : is_u8 a -> is_u8 (Z.land a b).
Proof.
  intros Ha.
  assert (Z.land a b = Z.land a b mod 256) as ->; [|apply u8_range].
  rewrite <- land_255, <- Z.land_assoc, (Z.land_comm b), Z.land_assoc, land_255.
  by rewrite Z.mod_small.
Qed.

Lemma lxor_u8 a b : is_u8 a -> is_u8 b -> is_u8 (Z.lxor a b).
Proof.
  unfold is_u8. intros Ha Hb. split; [apply Z.lxor_nonneg; lia|].
  destruct (decide (Z.lxor a b = 0)) as [->|H0]; [lia|].
  apply Z.log2_lt_pow2 with (b := 8); [pose proof (Z.lxor_nonneg a b); lia|].
  pose proof (Z.log2_lxor a b ltac:(lia) ltac:(lia)).
  assert (Z.log2 a < 8) by (destruct (decide (a = 0)) as [->|]; [done|];
                            apply Z.log2_lt_pow2; lia).
  assert (Z.log2 b < 8) by (destruct (decide (b = 0)) as [->|]; [done|];
                            apply Z.log2_lt_pow2; lia).
  lia.
Qed.

(** The header of the code is the one of RFC 6455. *)
Lemma ws_header_frame type key buf :
  zlen key = 4 -> is_u32 (zlen buf + 14) ->
  let '(h, framelen) := ws_header type key (zlen buf) in
  ws_frame type key buf = h ++ ws_mask key 0 buf /\ framelen = zlen h + zlen buf /\
  Forall is_u8 (take (length h - 4) h) /\ h = take (length h - 4) h ++ key.
Proof.
  intros Hk Hb. unfold is_u32 in Hb. pose proof (zlen_nonneg buf).
  assert (0 <= ws_frame_type_code type < 16) as Hop by (by destruct type).
  assert (length key = 4%nat) as Hkl by (unfold zlen in Hk; lia).
  assert (forall a, take (length (a ++ key) - 4) (a ++ key) = a) as Htk.
  { intros a. rewrite length_app, Hkl. replace (length a + 4 - 4)%nat with (length a) by lia.
    apply take_app_length. }
  unfold ws_header, ws_frame. rewrite lor_128 by lia. cbv zeta.
  destruct (Z.leb_spec (zlen buf) 125); [|destruct (Z.leb_spec (zlen buf) 65535)].
  - rewrite lor_128 by lia.
    change (?a :: ?b :: key) with ([a; b] ++ key). rewrite Htk.
    repeat split; [|by repeat constructor; unfold is_u8; lia].
    rewrite u32_small, zlen_app, Hk by (unfold is_u32; lia). change (zlen [_; _]) with 2. lia.
  - change (Z.lor 128 126) with (128 + 126).
    change (?a :: ?b :: ?c :: ?d :: key) with ([a; b; c; d] ++ key). rewrite Htk.
    rewrite !land_255, Z.shiftr_div_pow2 by lia. change (2 ^ 8) with 256. repeat split.
    + cbn [be_bytes app]. do 3 f_equal. f_equal.
      change (256 ^ Z.of_nat 0) with 1. by rewrite Z.div_1_r.
    + rewrite u32_small, zlen_app, Hk by (unfold is_u32; lia).
      change (zlen [_; _; _; _]) with 4. lia.
    + repeat constructor; try apply u8_range; unfold is_u8; lia.
  - change (Z.lor 128 127) with (128 + 127).
    change (?a :: ?b :: ?c :: ?d :: ?e :: ?f :: ?g :: ?h :: ?i :: ?j :: key)
      with ([a; b; c; d; e; f; g; h; i; j] ++ key). rewrite Htk.
    rewrite !land_255, !Z.shiftr_div_pow2 by lia.
    change (2 ^ 8) with 256. change (2 ^ 16) with (256 ^ 2). change (2 ^ 24) with (256 ^ 3).
    repeat split.
    + assert (forall k, (4 <= k)%nat -> zlen buf / 256 ^ Z.of_nat k = 0) as Hz.
      { intros k Hk4. apply Z.div_small. split; [done|].
        pose proof (Z.pow_le_mono_r 256 4 (Z.of_nat k) ltac:(lia) ltac:(lia)).
        change (256 ^ 4) with 4294967296 in *. lia. }
      cbn [be_bytes app]. rewrite !Hz by lia. change (0 mod 256) with 0.
      change (256 ^ Z.of_nat 0) with 1. by rewrite Z.div_1_r.
    + rewrite u32_small, zlen_app, Hk by (unfold is_u32; lia).
      change (zlen [_; _; _; _; _; _; _; _; _; _]) with 10. lia.
    + repeat constructor; try apply u8_range; unfold is_u8; lia.
Qed.

Section Build.
Context {S : Type} (Fl : failure -> Prop).

Lemma wpg_frame_puts f0 xs : forall pre f (Q : list Z * Z -> S -> Prop) s,
  zblit f0 0 pre = Some f -> zlen pre + zlen xs <= zlen f0 ->
  (forall f', zblit f0 0 (pre ++ map u8 xs) = Some f' -> Q (f', zlen pre + zlen xs) s) ->
  wpg Fl (frame_puts xs (f, zlen pre)) Q s.
Proof.
  induction xs as [|x xs IH]; intros pre f Q s Hf Hl HQ; cbn [frame_puts].
  - wp_step. specialize (HQ f). cbn [map] in HQ. rewrite (zlen_nil (A:=Z)), Z.add_0_r, app_nil_r in HQ.
    by apply HQ.
  - rewrite zlen_cons in *. pose proof (zlen_nonneg xs). pose proof (zlen_nonneg pre).
    pose proof (zblit_snoc _ _ _ _ (u8 x) Hf ltac:(lia)) as Hs. rewrite Z.add_0_l in Hs.
    destruct (zblit_ex f0 0 (pre ++ [u8 x]) ltac:(lia)) as [f1 Hf1].
    { rewrite zlen_app. change (zlen [u8 x]) with 1. lia. }
    rewrite Hf1 in Hs. wp_step. eapply wpg_access_Some; [exact Hs|]. cbn [snd].
    assert (zlen pre + 1 = zlen (pre ++ [u8 x])) as E1 by (by rewrite zlen_app).
    rewrite E1. apply IH; [done|lia|]. intros f' Hf'.
    rewrite <- app_assoc in Hf'. specialize (HQ _ Hf').
    replace (zlen (pre ++ [u8 x]) + zlen xs) with (zlen pre + (zlen xs + 1)) by lia. done.
Qed.

(** The key indices of an unrolled group starting at payload position [k]. *)
Fixpoint js_ok (k : Z) (js : list Z) : Prop :=
  match js with
  | [] => True
  | j :: js => j = k mod 4 /\ js_ok (k + 1) js
  end.

Context (f0 hdr key buf : list Z).
Hypothesis (Hkey : zlen key = 4) (Hkeyb : Forall is_u8 key) (Hbuf : Forall is_u8 buf).
Hypothesis (Hfit : zlen hdr + zlen buf <= zlen f0).

(** The frame holds the header and the first [k] masked bytes. *)
Definition masked (f : list Z) (i k : Z) : Prop :=
  0 <= k <= zlen buf /\ i = zlen hdr + k /\
  zblit f0 0 (hdr ++ ws_mask key 0 (take (Z.to_nat k) buf)) = Some f.

Lemma key_get k : zget key (k mod 4) = Some (key_at key k).
Proof.
  pose proof (Z.mod_pos_bound k 4 ltac:(lia)).
  unfold key_at, zget. destruct (Z.leb_spec 0 (k mod 4)); [|lia].
  destruct (lookup_lt_is_Some_2 key (Z.to_nat (k mod 4))) as [x Hx];
    [unfold zlen in Hkey; lia|].
  by rewrite Hx, (nth_lookup_Some _ _ _ _ Hx).
Qed.

Lemma wpg_mask_puts js : forall f i k (Q : list Z * Z * Z -> S -> Prop) s,
  masked f i k -> js_ok k js -> k + zlen js <= zlen buf ->
  (forall f' i', masked f' i' (k + zlen js) -> Q (f', i', k + zlen js) s) ->
  wpg Fl (mask_puts buf key js (f, i, k)) Q s.
Proof.
  induction js as [|j js IH]; intros f i k Q s Hm Hjs Hk HQ; cbn [mask_puts].
  - wp_step. specialize (HQ f i). rewrite (zlen_nil (A:=Z)), Z.add_0_r in HQ. by apply HQ.
  - destruct Hjs as [-> Hjs]. rewrite zlen_cons in *. pose proof (zlen_nonneg js).
    destruct Hm as (Hk0 & -> & Hf).
    destruct (zget_is_Some buf k ltac:(lia)) as [b Hb].
    wp_step. eapply wpg_access_Some; [exact Hb|].
    wp_step. eapply wpg_access_Some; [apply key_get|].
    assert (is_u8 (Z.lxor b (key_at key k))) as Hx.
    { apply lxor_u8; eapply Forall_lookup_1.
      - exact Hbuf.
      - unfold zget in Hb. destruct (0 <=? k); [exact Hb | done].
      - exact Hkeyb.
      - pose proof (key_get k) as Hg. unfold zget in Hg.
        destruct (0 <=? k mod 4); [exact Hg | done]. }
    assert (take (Z.to_nat (k + 1)) buf = take (Z.to_nat k) buf ++ [b]) as Ht.
    { unfold zget in Hb. destruct (Z.leb_spec 0 k); [|done].
      replace (Z.to_nat (k + 1)) with (Datatypes.S (Z.to_nat k)) by lia.
      by apply take_S_r. }
    assert (zlen (take (Z.to_nat k) buf) = k) as Hlt.
    { unfold zlen in *. rewrite length_take. lia. }
    assert (zlen (hdr ++ ws_mask key 0 (take (Z.to_nat k) buf)) = zlen hdr + k) as Hpre.
    { by rewrite zlen_app, ws_mask_length, Hlt. }
    wp_step. rewrite <- Hpre. apply (wpg_frame_puts f0); [done | |].
    { change (zlen [Z.lxor b (key_at key k)]) with 1. lia. }
    intros f' Hf'. cbn beta iota. rewrite Hpre.
    change (zlen [Z.lxor b (key_at key k)]) with 1. cbn [map] in Hf'.
    rewrite u8_small in Hf' by done.
    apply IH; [|done|lia|].
    + split; [lia|]. split; [lia|]. rewrite Ht, ws_mask_app, Hlt, app_assoc. done.
    + replace (k + 1 + zlen js) with (k + (zlen js + 1)) by lia. done.
Qed.

Lemma wpg_mask8_loop n : forall f i k (Q : list Z * Z * Z * Z -> S -> Prop) s,
  masked f i k -> k mod 8 = 0 -> (Z.to_nat (zlen buf - k) < n)%nat ->
  (forall f' i' k', masked f' i' k' -> Q (f', i', k', zlen buf - k') s) ->
  wpg Fl (loop n (mask8_body buf key) (f, i, k, zlen buf - k)) Q s.
Proof.
  induction n as [|n IH]; intros f i k Q s Hm H8 Hn HQ; [lia|].
  apply wpg_loop_S. cbn [mask8_body]. destruct (Z.leb_spec 8 (zlen buf - k)).
  - wp_step. apply wpg_mask_puts; [done| | change (zlen [0;1;2;3;0;1;2;3]) with 8; lia|].
    + cbn. repeat split; Z.to_euclidean_division_equations; lia.
    + change (zlen [0;1;2;3;0;1;2;3]) with 8. intros f' i' Hm'. wp_steps.
      replace (zlen buf - k - 8) with (zlen buf - (k + 8)) by lia.
      pose proof Hm as [Hk _].
      apply IH; [done | Z.to_euclidean_division_equations; lia | lia | done].
  - wp_step. by apply HQ.
Qed.

Lemma wpg_mask1_loop n : forall f i k (Q : list Z -> S -> Prop) s,
  masked f i k -> (Z.to_nat (zlen buf - k) < n)%nat ->
  (forall f' i', masked f' i' (zlen buf) -> Q f' s) ->
  wpg Fl (loop n (mask1_body buf key) (f, i, k, zlen buf - k)) Q s.
Proof.
  induction n as [|n IH]; intros f i k Q s Hm Hn HQ; [lia|].
  apply wpg_loop_S. cbn [mask1_body]. pose proof Hm as [Hk _].
  destruct (Z.ltb_spec 0 (zlen buf - k)).
  - wp_step. apply wpg_mask_puts; [done | done | change (zlen [k mod 4]) with 1; lia|].
    change (zlen [k mod 4]) with 1. intros f' i' Hm'. wp_steps.
    replace (zlen buf - k - 1) with (zlen buf - (k + 1)) by lia. apply IH; [done | lia | done].
  - wp_step. replace k with (zlen buf) in Hm by lia. by apply (HQ f i).
Qed.
End Build.

(** ws_build writes the frame at the start of its buffer. *)
Lemma wpg_ws_build {S} (Fl : failure -> Prop) f0 type key buf (Q : list Z * Z -> S -> Prop) s :
  zlen key = 4 -> Forall is_u8 key -> Forall is_u8 buf -> is_u32 (zlen buf + 14) ->
  zlen (ws_frame type key buf) <= zlen f0 ->
  (forall f', zblit f0 0 (ws_frame type key buf) = Some f' ->
     Q (f', zlen (ws_frame type key buf)) s) ->
  wpg Fl (ws_build f0 type key buf (zlen buf)) Q s.
Proof.
  intros Hk Hkb Hbb Hl Hfit HQ. unfold ws_build.
  pose proof (ws_header_frame type key buf Hk Hl) as Hh.
  destruct (ws_header type key (zlen buf)) as [h framelen].
  destruct Hh as (Hf & -> & Hh8 & Hhk).
  assert (map u8 h = h) as Hmap.
  { assert (Forall is_u8 h) as Ha by (rewrite Hhk; by apply Forall_app).
    clear -Ha. induction Ha as [|x l Hx _ IH]; cbn; [done|]. by rewrite u8_small, IH. }
  rewrite Hf in Hfit, HQ. clear Hf.
  assert (zlen (h ++ ws_mask key 0 buf) = zlen h + zlen buf) as Hl2
    by (by rewrite zlen_app, ws_mask_length).
  rewrite Hl2 in Hfit, HQ.
  pose proof (zlen_nonneg buf). pose proof (zlen_nonneg h). pose proof (zlen_nonneg f0).
  wp_step. apply (wpg_frame_puts Fl f0 h []); [apply zblit_nil; lia | change (zlen (@nil Z)) with 0; lia|].
  change (zlen (@nil Z)) with 0. rewrite Z.add_0_l, Hmap. cbn [app]. intros f1 Hf1. cbn beta iota.
  assert (masked f0 h key buf f1 (zlen h) 0) as Hm.
  { split; [lia|]. split; [lia|]. cbn. by rewrite app_nil_r. }
  wp_step. replace (zlen buf) with (zlen buf - 0) at 1 by lia.
  eapply (wpg_mask8_loop Fl f0 h key buf); try done; [unfold zlen; lia|].
  intros f2 i2 k2 Hm2. wp_step. pose proof Hm2 as [Hk2 _].
  eapply (wpg_mask1_loop Fl f0 h key buf); try done; [unfold zlen in *; lia|].
  intros f3 i3 (_ & _ & Hm3). wp_step. apply HQ.
  rewrite firstn_all2 in Hm3 by (unfold zlen; lia). done.
Qed.

Lemma zblit_0_prefix (f0 d f : list Z) :
  zblit f0 0 d = Some f -> exists r, f = d ++ r.
Proof.
  unfold zblit. destruct ((0 <=? 0) && (0 + zlen d <=? zlen f0)); [|done].
  intros [= <-]. by eexists.
Qed.

(** The payload mangoWS_frameSend puts into a frame of a type it sends. *)
Definition sent_payload (type : mangoWsFrameType_t) (buf : list Z) : option (list Z) :=
  match type with
  | MANGO_WS_FRAME_TYPE_TEXT | MANGO_WS_FRAME_TYPE_BINARY => Some buf
  | MANGO_WS_FRAME_TYPE_CLOSE => Some [3; 232]
  | MANGO_WS_FRAME_TYPE_PONG => Some []
  | MANGO_WS_FRAME_TYPE_CONT | MANGO_WS_FRAME_TYPE_PING => None
  end.

(** With nothing to mask the buffer does not matter. *)
Lemma ws_build_empty {S} frame type key buf (s : S) :
  ws_build frame type key buf 0 s = ws_build frame type key [] 0 s.
Proof.
  unfold ws_build. destruct (ws_header type key 0) as [h n]. unfold bind.
  by destruct (frame_puts h (frame, 0) s) as [[[f i] s']|].
Qed.

Section Send.
Context (E : environment) `{environment_ok E}.
Context (Fl : failure -> Prop) (fuel : nat).

Lemma wpg_maskingkey w (Q : list Z -> world -> Prop) :
  (forall key tr', zlen key = 4 -> Forall is_u8 key -> quiet (trace w) tr' ->
     Q key (mkWorld (client w) tr')) ->
  wpg Fl (ws_maskingkey E) Q w.
Proof.
  intros HQ. unfold ws_maskingkey.
  wp_step. apply wpg_timeNow. intros t0 tr0 _ Hq0.
  wp_step. apply wpg_timeNow. intros t1 tr1 _ Hq1. wp_step.
  assert (is_u8 (Z.land (u8 t0) (u8 (Z.shiftr t1 8)))) as Hland.
  { apply land_u8, u8_range. }
  apply HQ; [done | | by apply (quiet_trans _ _ _ Hq0)].
  repeat (apply Forall_cons_2;
    [first [apply lxor_u8; [apply u8_range | exact Hland] | exact Hland | apply u8_range]|]).
  constructor.
Qed.

(** There is no memory some time. *)
Definition malloc_fails : Prop := exists tr sz, sys_malloc E tr sz = false.

(** What a call of mangoWS_frameSend may do. *)
Definition ws_sent (w : world) (type : mangoWsFrameType_t) (payload : list Z)
    (err : mangoErr_t) (w' : world) : Prop :=
  client w' = client w /\
  ((ws_uses_frame0 type = false /\ err = MANGO_OK /\ quiet (trace w) (trace w') /\
    malloc_fails) \/
   exists key k,
     zlen key = 4 /\ 0 <= k <= u16 (zlen (ws_frame type key payload)) /\
     io_step (trace w) (trace w') [] (take (Z.to_nat k) (ws_frame type key payload)) [] /\
     (err = MANGO_OK /\ k = zlen (ws_frame type key payload) \/ err = MANGO_ERR)).

Lemma wpg_frameSend buf type payload w (Q : mangoErr_t -> world -> Prop) :
  can_write Fl E fuel -> sent_payload type buf = Some payload -> Forall is_u8 buf ->
  is_u32 (zlen buf + 14) ->
  (forall err w', ws_sent w type payload err w' -> Q err w') ->
  wpg Fl (mangoWS_frameSend E fuel buf (zlen buf) type) Q w.
Proof.
  intros HF Hty Hbuf Hlen HQ. unfold is_u32 in Hlen. pose proof (zlen_nonneg buf).
  assert (Forall is_u8 payload /\ zlen payload <= Z.max 2 (zlen buf)) as [Hpb Hpl].
  { destruct type; try done; injection Hty as <-; (split; [try done|]);
      repeat constructor; unfold is_u8; try lia; rewrite ?zlen_cons, ?zlen_nil; lia. }
  unfold mangoWS_frameSend. wp_step. apply wpg_maskingkey. intros key tr1 Hk Hkb Hq1.
  assert (forall f0 w1 pl, client w1 = client w -> quiet (trace w) (trace w1) ->
    zlen (ws_frame type key payload) <= zlen f0 -> pl = payload \/ payload = [] ->
    wpg Fl (let* (frame, framelen) := ws_build f0 type key pl (zlen payload) in
            retval <- mangoPort_write E fuel PLAIN frame framelen MANGO_SOCKET_WRITE_TIMEOUT_MS ;;
            if retval <? 0 then ret MANGO_ERR
            else if u32 retval =? framelen then ret MANGO_OK else ret MANGO_ERR) Q w1) as Hsend.
  { intros f0 w1 pl Hc Hq Hfit Hpl2. wp_step.
    apply (wpg_ext _ _ (ws_build f0 type key payload (zlen payload)));
      [destruct Hpl2 as [->|Hpl2]; [done | rewrite Hpl2; apply ws_build_empty]|].
    apply wpg_ws_build; [done | done | done | unfold is_u32; pose proof (zlen_nonneg payload); lia
      | exact Hfit |].
    intros f' Hf'. destruct (zblit_0_prefix _ _ _ Hf') as [rest ->].
    set (fr := ws_frame type key payload) in *.
    assert (0 <= u16 (zlen fr) <= zlen fr /\ u16 (zlen fr) < 65536) as [Hu Hu2].
    { pose proof (zlen_nonneg fr). unfold u16. Z.to_euclidean_division_equations. lia. }
    cbn beta iota. wp_step. apply wpg_can_write.
    { rewrite zlen_app. pose proof (zlen_nonneg rest). lia. }
    intros r k w2 (Hc2 & Hk2 & Hio2) Hr.
    rewrite take_app_le in Hio2 by (unfold zlen in *; lia).
    pose proof (io_step_quiet_l _ _ _ _ _ _ Hq Hio2) as Hio.
    assert (client w2 = client w) as Hcw by (by rewrite Hc2).
    assert (forall err, (err = MANGO_OK /\ k = zlen fr \/ err = MANGO_ERR) -> Q err w2) as Hend.
    { intros err Herr. apply HQ. split; [done|]. right. by exists key, k. }
    cbn beta. destruct (Z.ltb_spec r 0); [wp_step; apply Hend; by right|].
    destruct Hr as [->| ->]; [lia|]. rewrite u32_small by (unfold is_u32; lia).
    destruct (Z.eqb_spec k (zlen fr)); wp_step; apply Hend; [by left | by right]. }
  assert (ws_uses_frame0 type = true \/
          (ws_uses_frame0 type = false /\ payload = buf)) as Hcase.
  { destruct type; try done; [right|right|by left|by left]; cbn in Hty; by injection Hty. }
  destruct Hcase as [Hf0|[Hf0 ->]]; rewrite Hf0; wp_step.
  - assert (wpg Fl (ws_payload buf (zlen buf) type)
      (fun pl w1 => exists b, pl = (b, zlen payload) /\ (b = payload \/ payload = []) /\
                              w1 = mkWorld (client w) tr1)
      (mkWorld (client w) tr1)) as Hpay.
    { destruct type; try done; injection Hty as <-; cbn; eexists; repeat split;
        first [by left | by right]. }
    eapply wpg_mono; [exact Hpay|]. intros ? ? (b & -> & Hb & ->).
    do 2 wp_step. cbn beta iota.
    apply Hsend; [done | done | |done]. rewrite zlen_replicate, zlen_ws_frame by done.
    destruct type; try done; injection Hty as <-; vm_compute; discriminate.
  - assert (wpg Fl (ws_payload buf (zlen buf) type)
      (fun pl w1 => pl = (buf, zlen buf) /\ w1 = mkWorld (client w) tr1)
      (mkWorld (client w) tr1)) as Hpay.
    { destruct type; try done. }
    eapply wpg_mono; [exact Hpay|]. intros ? ? [-> ->]. do 2 wp_step.
    unfold do_malloc, wpg at 1. destruct (sys_malloc E _ _) eqn:Em; wp_step; cbn beta iota.
    + apply Hsend; [done | apply (quiet_trans _ _ _ Hq1); apply quiet_malloc | | by left].
      rewrite zlen_replicate, zlen_ws_frame by done.
      rewrite u32_small by (unfold is_u32; lia).
      destruct (zlen buf <=? 125), (zlen buf <=? 65535); lia.
    + wp_step. apply HQ. split; [done|]. left. split; [done|]. split; [done|].
      split; [apply (quiet_trans _ _ _ Hq1); apply quiet_malloc|]. exists tr1. by eexists.
Qed.

(** A frame longer than 65535 bytes is never reported as sent. *)
Lemma ws_sent_long w type payload err w' :
  ws_sent w type payload err w' -> ~ malloc_fails -> 65527 < zlen payload -> err = MANGO_ERR.
Proof.
  intros [_ [(_ & _ & _ & Hm)|(key & k & Hk & Hr & _ & Herr)]] Hnm Hl; [done|].
  destruct Herr as [[_ ->]|Herr]; [|done].
  exfalso. pose proof (u16_range (zlen (ws_frame type key payload))) as Hu.
  unfold is_u16 in Hu. rewrite zlen_ws_frame in * by done.
  destruct (Z.leb_spec (zlen payload) 125); [lia|].
  destruct (Z.leb_spec (zlen payload) 65535); lia.
Qed.

(** What the receiver makes of a frame that was sent. *)
Lemma ws_sent_decoded w type payload err w' :
  ws_sent w type payload err w' -> ~ malloc_fails -> zlen payload < 256 ^ 8 ->
  exists frame,
    ws_decode frame = Some (ws_frame_type_code type, payload) /\
    (err = MANGO_OK /\ io_step (trace w) (trace w') [] frame [] \/
     err = MANGO_ERR /\ exists k, io_step (trace w) (trace w') [] (take k frame) []).
Proof.
  intros [_ [(_ & _ & _ & Hm)|(key & k & Hk & Hr & Hio & Herr)]] Hnm Hl; [done|].
  exists (ws_frame type key payload). split; [by apply ws_frame_decode|].
  destruct Herr as [[-> Ek]|Herr]; [left|right; split; [done|by eexists]].
  split; [done|]. rewrite Ek, firstn_all2 in Hio; [done|]. unfold zlen. lia.
Qed.
End Send.
