(* ===== verification/MangoDP.v ===== *)
(** mangoDP.c: the input data processors (raw, chunked, websocket), which hand
    what the connection delivers to the application, and the output data
    processors (raw, chunked), which send what the application gives.

    [buf] is an index into the client's working buffer for the input
    processors, the application's bytes for the output ones; [vargs] names the
    member of the client the argument pointer stands for.  A processor returns
    its error code, [*processed] and [*completed].  Passing data to the
    application shows it the bytes [buf, buf + len), and the byte after them is
    zero during the call; the application does not write to the buffer. *)

From S2P Require Import Prelude.
From S2P Require Import CMonad.
From S2P Require Import CString.
From S2P Require Import MangoTypes.
From S2P Require Import MangoHelper.
From S2P Require Import MangoPort.
From S2P Require Import MangoWS.

Definition dp_result : Type := mangoErr_t * Z * bool.

Section DP.
Context (E : environment) (fuel : nat).

(** The bytes a callback argument points to. *)
Definition wb_slice (site : string) (p len : Z) : M world (list Z) :=
  wb <- hc workingBuffer ;;
  access site (if (0 <=? p) && (0 <=? len) && (p + len <=? zlen wb)
               then Some (zsub wb p len) else None).

(** oldByte = buf[len]; buf[len] = 0; err = userFunc(...); buf[len] = oldByte. *)
Definition pass_data (site : string) (type : mangoArgType_e) (buf len : Z)
    (id : option Z) : M world mangoErr_t :=
  wb <- hc workingBuffer ;;
  oldByte <- access site (zget wb (buf + len)) ;;
  wb <- access site (zset wb (buf + len) 0) ;;
  assign (set_workingBuffer wb) ;;
  data <- wb_slice site buf len ;;
  err <- do_userFunc E (mkArg type data None id) ;;
  wb <- hc workingBuffer ;;
  wb <- access site (zset wb (buf + len) oldByte) ;;
  assign (set_workingBuffer wb) ;;
  ret err.

Definition idp_raw_args (vargs : mangoDPArgs) : M world mangoIDPArgsRaw_t :=
  match vargs with
  | DPArgs_IDPRaw => hc IDPArgsRaw
  | _ => stop (Fault "mangoIDP_raw")
  end.
Definition idp_chunked_args (vargs : mangoDPArgs) : M world mangoIDPArgsChunked_t :=
  match vargs with
  | DPArgs_IDPChunked => hc IDPArgsChunked
  | _ => stop (Fault "mangoIDP_chunked")
  end.
Definition idp_websocket_args (vargs : mangoDPArgs) : M world mangoIDPArgsWebsocket_t :=
  match vargs with
  | DPArgs_IDPWebsocket => hc IDPArgsWebsocket
  | _ => stop (Fault "mangoIDP_websocket")
  end.
Definition odp_raw_args (vargs : mangoDPArgs) : M world mangoODPArgsRaw_t :=
  match vargs with
  | DPArgs_ODPRaw => hc ODPArgsRaw
  | _ => stop (Fault "mangoODP_raw")
  end.
Definition odp_chunked_args (vargs : mangoDPArgs) : M world mangoODPArgsChunked_t :=
  match vargs with
  | DPArgs_ODPChunked => hc ODPArgsChunked
  | _ => stop (Fault "mangoODP_chunked")
  end.

Definition mangoIDP_raw (buf buflen : Z) (vargs : mangoDPArgs) : M world dp_result :=
  let buflen := u16 buflen in
  args <- idp_raw_args vargs ;;
  if idp_fileSz args =? 0 then ret (MANGO_OK, 0, true)
  else if buflen =? 0 then ret (MANGO_ERR_MOREDATANEEDED, 0, false)
  else
    wb <- hc workingBuffer ;;
    wb <- access "mangoIDP_raw" (zset wb (buf + buflen) 0) ;;
    assign (set_workingBuffer wb) ;;
    let fileSzProcessed := u32 (idp_fileSzProcessed args + buflen) in
    assign (set_IDPArgsRaw (mkIDPRaw (idp_fileSz args) fileSzProcessed)) ;;
    let completed := fileSzProcessed =? idp_fileSz args in
    err <- pass_data "mangoIDP_raw" MANGO_ARG_TYPE_HTTP_DATA_RECEIVED buf buflen None ;;
    if negb (is_ok err) then ret (MANGO_ERR_APPABORTED, buflen, completed)
    else ret (MANGO_OK, buflen, completed).

(** The RETURN() macro. *)
Definition dp_RETURN (processed : Z) (completed : bool) : dp_result :=
  if completed then (MANGO_OK, processed, completed)
  else if negb (processed =? 0) then (MANGO_OK, processed, completed)
  else (MANGO_ERR_MOREDATANEEDED, processed, completed).

(** while( *buf != LF && *buf ){ buf++; } *)
Definition chunk_line_body (wb : list Z) (buf : Z) : M world (Z + Z) :=
  c <- access "mangoIDP_chunked" (zget wb buf) ;;
  ret (if negb (c =? 10) && negb (c =? 0) then inl (buf + 1) else inr buf).

(** The variables of the processing loops: processed, buf, buflen. *)
Definition dp_locals : Type := Z * Z * Z.

(** The MOVETO() macro, after the assignment of the state. *)
Definition dp_move (st : dp_locals) (processSz : Z) : dp_locals :=
  let '(processed, buf, buflen) := st in
  (u32 (processed + processSz), buf + processSz, u16 (buflen - processSz)).

Definition chunked_move (newState : Z) (st : dp_locals) (processSz : Z)
    : M world (dp_locals + dp_result) :=
  args <- hc IDPArgsChunked ;;
  assign (set_IDPArgsChunked (set_chunk_state newState args)) ;;
  ret (inl (dp_move st processSz)).

(** case 1: the chunk size line. *)
Definition chunked_size (st : dp_locals) : M world (dp_locals + dp_result) :=
  let '(processed, buf0, buflen) := st in
  let site := "mangoIDP_chunked"%string in
  wb <- hc workingBuffer ;;
  buf <- loop (Datatypes.S (Datatypes.S (length wb))) (chunk_line_body wb) buf0 ;;
  c <- access site (zget wb buf) ;;
  if c =? 0 then ret (inr (dp_RETURN processed false))
  else
    let* (retval, sz) := mangoHelper_hexstr2dec wb buf0 in
    args <- hc IDPArgsChunked ;;
    assign (set_IDPArgsChunked (set_chunkSz sz args)) ;;
    if negb (retval =? 0) then ret (inr (MANGO_ERR_DATAPROCESSING, processed, false))
    else
      args <- hc IDPArgsChunked ;;
      assign (set_IDPArgsChunked (set_chunkSzProcessed 0 args)) ;;
      let buf := buf + 1 in
      let sz8 := u8 (buf - buf0) in
      let buf := buf - sz8 in
      args <- hc IDPArgsChunked ;;
      chunked_move (if negb (chunkSz args =? 0) then 2 else 4) (processed, buf, buflen) sz8.

(** case 2: chunk data. *)
Definition chunked_data (st : dp_locals) : M world (dp_locals + dp_result) :=
  let '(processed, buf, buflen) := st in
  args <- hc IDPArgsChunked ;;
  let left := u32 (chunkSz args - chunkSzProcessed args) in
  let maxReadSz := if left <? buflen then left else buflen in
  if negb (maxReadSz =? 0)
  then
    err <- pass_data "mangoIDP_chunked" MANGO_ARG_TYPE_HTTP_DATA_RECEIVED buf maxReadSz None ;;
    if negb (is_ok err) then ret (inr (MANGO_ERR_APPABORTED, processed, false))
    else
      args <- hc IDPArgsChunked ;;
      let p := u32 (chunkSzProcessed args + maxReadSz) in
      assign (set_IDPArgsChunked (set_chunkSzProcessed p args)) ;;
      chunked_move (if chunkSz args =? p then 3 else 2) st maxReadSz
  else ensure "mangoIDP_chunked" false ;; ret (inr (MANGO_ERR_DATAPROCESSING, processed, false)).

(** case 3: the CRLF after the data. *)
Definition chunked_crlf (st : dp_locals) : M world (dp_locals + dp_result) :=
  let '(processed, buf, buflen) := st in
  if buflen <? 2 then ret (inr (dp_RETURN processed false))
  else
    wb <- hc workingBuffer ;;
    b0 <- access "mangoIDP_chunked" (zget wb buf) ;;
    b1 <- access "mangoIDP_chunked" (zget wb (buf + 1)) ;;
    if (b0 =? 13) && (b1 =? 10) then chunked_move 1 st 2
    else ret (inr (MANGO_ERR_DATAPROCESSING, processed, false)).

(** Whether the last four of [buflen] bytes are CRLFCRLF. *)
Definition ends_crlfcrlf (wb : list Z) (buf buflen : Z) : M world bool :=
  b0 <- access "mangoIDP_chunked" (zget wb (buf + (buflen - 4))) ;;
  b1 <- access "mangoIDP_chunked" (zget wb (buf + (buflen - 3))) ;;
  b2 <- access "mangoIDP_chunked" (zget wb (buf + (buflen - 2))) ;;
  b3 <- access "mangoIDP_chunked" (zget wb (buf + (buflen - 1))) ;;
  ret ((b0 =? 13) && (b1 =? 10) && (b2 =? 13) && (b3 =? 10)).

(** case 4: the trailer. *)
Definition chunked_trailer (st : dp_locals) : M world (dp_locals + dp_result) :=
  let '(processed, buf, buflen) := st in
  if buflen <? 2 then ret (inr (dp_RETURN processed false))
  else
    wb <- hc workingBuffer ;;
    b0 <- access "mangoIDP_chunked" (zget wb buf) ;;
    b1 <- access "mangoIDP_chunked" (zget wb (buf + 1)) ;;
    if (buflen =? 2) && (b0 =? 13) && (b1 =? 10)
    then ret (inr (MANGO_OK, processed, true))
    else
      e <- (if 3 <? buflen then ends_crlfcrlf wb buf buflen else ret false) ;;
      if e : bool
      then
        data <- wb_slice "mangoIDP_chunked" buf buflen ;;
        do_userFunc E (mkArg MANGO_ARG_TYPE_HTTP_RESP_RECEIVED data (Some 0) None) ;;
        ret (inr (MANGO_OK, processed, true))
      else ret (inr (dp_RETURN processed false)).

(** One round of while(1). *)
Definition chunked_body (st : dp_locals) : M world (dp_locals + dp_result) :=
  let '(processed, buf, buflen) := st in
  if buflen =? 0 then ret (inr (dp_RETURN processed false))
  else
    args <- hc IDPArgsChunked ;;
    match chunk_state args with
    | 1 => chunked_size st
    | 2 => chunked_data st
    | 3 => chunked_crlf st
    | 4 => chunked_trailer st
    | _ => ret (inl st)
    end.

(** Every round moves [buf] forward inside the working buffer, whose length
    bounds their number. *)
Definition mangoIDP_chunked (buf buflen : Z) (vargs : mangoDPArgs) : M world dp_result :=
  idp_chunked_args vargs ;;
  wb <- hc workingBuffer ;;
  loop (Datatypes.S (Datatypes.S (length wb))) chunked_body (0, buf, u16 buflen).

Definition mangoODP_raw (buf : list Z) (buflen : Z) (vargs : mangoDPArgs) : M world dp_result :=
  let buflen := u16 buflen in
  args <- odp_raw_args vargs ;;
  if buflen =? 0 then
    if odp_fileSz args <? u32 (odp_fileSzProcessed args + buflen)
    then ret (MANGO_ERR_CONTENTLENGTH, 0, false)
    else ret (MANGO_OK, 0, true)
  else if odp_fileSz args <? u32 (odp_fileSzProcessed args + buflen)
  then ret (MANGO_ERR_CONTENTLENGTH, 0, false)
  else
    retval <- mangoSocket_write E fuel buf buflen MANGO_SOCKET_WRITE_TIMEOUT_MS ;;
    if retval =? buflen
    then
      args <- hc ODPArgsRaw ;;
      assign (set_ODPArgsRaw
                (mkODPRaw (odp_fileSz args) (u32 (odp_fileSzProcessed args + buflen)))) ;;
      ret (MANGO_OK, buflen, false)
    else ret (MANGO_ERR_WRITETIMEOUT, 0, false).

(** The array [m] after memcpy(&m[p], d, length d). *)
Definition wb_copy (p : Z) (d : list Z) : M world unit :=
  wb <- hc workingBuffer ;;
  wb <- access "mangoODP_chunked" (zblit wb p d) ;;
  assign (set_workingBuffer wb).

(** One round of while(sent < buflen): processed and sent. *)
Definition odp_chunked_body (buf : list Z) (buflen wbp workingBufferSz extraChunkSz : Z)
    (st : Z * Z) : M world (Z * Z + dp_result) :=
  let '(processed, sent) := st in
  let site := "mangoODP_chunked"%string in
  if sent <? buflen
  then
    let sendSz := u16 (if workingBufferSz - extraChunkSz <? buflen - sent
                       then workingBufferSz - extraChunkSz else buflen - sent) in
    wb <- hc workingBuffer ;;
    wb <- mangoHelper_dec2hexstr sendSz wb wbp ;;
    assign (set_workingBuffer wb) ;;
    n <- access site (strlen wb wbp) ;;
    let chunkLen := u16 n in
    wb_copy (wbp + chunkLen) [13; 10] ;;
    let chunkLen := u16 (chunkLen + 2) in
    d <- access site (if (0 <=? sent) && (sent + sendSz <=? zlen buf)
                      then Some (zsub buf sent sendSz) else None) ;;
    wb_copy (wbp + chunkLen) d ;;
    let chunkLen := u16 (chunkLen + sendSz) in
    wb_copy (wbp + chunkLen) [13; 10] ;;
    let chunkLen := u16 (chunkLen + 2) in
    wb <- hc workingBuffer ;;
    wb <- access site (zset wb (wbp + chunkLen) 0) ;;
    assign (set_workingBuffer wb) ;;
    data <- wb_slice site wbp chunkLen ;;
    retval <- mangoSocket_write E fuel data chunkLen MANGO_SOCKET_WRITE_TIMEOUT_MS ;;
    ret (if retval =? chunkLen then inl (u32 (processed + sendSz), sent + sendSz)
         else inr (MANGO_ERR_WRITETIMEOUT, processed, false))
  else ret (inr (MANGO_OK, processed, false)).

Definition mangoODP_chunked (buf : list Z) (buflen : Z) (vargs : mangoDPArgs)
    : M world dp_result :=
  let buflen := u16 buflen in
  args <- odp_chunked_args vargs ;;
  wbp <- access "mangoODP_chunked" (odp_workingBuffer args) ;;
  if buflen =? 0
  then
    let chunkLen := 5 in
    if odp_workingBufferSz args <? chunkLen then ret (MANGO_ERR_WORKBUFSMALL, 0, false)
    else
      wb_copy wbp (bytes "0" ++ [13; 10; 13; 10]) ;;
      data <- wb_slice "mangoODP_chunked" wbp chunkLen ;;
      retval <- mangoSocket_write E fuel data chunkLen MANGO_SOCKET_WRITE_TIMEOUT_MS ;;
      if retval =? chunkLen then ret (MANGO_OK, chunkLen, true)
      else ret (MANGO_ERR_WRITETIMEOUT, 0, false)
  else
    let extraChunkSz := u8 (u8 (8 + 2) + (2 + 1)) in
    if odp_workingBufferSz args <=? extraChunkSz
    then ret (MANGO_ERR_WORKBUFSMALL, 0, false)
    else
      loop (Datatypes.S (Z.to_nat buflen))
        (odp_chunked_body buf buflen wbp (odp_workingBufferSz args) extraChunkSz) (0, 0).

(** The frame arguments replace [vargs]; no pointer of the program refers to
    this processor. *)
Definition mangoODP_websocket (buflen : Z) (vargs : mangoAPICallArgs) : M world dp_result :=
  let buflen := u16 buflen in
  match vargs with
  | mangoWSFrameSendArgs wsbuf wsbuflen type =>
      err <- mangoWS_frameSend E fuel wsbuf wsbuflen type ;;
      if negb (is_ok err) then ret (MANGO_ERR_DATAPROCESSING, 0, false)
      else ret (MANGO_OK, buflen, true)
  | _ => stop (Fault "mangoODP_websocket")
  end.

(** FRAME_FIN, FRAME_OPCODE, FRAME_MASK, FRAME_PAYLOADLEN. *)
Definition FRAME_FIN (args : mangoIDPArgsWebsocket_t) : Z := Z.land (ws_header0 args) 128.
Definition FRAME_OPCODE (args : mangoIDPArgsWebsocket_t) : Z := Z.land (ws_header0 args) 15.
Definition FRAME_MASK (args : mangoIDPArgsWebsocket_t) : Z := Z.land (ws_header1 args) 128.
Definition FRAME_PAYLOADLEN (args : mangoIDPArgsWebsocket_t) : Z :=
  Z.land (ws_header1 args) 127.

Definition ws_move (newState : Z) (st : dp_locals) (processSz : Z)
    : M world (dp_locals + dp_result) :=
  args <- hc IDPArgsWebsocket ;;
  assign (set_IDPArgsWebsocket (set_ws_state newState args)) ;;
  ret (inl (dp_move st processSz)).

(** args->frameSz = sz; MOVETO(2, processSz). *)
Definition ws_frame_size (sz : Z) (st : dp_locals) (processSz : Z)
    : M world (dp_locals + dp_result) :=
  args <- hc IDPArgsWebsocket ;;
  assign (set_IDPArgsWebsocket (set_frameSz sz args)) ;;
  ws_move 2 st processSz.

(** case 1: the frame header. *)
Definition ws_frame_header (st : dp_locals) : M world (dp_locals + dp_result) :=
  let '(processed, buf, buflen) := st in
  let at_ wb i := access "mangoIDP_websocket" (zget wb (buf + i)) in
  if buflen <? 2 then ret (inr (dp_RETURN processed false))
  else
    wb <- hc workingBuffer ;;
    b0 <- at_ wb 0 ;;
    b1 <- at_ wb 1 ;;
    args <- hc IDPArgsWebsocket ;;
    let args := set_frameSzProcessed 0 (set_ws_header b0 b1 args) in
    assign (set_IDPArgsWebsocket args) ;;
    if negb (FRAME_MASK args =? 0) then ret (inr (MANGO_ERR_DATAPROCESSING, processed, false))
    else if FRAME_PAYLOADLEN args <? 126 then ws_frame_size (FRAME_PAYLOADLEN args) st 2
    else if FRAME_PAYLOADLEN args =? 126 then
      if buflen <? 4 then ret (inr (dp_RETURN processed false))
      else
        b2 <- at_ wb 2 ;;
        b3 <- at_ wb 3 ;;
        ws_frame_size (u32 (Z.lor (Z.shiftl b2 8) b3)) st 4
    else
      if buflen <? 10 then ret (inr (dp_RETURN processed false))
      else
        b2 <- at_ wb 2 ;; b3 <- at_ wb 3 ;; b4 <- at_ wb 4 ;; b5 <- at_ wb 5 ;;
        if negb (Z.lor (Z.lor (Z.lor b2 b3) b4) b5 =? 0)
        then ret (inr (MANGO_ERR_DATAPROCESSING, processed, false))
        else
          b6 <- at_ wb 6 ;; b7 <- at_ wb 7 ;; b8 <- at_ wb 8 ;; b9 <- at_ wb 9 ;;
          ws_frame_size
            (u32 (Z.lor (Z.lor (Z.lor (Z.shiftl b6 24) (Z.shiftl b7 16)) (Z.shiftl b8 8)) b9))
            st 10.

(** What case 2 does with [maxReadSz] bytes of the payload, before it
    accounts for them: [Some r] when the processor returns. *)
Definition ws_dispatch (args : mangoIDPArgsWebsocket_t) (processed buf maxReadSz : Z)
    : M world (option dp_result) :=
  if negb (Z.land (FRAME_OPCODE args) 8 =? 0)
  then
    if FRAME_OPCODE args =? ws_frame_type_code MANGO_WS_FRAME_TYPE_CLOSE
    then
      do_userFunc E (mkArg MANGO_ARG_TYPE_WEBSOCKET_CLOSE [] None None) ;;
      mangoWS_close E fuel ;;
      ret (Some (MANGO_ERR_WEBSOCKETCLOSED, processed, false))
    else if FRAME_OPCODE args =? ws_frame_type_code MANGO_WS_FRAME_TYPE_PING
    then
      do_userFunc E (mkArg MANGO_ARG_TYPE_WEBSOCKET_PING [] None None) ;;
      mangoWS_pong E fuel ;;
      ret None
    else ret (Some (MANGO_ERR_DATAPROCESSING, processed, false))
  else
    pass_data "mangoIDP_websocket" MANGO_ARG_TYPE_WEBSOCKET_DATA_RECEIVED buf maxReadSz
      (Some (frameID args)) ;;
    ret None.

(** case 2: the payload. *)
Definition ws_frame_data (st : dp_locals) : M world (dp_locals + dp_result) :=
  let '(processed, buf, buflen) := st in
  args <- hc IDPArgsWebsocket ;;
  if (frameSz args <=? MANGO_WB_TOT_SZ) && (buflen <? frameSz args)
  then ret (inr (dp_RETURN processed false))
  else
    let left := u32 (frameSz args - frameSzProcessed args) in
    let maxReadSz :=
      u16 (if frameSz args <=? MANGO_WB_TOT_SZ then frameSz args
           else if left <=? buflen then left else buflen) in
    r <- ws_dispatch args processed buf maxReadSz ;;
    match r with
    | Some r => ret (inr r)
    | None =>
        args <- hc IDPArgsWebsocket ;;
        let args := set_frameSzProcessed (u32 (frameSzProcessed args + maxReadSz)) args in
        let args :=
          if (frameSzProcessed args =? frameSz args) && negb (FRAME_FIN args =? 0) &&
             (Z.land (FRAME_OPCODE args) 8 =? 0)
          then set_frameID (u8 (frameID args + 1)) args else args in
        assign (set_IDPArgsWebsocket args) ;;
        ws_move (if frameSzProcessed args =? frameSz args then 1 else 2) st maxReadSz
    end.

(** One round of while(forever). *)
Definition websocket_body (st : dp_locals) : M world (dp_locals + dp_result) :=
  let '(processed, buf, buflen) := st in
  if buflen =? 0 then ret (inr (dp_RETURN processed false))
  else
    args <- hc IDPArgsWebsocket ;;
    match ws_state args with
    | 1 => ws_frame_header st
    | 2 => ws_frame_data st
    | _ => ret (inl st)
    end.

(** A round that leaves [buflen] unchanged moves from state 2 to state 1. *)
Definition mangoIDP_websocket (buf buflen : Z) (vargs : mangoDPArgs) : M world dp_result :=
  idp_websocket_args vargs ;;
  loop (2 * Z.to_nat (u16 buflen) + 2)%nat websocket_body (0, buf, u16 buflen).

(** hc->inputDataProcessor(...) and hc->outputDataProcessor(...). *)
Definition call_inputDataProcessor (buf buflen : Z) : M world dp_result :=
  p <- hc inputDataProcessor ;;
  vargs <- hc dataProcessorArgs ;;
  match p with
  | None => stop (Fault "inputDataProcessor")
  | Some mangoIDP_RAW => mangoIDP_raw buf buflen vargs
  | Some mangoIDP_CHUNKED => mangoIDP_chunked buf buflen vargs
  | Some mangoIDP_WEBSOCKET => mangoIDP_websocket buf buflen vargs
  end.

Definition call_outputDataProcessor (buf : list Z) (buflen : Z) : M world dp_result :=
  p <- hc outputDataProcessor ;;
  vargs <- hc dataProcessorArgs ;;
  match p with
  | None => stop (Fault "outputDataProcessor")
  | Some mangoODP_RAW => mangoODP_raw buf buflen vargs
  | Some mangoODP_CHUNKED => mangoODP_chunked buf buflen vargs
  end.
End DP.
