(* ===== verification/MangoDPFacts.v ===== *)
(** Correctness of the data processors of mangoDP.c: what each hands to the
    application or to the transport, what it consumes, and that it stays
    inside the working buffer.

    The second part runs the input processors on arbitrary bytes. *)

From S2P Require Import Prelude.
From S2P Require Import CMonad.
From S2P Require Import CString.
From S2P Require Import MangoTypes.
From S2P Require Import MangoHelper.
From S2P Require Import MangoHelperFacts.
From S2P Require Import MangoPort.
From S2P Require Import MangoPortFacts.
From S2P Require Import MangoWS.
From S2P Require Import MangoWSFacts.
From S2P Require Import MangoDP.

(** The callback argument that carries payload. *)
Definition data_arg (type : mangoArgType_e) (data : list Z) (id : option Z) : mangoArg_t :=
  mkArg type data None id.

Lemma set_workingBuffer_set a b c :
  set_workingBuffer a (set_workingBuffer b c) = set_workingBuffer a c.
Proof. done. Qed.

Lemma workingBuffer_set a c : workingBuffer (set_workingBuffer a c) = a.
Proof. done. Qed.

(** The application refuses something some time. *)
Definition app_refuses (E : environment) : Prop :=
  exists tr arg, application E tr arg <> MANGO_OK.

Section Common.
Context (E : environment) (Fl : failure -> Prop).

Lemma wpg_userFunc arg w (Q : mangoErr_t -> world -> Prop) :
  userFunc (client w) = true ->
  (forall err tr', io_step (trace w) tr' [] [] [arg] -> Q err (mkWorld (client w) tr')) ->
  wpg Fl (do_userFunc E arg) Q w.
Proof.
  intros Hu HQ. unfold do_userFunc, wpg. rewrite Hu. apply HQ.
  repeat split; cbn; by rewrite ?app_nil_r.
Qed.

(** The same, knowing that an error comes from the application. *)
Lemma wpg_userFunc_err arg w (Q : mangoErr_t -> world -> Prop) :
  userFunc (client w) = true ->
  (forall err tr', io_step (trace w) tr' [] [] [arg] -> (err <> MANGO_OK -> app_refuses E) ->
     Q err (mkWorld (client w) tr')) ->
  wpg Fl (do_userFunc E arg) Q w.
Proof.
  intros Hu HQ. unfold do_userFunc, wpg. rewrite Hu. apply HQ; [|by do 2 eexists].
  repeat split; cbn; by rewrite ?app_nil_r.
Qed.

Lemma zsub_insert_after (l : list Z) p n k v :
  0 <= p -> 0 <= n -> p + n <= k -> zsub (<[Z.to_nat k := v]> l) p n = zsub l p n.
Proof.
  intros Hp Hn Hk. unfold zsub. apply list_eq. intros i.
  destruct (decide (i < Z.to_nat n)%nat) as [Hi|Hi].
  - rewrite !lookup_take_lt, !lookup_drop by lia. apply list_lookup_insert_ne. lia.
  - by rewrite !lookup_take_ge by lia.
Qed.

(** The application sees the bytes; the buffer is as before. *)
Lemma wpg_pass_data site type buf len id w (Q : mangoErr_t -> world -> Prop) :
  userFunc (client w) = true -> 0 <= buf -> 0 <= len ->
  buf + len < zlen (workingBuffer (client w)) ->
  (forall err tr',
     io_step (trace w) tr' [] [] [data_arg type (zsub (workingBuffer (client w)) buf len) id] ->
     (err <> MANGO_OK -> app_refuses E) -> Q err (mkWorld (client w) tr')) ->
  wpg Fl (pass_data E site type buf len id) Q w.
Proof.
  intros Hu Hb Hl Hfit HQ. unfold pass_data, wb_slice.
  mg_step. mg_step. destruct (zget_is_Some (workingBuffer (client w)) (buf + len) ltac:(lia)) as [c Hc].
  mg_step. eapply wpg_access_Some; [exact Hc|].
  mg_step. eapply wpg_access_Some; [apply zset_is_Some; lia|].
  mg_steps. cbn [client upd_client workingBuffer set_workingBuffer].
  rewrite zlen_insert. destruct (Z.leb_spec 0 buf), (Z.leb_spec 0 len),
    (Z.leb_spec (buf + len) (zlen (workingBuffer (client w)))); try lia. cbn [andb].
  mg_steps. rewrite zsub_insert_after by lia. apply wpg_userFunc_err; [done|].
  intros err tr' Hio Herr. mg_steps.
  eapply wpg_access_Some; [apply zset_is_Some; cbn; rewrite zlen_insert; lia|].
  mg_steps. unfold upd_client. cbn [client trace].
  rewrite workingBuffer_set, list_insert_insert_eq, (insert_same _ _ _ Hc).
  rewrite set_workingBuffer_set, set_workingBuffer_id. by apply HQ.
Qed.

Lemma wpg_wb_slice site p len w (Q : list Z -> world -> Prop) :
  0 <= p -> 0 <= len -> p + len <= zlen (workingBuffer (client w)) ->
  Q (zsub (workingBuffer (client w)) p len) w ->
  wpg Fl (wb_slice site p len) Q w.
Proof.
  intros Hp Hl Hfit HQ. unfold wb_slice. mg_steps.
  destruct (Z.leb_spec 0 p), (Z.leb_spec 0 len),
    (Z.leb_spec (p + len) (zlen (workingBuffer (client w)))); try lia. cbn [andb].
  by mg_steps.
Qed.

(** ** The raw input processor *)

Lemma wpg_IDP_raw buf buflen w (Q : dp_result -> world -> Prop) :
  userFunc (client w) = true -> 0 <= buf -> is_u16 buflen ->
  buf + buflen < zlen (workingBuffer (client w)) ->
  let a := IDPArgsRaw (client w) in
  let p := u32 (idp_fileSzProcessed a + buflen) in
  let wb := <[Z.to_nat (buf + buflen) := 0]> (workingBuffer (client w)) in
  (idp_fileSz a = 0 -> Q (MANGO_OK, 0, true) w) ->
  (idp_fileSz a <> 0 -> buflen = 0 -> Q (MANGO_ERR_MOREDATANEEDED, 0, false) w) ->
  (idp_fileSz a <> 0 -> buflen <> 0 -> forall err tr',
     err = MANGO_OK \/ err = MANGO_ERR_APPABORTED ->
     io_step (trace w) tr' [] []
       [data_arg MANGO_ARG_TYPE_HTTP_DATA_RECEIVED
          (zsub (workingBuffer (client w)) buf buflen) None] ->
     Q (err, buflen, p =? idp_fileSz a)
       (mkWorld (set_IDPArgsRaw (mkIDPRaw (idp_fileSz a) p)
                   (set_workingBuffer wb (client w))) tr')) ->
  wpg Fl (mangoIDP_raw E buf buflen DPArgs_IDPRaw) Q w.
Proof.
  intros Hu Hb Hl Hfit a p wb HQ1 HQ2 HQ3. unfold is_u16 in Hl.
  unfold mangoIDP_raw, idp_raw_args. rewrite u16_small by done. cbv zeta.
  mg_steps. fold a. destruct (Z.eqb_spec (idp_fileSz a) 0); [mg_steps; by apply HQ1|].
  destruct (Z.eqb_spec buflen 0); [mg_steps; by apply HQ2|].
  mg_steps. eapply wpg_access_Some; [apply zset_is_Some; lia|]. mg_steps.
  apply wpg_pass_data; cbn; rewrite ?zlen_insert; [done | lia | lia | lia |].
  intros err tr' Hio _. rewrite zsub_insert_after in Hio by lia.
  destruct (is_ok err) eqn:Eo; cbn [negb]; mg_steps; apply HQ3; try done; first [by left | by right].
Qed.
End Common.

(** Safety of mangoIDP_chunked and mangoIDP_websocket on whatever a server
    sends, and the decoding of websocket frames. *)

(** * mangoIDP_chunked on any input *)

(** The failures of a desynchronised chunk parser (size lines of 256 bytes and
    more) and of the size parser. *)
Record chunk_failures (Fl : failure -> Prop) : Prop := {
  cf_fuel : Fl OutOfFuel;
  cf_fault : Fl (Fault "mangoIDP_chunked");
  cf_hang : Fl (Hang "mangoIDP_chunked");
  cf_hex : Fl (Fault "mangoHelper_hexstr2dec")
}.

(** The trace only grows; [calls] may have been made. *)
Definition idp_chunked_client (w w' : world) : Prop :=
  exists a, client w' = set_IDPArgsChunked a (client w).

Lemma idp_chunked_client_trans w1 w2 w3 :
  idp_chunked_client w1 w2 -> idp_chunked_client w2 w3 -> idp_chunked_client w1 w3.
Proof. intros [a Ha] [b Hb]. exists b. by rewrite Hb, Ha. Qed.

Lemma idp_chunked_client_refl w : idp_chunked_client w w.
Proof. exists (IDPArgsChunked (client w)). by destruct w as [[] ?]. Qed.

Lemma idp_chunked_client_assign w a tr :
  idp_chunked_client w (mkWorld (set_IDPArgsChunked a (client w)) tr).
Proof. by exists a. Qed.

(** The errors a processor of received data may return. *)
Definition idp_error (err : mangoErr_t) : Prop :=
  err = MANGO_OK \/ err = MANGO_ERR_MOREDATANEEDED \/ err = MANGO_ERR_APPABORTED \/
  err = MANGO_ERR_DATAPROCESSING \/ err = MANGO_ERR_WEBSOCKETCLOSED.

Definition idp_result_ok (r : dp_result) : Prop := idp_error r.1.1 /\ is_u32 r.1.2.

Lemma dp_RETURN_ok p : is_u32 p -> idp_result_ok (dp_RETURN p false).
Proof. intros Hp. unfold dp_RETURN. destruct (p =? 0); cbn; split; cbn; auto; unfold idp_error; auto. Qed.

Section ChunkedAny.
Context (E : environment) (Fl : failure -> Prop) (HF : chunk_failures Fl).

Local Abbreviation round_ok w := (fun (r : dp_locals + dp_result) w' =>
  idp_chunked_client w w' /\
  match r with
  | inl (p, _, _) => is_u32 p
  | inr r => idp_result_ok r
  end).

Lemma wpg_pass_data_any site type buf len id w (Q : mangoErr_t -> world -> Prop) :
  Fl (Fault site) -> userFunc (client w) = true ->
  (forall err tr', Q err (mkWorld (client w) tr')) ->
  wpg Fl (pass_data E site type buf len id) Q w.
Proof.
  intros Hs Hu HQ. unfold pass_data, wb_slice. mg_steps.
  apply wpg_access; [intros c Hc|done]. mg_step.
  apply wpg_access; [intros wb1 Hwb1|done]. mg_steps.
  apply wpg_access; [intros d Hd|done]. mg_step.
  apply wpg_userFunc; [done|]. intros err tr' Hio. mg_steps.
  apply wpg_access; [intros wb2 Hwb2|done]. mg_steps.
  unfold upd_client in *. cbn [client trace] in *.
  apply zset_Some in Hwb1 as [Hr ->]. rewrite workingBuffer_set in Hwb2.
  apply zset_Some in Hwb2 as [_ ->]. rewrite list_insert_insert_eq, (insert_same _ _ _ Hc).
  rewrite set_workingBuffer_set, set_workingBuffer_id. apply HQ.
Qed.

Lemma wpg_chunked_move_any ns st n w w1 :
  idp_chunked_client w w1 ->
  wpg Fl (chunked_move ns st n) (round_ok w) w1.
Proof.
  intros Hc. unfold chunked_move. mg_steps. split.
  - eapply idp_chunked_client_trans; [exact Hc|]. apply idp_chunked_client_assign.
  - destruct st as [[p b] l]. apply u32_range.
Qed.

Lemma wpg_chunked_body_any p b l w w1 :
  is_u32 p -> userFunc (client w) = true -> idp_chunked_client w w1 ->
  wpg Fl (chunked_body E (p, b, l)) (round_ok w) w1.
Proof.
  intros Hp Hu Hc. destruct HF as [Hfuel Hfault Hhang Hhex].
  assert (userFunc (client w1) = true) as Hu1 by (destruct Hc as [a ->]; done).
  assert (forall r, idp_result_ok r -> wpg Fl (ret (inr r)) (round_ok w) w1) as Hret by done.
  assert (idp_result_ok (MANGO_ERR_DATAPROCESSING, p, false)) as Hdp
    by (split; [unfold idp_error; auto | done]).
  assert (forall e, idp_result_ok (MANGO_OK, p, e)) as Hokr
    by (split; [unfold idp_error; auto | done]).
  unfold chunked_body. destruct (l =? 0); [by apply Hret, dp_RETURN_ok|]. mg_steps.
  assert (wpg Fl (ret (inl (p, b, l))) (round_ok w) w1) as Hstay by done.
  assert (wpg Fl (chunked_size (p, b, l)) (round_ok w) w1) as H1.
  { unfold chunked_size. mg_steps.
    apply (wpg_loop_partial Fl _ (fun _ w' => w' = w1)); [done| |done].
    intros q ? ->. unfold chunk_line_body. mg_step. apply wpg_access; [intros c _|done].
    mg_step. destruct (negb (c =? 10) && negb (c =? 0)); [done|].
    mg_step. apply wpg_access; [intros c' _|done]. destruct (c' =? 0).
    { mg_steps. split; [done|]. by apply dp_RETURN_ok. }
    mg_step. apply wpg_hexstr2dec_any; [done|]. intros [r v]. mg_steps.
    destruct (negb (r =? 0)); mg_steps.
    - split; [|done]. eapply idp_chunked_client_trans; [exact Hc|]. apply idp_chunked_client_assign.
    - apply wpg_chunked_move_any. eapply idp_chunked_client_trans; [exact Hc|].
      eapply idp_chunked_client_trans; apply idp_chunked_client_assign. }
  assert (wpg Fl (chunked_data E (p, b, l)) (round_ok w) w1) as H2.
  { unfold chunked_data. mg_steps. destruct (negb _).
    - mg_step. apply wpg_pass_data_any; [done | done|]. intros err tr'.
      destruct (is_ok err); mg_steps.
      + apply wpg_chunked_move_any. eapply idp_chunked_client_trans; [exact Hc|].
        apply (idp_chunked_client_assign (mkWorld _ tr')).
      + split; [|by split; [unfold idp_error; auto|]]. exact Hc.
    - unfold ensure. by mg_step. }
  assert (wpg Fl (chunked_crlf (p, b, l)) (round_ok w) w1) as H3.
  { unfold chunked_crlf. destruct (l <? 2); [by apply Hret, dp_RETURN_ok|]. mg_steps.
    apply wpg_access; [intros c _|done]. mg_step. apply wpg_access; [intros c' _|done].
    destruct ((c =? 13) && (c' =? 10)); [by apply wpg_chunked_move_any|]. by apply Hret. }
  assert (wpg Fl (chunked_trailer E (p, b, l)) (round_ok w) w1) as H4.
  { unfold chunked_trailer. destruct (l <? 2); [by apply Hret, dp_RETURN_ok|]. mg_steps.
    apply wpg_access; [intros c _|done]. mg_step. apply wpg_access; [intros c' _|done].
    destruct ((l =? 2) && (c =? 13) && (c' =? 10)); [by apply Hret|]. mg_step.
    assert (forall (e : bool), wpg Fl (if e
        then data <- wb_slice "mangoIDP_chunked" b l ;;
             do_userFunc E (mkArg MANGO_ARG_TYPE_HTTP_RESP_RECEIVED data (Some 0) None) ;;
             ret (inr (MANGO_OK, p, true))
        else ret (inr (dp_RETURN p false))) (round_ok w) w1) as Hend.
    { intros [|]; [|by apply Hret, dp_RETURN_ok]. unfold wb_slice. mg_steps.
      apply wpg_access; [intros d _|done]. mg_step. apply wpg_userFunc; [done|].
      intros err tr' _. mg_steps. split; [exact Hc | done]. }
    destruct (3 <? l); [|mg_step; exact (Hend false)]. unfold ends_crlfcrlf.
    do 4 (mg_step; apply wpg_access; [intros ? _|done]). mg_step.
    match goal with |- context [if ?b then bind _ _ else _] => exact (Hend b) end. }
  destruct (chunk_state (IDPArgsChunked (client w1))) as [|[[[]|[]|]|[[]|[]|]|]|]; done.
Qed.

Lemma wpg_IDP_chunked_any buf buflen w (Q : dp_result -> world -> Prop) :
  userFunc (client w) = true ->
  (forall r w', idp_result_ok r -> idp_chunked_client w w' -> Q r w') ->
  wpg Fl (mangoIDP_chunked E buf buflen DPArgs_IDPChunked) Q w.
Proof.
  intros Hu HQ. unfold mangoIDP_chunked, idp_chunked_args. mg_steps.
  apply (wpg_loop_partial Fl _ (fun '(p, _, _) w' => is_u32 p /\ idp_chunked_client w w'));
    [apply HF| |split; [unfold is_u32; lia | apply idp_chunked_client_refl]].
  intros [[p b] l] w1 [Hp Hc]. eapply wpg_mono; [by apply wpg_chunked_body_any|].
  intros [[[p' b'] l']|r] w2 [Hc2 Hr]; [done|]. by apply HQ.
Qed.
End ChunkedAny.

(** * mangoIDP_websocket on any input *)

(** The arguments between two rounds: a frame that fits the working buffer is
    taken whole, a bigger one piece by piece. *)
Definition ws_args_ok (a : mangoIDPArgsWebsocket_t) : Prop :=
  ws_state a = 1 \/
  (ws_state a = 2 /\ is_u32 (frameSz a) /\ 0 <= frameSzProcessed a /\
   (frameSz a <= MANGO_WB_TOT_SZ -> frameSzProcessed a = 0) /\
   (MANGO_WB_TOT_SZ < frameSz a -> frameSzProcessed a < frameSz a)).

Definition idp_ws_client (w w' : world) : Prop :=
  exists a, client w' = set_IDPArgsWebsocket a (client w) /\ ws_args_ok a.

Section WebsocketAny.
Context (E : environment) `{environment_ok E} (Fl : failure -> Prop) (fuel : nat).
Hypothesis (HF : Fl OutOfFuel).
Context (w : world) (buf0 L : Z).
Hypothesis (Hu : userFunc (client w) = true) (Hbuf : 0 <= buf0) (HL : 0 <= L <= 65535).
Hypothesis (Hfit : buf0 + L < zlen (workingBuffer (client w))).

Definition ws_inv (st : dp_locals) (w1 : world) : Prop :=
  let '(p, b, l) := st in
  0 <= p /\ 0 <= l /\ p + l = L /\ b = buf0 + p /\ idp_ws_client w w1.

Definition ws_mu (st : dp_locals) (w1 : world) : nat :=
  (2 * Z.to_nat st.2 +
   if decide (ws_state (IDPArgsWebsocket (client w1)) = 2%Z) then 1 else 0)%nat.

Definition ws_result (r : dp_result) (w1 : world) : Prop :=
  idp_error r.1.1 /\ 0 <= r.1.2 <= L /\ idp_ws_client w w1.

Definition ws_round (st : dp_locals) (w0 : world) (r : dp_locals + dp_result) (w1 : world)
    : Prop :=
  match r with
  | inl st' => ws_inv st' w1 /\ (ws_mu st' w1 < ws_mu st w0)%nat
  | inr r => ws_result r w1
  end.

Lemma ws_wb w1 : idp_ws_client w w1 -> workingBuffer (client w1) = workingBuffer (client w).
Proof. by intros (a & -> & _). Qed.

Lemma ws_RETURN p b l w1 : ws_inv (p, b, l) w1 -> ws_result (dp_RETURN p false) w1.
Proof.
  intros (Hp & Hl & HpL & _ & Hc). unfold dp_RETURN, ws_result, idp_error.
  destruct (p =? 0); cbn; split; auto; (split; [lia | done]).
Qed.

(** Moving to state [ns] with arguments [a] after [n] bytes. *)
Lemma wpg_ws_move ns p b l n w0 w1 a :
  ws_inv (p, b, l) w0 -> client w1 = set_IDPArgsWebsocket a (client w) ->
  0 <= n <= l -> ws_args_ok (set_ws_state ns a) ->
  (2 * Z.to_nat (l - n)%Z + (if decide (ns = 2%Z) then 1 else 0) < ws_mu (p, b, l) w0)%nat ->
  wpg Fl (ws_move ns (p, b, l) n) (ws_round (p, b, l) w0) w1.
Proof.
  intros (Hp & Hl & HpL & Hb & Hc) Hw1 Hn Hok Hmu. unfold ws_move. mg_steps.
  rewrite Hw1. cbn [client IDPArgsWebsocket set_IDPArgsWebsocket].
  unfold dp_move. rewrite u32_small by (unfold is_u32; lia).
  rewrite u16_small by (unfold is_u16; lia).
  split; [|unfold ws_mu at 1; cbn [snd client upd_client]; rewrite Hw1; exact Hmu].
  repeat split; try lia. exists (set_ws_state ns a). split; [|done].
  unfold upd_client. cbn [client]. by rewrite Hw1.
Qed.

Lemma wpg_ws_frame_size sz p b l n w0 w1 a :
  ws_inv (p, b, l) w0 -> client w1 = set_IDPArgsWebsocket a (client w) ->
  2 <= n <= l -> is_u32 sz -> frameSzProcessed a = 0 ->
  wpg Fl (ws_frame_size sz (p, b, l) n) (ws_round (p, b, l) w0) w1.
Proof.
  intros Hi Hw1 Hn Hsz Hz. unfold ws_frame_size. mg_steps. rewrite Hw1.
  eapply wpg_ws_move; [exact Hi| |lia| |].
  - unfold upd_client. cbn [client]. rewrite Hw1. reflexivity.
  - right. cbn. split; [done|]. split; [done|]. rewrite Hz. unfold MANGO_WB_TOT_SZ, MANGO_WORKING_BUFFER_SZ.
    split; [done|]. split; [done|]. lia.
  - rewrite decide_True by done. unfold ws_mu. cbn [snd].
    destruct Hi as (_ & Hl & _). lia.
Qed.

Lemma wpg_ws_header p b l w1 a (Hi : ws_inv (p, b, l) w1)
    (Ha : client w1 = set_IDPArgsWebsocket a (client w)) :
  ws_state a = 1 -> wpg Fl (ws_frame_header (p, b, l)) (ws_round (p, b, l) w1) w1.
Proof.
  intros Hst. unfold ws_frame_header.
  destruct (Z.ltb_spec l 2); [mg_steps; by eapply ws_RETURN|].
  pose proof Hi as (Hp & Hl & HpL & -> & Hc). pose proof (ws_wb _ Hc) as Hwb.
  assert (forall i, 0 <= i < l -> exists c, zget (workingBuffer (client w1)) (buf0 + p + i) = Some c)
    as Hget.
  { intros i Hil. rewrite Hwb. apply zget_is_Some. lia. }
  destruct (Hget 0 ltac:(lia)) as [b0 Hb0]. destruct (Hget 1 ltac:(lia)) as [b1 Hb1].
  mg_steps. eapply wpg_access_Some; [exact Hb0|]. mg_step.
  eapply wpg_access_Some; [exact Hb1|]. mg_steps.
  set (a2 := set_frameSzProcessed 0 (set_ws_header b0 b1 (IDPArgsWebsocket (client w1)))).
  set (w2 := upd_client (set_IDPArgsWebsocket a2) w1).
  assert (client w2 = set_IDPArgsWebsocket a2 (client w)) as Hw2.
  { unfold w2, upd_client. cbn [client]. by rewrite Ha. }
  assert (ws_state a2 = 1) as Hst2 by (unfold a2; rewrite Ha; done).
  assert (ws_inv (p, buf0 + p, l) w2) as Hi2.
  { repeat split; try lia. exists a2. split; [done | by left]. }
  assert (forall r, ws_result r w2 -> wpg Fl (ret (inr r)) (ws_round (p, buf0 + p, l) w1) w2)
    as Hret by done.
  assert (ws_result (MANGO_ERR_DATAPROCESSING, p, false) w2) as Hdp.
  { split; [unfold idp_error; cbn; auto|]. split; [cbn; lia|]. apply Hi2. }
  assert (forall sz n, 2 <= n <= l -> is_u32 sz ->
    wpg Fl (ws_frame_size sz (p, buf0 + p, l) n) (ws_round (p, buf0 + p, l) w1) w2) as Hsize.
  { intros sz n Hn Hsz. by apply wpg_ws_frame_size with a2. }
  destruct (negb (FRAME_MASK a2 =? 0)); [by apply Hret|].
  destruct (Z.ltb_spec (FRAME_PAYLOADLEN a2) 126).
  { apply Hsize; [lia|]. unfold FRAME_PAYLOADLEN, is_u32 in *.
    assert (0 <= Z.land (ws_header1 a2) 127) by (apply Z.land_nonneg; lia). lia. }
  destruct (FRAME_PAYLOADLEN a2 =? 126).
  - destruct (Z.ltb_spec l 4); [by apply Hret, (ws_RETURN p (buf0 + p) l)|].
    destruct (Hget 2 ltac:(lia)) as [b2 Hb2]. destruct (Hget 3 ltac:(lia)) as [b3 Hb3].
    mg_step. eapply wpg_access_Some; [exact Hb2|]. mg_step.
    eapply wpg_access_Some; [exact Hb3|]. apply Hsize; [lia | apply u32_range].
  - destruct (Z.ltb_spec l 10); [by apply Hret, (ws_RETURN p (buf0 + p) l)|].
    destruct (Hget 2 ltac:(lia)) as [b2 Hb2]. destruct (Hget 3 ltac:(lia)) as [b3 Hb3].
    destruct (Hget 4 ltac:(lia)) as [b4 Hb4]. destruct (Hget 5 ltac:(lia)) as [b5 Hb5].
    destruct (Hget 6 ltac:(lia)) as [b6 Hb6]. destruct (Hget 7 ltac:(lia)) as [b7 Hb7].
    destruct (Hget 8 ltac:(lia)) as [b8 Hb8]. destruct (Hget 9 ltac:(lia)) as [b9 Hb9].
    do 4 (mg_step; eapply wpg_access_Some; [eassumption|]).
    cbn beta iota. destruct (negb _); [by apply Hret|].
    do 4 (mg_step; eapply wpg_access_Some; [eassumption|]).
    apply Hsize; [lia | apply u32_range].
Qed.

(** The calls of case 2 leave the client alone. *)
Lemma wpg_ws_dispatch a p b n w1 (Q : option dp_result -> world -> Prop) :
  idp_ws_client w w1 -> 0 <= p <= L -> 0 <= b -> 0 <= n ->
  b + n < zlen (workingBuffer (client w)) ->
  (forall o tr', (forall r, o = Some r -> idp_error r.1.1 /\ 0 <= r.1.2 <= L) ->
     Q o (mkWorld (client w1) tr')) ->
  wpg Fl (ws_dispatch E fuel a p b n) Q w1.
Proof.
  intros Hc Hp Hb Hn Hbn HQ. pose proof (ws_wb _ Hc) as Hwb.
  assert (userFunc (client w1) = true) as Hu1 by (by destruct Hc as (? & -> & _)).
  assert (forall type (Q' : mangoErr_t -> world -> Prop) w2,
    ws_uses_frame0 type = true ->
    (forall err tr', Q' err (mkWorld (client w2) tr')) ->
    wpg Fl (mangoWS_frameSend E fuel [] 0 type) Q' w2) as Hsend.
  { intros type Q' w2 Ht HQ'. change 0 with (zlen (@nil Z)).
    destruct (sent_payload type []) as [pl|] eqn:Epl; [|by destruct type].
    apply (wpg_frameSend E Fl fuel [] type pl); try done; [by apply can_write_partial|].
    intros err [c tr] [Hcl _]. cbn in Hcl. rewrite Hcl. apply HQ'. }
  unfold ws_dispatch. destruct (negb (Z.land (FRAME_OPCODE a) 8 =? 0)).
  - destruct (FRAME_OPCODE a =? _).
    { mg_step. apply wpg_userFunc; [done|]. intros err tr _. mg_step.
      apply Hsend; [done|]. intros err2 tr2. mg_step. apply HQ.
      intros r [= <-]. cbn. unfold idp_error. split; [auto 6 | lia]. }
    destruct (FRAME_OPCODE a =? _).
    { mg_step. apply wpg_userFunc; [done|]. intros err tr _. mg_step.
      apply Hsend; [done|]. intros err2 tr2. mg_step. by apply HQ. }
    mg_step. destruct w1. apply HQ. intros r [= <-]. cbn. unfold idp_error.
    split; [auto 6 | lia].
  - mg_step. apply wpg_pass_data; [done | done | done | by rewrite Hwb |].
    intros err tr _ _. mg_step. by apply HQ.
Qed.

Lemma wpg_ws_data p b l w1 a (Hi : ws_inv (p, b, l) w1)
    (Ha : client w1 = set_IDPArgsWebsocket a (client w)) :
  ws_state a = 2 -> ws_args_ok a -> 0 < l ->
  wpg Fl (ws_frame_data E fuel (p, b, l)) (ws_round (p, b, l) w1) w1.
Proof.
  intros Hst [Hok|(_ & Hsz & Hpr & Hsmall & Hbig)] Hl0; [lia|]. unfold is_u32 in Hsz.
  pose proof Hi as (Hp & Hl & HpL & -> & Hc). unfold ws_frame_data. mg_steps. rewrite Ha.
  cbn [IDPArgsWebsocket set_IDPArgsWebsocket].
  destruct ((frameSz a <=? MANGO_WB_TOT_SZ) && (l <? frameSz a)) eqn:Eret.
  { mg_steps. by eapply ws_RETURN. }
  set (n := u16 (if frameSz a <=? MANGO_WB_TOT_SZ then frameSz a
    else if u32 (frameSz a - frameSzProcessed a) <=? l
         then u32 (frameSz a - frameSzProcessed a) else l)).
  assert (0 <= n <= l /\ (if frameSz a <=? MANGO_WB_TOT_SZ then n = frameSz a
                          else 0 < n <= frameSz a - frameSzProcessed a)) as [Hn Hn2].
  { unfold n. destruct (Z.leb_spec (frameSz a) MANGO_WB_TOT_SZ) as [Hle|Hgt]; cbn [andb] in Eret.
    - destruct (Z.ltb_spec l (frameSz a)); [done|].
      rewrite u16_small by (unfold is_u16; lia). lia.
    - rewrite u32_small by (unfold is_u32; lia).
      specialize (Hbig Hgt). destruct (Z.leb_spec (frameSz a - frameSzProcessed a) l);
        rewrite u16_small by (unfold is_u16; lia); lia. }
  clearbody n. mg_step. apply wpg_ws_dispatch; [done | lia | lia | lia | lia |].
  intros [r|] tr Hr.
  { mg_steps. split; [by apply Hr|]. split; [by apply Hr|].
    exists a. split; [exact Ha|]. right. done. }
  mg_steps. rewrite Ha. cbn [client IDPArgsWebsocket set_IDPArgsWebsocket].
  assert (frameSzProcessed a + n <= frameSz a) as Hsum.
  { destruct (Z.leb_spec (frameSz a) MANGO_WB_TOT_SZ) as [Hle|Hgt]; [|lia].
    rewrite Hsmall by done. lia. }
  rewrite u32_small by (unfold is_u32; lia).
  set (a2 := if _ && _ && _ then _ else _).
  assert (frameSz a2 = frameSz a /\ frameSzProcessed a2 = frameSzProcessed a + n) as [Es Ep].
  { unfold a2. by destruct (_ && _ && _). }
  clearbody a2. rewrite Es, Ep.
  eapply wpg_ws_move; [exact Hi| |done| |].
  - unfold upd_client. cbn [client]. reflexivity.
  - destruct (Z.eqb_spec (frameSzProcessed a + n) (frameSz a)); [by left|]. right.
    unfold is_u32. cbn. rewrite Es, Ep. repeat split; try lia.
    intros Hle. destruct (Z.leb_spec (frameSz a) MANGO_WB_TOT_SZ); [|lia].
    exfalso. specialize (Hsmall Hle). lia.
  - unfold ws_mu. cbn [snd client]. rewrite Ha. cbn [IDPArgsWebsocket set_IDPArgsWebsocket].
    rewrite (decide_True (P := ws_state a = 2)) by done.
    destruct (Z.eqb_spec (frameSzProcessed a + n) (frameSz a)); [rewrite decide_False by lia; lia|].
    rewrite decide_True by done.
    destruct (Z.leb_spec (frameSz a) MANGO_WB_TOT_SZ) as [Hle|Hgt]; [|lia].
    exfalso. specialize (Hsmall Hle). lia.
Qed.

(** On any bytes the processor returns, having consumed a prefix. *)
Lemma wpg_IDP_websocket (Q : dp_result -> world -> Prop) :
  ws_args_ok (IDPArgsWebsocket (client w)) ->
  (forall r w', ws_result r w' -> Q r w') ->
  wpg Fl (mangoIDP_websocket E fuel buf0 L DPArgs_IDPWebsocket) Q w.
Proof.
  intros Hok HQ. unfold mangoIDP_websocket, idp_websocket_args. mg_steps.
  rewrite u16_small by (unfold is_u16; lia).
  apply (wpg_loop Fl _ ws_inv ws_mu).
  - intros [[p b] l] w1 Hi. eapply wpg_mono.
    2: { intros r w2 Hr. instantiate (1 := ws_round (p, b, l) w1) in Hr.
         destruct r as [st|r]; [exact Hr|]. by apply HQ. }
    unfold websocket_body. pose proof Hi as (Hp & Hl & HpL & Hb & (a & Ha & Haok)).
    destruct (Z.eqb_spec l 0); [mg_steps; by eapply ws_RETURN|].
    mg_steps. rewrite Ha. cbn [IDPArgsWebsocket set_IDPArgsWebsocket].
    pose proof Haok as [Hst|(Hst & _)]; rewrite Hst.
    + by eapply wpg_ws_header.
    + eapply wpg_ws_data; try done. lia.
  - repeat split; try lia. exists (IDPArgsWebsocket (client w)).
    split; [by destruct (client w) | done].
  - unfold ws_mu. cbn [snd]. destruct (decide _); lia.
Qed.
End WebsocketAny.
