(* ===== verification/MangoChunkedFacts.v ===== *)
(** The chunked transfer coding (RFC 2616, section 3.6.1) and the input
    processor mangoIDP_chunked: however the coded stream is cut into buffers,
    the application receives the decoded body.

    The second part is about the processor that writes the coding, the third
    about a body that one client sends and another receives. *)

From S2P Require Import Prelude.
From S2P Require Import CMonad.
From S2P Require Import CString.
From S2P Require Import MangoTypes.
From S2P Require Import MangoHelper.
From S2P Require Import MangoHelperFacts.
From S2P Require Import MangoHttpFacts.
From S2P Require Import MangoPort.
From S2P Require Import MangoPortFacts.
From S2P Require Import MangoDP.
From S2P Require Import MangoDPFacts.

(** * Chunked streams *)

(** The end of a chunk size line, after the digits and up to the LF. *)
Definition line_ext (ext : list Z) : Prop :=
  Forall (fun c => c <> 0 /\ c <> 10) ext /\
  match ext with
  | [] => True
  | c :: _ => is_hex_char c = false /\ c <> 120 /\ c <> 88
  end.

(** A chunk size line announcing [n] bytes. *)
Definition size_line (n : Z) (line : list Z) : Prop :=
  exists cs ds ext,
    line = cs ++ ext ++ [10] /\ hex_chars cs ds /\ ds <> [] /\ zlen ds <= 8 /\
    n = digits_value 16 0 ds /\ line_ext ext /\ zlen line < 256.

(** The end of the body: CRLF, or header lines [T] closed by an empty line. *)
Definition trailer (R T : list Z) : Prop :=
  (R = CRLF /\ T = []) \/
  (R = T /\ (exists x, T = x ++ CRLF ++ CRLF) /\ take 2 T <> CRLF /\
   forall x y, T = x ++ CRLF ++ CRLF ++ y -> y = []).

(** [chunked_rest st left R D T]: from state [st], with [left] bytes of the
    chunk outstanding, the stream [R] carries the body [D] and trailer [T]. *)
Inductive chunked_rest : Z -> Z -> list Z -> list Z -> list Z -> Prop :=
| CR_size left n line R D T :
    size_line n line -> n <> 0 -> chunked_rest 2 n R D T ->
    chunked_rest 1 left (line ++ R) D T
| CR_last left line R T :
    size_line 0 line -> trailer R T -> chunked_rest 1 left (line ++ R) [] T
| CR_data left d R D T :
    d <> [] -> zlen d = left -> chunked_rest 3 0 R D T ->
    chunked_rest 2 left (d ++ R) (d ++ D) T
| CR_crlf left R D T :
    chunked_rest 1 0 R D T -> chunked_rest 3 left (CRLF ++ R) D T
| CR_trailer left R T : trailer R T -> chunked_rest 4 left R [] T.

Lemma size_line_nonempty n line : size_line n line -> line <> [].
Proof.
  intros (cs & ds & ext & -> & _) E. apply (f_equal length) in E.
  rewrite !length_app in E. cbn in E. lia.
Qed.

Lemma trailer_nonempty R T : trailer R T -> R <> [].
Proof.
  intros [[-> _]|(-> & [x ->] & _)]; [done|]. intros E.
  apply (f_equal length) in E. rewrite !length_app in E. cbn in E. lia.
Qed.

Lemma chunked_rest_nonempty st left R D T : chunked_rest st left R D T -> R <> [].
Proof.
  destruct 1 as [left n line R D T Hl|left line R T Hl|left d R D T Hd|left R D T|left R T Ht].
  - apply size_line_nonempty in Hl. by destruct line.
  - apply size_line_nonempty in Hl. by destruct line.
  - by destruct d.
  - done.
  - by eapply trailer_nonempty.
Qed.

(** In state 1 nothing is outstanding. *)
Lemma chunked_rest_left l l' R D T : chunked_rest 1 l R D T -> chunked_rest 1 l' R D T.
Proof. inversion 1; subst; by econstructor. Qed.

Lemma size_line_value n line : size_line n line -> 0 <= n < 4294967296.
Proof.
  intros (cs & ds & ext & _ & Hcs & _ & Hl & -> & _).
  apply hex_chars_ok in Hcs as [Hok _].
  pose proof (digits_value_bound 16 0 ds ltac:(lia) ltac:(lia) Hok) as Hv.
  pose proof (Z.pow_le_mono_r 16 (zlen ds) 8 ltac:(lia) ltac:(lia)) as Hp.
  change (16 ^ 8) with 4294967296 in Hp. lia.
Qed.

(** Two ways to cut the same list. *)
Lemma app_cut {A} (U F L R : list A) :
  U ++ F = L ++ R ->
  (exists x, U = L ++ x /\ R = x ++ F) \/ (exists y, y <> [] /\ L = U ++ y /\ F = y ++ R).
Proof.
  revert L. induction U as [|u U IH]; intros L H.
  - destruct L as [|l L]; [left; by exists []|]. right. exists (l :: L). done.
  - destruct L as [|l L]; [left; by exists (u :: U)|]. cbn in H. injection H as <- H.
    destruct (IH L H) as [(x & -> & ->)|(y & Hy & -> & ->)]; [left; by exists x|].
    right. by exists y.
Qed.

(** The body and the trailers among the calls of the application. *)
Definition is_data (a : mangoArg_t) : bool :=
  match argType a with MANGO_ARG_TYPE_HTTP_DATA_RECEIVED => true | _ => false end.
Definition body_of (calls : list mangoArg_t) : list Z :=
  concat (map arg_data (List.filter is_data calls)).
Definition trailers_of (calls : list mangoArg_t) : list Z :=
  concat (map arg_data (List.filter (fun a => negb (is_data a)) calls)).

Lemma body_of_app a b : body_of (a ++ b) = body_of a ++ body_of b.
Proof. unfold body_of. by rewrite List.filter_app, map_app, concat_app. Qed.
Lemma trailers_of_app a b : trailers_of (a ++ b) = trailers_of a ++ trailers_of b.
Proof. unfold trailers_of. by rewrite List.filter_app, map_app, concat_app. Qed.

(** * The processor *)

(** What the arguments must say for the state they are in. *)
Definition chunk_args_ok (a : mangoIDPArgsChunked_t) : Prop :=
  chunk_state a = 2 -> is_u32 (chunkSz a) /\ 0 <= chunkSzProcessed a < chunkSz a.

Definition chunk_left (a : mangoIDPArgsChunked_t) : Z := chunkSz a - chunkSzProcessed a.

Section Chunked.
Context (E : environment) (Fl : failure -> Prop).

(** The loop that looks for the end of the line. *)
Lemma wpg_chunk_line wb (Q : Z -> world -> Prop) w : forall l c p n,
  holds wb p (l ++ [c]) -> Forall (fun c => c <> 0 /\ c <> 10) l -> c = 0 \/ c = 10 ->
  (length l < n)%nat -> Q (p + zlen l) w ->
  wpg Fl (loop n (chunk_line_body wb) p) Q w.
Proof.
  induction l as [|x l IH]; intros c p n Hh Hl Hc Hn HQ;
    (destruct n as [|n]; [lia|]); apply wpg_loop_S; unfold chunk_line_body; destruct Hh as [Hx Hh];
    wp_step; (eapply wpg_access_Some; [exact Hx|]); wp_step.
  - rewrite zlen_nil, Z.add_0_r in HQ.
    by destruct (Z.eqb_spec c 10), (Z.eqb_spec c 0); cbn; try lia.
  - apply Forall_cons in Hl as [[H0 H10] Hl].
    destruct (Z.eqb_spec x 10), (Z.eqb_spec x 0); cbn; try done.
    rewrite zlen_cons in HQ. eapply IH; [exact Hh | done | exact Hc | cbn in Hn; lia|].
    by replace (p + 1 + zlen l) with (p + (zlen l + 1)) by lia.
Qed.

(** The state of the loop: [U] is what the buffer still holds, [F] the bytes
    that have not been received, [D] what is left of the body. *)
Record chunked_inv (w : world) (wb : list Z) (buf0 : Z) (U F D T : list Z)
    (st : dp_locals) (pre U' D1 D' : list Z) (calls : list mangoArg_t)
    (a : mangoIDPArgsChunked_t) (w' : world) : Prop := mkInv {
  ci_st : st = (zlen pre, buf0 + zlen pre, zlen U');
  ci_U : U = pre ++ U';
  ci_client : client w' = set_IDPArgsChunked a (client w);
  ci_io : io_step (trace w) (trace w') [] [] calls;
  ci_args : chunk_args_ok a;
  ci_D : D = D1 ++ D';
  ci_body : body_of calls = D1;
  ci_trailers : trailers_of calls = [];
  ci_rest : chunked_rest (chunk_state a) (chunk_left a) (U' ++ F) D' T
}.

(** How a call of the processor may end. *)
Definition chunked_post (w : world) (U F D T : list Z) (r : dp_result) (w' : world) : Prop :=
  exists a pre U' D1 D' calls,
    U = pre ++ U' /\ D = D1 ++ D' /\ body_of calls = D1 /\
    client w' = set_IDPArgsChunked a (client w) /\
    io_step (trace w) (trace w') [] [] calls /\
    (* all received: the body is complete *)
    (r = (MANGO_OK, zlen pre, true) /\ F = [] /\ D' = [] /\ trailers_of calls = T \/
     (* more to come *)
     r = dp_RETURN (zlen pre) false /\ F <> [] /\ trailers_of calls = [] /\
       (T = [] -> zlen U' < 256) /\
       chunk_args_ok a /\ chunked_rest (chunk_state a) (chunk_left a) (U' ++ F) D' T \/
     (* the application aborts *)
     app_refuses E /\ exists p, r = (MANGO_ERR_APPABORTED, p, false)).

Lemma hex_chars_plain cs ds : hex_chars cs ds -> Forall (fun c => c <> 0 /\ c <> 10) cs.
Proof.
  induction 1 as [|c d cs ds Hc _ IH]; constructor; [|done].
  split; [by apply hex_digit_facts in Hc as [? _]|]. intros ->. done.
Qed.

(** In state 1 a size line comes next. *)
Lemma chunked_rest_1 left R D T :
  chunked_rest 1 left R D T ->
  exists n line R', R = line ++ R' /\ size_line n line /\
    chunked_rest (if n =? 0 then 4 else 2) n R' D T.
Proof.
  inversion 1 as [l n line R' D' T' Hl Hn Hr|l line R' T' Hl Ht| | |]; subst.
  - exists n, line, R'. split; [done|]. split; [done|]. by destruct (Z.eqb_spec n 0).
  - exists 0, line, R'. split; [done|]. split; [done|]. by constructor.
Qed.

Lemma chunked_rest_3 left R D T :
  chunked_rest 3 left R D T -> exists R', R = CRLF ++ R' /\ chunked_rest 1 0 R' D T.
Proof. inversion 1; subst; by eexists. Qed.

Lemma chunked_rest_4 left R D T : chunked_rest 4 left R D T -> trailer R T /\ D = [].
Proof. by inversion 1; subst. Qed.

Section Rounds.
Context (w : world) (wb : list Z) (buf0 : Z) (U F D T : list Z).
Hypothesis (Hwb : workingBuffer (client w) = wb) (Hu : userFunc (client w) = true).
Hypothesis (Hbuf0 : 0 <= buf0) (HU : zlen U <= 65535).
Hypothesis (Hhold : holds wb buf0 (U ++ [0])).

Local Abbreviation inv := (chunked_inv w wb buf0 U F D T).

(** What one round establishes. *)
Definition chunked_round (U' : list Z) (r : dp_locals + dp_result) (w2 : world) : Prop :=
  match r with
  | inl st => exists pre U2 D1 D2 calls a,
      inv st pre U2 D1 D2 calls a w2 /\ (length U2 < length U')%nat
  | inr res => chunked_post w U F D T res w2
  end.

Lemma chunked_more st pre U' D1 D' calls a w1 :
  inv st pre U' D1 D' calls a w1 -> F <> [] -> (T = [] -> zlen U' < 256) ->
  chunked_post w U F D T (dp_RETURN (zlen pre) false) w1.
Proof.
  intros [] HF HUs. exists a, pre, U', D1, D', calls. repeat split; try done; try apply ci_io0.
  right. left. done.
Qed.

Lemma inv_holds st pre U' D1 D' calls a w1 :
  inv st pre U' D1 D' calls a w1 ->
  holds wb (buf0 + zlen pre) (U' ++ [0]) /\ zlen pre + zlen U' <= 65535.
Proof.
  intros []. rewrite ci_U0, <- app_assoc in Hhold. apply holds_app in Hhold as [_ Hh].
  split; [done|]. rewrite ci_U0, zlen_app in HU. done.
Qed.

(** Consuming [x] from the buffer, with new arguments. *)
Lemma inv_move st pre x U2 D1 D' calls a w1 d D2 calls2 a2 w2 :
  inv st pre (x ++ U2) D1 D' calls a w1 ->
  client w2 = set_IDPArgsChunked a2 (client w) ->
  io_step (trace w1) (trace w2) [] [] calls2 ->
  chunk_args_ok a2 -> D' = d ++ D2 -> body_of calls2 = d -> trailers_of calls2 = [] ->
  chunked_rest (chunk_state a2) (chunk_left a2) (U2 ++ F) D2 T ->
  inv (dp_move st (zlen x)) (pre ++ x) U2 (D1 ++ d) D2 (calls ++ calls2) a2 w2.
Proof.
  intros Hi Hc Hio Ha HD Hb Ht Hr. pose proof (inv_holds _ _ _ _ _ _ _ _ Hi) as [_ Hl].
  destruct Hi. rewrite zlen_app in Hl. pose proof (zlen_nonneg U2).
  pose proof (zlen_nonneg x). pose proof (zlen_nonneg pre). constructor; try done.
  - rewrite ci_st0. cbn [dp_move]. rewrite !zlen_app.
    rewrite u32_small by (unfold is_u32; lia). rewrite u16_small by (unfold is_u16; lia).
    f_equal; [f_equal|]; lia.
  - by rewrite <- app_assoc.
  - by apply (io_step_trans _ _ _ _ _ _ _ _ _ ci_io0 Hio).
  - rewrite ci_D0, HD. by rewrite app_assoc.
  - by rewrite body_of_app, ci_body0, Hb.
  - by rewrite trailers_of_app, ci_trailers0, Ht.
Qed.

Lemma wpg_chunked_size st pre U' D1 D' calls a w1 :
  inv st pre U' D1 D' calls a w1 -> chunk_state a = 1 ->
  wpg Fl (chunked_size st) (chunked_round U') w1.
Proof.
  intros Hi Hst. pose proof (inv_holds _ _ _ _ _ _ _ _ Hi) as [Hh Hl].
  pose proof Hi as [-> EU Hc Hio Ha HD Hb Ht Hr]. rewrite Hst in Hr.
  apply chunked_rest_1 in Hr as (n & line & R & ER & Hline & Hr).
  pose proof (size_line_value _ _ Hline) as Hn.
  destruct Hline as (cs & ds & ext & Eline & Hcs & Hds & Hdl & En & [He Hext] & Hll).
  assert (Forall (fun c => c <> 0 /\ c <> 10) (cs ++ ext)) as Hplain.
  { apply Forall_app. split; [by apply (hex_chars_plain _ _ Hcs) | done]. }
  unfold chunked_size. mg_steps. rewrite Hc.
  change (workingBuffer (set_IDPArgsChunked a (client w))) with (workingBuffer (client w)).
  rewrite Hwb. set (p := buf0 + zlen pre) in *. pose proof (zlen_nonneg pre).
  assert (forall l c, holds wb p (l ++ [c]) -> (length l < Datatypes.S (Datatypes.S (length wb)))%nat)
    as Hfuel.
  { intros l c Hlc. apply holds_bound in Hlc as [_ Hlc]; [|by destruct l].
    rewrite zlen_app in Hlc. change (zlen [c]) with 1 in Hlc. unfold zlen in *. lia. }
  destruct (app_cut _ _ _ _ ER) as [(x & Ex & EF)|(y & Hy & Ey & EF)].
  - assert (holds wb p ((cs ++ ext) ++ [10])) as Hline.
    { rewrite Ex, Eline, <- !app_assoc in Hh. rewrite app_assoc in Hh.
      rewrite (app_assoc _ [10]) in Hh. by apply holds_app in Hh as [Hh _]. }
    eapply wpg_chunk_line; [exact Hline | exact Hplain | by right | by eapply Hfuel |].
    apply holds_app in Hline as Hl10. destruct Hl10 as [_ [H10 _]].
    wp_step. eapply wpg_access_Some; [exact H10|]. change (10 =? 0) with false. cbv iota.
    assert (exists c r, ext ++ [10] = c :: r /\ is_hex_char c = false /\ c <> 120 /\ c <> 88)
      as (c & r & Ec & Hc1 & Hc2 & Hc3).
    { destruct ext as [|c ext]; [by exists 10, []|].
      exists c, (ext ++ [10]). destruct Hext as (? & ? & ?). done. }
    assert (holds wb p (cs ++ [c])) as Hcsh.
    { rewrite <- app_assoc, Ec in Hline. change (c :: r) with ([c] ++ r) in Hline.
      rewrite app_assoc in Hline. by apply holds_app in Hline as [? _]. }
    wp_step. eapply wpg_hexstr2dec_chars; [done | exact Hcs | done | exact Hcsh | done..|].
    rewrite <- En. mg_steps. change (negb (0 =? 0)) with false. mg_steps.
    assert (zlen (cs ++ ext) + 1 = zlen line) as Ell.
    { rewrite Eline, app_assoc, (zlen_app (cs ++ ext)). done. }
    pose proof (zlen_nonneg line).
    replace (p + zlen (cs ++ ext) + 1 - p) with (zlen line) by lia.
    rewrite (u8_small (zlen line)) by (unfold is_u8; lia).
    replace (p + zlen (cs ++ ext) + 1 - zlen line) with p by lia.
    unfold chunked_move. mg_steps.
    cbn [client upd_client IDPArgsChunked set_IDPArgsChunked chunkSz set_chunkSzProcessed
         set_chunkSz set_chunk_state].
    exists (pre ++ line), x, (D1 ++ []), D', (calls ++ []).
    exists (mkIDPChunked (if n =? 0 then 4 else 2) n 0). split.
    + rewrite Ex in Hi |- *. eapply inv_move; [exact Hi| |apply io_step_refl| |done..|].
      * unfold upd_client. cbn [client]. rewrite Hc. by destruct (n =? 0).
      * intros H2. cbn in *. destruct (Z.eqb_spec n 0); [done|]. unfold is_u32. lia.
      * unfold chunk_left. cbn. rewrite Z.sub_0_r. by rewrite <- EF.
    + rewrite Ex, length_app. pose proof (zlen_nonneg (cs ++ ext)). unfold zlen in *. lia.
  - assert (exists y', y = y' ++ [10] /\ cs ++ ext = U' ++ y') as (y' & -> & Ey').
    { destruct (exists_last Hy) as (y' & c & ->). exists y'.
      rewrite Eline, !app_assoc in Ey. apply app_inj_tail in Ey as [Ey <-]. done. }
    assert (Forall (fun c => c <> 0 /\ c <> 10) U') as HpU.
    { rewrite Ey' in Hplain. by apply Forall_app in Hplain as [? _]. }
    eapply wpg_chunk_line; [exact Hh | exact HpU | by left | by eapply Hfuel |].
    apply holds_app in Hh as [_ [H0 _]].
    wp_step. eapply wpg_access_Some; [exact H0|]. change (0 =? 0) with true. wp_step.
    eapply chunked_more; [exact Hi | rewrite EF; by destruct y' |]. intros _.
    rewrite Ey, zlen_app in Hll. pose proof (zlen_nonneg (y' ++ [10])). lia.
Qed.

Lemma wb_bound U' p : holds wb p (U' ++ [0]) -> p + zlen U' < zlen wb.
Proof.
  intros Hh. apply holds_bound in Hh as [_ Hh]; [|by destruct U'].
  rewrite zlen_app in Hh. change (zlen [0]) with 1 in Hh. lia.
Qed.

(** Passing [d] from the buffer to the application and moving on. *)
Lemma wpg_chunked_pass st pre U' d x D1 D2 calls a w1 :
  U' = d ++ x -> inv st pre U' D1 (d ++ D2) calls a w1 -> d <> [] ->
  chunk_state a = 2 -> zlen d <= chunk_left a ->
  (let p := chunkSzProcessed a + zlen d in
   chunked_rest (if chunkSz a =? p then 3 else 2) (chunkSz a - p) (x ++ F) D2 T) ->
  wpg Fl
    (err <- pass_data E "mangoIDP_chunked" MANGO_ARG_TYPE_HTTP_DATA_RECEIVED
              (buf0 + zlen pre) (zlen d) None ;;
     if negb (is_ok err) then ret (inr (MANGO_ERR_APPABORTED, zlen pre, false))
     else
       args <- hc IDPArgsChunked ;;
       let p := u32 (chunkSzProcessed args + zlen d) in
       assign (set_IDPArgsChunked (set_chunkSzProcessed p args)) ;;
       chunked_move (if chunkSz args =? p then 3 else 2) st (zlen d))
    (chunked_round U') w1.
Proof.
  intros -> Hi Hd Hst Hleft Hrest. pose proof (inv_holds _ _ _ _ _ _ _ _ Hi) as [Hh Hl].
  pose proof (wb_bound _ _ Hh) as Hbd. pose proof Hi as [_ EU Hc Hio Ha HD Hb Ht Hr].
  rewrite zlen_app in *. pose proof (zlen_nonneg x). pose proof (zlen_nonneg d).
  pose proof (zlen_nonneg pre). rewrite <- app_assoc in Hh. apply holds_app in Hh as [Hd1 _].
  assert (workingBuffer (client w1) = wb) as Hwb1 by (by rewrite Hc).
  mg_step. apply wpg_pass_data; rewrite ?Hwb1; [by rewrite Hc | lia | lia | lia |].
  intros err tr' Hio' Herr. rewrite holds_zsub in Hio' by (lia || done).
  destruct (is_ok err) eqn:Hok; cbn [negb]; mg_steps.
  2: { exists a, pre, (d ++ x), (D1 ++ d), D2.
       exists (calls ++ [data_arg MANGO_ARG_TYPE_HTTP_DATA_RECEIVED d None]).
       split; [done|]. split; [by rewrite <- app_assoc|].
       split; [rewrite body_of_app, Hb; f_equal; apply app_nil_r|]. split; [done|].
       split; [by apply (io_step_trans _ _ _ _ _ _ _ _ _ Hio Hio')|].
       right. right. split; [|by exists (zlen pre)].
       apply Herr. by apply bool_decide_eq_false in Hok. }
  rewrite Hc. cbn [client IDPArgsChunked set_IDPArgsChunked].
  destruct (Ha Hst) as [Hsz Hpr]. unfold is_u32, chunk_left in *.
  rewrite u32_small by (unfold is_u32; lia). unfold chunked_move. mg_steps.
  exists (pre ++ d), x, (D1 ++ d), D2.
  exists (calls ++ [data_arg MANGO_ARG_TYPE_HTTP_DATA_RECEIVED d None]).
  exists (mkIDPChunked (if chunkSz a =? chunkSzProcessed a + zlen d then 3 else 2)
            (chunkSz a) (chunkSzProcessed a + zlen d)). split.
  - eapply inv_move; [exact Hi| |exact Hio'| |done|apply app_nil_r|done|exact Hrest].
    + unfold upd_client. cbn [client]. done.
    + intros H2. cbn in *. destruct (Z.eqb_spec (chunkSz a) (chunkSzProcessed a + zlen d));
        [done|]. unfold is_u32. lia.
  - rewrite length_app. destruct d; [done|]. cbn. lia.
Qed.

Lemma wpg_chunked_data st pre U' D1 D' calls a w1 :
  inv st pre U' D1 D' calls a w1 -> U' <> [] -> chunk_state a = 2 ->
  wpg Fl (chunked_data E st) (chunked_round U') w1.
Proof.
  intros Hi HU' Hst. pose proof (inv_holds _ _ _ _ _ _ _ _ Hi) as [Hh Hl].
  pose proof Hi as [-> EU Hc Hio Ha HD Hb Ht Hr]. rewrite Hst in Hr.
  destruct (Ha Hst) as [Hsz Hpr]. unfold is_u32 in Hsz.
  inversion Hr as [| |l d R D'' T' Hd Hdl Hrest| |]; subst.
  assert (0 < zlen U') as HlU by (destruct U'; [done|]; rewrite zlen_cons;
                                  pose proof (zlen_nonneg U'); lia).
  unfold chunked_data. mg_steps. rewrite Hc. cbn [IDPArgsChunked set_IDPArgsChunked].
  fold (chunk_left a) in *. unfold chunk_left in *.
  rewrite u32_small by (unfold is_u32; lia).
  destruct (app_cut U' F d R ltac:(congruence)) as [(x & -> & EF)|(y & Hy & -> & EF)].
  - pose proof (zlen_app d x) as Hdx. pose proof (zlen_nonneg x).
    assert ((if chunkSz a - chunkSzProcessed a <? zlen (d ++ x)
             then chunkSz a - chunkSzProcessed a else zlen (d ++ x)) = zlen d) as ->.
    { destruct (Z.ltb_spec (chunkSz a - chunkSzProcessed a) (zlen (d ++ x))); lia. }
    destruct (Z.eqb_spec (zlen d) 0); [lia|]. cbn [negb].
    eapply wpg_chunked_pass; [done | exact Hi | done | done | unfold chunk_left; lia |].
    cbv zeta. rewrite Hdl. destruct (Z.eqb_spec (chunkSz a)
      (chunkSzProcessed a + (chunkSz a - chunkSzProcessed a))); [|lia].
    replace (chunkSz a - (chunkSzProcessed a + (chunkSz a - chunkSzProcessed a))) with 0 by lia.
    by rewrite <- EF.
  - rewrite zlen_app in Hdl.
    assert (0 < zlen y) by (destruct y; [done|]; rewrite zlen_cons;
                            pose proof (zlen_nonneg y); lia).
    destruct (Z.ltb_spec (chunkSz a - chunkSzProcessed a) (zlen U')); [lia|].
    destruct (Z.eqb_spec (zlen U') 0); [lia|]. cbn [negb].
    rewrite <- app_assoc in Hi.
    eapply wpg_chunked_pass; [symmetry; apply app_nil_r | exact Hi | done | done | unfold chunk_left; lia |].
    cbv zeta. destruct (Z.eqb_spec (chunkSz a) (chunkSzProcessed a + zlen U')); [lia|].
    cbn [app]. rewrite EF. constructor; [done | lia | done].
Qed.

Lemma wpg_chunked_crlf st pre U' D1 D' calls a w1 :
  inv st pre U' D1 D' calls a w1 -> U' <> [] -> chunk_state a = 3 ->
  wpg Fl (chunked_crlf st) (chunked_round U') w1.
Proof.
  intros Hi HU' Hst. pose proof (inv_holds _ _ _ _ _ _ _ _ Hi) as [Hh Hl].
  pose proof Hi as [-> EU Hc Hio Ha HD Hb Ht Hr]. rewrite Hst in Hr.
  apply chunked_rest_3 in Hr as (R & ER & Hrest). unfold chunked_crlf.
  destruct U' as [|c0 [|c1 x]]; [done| |].
  - cbn. eapply chunked_more; [exact Hi | by destruct F | done].
  - cbn in ER. injection ER as -> -> <-.
    assert (zlen (13 :: 10 :: x) = zlen x + 1 + 1) as Hlx by (by rewrite !zlen_cons).
    pose proof (zlen_nonneg x).
    destruct (Z.ltb_spec (zlen (13 :: 10 :: x)) 2); [lia|].
    destruct Hh as [Hb0 [Hb1 _]]. mg_steps. rewrite Hc.
    change (workingBuffer (set_IDPArgsChunked a (client w))) with (workingBuffer (client w)).
    rewrite Hwb.
    eapply wpg_access_Some; [exact Hb0|]. mg_step.
    eapply wpg_access_Some; [exact Hb1|]. change ((13 =? 13) && (10 =? 10)) with true.
    unfold chunked_move. mg_steps.
    exists (pre ++ CRLF), x, (D1 ++ []), D', (calls ++ []).
    exists (set_chunk_state 1 a). split; [|cbn; lia].
    change 2 with (zlen CRLF).
    eapply inv_move; [exact Hi| |apply io_step_refl|done..|].
    + unfold upd_client. cbn [client]. by rewrite Hc.
    + by apply chunked_rest_left with 0.
Qed.

Lemma chunked_done st pre U' D1 calls a w1 tr calls2 :
  inv st pre U' D1 [] calls a w1 -> F = [] ->
  io_step (trace w1) tr [] [] calls2 -> body_of calls2 = [] -> trailers_of calls2 = T ->
  chunked_post w U F D T (MANGO_OK, zlen pre, true) (mkWorld (client w1) tr).
Proof.
  intros [] HF Hio Hb Ht. exists a, pre, U', D1, [], (calls ++ calls2).
  split; [done|]. split; [done|]. split; [by rewrite body_of_app, Hb, app_nil_r|].
  split; [done|]. split; [by apply (io_step_trans _ _ _ _ _ _ _ _ _ ci_io0 Hio)|].
  left. rewrite trailers_of_app, ci_trailers0. done.
Qed.

(** The four bytes at the end of [l]. *)
Lemma ends_crlfcrlf_spec p l (Q : bool -> world -> Prop) w1 :
  holds wb p l -> 3 < zlen l -> 0 <= p ->
  (forall b : bool, (b = true <-> exists x, l = x ++ CRLF ++ CRLF) -> Q b w1) ->
  wpg Fl (ends_crlfcrlf wb p (zlen l)) Q w1.
Proof.
  intros Hh Hl Hp HQ. unfold ends_crlfcrlf.
  assert (exists x a b c d, l = x ++ [a; b; c; d]) as (x & a & b & c & d & ->).
  { assert (length l >= 4)%nat by (unfold zlen in Hl; lia).
    exists (take (length l - 4) l).
    pose proof (take_drop (length l - 4) l) as Htd.
    assert (length (drop (length l - 4) l) = 4%nat) as H4 by (rewrite length_drop; lia).
    destruct (drop (length l - 4) l) as [|a [|b [|c [|d [|]]]]]; try done.
    by exists a, b, c, d. }
  rewrite zlen_app in *. change (zlen [a; b; c; d]) with 4 in *.
  apply holds_app in Hh as [_ (Ha & Hb & Hc & Hd & _)].
  replace (p + (zlen x + 4 - 4)) with (p + zlen x) by lia.
  replace (p + (zlen x + 4 - 3)) with (p + zlen x + 1) by lia.
  replace (p + (zlen x + 4 - 2)) with (p + zlen x + 1 + 1) by lia.
  replace (p + (zlen x + 4 - 1)) with (p + zlen x + 1 + 1 + 1) by lia.
  wp_step. eapply wpg_access_Some; [exact Ha|]. wp_step.
  eapply wpg_access_Some; [exact Hb|]. wp_step.
  eapply wpg_access_Some; [exact Hc|]. wp_step.
  eapply wpg_access_Some; [exact Hd|]. wp_step. apply HQ.
  rewrite !andb_true_iff, !Z.eqb_eq. split.
  - intros [[[-> ->] ->] ->]. by exists x.
  - intros [y Hy]. change (CRLF ++ CRLF) with [13; 10; 13; 10] in Hy.
    apply app_inj_2 in Hy as [_ [= -> -> -> ->]]; done.
Qed.

Lemma wpg_chunked_trailer st pre U' D1 D' calls a w1 :
  inv st pre U' D1 D' calls a w1 -> U' <> [] -> chunk_state a = 4 ->
  wpg Fl (chunked_trailer E st) (chunked_round U') w1.
Proof.
  intros Hi HU' Hst. pose proof (inv_holds _ _ _ _ _ _ _ _ Hi) as [Hh Hl].
  pose proof (wb_bound _ _ Hh) as Hbd.
  pose proof Hi as [-> EU Hc Hio Ha HD Hb Ht Hr]. rewrite Hst in Hr.
  apply chunked_rest_4 in Hr as [Htr ->]. unfold chunked_trailer.
  assert (zlen U' < 2 -> F <> []) as HF1.
  { intros Hs HF. destruct U' as [|c [|c' U']]; [done| |].
    - rewrite HF in Htr. cbn in Htr. destruct Htr as [[E1 _]|(E1 & [x E2] & _)]; [done|].
      rewrite <- E1 in E2. apply (f_equal length) in E2. rewrite !length_app in E2.
      cbn in E2. lia.
    - rewrite !zlen_cons in Hs. pose proof (zlen_nonneg U'). lia. }
  destruct (Z.ltb_spec (zlen U') 2) as [Hs|Hs].
  { mg_steps. eapply chunked_more; [exact Hi | by apply HF1 | lia]. }
  assert (exists c0 c1 x, U' = c0 :: c1 :: x) as (c0 & c1 & x & Ex).
  { destruct U' as [|c0 [|c1 x]]; [done|done|by eexists _, _, _]. }
  assert (workingBuffer (client w1) = wb) as Hwb1 by (by rewrite Hc).
  mg_steps. rewrite Hwb1. pose proof Hh as Hh2. rewrite Ex in Hh2.
  destruct Hh2 as [Hb0 [Hb1 _]].
  eapply wpg_access_Some; [exact Hb0|]. mg_step. eapply wpg_access_Some; [exact Hb1|].
  destruct ((zlen U' =? 2) && (c0 =? 13) && (c1 =? 10)) eqn:E2.
  - apply andb_true_iff in E2 as [[E2%Z.eqb_eq ->%Z.eqb_eq]%andb_true_iff ->%Z.eqb_eq].
    assert (U' = CRLF) as ->.
    { rewrite Ex, !zlen_cons in E2. assert (x = []) as -> by (apply zlen_zero_nil; lia). done. }
    assert (F = [] /\ T = []) as [HF HT].
    { destruct Htr as [[E1 ->]|(E1 & _ & Hn & _)].
      - split; [|done]. cbn in E1. injection E1 as ->. done.
      - exfalso. apply Hn. by rewrite <- E1. }
    mg_steps. destruct w1 as [cl tr1].
    apply (chunked_done _ _ _ _ _ _ (mkWorld cl tr1) tr1 [] Hi); try done.
    apply io_step_refl.
  - apply holds_app in Hh as Hh3. destruct Hh3 as [HhU _]. pose proof (zlen_nonneg pre).
    assert (wpg Fl (if 3 <? zlen U' then ends_crlfcrlf wb (buf0 + zlen pre) (zlen U')
                    else ret false)
      (fun b w2 => w2 = w1 /\ (b = true <-> exists x, U' = x ++ CRLF ++ CRLF)) w1) as He.
    { destruct (Z.ltb_spec 3 (zlen U')).
      - apply ends_crlfcrlf_spec; [done | done | lia|]. intros b Hb'. done.
      - wp_step. split; [done|]. split; [done|]. intros [y ->].
        rewrite zlen_app in *. change (zlen (CRLF ++ CRLF)) with 4 in *.
        pose proof (zlen_nonneg y). lia. }
    mg_step. eapply wpg_mono; [exact He|]. intros b w2 [-> Hb2].
    assert (b = true <-> F = []) as HbF.
    { rewrite Hb2. destruct Htr as [[E1 ->]|(E1 & [y Ey] & Hn & Hlast)].
      - assert (False) as []. assert (F = []) as ->.
        { rewrite Ex in E1. cbn in E1. injection E1 as _ _ E1. by destruct x, F. }
        rewrite app_nil_r in E1. rewrite E1 in Ex, E2. injection Ex; intros; subst. done.
      - split.
        + intros [z Hz]. apply (Hlast z). rewrite <- E1, Hz. by rewrite <- !app_assoc.
        + intros ->. exists y. by rewrite <- Ey, <- E1, app_nil_r. }
    destruct b; mg_steps.
    2: { eapply chunked_more; [exact Hi | intros HF; by apply HbF in HF |].
         intros HT. destruct Htr as [[E1 _]|(_ & [y Ey] & _)].
         - apply (f_equal zlen) in E1. rewrite zlen_app in E1. change (zlen CRLF) with 2 in E1.
           pose proof (zlen_nonneg F). lia.
         - rewrite HT in Ey. by destruct y. }
    destruct HbF as [HF _]. specialize (HF eq_refl).
    apply wpg_wb_slice; [lia | apply zlen_nonneg | rewrite Hwb1; lia |].
    mg_step. apply wpg_userFunc; [by rewrite Hc|]. intros err tr' Hio'. mg_steps.
    eapply chunked_done; [exact Hi | done | exact Hio' | done |].
    rewrite Hwb1, holds_zsub in * by (lia || done).
    cbn. rewrite app_nil_r. destruct Htr as [[E1 ->]|(E1 & _)].
    + exfalso. rewrite HF, app_nil_r in E1. rewrite E1 in Ex, E2.
      injection Ex; intros; subst. done.
    + rewrite <- E1, HF. by rewrite app_nil_r.
Qed.

Lemma wpg_chunked_body st pre U' D1 D' calls a w1 :
  inv st pre U' D1 D' calls a w1 ->
  wpg Fl (chunked_body E st) (chunked_round U') w1.
Proof.
  intros Hi. pose proof Hi as [Est EU Hc Hio Ha HD Hb Ht Hr]. unfold chunked_body.
  rewrite Est at 1. destruct (Z.eqb_spec (zlen U') 0) as [Hz|Hz].
  - apply zlen_zero_nil in Hz as ->. mg_steps. eapply chunked_more; [exact Hi|..].
    + by apply chunked_rest_nonempty in Hr.
    + done.
  - assert (U' <> []) as HU' by (by intros ->). mg_steps. rewrite Hc.
    cbn [client IDPArgsChunked set_IDPArgsChunked].
    assert (chunk_state a = 1 \/ chunk_state a = 2 \/ chunk_state a = 3 \/ chunk_state a = 4)
      as Hst by (inversion Hr; lia).
    destruct Hst as [Hst|[Hst|[Hst|Hst]]]; rewrite Hst.
    + by eapply wpg_chunked_size.
    + by eapply wpg_chunked_data.
    + by eapply wpg_chunked_crlf.
    + by eapply wpg_chunked_trailer.
Qed.
End Rounds.

(** A call of mangoIDP_chunked on the bytes [U] of a stream of which [F] has
    yet to come. *)
Lemma wpg_IDP_chunked buf U F D T w (Q : dp_result -> world -> Prop) :
  let a := IDPArgsChunked (client w) in
  userFunc (client w) = true -> 0 <= buf -> zlen U <= 65535 ->
  holds (workingBuffer (client w)) buf (U ++ [0]) ->
  chunk_args_ok a -> chunked_rest (chunk_state a) (chunk_left a) (U ++ F) D T ->
  (forall r w', chunked_post w U F D T r w' -> Q r w') ->
  wpg Fl (mangoIDP_chunked E buf (zlen U) DPArgs_IDPChunked) Q w.
Proof.
  intros a Hu Hb HU Hh Ha Hr HQ. unfold mangoIDP_chunked, idp_chunked_args.
  pose proof (zlen_nonneg U). rewrite u16_small by (unfold is_u16; lia). mg_steps.
  pose proof (wb_bound _ _ _ Hh) as Hbd.
  eapply wpg_mono; [|exact HQ].
  apply (wpg_loop Fl _ (fun st w1 => exists pre U' D1 D' calls a,
      chunked_inv w (workingBuffer (client w)) buf U F D T st pre U' D1 D' calls a w1)
    (fun st _ => Z.to_nat st.2)).
  - intros st w1 (pre & U' & D1 & D' & calls & a1 & Hi).
    eapply wpg_mono; [by apply (wpg_chunked_body w (workingBuffer (client w)) buf U F D T eq_refl Hu Hb HU Hh _ _ _ _ _ _ _ _ Hi)|].
    intros [st2|res] w2; [|done]. intros (pre2 & U2 & D1' & D2 & calls2 & a2 & Hi2 & Hlt).
    split; [by exists pre2, U2, D1', D2, calls2, a2|].
    destruct Hi as [-> _ _ _ _ _ _ _ _]. destruct Hi2 as [-> _ _ _ _ _ _ _ _].
    cbn [snd]. unfold zlen. lia.
  - exists [], U, [], D, [], a. constructor; try done.
    + change (zlen (@nil Z)) with 0. by rewrite Z.add_0_r.
    + destruct (client w); reflexivity.
    + apply io_step_refl.
  - cbn [snd]. unfold zlen in *. lia.
Qed.
End Chunked.

(** Correctness of mangoSocket_read and mangoSocket_write, and of the output
    processors: mangoODP_raw sends the application's bytes and keeps the
    Content-Length account, mangoODP_chunked sends them as chunks. *)

(** * Chunked encoding *)

Definition encode_chunk (d : list Z) : list Z :=
  map hex_char (hex_digits (zlen d)) ++ CRLF ++ d ++ CRLF.

Fixpoint encode_chunks_aux (n : nat) (sz : Z) (d : list Z) : list Z :=
  match n with
  | O => []
  | Datatypes.S n =>
      if bool_decide (d = []) then []
      else encode_chunk (take (Z.to_nat sz) d) ++
           encode_chunks_aux n sz (drop (Z.to_nat sz) d)
  end.

(** The data in chunks of at most [sz] bytes. *)
Definition encode_chunks (sz : Z) (d : list Z) : list Z := encode_chunks_aux (length d) sz d.

Definition last_chunk : list Z := [48] ++ CRLF ++ CRLF.

Lemma encode_chunks_aux_enough n m sz d :
  0 < sz -> (length d <= n)%nat -> (length d <= m)%nat ->
  encode_chunks_aux n sz d = encode_chunks_aux m sz d.
Proof.
  intros Hsz. revert m d. induction n as [|n IH]; intros m d Hn Hm.
  - destruct d; [|cbn in Hn; lia]. by destruct m.
  - destruct m as [|m]; [destruct d; [done|cbn in Hm; lia]|]. cbn [encode_chunks_aux].
    destruct (decide (d = [])) as [->|Hd]; [done|]. rewrite bool_decide_false by done.
    f_equal. assert (length d <> 0)%nat by (by destruct d).
    apply IH; rewrite length_drop; lia.
Qed.

Lemma encode_chunks_step sz d :
  0 < sz -> d <> [] ->
  encode_chunks sz d =
  encode_chunk (take (Z.to_nat sz) d) ++ encode_chunks sz (drop (Z.to_nat sz) d).
Proof.
  intros Hsz Hd. unfold encode_chunks.
  destruct (length d) as [|n] eqn:El; [by destruct d|]. cbn [encode_chunks_aux].
  rewrite bool_decide_false by done. f_equal.
  apply encode_chunks_aux_enough; rewrite ?length_drop; lia.
Qed.

Lemma size_line_digits n :
  is_u32 n -> n <> 0 -> size_line n (map hex_char (hex_digits n) ++ CRLF).
Proof.
  intros Hn H0. exists (map hex_char (hex_digits n)), (hex_digits n), [13].
  split; [done|]. split; [apply hex_chars_map, hex_digits_ok|].
  split; [by apply hex_digits_nonempty|]. pose proof (hex_digits_length n).
  split; [done|]. split; [by rewrite hex_digits_value|]. split.
  - split; [|done]. by repeat constructor.
  - rewrite zlen_app, zlen_map. change (zlen CRLF) with 2. lia.
Qed.

Lemma encode_chunk_rest l d R D T :
  d <> [] -> is_u32 (zlen d) -> chunked_rest 1 0 R D T ->
  chunked_rest 1 l (encode_chunk d ++ R) (d ++ D) T.
Proof.
  intros Hd Hl HR. unfold encode_chunk.
  assert (zlen d <> 0) as H0 by (by intros ?%zlen_zero_nil).
  rewrite <- !app_assoc, app_assoc. apply CR_size with (zlen d); [by apply size_line_digits | done|].
  apply CR_data; [done | done|]. by apply CR_crlf.
Qed.

(** Chunks and the last chunk decode to the data. *)

Lemma encode_chunks_rest sz : 0 < sz < 4294967296 -> forall n d l R D T,
  (length d <= n)%nat ->
  chunked_rest 1 0 R D T -> chunked_rest 1 l (encode_chunks sz d ++ R) (d ++ D) T.
Proof.
  intros Hsz n. induction n as [|n IH]; intros d l R D T Hn HR.
  - destruct d; [|cbn in Hn; lia]. by apply chunked_rest_left with 0.
  - destruct (decide (d = [])) as [->|Hd]; [by apply chunked_rest_left with 0|].
    rewrite encode_chunks_step by (done || lia). rewrite <- app_assoc.
    rewrite <- (take_drop (Z.to_nat sz) d) at 3. rewrite <- app_assoc.
    assert (length d <> 0)%nat by (by destruct d).
    apply encode_chunk_rest.
    + destruct d; [done|]. destruct (Z.to_nat sz) eqn:E0; [lia | done].
    + unfold is_u32, zlen. rewrite length_take. lia.
    + apply IH; [rewrite length_drop; lia | done].
Qed.

Lemma last_chunk_rest l : chunked_rest 1 l last_chunk [] [].
Proof.
  apply (CR_last l ([48] ++ CRLF) CRLF []).
  - exists [48], [0], [13]. split; [done|]. split; [by repeat constructor|].
    split; [done|]. split; [done|]. split; [done|]. split; [|done].
    split; [by repeat constructor | done].
  - by left.
Qed.

#[local] Opaque hex_digits.

Section IO.
Context (E : environment) `{environment_ok E}.
Context (Fl : failure -> Prop) (fuel : nat).

(** Choosing a transport is choosing an argument. *)
Lemma transport_if {A} (f : transport -> A) (b : bool) :
  (if b then f PLAIN else f TLS) = f (if b then PLAIN else TLS).
Proof. by destruct b. Qed.

Lemma wpg_socket_write data datalen timeout w (Q : Z -> world -> Prop) :
  can_write Fl E fuel -> u16 datalen <= zlen data ->
  (forall r k st tr', 0 <= k <= u16 datalen ->
     io_step (trace w) tr' [] (take (Z.to_nat k) data) [] -> r = -1 \/ r = k ->
     Q r (mkWorld (set_stats st (client w)) tr')) ->
  wpg Fl (mangoSocket_write E fuel data datalen timeout) Q w.
Proof.
  intros HF Hfit HQ. unfold mangoSocket_write, mangoPort_sslwrite. mg_step. mg_step. mg_step.
  rewrite (transport_if (fun t => mangoPort_write E fuel t _ _ _)).
  assert (u16 (u16 datalen) = u16 datalen) as Hu by (apply u16_small, u16_range).
  apply wpg_can_write; [by rewrite Hu|]. rewrite Hu.
  intros r k [c tr] (Hc & Hk & Hio) Hr. cbn in Hc, Hio. subst c.
  destruct (r <=? 0); mg_steps.
  - specialize (HQ r k (stats (client w)) tr Hk Hio Hr).
    replace (set_stats (stats (client w)) (client w)) with (client w) in HQ
      by (by destruct (client w)). done.
  - by apply HQ with k.
Qed.

Lemma wpg_socket_read data datalen timeout w (Q : Z -> world -> Prop) :
  Fl OutOfFuel -> is_u16 datalen ->
  0 <= data -> data + datalen <= zlen (workingBuffer (client w)) ->
  (forall r d wb st tr', zblit (workingBuffer (client w)) data d = Some wb ->
     zlen d <= datalen -> Forall is_byte d -> io_step (trace w) tr' d [] [] ->
     r = -1 \/ r = zlen d ->
     Q r (mkWorld (set_stats st (set_workingBuffer wb (client w))) tr')) ->
  wpg Fl (mangoSocket_read E fuel data datalen timeout) Q w.
Proof.
  intros HF Hu Hd Hfit HQ. unfold mangoSocket_read, mangoPort_sslread.
  rewrite (u16_small datalen Hu). mg_step. mg_step. mg_step.
  rewrite (transport_if (fun t => mangoPort_read E fuel t _ _ _)). apply (wpg_port_read E); [done | done | done | done|].
  intros r d [c tr] (Hb & Hc & Hl & Hok & Hio) Hr. cbn [client trace] in *.
  assert (forall st, c = set_workingBuffer (workingBuffer c) (client w) ->
    Q r (mkWorld (set_stats st c) tr)) as HQ2.
  { intros st Ec. rewrite Ec. by apply HQ with d. }
  destruct (r <=? 0); mg_steps; [|by apply HQ2].
  specialize (HQ2 (stats c) Hc). by replace (set_stats (stats c) c) with c in HQ2 by (by destruct c).
Qed.

(** ** The raw output processor *)

Lemma wpg_ODP_raw buf w (Q : dp_result -> world -> Prop) :
  can_write Fl E fuel -> zlen buf <= 65535 ->
  let a := ODPArgsRaw (client w) in
  let p := u32 (odp_fileSzProcessed a + zlen buf) in
  (buf = [] -> odp_fileSz a < p -> Q (MANGO_ERR_CONTENTLENGTH, 0, false) w) ->
  (buf = [] -> p <= odp_fileSz a -> Q (MANGO_OK, 0, true) w) ->
  (buf <> [] -> odp_fileSz a < p -> Q (MANGO_ERR_CONTENTLENGTH, 0, false) w) ->
  (buf <> [] -> p <= odp_fileSz a -> forall st tr',
     io_step (trace w) tr' [] buf [] ->
     Q (MANGO_OK, zlen buf, false)
       (mkWorld (set_ODPArgsRaw (mkODPRaw (odp_fileSz a) p) (set_stats st (client w))) tr')) ->
  (buf <> [] -> p <= odp_fileSz a -> forall k st tr', 0 <= k <= zlen buf ->
     io_step (trace w) tr' [] (take (Z.to_nat k) buf) [] ->
     Q (MANGO_ERR_WRITETIMEOUT, 0, false) (mkWorld (set_stats st (client w)) tr')) ->
  wpg Fl (mangoODP_raw E fuel buf (zlen buf) DPArgs_ODPRaw) Q w.
Proof.
  intros HF Hl a p H1 H2 H3 H4 H5. pose proof (zlen_nonneg buf).
  assert (u16 (zlen buf) = zlen buf) as Hu by (apply u16_small; unfold is_u16; lia).
  unfold mangoODP_raw, odp_raw_args. rewrite Hu. mg_steps. fold a. fold p.
  destruct (Z.eqb_spec (zlen buf) 0) as [Hz|Hz].
  { apply zlen_zero_nil in Hz as Hnil.
    destruct (Z.ltb_spec (odp_fileSz a) p); mg_steps; auto. }
  assert (buf <> []) as Hne by (by intros ->).
  destruct (Z.ltb_spec (odp_fileSz a) p); mg_steps; [auto|].
  apply wpg_socket_write; [done | lia|]. rewrite Hu. intros r k st tr' Hk Hio Hr. cbn beta.
  destruct (Z.eqb_spec r (zlen buf)) as [->|Hrne]; mg_steps.
  - destruct Hr as [Hr|<-]; [lia|]. rewrite firstn_all2 in Hio by (unfold zlen; lia).
    by apply H4.
  - by apply H5 with k.
Qed.

(** ** The chunked output processor *)

Lemma wpg_wb_copy p d w (Q : unit -> world -> Prop) :
  0 <= p -> p + zlen d <= zlen (workingBuffer (client w)) ->
  (forall wb, zblit (workingBuffer (client w)) p d = Some wb ->
     Q tt (mkWorld (set_workingBuffer wb (client w)) (trace w))) ->
  wpg Fl (wb_copy p d) Q w.
Proof.
  intros Hp Hfit HQ. unfold wb_copy. mg_steps.
  destruct (zblit_ex (workingBuffer (client w)) p d Hp Hfit) as [wb Hwb].
  eapply wpg_access_Some; [exact Hwb|]. mg_steps. by apply HQ.
Qed.

(** What the processor changes in the client. *)
Definition odp_client (w w' : world) : Prop :=
  exists wb st, client w' = set_stats st (set_workingBuffer wb (client w)) /\
    zlen wb = zlen (workingBuffer (client w)).

Lemma odp_client_refl w : odp_client w w.
Proof. exists (workingBuffer (client w)), (stats (client w)). by destruct w as [[] ?]. Qed.

Lemma odp_client_trans w1 w2 w3 : odp_client w1 w2 -> odp_client w2 w3 -> odp_client w1 w3.
Proof.
  intros (wb1 & st1 & E1 & L1) (wb2 & st2 & E2 & L2). exists wb2, st2. rewrite E2, E1.
  split; [done|]. rewrite L2, E1. done.
Qed.

(** The working buffer while a chunk is put together in it. *)
Definition building (w : world) (pre : list Z) (w' : world) : Prop :=
  odp_client w w' /\ trace w' = trace w /\ holds (workingBuffer (client w')) 0 pre.

Lemma building_zlen w pre w' :
  building w pre w' -> zlen (workingBuffer (client w')) = zlen (workingBuffer (client w)).
Proof. intros [(wb & st & -> & Hl) _]. done. Qed.

(** Storing a buffer that holds [pre]. *)
Lemma building_set w pre pre' w1 wb :
  building w pre w1 -> zlen wb = zlen (workingBuffer (client w1)) -> holds wb 0 pre' ->
  building w pre' (mkWorld (set_workingBuffer wb (client w1)) (trace w1)).
Proof.
  intros (C & T & _) Hl Hh. split; [|done]. eapply odp_client_trans; [exact C|].
  exists wb, (stats (client w1)). by destruct w1 as [[] ?].
Qed.

Lemma wpg_building_append w pre d n w1 (Q : unit -> world -> Prop) :
  building w pre w1 -> n = zlen pre ->
  zlen pre + zlen d <= zlen (workingBuffer (client w)) ->
  (forall w2, building w (pre ++ d) w2 -> Q tt w2) ->
  wpg Fl (wb_copy n d) Q w1.
Proof.
  intros Hb -> Hfit HQ. pose proof (building_zlen _ _ _ Hb) as Hl.
  pose proof (zlen_nonneg pre). apply wpg_wb_copy; [done | lia|]. intros wb Hwb.
  apply HQ. apply (building_set _ pre); [done | by apply (zblit_zlen _ _ _ _ Hwb)|].
  destruct Hb as (_ & _ & Hh). apply holds_app. split.
  - apply (zblit_holds_before _ _ _ _ _ _ Hwb); [done | lia | done].
  - by apply (zblit_holds _ _ _ _ Hwb).
Qed.

Lemma zlen_encode_chunk d : zlen (encode_chunk d) = zlen (hex_digits (zlen d)) + zlen d + 4.
Proof. unfold encode_chunk. rewrite !zlen_app, zlen_map. change (zlen CRLF) with 2. lia. Qed.

Lemma hex_string_nonzero ds :
  digits_ok 16 ds -> Forall (fun c => c <> 0) (map hex_char ds).
Proof.
  induction 1 as [|d ds Hd _ IH]; cbn; [by constructor|].
  constructor; [apply hex_char_not_0; lia | done].
Qed.

Lemma hex_string_cstr wb n :
  holds wb 0 (map hex_char (hex_digits n) ++ [0]) ->
  strlen wb 0 = Some (zlen (hex_digits n)).
Proof.
  intros Hh. unfold strlen. rewrite (holds_cstr wb 0 (map hex_char (hex_digits n)));
    [cbn; by rewrite zlen_map | done | done|].
  apply hex_string_nonzero, hex_digits_ok.
Qed.

(** Sending the first [n] bytes of the working buffer. *)
Lemma wpg_send_built w pre w1 (Q : Z -> world -> Prop) :
  can_write Fl E fuel -> building w pre w1 -> zlen pre <= 65535 ->
  (forall w' k r, odp_client w w' -> 0 <= k <= zlen pre ->
     io_step (trace w) (trace w') [] (take (Z.to_nat k) pre) [] -> r = -1 \/ r = k -> Q r w') ->
  wpg Fl (data <- wb_slice "mangoODP_chunked" 0 (zlen pre) ;;
          mangoSocket_write E fuel data (zlen pre) MANGO_SOCKET_WRITE_TIMEOUT_MS) Q w1.
Proof.
  intros HF (C & T & Hh) Hl HQ. pose proof (zlen_nonneg pre).
  assert (zlen pre <= zlen (workingBuffer (client w1))) as Hfit.
  { destruct pre as [|c pre]; [apply zlen_nonneg|].
    apply holds_bound in Hh as [_ Hh]; [lia | done]. }
  mg_step. apply wpg_wb_slice; [done | done | lia |]. rewrite holds_zsub by done.
  assert (u16 (zlen pre) = zlen pre) as Hu by (apply u16_small; unfold is_u16; lia).
  apply wpg_socket_write; [done | lia|]. rewrite Hu. intros r k st tr' Hk Hio Hr.
  rewrite T in Hio. apply (HQ _ k); [|done|done|done].
  eapply odp_client_trans; [exact C|]. exists (workingBuffer (client w1)), st.
  by destruct w1 as [[] ?].
Qed.

Lemma wpg_bind_assoc {S A B C} (m : M S A) (f : A -> M S B) (g : B -> M S C) Q s :
  wpg Fl (bind (bind m f) g) Q s -> wpg Fl (bind m (fun a => bind (f a) g)) Q s.
Proof. unfold wpg, bind. by destruct (m s) as [[a s']|]. Qed.

(** One chunk: built at the start of the working buffer and sent. *)
Lemma wpg_odp_chunk buf sz processed sent w (Q : _ -> world -> Prop) :
  can_write Fl E fuel -> zlen buf <= 65535 -> 0 < sz -> sz + 13 <= 65535 ->
  sz + 13 <= zlen (workingBuffer (client w)) ->
  0 <= sent < zlen buf ->
  let d := take (Z.to_nat sz) (drop (Z.to_nat sent) buf) in
  (forall w', odp_client w w' -> io_step (trace w) (trace w') [] (encode_chunk d) [] ->
     Q (inl (u32 (processed + zlen d), sent + zlen d)) w') ->
  (forall w' k, odp_client w w' ->
     io_step (trace w) (trace w') [] (take k (encode_chunk d)) [] ->
     Q (inr (MANGO_ERR_WRITETIMEOUT, processed, false)) w') ->
  wpg Fl (odp_chunked_body E fuel buf (zlen buf) 0 (sz + 13) 13 (processed, sent)) Q w.
Proof.
  intros HF Hl Hsz Hsz2 Hfit Hsent d HQ1 HQ2. unfold odp_chunked_body.
  destruct (Z.ltb_spec sent (zlen buf)); [|lia].
  assert (zlen d = Z.min sz (zlen buf - sent)) as Hd.
  { unfold d, zlen in *. rewrite length_take, length_drop. lia. }
  assert ((if (0 <=? sent) && (sent + zlen d <=? zlen buf)
           then Some (zsub buf sent (zlen d)) else None) = Some d) as Hslice.
  { destruct (Z.leb_spec 0 sent), (Z.leb_spec (sent + zlen d) (zlen buf)); try lia.
    cbn [andb]. f_equal. unfold zsub. rewrite Hd. unfold d.
    destruct (decide (sz <= zlen buf - sent)); [by rewrite Z.min_l by lia|].
    rewrite Z.min_r by lia. rewrite !firstn_all2; [done|..]; rewrite length_drop;
      unfold zlen in *; lia. }
  replace (u16 (if sz + 13 - 13 <? zlen buf - sent then sz + 13 - 13 else zlen buf - sent))
    with (zlen d).
  2: { rewrite u16_small; unfold is_u16;
         destruct (Z.ltb_spec (sz + 13 - 13) (zlen buf - sent)); lia. }
  assert (is_u32 (zlen d) /\ zlen d <> 0) as [Hd32 Hd0] by (unfold is_u32; lia).
  pose proof (hex_digits_length (zlen d)) as Hhl.
  pose proof (zlen_nonneg (hex_digits (zlen d))) as Hh0.
  pose proof (zlen_encode_chunk d) as Hel.
  set (hx := map hex_char (hex_digits (zlen d))) in *.
  assert (zlen hx = zlen (hex_digits (zlen d))) as Hhx by apply zlen_map.
  do 3 mg_step. apply wpg_dec2hexstr; [done | done | lia | lia|]. fold hx. intros wb1 Hwb1.
  pose proof (zblit_holds _ _ _ _ Hwb1) as Hh1. pose proof (hex_string_cstr _ _ Hh1) as Hs1.
  mg_steps. eapply wpg_access_Some; [exact Hs1|]. rewrite <- Hhx in *.
  assert (building w hx (upd_client (set_workingBuffer wb1) w)) as B1.
  { apply (building_set w [] hx w).
    - split; [apply odp_client_refl|]. by split.
    - apply (zblit_zlen _ _ _ _ Hwb1).
    - by apply holds_app in Hh1 as [? _]. }
  rewrite (u16_small (zlen hx)) by (unfold is_u16; lia). rewrite !Z.add_0_l.
  rewrite (u16_small (zlen hx + 2)) by (unfold is_u16; lia).
  rewrite (u16_small (zlen hx + 2 + zlen d)) by (unfold is_u16; lia).
  rewrite (u16_small (zlen hx + 2 + zlen d + 2)) by (unfold is_u16; lia).
  change (zlen [13; 10]) with 2 in *.
  mg_step. eapply wpg_building_append; [exact B1 | done | change (zlen [13; 10]) with 2; lia|].
  intros w2 B2. rewrite Hslice. mg_steps.
  eapply wpg_building_append; [exact B2 | by rewrite zlen_app | rewrite zlen_app;
    change (zlen [13; 10]) with 2; lia|].
  intros w3 B3. mg_step.
  eapply wpg_building_append; [exact B3 | by rewrite !zlen_app | rewrite !zlen_app;
    change (zlen [13; 10]) with 2; lia|].
  intros w4 B4. rewrite <- !app_assoc in B4. change (hx ++ _) with (encode_chunk d) in B4.
  pose proof (building_zlen _ _ _ B4) as L4.
  replace (zlen hx + 2 + zlen d + 2) with (zlen (encode_chunk d)) by lia.
  mg_steps. eapply wpg_access_Some; [apply zset_is_Some; lia|]. do 2 mg_step.
  apply wpg_bind_assoc. mg_step.
  eapply (wpg_send_built w (encode_chunk d)); [done | | lia |].
  - apply (building_set _ (encode_chunk d)); [done | by rewrite zlen_insert|].
    apply holds_insert_after; [lia | lia | apply B4].
  - intros w' k r C Hk Hio Hr. mg_steps.
    destruct (Z.eqb_spec r (zlen (encode_chunk d))) as [->|]; [|by eapply HQ2].
    apply HQ1; [done|]. destruct Hr as [Hr|<-]; [lia|].
    by rewrite firstn_all2 in Hio by (unfold zlen; lia).
Qed.

Lemma odp_client_args w w' : odp_client w w' -> ODPArgsChunked (client w') = ODPArgsChunked (client w).
Proof. by intros (wb & st & -> & _). Qed.

(** mangoODP_chunked sends the data as chunks, the empty buffer as the last
    chunk, and reports success only when all of it was sent. *)
Lemma wpg_ODP_chunked buf sz w (Q : dp_result -> world -> Prop) :
  can_write Fl E fuel -> zlen buf <= 65535 -> 0 < sz -> sz + 13 <= 65535 ->
  sz + 13 <= zlen (workingBuffer (client w)) ->
  ODPArgsChunked (client w) = mkODPChunked (Some 0) (sz + 13) ->
  let code := if decide (buf = []) then last_chunk else encode_chunks sz buf in
  (forall w', odp_client w w' -> io_step (trace w) (trace w') [] code [] ->
     Q (MANGO_OK, if decide (buf = []) then 5 else zlen buf, bool_decide (buf = [])) w') ->
  (forall w' k p, odp_client w w' -> io_step (trace w) (trace w') [] (take k code) [] ->
     Q (MANGO_ERR_WRITETIMEOUT, p, false) w') ->
  wpg Fl (mangoODP_chunked E fuel buf (zlen buf) DPArgs_ODPChunked) Q w.
Proof.
  intros HF Hl Hsz Hsz2 Hfit Hargs code HQ1 HQ2. pose proof (zlen_nonneg buf).
  unfold mangoODP_chunked, odp_chunked_args. rewrite u16_small by (unfold is_u16; lia).
  mg_steps. rewrite Hargs. cbn [odp_workingBuffer odp_workingBufferSz].
  mg_steps. unfold code in *. clear code. destruct (decide (buf = [])) as [->|Hne].
  - change (zlen (@nil Z) =? 0) with true. cbn iota. destruct (Z.ltb_spec (sz + 13) 5); [lia|].
    change (bytes "0" ++ [13; 10; 13; 10]) with last_chunk.
    assert (building w [] w) as B0 by (split; [apply odp_client_refl | by split]).
    mg_step. eapply wpg_building_append; [exact B0 | done |
      change (zlen (@nil Z) + zlen last_chunk) with 5; lia|].
    intros w1 B1. cbn [app] in B1. change 5 with (zlen last_chunk). apply wpg_bind_assoc. mg_step.
    eapply wpg_send_built; [done | exact B1 | done|]. intros w' k r C Hk Hio Hr.
    destruct (Z.eqb_spec r (zlen last_chunk)) as [->|]; mg_steps; [|by eapply HQ2].
    apply HQ1; [done|]. destruct Hr as [Hr|<-]; [done|]. done.
  - rewrite bool_decide_false in HQ1 by done.
    destruct (Z.eqb_spec (zlen buf) 0) as [Hz|Hz]; [by apply zlen_zero_nil in Hz|].
    change (u8 (u8 (8 + 2) + (2 + 1))) with 13.
    destruct (Z.leb_spec (sz + 13) 13); [lia|].
    apply (wpg_loop Fl _ (fun '(processed, sent) w' =>
        processed = sent /\ 0 <= sent <= zlen buf /\ odp_client w w' /\
        exists tx, io_step (trace w) (trace w') [] tx [] /\
          encode_chunks sz buf = tx ++ encode_chunks sz (drop (Z.to_nat sent) buf))
      (fun '(_, sent) _ => Z.to_nat (zlen buf - sent))); [| |lia].
    2: { repeat split; try lia; [apply odp_client_refl|]. exists [].
         split; [apply io_step_refl | done]. }
    intros [processed sent] w1 (-> & Hs & C & tx & Hio & Henc).
    destruct (decide (sent = zlen buf)) as [->|].
    { unfold odp_chunked_body. rewrite Z.ltb_irrefl. mg_steps. apply HQ1; [done|].
      rewrite Henc. unfold zlen. rewrite Nat2Z.id, drop_all. unfold encode_chunks. cbn.
      by rewrite app_nil_r. }
    assert (zlen (take (Z.to_nat sz) (drop (Z.to_nat sent) buf)) = Z.min sz (zlen buf - sent)) as Hd.
    { unfold zlen in *. rewrite length_take, length_drop. lia. }
    assert (drop (Z.to_nat sent) buf <> []) as Hdne.
    { intros Hd0. apply (f_equal zlen) in Hd0. unfold zlen in Hd0. rewrite length_drop in Hd0.
      cbn in Hd0. unfold zlen in *. lia. }
    rewrite (encode_chunks_step sz (drop (Z.to_nat sent) buf)) in Henc by (done || lia).
    assert (zlen (workingBuffer (client w1)) = zlen (workingBuffer (client w))) as Hlw
      by (by destruct C as (wb & st & -> & ?)).
    apply wpg_odp_chunk; try lia; [done| |].
    + intros w' C' Hio'. rewrite Hd. unfold is_u16 in *.
      rewrite u32_small by (unfold is_u32; lia). split; [|lia].
      split; [done|]. split; [lia|]. split; [by eapply odp_client_trans|].
      eexists. split; [apply (io_step_trans _ _ _ _ _ _ _ _ _ Hio Hio')|].
      rewrite Henc, <- app_assoc. do 2 f_equal. rewrite drop_drop.
      destruct (decide (sz <= zlen buf - sent)).
      * rewrite Z.min_l by lia. do 2 f_equal. lia.
      * rewrite Z.min_r by lia. rewrite !drop_ge; [done|..]; unfold zlen in *; lia.
    + intros w' k C' Hio'. pose proof (io_step_trans _ _ _ _ _ _ _ _ _ Hio Hio') as Hx.
      apply (HQ2 w' (length tx + Nat.min k (length (encode_chunk (take (Z.to_nat sz)
        (drop (Z.to_nat sent) buf)))))%nat); [by eapply odp_client_trans|].
      rewrite Henc, take_app_add. cbn [app] in Hx.
      rewrite take_app_le by lia. rewrite <- take_take.
      by rewrite (firstn_all2 (encode_chunk _)) by lia.
Qed.
End IO.

(** * A body, sent and received

    The sender passes the buffers of a body to the output processor and ends
    with the empty one; the receiver puts each piece of the stream behind the
    bytes the input processor has left, and drops what it has processed. *)

Fixpoint send_body (E : environment) (fuel : nat) (bufs : list (list Z)) : M world bool :=
  match bufs with
  | [] => r <- mangoODP_chunked E fuel [] 0 DPArgs_ODPChunked ;; ret (is_ok r.1.1)
  | buf :: bufs =>
      r <- mangoODP_chunked E fuel buf (zlen buf) DPArgs_ODPChunked ;;
      if is_ok r.1.1 then send_body E fuel bufs else ret false
  end.

Definition goes_on (err : mangoErr_t) : bool :=
  bool_decide (err = MANGO_OK \/ err = MANGO_ERR_MOREDATANEEDED).

(** Whether the body is complete; [unread] lies at the start of the buffer. *)
Fixpoint receive_body (E : environment) (unread : list Z) (pieces : list (list Z))
    : M world bool :=
  match pieces with
  | [] => ret false
  | piece :: pieces =>
      let unread := unread ++ piece in
      wb_copy 0 (unread ++ [0]) ;;
      r <- mangoIDP_chunked E 0 (zlen unread) DPArgs_IDPChunked ;;
      let '(err, processed, completed) := (r : dp_result) in
      if completed then ret (is_ok err)
      else if goes_on err then receive_body E (drop (Z.to_nat processed) unread) pieces
      else ret false
  end.

(** What the buffers make on the wire. *)
Definition body_code (sz : Z) (bufs : list (list Z)) : list Z :=
  concat (map (encode_chunks sz) bufs) ++ last_chunk.

Definition buffer_ok (buf : list Z) : Prop := buf <> [] /\ zlen buf <= 65535.

Lemma body_code_cons sz b bufs :
  body_code sz (b :: bufs) = encode_chunks sz b ++ body_code sz bufs.
Proof. unfold body_code. cbn. by rewrite <- app_assoc. Qed.

Lemma body_code_rest sz bufs l :
  0 < sz < 4294967296 -> chunked_rest 1 l (body_code sz bufs) (concat bufs) [].
Proof.
  intros Hsz. revert l. induction bufs as [|b bufs IH]; intros l; [apply last_chunk_rest|].
  rewrite body_code_cons. cbn. by apply (encode_chunks_rest sz Hsz (length b)).
Qed.

(** Sending: all of the code, or, when a write fails, a part of it. *)
Lemma wpg_send_body E Fl fuel sz bufs w (Q : bool -> world -> Prop) :
  environment_ok E -> can_write Fl E fuel -> Forall buffer_ok bufs ->
  0 < sz -> sz + 13 <= 65535 -> sz + 13 <= zlen (workingBuffer (client w)) ->
  ODPArgsChunked (client w) = mkODPChunked (Some 0) (sz + 13) ->
  (forall (ok : bool) tx w', io_step (trace w) (trace w') [] tx [] ->
     (if ok then tx = body_code sz bufs else exists k, tx = take k (body_code sz bufs)) ->
     Q ok w') ->
  wpg Fl (send_body E fuel bufs) Q w.
Proof.
  intros HE HF Hb Hsz Hsz2. revert w Q.
  induction Hb as [|b bufs [Hb Hl] _ IH]; intros w Q Hfit Ha HQ; cbn [send_body]; wp_step.
  - apply (wpg_ODP_chunked E Fl fuel [] sz); try done;
      [intros w1 C Hio | intros w1 k p C Hio]; cbn; wp_steps; (eapply HQ; [exact Hio|]); [done | by exists k].
  - apply (wpg_ODP_chunked E Fl fuel b sz); try done; rewrite decide_False by done;
      [intros w1 C Hio | intros w1 k p C Hio]; cbn.
    + apply IH.
      * destruct C as (wb & st & -> & Hwb). cbn. by rewrite Hwb.
      * by rewrite (odp_client_args _ _ C).
      * intros ok tx w2 Hio2 Htx. eapply HQ; [by apply (io_step_trans _ _ _ _ _ _ _ _ _ Hio Hio2)|].
        rewrite body_code_cons. destruct ok; [by rewrite Htx|]. destruct Htx as [k ->].
        exists (length (encode_chunks sz b) + k)%nat. by rewrite take_app_add.
    + wp_steps. eapply HQ; [exact Hio|]. rewrite body_code_cons.
      exists (Nat.min k (length (encode_chunks sz b))). rewrite take_app_le by lia.
      rewrite <- take_take. by rewrite (take_ge (encode_chunks sz b) (length _)) by lia.
Qed.

Lemma dp_RETURN_more p : exists err, dp_RETURN p false = (err, p, false) /\ goes_on err = true.
Proof. unfold dp_RETURN. by destruct (negb (p =? 0)); eexists. Qed.

(** Receiving: whatever the pieces, a body without trailer gets through. *)
Lemma wpg_receive_body E Fl U pieces D w (Q : bool -> world -> Prop) :
  let a := IDPArgsChunked (client w) in
  ~ app_refuses E -> userFunc (client w) = true -> zlen U < 256 ->
  Forall (fun p => zlen p + 256 <= 65535 /\ zlen p + 257 <= zlen (workingBuffer (client w))) pieces ->
  chunk_args_ok a -> pieces <> [] ->
  chunked_rest (chunk_state a) (chunk_left a) (U ++ concat pieces) D [] ->
  (forall calls w', io_step (trace w) (trace w') [] [] calls -> body_of calls = D -> Q true w') ->
  wpg Fl (receive_body E U pieces) Q w.
Proof.
  intros a Happ. revert U D w a Q. induction pieces as [|p ps IH]; intros U D w a Q Hu HU Hp Ha Hne Hr HQ;
    [done|]. clear Hne. apply Forall_cons in Hp as [[Hp1 Hp2] Hps]. cbn [receive_body].
  assert (zlen ((U ++ p) ++ [0]) <= zlen (workingBuffer (client w)) /\ zlen (U ++ p) <= 65535) as [Hf Hl].
  { rewrite !zlen_app. change (zlen [0]) with 1. lia. }
  wp_step. apply wpg_wb_copy; [done | lia|]. intros wb Hwb. wp_step.
  pose proof (zblit_zlen _ _ _ _ Hwb) as Hz.
  apply (wpg_IDP_chunked E Fl 0 (U ++ p) (concat ps) D []); try done.
  { by apply (zblit_holds _ _ _ _ Hwb). }
  { cbn [client IDPArgsChunked set_workingBuffer]. rewrite <- app_assoc. exact Hr. }
  intros r w1 (a1 & pre & U' & D1 & D' & calls & HUp & HD & Hb & Hc & Hio & Hend).
  cbn [client trace] in Hc, Hio.
  destruct Hend as [(-> & _ & -> & _)|[(-> & HF & _ & HU' & Ha1 & Hr1)|[Hx _]]]; [| |done].
  - wp_steps. eapply HQ; [exact Hio|]. by rewrite Hb, HD, app_nil_r.
  - destruct (dp_RETURN_more (zlen pre)) as (err & -> & Hg). cbn beta iota. rewrite Hg, HUp.
    replace (Z.to_nat (zlen pre)) with (length pre) by (unfold zlen; lia).
    rewrite drop_app_length. apply (IH U' D' w1); rewrite ?Hc; try done.
    + by apply HU'.
    + cbn [client workingBuffer set_workingBuffer set_IDPArgsChunked]. by rewrite Hz.
    + intros ->. done.
    + intros calls2 w2 Hio2 Hb2. eapply HQ; [by apply (io_step_trans _ _ _ _ _ _ _ _ _ Hio Hio2)|].
      by rewrite body_of_app, Hb, Hb2, HD.
Qed.
