(* ===== verification/MangoSM.v ===== *)
(** mangoSM.c: the state machine of the client and its working buffer.

    A state function is a computation on the world; [mangoSM_ENTER] is the
    macro that checks and sets the next state, after which the state function
    returns, so nothing follows it.  [THROW_FUEL] rounds are enough for
    mangoSM_THROW: no event leads through more than three states.  The number
    of rounds of the loop of mangoSM_PROCESS is bounded by [fuel]: how many
    there are is up to the server. *)

From S2P Require Import Prelude.
From S2P Require Import CMonad.
From S2P Require Import CString.
From S2P Require Import MangoTypes.
From S2P Require Import MangoHelper.
From S2P Require Import MangoPort.
From S2P Require Import MangoWS.
From S2P Require Import MangoDP.

(** * The working buffer *)

(** MANGO_WB_NULLTERMINATE(). *)
Definition MANGO_WB_NULLTERMINATE : M world unit :=
  wb <- hc workingBuffer ;;
  right <- hc workingBufferIndexRight ;;
  wb <- access "MANGO_WB_NULLTERMINATE" (zset wb right 0) ;;
  assign (set_workingBuffer wb).

(** One round of the copying loop: the buffer, index and the left index. *)
Definition shrink_body (right : Z) (st : list Z * Z * Z)
    : M world (list Z * Z * Z + list Z * Z) :=
  let '(wb, index, lft) := st in
  if lft <? right
  then c <- access "mangoWB_shrink" (zget wb lft) ;;
       wb <- access "mangoWB_shrink" (zset wb index c) ;;
       ret (inl (wb, u16 (index + 1), u16 (lft + 1)))
  else ret (inr (wb, index)).

Definition mangoWB_shrink : M world unit :=
  left <- hc workingBufferIndexLeft ;;
  right <- hc workingBufferIndexRight ;;
  ensure "mangoWB_shrink" (right <=? MANGO_WB_TOT_SZ) ;;
  ensure "mangoWB_shrink" (left <=? right) ;;
  (if left =? 0 then ret tt
   else if left =? right
   then assign (set_workingBufferIndexLeft 0) ;;
        assign (set_workingBufferIndexRight 0)
   else
     wb <- hc workingBuffer ;;
     let* (wb, index) := loop (Datatypes.S (length wb)) (shrink_body right) (wb, 0, left) in
     assign (set_workingBuffer wb) ;;
     assign (set_workingBufferIndexLeft 0) ;;
     assign (set_workingBufferIndexRight index)) ;;
  MANGO_WB_NULLTERMINATE.

Section SM.
Context (E : environment) (fuel : nat).

(** * Engine operations the states use *)

Definition mangoSM_EXITERR (err : mangoErr_t) : M world unit :=
  assign (set_smExitError err).

Definition mangoSM_ENTER (state : mangoState) : M world unit :=
  cur <- hc curState ;;
  ensure "mangoSM_ENTER" (negb (bool_decide (cur = state))) ;;
  assign (set_nxtState state).

Definition mangoSM_SUBSCRIBE (event : mangoEvent_e) : M world unit :=
  match event with
  | EVENT_PROCESS | EVENT_READ | EVENT_WRITE | EVENT_APICALL_wsFrameSend =>
      assign (set_subscribedEvent event)
  | _ => ensure "mangoSM_SUBSCRIBE" false
  end.

Definition mangoSM_TIMEOUT (timeout : Z) : M world unit :=
  now <- mangoPort_timeNow E ;;
  assign (set_smEntryTimestamp now) ;;
  assign (set_smTimeout timeout).

(** default: MANGO_ENSURE(0) of a state. *)
Definition sm_unexpected (site : string) : M world unit := ensure site false.

(** Reading into the free part of the working buffer; the new right index is
    set and the data terminated when something was received. *)
Definition sm_read : M world Z :=
  right <- hc workingBufferIndexRight ;;
  free <- hc MANGO_WB_FREE_SZ ;;
  timeout <- hc smEventTimeout ;;
  mangoSocket_read E fuel right free timeout.

Definition sm_received (retval : Z) : M world unit :=
  right <- hc workingBufferIndexRight ;;
  assign (set_workingBufferIndexRight (u16 (right + retval))) ;;
  MANGO_WB_NULLTERMINATE.

(** hc->inputDataProcessor on the used part of the working buffer. *)
Definition sm_process_input : M world (mangoErr_t * Z) :=
  assign (set_dataProcessorCompleted false) ;;
  left <- hc workingBufferIndexLeft ;;
  used <- hc MANGO_WB_USED_SZ ;;
  let* (err, processed, completed) := call_inputDataProcessor E fuel left used in
  assign (set_dataProcessorCompleted completed) ;;
  ret (err, processed).

(** * The states *)

Definition sm_ABORTED (event : mangoEvent_e) : M world unit :=
  match event with
  | EVENT_ENTRY => ret tt
  | EVENT_APICALL_httpRequestProcess | EVENT_APICALL_httpDataSend | EVENT_APICALL_wsPoll
  | EVENT_APICALL_wsFrameSend | EVENT_APICALL_wsClose =>
      mangoSM_EXITERR MANGO_ERR_ABORTED
  | _ => sm_unexpected "mangoSM__ABORTED"
  end.

Definition sm_DISCONNECTED (event : mangoEvent_e) : M world unit :=
  match event with
  | EVENT_ENTRY => ret tt
  | EVENT_APICALL_httpRequestProcess | EVENT_APICALL_httpDataSend | EVENT_APICALL_wsPoll
  | EVENT_APICALL_wsFrameSend | EVENT_APICALL_wsClose =>
      mangoSM_EXITERR MANGO_ERR_CONNECTION
  | _ => sm_unexpected "mangoSM__DISCONNECTED"
  end.

Definition sm_HTTP_CONNECTED (event : mangoEvent_e) : M world unit :=
  match event with
  | EVENT_ENTRY =>
      assign (set_workingBufferIndexLeft 0) ;;
      assign (set_workingBufferIndexRight 0) ;;
      st <- hc stats ;;
      elapsed <- mangoHelper_elapsedTime E (stats_time st) ;;
      st <- hc stats ;;
      assign (set_stats (set_stats_time elapsed st))
  | EVENT_APICALL_httpRequestProcess => mangoSM_ENTER mangoSM__HTTP_SENDING_HEADERS
  | EVENT_APICALL_httpDataSend | EVENT_APICALL_wsPoll | EVENT_APICALL_wsFrameSend
  | EVENT_APICALL_wsClose => mangoSM_EXITERR MANGO_ERR_APICALLNOTSUPPORTED
  | _ => sm_unexpected "mangoSM__HTTP_CONNECTED"
  end.

(** The rest of EVENT_PROCESS after the output processor is known. *)
Definition sending_headers_expect : M world unit :=
  odp <- hc outputDataProcessor ;;
  match odp with
  | None =>
      mangoSM_EXITERR MANGO_ERR_INVALIDREQHEADERS ;;
      mangoSM_ENTER mangoSM__ABORTED
  | Some _ =>
      wb <- hc workingBuffer ;;
      let* (retval, _) := mangoHelper_httpHeaderGet wb 0 MANGO_HDR__EXPECT [] 0 in
      if retval <? 0
      then mangoSM_EXITERR (MANGO_ERR_HTTP 100) ;;
           mangoSM_ENTER mangoSM__HTTP_SENDING_DATA
      else mangoSM_ENTER mangoSM__HTTP_RECVING_HEADERS
  end.

(** The rest of EVENT_PROCESS after the Content-Length. *)
Definition sending_headers_encoding : M world unit :=
  wb <- hc workingBuffer ;;
  let* (retval, _) := mangoHelper_httpHeaderGet wb 0 MANGO_HDR__TRANSFER_ENCODING [] 0 in
  if retval <? 0 then sending_headers_expect
  else
    odp <- hc outputDataProcessor ;;
    match odp with
    | Some _ =>
        mangoSM_EXITERR MANGO_ERR_INVALIDREQHEADERS ;;
        mangoSM_ENTER mangoSM__ABORTED
    | None =>
        assign (set_outputDataProcessor (Some mangoODP_CHUNKED)) ;;
        assign (set_ODPArgsChunked (mkODPChunked (Some 0) (u16 MANGO_WB_TOT_SZ))) ;;
        assign (set_dataProcessorArgs DPArgs_ODPChunked) ;;
        sending_headers_expect
    end.

(** EVENT_PROCESS of a PUT or POST request. *)
Definition sending_headers_body : M world unit :=
  assign (set_outputDataProcessor None) ;;
  assign (set_dataProcessorArgs DPArgs_NULL) ;;
  wb <- hc workingBuffer ;;
  let* (retval, headerValueBuf) :=
    mangoHelper_httpHeaderGet wb 0 MANGO_HDR__CONTENT_LENGTH (replicate 11 0) 11 in
  if retval <? 0 then sending_headers_encoding
  else
    assign (set_outputDataProcessor (Some mangoODP_RAW)) ;;
    let* (bad, fileSz) := mangoHelper_decstr2dec headerValueBuf 0 in
    args <- hc ODPArgsRaw ;;
    assign (set_ODPArgsRaw (mkODPRaw fileSz (odp_fileSzProcessed args))) ;;
    if negb (bad =? 0)
    then mangoSM_EXITERR MANGO_ERR_INVALIDREQHEADERS ;;
         mangoSM_ENTER mangoSM__ABORTED
    else
      assign (set_ODPArgsRaw (mkODPRaw fileSz 0)) ;;
      assign (set_dataProcessorArgs DPArgs_ODPRaw) ;;
      if fileSz =? 0 then mangoSM_ENTER mangoSM__HTTP_RECVING_HEADERS
      else sending_headers_encoding.

Definition sm_HTTP_SENDING_HEADERS (event : mangoEvent_e) : M world unit :=
  let site := "mangoSM__HTTP_SENDING_HEADERS"%string in
  match event with
  | EVENT_ENTRY =>
      left <- hc workingBufferIndexLeft ;;
      ensure site (left =? 0) ;;
      right <- hc workingBufferIndexRight ;;
      ensure site (0 <? right) ;;
      mangoSM_SUBSCRIBE EVENT_WRITE
  | EVENT_WRITE =>
      left <- hc workingBufferIndexLeft ;;
      right <- hc workingBufferIndexRight ;;
      data <- wb_slice site left (right - left) ;;
      retval <- mangoSocket_write E fuel data (right - left) MANGO_SOCKET_WRITE_TIMEOUT_MS ;;
      if retval <? 0
      then mangoSM_EXITERR MANGO_ERR_CONNECTION ;;
           mangoSM_ENTER mangoSM__DISCONNECTED
      else
        left <- hc workingBufferIndexLeft ;;
        let left := u16 (left + retval) in
        assign (set_workingBufferIndexLeft left) ;;
        right <- hc workingBufferIndexRight ;;
        ensure site (left <=? right) ;;
        if left =? right then mangoSM_SUBSCRIBE EVENT_PROCESS else ret tt
  | EVENT_PROCESS =>
      method <- hc httpMethod ;;
      match method with
      | MANGO_HTTP_METHOD_HEAD | MANGO_HTTP_METHOD_GET =>
          mangoSM_ENTER mangoSM__HTTP_RECVING_HEADERS
      | MANGO_HTTP_METHOD_PUT | MANGO_HTTP_METHOD_POST => sending_headers_body
      | MANGO_HTTP_METHOD_POST_CHUNKED => sm_unexpected site
      end
  | _ => sm_unexpected site
  end.

(** EVENT_READ: a part of the response has arrived. *)
Definition recving_headers_read : M world unit :=
  retval <- sm_read ;;
  if retval <? 0
  then mangoSM_EXITERR MANGO_ERR_CONNECTION ;;
       mangoSM_ENTER mangoSM__DISCONNECTED
  else if retval =? 0 then ret tt
  else
    sm_received retval ;;
    wb <- hc workingBuffer ;;
    let* (retval, wb) := mangoHelper_httpReponseVerify wb in
    assign (set_workingBuffer wb) ;;
    if retval <? 0
    then mangoSM_EXITERR MANGO_ERR_RESPFORMAT ;;
         mangoSM_ENTER mangoSM__ABORTED
    else if retval =? 0
    then
      free <- hc MANGO_WB_FREE_SZ ;;
      if free =? 0
      then mangoSM_EXITERR MANGO_ERR_WORKBUFSMALL ;;
           mangoSM_ENTER mangoSM__ABORTED
      else ret tt
    else
      assign (set_httpResponseStatusCode (u16 retval)) ;;
      n <- access "mangoSM__HTTP_RECVING_HEADERS" (strlen wb 0) ;;
      assign (set_workingBufferIndexLeft (u16 (n + 2))) ;;
      mangoSM_SUBSCRIBE EVENT_PROCESS.

(** Attaching an input processor and entering HTTP_RECVING_DATA. *)
Definition attach_raw (fileSz : Z) : M world unit :=
  assign (set_inputDataProcessor (Some mangoIDP_RAW)) ;;
  assign (set_IDPArgsRaw (mkIDPRaw fileSz 0)) ;;
  assign (set_dataProcessorArgs DPArgs_IDPRaw) ;;
  mangoSM_ENTER mangoSM__HTTP_RECVING_DATA.

(** The request ends with the response's header. *)
Definition request_completed : M world unit :=
  status <- hc httpResponseStatusCode ;;
  mangoSM_EXITERR (MANGO_ERR_HTTP status) ;;
  mangoSM_ENTER mangoSM__HTTP_CONNECTED.

(** The special cases: Shoutcast, websockets, 100-continue, no body. *)
Definition recving_headers_special : M world unit :=
  status <- hc httpResponseStatusCode ;;
  wb <- hc workingBuffer ;;
  if (status =? 200) && bool_decide (zsub wb 0 4 = bytes "ICY ")
  then attach_raw MANGO_FILE_SZ_INFINITE
  else if status =? 101
  then
    assign (set_inputDataProcessor (Some mangoIDP_WEBSOCKET)) ;;
    args <- hc IDPArgsWebsocket ;;
    assign (set_IDPArgsWebsocket (set_frameID 0 (set_ws_state 1 args))) ;;
    assign (set_dataProcessorArgs DPArgs_IDPWebsocket) ;;
    mangoSM_EXITERR (MANGO_ERR_HTTP 101) ;;
    mangoSM_ENTER mangoSM__WS_CONNECTED
  else
    method <- hc httpMethod ;;
    if (status =? 100) && (bool_decide (method = MANGO_HTTP_METHOD_POST) ||
                           bool_decide (method = MANGO_HTTP_METHOD_PUT))
    then mangoSM_EXITERR (MANGO_ERR_HTTP 100) ;;
         mangoSM_ENTER mangoSM__HTTP_SENDING_DATA
    else attach_raw 0.

(** Transfer-Encoding. *)
Definition recving_headers_encoding (headerValueBuf : list Z) : M world unit :=
  wb <- hc workingBuffer ;;
  let* (retval, _) :=
    mangoHelper_httpHeaderGet wb 0 MANGO_HDR__TRANSFER_ENCODING headerValueBuf 32 in
  if retval <? 0 then recving_headers_special
  else if retval =? 0
  then mangoSM_EXITERR MANGO_ERR_TEMPBUFSMALL ;;
       mangoSM_ENTER mangoSM__ABORTED
  else
    method <- hc httpMethod ;;
    if negb (bool_decide (method = MANGO_HTTP_METHOD_HEAD))
    then
      assign (set_inputDataProcessor (Some mangoIDP_CHUNKED)) ;;
      assign (set_IDPArgsChunked (mkIDPChunked 1 0 0)) ;;
      assign (set_dataProcessorArgs DPArgs_IDPChunked) ;;
      mangoSM_ENTER mangoSM__HTTP_RECVING_DATA
    else request_completed.

(** EVENT_PROCESS: the response is complete; Content-Length. *)
Definition recving_headers_process : M world unit :=
  left <- hc workingBufferIndexLeft ;;
  status <- hc httpResponseStatusCode ;;
  data <- wb_slice "mangoSM__HTTP_RECVING_HEADERS" 0 left ;;
  do_userFunc E (mkArg MANGO_ARG_TYPE_HTTP_RESP_RECEIVED data (Some status) None) ;;
  wb <- hc workingBuffer ;;
  let* (retval, headerValueBuf) :=
    mangoHelper_httpHeaderGet wb 0 MANGO_HDR__CONTENT_LENGTH (replicate 32 0) 32 in
  if retval <? 0 then recving_headers_encoding headerValueBuf
  else if retval =? 0
  then mangoSM_EXITERR MANGO_ERR_TEMPBUFSMALL ;;
       mangoSM_ENTER mangoSM__ABORTED
  else
    method <- hc httpMethod ;;
    if negb (bool_decide (method = MANGO_HTTP_METHOD_HEAD))
    then
      assign (set_inputDataProcessor (Some mangoIDP_RAW)) ;;
      let* (bad, fileSz) := mangoHelper_decstr2dec headerValueBuf 0 in
      args <- hc IDPArgsRaw ;;
      assign (set_IDPArgsRaw (mkIDPRaw fileSz (idp_fileSzProcessed args))) ;;
      if negb (bad =? 0)
      then mangoSM_EXITERR MANGO_ERR_RESPFORMAT ;;
           mangoSM_ENTER mangoSM__ABORTED
      else attach_raw fileSz
    else request_completed.

Definition sm_HTTP_RECVING_HEADERS (event : mangoEvent_e) : M world unit :=
  match event with
  | EVENT_ENTRY =>
      mangoSM_TIMEOUT MANGO_HTTP_RESPONSE_TIMEOUT_MS ;;
      mangoSM_SUBSCRIBE EVENT_READ ;;
      assign (set_workingBufferIndexLeft 0) ;;
      assign (set_workingBufferIndexRight 0)
  | EVENT_READ => recving_headers_read
  | EVENT_PROCESS => recving_headers_process
  | EVENT_TIMEOUT =>
      mangoSM_EXITERR MANGO_ERR_RESPTIMEOUT ;;
      mangoSM_ENTER mangoSM__ABORTED
  | _ => sm_unexpected "mangoSM__HTTP_RECVING_HEADERS"
  end.

(** EVENT_READ of HTTP_RECVING_DATA and WS_POLLING; [reset] says whether the
    timeout starts again when data arrive. *)
Definition recving_data_read (site : string) (reset : bool) : M world unit :=
  retval <- sm_read ;;
  if retval <? 0
  then mangoSM_EXITERR MANGO_ERR_CONNECTION ;;
       mangoSM_ENTER mangoSM__DISCONNECTED
  else if retval =? 0 then ret tt
  else
    sm_received retval ;;
    right <- hc workingBufferIndexRight ;;
    ensure site (right <=? MANGO_WB_TOT_SZ) ;;
    (if reset then mangoSM_TIMEOUT MANGO_HTTP_RESPONSE_TIMEOUT_MS else ret tt) ;;
    mangoSM_SUBSCRIBE EVENT_PROCESS.

(** case MANGO_ERR_MOREDATANEEDED. *)
Definition more_data_needed : M world unit :=
  free <- hc MANGO_WB_FREE_SZ ;;
  if free =? 0
  then mangoSM_EXITERR MANGO_ERR_WORKBUFSMALL ;;
       mangoSM_ENTER mangoSM__ABORTED
  else mangoSM_SUBSCRIBE EVENT_READ.

(** The processed bytes leave the buffer; reading starts when it is empty. *)
Definition data_processed (processed : Z) : M world unit :=
  left <- hc workingBufferIndexLeft ;;
  assign (set_workingBufferIndexLeft (u16 (left + processed))) ;;
  mangoWB_shrink ;;
  used <- hc MANGO_WB_USED_SZ ;;
  if used =? 0 then mangoSM_SUBSCRIBE EVENT_READ else ret tt.

Definition sm_HTTP_RECVING_DATA (event : mangoEvent_e) : M world unit :=
  match event with
  | EVENT_ENTRY =>
      mangoSM_TIMEOUT MANGO_HTTP_RESPONSE_TIMEOUT_MS ;;
      mangoSM_SUBSCRIBE EVENT_PROCESS ;;
      mangoWB_shrink
  | EVENT_READ => recving_data_read "mangoSM__HTTP_RECVING_DATA" true
  | EVENT_PROCESS =>
      let* (err, processed) := sm_process_input in
      match err with
      | MANGO_OK =>
          completed <- hc dataProcessorCompleted ;;
          if completed : bool then request_completed else data_processed processed
      | MANGO_ERR_MOREDATANEEDED => more_data_needed
      | _ => mangoSM_EXITERR err ;; mangoSM_ENTER mangoSM__ABORTED
      end
  | EVENT_TIMEOUT =>
      mangoSM_EXITERR MANGO_ERR_RESPTIMEOUT ;;
      mangoSM_ENTER mangoSM__ABORTED
  | _ => sm_unexpected "mangoSM__HTTP_RECVING_DATA"
  end.

Definition sm_HTTP_SENDING_DATA (event : mangoEvent_e) : M world unit :=
  match event with
  | EVENT_ENTRY =>
      assign (set_workingBufferIndexLeft 0) ;;
      assign (set_workingBufferIndexRight 0)
  | EVENT_APICALL_httpDataSend => mangoSM_ENTER mangoSM__HTTP_SENDING_PACKET
  | EVENT_APICALL_httpRequestProcess | EVENT_APICALL_wsPoll | EVENT_APICALL_wsFrameSend
  | EVENT_APICALL_wsClose => mangoSM_EXITERR MANGO_ERR_APICALLNOTSUPPORTED
  | _ => sm_unexpected "mangoSM__HTTP_SENDING_DATA"
  end.

Definition sm_HTTP_SENDING_PACKET (event : mangoEvent_e) : M world unit :=
  let site := "mangoSM__HTTP_SENDING_PACKET"%string in
  match event with
  | EVENT_ENTRY => mangoSM_SUBSCRIBE EVENT_WRITE
  | EVENT_WRITE =>
      apiargs <- hc smAPICallArgs ;;
      match apiargs with
      | mangoHTTPDataSendArgs buf buflen =>
          let* (err, _, completed) := call_outputDataProcessor E fuel buf buflen in
          assign (set_dataProcessorCompleted completed) ;;
          if negb (is_ok err)
          then mangoSM_EXITERR err ;; mangoSM_ENTER mangoSM__ABORTED
          else
            completed <- hc dataProcessorCompleted ;;
            mangoSM_ENTER (if completed : bool then mangoSM__HTTP_RECVING_HEADERS
                           else mangoSM__HTTP_SENDING_DATA)
      | _ => stop (Fault site)
      end
  | EVENT_TIMEOUT => mangoSM_ENTER mangoSM__ABORTED
  | _ => sm_unexpected site
  end.

Definition sm_WS_CONNECTED (event : mangoEvent_e) : M world unit :=
  match event with
  | EVENT_ENTRY => mangoWB_shrink
  | EVENT_APICALL_httpRequestProcess | EVENT_APICALL_httpDataSend =>
      mangoSM_EXITERR MANGO_ERR_APICALLNOTSUPPORTED
  | EVENT_APICALL_wsPoll => mangoSM_ENTER mangoSM__WS_POLLING
  | EVENT_APICALL_wsFrameSend => mangoSM_ENTER mangoSM__WS_SENDING_FRAME
  | EVENT_APICALL_wsClose => mangoSM_ENTER mangoSM__WS_CLOSING
  | _ => sm_unexpected "mangoSM__WS_CONNECTED"
  end.

Definition ws_polling_process : M world unit :=
  let* (err, processed) := sm_process_input in
  match err with
  | MANGO_OK => data_processed processed
  | MANGO_ERR_MOREDATANEEDED => more_data_needed
  | MANGO_ERR_WEBSOCKETCLOSED =>
      mangoSM_EXITERR MANGO_ERR_WEBSOCKETCLOSED ;;
      mangoSM_ENTER mangoSM__DISCONNECTED
  | _ => mangoSM_EXITERR err ;; mangoSM_ENTER mangoSM__ABORTED
  end.

(** EVENT_ENTRY falls through to EVENT_PROCESS. *)
Definition sm_WS_POLLING (event : mangoEvent_e) : M world unit :=
  let site := "mangoSM__WS_POLLING"%string in
  match event with
  | EVENT_ENTRY =>
      apiargs <- hc smAPICallArgs ;;
      match apiargs with
      | mangoWSPollArgs timeout =>
          mangoSM_TIMEOUT timeout ;;
          mangoSM_SUBSCRIBE EVENT_PROCESS ;;
          ws_polling_process
      | _ => stop (Fault site)
      end
  | EVENT_PROCESS => ws_polling_process
  | EVENT_READ => recving_data_read site false
  | EVENT_TIMEOUT => mangoSM_ENTER mangoSM__WS_CONNECTED
  | _ => sm_unexpected site
  end.

Definition sm_WS_SENDING_FRAME (event : mangoEvent_e) : M world unit :=
  let site := "mangoSM__WS_SENDING_FRAME"%string in
  match event with
  | EVENT_ENTRY => mangoSM_SUBSCRIBE EVENT_WRITE
  | EVENT_WRITE =>
      apiargs <- hc smAPICallArgs ;;
      match apiargs with
      | mangoWSFrameSendArgs buf buflen type =>
          err <- mangoWS_frameSend E fuel buf buflen type ;;
          mangoSM_ENTER (if negb (is_ok err) then mangoSM__ABORTED else mangoSM__WS_CONNECTED)
      | _ => stop (Fault site)
      end
  | EVENT_TIMEOUT => mangoSM_ENTER mangoSM__ABORTED
  | _ => sm_unexpected site
  end.

Definition sm_WS_CLOSING (event : mangoEvent_e) : M world unit :=
  match event with
  | EVENT_ENTRY => mangoSM_SUBSCRIBE EVENT_WRITE
  | EVENT_WRITE =>
      err <- mangoWS_close E fuel ;;
      mangoSM_ENTER (if negb (is_ok err) then mangoSM__ABORTED else mangoSM__DISCONNECTED)
  | EVENT_TIMEOUT => mangoSM_ENTER mangoSM__ABORTED
  | _ => sm_unexpected "mangoSM__WS_CLOSING"
  end.

(** hc->curState(event, hc). *)
Definition call_curState (event : mangoEvent_e) : M world unit :=
  state <- hc curState ;;
  match state with
  | mangoSM__ABORTED => sm_ABORTED event
  | mangoSM__DISCONNECTED => sm_DISCONNECTED event
  | mangoSM__HTTP_CONNECTED => sm_HTTP_CONNECTED event
  | mangoSM__HTTP_SENDING_HEADERS => sm_HTTP_SENDING_HEADERS event
  | mangoSM__HTTP_RECVING_HEADERS => sm_HTTP_RECVING_HEADERS event
  | mangoSM__HTTP_RECVING_DATA => sm_HTTP_RECVING_DATA event
  | mangoSM__HTTP_SENDING_DATA => sm_HTTP_SENDING_DATA event
  | mangoSM__HTTP_SENDING_PACKET => sm_HTTP_SENDING_PACKET event
  | mangoSM__WS_CONNECTED => sm_WS_CONNECTED event
  | mangoSM__WS_POLLING => sm_WS_POLLING event
  | mangoSM__WS_SENDING_FRAME => sm_WS_SENDING_FRAME event
  | mangoSM__WS_CLOSING => sm_WS_CLOSING event
  end.

(** * The engine *)

Definition THROW_FUEL : nat := 4.

(** One round of while(hc->nxtState != hc->curState). *)
Definition throw_body (_ : unit) : M world (unit + unit) :=
  cur <- hc curState ;;
  nxt <- hc nxtState ;;
  if bool_decide (nxt = cur) then ret (inr tt)
  else
    assign (set_curState nxt) ;;
    assign (set_subscribedEvent EVENT_NONE) ;;
    assign (set_smTimeout MANGO_TIMEOUT_INFINITE) ;;
    now <- mangoPort_timeNow E ;;
    assign (set_smEntryTimestamp now) ;;
    call_curState EVENT_ENTRY ;;
    ret (inl tt).

Definition mangoSM_THROW (event : mangoEvent_e) : M world unit :=
  call_curState event ;;
  loop THROW_FUEL throw_body tt.

Definition mangoSM_INIT : M world mangoErr_t :=
  assign (set_curState mangoSM__HTTP_CONNECTED) ;;
  assign (set_nxtState mangoSM__HTTP_CONNECTED) ;;
  assign (set_subscribedEvent EVENT_NONE) ;;
  assign (set_smTimeout MANGO_TIMEOUT_INFINITE) ;;
  now <- mangoPort_timeNow E ;;
  assign (set_smEntryTimestamp now) ;;
  mangoSM_THROW EVENT_ENTRY ;;
  ret MANGO_OK.

(** One round of while(forever). *)
Definition process_body (_ : unit) : M world (unit + unit) :=
  timeout <- hc smTimeout ;;
  (if negb (timeout =? MANGO_TIMEOUT_INFINITE)
   then
     start <- hc smEntryTimestamp ;;
     elapsedTime <- mangoHelper_elapsedTime E start ;;
     if timeout <=? elapsedTime then mangoSM_THROW EVENT_TIMEOUT
     else assign (set_smEventTimeout (u32 (timeout - elapsedTime)))
   else ret tt) ;;
  event <- hc subscribedEvent ;;
  match event with
  | EVENT_READ => mangoSM_THROW EVENT_READ ;; ret (inl tt)
  | EVENT_WRITE => mangoSM_THROW EVENT_WRITE ;; ret (inl tt)
  | EVENT_PROCESS => mangoSM_THROW EVENT_PROCESS ;; ret (inl tt)
  | EVENT_NONE => ret (inr tt)
  | _ => ensure "mangoSM_PROCESS" false ;; ret (inl tt)
  end.

Definition mangoSM_PROCESS (event : mangoEvent_e) : M world mangoErr_t :=
  mangoSM_EXITERR MANGO_OK ;;
  mangoSM_THROW event ;;
  loop fuel process_body tt ;;
  hc smExitError.
End SM.
