(* ===== verification/MangoInvariant.v ===== *)
(** The working buffer and the state machine of mangoSM.c: compacting keeps the
    unprocessed bytes, and every event keeps the invariant of its state.

    The first part is about mangoWB_shrink, the second about the states. *)

From S2P Require Import Prelude.
From S2P Require Import CMonad.
From S2P Require Import CString.
From S2P Require Import MangoTypes.
From S2P Require Import MangoHelper.
From S2P Require Import MangoHelperFacts.
From S2P Require Import MangoHttpFacts.
From S2P Require Import MangoPort.
From S2P Require Import MangoPortFacts.
From S2P Require Import MangoWS.
From S2P Require Import MangoWSFacts.
From S2P Require Import MangoDP.
From S2P Require Import MangoDPFacts.
From S2P Require Import MangoChunkedFacts.
From S2P Require Import MangoSM.

(** * Compacting the working buffer *)

(** The bytes received and not processed yet. *)
Definition wb_data (c : mangoHttpClient_t) : list Z :=
  zsub (workingBuffer c) (workingBufferIndexLeft c) (MANGO_WB_USED_SZ c).

(** The layout of the working buffer. *)
Definition wb_ok (c : mangoHttpClient_t) : Prop :=
  zlen (workingBuffer c) = MANGO_WORKING_BUFFER_SZ /\
  0 <= workingBufferIndexLeft c /\
  workingBufferIndexLeft c <= workingBufferIndexRight c <= MANGO_WB_TOT_SZ.

Section Shrink.
Context (Fl : failure -> Prop).

Lemma wpg_NULLTERMINATE w (Q : unit -> world -> Prop) :
  0 <= workingBufferIndexRight (client w) < zlen (workingBuffer (client w)) ->
  Q tt (mkWorld (set_workingBuffer
          (<[Z.to_nat (workingBufferIndexRight (client w)) := 0]> (workingBuffer (client w)))
          (client w)) (trace w)) ->
  wpg Fl MANGO_WB_NULLTERMINATE Q w.
Proof.
  intros Hr HQ. unfold MANGO_WB_NULLTERMINATE. mg_steps.
  eapply wpg_access_Some; [by apply zset_is_Some|]. by mg_steps.
Qed.

Lemma wpg_shrink_loop wb0 left right (Q : list Z * Z -> world -> Prop) w : forall n wb index,
  0 < left <= right -> right <= MANGO_WB_TOT_SZ -> zlen wb0 = MANGO_WORKING_BUFFER_SZ ->
  0 <= index <= right - left -> (Z.to_nat (right - left - index) < n)%nat ->
  zblit wb0 0 (zsub wb0 left index) = Some wb ->
  (forall wb', zblit wb0 0 (zsub wb0 left (right - left)) = Some wb' ->
     Q (wb', right - left) w) ->
  wpg Fl (loop n (shrink_body right) (wb, index, left + index)) Q w.
Proof.
  unfold MANGO_WB_TOT_SZ, MANGO_WORKING_BUFFER_SZ.
  intros n. induction n as [|n IH]; intros wb index Hl Hr Hlen Hi Hn Hb HQ; [lia|].
  apply wpg_loop_S. cbn [shrink_body].
  destruct (Z.ltb_spec (left + index) right).
  2: { wp_step. assert (index = right - left) as -> by lia. by apply HQ. }
  assert (zlen (zsub wb0 left index) = index) as Hzl by (apply zlen_zsub; lia).
  destruct (zget_is_Some wb0 (left + index)) as [c Hc]; [lia|].
  pose proof (zget_zblit _ _ _ _ (left + index) Hb ltac:(lia)) as Hg. rewrite Hzl in Hg.
  destruct (Z.ltb_spec (left + index) (0 + index)); [lia|].
  rewrite andb_false_r in Hg.
  wp_step. eapply wpg_access_Some; [by rewrite Hg|].
  pose proof (zblit_snoc _ _ _ _ c Hb) as Hs. rewrite Hzl, Z.add_0_l in Hs.
  assert (zsub wb0 left index ++ [c] = zsub wb0 left (index + 1)) as Hsn.
  { rewrite zsub_split by lia. f_equal. symmetry. by apply (holds_zsub wb0 (left + index) [c]); [lia|]. }
  rewrite Hsn in Hs.
  destruct (zblit_ex wb0 0 (zsub wb0 left (index + 1))) as [wb1 Hwb1];
    [lia | rewrite zlen_zsub by lia; lia|].
  wp_step. eapply wpg_access_Some; [rewrite Hs by lia; exact Hwb1|]. wp_step.
  rewrite !u16_small by (unfold is_u16; lia).
  replace (left + index + 1) with (left + (index + 1)) by lia.
  apply IH; try done; lia.
Qed.

(** The client after mangoWB_shrink. *)
Definition shrunk (c c' : mangoHttpClient_t) : Prop :=
  exists wb,
    c' = set_workingBufferIndexRight (MANGO_WB_USED_SZ c)
           (set_workingBufferIndexLeft 0 (set_workingBuffer wb c)) /\
    zlen wb = MANGO_WORKING_BUFFER_SZ /\ holds wb 0 (wb_data c ++ [0]).

Lemma zlen_wb_data c : wb_ok c -> zlen (wb_data c) = MANGO_WB_USED_SZ c.
Proof.
  intros (Hl & H0 & Hr). unfold wb_data, MANGO_WB_USED_SZ, MANGO_WB_TOT_SZ in *.
  rewrite zlen_zsub; lia.
Qed.

Lemma shrunk_wb_data c c' : wb_ok c -> shrunk c c' -> wb_data c' = wb_data c.
Proof.
  intros Hok (wb & -> & _ & Hh). apply holds_app in Hh as [Hh _].
  transitivity (zsub wb 0 (MANGO_WB_USED_SZ c - 0)); [done|].
  rewrite Z.sub_0_r, <- (zlen_wb_data _ Hok). by apply holds_zsub.
Qed.

Lemma wpg_WB_shrink w (Q : unit -> world -> Prop) :
  wb_ok (client w) ->
  (forall c, shrunk (client w) c -> Q tt (mkWorld c (trace w))) ->
  wpg Fl mangoWB_shrink Q w.
Proof.
  intros Hok HQ. pose proof (zlen_wb_data _ Hok) as Hld. destruct Hok as (Hlen & Hl & Hr).
  unfold mangoWB_shrink. unfold MANGO_WB_TOT_SZ, MANGO_WORKING_BUFFER_SZ, MANGO_WB_USED_SZ in *.
  mg_steps; try (apply Z.leb_le; lia).
  assert (forall c1 wb used,
    used = workingBufferIndexRight (client w) - workingBufferIndexLeft (client w) ->
    c1 = set_workingBufferIndexRight used
           (set_workingBufferIndexLeft 0 (set_workingBuffer wb (client w))) ->
    zlen wb = 4096 -> holds wb 0 (wb_data (client w)) ->
    wpg Fl MANGO_WB_NULLTERMINATE Q (mkWorld c1 (trace w))) as Hend.
  { intros c1 wb used -> -> Hwb Hh. apply wpg_NULLTERMINATE; cbn -[Z.sub]; [lia|].
    apply HQ. exists (<[Z.to_nat (workingBufferIndexRight (client w) - workingBufferIndexLeft (client w)) := 0]> wb).
    split; [reflexivity|]. split; [by rewrite zlen_insert|].
    apply holds_app. rewrite Hld. split; [apply holds_insert_after; [lia| |done]; lia|].
    cbn -[Z.sub]. split; [|done]. rewrite Z.add_0_l. apply zget_insert_eq. lia. }
  destruct (Z.eqb_spec (workingBufferIndexLeft (client w)) 0) as [H0|H0].
  { mg_steps. destruct w as [c tr]. cbn [client trace] in *.
    eapply (Hend _ (workingBuffer c)); [reflexivity | | done |].
    - destruct c; cbn in *; subst. unfold set_workingBufferIndexRight. cbn. f_equal; lia.
    - unfold wb_data. rewrite H0. unfold MANGO_WB_USED_SZ. apply holds_of_zsub; lia. }
  destruct (Z.eqb_spec (workingBufferIndexLeft (client w)) (workingBufferIndexRight (client w)))
    as [He|He].
  { mg_steps. destruct w as [c tr]. cbn [client trace] in *.
    eapply (Hend _ (workingBuffer c)); [reflexivity | | done |].
    - destruct c; cbn in *; subst. unfold set_workingBufferIndexRight. cbn. f_equal; lia.
    - unfold wb_data, MANGO_WB_USED_SZ. by rewrite He, Z.sub_diag, zsub_0. }
  mg_steps.
  rewrite <- (Z.add_0_r (workingBufferIndexLeft (client w))).
  assert (zlen (workingBuffer (client w)) = Z.of_nat (length (workingBuffer (client w)))) as Hn
    by done.
  apply (wpg_shrink_loop (workingBuffer (client w))); unfold MANGO_WB_TOT_SZ, MANGO_WORKING_BUFFER_SZ;
    rewrite ?Z.add_0_r; [lia | lia | done | lia | lia | rewrite zsub_0; apply zblit_nil; lia |].
  intros wb' Hwb'. mg_steps.
  eapply (Hend _ wb'); [reflexivity | | by rewrite (zblit_zlen _ _ _ _ Hwb') |].
  - by destruct w as [[] ?].
  - by apply (zblit_holds _ _ _ _ Hwb').
Qed.

Lemma shrunk_wb_ok c c' : wb_ok c -> shrunk c c' -> wb_ok c' /\ workingBufferIndexLeft c' = 0.
Proof.
  intros (Hlen & Hl & Hr) (wb & -> & Hwb & _). unfold wb_ok, MANGO_WB_USED_SZ in *.
  cbn -[Z.sub]. repeat split; try done; lia.
Qed.
End Shrink.

(** The invariant of the mango state machine.

    [entry_ok s c]: what a transition into state [s] guarantees to the
    EVENT_ENTRY handler of [s]; [state_ok s c]: what holds of the client while
    it stays in [s].  Every handler run in [state_ok] ends in [moved]: the
    client stays, in [state_ok], or it is on its way to a state whose
    [entry_ok] holds. *)

(** The failures that remain: the processor of chunked data on size lines of
    256 bytes and more, which may leave the buffer's indices crossed; the
    decimal parser on a Content-Length of more than 10 characters; and an
    operating system that keeps the client waiting. *)
Inductive sm_failure : failure -> Prop :=
| SF_fuel : sm_failure OutOfFuel
| SF_chunked_fault : sm_failure (Fault "mangoIDP_chunked")
| SF_chunked_hang : sm_failure (Hang "mangoIDP_chunked")
| SF_hexstr2dec : sm_failure (Fault "mangoHelper_hexstr2dec")
| SF_decstr2dec : sm_failure (Fault "mangoHelper_decstr2dec")
| SF_shrink : sm_failure (Hang "mangoWB_shrink").

Lemma sm_failure_chunk : chunk_failures sm_failure.
Proof. split; constructor. Qed.

(** * The invariant *)

(** The buffer starts with a string whose last line is complete. *)
Definition headers_ok (c : mangoHttpClient_t) : Prop :=
  exists s, cstr (workingBuffer c) 0 = Some s /\ ends_crlf s.

Definition idp_ok (c : mangoHttpClient_t) : Prop :=
  (inputDataProcessor c = Some mangoIDP_RAW /\ dataProcessorArgs c = DPArgs_IDPRaw) \/
  (inputDataProcessor c = Some mangoIDP_CHUNKED /\ dataProcessorArgs c = DPArgs_IDPChunked).

Definition idp_ws_ok (c : mangoHttpClient_t) : Prop :=
  inputDataProcessor c = Some mangoIDP_WEBSOCKET /\
  dataProcessorArgs c = DPArgs_IDPWebsocket /\ ws_args_ok (IDPArgsWebsocket c).

Definition odp_ok (c : mangoHttpClient_t) : Prop :=
  (outputDataProcessor c = Some mangoODP_RAW /\ dataProcessorArgs c = DPArgs_ODPRaw) \/
  (outputDataProcessor c = Some mangoODP_CHUNKED /\ dataProcessorArgs c = DPArgs_ODPChunked /\
   ODPArgsChunked c = mkODPChunked (Some 0) MANGO_WB_TOT_SZ).

Definition has_body (m : mangoHttpMethod_e) : bool :=
  match m with MANGO_HTTP_METHOD_POST | MANGO_HTTP_METHOD_PUT => true | _ => false end.

(** The data the application passes are what it says they are. *)
Definition api_args_ok (c : mangoHttpClient_t) : Prop :=
  match smAPICallArgs c with
  | APICallArgs_NULL => True
  | mangoHTTPDataSendArgs buf buflen => buflen = zlen buf /\ zlen buf <= 65535
  | mangoWSPollArgs timeout => is_u32 timeout
  | mangoWSFrameSendArgs buf buflen type =>
      buflen = zlen buf /\ zlen buf <= 65535 /\ Forall is_u8 buf /\
      (type = MANGO_WS_FRAME_TYPE_TEXT \/ type = MANGO_WS_FRAME_TYPE_BINARY)
  end.

Definition args_for (s : mangoState) (a : mangoAPICallArgs) : Prop :=
  match s, a with
  | mangoSM__HTTP_SENDING_PACKET, mangoHTTPDataSendArgs _ _ => True
  | mangoSM__WS_POLLING, mangoWSPollArgs _ => True
  | mangoSM__WS_SENDING_FRAME, mangoWSFrameSendArgs _ _ _ => True
  | mangoSM__HTTP_SENDING_PACKET, _ | mangoSM__WS_POLLING, _
  | mangoSM__WS_SENDING_FRAME, _ => False
  | _, _ => True
  end.

(** The part that is the same on entry and later. *)
Definition data_ok (s : mangoState) (c : mangoHttpClient_t) : Prop :=
  match s with
  | mangoSM__ABORTED | mangoSM__DISCONNECTED | mangoSM__HTTP_CONNECTED => True
  | mangoSM__HTTP_SENDING_HEADERS =>
      headers_ok c /\ httpMethod c <> MANGO_HTTP_METHOD_POST_CHUNKED
  | mangoSM__HTTP_RECVING_HEADERS => has_body (httpMethod c) = true -> odp_ok c
  | mangoSM__HTTP_RECVING_DATA => idp_ok c
  | mangoSM__HTTP_SENDING_DATA | mangoSM__HTTP_SENDING_PACKET => odp_ok c
  | mangoSM__WS_CONNECTED | mangoSM__WS_POLLING | mangoSM__WS_SENDING_FRAME
  | mangoSM__WS_CLOSING => idp_ws_ok c
  end.

(** States without exchange of data need no callback. *)
Definition passive (s : mangoState) : bool :=
  match s with
  | mangoSM__ABORTED | mangoSM__DISCONNECTED | mangoSM__HTTP_CONNECTED => true
  | _ => false
  end.

Definition common_ok (s : mangoState) (c : mangoHttpClient_t) : Prop :=
  wb_ok c /\ api_args_ok c /\ args_for s (smAPICallArgs c) /\
  (passive s = false -> userFunc c = true) /\ data_ok s c.

Definition entry_ok (s : mangoState) (c : mangoHttpClient_t) : Prop :=
  common_ok s c /\
  match s with
  | mangoSM__HTTP_SENDING_HEADERS =>
      workingBufferIndexLeft c = 0 /\ 0 < workingBufferIndexRight c
  | mangoSM__WS_POLLING | mangoSM__WS_SENDING_FRAME | mangoSM__WS_CLOSING =>
      workingBufferIndexLeft c = 0
  | _ => True
  end.

(** The event a state waits for, and its timeout. *)
Definition waits_ok (s : mangoState) (c : mangoHttpClient_t) : Prop :=
  match s with
  | mangoSM__ABORTED | mangoSM__DISCONNECTED | mangoSM__HTTP_CONNECTED
  | mangoSM__HTTP_SENDING_DATA =>
      subscribedEvent c = EVENT_NONE /\ smTimeout c = MANGO_TIMEOUT_INFINITE
  | mangoSM__WS_CONNECTED =>
      subscribedEvent c = EVENT_NONE /\ smTimeout c = MANGO_TIMEOUT_INFINITE /\
      workingBufferIndexLeft c = 0
  | mangoSM__HTTP_SENDING_HEADERS =>
      (subscribedEvent c = EVENT_WRITE \/ subscribedEvent c = EVENT_PROCESS) /\
      smTimeout c = MANGO_TIMEOUT_INFINITE
  | mangoSM__HTTP_RECVING_HEADERS =>
      subscribedEvent c = EVENT_READ /\ workingBufferIndexLeft c = 0 \/
      subscribedEvent c = EVENT_PROCESS /\ headers_ok c
  | mangoSM__HTTP_RECVING_DATA | mangoSM__WS_POLLING =>
      (subscribedEvent c = EVENT_READ \/ subscribedEvent c = EVENT_PROCESS) /\
      workingBufferIndexLeft c = 0
  | mangoSM__HTTP_SENDING_PACKET =>
      subscribedEvent c = EVENT_WRITE /\ smTimeout c = MANGO_TIMEOUT_INFINITE
  | mangoSM__WS_SENDING_FRAME | mangoSM__WS_CLOSING =>
      subscribedEvent c = EVENT_WRITE /\ smTimeout c = MANGO_TIMEOUT_INFINITE /\
      workingBufferIndexLeft c = 0
  end.

Definition state_ok (s : mangoState) (c : mangoHttpClient_t) : Prop :=
  common_ok s c /\ waits_ok s c.

(** Between two events. *)
Definition client_ok (c : mangoHttpClient_t) : Prop :=
  nxtState c = curState c /\ state_ok (curState c) c.

(** Between two calls of the API. *)
Definition resting (c : mangoHttpClient_t) : Prop :=
  client_ok c /\ subscribedEvent c = EVENT_NONE.

(** After a handler of state [s]. *)
Definition moved (s : mangoState) (c : mangoHttpClient_t) : Prop :=
  curState c = s /\
  (nxtState c = s /\ state_ok s c \/ nxtState c <> s /\ entry_ok (nxtState c) c).

Definition resting_state (s : mangoState) : bool :=
  match s with
  | mangoSM__ABORTED | mangoSM__DISCONNECTED | mangoSM__HTTP_CONNECTED
  | mangoSM__HTTP_SENDING_DATA | mangoSM__WS_CONNECTED => true
  | _ => false
  end.

Lemma resting_resting_state c : resting c -> resting_state (curState c) = true.
Proof.
  intros [[_ [_ Hw]] Hs]. destruct (curState c); cbn in Hw |- *; rewrite Hs in Hw;
    intuition discriminate.
Qed.

(** * Handlers *)

Local Arguments wpg : simpl never.
Local Arguments mangoSM_SUBSCRIBE : simpl never.
Local Arguments mangoSM_ENTER : simpl never.
Local Arguments mangoSM_EXITERR : simpl never.
Local Arguments mangoSM_TIMEOUT : simpl never.

(** Proving an invariant of a client that is a series of assignments. *)
Ltac inv_unfold :=
  unfold moved, state_ok, entry_ok, common_ok, waits_ok, data_ok, args_for, wb_ok, api_args_ok,
    headers_ok, idp_ok, idp_ws_ok, odp_ok, passive in *.
Ltac inv_solve := inv_unfold; cbn in *; intuition (first [done | congruence | lia]).

(** The error exits: EXITERR and ENTER of a state without data. *)
Lemma wpg_ENTER Fl s w (Q : unit -> world -> Prop) :
  curState (client w) <> s ->
  Q tt (mkWorld (set_nxtState s (client w)) (trace w)) ->
  wpg Fl (mangoSM_ENTER s) Q w.
Proof.
  intros Hs HQ. unfold mangoSM_ENTER. mg_steps; [|done].
  by rewrite bool_decide_eq_false_2.
Qed.

Lemma wpg_EXITERR Fl err w (Q : unit -> world -> Prop) :
  Q tt (mkWorld (set_smExitError err (client w)) (trace w)) ->
  wpg Fl (mangoSM_EXITERR err) Q w.
Proof. done. Qed.

Lemma wpg_SUBSCRIBE Fl ev w (Q : unit -> world -> Prop) :
  ev = EVENT_READ \/ ev = EVENT_WRITE \/ ev = EVENT_PROCESS ->
  Q tt (mkWorld (set_subscribedEvent ev (client w)) (trace w)) ->
  wpg Fl (mangoSM_SUBSCRIBE ev) Q w.
Proof. by intros [-> |[-> | ->]] HQ. Qed.

(** Leaving for a state that needs no data is always possible. *)
Lemma moved_away s s' c :
  curState c = s -> nxtState c = s' -> s <> s' -> passive s' = true ->
  wb_ok c -> api_args_ok c -> moved s c.
Proof.
  intros Hc Hn Hs Hp Hwb Ha. split; [done|]. right. rewrite Hn. split; [congruence|].
  unfold entry_ok, common_ok. split; [|by destruct s'].
  split; [done|]. split; [done|]. rewrite Hp. by destruct s'.
Qed.

Section Handlers.
Context (E : environment) `{environment_ok E} (fuel : nat).

Abbreviation safe := (wpg sm_failure).

Lemma wpg_TIMEOUT timeout w (Q : unit -> world -> Prop) :
  (forall now tr', quiet (trace w) tr' ->
     Q tt (mkWorld (set_smTimeout timeout (set_smEntryTimestamp now (client w))) tr')) ->
  safe (mangoSM_TIMEOUT E timeout) Q w.
Proof.
  intros HQ. unfold mangoSM_TIMEOUT. wp_step. apply wpg_timeNow.
  intros now tr' _ Hq. mg_steps. by apply HQ.
Qed.

(** An error that ends in [s']. *)
Lemma wpg_give_up s s' err w :
  curState (client w) = s -> s <> s' -> passive s' = true ->
  wb_ok (client w) -> api_args_ok (client w) ->
  safe (mangoSM_EXITERR err ;; mangoSM_ENTER s') (fun _ w' => moved s (client w')) w.
Proof.
  intros Hc Hs Hp Hwb Ha. wp_step. apply wpg_EXITERR. apply wpg_ENTER; [cbn; congruence|].
  by apply (moved_away s s').
Qed.

(** The client stays or leaves according to the invariant. *)
Definition at_state (s : mangoState) (w : world) : Prop :=
  curState (client w) = s /\ nxtState (client w) = s /\ state_ok s (client w).

(** What THROW establishes before it raises EVENT_ENTRY. *)
Definition at_entry (s : mangoState) (w : world) : Prop :=
  curState (client w) = s /\ nxtState (client w) = s /\ entry_ok s (client w) /\
  subscribedEvent (client w) = EVENT_NONE /\ smTimeout (client w) = MANGO_TIMEOUT_INFINITE.

Local Abbreviation moves s := (fun (_ : unit) w' => moved s (client w')).

Lemma moved_stay s w :
  at_state s w -> moved s (client w).
Proof. intros (Hc & Hn & Hok). split; [done|]. by left. Qed.

(** A call that the state only answers with an error code. *)
Lemma wpg_refuse s err w : at_state s w -> safe (mangoSM_EXITERR err) (moves s) w.
Proof. intros Hs. apply wpg_EXITERR. exact (moved_stay s w Hs). Qed.

(** The calls of the API and the arguments they come with. *)
Definition api_event (ev : mangoEvent_e) (c : mangoHttpClient_t) : Prop :=
  match ev with
  | EVENT_APICALL_httpRequestProcess =>
      curState c = mangoSM__HTTP_CONNECTED ->
      workingBufferIndexLeft c = 0 /\ 0 < workingBufferIndexRight c /\ headers_ok c /\
      httpMethod c <> MANGO_HTTP_METHOD_POST_CHUNKED /\ userFunc c = true
  | EVENT_APICALL_httpDataSend => args_for mangoSM__HTTP_SENDING_PACKET (smAPICallArgs c)
  | EVENT_APICALL_wsPoll => args_for mangoSM__WS_POLLING (smAPICallArgs c)
  | EVENT_APICALL_wsFrameSend => args_for mangoSM__WS_SENDING_FRAME (smAPICallArgs c)
  | EVENT_APICALL_wsClose => True
  | _ => False
  end.

(** Every state an application can find the client in accepts every call. *)
Lemma wpg_api_event s ev w :
  at_state s w -> resting_state s = true -> api_event ev (client w) ->
  safe (call_curState E fuel ev) (moves s) w.
Proof.
  intros Hs Hr Hev. pose proof Hs as (Hc & Hn & Hok). unfold call_curState. mg_steps. rewrite Hc.
  destruct s; try done; destruct ev; try done;
    try (by apply wpg_refuse);
    (apply wpg_ENTER; [congruence|]); unfold api_event in Hev; rewrite ?Hc in Hev;
    split; try done; right; (split; [done|]); inv_solve.
Qed.

(** ** HTTP_SENDING_HEADERS *)

Lemma wpg_header_any c name v len w (Q : Z * list Z -> world -> Prop) :
  headers_ok c -> header_name name -> zlen v = len ->
  (forall r v', zlen v' = len -> Q (r, v') w) ->
  safe (mangoHelper_httpHeaderGet (workingBuffer c) 0 name v len) Q w.
Proof.
  intros (s & Hs & He) Hn Hv HQ. apply (wpg_httpHeaderGet _ _ _ s); try done.
  destruct (header_raw name s); [split; intros; by apply HQ | by apply HQ].
Qed.

Lemma header_names :
  header_name MANGO_HDR__CONTENT_LENGTH /\ header_name MANGO_HDR__TRANSFER_ENCODING /\
  header_name MANGO_HDR__EXPECT.
Proof. by repeat split; repeat constructor. Qed.

(** The client while the output processor is chosen. *)
Definition choosing (w : world) : Prop :=
  curState (client w) = mangoSM__HTTP_SENDING_HEADERS /\
  nxtState (client w) = mangoSM__HTTP_SENDING_HEADERS /\
  wb_ok (client w) /\ api_args_ok (client w) /\ headers_ok (client w) /\
  userFunc (client w) = true /\ (outputDataProcessor (client w) <> None -> odp_ok (client w)).

Lemma wpg_choosing_give_up err w :
  choosing w ->
  safe (mangoSM_EXITERR err ;; mangoSM_ENTER mangoSM__ABORTED)
    (moves mangoSM__HTTP_SENDING_HEADERS) w.
Proof. intros (? & ? & ? & ? & ?). by apply wpg_give_up. Qed.

Lemma wpg_sending_headers_expect w :
  choosing w -> safe sending_headers_expect (moves mangoSM__HTTP_SENDING_HEADERS) w.
Proof.
  intros Hch. unfold sending_headers_expect. mg_steps.
  destruct (outputDataProcessor (client w)) eqn:Ho; [|by apply wpg_choosing_give_up].
  pose proof Hch as (Hc & Hn & Hwb & Ha & Hh & Hu & Hodp).
  mg_steps. apply wpg_header_any; [done | apply header_names | done|]. intros r v' _.
  cbn beta iota. assert (odp_ok (client w)) as Hok by (apply Hodp; congruence).
  destruct (r <? 0).
  - wp_step. apply wpg_EXITERR. apply wpg_ENTER; [cbn; congruence|].
    split; [done|]. right. cbn. split; [done|]. inv_solve.
  - apply wpg_ENTER; [cbn; congruence|].
    split; [done|]. right. cbn. split; [done|]. inv_solve.
Qed.

Lemma wpg_sending_headers_encoding w :
  choosing w -> safe sending_headers_encoding (moves mangoSM__HTTP_SENDING_HEADERS) w.
Proof.
  intros Hch. unfold sending_headers_encoding. mg_steps.
  pose proof Hch as (Hc & Hn & Hwb & Ha & Hh & Hu & Hodp).
  apply wpg_header_any; [done | apply header_names | done|]. intros r v' _. cbn beta iota.
  destruct (r <? 0); [by apply wpg_sending_headers_expect|].
  mg_steps. destruct (outputDataProcessor (client w)) eqn:Ho; [by apply wpg_choosing_give_up|].
  mg_steps. apply wpg_sending_headers_expect. unfold choosing. cbn. split_and!; try done.
  intros _. by right.
Qed.

Lemma wpg_sending_headers_body w :
  choosing (mkWorld (set_outputDataProcessor None (client w)) (trace w)) ->
  safe sending_headers_body (moves mangoSM__HTTP_SENDING_HEADERS) w.
Proof.
  intros (Hc & Hn & Hwb & Ha & Hh & Hu & _). cbn in *. unfold sending_headers_body. mg_steps.
  match goal with |- wpg _ _ _ ?w1 => assert (choosing w1) as Hch by done end.
  cbn [client upd_client].
  apply (wpg_header_any (client w)); [done | apply header_names | done|].
  intros r v' _. cbn beta iota.
  destruct (r <? 0); [by apply wpg_sending_headers_encoding|].
  mg_steps. apply wpg_decstr2dec_any; [constructor|]. intros bad n _. mg_steps.
  destruct (negb (bad =? 0)); mg_steps.
  - apply (wpg_give_up _ _ MANGO_ERR_INVALIDREQHEADERS); try done.
  - destruct (n =? 0).
    + apply wpg_ENTER; [cbn; congruence|].
      split; [done|]. right. cbn. split; [done|]. inv_solve.
    + apply wpg_sending_headers_encoding. unfold choosing. cbn. split_and!; try done.
      intros _. by left.
Qed.

Lemma wpg_sending_headers_write w :
  at_state mangoSM__HTTP_SENDING_HEADERS w -> subscribedEvent (client w) = EVENT_WRITE ->
  safe (sm_HTTP_SENDING_HEADERS E fuel EVENT_WRITE) (moves mangoSM__HTTP_SENDING_HEADERS) w.
Proof.
  intros (Hc & Hn & Hok) Hsub. pose proof Hok as [(Hwb & Ha & _ & Hu & Hd) Hw].
  pose proof Hwb as (Hlen & Hl & Hr). unfold MANGO_WB_TOT_SZ, MANGO_WORKING_BUFFER_SZ in *.
  cbn [sm_HTTP_SENDING_HEADERS]. mg_steps. apply wpg_wb_slice; [lia | lia | lia|].
  mg_steps. apply wpg_socket_write; [apply can_write_partial; [done | constructor] | |].
  { rewrite u16_small by (unfold is_u16; lia). rewrite zlen_zsub by lia. lia. }
  intros r k st tr' Hk _ Hrk. rewrite u16_small in Hk by (unfold is_u16; lia). cbn beta iota.
  destruct (Z.ltb_spec r 0).
  { apply (wpg_give_up _ _ MANGO_ERR_CONNECTION); done. }
  assert (r = k) as -> by lia. mg_steps.
  { cbn -[Z.add u16]. rewrite u16_small by (unfold is_u16; lia). apply Z.leb_le. lia. }
  cbn -[Z.add u16]. rewrite u16_small by (unfold is_u16; lia).
  assert (wb_ok (set_workingBufferIndexLeft (workingBufferIndexLeft (client w) + k) (client w)))
    as Hwb' by (unfold wb_ok, MANGO_WB_TOT_SZ, MANGO_WORKING_BUFFER_SZ; cbn -[Z.add]; lia).
  destruct (Z.eqb_spec (workingBufferIndexLeft (client w) + k) (workingBufferIndexRight (client w))).
  - apply wpg_SUBSCRIBE; [by auto|]. split; [done|]. left. split; [done|].
    split; [split_and!; done|]. cbn in *. destruct Hw as [_ Hw]. by auto.
  - mg_steps. split; [done|]. left. split; [done|]. split; [split_and!; done|]. exact Hw.
Qed.

Lemma wpg_sending_headers_process w :
  at_state mangoSM__HTTP_SENDING_HEADERS w ->
  safe (sm_HTTP_SENDING_HEADERS E fuel EVENT_PROCESS) (moves mangoSM__HTTP_SENDING_HEADERS) w.
Proof.
  intros (Hc & Hn & Hok). pose proof Hok as [(Hwb & Ha & _ & Hu & [Hh Hm]) Hw].
  cbn [sm_HTTP_SENDING_HEADERS]. mg_steps.
  destruct (httpMethod (client w)) eqn:Hmeth; try done.
  1, 2: apply wpg_ENTER; [congruence|]; split; [done|]; right; split; [done|];
    cbn; unfold entry_ok, common_ok; split_and!; try done; cbn; rewrite Hmeth; done.
  1, 2: apply wpg_sending_headers_body; unfold choosing; split_and!; try done; by apply Hu.
Qed.

(** ** Reading *)

(** [r] bytes have been received behind the right index and terminated. *)
Definition after_read (c c' : mangoHttpClient_t) : Prop :=
  exists wb st right,
    c' = set_workingBuffer wb (set_workingBufferIndexRight right (set_stats st c)) /\
    zlen wb = MANGO_WORKING_BUFFER_SZ /\
    workingBufferIndexRight c < right <= MANGO_WB_TOT_SZ /\ zget wb right = Some 0.

Lemma wpg_sm_read w (Q : Z -> world -> Prop) :
  wb_ok (client w) ->
  (forall tr' st wb, zlen wb = MANGO_WORKING_BUFFER_SZ ->
     Q (-1) (mkWorld (set_stats st (set_workingBuffer wb (client w))) tr')) ->
  (forall tr' st wb r, zlen wb = MANGO_WORKING_BUFFER_SZ ->
     0 <= r -> workingBufferIndexRight (client w) + r <= MANGO_WB_TOT_SZ ->
     Q r (mkWorld (set_stats st (set_workingBuffer wb (client w))) tr')) ->
  safe (sm_read E fuel) Q w.
Proof.
  intros (Hlen & Hl & Hr) HQ1 HQ2. unfold sm_read. mg_steps.
  unfold MANGO_WB_FREE_SZ, MANGO_WB_TOT_SZ, MANGO_WORKING_BUFFER_SZ in *.
  apply wpg_socket_read; [done | constructor | unfold is_u16; lia | lia | lia|].
  intros r d wb st tr' Hb Hd _ _ Hrd. pose proof (zblit_zlen _ _ _ _ Hb). pose proof (zlen_nonneg d).
  destruct Hrd as [-> | ->]; [apply HQ1 | apply HQ2]; lia.
Qed.

Lemma wpg_sm_received w0 w r (Q : unit -> world -> Prop) st wb tr :
  w = mkWorld (set_stats st (set_workingBuffer wb (client w0))) tr ->
  wb_ok (client w0) -> zlen wb = MANGO_WORKING_BUFFER_SZ ->
  0 < r -> workingBufferIndexRight (client w0) + r <= MANGO_WB_TOT_SZ ->
  (forall c, after_read (client w0) c -> Q tt (mkWorld c tr)) ->
  safe (sm_received r) Q w.
Proof.
  intros -> (Hlen & Hl & Hr) Hz Hr0 Hfit HQ. unfold sm_received.
  unfold MANGO_WB_TOT_SZ, MANGO_WORKING_BUFFER_SZ in *.
  mg_steps. apply wpg_NULLTERMINATE; cbn -[Z.add u16];
    rewrite u16_small by (unfold is_u16; lia); [lia|].
  apply HQ. exists (<[Z.to_nat (workingBufferIndexRight (client w0) + r) := 0]> wb), st,
    (workingBufferIndexRight (client w0) + r).
  unfold MANGO_WB_TOT_SZ, MANGO_WORKING_BUFFER_SZ. rewrite zlen_insert.
  split_and!; try lia; [done|]. apply zget_insert_eq. lia.
Qed.

Lemma after_read_ok c c' : wb_ok c -> after_read c c' -> wb_ok c'.
Proof.
  intros (Hlen & Hl & Hr) (wb & st & right & -> & Hz & Hr' & _). unfold wb_ok. cbn. lia.
Qed.

(** A string ends at the latest where the array holds a 0. *)
Lemma cstr_end_le m p s i : cstr m p = Some s -> zget m i = Some 0 -> p <= i -> p + zlen s <= i.
Proof.
  intros Hs Hi Hp. destruct (Z.leb_spec (p + zlen s) i) as [|Hlt]; [done|]. exfalso.
  destruct (zget_is_Some s (i - p)) as [c Hc]; [lia|].
  pose proof (cstr_get _ _ _ _ _ Hs Hc) as Hg. replace (p + (i - p)) with i in Hg by lia.
  assert (c = 0) as -> by congruence.
  pose proof (cstr_nonzero _ _ _ Hs) as Hf. rewrite Forall_lookup in Hf.
  unfold zget in Hc. destruct (0 <=? i - p); [|done]. by apply (Hf _ _ Hc).
Qed.

Lemma after_read_cstr c c' : wb_ok c -> after_read c c' -> is_Some (cstr (workingBuffer c') 0).
Proof.
  intros (Hlen & Hl & Hr) (wb & st & right & -> & Hz & Hr' & Hg). cbn -[cstr].
  apply (cstr_is_Some _ _ right); [lia | done].
Qed.

(** ** HTTP_RECVING_HEADERS *)

Lemma take_ends_crlf s e :
  find_sub (CRLF ++ CRLF) s = Some e ->
  ends_crlf (take (Z.to_nat (e + 2)) s).
Proof.
  intros He. apply find_sub_Some in He as (a & b & -> & Hl).
  exists a. unfold zlen in Hl.
  replace (Z.to_nat (e + 2)) with (length (a ++ CRLF)) by (rewrite length_app; cbn; lia).
  rewrite <- (app_assoc CRLF CRLF b), (app_assoc a CRLF). apply take_app_length.
Qed.

Lemma wpg_recving_headers_read w :
  at_state mangoSM__HTTP_RECVING_HEADERS w -> subscribedEvent (client w) = EVENT_READ ->
  safe (recving_headers_read E fuel) (moves mangoSM__HTTP_RECVING_HEADERS) w.
Proof.
  intros (Hc & Hn & Hok) Hsub. pose proof Hok as [(Hwb & Ha & _ & Hu & Hd) Hw].
  pose proof Hwb as (Hlen & Hl & Hr). unfold recving_headers_read.
  cbn in Hw. rewrite Hsub in Hw. destruct Hw as [[_ Hl0]|[? _]]; [|done].
  wp_step. apply wpg_sm_read; [done| |].
  { intros tr' st wb Hz. cbn [Z.ltb Z.compare]. by apply (wpg_give_up _ _ MANGO_ERR_CONNECTION). }
  intros tr' st wb r Hz Hr0 Hfit. destruct (Z.ltb_spec r 0); [lia|].
  destruct (Z.eqb_spec r 0).
  { wp_step. split; [done|]. left. split; [done|]. split; [split_and!; done|].
    left. by split. }
  wp_step. eapply wpg_sm_received; [done | done | done | lia | done |]. intros c Hc'.
  pose proof (after_read_ok _ _ Hwb Hc') as Hwb'.
  destruct (after_read_cstr _ _ Hwb Hc') as [s Hs].
  destruct Hc' as (wb' & st' & right & -> & Hz' & Hr' & Hg0). cbn -[cstr] in Hs.
  mg_steps. apply (wpg_httpReponseVerify _ _ s); [done|]. mg_steps.
  pose proof (response_status_range s) as Hrange.
  assert (zlen (response_trim s wb') = MANGO_WORKING_BUFFER_SZ) as Htrim
    by (by rewrite response_trim_zlen).
  assert (wb_ok (set_workingBuffer (response_trim s wb')
            (set_workingBufferIndexRight right (client w)))) as Hwb2.
  { unfold wb_ok. cbn -[response_trim]. lia. }
  clear Hwb'.
  destruct (Z.ltb_spec (response_status s) 0).
  { by apply (wpg_give_up _ _ MANGO_ERR_RESPFORMAT). }
  destruct (Z.eqb_spec (response_status s) 0).
  { mg_steps. destruct (_ =? 0); [by apply (wpg_give_up _ _ MANGO_ERR_WORKBUFSMALL)|].
    wp_step. split; [done|]. left. split; [done|]. split; [split_and!; done|].
    left. by split. }
  destruct (find_sub (CRLF ++ CRLF) s) as [e|] eqn:He;
    [|by apply response_status_incomplete in He].
  pose proof (response_trim_cstr _ _ _ Hs He) as Hcs.
  pose proof (find_sub_range _ _ _ He) as [He0 Hel]. change (zlen (CRLF ++ CRLF)) with 4 in Hel.
  pose proof (cstr_bound _ _ _ Hs) as [_ Hsl].
  assert (zlen (take (Z.to_nat (e + 2)) s) = e + 2) as Hnl.
  { unfold zlen in *. rewrite length_take. lia. }
  mg_steps.
  eapply wpg_access_Some; [exact (f_equal (fmap zlen) Hcs)|]. mg_steps.
  apply wpg_SUBSCRIBE; [by auto|].
  pose proof (cstr_end_le _ _ _ _ Hs Hg0 ltac:(lia)) as Hend.
  assert (u16 (zlen (take (Z.to_nat (e + 2)) s) + 2) = e + 4) as ->.
  { rewrite Hnl. unfold MANGO_WB_TOT_SZ, MANGO_WORKING_BUFFER_SZ in *.
    rewrite u16_small by (unfold is_u16; lia). lia. }
  split; [done|]. left. split; [done|]. split; [split_and!; try done|].
  - unfold wb_ok. cbn -[response_trim Z.add]. lia.
  - right. split; [done|]. exists (take (Z.to_nat (e + 2)) s). split; [exact Hcs|].
    by apply take_ends_crlf.
Qed.

(** The client while the header of the response is examined. *)
Definition examining (w : world) : Prop :=
  curState (client w) = mangoSM__HTTP_RECVING_HEADERS /\
  wb_ok (client w) /\ api_args_ok (client w) /\ headers_ok (client w) /\
  userFunc (client w) = true /\ (has_body (httpMethod (client w)) = true -> odp_ok (client w)).

Local Abbreviation RH := mangoSM__HTTP_RECVING_HEADERS.

Lemma wpg_examining_give_up err w :
  examining w -> safe (mangoSM_EXITERR err ;; mangoSM_ENTER mangoSM__ABORTED) (moves RH) w.
Proof. intros (? & ? & ? & ?). by apply wpg_give_up. Qed.

Lemma wpg_attach_raw n w : examining w -> safe (attach_raw n) (moves RH) w.
Proof.
  intros (Hc & Hwb & Ha & Hh & Hu & _). unfold attach_raw. mg_steps.
  apply wpg_ENTER; [cbn; congruence|]. split; [done|]. right. split; [done|].
  split; [|done]. split_and!; try done. by left.
Qed.

Lemma wpg_request_completed s w :
  curState (client w) = s -> s <> mangoSM__HTTP_CONNECTED -> wb_ok (client w) ->
  api_args_ok (client w) -> safe request_completed (moves s) w.
Proof.
  intros Hc Hs Hwb Ha. unfold request_completed. wp_step. mg_step.
  by apply (wpg_give_up _ _ (MANGO_ERR_HTTP _)).
Qed.

Lemma wpg_recving_headers_special w :
  examining w -> safe recving_headers_special (moves RH) w.
Proof.
  intros Hex. pose proof Hex as (Hc & Hwb & Ha & Hh & Hu & Ho).
  unfold recving_headers_special. mg_steps.
  destruct (_ && bool_decide (zsub _ _ _ = _)); [by apply wpg_attach_raw|].
  destruct (_ =? 101).
  { mg_steps. apply wpg_EXITERR. apply wpg_ENTER; [cbn; congruence|].
    split; [done|]. right. split; [done|].
    split; [|done]. split_and!; try done. unfold data_ok, idp_ws_ok. split_and!; try done. by left. }
  mg_steps.
  destruct (_ && _) eqn:He; [|by apply wpg_attach_raw].
  wp_step. apply wpg_EXITERR. apply wpg_ENTER; [cbn; congruence|].
  split; [done|]. right. split; [done|]. split; [|done]. split_and!; try done.
  cbn. apply Ho. apply andb_prop in He as [_ He]. apply orb_prop in He as [He|He];
    apply bool_decide_eq_true in He; by rewrite He.
Qed.

Lemma wpg_recving_headers_encoding v w :
  zlen v = 32 -> examining w -> safe (recving_headers_encoding v) (moves RH) w.
Proof.
  intros Hv Hex. pose proof Hex as (Hc & Hwb & Ha & Hh & Hu & Ho).
  unfold recving_headers_encoding. mg_steps.
  apply wpg_header_any; [done | apply header_names | done|]. intros r v' _. cbn beta iota.
  destruct (r <? 0); [by apply wpg_recving_headers_special|].
  destruct (r =? 0); [by apply wpg_examining_give_up|].
  mg_steps. destruct (negb _); [|by apply wpg_request_completed].
  mg_steps. apply wpg_ENTER; [cbn; congruence|]. split; [done|]. right. split; [done|].
  split; [|done]. split_and!; try done. by right.
Qed.

Lemma wpg_recving_headers_process w :
  at_state RH w -> subscribedEvent (client w) = EVENT_PROCESS ->
  safe (recving_headers_process E) (moves RH) w.
Proof.
  intros (Hc & Hn & Hok) Hsub. pose proof Hok as [(Hwb & Ha & _ & Hu & Hd) Hw].
  cbn in Hw. rewrite Hsub in Hw. destruct Hw as [[? _]|[_ Hh]]; [done|].
  specialize (Hu eq_refl). pose proof Hwb as (Hlen & Hl & Hr).
  unfold recving_headers_process. mg_steps.
  unfold MANGO_WB_TOT_SZ, MANGO_WORKING_BUFFER_SZ in *.
  apply wpg_wb_slice; [lia | lia | lia|].
  mg_steps. apply wpg_userFunc; [done|]. intros err tr' _.
  assert (examining (mkWorld (client w) tr')) as Hex by done.
  mg_steps. apply wpg_header_any; [done | apply header_names | done|].
  intros r v' Hv'. cbn beta iota.
  destruct (r <? 0); [by apply wpg_recving_headers_encoding|].
  destruct (r =? 0); [by apply wpg_examining_give_up|].
  mg_steps. destruct (negb _); [|by apply wpg_request_completed].
  mg_steps. apply wpg_decstr2dec_any; [constructor|]. intros bad n _. mg_steps.
  destruct (negb _); [by apply wpg_examining_give_up | by apply wpg_attach_raw].
Qed.

(** ** Processing received data *)

(** The client after its input processor. *)
Definition after_process (c c' : mangoHttpClient_t) : Prop :=
  exists wb raw chk ws b,
    c' = set_dataProcessorCompleted b (set_IDPArgsRaw raw (set_IDPArgsChunked chk
           (set_IDPArgsWebsocket ws (set_workingBuffer wb c)))) /\
    zlen wb = zlen (workingBuffer c) /\
    (ws_args_ok (IDPArgsWebsocket c) -> ws_args_ok ws).

Lemma after_process_wb_ok c c' : wb_ok c -> after_process c c' -> wb_ok c'.
Proof. intros Hwb (wb & raw & chk & ws & b & -> & Hz & _). unfold wb_ok in *. cbn. lia. Qed.

Lemma wpg_process_input w (Q : mangoErr_t * Z -> world -> Prop) :
  wb_ok (client w) -> userFunc (client w) = true -> idp_ok (client w) \/ idp_ws_ok (client w) ->
  (forall err p c tr, after_process (client w) c -> idp_error err -> is_u32 p ->
     Q (err, p) (mkWorld c tr)) ->
  safe (sm_process_input E fuel) Q w.
Proof.
  intros (Hlen & Hl & Hr) Hu Hidp HQ. unfold MANGO_WB_TOT_SZ, MANGO_WORKING_BUFFER_SZ in *.
  unfold sm_process_input. mg_steps.
  assert (forall err p completed c tr, after_process (client w) c -> idp_error err -> is_u32 p ->
    safe (assign (set_dataProcessorCompleted completed) ;; ret (err, p)) Q (mkWorld c tr)) as Hend.
  { intros err p b c tr (wb & raw & chk & ws & b' & -> & Hz & Hws) He Hp. mg_steps.
    apply HQ; [|done|done]. by exists wb, raw, chk, ws, b. }
  assert (is_u16 (MANGO_WB_USED_SZ (client w)) /\
    workingBufferIndexLeft (client w) + MANGO_WB_USED_SZ (client w) <
    zlen (workingBuffer (client w))) as (Hub & Hul)
    by (unfold is_u16, MANGO_WB_USED_SZ; lia).
  assert (is_u32 (MANGO_WB_USED_SZ (client w))) as Hub32 by (unfold is_u16, is_u32 in *; lia).
  unfold call_inputDataProcessor. mg_steps.
  destruct Hidp as [[[Hi Hv]|[Hi Hv]]|(Hi & Hv & Hws)]; cbn; rewrite Hi, Hv.
  - apply wpg_IDP_raw; [done | done | done | exact Hul | ..].
    + intros _. apply Hend; [|by left | done].
      eexists _, _, _, _, _. split_and!; [reflexivity | done | done].
    + intros _ _. apply Hend; [|by right; left | done].
      eexists _, _, _, _, _. split_and!; [reflexivity | done | done].
    + intros _ _ err tr' He _. apply Hend; [| unfold idp_error; tauto | exact Hub32].
      eexists _, _, _, _, _. split_and!; [reflexivity | apply (zlen_insert (workingBuffer (client w))) | done].
  - apply wpg_IDP_chunked_any; [apply sm_failure_chunk | done|].
    intros [[err p] b] [c' tr'] [He Hp] [a Ha]. cbn in Ha. subst c'. apply Hend; [|done | done].
    eexists _, _, _, _, _. split_and!; [reflexivity | done | done].
  - apply wpg_IDP_websocket; [done | exact SF_fuel | done | done | unfold MANGO_WB_USED_SZ in *; cbn; unfold is_u16 in Hub; lia
      | exact Hul | done |].
    intros [[err p] b] [c' tr'] (He & Hp & a & Ha & Haok). cbn in Ha. subst c'.
    apply Hend; [|done | unfold is_u16, is_u32 in *; cbn in Hp; unfold MANGO_WB_USED_SZ in *; cbn in Hp; lia].
    eexists _, _, _, _, _. split_and!; [reflexivity | done | done].
Qed.

(** The two states that read and process data in turn. *)
Definition reads_data (s : mangoState) : Prop :=
  s = mangoSM__HTTP_RECVING_DATA \/ s = mangoSM__WS_POLLING.

Lemma reading_state s c ev :
  reads_data s -> state_ok s c -> ev = EVENT_READ \/ ev = EVENT_PROCESS ->
  state_ok s (set_subscribedEvent ev c).
Proof. intros [-> | ->] Hok [-> | ->]; inv_solve. Qed.

Lemma wpg_WB_shrink_any w (Q : unit -> world -> Prop) :
  zlen (workingBuffer (client w)) = MANGO_WORKING_BUFFER_SZ ->
  0 <= workingBufferIndexLeft (client w) ->
  0 <= workingBufferIndexRight (client w) <= MANGO_WB_TOT_SZ ->
  (forall c, wb_ok (client w) -> shrunk (client w) c -> Q tt (mkWorld c (trace w))) ->
  safe mangoWB_shrink Q w.
Proof.
  intros Hz Hl Hr HQ.
  destruct (Z.leb_spec (workingBufferIndexLeft (client w)) (workingBufferIndexRight (client w))).
  { assert (wb_ok (client w)) by (unfold wb_ok; lia). apply wpg_WB_shrink; auto. }
  unfold mangoWB_shrink. do 6 mg_step. { apply Z.leb_le. lia. }
  mg_step. unfold ensure. rewrite (proj2 (Z.leb_gt _ _)) by done. exact SF_shrink.
Qed.

Lemma wpg_data_processed s p w :
  reads_data s -> at_state s w -> safe (data_processed p) (moves s) w.
Proof.
  intros Hs (Hc & Hn & Hok). pose proof Hok as [(Hwb & Ha & Hargs & Hu & Hd) Hw].
  pose proof Hwb as (Hlen & Hl & Hr). unfold data_processed. mg_steps.
  apply wpg_WB_shrink_any; [done | apply u16_range | cbn; lia|].
  intros c Hwb1 Hsh. pose proof (shrunk_wb_ok _ _ Hwb1 Hsh) as [Hwb2 Hl2].
  destruct Hsh as (wb & -> & Hz & _). mg_steps. cbn [client upd_client].
  match goal with |- wpg _ (if _ then _ else ret tt) _ ?w1 =>
    assert (state_ok s (client w1)) as Hok1 end.
  { split; [split_and!; try done; by destruct Hs as [-> | ->]|].
    destruct Hs as [-> | ->]; (split; [apply Hw | done]). }
  destruct (_ =? 0).
  - apply wpg_SUBSCRIBE; [by auto|]. split; [done|]. left. split; [done|].
    by apply (reading_state _ _ EVENT_READ); auto.
  - wp_step. split; [done|]. by left.
Qed.

Lemma wpg_more_data_needed s w :
  reads_data s -> at_state s w -> safe more_data_needed (moves s) w.
Proof.
  intros Hs (Hc & Hn & Hok). pose proof Hok as [(Hwb & Ha & Hargs & Hu & Hd) Hw].
  unfold more_data_needed. mg_steps. destruct (_ =? 0).
  - apply (wpg_give_up _ _ MANGO_ERR_WORKBUFSMALL); try done. by destruct Hs as [-> | ->].
  - apply wpg_SUBSCRIBE; [by auto|]. split; [done|]. left. split; [done|].
    apply reading_state; auto.
Qed.

Lemma wpg_recving_data_read s site reset w :
  reads_data s -> at_state s w -> safe (recving_data_read E fuel site reset) (moves s) w.
Proof.
  intros Hs (Hc & Hn & Hok). pose proof Hok as [(Hwb & Ha & Hargs & Hu & Hd) Hw].
  unfold recving_data_read. wp_step. apply wpg_sm_read; [done| |].
  { intros tr' st wb Hz. cbn [Z.ltb Z.compare].
    apply (wpg_give_up _ _ MANGO_ERR_CONNECTION); try done; [by destruct Hs as [-> | ->]|].
    split; [done | apply Hwb]. }
  intros tr' st wb r Hz Hr0 Hfit. destruct (Z.ltb_spec r 0); [lia|].
  destruct (Z.eqb_spec r 0).
  { wp_step. split; [done|]. left. split; [done|].
    assert (wb_ok (set_workingBuffer wb (client w))) as Hwb1 by (split; [done | apply Hwb]).
    destruct Hs as [-> | ->]; (split; [split_and!; done | exact Hw]). }
  wp_step. eapply wpg_sm_received; [done | done | done | lia | done |]. intros c Hc'.
  pose proof (after_read_ok _ _ Hwb Hc') as Hwb'.
  destruct Hc' as (wb' & st' & right & -> & Hz' & Hr' & _).
  mg_steps. { apply Z.leb_le. cbn. lia. }
  match goal with |- wpg _ _ _ ?w1 => assert (at_state s w1) as Hat end.
  { split; [done|]. split; [done|]. destruct Hs as [-> | ->]; (split; [split_and!; done | exact Hw]). }
  assert (forall w1, at_state s w1 -> safe (mangoSM_SUBSCRIBE EVENT_PROCESS) (moves s) w1) as Hend.
  { intros w1 (Hc1 & Hn1 & Hok1). apply wpg_SUBSCRIBE; [by auto|].
    split; [done|]. left. split; [done|]. apply reading_state; auto. }
  destruct reset; [|wp_step; by apply Hend].
  apply wpg_TIMEOUT. intros now tr1 _. apply Hend. destruct Hat as (Hc1 & Hn1 & Hok1).
  split; [done|]. split; [done|]. destruct Hs as [-> | ->]; exact Hok1.
Qed.

(** After the input processor the client is where it was. *)
Lemma after_process_at s w c tr :
  reads_data s -> at_state s w -> after_process (client w) c -> at_state s (mkWorld c tr).
Proof.
  intros Hs (Hc & Hn & Hok) Hp. pose proof Hok as [(Hwb & Ha & Hargs & Hu & Hd) Hw].
  pose proof (after_process_wb_ok _ _ Hwb Hp) as Hwb'.
  destruct Hp as (wb & raw & chk & ws & b & -> & Hz & Hws).
  split; [done|]. split; [done|]. split; [|destruct Hs as [-> | ->]; exact Hw].
  split_and!; try done. destruct Hs as [-> | ->]; [exact Hd|].
  destruct Hd as (Hi & Hv & Hok2). unfold data_ok, idp_ws_ok. split_and!; [done | done|].
  by apply Hws.
Qed.

Lemma wpg_reading_give_up s s' err w :
  reads_data s -> at_state s w -> passive s' = true ->
  safe (mangoSM_EXITERR err ;; mangoSM_ENTER s') (moves s) w.
Proof.
  intros Hs (Hc & Hn & [(Hwb & Ha & _) _]) Hp. apply wpg_give_up; try done.
  by destruct Hs as [-> | ->], s'.
Qed.

Lemma wpg_recving_data_process w :
  at_state mangoSM__HTTP_RECVING_DATA w ->
  safe (sm_HTTP_RECVING_DATA E fuel EVENT_PROCESS) (moves mangoSM__HTTP_RECVING_DATA) w.
Proof.
  intros Hat. pose proof Hat as (Hc & Hn & [(Hwb & Ha & _ & Hu & Hd) _]).
  cbn [sm_HTTP_RECVING_DATA]. wp_step.
  apply wpg_process_input; [done | by apply Hu | by left |]. intros err p c tr Hp Herr Hp32.
  pose proof (after_process_at _ w c tr (or_introl eq_refl) Hat Hp) as Hat'.
  assert (reads_data mangoSM__HTTP_RECVING_DATA) as Hrd by by left.
  destruct err; try by apply wpg_reading_give_up.
  - mg_steps. destruct (dataProcessorCompleted _).
    + pose proof Hat' as (Hc' & _ & [(Hwb' & Ha' & _) _]). by apply wpg_request_completed.
    + by apply wpg_data_processed.
  - by apply wpg_more_data_needed.
Qed.

Lemma wpg_ws_polling_process w :
  at_state mangoSM__WS_POLLING w -> safe (ws_polling_process E fuel) (moves mangoSM__WS_POLLING) w.
Proof.
  intros Hat. pose proof Hat as (Hc & Hn & [(Hwb & Ha & _ & Hu & Hd) _]).
  unfold ws_polling_process. wp_step.
  apply wpg_process_input; [done | by apply Hu | by right |]. intros err p c tr Hp Herr Hp32.
  pose proof (after_process_at _ w c tr (or_intror eq_refl) Hat Hp) as Hat'.
  assert (reads_data mangoSM__WS_POLLING) as Hrd by by right.
  destruct err; try by apply wpg_reading_give_up.
  - by apply wpg_data_processed.
  - by apply wpg_more_data_needed.
Qed.

(** ** Sending *)

Lemma wpg_output w buf (Q : dp_result -> world -> Prop) :
  odp_ok (client w) -> zlen buf <= 65535 ->
  zlen (workingBuffer (client w)) = MANGO_WORKING_BUFFER_SZ ->
  (forall r wb st a tr', zlen wb = MANGO_WORKING_BUFFER_SZ ->
     Q r (mkWorld (set_ODPArgsRaw a (set_stats st (set_workingBuffer wb (client w)))) tr')) ->
  safe (call_outputDataProcessor E fuel buf (zlen buf)) Q w.
Proof.
  intros Hodp Hbuf Hz HQ. unfold call_outputDataProcessor. mg_steps.
  assert (forall r tr', Q r (mkWorld (client w) tr')) as HQ0.
  { intros r tr'. specialize (HQ r (workingBuffer (client w)) (stats (client w))
      (ODPArgsRaw (client w)) tr' Hz). by destruct (client w). }
  destruct Hodp as [[Ho Hv]|(Ho & Hv & Harg)]; rewrite Ho, Hv.
  - assert (forall r st a tr', Q r (mkWorld (set_ODPArgsRaw a (set_stats st (client w))) tr')) as HQ1.
    { intros r st a tr'. specialize (HQ r (workingBuffer (client w)) st a tr' Hz).
      by destruct (client w). }
    assert (forall r st tr', Q r (mkWorld (set_stats st (client w)) tr')) as HQ2.
    { intros r st tr'. specialize (HQ1 r st (ODPArgsRaw (client w)) tr'). by destruct (client w). }
    destruct w as [cl tr]. cbn [client] in *.
    apply wpg_ODP_raw; [apply can_write_partial; [done | constructor] | auto..].
  - apply (wpg_ODP_chunked _ _ _ _ 4082); try done;
      [apply can_write_partial; [done | constructor] | rewrite Hz; done | |].
    + intros w' (wb & st & Hc & Hzw) _. destruct w' as [c' tr']. cbn in Hc. subst c'.
      specialize (HQ (MANGO_OK, if decide (buf = []) then 5 else zlen buf, bool_decide (buf = []))
        wb st (ODPArgsRaw (client w)) tr'). rewrite Hz in Hzw. by destruct (client w); apply HQ.
    + intros w' k p (wb & st & Hc & Hzw) _. destruct w' as [c' tr']. cbn in Hc. subst c'.
      specialize (HQ (MANGO_ERR_WRITETIMEOUT, p, false) wb st (ODPArgsRaw (client w)) tr').
      rewrite Hz in Hzw. by destruct (client w); apply HQ.
Qed.

Lemma wpg_sending_packet_write w :
  at_state mangoSM__HTTP_SENDING_PACKET w ->
  safe (sm_HTTP_SENDING_PACKET E fuel EVENT_WRITE) (moves mangoSM__HTTP_SENDING_PACKET) w.
Proof.
  intros (Hc & Hn & [(Hwb & Ha & Hargs & Hu & Hd) _]). cbn [sm_HTTP_SENDING_PACKET]. mg_steps.
  pose proof Ha as Ha2. unfold api_args_ok in Ha2. cbn in Hargs.
  destruct (smAPICallArgs (client w)) as [|buf buflen| |] eqn:Hapi; try done.
  destruct Ha2 as [-> Hbuf]. mg_steps.
  apply wpg_output; [done | done | apply Hwb|]. intros [[err p] b] wb st a tr' Hz. mg_steps.
  assert (wb_ok (set_workingBuffer wb (client w))) as Hwb' by (split; [done | apply Hwb]).
  destruct (negb (is_ok err)).
  - apply (wpg_give_up _ _ err); try done.
  - mg_steps. apply wpg_ENTER; [cbn; destruct b; congruence|]. split; [done|]. right.
    split; [by destruct b|]. destruct b; (split; [split_and!; try done; first [exact Hd | intros _; exact Hd] | done]).
Qed.

(** A frame leaves the client as it is. *)
Lemma wpg_ws_sent_client buf type w (Q : mangoErr_t -> world -> Prop) :
  (type = MANGO_WS_FRAME_TYPE_TEXT \/ type = MANGO_WS_FRAME_TYPE_BINARY \/
   type = MANGO_WS_FRAME_TYPE_CLOSE) ->
  Forall is_u8 buf -> zlen buf <= 65535 ->
  (forall err tr', Q err (mkWorld (client w) tr')) ->
  safe (mangoWS_frameSend E fuel buf (zlen buf) type) Q w.
Proof.
  intros Hty Hb Hl HQ. pose proof (zlen_nonneg buf).
  assert (exists payload, sent_payload type buf = Some payload) as [payload Hp].
  { destruct Hty as [-> |[-> | ->]]; by eexists. }
  eapply (wpg_frameSend E); [apply can_write_partial; [done | constructor] | exact Hp | done | unfold is_u32; lia |].
  intros err [c' tr'] [Hc _]. cbn in Hc. subst c'. apply HQ.
Qed.

Lemma wpg_sending_frame_write w :
  at_state mangoSM__WS_SENDING_FRAME w ->
  safe (sm_WS_SENDING_FRAME E fuel EVENT_WRITE) (moves mangoSM__WS_SENDING_FRAME) w.
Proof.
  intros (Hc & Hn & [(Hwb & Ha & Hargs & Hu & Hd) _]). cbn [sm_WS_SENDING_FRAME]. mg_steps.
  pose proof Ha as Ha2. unfold api_args_ok in Ha2. cbn in Hargs.
  destruct (smAPICallArgs (client w)) as [| | |buf buflen type] eqn:Hapi; try done.
  destruct Ha2 as (-> & Hbuf & Hby & Hty). mg_steps.
  apply wpg_ws_sent_client; [tauto | done | done |]. intros err tr'.
  apply wpg_ENTER; [cbn; destruct (is_ok err); cbn; congruence|]. split; [done|]. right.
  destruct (is_ok err); (split; [done|]); (split; [split_and!; try done; by rewrite Hapi | done]).
Qed.

Lemma wpg_closing_write w :
  at_state mangoSM__WS_CLOSING w ->
  safe (sm_WS_CLOSING E fuel EVENT_WRITE) (moves mangoSM__WS_CLOSING) w.
Proof.
  intros (Hc & Hn & [(Hwb & Ha & Hargs & Hu & Hd) _]). cbn [sm_WS_CLOSING]. mg_steps.
  apply (wpg_ws_sent_client []); [tauto | done | done |]. intros err tr'.
  apply wpg_ENTER; [cbn; destruct (is_ok err); cbn; congruence|]. split; [done|]. right.
  destruct (is_ok err); (split; [done|]); (split; [split_and!; done | done]).
Qed.

(** ** Every event of a state *)

(** The events a client in state [s] may raise by itself. *)
Definition own_event (ev : mangoEvent_e) (c : mangoHttpClient_t) : Prop :=
  ev <> EVENT_NONE /\ subscribedEvent c = ev \/
  ev = EVENT_TIMEOUT /\ smTimeout c <> MANGO_TIMEOUT_INFINITE.

Lemma wpg_timeout w s' :
  at_state (curState (client w)) w -> curState (client w) <> s' -> passive s' = true ->
  safe (mangoSM_ENTER s') (moves (curState (client w))) w.
Proof.
  intros (_ & Hn & [(Hwb & Ha & _) _]) Hs Hp. apply wpg_ENTER; [done|].
  by apply (moved_away _ s').
Qed.

Lemma wpg_own_event s ev w :
  at_state s w -> own_event ev (client w) ->
  safe (call_curState E fuel ev) (moves s) w.
Proof.
  intros Hat Hev. pose proof Hat as (Hc & Hn & Hok). pose proof Hok as [Hcom Hw].
  unfold call_curState. mg_step. mg_step. rewrite Hc.
  assert (forall err, s <> mangoSM__ABORTED ->
    safe (mangoSM_EXITERR err ;; mangoSM_ENTER mangoSM__ABORTED) (moves s) w) as Habort.
  { intros err Hs. destruct Hcom as (Hwb & Ha & _). by apply wpg_give_up. }
  destruct Hev as [[Hne Hsub]|[-> Hto]]; destruct s; cbn in Hw;
    try (exfalso; intuition congruence);
    try (assert (ev = EVENT_WRITE \/ ev = EVENT_READ \/ ev = EVENT_PROCESS) as Hcases
           by (intuition congruence);
         destruct Hcases as [-> |[-> | ->]]; try (exfalso; intuition congruence)).
  - by apply wpg_sending_headers_write.
  - by apply wpg_sending_headers_process.
  - by apply wpg_recving_headers_read.
  - by apply wpg_recving_headers_process.
  - apply wpg_recving_data_read; [by left | done].
  - by apply wpg_recving_data_process.
  - by apply wpg_sending_packet_write.
  - apply wpg_recving_data_read; [by right | done].
  - by apply wpg_ws_polling_process.
  - by apply wpg_sending_frame_write.
  - by apply wpg_closing_write.
  - by apply Habort.
  - by apply Habort.
  - apply wpg_ENTER; [congruence|]. destruct Hcom as (Hwb & Ha & Hargs & Hu & Hd).
    split; [done|]. right. split; [done|]. by split; [split_and!|].
Qed.

(** ** EVENT_ENTRY *)

Lemma wpg_entry s w :
  at_entry s w ->
  safe (call_curState E fuel EVENT_ENTRY)
    (fun _ w' => at_state s w' \/ s = mangoSM__WS_POLLING /\ moved s (client w')) w.
Proof.
  intros (Hc & Hn & [(Hwb & Ha & Hargs & Hu & Hd) Hen] & Hsub & Hto).
  pose proof Hwb as (Hz & Hl & Hr).
  unfold call_curState. mg_step. mg_step. rewrite Hc.
  destruct s.
  - cbn [sm_ABORTED]. wp_step. left. split; [done|].
    split; [done|]. split; [split_and!; done|]. by split.
  - cbn [sm_DISCONNECTED]. wp_step. left. split; [done|].
    split; [done|]. split; [split_and!; done|]. by split.
  - cbn [sm_HTTP_CONNECTED]. mg_steps. apply wpg_elapsedTime. intros n tr' _ _. mg_steps.
    left. split; [done|].
    split; [done|]. split; [split_and!; try done|done].
  - cbn [sm_HTTP_SENDING_HEADERS]. destruct Hen as [Hen1 Hen2].
    mg_steps; [apply Z.eqb_eq; lia | apply Z.ltb_lt; lia |]. apply wpg_SUBSCRIBE; [by auto|].
    left. split; [done|].
    split; [done|]. split; [split_and!; done|]. split; [by left | done].
  - cbn [sm_HTTP_RECVING_HEADERS]. wp_step. apply wpg_TIMEOUT. intros now tr' _.
    wp_step. apply wpg_SUBSCRIBE; [by auto|]. mg_steps.
    left. split; [done|].
    split; [done|]. split; [split_and!; done|]. by left.
  - cbn [sm_HTTP_RECVING_DATA]. wp_step. apply wpg_TIMEOUT. intros now tr' _.
    wp_step. apply wpg_SUBSCRIBE; [by auto|]. apply wpg_WB_shrink; [done|].
    intros c Hsh. destruct ((fun H => shrunk_wb_ok _ _ H Hsh) Hwb) as [Hwb2 Hl2].
    destruct Hsh as (wb & -> & _).
    left. split; [done|].
    split; [done|]. split; [split_and!; done|]. split; [by right | done].
  - cbn [sm_HTTP_SENDING_DATA]. mg_steps. left. split; [done|].
    split; [done|].
    split; [split_and!; done|]. by split.
  - cbn [sm_HTTP_SENDING_PACKET]. apply wpg_SUBSCRIBE; [by auto|]. left. split; [done|].
    split; [done|]. split; [split_and!; done|]. by split.
  - cbn [sm_WS_CONNECTED]. apply wpg_WB_shrink; [done|].
    intros c Hsh. destruct ((fun H => shrunk_wb_ok _ _ H Hsh) Hwb) as [Hwb2 Hl2].
    destruct Hsh as (wb & -> & _).
    left. split; [done|].
    split; [done|]. split; [split_and!; done|]. by split_and!.
  - cbn [sm_WS_POLLING]. mg_steps. cbn in Hargs.
    destruct (smAPICallArgs (client w)) as [| |timeout|] eqn:Hapi; try done.
    wp_step. apply wpg_TIMEOUT. intros now tr' _. wp_step. apply wpg_SUBSCRIBE; [by auto|].
    eapply wpg_mono; [apply wpg_ws_polling_process | by right]. split; [done|]. split; [done|].
    split; [split_and!; try done; cbn; by rewrite Hapi|]. split; [by right | done].
  - cbn [sm_WS_SENDING_FRAME]. apply wpg_SUBSCRIBE; [by auto|]. left. split; [done|].
    split; [done|]. split; [split_and!; done|]. by split_and!.
  - cbn [sm_WS_CLOSING]. apply wpg_SUBSCRIBE; [by auto|]. left. split; [done|].
    split; [done|]. split; [split_and!; done|]. by split_and!.
Qed.

(** * The engine *)

(** How many states THROW still has to enter. *)
Definition throw_rank (w : world) : nat :=
  if decide (nxtState (client w) = curState (client w)) then 0
  else if decide (nxtState (client w) = mangoSM__WS_POLLING) then 2 else 1.

Lemma wpg_throw_loop s w (Q : unit -> world -> Prop) :
  moved s (client w) ->
  (forall w', client_ok (client w') -> Q tt w') ->
  safe (loop THROW_FUEL (throw_body E fuel) tt) Q w.
Proof.
  intros Hm HQ.
  apply (wpg_loop _ _ (fun _ w' => exists s, moved s (client w')) (fun _ w' => throw_rank w'));
    [| by exists s | unfold throw_rank, THROW_FUEL; repeat case_decide; lia].
  clear s w Hm. intros [] w (s & Hc & Hm). unfold throw_body. mg_steps.
  unfold throw_rank. case_bool_decide as Heq.
  - mg_steps. apply HQ. split; [done|]. rewrite Hc. destruct Hm as [[_ ?]|[? _]]; congruence.
  - destruct Hm as [[? _]|[Hne Hen]]; [congruence|].
    rewrite decide_False by done. mg_steps. apply wpg_timeNow. intros now tr' _ _. mg_steps.
    eapply wpg_mono.
    { apply (wpg_entry (nxtState (client w))). split_and!; try done. }
    clear Hen. intros [] w' Hpost. mg_steps. destruct Hpost as [(Hc' & Hn' & Hok)|[Hs Hm]].
    + split; [exists (nxtState (client w)); split; [done|]; by left|].
      rewrite decide_True by congruence. by case_decide; lia.
    + split; [by exists (nxtState (client w))|]. rewrite (decide_True _ _ Hs).
      destruct Hm as [Hc' _]. repeat case_decide; try lia. congruence.
Qed.

Lemma wpg_THROW s ev w (Q : unit -> world -> Prop) :
  safe (call_curState E fuel ev) (moves s) w ->
  (forall w', client_ok (client w') -> Q tt w') ->
  safe (mangoSM_THROW E fuel ev) Q w.
Proof.
  intros Hcall HQ. unfold mangoSM_THROW. wp_step. eapply wpg_mono; [exact Hcall|].
  intros [] w' Hm. by apply (wpg_throw_loop s).
Qed.

Lemma client_ok_at w : client_ok (client w) <-> at_state (curState (client w)) w.
Proof. unfold client_ok, at_state. split; intros; [by destruct H0 | by destruct H0]. Qed.

Lemma wpg_process_body w :
  client_ok (client w) ->
  safe (process_body E fuel tt) (fun r w' => client_ok (client w') /\
    (r = inr tt -> subscribedEvent (client w') = EVENT_NONE)) w.
Proof.
  intros Hok. unfold process_body. mg_steps.
  assert (forall w', client_ok (client w') ->
    safe (event <- hc subscribedEvent ;;
          match event with
          | EVENT_READ => mangoSM_THROW E fuel EVENT_READ ;; ret (inl tt)
          | EVENT_WRITE => mangoSM_THROW E fuel EVENT_WRITE ;; ret (inl tt)
          | EVENT_PROCESS => mangoSM_THROW E fuel EVENT_PROCESS ;; ret (inl tt)
          | EVENT_NONE => ret (inr tt)
          | _ => ensure "mangoSM_PROCESS" false ;; ret (inl tt)
          end)
      (fun (r : unit + unit) w' => client_ok (client w') /\
         (r = inr tt -> subscribedEvent (client w') = EVENT_NONE)) w') as Hdispatch.
  { clear w Hok. intros w Hok. mg_steps.
    assert (forall ev, ev <> EVENT_NONE -> subscribedEvent (client w) = ev ->
      safe (mangoSM_THROW E fuel ev ;; ret (inl tt)) (fun (r : unit + unit) w' =>
        client_ok (client w') /\ (r = inr tt -> subscribedEvent (client w') = EVENT_NONE)) w)
      as Hthrow.
    { intros ev Hne Hsub. wp_step. eapply wpg_THROW.
      - apply (wpg_own_event (curState (client w))); [by apply client_ok_at | by left].
      - intros w' Hok'. wp_step. by split. }
    destruct (subscribedEvent (client w)) eqn:Hsub; try (by apply Hthrow); [by wp_step| ..];
      exfalso; destruct Hok as [_ [_ Hw]]; destruct (curState (client w)); cbn in Hw;
      rewrite Hsub in Hw; intuition discriminate. }
  destruct (Z.eqb_spec (smTimeout (client w)) MANGO_TIMEOUT_INFINITE) as [He|He]; cbn [negb].
  { wp_step. by apply Hdispatch. }
  mg_steps. apply wpg_elapsedTime. intros elapsed tr' _ _.
  destruct (smTimeout (client w) <=? elapsed).
  - eapply wpg_THROW; [|exact Hdispatch].
    apply (wpg_own_event (curState (client w))); [by apply (client_ok_at (mkWorld (client w) tr')) | by right].
  - mg_steps. by apply Hdispatch.
Qed.

(** A call of the API from a client at rest ends in a client at rest. *)
Lemma wpg_PROCESS ev w (Q : mangoErr_t -> world -> Prop) :
  resting (client w) -> api_event ev (client w) ->
  (forall w', resting (client w') -> Q (smExitError (client w')) w') ->
  safe (mangoSM_PROCESS E fuel ev) Q w.
Proof.
  intros Hrest Hev HQ. pose proof (resting_resting_state _ Hrest) as Hrs.
  destruct Hrest as [Hok _]. unfold mangoSM_PROCESS. wp_step. apply wpg_EXITERR. wp_step.
  eapply wpg_THROW.
  { apply (wpg_api_event (curState (client w))); [by apply client_ok_at in Hok | done | exact Hev]. }
  intros w1 Hok1. wp_step.
  apply (wpg_loop_partial _ _ (fun _ w' => client_ok (client w'))); [constructor | | done].
  intros [] w2 Hok2. eapply wpg_mono; [by apply wpg_process_body|].
  intros [u|u] w3 [Hok3 Hnone]; [done|]. destruct u. mg_steps. apply HQ. split; [done|].
  by apply Hnone.
Qed.

(** A connected client is at rest. *)
Lemma wpg_INIT w (Q : mangoErr_t -> world -> Prop) :
  wb_ok (client w) -> api_args_ok (client w) ->
  (forall w', resting (client w') -> curState (client w') = mangoSM__HTTP_CONNECTED ->
     Q MANGO_OK w') ->
  safe (mangoSM_INIT E fuel) Q w.
Proof.
  intros Hwb Ha HQ. unfold mangoSM_INIT. mg_steps. apply wpg_timeNow. intros now tr' _ _. mg_steps.
  unfold mangoSM_THROW. wp_step. eapply wpg_mono.
  { apply (wpg_entry mangoSM__HTTP_CONNECTED). split; [done|]. split; [done|].
    split; [split; [split_and!; done | done] | by split]. }
  intros [] w' [(Hc & Hn & Hok)|[? _]]; [|done].
  assert (resting (client w')) as Hrest.
  { split; [split; [congruence | by rewrite Hc]|]. by destruct Hok as [_ [? _]]. }
  unfold throw_body. apply wpg_loop_S. mg_steps.
  rewrite bool_decide_eq_true_2 by congruence. mg_steps. by apply HQ.
Qed.
End Handlers.
