(* ===== verification/Mango.v ===== *)
(** mango.c: the functions an application calls.

    [char*] arguments are the characters of the strings (their terminator is
    not part of the list).  mango_connect creates the client, so it starts from
    the answers of the operating system and returns the first world of a run;
    every other function is a computation on the world. *)

From S2P Require Import Prelude.
From S2P Require Import CMonad.
From S2P Require Import CString.
From S2P Require Import MangoTypes.
From S2P Require Import MangoHelper.
From S2P Require Import MangoBase64.
From S2P Require Import MangoPort.
From S2P Require Import MangoDP.
From S2P Require Import MangoSM.

(** * Connecting *)

(** The client after memset(hc, 0, ...).  The state pointers are NULL then;
    mangoSM_INIT is the first to use them and sets both. *)
Definition zero_client : mangoHttpClient_t := {|
  socketfd := 0; secure := 0;
  httpMethod := MANGO_HTTP_METHOD_HEAD; httpResponseStatusCode := 0;
  workingBuffer := replicate (Z.to_nat MANGO_WORKING_BUFFER_SZ) 0;
  workingBufferIndexLeft := 0; workingBufferIndexRight := 0;
  smExitError := MANGO_OK; smTimeout := 0; smEventTimeout := 0;
  smAPICallArgs := APICallArgs_NULL; smEntryTimestamp := 0;
  subscribedEvent := EVENT_NONE;
  curState := mangoSM__HTTP_CONNECTED; nxtState := mangoSM__HTTP_CONNECTED;
  userFunc := false; dataProcessorArgs := DPArgs_NULL; dataProcessorCompleted := false;
  inputDataProcessor := None; outputDataProcessor := None;
  IDPArgsRaw := mkIDPRaw 0 0; IDPArgsChunked := mkIDPChunked 0 0 0;
  IDPArgsWebsocket := mkIDPWebsocket 0 0 0 0 0 0;
  ODPArgsRaw := mkODPRaw 0 0; ODPArgsChunked := mkODPChunked None 0;
  stats := mkStats 0 0 0 |}.

(** mangoPort_connect (mangoPort.c): [host] is whether gethostbyname finds the
    address, [socketfd] and [retval] what socket and connect return. *)
Definition mangoPort_connect (host : bool) (socketfd retval : Z) : Z :=
  if negb host then -1 else if retval =? 0 then socketfd else -1.

Section API.
Context (E : environment) (fuel : nat).

(** [alloc] is whether mangoPort_malloc succeeds. *)
Definition mango_connect (alloc host : bool) (fd retval : Z) : outcome (option world) :=
  if negb alloc then Ok None
  else
    let fd := mangoPort_connect host fd retval in
    if fd <? 0 then Ok None
    else
      match mangoSM_INIT E fuel (mkWorld (set_socketfd fd zero_client) []) with
      | Ok (_, w) => Ok (Some w)
      | Stop f => Stop f
      end.

(** * Building a request *)

(** The block that appends the string [token] to the working buffer; false
    when it does not fit (goto handleError). *)
Definition wb_append (site : string) (token : list Z) : M world bool :=
  let tokenlen := u16 (zlen token) in
  right <- hc workingBufferIndexRight ;;
  if MANGO_WB_TOT_SZ <? right + tokenlen then ret false
  else
    wb <- hc workingBuffer ;;
    wb <- access site (zblit wb right (zsub token 0 tokenlen)) ;;
    assign (set_workingBuffer wb) ;;
    right <- hc workingBufferIndexRight ;;
    assign (set_workingBufferIndexRight (u16 (right + tokenlen))) ;;
    ret true.

(** [m], and then [k] unless [m] goes to handleError. *)
Definition and_then (m k : M world bool) : M world bool :=
  ok <- m ;; if ok : bool then k else ret false.

(** handleError of mango_httpRequestNew. *)
Definition request_new_error : M world mangoErr_t :=
  assign (set_workingBuffer (replicate (Z.to_nat MANGO_WORKING_BUFFER_SZ) 0)) ;;
  assign (set_workingBufferIndexLeft 0) ;;
  assign (set_workingBufferIndexRight 0) ;;
  ret MANGO_ERR.

Definition method_token (method : mangoHttpMethod_e) : option (list Z) :=
  match method with
  | MANGO_HTTP_METHOD_GET => Some (bytes "GET ")
  | MANGO_HTTP_METHOD_HEAD => Some (bytes "HEAD ")
  | MANGO_HTTP_METHOD_POST => Some (bytes "POST ")
  | MANGO_HTTP_METHOD_PUT => Some (bytes "PUT ")
  | MANGO_HTTP_METHOD_POST_CHUNKED => None
  end.

Definition mango_httpRequestNew (URI : list Z) (method : mangoHttpMethod_e)
    : M world mangoErr_t :=
  let site := "mango_httpRequestNew"%string in
  assign (set_httpMethod method) ;;
  assign (set_workingBufferIndexRight 0) ;;
  assign (set_workingBufferIndexLeft 0) ;;
  method <- hc httpMethod ;;
  match method_token method with
  | None => request_new_error
  | Some token =>
      ok <- and_then (wb_append site token)
              (and_then (wb_append site URI)
                 (wb_append site (bytes " HTTP/1.1" ++ [13; 10; 13; 10]))) ;;
      if negb ok then request_new_error
      else
        wb <- hc workingBuffer ;;
        right <- hc workingBufferIndexRight ;;
        wb <- access site (zset wb right 0) ;;
        assign (set_workingBuffer wb) ;;
        ret MANGO_OK
  end.

(** hc->workingBuffer[hc->workingBufferIndexRight++] = c. *)
Definition wb_push (site : string) (c : Z) : M world unit :=
  wb <- hc workingBuffer ;;
  right <- hc workingBufferIndexRight ;;
  wb <- access site (zset wb right c) ;;
  assign (set_workingBuffer wb) ;;
  assign (set_workingBufferIndexRight (u16 (right + 1))).

(** handleError of mango_httpAuthSet and mango_httpHeaderSet. *)
Definition header_error (site : string) (prevRequestLen : Z) : M world mangoErr_t :=
  assign (set_workingBufferIndexRight prevRequestLen) ;;
  wb_push site 13 ;;
  wb_push site 10 ;;
  ret MANGO_ERR.

(** strcpy(&tmpBuf[strlen(tmpBuf)], s). *)
Definition str_append (site : string) (tmpBuf s : list Z) : M world (list Z) :=
  n <- access site (strlen tmpBuf 0) ;;
  access site (zblit tmpBuf n (s ++ [0])).

(** The base64 encoding of the credentials; false for handleError. *)
Definition auth_credentials (username password : list Z) : M world bool :=
  let site := "mango_httpAuthSet"%string in
  if 32 <? zlen username + zlen password + 1 + 1 then ret false
  else
    tmpBuf <- access site (zblit (replicate 32 0) 0 [0]) ;;
    tmpBuf <- str_append site tmpBuf username ;;
    tmpBuf <- str_append site tmpBuf (bytes ":") ;;
    tmpBuf <- str_append site tmpBuf password ;;
    data <- access site (cstr tmpBuf 0) ;;
    wb <- hc workingBuffer ;;
    right <- hc workingBufferIndexRight ;;
    free <- hc MANGO_WB_FREE_SZ ;;
    let* (retval, wb) := mangoCrypto_base64Encode data (zlen data) wb right free in
    assign (set_workingBuffer wb) ;;
    if retval <? 0 then ret false
    else
      right <- hc workingBufferIndexRight ;;
      assign (set_workingBufferIndexRight (u16 (right + retval))) ;;
      ret true.

(** [auth] is [None] for a value that is not MANGO_HTTP_AUTH__BASIC. *)
Definition mango_httpAuthSet (auth : option mangoHttpAuth_t) (username password : list Z)
    : M world mangoErr_t :=
  let site := "mango_httpAuthSet"%string in
  right <- hc workingBufferIndexRight ;;
  ensure site (2 <? right) ;;
  assign (set_workingBufferIndexRight (u16 (right - 2))) ;;
  prevRequestLen <- hc workingBufferIndexRight ;;
  match auth with
  | Some MANGO_HTTP_AUTH__BASIC =>
      ok <- and_then (wb_append site MANGO_HDR__AUTHORIZATION)
              (and_then (wb_append site (bytes ": Basic "))
                 (and_then (auth_credentials username password)
                    (wb_append site [13; 10; 13; 10]))) ;;
      if negb ok then header_error site prevRequestLen else ret MANGO_OK
  | None => ret MANGO_ERR
  end.

Definition mango_httpHeaderSet (headerName headerValue : list Z) : M world mangoErr_t :=
  let site := "mango_httpHeaderSet"%string in
  right <- hc workingBufferIndexRight ;;
  ensure site (2 <? right) ;;
  assign (set_workingBufferIndexRight (u16 (right - 2))) ;;
  prevRequestLen <- hc workingBufferIndexRight ;;
  ok <- and_then (wb_append site headerName)
          (and_then (wb_append site (bytes ": "))
             (and_then (wb_append site headerValue)
                (wb_append site [13; 10; 13; 10]))) ;;
  if negb ok then header_error site prevRequestLen else ret MANGO_OK.

(** [response] is the array the string lies in. *)
Definition mango_httpHeaderGet (response headerName headerValue : list Z)
    (headerValueLen : Z) : M world (mangoErr_t * list Z) :=
  let* (retval, headerValue) :=
    mangoHelper_httpHeaderGet response 0 headerName headerValue headerValueLen in
  ret (if retval <? 0 then MANGO_ERR
       else if retval =? 0 then MANGO_ERR_TEMPBUFSMALL else MANGO_OK, headerValue).

(** * Exchanging data *)

(** [app] is whether the userFunc passed is not NULL. *)
Definition mango_httpRequestProcess (app : bool) : M world mangoErr_t :=
  assign (set_userFunc app) ;;
  f <- hc userFunc ;;
  if negb f then ret MANGO_ERR_APPABORTED
  else
    MANGO_WB_NULLTERMINATE ;;
    used <- hc MANGO_WB_USED_SZ ;;
    data <- wb_slice "mango_httpRequestProcess" 0 (u16 used) ;;
    do_userFunc E (mkArg MANGO_ARG_TYPE_HTTP_REQUEST_READY data None None) ;;
    st <- hc stats ;;
    assign (set_stats (set_rxBytes 0 st)) ;;
    st <- hc stats ;;
    assign (set_stats (set_txBytes 0 st)) ;;
    now <- mangoPort_timeNow E ;;
    st <- hc stats ;;
    assign (set_stats (set_stats_time now st)) ;;
    assign (set_smAPICallArgs APICallArgs_NULL) ;;
    mangoSM_PROCESS E fuel EVENT_APICALL_httpRequestProcess.

(** HTTPDataSendArgs.buflen is 16 bits wide. *)
Definition mango_httpDataSend (buf : list Z) (buflen : Z) : M world mangoErr_t :=
  assign (set_smAPICallArgs (mangoHTTPDataSendArgs buf (u16 buflen))) ;;
  mangoSM_PROCESS E fuel EVENT_APICALL_httpDataSend.

Definition mango_wsPoll (timeout : Z) : M world mangoErr_t :=
  assign (set_smAPICallArgs (mangoWSPollArgs timeout)) ;;
  mangoSM_PROCESS E fuel EVENT_APICALL_wsPoll.

(** WSFrameSendArgs.buflen is 16 bits wide. *)
Definition mango_wsFrameSend (buf : list Z) (buflen : Z) (type : mangoWsFrameType_t)
    : M world mangoErr_t :=
  ensure "mango_wsFrameSend" (bool_decide (type = MANGO_WS_FRAME_TYPE_TEXT) ||
                              bool_decide (type = MANGO_WS_FRAME_TYPE_BINARY)) ;;
  assign (set_smAPICallArgs (mangoWSFrameSendArgs buf (u16 buflen) type)) ;;
  mangoSM_PROCESS E fuel EVENT_APICALL_wsFrameSend.

Definition mango_wsClose : M world mangoErr_t :=
  assign (set_smAPICallArgs APICallArgs_NULL) ;;
  mangoSM_PROCESS E fuel EVENT_APICALL_wsClose.
End API.
