(* ===== verification/Process.v ===== *)
(** What the client asks of the system beside its transfers: memory, descriptors
    and the objects of OpenSSL, which have to be given back.

    An object is named by a number that is never used again; NULL is [None].  A
    pointer to bytes is the number of a block and an offset.  A descriptor is
    the number of its object, or -1.  Giving back what is not held is a fault,
    except that close of -1 only fails.

    Parameters: [succeeds h c] is whether the call [c] succeeds after the calls
    [h]; [files] the content of files, which do not change; [read_result h n]
    what a read returns when [n] bytes of the file are left; [fill] the content
    of uninitialised memory; [sizeof] the size of a structure. *)

From stdpp Require Import gmap.
From S2P Require Import Prelude.
From S2P Require Import CMonad.

Definition pointer : Type := option (nat * Z).

(** mango.h: struct ssl_ca_crt_key. *)
Record ssl_ca_crt_key_t : Type := mkCerts {
  cacrt : pointer;
  cacrt_len : Z;
  cert : pointer;
  cert_len : Z;
  key : pointer;
  key_len : Z
}.

Definition set_cacrt v f := mkCerts v (cacrt_len f) (cert f) (cert_len f) (key f) (key_len f).
Definition set_cacrt_len v f := mkCerts (cacrt f) v (cert f) (cert_len f) (key f) (key_len f).
Definition set_cert v f := mkCerts (cacrt f) (cacrt_len f) v (cert_len f) (key f) (key_len f).
Definition set_cert_len v f := mkCerts (cacrt f) (cacrt_len f) (cert f) v (key f) (key_len f).
Definition set_key v f := mkCerts (cacrt f) (cacrt_len f) (cert f) (cert_len f) v (key_len f).
Definition set_key_len v f := mkCerts (cacrt f) (cacrt_len f) (cert f) (cert_len f) (key f) v.

Inductive object : Type :=
| Bytes (d : list Z)
| Certs (f : ssl_ca_crt_key_t)
| Client
| Descriptor
| Context
| Session
| Certificate.

Inductive sys_call : Type :=
| Call_malloc (n : Z)
| Call_free
| Call_gethostbyname (name : list Z)
| Call_socket
| Call_connect (fd port : Z)
| Call_open (name : list Z)
| Call_read (fd n : Z)
| Call_close (fd : Z)
| Call_shutdown (fd : Z)
| Call_SSL_CTX_new (method : Z)
| Call_d2i_X509 (d : list Z)
| Call_SSL_CTX_add_client_CA
| Call_SSL_CTX_use_certificate_ASN1 (d : list Z)
| Call_SSL_CTX_use_PrivateKey_ASN1 (d : list Z)
| Call_SSL_CTX_set_verify (mode : Z)
| Call_SSL_CTX_load_verify_locations (file path : list Z)
| Call_SSL_CTX_use_certificate_file (file : list Z)
| Call_SSL_CTX_use_PrivateKey_file (file : list Z)
| Call_SSL_new
| Call_SSL_set_fd (fd : Z)
| Call_SSL_connect
| Call_SSL_free
| Call_SSL_CTX_free.

Record process : Type := mkProcess {
  objects : gmap nat object;
  next : nat;
  history : list sys_call
}.

Definition set_objects v s := mkProcess v (next s) (history s).

Section Process.
Context (succeeds : list sys_call -> sys_call -> bool) (files : list Z -> list Z).
Context (read_result : list sys_call -> Z -> Z) (fill : list sys_call -> nat -> Z) (sizeof : string -> Z).

(** A call, and whether it succeeds. *)
Definition sys (c : sys_call) : M process bool := fun s =>
  Ok (succeeds (history s) c, mkProcess (objects s) (next s) (history s ++ [c])).

(** A call that creates an object. *)
Definition create (o : object) (c : sys_call) : M process (option nat) :=
  ok <- sys c ;;
  if ok : bool then
    i <- gets next ;;
    modify (fun s => mkProcess (<[i := o]> (objects s)) (S i) (history s)) ;;
    ret (Some i)
  else ret None.

Definition held (site : string) (p : object -> bool) (i : nat) : M process object :=
  m <- gets objects ;;
  access site (o ← m !! i; if p o then Some o else None)%stdpp.

(** A call that gives an object back. *)
Definition destroy (site : string) (p : object -> bool) (i : nat) (c : sys_call) : M process unit :=
  sys c ;;
  held site p i ;;
  modify (fun s => set_objects (delete i (objects s)) s).

Definition is_memory (o : object) : bool :=
  match o with Bytes _ | Certs _ | Client => true | _ => false end.
Definition is_descriptor (o : object) : bool := match o with Descriptor => true | _ => false end.
Definition is_context (o : object) : bool := match o with Context => true | _ => false end.
Definition is_session (o : object) : bool := match o with Session => true | _ => false end.

(** ** Memory *)

Definition malloc_bytes (n : Z) : M process pointer :=
  h <- gets history ;;
  i <- create (Bytes (map (fill h) (seq 0 (Z.to_nat n)))) (Call_malloc n) ;;
  ret (option_map (fun i => (i, 0)) i).

(** A structure, after memset to zero. *)
Definition malloc_struct (o : object) (name : string) : M process (option nat) :=
  create o (Call_malloc (sizeof name)).

(** free of an object, and of a pointer: it must point to the start of a block. *)
Definition free_struct (i : option nat) : M process unit :=
  match i with
  | None => ret tt
  | Some i => destroy "free" is_memory i Call_free
  end.
Definition free_bytes (p : pointer) : M process unit :=
  match p with
  | None => ret tt
  | Some (i, off) => if off =? 0 then destroy "free" is_memory i Call_free else stop (Fault "free")
  end.

Definition get_certs (site : string) (i : nat) : M process ssl_ca_crt_key_t :=
  m <- gets objects ;;
  access site (match m !! i with Some (Certs f) => Some f | _ => None end).
Definition set_certs (site : string) (i : nat) (upd : ssl_ca_crt_key_t -> ssl_ca_crt_key_t) : M process unit :=
  f <- get_certs site i ;;
  modify (fun s => set_objects (<[i := Certs (upd f)]> (objects s)) s).

(** The [n] bytes at a pointer. *)
Definition bytes_at (site : string) (p : nat * Z) (n : Z) : M process (list Z) :=
  m <- gets objects ;;
  access site
    match m !! fst p with
    | Some (Bytes d) =>
        if (0 <=? snd p) && (0 <=? n) && (snd p + n <=? zlen d) then Some (zsub d (snd p) n) else None
    | _ => None
    end.

(** ** Descriptors *)

Definition new_descriptor (c : sys_call) : M process Z :=
  i <- create Descriptor c ;;
  ret (match i with Some i => Z.of_nat i | None => -1 end).

Definition close (fd : Z) : M process unit :=
  if fd <? 0 then sys (Call_close fd) ;; ret tt
  else destroy "close" is_descriptor (Z.to_nat fd) (Call_close fd).

(** read(fd, (block i) + n, 1024), where [n] bytes of the file have been read. *)
Definition read_into (content : list Z) (fd : Z) (i : nat) (n : Z) : M process Z :=
  h <- gets history ;;
  sys (Call_read fd 1024) ;;
  let br := read_result h (zlen content - n) in
  (if 0 <? br then
     m <- gets objects ;;
     d <- access "read" (match m !! i with Some (Bytes d) => zblit d n (zsub content n br) | _ => None end) ;;
     modify (fun s => set_objects (<[i := Bytes d]> (objects s)) s)
   else ret tt) ;;
  ret br.

(** ** OpenSSL *)

Definition SSL_CTX_free (i : option nat) : M process unit :=
  match i with None => ret tt | Some i => destroy "SSL_CTX_free" is_context i Call_SSL_CTX_free end.
Definition SSL_free (i : option nat) : M process unit :=
  match i with None => ret tt | Some i => destroy "SSL_free" is_session i Call_SSL_free end.
End Process.

(** * Facts *)

(** Numbers from [next] on are not in use. *)
Definition process_ok (s : process) : Prop := forall i, (next s <= i)%nat -> objects s !! i = None.

(** The calls that choose whether the certificate of the peer is verified. *)
Definition verify_of (c : sys_call) : option Z :=
  match c with Call_SSL_CTX_set_verify mode => Some mode | _ => None end.

(** The objects [m], the first free number [n], and the modes that have been
    chosen. *)
Record holding (m : gmap nat object) (n : nat) (v : list Z) (s : process) : Prop := {
  holding_objects : objects s = m;
  holding_next : next s = n;
  holding_modes : omap verify_of (history s) = v
}.

Lemma holding_self s : holding (objects s) (next s) (omap verify_of (history s)) s.
Proof. done. Qed.

Section Facts.
Context (succeeds : list sys_call -> sys_call -> bool) (fill : list sys_call -> nat -> Z).
Context (E : failure -> Prop).
Implicit Types (m : gmap nat object) (n : nat) (v : list Z).

Lemma wpg_sys c Q m n v s :
  holding m n v s -> (forall b s', holding m n (v ++ option_list (verify_of c)) s' -> Q b s') ->
  wpg E (sys succeeds c) Q s.
Proof.
  intros [H1 H2 H3] HQ. apply HQ. split; cbn; [done|done|]. rewrite omap_app, H3. cbn.
  by destruct (verify_of c).
Qed.

Lemma wpg_sys_quiet c Q m n v s :
  verify_of c = None -> holding m n v s -> (forall b s', holding m n v s' -> Q b s') ->
  wpg E (sys succeeds c) Q s.
Proof.
  intros Hc Hs HQ. apply (wpg_sys c Q m n v s Hs). rewrite Hc. cbn. by rewrite app_nil_r.
Qed.

Lemma wpg_create o c Q m n v s :
  verify_of c = None -> holding m n v s ->
  (forall s', holding (<[n := o]> m) (S n) v s' -> Q (Some n) s') ->
  (forall s', holding m n v s' -> Q None s') ->
  wpg E (create succeeds o c) Q s.
Proof.
  intros Hc Hs Hok Hfail. unfold create. apply wpg_bind, (wpg_sys_quiet c _ m n v); [done|done|].
  intros [] s' Hs'; [|by apply wpg_ret, Hfail]. wp_steps. rewrite (holding_next _ _ _ _ Hs').
  apply Hok. destruct Hs' as [<- H2 H3]. by split.
Qed.

Lemma wpg_destroy site p i o c Q m n v s :
  verify_of c = None -> holding m n v s -> m !! i = Some o -> p o = true ->
  (forall s', holding (delete i m) n v s' -> Q tt s') ->
  wpg E (destroy succeeds site p i c) Q s.
Proof.
  intros Hc Hs Hi Hp HQ. unfold destroy. apply wpg_bind, (wpg_sys_quiet c _ m n v); [done|done|].
  intros _ s' Hs'. unfold held. wp_steps. rewrite (holding_objects _ _ _ _ Hs'), Hi. cbn. rewrite Hp. wp_steps.
  apply HQ. destruct Hs' as [<- H2 H3]. by split.
Qed.

(** Numbers in use are below the free ones. *)
Lemma process_ok_lookup s i o : process_ok s -> objects s !! i = Some o -> (i < next s)%nat.
Proof. intros Hs Hi. destruct (Nat.lt_ge_cases i (next s)) as [?|Hge]; [done|]. by rewrite Hs in Hi. Qed.

Lemma wpg_malloc_bytes (size : Z) Q m n v s :
  holding m n v s ->
  (forall d s', zlen d = Z.max 0 size -> holding (<[n := Bytes d]> m) (S n) v s' -> Q (Some (n, 0)) s') ->
  (forall s', holding m n v s' -> Q None s') ->
  wpg E (malloc_bytes succeeds fill size) Q s.
Proof.
  intros Hs Hok Hfail. unfold malloc_bytes. wp_steps. eapply wpg_create; [done|exact Hs| |].
  - intros s' Hs'. wp_steps. eapply Hok; [|exact Hs']. unfold zlen. rewrite length_map, length_seq. lia.
  - intros s' Hs'. wp_steps. by apply Hfail.
Qed.

Lemma wpg_new_descriptor c Q m n v s :
  verify_of c = None -> holding m n v s ->
  (forall s', holding (<[n := Descriptor]> m) (S n) v s' -> Q (Z.of_nat n) s') ->
  (forall s', holding m n v s' -> Q (-1) s') ->
  wpg E (new_descriptor succeeds c) Q s.
Proof.
  intros Hc Hs Hok Hfail. unfold new_descriptor. apply wpg_bind.
  by eapply wpg_create; [done|exact Hs| |]; intros s' Hs'; wp_steps; [apply Hok | apply Hfail].
Qed.

Lemma wpg_close_fd i Q m n v s :
  holding m n v s -> m !! i = Some Descriptor ->
  (forall s', holding (delete i m) n v s' -> Q tt s') ->
  wpg E (close succeeds (Z.of_nat i)) Q s.
Proof.
  intros Hs Hi HQ. unfold close. rewrite (proj2 (Z.ltb_ge _ _)) by lia. rewrite Nat2Z.id.
  by eapply wpg_destroy.
Qed.

Lemma wpg_close_none Q m n v s :
  holding m n v s -> (forall s', holding m n v s' -> Q tt s') -> wpg E (close succeeds (-1)) Q s.
Proof. intros Hs HQ. unfold close. change (-1 <? 0) with true. cbv iota. apply wpg_bind. eapply wpg_sys_quiet; [done|exact Hs|]. intros _ s' Hs'. by apply wpg_ret, HQ. Qed.

Lemma wpg_free_bytes i d Q m n v s :
  holding m n v s -> m !! i = Some (Bytes d) ->
  (forall s', holding (delete i m) n v s' -> Q tt s') ->
  wpg E (free_bytes succeeds (Some (i, 0))) Q s.
Proof. intros Hs Hi HQ. by eapply wpg_destroy. Qed.

Lemma wpg_free_struct i o Q m n v s :
  holding m n v s -> m !! i = Some o -> is_memory o = true ->
  (forall s', holding (delete i m) n v s' -> Q tt s') ->
  wpg E (free_struct succeeds (Some i)) Q s.
Proof. intros Hs Hi Ho HQ. by eapply wpg_destroy. Qed.

Lemma wpg_get_certs site i f Q m n v s :
  holding m n v s -> m !! i = Some (Certs f) -> Q f s -> wpg E (get_certs site i) Q s.
Proof. intros Hs Hi HQ. unfold get_certs. wp_steps. by rewrite (holding_objects _ _ _ _ Hs), Hi. Qed.

Lemma wpg_set_certs site i f upd Q m n v s :
  holding m n v s -> m !! i = Some (Certs f) ->
  (forall s', holding (<[i := Certs (upd f)]> m) n v s' -> Q tt s') ->
  wpg E (set_certs site i upd) Q s.
Proof.
  intros Hs Hi HQ. unfold set_certs. apply wpg_bind. eapply wpg_get_certs; [exact Hs|exact Hi|]. wp_steps.
  apply HQ. destruct Hs as [<- H2 H3]. by split.
Qed.

Lemma wpg_bytes_at site i off d k Q m n v s :
  holding m n v s -> m !! i = Some (Bytes d) -> 0 <= off -> 0 <= k -> off + k <= zlen d ->
  Q (zsub d off k) s -> wpg E (bytes_at site (i, off) k) Q s.
Proof.
  intros Hs Hi Ho Hk Hl HQ. unfold bytes_at. wp_steps. rewrite (holding_objects _ _ _ _ Hs). cbn [fst snd].
  rewrite Hi, !(proj2 (Z.leb_le _ _)) by lia. done.
Qed.
End Facts.

(** Maps that differ in the order of updates only. *)
Ltac objects_eq :=
  apply map_eq; let i := fresh "i" in intros i;
  rewrite ?lookup_insert, ?lookup_delete, ?lookup_insert, ?lookup_delete;
  repeat case_decide; subst; try done; try lia.
