(* ===== verification/MangoTls.v ===== *)
(** mango.c and mangoPort.c: connecting and disconnecting, over TCP and over
    TLS, with the memory, descriptors and OpenSSL objects that this takes, and
    the loading of certificates.

    [consumed d] is how many of the bytes [d] d2i_X509 reads for a certificate.
    The answer of the name service is whether it knows the name. *)

From stdpp Require Import gmap.
From S2P Require Import Prelude.
From S2P Require Import CMonad.
From S2P Require Import MangoTypes.
From S2P Require Import MangoSM.
From S2P Require Import Mango.
From S2P Require Import Process.

Definition SSL_VERIFY_NONE : Z := 0.

(** struct ssl_ca_crt_key_file. *)
Record ssl_ca_crt_key_file_t : Type := mkCertFiles {
  cafile : option (list Z);
  capath : option (list Z);
  certfile : option (list Z);
  keyfile : option (list Z)
}.

(** A client: its block, its content, and the members ctx and ssl. *)
Record connection : Type := mkConnection {
  cn_block : nat;
  cn_world : world;
  cn_ctx : option nat;
  cn_ssl : option nat
}.

Section Tls.
Context (succeeds : list sys_call -> sys_call -> bool) (files : list Z -> list Z).
Context (read_result : list sys_call -> Z -> Z) (fill : list sys_call -> nat -> Z) (sizeof : string -> Z).
Context (consumed : list Z -> Z).
Context (E : environment) (fuel : nat).

Abbreviation sys := (sys succeeds).
Abbreviation create := (create succeeds).
Abbreviation close := (close succeeds).
Abbreviation free_bytes := (free_bytes succeeds).
Abbreviation free_struct := (free_struct succeeds).
Abbreviation SSL_free := (SSL_free succeeds).
Abbreviation SSL_CTX_free := (SSL_CTX_free succeeds).

(** * Connecting *)

(** mangoPort_connect; the result of socket is not examined. *)
Definition port_connect (serverIP : list Z) (serverPort : Z) : M process Z :=
  h <- sys (Call_gethostbyname serverIP) ;;
  if negb h then ret (-1)
  else
    socketfd <- new_descriptor succeeds Call_socket ;;
    ok <- sys (Call_connect socketfd (u16 serverPort)) ;;
    if ok : bool then ret socketfd else close socketfd ;; ret (-1).

(** mangoSM_INIT of the client with the members that have been set. *)
Definition init_client (c : mangoHttpClient_t) : M process world := fun s =>
  match mangoSM_INIT E fuel (mkWorld c []) with
  | Ok (_, w) => Ok (w, s)
  | Stop f => Stop f
  end.

(** mango_connect with the resources it takes. *)
Definition mango_connect_tcp (serverIP : option (list Z)) (serverPort : Z) : M process (option connection) :=
  ensure "mango_connect" (bool_decide (is_Some serverIP)) ;;
  hc <- malloc_struct succeeds sizeof Client "mangoHttpClient_t" ;;
  match hc with
  | None => ret None
  | Some b =>
      socketfd <- port_connect (default [] serverIP) serverPort ;;
      if socketfd <? 0 then free_struct hc ;; ret None
      else
        w <- init_client (set_socketfd socketfd zero_client) ;;
        ret (Some (mkConnection b w None None))
  end.

(** The part of mango_sslconnect under if (ssl_cck); false: goto failed1. *)
Definition use_certs (cck : nat) (verify_mode : Z) : M process bool :=
  let site := "mango_sslconnect"%string in
  f <- get_certs site cck ;;
  ok <- match cacrt f with
        | None => ret true
        | Some p =>
            d <- bytes_at site p (cacrt_len f) ;;
            x <- create Certificate (Call_d2i_X509 d) ;;
            match x with
            | None => ret false
            | Some _ =>
                set_certs site cck (set_cacrt (Some (fst p, snd p + consumed d))) ;;
                sys Call_SSL_CTX_add_client_CA ;; ret true
            end
        end ;;
  if negb ok then ret false
  else
    ok <- match cert f, key f with
          | Some c, Some k =>
              d <- bytes_at site c (cert_len f) ;;
              r <- sys (Call_SSL_CTX_use_certificate_ASN1 d) ;;
              if negb r then ret false
              else
                d <- bytes_at site k (key_len f) ;;
                sys (Call_SSL_CTX_use_PrivateKey_ASN1 d)
          | _, _ => ret true
          end ;;
    if negb ok then ret false
    else
      f <- get_certs site cck ;;
      sys (Call_SSL_CTX_set_verify
             (match cacrt f with Some _ => verify_mode | None => SSL_VERIFY_NONE end)) ;;
      ret true.

(** The part under else if (ssl_cck_file); the results are ignored. *)
Definition use_cert_files (f : ssl_ca_crt_key_file_t) : M process unit :=
  match cafile f, capath f with
  | Some file, Some path => sys (Call_SSL_CTX_load_verify_locations file path) ;; ret tt
  | _, _ => ret tt
  end ;;
  match certfile f with
  | Some file => sys (Call_SSL_CTX_use_certificate_file file) ;; ret tt
  | None => ret tt
  end ;;
  match keyfile f with
  | Some file => sys (Call_SSL_CTX_use_PrivateKey_file file) ;; ret tt
  | None => ret tt
  end.

(** The labels at the end of mango_sslconnect. *)
Definition failed (hc : option nat) : M process (option connection) := free_struct hc ;; ret None.
Definition failed1 (ctx hc : option nat) : M process (option connection) := SSL_CTX_free ctx ;; failed hc.
Definition failed2 (socketfd : Z) (ctx hc : option nat) : M process (option connection) :=
  close socketfd ;; failed1 ctx hc.
Definition failed3 (ssl : option nat) (socketfd : Z) (ctx hc : option nat) : M process (option connection) :=
  SSL_free ssl ;; failed2 socketfd ctx hc.

(** From the socket on. *)
Definition ssl_handshake (serverIP : list Z) (serverPort : Z) (b : nat) (ctx hc : option nat)
    : M process (option connection) :=
  socketfd <- port_connect serverIP serverPort ;;
  if socketfd <? 0 then failed2 socketfd ctx hc
  else
    ssl <- create Session Call_SSL_new ;;
    match ssl with
    | None => failed2 socketfd ctx hc
    | Some _ =>
        sys (Call_SSL_set_fd socketfd) ;;
        ok <- sys Call_SSL_connect ;;
        if negb ok then failed3 ssl socketfd ctx hc
        else
          w <- init_client (set_socketfd socketfd (set_secure 1 zero_client)) ;;
          ret (Some (mkConnection b w ctx ssl))
    end.

(** frag_len is not used. *)
Definition mango_sslconnect (serverIP : option (list Z)) (serverPort : Z) (ssl_cck : option nat)
    (ssl_cck_file : option ssl_ca_crt_key_file_t) (method verify_mode : Z) : M process (option connection) :=
  ensure "mango_sslconnect" (bool_decide (is_Some serverIP)) ;;
  hc <- malloc_struct succeeds sizeof Client "mangoHttpClient_t" ;;
  match hc with
  | None => ret None
  | Some b =>
      ctx <- create Context (Call_SSL_CTX_new method) ;;
      match ctx with
      | None => failed hc
      | Some _ =>
          ok <- match ssl_cck, ssl_cck_file with
                | Some cck, _ => use_certs cck verify_mode
                | None, Some f => use_cert_files f ;; ret true
                | None, None => sys (Call_SSL_CTX_set_verify verify_mode) ;; ret true
                end ;;
          if negb ok then failed1 ctx hc
          else ssl_handshake (default [] serverIP) serverPort b ctx hc
      end
  end.

(** * Disconnecting *)

Definition mangoPort_disconnect (socketfd : Z) : M process unit := close socketfd.

Definition mangoPort_ssldisconnect (hc : connection) : M process unit :=
  let fd := socketfd (client (cn_world hc)) in
  sys (Call_shutdown fd) ;;
  close fd ;;
  SSL_free (cn_ssl hc) ;;
  SSL_CTX_free (cn_ctx hc).

Definition mango_disconnect (hc : option connection) : M process unit :=
  match hc with
  | None => stop (Hang "mango_disconnect")
  | Some hc => mangoPort_disconnect (socketfd (client (cn_world hc))) ;; free_struct (Some (cn_block hc))
  end.

Definition mango_ssldisconnect (hc : option connection) : M process unit :=
  match hc with
  | None => stop (Hang "mango_ssldisconnect")
  | Some hc => mangoPort_ssldisconnect hc ;; free_struct (Some (cn_block hc))
  end.

(** * Certificates in files *)

Inductive load_status : Type := Open_failed | No_memory | Loaded.

(** while ((br = read(fd, p + n, 1024)) > 0) n += br; *)
Definition load_round (content : list Z) (fd : Z) (i : nat) (n : Z) : M process (Z + unit) :=
  br <- read_into succeeds read_result content fd i n ;;
  ret (if 0 <? br then inl (n + br) else inr tt).

(** One of the three parts of sslcert_load: the descriptor and how far it got. *)
Definition load_file (name : list Z) (file : nat) (set_len : Z -> ssl_ca_crt_key_t -> ssl_ca_crt_key_t)
    (set_ptr : pointer -> ssl_ca_crt_key_t -> ssl_ca_crt_key_t) : M process (load_status * Z) :=
  let site := "sslcert_load"%string in
  fd <- new_descriptor succeeds (Call_open name) ;;
  if fd <? 0 then ret (Open_failed, fd)
  else
    let content := files name in
    set_certs site file (set_len (u32 (zlen content))) ;;
    p <- malloc_bytes succeeds fill (zlen content + 8) ;;
    set_certs site file (set_ptr p) ;;
    match p with
    | None => ret (No_memory, fd)
    | Some (i, _) =>
        loop (S (length content)) (load_round content fd i) 0 ;;
        close fd ;; ret (Loaded, fd)
    end.

(** The labels at the end of sslcert_load. *)
Definition load_failed (file : nat) : M process (option nat) := free_struct (Some file) ;; ret None.
Definition load_failed1 (fd : Z) (file : nat) : M process (option nat) := close fd ;; load_failed file.
Definition load_failed2 (fd : Z) (file : nat) : M process (option nat) :=
  f <- get_certs "sslcert_load" file ;;
  free_bytes (cacrt f) ;; load_failed1 fd file.
Definition load_failed3 (fd : Z) (file : nat) : M process (option nat) :=
  f <- get_certs "sslcert_load" file ;;
  free_bytes (cert f) ;; load_failed2 fd file.

(** The three parts of sslcert_load, each with what follows it. *)
Definition load_key (key : option (list Z)) (file : nat) : M process (option nat) :=
  r <- match key with
       | None => ret (Loaded, 0)
       | Some name => load_file name file set_key_len set_key
       end ;;
  match r with
  | (Open_failed, fd) | (No_memory, fd) => load_failed3 fd file
  | (Loaded, _) => ret (Some file)
  end.

Definition load_cert (cert key : option (list Z)) (file : nat) : M process (option nat) :=
  r <- match cert with
       | None => ret (Loaded, 0)
       | Some name => load_file name file set_cert_len set_cert
       end ;;
  match r with
  | (Open_failed, fd) | (No_memory, fd) => load_failed2 fd file
  | (Loaded, _) => load_key key file
  end.

Definition load_cacrt (cacrt cert key : option (list Z)) (file : nat) : M process (option nat) :=
  r <- match cacrt with
       | None => ret (Loaded, 0)
       | Some name => load_file name file set_cacrt_len set_cacrt
       end ;;
  match r with
  | (Open_failed, _) => load_failed file
  | (No_memory, fd) => load_failed1 fd file
  | (Loaded, _) => load_cert cert key file
  end.

Definition sslcert_load (cacrt cert key : option (list Z)) : M process (option nat) :=
  file <- malloc_struct succeeds sizeof (Certs (mkCerts None 0 None 0 None 0)) "ssl_ca_crt_key_t" ;;
  match file with
  | None => ret None
  | Some file => load_cacrt cacrt cert key file
  end.

Definition sslcert_free (s : option nat) : M process unit :=
  let site := "sslcert_free"%string in
  match s with
  | None => ret tt
  | Some i =>
      f <- get_certs site i ;;
      free_bytes (cacrt f) ;; set_certs site i (set_cacrt None) ;;
      free_bytes (cert f) ;; set_certs site i (set_cert None) ;;
      free_bytes (key f) ;; set_certs site i (set_key None) ;;
      free_struct (Some i)
  end.
End Tls.
