(* ===== verification/MangoTlsFacts.v ===== *)
(** Connections take and give back what they need; certificates are loaded and
    freed.

    The second part is about the certificates. *)

From stdpp Require Import gmap.
From S2P Require Import Prelude.
From S2P Require Import CMonad.
From S2P Require Import MangoTypes.
From S2P Require Import MangoPort.
From S2P Require Import MangoPortFacts.
From S2P Require Import MangoSM.
From S2P Require Import MangoInvariant.
From S2P Require Import Mango.
From S2P Require Import Process.
From S2P Require Import MangoTls.

(** * The state machine of a new client *)

Section Init.
Context (Fl : failure -> Prop) (E : environment) (fuel : nat).

(** What stays from [w] on, in the state HTTP_CONNECTED. *)
Definition connected (w w' : world) : Prop :=
  socketfd (client w') = socketfd (client w) /\ secure (client w') = secure (client w) /\
  curState (client w') = mangoSM__HTTP_CONNECTED /\ nxtState (client w') = mangoSM__HTTP_CONNECTED.

Lemma wpg_entry_connected Q w :
  curState (client w) = mangoSM__HTTP_CONNECTED -> nxtState (client w) = mangoSM__HTTP_CONNECTED ->
  (forall w', connected w w' -> Q tt w') -> wpg Fl (call_curState E fuel EVENT_ENTRY) Q w.
Proof.
  intros Hc Hn HQ. unfold call_curState. mg_step. mg_step. rewrite Hc. cbn [sm_HTTP_CONNECTED].
  mg_steps. apply wpg_elapsedTime. intros el tr _ _. mg_steps. apply HQ. by split_and!.
Qed.

(** mangoSM_INIT returns, and keeps the connection. *)
Lemma wpg_INIT_keeps w Q :
  (forall w', connected w w' -> Q MANGO_OK w') -> wpg Fl (mangoSM_INIT E fuel) Q w.
Proof.
  intros HQ. unfold mangoSM_INIT. mg_steps. apply wpg_timeNow. intros now tr1 _ _. mg_steps.
  unfold mangoSM_THROW. wp_step. apply wpg_entry_connected; [done|done|].
  intros w' Hw. destruct Hw as (H1 & H2 & H3 & H4). unfold throw_body, THROW_FUEL. apply wpg_loop_S. mg_steps.
  rewrite H3, H4, bool_decide_eq_true_2 by done. mg_steps. apply HQ. by split_and!.
Qed.
End Init.

(** The client that a connection starts with is at rest. *)
Definition fresh_client (c : mangoHttpClient_t) (w : world) : Prop :=
  socketfd (client w) = socketfd c /\ secure (client w) = secure c /\
  resting (client w) /\ curState (client w) = mangoSM__HTTP_CONNECTED.

Lemma wpg_init_client Fl E fuel c Q s :
  environment_ok E ->
  wb_ok c -> api_args_ok c -> (forall w, fresh_client c w -> Q w s) ->
  wpg Fl (init_client E fuel c) Q s.
Proof.
  intros HE Hwb Ha HQ. unfold wpg, init_client.
  assert (wpg sm_failure (mangoSM_INIT E fuel) (fun _ w' => resting (client w') /\
    curState (client w') = mangoSM__HTTP_CONNECTED) (mkWorld c [])) as Hrest.
  { by apply wpg_INIT. }
  pose proof (wpg_conj Fl sm_failure (mangoSM_INIT E fuel)
    (fun _ w' => connected (mkWorld c []) w')
    (fun _ w' => resting (client w') /\ curState (client w') = mangoSM__HTTP_CONNECTED) (mkWorld c [])
    
    ltac:(by apply wpg_INIT_keeps) Hrest) as H.
  unfold wpg in H. destruct (mangoSM_INIT E fuel _) as [[r w]|f].
  - apply HQ. destruct H as [(? & ? & _) [? ?]]. by split_and!.
  - exact H.
Qed.

(** * Connecting *)

Section Connect.
Context (succeeds : list sys_call -> sys_call -> bool) (sizeof : string -> Z) (consumed : list Z -> Z).
Context (Fl : failure -> Prop) (E : environment) (fuel : nat) (HE : environment_ok E).
Implicit Types (m : gmap nat object) (n : nat) (v : list Z).

(** Numbers from [n] on are not in use. *)
Definition unused n m : Prop := forall i, (n <= i)%nat -> m !! i = None.

Lemma unused_lt n m i o : unused n m -> m !! i = Some o -> (i < n)%nat.
Proof. intros Hn Hi. destruct (Nat.lt_ge_cases i n) as [?|Hge]; [done|]. by rewrite Hn in Hi. Qed.

Lemma unused_insert n m o : unused n m -> unused (S n) (<[n := o]> m).
Proof. intros Hn i Hi. rewrite lookup_insert_ne by lia. apply Hn. lia. Qed.

Lemma delete_new n m o : unused n m -> delete n (<[n := o]> m) = m.
Proof. intros Hn. apply delete_insert_id, Hn. lia. Qed.

Lemma wpg_port_connect ip port Q m n v s :
  holding m n v s -> unused n m ->
  (forall s', holding (<[n := Descriptor]> m) (S n) v s' -> Q (Z.of_nat n) s') ->
  (forall n' s', (n <= n')%nat -> holding m n' v s' -> Q (-1) s') ->
  wpg Fl (port_connect succeeds ip port) Q s.
Proof.
  intros Hs Hn Hok Hfail. unfold port_connect. apply wpg_bind. eapply wpg_sys_quiet; [done|exact Hs|].
  intros [] s1 Hs1; cbn [negb]; [|apply wpg_ret; by eapply Hfail].
  apply wpg_bind. eapply wpg_new_descriptor; [done|exact Hs1| |]; intros s2 Hs2;
    (apply wpg_bind; eapply wpg_sys_quiet; [done|exact Hs2|]; intros [] s3 Hs3).
  - apply wpg_ret. by apply Hok.
  - apply wpg_bind. eapply wpg_close_fd; [exact Hs3|by rewrite lookup_insert_eq|].
    intros s4 Hs4. rewrite delete_new in Hs4 by done. apply wpg_ret. eapply Hfail; [|exact Hs4]. lia.
  - apply wpg_ret. by eapply Hfail.
  - apply wpg_bind. eapply wpg_close_none; [exact Hs3|]. intros s4 Hs4. apply wpg_ret. by eapply Hfail.
Qed.

Lemma wpg_failed1 c b Q m n v s :
  holding m n v s -> m !! c = Some Context -> m !! b = Some Client -> b <> c ->
  (forall s', holding (delete b (delete c m)) n v s' -> Q None s') ->
  wpg Fl (failed1 succeeds (Some c) (Some b)) Q s.
Proof.
  intros Hs Hc Hb Hbc HQ. unfold failed1, failed. apply wpg_bind.
  eapply wpg_destroy; [done|exact Hs|exact Hc|done|]. intros s1 Hs1. apply wpg_bind.
  eapply wpg_free_struct; [exact Hs1|by rewrite lookup_delete_ne|done|].
  intros s2 Hs2. by apply wpg_ret, HQ.
Qed.

(** What a connection over TLS holds. *)
Record secured m n v (b c : nat) (cn : connection) (s : process) : Prop := {
  sd_block : cn_block cn = b;
  sd_ctx : cn_ctx cn = Some c;
  sd_ssl : cn_ssl cn = Some (S n);
  sd_fresh : fresh_client (set_socketfd (Z.of_nat n) (set_secure 1 zero_client)) (cn_world cn);
  sd_holding : holding (<[S n := Session]> (<[n := Descriptor]> m)) (S (S n)) v s
}.

Lemma tls_client_ok fd :
  wb_ok (set_socketfd fd (set_secure 1 zero_client)) /\ api_args_ok (set_socketfd fd (set_secure 1 zero_client)).
Proof. split; [|exact I]. split; [reflexivity|]. by vm_compute. Qed.

Lemma wpg_ssl_handshake ip port b c Q m n v s :
  holding m n v s -> unused n m -> m !! c = Some Context -> m !! b = Some Client -> b <> c ->
  (forall cn s', secured m n v b c cn s' -> Q (Some cn) s') ->
  (forall n' s', (n <= n')%nat -> holding (delete b (delete c m)) n' v s' -> Q None s') ->
  wpg Fl (ssl_handshake succeeds E fuel ip port b (Some c) (Some b)) Q s.
Proof.
  intros Hs Hn Hc Hb Hbc Hok Hfail. unfold ssl_handshake. apply wpg_bind.
  pose proof (unused_lt _ _ _ _ Hn Hc). pose proof (unused_lt _ _ _ _ Hn Hb).
  assert (forall s' n', (n <= n')%nat -> holding (<[n := Descriptor]> m) n' v s' ->
    wpg Fl (failed2 succeeds (Z.of_nat n) (Some c) (Some b)) Q s') as Hfailed2.
  { intros s' n' Hle Hs'. unfold failed2. apply wpg_bind.
    eapply wpg_close_fd; [exact Hs'|by rewrite lookup_insert_eq|]. intros s'' Hs''. rewrite delete_new in Hs'' by done.
    eapply wpg_failed1; [exact Hs''|done..|]. intros s3. by apply Hfail. }
  eapply wpg_port_connect; [exact Hs|exact Hn| |].
  2: { intros n' s1 Hle Hs1. change (-1 <? 0) with true. cbv iota. unfold failed2. apply wpg_bind.
       eapply wpg_close_none; [exact Hs1|]. intros s2 Hs2.
       eapply wpg_failed1; [exact Hs2|done..|]. intros s3. by apply Hfail. }
  intros s1 Hs1. rewrite (proj2 (Z.ltb_ge _ _)) by lia. apply wpg_bind.
  eapply wpg_create; [done|exact Hs1| |]; intros s2 Hs2; [|by eapply Hfailed2; [|exact Hs2]; lia].
  apply wpg_bind. eapply wpg_sys_quiet; [done|exact Hs2|]. intros _ s3 Hs3.
  apply wpg_bind. eapply wpg_sys_quiet; [done|exact Hs3|]. intros [] s4 Hs4; cbn [negb].
  - apply wpg_bind. destruct (tls_client_ok (Z.of_nat n)). apply wpg_init_client; [done..|]. intros w Hw.
    apply wpg_ret, Hok. by split.
  - unfold failed3. apply wpg_bind. eapply wpg_destroy; [done|exact Hs4|by rewrite lookup_insert_eq|done|].
    intros s5 Hs5. rewrite delete_new in Hs5 by (by apply unused_insert). eapply Hfailed2; [|exact Hs5]. lia.
Qed.

(** ** The certificates of the client *)

(** A pointer to [len] bytes. *)
Definition points_to m (p : pointer) (len : Z) : Prop :=
  match p with
  | None => True
  | Some (i, off) => exists d, m !! i = Some (Bytes d) /\ 0 <= off /\ 0 <= len /\ off + len <= zlen d
  end.

Definition certs_ok m (i : nat) (f : ssl_ca_crt_key_t) : Prop :=
  m !! i = Some (Certs f) /\ points_to m (cacrt f) (cacrt_len f) /\
  points_to m (cert f) (cert_len f) /\ points_to m (key f) (key_len f).

(** The objects after the CA certificate has been used: the pointer has been
    moved behind it, and the certificate, which nobody frees, is the object [x]. *)
Definition ca_used m (i : nat) (f : ssl_ca_crt_key_t) (p : nat * Z) (x : nat) : gmap nat object :=
  <[x := Certificate]> (<[i := Certs (set_cacrt (Some (fst p, snd p + consumed
    match m !! fst p with Some (Bytes d) => zsub d (snd p) (cacrt_len f) | _ => [] end)) f)]> m).

(** The mode of verification that use_certs chooses. *)
Definition certs_mode (f : ssl_ca_crt_key_t) (verify_mode : Z) : Z :=
  match cacrt f with Some _ => verify_mode | None => SSL_VERIFY_NONE end.

Lemma points_to_mono m m' p len :
  points_to m p len -> (forall i d, m !! i = Some (Bytes d) -> m' !! i = Some (Bytes d)) -> points_to m' p len.
Proof. destruct p as [[i off]|]; [|done]. intros (d & Hd & H) Hm. exists d. split; [by apply Hm|done]. Qed.

Lemma wpg_points_to site p len Q m n v s :
  holding m n v s -> points_to m (Some p) len -> (forall d, Q d s) -> wpg Fl (bytes_at site p len) Q s.
Proof.
  destruct p as [i off]. intros Hs (d & Hd & H1 & H2 & H3) HQ.
  eapply wpg_bytes_at; [exact Hs|exact Hd|done|done|done|]. apply HQ.
Qed.

(** The part after the CA certificate. *)
Lemma wpg_use_own_cert f (Q : bool -> process -> Prop) m n v s :
  holding m n v s -> points_to m (cert f) (cert_len f) -> points_to m (key f) (key_len f) ->
  (forall b s', holding m n v s' -> Q b s') ->
  wpg Fl (match cert f, key f with
          | Some c, Some k =>
              d <- bytes_at "mango_sslconnect" c (cert_len f) ;;
              r <- sys succeeds (Call_SSL_CTX_use_certificate_ASN1 d) ;;
              if negb r then ret false
              else
                d <- bytes_at "mango_sslconnect" k (key_len f) ;;
                sys succeeds (Call_SSL_CTX_use_PrivateKey_ASN1 d)
          | _, _ => ret true
          end) Q s.
Proof.
  intros Hs Hc Hk HQ. destruct (cert f) as [c|]; [|by apply wpg_ret, HQ].
  destruct (key f) as [k|]; [|by apply wpg_ret, HQ].
  apply wpg_bind. eapply wpg_points_to; [exact Hs|exact Hc|]. intros d1. apply wpg_bind.
  eapply wpg_sys_quiet; [done|exact Hs|]. intros [] s1 Hs1; cbn [negb]; [|by apply wpg_ret, HQ].
  apply wpg_bind. eapply wpg_points_to; [exact Hs1|exact Hk|]. intros d2.
  by eapply wpg_sys_quiet; [done|exact Hs1|].
Qed.

Lemma wpg_use_certs i f verify_mode Q m n v s :
  holding m n v s -> unused n m -> certs_ok m i f ->
  (forall (b used : bool) m' n' s', (n <= n')%nat -> unused n' m' ->
     (if used then exists p, cacrt f = Some p /\ m' = ca_used m i f p n else m' = m) ->
     (b = true -> used = bool_decide (is_Some (cacrt f))) ->
     holding m' n' (if b then v ++ [certs_mode f verify_mode] else v) s' -> Q b s') ->
  wpg Fl (use_certs succeeds consumed i verify_mode) Q s.
Proof.
  intros Hs Hn (Hi & Hca & Hc & Hk) HQ. unfold use_certs. apply wpg_bind.
  eapply wpg_get_certs; [exact Hs|exact Hi|]. pose proof (unused_lt _ _ _ _ Hn Hi).
  (* after the CA certificate: the objects [m'] *)
  assert (forall (used : bool) m' n' s' f', holding m' n' v s' -> (n <= n')%nat -> unused n' m' ->
    (if used then exists p, cacrt f = Some p /\ m' = ca_used m i f p n else m' = m) ->
    used = bool_decide (is_Some (cacrt f)) ->
    m' !! i = Some (Certs f') -> (cacrt f' = None <-> cacrt f = None) ->
    (forall j d, m !! j = Some (Bytes d) -> m' !! j = Some (Bytes d)) ->
    wpg Fl (ok <- match cert f, key f with
          | Some c, Some k =>
              d <- bytes_at "mango_sslconnect" c (cert_len f) ;;
              r <- sys succeeds (Call_SSL_CTX_use_certificate_ASN1 d) ;;
              if negb r then ret false
              else
                d <- bytes_at "mango_sslconnect" k (key_len f) ;;
                sys succeeds (Call_SSL_CTX_use_PrivateKey_ASN1 d)
          | _, _ => ret true
          end ;;
      if negb ok then ret false else
      f <- get_certs "mango_sslconnect" i ;;
      sys succeeds (Call_SSL_CTX_set_verify
        (match cacrt f with Some _ => verify_mode | None => SSL_VERIFY_NONE end)) ;; ret true) Q s') as Hrest.
  { intros used m' n' s' f' Hs' Hle Hn' Hm' Hu Hi' Hf' Hb. apply wpg_bind.
    eapply wpg_use_own_cert; [exact Hs'|by eapply points_to_mono|by eapply points_to_mono|].
    intros [] s2 Hs2; cbn [negb]; [|apply wpg_ret; by eapply (HQ false used)].
    apply wpg_bind. eapply wpg_get_certs; [exact Hs2|exact Hi'|]. apply wpg_bind.
    eapply wpg_sys; [exact Hs2|]. cbn [verify_of option_list]. intros _ s3 Hs3. apply wpg_ret.
    eapply (HQ true used); [exact Hle|exact Hn'|exact Hm'|done|]. unfold certs_mode.
    destruct (cacrt f'), (cacrt f); try exact Hs3; exfalso; destruct Hf' as [H1 H2]; [by specialize (H2 eq_refl)|by specialize (H1 eq_refl)]. }
  apply wpg_bind. destruct (cacrt f) as [p|] eqn:Ep.
  2: { apply wpg_ret. cbn [negb]. eapply (Hrest false); [exact Hs|done|done|done|done|exact Hi|by rewrite Ep|done]. }
  apply wpg_bind. destruct p as [j off]. destruct Hca as (d & Hd & ? & ? & ?).
  eapply wpg_bytes_at; [exact Hs|exact Hd|done..|]. apply wpg_bind.
  eapply wpg_create; [done|exact Hs| |]; intros s1 Hs1.
  2: { apply wpg_ret. cbn [negb]. apply wpg_ret. eapply (HQ false false); [|exact Hn|done|done|exact Hs1]. lia. }
  apply wpg_bind. eapply wpg_set_certs; [exact Hs1|by rewrite lookup_insert_ne by lia|]. intros s2 Hs2.
  apply wpg_bind. eapply wpg_sys_quiet; [done|exact Hs2|]. intros _ s3 Hs3. apply wpg_ret. cbn [negb fst snd] in *.
  rewrite insert_insert_ne in Hs3 by lia.
  eapply (Hrest true); [exact Hs3|lia| | |done|by rewrite lookup_insert_ne, lookup_insert_eq by lia|done|].
  - intros k Hk1. rewrite !lookup_insert_ne by lia. apply Hn. lia.
  - exists (j, off). split; [done|]. unfold ca_used. cbn [fst snd]. by rewrite Hd.
  - intros k d' Hd'. pose proof (unused_lt _ _ _ _ Hn Hd'). rewrite lookup_insert_ne by lia.
    rewrite lookup_insert_ne; [done|]. intros ->. congruence.
Qed.

Lemma wpg_use_cert_files f Q m n v s :
  holding m n v s -> (forall s', holding m n v s' -> Q tt s') ->
  wpg Fl (use_cert_files succeeds f) Q s.
Proof.
  intros Hs HQ. unfold use_cert_files.
  assert (forall c s1 (K : unit -> process -> Prop), verify_of c = None -> holding m n v s1 ->
    (forall s2, holding m n v s2 -> K tt s2) -> wpg Fl (sys succeeds c ;; ret tt) K s1) as Hcall.
  { intros c s1 K Hc Hs1 HK. apply wpg_bind. eapply wpg_sys_quiet; [done|exact Hs1|]. intros _ s2 Hs2. by apply wpg_ret, HK. }
  assert (forall (o : option (list Z)) c s1 (K : unit -> process -> Prop), (forall x, verify_of (c x) = None) ->
    holding m n v s1 -> (forall s2, holding m n v s2 -> K tt s2) ->
    wpg Fl match o with Some file => sys succeeds (c file) ;; ret tt | None => ret tt end K s1) as Hopt.
  { intros [x|] c s1 K Hc Hs1 HK; [by apply Hcall|by apply wpg_ret, HK]. }
  apply wpg_bind.
  assert (forall s1, holding m n v s1 ->
    wpg Fl (match certfile f with Some file => sys succeeds (Call_SSL_CTX_use_certificate_file file) ;; ret tt | None => ret tt end ;;
            match keyfile f with Some file => sys succeeds (Call_SSL_CTX_use_PrivateKey_file file) ;; ret tt | None => ret tt end) Q s1) as Hrest.
  { intros s1 Hs1. apply wpg_bind, Hopt; [done|done|]. intros s2 Hs2. by apply Hopt. }
  destruct (cafile f), (capath f); [by apply Hcall|by apply wpg_ret, Hrest..].
Qed.

(** The objects [m'] after mango_sslconnect was called with those of [m]; [used]:
    it has used a CA certificate. *)
Definition after_certs m n (cck : option nat) (used : bool) m' : Prop :=
  if used then
    exists i f p x, cck = Some i /\ m !! i = Some (Certs f) /\ cacrt f = Some p /\ (n <= x)%nat /\
      m' = ca_used m i f p x
  else m' = m.

(** The caller has given one. *)
Definition gives_ca m (cck : option nat) : bool :=
  match (i ← cck; m !! i)%stdpp with Some (Certs f) => bool_decide (is_Some (cacrt f)) | _ => false end.

(** The client's block and context around the other objects. *)
Lemma after_certs_freed m n i f (used : bool) m' :
  let m2 := <[S n := Context]> (<[n := Client]> m) in
  unused n m -> m !! i = Some (Certs f) -> points_to m (cacrt f) (cacrt_len f) ->
  (if used then exists p, cacrt f = Some p /\ m' = ca_used m2 i f p (S (S n)) else m' = m2) ->
  m' !! S n = Some Context /\ m' !! n = Some Client /\
  after_certs m n (Some i) used (delete n (delete (S n) m')).
Proof.
  intros m2 Hn Hi Hp Hm'. pose proof (unused_lt _ _ _ _ Hn Hi).
  assert (delete n (delete (S n) m2) = m) as Hm2.
  { unfold m2. rewrite delete_new by (by apply unused_insert). by apply delete_new. }
  destruct used; [destruct Hm' as (p & Ep & ->)|subst m'].
  2: { split; [apply lookup_insert_eq|]. split; [unfold m2; by rewrite lookup_insert_ne, lookup_insert_eq by lia|exact Hm2]. }
  - rewrite Ep in Hp. destruct p as [j off]. destruct Hp as (d & Hd & _). pose proof (unused_lt _ _ _ _ Hn Hd).
    assert (forall k, (k < n)%nat -> m2 !! k = m !! k) as Hold.
    { intros k Hk. unfold m2. by rewrite !lookup_insert_ne by lia. }
    unfold ca_used. cbn [fst snd]. rewrite Hold, Hd by lia.
    split; [unfold m2; by rewrite !(lookup_insert_ne _ (S (S n))), (lookup_insert_ne _ i), lookup_insert_eq by lia|].
    split; [unfold m2; by rewrite !lookup_insert_ne, lookup_insert_eq by lia|].
    exists i, f, (j, off), (S (S n)). split; [done|]. split; [done|]. split; [done|]. split; [lia|].
    rewrite !(delete_insert_ne _ _ (S (S n))), !(delete_insert_ne _ _ i), Hm2 by lia.
    unfold ca_used. cbn [fst snd]. by rewrite Hd.
Qed.

(** ** Disconnecting *)

(** The connection with the world it has reached. *)
Definition at_world (cn : connection) (w : world) : connection :=
  mkConnection (cn_block cn) w (cn_ctx cn) (cn_ssl cn).

Lemma wpg_ssldisconnect b c cn w Q m n v s :
  secured m n v b c cn s -> unused n m -> m !! c = Some Context -> m !! b = Some Client -> b <> c ->
  socketfd (client w) = socketfd (client (cn_world cn)) ->
  (forall s', objects s' = delete b (delete c m) -> Q tt s') ->
  wpg Fl (mango_ssldisconnect succeeds (Some (at_world cn w))) Q s.
Proof.
  intros [<- Hctx Hssl (Hfd & _) Hs] Hn Hc Hb Hbc Hw HQ. rewrite Hfd in Hw. cbn in Hw.
  pose proof (unused_lt _ _ _ _ Hn Hc). pose proof (unused_lt _ _ _ _ Hn Hb).
  unfold mango_ssldisconnect, mangoPort_ssldisconnect, at_world. cbn [cn_world cn_ssl cn_ctx cn_block].
  rewrite Hw, Hctx, Hssl. apply wpg_bind, wpg_bind. eapply wpg_sys_quiet; [done|exact Hs|]. intros _ s1 Hs1.
  apply wpg_bind. eapply wpg_close_fd; [exact Hs1|by rewrite lookup_insert_ne, lookup_insert_eq by lia|].
  intros s2 Hs2. rewrite delete_insert_ne, delete_new in Hs2 by (done || lia).
  apply wpg_bind. eapply wpg_destroy; [done|exact Hs2|by rewrite lookup_insert_eq|done|]. intros s3 Hs3.
  rewrite delete_insert_id in Hs3 by (apply Hn; lia).
  eapply wpg_destroy; [done|exact Hs3|exact Hc|done|]. intros s4 Hs4.
  eapply wpg_free_struct; [exact Hs4|by rewrite lookup_delete_ne|done|]. intros s5 Hs5.
  apply HQ. apply Hs5.
Qed.

(** ** mango_sslconnect *)

(** The modes of verification that mango_sslconnect chooses. *)
Definition chosen_modes m (cck : option nat) (files : option ssl_ca_crt_key_file_t) (verify_mode : Z) : list Z :=
  match cck, files with
  | Some i, _ => match m !! i with Some (Certs f) => [certs_mode f verify_mode] | _ => [] end
  | None, Some _ => []
  | None, None => [verify_mode]
  end.

(** What mango_sslconnect leaves, from the objects [m] on: after a failure the
    objects as before, up to the use of a CA certificate; otherwise a connection
    that mango_ssldisconnect turns into them. *)
Definition sslconnected m n v (cck : option nat) (files : option ssl_ca_crt_key_file_t) (verify_mode : Z)
    (r : option connection) (s : process) : Prop :=
  exists used m', after_certs m n cck used m' /\
  match r with
  | None => objects s = m'
  | Some cn =>
      used = gives_ca m cck /\
      omap verify_of (history s) = v ++ chosen_modes m cck files verify_mode /\
      resting (client (cn_world cn)) /\ curState (client (cn_world cn)) = mangoSM__HTTP_CONNECTED /\
      secure (client (cn_world cn)) = 1 /\
      forall w, socketfd (client w) = socketfd (client (cn_world cn)) ->
        wp (mango_ssldisconnect succeeds (Some (at_world cn w))) (fun _ s' => objects s' = m') s
  end.
End Connect.

Section SslConnect.
Context (succeeds : list sys_call -> sys_call -> bool) (sizeof : string -> Z) (consumed : list Z -> Z).
Context (Fl : failure -> Prop) (E : environment) (fuel : nat) (HE : environment_ok E).
Implicit Types (m : gmap nat object) (n : nat) (v : list Z).

(** From the handshake on, with the client [b] and the context [c] among the
    objects. *)
Lemma wpg_handshake_connected ip port b c cck files verify_mode m0 n0 v0 used m n s :
  holding m n (v0 ++ chosen_modes m0 cck files verify_mode) s -> unused n m ->
  m !! c = Some Context -> m !! b = Some Client -> b <> c ->
  after_certs consumed m0 n0 cck used (delete b (delete c m)) -> used = gives_ca m0 cck ->
  wpg Fl (ssl_handshake succeeds E fuel ip port b (Some c) (Some b))
    (sslconnected succeeds consumed m0 n0 v0 cck files verify_mode) s.
Proof.
  intros Hs Hn Hc Hb Hbc Haft Hu. eapply wpg_ssl_handshake; [exact HE|exact Hs|exact Hn|exact Hc|exact Hb|exact Hbc| |].
  - intros cn s' Hsec. exists used, (delete b (delete c m)). split; [exact Haft|].
    destruct Hsec as [Hblk Hctx Hssl Hfresh Hhold] eqn:Heq. clear Heq.
    destruct Hfresh as (Hfd & Hsecure & Hrest & Hcur) eqn:Heq. clear Heq.
    split; [done|]. split; [by apply Hhold|]. split; [done|]. split; [done|]. split; [done|].
    intros w Hw. eapply wpg_ssldisconnect; [exact Hsec|exact Hn|exact Hc|exact Hb|exact Hbc|exact Hw|done].
  - intros n' s' _ Hs'. exists used, (delete b (delete c m)). split; [exact Haft|]. apply Hs'.
Qed.

Lemma wpg_sslconnect serverIP port cck files method verify_mode s :
  is_Some serverIP -> process_ok s ->
  (forall i, cck = Some i -> exists f, certs_ok (objects s) i f) ->
  wpg Fl (mango_sslconnect succeeds sizeof consumed E fuel serverIP port cck files method verify_mode)
    (sslconnected succeeds consumed (objects s) (next s) (omap verify_of (history s)) cck files verify_mode) s.
Proof.
  intros [ip ->] Hok Hcck. unfold process_ok in Hok. set (m := objects s) in *. set (n := next s) in *.
  set (v := omap verify_of (history s)) in *.
  assert (unused n m) as Hn by done.
  assert (forall s', objects s' = m -> sslconnected succeeds consumed m n v cck files verify_mode None s') as Hnone.
  { intros s' Hs'. by exists false, m. }
  unfold mango_sslconnect. apply wpg_bind, wpg_ensure; [done|]. apply wpg_bind.
  eapply wpg_create; [done|apply holding_self| |]; intros s1 Hs1; fold m n v in Hs1.
  2: { apply wpg_ret, Hnone. apply Hs1. }
  cbn [default option_map from_option id]. apply wpg_bind.
  eapply wpg_create; [done|exact Hs1| |]; intros s2 Hs2.
  2: { unfold failed. apply wpg_bind. eapply wpg_free_struct; [exact Hs2|by rewrite lookup_insert_eq|done|].
       intros s3 Hs3. rewrite delete_new in Hs3 by done. apply wpg_ret, Hnone. apply Hs3. }
  set (m2 := <[S n := Context]> (<[n := Client]> m)) in *.
  assert (unused (S (S n)) m2) as Hn2 by (by apply unused_insert, unused_insert).
  (* without use_certs, and with it *)
  assert (forall s3 v3, holding m2 (S (S n)) v3 s3 -> v3 = v ++ chosen_modes m cck files verify_mode -> gives_ca m cck = false ->
    wpg Fl (ssl_handshake succeeds E fuel ip port n (Some (S n)) (Some n))
      (sslconnected succeeds consumed m n v cck files verify_mode) s3) as Hgo.
  { intros s3 v3 Hs3 -> Hca. eapply (wpg_handshake_connected _ _ _ _ _ _ _ _ _ _ false); [exact Hs3|exact Hn2|apply lookup_insert_eq| |lia| |done].
    - unfold m2. by rewrite lookup_insert_ne, lookup_insert_eq by lia.
    - unfold after_certs, m2. rewrite delete_new by (by apply unused_insert). by apply delete_new. }
  apply wpg_bind. destruct cck as [i|].
  - destruct (Hcck i eq_refl) as [f (Hi & Hca & Hce & Hk)]. pose proof (unused_lt _ _ _ _ Hn Hi).
    assert (forall k, (k < n)%nat -> m2 !! k = m !! k) as Hold
      by (intros k Hk'; unfold m2; by rewrite !lookup_insert_ne by lia).
    assert (forall j d, m !! j = Some (Bytes d) -> m2 !! j = Some (Bytes d)) as Hbytes
      by (intros j d Hj; pose proof (unused_lt _ _ _ _ Hn Hj); by rewrite Hold).
    eapply wpg_use_certs; [exact Hs2|exact Hn2| |].
    { split; [by rewrite Hold|]. by split_and!; eapply points_to_mono. }
    intros b used m' n' s3 Hle Hn' Hm' Hu Hs3.
    destruct (after_certs_freed consumed m n i f used m' Hn Hi Hca Hm') as (Hctx & Hcl & Haft).
    destruct b; cbn [negb].
    + eapply wpg_handshake_connected; [|exact Hn'|exact Hctx|exact Hcl|lia|exact Haft|].
      * unfold chosen_modes. by rewrite Hi.
      * rewrite Hu by done. unfold gives_ca. cbn. by rewrite Hi.
    + eapply wpg_failed1; [exact Hs3|exact Hctx|exact Hcl|lia|]. intros s4 Hs4.
      eexists _, _. split; [exact Haft|]. apply Hs4.
  - destruct files as [f|].
    + apply wpg_bind. eapply wpg_use_cert_files; [exact Hs2|]. intros s3 Hs3. apply wpg_ret. cbn [negb].
      eapply Hgo; [exact Hs3|by rewrite app_nil_r|done].
    + apply wpg_bind. eapply wpg_sys; [exact Hs2|]. intros _ s3 Hs3. apply wpg_ret. cbn [negb].
      eapply Hgo; [exact Hs3|done|done].
Qed.
End SslConnect.

(** * Every connection starts at rest *)

(** Whatever else happens. *)
Abbreviation anyhow := (wpg (fun _ => True)).

Lemma anyhow_bind {A B} (m : M process A) (k : A -> M process B) Q s :
  (forall a s', anyhow (k a) Q s') -> anyhow (bind m k) Q s.
Proof. intros Hk. apply wpg_bind. unfold wpg at 1. destruct (m s) as [[a s']|f]; [apply Hk | done]. Qed.

Section Resting.
Context (succeeds : list sys_call -> sys_call -> bool) (sizeof : string -> Z) (consumed : list Z -> Z).
Context (E : environment) (fuel : nat) (HE : environment_ok E).

(** A connection, if there is one, is at rest. *)
Definition at_rest (r : option connection) (_ : process) : Prop :=
  match r with
  | Some cn => resting (client (cn_world cn)) /\ curState (client (cn_world cn)) = mangoSM__HTTP_CONNECTED
  | None => True
  end.
Lemma anyhow_ret_None s : anyhow (ret None) at_rest s.
Proof. done. Qed.

Lemma handshake_at_rest ip port b ctx hc s :
  anyhow (ssl_handshake succeeds E fuel ip port b ctx hc) at_rest s.
Proof.
  assert (forall fd s', anyhow (failed2 succeeds fd ctx hc) at_rest s') as Hfailed.
  { intros fd s'. unfold failed2, failed1, failed. repeat (apply anyhow_bind; intros). apply anyhow_ret_None. }
  unfold ssl_handshake. apply anyhow_bind. intros fd s1. destruct (fd <? 0); [apply Hfailed|].
  apply anyhow_bind. intros [i|] s2; [|apply Hfailed]. apply anyhow_bind. intros _ s3.
  apply anyhow_bind. intros [] s4; cbn [negb].
  - apply wpg_bind. destruct (tls_client_ok fd). apply wpg_init_client; [done..|]. intros w (_ & _ & Hrest & Hc).
    by apply wpg_ret.
  - unfold failed3. apply anyhow_bind. intros _ s5. apply Hfailed.
Qed.

Lemma sslconnect_at_rest serverIP port cck files method verify_mode s cn s' :
  mango_sslconnect succeeds sizeof consumed E fuel serverIP port cck files method verify_mode s = Ok (Some cn, s') ->
  resting (client (cn_world cn)) /\ curState (client (cn_world cn)) = mangoSM__HTTP_CONNECTED.
Proof.
  intros Hrun.
  assert (anyhow (mango_sslconnect succeeds sizeof consumed E fuel serverIP port cck files method verify_mode) at_rest s) as H.
  { unfold mango_sslconnect. apply anyhow_bind. intros _ s1. apply anyhow_bind. intros [b|] s2; [|done].
    apply anyhow_bind. intros [c|] s3; [|by apply anyhow_bind].
    apply anyhow_bind. intros [] s4; cbn [negb]; [apply handshake_at_rest|].
    unfold failed1, failed. repeat (apply anyhow_bind; intros). apply anyhow_ret_None. }
  unfold wpg in H. by rewrite Hrun in H.
Qed.
End Resting.

(** * TCP *)

Section Tcp.
Context (succeeds : list sys_call -> sys_call -> bool) (sizeof : string -> Z).
Context (Fl : failure -> Prop) (E : environment) (fuel : nat) (HE : environment_ok E).

(** What mango_connect leaves: the objects as before, or a connection that
    mango_disconnect turns into them. *)
Definition tcp_connected (m : gmap nat object) (r : option connection) (s : process) : Prop :=
  match r with
  | None => objects s = m
  | Some cn =>
      resting (client (cn_world cn)) /\ curState (client (cn_world cn)) = mangoSM__HTTP_CONNECTED /\
      secure (client (cn_world cn)) = 0 /\
      forall w, socketfd (client w) = socketfd (client (cn_world cn)) ->
        wp (mango_disconnect succeeds (Some (at_world cn w))) (fun _ s' => objects s' = m) s
  end.

Lemma tcp_client_ok fd :
  wb_ok (set_socketfd fd zero_client) /\ api_args_ok (set_socketfd fd zero_client).
Proof. split; [|exact I]. split; [reflexivity|]. by vm_compute. Qed.

Lemma wpg_connect_tcp serverIP port s :
  is_Some serverIP -> process_ok s ->
  wpg Fl (mango_connect_tcp succeeds sizeof E fuel serverIP port) (tcp_connected (objects s)) s.
Proof.
  intros [ip ->] Hok. set (m := objects s) in *. set (n := next s) in *.
  assert (unused n m) as Hn by exact Hok.
  unfold mango_connect_tcp. apply wpg_bind, wpg_ensure; [done|]. apply wpg_bind.
  eapply wpg_create; [done|apply holding_self| |]; intros s1 Hs1; fold m n in Hs1.
  2: { apply wpg_ret. apply Hs1. }
  cbn [default from_option id]. apply wpg_bind.
  eapply wpg_port_connect; [exact Hs1|by apply unused_insert| |].
  2: { intros n' s2 _ Hs2. change (-1 <? 0) with true. cbv iota. apply wpg_bind.
       eapply wpg_free_struct; [exact Hs2|by rewrite lookup_insert_eq|done|]. intros s3 Hs3.
       rewrite delete_new in Hs3 by done. apply wpg_ret. apply Hs3. }
  intros s2 Hs2. rewrite (proj2 (Z.ltb_ge _ _)) by lia. apply wpg_bind.
  destruct (tcp_client_ok (Z.of_nat (S n))). apply wpg_init_client; [done..|].
  intros w (Hfd & Hsec & Hrest & Hcur). apply wpg_ret. split_and!; [done|done|done|].
  intros w' Hw'. cbn [cn_world] in Hw'. rewrite Hfd in Hw'. cbn in Hw'.
  unfold mango_disconnect, mangoPort_disconnect, at_world. cbn [cn_world cn_block].
  rewrite Hw'. change (Z.pos (Pos.of_succ_nat n)) with (Z.of_nat (S n)). apply wpg_bind.
  eapply wpg_close_fd; [exact Hs2|by rewrite lookup_insert_eq|]. intros s3 Hs3.
  rewrite delete_new in Hs3 by (by apply unused_insert).
  eapply wpg_free_struct; [exact Hs3|by rewrite lookup_insert_eq|done|]. intros s4 Hs4.
  rewrite delete_new in Hs4 by done. apply Hs4.
Qed.

(** The connection is that of mango_connect. *)
Lemma connect_tcp_connects serverIP port s cn s' :
  mango_connect_tcp succeeds sizeof E fuel serverIP port s = Ok (Some cn, s') ->
  exists fd, mango_connect E fuel true true fd 0 = Ok (Some (cn_world cn)).
Proof.
  intros Hrun.
  assert (anyhow (mango_connect_tcp succeeds sizeof E fuel serverIP port) (fun r _ => forall cn, r = Some cn ->
    exists fd, mango_connect E fuel true true fd 0 = Ok (Some (cn_world cn))) s) as H.
  { unfold mango_connect_tcp. apply anyhow_bind. intros _ s1. apply anyhow_bind. intros [b|] s2; [|done].
    apply anyhow_bind. intros fd s3. destruct (Z.ltb_spec fd 0) as [|Hfd]; [by apply anyhow_bind|].
    apply wpg_bind. unfold wpg, init_client.
    destruct (mangoSM_INIT E fuel _) as [[r w]|f] eqn:Hinit; [|done]. intros cn1 [= <-]. exists fd.
    unfold mango_connect, mangoPort_connect. change (0 =? 0) with true. cbn [negb cn_world].
    rewrite (proj2 (Z.ltb_ge _ _)) by done. by rewrite Hinit. }
  unfold wpg in H. rewrite Hrun in H. by apply H.
Qed.
End Tcp.

(** Certificates are loaded from files into memory, and freed. *)

(** * Objects beside others *)

(** [m] has the objects of [base], and those with numbers in [l]. *)
Definition extends (base : gmap nat object) (l : list nat) (m : gmap nat object) : Prop :=
  (forall k, k ∉ l -> m !! k = base !! k) /\ (forall k, k ∈ l -> base !! k = None).

Lemma extends_nil base m : extends base [] m -> m = base.
Proof. intros [H _]. apply map_eq. intros k. apply H. set_solver. Qed.

Lemma extends_insert base l m n o :
  extends base l m -> m !! n = None -> extends base (n :: l) (<[n := o]> m).
Proof.
  intros [H1 H2] Hn. split.
  - intros k Hk. rewrite lookup_insert_ne by set_solver. apply H1. set_solver.
  - intros k Hk. destruct (decide (k ∈ l)) as [|Hl]; [by apply H2|].
    assert (k = n) as -> by set_solver. by rewrite <- H1.
Qed.

Lemma extends_update base l m i o : extends base l m -> i ∈ l -> extends base l (<[i := o]> m).
Proof. intros [H1 H2] Hi. split; [|done]. intros k Hk. rewrite lookup_insert_ne by set_solver. by apply H1. Qed.

Lemma extends_delete base l l' m i :
  extends base l m -> i ∈ l -> (forall k, k ∈ l' <-> k ∈ l /\ k <> i) -> extends base l' (delete i m).
Proof.
  intros [H1 H2] Hi Hl. split.
  - intros k Hk. destruct (decide (k = i)) as [->|Hne].
    + rewrite lookup_delete_eq. symmetry. by apply H2.
    + rewrite lookup_delete_ne by done. apply H1. rewrite Hl in Hk. tauto.
  - intros k Hk. apply H2. by apply Hl in Hk as [? _].
Qed.

Lemma extends_perm base l l' m : l ≡ₚ l' -> extends base l m -> extends base l' m.
Proof. intros Hp [H1 H2]. by split; intros k Hk; [apply H1 | apply H2]; rewrite Hp. Qed.

(** The block of a pointer. *)
Definition ids (p : pointer) : list nat := match p with None => [] | Some (j, _) => [j] end.
Definition block_at (m : gmap nat object) (p : pointer) : Prop :=
  match p with None => True | Some (j, off) => off = 0 /\ exists d, m !! j = Some (Bytes d) end.
(** The object of a descriptor. *)
Definition fd_ids (fd : Z) : list nat := if fd <? 0 then [] else [Z.to_nat fd].
Definition fd_at (m : gmap nat object) (fd : Z) : Prop :=
  fd = -1 \/ 0 <= fd /\ m !! Z.to_nat fd = Some Descriptor.

Lemma block_at_same m m' p : block_at m p -> (forall k, k ∈ ids p -> m' !! k = m !! k) -> block_at m' p.
Proof. destruct p as [[j off]|]; [|done]. intros [H1 [d Hd]] Hs. split; [done|]. exists d. rewrite Hs; [done|]. cbn. set_solver. Qed.

Lemma fd_at_same m m' fd : fd_at m fd -> (forall k, k ∈ fd_ids fd -> m' !! k = m !! k) -> fd_at m' fd.
Proof.
  intros [->|[H0 Hd]] Hs; [by left|right]. split; [done|]. rewrite Hs; [done|].
  unfold fd_ids. rewrite (proj2 (Z.ltb_ge _ _) H0). set_solver.
Qed.

Section Free.
Context (succeeds : list sys_call -> sys_call -> bool) (Fl : failure -> Prop).
Implicit Types (m : gmap nat object) (n : nat) (v : list Z).

Lemma wpg_free_ptr p l base Q m n v s :
  holding m n v s -> extends base (ids p ++ l) m -> NoDup (ids p ++ l) -> block_at m p ->
  (forall m' s', holding m' n v s' -> extends base l m' -> (forall k, k ∈ l -> m' !! k = m !! k) -> Q tt s') ->
  wpg Fl (free_bytes succeeds p) Q s.
Proof.
  intros Hs Hext Hnd Hb HQ. destruct p as [[j off]|]; cbn [ids app] in *.
  - destruct Hb as [-> [d Hd]]. apply NoDup_cons in Hnd as [Hj _].
    eapply wpg_free_bytes; [exact Hs|exact Hd|]. intros s' Hs'. eapply HQ; [exact Hs'| |].
    + eapply extends_delete; [exact Hext|set_solver|]. intros k. set_solver.
    + intros k Hk. apply lookup_delete_ne. set_solver.
  - by apply wpg_ret, (HQ m).
Qed.

Lemma wpg_close_ids fd l base Q m n v s :
  holding m n v s -> extends base (fd_ids fd ++ l) m -> NoDup (fd_ids fd ++ l) -> fd_at m fd ->
  (forall m' s', holding m' n v s' -> extends base l m' -> (forall k, k ∈ l -> m' !! k = m !! k) -> Q tt s') ->
  wpg Fl (close succeeds fd) Q s.
Proof.
  intros Hs Hext Hnd [-> | [Hfd Hd]] HQ; unfold fd_ids in *.
  - change (-1 <? 0) with true in *. cbn [app] in *. eapply wpg_close_none; [exact Hs|].
    intros s' Hs'. by eapply HQ.
  - rewrite (proj2 (Z.ltb_ge _ _) Hfd) in *. cbn [app] in *. apply NoDup_cons in Hnd as [Hj _].
    rewrite <- (Z2Nat.id fd) by done. eapply wpg_close_fd; [exact Hs|exact Hd|].
    intros s' Hs'. eapply HQ; [exact Hs'| |].
    + eapply extends_delete; [exact Hext|set_solver|]. intros k. set_solver.
    + intros k Hk. apply lookup_delete_ne. set_solver.
Qed.

Lemma wpg_free_file i o base Q m n v s :
  holding m n v s -> extends base [i] m -> m !! i = Some o -> is_memory o = true ->
  (forall s', objects s' = base -> Q tt s') -> wpg Fl (free_struct succeeds (Some i)) Q s.
Proof.
  intros Hs Hext Hi Ho HQ. eapply wpg_free_struct; [exact Hs|exact Hi|exact Ho|]. intros s' Hs'. apply HQ.
  rewrite (holding_objects _ _ _ _ Hs'). apply extends_nil.
  eapply extends_delete; [exact Hext|set_solver|]. intros k. set_solver.
Qed.

(** The structure [i] with its blocks, and the objects [extra]. *)
Record bundle base (i : nat) (f : ssl_ca_crt_key_t) (extra : list nat) m : Prop := {
  bu_certs : m !! i = Some (Certs f);
  bu_cacrt : block_at m (cacrt f);
  bu_cert : block_at m (cert f);
  bu_key : block_at m (key f);
  bu_nodup : NoDup (ids (cacrt f) ++ ids (cert f) ++ ids (key f) ++ extra ++ [i]);
  bu_extends : extends base (ids (cacrt f) ++ ids (cert f) ++ ids (key f) ++ extra ++ [i]) m
}.

(** One member of the structure is freed and set to NULL. *)
Lemma wpg_free_member site i p l upd f (kont : M process unit) base Q m n v s :
  holding m n v s -> extends base (ids p ++ l ++ [i]) m -> NoDup (ids p ++ l ++ [i]) ->
  block_at m p -> m !! i = Some (Certs f) ->
  (forall m' s', holding m' n v s' -> extends base (l ++ [i]) m' -> NoDup (l ++ [i]) ->
     m' !! i = Some (Certs (upd f)) -> (forall k, k ∈ l -> m' !! k = m !! k) -> wpg Fl kont Q s') ->
  wpg Fl (free_bytes succeeds p ;; set_certs site i upd ;; kont) Q s.
Proof.
  intros Hs Hext Hnd Hb Hi HQ. apply wpg_bind.
  eapply wpg_free_ptr; [exact Hs|exact Hext|exact Hnd|exact Hb|]. intros m2 s2 Hs2 Hext2 Hsame.
  assert (m2 !! i = Some (Certs f)) as Hi2 by (rewrite Hsame; [exact Hi|set_solver]).
  apply wpg_bind. eapply wpg_set_certs; [exact Hs2|exact Hi2|]. intros s3 Hs3.
  apply NoDup_app in Hnd as (_ & _ & Hnd). pose proof Hnd as (_ & Hl & _)%NoDup_app.
  eapply HQ; [exact Hs3|by apply extends_update; [|set_solver]|exact Hnd|apply lookup_insert_eq|].
  intros k Hk. rewrite lookup_insert_ne by (intros ->; apply (Hl k); set_solver). apply Hsame. set_solver.
Qed.

(** sslcert_free gives everything back. *)
Lemma wpg_sslcert_free i f base Q m n v s :
  holding m n v s -> bundle base i f [] m -> (forall s', objects s' = base -> Q tt s') ->
  wpg Fl (sslcert_free succeeds (Some i)) Q s.
Proof.
  intros Hs [Hi Ha Hc Hk Hnd Hext] HQ. unfold sslcert_free. cbn [app] in *.
  apply wpg_bind. eapply wpg_get_certs; [exact Hs|exact Hi|].
  assert (ids (cacrt f) ++ ids (cert f) ++ ids (key f) ++ [i] =
          ids (cacrt f) ++ (ids (cert f) ++ ids (key f)) ++ [i]) as E by (by rewrite <- app_assoc).
  rewrite E in Hnd, Hext. clear E.
  eapply wpg_free_member; [exact Hs|exact Hext|exact Hnd|exact Ha|exact Hi|].
  intros m1 s1 Hs1 Hext1 Hnd1 Hi1 Hsame1. rewrite <- app_assoc in Hext1, Hnd1.
  assert (block_at m1 (cert f)) as Hc1 by (eapply block_at_same; [exact Hc|]; intros; apply Hsame1; set_solver).
  assert (block_at m1 (key f)) as Hk1 by (eapply block_at_same; [exact Hk|]; intros; apply Hsame1; set_solver).
  eapply wpg_free_member; [exact Hs1|exact Hext1|exact Hnd1|exact Hc1|exact Hi1|].
  intros m2 s2 Hs2 Hext2 Hnd2 Hi2 Hsame2.
  assert (block_at m2 (key f)) as Hk2 by (eapply block_at_same; [exact Hk1|]; intros; by apply Hsame2).
  apply (wpg_free_member _ i (key f) []) with (f := set_cert None (set_cacrt None f)) (base := base) (m := m2) (n := n) (v := v);
    [exact Hs2|exact Hext2|exact Hnd2|exact Hk2|exact Hi2|].
  intros m3 s3 Hs3 Hext3 _ Hi3 _. by eapply wpg_free_file; [exact Hs3|exact Hext3|exact Hi3| |].
Qed.

(** The labels of sslcert_load. *)
Lemma wpg_load_failed1 fd i f base Q m n v s :
  holding m n v s -> extends base (fd_ids fd ++ [i]) m -> NoDup (fd_ids fd ++ [i]) -> fd_at m fd ->
  m !! i = Some (Certs f) -> (forall s', objects s' = base -> Q None s') ->
  wpg Fl (load_failed1 succeeds fd i) Q s.
Proof.
  intros Hs Hext Hnd Hfd Hi HQ. unfold load_failed1, load_failed. apply wpg_bind.
  eapply wpg_close_ids; [exact Hs|exact Hext|exact Hnd|exact Hfd|]. intros m1 s1 Hs1 Hext1 Hsame.
  apply wpg_bind. eapply wpg_free_file; [exact Hs1|exact Hext1|rewrite Hsame; [exact Hi|set_solver]|done|].
  intros s2 Hs2. by apply wpg_ret, HQ.
Qed.

Lemma wpg_load_failed2 fd i f base Q m n v s :
  holding m n v s -> m !! i = Some (Certs f) -> block_at m (cacrt f) -> fd_at m fd ->
  extends base (ids (cacrt f) ++ fd_ids fd ++ [i]) m -> NoDup (ids (cacrt f) ++ fd_ids fd ++ [i]) ->
  (forall s', objects s' = base -> Q None s') -> wpg Fl (load_failed2 succeeds fd i) Q s.
Proof.
  intros Hs Hi Ha Hfd Hext Hnd HQ.
  unfold load_failed2. apply wpg_bind. eapply wpg_get_certs; [exact Hs|exact Hi|]. apply wpg_bind.
  eapply wpg_free_ptr; [exact Hs|exact Hext|exact Hnd|exact Ha|]. intros m1 s1 Hs1 Hext1 Hsame.
  apply NoDup_app in Hnd as (_ & _ & Hnd).
  eapply wpg_load_failed1; [exact Hs1|exact Hext1|exact Hnd| |rewrite Hsame; [exact Hi|set_solver]|exact HQ].
  by eapply fd_at_same; [exact Hfd|]; intros; apply Hsame; set_solver.
Qed.

Lemma wpg_load_failed3 fd i f base Q m n v s :
  holding m n v s -> bundle base i f (fd_ids fd) m -> key f = None -> fd_at m fd ->
  (forall s', objects s' = base -> Q None s') -> wpg Fl (load_failed3 succeeds fd i) Q s.
Proof.
  intros Hs [Hi Ha Hc _ Hnd Hext] Ek Hfd HQ. rewrite Ek in *. cbn [ids app] in *.
  rewrite Permutation_app_swap_app in Hnd.
  apply (extends_perm _ _ _ _ (Permutation_app_swap_app _ _ _)) in Hext.
  unfold load_failed3. apply wpg_bind. eapply wpg_get_certs; [exact Hs|exact Hi|]. apply wpg_bind.
  eapply wpg_free_ptr; [exact Hs|exact Hext|exact Hnd|exact Hc|]. intros m1 s1 Hs1 Hext1 Hsame.
  apply NoDup_app in Hnd as (_ & _ & Hnd).
  eapply wpg_load_failed2; [exact Hs1|rewrite Hsame; [exact Hi|set_solver]| | |exact Hext1|exact Hnd|exact HQ].
  - by eapply block_at_same; [exact Ha|]; intros; apply Hsame; set_solver.
  - by eapply fd_at_same; [exact Hfd|]; intros; apply Hsame; set_solver.
Qed.

End Free.

(** * Reading the files *)

Section Load.
Context (succeeds : list sys_call -> sys_call -> bool) (files : list Z -> list Z).
Context (read_result : list sys_call -> Z -> Z) (fill : list sys_call -> nat -> Z) (sizeof : string -> Z).
Context (Fl : failure -> Prop).
Implicit Types (m : gmap nat object) (n : nat) (v : list Z).

(** What read returns: at most what was asked for and what is left. *)
Definition reads_ok : Prop := forall h left, 0 <= left -> -1 <= read_result h left <= Z.min 1024 left.
(** It does not fail. *)
Definition reads_all : Prop := forall h left, 0 < left -> 0 < read_result h left.

Context (Hreads : reads_ok).

Lemma wpg_load_loop content fd j d0 Q m n v s :
  holding m n v s -> m !! j = Some (Bytes d0) -> zlen d0 = zlen content + 8 ->
  (forall d s', holding (<[j := Bytes d]> m) n v s' -> zlen d = zlen content + 8 ->
     (reads_all -> take (length content) d = content) -> Q tt s') ->
  wpg Fl (loop (S (length content)) (load_round succeeds read_result content fd j) 0) Q s.
Proof.
  intros Hs Hj Hl HQ.
  apply (wpg_loop _ _ (fun k s => exists d, holding (<[j := Bytes d]> m) n v s /\ zlen d = zlen content + 8 /\
      0 <= k <= zlen content /\ take (Z.to_nat k) d = take (Z.to_nat k) content)
    (fun k _ => Z.to_nat (zlen content - k))).
  - intros k s1 (d & Hs1 & Hd & Hk & Htake). unfold load_round, read_into.
    apply wpg_bind, wpg_bind, wpg_gets, wpg_bind. eapply wpg_sys_quiet; [done|exact Hs1|]. intros _ s2 Hs2.
    pose proof (Hreads (history s1) (zlen content - k) ltac:(lia)) as Hbr.
    set (br := read_result (history s1) (zlen content - k)) in *.
    assert (holding (<[j := Bytes d]> m) n v s2 -> ~ 0 < br -> Q tt s2) as Hdone.
    { intros Hs2' Hz. eapply HQ; [exact Hs2'|exact Hd|]. intros Hall.
      destruct (Z.eq_dec k (zlen content)) as [->|Hne]; [unfold zlen in Htake; rewrite Nat2Z.id in Htake; by rewrite Htake, firstn_all|].
      pose proof (Hall (history s1) (zlen content - k) ltac:(lia)). fold br in H. lia. }
    destruct (Z.ltb_spec 0 br) as [Hpos|Hz]; cbn beta iota zeta.
    2: { wp_steps. rewrite (proj2 (Z.ltb_ge _ _)) by lia. apply Hdone; [done|lia]. }
    apply wpg_bind, wpg_bind, wpg_gets. rewrite (holding_objects _ _ _ _ Hs2), lookup_insert_eq.
    assert (zlen (zsub content k br) = br) as Hz by (apply zlen_zsub; lia).
    destruct (zblit_ex d k (zsub content k br)) as [d' Hd']; [lia|lia|]. rewrite Hd'. wp_steps. rewrite (proj2 (Z.ltb_lt _ _)) by lia.
    pose proof (zblit_zlen _ _ _ _ Hd') as Hl'. split; [|lia].
    exists d'. split_and!; [|lia|lia|lia|].
    + destruct Hs2 as [Ho H2 H3]. split; [|done|done]. cbn [objects set_objects]. by rewrite Ho, insert_insert_eq.
    + rewrite zblit_is_Some in Hd' by lia. injection Hd' as <-. unfold zsub in *.
      rewrite (Z2Nat.inj_add k br), <- (take_take_drop content) by lia.
      rewrite app_assoc, take_app_le.
      * rewrite take_ge; [by rewrite Htake|]. rewrite length_app, length_take.
        assert (length (take (Z.to_nat br) (drop (Z.to_nat k) content)) = Z.to_nat br) by (unfold zlen in Hz; lia). lia.
      * rewrite length_app, length_take. unfold zlen in *. lia.
  - exists d0. rewrite insert_id by exact Hj. split_and!; [exact Hs|exact Hl|lia|apply zlen_nonneg|done].
  - unfold zlen. lia.
Qed.

(** What one part of sslcert_load does to the objects [m] with the structure [i]. *)
Lemma wpg_load_file name i set_len set_ptr f Q m n v s :
  let len := u32 (zlen (files name)) in
  holding m n v s -> (forall k, (n <= k)%nat -> m !! k = None) -> m !! i = Some (Certs f) ->
  (forall s', holding m n v s' -> Q (Open_failed, -1) s') ->
  (forall s', holding (<[i := Certs (set_ptr None (set_len len f))]> (<[n := Descriptor]> m)) (S n) v s' ->
     Q (No_memory, Z.of_nat n) s') ->
  (forall d s', holding (<[S n := Bytes d]> (<[i := Certs (set_ptr (Some (S n, 0)) (set_len len f))]> m)) (S (S n)) v s' ->
     zlen d = zlen (files name) + 8 ->
     (reads_all -> take (length (files name)) d = files name) -> Q (Loaded, Z.of_nat n) s') ->
  wpg Fl (load_file succeeds files read_result fill name i set_len set_ptr) Q s.
Proof.
  intros len Hs Hn Hi Hopen Hmem Hload. unfold load_file.
  assert (i < n)%nat by (destruct (Nat.lt_ge_cases i n); [done|]; by rewrite Hn in Hi).
  assert (m !! n = None) as Hn0 by (apply Hn; lia). assert (m !! S n = None) as Hn1 by (apply Hn; lia).
  apply wpg_bind. eapply wpg_new_descriptor; [done|exact Hs| |]; intros s1 Hs1.
  2: { by apply wpg_ret, Hopen. }
  rewrite (proj2 (Z.ltb_ge _ _)) by lia. cbv zeta. fold len.
  assert (<[n := Descriptor]> m !! i = Some (Certs f)) as Hi1 by (by rewrite lookup_insert_ne by lia).
  apply wpg_bind. eapply wpg_set_certs; [exact Hs1|exact Hi1|]. intros s2 Hs2.
  apply wpg_bind. eapply wpg_malloc_bytes; [exact Hs2| |].
  2: { intros s3 Hs3. apply wpg_bind. eapply wpg_set_certs; [exact Hs3|by rewrite lookup_insert_eq|].
       intros s4 Hs4. rewrite insert_insert_eq in Hs4. by apply wpg_ret, Hmem. }
  intros d s3 Hd Hs3. apply wpg_bind.
  eapply wpg_set_certs; [exact Hs3|by rewrite lookup_insert_ne, lookup_insert_eq by lia|]. intros s4 Hs4.
  cbn [option_map]. apply wpg_bind. pose proof (zlen_nonneg (files name)).
  eapply wpg_load_loop; [exact Hs4|by rewrite lookup_insert_ne, lookup_insert_eq by lia|lia|].
  intros d' s5 Hs5 Hd' Hall. apply wpg_bind.
  eapply wpg_close_fd; [exact Hs5|by rewrite !lookup_insert_ne, lookup_insert_eq by lia|].
  intros s6 Hs6. apply wpg_ret. eapply Hload; [|exact Hd'|exact Hall].
  assert (delete n (<[S n := Bytes d']> (<[i := Certs (set_ptr (Some (S n, 0)) (set_len len f))]>
    (<[S n := Bytes d]> (<[i := Certs (set_len len f)]> (<[n := Descriptor]> m))))) =
    <[S n := Bytes d']> (<[i := Certs (set_ptr (Some (S n, 0)) (set_len len f))]> m)) as <-; [|exact Hs6].
  rewrite (insert_insert_ne _ i (S n)), insert_insert_eq, (insert_insert_eq _ i) by lia.
  by rewrite (delete_insert_ne _ n (S n)), (delete_insert_ne _ n i), delete_insert_id by (done || lia).
Qed.

(** ** The three parts *)

Definition ids_of (f : ssl_ca_crt_key_t) : list nat := ids (cacrt f) ++ ids (cert f) ++ ids (key f).
Definition blocks_at m (f : ssl_ca_crt_key_t) : Prop :=
  block_at m (cacrt f) /\ block_at m (cert f) /\ block_at m (key f).

Lemma bundle_intro base i f extra m :
  m !! i = Some (Certs f) -> blocks_at m f -> NoDup (ids_of f ++ extra ++ [i]) ->
  extends base (ids_of f ++ extra ++ [i]) m -> bundle base i f extra m.
Proof. unfold ids_of. intros Hi (? & ? & ?) Hnd Hext. rewrite <- !app_assoc in Hnd, Hext. by split. Qed.

Lemma bundle_elim base i f extra m :
  bundle base i f extra m ->
  m !! i = Some (Certs f) /\ blocks_at m f /\ NoDup (ids_of f ++ extra ++ [i]) /\
  extends base (ids_of f ++ extra ++ [i]) m.
Proof. intros [? ? ? ? Hnd Hext]. unfold ids_of. rewrite <- !app_assoc. by split_and!. Qed.

(** A member of the structure is set to NULL or to a new block. *)
Definition sets_member (f : ssl_ca_crt_key_t) (upd : pointer -> ssl_ca_crt_key_t) : Prop :=
  forall p, ids_of (upd p) ≡ₚ ids p ++ ids_of f /\
    forall m, blocks_at m f -> block_at m p -> blocks_at m (upd p).

Lemma blocks_at_mono m m' f :
  blocks_at m f -> (forall j d, m !! j = Some (Bytes d) -> m' !! j = Some (Bytes d)) -> blocks_at m' f.
Proof.
  intros (H1 & H2 & H3) Hm.
  assert (forall p, block_at m p -> block_at m' p) as Hp.
  { intros [[j off]|] H; [|done]. destruct H as [? [d Hd]]. split; [done|]. exists d. by apply Hm. }
  by split_and!; apply Hp.
Qed.

(** Certificates [f'] for [f], and the object [j] is new. *)
Lemma bytes_kept m i (f f' : ssl_ca_crt_key_t) j o :
  m !! i = Some (Certs f) -> m !! j = None ->
  forall k d, m !! k = Some (Bytes d) -> <[j := o]> (<[i := Certs f']> m) !! k = Some (Bytes d).
Proof. intros Hi Hj k d Hk. rewrite !lookup_insert_ne by congruence. done. Qed.

(** A number that is not in use is none of the bundle's. *)
Lemma bundle_fresh base i f m j :
  bundle base i f [] m -> m !! j = None -> i <> j /\ j ∉ ids_of f ++ [i].
Proof.
  intros (Hi & (H1 & H2 & H3) & _ & _)%bundle_elim Hj. assert (i <> j) as Hij by congruence. split; [done|].
  assert (forall p, block_at m p -> j ∉ ids p) as Hp.
  { intros [[k off]|] Hk; [|set_solver]. destruct Hk as [_ [d Hd]]. cbn.
    intros Heq%list_elem_of_singleton. congruence. }
  unfold ids_of. rewrite !elem_of_app, list_elem_of_singleton.
  intros [[?|[?|?]]|Heq]; [by apply (Hp _ H1)|by apply (Hp _ H2)|by apply (Hp _ H3)|congruence].
Qed.

Lemma bundle_loaded base i f upd m j d :
  bundle base i f [] m -> sets_member f upd -> m !! j = None ->
  bundle base i (upd (Some (j, 0))) [] (<[j := Bytes d]> (<[i := Certs (upd (Some (j, 0)))]> m)).
Proof.
  intros Hbu Hupd Hj. destruct (bundle_fresh _ _ _ _ _ Hbu Hj) as [Hij Hnew].
  apply bundle_elim in Hbu as (Hi & Hb & Hnd & Hext). cbn [app] in *.
  destruct (Hupd (Some (j, 0))) as [Hids Hblocks]. apply bundle_intro.
  - by rewrite lookup_insert_ne, lookup_insert_eq by done.
  - apply Hblocks; [by eapply blocks_at_mono; [exact Hb|]; apply (bytes_kept _ _ f)|].
    split; [done|]. exists d. apply lookup_insert_eq.
  - cbn [app]. rewrite Hids. cbn [ids app]. by apply NoDup_cons.
  - cbn [app]. eapply extends_perm; [by rewrite Hids|]. cbn [ids app]. apply extends_insert.
    + apply extends_update; [exact Hext|set_solver].
    + by rewrite lookup_insert_ne.
Qed.

Lemma bundle_no_memory base i f upd m n :
  bundle base i f [] m -> sets_member f upd -> m !! n = None ->
  bundle base i (upd None) (fd_ids (Z.of_nat n)) (<[i := Certs (upd None)]> (<[n := Descriptor]> m)).
Proof.
  intros Hbu Hupd Hn. destruct (bundle_fresh _ _ _ _ _ Hbu Hn) as [Hij Hnew].
  apply bundle_elim in Hbu as (Hi & Hb & Hnd & Hext). cbn [app] in *.
  destruct (Hupd None) as [Hids Hblocks]. cbn [ids app] in Hids.
  assert (fd_ids (Z.of_nat n) = [n]) as ->.
  { unfold fd_ids. rewrite (proj2 (Z.ltb_ge _ _)) by lia. by rewrite Nat2Z.id. }
  assert (ids_of (upd None) ++ [n] ++ [i] ≡ₚ n :: ids_of f ++ [i]) as Hperm
    by (rewrite Hids; apply Permutation_app_swap_app).
  rewrite insert_insert_ne by done. apply bundle_intro.
  - by rewrite lookup_insert_ne, lookup_insert_eq by done.
  - apply Hblocks; [|done]. by eapply blocks_at_mono; [exact Hb|]; apply (bytes_kept _ _ f).
  - rewrite Hperm. by apply NoDup_cons.
  - eapply extends_perm; [symmetry; exact Hperm|]. apply extends_insert.
    + apply extends_update; [exact Hext|set_solver].
    + by rewrite lookup_insert_ne.
Qed.

(** A member of the structure that has been loaded from the file [name]. *)
Definition member_loaded m (name : option (list Z)) (p : pointer) (len : Z) : Prop :=
  match name with
  | None => p = None /\ len = 0
  | Some nm =>
      exists j d, p = Some (j, 0) /\ m !! j = Some (Bytes d) /\ len = u32 (zlen (files nm)) /\
        zlen d = zlen (files nm) + 8 /\ (reads_all -> take (length (files nm)) d = files nm)
  end.

Lemma member_loaded_mono m m' name p len :
  member_loaded m name p len -> (forall j d, m !! j = Some (Bytes d) -> m' !! j = Some (Bytes d)) ->
  member_loaded m' name p len.
Proof.
  destruct name as [nm|]; [|done]. intros (j & d & ? & ? & ?) Hm. exists j, d. split; [done|]. split; [by apply Hm|done].
Qed.

Lemma wpg_load_part name i set_len set_ptr f Q base m n v s :
  let upd p := set_ptr p (set_len (u32 (zlen (files name))) f) in
  holding m n v s -> unused n m -> bundle base i f [] m -> sets_member f upd ->
  (forall s', holding m n v s' -> Q (Open_failed, -1) s') ->
  (forall fd m' n' s', holding m' n' v s' -> fd_at m' fd -> bundle base i (upd None) (fd_ids fd) m' ->
     Q (No_memory, fd) s') ->
  (forall fd p m' n' s', holding m' n' v s' -> unused n' m' -> bundle base i (upd p) [] m' ->
     (forall j d, m !! j = Some (Bytes d) -> m' !! j = Some (Bytes d)) ->
     member_loaded m' (Some name) p (u32 (zlen (files name))) -> Q (Loaded, fd) s') ->
  wpg Fl (load_file succeeds files read_result fill name i set_len set_ptr) Q s.
Proof.
  intros upd Hs Hn Hbu Hupd Hopen Hmem Hload.
  pose proof (Hn n ltac:(lia)) as Hn0. pose proof (Hn (S n) ltac:(lia)) as Hn1.
  pose proof (bundle_fresh _ _ _ _ _ Hbu Hn0) as [Hin _]. pose proof (bu_certs _ _ _ _ _ Hbu) as Hi.
  pose proof (unused_lt _ _ _ _ Hn Hi).
  eapply wpg_load_file; [exact Hs|exact Hn|exact Hi|exact Hopen| |].
  - intros s' Hs'. eapply Hmem; [exact Hs'| |exact (bundle_no_memory _ _ _ upd _ _ Hbu Hupd Hn0)].
    right. split; [lia|]. by rewrite Nat2Z.id, lookup_insert_ne, lookup_insert_eq by lia.
  - intros d s' Hs' Hd Hall. eapply Hload; [exact Hs'| |exact (bundle_loaded _ _ _ upd _ _ d Hbu Hupd Hn1)| |].
    + intros k Hk. rewrite !lookup_insert_ne by lia. apply Hn. lia.
    + exact (bytes_kept _ _ f _ _ _ Hi Hn1).
    + exists (S n), d. split; [done|]. split; [apply lookup_insert_eq|done].
Qed.

(** What sslcert_load leaves, from the objects [base] on: these, or a structure
    with the content of the files, which sslcert_free gives back as long as the
    objects stay. *)
Definition certs_loaded base (cacrt_name cert_name key_name : option (list Z)) (r : option nat) (s : process) : Prop :=
  match r with
  | None => objects s = base
  | Some i =>
      process_ok s /\
      exists f, objects s !! i = Some (Certs f) /\
        member_loaded (objects s) cacrt_name (cacrt f) (cacrt_len f) /\
        member_loaded (objects s) cert_name (cert f) (cert_len f) /\
        member_loaded (objects s) key_name (key f) (key_len f) /\
        forall s1, objects s1 = objects s ->
          wp (sslcert_free succeeds (Some i)) (fun _ s' => objects s' = base) s1
  end.

(** The setters of the three parts. *)
Lemma sets_cacrt f len : cacrt f = None -> sets_member f (fun p => set_cacrt p (set_cacrt_len len f)).
Proof.
  intros E p. unfold ids_of, blocks_at. cbn. rewrite E. split; [done|]. by intros m (_ & ? & ?) ?.
Qed.
Lemma sets_cert f len : cert f = None -> sets_member f (fun p => set_cert p (set_cert_len len f)).
Proof.
  intros E p. unfold ids_of, blocks_at. cbn. rewrite E. split; [apply Permutation_app_swap_app|].
  by intros m (? & _ & ?) ?.
Qed.
Lemma sets_key f len : key f = None -> sets_member f (fun p => set_key p (set_key_len len f)).
Proof.
  intros E p. unfold ids_of, blocks_at. cbn. rewrite E, app_nil_r. split; [by rewrite app_assoc, Permutation_app_comm|].
  by intros m (? & ? & _) ?.
Qed.

Lemma wpg_load_key cacrt_name cert_name key_name i f base m n v s :
  holding m n v s -> unused n m -> bundle base i f [] m -> key f = None -> key_len f = 0 ->
  member_loaded m cacrt_name (cacrt f) (cacrt_len f) -> member_loaded m cert_name (cert f) (cert_len f) ->
  wpg Fl (load_key succeeds files read_result fill key_name i) (certs_loaded base cacrt_name cert_name key_name) s.
Proof.
  intros Hs Hn Hbu Hk Hkl Ha Hc.
  assert (forall f m n s, holding m n v s -> unused n m -> bundle base i f [] m ->
    member_loaded m cacrt_name (cacrt f) (cacrt_len f) -> member_loaded m cert_name (cert f) (cert_len f) ->
    member_loaded m key_name (key f) (key_len f) -> certs_loaded base cacrt_name cert_name key_name (Some i) s) as Hdone.
  { intros f1 m1 n1 s1 [Ho Hnx _] Hn1 Hbu1 Ha1 Hc1 Hk1. split; [by rewrite <- Ho, <- Hnx in Hn1|].
    exists f1. rewrite Ho. split; [by apply Hbu1|]. split; [done|]. split; [done|]. split; [done|].
    intros s2 Ho2. eapply wpg_sslcert_free; [apply holding_self|rewrite Ho2; exact Hbu1|done]. }
  unfold load_key. apply wpg_bind. destruct key_name as [nm|].
  - eapply wpg_load_part; [exact Hs|exact Hn|exact Hbu|by apply sets_key| | |].
    + intros s1 Hs1. eapply wpg_load_failed3; [exact Hs1|exact Hbu|done|by left|done].
    + intros fd m1 n1 s1 Hs1 Hfd Hbu1. eapply wpg_load_failed3; [exact Hs1|exact Hbu1|done|exact Hfd|done].
    + intros fd p m1 n1 s1 Hs1 Hn1 Hbu1 Hkeep Hl. apply wpg_ret.
      eapply Hdone; [exact Hs1|exact Hn1|exact Hbu1|by eapply member_loaded_mono|by eapply member_loaded_mono|exact Hl].
  - apply wpg_ret, wpg_ret. by eapply Hdone.
Qed.

Lemma wpg_load_cert cacrt_name cert_name key_name i f base m n v s :
  holding m n v s -> unused n m -> bundle base i f [] m -> cert f = None -> cert_len f = 0 ->
  key f = None -> key_len f = 0 -> member_loaded m cacrt_name (cacrt f) (cacrt_len f) ->
  wpg Fl (load_cert succeeds files read_result fill cert_name key_name i)
    (certs_loaded base cacrt_name cert_name key_name) s.
Proof.
  intros Hs Hn Hbu Hc Hcl Hk Hkl Ha.
  assert (forall fd f m n s, holding m n v s -> bundle base i f (fd_ids fd) m -> cert f = None -> key f = None ->
    fd_at m fd -> wpg Fl (load_failed2 succeeds fd i) (certs_loaded base cacrt_name cert_name key_name) s) as Hfailed.
  { intros fd f1 m1 n1 s1 Hs1 [Hi1 Ha1 _ _ Hnd1 Hext1] Ec Ek Hfd. rewrite Ec, Ek in *. cbn [ids app] in *.
    by eapply wpg_load_failed2. }
  unfold load_cert. apply wpg_bind. destruct cert_name as [nm|].
  - eapply wpg_load_part; [exact Hs|exact Hn|exact Hbu|by apply sets_cert| | |].
    + intros s1 Hs1. eapply Hfailed; [exact Hs1|exact Hbu|done|done|by left].
    + intros fd m1 n1 s1 Hs1 Hfd Hbu1. by eapply Hfailed; [exact Hs1|exact Hbu1| | |].
    + intros fd p m1 n1 s1 Hs1 Hn1 Hbu1 Hkeep Hl.
      eapply wpg_load_key; [exact Hs1|exact Hn1|exact Hbu1|done|done|by eapply member_loaded_mono|exact Hl].
  - apply wpg_ret. by eapply wpg_load_key.
Qed.

(** sslcert_load returns NULL and leaves nothing, or the certificates. *)
Lemma wpg_sslcert_load cacrt_name cert_name key_name s :
  process_ok s ->
  wpg Fl (sslcert_load succeeds files read_result fill sizeof cacrt_name cert_name key_name)
    (certs_loaded (objects s) cacrt_name cert_name key_name) s.
Proof.
  intros Hok. unfold sslcert_load. apply wpg_bind.
  eapply wpg_create; [done|apply holding_self| |]; intros s1 Hs1.
  2: { apply wpg_ret. apply Hs1. }
  set (base := objects s) in *. set (n := next s) in *. set (f := mkCerts None 0 None 0 None 0) in *.
  assert (bundle base n f [] (<[n := Certs f]> base)) as Hbu.
  { apply bundle_intro; [apply lookup_insert_eq|done|apply NoDup_singleton|].
    apply (extends_insert _ []); [split; set_solver|]. by apply Hok. }
  assert (unused (S n) (<[n := Certs f]> base)) as Hn by (by apply unused_insert).
  unfold load_cacrt. apply wpg_bind. destruct cacrt_name as [nm|].
  - eapply wpg_load_part; [exact Hs1|exact Hn|exact Hbu|by apply sets_cacrt| | |].
    + intros s2 Hs2. unfold load_failed. apply wpg_bind. destruct Hbu as [Hi _ _ _ _ Hext].
      eapply wpg_free_file; [exact Hs2|exact Hext|exact Hi|done|]. intros s3 Hs3. by apply wpg_ret.
    + intros fd m1 n1 s2 Hs2 Hfd [Hi1 _ _ _ Hnd1 Hext1].
      eapply wpg_load_failed1; [exact Hs2|exact Hext1|exact Hnd1|exact Hfd|exact Hi1|done].
    + intros fd p m1 n1 s2 Hs2 Hn1 Hbu1 _ Hl. eapply wpg_load_cert; [exact Hs2|exact Hn1|exact Hbu1|done..].
  - apply wpg_ret. eapply wpg_load_cert; [exact Hs1|exact Hn|exact Hbu|done..].
Qed.
End Load.

(** Loaded certificates can be given to mango_sslconnect. *)
Lemma member_points_to files read_result m name p len :
  member_loaded files read_result m name p len -> points_to m p len.
Proof.
  destruct name as [nm|]; [|by intros [-> _]]. intros (j & d & -> & Hd & -> & Hl & _).
  exists d. split; [done|]. split; [done|]. pose proof (zlen_nonneg (files nm)).
  pose proof (Z.mod_pos_bound (zlen (files nm)) 4294967296 ltac:(lia)).
  pose proof (Z.mod_le (zlen (files nm)) 4294967296 ltac:(lia) ltac:(lia)). unfold u32. split; [lia|].
  change (2 ^ 32) with 4294967296 in *. lia.
Qed.
