(* ===== verification/MangoApiFacts.v ===== *)
(** The functions of mango.c: how a request is built in the working buffer, and
    what the calls that exchange data do to a client at rest. *)

From S2P Require Import Prelude.
From S2P Require Import CMonad.
From S2P Require Import CString.
From S2P Require Import MangoTypes.
From S2P Require Import MangoHelper.
From S2P Require Import MangoHelperFacts.
From S2P Require Import MangoHttpFacts.
From S2P Require Import MangoBase64.
From S2P Require Import MangoPort.
From S2P Require Import MangoPortFacts.
From S2P Require Import MangoWS.
From S2P Require Import MangoWSFacts.
From S2P Require Import MangoDP.
From S2P Require Import MangoDPFacts.
From S2P Require Import MangoChunkedFacts.
From S2P Require Import MangoSM.
From S2P Require Import MangoInvariant.
From S2P Require Import Mango.

(** * Building a request *)

(** The request in the working buffer. *)
Definition request_text (c : mangoHttpClient_t) : list Z :=
  zsub (workingBuffer c) 0 (workingBufferIndexRight c).

(** [c] after the bytes [t] have been appended to the request of [c0]. *)
Definition appended (c0 : mangoHttpClient_t) (t : list Z) (c : mangoHttpClient_t) : Prop :=
  exists wb,
    c = set_workingBufferIndexRight (workingBufferIndexRight c0 + zlen t)
          (set_workingBuffer wb c0) /\
    zlen wb = zlen (workingBuffer c0) /\ holds wb 0 (request_text c0 ++ t).

Section Build.
Context (Fl : failure -> Prop).

Lemma zlen_request_text c : wb_ok c -> zlen (request_text c) = workingBufferIndexRight c.
Proof.
  intros (Hz & Hl & Hr). unfold request_text, MANGO_WB_TOT_SZ in *. rewrite zlen_zsub; lia.
Qed.

Lemma request_text_holds c : wb_ok c -> holds (workingBuffer c) 0 (request_text c).
Proof. intros (Hz & Hl & Hr). unfold MANGO_WB_TOT_SZ in *. apply holds_of_zsub; lia. Qed.

Lemma appended_text c0 t c :
  wb_ok c0 -> appended c0 t c -> request_text c = request_text c0 ++ t.
Proof.
  intros Hwb (wb & -> & Hz & Hh). apply holds_zsub in Hh; [|done].
  rewrite zlen_app, zlen_request_text in Hh by done. exact Hh.
Qed.

Lemma wpg_wb_append site c0 t token w (Q : bool -> world -> Prop) :
  wb_ok c0 -> appended c0 t (client w) -> zlen token <= 65535 ->
  workingBufferIndexRight c0 + zlen t <= MANGO_WB_TOT_SZ ->
  (workingBufferIndexRight c0 + zlen (t ++ token) <= MANGO_WB_TOT_SZ ->
   forall c, appended c0 (t ++ token) c -> Q true (mkWorld c (trace w))) ->
  (MANGO_WB_TOT_SZ < workingBufferIndexRight c0 + zlen (t ++ token) -> Q false w) ->
  wpg Fl (wb_append site token) Q w.
Proof.
  intros Hwb (wb & Hc & Hzw & Hh) Htk Hfit HQ1 HQ2. rewrite zlen_app in *.
  pose proof (zlen_request_text _ Hwb) as Hrl. destruct Hwb as (Hz & Hl & Hr).
  pose proof (zlen_nonneg t). pose proof (zlen_nonneg token).
  unfold wb_append, MANGO_WB_TOT_SZ, MANGO_WORKING_BUFFER_SZ in *. cbv zeta.
  rewrite u16_small by (unfold is_u16; lia). mg_steps. rewrite Hc. cbn -[Z.add Z.ltb].
  destruct (Z.ltb_spec (4096 - 1) (workingBufferIndexRight c0 + zlen t + zlen token)).
  { mg_steps. apply HQ2. lia. }
  mg_steps. rewrite ?Hc. cbn -[Z.add zblit].
  destruct (zblit_ex wb (workingBufferIndexRight c0 + zlen t) token) as [wb2 Hb2]; [lia | lia|].
  eapply wpg_access_Some; [rewrite zsub_all; exact Hb2|]. mg_steps.
  cbn -[Z.add u16]. rewrite Hc. cbn -[Z.add u16].
  rewrite u16_small by (unfold is_u16; lia).
  apply HQ1; [lia|]. exists wb2. split.
  - unfold upd_client. cbn -[Z.add]. rewrite Hc, zlen_app. cbn -[Z.add]. by rewrite Z.add_assoc.
  - split; [by rewrite (zblit_zlen _ _ _ _ Hb2)|]. rewrite app_assoc. apply holds_app.
    rewrite zlen_app, Hrl, Z.add_0_l. split; [|by apply (zblit_holds _ _ _ _ Hb2)].
    eapply zblit_holds_before; [exact Hb2 | done | rewrite zlen_app; lia | done].
Qed.

Lemma wpg_append_then site c0 t token (k : M world bool) w (Q : bool -> world -> Prop) :
  wb_ok c0 -> appended c0 t (client w) -> zlen token <= 65535 ->
  workingBufferIndexRight c0 + zlen t <= MANGO_WB_TOT_SZ ->
  (workingBufferIndexRight c0 + zlen (t ++ token) <= MANGO_WB_TOT_SZ ->
   forall c, appended c0 (t ++ token) c -> wpg Fl k Q (mkWorld c (trace w))) ->
  (MANGO_WB_TOT_SZ < workingBufferIndexRight c0 + zlen (t ++ token) -> Q false w) ->
  wpg Fl (and_then (wb_append site token) k) Q w.
Proof.
  intros Hwb Ht Htk Hfit HQ1 HQ2. unfold and_then. wp_step.
  apply (wpg_wb_append _ c0 t); [done | done | done | done | |].
  - intros Hf c Hc. by apply HQ1.
  - intros Hf. wp_step. by apply HQ2.
Qed.

Lemma appended_nil c : wb_ok c -> appended c [] c.
Proof.
  intros Hwb. exists (workingBuffer c). change (zlen (@nil Z)) with 0.
  rewrite Z.add_0_r, app_nil_r. split; [by destruct c|]. split; [done|].
  by apply request_text_holds.
Qed.

(** ** mango_httpRequestNew *)

Definition request_line (token URI : list Z) : list Z :=
  token ++ URI ++ bytes " HTTP/1.1" ++ CRLF ++ CRLF.

(** The client after a request has been started. *)
Definition request_started (c0 : mangoHttpClient_t) (method : mangoHttpMethod_e)
    (text : list Z) (c : mangoHttpClient_t) : Prop :=
  exists wb,
    c = set_workingBuffer wb (set_workingBufferIndexRight (zlen text)
          (set_workingBufferIndexLeft 0 (set_httpMethod method c0))) /\
    zlen wb = MANGO_WORKING_BUFFER_SZ /\ holds wb 0 (text ++ [0]).

Lemma method_token_len method token : method_token method = Some token -> zlen token <= 5.
Proof. by destruct method; intros [= <-]. Qed.

Lemma wpg_httpRequestNew URI method w (Q : mangoErr_t -> world -> Prop) :
  zlen (workingBuffer (client w)) = MANGO_WORKING_BUFFER_SZ -> zlen URI <= 65535 ->
  (forall token c, method_token method = Some token ->
     zlen (request_line token URI) <= MANGO_WB_TOT_SZ ->
     request_started (client w) method (request_line token URI) c ->
     Q MANGO_OK (mkWorld c (trace w))) ->
  (forall c, (forall token, method_token method = Some token ->
       MANGO_WB_TOT_SZ < zlen (request_line token URI)) ->
     request_started (client w) method [] c -> Q MANGO_ERR (mkWorld c (trace w))) ->
  wpg Fl (mango_httpRequestNew URI method) Q w.
Proof.
  intros Hz Hu HQ1 HQ2. unfold mango_httpRequestNew. mg_steps. cbn [client upd_client].
  set (c0 := set_workingBufferIndexLeft 0 (set_workingBufferIndexRight 0
               (set_httpMethod method (client w)))).
  assert (wb_ok c0) as Hwb0.
  { unfold wb_ok, MANGO_WB_TOT_SZ, MANGO_WORKING_BUFFER_SZ in *. cbn. lia. }
  assert (forall wb w1, (forall token, method_token method = Some token ->
       MANGO_WB_TOT_SZ < zlen (request_line token URI)) ->
    client w1 = set_workingBufferIndexRight (workingBufferIndexRight (client w1))
                  (set_workingBuffer wb c0) -> trace w1 = trace w ->
    wpg Fl request_new_error Q w1) as Herr.
  { intros wb w1 Hbig Hc Ht. unfold request_new_error. mg_steps. destruct w1 as [c1 tr1].
    cbn in Ht. subst tr1. unfold upd_client. cbn. apply HQ2; [done|].
    cbn in Hc. rewrite Hc. by eexists. }
  change (method_token (httpMethod _)) with (method_token method).
  destruct (method_token method) as [token|] eqn:Htok.
  2: { apply (Herr (workingBuffer (client w))); done. }
  pose proof (method_token_len _ _ Htok).
  assert (forall t w1, MANGO_WB_TOT_SZ < zlen (request_line token URI) ->
    appended c0 t (client w1) -> trace w1 = trace w ->
    wpg Fl request_new_error Q w1) as Herr2.
  { intros t w1 Hbig (wb & Hc & _) Htr. apply (Herr wb); [by intros ? [= <-] | | done].
    by rewrite Hc. }
  pose proof (zlen_nonneg URI). pose proof (zlen_nonneg token).
  assert (zlen (request_line token URI) = zlen token + zlen URI + 13) as Hlen
    by (unfold request_line; rewrite !zlen_app; change (zlen (bytes " HTTP/1.1")) with 9;
        change (zlen CRLF) with 2; lia).
  wp_step. change [13; 10; 13; 10] with (CRLF ++ CRLF).
  apply (wpg_append_then _ c0 []); 
    [done | by apply appended_nil | lia | by vm_compute | |].
  2: { intros Hbig. cbn [negb]. eapply Herr2; [|by apply appended_nil|done].
       change (workingBufferIndexRight c0) with 0 in Hbig. cbn [app] in Hbig. lia. }
  intros Hf1 c1 Hc1. eapply wpg_append_then; [exact Hwb0 | exact Hc1 | exact Hu | exact Hf1 | |].
  2: { intros Hbig. cbn [negb]. eapply Herr2; [|exact Hc1|done]. 
       change (workingBufferIndexRight c0) with 0 in Hbig.
       rewrite !zlen_app in Hbig. change (zlen (@nil Z)) with 0 in Hbig. lia. }
  intros Hf2 c2 Hc2. eapply wpg_wb_append; [exact Hwb0 | exact Hc2 | done | exact Hf2 | |].
  2: { intros Hbig. cbn [negb]. eapply Herr2; [|exact Hc2|done]. 
       change (workingBufferIndexRight c0) with 0 in Hbig.
       rewrite !zlen_app in Hbig. change (zlen (@nil Z)) with 0 in Hbig.
       change (zlen (bytes " HTTP/1.1")) with 9 in Hbig. change (zlen CRLF) with 2 in Hbig. lia. }
  intros Hfit c3 Hc3. cbn [negb].
  assert (([] ++ token) ++ URI ++ bytes " HTTP/1.1" ++ CRLF ++ CRLF = request_line token URI)
    as Etext by (unfold request_line; cbn [app]; done).
  rewrite <- app_assoc, Etext in Hfit, Hc3.
  destruct Hc3 as (wb & -> & Hzb & Hh). change (workingBufferIndexRight c0) with 0 in *.
  change (request_text c0) with (@nil Z) in Hh. rewrite Z.add_0_l in *. cbn [app] in Hh.
  change (workingBuffer c0) with (workingBuffer (client w)) in *.
  unfold MANGO_WB_TOT_SZ, MANGO_WORKING_BUFFER_SZ in *.
  mg_steps. eapply wpg_access_Some; [apply zset_is_Some; cbn -[zlen]; lia|]. mg_steps.
  apply (HQ1 token); [done | done|].
  eexists. split; [reflexivity|]. cbn -[zlen]. rewrite zlen_insert.
  split; [unfold MANGO_WORKING_BUFFER_SZ; lia|].
  apply holds_app. split.
  - apply holds_insert_after; [lia | lia | done].
  - split; [|done]. rewrite Z.add_0_l. apply zget_insert_eq. lia.
Qed.

(** ** mango_httpHeaderSet and mango_httpAuthSet *)

(** Only the request has changed, and it is [text] now. *)
Definition request_becomes (c0 : mangoHttpClient_t) (text : list Z) (c : mangoHttpClient_t)
    : Prop :=
  exists wb,
    c = set_workingBufferIndexRight (zlen text) (set_workingBuffer wb c0) /\
    zlen wb = MANGO_WORKING_BUFFER_SZ /\ request_text c = text.

Lemma appended_becomes c0 t c :
  wb_ok c0 -> appended c0 t c -> request_becomes c0 (request_text c0 ++ t) c.
Proof.
  intros Hwb Ht. pose proof (appended_text _ _ _ Hwb Ht) as Htxt.
  pose proof (zlen_request_text _ Hwb) as Hl.
  destruct Ht as (wb & -> & Hz & Hh). exists wb. rewrite zlen_app, Hl.
  split; [done|]. split; [by rewrite Hz; apply Hwb | done].
Qed.

(** Bytes behind the request of [c0] may have been written. *)
Definition touched (c0 c : mangoHttpClient_t) : Prop :=
  exists wb n,
    c = set_workingBufferIndexRight n (set_workingBuffer wb c0) /\
    zlen wb = zlen (workingBuffer c0) /\
    zsub wb 0 (workingBufferIndexRight c0) = request_text c0.

Lemma holds_touched c0 wb n c :
  wb_ok c0 -> c = set_workingBufferIndexRight n (set_workingBuffer wb c0) ->
  zlen wb = zlen (workingBuffer c0) -> holds wb 0 (request_text c0) -> touched c0 c.
Proof.
  intros Hwb -> Hz Hh. exists wb, n. split; [done|]. split; [done|].
  apply holds_zsub in Hh; [|done]. by rewrite (zlen_request_text _ Hwb) in Hh.
Qed.

Lemma appended_touched c0 t c : wb_ok c0 -> appended c0 t c -> touched c0 c.
Proof.
  intros Hwb (wb & Hc & Hz & Hh). apply holds_app in Hh as [Hh _]. by eapply holds_touched.
Qed.

(** handleError puts the line end back. *)
Lemma wpg_header_error site c0 w (Q : mangoErr_t -> world -> Prop) :
  wb_ok c0 -> workingBufferIndexRight c0 + 2 <= MANGO_WB_TOT_SZ -> touched c0 (client w) ->
  (forall c, request_becomes c0 (request_text c0 ++ CRLF) c -> Q MANGO_ERR (mkWorld c (trace w))) ->
  wpg Fl (header_error site (workingBufferIndexRight c0)) Q w.
Proof.
  intros Hwb Hfit (wb0 & n & Hc & Hz & Hsub) HQ.
  pose proof (zlen_request_text _ Hwb) as Hrl. pose proof Hwb as (Hz0 & Hl & Hr).
  destruct w as [c tr]. cbn [client trace] in *.
  unfold MANGO_WB_TOT_SZ, MANGO_WORKING_BUFFER_SZ in *.
  subst c. change (zlen wb0 = zlen (workingBuffer c0)) in Hz.
  set (c1 := set_workingBufferIndexRight (workingBufferIndexRight c0) (set_workingBuffer wb0 c0)).
  assert (wb_ok c1) as Hwb1.
  { unfold wb_ok, MANGO_WB_TOT_SZ, MANGO_WORKING_BUFFER_SZ, c1. cbn -[zlen]. lia. }
  assert (request_text c1 = request_text c0) as Htxt by exact Hsub.
  unfold header_error, wb_push. mg_steps.
  pose proof (zblit_nil wb0 (workingBufferIndexRight c0) ltac:(lia)) as Hb0.
  pose proof (zblit_snoc _ _ _ _ 13 Hb0) as Hb1. rewrite Z.add_0_r in Hb1.
  destruct (zblit_ex wb0 (workingBufferIndexRight c0) [13]) as [wb1 Hw1];
    [lia | change (zlen [13]) with 1; lia|].
  eapply wpg_access_Some; [cbn; rewrite Hb1 by lia; exact Hw1|].
  mg_steps. cbn -[Z.add u16]. rewrite u16_small by (unfold is_u16; lia).
  pose proof (zblit_snoc _ _ _ _ 10 Hw1) as Hb2. change (zlen [13]) with 1 in Hb2.
  destruct (zblit_ex wb0 (workingBufferIndexRight c0) CRLF) as [wb2 Hw2];
    [lia | change (zlen CRLF) with 2; lia|].
  eapply wpg_access_Some; [rewrite Hb2 by lia; exact Hw2|].
  mg_steps. cbn -[Z.add u16]. rewrite u16_small by (unfold is_u16; lia).
  apply HQ. exists wb2. rewrite zlen_app, Hrl. change (zlen CRLF) with 2. rewrite <- Z.add_assoc.
  split; [reflexivity|]. split; [by rewrite (zblit_zlen _ _ _ _ Hw2), Hz|].
  assert (holds wb2 0 (request_text c0 ++ CRLF)) as Hh2.
  { apply holds_app. rewrite Hrl, Z.add_0_l. split; [|by apply (zblit_holds _ _ _ _ Hw2)].
    eapply zblit_holds_before; [exact Hw2 | done | lia|]. rewrite <- Htxt.
    by apply (request_text_holds c1). }
  apply holds_zsub in Hh2; [|done]. rewrite zlen_app, Hrl in Hh2. exact Hh2.
Qed.

(** [m] takes the request from [t] to [T] behind [c0] if [P], and otherwise
    goes to handleError. *)
Definition appends (c0 : mangoHttpClient_t) (t T : list Z) (P : Prop) (m : M world bool) : Prop :=
  forall w, appended c0 t (client w) -> workingBufferIndexRight c0 + zlen t <= MANGO_WB_TOT_SZ ->
    wpg Fl m (fun b w' => trace w' = trace w /\
      if b : bool then P /\ appended c0 T (client w') /\
        workingBufferIndexRight c0 + zlen T <= MANGO_WB_TOT_SZ
      else ~ P /\ touched c0 (client w')) w.

Lemma appends_token site c0 t token :
  wb_ok c0 -> zlen token <= 65535 ->
  appends c0 t (t ++ token) (workingBufferIndexRight c0 + zlen (t ++ token) <= MANGO_WB_TOT_SZ)
    (wb_append site token).
Proof.
  intros Hwb Htk w Ht Hfit. eapply wpg_wb_append; [done | exact Ht | done | done | by auto |].
  intros Hbig. split; [done|]. split; [lia | by eapply appended_touched].
Qed.

Lemma appends_then c0 t1 t2 t3 (P1 P2 P : Prop) m k :
  appends c0 t1 t2 P1 m -> appends c0 t2 t3 P2 k -> (P <-> P1 /\ P2) ->
  appends c0 t1 t3 P (and_then m k).
Proof.
  intros Hm Hk HP w Ht Hfit. unfold and_then. wp_step. eapply wpg_mono; [by apply Hm|].
  intros [] w1 [Htr Hb]; [|wp_step; split; [done|]; tauto].
  destruct Hb as (HP1 & Happ & Hfit2). eapply wpg_mono; [by apply Hk|].
  intros b w2 [Htr2 Hb]. split; [congruence|]. destruct b; tauto.
Qed.

(** The common frame of mango_httpHeaderSet and mango_httpAuthSet. *)
Lemma wpg_set_header site p line (P : Prop) w0 w m (Q : mangoErr_t -> world -> Prop) :
  let c0 := set_workingBufferIndexRight (zlen p) (client w0) in
  wb_ok (client w0) -> workingBufferIndexLeft (client w0) = 0 ->
  request_text (client w0) = p ++ CRLF -> client w = c0 -> trace w = trace w0 ->
  (wb_ok c0 -> appends c0 [] line P m) ->
  (P -> forall c, request_becomes (client w0) (p ++ line) c -> Q MANGO_OK (mkWorld c (trace w0))) ->
  (~ P -> forall c, request_becomes (client w0) (p ++ CRLF) c ->
     Q MANGO_ERR (mkWorld c (trace w0))) ->
  wpg Fl (ok <- m ;; if negb ok then header_error site (zlen p) else ret MANGO_OK) Q w.
Proof.
  intros c0 Hwb Hleft Htxt Hc Htr Hm HQ1 HQ2.
  pose proof (zlen_request_text _ Hwb) as Hrl. rewrite Htxt, zlen_app in Hrl.
  change (zlen CRLF) with 2 in Hrl. pose proof Hwb as (Hz & Hl & Hr). pose proof (zlen_nonneg p).
  assert (wb_ok c0) as Hwb0 by (unfold wb_ok, c0; cbn; lia).
  assert (request_text c0 = p) as Htxt0.
  { unfold request_text in Htxt. rewrite <- Hrl, zsub_split in Htxt by lia.
    apply app_inj_1 in Htxt as [Htxt _]; [done|].
    apply Nat2Z.inj. change (zlen (zsub (workingBuffer (client w0)) 0 (zlen p)) = zlen p).
    unfold MANGO_WB_TOT_SZ in *. apply zlen_zsub; lia. }
  assert (forall text c, request_becomes c0 text c -> request_becomes (client w0) text c) as Hbec.
  { intros text c (wb & -> & Hx). by exists wb. }
  wp_step. eapply wpg_mono.
  { apply Hm; [done | rewrite Hc; by apply appended_nil | cbn -[zlen]; change (zlen (@nil Z)) with 0; lia]. }
  intros b w1 [Htr1 Hb]. destruct b; cbn [negb].
  - destruct Hb as (HP & Happ & _). wp_step. apply appended_becomes in Happ; [|done].
    rewrite Htxt0 in Happ. destruct w1 as [c1 tr1]. cbn in Htr1, Happ. rewrite Htr1, Htr.
    by apply HQ1, Hbec.
  - destruct Hb as [HP Happ].
    change (zlen p) with (workingBufferIndexRight c0).
    eapply wpg_header_error; [done | cbn; lia | exact Happ|].
    intros c Hbc. rewrite Htxt0 in Hbc. rewrite Htr1, Htr. by apply HQ2, Hbec.
Qed.

(** Both drop the empty line first. *)
Lemma wpg_drop_line site p k w (Q : mangoErr_t -> world -> Prop) :
  wb_ok (client w) -> request_text (client w) = p ++ CRLF -> p <> [] ->
  wpg Fl (k (zlen p)) Q (mkWorld (set_workingBufferIndexRight (zlen p) (client w)) (trace w)) ->
  wpg Fl (right <- hc workingBufferIndexRight ;;
          ensure site (2 <? right) ;;
          assign (set_workingBufferIndexRight (u16 (right - 2))) ;;
          prevRequestLen <- hc workingBufferIndexRight ;;
          k prevRequestLen) Q w.
Proof.
  intros Hwb Htxt Hp HQ.
  pose proof (zlen_request_text _ Hwb) as Hrl. rewrite Htxt, zlen_app in Hrl.
  change (zlen CRLF) with 2 in Hrl. pose proof Hwb as (Hz & Hl & Hr).
  assert (0 < zlen p) by (destruct p; [done|]; rewrite zlen_cons; pose proof (zlen_nonneg p); lia).
  do 4 mg_step; [apply Z.ltb_lt; lia|]. do 4 mg_step.
  assert (u16 (workingBufferIndexRight (client w) - 2) = zlen p) as Hu.
  { unfold MANGO_WB_TOT_SZ, MANGO_WORKING_BUFFER_SZ in *.
    rewrite u16_small by (unfold is_u16; lia). lia. }
  rewrite Hu. exact HQ.
Qed.

Lemma wpg_httpHeaderSet name value p w (Q : mangoErr_t -> world -> Prop) :
  let line := name ++ bytes ": " ++ value ++ CRLF ++ CRLF in
  wb_ok (client w) -> workingBufferIndexLeft (client w) = 0 ->
  request_text (client w) = p ++ CRLF -> p <> [] ->
  zlen name <= 65535 -> zlen value <= 65535 ->
  (zlen (p ++ line) <= MANGO_WB_TOT_SZ ->
   forall c, request_becomes (client w) (p ++ line) c -> Q MANGO_OK (mkWorld c (trace w))) ->
  (MANGO_WB_TOT_SZ < zlen (p ++ line) ->
   forall c, request_becomes (client w) (p ++ CRLF) c -> Q MANGO_ERR (mkWorld c (trace w))) ->
  wpg Fl (mango_httpHeaderSet name value) Q w.
Proof.
  intros line Hwb Hleft Htxt Hp Hn Hv HQ1 HQ2. unfold mango_httpHeaderSet.
  apply (wpg_drop_line _ p); [done | done | done|].
  apply (wpg_set_header _ p line (zlen (p ++ line) <= MANGO_WB_TOT_SZ) w); try done;
    [|by intros ?%Z.nle_gt; apply HQ2].
  intros Hwb0. pose proof (zlen_nonneg name). pose proof (zlen_nonneg value).
  change [13; 10; 13; 10] with (CRLF ++ CRLF).
  assert (((([] ++ name) ++ bytes ": ") ++ value) ++ CRLF ++ CRLF = line) as El
    by (unfold line; by rewrite !app_assoc).
  rewrite <- El.
  eapply appends_then; [by apply appends_token | |].
  { eapply appends_then; [by apply appends_token | |reflexivity].
    eapply appends_then; [by apply appends_token | |reflexivity]. by apply appends_token. }
  cbn [workingBufferIndexRight set_workingBufferIndexRight]. rewrite !zlen_app.
  change (zlen (@nil Z)) with 0. change (zlen (bytes ": ")) with 2. change (zlen CRLF) with 2. lia.
Qed.

Lemma wpg_str_append site tmpBuf s x (w : world) (Q : list Z -> world -> Prop) :
  cstr tmpBuf 0 = Some s -> Forall (fun c => c <> 0) x ->
  zlen s + zlen x < zlen tmpBuf ->
  (forall t, zlen t = zlen tmpBuf -> cstr t 0 = Some (s ++ x) -> Q t w) ->
  wpg Fl (str_append site tmpBuf x) Q w.
Proof.
  intros Hs Hx Hfit HQ. unfold str_append, strlen. rewrite Hs. cbn [fmap option_fmap option_map].
  wp_step. wp_step. pose proof (zlen_nonneg s). pose proof (zlen_nonneg x).
  destruct (zblit_ex tmpBuf (zlen s) (x ++ [0])) as [t Ht];
    [lia | rewrite zlen_app; change (zlen [0]) with 1; lia|].
  eapply wpg_access_Some; [exact Ht|]. apply HQ; [by apply (zblit_zlen _ _ _ _ Ht)|].
  apply holds_cstr; [done | | apply Forall_app; split; [by apply (cstr_nonzero _ _ _ Hs) | done]].
  rewrite <- app_assoc. apply holds_app. split; [|by apply (zblit_holds _ _ _ _ Ht)].
  pose proof (cstr_holds _ _ _ Hs) as Hh. apply holds_app in Hh as [Hh _].
  eapply zblit_holds_before; [exact Ht | done | lia | exact Hh].
Qed.

(** A string: bytes other than NUL. *)
Definition is_string (s : list Z) : Prop := Forall (fun c => 0 < c < 256) s.

Lemma is_string_facts s : is_string s -> Forall is_u8 s /\ Forall (fun c => c <> 0) s.
Proof. intros H. split; (eapply Forall_impl; [exact H|]); unfold is_u8; cbn; lia. Qed.

(** The encoded credentials are appended when the buffers are large enough. *)
Lemma appends_credentials c0 t user pass :
  wb_ok c0 -> is_string user -> is_string pass ->
  let code := b64_encode (user ++ bytes ":" ++ pass) in
  appends c0 t (t ++ code)
    (zlen user + zlen pass + 2 <= 32 /\
     workingBufferIndexRight c0 + zlen (t ++ code) < MANGO_WB_TOT_SZ)
    (auth_credentials user pass).
Proof.
  intros Hwb [Hu8 Hu0]%is_string_facts [Hp8 Hp0]%is_string_facts code w Ht Hfit0.
  pose proof Ht as (wb & Hc & Hzb & Hh). pose proof (zlen_request_text _ Hwb) as Hrl. pose proof Hwb as (Hz & Hl & Hr).
  pose proof (zlen_nonneg t). pose proof (zlen_nonneg user). pose proof (zlen_nonneg pass).
  unfold auth_credentials.
  destruct (Z.ltb_spec 32 (zlen user + zlen pass + 1 + 1)).
  { wp_step. split; [done|]. split; [lia | by eapply appended_touched]. }
  wp_step. change (zblit (replicate 32 0) 0 [0]) with (Some (replicate 32 0)). wp_step. wp_step.
  apply (wpg_str_append _ _ []); [done | done | rewrite zlen_replicate; change (zlen (@nil Z)) with 0; lia|].
  intros t1 Hl1 Hs1. wp_step. rewrite zlen_replicate in Hl1.
  apply (wpg_str_append _ _ ([] ++ user)); [done | by repeat constructor
    | rewrite zlen_app; change (zlen (@nil Z)) with 0; change (zlen (bytes ":")) with 1; lia|].
  intros t2 Hl2 Hs2. wp_step.
  apply (wpg_str_append _ _ (([] ++ user) ++ bytes ":")); [done | done
    | rewrite !zlen_app; change (zlen (@nil Z)) with 0; change (zlen (bytes ":")) with 1; lia|].
  intros t3 Hl3 Hs3. wp_step. eapply wpg_access_Some; [exact Hs3|]. mg_steps.
  cbn [app]. rewrite <- app_assoc. set (data := user ++ bytes ":" ++ pass) in *.
  assert (zlen data <= 31) as Hld.
  { unfold data. rewrite !zlen_app. change (zlen (bytes ":")) with 1. lia. }
  assert (zlen code <= 44) as Hcl.
  { unfold code. rewrite b64_encode_length. pose proof (zlen_nonneg data). div_lia. }
  assert (Forall is_u8 data) as Hd8.
  { unfold data. apply Forall_app. split; [done|]. by constructor. }
  rewrite Hc. unfold MANGO_WB_FREE_SZ, MANGO_WB_TOT_SZ, MANGO_WORKING_BUFFER_SZ in *.
  cbn [workingBuffer workingBufferIndexRight set_workingBufferIndexRight set_workingBuffer].
  assert (zlen (t ++ code) = zlen t + zlen code) as Htc by apply zlen_app.
  pose proof (zlen_nonneg code).
  assert (forall m' d, zblit wb (workingBufferIndexRight c0 + zlen t) d = Some m' ->
    zlen m' = zlen (workingBuffer c0) /\ holds m' 0 (request_text c0 ++ t ++ d)) as Hblit.
  { intros m' d Hm'. split; [by rewrite (zblit_zlen _ _ _ _ Hm')|].
    rewrite app_assoc. apply holds_app. rewrite zlen_app, Hrl, Z.add_0_l.
    split; [|by apply (zblit_holds _ _ _ _ Hm')].
    eapply zblit_holds_before; [exact Hm' | done | rewrite zlen_app; lia | done]. }
  apply wpg_base64Encode; [lia | lia | lia | done | unfold code in *; lia | |]; fold code.
  - intros Hroom m' Hm'. destruct (Hblit _ _ Hm') as [Hz' Hh']. mg_steps.
    destruct (Z.ltb_spec (zlen code) 0); [lia|].
    mg_steps. split; [done|]. split; [lia|]. split; [|lia].
    unfold upd_client. cbn -[Z.add u16 zlen]. rewrite Hc. cbn -[Z.add u16 zlen].
    rewrite u16_small by (unfold is_u16; lia). exists m'.
    rewrite Htc, Z.add_assoc. split; [done|]. split; [done|].
    rewrite !app_assoc in Hh'. apply holds_app in Hh' as [Hh' _]. by rewrite <- app_assoc in Hh'.
  - intros Hroom m' Hm'. destruct (Hblit _ _ Hm') as [Hz' Hh']. mg_steps.
    split; [done|]. split; [lia|]. apply holds_app in Hh' as [Hh' _].
    unfold upd_client. cbn -[Z.add u16 zlen]. rewrite Hc.
    eapply (holds_touched c0 m'); [done | reflexivity | done | done].
Qed.

(** The header of basic authentication (RFC 7617). *)
Definition basic_auth (user pass : list Z) : list Z :=
  MANGO_HDR__AUTHORIZATION ++ bytes ": Basic " ++ b64_encode (user ++ bytes ":" ++ pass) ++
  CRLF ++ CRLF.

Lemma wpg_httpAuthSet user pass p w (Q : mangoErr_t -> world -> Prop) :
  wb_ok (client w) -> workingBufferIndexLeft (client w) = 0 ->
  request_text (client w) = p ++ CRLF -> p <> [] -> is_string user -> is_string pass ->
  let fits := zlen user + zlen pass + 2 <= 32 /\
              zlen (p ++ basic_auth user pass) <= MANGO_WB_TOT_SZ in
  (fits -> forall c, request_becomes (client w) (p ++ basic_auth user pass) c ->
     Q MANGO_OK (mkWorld c (trace w))) ->
  (~ fits -> forall c, request_becomes (client w) (p ++ CRLF) c ->
     Q MANGO_ERR (mkWorld c (trace w))) ->
  wpg Fl (mango_httpAuthSet (Some MANGO_HTTP_AUTH__BASIC) user pass) Q w.
Proof.
  intros Hwb Hleft Htxt Hp Hu Hs fits HQ1 HQ2. unfold mango_httpAuthSet.
  apply (wpg_drop_line _ p (fun prev => _)); [done | done | done|].
  apply (wpg_set_header _ p (basic_auth user pass) fits w); try done.
  intros Hwb0. change [13; 10; 13; 10] with (CRLF ++ CRLF).
  set (code := b64_encode (user ++ bytes ":" ++ pass)).
  assert (((([] ++ MANGO_HDR__AUTHORIZATION) ++ bytes ": Basic ") ++ code) ++ CRLF ++ CRLF =
    basic_auth user pass) as El by (unfold basic_auth; by rewrite <- !app_assoc).
  rewrite <- El.
  eapply appends_then; [by apply appends_token | |].
  { eapply appends_then; [by apply appends_token | |reflexivity].
    eapply appends_then; [by apply appends_credentials | |reflexivity]. by apply appends_token. }
  unfold fits. rewrite <- El. fold code.
  cbn [workingBufferIndexRight set_workingBufferIndexRight]. rewrite !zlen_app.
  pose proof (zlen_nonneg code). pose proof (zlen_nonneg p).
  change (zlen (@nil Z)) with 0. change (zlen MANGO_HDR__AUTHORIZATION) with 13.
  change (zlen (bytes ": Basic ")) with 8. change (zlen CRLF) with 2. lia.
Qed.

(** An unknown scheme is refused, but the empty line stays dropped. *)
Lemma wpg_httpAuthSet_unknown user pass p w (Q : mangoErr_t -> world -> Prop) :
  wb_ok (client w) -> request_text (client w) = p ++ CRLF -> p <> [] ->
  Q MANGO_ERR (mkWorld (set_workingBufferIndexRight (zlen p) (client w)) (trace w)) ->
  wpg Fl (mango_httpAuthSet None user pass) Q w.
Proof.
  intros Hwb Htxt Hp HQ. unfold mango_httpAuthSet.
  apply (wpg_drop_line _ p (fun prev => _)); [done | done | done|]. by wp_step.
Qed.
End Build.

(** * Exchanging data *)

(** A built request: text without NUL, ended by a line end. *)
Definition request_ready (c : mangoHttpClient_t) : Prop :=
  workingBufferIndexLeft c = 0 /\ 0 < workingBufferIndexRight c /\
  Forall (fun b => b <> 0) (request_text c) /\ ends_crlf (request_text c) /\
  httpMethod c <> MANGO_HTTP_METHOD_POST_CHUNKED.

Lemma request_line_ready token URI :
  is_string URI -> Forall (fun b => b <> 0) token ->
  Forall (fun b => b <> 0) (request_line token URI) /\ ends_crlf (request_line token URI).
Proof.
  intros [_ HU]%is_string_facts Ht. split.
  - unfold request_line. repeat (apply Forall_app; split; [first [done | by repeat constructor]|]).
    by repeat constructor.
  - exists (token ++ URI ++ bytes " HTTP/1.1" ++ CRLF). unfold request_line. by rewrite <- !app_assoc.
Qed.

(** A request that has been started can be sent. *)
Lemma request_started_ready c0 method token URI c :
  method_token method = Some token -> is_string URI ->
  request_started c0 method (request_line token URI) c -> request_ready c.
Proof.
  intros Htok HU (wb & -> & Hz & Hh). unfold request_ready. cbn -[zlen].
  assert (request_text (set_workingBuffer wb (set_workingBufferIndexRight
    (zlen (request_line token URI)) (set_workingBufferIndexLeft 0 (set_httpMethod method c0)))) =
    request_line token URI) as ->.
  { apply holds_app in Hh as [Hh _]. by apply holds_zsub in Hh. }
  destruct (request_line_ready token URI HU) as [Hn Hc].
  { destruct method; try done; injection Htok as <-; by repeat constructor. }
  split_and!; try done.
  - unfold request_line. rewrite !zlen_app. change (zlen CRLF) with 2. pose proof (zlen_nonneg token).
    pose proof (zlen_nonneg URI). change (zlen (bytes " HTTP/1.1")) with 9. lia.
  - by destruct method.
Qed.

(** And a header line added to it keeps it so. *)
Lemma request_becomes_ready c0 text x c :
  request_ready c0 -> request_becomes c0 text c -> text = x ++ CRLF ->
  Forall (fun b => b <> 0) text -> request_ready c.
Proof.
  intros (Hl & Hr & _ & _ & Hm) (wb & -> & Hz & Htxt) -> Hn. unfold request_ready. rewrite Htxt.
  cbn -[zlen]. rewrite zlen_app. change (zlen CRLF) with 2. pose proof (zlen_nonneg x).
  split_and!; try done; [lia | by exists x].
Qed.

(** What the application does between two calls keeps the client at rest. *)
Definition same_machine (c0 c : mangoHttpClient_t) : Prop :=
  curState c = curState c0 /\ nxtState c = nxtState c0 /\
  subscribedEvent c = subscribedEvent c0 /\ smTimeout c = smTimeout c0 /\
  (userFunc c = userFunc c0 \/ userFunc c = true) /\
  dataProcessorArgs c = dataProcessorArgs c0 /\
  inputDataProcessor c = inputDataProcessor c0 /\
  outputDataProcessor c = outputDataProcessor c0 /\
  IDPArgsWebsocket c = IDPArgsWebsocket c0 /\ ODPArgsChunked c = ODPArgsChunked c0.

Lemma resting_update c0 c :
  resting c0 -> same_machine c0 c -> wb_ok c -> api_args_ok c ->
  (workingBufferIndexLeft c0 = 0 -> workingBufferIndexLeft c = 0) -> resting c.
Proof.
  intros Hrest (Ec & En & Es & Et & Eu & Ed & Ei & Eo & Ew & Eoc) Hwb Ha Hl.
  pose proof (resting_resting_state _ Hrest) as Hrs.
  destruct Hrest as [[Hn [(_ & _ & _ & Hu & Hd) Hw]] Hsub].
  unfold resting, client_ok, state_ok, common_ok. rewrite Ec, En, Es.
  destruct (curState c0); try done; cbn in *; unfold idp_ws_ok, odp_ok in *;
    rewrite ?Es, ?Et, ?Ed, ?Ei, ?Eo, ?Ew, ?Eoc; split_and!; try done; try tauto;
    destruct Eu as [-> | ->]; auto.
Qed.

Section Exchange.
Context (E : environment) `{environment_ok E} (fuel : nat).

(** The call terminated the request. *)
Lemma terminated_headers c :
  wb_ok c -> request_ready c ->
  headers_ok (set_workingBuffer
    (<[Z.to_nat (workingBufferIndexRight c) := 0]> (workingBuffer c)) c).
Proof.
  intros Hwb (Hl0 & Hr0 & Hnul & Hcr & _). pose proof (zlen_request_text _ Hwb) as Hrl.
  pose proof Hwb as (Hz & Hl & Hr). unfold MANGO_WB_TOT_SZ in *.
  exists (request_text c). split; [|done]. cbn -[cstr]. apply holds_cstr; [done| |done].
  apply holds_app. rewrite Hrl, Z.add_0_l. split.
  - apply holds_insert_after; [lia | lia | by apply request_text_holds].
  - split; [|done]. apply zget_insert_eq. lia.
Qed.

Lemma wpg_httpRequestProcess w (Q : mangoErr_t -> world -> Prop) :
  resting (client w) ->
  (curState (client w) = mangoSM__HTTP_CONNECTED -> request_ready (client w)) ->
  (forall w', resting (client w') -> Q (smExitError (client w')) w') ->
  wpg sm_failure (mango_httpRequestProcess E fuel true) Q w.
Proof.
  intros Hrest Hreq HQ. pose proof Hrest as [[Hn [(Hwb & Ha & Hargs & Hu & Hd) Hw]] Hsub].
  pose proof Hwb as (Hz & Hl & Hr). unfold MANGO_WB_TOT_SZ, MANGO_WORKING_BUFFER_SZ in *.
  unfold mango_httpRequestProcess. mg_steps. cbn [negb]. change (userFunc _) with true. cbn [negb].
  wp_step. apply wpg_NULLTERMINATE; [cbn -[zlen]; lia|].
  mg_steps. unfold MANGO_WB_USED_SZ. cbn -[zlen Z.sub u16].
  apply wpg_wb_slice; [lia | apply u16_range | cbn -[zlen Z.sub u16] |].
  { rewrite zlen_insert, u16_small by (unfold is_u16; lia). lia. }
  mg_steps. apply wpg_userFunc; [done|]. intros err tr1 _. mg_steps.
  apply wpg_timeNow. intros now tr2 _ _. mg_steps.
  match goal with |- wpg _ _ _ ?w1 => set (w2 := w1) end.
  assert (wb_ok (client w2)) as Hwb2.
  { unfold w2, wb_ok, MANGO_WB_TOT_SZ, MANGO_WORKING_BUFFER_SZ. cbn -[zlen].
    rewrite zlen_insert. lia. }
  apply wpg_PROCESS; [done | | |done].
  - apply (resting_update (client w)); [done | | done | done | done].
    unfold same_machine. split_and!; try done. by right.
  - intros Hc. specialize (Hreq Hc). pose proof Hreq as (Hl0 & Hr0 & _ & _ & Hm).
    split_and!; try done. by apply (terminated_headers (client w)).
Qed.

(** The arguments are stored, then the event is processed. *)
Lemma wpg_api_call args ev w (Q : mangoErr_t -> world -> Prop) :
  resting (client w) -> api_args_ok (set_smAPICallArgs args (client w)) ->
  api_event ev (set_smAPICallArgs args (client w)) ->
  (forall w', resting (client w') -> Q (smExitError (client w')) w') ->
  wpg sm_failure (assign (set_smAPICallArgs args) ;; mangoSM_PROCESS E fuel ev) Q w.
Proof.
  intros Hrest Ha Hev HQ. mg_steps. apply wpg_PROCESS; [done | | exact Hev | done].
  apply (resting_update (client w)); try done.
  - unfold same_machine. split_and!; try done. by left.
  - by destruct Hrest as [[_ [(Hwb & _) _]] _].
Qed.

(** ** Calls that a state refuses *)

Definition refusal (s : mangoState) (ev : mangoEvent_e) : option mangoErr_t :=
  match s, ev with
  | mangoSM__ABORTED, _ => Some MANGO_ERR_ABORTED
  | mangoSM__DISCONNECTED, _ => Some MANGO_ERR_CONNECTION
  | mangoSM__HTTP_CONNECTED, EVENT_APICALL_httpRequestProcess => None
  | mangoSM__HTTP_SENDING_DATA, EVENT_APICALL_httpDataSend => None
  | mangoSM__WS_CONNECTED, (EVENT_APICALL_wsPoll | EVENT_APICALL_wsFrameSend
                            | EVENT_APICALL_wsClose) => None
  | _, _ => Some MANGO_ERR_APICALLNOTSUPPORTED
  end.

Definition is_api_event (ev : mangoEvent_e) : bool :=
  match ev with
  | EVENT_APICALL_httpRequestProcess | EVENT_APICALL_httpDataSend | EVENT_APICALL_wsPoll
  | EVENT_APICALL_wsFrameSend | EVENT_APICALL_wsClose => true
  | _ => false
  end.

(** A client at rest leaves the loop of mangoSM_PROCESS at once. *)
Lemma process_body_rest w :
  subscribedEvent (client w) = EVENT_NONE -> smTimeout (client w) = MANGO_TIMEOUT_INFINITE ->
  process_body E fuel tt w = Ok (inr tt, w).
Proof.
  intros Hs Ht. unfold process_body, bind, hc, gets. rewrite Ht, Z.eqb_refl. cbn [negb].
  unfold ret. cbn. by rewrite Hs.
Qed.

Lemma PROCESS_refused ev err w :
  resting (client w) -> is_api_event ev = true -> fuel <> O ->
  refusal (curState (client w)) ev = Some err ->
  mangoSM_PROCESS E fuel ev w =
    Ok (err, mkWorld (set_smExitError err (client w)) (trace w)).
Proof.
  intros Hrest Hev Hfuel Href. pose proof (resting_resting_state _ Hrest) as Hrs.
  destruct Hrest as [[Hn [_ Hw]] Hsub].
  assert (smTimeout (client w) = MANGO_TIMEOUT_INFINITE) as Hto.
  { destruct (curState (client w)); try done; by destruct Hw as [_ Hw]; try destruct Hw. }
  unfold mangoSM_PROCESS, mangoSM_THROW. unfold bind at 1, mangoSM_EXITERR at 1, assign at 1, modify.
  assert (call_curState E fuel ev (upd_client (set_smExitError MANGO_OK) w) =
    Ok (tt, mkWorld (set_smExitError err (client w)) (trace w))) as Hcall.
  { unfold call_curState, bind, hc, gets. change (curState (client (upd_client _ w)))
      with (curState (client w)).
    destruct (curState (client w)); try done; destruct ev; try done; injection Href as <-; done. }
  unfold bind at 1. unfold bind at 1. rewrite Hcall.
  assert (loop THROW_FUEL (throw_body E fuel) tt
    (mkWorld (set_smExitError err (client w)) (trace w)) =
    Ok (tt, mkWorld (set_smExitError err (client w)) (trace w))) as ->.
  { cbn [loop THROW_FUEL]. unfold throw_body, bind, hc, gets. cbn.
    by rewrite bool_decide_eq_true_2. }
  unfold bind at 1.
  destruct fuel as [|n] eqn:Ef; [done|]. cbn [loop]. rewrite <- Ef.
  by rewrite process_body_rest.
Qed.

(** ** mango_wsFrameSend of a connected websocket *)

(** One round of the engine for a subscribed event without timeout. *)
Lemma wpg_process_round (Fl : failure -> Prop) ev n w (Q : unit -> world -> Prop) :
  (ev = EVENT_READ \/ ev = EVENT_WRITE \/ ev = EVENT_PROCESS) ->
  subscribedEvent (client w) = ev -> smTimeout (client w) = MANGO_TIMEOUT_INFINITE ->
  wpg Fl (mangoSM_THROW E fuel ev)
    (fun _ w' => wpg Fl (loop n (process_body E fuel) tt) Q w') w ->
  wpg Fl (loop (Datatypes.S n) (process_body E fuel) tt) Q w.
Proof.
  intros Hev Hs Ht HQ. apply wpg_loop_S. unfold process_body. mg_steps.
  rewrite Ht, Z.eqb_refl. cbn [negb]. wp_step. mg_steps. rewrite Hs.
  destruct Hev as [-> |[-> | ->]]; wp_step; (eapply wpg_mono; [exact HQ|]);
    intros [] w' Hw'; by wp_step.
Qed.

(** The transition of THROW into a state whose entry handler is [k]. *)
Lemma wpg_throw_transition Fl s s' ev n w (Q : unit -> world -> Prop) :
  curState (client w) = s -> nxtState (client w) = s' -> s <> s' ->
  (forall now tr', quiet (trace w) tr' ->
     wpg Fl (call_curState E fuel EVENT_ENTRY)
       (fun _ w' => wpg Fl (loop n (throw_body E fuel) tt) Q w')
       (mkWorld (set_smEntryTimestamp now (set_smTimeout MANGO_TIMEOUT_INFINITE
          (set_subscribedEvent EVENT_NONE (set_curState s' (client w))))) tr')) ->
  ev = tt ->
  wpg Fl (loop (Datatypes.S n) (throw_body E fuel) ev) Q w.
Proof.
  intros Hc Hn Hne HQ ->. apply wpg_loop_S. unfold throw_body. mg_steps.
  rewrite Hc, Hn, bool_decide_eq_false_2 by done. mg_steps. apply wpg_timeNow.
  intros now tr' _ Hq. mg_steps. eapply wpg_mono; [by apply (HQ now tr')|].
  intros [] w' Hw'. by wp_step.
Qed.

Lemma wpg_throw_end Fl n w (Q : unit -> world -> Prop) :
  nxtState (client w) = curState (client w) -> Q tt w ->
  wpg Fl (loop (Datatypes.S n) (throw_body E fuel) tt) Q w.
Proof.
  intros Hn HQ. apply wpg_loop_S. unfold throw_body. mg_steps.
  rewrite bool_decide_eq_true_2 by done. by wp_step.
Qed.

(** The end of a call: nothing is subscribed any more. *)
Lemma wpg_process_end (Fl : failure -> Prop) n w (Q : mangoErr_t -> world -> Prop) :
  subscribedEvent (client w) = EVENT_NONE ->
  smTimeout (client w) = MANGO_TIMEOUT_INFINITE -> Q (smExitError (client w)) w ->
  wpg Fl (loop (Datatypes.S n) (process_body E fuel) tt)
    (fun _ w' => wpg Fl (hc smExitError) Q w') w.
Proof.
  intros Hs Ht HQ. unfold wpg at 1. cbn [loop].
  by rewrite process_body_rest.
Qed.

(** ** Calls that transmit once

    mango_httpDataSend, mango_wsFrameSend and mango_wsClose run the same way:
    the call's event leads to a state that waits for EVENT_WRITE, the handler
    of EVENT_WRITE transmits and leaves, and the client is at rest again. *)

(** The client in state [s'], about to transmit. *)
Definition transmitting (s' : mangoState) (now : Z) (c : mangoHttpClient_t)
    : mangoHttpClient_t :=
  set_subscribedEvent EVENT_WRITE (set_smEntryTimestamp now
    (set_smTimeout MANGO_TIMEOUT_INFINITE (set_subscribedEvent EVENT_NONE
      (set_curState s' (set_nxtState s' (set_smExitError MANGO_OK c)))))).

(** The states whose entry handler does nothing but tidy the buffer. *)
Definition tidy_entry (s : mangoState) : bool :=
  match s with
  | mangoSM__ABORTED | mangoSM__DISCONNECTED | mangoSM__WS_CONNECTED
  | mangoSM__HTTP_SENDING_DATA => true
  | _ => false
  end.

Lemma transmitting_curState s' now c : curState (transmitting s' now c) = s'.
Proof. reflexivity. Qed.

Lemma call_at ev s w :
  curState (client w) = s ->
  call_curState E fuel ev w =
    (match s with
     | mangoSM__HTTP_SENDING_PACKET => sm_HTTP_SENDING_PACKET E fuel ev
     | mangoSM__WS_CONNECTED => sm_WS_CONNECTED ev
     | mangoSM__WS_SENDING_FRAME => sm_WS_SENDING_FRAME E fuel ev
     | mangoSM__WS_CLOSING => sm_WS_CLOSING E fuel ev
     | mangoSM__HTTP_SENDING_DATA => sm_HTTP_SENDING_DATA ev
     | _ => call_curState E fuel ev
     end) w.
Proof.
  intros Hc. destruct s; try done; unfold call_curState, bind, hc, gets; by rewrite Hc.
Qed.

Lemma wpg_tidy_entry Fl s w (Q : unit -> world -> Prop) :
  curState (client w) = s -> tidy_entry s = true -> wb_ok (client w) ->
  (forall wb l r,
     Q tt (mkWorld (set_workingBufferIndexRight r (set_workingBufferIndexLeft l
             (set_workingBuffer wb (client w)))) (trace w))) ->
  wpg Fl (call_curState E fuel EVENT_ENTRY) Q w.
Proof.
  intros Hc Ht Hwb HQ. unfold call_curState. mg_steps. rewrite Hc.
  specialize (HQ (workingBuffer (client w))) as HQ0.
  destruct s; try done; cbn [sm_ABORTED sm_DISCONNECTED sm_WS_CONNECTED sm_HTTP_SENDING_DATA].
  1, 2: specialize (HQ0 (workingBufferIndexLeft (client w)) (workingBufferIndexRight (client w)));
    destruct w as [[] ?]; exact HQ0.
  - mg_steps. apply HQ.
  - apply wpg_WB_shrink; [done|]. intros c (wb & -> & _).
    specialize (HQ wb). destruct w as [[] ?]. apply HQ.
Qed.

Lemma wpg_transmit Fl ev s s' w (Q : mangoErr_t -> world -> Prop) :
  (1 < fuel)%nat -> curState (client w) = s -> s <> s' ->
  (forall w1, curState (client w1) = s -> call_curState E fuel ev w1 = mangoSM_ENTER s' w1) ->
  (forall w1, curState (client w1) = s' ->
     call_curState E fuel EVENT_ENTRY w1 = mangoSM_SUBSCRIBE EVENT_WRITE w1) ->
  (forall now tr, quiet (trace w) tr ->
     wpg Fl (call_curState E fuel EVENT_WRITE)
       (fun _ w2 =>
          curState (client w2) = s' /\ nxtState (client w2) <> s' /\
          tidy_entry (nxtState (client w2)) = true /\ wb_ok (client w2) /\
          forall w', curState (client w') = nxtState (client w2) ->
            quiet (trace w2) (trace w') -> ODPArgsRaw (client w') = ODPArgsRaw (client w2) ->
            Q (smExitError (client w2)) w')
       (mkWorld (transmitting s' now (client w)) tr)) ->
  wpg Fl (mangoSM_PROCESS E fuel ev) Q w.
Proof.
  intros Hfuel Hcs Hne Hcall Hentry Hwrite.
  assert (exists n, fuel = Datatypes.S (Datatypes.S n)) as [n Hn].
  { destruct fuel as [|[|n]]; [lia | lia | by exists n]. }
  unfold mangoSM_PROCESS. wp_step. apply wpg_EXITERR. wp_step.
  unfold mangoSM_THROW at 1. wp_step. apply (wpg_ext _ _ (mangoSM_ENTER s')).
  { by apply Hcall. }
  apply wpg_ENTER.
  { change (curState (client w) <> s'). rewrite Hcs. exact Hne. }
  eapply (wpg_throw_transition _ s s'); [exact Hcs | reflexivity | exact Hne | |reflexivity].
  intros now tr1 Hq1. apply (wpg_ext _ _ (mangoSM_SUBSCRIBE EVENT_WRITE)).
  { by apply Hentry. }
  apply wpg_SUBSCRIBE; [by auto|]. apply wpg_throw_end; [done|]. wp_step. rewrite Hn at 1.
  apply (wpg_process_round _ EVENT_WRITE); [by auto | done | done|].
  unfold mangoSM_THROW. wp_step. eapply wpg_mono; [by apply (Hwrite now tr1)|].
  intros [] w2 (Hc2 & Hn2 & Ht2 & Hwb2 & HQ).
  eapply (wpg_throw_transition _ s' (nxtState (client w2))); [exact Hc2 | reflexivity | by apply not_eq_sym | |reflexivity].
  intros now2 tr2 Hq2. eapply wpg_tidy_entry; [done | done | exact Hwb2|]. intros wb l r.
  apply wpg_throw_end; [done|]. apply wpg_process_end; [done | done|]. cbn. by apply HQ.
Qed.

(** ** mango_httpDataSend with data *)

(** The handler of EVENT_WRITE, by the result of the output processor. *)
Lemma wpg_send_packet (Fl : failure -> Prop) buf w (Q : mangoErr_t -> world -> Prop) :
  (1 < fuel)%nat -> resting (client w) -> curState (client w) = mangoSM__HTTP_SENDING_DATA ->
  zlen buf <= 65535 ->
  (forall now tr, quiet (trace w) tr ->
     wpg Fl (call_outputDataProcessor E fuel buf (zlen buf))
       (fun r w2 =>
          let '(err, _, completed) := r in
          curState (client w2) = mangoSM__HTTP_SENDING_PACKET /\ wb_ok (client w2) /\
          smExitError (client w2) = MANGO_OK /\
          (err = MANGO_OK -> completed = false) /\
          forall w', curState (client w') = (if is_ok err then mangoSM__HTTP_SENDING_DATA
                                             else mangoSM__ABORTED) ->
            quiet (trace w2) (trace w') -> ODPArgsRaw (client w') = ODPArgsRaw (client w2) ->
            Q err w')
       (mkWorld (transmitting mangoSM__HTTP_SENDING_PACKET now
          (set_smAPICallArgs (mangoHTTPDataSendArgs buf (zlen buf)) (client w))) tr)) ->
  wpg Fl (mango_httpDataSend E fuel buf (zlen buf)) Q w.
Proof.
  intros Hfuel Hrest Hcs Hlen Hodp. pose proof (zlen_nonneg buf).
  unfold mango_httpDataSend. mg_steps. rewrite u16_small by (unfold is_u16; lia).
  apply (wpg_transmit _ _ mangoSM__HTTP_SENDING_DATA mangoSM__HTTP_SENDING_PACKET); try done.
  1, 2: intros w1 Hc1; by rewrite (call_at _ _ _ Hc1).
  intros now tr Hq.
  eapply wpg_ext; [apply (call_at _ mangoSM__HTTP_SENDING_PACKET), transmitting_curState|].
  cbv match. cbn [sm_HTTP_SENDING_PACKET]. mg_steps.
  change (smAPICallArgs (client _)) with (mangoHTTPDataSendArgs buf (zlen buf)). mg_steps.
  eapply wpg_mono; [exact (Hodp now tr Hq)|].
  intros [[err p] completed] w2 (Hc2 & Hwb2 & He2 & Hcomp & HQ). mg_steps.
  destruct (is_ok err) eqn:Hok; cbn [negb].
  - apply bool_decide_eq_true in Hok. rewrite (Hcomp Hok) in *. mg_steps.
    apply wpg_ENTER; [cbn [client curState upd_client set_dataProcessorCompleted]; by rewrite Hc2|].
    cbn [client trace upd_client set_dataProcessorCompleted set_nxtState curState nxtState].
    split; [exact Hc2|]. split; [done|]. split; [done|]. split; [exact Hwb2|].
    intros w' Hw' Hq' Ho'.
    change (Q (smExitError (client w2)) w'). rewrite He2, <- Hok. by apply HQ.
  - mg_steps. apply wpg_ENTER.
    { cbn [client curState upd_client set_dataProcessorCompleted set_smExitError]. by rewrite Hc2. }
    cbn [client trace upd_client set_dataProcessorCompleted set_smExitError set_nxtState curState
      nxtState]. split; [exact Hc2|]. split; [done|]. split; [done|]. split; [exact Hwb2|].
    intros w' Hw' Hq' Ho'. by apply HQ.
Qed.

(** Data of a request with a Content-Length: they are sent, and counted, when
    they do not exceed it. *)
Lemma wpg_httpDataSend_raw (Fl : failure -> Prop) buf w (Q : mangoErr_t -> world -> Prop) :
  can_write Fl E fuel -> (1 < fuel)%nat ->
  resting (client w) -> curState (client w) = mangoSM__HTTP_SENDING_DATA ->
  outputDataProcessor (client w) = Some mangoODP_RAW ->
  buf <> [] -> zlen buf <= 65535 ->
  let a := ODPArgsRaw (client w) in
  let p := u32 (odp_fileSzProcessed a + zlen buf) in
  (odp_fileSz a < p -> forall w', quiet (trace w) (trace w') ->
     curState (client w') = mangoSM__ABORTED -> Q MANGO_ERR_CONTENTLENGTH w') ->
  (p <= odp_fileSz a -> forall w', io_step (trace w) (trace w') [] buf [] ->
     curState (client w') = mangoSM__HTTP_SENDING_DATA ->
     ODPArgsRaw (client w') = mkODPRaw (odp_fileSz a) p -> Q MANGO_OK w') ->
  (p <= odp_fileSz a -> forall w' k, io_step (trace w) (trace w') [] (take k buf) [] ->
     curState (client w') = mangoSM__ABORTED -> Q MANGO_ERR_WRITETIMEOUT w') ->
  wpg Fl (mango_httpDataSend E fuel buf (zlen buf)) Q w.
Proof.
  intros HW Hfuel Hrest Hcs Ho Hne Hlen a p HQ1 HQ2 HQ3.
  pose proof Hrest as [[_ [(Hwb & _ & _ & _ & Hd) _]] _].
  rewrite Hcs in Hd. cbn in Hd. destruct Hd as [[_ Hargs]|[Hx _]]; [|congruence].
  apply wpg_send_packet; try done. intros now tr Hq.
  unfold call_outputDataProcessor. mg_steps.
  change (outputDataProcessor (client _)) with (outputDataProcessor (client w)). rewrite Ho.
  change (dataProcessorArgs (client _)) with (dataProcessorArgs (client w)). rewrite Hargs.
  apply wpg_ODP_raw; [done | done | congruence | congruence | ..].
  - intros _ Hlt. split; [reflexivity|]. split; [exact Hwb|].
    split; [reflexivity|]. split; [discriminate|]. intros w' Hc' Hq' _. apply HQ1; [exact Hlt | | done].
    by apply (quiet_trans _ _ _ Hq).
  - intros _ Hle st tr' Hio. split; [reflexivity|]. split; [exact Hwb|].
    split; [reflexivity|]. split; [by intros _|]. intros w' Hc' Hq' Ha'.
    apply HQ2; [exact Hle | | exact Hc' | exact Ha'].
    apply (io_step_quiet_r _ _ _ _ _ _ (io_step_quiet_l _ _ _ _ _ _ Hq Hio) Hq').
  - intros _ Hle k st tr' Hk Hio. split; [reflexivity|]. split; [exact Hwb|].
    split; [reflexivity|]. split; [discriminate|]. intros w' Hc' Hq' Ha'.
    apply (HQ3 Hle _ (Z.to_nat k)); [|exact Hc'].
    apply (io_step_quiet_r _ _ _ _ _ _ (io_step_quiet_l _ _ _ _ _ _ Hq Hio) Hq').
Qed.

(** Data of a chunked request leave as chunks of at most 4082 bytes. *)
Lemma wpg_httpDataSend_chunked (Fl : failure -> Prop) buf w (Q : mangoErr_t -> world -> Prop) :
  can_write Fl E fuel -> (1 < fuel)%nat ->
  resting (client w) -> curState (client w) = mangoSM__HTTP_SENDING_DATA ->
  outputDataProcessor (client w) = Some mangoODP_CHUNKED ->
  buf <> [] -> zlen buf <= 65535 ->
  (forall w', io_step (trace w) (trace w') [] (encode_chunks 4082 buf) [] ->
     curState (client w') = mangoSM__HTTP_SENDING_DATA -> Q MANGO_OK w') ->
  (forall w' k, io_step (trace w) (trace w') [] (take k (encode_chunks 4082 buf)) [] ->
     curState (client w') = mangoSM__ABORTED -> Q MANGO_ERR_WRITETIMEOUT w') ->
  wpg Fl (mango_httpDataSend E fuel buf (zlen buf)) Q w.
Proof.
  intros HW Hfuel Hrest Hcs Ho Hne Hlen HQ1 HQ2.
  pose proof Hrest as [[_ [(Hwb & _ & _ & _ & Hd) _]] _].
  rewrite Hcs in Hd. cbn in Hd. destruct Hd as [[Hx _]|(_ & Hargs & Hoa)]; [congruence|].
  apply wpg_send_packet; try done. intros now tr Hq.
  unfold call_outputDataProcessor. mg_steps.
  change (outputDataProcessor (client _)) with (outputDataProcessor (client w)). rewrite Ho.
  change (dataProcessorArgs (client _)) with (dataProcessorArgs (client w)). rewrite Hargs.
  destruct Hwb as (Hz & Hl & Hr).
  apply (wpg_ODP_chunked _ _ _ _ 4082); [done | done | done | done | | exact Hoa | |].
  { change (workingBuffer (client _)) with (workingBuffer (client w)). by rewrite Hz. }
  - rewrite (decide_False (P := buf = [])) by done. intros w2 (wb & st & Hc2 & Hz2) Hio.
    rewrite bool_decide_eq_false_2 by done. rewrite Hc2. split; [reflexivity|]. split.
    { split; [etransitivity; [exact Hz2 | exact Hz]|]. by split. }
    split; [reflexivity|]. split; [by intros _|].
    intros w' Hc' Hq' _. apply HQ1; [|done].
    apply (io_step_quiet_r _ _ _ _ _ _ (io_step_quiet_l _ _ _ _ _ _ Hq Hio) Hq').
  - rewrite (decide_False (P := buf = [])) by done. intros w2 k q (wb & st & Hc2 & Hz2) Hio.
    rewrite Hc2. split; [reflexivity|]. split.
    { split; [etransitivity; [exact Hz2 | exact Hz]|]. by split. }
    split; [reflexivity|]. split; [discriminate|].
    intros w' Hc' Hq' _. apply (HQ2 _ k); [|done].
    apply (io_step_quiet_r _ _ _ _ _ _ (io_step_quiet_l _ _ _ _ _ _ Hq Hio) Hq').
Qed.

(** ** mango_wsFrameSend and mango_wsClose of a connected websocket *)

(** The state a websocket client is in after its frame has been handed over
    with result [serr]; the call returns MANGO_OK either way. *)
Definition frame_outcome (w : world) (type : mangoWsFrameType_t) (payload : list Z)
    (success : mangoState) (w' : world) : Prop :=
  exists serr c1 tr1 w2,
    quiet (trace w) tr1 /\ ws_sent E (mkWorld c1 tr1) type payload serr w2 /\
    quiet (trace w2) (trace w') /\
    curState (client w') = (if is_ok serr then success else mangoSM__ABORTED).

(** What left for the server, as its decoder sees it. *)
Lemma frame_outcome_decoded w type payload success w' :
  frame_outcome w type payload success w' -> ~ malloc_fails E -> zlen payload < 256 ^ 8 ->
  exists frame,
    ws_decode frame = Some (ws_frame_type_code type, payload) /\
    (curState (client w') = success /\ io_step (trace w) (trace w') [] frame [] \/
     curState (client w') = mangoSM__ABORTED /\
       exists k, io_step (trace w) (trace w') [] (take k frame) []).
Proof.
  intros (serr & c1 & tr1 & w2 & Hq & Hs & Hq' & Hc) Hm Hl.
  destruct (ws_sent_decoded E _ _ _ _ _ Hs Hm Hl) as (frame & Hd & Hio).
  exists frame. split; [done|]. rewrite Hc.
  assert (forall d, io_step (trace (mkWorld c1 tr1)) (trace w2) [] d [] ->
    io_step (trace w) (trace w') [] d []) as Hlift.
  { intros d Hd2. apply (io_step_quiet_r _ _ _ _ _ _ (io_step_quiet_l _ _ _ _ _ _ Hq Hd2) Hq'). }
  destruct Hio as [[-> Hio]|[-> [k Hio]]]; [left | right]; (split; [done|]).
  - by apply Hlift.
  - exists k. by apply Hlift.
Qed.

(** A payload of more than 65527 bytes makes a frame that mangoPort_write
    cannot take whole. *)
Lemma frame_outcome_long w type payload success w' :
  frame_outcome w type payload success w' -> ~ malloc_fails E -> 65527 < zlen payload ->
  curState (client w') = mangoSM__ABORTED.
Proof.
  intros (serr & c1 & tr1 & w2 & _ & Hs & _ & Hc) Hm Hl.
  by rewrite Hc, (ws_sent_long E _ _ _ _ _ Hs Hm Hl).
Qed.

Lemma wpg_wsFrameSend (Fl : failure -> Prop) buf type w (Q : mangoErr_t -> world -> Prop) :
  can_write Fl E fuel -> (1 < fuel)%nat ->
  resting (client w) -> curState (client w) = mangoSM__WS_CONNECTED ->
  type = MANGO_WS_FRAME_TYPE_TEXT \/ type = MANGO_WS_FRAME_TYPE_BINARY ->
  zlen buf <= 65535 -> Forall is_u8 buf ->
  (forall w', frame_outcome w type buf mangoSM__WS_CONNECTED w' -> Q MANGO_OK w') ->
  wpg Fl (mango_wsFrameSend E fuel buf (zlen buf) type) Q w.
Proof.
  intros HW Hfuel Hrest Hcs Hty Hlen Hby HQ. pose proof (zlen_nonneg buf).
  pose proof Hrest as [[_ [(Hwb & _) _]] _].
  unfold mango_wsFrameSend. mg_steps; [by destruct Hty as [-> | ->]|].
  rewrite u16_small by (unfold is_u16; lia).
  apply (wpg_transmit _ _ mangoSM__WS_CONNECTED mangoSM__WS_SENDING_FRAME); try done.
  1, 2: intros w1 Hc1; by rewrite (call_at _ _ _ Hc1).
  intros now tr Hq.
  eapply wpg_ext; [apply (call_at _ mangoSM__WS_SENDING_FRAME), transmitting_curState|].
  cbv match. cbn [sm_WS_SENDING_FRAME]. mg_steps.
  change (smAPICallArgs (client _)) with (mangoWSFrameSendArgs buf (zlen buf) type). mg_steps.
  eapply (wpg_frameSend E);
    [done | by destruct Hty as [-> | ->] | done | unfold is_u32; lia |].
  intros serr [c2 tr2] Hsent. pose proof Hsent as [Hc2 _]. cbn in Hc2. subst c2.
  apply wpg_ENTER; [cbn; by destruct (is_ok serr)|].
  cbn. split_and!; try done; try (by destruct (is_ok serr)).
  intros w' Hc' Hq' _. apply HQ. do 4 eexists. split; [exact Hq|]. split; [exact Hsent|].
  split; [exact Hq'|]. rewrite Hc'. by destruct (is_ok serr).
Qed.

(** A close frame with status 1000 is sent. *)
Lemma wpg_wsClose (Fl : failure -> Prop) w (Q : mangoErr_t -> world -> Prop) :
  can_write Fl E fuel -> (1 < fuel)%nat ->
  resting (client w) -> curState (client w) = mangoSM__WS_CONNECTED ->
  (forall w', frame_outcome w MANGO_WS_FRAME_TYPE_CLOSE [3; 232] mangoSM__DISCONNECTED w' ->
     Q MANGO_OK w') ->
  wpg Fl (mango_wsClose E fuel) Q w.
Proof.
  intros HW Hfuel Hrest Hcs HQ. pose proof Hrest as [[_ [(Hwb & _) _]] _].
  unfold mango_wsClose. mg_steps.
  apply (wpg_transmit _ _ mangoSM__WS_CONNECTED mangoSM__WS_CLOSING); try done.
  1, 2: intros w1 Hc1; by rewrite (call_at _ _ _ Hc1).
  intros now tr Hq.
  eapply wpg_ext; [apply (call_at _ mangoSM__WS_CLOSING), transmitting_curState|].
  cbv match. cbn [sm_WS_CLOSING]. mg_steps.
  unfold mangoWS_close. change 0 with (zlen (@nil Z)).
  eapply (wpg_frameSend E); [done | done | constructor | done |].
  intros serr [c2 tr2] Hsent. pose proof Hsent as [Hc2 _]. cbn in Hc2. subst c2.
  apply wpg_ENTER; [cbn; by destruct (is_ok serr)|].
  cbn. split_and!; try done; try (by destruct (is_ok serr)).
  intros w' Hc' Hq' _. apply HQ. do 4 eexists. split; [exact Hq|]. split; [exact Hsent|].
  split; [exact Hq'|]. rewrite Hc'. by destruct (is_ok serr).
Qed.
End Exchange.
