(* ===== verification/MangoSession.v ===== *)
(** A session of an application with the client: mango_connect or
    mango_sslconnect, whatever OpenSSL and the system do, and then any
    sequence of calls of the API in which requests are built before they are
    processed.

    The second part has scripted peers for concrete runs. *)

From S2P Require Import Prelude.
From S2P Require Import CMonad.
From S2P Require Import CString.
From S2P Require Import MangoTypes.
From S2P Require Import MangoHelper.
From S2P Require Import MangoHelperFacts.
From S2P Require Import MangoHttpFacts.
From S2P Require Import MangoPort.
From S2P Require Import MangoPortFacts.
From S2P Require Import MangoSM.
From S2P Require Import MangoInvariant.
From S2P Require Import Mango.
From S2P Require Import Process.
From S2P Require Import MangoTls.
From S2P Require Import MangoTlsFacts.
From S2P Require Import MangoApiFacts.

(** * Calls *)

Inductive api_call :=
| Call_httpRequestNew (URI : list Z) (method : mangoHttpMethod_e)
| Call_httpHeaderSet (headerName headerValue : list Z)
| Call_httpAuthSet (username password : list Z)
| Call_httpRequestProcess
| Call_httpDataSend (buf : list Z)
| Call_wsPoll (timeout : Z)
| Call_wsFrameSend (buf : list Z) (type : mangoWsFrameType_t)
| Call_wsClose.

Section Session.
Context (E : environment) (fuel : nat).

Definition do_call (a : api_call) : M world mangoErr_t :=
  match a with
  | Call_httpRequestNew URI method => mango_httpRequestNew URI method
  | Call_httpHeaderSet name value => mango_httpHeaderSet name value
  | Call_httpAuthSet user pass => mango_httpAuthSet (Some MANGO_HTTP_AUTH__BASIC) user pass
  | Call_httpRequestProcess => mango_httpRequestProcess E fuel true
  | Call_httpDataSend buf => mango_httpDataSend E fuel buf (zlen buf)
  | Call_wsPoll timeout => mango_wsPoll E fuel timeout
  | Call_wsFrameSend buf type => mango_wsFrameSend E fuel buf (zlen buf) type
  | Call_wsClose => mango_wsClose E fuel
  end.

(** A string whose length fits the 16-bit lengths of the API. *)
Definition is_argument (s : list Z) : Prop := is_string s /\ zlen s <= 65535.

(** What the application may call; [ready]: there is a request that has been
    started and not yet processed. *)
Definition call_allowed (ready : bool) (a : api_call) : Prop :=
  match a with
  | Call_httpRequestNew URI _ => is_argument URI
  | Call_httpHeaderSet x y | Call_httpAuthSet x y =>
      ready = true /\ is_argument x /\ is_argument y
  | Call_httpRequestProcess => ready = true
  | Call_httpDataSend buf => zlen buf <= 65535
  | Call_wsPoll timeout => is_u32 timeout
  | Call_wsFrameSend buf type =>
      zlen buf <= 65535 /\ Forall is_u8 buf /\
      (type = MANGO_WS_FRAME_TYPE_TEXT \/ type = MANGO_WS_FRAME_TYPE_BINARY)
  | Call_wsClose => True
  end.

Definition ready_after (ready : bool) (a : api_call) (err : mangoErr_t) : bool :=
  match a with
  | Call_httpRequestNew _ _ => is_ok err
  | Call_httpHeaderSet _ _ | Call_httpAuthSet _ _ => ready
  | _ => false
  end.

(** The worlds an application can reach. *)
Inductive session : bool -> world -> Prop :=
| session_connect host fd retval w :
    mango_connect E fuel true host fd retval = Ok (Some w) -> session false w
| session_sslconnect succeeds sizeof consumed serverIP port cck files method verify_mode p cn p' :
    mango_sslconnect succeeds sizeof consumed E fuel serverIP port cck files method verify_mode p =
      Ok (Some cn, p') ->
    session false (cn_world cn)
| session_call ready w a err w' :
    session ready w -> call_allowed ready a -> do_call a w = Ok (err, w') ->
    session (ready_after ready a err) w'.

#[export] Instance call_allowed_dec ready a : Decision (call_allowed ready a).
Proof. destruct a; cbn; unfold is_argument, is_string, is_u32, is_u8; apply _. Defined.

(** A session is run: every call must be allowed and return. *)
Fixpoint run_session (ready : bool) (w : world) (calls : list api_call) : option (bool * world) :=
  match calls with
  | [] => Some (ready, w)
  | a :: calls =>
      if decide (call_allowed ready a) then
        match do_call a w with
        | Ok (err, w) => run_session (ready_after ready a err) w calls
        | Stop _ => None
        end
      else None
  end.

Lemma run_session_session ready w calls ready' w' :
  session ready w -> run_session ready w calls = Some (ready', w') -> session ready' w'.
Proof.
  revert ready w. induction calls as [|a calls IH]; intros ready w Hs Hr; cbn in Hr.
  - by injection Hr as <- <-.
  - destruct (decide _) as [Ha|]; [|done]. destruct (do_call a w) as [[err w1]|f] eqn:Hc; [|done].
    by apply (IH (ready_after ready a err) w1); [eapply session_call|].
Qed.

(** * The invariant of a session *)

(** A request under construction. *)
Definition request_built (c : mangoHttpClient_t) : Prop :=
  workingBufferIndexLeft c = 0 /\ httpMethod c <> MANGO_HTTP_METHOD_POST_CHUNKED /\
  exists p, p <> [] /\ request_text c = p ++ CRLF /\ Forall (fun b => b <> 0) p.

Definition session_ok (ready : bool) (c : mangoHttpClient_t) : Prop :=
  resting c /\ (ready = true -> request_built c).

Lemma resting_wb_ok c : resting c -> wb_ok c.
Proof. by intros [[_ [(Hwb & _) _]] _]. Qed.

Lemma resting_api_args c : resting c -> api_args_ok c.
Proof. by intros [[_ [(_ & Ha & _) _]] _]. Qed.

Lemma request_built_ready c : wb_ok c -> request_built c -> request_ready c.
Proof.
  intros Hwb (Hl & Hm & p & Hp & Htxt & Hn). pose proof (zlen_request_text _ Hwb) as Hr.
  rewrite Htxt, zlen_app in Hr. change (zlen CRLF) with 2 in Hr. pose proof (zlen_nonneg p).
  unfold request_ready. rewrite Htxt. split_and!; try done; [lia | | by exists p].
  apply Forall_app. split; [done|]. by repeat constructor.
Qed.

(** Building a request leaves the state machine alone. *)
Lemma resting_rebuilt c0 wb r m :
  resting c0 -> zlen wb = MANGO_WORKING_BUFFER_SZ -> 0 <= r <= MANGO_WB_TOT_SZ ->
  resting (set_workingBuffer wb (set_workingBufferIndexRight r
    (set_workingBufferIndexLeft 0 (set_httpMethod m c0)))).
Proof.
  intros Hrest Hz Hr. apply (resting_update c0); [done | | | | done].
  - unfold same_machine. split_and!; try reflexivity. by left.
  - split; [exact Hz|]. split; [done | exact Hr].
  - by apply resting_api_args in Hrest.
Qed.

Lemma request_becomes_rebuilt c0 text c :
  workingBufferIndexLeft c0 = 0 -> request_becomes c0 text c ->
  exists wb, zlen wb = MANGO_WORKING_BUFFER_SZ /\ request_text c = text /\
    c = set_workingBuffer wb (set_workingBufferIndexRight (zlen text)
          (set_workingBufferIndexLeft 0 (set_httpMethod (httpMethod c0) c0))).
Proof.
  intros Hl (wb & -> & Hz & Ht). exists wb. split; [done|]. split; [done|].
  destruct c0. cbn in Hl. by rewrite Hl.
Qed.

(** A header line added to a request under construction, or refused. *)
Lemma session_becomes c0 p c :
  resting c0 -> request_built c0 -> p <> [] -> Forall (fun b => b <> 0) p ->
  zlen (p ++ CRLF) <= MANGO_WB_TOT_SZ -> request_becomes c0 (p ++ CRLF) c -> session_ok true c.
Proof.
  intros Hrest (Hl & Hm & _) Hp Hn Hfit Hb.
  destruct (request_becomes_rebuilt _ _ _ Hl Hb) as (wb & Hz & Htxt & Hc). split.
  - rewrite Hc. apply resting_rebuilt; [done | done|].
    pose proof (zlen_nonneg (p ++ CRLF)). lia.
  - intros _. split_and!; [by rewrite Hc | by rewrite Hc|]. by exists p.
Qed.

Lemma is_string_nonzero s : is_string s -> Forall (fun b => b <> 0) s.
Proof. intros Hs. by apply is_string_facts. Qed.

(** ** The calls that build a request *)

Lemma wpg_call_RequestNew Fl URI method w :
  resting (client w) -> is_argument URI ->
  wpg Fl (mango_httpRequestNew URI method)
    (fun err w' => session_ok (is_ok err) (client w')) w.
Proof.
  intros Hrest [HU Hl]. pose proof (resting_wb_ok _ Hrest) as (Hz & _).
  apply wpg_httpRequestNew; [done | done | |].
  - intros token c Htok Hfit Hst. split.
    + destruct Hst as (wb & -> & Hzb & _). apply resting_rebuilt; [done | done|].
      pose proof (zlen_nonneg (request_line token URI)). lia.
    + intros _. destruct (request_line_ready token URI HU) as [Hn _].
      { destruct method; try done; injection Htok as <-; by repeat constructor. }
      destruct Hst as (wb & -> & Hzb & Hh). apply holds_app in Hh as [Hh _].
      apply holds_zsub in Hh; [|done].
      split_and!; [done | by destruct method |].
      exists (token ++ URI ++ bytes " HTTP/1.1" ++ CRLF).
      unfold request_line in *. rewrite !app_assoc in Hn |- *. split_and!.
      * intros Hx. apply app_eq_nil in Hx as [_ Hx]. done.
      * rewrite <- !app_assoc. exact Hh.
      * by apply Forall_app in Hn as [Hn _].
  - intros c _ (wb & -> & Hzb & _). split; [|done]. by apply resting_rebuilt.
Qed.

Lemma wpg_call_HeaderSet Fl name value w :
  session_ok true (client w) -> is_argument name -> is_argument value ->
  wpg Fl (mango_httpHeaderSet name value) (fun _ w' => session_ok true (client w')) w.
Proof.
  intros [Hrest Hreq] [Hn Hnl] [Hv Hvl]. specialize (Hreq eq_refl).
  pose proof (resting_wb_ok _ Hrest) as Hwb. pose proof (zlen_request_text _ Hwb) as Hrl.
  pose proof Hreq as (Hl & Hm & p & Hp & Htxt & Hp0).
  assert (zlen (p ++ CRLF) <= MANGO_WB_TOT_SZ) as Hfit0.
  { destruct Hwb as (_ & _ & Hr). rewrite <- Htxt. lia. }
  apply (wpg_httpHeaderSet _ name value p); try done.
  - intros Hfit c Hb.
    apply (session_becomes (client w) (p ++ name ++ bytes ": " ++ value ++ CRLF)); try done.
    + by destruct p.
    + rewrite !Forall_app. split_and!; [done | by apply is_string_nonzero | by repeat constructor
        | by apply is_string_nonzero | by repeat constructor].
    + rewrite <- !app_assoc. exact Hfit.
    + rewrite <- !app_assoc. exact Hb.
  - intros _ c Hb. by apply (session_becomes (client w) p).
Qed.

Lemma wpg_call_AuthSet Fl user pass w :
  session_ok true (client w) -> is_argument user -> is_argument pass ->
  wpg Fl (mango_httpAuthSet (Some MANGO_HTTP_AUTH__BASIC) user pass)
    (fun _ w' => session_ok true (client w')) w.
Proof.
  intros [Hrest Hreq] [Hu _] [Hs _]. specialize (Hreq eq_refl).
  pose proof (resting_wb_ok _ Hrest) as Hwb. pose proof (zlen_request_text _ Hwb) as Hrl.
  pose proof Hreq as (Hl & Hm & p & Hp & Htxt & Hp0).
  assert (zlen (p ++ CRLF) <= MANGO_WB_TOT_SZ) as Hfit0.
  { destruct Hwb as (_ & _ & Hr). rewrite <- Htxt. lia. }
  apply (wpg_httpAuthSet _ user pass p); try done.
  - intros [_ Hfit] c Hb.
    apply (session_becomes (client w) (p ++ MANGO_HDR__AUTHORIZATION ++ bytes ": Basic " ++
      MangoBase64.b64_encode (user ++ bytes ":" ++ pass) ++ CRLF)); try done.
    + by destruct p.
    + rewrite !Forall_app. split_and!; try by repeat constructor; try done.
      apply MangoBase64.b64_encode_nonzero. rewrite !Forall_app.
      apply is_string_facts in Hu as [Hu _]. apply is_string_facts in Hs as [Hs _].
      split_and!; [done | by repeat constructor | done].
    + rewrite <- !app_assoc. exact Hfit.
    + rewrite <- !app_assoc. exact Hb.
  - intros _ c Hb. by apply (session_becomes (client w) p).
Qed.

(** ** Every call *)

Context `{environment_ok E}.

(** A call from a reachable state returns to one, or stops with one of the
    failures that remain. *)
Lemma wpg_do_call ready a w :
  session_ok ready (client w) -> call_allowed ready a ->
  wpg sm_failure (do_call a)
    (fun err w' => session_ok (ready_after ready a err) (client w')) w.
Proof.
  intros Hok Ha. pose proof Hok as [Hrest Hreq].
  assert (forall w', resting (client w') -> session_ok false (client w')) as Hend by done.
  destruct a as [URI method|x y|x y| |buf|timeout|buf type|]; cbn [do_call call_allowed ready_after] in *.
  - by apply wpg_call_RequestNew.
  - destruct Ha as (-> & Hx & Hy). by apply wpg_call_HeaderSet.
  - destruct Ha as (-> & Hx & Hy). by apply wpg_call_AuthSet.
  - apply wpg_httpRequestProcess; [done | done | | by auto].
    intros _. apply request_built_ready; [by apply resting_wb_ok | by apply Hreq].
  - unfold mango_httpDataSend. pose proof (zlen_nonneg buf).
    rewrite u16_small by (unfold is_u16; lia). by apply wpg_api_call.
  - by apply wpg_api_call.
  - destruct Ha as (Hl & Hb & Ht). unfold mango_wsFrameSend. wp_step.
    apply wpg_ensure; [by destruct Ht as [-> | ->]|]. pose proof (zlen_nonneg buf).
    rewrite u16_small by (unfold is_u16; lia). by apply wpg_api_call.
  - by apply wpg_api_call.
Qed.

(** ** Connecting *)

Lemma zero_client_ok fd :
  wb_ok (set_socketfd fd zero_client) /\ api_args_ok (set_socketfd fd zero_client).
Proof. split; [|exact I]. split; [reflexivity|]. by vm_compute. Qed.

Lemma connect_resting alloc host fd retval w :
  mango_connect E fuel alloc host fd retval = Ok (Some w) ->
  resting (client w) /\ curState (client w) = mangoSM__HTTP_CONNECTED.
Proof.
  unfold mango_connect. destruct alloc; [|done]. cbn [negb].
  destruct (_ <? 0); [done|].
  pose proof (wpg_INIT E fuel (mkWorld (set_socketfd (mangoPort_connect host fd retval) zero_client) [])
    (fun _ w' => resting (client w') /\ curState (client w') = mangoSM__HTTP_CONNECTED)) as Hi.
  destruct (zero_client_ok (mangoPort_connect host fd retval)) as [Hwb Hargs].
  specialize (Hi Hwb Hargs ltac:(by auto)). unfold wpg in Hi.
  destruct (mangoSM_INIT _ _ _) as [[r w']|f]; [|done]. by intros [= <-].
Qed.

Lemma session_invariant ready w : session ready w -> session_ok ready (client w).
Proof.
  induction 1 as [host fd retval w Hc|? ? ? ? ? ? ? ? ? ? ? ? Hc|ready w a err w' _ IH Ha Hrun].
  - split; [|done]. by apply connect_resting in Hc as [? _].
  - split; [|done]. by apply sslconnect_at_rest in Hc as [? _].
  - pose proof (wpg_do_call _ _ _ IH Ha) as Hstep. unfold wpg in Hstep. by rewrite Hrun in Hstep.
Qed.
End Session.

(** A scripted environment: the peer sends a fixed sequence of bytes and takes
    whatever it is sent; complete runs of the client against it. *)

Lemma bytes_of_string (s : list Z) : forallb (fun c => (0 <=? c) && (c <? 256)) s = true -> Forall is_u8 s.
Proof.
  intros H. apply List.Forall_forall. intros c Hc. rewrite forallb_forall in H.
  specialize (H c Hc). unfold is_u8. lia.
Qed.

(** The number of times recv had nothing to give. *)
Fixpoint idle (tr : list sysEvent) : Z :=
  match tr with
  | [] => 0
  | SysRecv _ _ r _ :: tr => if r =? 0 then idle tr + 1 else idle tr
  | _ :: tr => idle tr
  end.

(** The peer sends [input]; a recv that finds nothing more returns [eof], 0
    after 20 seconds or -1; the application accepts everything. *)
Definition script (eof : Z) (input : list Z) : environment := {|
  gettimeofday tr := (20 * idle tr, 0);
  sys_select tr write watched usec :=
    if watched && (write || (zlen (received tr) <? zlen input))
    then (1, true, usec) else (0, false, 0);
  sys_recv tr t len :=
    let d := take (Z.to_nat len) (drop (length (received tr)) input) in
    ((if zlen d =? 0 then eof else zlen d), d);
  sys_send tr t d := zlen d;
  sys_malloc tr sz := true;
  application tr arg := MANGO_OK
|}.

Lemma script_ok eof input :
  -1 <= eof <= 0 -> Forall is_byte input -> environment_ok (script eof input).
Proof.
  intros He Hb. split; cbn.
  - intros tr t len Hl. set (d := take (Z.to_nat len) (drop (length (received tr)) input)).
    assert (0 <= zlen d <= len) by (unfold d, zlen; rewrite length_take; lia).
    assert (Forall is_byte d) by (by apply Forall_take, Forall_drop).
    destruct (Z.eqb_spec (zlen d) 0); split_and!; try done; lia.
  - intros tr t d. pose proof (zlen_nonneg d). lia.
  - intros tr w watched usec. destruct watched, w, (_ <? _); cbn; split_and!; try done; lia.
Qed.

Lemma script_silent_ok : environment_ok (script 0 []).
Proof. by apply script_ok. Qed.

Lemma script_live eof input : live_connection (script eof input).
Proof.
  split; [intros; cbn; lia|]. intros tr t d Hd. cbn. intros Hz. by apply Hd, zlen_zero_nil.
Qed.

(** With an error at the end, every recv brings something or fails. *)
Lemma script_live_recv input tr t len :
  (sys_recv (script (-1) input) tr t len).1 <> 0.
Proof. cbn. by destruct (Z.eqb_spec (zlen (take (Z.to_nat len) (drop (length (received tr)) input))) 0). Qed.

(** A client connected on descriptor 3. *)
Definition connected (E : environment) (fuel : nat) : world :=
  match mango_connect E fuel true true 3 0 with
  | Ok (Some w) => w
  | _ => mkWorld zero_client []
  end.

Definition CRLF_string : list Z := [13; 10].
Definition header_line (s : string) : list Z := bytes s ++ CRLF_string.

(** A GET request for "/" with a Host header. *)
Definition get_request (E : environment) (fuel : nat) : M world mangoErr_t :=
  mango_httpRequestNew (bytes "/") MANGO_HTTP_METHOD_GET ;;
  mango_httpHeaderSet (bytes "Host") (bytes "x") ;;
  mango_httpRequestProcess E fuel true.

(** What a run shows: its result, the state of the client, what was sent and
    what the application was given. *)
Definition observe (r : outcome (mangoErr_t * world))
    : option (mangoErr_t * mangoState * list Z * list mangoArg_t) :=
  match r with
  | Ok (err, w) => Some (err, curState (client w), accepted (trace w), app_calls (trace w))
  | Stop _ => None
  end.

(** A response whose headers fill the working buffer. *)
Definition padded (status : string) : list Z :=
  let h := header_line status in
  h ++ bytes "X: " ++ replicate (Z.to_nat (4095 - zlen h - 7)) 97 ++ CRLF_string ++ CRLF_string.

(** A client connected to a peer that sends [input], after the calls. *)
Definition after_calls (input : list Z) (calls : list api_call) : option (bool * world) :=
  let E := script 0 input in run_session E 100 false (connected E 100) calls.

Definition world_after (input : list Z) (calls : list api_call) : world :=
  match after_calls input calls with
  | Some (_, w) => w
  | None => mkWorld zero_client []
  end.

(** A request for "/" with one header. *)
Definition request_calls (method : mangoHttpMethod_e) (name value : string) : list api_call :=
  [Call_httpRequestNew (bytes "/") method; Call_httpHeaderSet (bytes name) (bytes value);
   Call_httpRequestProcess].

Lemma connected_session E : 
  mango_connect E 100 true true 3 0 = Ok (Some (connected E 100)) ->
  session E 100 false (connected E 100).
Proof. apply session_connect. Qed.

Lemma connected_script input :
  mango_connect (script 0 input) 100 true true 3 0 = Ok (Some (connected (script 0 input) 100)).
Proof. vm_compute. reflexivity. Qed.

Lemma world_after_session input calls ready :
  fst <$> after_calls input calls = Some ready ->
  session (script 0 input) 100 ready (world_after input calls).
Proof.
  unfold world_after. destruct (after_calls input calls) as [[r w]|] eqn:Hrun; [|done].
  intros [= <-]. eapply run_session_session; [|exact Hrun].
  apply connected_session, connected_script.
Qed.
