(* ===== verification/Crc.v ===== *)
(** components/crc/crc.c: the bitwise and the table-driven CRC.

    The standards of crc.h are the values of [standard]; the file is compiled
    for CRC_CCITT.  The state of a computation is crcTable. *)

From S2P Require Import Prelude.
From S2P Require Import CMonad.

(** A standard of crc.h; [width] is 8 * sizeof(crc). *)
Record standard : Type := mkStandard {
  width : Z;
  POLYNOMIAL : Z;
  INITIAL_REMAINDER : Z;
  FINAL_XOR_VALUE : Z;
  reflect_data : bool;
  reflect_remainder : bool;
  CHECK_VALUE : Z
}.

Definition CRC_CCITT : standard := mkStandard 16 0x1021 0xFFFF 0x0000 false false 0x29B1.
Definition CRC16 : standard := mkStandard 16 0x8005 0x0000 0x0000 true true 0xBB3D.
(** Its crc is unsigned long: 32 bits only where a long has four bytes, where the
    check value is right.  With eight bytes TOPBIT, [1 << 63] in an int, is
    undefined; [standard_ok] of CrcFacts.v excludes that width. *)
Definition CRC32 (sizeof_long : Z) : standard :=
  mkStandard (8 * sizeof_long) 0x04C11DB7 0xFFFFFFFF 0xFFFFFFFF true true 0xCBF43926.

(** One round of the loop of reflect: bit, data and reflection. *)
Fixpoint reflect_loop (rounds : nat) (nBits bit data reflection : Z) : Z :=
  match rounds with
  | O => reflection
  | S n =>
      let reflection :=
        if Z.land data 1 =? 0 then reflection
        else Z.lor reflection (Z.shiftl 1 (nBits - 1 - bit)) in
      reflect_loop n nBits (bit + 1) (Z.shiftr data 1) reflection
  end.

Definition reflect (data nBits : Z) : Z := reflect_loop (Z.to_nat nBits) nBits 0 data 0.

Section Crc.
Context (std : standard).

Definition WIDTH : Z := width std.
Definition TOPBIT : Z := Z.shiftl 1 (WIDTH - 1).
(** Conversion to the type crc. *)
Definition to_crc (x : Z) : Z := x mod 2 ^ WIDTH.

Definition REFLECT_DATA (x : Z) : Z := if reflect_data std then u8 (reflect x 8) else x.
Definition REFLECT_REMAINDER (x : Z) : Z :=
  if reflect_remainder std then to_crc (reflect x WIDTH) else x.

(** The body of for (bit = 8; bit > 0; --bit). *)
Definition divide_bit (remainder : Z) : Z :=
  if negb (Z.land remainder TOPBIT =? 0)
  then to_crc (Z.lxor (Z.shiftl remainder 1) (POLYNOMIAL std))
  else to_crc (Z.shiftl remainder 1).

Fixpoint divide_bits (bit : nat) (remainder : Z) : Z :=
  match bit with
  | O => remainder
  | S bit => divide_bits bit (divide_bit remainder)
  end.

(** One round of the loop over the message: byte and remainder. *)
Definition crcSlow_body (message : list Z) (nBytes : Z) (st : Z * Z)
    : M (list Z) (Z * Z + Z) :=
  let '(byte, remainder) := st in
  if byte <? nBytes
  then
    m <- access "crcSlow" (zget message byte) ;;
    let remainder := to_crc (Z.lxor remainder (Z.shiftl (REFLECT_DATA m) (WIDTH - 8))) in
    ret (inl (byte + 1, divide_bits 8 remainder))
  else ret (inr remainder).

Definition crcSlow (message : list Z) (nBytes : Z) : M (list Z) Z :=
  remainder <- loop (Datatypes.S (Z.to_nat nBytes)) (crcSlow_body message nBytes)
                 (0, INITIAL_REMAINDER std) ;;
  ret (to_crc (Z.lxor (REFLECT_REMAINDER remainder) (FINAL_XOR_VALUE std))).

(** One round of the loop over the dividends. *)
Definition crcInit_body (dividend : Z) : M (list Z) (Z + unit) :=
  if dividend <? 256
  then
    let remainder := to_crc (Z.shiftl dividend (WIDTH - 8)) in
    let remainder := divide_bits 8 remainder in
    crcTable <- get ;;
    crcTable <- access "crcInit" (zset crcTable dividend remainder) ;;
    put crcTable ;;
    ret (inl (dividend + 1))
  else ret (inr tt).

Definition crcInit : M (list Z) unit := loop 257 crcInit_body 0.

Definition crcFast_body (message : list Z) (nBytes : Z) (st : Z * Z)
    : M (list Z) (Z * Z + Z) :=
  let '(byte, remainder) := st in
  if byte <? nBytes
  then
    m <- access "crcFast" (zget message byte) ;;
    let data := u8 (Z.lxor (REFLECT_DATA m) (Z.shiftr remainder (WIDTH - 8))) in
    crcTable <- get ;;
    t <- access "crcFast" (zget crcTable data) ;;
    ret (inl (byte + 1, to_crc (Z.lxor t (Z.shiftl remainder 8))))
  else ret (inr remainder).

Definition crcFast (message : list Z) (nBytes : Z) : M (list Z) Z :=
  remainder <- loop (Datatypes.S (Z.to_nat nBytes)) (crcFast_body message nBytes)
                 (0, INITIAL_REMAINDER std) ;;
  ret (to_crc (Z.lxor (REFLECT_REMAINDER remainder) (FINAL_XOR_VALUE std))).
End Crc.

(** crcTable, a static array. *)
Definition crcTable_initial : list Z := replicate 256 0.
