(* ===== verification/CrcFacts.v ===== *)
(** The two computations of crc.c agree: the table holds the remainders of the
    single bytes, and division is linear.

    The second part is about the errors that a CRC detects. *)

From S2P Require Import Prelude.
From S2P Require Import CMonad.
From S2P Require Import Crc.

(** A standard the code can run: at least a byte wide, with a polynomial that
    fits. *)
Definition standard_ok (std : standard) : Prop :=
  8 <= width std <= 32 /\ 0 <= POLYNOMIAL std < 2 ^ width std /\
  0 <= INITIAL_REMAINDER std < 2 ^ width std.

(** * reflect *)

Lemma reflect_loop_testbit n : forall nBits bit data r i,
  0 <= bit -> bit + Z.of_nat n = nBits -> 0 <= data -> 0 <= i ->
  Z.testbit (reflect_loop n nBits bit data r) i =
  Z.testbit r i || ((i <? nBits - bit) && Z.testbit data (nBits - 1 - bit - i)).
Proof.
  induction n as [|n IH]; intros nBits bit data r i Hb Hn Hd Hi; cbn [reflect_loop].
  - destruct (Z.ltb_spec i (nBits - bit)); [lia|]. by rewrite orb_false_r.
  - rewrite IH by (rewrite ?Z.shiftr_nonneg; lia).
    assert (Z.testbit (if Z.land data 1 =? 0 then r
                       else Z.lor r (Z.shiftl 1 (nBits - 1 - bit))) i =
            Z.testbit r i || ((i =? nBits - 1 - bit) && Z.testbit data 0)) as ->.
    { change 1 with (Z.ones 1) at 1. rewrite Z.land_ones by lia. change (2 ^ 1) with 2.
      rewrite <- Z.bit0_mod. destruct (Z.testbit data 0); cbn [Z.b2z Z.eqb].
      - rewrite Z.lor_spec, Z.shiftl_spec, andb_true_r by lia. f_equal.
        destruct (Z.eqb_spec i (nBits - 1 - bit)) as [->|Hne]; [by rewrite Z.sub_diag|].
        destruct (Z.ltb_spec i (nBits - 1 - bit)); [by rewrite Z.testbit_neg_r by lia|].
        apply (Z.bits_above_log2 1); [lia|]. change (Z.log2 1) with 0. lia.
      - by rewrite andb_false_r, orb_false_r. }
    rewrite <- orb_assoc. f_equal.
    destruct (Z.ltb_spec i (nBits - bit)), (Z.ltb_spec i (nBits - (bit + 1))),
      (Z.eqb_spec i (nBits - 1 - bit)); try lia; cbn [andb orb]; try done.
    + rewrite Z.shiftr_spec by lia. f_equal. lia.
    + subst i. by rewrite Z.sub_diag, orb_false_r.
Qed.

Lemma reflect_testbit data n i :
  0 <= n -> 0 <= data -> 0 <= i ->
  Z.testbit (reflect data n) i = (i <? n) && Z.testbit data (n - 1 - i).
Proof.
  intros. unfold reflect. rewrite reflect_loop_testbit by lia.
  rewrite Z.bits_0. cbn [orb]. by rewrite !Z.sub_0_r.
Qed.

(** A number below 2^n, by its bits. *)
Lemma bits_below x n : 0 <= n -> 0 <= x -> (forall i, n <= i -> Z.testbit x i = false) ->
  x < 2 ^ n.
Proof.
  intros Hn Hx H. destruct (Z.eq_dec x 0) as [->|]; [by apply Z.pow_pos_nonneg; lia|].
  apply Z.log2_lt_pow2; [lia|]. destruct (Z.ltb_spec (Z.log2 x) n) as [|Hge]; [done|].
  exfalso. specialize (H _ Hge). rewrite Z.bit_log2 in H; [done | lia].
Qed.

Lemma bits_above x n i : 0 <= x < 2 ^ n -> 0 <= n <= i -> Z.testbit x i = false.
Proof.
  intros Hx Hi. rewrite <- (Z.mod_small x (2 ^ n)) by lia. by apply Z.mod_pow2_bits_high.
Qed.

Lemma reflect_nonneg data n : 0 <= n -> 0 <= data -> 0 <= reflect data n.
Proof.
  intros Hn Hd. unfold reflect.
  assert (forall m k b d r, 0 <= r -> 0 <= reflect_loop m k b d r) as H.
  { intros m. induction m as [|m IH]; intros k b d r Hr; cbn [reflect_loop]; [done|].
    apply IH. destruct (_ =? 0); [done|]. apply Z.lor_nonneg. split; [done|].
    destruct (Z.ltb_spec (k - 1 - b) 0).
    - rewrite Z.shiftl_div_pow2 by lia. apply Z.div_pos; [lia|]. apply Z.pow_pos_nonneg; lia.
    - apply Z.shiftl_nonneg. lia. }
  by apply H.
Qed.

Lemma reflect_range data n : 0 <= n -> 0 <= data -> 0 <= reflect data n < 2 ^ n.
Proof.
  intros Hn Hd. split; [by apply reflect_nonneg|].
  apply bits_below; [done | by apply reflect_nonneg|]. intros i Hi.
  rewrite reflect_testbit by lia. by rewrite (proj2 (Z.ltb_ge i n)).
Qed.

(** * Division is linear *)

Section Linear.
Context (std : standard) (Hstd : standard_ok std).
Let W := width std.

Lemma W_range : 8 <= W <= 32.
Proof. apply Hstd. Qed.

Definition is_crc (x : Z) : Prop := 0 <= x < 2 ^ W.

Lemma to_crc_range x : is_crc (to_crc std x).
Proof. apply Z.mod_pos_bound, Z.pow_pos_nonneg; [lia | pose proof W_range; lia]. Qed.

Lemma to_crc_small x : is_crc x -> to_crc std x = x.
Proof. apply Z.mod_small. Qed.

Lemma to_crc_testbit x i :
  0 <= i -> Z.testbit (to_crc std x) i = (i <? W) && Z.testbit x i.
Proof.
  intros Hi. unfold to_crc, WIDTH. fold W. pose proof W_range.
  destruct (Z.ltb_spec i W); [by apply Z.mod_pow2_bits_low | apply Z.mod_pow2_bits_high; lia].
Qed.

Lemma topbit_test r : (Z.land r (TOPBIT std) =? 0) = negb (Z.testbit r (W - 1)).
Proof.
  pose proof W_range. unfold TOPBIT, WIDTH. fold W. rewrite Z.shiftl_1_l.
  destruct (Z.testbit r (W - 1)) eqn:Hb; cbn [negb].
  - apply Z.eqb_neq. intros H0. assert (Z.testbit (Z.land r (2 ^ (W - 1))) (W - 1) = true) as Ht
      by (rewrite Z.land_spec, Hb, Z.pow2_bits_true by lia; done).
    by rewrite H0, Z.bits_0 in Ht.
  - apply Z.eqb_eq, Z.bits_inj_0. intros i. rewrite Z.land_spec.
    destruct (Z.eq_dec i (W - 1)) as [->|]; [by rewrite Hb|].
    by rewrite Z.pow2_bits_false, andb_false_r by lia.
Qed.

(** The division of one bit. *)
Lemma divide_bit_testbit r i :
  0 <= i ->
  Z.testbit (divide_bit std r) i =
  (i <? W) && xorb (Z.testbit r (i - 1)) (Z.testbit r (W - 1) && Z.testbit (POLYNOMIAL std) i).
Proof.
  intros Hi. unfold divide_bit. rewrite topbit_test, negb_involutive.
  destruct (Z.testbit r (W - 1)); rewrite to_crc_testbit by done; f_equal;
    rewrite ?Z.lxor_spec, Z.shiftl_spec by done; cbn [andb]; by rewrite ?xorb_false_r.
Qed.

Lemma divide_bit_range r : is_crc (divide_bit std r).
Proof. unfold divide_bit. destruct (negb _); apply to_crc_range. Qed.

Lemma divide_bit_xor a b :
  divide_bit std (Z.lxor a b) = Z.lxor (divide_bit std a) (divide_bit std b).
Proof.
  apply Z.bits_inj'. intros i Hi. rewrite Z.lxor_spec, !divide_bit_testbit, !Z.lxor_spec by done.
  destruct (i <? W), (Z.testbit a (i - 1)), (Z.testbit b (i - 1)), (Z.testbit a (W - 1)),
    (Z.testbit b (W - 1)), (Z.testbit (POLYNOMIAL std) i); done.
Qed.

Lemma divide_bits_xor n a b :
  divide_bits std n (Z.lxor a b) = Z.lxor (divide_bits std n a) (divide_bits std n b).
Proof.
  revert a b. induction n as [|n IH]; intros a b; cbn [divide_bits]; [done|].
  by rewrite divide_bit_xor, IH.
Qed.

Lemma divide_bits_range n r : is_crc r -> is_crc (divide_bits std n r).
Proof.
  revert r. induction n as [|n IH]; intros r Hr; cbn [divide_bits]; [done|].
  apply IH, divide_bit_range.
Qed.

(** Bits that do not reach the top are only shifted. *)
Lemma divide_bits_low n x :
  0 <= x < 2 ^ (W - Z.of_nat n) -> Z.of_nat n <= W ->
  divide_bits std n x = Z.shiftl x (Z.of_nat n).
Proof.
  pose proof W_range. revert x. induction n as [|n IH]; intros x Hx Hn; cbn [divide_bits].
  { by rewrite Z.shiftl_0_r. }
  assert (divide_bit std x = Z.shiftl x 1) as ->.
  { unfold divide_bit. rewrite topbit_test, negb_involutive, (bits_above x (W - Z.of_nat (S n))) by lia.
    apply to_crc_small. rewrite Z.shiftl_mul_pow2 by lia. unfold is_crc.
    assert (2 ^ W = 2 ^ (W - Z.of_nat (S n)) * 2 ^ Z.of_nat n * 2) as ->.
    { rewrite <- Z.pow_add_r, <- (Z.pow_add_r 2 _ 1) by lia. f_equal. lia. }
    pose proof (Z.pow_pos_nonneg 2 (Z.of_nat n) ltac:(lia) ltac:(lia)). nia. }
  rewrite IH.
  - rewrite Z.shiftl_shiftl by lia. f_equal. lia.
  - rewrite Z.shiftl_mul_pow2 by lia. replace (W - Z.of_nat n) with (W - Z.of_nat (S n) + 1) by lia.
    rewrite Z.pow_add_r by lia. lia.
  - lia.
Qed.

(** The entry of the table for a byte. *)
Definition table_entry (d : Z) : Z := divide_bits std 8 (to_crc std (Z.shiftl d (W - 8))).

(** A byte of the message, divided at once. *)
Lemma divide_byte r d :
  is_crc r -> is_u8 d ->
  divide_bits std 8 (to_crc std (Z.lxor r (Z.shiftl d (W - 8)))) =
  to_crc std (Z.lxor (table_entry (u8 (Z.lxor d (Z.shiftr r (W - 8))))) (Z.shiftl r 8)).
Proof.
  intros Hr Hd. pose proof W_range. unfold is_crc, is_u8 in *.
  set (low := r mod 2 ^ (W - 8)).
  assert (0 <= low < 2 ^ (W - 8)) as Hlow
    by (apply Z.mod_pos_bound, Z.pow_pos_nonneg; lia).
  set (x := u8 (Z.lxor d (Z.shiftr r (W - 8)))).
  assert (forall i, 0 <= i -> Z.testbit d i = (i <? 8) && Z.testbit d i) as Hdb.
  { intros i Hi. destruct (Z.ltb_spec i 8); [done|]. apply (bits_above d 8); [done | lia]. }
  assert (forall i, 0 <= i -> Z.testbit r i = (i <? W) && Z.testbit r i) as Hrb.
  { intros i Hi. destruct (Z.ltb_spec i W); [done|]. apply (bits_above r W); [done | lia]. }
  assert (to_crc std (Z.lxor r (Z.shiftl d (W - 8))) =
          Z.lxor (to_crc std (Z.shiftl x (W - 8))) low) as ->.
  { apply Z.bits_inj'. intros i Hi.
    rewrite Z.lxor_spec, !to_crc_testbit, Z.lxor_spec, !Z.shiftl_spec by done.
    unfold low, x, u8. change 256 with (2 ^ 8).
    destruct (Z.ltb_spec i (W - 8)).
    - assert ((i <? W) = true) as -> by (apply Z.ltb_lt; lia).
      unfold W in *. rewrite Z.mod_pow2_bits_low, !(Z.testbit_neg_r _ (i - (width std - 8))) by lia.
      cbn [andb]. rewrite Z.mod_pow2_bits_low by lia. by rewrite xorb_false_r, xorb_false_l.
    - rewrite (Z.mod_pow2_bits_high r), xorb_false_r by lia.
      destruct (Z.ltb_spec i W); [|done]. cbn [andb].
      rewrite Z.mod_pow2_bits_low, Z.lxor_spec, Z.shiftr_spec by lia.
      rewrite xorb_comm. do 2 f_equal. lia. }
  rewrite divide_bits_xor, (divide_bits_low 8 low) by (change (Z.of_nat 8) with 8; lia).
  change (Z.of_nat 8) with 8. fold (table_entry x).
  assert (is_crc (table_entry x)) as Ht by apply divide_bits_range, to_crc_range.
  apply Z.bits_inj'. intros i Hi.
  rewrite to_crc_testbit, !Z.lxor_spec, !Z.shiftl_spec by done. unfold low.
  destruct (Z.ltb_spec i W); cbn [andb].
  - f_equal. destruct (Z.ltb_spec i 8); [by rewrite !Z.testbit_neg_r by lia|].
    by rewrite Z.mod_pow2_bits_low by lia.
  - rewrite (bits_above _ W i Ht) by lia. by rewrite Z.mod_pow2_bits_high by lia.
Qed.
End Linear.

(** * The programs *)

Section Programs.
Context (std : standard) (Hstd : standard_ok std).
Context (Fl : failure -> Prop).

(** The remainder after the bytes of a message. *)
Definition crc_byte (r d : Z) : Z :=
  divide_bits std 8 (to_crc std (Z.lxor r (Z.shiftl (REFLECT_DATA std d) (WIDTH std - 8)))).
Definition crc_bytes (r : Z) (message : list Z) : Z := fold_left crc_byte message r.

(** The CRC of a message, as the bitwise algorithm defines it. *)
Definition crc_value (message : list Z) : Z :=
  to_crc std (Z.lxor (REFLECT_REMAINDER std (crc_bytes (INITIAL_REMAINDER std) message))
                (FINAL_XOR_VALUE std)).

Lemma REFLECT_DATA_range d : is_u8 d -> is_u8 (REFLECT_DATA std d).
Proof. intros Hd. unfold REFLECT_DATA. destruct (reflect_data std); [apply u8_range | done]. Qed.

Lemma crc_byte_range r d : is_crc std (crc_byte r d).
Proof. by apply divide_bits_range, to_crc_range. Qed.

(** A loop over the message that computes one byte per round. *)
Lemma wpg_message_loop body message (Q : Z -> list Z -> Prop) st :
  (forall pre d post r, message = pre ++ d :: post -> is_crc std r ->
     body (zlen pre, r) st = Ok (inl (zlen pre + 1, crc_byte r d), st)) ->
  (forall r, body (zlen message, r) st = Ok (inr r, st)) ->
  forall post pre r n, message = pre ++ post -> is_crc std r -> (length post < n)%nat ->
  Q (crc_bytes r post) st -> wpg Fl (loop n body (zlen pre, r)) Q st.
Proof.
  intros Hbody Hend post. induction post as [|d post IH]; intros pre r n Hm Hr Hn HQ;
    (destruct n as [|n]; [cbn in Hn; lia|]); unfold wpg; cbn [loop].
  - rewrite app_nil_r in Hm. subst pre. by rewrite Hend.
  - rewrite (Hbody pre d post r Hm Hr).
    replace (zlen pre + 1) with (zlen (pre ++ [d])) by (rewrite zlen_app; done).
    apply (IH (pre ++ [d])); [by rewrite <- app_assoc | apply crc_byte_range | cbn in Hn; lia | done].
Qed.

Lemma message_get (pre : list Z) d post : zget (pre ++ d :: post) (zlen pre) = Some d.
Proof. rewrite zget_app_r, Z.sub_diag by lia. apply zget_0. Qed.

Lemma message_lt (pre : list Z) d post : (zlen pre <? zlen (pre ++ d :: post)) = true.
Proof. apply Z.ltb_lt. rewrite zlen_app, zlen_cons. pose proof (zlen_nonneg post). lia. Qed.

Lemma wpg_crcSlow message (Q : Z -> list Z -> Prop) st :
  Q (crc_value message) st -> wpg Fl (crcSlow std message (zlen message)) Q st.
Proof.
  intros HQ. unfold crcSlow. wp_step.
  apply (wpg_message_loop _ message _ _) with (pre := []) (post := message);
    [| | done | apply Hstd | unfold zlen; lia | by wp_step].
  - intros pre d post r Hm Hr. subst message. unfold crcSlow_body. rewrite message_lt.
    unfold bind, access. by rewrite message_get.
  - intros r. unfold crcSlow_body. by rewrite Z.ltb_irrefl.
Qed.

(** The table crcInit builds. *)
Definition table_ok (t : list Z) : Prop :=
  forall d, is_u8 d -> zget t d = Some (table_entry std d).

Lemma wpg_crcInit (Q : unit -> list Z -> Prop) t :
  zlen t = 256 -> (forall t', zlen t' = 256 -> table_ok t' -> Q tt t') ->
  wpg Fl (crcInit std) Q t.
Proof.
  intros Hl HQ. unfold crcInit.
  apply (wpg_loop Fl _ (fun k t' => 0 <= k <= 256 /\ zlen t' = 256 /\
      forall d, 0 <= d < k -> zget t' d = Some (table_entry std d))
    (fun k _ => Z.to_nat (256 - k))); [|split; [lia|]; split; [done | intros; lia]|lia].
  intros k t1 (Hk & Hl1 & Ht1). unfold crcInit_body. destruct (Z.ltb_spec k 256).
  - wp_steps. eapply wpg_access_Some; [apply zset_is_Some; lia|]. wp_steps.
    split; [|lia]. split; [lia|]. split; [by rewrite zlen_insert|]. intros d Hd.
    destruct (Z.eq_dec d k) as [->|Hne].
    + rewrite zget_insert_eq by lia. done.
    + rewrite zget_insert_ne by lia. apply Ht1. lia.
  - wp_step. apply HQ; [done|]. intros d Hd. apply Ht1. unfold is_u8 in Hd. lia.
Qed.

Lemma wpg_crcFast message (Q : Z -> list Z -> Prop) t :
  Forall is_u8 message -> table_ok t ->
  Q (crc_value message) t -> wpg Fl (crcFast std message (zlen message)) Q t.
Proof.
  intros Hm Ht HQ. unfold crcFast. wp_step.
  apply (wpg_message_loop _ message _ _) with (pre := []) (post := message);
    [| | done | apply Hstd | unfold zlen; lia | by wp_step].
  - intros pre d post r He Hr. subst message. unfold crcFast_body. rewrite message_lt.
    apply Forall_app in Hm as [_ Hm]. inversion Hm as [|? ? Hd _]; subst.
    pose proof (REFLECT_DATA_range d Hd) as Hrd.
    unfold bind, access, get. rewrite message_get. cbn [ret].
    rewrite Ht by apply u8_range. cbn [ret]. unfold crc_byte.
    change (WIDTH std) with (width std). by rewrite (divide_byte std Hstd r (REFLECT_DATA std d) Hr Hrd).
  - intros r. unfold crcFast_body. by rewrite Z.ltb_irrefl.
Qed.
End Programs.

(** Both computations give the check values of crc.h for the message
    "123456789", in all three standards, with a long of four bytes. *)
Example crc_check_values :
  forallb (fun std =>
    match crcSlow std (bytes "123456789") 9 crcTable_initial,
          (crcInit std ;; crcFast std (bytes "123456789") 9) crcTable_initial with
    | Ok (a, _), Ok (b, _) => (a =? CHECK_VALUE std) && (b =? CHECK_VALUE std)
    | _, _ => false
    end) [CRC_CCITT; CRC16; CRC32 4] = true.
Proof. vm_compute. reflexivity. Qed.

(** What the CRC of crc.c detects: with an odd polynomial every step of the
    division is injective, so messages that differ in one byte only have
    different values. *)

Section Detect.
Context (std : standard) (Hstd : standard_ok std).
Context (Hodd : Z.testbit (POLYNOMIAL std) 0 = true).
Let W := width std.

Lemma is_crc_0 : is_crc std 0.
Proof. unfold is_crc. pose proof (W_range std Hstd). split; [done|]. apply Z.pow_pos_nonneg; lia. Qed.

Lemma lxor_range n a b : 0 <= n -> 0 <= a < 2 ^ n -> 0 <= b < 2 ^ n -> 0 <= Z.lxor a b < 2 ^ n.
Proof.
  intros Hn Ha Hb. assert (0 <= Z.lxor a b) as H0 by (apply Z.lxor_nonneg; lia).
  split; [done|]. apply bits_below; [done | done|]. intros i Hi.
  by rewrite Z.lxor_spec, (bits_above a n), (bits_above b n) by lia.
Qed.

Lemma divide_bit_zero x : is_crc std x -> divide_bit std x = 0 -> x = 0.
Proof.
  intros Hx H0. pose proof (W_range std Hstd) as HW. unfold is_crc in Hx. fold W in Hx, HW.
  assert (forall i, 0 <= i < W ->
    xorb (Z.testbit x (i - 1)) (Z.testbit x (W - 1) && Z.testbit (POLYNOMIAL std) i) = false) as Hb.
  { intros i Hi. pose proof (divide_bit_testbit std Hstd x i ltac:(lia)) as Ht.
    rewrite H0, Z.bits_0 in Ht. fold W in Ht. rewrite (proj2 (Z.ltb_lt _ _)) in Ht by lia. done. }
  assert (Z.testbit x (W - 1) = false) as Htop.
  { pose proof (Hb 0 ltac:(lia)) as Hbit. rewrite Hodd, Z.testbit_neg_r, andb_true_r in Hbit by lia.
    by rewrite xorb_false_l in Hbit. }
  apply Z.bits_inj_0. intros i.
  destruct (Z.ltb_spec i 0); [by apply Z.testbit_neg_r|].
  destruct (Z.ltb_spec i (W - 1)).
  - pose proof (Hb (i + 1) ltac:(lia)) as Hbit. rewrite Htop, xorb_false_r in Hbit.
    by replace (i + 1 - 1) with i in Hbit by lia.
  - destruct (Z.eq_dec i (W - 1)) as [->|]; [done|]. apply (bits_above x W); lia.
Qed.

Lemma divide_bits_zero n x : is_crc std x -> divide_bits std n x = 0 -> x = 0.
Proof.
  revert x. induction n as [|n IH]; intros x Hx H0; [done|]. cbn [divide_bits] in H0.
  apply divide_bit_zero; [done|]. by apply IH; [apply divide_bit_range|].
Qed.

(** The byte step is injective in the remainder and in the byte. *)
Lemma crc_byte_zero r d r' d' :
  is_crc std r -> is_crc std r' -> crc_byte std r d = crc_byte std r' d' ->
  to_crc std (Z.lxor r (Z.shiftl (REFLECT_DATA std d) (W - 8))) =
  to_crc std (Z.lxor r' (Z.shiftl (REFLECT_DATA std d') (W - 8))).
Proof.
  intros Hr Hr' Heq. pose proof (W_range std Hstd). unfold crc_byte, WIDTH in Heq. fold W in Heq.
  apply Z.lxor_eq, (divide_bits_zero 8).
  - apply lxor_range; [unfold W in *; lia | by apply to_crc_range | by apply to_crc_range].
  - rewrite divide_bits_xor, Heq by done. apply Z.lxor_nilpotent.
Qed.

Lemma crc_byte_inj_remainder r r' d :
  is_crc std r -> is_crc std r' -> crc_byte std r d = crc_byte std r' d -> r = r'.
Proof.
  intros Hr Hr' Heq. pose proof (W_range std Hstd) as HW.
  pose proof (crc_byte_zero _ _ _ _ Hr Hr' Heq) as Hz. unfold is_crc in *.
  apply Z.bits_inj'. intros i Hi.
  destruct (Z.ltb_spec i W).
  - apply (f_equal (fun x => Z.testbit x i)) in Hz.
    rewrite !to_crc_testbit, !Z.lxor_spec in Hz by done. fold W in Hz.
    rewrite (proj2 (Z.ltb_lt _ _)) in Hz by done. cbn [andb] in Hz.
    by destruct (Z.testbit r i), (Z.testbit r' i), (Z.testbit _ i).
  - rewrite (bits_above r W), (bits_above r' W); (done || unfold W in *; lia).
Qed.

Lemma reflect_inj n x y :
  0 <= n -> 0 <= x < 2 ^ n -> 0 <= y < 2 ^ n -> reflect x n = reflect y n -> x = y.
Proof.
  intros Hn Hx Hy Heq. apply Z.bits_inj'. intros i Hi.
  destruct (Z.ltb_spec i n).
  - apply (f_equal (fun z => Z.testbit z (n - 1 - i))) in Heq.
    rewrite !reflect_testbit in Heq by lia. rewrite (proj2 (Z.ltb_lt _ _)) in Heq by lia.
    by replace (n - 1 - (n - 1 - i)) with i in Heq by lia.
  - by rewrite (bits_above x n), (bits_above y n) by lia.
Qed.

Lemma REFLECT_DATA_inj d d' :
  is_u8 d -> is_u8 d' -> REFLECT_DATA std d = REFLECT_DATA std d' -> d = d'.
Proof.
  intros Hd Hd'. unfold REFLECT_DATA. destruct (reflect_data std); [|done].
  unfold is_u8 in *.
  rewrite !u8_small by (unfold is_u8; change 256 with (2 ^ 8); apply reflect_range; lia).
  apply reflect_inj; lia.
Qed.

Lemma REFLECT_REMAINDER_inj x y :
  is_crc std x -> is_crc std y -> REFLECT_REMAINDER std x = REFLECT_REMAINDER std y -> x = y.
Proof.
  intros Hx Hy. unfold REFLECT_REMAINDER. destruct (reflect_remainder std); [|done].
  pose proof (W_range std Hstd). unfold WIDTH, is_crc in *.
  rewrite !to_crc_small by (apply reflect_range; lia). apply reflect_inj; (done || lia).
Qed.

(** The byte that is added to the top of the remainder. *)
Lemma top_byte_testbit r x i :
  0 <= i < 8 ->
  Z.testbit (to_crc std (Z.lxor r (Z.shiftl x (W - 8)))) (i + (W - 8)) =
  xorb (Z.testbit r (i + (W - 8))) (Z.testbit x i).
Proof.
  intros Hi. pose proof (W_range std Hstd) as HW. fold W in HW.
  assert (0 <= i + (W - 8)) as H0 by lia. assert (i + (W - 8) < W) as H1 by lia.
  rewrite to_crc_testbit, Z.lxor_spec, Z.shiftl_spec by done. fold W.
  rewrite (proj2 (Z.ltb_lt _ _) H1). cbn [andb]. do 2 f_equal. lia.
Qed.

Lemma crc_byte_inj_data r d d' :
  is_crc std r -> is_u8 d -> is_u8 d' -> crc_byte std r d = crc_byte std r d' -> d = d'.
Proof.
  intros Hr Hd Hd' Heq. pose proof (W_range std Hstd) as HW.
  pose proof (crc_byte_zero _ _ _ _ Hr Hr Heq) as Hz.
  apply REFLECT_DATA_inj; [done | done|].
  pose proof (REFLECT_DATA_range std d Hd) as R1. pose proof (REFLECT_DATA_range std d' Hd') as R2.
  unfold is_u8 in R1, R2. apply Z.bits_inj'. intros i Hi. destruct (Z.ltb_spec i 8).
  - apply (f_equal (fun x => Z.testbit x (i + (W - 8)))) in Hz.
    rewrite !top_byte_testbit in Hz by done.
    by destruct (Z.testbit r _), (Z.testbit (REFLECT_DATA std d) i),
      (Z.testbit (REFLECT_DATA std d') i).
  - by rewrite (bits_above (REFLECT_DATA std d) 8), (bits_above (REFLECT_DATA std d') 8)
      by (change (2 ^ 8) with 256; lia).
Qed.

Lemma crc_bytes_inj message : forall r r',
  is_crc std r -> is_crc std r' -> crc_bytes std r message = crc_bytes std r' message -> r = r'.
Proof.
  induction message as [|d message IH]; intros r r' Hr Hr' Heq; [done|].
  apply (crc_byte_inj_remainder _ _ d); [done | done|].
  apply IH; [by apply crc_byte_range | by apply crc_byte_range | done].
Qed.

Lemma crc_bytes_range message : forall r, is_crc std r -> is_crc std (crc_bytes std r message).
Proof.
  induction message as [|d message IH]; intros r Hr; [done|]. by apply IH, crc_byte_range.
Qed.

(** One changed byte changes the value. *)
Lemma crc_value_byte pre d d' post :
  is_u8 d -> is_u8 d' -> d <> d' ->
  crc_value std (pre ++ d :: post) <> crc_value std (pre ++ d' :: post).
Proof.
  intros Hd Hd' Hne Heq. apply Hne. unfold crc_value in Heq.
  assert (is_crc std (INITIAL_REMAINDER std)) as Hi by apply Hstd.
  unfold crc_bytes in Heq. rewrite !fold_left_app in Heq. cbn [fold_left] in Heq.
  fold (crc_bytes std (INITIAL_REMAINDER std) pre) in Heq.
  pose proof (crc_bytes_range pre _ Hi) as Hpre.
  set (r := crc_bytes std (INITIAL_REMAINDER std) pre) in *.
  apply (crc_byte_inj_data r); [done | done | done|].
  apply (crc_bytes_inj post); [by apply crc_byte_range | by apply crc_byte_range |].
  apply REFLECT_REMAINDER_inj; [by apply crc_bytes_range, crc_byte_range
    | by apply crc_bytes_range, crc_byte_range |].
  set (x := REFLECT_REMAINDER std _) in Heq at 1. set (y := REFLECT_REMAINDER std _) in Heq at 1.
  assert (is_crc std x /\ is_crc std y) as [Hx Hy].
  { split; unfold x, y, REFLECT_REMAINDER; destruct (reflect_remainder std);
      first [apply to_crc_range; done | by apply crc_bytes_range, crc_byte_range]. }
  change (x = y). unfold is_crc in Hx, Hy. apply Z.bits_inj'. intros i Hi0.
  destruct (Z.ltb_spec i (width std)).
  - apply (f_equal (fun z => Z.testbit z i)) in Heq.
    rewrite !to_crc_testbit, !Z.lxor_spec in Heq by done.
    rewrite (proj2 (Z.ltb_lt _ _)) in Heq by done. cbn [andb] in Heq.
    by destruct (Z.testbit x i), (Z.testbit y i), (Z.testbit (FINAL_XOR_VALUE std) i).
  - pose proof (W_range std Hstd). by rewrite (bits_above x (width std)), (bits_above y (width std)) by lia.
Qed.
End Detect.
