(* ===== verification/Fsm.v ===== *)
(** apps/sample_fcmd/fsm_simple/fsm.c: message queues, timers and transitions of
    an event-driven scheduler.

    A task's handler and the dispatch hook are functions of the application:
    [handler] and [hook] are the types of their names, [run_handler] and
    [run_hook] what they do.  [user] is the application's own state.  The
    PORT_CPU_... macros are empty in this build. *)

From S2P Require Import Prelude.
From S2P Require Import CMonad.

(** * Data *)

Definition TASKS_CNT : Z := 3.
Definition QUEUE_SIZE : Z := 8.
Definition TIMER_CNT : Z := 32.
Definition TIMER_RELOAD_FLAG : Z := 0x80.
Definition INVALID_TASK_ID : Z := 0xFF.
Definition POWER_HOLD : Z := 1.
Definition POWER_SLEEP : Z := 0.

(** fsm_event.h *)
Definition STM_ENTRY_SIG : Z := 0.
Definition STM_EXIT_SIG : Z := 1.

(** The return values of fsm.h the code uses. *)
Definition RET_SUCCESS : Z := 0.
Definition STM_TRAN : Z := 1.
Definition QUEUE_FULLED : Z := 2.

Record timer_t : Type := mkTimer {
  sig : Z; task_id : Z; flag : Z; timeout : Z; reload : Z }.

Record queue_t : Type := mkQueue {
  q_head : Z; q_tail : Z; q_used : Z; q_buf : list Z }.

Section Fsm.
Context {handler hook user_t : Type}.

Record fsm : Type := mkFsm {
  tasks_pool : list handler;
  tasks_queue : list queue_t;
  stm_ret_value : Z;
  stm_state_temp : option handler;
  dispatch_hook : option hook;
  next_dispatch : Z;
  timer_pool : list timer_t;
  power_task_state : Z;
  user : user_t
}.

Definition set_tasks_pool v s := mkFsm v (tasks_queue s) (stm_ret_value s)
  (stm_state_temp s) (dispatch_hook s) (next_dispatch s) (timer_pool s)
  (power_task_state s) (user s).
Definition set_tasks_queue v s := mkFsm (tasks_pool s) v (stm_ret_value s)
  (stm_state_temp s) (dispatch_hook s) (next_dispatch s) (timer_pool s)
  (power_task_state s) (user s).
Definition set_stm v t s := mkFsm (tasks_pool s) (tasks_queue s) v t
  (dispatch_hook s) (next_dispatch s) (timer_pool s) (power_task_state s) (user s).
Definition set_dispatch_hook v s := mkFsm (tasks_pool s) (tasks_queue s)
  (stm_ret_value s) (stm_state_temp s) v (next_dispatch s) (timer_pool s)
  (power_task_state s) (user s).
Definition set_next_dispatch v s := mkFsm (tasks_pool s) (tasks_queue s)
  (stm_ret_value s) (stm_state_temp s) (dispatch_hook s) v (timer_pool s)
  (power_task_state s) (user s).
Definition set_timer_pool v s := mkFsm (tasks_pool s) (tasks_queue s)
  (stm_ret_value s) (stm_state_temp s) (dispatch_hook s) (next_dispatch s) v
  (power_task_state s) (user s).
Definition set_power v s := mkFsm (tasks_pool s) (tasks_queue s)
  (stm_ret_value s) (stm_state_temp s) (dispatch_hook s) (next_dispatch s)
  (timer_pool s) v (user s).
Definition set_user v s := mkFsm (tasks_pool s) (tasks_queue s)
  (stm_ret_value s) (stm_state_temp s) (dispatch_hook s) (next_dispatch s)
  (timer_pool s) (power_task_state s) v.

Context (run_handler : handler -> Z -> M fsm unit) (run_hook : hook -> M fsm unit).

(** * Messages *)

(** An index moved forward in a queue. *)
Definition q_next (i : Z) : Z :=
  let i := u8 (i + 1) in if QUEUE_SIZE <=? i then 0 else i.

(** tasks_queue[i] = q *)
Definition put_queue (site : string) (i : Z) (q : queue_t) : M fsm unit :=
  queues <- gets tasks_queue ;;
  queues <- access site (zset queues i q) ;;
  modify (set_tasks_queue queues).

Definition os_post_message (task_id e : Z) : M fsm Z :=
  let site := "os_post_message"%string in
  queues <- gets tasks_queue ;;
  q <- access site (zget queues task_id) ;;
  if QUEUE_SIZE <=? q_used q then ret QUEUE_FULLED
  else
    buf <- access site (zset (q_buf q) (q_tail q) e) ;;
    put_queue site task_id
      (mkQueue (q_head q) (q_next (q_tail q)) (u8 (q_used q + 1)) buf) ;;
    next <- gets next_dispatch ;;
    (if next =? 0
     then
       modify (set_next_dispatch 1) ;;
       h <- gets dispatch_hook ;;
       match h with Some f => run_hook f | None => ret tt end
     else ret tt) ;;
    ret RET_SUCCESS.

(** Taking the message at the head of queue [i]. *)
Definition take_message (i : Z) (q : queue_t) : M fsm Z :=
  e <- access "os_dispatch" (zget (q_buf q) (q_head q)) ;;
  put_queue "os_dispatch" i
    (mkQueue (q_next (q_head q)) (q_tail q) (u8 (q_used q - 1)) (q_buf q)) ;;
  ret e.

(** The transition os_stm_tran asked for. *)
Definition transition (i : Z) : M fsm unit :=
  r <- gets stm_ret_value ;;
  if r =? STM_TRAN
  then
    temp <- gets stm_state_temp ;;
    modify (set_stm 0 temp) ;;
    pool <- gets tasks_pool ;;
    h <- access "os_dispatch" (zget pool i) ;;
    run_handler h STM_EXIT_SIG ;;
    temp <- gets stm_state_temp ;;
    t <- access "os_dispatch" temp ;;
    run_handler t STM_ENTRY_SIG ;;
    temp <- gets stm_state_temp ;;
    t <- access "os_dispatch" temp ;;
    pool <- gets tasks_pool ;;
    pool <- access "os_dispatch" (zset pool i t) ;;
    modify (set_tasks_pool pool)
  else ret tt.

(** One round of the loop over the tasks. *)
Definition dispatch_body (i : Z) : M fsm (Z + unit) :=
  if i <? TASKS_CNT
  then
    queues <- gets tasks_queue ;;
    q <- access "os_dispatch" (zget queues i) ;;
    (if negb (q_used q =? 0)
     then
       e <- take_message i q ;;
       pool <- gets tasks_pool ;;
       h <- access "os_dispatch" (zget pool i) ;;
       run_handler h e ;;
       transition i
     else ret tt) ;;
    ret (inl (u8 (i + 1)))
  else ret (inr tt).

(** os_power_sleep does nothing. *)
Definition os_dispatch : M fsm unit :=
  modify (set_next_dispatch 0) ;;
  loop 4 dispatch_body 0.

Definition init_post_body (i : Z) : M fsm (Z + unit) :=
  if i <? TASKS_CNT
  then os_post_message i STM_ENTRY_SIG ;; ret (inl (u8 (i + 1)))
  else ret (inr tt).

Definition timer_free (t : timer_t) : timer_t :=
  mkTimer (sig t) INVALID_TASK_ID (flag t) (timeout t) (reload t).

(** timer_pool[i] = t *)
Definition put_timer (site : string) (i : Z) (t : timer_t) : M fsm unit :=
  timers <- gets timer_pool ;;
  timers <- access site (zset timers i t) ;;
  modify (set_timer_pool timers).

Definition init_timer_body (i : Z) : M fsm (Z + unit) :=
  if i <? TIMER_CNT
  then
    timers <- gets timer_pool ;;
    t <- access "os_init_tasks" (zget timers i) ;;
    put_timer "os_init_tasks" i (timer_free t) ;;
    ret (inl (u8 (i + 1)))
  else ret (inr tt).

Definition os_init_tasks : M fsm unit :=
  loop 4 init_post_body 0 ;;
  loop 33 init_timer_body 0.

Definition os_register_hook (func : option hook) : M fsm unit :=
  modify (set_dispatch_hook func).

Definition os_stm_tran (state : handler) : M fsm unit :=
  modify (set_stm STM_TRAN (Some state)).

(** * Timers *)

(** One round of os_timer_update. *)
Definition update_body (i : Z) : M fsm (Z + unit) :=
  let site := "os_timer_update"%string in
  if i <? TIMER_CNT
  then
    timers <- gets timer_pool ;;
    t <- access site (zget timers i) ;;
    (if negb (task_id t =? INVALID_TASK_ID)
     then
       if 0 <? timeout t
       then put_timer site i
              (mkTimer (sig t) (task_id t) (flag t) (u16 (timeout t - 1)) (reload t))
       else
         os_post_message (task_id t) (sig t) ;;
         timers <- gets timer_pool ;;
         t <- access site (zget timers i) ;;
         if negb (Z.land (flag t) TIMER_RELOAD_FLAG =? 0)
         then put_timer site i
                (mkTimer (sig t) (task_id t) (flag t) (reload t) (reload t))
         else put_timer site i (timer_free t)
     else ret tt) ;;
    ret (inl (u8 (i + 1)))
  else ret (inr tt).

Definition os_timer_update : M fsm unit := loop 33 update_body 0.

Definition is_timer (id s : Z) (t : timer_t) : bool := (task_id t =? id) && (sig t =? s).

(** One round of the search of os_timer_set and os_reload_timer_set:
    [change] an existing timer, or [create] one in a free slot. *)
Definition timer_body (site : string) (id s : Z) (change create : timer_t -> timer_t) (i : Z)
    : M fsm (Z + unit) :=
  if i <? TIMER_CNT
  then
    timers <- gets timer_pool ;;
    t <- access site (zget timers i) ;;
    if is_timer id s t then put_timer site i (change t) ;; ret (inr tt)
    else if task_id t =? INVALID_TASK_ID then put_timer site i (create t) ;; ret (inr tt)
    else ret (inl (u8 (i + 1)))
  else ret (inr tt).

Definition os_timer_set (id s ticks : Z) : M fsm unit :=
  loop 33 (timer_body "os_timer_set" id s
    (fun t => mkTimer (sig t) (task_id t) (flag t) ticks (reload t))
    (fun t => mkTimer s id 0 ticks (reload t))) 0.

Definition os_reload_timer_set (id s ticks : Z) : M fsm unit :=
  loop 33 (timer_body "os_reload_timer_set" id s
    (fun t => mkTimer (sig t) (task_id t) (flag t) (timeout t) ticks)
    (fun t => mkTimer s id (Z.lor (flag t) TIMER_RELOAD_FLAG) ticks ticks)) 0.

Definition del_body (id s : Z) (i : Z) : M fsm (Z + unit) :=
  if i <? TIMER_CNT
  then
    timers <- gets timer_pool ;;
    t <- access "os_timer_del" (zget timers i) ;;
    if is_timer id s t
    then put_timer "os_timer_del" i
           (mkTimer (sig t) INVALID_TASK_ID 0 (timeout t) (reload t)) ;;
         ret (inr tt)
    else ret (inl (u8 (i + 1)))
  else ret (inr tt).

Definition os_timer_del (id s : Z) : M fsm unit := loop 33 (del_body id s) 0.

(** * Power *)

(** A shift of an int by 31 or more is undefined. *)
Definition os_power_set (id state : Z) : M fsm unit :=
  bit <- access "os_power_set" (if id <? 31 then Some (Z.shiftl 1 id) else None) ;;
  p <- gets power_task_state ;;
  if state =? POWER_HOLD then modify (set_power (u32 (Z.lor p bit)))
  else if state =? POWER_SLEEP then modify (set_power (u32 (Z.land p (Z.lnot bit))))
  else ret tt.
End Fsm.
Arguments fsm : clear implicits.
