(* ===== verification/FsmFacts.v ===== *)
(** The scheduler of fsm.c: its queues are first-in first-out, its timers fire
    when they should, and every operation keeps its state well-formed.

    The second part runs sequences of operations. *)

From S2P Require Import Prelude.
From S2P Require Import CMonad.
From S2P Require Import Fsm.

(** * Queues *)

Record queue_ok (q : queue_t) : Prop := {
  qo_buf : zlen (q_buf q) = QUEUE_SIZE;
  qo_bytes : Forall is_u8 (q_buf q);
  qo_head : 0 <= q_head q < QUEUE_SIZE;
  qo_used : 0 <= q_used q <= QUEUE_SIZE;
  qo_tail : q_tail q = (q_head q + q_used q) mod QUEUE_SIZE
}.

(** The messages waiting, oldest first. *)
Definition messages (q : queue_t) : list Z :=
  take (Z.to_nat (q_used q))
    (drop (Z.to_nat (q_head q)) (q_buf q) ++ take (Z.to_nat (q_head q)) (q_buf q)).

(** What os_post_message and os_dispatch do to a queue. *)
Definition enqueue (e : Z) (q : queue_t) : queue_t :=
  mkQueue (q_head q) (q_next (q_tail q)) (u8 (q_used q + 1))
    (<[Z.to_nat (q_tail q) := e]> (q_buf q)).
Definition dequeue (q : queue_t) : queue_t :=
  mkQueue (q_next (q_head q)) (q_tail q) (u8 (q_used q - 1)) (q_buf q).

(** A well-formed queue, by its parts. *)
Lemma queue_cases (P : queue_t -> Prop) :
  (forall h u b0 b1 b2 b3 b4 b5 b6 b7,
     Forall is_u8 [b0; b1; b2; b3; b4; b5; b6; b7] ->
     (h < 8)%nat -> (u <= 8)%nat ->
     P (mkQueue (Z.of_nat h) ((Z.of_nat h + Z.of_nat u) mod 8) (Z.of_nat u)
          [b0; b1; b2; b3; b4; b5; b6; b7])) ->
  forall q, queue_ok q -> P q.
Proof.
  intros H [h t u buf] [Hl Hb Hh Hu Ht]. cbn in Hl, Hb, Hh, Hu, Ht. unfold QUEUE_SIZE in *.
  do 8 (destruct buf as [|? buf]; [discriminate|]). destruct buf; [|unfold zlen in Hl; cbn in Hl; lia].
  subst t. rewrite <- (Z2Nat.id h), <- (Z2Nat.id u) by lia. apply H; [done | lia | lia].
Qed.

Lemma enqueue_messages e q :
  queue_ok q -> q_used q < QUEUE_SIZE -> messages (enqueue e q) = messages q ++ [e].
Proof.
  intros Hq. pattern q. revert q Hq. apply queue_cases.
  intros h u b0 b1 b2 b3 b4 b5 b6 b7 _ Hh Hu Hlt. cbn in Hlt. unfold QUEUE_SIZE in Hlt.
  assert (u < 8)%nat as Hu8 by lia. clear Hu Hlt.
  do 8 (destruct h as [|h]; [do 8 (destruct u as [|u]; [reflexivity|]); lia|]). lia.
Qed.

Lemma dequeue_messages q :
  queue_ok q -> q_used q <> 0 ->
  exists e, zget (q_buf q) (q_head q) = Some e /\ messages q = e :: messages (dequeue q).
Proof.
  intros Hq. pattern q. revert q Hq. apply queue_cases.
  intros h u b0 b1 b2 b3 b4 b5 b6 b7 _ Hh Hu Hlt. cbn in Hlt.
  destruct u as [|u]; [lia|]. clear Hlt.
  do 8 (destruct h as [|h];
    [do 8 (destruct u as [|u]; [eexists; split; reflexivity|]); lia|]). lia.
Qed.

Lemma messages_length q : queue_ok q -> zlen (messages q) = q_used q.
Proof.
  intros [Hl _ Hh Hu _]. unfold messages, zlen, QUEUE_SIZE in *.
  rewrite length_take, length_app, length_drop, length_take. unfold zlen in Hl. lia.
Qed.

Lemma q_next_mod i : 0 <= i < QUEUE_SIZE -> q_next i = (i + 1) mod QUEUE_SIZE.
Proof.
  unfold q_next, QUEUE_SIZE. intros Hi. rewrite u8_small by (unfold is_u8; lia).
  destruct (Z.leb_spec 8 (i + 1)).
  - replace (i + 1) with 8 by lia. done.
  - by rewrite Z.mod_small by lia.
Qed.

Lemma enqueue_ok e q : queue_ok q -> is_u8 e -> q_used q < QUEUE_SIZE -> queue_ok (enqueue e q).
Proof.
  intros [Hl Hb Hh Hu Ht] He Hlt. unfold enqueue.
  assert (0 <= q_tail q < QUEUE_SIZE) as Htr by (rewrite Ht; by apply Z.mod_pos_bound).
  unfold QUEUE_SIZE in *. split; cbn; unfold QUEUE_SIZE.
  - by rewrite zlen_insert.
  - by apply Forall_insert.
  - done.
  - rewrite u8_small by (unfold is_u8; lia). lia.
  - rewrite q_next_mod by done. rewrite u8_small, Ht by (unfold is_u8; lia).
    unfold QUEUE_SIZE. rewrite Zplus_mod_idemp_l. f_equal. lia.
Qed.

Lemma dequeue_ok q : queue_ok q -> q_used q <> 0 -> queue_ok (dequeue q).
Proof.
  intros [Hl Hb Hh Hu Ht] Hne. unfold dequeue, QUEUE_SIZE in *. split; cbn; unfold QUEUE_SIZE; try done.
  - rewrite q_next_mod by done. by apply Z.mod_pos_bound.
  - rewrite u8_small by (unfold is_u8; lia). lia.
  - rewrite q_next_mod, u8_small, Ht by (unfold is_u8, QUEUE_SIZE; lia). unfold QUEUE_SIZE.
    rewrite Zplus_mod_idemp_l. f_equal. lia.
Qed.

(** * Timers *)

Definition timer_active (t : timer_t) : bool := negb (task_id t =? INVALID_TASK_ID).

(** An update of one timer, and whether its message is posted. *)
Definition tick (t : timer_t) : timer_t :=
  if timer_active t then
    if 0 <? timeout t
    then mkTimer (sig t) (task_id t) (flag t) (u16 (timeout t - 1)) (reload t)
    else if negb (Z.land (flag t) TIMER_RELOAD_FLAG =? 0)
    then mkTimer (sig t) (task_id t) (flag t) (reload t) (reload t)
    else timer_free t
  else t.

(** The timer is active and has no ticks left: the update that finds it so posts
    its message ([update_count]). *)
Definition fires (t : timer_t) : bool := timer_active t && negb (0 <? timeout t).

(** A timer of [n] ticks counts down silently and fires at the next update. *)
Lemma tick_countdown t (n : nat) :
  timer_active t = true -> is_u16 (timeout t) -> Z.of_nat n <= timeout t ->
  Nat.iter n tick t =
    mkTimer (sig t) (task_id t) (flag t) (timeout t - Z.of_nat n) (reload t).
Proof.
  intros Ha Hu. induction n as [|n IH]; intros Hn.
  - destruct t; cbn. f_equal. lia.
  - rewrite Nat.iter_succ, IH by lia. unfold tick, timer_active in *. cbn. rewrite Ha.
    unfold is_u16 in Hu. destruct (Z.ltb_spec 0 (timeout t - Z.of_nat n)); [|lia].
    f_equal. rewrite u16_small by (unfold is_u16; lia). lia.
Qed.

Lemma fires_at t (n : nat) :
  timer_active t = true -> is_u16 (timeout t) -> Z.of_nat n <= timeout t ->
  fires (Nat.iter n tick t) = (Z.of_nat n =? timeout t).
Proof.
  intros Ha Hu Hn. rewrite tick_countdown by done. unfold fires, timer_active in *. cbn.
  rewrite Ha. cbn [andb].
  destruct (Z.ltb_spec 0 (timeout t - Z.of_nat n)), (Z.eqb_spec (Z.of_nat n) (timeout t)); (done || lia).
Qed.

(** Afterwards a single-shot timer is free, a reload timer starts again. *)
Lemma tick_expired t (n : nat) :
  timer_active t = true -> is_u16 (timeout t) -> Z.of_nat n = timeout t ->
  Nat.iter (S n) tick t =
    if Z.land (flag t) TIMER_RELOAD_FLAG =? 0
    then mkTimer (sig t) INVALID_TASK_ID (flag t) 0 (reload t)
    else mkTimer (sig t) (task_id t) (flag t) (reload t) (reload t).
Proof.
  intros Ha Hu Hn. rewrite Nat.iter_succ, tick_countdown by (done || lia).
  replace (timeout t - Z.of_nat n) with 0 by lia.
  unfold tick, timer_active in *. cbn. rewrite Ha. cbn [Z.ltb Z.compare].
  by destruct (Z.land (flag t) TIMER_RELOAD_FLAG =? 0).
Qed.

(** ** The first slot of a timer, or a free one *)

Fixpoint set_first (id s : Z) (change create : timer_t -> timer_t) (pool : list timer_t)
    : list timer_t :=
  match pool with
  | [] => []
  | t :: pool =>
      if is_timer id s t then change t :: pool
      else if task_id t =? INVALID_TASK_ID then create t :: pool
      else t :: set_first id s change create pool
  end.

Fixpoint del_first (id s : Z) (pool : list timer_t) : list timer_t :=
  match pool with
  | [] => []
  | t :: pool =>
      if is_timer id s t then mkTimer (sig t) INVALID_TASK_ID 0 (timeout t) (reload t) :: pool
      else t :: del_first id s pool
  end.

(** The timer a task has for a signal. *)
Definition timer_of (id s : Z) (pool : list timer_t) : option timer_t :=
  head (List.filter (is_timer id s) pool).

Definition has_room (id s : Z) (pool : list timer_t) : bool :=
  existsb (fun t => is_timer id s t || (task_id t =? INVALID_TASK_ID)) pool.

Lemma timer_of_set_first id s change create pool :
  (forall t, is_timer id s t = true -> is_timer id s (change t) = true) ->
  (forall t, is_timer id s (create t) = true) ->
  has_room id s pool = true ->
  exists t, timer_of id s (set_first id s change create pool) = Some (change t) /\
              is_timer id s t = true \/
            timer_of id s (set_first id s change create pool) = Some (create t).
Proof.
  intros Hch Hcr. unfold timer_of. induction pool as [|t pool IH]; cbn; [done|]. intros Hr.
  destruct (is_timer id s t) eqn:Ht.
  - exists t. left. cbn. by rewrite (Hch t Ht).
  - destruct (task_id t =? INVALID_TASK_ID) eqn:Hf.
    + exists t. right. cbn. by rewrite Hcr.
    + cbn. rewrite Ht. by apply IH.
Qed.

(** Other timers are left alone. *)
Lemma set_first_other id s id' s' change create pool :
  id' <> INVALID_TASK_ID ->
  (forall t, is_timer id s t = true -> is_timer id' s' t = false /\ is_timer id' s' (change t) = false) ->
  (forall t, is_timer id' s' (create t) = false) ->
  List.filter (is_timer id' s') (set_first id s change create pool) =
  List.filter (is_timer id' s') pool.
Proof.
  intros Hid Hch Hcr. induction pool as [|t pool IH]; cbn; [done|].
  destruct (is_timer id s t) eqn:Ht.
  - cbn. by destruct (Hch t Ht) as [-> ->].
  - destruct (Z.eqb_spec (task_id t) INVALID_TASK_ID) as [Hf|Hf]; cbn.
    + rewrite Hcr. unfold is_timer. rewrite Hf.
      by rewrite (proj2 (Z.eqb_neq INVALID_TASK_ID id')) by done.
    + by rewrite IH.
Qed.

(** * The scheduler *)

Section Scheduler.
Context {handler hook user_t : Type}.
Abbreviation state := (fsm handler hook user_t).
Context (run_handler : handler -> Z -> M state unit) (run_hook : hook -> M state unit).

(** Tasks 0 .. 2 only; a timer belongs to a task or is free. *)
Definition is_task (i : Z) : Prop := 0 <= i < TASKS_CNT.
Record timer_ok (t : timer_t) : Prop := {
  to_task : task_id t = INVALID_TASK_ID \/ is_task (task_id t);
  to_sig : is_u8 (sig t);
  to_timeout : is_u16 (timeout t);
  to_reload : is_u16 (reload t)
}.

Record fsm_ok (s : state) : Prop := {
  fo_pool : zlen (tasks_pool s) = TASKS_CNT;
  fo_queues : zlen (tasks_queue s) = TASKS_CNT;
  fo_queue : Forall queue_ok (tasks_queue s);
  fo_timers : zlen (timer_pool s) = TIMER_CNT;
  fo_timer : Forall timer_ok (timer_pool s);
  fo_stm : stm_ret_value s = STM_TRAN -> is_Some (stm_state_temp s)
}.

(** Well-formedness is kept, and a pending transition keeps its target. *)
Definition keeps (s s' : state) : Prop :=
  fsm_ok s' /\ (is_Some (stm_state_temp s) -> is_Some (stm_state_temp s')).

Lemma keeps_trans s1 s2 s3 : keeps s1 s2 -> keeps s2 s3 -> keeps s1 s3.
Proof. intros [_ H1] [Hok H2]. split; auto. Qed.

Lemma zget_Forall {A} (P : A -> Prop) l i x : Forall P l -> zget l i = Some x -> P x.
Proof.
  intros Hl Hi. unfold zget in Hi. destruct (0 <=? i); [|done].
  rewrite Forall_lookup in Hl. by apply (Hl _ _ Hi).
Qed.

Lemma queue_at s i : fsm_ok s -> is_task i ->
  exists q, zget (tasks_queue s) i = Some q /\ queue_ok q.
Proof.
  intros Hs Hi. destruct (zget_is_Some (tasks_queue s) i) as [q Hq].
  { rewrite (fo_queues _ Hs). apply Hi. }
  exists q. split; [done|]. by apply (zget_Forall _ _ _ _ (fo_queue _ Hs) Hq).
Qed.

Lemma timer_at s i : fsm_ok s -> 0 <= i < TIMER_CNT ->
  exists t, zget (timer_pool s) i = Some t /\ timer_ok t.
Proof.
  intros Hs Hi. destruct (zget_is_Some (timer_pool s) i) as [t Ht].
  { by rewrite (fo_timers _ Hs). }
  exists t. split; [done|]. by apply (zget_Forall _ _ _ _ (fo_timer _ Hs) Ht).
Qed.

(** The state with queue [i] replaced. *)
Definition with_queue (i : Z) (q : queue_t) (s : state) : state :=
  set_tasks_queue (<[Z.to_nat i := q]> (tasks_queue s)) s.
Definition with_timer (i : Z) (t : timer_t) (s : state) : state :=
  set_timer_pool (<[Z.to_nat i := t]> (timer_pool s)) s.

Lemma with_queue_ok i q s : fsm_ok s -> queue_ok q -> fsm_ok (with_queue i q s).
Proof.
  intros [? ? ? ? ? ?] Hq. split; cbn; rewrite ?zlen_insert; try done. by apply Forall_insert.
Qed.
Lemma with_timer_ok i t s : fsm_ok s -> timer_ok t -> fsm_ok (with_timer i t s).
Proof.
  intros [? ? ? ? ? ?] Ht. split; cbn; rewrite ?zlen_insert; try done. by apply Forall_insert.
Qed.

Lemma wpg_put_queue Fl site i q s (Q : unit -> state -> Prop) :
  fsm_ok s -> is_task i -> Q tt (with_queue i q s) -> wpg Fl (put_queue site i q) Q s.
Proof.
  intros Hs Hi HQ. unfold put_queue. wp_steps. eapply wpg_access_Some.
  { apply zset_is_Some. rewrite (fo_queues _ Hs). apply Hi. }
  by wp_steps.
Qed.

Lemma wpg_put_timer Fl site i t s (Q : unit -> state -> Prop) :
  fsm_ok s -> 0 <= i < TIMER_CNT -> Q tt (with_timer i t s) -> wpg Fl (put_timer site i t) Q s.
Proof.
  intros Hs Hi HQ. unfold put_timer. wp_steps. eapply wpg_access_Some.
  { apply zset_is_Some. by rewrite (fo_timers _ Hs). }
  by wp_steps.
Qed.

(** ** Posting *)

(** The state after a message has been posted, when no hook is registered. *)
Definition posted (id e : Z) (s : state) : state :=
  match zget (tasks_queue s) id with
  | Some q =>
      if QUEUE_SIZE <=? q_used q then s
      else
        let s' := with_queue id (enqueue e q) s in
        if next_dispatch s =? 0 then set_next_dispatch 1 s' else s'
  | None => s
  end.

Lemma posted_ok id e s : fsm_ok s -> is_u8 e -> fsm_ok (posted id e s).
Proof.
  intros Hs He. unfold posted. destruct (zget (tasks_queue s) id) as [q|] eqn:Hq; [|done].
  pose proof (zget_Forall _ _ _ _ (fo_queue _ Hs) Hq) as Hqok.
  destruct (Z.leb_spec QUEUE_SIZE (q_used q)); [done|].
  assert (fsm_ok (with_queue id (enqueue e q) s)) as Hw
    by (by apply with_queue_ok, enqueue_ok).
  destruct (next_dispatch s =? 0); [|done]. by destruct Hw.
Qed.

(** The general form: [run] is the hook, if it has to be called. *)
Lemma wpg_post Fl id e s (Q : Z -> state -> Prop) q :
  fsm_ok s -> is_task id -> is_u8 e -> zget (tasks_queue s) id = Some q ->
  (q_used q = QUEUE_SIZE -> Q QUEUE_FULLED s) ->
  (q_used q < QUEUE_SIZE -> next_dispatch s = 0 -> forall f, dispatch_hook s = Some f ->
     wpg Fl (run_hook f) (fun _ s' => Q RET_SUCCESS s')
       (set_next_dispatch 1 (with_queue id (enqueue e q) s))) ->
  (q_used q < QUEUE_SIZE -> next_dispatch s <> 0 \/ dispatch_hook s = None ->
     Q RET_SUCCESS (posted id e s)) ->
  wpg Fl (os_post_message run_hook id e) Q s.
Proof.
  intros Hs Hid He Hq HQ1 HQ2 HQ3. pose proof (zget_Forall _ _ _ _ (fo_queue _ Hs) Hq) as Hqok.
  unfold posted in HQ3. rewrite Hq in HQ3. pose proof Hqok as [Hl _ Hh Hu Ht].
  unfold os_post_message. wp_steps. eapply wpg_access_Some; [exact Hq|].
  destruct (Z.leb_spec QUEUE_SIZE (q_used q)).
  { wp_step. apply HQ1. lia. }
  wp_step. eapply wpg_access_Some.
  { apply zset_is_Some. rewrite Hl, Ht. by apply Z.mod_pos_bound. }
  wp_step. apply wpg_put_queue; [done | done|]. wp_steps.
  change (next_dispatch (with_queue _ _ s)) with (next_dispatch s).
  fold (enqueue e q). destruct (Z.eqb_spec (next_dispatch s) 0) as [Hn|Hn].
  - wp_steps. change (dispatch_hook (set_next_dispatch _ _)) with (dispatch_hook s).
    destruct (dispatch_hook s) as [f|] eqn:Hd.
    + eapply wpg_mono; [by apply HQ2|]. intros [] s' HQ. by wp_step.
    + wp_steps. apply HQ3; [done | by right].
  - wp_steps. apply HQ3; [done | by left].
Qed.

(** ** Every operation keeps the state well-formed and returns *)

(** What the application's functions promise. *)
Class application_ok : Prop := {
  handler_keeps h e s : fsm_ok s -> wp (run_handler h e) (fun _ s' => keeps s s') s;
  hook_keeps f s : fsm_ok s -> wp (run_hook f) (fun _ s' => keeps s s') s
}.

Lemma posted_temp id e s : stm_state_temp (posted id e s) = stm_state_temp s.
Proof.
  unfold posted. destruct (zget _ id); [|done]. destruct (_ <=? _); [done|].
  by destruct (_ =? 0).
Qed.

Lemma wp_post_keeps `{application_ok} id e s (Q : Z -> state -> Prop) :
  fsm_ok s -> is_task id -> is_u8 e -> (forall r s', keeps s s' -> Q r s') ->
  wp (os_post_message run_hook id e) Q s.
Proof.
  intros Hs Hid He HQ. destruct (queue_at s id Hs Hid) as (q & Hq & Hqok).
  apply (wpg_post _ _ _ _ _ q); try done.
  - intros _. by apply HQ.
  - intros Hlt _ f _. eapply wpg_mono.
    + apply hook_keeps. destruct (with_queue_ok id _ s Hs (enqueue_ok e q Hqok He Hlt)). by split.
    + intros [] s' [Hok Htemp]. apply HQ. by split.
  - intros _ _. apply HQ. split; [by apply posted_ok | by rewrite posted_temp].
Qed.

Lemma wp_transition_keeps `{application_ok} i s (Q : unit -> state -> Prop) :
  fsm_ok s -> is_task i -> (forall s', fsm_ok s' -> Q tt s') ->
  wp (transition run_handler i) Q s.
Proof.
  intros Hs Hi HQ. unfold transition. wp_steps.
  destruct (Z.eqb_spec (stm_ret_value s) STM_TRAN) as [Ht|Ht]; [|wp_step; by apply HQ].
  destruct (fo_stm _ Hs Ht) as [h' Hh']. wp_steps.
  assert (fsm_ok (set_stm 0 (stm_state_temp s) s)) as Hs1 by (by destruct Hs; split).
  destruct (zget_is_Some (tasks_pool s) i) as [h Hh]; [by rewrite (fo_pool _ Hs); apply Hi|].
  eapply wpg_access_Some; [exact Hh|]. wp_step.
  eapply wpg_mono; [by apply handler_keeps|]. intros [] s2 [Hs2 Ht2]. wp_steps.
  destruct (Ht2 ltac:(cbn; by rewrite Hh')) as [h2 Hh2].
  eapply wpg_access_Some; [exact Hh2|]. wp_step.
  eapply wpg_mono; [by apply handler_keeps|]. intros [] s3 [Hs3 Ht3]. wp_steps.
  destruct (Ht3 ltac:(by rewrite Hh2)) as [h3 Hh3].
  eapply wpg_access_Some; [exact Hh3|]. wp_steps.
  eapply wpg_access_Some; [apply zset_is_Some; rewrite (fo_pool _ Hs3); apply Hi|]. wp_steps.
  apply HQ. destruct Hs3. split; cbn; rewrite ?zlen_insert; done.
Qed.

Lemma wp_dispatch_keeps `{application_ok} s (Q : unit -> state -> Prop) :
  fsm_ok s -> (forall s', fsm_ok s' -> Q tt s') -> wp (os_dispatch run_handler) Q s.
Proof.
  intros Hs HQ. unfold os_dispatch. wp_steps.
  apply (wpg_loop _ _ (fun i s' => 0 <= i <= TASKS_CNT /\ fsm_ok s')
    (fun i _ => Z.to_nat (TASKS_CNT - i))); unfold TASKS_CNT;
    [|split; [lia|]; by destruct Hs; split|cbn; lia].
  intros i s1 [Hi Hs1]. unfold dispatch_body, TASKS_CNT.
  destruct (Z.ltb_spec i 3); [|wp_step; by apply HQ].
  assert (is_task i) as Hit by (unfold is_task, TASKS_CNT; lia).
  destruct (queue_at s1 i Hs1 Hit) as (q & Hq & Hqok). wp_steps.
  eapply wpg_access_Some; [exact Hq|]. wp_step.
  assert (forall s2, fsm_ok s2 ->
    wp (ret (inl (u8 (i + 1)))) (fun (r : Z + unit) s' =>
      match r with
      | inl i' => (0 <= i' <= 3 /\ fsm_ok s') /\ (Z.to_nat (3 - i') < Z.to_nat (3 - i))%nat
      | inr b => Q b s'
      end) s2) as Hend.
  { intros s2 Hs2. wp_step. rewrite u8_small by (unfold is_u8; lia). split; [|lia].
    split; [lia | done]. }
  destruct (Z.eqb_spec (q_used q) 0) as [Hu|Hu]; cbn [negb]; [wp_step; by apply Hend|].
  wp_step. unfold take_message. wp_step.
  destruct (dequeue_messages q Hqok Hu) as (e & He & _).
  eapply wpg_access_Some; [exact He|]. wp_step. apply wpg_put_queue; [done | done|]. wp_steps.
  destruct (zget_is_Some (tasks_pool s1) i) as [h Hh]; [by rewrite (fo_pool _ Hs1); apply Hit|].
  eapply wpg_access_Some; [exact Hh|]. wp_step.
  eapply wpg_mono; [apply handler_keeps; by apply with_queue_ok, dequeue_ok|].
  intros [] s2 [Hs2 _]. by apply wp_transition_keeps.
Qed.

(** A loop over the timers that may stop early. *)
Lemma wp_timer_loop body s (Q : unit -> state -> Prop) :
  (forall i t s, fsm_ok s -> 0 <= i < TIMER_CNT -> zget (timer_pool s) i = Some t -> timer_ok t ->
     wp (body i) (fun r s' => fsm_ok s' /\ (r = inr tt \/ r = inl (u8 (i + 1)))) s) ->
  (forall s, wp (body TIMER_CNT) (fun r s' => r = inr tt /\ s' = s) s) ->
  fsm_ok s -> (forall s', fsm_ok s' -> Q tt s') -> wp (loop 33 body 0) Q s.
Proof.
  intros Hbody Hend Hs HQ. unfold TIMER_CNT in *.
  apply (wpg_loop _ _ (fun i s' => 0 <= i <= TIMER_CNT /\ fsm_ok s')
    (fun i _ => Z.to_nat (TIMER_CNT - i))); unfold TIMER_CNT; [|by split; [lia|]|lia].
  intros i s1 [Hi Hs1]. destruct (Z.eq_dec i 32) as [->|Hne].
  - eapply wpg_mono; [apply Hend|]. intros r s2 [-> ->]. by apply HQ.
  - destruct (timer_at s1 i Hs1) as (t & Ht & Htok); [unfold TIMER_CNT; lia|].
    eapply wpg_mono; [apply (Hbody i t); [done | lia | done | done]|].
    intros r s2 [Hs2 [-> | ->]]; [by apply HQ|].
    rewrite u8_small by (unfold is_u8; lia). split; [|lia]. split; [lia | done].
Qed.

Lemma wp_timer_update_keeps `{application_ok} s (Q : unit -> state -> Prop) :
  fsm_ok s -> (forall s', fsm_ok s' -> Q tt s') -> wp (os_timer_update run_hook) Q s.
Proof.
  intros Hs HQ. apply wp_timer_loop; [| |done|done].
  - clear s Hs HQ Q. intros i t s Hs Hi Ht [Htask Hsig Hto Hre].
    unfold update_body. destruct (Z.ltb_spec i TIMER_CNT); [|lia]. wp_steps.
    eapply wpg_access_Some; [exact Ht|]. wp_step.
    assert (forall s', fsm_ok s' ->
      wp (ret (inl (u8 (i + 1)))) (fun (r : Z + unit) s' =>
        fsm_ok s' /\ (r = inr tt \/ r = inl (u8 (i + 1)))) s') as Hend.
    { intros s' Hs'. wp_step. auto. }
    destruct (Z.eqb_spec (task_id t) INVALID_TASK_ID) as [Hinv|Hinv]; cbn [negb];
      [wp_step; by apply Hend|].
    destruct (Z.ltb_spec 0 (timeout t)).
    { apply wpg_put_timer; [done | done|]. apply Hend, with_timer_ok; [done|].
      split; cbn; try done. apply u16_range. }
    wp_step. apply wp_post_keeps; [done | tauto | done|]. intros r s2 [Hs2 _]. wp_steps.
    destruct (timer_at s2 i Hs2 Hi) as (t2 & Ht2 & [Htask2 Hsig2 Hto2 Hre2]).
    eapply wpg_access_Some; [exact Ht2|].
    destruct (negb _); (apply wpg_put_timer; [done | done|]); apply Hend, with_timer_ok; try done.
    split; cbn; try done. by left.
  - intros s'. unfold update_body. rewrite Z.ltb_irrefl. by wp_step.
Qed.

(** ** Setting and deleting timers *)

Lemma insert_mid {A} (pre post : list A) x y :
  <[Z.to_nat (zlen pre) := y]> (pre ++ x :: post) = pre ++ y :: post.
Proof.
  unfold zlen. rewrite Nat2Z.id. rewrite insert_app_r_alt by lia.
  by rewrite Nat.sub_diag.
Qed.

Lemma zget_mid {A} (pre post : list A) x : zget (pre ++ x :: post) (zlen pre) = Some x.
Proof. rewrite zget_app_r, Z.sub_diag by lia. apply zget_0. Qed.

(** A search through the slots that [body] ends or passes on. *)
Lemma wpg_timer_scan Fl body (f : list timer_t -> list timer_t) (Q : unit -> state -> Prop) s :
  f [] = [] ->
  (forall pre t post, timer_pool s = pre ++ t :: post -> zlen (timer_pool s) = TIMER_CNT ->
     wpg Fl (body (zlen pre)) (fun r s' =>
       match r with
       | inr _ => s' = set_timer_pool (pre ++ f (t :: post)) s
       | inl i => i = zlen pre + 1 /\ s' = s /\ f (t :: post) = t :: f post
       end) s) ->
  body TIMER_CNT s = Ok (inr tt, s) ->
  forall post pre n,
    timer_pool s = pre ++ post -> zlen (timer_pool s) = TIMER_CNT -> (length post < n)%nat ->
    Q tt (set_timer_pool (pre ++ f post) s) ->
    wpg Fl (loop n body (zlen pre)) Q s.
Proof.
  intros Hnil Hbody Hend post. induction post as [|t post IH]; intros pre n Hp Hl Hn HQ;
    (destruct n as [|n]; [cbn in Hn; lia|]); apply wpg_loop_S.
  - rewrite app_nil_r in Hp. rewrite <- Hp, Hl. unfold wpg. rewrite Hend.
    rewrite Hnil, app_nil_r, <- Hp in HQ. by destruct s.
  - eapply wpg_mono; [by apply (Hbody pre t post)|]. intros [i|[]] s'.
    + intros (-> & -> & Hf). rewrite Hf in HQ.
      replace (zlen pre + 1) with (zlen (pre ++ [t])) by (rewrite zlen_app; done).
      apply IH; [by rewrite <- app_assoc | done | cbn in Hn; lia | by rewrite <- app_assoc].
    + by intros ->.
Qed.

Lemma mid_range {A} (pre post : list A) x n :
  zlen (pre ++ x :: post) = n -> 0 <= zlen pre < n.
Proof. rewrite zlen_app, zlen_cons. pose proof (zlen_nonneg pre). pose proof (zlen_nonneg post). lia. Qed.

Lemma wpg_timer_body Fl site id sg change create s pre t post :
  timer_pool s = pre ++ t :: post -> zlen (timer_pool s) = TIMER_CNT ->
  wpg Fl (timer_body site id sg change create (zlen pre)) (fun (r : Z + unit) (s' : state) =>
    match r with
    | inr _ => s' = set_timer_pool (pre ++ set_first id sg change create (t :: post)) s
    | inl i => i = zlen pre + 1 /\ s' = s /\
               set_first id sg change create (t :: post) = t :: set_first id sg change create post
    end) s.
Proof.
  intros Hp Hl. rewrite Hp in Hl. pose proof (mid_range _ _ _ _ Hl) as Hr.
  unfold timer_body. rewrite (proj2 (Z.ltb_lt _ _)) by lia. wp_steps.
  eapply wpg_access_Some; [by rewrite Hp, zget_mid|]. cbn [set_first].
  assert (forall t', wpg Fl (put_timer site (zlen pre) t' ;; ret (inr tt))
    (fun (r : Z + unit) (s' : state) =>
       match r with
       | inr _ => s' = set_timer_pool (pre ++ t' :: post) s
       | inl i => i = zlen pre + 1 /\ s' = s /\ t' :: post = t :: set_first id sg change create post
       end) s) as Hput.
  { intros t'. unfold put_timer. wp_steps.
    eapply wpg_access_Some; [rewrite Hp; apply zset_is_Some; rewrite Hl; lia|]. wp_steps.
    by rewrite insert_mid. }
  destruct (is_timer id sg t); [apply Hput|].
  destruct (task_id t =? INVALID_TASK_ID); [apply Hput|].
  wp_step. rewrite u8_small by (unfold is_u8, TIMER_CNT in *; lia). done.
Qed.

Lemma wpg_timer_set Fl id sg ticks s (Q : unit -> state -> Prop) :
  zlen (timer_pool s) = TIMER_CNT ->
  Q tt (set_timer_pool (set_first id sg
          (fun t => mkTimer (sig t) (task_id t) (flag t) ticks (reload t))
          (fun t => mkTimer sg id 0 ticks (reload t)) (timer_pool s)) s) ->
  wpg Fl (os_timer_set id sg ticks) Q s.
Proof.
  intros Hl HQ. unfold os_timer_set.
  match type of HQ with context [set_first id sg ?a ?b _] =>
    apply (wpg_timer_scan _ _ (set_first id sg a b) Q s) with (pre := []) (post := timer_pool s)
  end; [done | | done | done | done | unfold zlen, TIMER_CNT in Hl; lia | exact HQ].
  intros pre t post Hp _. by apply wpg_timer_body.
Qed.

Lemma wpg_reload_timer_set Fl id sg ticks s (Q : unit -> state -> Prop) :
  zlen (timer_pool s) = TIMER_CNT ->
  Q tt (set_timer_pool (set_first id sg
          (fun t => mkTimer (sig t) (task_id t) (flag t) (timeout t) ticks)
          (fun t => mkTimer sg id (Z.lor (flag t) TIMER_RELOAD_FLAG) ticks ticks)
          (timer_pool s)) s) ->
  wpg Fl (os_reload_timer_set id sg ticks) Q s.
Proof.
  intros Hl HQ. unfold os_reload_timer_set.
  match type of HQ with context [set_first id sg ?a ?b _] =>
    apply (wpg_timer_scan _ _ (set_first id sg a b) Q s) with (pre := []) (post := timer_pool s)
  end; [done | | done | done | done | unfold zlen, TIMER_CNT in Hl; lia | exact HQ].
  intros pre t post Hp _. by apply wpg_timer_body.
Qed.

Lemma wpg_timer_del Fl id sg s (Q : unit -> state -> Prop) :
  zlen (timer_pool s) = TIMER_CNT ->
  Q tt (set_timer_pool (del_first id sg (timer_pool s)) s) ->
  wpg Fl (os_timer_del id sg) Q s.
Proof.
  intros Hl HQ. unfold os_timer_del.
  apply (wpg_timer_scan _ _ (del_first id sg) Q s) with (pre := []) (post := timer_pool s);
    [done | | done | done | done | unfold zlen, TIMER_CNT in Hl; lia | exact HQ].
  intros pre t post Hp _. rewrite Hp in Hl. pose proof (mid_range _ _ _ _ Hl) as Hr.
  unfold del_body. rewrite (proj2 (Z.ltb_lt _ _)) by lia. wp_steps.
  eapply wpg_access_Some; [by rewrite Hp, zget_mid|]. cbn [del_first].
  destruct (is_timer id sg t).
  - unfold put_timer. wp_steps.
    eapply wpg_access_Some; [rewrite Hp; apply zset_is_Some; rewrite Hl; lia|]. wp_steps.
    by rewrite insert_mid.
  - wp_step. rewrite u8_small by (unfold is_u8, TIMER_CNT in *; lia). done.
Qed.

(** ** The timer interrupt, when no hook is registered *)

Definition post_all (ms : list (Z * Z)) (s : state) : state :=
  fold_left (fun s m => posted m.1 m.2 s) ms s.

(** The messages of the timers that expire, in the order of the slots. *)
Definition expired (pool : list timer_t) : list (Z * Z) :=
  map (fun t => (task_id t, sig t)) (List.filter fires pool).

Lemma posted_timers id e s : timer_pool (posted id e s) = timer_pool s.
Proof.
  unfold posted. destruct (zget _ id); [|done]. destruct (_ <=? _); [done|]. by destruct (_ =? 0).
Qed.

Lemma posted_hook id e s : dispatch_hook (posted id e s) = dispatch_hook s.
Proof.
  unfold posted. destruct (zget _ id); [|done]. destruct (_ <=? _); [done|]. by destruct (_ =? 0).
Qed.

Lemma posted_set_timers id e pool s :
  posted id e (set_timer_pool pool s) = set_timer_pool pool (posted id e s).
Proof.
  unfold posted. cbn. destruct (zget _ id); [|done]. destruct (_ <=? _); [done|]. by destruct (_ =? 0).
Qed.

Lemma tick_ok t : timer_ok t -> timer_ok (tick t).
Proof.
  intros [Ht Hs Hto Hre]. unfold tick. destruct (timer_active t); [|by split].
  destruct (0 <? timeout t); [split; cbn; try done; apply u16_range|].
  destruct (negb _); split; cbn; try done. by left.
Qed.

Lemma wpg_timer_update Fl : forall post pre n (s : state) (Q : unit -> state -> Prop),
  fsm_ok s -> dispatch_hook s = None -> timer_pool s = pre ++ post -> (length post < n)%nat ->
  Q tt (set_timer_pool (pre ++ map tick post) (post_all (expired post) s)) ->
  wpg Fl (loop n (update_body run_hook) (zlen pre)) Q s.
Proof.
  intros post. induction post as [|t post IH]; intros pre n s Q Hs Hh Hp Hn HQ;
    (destruct n as [|n]; [cbn in Hn; lia|]); apply wpg_loop_S; pose proof (fo_timers _ Hs) as Hl;
    unfold update_body.
  - rewrite app_nil_r in Hp. rewrite <- Hp, Hl, Z.ltb_irrefl. wp_step.
    cbn [map expired List.filter post_all fold_left] in HQ.
    rewrite app_nil_r, <- Hp in HQ. by destruct s.
  - rewrite Hp in Hl. pose proof (mid_range _ _ _ _ Hl) as Hr.
    rewrite (proj2 (Z.ltb_lt _ _)) by lia. wp_steps.
    eapply wpg_access_Some; [by rewrite Hp, zget_mid|].
    assert (timer_ok t) as Htok.
    { pose proof (fo_timer _ Hs) as Hf. rewrite Hp in Hf. apply Forall_app in Hf as [_ Hf]. by inversion Hf. }
    assert (forall s1 t', s1 = (if fires t then posted (task_id t) (sig t) s else s) ->
      t' = tick t -> fsm_ok s1 ->
      wpg Fl (put_timer "os_timer_update" (zlen pre) t') (fun _ s2 =>
        wpg Fl (ret (inl (u8 (zlen pre + 1)))) (fun (r : Z + unit) s' =>
          match r with
          | inl i => wpg Fl (loop n (update_body run_hook) i) Q s'
          | inr b => Q b s'
          end) s2) s1) as Hend.
    { intros s1 t' Hs1 -> Hok1.
      assert (timer_pool s1 = pre ++ t :: post) as Hp1.
      { rewrite Hs1. destruct (fires t); [by rewrite posted_timers|done]. }
      assert (dispatch_hook s1 = None) as Hh1.
      { rewrite Hs1. destruct (fires t); [by rewrite posted_hook|done]. }
      apply wpg_put_timer; [done | lia|]. wp_step.
      rewrite u8_small by (unfold is_u8, TIMER_CNT in *; lia).
      replace (zlen pre + 1) with (zlen (pre ++ [tick t])) by (rewrite zlen_app; done).
      apply IH; [by apply with_timer_ok; [|apply tick_ok] | done | | cbn in Hn; lia |].
      - cbn. by rewrite Hp1, insert_mid, <- app_assoc.
      - rewrite <- app_assoc. cbn [app].
        assert (forall ms, post_all ms (with_timer (zlen pre) (tick t) s1) =
          with_timer (zlen pre) (tick t) (post_all ms s1)) as Hpa.
        { intros ms. unfold with_timer.
          assert (forall ms s, timer_pool (post_all ms s) = timer_pool s) as Hpt.
          { clear. intros ms. induction ms as [|m ms IH]; intros s; [done|].
            cbn. rewrite IH. apply posted_timers. }
          assert (forall ms pool s, post_all ms (set_timer_pool pool s) =
            set_timer_pool pool (post_all ms s)) as Hps.
          { clear. intros ms. induction ms as [|m ms IH]; intros pool s; [done|].
            cbn. by rewrite posted_set_timers, IH. }
          by rewrite Hps, Hpt. }
        rewrite Hpa. unfold expired in HQ. cbn [List.filter map] in HQ.
        rewrite Hs1. destruct (fires t); exact HQ. }
    wp_step. unfold fires, timer_active in *. pose proof Htok as [Htask Hsig _ _].
    destruct (negb (task_id t =? INVALID_TASK_ID)) eqn:Ha.
    2: { (* a free slot *)
      wp_step. assert (t = tick t) as Ht by (unfold tick, timer_active; by rewrite Ha).
      pose proof (Hend s t eq_refl Ht Hs) as Hx. unfold wpg at 1 in Hx.
      revert Hx. unfold put_timer, bind, gets, access, modify. rewrite Hp.
      rewrite zset_is_Some, insert_mid by lia. cbn. rewrite <- Hp. by destruct s. }
    destruct (0 <? timeout t) eqn:Hto.
    { apply Hend; [done | unfold tick, timer_active; by rewrite Ha, Hto | done]. }
    assert (is_task (task_id t)) as Hit.
    { destruct Htask as [Hx|Hx]; [|done]. by rewrite Hx in Ha. }
    destruct (queue_at s _ Hs Hit) as (q & Hq & _). wp_step.
    assert (wpg Fl
      (timers <- gets timer_pool ;;
       t <- access "os_timer_update" (zget timers (zlen pre)) ;;
       if negb (Z.land (flag t) TIMER_RELOAD_FLAG =? 0)
       then put_timer "os_timer_update" (zlen pre)
              (mkTimer (sig t) (task_id t) (flag t) (reload t) (reload t))
       else put_timer "os_timer_update" (zlen pre) (timer_free t))
      (fun _ s2 =>
        wpg Fl (ret (inl (u8 (zlen pre + 1)))) (fun (r : Z + unit) s' =>
          match r with
          | inl i => wpg Fl (loop n (update_body run_hook) i) Q s'
          | inr b => Q b s'
          end) s2) (posted (task_id t) (sig t) s)) as Hx.
    { wp_steps. rewrite posted_timers.
      eapply wpg_access_Some; [by rewrite Hp, zget_mid|].
      assert (fsm_ok (posted (task_id t) (sig t) s)) as Hok2 by (by apply posted_ok).
      destruct (negb (Z.land _ _ =? 0)) eqn:Hf; (apply Hend; [done | | done]);
        unfold tick, timer_active; by rewrite Ha, Hto, Hf. }
    apply (wpg_post _ _ _ _ _ q); try done.
    + intros Hfull. assert (posted (task_id t) (sig t) s = s) as Hsame.
      { unfold posted. rewrite Hq, Hfull. by rewrite Z.leb_refl. }
      rewrite Hsame in Hx. exact Hx.
    + intros _ _ f Hf. congruence.
Qed.

Lemma wpg_os_timer_update Fl s (Q : unit -> state -> Prop) :
  fsm_ok s -> dispatch_hook s = None ->
  Q tt (set_timer_pool (map tick (timer_pool s)) (post_all (expired (timer_pool s)) s)) ->
  wpg Fl (os_timer_update run_hook) Q s.
Proof.
  intros Hs Hh HQ. pose proof (fo_timers _ Hs) as Hl. unfold os_timer_update.
  apply (wpg_timer_update Fl (timer_pool s) []); try done.
  unfold zlen, TIMER_CNT in Hl. lia.
Qed.
End Scheduler.

(** * Dispatching to state machines *)

Section Machines.
Context {handler hook user_t : Type}.
Abbreviation state := (fsm handler hook user_t).
(** A handler changes the application's state and may ask for a transition,
    except on entry and exit. *)
Context (act : handler -> Z -> user_t -> user_t) (next : handler -> Z -> option handler).
Context (next_entry : forall h, next h STM_ENTRY_SIG = None)
        (next_exit : forall h, next h STM_EXIT_SIG = None).

Definition machine (h : handler) (e : Z) : M state unit :=
  u <- gets user ;;
  modify (set_user (act h e u)) ;;
  match next h e with
  | Some h' => os_stm_tran h'
  | None => ret tt
  end.

(** The specification of a task's step: its state and the application's
    after event [e]. *)
Definition deliver (h : handler) (u : user_t) (e : Z) : handler * user_t :=
  match next h e with
  | None => (h, act h e u)
  | Some h' => (h', act h' STM_ENTRY_SIG (act h STM_EXIT_SIG (act h e u)))
  end.

(** A task with messages takes its oldest one. *)
Definition task_round (i : Z) (s : state) : state :=
  match zget (tasks_queue s) i, zget (tasks_pool s) i with
  | Some q, Some h =>
      match messages q with
      | [] => s
      | e :: _ =>
          let '(h', u') := deliver h (user s) e in
          let s := set_user u' (with_queue i (dequeue q) s) in
          match next h e with
          | None => s
          | Some h' => set_tasks_pool (<[Z.to_nat i := h']> (tasks_pool s))
                         (set_stm 0 (Some h') s)
          end
      end
  | _, _ => s
  end.

Lemma task_round_ok i s :
  fsm_ok s -> stm_ret_value s <> STM_TRAN ->
  fsm_ok (task_round i s) /\ stm_ret_value (task_round i s) <> STM_TRAN.
Proof.
  intros Hs Ht. unfold task_round.
  destruct (zget (tasks_queue s) i) as [q|] eqn:Hq; [|done].
  destruct (zget (tasks_pool s) i) as [h|]; [|done].
  destruct (messages q) as [|e ms] eqn:Hm; [done|].
  pose proof (zget_Forall _ _ _ _ (fo_queue _ Hs) Hq) as Hqok.
  assert (fsm_ok (with_queue i (dequeue q) s)) as Hw.
  { apply with_queue_ok; [done|]. apply dequeue_ok; [done|]. intros Hu.
    pose proof (messages_length q Hqok) as Hl. rewrite Hm, Hu, zlen_cons in Hl.
    pose proof (zlen_nonneg ms). lia. }
  destruct (deliver h (user s) e) as [h' u']. destruct Hw.
  destruct (next h e); (split; [split|]); cbn in *; rewrite ?zlen_insert in *; try done.
Qed.

Lemma wpg_dispatch_body Fl i s (Q : Z + unit -> state -> Prop) :
  fsm_ok s -> stm_ret_value s <> STM_TRAN -> is_task i ->
  Q (inl (i + 1)) (task_round i s) ->
  wpg Fl (dispatch_body machine i) Q s.
Proof.
  intros Hs Ht Hi HQ. destruct (queue_at s i Hs Hi) as (q & Hq & Hqok).
  destruct (zget_is_Some (tasks_pool s) i) as [h Hh]; [by rewrite (fo_pool _ Hs); apply Hi|].
  pose proof (messages_length q Hqok) as Hml. unfold task_round in HQ. rewrite Hq, Hh in HQ.
  unfold is_task, TASKS_CNT in Hi.
  unfold dispatch_body, TASKS_CNT. rewrite (proj2 (Z.ltb_lt _ _)) by lia. wp_steps.
  eapply wpg_access_Some; [exact Hq|]. wp_step. rewrite u8_small by (unfold is_u8; lia).
  destruct (Z.eqb_spec (q_used q) 0) as [Hu|Hu]; cbn [negb].
  { wp_steps. destruct (messages q) as [|e ms]; [done|].
    rewrite Hu, zlen_cons in Hml. pose proof (zlen_nonneg ms). lia. }
  destruct (dequeue_messages q Hqok Hu) as (e & He & Hm). rewrite Hm in HQ.
  unfold take_message. wp_steps. eapply wpg_access_Some; [exact He|]. wp_step.
  apply wpg_put_queue; [done | done|]. fold (dequeue q). wp_steps.
  eapply wpg_access_Some; [exact Hh|]. wp_step.
  unfold deliver in HQ. unfold machine at 1. wp_steps.
  destruct (next h e) as [h'|].
  - unfold os_stm_tran. wp_steps. unfold transition. wp_steps. cbn [stm_ret_value set_stm].
    rewrite Z.eqb_refl. wp_steps. eapply wpg_access_Some; [exact Hh|]. wp_step.
    unfold machine at 1. wp_steps. rewrite next_exit. wp_steps.
    eapply wpg_access_Some; [reflexivity|]. wp_step.
    unfold machine at 1. wp_steps. rewrite next_entry. wp_steps.
    eapply wpg_access_Some; [reflexivity|]. wp_steps.
    eapply wpg_access_Some; [apply zset_is_Some; cbn; rewrite (fo_pool _ Hs); unfold TASKS_CNT; lia|].
    wp_steps. exact HQ.
  - wp_steps. unfold transition. wp_steps. cbn [stm_ret_value set_user with_queue set_tasks_queue].
    rewrite (proj2 (Z.eqb_neq _ _)) by done. wp_steps. exact HQ.
Qed.

Lemma wpg_os_dispatch Fl s (Q : unit -> state -> Prop) :
  fsm_ok s -> stm_ret_value s <> STM_TRAN ->
  Q tt (task_round 2 (task_round 1 (task_round 0 (set_next_dispatch 0 s)))) ->
  wpg Fl (os_dispatch machine) Q s.
Proof.
  intros Hs Ht HQ. unfold os_dispatch. wp_steps.
  assert (fsm_ok (set_next_dispatch 0 s)) as Hs0 by (by destruct Hs).
  destruct (task_round_ok 0 _ Hs0 Ht) as [Hs1 Ht1].
  destruct (task_round_ok 1 _ Hs1 Ht1) as [Hs2 Ht2].
  do 3 (apply wpg_loop_S, wpg_dispatch_body; [done | done | by (unfold is_task, TASKS_CNT; lia)|];
        cbn beta iota).
  apply wpg_loop_S. unfold dispatch_body. change (0 + 1 + 1 + 1 <? TASKS_CNT) with false. by wp_step.
Qed.
End Machines.

(** Runs of the scheduler of fsm.c: from the zeroed memory of a program that
    has registered its three tasks, any sequence of its operations; and the
    queues of the tasks seen as lists of messages. *)

Section Run.
Context {handler hook user_t : Type}.
Abbreviation state := (fsm handler hook user_t).
Context (run_handler : handler -> Z -> M state unit) (run_hook : hook -> M state unit).

Inductive fsm_op :=
| Op_init_tasks
| Op_post_message (task_id e : Z)
| Op_dispatch
| Op_timer_update
| Op_timer_set (task_id sig ticks : Z)
| Op_reload_timer_set (task_id sig ticks : Z)
| Op_timer_del (task_id sig : Z)
| Op_register_hook (func : option hook)
| Op_power_set (task_id power : Z).

Definition run_op (op : fsm_op) : M state unit :=
  match op with
  | Op_init_tasks => os_init_tasks run_hook
  | Op_post_message id e => os_post_message run_hook id e ;; ret tt
  | Op_dispatch => os_dispatch run_handler
  | Op_timer_update => os_timer_update run_hook
  | Op_timer_set id sg ticks => os_timer_set id sg ticks
  | Op_reload_timer_set id sg ticks => os_reload_timer_set id sg ticks
  | Op_timer_del id sg => os_timer_del id sg
  | Op_register_hook f => os_register_hook f
  | Op_power_set id p => os_power_set id p
  end.

Fixpoint run_ops (ops : list fsm_op) : M state unit :=
  match ops with
  | [] => ret tt
  | op :: ops => run_op op ;; run_ops ops
  end.

(** The arguments a caller may pass. *)
Definition op_ok (op : fsm_op) : Prop :=
  match op with
  | Op_post_message id e => is_task id /\ is_u8 e
  | Op_timer_set id sg ticks | Op_reload_timer_set id sg ticks =>
      is_task id /\ is_u8 sg /\ is_u16 ticks
  | Op_power_set id _ => is_task id
  | _ => True
  end.

(** Static memory, with the tasks the application has put in tasks_pool. *)
Definition zero_queue : queue_t := mkQueue 0 0 0 (replicate 8 0).
Definition zero_fsm (h0 h1 h2 : handler) (u : user_t) : state := {|
  tasks_pool := [h0; h1; h2];
  tasks_queue := replicate 3 zero_queue;
  stm_ret_value := 0; stm_state_temp := None;
  dispatch_hook := None; next_dispatch := 0;
  timer_pool := replicate 32 (mkTimer 0 0 0 0 0);
  power_task_state := 0; user := u |}.

Lemma zero_fsm_ok h0 h1 h2 u : fsm_ok (zero_fsm h0 h1 h2 u).
Proof.
  split; cbn; try done.
  - apply (Forall_replicate _ 3 zero_queue). split; cbn; unfold QUEUE_SIZE; try done; try lia.
    apply (Forall_replicate _ 8 0). by unfold is_u8.
  - apply (Forall_replicate _ 32 (mkTimer 0 0 0 0 0)).
    split; cbn; unfold is_u8, is_u16; try lia. right. unfold is_task, TASKS_CNT. lia.
Qed.

Lemma set_timer_pool_ok pool (s : state) :
  fsm_ok s -> zlen pool = TIMER_CNT -> Forall timer_ok pool -> fsm_ok (set_timer_pool pool s).
Proof. intros [? ? ? ? ? ?] Hl Hp. by split. Qed.

Lemma set_first_ok id sg change create pool :
  (forall t, timer_ok t -> timer_ok (change t)) -> (forall t, timer_ok t -> timer_ok (create t)) ->
  Forall timer_ok pool ->
  Forall timer_ok (set_first id sg change create pool) /\
  zlen (set_first id sg change create pool) = zlen pool.
Proof.
  intros Hch Hcr. induction 1 as [|t pool Ht Hp [IH IHl]]; cbn; [done|].
  destruct (is_timer id sg t); [|destruct (_ =? _)]; rewrite !zlen_cons; rewrite ?IHl;
    (split; [constructor; auto | lia]).
Qed.

Lemma del_first_ok id sg pool :
  Forall timer_ok pool ->
  Forall timer_ok (del_first id sg pool) /\ zlen (del_first id sg pool) = zlen pool.
Proof.
  induction 1 as [|t pool Ht Hp [IH IHl]]; cbn; [done|].
  destruct (is_timer id sg t); rewrite !zlen_cons; rewrite ?IHl; (split; [constructor; auto | lia]).
  destruct Ht. split; cbn; try done. by left.
Qed.

Lemma wp_init_keeps `{application_ok handler hook user_t run_handler run_hook} (s : state) (Q : unit -> state -> Prop) :
  fsm_ok s -> (forall s', fsm_ok s' -> Q tt s') -> wp (os_init_tasks run_hook) Q s.
Proof.
  intros Hs HQ. unfold os_init_tasks. wp_step.
  apply (wpg_loop _ _ (fun i s' => 0 <= i <= TASKS_CNT /\ fsm_ok s')
    (fun i _ => Z.to_nat (TASKS_CNT - i))); unfold TASKS_CNT; [|done|cbn; lia].
  intros i s1 [Hi Hs1]. unfold init_post_body, TASKS_CNT. destruct (Z.ltb_spec i 3).
  - wp_step. apply (wp_post_keeps run_handler run_hook); [done | by (unfold is_task, TASKS_CNT; lia) | done |].
    intros r s2 [Hs2 _]. wp_step. rewrite u8_small by (unfold is_u8; lia).
    split; [|lia]. split; [lia | done].
  - wp_step. apply wp_timer_loop; [| |done|done].
    + intros i' t s2 Hs2 Hi' Ht Htok. unfold init_timer_body. destruct (Z.ltb_spec i' TIMER_CNT); [|lia].
      wp_steps. eapply wpg_access_Some; [exact Ht|]. wp_step. apply wpg_put_timer; [done | done|].
      wp_step. split; [|by right]. apply with_timer_ok; [done|]. destruct Htok. split; cbn; try done.
      by left.
    + intros s2. unfold init_timer_body. rewrite Z.ltb_irrefl. by wp_step.
Qed.

(** Every operation returns and keeps the state well-formed. *)
Lemma wp_run_op `{application_ok handler hook user_t run_handler run_hook} op (s : state) :
  fsm_ok s -> op_ok op -> wp (run_op op) (fun _ s' => fsm_ok s') s.
Proof.
  intros Hs Hop. pose proof (fo_timers _ Hs) as Hl. pose proof (fo_timer _ Hs) as Ht.
  destruct op as [|id e| | |id sg ticks|id sg ticks|id sg|f|id p]; cbn [run_op op_ok] in *.
  - by apply wp_init_keeps.
  - wp_step. destruct Hop. apply (wp_post_keeps run_handler run_hook); try done.
    intros r s' [Hs' _]. by wp_step.
  - by apply (wp_dispatch_keeps run_handler run_hook).
  - by apply (wp_timer_update_keeps run_handler run_hook).
  - destruct Hop as (Hid & Hsg & Hti). apply wpg_timer_set; [done|].
    destruct (set_first_ok id sg
      (fun t => mkTimer (sig t) (task_id t) (flag t) ticks (reload t))
      (fun t => mkTimer sg id 0 ticks (reload t)) (timer_pool s)) as [Hp Hpl]; [| |done|].
    + intros t []. by split.
    + intros t []. split; try done. by right.
    + apply set_timer_pool_ok; [done | by rewrite Hpl | done].
  - destruct Hop as (Hid & Hsg & Hti). apply wpg_reload_timer_set; [done|].
    destruct (set_first_ok id sg
      (fun t => mkTimer (sig t) (task_id t) (flag t) (timeout t) ticks)
      (fun t => mkTimer sg id (Z.lor (flag t) TIMER_RELOAD_FLAG) ticks ticks) (timer_pool s))
      as [Hp Hpl]; [| |done|].
    + intros t []. by split.
    + intros t []. split; try done. by right.
    + apply set_timer_pool_ok; [done | by rewrite Hpl | done].
  - apply wpg_timer_del; [done|]. destruct (del_first_ok id sg (timer_pool s) Ht) as [Hp Hpl].
    apply set_timer_pool_ok; [done | by rewrite Hpl | done].
  - unfold os_register_hook. wp_step. by destruct Hs.
  - unfold is_task, TASKS_CNT in Hop. unfold os_power_set. wp_step.
    destruct (Z.ltb_spec id 31); [|lia]. wp_steps.
    destruct (p =? POWER_HOLD); [wp_step; by destruct Hs|].
    destruct (p =? POWER_SLEEP); [wp_step; by destruct Hs | by wp_step].
Qed.

Lemma wp_run_ops `{application_ok handler hook user_t run_handler run_hook} ops (s : state) :
  fsm_ok s -> Forall op_ok ops -> wp (run_ops ops) (fun _ s' => fsm_ok s') s.
Proof.
  intros Hs Hops. revert s Hs. induction Hops as [|op ops Hop _ IH]; intros s Hs; [done|].
  cbn [run_ops]. wp_step. eapply wpg_mono; [by apply wp_run_op|]. intros [] s' Hs'. by apply IH.
Qed.

(** [n] updates without a hook. *)
Fixpoint updates (n : nat) : M state unit :=
  match n with
  | O => ret tt
  | S n => updates n ;; os_timer_update run_hook
  end.

Lemma iter_tick_ok t n : timer_ok t -> timer_ok (Nat.iter n tick t).
Proof. intros Ht. induction n as [|n IH]; [done|]. rewrite Nat.iter_succ. by apply tick_ok. Qed.

Lemma post_all_facts ms (s : state) :
  fsm_ok s -> Forall (fun m => is_u8 m.2) ms ->
  fsm_ok (post_all ms s) /\ dispatch_hook (post_all ms s) = dispatch_hook s /\
  timer_pool (post_all ms s) = timer_pool s.
Proof.
  intros Hs Hms. revert s Hs. induction Hms as [|m ms Hm _ IH]; intros s Hs; [done|].
  unfold post_all in *. cbn [fold_left].
  destruct (IH (posted m.1 m.2 s)) as (H1 & H2 & H3); [by apply posted_ok|].
  rewrite H2, H3, posted_hook, posted_timers. done.
Qed.

Lemma expired_sigs pool : Forall timer_ok pool -> Forall (fun m : Z * Z => is_u8 m.2) (expired pool).
Proof.
  intros Hp. unfold expired. induction Hp as [|t pool Ht _ IH]; [done|]. cbn.
  destruct (fires t); [|done]. cbn. constructor; [by destruct Ht | done].
Qed.

(** The timers after [n] updates. *)
Lemma wpg_updates Fl n (s : state) :
  fsm_ok s -> dispatch_hook s = None ->
  wpg Fl (updates n) (fun _ s' =>
    fsm_ok s' /\ dispatch_hook s' = None /\
    timer_pool s' = map (Nat.iter n tick) (timer_pool s)) s.
Proof.
  intros Hs Hh. induction n as [|n IH]; cbn [updates].
  - wp_step. split; [done|]. split; [done|]. cbn. symmetry. apply map_id.
  - wp_step. eapply wpg_mono; [exact IH|]. intros [] s1 (Hs1 & Hh1 & Hp1).
    apply wpg_os_timer_update; [done | done|].
    destruct (post_all_facts (expired (timer_pool s1)) s1 Hs1) as (H1 & H2 & H3).
    { apply expired_sigs, (fo_timer _ Hs1). }
    split.
    + apply set_timer_pool_ok; [done | |].
      * unfold zlen. rewrite length_map. apply (fo_timers _ Hs1).
      * apply Forall_map, (Forall_impl _ _ _ (fo_timer _ Hs1)), tick_ok.
    + split; [cbn; by rewrite H2|]. cbn. rewrite Hp1, map_map. apply map_ext. intros t.
      by rewrite Nat.iter_succ.
Qed.

(** ** The messages of one timer *)

(** The messages that wait for a task, and how many of them are [e]. *)
Definition waiting (id : Z) (s : state) : list Z := default [] (messages <$> zget (tasks_queue s) id).
Definition count (id e : Z) (s : state) : nat := count_occ Z.eq_dec (waiting id s) e.
(** No room for another message. *)
Definition full (id : Z) (s : state) : Prop := zlen (waiting id s) = QUEUE_SIZE.

Lemma waiting_posted id id' e s :
  fsm_ok s -> is_task id ->
  waiting id (posted id' e s) =
    if bool_decide (id' = id /\ zlen (waiting id s) < QUEUE_SIZE) then waiting id s ++ [e] else waiting id s.
Proof.
  intros Hs Hid. destruct (zget_is_Some (tasks_queue s) id) as [q Hq]; [by rewrite (fo_queues _ Hs)|].
  pose proof (zget_Forall _ _ _ _ (fo_queue _ Hs) Hq) as Hqok. pose proof (messages_length q Hqok) as Hl.
  assert (waiting id s = messages q) as -> by (unfold waiting; by rewrite Hq). rewrite Hl.
  unfold posted. destruct (Z.eq_dec id' id) as [->|Hne].
  - rewrite Hq. destruct (Z.leb_spec QUEUE_SIZE (q_used q)).
    { rewrite bool_decide_eq_false_2 by lia. unfold waiting. by rewrite Hq. }
    rewrite bool_decide_eq_true_2 by done.
    assert (waiting id (with_queue id (enqueue e q) s) = messages q ++ [e]) as Hw;
      [|by destruct (next_dispatch s =? 0)].
    unfold waiting. cbn. rewrite zget_insert_eq by (by eapply zget_Some_range). by apply enqueue_messages.
  - rewrite bool_decide_eq_false_2 by (by intros []).
    destruct (zget (tasks_queue s) id') as [q'|] eqn:Hq'; [|unfold waiting; by rewrite Hq].
    destruct (QUEUE_SIZE <=? q_used q'); [unfold waiting; by rewrite Hq|].
    apply zget_Some_range in Hq'. unfold is_task in Hid.
    assert (waiting id (with_queue id' (enqueue e q') s) = messages q) as Hw;
      [|by destruct (next_dispatch s =? 0)].
    unfold waiting. cbn. rewrite zget_insert_ne by lia. by rewrite Hq.
Qed.

Lemma waiting_room id s : fsm_ok s -> is_task id -> zlen (waiting id s) <= QUEUE_SIZE.
Proof.
  intros Hs Hid. unfold waiting. destruct (zget (tasks_queue s) id) as [q|] eqn:Hq; [|by vm_compute].
  pose proof (zget_Forall _ _ _ _ (fo_queue _ Hs) Hq) as Hqok. cbn. rewrite messages_length by done. apply Hqok.
Qed.

(** One message: of another task or signal, or of this one. *)
Lemma count_posted id e id' e' s :
  fsm_ok s -> is_task id ->
  (full id s -> full id (posted id' e' s)) /\
  if bool_decide (id' = id /\ e' = e)
  then count id e (posted id' e' s) = S (count id e s) \/ (full id s /\ count id e (posted id' e' s) = count id e s)
  else count id e (posted id' e' s) = count id e s.
Proof.
  intros Hs Hid. unfold full, count. rewrite waiting_posted by done. pose proof (waiting_room id s Hs Hid).
  destruct (bool_decide_reflect (id' = id /\ zlen (waiting id s) < QUEUE_SIZE)) as [[-> Hr]|Hr].
  - split; [lia|]. rewrite count_occ_app. cbn.
    destruct (bool_decide_reflect (id = id /\ e' = e)) as [[_ He]|Hne], (Z.eq_dec e' e); (lia || done || by destruct Hne).
  - split; [done|]. destruct (bool_decide_reflect (id' = id /\ e' = e)) as [[-> ->]|_]; [right | done].
    split; [|done]. destruct (Z.eq_dec (zlen (waiting id s)) QUEUE_SIZE); [done|]. exfalso. apply Hr. split; [done | lia].
Qed.

Lemma count_others id e ms s :
  fsm_ok s -> is_task id -> Forall (fun m => is_u8 m.2) ms -> ~ In (id, e) ms ->
  (full id s -> full id (post_all ms s)) /\ count id e (post_all ms s) = count id e s.
Proof.
  intros Hs Hid Hms. revert s Hs. induction Hms as [|[id' e'] ms Hm _ IH]; intros s Hs Hin; [done|].
  unfold post_all in *. cbn [fold_left fst snd]. cbn in Hin.
  destruct (count_posted id e id' e' s Hs Hid) as [Hf Hc].
  rewrite bool_decide_eq_false_2 in Hc by (intros [-> ->]; auto).
  destruct (IH (posted id' e' s)) as [Hf' ->]; [by apply posted_ok | auto|]. auto.
Qed.

Lemma count_one id e ms1 ms2 s :
  fsm_ok s -> is_task id -> Forall (fun m => is_u8 m.2) (ms1 ++ (id, e) :: ms2) ->
  ~ In (id, e) ms1 -> ~ In (id, e) ms2 ->
  let s' := post_all (ms1 ++ (id, e) :: ms2) s in
  count id e s' = S (count id e s) \/ (full id s' /\ count id e s' = count id e s).
Proof.
  intros Hs Hid Hms H1 H2. apply Forall_app in Hms as [Hm1 [He Hm2]%Forall_cons].
  destruct (post_all_facts ms1 s Hs Hm1) as [Hs1 _]. destruct (count_others id e ms1 s Hs Hid Hm1 H1) as [_ Hc1].
  unfold post_all. rewrite fold_left_app. cbn [fold_left fst snd]. fold (post_all ms1 s). set (s1 := post_all ms1 s) in *.
  destruct (count_posted id e id e s1 Hs1 Hid) as [Hf Hc]. rewrite bool_decide_eq_true_2 in Hc by done.
  assert (fsm_ok (posted id e s1)) as Hs2 by by apply posted_ok.
  destruct (count_others id e ms2 (posted id e s1) Hs2 Hid Hm2 H2) as [Hf2 Hc2]. unfold post_all in Hf2, Hc2. rewrite Hc2.
  destruct Hc as [Hc|[Hful Hc]]; rewrite Hc, Hc1; auto.
Qed.

(** The timer [t] in slot [k] is the only one of its task for its signal. *)
Definition only_timer (k : Z) (t : timer_t) (pool : list timer_t) : Prop :=
  forall k' t', zget pool k' = Some t' -> is_timer (task_id t) (sig t) t' = true -> k' = k.

Lemma not_expired id e pool : Forall (fun t => is_timer id e t = false) pool -> ~ In (id, e) (expired pool).
Proof.
  intros Hp Hin. unfold expired in Hin. apply in_map_iff in Hin as (t & [= <- <-] & Hin).
  apply filter_In in Hin as [Hin _]. rewrite List.Forall_forall in Hp. specialize (Hp t Hin).
  unfold is_timer in Hp. by rewrite !Z.eqb_refl in Hp.
Qed.

Lemma expired_app l1 l2 : expired (l1 ++ l2) = expired l1 ++ expired l2.
Proof. unfold expired. by rewrite List.filter_app, map_app. Qed.

Lemma only_split k t pool :
  zget pool k = Some t -> only_timer k t pool ->
  exists l1 l2, pool = l1 ++ t :: l2 /\ ~ In (task_id t, sig t) (expired l1) /\ ~ In (task_id t, sig t) (expired l2).
Proof.
  intros Hk Ho. pose proof (zget_Some_range _ _ _ Hk) as Hr. unfold zget in Hk.
  rewrite (proj2 (Z.leb_le _ _)) in Hk by lia. apply list_elem_of_split_length in Hk as (l1 & l2 & -> & Hl).
  exists l1, l2. split; [done|].
  split; apply not_expired, Forall_forall; intros t' Hin; apply not_true_is_false; intros Ht;
    apply list_elem_of_lookup in Hin as [n Hn]; pose proof (lookup_lt_Some _ _ _ Hn) as Hlt.
  - enough (Z.of_nat n = k) by lia. apply (Ho _ t'); [|done]. unfold zget. rewrite (proj2 (Z.leb_le _ _)) by lia.
    by rewrite Nat2Z.id, lookup_app_l.
  - enough (Z.of_nat (length l1 + S n) = k) by lia. apply (Ho _ t'); [|done]. unfold zget. rewrite (proj2 (Z.leb_le _ _)) by lia.
    rewrite Nat2Z.id, lookup_app_r by lia. by replace (length l1 + S n - length l1)%nat with (S n) by lia.
Qed.

Lemma iter_tick_keeps t n :
  sig (Nat.iter n tick t) = sig t /\
  (task_id (Nat.iter n tick t) = task_id t \/ task_id (Nat.iter n tick t) = INVALID_TASK_ID).
Proof.
  induction n as [|n [IHs IHt]]; [auto|]. rewrite Nat.iter_succ. unfold tick at 1 3 5.
  destruct (timer_active _); [|done]. destruct (0 <? _); [done|]. destruct (negb _); cbn; auto.
Qed.

Lemma only_after k t n pool :
  timer_active (Nat.iter n tick t) = true -> only_timer k t pool ->
  only_timer k (Nat.iter n tick t) (map (Nat.iter n tick) pool).
Proof.
  intros Ha Ho k' t' Hk' Ht'. unfold zget in Hk'. destruct (0 <=? k') eqn:Hp; [|done].
  rewrite list_lookup_fmap in Hk'. destruct (pool !! Z.to_nat k') as [t0|] eqn:H0; [|done]. injection Hk' as <-.
  apply (Ho k' t0); [unfold zget; by rewrite Hp|]. unfold is_timer, timer_active in *.
  destruct (iter_tick_keeps t n) as [Hs Hid], (iter_tick_keeps t0 n) as [Hs0 Hid0]. rewrite Hs in Ht'.
  apply negb_true_iff, Z.eqb_neq in Ha. apply andb_true_iff in Ht' as [H1%Z.eqb_eq H2%Z.eqb_eq].
  apply andb_true_iff. split; apply Z.eqb_eq; [|congruence]. destruct Hid, Hid0; congruence.
Qed.

Lemma wpg_updates_timer Fl n (s : state) k t :
  fsm_ok s -> dispatch_hook s = None -> zget (timer_pool s) k = Some t ->
  wpg Fl (updates n) (fun _ s' => zget (timer_pool s') k = Some (Nat.iter n tick t)) s.
Proof.
  intros Hs Hh Hk. eapply wpg_mono; [by apply wpg_updates|]. intros [] s' (_ & _ & ->).
  unfold zget in *. destruct (0 <=? k); [|done]. by rewrite list_lookup_fmap, Hk.
Qed.

(** One update posts the message of the timer when it fires, and else no
    message like it. *)
Lemma update_count (s : state) k t :
  fsm_ok s -> zget (timer_pool s) k = Some t -> timer_active t = true -> only_timer k t (timer_pool s) ->
  let s' := set_timer_pool (map tick (timer_pool s)) (post_all (expired (timer_pool s)) s) in
  if fires t
  then count (task_id t) (sig t) s' = S (count (task_id t) (sig t) s) \/
       (full (task_id t) s' /\ count (task_id t) (sig t) s' = count (task_id t) (sig t) s)
  else count (task_id t) (sig t) s' = count (task_id t) (sig t) s.
Proof.
  intros Hs Hk Ha Ho. pose proof (zget_Forall _ _ _ _ (fo_timer _ Hs) Hk) as [Hid _ _ _].
  assert (is_task (task_id t)) as Ht.
  { destruct Hid as [Hid|]; [|done]. unfold timer_active in Ha. by rewrite Hid in Ha. }
  destruct (only_split k t _ Hk Ho) as (l1 & l2 & E & H1 & H2). pose proof (expired_sigs _ (fo_timer _ Hs)) as Hsig.
  cbv zeta. change (count ?i ?e (set_timer_pool ?p ?x)) with (count i e x). change (full ?i (set_timer_pool ?p ?x)) with (full i x).
  assert (expired (timer_pool s) = expired l1 ++ (if fires t then [(task_id t, sig t)] else []) ++ expired l2) as Ex.
  { rewrite E, expired_app. unfold expired at 2. cbn [List.filter]. by destruct (fires t). }
  rewrite Ex in Hsig |- *. destruct (fires t).
  - by apply count_one.
  - apply count_others; [done..|]. rewrite in_app_iff. by intros [?|?].
Qed.

(** [s'] has one message more for [id], if there was room. *)
Definition one_more (id e : Z) (s s' : state) : Prop :=
  count id e s' = S (count id e s) \/ (full id s' /\ count id e s' = count id e s).

Lemma wpg_implies Fl {A} (m : M state A) (P : Prop) (Q : A -> state -> Prop) s Q' :
  wpg Fl m Q' s -> (P -> wpg Fl m Q s) -> wpg Fl m (fun a s' => P -> Q a s') s.
Proof. unfold wpg. destruct (m s) as [[a s']|f]; auto. Qed.

Section OneTimer.
Context (pool : list timer_t) (k : Z) (t : timer_t).
Hypothesis (Hk : zget pool k = Some t) (Ha : timer_active t = true) (Ho : only_timer k t pool) (Ht : timer_ok t).

Lemma one_update Fl n (s : state) :
  fsm_ok s -> dispatch_hook s = None -> timer_pool s = map (Nat.iter n tick) pool -> Z.of_nat n <= timeout t ->
  wpg Fl (os_timer_update run_hook) (fun _ s' =>
    if Z.of_nat n =? timeout t then one_more (task_id t) (sig t) s s'
    else count (task_id t) (sig t) s' = count (task_id t) (sig t) s) s.
Proof.
  intros Hs Hh Hp Hn. pose proof (to_timeout _ Ht) as Hto.
  assert (zget (timer_pool s) k = Some (Nat.iter n tick t)) as Hkn.
  { rewrite Hp. unfold zget in *. destruct (0 <=? k); [|done]. by rewrite list_lookup_fmap, Hk. }
  assert (timer_active (Nat.iter n tick t) = true) as Han by (by rewrite tick_countdown).
  assert (only_timer k (Nat.iter n tick t) (timer_pool s)) as Hon by (rewrite Hp; by apply only_after).
  pose proof (update_count s k _ Hs Hkn Han Hon) as Hc. rewrite fires_at in Hc by done. rewrite tick_countdown in Hc by done.
  cbn [task_id sig] in Hc. by apply wpg_os_timer_update.
Qed.

(** Nothing is posted in the first [timeout t] updates, the message in the next. *)
Lemma updates_count Fl n (s : state) :
  fsm_ok s -> dispatch_hook s = None -> timer_pool s = pool -> Z.of_nat n <= timeout t ->
  wpg Fl (updates n) (fun _ s' => count (task_id t) (sig t) s' = count (task_id t) (sig t) s) s.
Proof.
  intros Hs Hh Hp. induction n as [|n IH]; intros Hn; cbn [updates]; [by wp_step|]. wp_step.
  eapply wpg_mono; [apply (wpg_conj Fl Fl); [apply (wpg_updates _ n s Hs Hh) | apply IH; lia]|].
  intros [] s1 [(Hs1 & Hh1 & Hp1) Hc1]. eapply wpg_mono; [apply (one_update _ n s1 Hs1 Hh1); [by rewrite Hp1, Hp | lia]|].
  intros [] s2. rewrite (proj2 (Z.eqb_neq _ _)) by lia. congruence.
Qed.

Lemma updates_fire Fl (s : state) :
  fsm_ok s -> dispatch_hook s = None -> timer_pool s = pool ->
  wpg Fl (updates (S (Z.to_nat (timeout t)))) (fun _ s' => one_more (task_id t) (sig t) s s') s.
Proof.
  intros Hs Hh Hp. pose proof (to_timeout _ Ht) as [Hto _]. cbn [updates]. wp_step.
  eapply wpg_mono; [apply (wpg_conj Fl Fl); [apply (wpg_updates _ _ s Hs Hh) | apply updates_count; (done || lia)]|].
  intros [] s1 [(Hs1 & Hh1 & Hp1) Hc1]. eapply wpg_mono; [apply (one_update _ (Z.to_nat (timeout t)) s1 Hs1 Hh1); [by rewrite Hp1, Hp | lia]|].
  intros [] s2. rewrite (proj2 (Z.eqb_eq _ _)) by lia. unfold one_more. by rewrite Hc1.
Qed.
End OneTimer.
End Run.

(** * The tasks as state machines with lists of messages *)

Section View.
Context {handler hook user_t : Type}.
Abbreviation state := (fsm handler hook user_t).
Context (act : handler -> Z -> user_t -> user_t) (next : handler -> Z -> option handler).

(** The state of every task with its messages. *)
Definition view (s : state) : list (handler * list Z) :=
  zip (tasks_pool s) (map messages (tasks_queue s)).

(** The oldest message of a task is delivered to it. *)
Definition spec_round (t : handler * list Z) (u : user_t) : (handler * list Z) * user_t :=
  match t with
  | (h, []) => ((h, []), u)
  | (h, e :: ms) => let '(h, u) := deliver act next h u e in ((h, ms), u)
  end.

(** A dispatch does it for every task, in order. *)
Fixpoint spec_dispatch (tasks : list (handler * list Z)) (u : user_t)
    : list (handler * list Z) * user_t :=
  match tasks with
  | [] => ([], u)
  | t :: tasks =>
      let '(t, u) := spec_round t u in
      let '(tasks, u) := spec_dispatch tasks u in (t :: tasks, u)
  end.

Lemma map_insert {A B} (f : A -> B) l i x : map f (<[i := x]> l) = <[i := f x]> (map f l).
Proof. apply list_fmap_insert. Qed.

(** One round, for the task behind [pre]. *)
Lemma view_round (s : state) i (pre post : list (handler * list Z)) t :
  fsm_ok s -> is_task i -> view s = pre ++ t :: post -> zlen pre = i ->
  view (task_round act next i s) = pre ++ (spec_round t (user s)).1 :: post /\
  user (task_round act next i s) = (spec_round t (user s)).2.
Proof.
  destruct t as [h ms].
  intros Hs Hi Hv <-. destruct (queue_at s _ Hs Hi) as (q & Hq & Hqok).
  destruct (zget_is_Some (tasks_pool s) (zlen pre)) as [h0 Hh]; [by rewrite (fo_pool _ Hs); apply Hi|].
  assert (zget (view s) (zlen pre) = Some (h0, messages q)) as Hat.
  { unfold zget in *. pose proof (zlen_nonneg pre). rewrite (proj2 (Z.leb_le _ _)) in * by lia.
    unfold view. apply lookup_zip_with_Some. exists h0, (messages q). split; [done|]. split; [done|].
    by rewrite list_lookup_fmap, Hq. }
  rewrite Hv, zget_mid in Hat. injection Hat as <- Hms. subst ms.
  unfold task_round. rewrite Hq, Hh.
  destruct (messages q) as [|e ms] eqn:Hm; [done|]. cbn [spec_round].
  pose proof (messages_length q Hqok) as Hl. rewrite Hm, zlen_cons in Hl.
  pose proof (zlen_nonneg ms).
  destruct (dequeue_messages q Hqok ltac:(lia)) as (e' & _ & Hd). rewrite Hm in Hd.
  injection Hd as _ Hd.
  assert (forall h', zip (<[Z.to_nat (zlen pre) := h']> (tasks_pool s))
     (map messages (<[Z.to_nat (zlen pre) := dequeue q]> (tasks_queue s))) =
     pre ++ (h', ms) :: post) as Hupd.
  { intros h'. rewrite map_insert, <- insert_zip_with.
    change (zip_with pair (tasks_pool s) _) with (view s). by rewrite Hv, insert_mid, <- Hd. }
  assert (<[Z.to_nat (zlen pre) := h]> (tasks_pool s) = tasks_pool s) as Hsame.
  { apply list_insert_id. unfold zget in Hh. by destruct (0 <=? zlen pre). }
  unfold deliver. destruct (next h e) as [h'|]; cbn; (split; [|done]); [apply Hupd|].
  unfold view. cbn. rewrite <- Hsame at 1. apply Hupd.
Qed.
Lemma view_dispatch (s : state) :
  fsm_ok s -> stm_ret_value s <> STM_TRAN ->
  let s' := task_round act next 2 (task_round act next 1 (task_round act next 0
              (set_next_dispatch 0 s))) in
  fsm_ok s' /\ (view s', user s') = spec_dispatch (view s) (user s).
Proof.
  intros Hs Ht s'.
  assert (fsm_ok (set_next_dispatch 0 s)) as Hs0 by (by destruct Hs).
  destruct (task_round_ok act next 0 _ Hs0 Ht) as [Hs1 Ht1].
  destruct (task_round_ok act next 1 _ Hs1 Ht1) as [Hs2 Ht2].
  destruct (task_round_ok act next 2 _ Hs2 Ht2) as [Hs3 Ht3].
  split; [exact Hs3|].
  destruct (view s) as [|t0 [|t1 [|t2 [|]]]] eqn:Hv; unfold view in Hv;
    pose proof (f_equal zlen Hv) as Hl; unfold zlen in Hl; rewrite length_zip_with, length_map in Hl;
    pose proof (fo_pool _ Hs); pose proof (fo_queues _ Hs); unfold zlen, TASKS_CNT in *;
    cbn [length] in Hl; try lia.
  assert (forall i, 0 <= i < 3 -> is_task i) as Hi by (unfold is_task, TASKS_CNT; done).
  destruct (view_round (set_next_dispatch 0 s) 0 [] [t1; t2] t0 Hs0 (Hi 0 ltac:(lia)) Hv eq_refl)
    as [Hv1 Hu1].
  cbn [user set_next_dispatch] in Hv1, Hu1.
  destruct (spec_round t0 (user s)) as [t0' u1] eqn:E0. cbn in Hv1, Hu1.
  destruct (view_round _ 1 [t0'] [t2] t1 Hs1 (Hi 1 ltac:(lia)) Hv1 eq_refl) as [Hv2 Hu2].
  rewrite Hu1 in Hv2, Hu2.
  destruct (spec_round t1 u1) as [t1' u2] eqn:E1. cbn in Hv2, Hu2.
  destruct (view_round _ 2 [t0'; t1'] [] t2 Hs2 (Hi 2 ltac:(lia)) Hv2 eq_refl) as [Hv3 Hu3].
  rewrite Hu2 in Hv3, Hu3. unfold s'. rewrite Hv3, Hu3.
  cbn [spec_dispatch]. rewrite E0, E1. by destruct (spec_round t2 u2).
Qed.

(** A message that is posted is the youngest of its task. *)
Lemma view_posted id e (s : state) q :
  fsm_ok s -> is_u8 e -> zget (tasks_queue s) id = Some q -> q_used q < QUEUE_SIZE ->
  view (posted id e s) = alter (fun t => (t.1, t.2 ++ [e])) (Z.to_nat id) (view s).
Proof.
  intros Hs He Hq Hu. pose proof (zget_Forall _ _ _ _ (fo_queue _ Hs) Hq) as Hqok.
  unfold posted. rewrite Hq. destruct (Z.leb_spec QUEUE_SIZE (q_used q)); [lia|].
  assert (view (with_queue id (enqueue e q) s) =
    alter (fun t => (t.1, t.2 ++ [e])) (Z.to_nat id) (view s)) as Hw;
    [|by destruct (next_dispatch s =? 0)].
  unfold view. cbn. rewrite map_insert, enqueue_messages by done.
  unfold zget in Hq. destruct (0 <=? id); [|done].
  apply list_eq. intros k. destruct (decide (k = Z.to_nat id)) as [->|Hne].
  - rewrite list_lookup_alter, decide_True, !lookup_zip_with by done.
    destruct (tasks_pool s !! Z.to_nat id) as [h|]; [|done].
    rewrite list_lookup_insert_eq by (rewrite length_map; by apply lookup_lt_is_Some_1).
    rewrite list_lookup_fmap, Hq. done.
  - rewrite list_lookup_alter_ne, !lookup_zip_with by done. by rewrite list_lookup_insert_ne.
Qed.
End View.
