(* ===== verification/MyCache.v ===== *)
(** components/jpge/my_cache.c: a write-once, read-back store in a block of
    memory (an 8-byte header, then the data), and its facts.

    The state is one cache_io and the counter s_cache_cnt.  [c_addr] is the
    allocated block, [None] for NULL; what malloc returns is an argument of
    cache_config. *)

From S2P Require Import Prelude.
From S2P Require Import CMonad.

Definition OPRT_OK : Z := 0.
Definition OPRT_COM_ERROR : Z := -1.
Definition CACHE_MAGIC : Z := 0xC0DE9798.

(** whence and wr_rd of cache_lseek. *)
Definition CACHE_SEEK_SET : Z := 0.
Definition CACHE_SEEK_CUR : Z := 1.
Definition CACHE_SEEK_END : Z := 2.
Definition CACHE_WR : Z := 0.

Record cache_io : Type := mkCache {
  c_addr : option (list Z);
  c_magic : Z;
  c_max_size : Z;
  c_size : Z;
  c_wr : Z;
  c_rd : Z;
  c_ref_cnt : Z;
  s_cache_cnt : Z
}.

Definition set_addr v c := mkCache v (c_magic c) (c_max_size c) (c_size c) (c_wr c) (c_rd c)
  (c_ref_cnt c) (s_cache_cnt c).
Definition set_magic v c := mkCache (c_addr c) v (c_max_size c) (c_size c) (c_wr c) (c_rd c)
  (c_ref_cnt c) (s_cache_cnt c).
Definition set_max_size v c := mkCache (c_addr c) (c_magic c) v (c_size c) (c_wr c) (c_rd c)
  (c_ref_cnt c) (s_cache_cnt c).
Definition set_size v c := mkCache (c_addr c) (c_magic c) (c_max_size c) v (c_wr c) (c_rd c)
  (c_ref_cnt c) (s_cache_cnt c).
Definition set_wr v c := mkCache (c_addr c) (c_magic c) (c_max_size c) (c_size c) v (c_rd c)
  (c_ref_cnt c) (s_cache_cnt c).
Definition set_rd v c := mkCache (c_addr c) (c_magic c) (c_max_size c) (c_size c) (c_wr c) v
  (c_ref_cnt c) (s_cache_cnt c).
Definition set_ref_cnt v c := mkCache (c_addr c) (c_magic c) (c_max_size c) (c_size c) (c_wr c)
  (c_rd c) v (s_cache_cnt c).
Definition set_cache_cnt v c := mkCache (c_addr c) (c_magic c) (c_max_size c) (c_size c) (c_wr c)
  (c_rd c) (c_ref_cnt c) v.

(** Signed addition; overflow is undefined. *)
Definition int_add (site : string) (a b : Z) : M cache_io Z :=
  access site (if (-2147483648 <=? a + b) && (a + b <? 2147483648) then Some (a + b) else None).

(** The block, for an access through c->addr. *)
Definition cache_block (site : string) : M cache_io (list Z) :=
  addr <- gets c_addr ;; access site addr.

(** memcpy(c->addr + off, d, length d) *)
Definition block_write (site : string) (off : Z) (d : list Z) : M cache_io unit :=
  block <- cache_block site ;;
  block <- access site (zblit block off d) ;;
  modify (set_addr (Some block)).

(** The bytes at c->addr + off. *)
Definition block_read (site : string) (off n : Z) : M cache_io (list Z) :=
  block <- cache_block site ;;
  access site (if (0 <=? off) && (0 <=? n) && (off + n <=? zlen block)
               then Some (zsub block off n) else None).

Definition bytes_le32 (x : Z) : list Z :=
  [u8 x; u8 (Z.shiftr x 8); u8 (Z.shiftr x 16); u8 (Z.shiftr x 24)].
Definition le32_of (b0 b1 b2 b3 : Z) : Z :=
  u32 (Z.lor (Z.lor (Z.lor b0 (Z.shiftl b1 8)) (Z.shiftl b2 16)) (Z.shiftl b3 24)).

(** The little-endian word at [i] of [block]. *)
Definition le32_at (block : list Z) (i : Z) : Z :=
  let b k := default 0 (zget block (i + k)) in le32_of (b 0) (b 1) (b 2) (b 3).

(** [block] is what malloc(max_size) returns. *)
Definition cache_config (block : option (list Z)) (max_size : Z) : M cache_io Z :=
  ref <- gets c_ref_cnt ;;
  if 0 <? ref then ret OPRT_COM_ERROR
  else
    modify (set_addr block) ;;
    match block with
    | None => ret OPRT_COM_ERROR
    | Some _ => modify (set_max_size max_size) ;; ret OPRT_OK
    end.

(** memset(c->addr, c->size, 0) fills no byte. *)
Definition cache_clear : M cache_io Z :=
  ref <- gets c_ref_cnt ;;
  if ref <=? 0 then ret OPRT_COM_ERROR
  else
    block_write "cache_clear" 0 (bytes_le32 CACHE_MAGIC) ;;
    ret OPRT_OK.

Definition cache_open : M cache_io Z :=
  let site := "cache_open"%string in
  ref <- gets c_ref_cnt ;;
  if 0 <? ref then ret OPRT_OK
  else
    cnt <- gets s_cache_cnt ;;
    modify (set_cache_cnt (cnt + 1)) ;;
    h <- block_read site 0 8 ;;
    modify (set_magic (le32_at h 0)) ;;
    modify (set_size (s32 (le32_at h 4))) ;;
    modify (set_ref_cnt (ref + 1)) ;;
    magic <- gets c_magic ;;
    size <- gets c_size ;;
    max <- gets c_max_size ;;
    (if negb (magic =? CACHE_MAGIC) || ((size <? 0) && (max <? size))
     then modify (set_size 0) ;; cache_clear ;; ret tt
     else ret tt) ;;
    modify (set_rd 0) ;;
    modify (set_wr 0) ;;
    ret OPRT_OK.

(** The sums with the unsigned [n] are unsigned, and so are the comparisons. *)
Definition cache_write (buf : list Z) (n : Z) : M cache_io Z :=
  let site := "cache_write"%string in
  ref <- gets c_ref_cnt ;;
  if ref <=? 0 then ret OPRT_COM_ERROR
  else
    size <- gets c_size ;;
    max <- gets c_max_size ;;
    if (n =? 0) || (u32 max <? u32 (size + n)) then ret 0
    else
      wr <- gets c_wr ;;
      d <- access site (if n <=? zlen buf then Some (zsub buf 0 n) else None) ;;
      block_write site (8 + wr) d ;;
      modify (set_wr (s32 (wr + n))) ;;
      modify (set_size (s32 (size + n))) ;;
      ret (s32 n).

(** The bytes copied to [buf], which has room for [n], and the result. *)
Definition cache_read (n : Z) : M cache_io (list Z * Z) :=
  ref <- gets c_ref_cnt ;;
  if ref <=? 0 then ret ([], OPRT_COM_ERROR)
  else if n =? 0 then ret ([], 0)
  else
    rd <- gets c_rd ;;
    size <- gets c_size ;;
    if size <=? rd then ret ([], 0)
    else
      let len := if u32 size <=? u32 (rd + n) then u32 (size - rd) else n in
      d <- block_read "cache_read" (8 + rd) len ;;
      modify (set_rd (s32 (rd + len))) ;;
      ret (d, s32 len).

Definition cache_lseek (wr_rd offset whence : Z) : M cache_io Z :=
  let site := "cache_lseek"%string in
  ref <- gets c_ref_cnt ;;
  if ref <=? 0 then ret OPRT_COM_ERROR
  else
    max <- gets c_max_size ;;
    wr <- gets c_wr ;;
    rd <- gets c_rd ;;
    size <- gets c_size ;;
    if wr_rd =? CACHE_WR
    then
      if whence =? CACHE_SEEK_SET
      then
        let offset := if max <=? offset then max else offset in
        modify (set_wr offset) ;; modify (set_size offset) ;; ret offset
      else if whence =? CACHE_SEEK_CUR
      then
        sum <- int_add site wr offset ;;
        let wr' := if max <=? sum then wr + (max - wr) else sum in
        modify (set_wr wr') ;; modify (set_size wr') ;; ret wr'
      else if whence =? CACHE_SEEK_END then modify (set_wr size) ;; ret size
      else ret OPRT_COM_ERROR
    else
      if whence =? CACHE_SEEK_SET then modify (set_rd offset) ;; ret offset
      else if whence =? CACHE_SEEK_CUR
      then rd' <- int_add site rd offset ;; modify (set_rd rd') ;; ret rd'
      else if whence =? CACHE_SEEK_END then modify (set_rd size) ;; ret size
      else ret OPRT_COM_ERROR.

Definition cache_size : M cache_io Z :=
  ref <- gets c_ref_cnt ;;
  if ref <=? 0 then ret OPRT_COM_ERROR else gets c_size.

Definition cache_close : M cache_io Z :=
  ref <- gets c_ref_cnt ;;
  if ref <=? 0 then ret OPRT_OK
  else
    modify (set_ref_cnt (ref - 1)) ;;
    (if ref - 1 <=? 0
     then cnt <- gets s_cache_cnt ;; modify (set_cache_cnt (cnt - 1))
     else ret tt) ;;
    ret OPRT_OK.

(** * Facts *)

(** An open cache that holds [data] and has given out the first [r] bytes. *)
Record cache_holds (data : list Z) (r : Z) (c : cache_io) : Prop := {
  ch_block : exists block, c_addr c = Some block /\ zlen block = c_max_size c /\
               holds block 8 data /\ 8 <= zlen block;
  ch_size : c_size c = zlen data;
  ch_wr : c_wr c = zlen data;
  ch_rd : c_rd c = r /\ 0 <= r <= zlen data;
  ch_ref : 0 < c_ref_cnt c;
  ch_max : c_max_size c < 2147483648;
  ch_fit : 8 + zlen data <= c_max_size c
}.

Section Facts.
Context (Fl : failure -> Prop).

Lemma zblit_append (l a b l' l'' : list Z) i :
  holds l i a -> 0 <= i -> zblit l (i + zlen a) b = Some l'' -> l' = l'' ->
  holds l' i (a ++ b) /\ zlen l' = zlen l.
Proof.
  intros Ha Hi Hb ->. split; [|by apply (zblit_zlen _ _ _ _ Hb)].
  apply holds_app. split; [|by apply (zblit_holds _ _ _ _ Hb)].
  eapply zblit_holds_before; [exact Hb | done | lia | done].
Qed.

(** Data that fit behind the header are appended. *)
Lemma wpg_cache_write data r buf c (Q : Z -> cache_io -> Prop) :
  cache_holds data r c -> buf <> [] -> 8 + zlen data + zlen buf <= c_max_size c ->
  (forall c', cache_holds (data ++ buf) r c' -> c_max_size c' = c_max_size c ->
     Q (zlen buf) c') ->
  wpg Fl (cache_write buf (zlen buf)) Q c.
Proof.
  intros [(block & Ha & Hl & Hd & H8) Hs Hw [Hr Hr2] Href Hmax Hfit] Hne Hroom HQ.
  assert (0 < zlen buf) by (destruct buf; [done|]; rewrite zlen_cons; pose proof (zlen_nonneg buf); lia).
  pose proof (zlen_nonneg data).
  unfold cache_write. wp_steps. destruct (Z.leb_spec (c_ref_cnt c) 0); [lia|]. wp_steps.
  rewrite (proj2 (Z.eqb_neq _ 0)), !u32_small by (unfold is_u32; lia).
  destruct (Z.ltb_spec (c_max_size c) (c_size c + zlen buf)); [lia|]. cbn [orb]. wp_steps.
  rewrite Z.leb_refl, zsub_all. wp_steps. unfold block_write, cache_block. wp_steps.
  rewrite Ha. wp_steps. rewrite Hw.
  destruct (zblit_ex block (8 + zlen data) buf) as [block' Hb]; [lia | lia|].
  eapply wpg_access_Some; [exact Hb|]. wp_steps. rewrite Hs.
  rewrite !s32_small by lia.
  destruct (zblit_append _ _ _ _ _ _ Hd ltac:(lia) Hb eq_refl) as [Hd' Hl'].
  apply HQ; [|done]. split; cbn -[zlen]; rewrite ?zlen_app; try done; try lia.
  exists block'. split_and!; [done | lia | done | lia].
Qed.

(** The last 8 bytes are accepted by the check but lie outside the block. *)
Lemma cache_write_overflow data r buf c :
  cache_holds data r c -> buf <> [] ->
  zlen data + zlen buf <= c_max_size c < 8 + zlen data + zlen buf ->
  cache_write buf (zlen buf) c = Stop (Fault "cache_write").
Proof.
  intros [(block & Ha & Hl & Hd & H8) Hs Hw [Hr Hr2] Href Hmax Hfit] Hne Hroom.
  assert (0 < zlen buf) by (destruct buf; [done|]; rewrite zlen_cons; pose proof (zlen_nonneg buf); lia).
  pose proof (zlen_nonneg data).
  unfold cache_write, bind, gets. destruct (Z.leb_spec (c_ref_cnt c) 0); [lia|].
  rewrite (proj2 (Z.eqb_neq _ 0)), !u32_small by (unfold is_u32; lia).
  destruct (Z.ltb_spec (c_max_size c) (c_size c + zlen buf)); [lia|]. cbn [orb].
  rewrite Z.leb_refl, zsub_all. cbn [access ret]. unfold block_write, cache_block, bind, gets, access.
  rewrite Ha, Hw. cbn [ret]. unfold zblit.
  destruct (Z.leb_spec 0 (8 + zlen data)); [|lia].
  by destruct (Z.leb_spec (8 + zlen data + zlen buf) (zlen block)); [lia|].
Qed.

(** More than the maximum is refused. *)
Lemma cache_write_full data r buf c :
  cache_holds data r c -> c_max_size c < zlen data + zlen buf < 4294967296 ->
  cache_write buf (zlen buf) c = Ok (0, c).
Proof.
  intros [(block & Ha & Hl & Hd & H8) Hs Hw [Hr Hr2] Href Hmax Hfit] Hroom.
  pose proof (zlen_nonneg data). unfold cache_write, bind, gets.
  destruct (Z.leb_spec (c_ref_cnt c) 0); [lia|].
  rewrite !u32_small by (unfold is_u32; lia).
  destruct (Z.ltb_spec (c_max_size c) (c_size c + zlen buf)); [|lia]. by rewrite orb_true_r.
Qed.

(** Reading gives the next bytes of the data, at most [n]. *)
Lemma wpg_cache_read data r n c (Q : list Z * Z -> cache_io -> Prop) :
  cache_holds data r c -> 0 <= n < 2147483648 ->
  (forall c', let k := Z.min n (zlen data - r) in
     cache_holds data (r + k) c' -> Q (zsub data r k, k) c') ->
  wpg Fl (cache_read n) Q c.
Proof.
  intros Hc Hn HQ. pose proof Hc as [(block & Ha & Hl & Hd & H8) Hs Hw [Hr Hr2] Href Hmax Hfit].
  pose proof (zlen_nonneg data).
  unfold cache_read. wp_steps. destruct (Z.leb_spec (c_ref_cnt c) 0); [lia|].
  assert (forall k, k = Z.min n (zlen data - r) -> k = 0 -> Q ([], 0) c) as Hzero.
  { intros k -> Hk. specialize (HQ c). cbv zeta in HQ. rewrite Hk, Z.add_0_r, zsub_0 in HQ. auto. }
  destruct (Z.eqb_spec n 0); [wp_step; eapply Hzero; [done | lia]|]. wp_steps.
  destruct (Z.leb_spec (c_size c) (c_rd c)); [wp_step; eapply Hzero; [done | lia]|].
  rewrite Hs, Hr in *. rewrite !(u32_small) by (unfold is_u32; lia).
  set (len := if zlen data <=? r + n then zlen data - r else n).
  assert (len = Z.min n (zlen data - r)) as Hlen
    by (unfold len; destruct (Z.leb_spec (zlen data) (r + n)); lia).
  assert (0 < len) by lia. clearbody len.
  unfold block_read, cache_block. wp_steps. rewrite Ha. wp_steps.
  destruct (Z.leb_spec 0 (8 + r)); [|lia]. destruct (Z.leb_spec 0 len); [|lia].
  destruct (Z.leb_spec (8 + r + len) (zlen block)); [|lia]. cbn [andb]. wp_steps.
  rewrite !s32_small by lia.
  assert (zsub block (8 + r) len = zsub data r len) as ->.
  { apply zget_ext; rewrite !zlen_zsub by lia; [done|]. intros k Hk.
    rewrite !zget_zsub by lia. destruct (zget_is_Some data (r + k)) as [x Hx]; [lia|].
    rewrite Hx. replace (8 + r + k) with (8 + (r + k)) by lia. by apply (holds_get _ _ _ _ _ Hd). }
  rewrite Hlen. apply HQ. rewrite <- Hlen. split; cbn; try done; try lia. exists block. done.
Qed.

(** The two words of the header are those at the start of the block. *)
Lemma le32_at_zsub block i : 8 <= zlen block -> 0 <= i <= 4 ->
  le32_at (zsub block 0 8) i = le32_at block i.
Proof.
  intros Hl Hi. unfold le32_at. by rewrite !zget_zsub, !Z.add_0_l by lia.
Qed.

(** A block whose header has no valid magic number opens as an empty cache,
    and the magic number is written to it; the size field is left. *)
Lemma wpg_cache_open_fresh c block (Q : Z -> cache_io -> Prop) :
  c_addr c = Some block -> zlen block = c_max_size c -> 8 <= c_max_size c < 2147483648 ->
  c_ref_cnt c = 0 -> le32_at block 0 <> CACHE_MAGIC ->
  (forall c' block', cache_holds [] 0 c' -> c_max_size c' = c_max_size c ->
     c_addr c' = Some block' -> zblit block 0 (bytes_le32 CACHE_MAGIC) = Some block' ->
     Q OPRT_OK c') ->
  wpg Fl cache_open Q c.
Proof.
  intros Ha Hl Hm Href Hmagic HQ. unfold cache_open. wp_steps. rewrite Href. cbn [Z.ltb Z.compare].
  wp_steps. unfold block_read, cache_block. wp_steps. cbn [c_addr set_cache_cnt]. rewrite Ha. wp_steps.
  destruct (Z.leb_spec (0 + 8) (zlen block)); [|lia]. cbn [andb Z.leb Z.compare]. wp_steps.
  rewrite !le32_at_zsub by lia. cbn -[le32_at CACHE_MAGIC Z.eqb zlen s32].
  rewrite (proj2 (Z.eqb_neq _ _) Hmagic). cbn [negb orb]. wp_steps. unfold cache_clear. wp_steps.
  cbn -[CACHE_MAGIC zlen bytes_le32 zblit bind modify Z.leb]. unfold block_write, cache_block.
  change (0 + 1 <=? 0) with false. cbv match. wp_steps.
  cbn [c_addr set_size set_ref_cnt set_magic set_cache_cnt]. rewrite Ha. wp_steps.
  assert (zlen (bytes_le32 CACHE_MAGIC) = 4) as H4 by done.
  destruct (zblit_ex block 0 (bytes_le32 CACHE_MAGIC)) as [block' Hb]; [lia | lia|].
  eapply wpg_access_Some; [exact Hb|]. wp_steps. eapply HQ; [|done|done|exact Hb].
  pose proof (zblit_zlen _ _ _ _ Hb).
  split; cbn -[zlen]; rewrite ?zlen_nil; try done; try lia.
  exists block'. by split_and!; try lia.
Qed.

(** A block with a valid magic number opens with the size its size field
    holds, at position 0. *)
Lemma wpg_cache_open_valid c block (Q : Z -> cache_io -> Prop) :
  c_addr c = Some block -> 8 <= zlen block -> c_ref_cnt c = 0 ->
  le32_at block 0 = CACHE_MAGIC -> is_u32 (le32_at block 4) -> 0 <= c_max_size c ->
  Q OPRT_OK (set_wr 0 (set_rd 0 (set_ref_cnt 1 (set_size (s32 (le32_at block 4))
              (set_magic CACHE_MAGIC (set_cache_cnt (s_cache_cnt c + 1) c)))))) ->
  wpg Fl cache_open Q c.
Proof.
  intros Ha Hl Href Hmagic Hsz Hmax HQ. unfold cache_open. wp_steps. rewrite Href.
  cbn [Z.ltb Z.compare].
  wp_steps. unfold block_read, cache_block. wp_steps. cbn [c_addr set_cache_cnt]. rewrite Ha. wp_steps.
  destruct (Z.leb_spec (0 + 8) (zlen block)); [|lia]. cbn [andb Z.leb Z.compare]. wp_steps.
  rewrite !le32_at_zsub by lia. rewrite Hmagic. cbn -[le32_at CACHE_MAGIC Z.eqb zlen s32 Z.ltb].
  rewrite Z.eqb_refl. cbn [negb orb].
  replace ((_ <? 0) && (_ <? _)) with false; [wp_steps; exact HQ|].
  symmetry. apply andb_false_iff. rewrite !Z.ltb_ge. lia.
Qed.
End Facts.
