(* ===== verification/FbIo.v ===== *)
(** components/jpge/fb_io.h: the ring buffer between the camera's DMA and the
    encoder, and its facts.

    [fb_buf] is the block of size + extra_size bytes; a transfer of the DMA
    writes bytes at the position [head] and then calls fb_io_inc_head.  The
    fields are int; all sums here are below 2 * (size + extra_size). *)

From S2P Require Import Prelude.

Record fb_io : Type := mkFbIo {
  fb_buf : list Z;
  size : Z;
  real_size : Z;
  extra_size : Z;
  head : Z;
  tail : Z;
  len : Z;
  frame_done : Z;
  frame_size : Z
}.

Definition set_buf v io := mkFbIo v (size io) (real_size io) (extra_size io) (head io) (tail io)
  (len io) (frame_done io) (frame_size io).
Definition set_real_size v io := mkFbIo (fb_buf io) (size io) v (extra_size io) (head io) (tail io)
  (len io) (frame_done io) (frame_size io).
Definition set_head v io := mkFbIo (fb_buf io) (size io) (real_size io) (extra_size io) v (tail io)
  (len io) (frame_done io) (frame_size io).
Definition set_tail v io := mkFbIo (fb_buf io) (size io) (real_size io) (extra_size io) (head io) v
  (len io) (frame_done io) (frame_size io).
Definition set_len v io := mkFbIo (fb_buf io) (size io) (real_size io) (extra_size io) (head io)
  (tail io) v (frame_done io) (frame_size io).

Definition fb_io_clear (io : fb_io) : fb_io :=
  set_real_size (size io) (set_len 0 (set_tail 0 (set_head 0 io))).

(** The pointers io->buf + io->head and io->buf + io->tail, as offsets. *)
Definition fb_io_space (io : fb_io) : Z := head io.
Definition fb_io_data (io : fb_io) : Z := tail io.

Definition fb_io_space_len (io : fb_io) : Z := real_size io - len io.

Definition fb_io_space_tail_len (io : fb_io) : Z :=
  if tail io <? head io then real_size io - head io else real_size io - len io.

Definition fb_io_data_len (io : fb_io) : Z :=
  if (head io <=? tail io) && (0 <? len io) then real_size io - tail io else len io.

Definition fb_io_data_total_len (io : fb_io) : Z := len io.

Definition fb_io_inc_tail (io : fb_io) (n : Z) : Z * fb_io :=
  if len io - n <? 0 then (-1, io)
  else
    let io := set_tail (tail io + n) io in
    let io := if real_size io <=? tail io then set_real_size (size io) (set_tail 0 io) else io in
    let io := set_len (len io - n) io in
    (n, io).

Definition fb_io_inc_head (io : fb_io) (n : Z) : Z * fb_io :=
  if real_size io <? len io + n then (-1, io)
  else
    let io := set_head (head io + n) io in
    let io := if real_size io <=? head io then set_head 0 io else io in
    let io := set_len (len io + n) io in
    (n, io).

Definition fb_io_resize (io : fb_io) (n : Z) : fb_io :=
  if (size io <? head io + n) && (head io + n <? size io + extra_size io)
  then set_real_size (head io + n) io else io.

(** * The bytes in the ring *)

(** A position of the ring, counted from [tail]. *)
Definition position (io : fb_io) (k : Z) : Z :=
  if tail io + k <? real_size io then tail io + k else tail io + k - real_size io.

(** The ring holds the bytes [d], oldest first.  When they continue at the
    start of the block they end before [size], the size the ring has again
    once the reader has come round. *)
Record fb_ok (io : fb_io) (d : list Z) : Prop := {
  fk_buf : zlen (fb_buf io) = size io + extra_size io;
  fk_real : 0 < size io <= real_size io /\ real_size io <= size io + extra_size io;
  fk_len : len io = zlen d /\ zlen d <= real_size io;
  fk_tail : 0 <= tail io < real_size io;
  fk_head : head io = position io (len io);
  fk_data : forall k, 0 <= k < zlen d -> zget (fb_buf io) (position io k) = zget d k;
  fk_wrap : tail io + len io - real_size io < size io
}.

(** Decides the positions that a goal mentions. *)
Ltac fb_cases :=
  unfold position in *; cbn -[zlen] in *;
  repeat match goal with
  | H : context [?a <? ?b] |- _ => destruct (Z.ltb_spec a b); try lia
  | |- context [?a <? ?b] => destruct (Z.ltb_spec a b); try lia
  | |- context [?a <=? ?b] => destruct (Z.leb_spec a b); try lia
  end.

Lemma fb_clear_ok io d : fb_ok io d -> fb_ok (fb_io_clear io) [].
Proof.
  intros [Hb [H0 Hr] Hl Ht Hh Hd Hw]. unfold fb_io_clear. split; cbn -[zlen]; try lia.
  - change (zlen (@nil Z)) with 0. lia.
  - unfold position. cbn. destruct (Z.ltb_spec (0 + 0) (size io)); lia.
  - intros k. change (zlen (@nil Z)) with 0. lia.
Qed.

Lemma fb_head_range io d : fb_ok io d -> 0 <= head io < real_size io.
Proof.
  intros [Hb [H0 Hr] [Hl Hl2] Ht Hh Hd Hw]. pose proof (zlen_nonneg d).
  rewrite Hh. unfold position. destruct (Z.ltb_spec (tail io + len io) (real_size io)); lia.
Qed.

(** A transfer of the bytes [e] to the write position. *)
Lemma fb_put io d e :
  fb_ok io d -> head io + zlen e <= real_size io -> len io + zlen e <= real_size io ->
  tail io + len io + zlen e - real_size io < size io ->
  exists buf', zblit (fb_buf io) (fb_io_space io) e = Some buf' /\
    exists io', fb_io_inc_head (set_buf buf' io) (zlen e) = (zlen e, io') /\ fb_ok io' (d ++ e).
Proof.
  intros Hok Hfit Hlen Hwr. pose proof (fb_head_range _ _ Hok) as Hhr.
  destruct Hok as [Hb [H0 Hr] [Hl Hl2] Ht Hh Hd Hw].
  pose proof (zlen_nonneg d). pose proof (zlen_nonneg e). unfold fb_io_space.
  destruct (zblit_ex (fb_buf io) (head io) e) as [buf' Hbuf]; [lia | lia|].
  exists buf'. split; [done|]. unfold fb_io_inc_head. cbn -[zlen].
  destruct (Z.ltb_spec (real_size io) (len io + zlen e)); [lia|].
  eexists. split; [reflexivity|]. pose proof (zblit_zlen _ _ _ _ Hbuf) as Hz.
  assert (forall io', fb_buf io' = buf' -> tail io' = tail io -> real_size io' = real_size io ->
    forall k, 0 <= k < zlen (d ++ e) -> zget (fb_buf io') (position io' k) = zget (d ++ e) k) as Hdata.
  { intros io' E1 E2 E3 k Hk. rewrite zlen_app in Hk. unfold position. rewrite E1, E2, E3.
    fold (position io k). assert (0 <= position io k) by (unfold position; fb_cases).
    rewrite (zget_zblit _ _ _ _ _ Hbuf) by done.
    destruct (Z.ltb_spec k (zlen d)).
    - rewrite zget_app_l, <- Hd by lia. rewrite Hl in Hh.
      destruct (Z.leb_spec (head io) (position io k)),
        (Z.ltb_spec (position io k) (head io + zlen e)); try done. exfalso. rewrite Hh in *. fb_cases.
    - rewrite zget_app_r by lia. rewrite Hl in Hh.
      assert (position io k = head io + (k - zlen d)) as -> by (rewrite Hh; fb_cases).
      destruct (Z.leb_spec (head io) (head io + (k - zlen d))); [|lia].
      destruct (Z.ltb_spec (head io + (k - zlen d)) (head io + zlen e)); [|lia]. cbn [andb].
      f_equal. lia. }
  assert (head io + zlen e < real_size io ->
    head io + zlen e = position io (len io + zlen e)) as Hp1 by (intros; rewrite Hh in *; fb_cases).
  assert (real_size io <= head io + zlen e -> 0 = position io (len io + zlen e)) as Hp2
    by (intros; rewrite Hh in *; fb_cases).
  destruct (Z.leb_spec (real_size io) (head io + zlen e)); split; cbn -[zlen]; try lia;
    first [by apply Hdata | by apply Hp1 | by apply Hp2 | rewrite zlen_app; lia].
Qed.

(** The reader takes bytes from the front. *)
Lemma fb_get io d n :
  fb_ok io d -> 0 <= n <= fb_io_data_len io ->
  zsub (fb_buf io) (fb_io_data io) n = take (Z.to_nat n) d /\
  exists io', fb_io_inc_tail io n = (n, io') /\ fb_ok io' (drop (Z.to_nat n) d).
Proof.
  intros [Hb [H0 Hr] [Hl Hl2] Ht Hh Hd Hw] Hn. pose proof (zlen_nonneg d).
  assert (n <= zlen d /\ tail io + n <= real_size io) as [Hnd Hnt].
  { unfold fb_io_data_len in Hn. rewrite Hh in Hn. rewrite Hl in *. unfold position in Hn.
    destruct (Z.ltb_spec (tail io + zlen d) (real_size io)).
    - destruct (Z.leb_spec (tail io + zlen d) (tail io)), (Z.ltb_spec 0 (zlen d)); cbn in Hn; lia.
    - destruct (Z.leb_spec (tail io + zlen d - real_size io) (tail io)),
        (Z.ltb_spec 0 (zlen d)); cbn in Hn; lia. }
  assert (zlen (drop (Z.to_nat n) d) = zlen d - n) as Hdl by (unfold zlen in *; rewrite length_drop; lia).
  assert (forall k, 0 <= k -> zget (drop (Z.to_nat n) d) k = zget d (n + k)) as Hdrop.
  { intros k Hk. unfold zget. destruct (Z.leb_spec 0 k), (Z.leb_spec 0 (n + k)); try lia.
    rewrite lookup_drop. f_equal. lia. }
  split.
  - change (take (Z.to_nat n) d) with (zsub d 0 n). unfold fb_io_data.
    apply zget_ext; rewrite !zlen_zsub by lia; [done|]. intros k Hk.
    rewrite !zget_zsub, Z.add_0_l by lia. rewrite <- Hd by lia. f_equal. fb_cases.
  - unfold fb_io_inc_tail. destruct (Z.ltb_spec (len io - n) 0); [lia|]. cbn -[zlen].
    eexists. split; [reflexivity|].
    destruct (Z.leb_spec (real_size io) (tail io + n)).
    + split; cbn -[zlen]; rewrite ?Hdl; try lia.
      * rewrite Hh. fb_cases.
      * intros k Hk. rewrite Hdrop by lia. rewrite <- Hd by lia. f_equal. fb_cases.
    + split; cbn -[zlen]; rewrite ?Hdl; try lia.
      * rewrite Hh. fb_cases.
      * intros k Hk. rewrite Hdrop by lia. rewrite <- Hd by lia. f_equal. fb_cases.
Qed.

(** The ring may grow to the end of a transfer while it has not wrapped. *)
Lemma fb_resize_ok io d n :
  fb_ok io d -> tail io + len io < real_size io -> 0 < n ->
  (head io + n <= size io \/ size io < head io + n < size io + extra_size io) ->
  fb_ok (fb_io_resize io n) d /\ head (fb_io_resize io n) = head io /\
  (size io < head io + n -> real_size (fb_io_resize io n) = head io + n).
Proof.
  intros [Hb [H0 Hr] [Hl Hl2] Ht Hh Hd Hw] Hwr Hn Hcase. pose proof (zlen_nonneg d).
  assert (head io = tail io + len io) as Hh2 by (rewrite Hh; fb_cases).
  unfold fb_io_resize.
  destruct (Z.ltb_spec (size io) (head io + n)),
    (Z.ltb_spec (head io + n) (size io + extra_size io)); cbn [andb];
    try (split; [by split|]; split; [done | lia]).
  split; [|done]. split; cbn -[zlen]; try lia.
  - rewrite Hh2. fb_cases.
  - intros k Hk. rewrite <- Hd by done. f_equal. fb_cases.
Qed.
