(* ===== verification/Flash.v ===== *)
(** components/spiffs/flash_device.c: a flash chip simulated in memory and kept
    in a file; flash_spiffs.c: the functions by which the file system spiffs
    reaches it.

    [flash_mem] is the block of [f_size] bytes; [image] is the content of the
    file.  Descriptors are always valid once open has succeeded, so they are
    left out. *)

From S2P Require Import Prelude.
From S2P Require Import CMonad.

Record flash_file : Type := mkFlash {
  flash_mem : option (list Z);
  f_size : Z;
  f_flag : Z;
  image : list Z
}.

(** s_flash. *)
Definition s_flash (image : list Z) : flash_file := mkFlash None (8 * 1024 * 1024) 0 image.

Definition set_flash_mem v s := mkFlash v (f_size s) (f_flag s) (image s).
Definition set_flag v s := mkFlash (flash_mem s) (f_size s) v (image s).
Definition set_image v s := mkFlash (flash_mem s) (f_size s) (f_flag s) v.

Definition SPIFFS_OK : Z := 0.
Definition SPIFFS_ERR_NOT_CONFIGURED : Z := -10024.

(** s_flash.flash_mem, for an access through it. *)
Definition mem (site : string) : M flash_file (list Z) :=
  m <- gets flash_mem ;; access site m.

(** The bytes at flash_mem + addr. *)
Definition mem_read (site : string) (addr n : Z) : M flash_file (list Z) :=
  m <- mem site ;;
  access site (if (0 <=? addr) && (0 <=? n) && (addr + n <=? zlen m)
               then Some (zsub m addr n) else None).

(** memcpy(flash_mem + addr, d, length d) *)
Definition mem_write (site : string) (addr : Z) (d : list Z) : M flash_file unit :=
  m <- mem site ;;
  m <- access site (zblit m addr d) ;;
  modify (set_flash_mem (Some m)).

(** * Reading, writing and erasing *)

Definition flash_read (addr size : Z) : M flash_file (Z * list Z) :=
  flag <- gets f_flag ;;
  if flag =? 0 then ret (-1, [])
  else d <- mem_read "flash_read" addr size ;; ret (SPIFFS_OK, d).

(** Only zeros can be written: p[i] &= src[i]. *)
Definition flash_write (addr size : Z) (src : list Z) : M flash_file Z :=
  let site := "flash_write"%string in
  flag <- gets f_flag ;;
  if flag =? 0 then ret (-1)
  else
    p <- mem_read site addr size ;;
    src <- access site (if size <=? zlen src then Some (zsub src 0 size) else None) ;;
    mem_write site addr (zip_with Z.land p src) ;;
    ret SPIFFS_OK.

(** x & ~(4096 - 1), for 32-bit x. *)
Definition sector_down (x : Z) : Z := u32 (Z.land x (Z.lnot 4095)).

Definition flash_erase (addr size : Z) : M flash_file Z :=
  flag <- gets f_flag ;;
  if flag =? 0 then ret (-1)
  else
    let addr := sector_down addr in
    let size := sector_down (u32 (size + 4095)) in
    mem_write "flash_erase" addr (replicate (Z.to_nat size) 255) ;;
    ret SPIFFS_OK.

(** * The file

    [os_read n] is what read(fd, p, 4096) returns at position [n] of the file,
    [os_write n] what write returns. *)

Section File.
Context (os_read os_write : Z -> Z).

(** One round of while ((br = read(...))). *)
Definition init_body (n : Z) : M flash_file (Z + Z) :=
  let br := os_read n in
  if br =? 0 then ret (inr 0)
  else if br <? 0 then ret (inr (-3))
  else
    img <- gets image ;;
    mem_write "flash_init" n (zsub img n br) ;;
    size <- gets f_size ;;
    let n := n + br in
    ret (if size <=? n then inr 0 else inl n).

(** [fd] is what open returns, [block] what malloc returns. *)
Definition flash_init (fd : Z) (block : option (list Z)) : M flash_file Z :=
  flag <- gets f_flag ;;
  if negb (flag =? 0) then ret 0
  else if fd =? -1 then ret (-1)
  else
    modify (set_flash_mem block) ;;
    match block with
    | None => ret (-2)
    | Some _ =>
        img <- gets image ;;
        r <- loop (Datatypes.S (Datatypes.S (length img))) init_body 0 ;;
        if r =? 0 then modify (set_flag 1) ;; ret 0 else ret r
    end.

(** The file after write has put [d] at position [n]. *)
Definition image_write (img : list Z) (n : Z) (d : list Z) : list Z :=
  take (Z.to_nat n) img ++ d ++ drop (Z.to_nat (n + zlen d)) img.

(** One round of while ((bw = write(...))). *)
Definition flush_body (site : string) (n : Z) : M flash_file (Z + unit) :=
  d <- mem_read site n 4096 ;;
  let bw := os_write n in
  if bw =? 0 then ret (inr tt)
  else if bw <? 0 then stop (Exit site)
  else
    img <- gets image ;;
    modify (set_image (image_write img n (zsub d 0 bw))) ;;
    size <- gets f_size ;;
    let n := n + bw in
    ret (if size <=? n then inr tt else inl n).

Definition flush_loop (site : string) : M flash_file unit :=
  size <- gets f_size ;;
  loop (Datatypes.S (Z.to_nat size)) (flush_body site) 0.

Definition flash_flush : M flash_file Z :=
  flag <- gets f_flag ;;
  if flag =? 0 then ret (-1)
  else flush_loop "flash_flush" ;; ret 0.

Definition flash_exit : M flash_file Z :=
  flag <- gets f_flag ;;
  if flag =? 0 then ret 0
  else
    flush_loop "flash_exit" ;;
    modify (set_flash_mem None) ;;
    modify (set_flag 0) ;;
    ret 0.
End File.

(** * The functions of the file system *)

Section Spiffs.
Context (log_page_size phys_erase_block : Z).

Definition FLASH_UNIT_SIZE : Z := 4.

(** x & -FLASH_UNIT_SIZE *)
Definition unit_down (x : Z) : Z := u32 (Z.land x (- FLASH_UNIT_SIZE)).

(** The result, and the bytes copied to [p] by a read. *)
Definition lowlevel_spiffs_readwrite (addr size : Z) (p : list Z) (write : bool)
    : M flash_file (Z * list Z) :=
  let site := "lowlevel_spiffs_readwrite"%string in
  if log_page_size <? size then ret (SPIFFS_ERR_NOT_CONFIGURED, [])
  else
    let tmp_size := log_page_size + FLASH_UNIT_SIZE * 2 in
    let aligned_addr := unit_down addr in
    let aligned_size := u32 (unit_down (u32 (size + (FLASH_UNIT_SIZE - 1))) + FLASH_UNIT_SIZE) in
    let* (res, d) := flash_read aligned_addr aligned_size in
    if negb (res =? 0) then ret (res, [])
    else
      tmp_buf <- access site (zblit (replicate (Z.to_nat tmp_size) 0) 0 d) ;;
      let off := u32 (addr - aligned_addr) in
      if negb write
      then
        d <- access site (if off + size <=? tmp_size then Some (zsub tmp_buf off size) else None) ;;
        ret (SPIFFS_OK, d)
      else
        src <- access site (if size <=? zlen p then Some (zsub p 0 size) else None) ;;
        tmp_buf <- access site (zblit tmp_buf off src) ;;
        res <- flash_write aligned_addr aligned_size tmp_buf ;;
        if negb (res =? 0) then ret (res, []) else ret (SPIFFS_OK, []).

Definition _spiffs_read (addr size : Z) : M flash_file (Z * list Z) :=
  lowlevel_spiffs_readwrite addr size [] false.

Definition _spiffs_write (addr size : Z) (src : list Z) : M flash_file Z :=
  let* (res, _) := lowlevel_spiffs_readwrite addr size src true in ret res.

Definition _spiffs_erase (addr size : Z) : M flash_file Z :=
  if negb (size =? phys_erase_block) || negb (addr mod phys_erase_block =? 0)
  then ret SPIFFS_ERR_NOT_CONFIGURED
  else flash_erase addr phys_erase_block.
End Spiffs.
