(* ===== verification/CmdMem.v ===== *)
(** apps/sample_fcmd/fcmd/cmd_mem.c: the commands that work on the flash.
    Where a command prints, the result holds what it prints. *)

From S2P Require Import Prelude.
From S2P Require Import CMonad.
From S2P Require Import Flash.

(** * The sector buffer

    malloc returns an address, and the buffer is the next multiple of four:
    (uint8_t * )((((uint32_t)pmem) + 3) & (~3)), so the address is cut to 32
    bits.  Where that is not inside the block, the first read faults. *)

Definition pmemalign (pmem : Z) : Z := Z.land (u32 (u32 pmem + 3)) 0xFFFFFFFC.

(** flash_read(addr, 4096, pmemalign), in a block of [size] bytes at [pmem]. *)
Definition read_sector (site : string) (pmem size addr : Z) : M flash_file (Z * list Z) :=
  let* (status, d) := flash_read addr 4096 in
  if negb (status =? 0) then ret (status, d)
  else if (pmem <=? pmemalign pmem) && (pmemalign pmem + 4096 <=? pmem + size) then ret (status, d)
  else stop (Fault site).

(** * sfmw: writing at any address *)

(** The variables of the loop; the sector buffer pmemalign is loaded in every
    round. *)
Record sfmw_locals : Type := mkSfmw {
  secpos : Z;
  secoff : Z;
  secremain : Z;
  pbuf : list Z;
  num : Z
}.

(** One round of while (1); the result is the status to return.  The
    free(pbuf) behind a failed read is left out. *)
Definition sfmw_body (block : Z) (l : sfmw_locals) : M flash_file (sfmw_locals + Z) :=
  let site := "sfmw"%string in
  let addr := u32 (secpos l * 4096) in
  let* (status, pmem) := read_sector site block (4096 + 8) addr in
  if negb (status =? 0) then ret (inr status)
  else
    status <- flash_erase addr 4096 ;;
    if negb (status =? 0) then ret (inr status)
    else
      user <- access site (if secremain l <=? zlen (pbuf l) then Some (zsub (pbuf l) 0 (secremain l))
                           else None) ;;
      pmem <- access site (zblit pmem (secoff l) user) ;;
      status <- flash_write addr 4096 pmem ;;
      if negb (status =? 0) then ret (inr status)
      else if num l =? secremain l then ret (inr 0)
      else
        let n := u32 (num l - secremain l) in
        ret (inl (mkSfmw (u32 (secpos l + 1)) 0 (u16 (if 4096 <? n then 4096 else n))
                    (drop (Z.to_nat (secremain l)) (pbuf l)) n)).

(** [pmem] is what malloc returns. *)
Definition sfmw (pmem : option Z) (writeaddr : Z) (pbuf : list Z) (num : Z) : M flash_file Z :=
  let secoff := u16 (writeaddr mod 4096) in
  let secremain := u16 (4096 - secoff) in
  let secremain := if num <=? secremain then u16 num else secremain in
  match pmem with
  | None => ret (-1)
  | Some pmem =>
      loop (Datatypes.S (Datatypes.S (Z.to_nat num))) (sfmw_body pmem)
        (mkSfmw (writeaddr / 4096) secoff secremain pbuf num)
  end.

(** * sfmc: erasing *)

Definition sfmc_body (erase_addr erase_mode num : Z) (i : Z) : M flash_file (Z + Z) :=
  if i <? num
  then
    status <- flash_erase (u32 (erase_addr + u32 (i * erase_mode))) erase_mode ;;
    ret (if negb (status =? 0) then inr status else inl (u32 (i + 1)))
  else ret (inr 0).

Definition sfmc (erase_addr erase_mode num : Z) : M flash_file Z :=
  if negb (erase_mode =? 4096) && negb (erase_mode =? 32768) && negb (erase_mode =? 65536)
  then ret (-1)
  else
    let erase_addr := Z.land erase_addr (u32 (Z.lnot (erase_mode - 1))) in
    loop (Datatypes.S (Z.to_nat num)) (sfmc_body erase_addr erase_mode num) 0.

(** * sfmu: which sectors are in use *)

(** What the command prints for the sectors, a constructor per PRINTF. *)
Inductive sfmu_print :=
| P_address (indicate_addr : Z)
| P_gap
| P_used
| P_idle.

(** The loop over the 1024 words of a sector: used = 1 on the first word that
    clears a bit. *)
Fixpoint sector_used (words : nat) (v : Z) (d : list Z) : bool :=
  match words, d with
  | Datatypes.S n, b0 :: b1 :: b2 :: b3 :: d =>
      let lp := Z.lor (Z.lor b0 (Z.shiftl b1 8)) (Z.lor (Z.shiftl b2 16) (Z.shiftl b3 24)) in
      let v := Z.land v lp in
      if negb (v =? 0xFFFFFFFF) then true else sector_used n v d
  | _, _ => false
  end.

Record sfmu_locals : Type := mkSfmu {
  j : Z;
  u_secpos : Z;
  indicate_addr : Z;
  printed : list sfmu_print
}.

Definition sfmu_body (block sectors : Z) (l : sfmu_locals)
    : M flash_file (sfmu_locals + Z * list sfmu_print) :=
  if j l <? sectors
  then
    let '(ind, line) :=
      if j l =? 0 then (indicate_addr l, [P_address (indicate_addr l)])
      else if (j l / 8 mod 2 =? 1) && (j l mod 8 =? 0) then (indicate_addr l, [P_gap])
      else if j l mod 16 =? 0
      then let a := u32 (indicate_addr l + 4096 * 16) in (a, [P_address a])
      else (indicate_addr l, []) in
    let* (status, d) := read_sector "sfmu" block (4096 + 16) (u32 (u_secpos l * 4096)) in
    if negb (status =? 0) then ret (inr (status, printed l ++ line))
    else
      let mark := if sector_used 1024 0xFFFFFFFF d then P_used else P_idle in
      ret (inl (mkSfmu (j l + 1) (u32 (u_secpos l + 1)) ind (printed l ++ line ++ [mark])))
  else ret (inr (0, printed l)).

(** [sectors] is compared with the int j as unsigned, so it is below 2^31. *)
Definition sfmu (pmem : option Z) (start_addr sectors : Z) : M flash_file (Z * list sfmu_print) :=
  match pmem with
  | None => ret (-1, [])
  | Some pmem =>
      let start_addr := sector_down start_addr in
      loop (Datatypes.S (Z.to_nat sectors)) (sfmu_body pmem sectors)
        (mkSfmu 0 (start_addr / 4096) start_addr [])
  end.
