(* ===== verification/FlashFacts.v ===== *)
(** The flash device as an array: what its operations do to the bytes, for a
    device that is ready.

    The second part is about the commands sfmw, sfmc and sfmu. *)

From S2P Require Import Prelude.
From S2P Require Import CMonad.
From S2P Require Import Flash.
From S2P Require Import CmdMem.

(** * Overwriting a part of an array *)

Definition over {A} (l : list A) (i : Z) (d : list A) : list A :=
  take (Z.to_nat i) l ++ d ++ drop (Z.to_nat (i + zlen d)) l.

Section Over.
Context {A : Type}.
Implicit Types (l d e : list A) (i j n k : Z).

Lemma zblit_over l i d : 0 <= i -> i + zlen d <= zlen l -> zblit l i d = Some (over l i d).
Proof. apply zblit_is_Some. Qed.

Lemma zlen_over l i d : 0 <= i -> i + zlen d <= zlen l -> zlen (over l i d) = zlen l.
Proof. intros H1 H2. exact (zblit_zlen _ _ _ _ (zblit_over l i d H1 H2)). Qed.

Lemma zget_over l i d k :
  0 <= i -> i + zlen d <= zlen l -> 0 <= k ->
  zget (over l i d) k = if (i <=? k) && (k <? i + zlen d) then zget d (k - i) else zget l k.
Proof. intros H1 H2. exact (zget_zblit _ _ _ _ k (zblit_over l i d H1 H2)). Qed.
End Over.

(** Equality of arrays, element by element: [arr] computes lengths, reduces an
    access to one of the given arrays and compares the positions. *)
Ltac arr_len :=
  repeat first
    [ rewrite zlen_zsub by (try arr_len; lia)
    | rewrite zlen_over by (try arr_len; lia)
    | progress autorewrite with zlen ].
Ltac arr_get :=
  repeat first
    [ rewrite zget_zsub by lia
    | rewrite zget_over by (try arr_len; lia)
    | progress arr_len ].
Ltac arr_cases :=
  repeat match goal with
  | |- context [?a <=? ?b] => destruct (Z.leb_spec a b); cbn [andb]; try lia
  | |- context [?a <? ?b] => destruct (Z.ltb_spec a b); cbn [andb]; try lia
  end.
Ltac arr :=
  apply zget_ext; [arr_len; lia|]; intros k; arr_len; intros Hk;
  repeat (progress (arr_get; arr_cases)); try (f_equal; lia).

Section OverFacts.
Context {A : Type}.
Implicit Types (l d e : list A) (i j n k : Z).

Lemma over_nil l i : 0 <= i <= zlen l -> over l i [] = l.
Proof. intros H. pose proof (zblit_nil l i H) as E. rewrite zblit_over in E by (arr_len; lia). congruence. Qed.

(** Two consecutive parts. *)
Lemma over_app l i d e :
  0 <= i -> i + zlen d + zlen e <= zlen l ->
  over (over l i d) (i + zlen d) e = over l i (d ++ e).
Proof.
  intros Hi Hl. pose proof (zlen_nonneg d). pose proof (zlen_nonneg e). arr.
  - rewrite zget_app_r by lia. f_equal. lia.
  - by rewrite zget_app_l by lia.
Qed.

(** The same part twice: the second stays. *)
Lemma over_over l i d e :
  0 <= i -> zlen d = zlen e -> i + zlen e <= zlen l -> over (over l i d) i e = over l i e.
Proof. intros Hi Hd Hl. pose proof (zlen_nonneg e). arr. Qed.

(** Writing back a slice of which a part has been overwritten. *)
Lemma over_slice l i n j e :
  0 <= i -> 0 <= j -> i + n <= zlen l -> j + zlen e <= n ->
  over l i (over (zsub l i n) j e) = over l (i + j) e.
Proof. intros Hi Hj Hl He. pose proof (zlen_nonneg e). arr. Qed.

Lemma zsub_over l i d :
  0 <= i -> i + zlen d <= zlen l -> zsub (over l i d) i (zlen d) = d.
Proof. intros Hi Hl. pose proof (zlen_nonneg d). arr. Qed.

Lemma zsub_zsub l i n j k :
  0 <= i -> 0 <= j -> 0 <= k -> j + k <= n -> i + n <= zlen l ->
  zsub (zsub l i n) j k = zsub l (i + j) k.
Proof.
  intros. apply zget_ext; [arr_len; lia|]. intros x. arr_len. intros Hx. arr_get. f_equal. lia.
Qed.
End OverFacts.

(** * Writing zeros only *)

Lemma land_255_id x : is_u8 x -> Z.land 255 x = x.
Proof.
  unfold is_u8. intros H. rewrite Z.land_comm. change 255 with (Z.ones 8).
  rewrite Z.land_ones by lia. apply Z.mod_small. lia.
Qed.

Lemma zip_land_255 d : Forall is_u8 d -> zip_with Z.land (replicate (length d) 255) d = d.
Proof. induction 1 as [|x d Hx _ IH]; cbn; [done|]. by rewrite land_255_id, IH. Qed.

Lemma zlen_zip_land p d : zlen p = zlen d -> zlen (zip_with Z.land p d) = zlen d.
Proof. unfold zlen. intros H. rewrite length_zip_with. lia. Qed.

Lemma zget_zip_land p d k x y :
  zget p k = Some x -> zget d k = Some y -> zget (zip_with Z.land p d) k = Some (Z.land x y).
Proof.
  unfold zget. destruct (0 <=? k); [|done]. intros Hx Hy.
  by rewrite lookup_zip_with, Hx, Hy.
Qed.

(** Bytes that are written over themselves stay. *)
Lemma zip_land_over d i e :
  0 <= i -> i + zlen e <= zlen d ->
  zip_with Z.land d (over d i e) = over d i (zip_with Z.land (zsub d i (zlen e)) e).
Proof.
  intros Hi Hl. pose proof (zlen_nonneg e).
  assert (zlen (zip_with Z.land (zsub d i (zlen e)) e) = zlen e) as Hz.
  { apply zlen_zip_land. arr_len. lia. }
  assert (zlen (zip_with Z.land d (over d i e)) = zlen d) as Hz2.
  { rewrite zlen_zip_land; arr_len; lia. }
  apply zget_ext; [rewrite zlen_over by lia; lia|]. rewrite Hz2. intros k Hk.
  destruct (zget_is_Some d k Hk) as [x Hx].
  rewrite zget_over, Hz by lia. destruct ((i <=? k) && (k <? i + zlen e)) eqn:Hin.
  - apply andb_true_iff in Hin as [Hk1%Z.leb_le Hk2%Z.ltb_lt].
    destruct (zget_is_Some e (k - i) ltac:(lia)) as [y Hy].
    rewrite (zget_zip_land _ _ _ x y), (zget_zip_land _ _ _ x y); try done.
    + rewrite zget_zsub by lia. rewrite <- Hx. f_equal. lia.
    + rewrite zget_over by lia. rewrite (proj2 (Z.leb_le _ _)), (proj2 (Z.ltb_lt _ _)) by lia.
      exact Hy.
  - rewrite (zget_zip_land _ _ _ x x), Z.land_diag; [done | done|].
    rewrite zget_over, Hin by lia. exact Hx.
Qed.

(** * The operations of a ready device *)

(** The device is initialised and its memory is [m]. *)
Record flash_ready (s : flash_file) (m : list Z) : Prop := {
  fr_flag : f_flag s <> 0;
  fr_mem : flash_mem s = Some m;
  fr_size : f_size s = zlen m
}.

(** [s] after its memory has become [m]. *)
Abbreviation stored m s := (set_flash_mem (Some m) s).

Lemma stored_ready s m m' : flash_ready s m -> zlen m' = zlen m -> flash_ready (stored m' s) m'.
Proof. intros [H1 H2 H3] H. split; cbn; congruence. Qed.

Section Device.
Context (E : failure -> Prop).

Lemma wpg_mem site (Q : list Z -> flash_file -> Prop) s m :
  flash_mem s = Some m -> Q m s -> wpg E (mem site) Q s.
Proof. intros Hm HQ. unfold mem. wp_steps. rewrite Hm. by wp_step. Qed.

Lemma wpg_mem_read site addr n (Q : list Z -> flash_file -> Prop) s m :
  flash_mem s = Some m -> 0 <= addr -> 0 <= n -> addr + n <= zlen m ->
  Q (zsub m addr n) s -> wpg E (mem_read site addr n) Q s.
Proof.
  intros Hm Ha Hn Hl HQ. unfold mem_read. wp_step. apply (wpg_mem _ _ _ m); [done|].
  rewrite !(proj2 (Z.leb_le _ _)) by lia. by apply (wpg_access_Some _ _ _ _ _ _ eq_refl).
Qed.

Lemma wpg_mem_write site addr d (Q : unit -> flash_file -> Prop) s m :
  flash_mem s = Some m -> 0 <= addr -> addr + zlen d <= zlen m ->
  Q tt (stored (over m addr d) s) -> wpg E (mem_write site addr d) Q s.
Proof.
  intros Hm Ha Hl HQ. unfold mem_write. wp_step. apply (wpg_mem _ _ _ m); [done|].
  rewrite zblit_over by done. by wp_steps.
Qed.

Lemma wpg_flash_read addr size (Q : Z * list Z -> flash_file -> Prop) s m :
  flash_ready s m -> 0 <= addr -> 0 <= size -> addr + size <= zlen m ->
  Q (0, zsub m addr size) s -> wpg E (flash_read addr size) Q s.
Proof.
  intros Hs Ha Hn Hl HQ. unfold flash_read. wp_steps.
  rewrite (proj2 (Z.eqb_neq _ _) (fr_flag _ _ Hs)). wp_step.
  apply (wpg_mem_read _ _ _ _ _ m); [apply Hs | done..|]. by wp_step.
Qed.

Lemma wpg_flash_write addr size src (Q : Z -> flash_file -> Prop) s m :
  flash_ready s m -> 0 <= addr -> 0 <= size -> addr + size <= zlen m -> size <= zlen src ->
  Q 0 (stored (over m addr (zip_with Z.land (zsub m addr size) (zsub src 0 size))) s) ->
  wpg E (flash_write addr size src) Q s.
Proof.
  intros Hs Ha Hn Hl Hsrc HQ. unfold flash_write. wp_steps.
  rewrite (proj2 (Z.eqb_neq _ _) (fr_flag _ _ Hs)). wp_step.
  apply (wpg_mem_read _ _ _ _ _ m); [apply Hs | done..|].
  rewrite (proj2 (Z.leb_le _ _)) by lia. wp_steps.
  apply (wpg_mem_write _ _ _ _ _ m); [apply Hs | done | rewrite zlen_zip_land; arr_len; lia|].
  by wp_step.
Qed.

(** A sector-aligned erase. *)
Lemma wpg_flash_erase addr size (Q : Z -> flash_file -> Prop) s m :
  flash_ready s m -> sector_down addr = addr -> sector_down (u32 (size + 4095)) = size ->
  0 <= addr -> 0 <= size -> addr + size <= zlen m ->
  Q 0 (stored (over m addr (replicate (Z.to_nat size) 255)) s) ->
  wpg E (flash_erase addr size) Q s.
Proof.
  intros Hs Ha1 Hn1 Ha Hn Hl HQ. unfold flash_erase. wp_steps.
  rewrite (proj2 (Z.eqb_neq _ _) (fr_flag _ _ Hs)), Ha1, Hn1. wp_step.
  apply (wpg_mem_write _ _ _ _ _ m); [apply Hs | done | arr_len; lia|]. by wp_step.
Qed.
End Device.

(** Without a device every operation is refused and changes nothing. *)
Lemma flash_refused s addr size src :
  f_flag s = 0 ->
  flash_read addr size s = Ok ((-1, []), s) /\ flash_write addr size src s = Ok (-1, s) /\
  flash_erase addr size s = Ok (-1, s).
Proof.
  intros H. unfold flash_read, flash_write, flash_erase, bind, gets. by rewrite H.
Qed.

(** Clearing the low bits rounds down. *)
Lemma land_round_down x k : 0 <= k -> Z.land x (Z.lnot (Z.ones k)) = x - x mod 2 ^ k.
Proof.
  intros Hk. rewrite <- Z.ldiff_land, Z.ldiff_ones_r by lia.
  rewrite Z.shiftr_div_pow2, Z.shiftl_mul_pow2 by lia.
  pose proof (Z.div_mod x (2 ^ k)). pose proof (Z.pow_pos_nonneg 2 k). lia.
Qed.

Lemma u32_round_down x k : is_u32 x -> 0 < k -> u32 (x - x mod k) = x - x mod k.
Proof.
  unfold is_u32. intros H Hk. apply u32_small. unfold is_u32.
  pose proof (Z.mod_pos_bound x k). pose proof (Z.mod_le x k). lia.
Qed.

Lemma sector_down_spec x : is_u32 x -> sector_down x = x - x mod 4096.
Proof.
  intros H. unfold sector_down. change 4095 with (Z.ones 12).
  rewrite land_round_down by lia. by apply u32_round_down.
Qed.

Lemma unit_down_spec x : is_u32 x -> unit_down x = x - x mod 4.
Proof.
  intros H. unfold unit_down. change (- FLASH_UNIT_SIZE) with (Z.lnot (Z.ones 2)).
  rewrite land_round_down by lia. by apply u32_round_down.
Qed.

Lemma sector_down_aligned k : is_u32 (k * 4096) -> sector_down (k * 4096) = k * 4096.
Proof. intros H. rewrite sector_down_spec by done. rewrite Z.mod_mul by lia. lia. Qed.

Lemma sector_up_aligned k :
  0 <= k < 1048576 -> sector_down (u32 (k * 4096 + 4095)) = k * 4096.
Proof.
  intros H. rewrite u32_small by (unfold is_u32; lia).
  rewrite sector_down_spec by (unfold is_u32; lia).
  rewrite Z.add_comm, Z.mod_add by lia. change (4095 mod 4096) with 4095. lia.
Qed.

(** Erasing a sector and writing it puts [d] there. *)
Lemma over_erased m a d :
  Forall is_u8 d -> 0 <= a -> a + zlen d <= zlen m ->
  let erased := over m a (replicate (length d) 255) in
  over erased a (zip_with Z.land (zsub erased a (zlen d)) d) = over m a d.
Proof.
  intros Hd Ha Hl erased.
  assert (zlen (replicate (length d) 255) = zlen d) as Hr by by rewrite zlen_replicate.
  assert (zsub erased a (zlen d) = replicate (length d) 255) as ->.
  { rewrite <- Hr. unfold erased. apply zsub_over; lia. }
  rewrite zip_land_255 by done. apply over_over; lia.
Qed.

(** * The alignment layer of the file system *)

(** lowlevel_spiffs_readwrite transfers the aligned words that contain the
    range, and one more: the device must go on that far behind the range. *)
Definition window (addr size : Z) : Z * Z :=
  (addr - addr mod 4, size + 3 - (size + 3) mod 4 + 4).

Lemma window_spec log_page_size addr size :
  is_u32 addr -> 0 <= size <= log_page_size -> log_page_size < 65536 ->
  let '(a, n) := window addr size in
  unit_down addr = a /\ u32 (unit_down (u32 (size + (FLASH_UNIT_SIZE - 1))) + FLASH_UNIT_SIZE) = n /\
  u32 (addr - a) = addr mod 4 /\ 0 <= a /\ 0 <= addr mod 4 < 4 /\
  addr mod 4 + size <= n <= log_page_size + 8.
Proof.
  unfold is_u32. intros Ha Hs Hp. cbn [window].
  pose proof (Z.mod_pos_bound addr 4). pose proof (Z.mod_pos_bound (size + 3) 4).
  pose proof (Z.mod_le addr 4). change (size + (FLASH_UNIT_SIZE - 1)) with (size + 3).
  rewrite (u32_small (size + 3)) by (unfold is_u32; lia).
  rewrite !unit_down_spec by (unfold is_u32; lia). unfold FLASH_UNIT_SIZE.
  rewrite !u32_small by (unfold is_u32; lia). lia.
Qed.

Section Layer.
Context (E : failure -> Prop) (log_page_size : Z).
Context (s : flash_file) (m : list Z) (addr size : Z).
Context (Hs : flash_ready s m) (Ha : is_u32 addr) (Hn : 0 <= size <= log_page_size).
Context (Hp : log_page_size < 65536).
Context (Hw : let '(a, n) := window addr size in a + n <= zlen m).

Lemma wpg_spiffs_read (Q : Z * list Z -> flash_file -> Prop) :
  Q (0, zsub m addr size) s -> wpg E (_spiffs_read log_page_size addr size) Q s.
Proof.
  intros HQ. pose proof (window_spec log_page_size addr size Ha Hn Hp) as Hwin.
  destruct (window addr size) as [a n] eqn:Hwd.
  destruct Hwin as (Ha' & Hn' & Hoff & Ha0 & Hm4 & Hin).
  unfold _spiffs_read, lowlevel_spiffs_readwrite.
  rewrite (proj2 (Z.ltb_ge _ _)), Ha', Hn', Hoff by lia.
  unfold FLASH_UNIT_SIZE in *. wp_steps.
  apply (wpg_flash_read _ _ _ _ _ m); [done | lia | lia | lia|].
  cbn [negb Z.eqb]. wp_step. rewrite zblit_over by (arr_len; lia). wp_steps.
  rewrite (proj2 (Z.leb_le _ _)) by lia. wp_steps.
  replace (zsub (over _ 0 (zsub m a n)) (addr mod 4) size) with (zsub m addr size); [done|].
  replace a with (addr - addr mod 4) in * by (injection Hwd; lia). arr.
Qed.

Lemma wpg_spiffs_write src (Q : Z -> flash_file -> Prop) :
  size <= zlen src ->
  Q 0 (stored (over m addr (zip_with Z.land (zsub m addr size) (zsub src 0 size))) s) ->
  wpg E (_spiffs_write log_page_size addr size src) Q s.
Proof.
  intros Hsrc HQ. pose proof (window_spec log_page_size addr size Ha Hn Hp) as Hwin.
  destruct (window addr size) as [a n] eqn:Hwd.
  destruct Hwin as (Ha' & Hn' & Hoff & Ha0 & Hm4 & Hin).
  unfold _spiffs_write, lowlevel_spiffs_readwrite.
  rewrite (proj2 (Z.ltb_ge _ _)), Ha', Hn', Hoff by lia.
  unfold FLASH_UNIT_SIZE in *. wp_steps.
  apply (wpg_flash_read _ _ _ _ _ m); [done | lia | lia | lia|].
  cbn [negb Z.eqb]. wp_step. rewrite zblit_over by (arr_len; lia). wp_steps.
  rewrite (proj2 (Z.leb_le _ _)) by lia. wp_steps.
  rewrite zblit_over by (arr_len; lia). wp_steps.
  apply (wpg_flash_write _ _ _ _ _ _ m); [done | lia | lia | lia | arr_len; lia|].
  cbn [negb Z.eqb]. wp_steps.
  assert (addr = a + addr mod 4) as Haddr by (injection Hwd; lia).
  match goal with |- Q _ (stored (over m a (zip_with _ _ ?t)) s) =>
    replace t with (over (zsub m a n) (addr mod 4) (zsub src 0 size)) by arr end.
  rewrite zip_land_over by (arr_len; lia). replace (zlen (zsub src 0 size)) with size by (arr_len; lia).
  rewrite zsub_zsub, <- Haddr by lia.
  rewrite over_slice, <- Haddr; [done | lia | lia | lia|].
  rewrite zlen_zip_land; arr_len; lia.
Qed.
End Layer.

(** The layer reads one word too far: a range at the end of the device is read
    past its end. *)
Lemma spiffs_window_fault log_page_size s m addr size src write :
  flash_ready s m -> is_u32 addr -> 0 <= size <= log_page_size -> log_page_size < 65536 ->
  (let '(a, n) := window addr size in zlen m < a + n) ->
  lowlevel_spiffs_readwrite log_page_size addr size src write s = Stop (Fault "flash_read").
Proof.
  intros Hs Ha Hn Hp Hw. pose proof (window_spec log_page_size addr size Ha Hn Hp) as Hwin.
  destruct (window addr size) as [a n]. destruct Hwin as (Ha' & Hn' & _ & Ha0 & Hm4 & Hin).
  unfold lowlevel_spiffs_readwrite. rewrite (proj2 (Z.ltb_ge _ _)), Ha', Hn' by lia.
  unfold flash_read, mem_read, mem, bind, gets. rewrite (proj2 (Z.eqb_neq _ _) (fr_flag _ _ Hs)).
  rewrite (fr_mem _ _ Hs). cbn [access]. unfold ret.
  rewrite (proj2 (Z.leb_gt _ (zlen m))) by lia. by rewrite andb_false_r.
Qed.

(** * The file *)

(** read returns between 1 and 4096 bytes of what is left of the file, and 0
    at its end. *)
Definition file_reads (os_read : Z -> Z) (img : list Z) : Prop :=
  forall n, 0 <= n ->
    if n <? zlen img then 0 < os_read n <= Z.min 4096 (zlen img - n) else os_read n = 0.

Lemma over_image_write img n d e :
  0 <= n -> zlen d = n -> image_write (d ++ drop (Z.to_nat n) img) n e =
  (d ++ e) ++ drop (Z.to_nat (n + zlen e)) img.
Proof.
  intros Hn Hd. unfold image_write. pose proof (zlen_nonneg e).
  assert (length d = Z.to_nat n) as Hd' by (unfold zlen in *; lia).
  rewrite take_app_length' by done. rewrite <- app_assoc. do 2 f_equal.
  replace (Z.to_nat (n + zlen e)) with (length d + Z.to_nat (zlen e))%nat by lia.
  rewrite drop_app_add. rewrite drop_drop. f_equal. lia.
Qed.

Section File.
Context (E : failure -> Prop) (os_read os_write : Z -> Z).

(** Full writes put the memory at the start of the file. *)
Lemma wpg_flush_loop site s m (Q : unit -> flash_file -> Prop) :
  flash_ready s m -> 0 < zlen m -> zlen m mod 4096 = 0 -> (forall n, os_write n = 4096) ->
  Q tt (set_image (m ++ drop (length m) (image s)) s) ->
  wpg E (flush_loop os_write site) Q s.
Proof.
  intros Hs Hpos Hmod Hwr HQ. unfold flush_loop. wp_steps.
  pose (I := fun n s' => 0 <= n < zlen m /\ n mod 4096 = 0 /\
    s' = set_image (zsub m 0 n ++ drop (Z.to_nat n) (image s)) s).
  apply (wpg_loop E _ I (fun n _ => Z.to_nat (zlen m - n))).
  - intros n s' (Hn & Hnmod & ->). unfold flush_body. wp_step.
    pose proof (Z.div_mod n 4096 ltac:(lia)). pose proof (Z.div_mod (zlen m) 4096 ltac:(lia)).
    apply (wpg_mem_read _ _ _ _ _ _ m); [apply Hs | lia | lia | lia|].
    rewrite Hwr. cbn [Z.eqb Z.ltb Z.compare]. wp_steps. cbn [image set_image f_size].
    rewrite zsub_zsub, Z.add_0_r, over_image_write by (arr_len; lia).
    rewrite (zlen_zsub m n) by lia. 
    rewrite <- (zsub_split m 0 n 4096 ltac:(lia) ltac:(lia) ltac:(lia) : _ = _ ++ zsub m n 4096).
    rewrite (fr_size _ _ Hs). destruct (Z.leb_spec (zlen m) (n + 4096)).
    + replace (n + 4096) with (zlen m) by lia. rewrite zsub_all.
      unfold zlen at 1. rewrite Nat2Z.id. exact HQ.
    + split; [|lia]. split; [lia|]. split; [|done].
      rewrite <- (Z.add_mod_idemp_l n) by lia. by rewrite Hnmod.
  - split; [lia|]. split; [done|]. rewrite zsub_0. by destruct s.
  - rewrite (fr_size _ _ Hs). lia.
Qed.

(** flash_init loads the file over the block. *)
Lemma wpg_flash_init fd block s (Q : Z -> flash_file -> Prop) :
  f_flag s = 0 -> fd <> -1 -> zlen block = f_size s -> zlen (image s) <= f_size s ->
  file_reads os_read (image s) ->
  (let s' := set_flag 1 (stored (over block 0 (image s)) s) in
   flash_ready s' (over block 0 (image s)) -> Q 0 s') ->
  wpg E (flash_init os_read fd (Some block)) Q s.
Proof.
  intros Hf Hfd Hb Hi Hr HQ. unfold flash_init. wp_steps. rewrite Hf. cbn [negb Z.eqb].
  rewrite (proj2 (Z.eqb_neq _ _) Hfd). wp_steps. cbn [image set_flash_mem].
  set (img := image s) in *.
  pose (I := fun n s' => 0 <= n <= zlen img /\ s' = stored (over block 0 (zsub img 0 n)) s).
  pose proof (zlen_nonneg img). apply (wpg_loop E _ I (fun n _ => Z.to_nat (zlen img - n))).
  - intros n s' (Hn & ->). unfold init_body. specialize (Hr n ltac:(lia)).
    assert (forall r, n = zlen img -> r = 0 ->
      wpg E (if r =? 0 then modify (set_flag 1) ;; ret 0 else ret r) Q
        (stored (over block 0 (zsub img 0 n)) s)) as Hend.
    { intros r -> ->. cbn [Z.eqb]. wp_steps. rewrite zsub_all. apply HQ.
      split; cbn; [done | done|]. rewrite zlen_over by lia. done. }
    destruct (Z.ltb_spec n (zlen img)).
    + rewrite (proj2 (Z.eqb_neq _ _)), (proj2 (Z.ltb_ge _ _)) by lia. wp_steps.
      cbn [image set_flash_mem]. fold img. apply (wpg_mem_write _ _ _ _ _ _ (over block 0 (zsub img 0 n)));
        [done | lia | arr_len; lia|].
      wp_steps. cbn [f_size set_flash_mem].
      assert (over (over block 0 (zsub img 0 n)) n (zsub img n (os_read n)) =
        over block 0 (zsub img 0 (n + os_read n))) as ->.
      { rewrite (zsub_split img 0 n) by lia. rewrite <- over_app by (arr_len; lia).
        f_equal. arr_len. lia. }
      destruct (Z.leb_spec (f_size s) (n + os_read n)).
      * cbn [Z.eqb]. wp_steps. replace (n + os_read n) with (zlen img) by lia. rewrite zsub_all.
        apply HQ. split; cbn; [done | done|]. rewrite zlen_over by lia. done.
      * split; [|lia]. split; [lia | done].
    + rewrite Hr. cbn [Z.eqb]. wp_steps. apply Hend; [lia | done].
  - split; [lia|]. rewrite zsub_0, over_nil by lia. done.
  - unfold zlen. lia.
Qed.
End File.

(** The flash commands as operations on the bytes of the device. *)

Lemma Forall_over (P : Z -> Prop) l i d : Forall P l -> Forall P d -> Forall P (over l i d).
Proof.
  intros Hl Hd. unfold over. rewrite !Forall_app. repeat split; [|done|].
  - by apply Forall_take.
  - by apply Forall_drop.
Qed.

Lemma Forall_zsub (P : Z -> Prop) l i n : Forall P l -> Forall P (zsub l i n).
Proof. intros Hl. unfold zsub. by apply Forall_take, Forall_drop. Qed.

Lemma zsub_drop {A} (l : list A) k n : 0 <= k -> zsub (drop (Z.to_nat k) l) 0 n = zsub l k n.
Proof. intros Hk. unfold zsub. by rewrite drop_0. Qed.

Lemma zlen_drop {A} (l : list A) k : 0 <= k <= zlen l -> zlen (drop (Z.to_nat k) l) = zlen l - k.
Proof. intros Hk. unfold zlen in *. rewrite length_drop. lia. Qed.

(** * The sector buffer *)

Lemma round_down_mask a k : is_u32 a -> 0 <= k -> Z.land a (u32 (Z.lnot (2 ^ k - 1))) = a - a mod 2 ^ k.
Proof.
  intros Ha Hk. rewrite <- land_round_down by done. rewrite Z.sub_1_r, <- Z.ones_equiv.
  unfold u32. change 4294967296 with (2 ^ 32). rewrite <- (Z.land_ones (Z.lnot _)) by lia.
  rewrite Z.land_assoc, <- (Z.land_comm (Z.ones 32)), Z.land_assoc.
  rewrite (Z.land_comm (Z.ones 32) a), Z.land_ones by lia. rewrite Z.mod_small; [done|]. apply Ha.
Qed.

Lemma pmemalign_spec pmem : pmemalign pmem = u32 (u32 pmem + 3) - u32 (u32 pmem + 3) mod 4.
Proof. apply (round_down_mask _ 2); [by apply Z.mod_pos_bound | lia]. Qed.

Lemma pmemalign_low pmem : 0 <= pmem <= 4294967292 -> pmem <= pmemalign pmem <= pmem + 3.
Proof.
  intros H. rewrite pmemalign_spec, (u32_small pmem), u32_small by (unfold is_u32; lia).
  pose proof (Z.mod_pos_bound (pmem + 3) 4 ltac:(lia)). lia.
Qed.

Lemma pmemalign_high pmem : 4294967292 < pmem -> pmemalign pmem < pmem.
Proof.
  intros H. rewrite pmemalign_spec. set (x := u32 (u32 pmem + 3)).
  pose proof (Z.mod_pos_bound x 4 ltac:(lia)). assert (0 <= x < 4294967296) as Hx by by apply Z.mod_pos_bound.
  destruct (Z.ltb_spec pmem 4294967296); [|lia]. unfold x in *. rewrite (u32_small pmem) in * by (unfold is_u32; lia).
  unfold u32 in *. replace ((pmem + 3) mod 4294967296) with (pmem + 3 - 4294967296) in *; [lia|].
  apply (Z.mod_unique_pos _ _ 1); lia.
Qed.

Lemma wpg_read_sector E site pmem size addr s m (Q : Z * list Z -> flash_file -> Prop) :
  flash_ready s m -> 0 <= addr -> addr + 4096 <= zlen m -> 0 <= pmem <= 4294967292 -> 4100 <= size ->
  Q (0, zsub m addr 4096) s -> wpg E (read_sector site pmem size addr) Q s.
Proof.
  intros Hs Ha Hl Hp Hz HQ. pose proof (pmemalign_low pmem Hp). unfold read_sector. wp_step.
  apply (wpg_flash_read _ _ _ _ _ m); [done | lia..|]. cbn [negb Z.eqb].
  rewrite !(proj2 (Z.leb_le _ _)) by lia. cbn [andb]. by wp_step.
Qed.

Lemma read_sector_wild site pmem size addr s m :
  flash_ready s m -> 0 <= addr -> addr + 4096 <= zlen m -> 4294967292 < pmem ->
  read_sector site pmem size addr s = Stop (Fault site).
Proof.
  intros Hs Ha Hl Hp. pose proof (pmemalign_high pmem Hp).
  destruct (wp_run (flash_read addr 4096) (fun r s' => r = (0, zsub m addr 4096) /\ s' = s) s) as (r & s' & Hr & -> & ->).
  { by apply (wpg_flash_read _ _ _ _ _ m). }
  unfold read_sector, bind. rewrite Hr. cbn [negb Z.eqb]. by rewrite (proj2 (Z.leb_gt _ _)) by lia.
Qed.

(** * sfmw *)

Section Write.
Context (block : Z) (Hblock : 0 <= block <= 4294967292).
Context (E : failure -> Prop) (s : flash_file) (m : list Z) (addr n : Z) (data : list Z).
Context (Hs : flash_ready s m) (Hm : Forall is_u8 m) (Hsec : zlen m mod 4096 = 0).
Context (Hsize : zlen m < 2147483648) (Hd : Forall is_u8 data).
Context (Ha : 0 <= addr < zlen m) (Hn : 0 <= n) (Hend : addr + n <= zlen m) (Hlen : n <= zlen data).

(** What the loop has still to write. *)
Definition sfmw_inv (l : sfmw_locals) (s' : flash_file) : Prop :=
  exists m', let pos := secpos l * 4096 + secoff l in
    s' = stored m' s /\ zlen m' = zlen m /\ Forall is_u8 m' /\
    over m' pos (zsub (pbuf l) 0 (num l)) = over m addr (zsub data 0 n) /\
    0 <= secpos l /\ 0 <= secoff l < 4096 /\ secremain l = Z.min (num l) (4096 - secoff l) /\
    0 <= num l /\ pos < zlen m /\ pos + num l <= zlen m /\
    num l <= zlen (pbuf l) /\ Forall is_u8 (pbuf l).

Lemma wpg_sfmw_round l s' (Q : Z -> flash_file -> Prop) :
  sfmw_inv l s' -> Q 0 (stored (over m addr (zsub data 0 n)) s) ->
  wpg E (sfmw_body block l) (fun r s'' =>
    match r with
    | inl l' => sfmw_inv l' s'' /\ (Z.to_nat (num l') < Z.to_nat (num l))%nat
    | inr r => Q r s''
    end) s'.
Proof.
  intros (m' & -> & Hl' & Hm' & Hgoal & Hp & Ho & Hr & Hn' & Hpos & Hfit & Hbuf & Hu8) HQ.
  destruct l as [p o r b k]. cbn [secpos secoff secremain pbuf num] in *.
  assert (p * 4096 + 4096 <= zlen m) as Hin.
  { pose proof (Z.div_mod (zlen m) 4096 ltac:(lia)). lia. }
  assert (flash_ready (stored m' s) m') as Hs' by by apply (stored_ready s m).
  unfold sfmw_body. cbn [secpos secoff secremain pbuf num].
  rewrite (u32_small (p * 4096)) by (unfold is_u32; lia).
  wp_step. apply (wpg_read_sector _ _ _ _ _ _ m'); [done | lia | lia | done | lia|].
  cbn [negb Z.eqb]. wp_step.
  apply (wpg_flash_erase _ _ _ _ _ m');
    [done | apply sector_down_aligned; unfold is_u32; lia | apply (sector_up_aligned 1); lia
    | lia | lia | lia|].
  cbn [negb Z.eqb]. set (er := over m' (p * 4096) (replicate (Z.to_nat 4096) 255)).
  assert (zlen er = zlen m) as Her by (unfold er; arr_len; lia).
  rewrite (proj2 (Z.leb_le _ _)) by lia. wp_steps.
  rewrite zblit_over by (arr_len; lia). wp_steps.
  apply (wpg_flash_write _ _ _ _ _ _ er);
    [apply (stored_ready _ m'); [done | lia] | lia | lia | lia | arr_len; lia|].
  cbn [negb Z.eqb].
  set (sec := over (zsub m' (p * 4096) 4096) o (zsub b 0 r)).
  assert (zlen sec = 4096) as Hsl by (unfold sec; arr_len; lia).
  assert (over er (p * 4096) (zip_with Z.land (zsub er (p * 4096) 4096) (zsub sec 0 4096)) =
    over m' (p * 4096 + o) (zsub b 0 r)) as ->.
  { assert (zsub sec 0 4096 = sec) as -> by (rewrite <- Hsl; apply zsub_all).
    assert (Z.to_nat 4096 = length sec) as Hnat by (unfold zlen in Hsl; lia).
    assert (Forall is_u8 sec) as Hsu by (apply Forall_over; by apply Forall_zsub).
    pose proof (over_erased m' (p * 4096) sec Hsu ltac:(lia) ltac:(lia)) as He.
    rewrite <- Hnat in He. fold er in He. rewrite Hsl in He. rewrite He.
    unfold sec. apply over_slice; arr_len; lia. }
  destruct (Z.eqb_spec k r) as [Hkr|Hkr].
  - wp_steps. rewrite <- Hkr, Hgoal. exact HQ.
  - wp_steps. rewrite (u32_small (k - r)), (u32_small (p + 1)) by (unfold is_u32; lia).
    assert (u16 (if 4096 <? k - r then 4096 else k - r) = Z.min (k - r) 4096) as ->.
    { rewrite u16_small by (unfold is_u16; destruct (Z.ltb_spec 4096 (k - r)); lia).
      destruct (Z.ltb_spec 4096 (k - r)); lia. }
    cbn [num]. split; [|lia].
    exists (over m' (p * 4096 + o) (zsub b 0 r)). cbn [secpos secoff secremain pbuf num].
    split; [done|]. split; [arr_len; lia|].
    split; [by apply Forall_over; [|apply Forall_zsub]|].
    rewrite zsub_drop, zlen_drop by lia.
    split; [|repeat (split; [lia|]); by apply Forall_drop].
    rewrite <- Hgoal. replace k with (r + (k - r)) at 2 by lia.
    rewrite (zsub_split b 0 r) by lia. rewrite <- over_app by (arr_len; lia).
    f_equal. arr_len. lia.
Qed.

Lemma wpg_sfmw (Q : Z -> flash_file -> Prop) :
  Q 0 (stored (over m addr (zsub data 0 n)) s) -> wpg E (sfmw (Some block) addr data n) Q s.
Proof.
  intros HQ. unfold sfmw.
  pose proof (Z.mod_pos_bound addr 4096 ltac:(lia)). pose proof (Z.div_mod addr 4096 ltac:(lia)).
  rewrite (u16_small (addr mod 4096)), u16_small by (unfold is_u16; lia).
  apply (wpg_loop E _ sfmw_inv (fun l _ => Z.to_nat (num l))); [|  |cbn [num]; lia].
  { intros l s' HI. by apply wpg_sfmw_round. }
  exists m. cbn [secpos secoff secremain pbuf num].
  replace (addr / 4096 * 4096 + addr mod 4096) with addr by lia.
  assert (s = stored m s) as Hss by (destruct s, Hs as [? Hmem ?]; cbn in *; by rewrite Hmem).
  split; [exact Hss|]. split; [done|]. split; [done|]. split; [done|].
  split; [apply Z.div_pos; lia|]. split; [lia|].
  split; [|repeat (split; [lia|]); done].
  destruct (Z.leb_spec n (4096 - addr mod 4096)); [rewrite u16_small by (unfold is_u16; lia)|]; lia.
Qed.
End Write.

Lemma loop_stops {S A B} (body : B -> M S (B + A)) n b f s : body b s = Stop f -> loop (Datatypes.S n) body b s = Stop f.
Proof. intros H. cbn [loop]. unfold bind. by rewrite H. Qed.

(** A block whose address needs more than 32 bits. *)
Lemma sfmw_wild s m block addr n data :
  flash_ready s m -> zlen m mod 4096 = 0 -> zlen m < 2147483648 -> 0 <= addr < zlen m -> 4294967292 < block ->
  sfmw (Some block) addr data n s = Stop (Fault "sfmw").
Proof.
  intros Hs Hsec Hsize Ha Hb. unfold sfmw. apply loop_stops. unfold sfmw_body. cbn [secpos].
  pose proof (Z.div_mod addr 4096 ltac:(lia)). pose proof (Z.mod_pos_bound addr 4096 ltac:(lia)).
  pose proof (Z.div_mod (zlen m) 4096 ltac:(lia)). rewrite u32_small by (unfold is_u32; lia).
  unfold bind. by rewrite (read_sector_wild _ _ _ _ _ m) by (done || lia).
Qed.

(** * sfmc *)

Definition erase_unit (mode : Z) : Prop := mode = 4096 \/ mode = 32768 \/ mode = 65536.

Lemma erase_mask a mode :
  is_u32 a -> erase_unit mode -> Z.land a (u32 (Z.lnot (mode - 1))) = a - a mod mode.
Proof.
  intros Ha [-> | [-> | ->]]; [by apply (round_down_mask a 12) | by apply (round_down_mask a 15) | by apply (round_down_mask a 16)].
Qed.

Section Erase.
Context (E : failure -> Prop) (s : flash_file) (m : list Z) (addr mode n : Z).
Context (Hs : flash_ready s m) (Hsize : zlen m < 2147483648).
Context (Hmode : erase_unit mode) (Ha : 0 <= addr) (Hn : 0 <= n).

Let base : Z := addr - addr mod mode.
Context (Hend : base + n * mode <= zlen m).

Lemma wpg_sfmc (Q : Z -> flash_file -> Prop) :
  addr < 4294967296 ->
  Q 0 (stored (over m base (replicate (Z.to_nat (n * mode)) 255)) s) ->
  wpg E (sfmc addr mode n) Q s.
Proof.
  intros Hau HQ.
  assert (exists q, mode = q * 4096 /\ 0 < q <= 16 /\ base mod 4096 = 0) as (q & Hq & Hq1 & Hb4).
  { unfold base. pose proof (Z.div_mod addr mode). clear HQ Hend base.
    destruct Hmode as [-> | [-> | ->]]; [exists 1 | exists 8 | exists 16];
      (split; [done|]); (split; [lia|]).
    - replace (addr - addr mod 4096) with (addr / 4096 * 4096) by lia. by apply Z.mod_mul.
    - replace (addr - addr mod 32768) with (addr / 32768 * 8 * 4096) by lia. by apply Z.mod_mul.
    - replace (addr - addr mod 65536) with (addr / 65536 * 16 * 4096) by lia. by apply Z.mod_mul. }
  assert (0 <= base) as Hb0.
  { unfold base. pose proof (Z.mod_le addr mode). destruct Hmode as [-> | [-> | ->]]; lia. }
  pose proof (Z.div_mod base 4096 ltac:(lia)) as Hbd. rewrite Hb4 in Hbd.
  assert (negb (mode =? 4096) && negb (mode =? 32768) && negb (mode =? 65536) = false) as Hm3
    by by destruct Hmode as [-> | [-> | ->]].
  unfold sfmc. rewrite Hm3, erase_mask by (unfold is_u32; (done || lia)). fold base.
  pose (I := fun i s' => 0 <= i <= n /\
    s' = stored (over m base (replicate (Z.to_nat (i * mode)) 255)) s).
  apply (wpg_loop E _ I (fun i _ => Z.to_nat (n - i))); [| |lia].
  - intros i s' (Hi & ->). unfold sfmc_body. destruct (Z.ltb_spec i n).
    + assert (i * mode + mode <= n * mode) by nia.
      assert (0 <= i * mode) by nia.
      rewrite (u32_small (i * mode)), (u32_small (base + _)) by (unfold is_u32; lia).
      assert (zlen (replicate (Z.to_nat (i * mode)) 255) = i * mode) as Hr by (arr_len; lia).
      wp_step. apply (wpg_flash_erase _ _ _ _ _ (over m base (replicate (Z.to_nat (i * mode)) 255))).
      * apply (stored_ready s m); [done | arr_len; lia].
      * replace (base + i * mode) with ((base / 4096 + i * q) * 4096) by lia.
        apply sector_down_aligned. unfold is_u32. lia.
      * rewrite Hq. apply sector_up_aligned. lia.
      * lia.
      * lia.
      * arr_len. lia.
      * cbn [negb Z.eqb]. wp_steps. rewrite (u32_small (i + 1)) by (unfold is_u32; nia).
        split; [|lia]. split; [lia|].
        rewrite <- Hr at 2. rewrite over_app, <- replicate_add by (arr_len; lia).
        replace (Z.to_nat (i * mode) + Z.to_nat mode)%nat with (Z.to_nat ((i + 1) * mode)) by lia.
        done.
    + wp_steps. replace n with i in HQ by lia. exact HQ.
  - split; [lia|]. rewrite Z.mul_0_l. change (replicate (Z.to_nat 0) 255) with (@nil Z). rewrite over_nil by nia.
    destruct s, Hs as [? Hmem ?]. cbn in *. by rewrite Hmem.
Qed.
End Erase.

(** * sfmu *)

(** A word without a cleared bit. *)
Lemma word_erased b0 b1 b2 b3 lp :
  is_u8 b0 -> is_u8 b1 -> is_u8 b2 -> is_u8 b3 ->
  lp = Z.lor (Z.lor b0 (Z.shiftl b1 8)) (Z.lor (Z.shiftl b2 16) (Z.shiftl b3 24)) ->
  (Z.land 0xFFFFFFFF lp =? 0xFFFFFFFF) = forallb (Z.eqb 255) [b0; b1; b2; b3].
Proof.
  unfold is_u8. intros H0 H1 H2 H3 ->.
  assert (Z.lor (Z.lor b0 (Z.shiftl b1 8)) (Z.lor (Z.shiftl b2 16) (Z.shiftl b3 24)) =
    b0 + b1 * 256 + b2 * 65536 + b3 * 16777216) as ->.
  { rewrite Z.lor_assoc. rewrite (lor_shiftl b0 b1 8) by lia.
    rewrite (lor_shiftl _ b2 16), (lor_shiftl _ b3 24) by lia. lia. }
  rewrite Z.land_comm. change 0xFFFFFFFF with (Z.ones 32) at 1. rewrite Z.land_ones by lia.
  rewrite Z.mod_small by lia. cbn [forallb].
  destruct (Z.eqb_spec 255 b0), (Z.eqb_spec 255 b1), (Z.eqb_spec 255 b2), (Z.eqb_spec 255 b3);
    cbn [andb]; (apply Z.eqb_eq || apply Z.eqb_neq); lia.
Qed.

Lemma sector_used_spec words d :
  Forall is_u8 d -> length d = (4 * words)%nat ->
  sector_used words 0xFFFFFFFF d = negb (forallb (Z.eqb 255) d).
Proof.
  revert d. induction words as [|w IH]; intros d Hd Hl.
  - destruct d; done.
  - destruct d as [|b0 [|b1 [|b2 [|b3 d]]]]; cbn [length] in Hl; try lia.
    inversion_clear Hd as [|? ? H0 Hd1]. inversion_clear Hd1 as [|? ? H1 Hd2].
    inversion_clear Hd2 as [|? ? H2 Hd3]. inversion_clear Hd3 as [|? ? H3 Hd4].
    cbn [sector_used]. pose proof (word_erased b0 b1 b2 b3 _ H0 H1 H2 H3 eq_refl) as Hw.
    set (v := Z.land _ _) in *. rewrite Hw.
    change (b0 :: b1 :: b2 :: b3 :: d) with ([b0; b1; b2; b3] ++ d). rewrite forallb_app.
    destruct (forallb (Z.eqb 255) [b0; b1; b2; b3]); cbn [negb andb]; [|done].
    apply Z.eqb_eq in Hw. rewrite Hw. apply IH; [done | lia].
Qed.

(** The table: a row of 16 sectors has its address and a gap in the middle. *)
Definition sector_line (start j : Z) : list sfmu_print :=
  if j mod 16 =? 0 then [P_address (start + j * 4096)]
  else if j mod 16 =? 8 then [P_gap] else [].

(** The code counts the address on from row to row. *)
Lemma sector_line_step start k ind :
  0 <= k -> 0 <= start -> start + k * 4096 < 4294967296 ->
  ind = start + (if k =? 0 then 0 else (k - 1) / 16 * 65536) ->
  (if k =? 0 then (ind, [P_address ind])
   else if (k / 8 mod 2 =? 1) && (k mod 8 =? 0) then (ind, [P_gap])
   else if k mod 16 =? 0
   then (u32 (ind + 4096 * 16), [P_address (u32 (ind + 4096 * 16))])
   else (ind, [])) = (start + k / 16 * 65536, sector_line start k).
Proof.
  intros Hk Hs Hend ->. unfold sector_line.
  destruct (Z.eqb_spec k 0) as [->|Hne].
  { change (0 mod 16) with 0. change (0 / 16) with 0. cbn [Z.eqb]. by rewrite !Z.mul_0_l, Z.add_0_r. }
  assert ((k / 8 mod 2 =? 1) && (k mod 8 =? 0) = (k mod 16 =? 8)) as ->.
  { destruct (Z.eqb_spec (k / 8 mod 2) 1), (Z.eqb_spec (k mod 8) 0), (Z.eqb_spec (k mod 16) 8);
      cbn [andb]; Z.to_euclidean_division_equations; lia. }
  destruct (Z.eqb_spec (k mod 16) 0) as [H0|H0].
  - rewrite (proj2 (Z.eqb_neq (k mod 16) 8)) by lia.
    assert (start + (k - 1) / 16 * 65536 + 65536 = start + k / 16 * 65536) as Hrow
      by (Z.to_euclidean_division_equations; lia).
    assert (k / 16 * 65536 = k * 4096) as Haddr by (Z.to_euclidean_division_equations; lia).
    change (4096 * 16) with 65536.
    rewrite u32_small, Hrow, Haddr by (unfold is_u32; lia). done.
  - assert ((k - 1) / 16 = k / 16) as -> by (Z.to_euclidean_division_equations; lia).
    by destruct (k mod 16 =? 8).
Qed.

Definition sector_mark (m : list Z) (k : Z) : sfmu_print :=
  if forallb (Z.eqb 255) (zsub m (k * 4096) 4096) then P_idle else P_used.

Fixpoint usage_table (m : list Z) (start : Z) (n : nat) : list sfmu_print :=
  match n with
  | O => []
  | S n => usage_table m start n ++ sector_line start (Z.of_nat n) ++
           [sector_mark m (start / 4096 + Z.of_nat n)]
  end.

Section Usage.
Context (block : Z) (Hblock : 0 <= block <= 4294967292).
Context (E : failure -> Prop) (s : flash_file) (m : list Z) (addr n : Z).
Context (Hs : flash_ready s m) (Hm : Forall is_u8 m) (Hsize : zlen m < 2147483648).
Context (Ha : is_u32 addr) (Hn : 0 <= n).

Let start : Z := addr - addr mod 4096.
Context (Hend : start + n * 4096 <= zlen m).

(** Before round [j]. *)
Definition sfmu_inv (l : sfmu_locals) (s' : flash_file) : Prop :=
  s' = s /\ 0 <= j l <= n /\ u_secpos l = start / 4096 + j l /\
  indicate_addr l = start + (if j l =? 0 then 0 else (j l - 1) / 16 * 65536) /\
  printed l = usage_table m start (Z.to_nat (j l)).

Lemma wpg_sfmu (Q : Z * list sfmu_print -> flash_file -> Prop) :
  Q (0, usage_table m start (Z.to_nat n)) s -> wpg E (sfmu (Some block) addr n) Q s.
Proof.
  intros HQ. unfold sfmu. rewrite sector_down_spec by done. fold start.
  assert (0 <= start /\ start = start / 4096 * 4096) as [Hst0 Hst].
  { unfold start, is_u32 in *. pose proof (Z.div_mod addr 4096). pose proof (Z.mod_le addr 4096).
    replace (addr - addr mod 4096) with (addr / 4096 * 4096) by lia.
    rewrite Z.div_mul by lia. lia. }
  apply (wpg_loop E _ sfmu_inv (fun l _ => Z.to_nat (n - j l))); [| |cbn [j]; lia].
  2: { repeat split; cbn; lia. }
  intros [k p ind out] s' (-> & Hj & Hp & Hind & Hout). cbn [j u_secpos indicate_addr printed] in *.
  unfold sfmu_body. cbn [j u_secpos indicate_addr printed]. destruct (Z.ltb_spec k n).
  2: { wp_steps. rewrite Hout. replace k with n by lia. exact HQ. }
  assert ((if k =? 0 then (ind, [P_address ind])
      else if (k / 8 mod 2 =? 1) && (k mod 8 =? 0) then (ind, [P_gap])
      else if k mod 16 =? 0
      then (u32 (ind + 4096 * 16), [P_address (u32 (ind + 4096 * 16))])
      else (ind, [])) = (start + k / 16 * 65536, sector_line start k)) as ->.
  { apply sector_line_step; lia. }
  wp_step. rewrite u32_small by (unfold is_u32; lia).
  apply (wpg_read_sector _ _ _ _ _ _ m); [done | lia | lia | done | lia|].
  cbn [negb Z.eqb]. wp_steps.
  rewrite sector_used_spec; [| by apply Forall_zsub |].
  2: { pose proof (zlen_zsub m (p * 4096) 4096 ltac:(lia) ltac:(lia) ltac:(lia)). unfold zlen in *. lia. }
  rewrite (u32_small (p + 1)) by (unfold is_u32; lia).
  split; [|cbn [j]; lia]. split; [done|]. cbn [j u_secpos indicate_addr printed].
  split; [lia|]. split; [lia|]. split.
  - rewrite (proj2 (Z.eqb_neq _ _)) by lia. do 3 f_equal. lia.
  - rewrite Hout. replace (Z.to_nat (k + 1)) with (S (Z.to_nat k)) by lia. cbn [usage_table].
    rewrite Z2Nat.id by lia. do 3 f_equal. unfold sector_mark. rewrite Hp.
    by destruct (forallb _ _).
Qed.
End Usage.

Lemma sfmu_wild s m block addr n :
  flash_ready s m -> zlen m < 2147483648 -> is_u32 addr -> 0 < n -> addr - addr mod 4096 + 4096 <= zlen m -> 4294967292 < block ->
  sfmu (Some block) addr n s = Stop (Fault "sfmu").
Proof.
  intros Hs Hsize Ha Hn Hl Hb. unfold sfmu. apply loop_stops. unfold sfmu_body. cbn [j u_secpos].
  rewrite (proj2 (Z.ltb_lt _ _)) by done. rewrite sector_down_spec by done. destruct Ha as [Ha _].
  assert (u32 ((addr - addr mod 4096) / 4096 * 4096) = addr - addr mod 4096) as ->.
  { pose proof (Z.div_mod addr 4096 ltac:(lia)). pose proof (Z.mod_pos_bound addr 4096 ltac:(lia)).
    assert (addr - addr mod 4096 = addr / 4096 * 4096) as E by lia. rewrite E in *.
    rewrite Z.div_mul by lia. apply u32_small. unfold is_u32. lia. }
  pose proof (Z.mod_le addr 4096). unfold bind. cbn [Z.eqb]. by rewrite (read_sector_wild _ _ _ _ _ m) by (done || lia).
Qed.
