(* ===== verification/MemDump.v ===== *)
(** apps/sample_fcmd/fcmd/cmd_mem.c: the commands that print and compare memory.

    [memory p] is the byte at the address [p], [None] where nothing is mapped.
    The result of md and of the lines of sfmd is the text they print; words are
    little-endian. *)

From S2P Require Import Prelude.
From S2P Require Import CMonad.
From S2P Require Import Flash.

#[local] Open Scope stdpp_scope.

(** A digit of %X. *)
Definition hex_upper (d : Z) : Z := if d <? 10 then 48 + d else 55 + d.

(** %0nX of a value of n digits at most. *)
Fixpoint hexw (n : nat) (v : Z) : list Z :=
  match n with
  | O => []
  | Datatypes.S n => hexw n (v / 16) ++ [hex_upper (v mod 16)]
  end.

(** The value of [n] bytes at [p], as bp[i], *sp or lp[i]. *)
Fixpoint load (memory : Z -> option Z) (n : nat) (p : Z) : option Z :=
  match n with
  | O => Some 0
  | Datatypes.S n => b ← memory p; v ← load memory n (p + 1); Some (Z.lor b (Z.shiftl v 8))
  end.

(** for (i = 0; i < n; i++) with a text for every round. *)
Fixpoint print_each (f : Z -> option (list Z)) (n : nat) (i : Z) : option (list Z) :=
  match n with
  | O => Some []
  | Datatypes.S n => t ← f i; r ← print_each f n (i + 1); Some (t ++ r)
  end.

(** The elements of a line: the switch over elem_size. *)
Definition dump_elements (memory : Z -> option Z) (elem_size line_elem pcbuf : Z) : option (list Z) :=
  print_each (fun i =>
    v ← load memory (Z.to_nat elem_size) (pcbuf + i * elem_size);
    Some (32 :: hexw (2 * Z.to_nat elem_size) v)) (Z.to_nat line_elem) 0.

(** PUTC((bp[i] >= SPACE && bp[i] <= TILDE) ? bp[i] : DOT) *)
Definition printable (c : Z) : Z := if (32 <=? c) && (c <=? 126) then c else 46.

Definition dump_ascii (memory : Z -> option Z) (n pcbuf : Z) : option (list Z) :=
  print_each (fun i => c ← memory (pcbuf + i); Some [printable c]) (Z.to_nat n) 0.

Definition dump_line (memory : Z -> option Z) (elem_size line_elem addr pcbuf : Z) : option (list Z) :=
  elements ← dump_elements memory elem_size line_elem pcbuf;
  ascii ← dump_ascii memory (line_elem * elem_size) pcbuf;
  Some (hexw 8 (u32 addr) ++ [58] ++ elements ++ [32; 32] ++ ascii ++ [10]).

(** for (j = 0; j < line_count; j++): [lines] are left. *)
Fixpoint dump_lines (memory : Z -> option Z) (elem_size line_remain : Z) (lines : nat)
    (line_elem addr pcbuf : Z) : option (list Z) :=
  match lines with
  | O => Some []
  | Datatypes.S n =>
      let line_elem := if bool_decide (n = O) && negb (line_remain =? 0) then line_remain else line_elem in
      t ← dump_line memory elem_size line_elem addr pcbuf;
      r ← dump_lines memory elem_size line_remain n line_elem
            (addr + line_elem * elem_size) (pcbuf + line_elem * elem_size);
      Some (t ++ r)
  end.

Definition elem_size_ok (elem_size : Z) : bool :=
  (elem_size =? 1) || (elem_size =? 2) || (elem_size =? 4).

(** The lines for [elem_cnt] elements; (elem_cnt + line_elem - 1) does not
    overflow an int. *)
Definition dump_table (memory : Z -> option Z) (addr pcbuf elem_cnt elem_size : Z) : option (list Z) :=
  let line_elem := 16 ÷ elem_size in
  let line_count := (elem_cnt + line_elem - 1) ÷ line_elem in
  let line_remain := Z.rem elem_cnt line_elem in
  if 2147483647 <? elem_cnt + line_elem - 1 then None
  else dump_lines memory elem_size line_remain (Z.to_nat line_count) line_elem addr pcbuf.

Definition md (memory : Z -> option Z) (addr elem_cnt elem_size : Z) : option (list Z) :=
  if negb (elem_size_ok elem_size) then Some []
  else t ← dump_table memory addr addr elem_cnt elem_size; Some (10 :: t).

(** * cmp *)

(** The result and the number of equal elements, which are printed with the
    first difference. *)
Record cmp_result : Type := mkCmp { rcode : Z; ngood : Z }.

(** while (elem_cnt-- > 0): [n] rounds are left. *)
Fixpoint cmp_loop (memory : Z -> option Z) (elem_size : Z) (n : nat) (addr1 addr2 good : Z)
    : option cmp_result :=
  match n with
  | O => Some (mkCmp 0 good)
  | Datatypes.S n =>
      differ ← (if elem_size_ok elem_size then
                  word1 ← load memory (Z.to_nat elem_size) addr1;
                  word2 ← load memory (Z.to_nat elem_size) addr2;
                  Some (negb (word1 =? word2))
                else Some false);
      if differ : bool then Some (mkCmp 1 good)
      else cmp_loop memory elem_size n (addr1 + elem_size) (addr2 + elem_size) (u32 (good + 1))
  end.

Definition cmp (memory : Z -> option Z) (mem1 mem2 elem_cnt elem_size : Z) : option cmp_result :=
  cmp_loop memory elem_size (Z.to_nat elem_cnt) mem1 mem2 0.

(** * sfmd *)

(** [malloc n]: the content of a new block of [n] bytes. *)
Definition sfmd (malloc : Z -> option (list Z)) (addr elem_cnt elem_size : Z)
    : M flash_file (Z * list Z) :=
  let size := Z.land (u32 (elem_cnt * elem_size)) 0xFFFFFFFC in
  match malloc (u32 (size + 4)) with
  | None => ret (-1, [])
  | Some pbuf =>
      let* (status, d) := flash_read addr size in
      if negb (u8 status =? 0) then ret (-3, [])
      else
        pbuf <- access "sfmd" (zblit pbuf 0 d) ;;
        if negb (elem_size_ok elem_size) then ret (-4, [])
        else
          t <- access "sfmd" (dump_table (zget pbuf) addr 0 elem_cnt elem_size) ;;
          ret (0, t)
  end.
