(* ===== verification/MemDumpFacts.v ===== *)
(** A reader of the tables that md and sfmd print, and that it gets back the
    bytes of memory; what cmp compares. *)

From S2P Require Import Prelude.
From S2P Require Import CMonad.
From S2P Require Import Flash.
From S2P Require Import FlashFacts.
From S2P Require Import MemDump.

(** * The reader *)

Definition hex_digit_value (c : Z) : Z := if c <? 58 then c - 48 else c - 55.
Definition unhex (s : list Z) : Z := fold_left (fun v c => v * 16 + hex_digit_value c) s 0.

(** The [n] bytes of a little-endian word. *)
Fixpoint word_bytes (n : nat) (v : Z) : list Z :=
  match n with
  | O => []
  | Datatypes.S n => v mod 256 :: word_bytes n (v / 256)
  end.

(** Words of [size] bytes, each after a space; a second space ends them. *)
Fixpoint read_words (size : nat) (fuel : nat) (s : list Z) : list Z :=
  match fuel, s with
  | Datatypes.S fuel, 32 :: c :: s =>
      if c =? 32 then []
      else word_bytes size (unhex (take (2 * size) (c :: s))) ++
           read_words size fuel (drop (2 * size) (c :: s))
  | _, _ => []
  end.

(** A line: eight digits of the address, a colon, and the words. *)
Definition read_row (size : nat) (l : list Z) : Z * list Z :=
  (unhex (take 8 l), read_words size (length l) (drop 9 l)).

Fixpoint split_lines (acc s : list Z) : list (list Z) :=
  match s with
  | [] => []
  | c :: s => if c =? 10 then rev acc :: split_lines [] s else split_lines (c :: acc) s
  end.

Definition read_dump (size : nat) (s : list Z) : list (Z * list Z) :=
  map (read_row size) (split_lines [] s).

(** Sixteen bytes of [d] to a row, which begins with their address. *)
Fixpoint dump_rows (rows : nat) (addr : Z) (d : list Z) : list (Z * list Z) :=
  match rows with
  | O => []
  | Datatypes.S n => (u32 addr, take 16 d) :: dump_rows n (addr + 16) (drop 16 d)
  end.

(** [memory] holds [d] at [p]. *)
Definition mapped (memory : Z -> option Z) (p : Z) (d : list Z) : Prop :=
  forall i, 0 <= i < zlen d -> memory (p + i) = zget d i.

(** * Digits *)

Lemma hex_upper_value d : 0 <= d < 16 -> hex_digit_value (hex_upper d) = d /\ hex_upper d <> 32 /\ hex_upper d <> 10.
Proof.
  intros H. unfold hex_upper, hex_digit_value. destruct (Z.ltb_spec d 10).
  - destruct (Z.ltb_spec (48 + d) 58); lia.
  - destruct (Z.ltb_spec (55 + d) 58); lia.
Qed.

Lemma length_hexw n v : length (hexw n v) = n.
Proof. revert v. induction n as [|n IH]; intros v; cbn [hexw]; [done|]. rewrite length_app, IH. cbn. lia. Qed.

Lemma unhex_app a c : unhex (a ++ [c]) = unhex a * 16 + hex_digit_value c.
Proof. unfold unhex. by rewrite fold_left_app. Qed.

Lemma unhex_hexw n v : 0 <= v < 16 ^ Z.of_nat n -> unhex (hexw n v) = v.
Proof.
  revert v. induction n as [|n IH]; intros v Hv; cbn [hexw].
  { cbn in Hv. cbn. lia. }
  rewrite unhex_app, IH.
  - pose proof (Z.mod_pos_bound v 16 ltac:(lia)) as Hm.
    destruct (hex_upper_value _ Hm) as [-> _]. pose proof (Z.div_mod v 16). lia.
  - rewrite Nat2Z.inj_succ, Z.pow_succ_r in Hv by lia. split; [apply Z.div_pos; lia|].
    apply Z.div_lt_upper_bound; lia.
Qed.

Lemma hexw_chars n v : 0 <= v -> Forall (fun c => c <> 32 /\ c <> 10) (hexw n v).
Proof.
  revert v. induction n as [|n IH]; intros v Hv; cbn [hexw]; [constructor|].
  apply Forall_app. split; [by apply IH, Z.div_pos|]. constructor; [|constructor].
  apply hex_upper_value, Z.mod_pos_bound. lia.
Qed.

(** * Words *)

(** The value of little-endian bytes. *)
Fixpoint word_value (d : list Z) : Z :=
  match d with
  | [] => 0
  | b :: d => b + 256 * word_value d
  end.

Lemma word_value_range d : Forall is_u8 d -> 0 <= word_value d < 256 ^ zlen d.
Proof.
  induction 1 as [|b d Hb Hd IH]; cbn [word_value].
  - change (256 ^ zlen []) with 1. lia.
  - rewrite zlen_cons, Z.pow_add_r by (pose proof (zlen_nonneg d); lia). unfold is_u8 in Hb. lia.
Qed.

Lemma word_bytes_value d : Forall is_u8 d -> word_bytes (length d) (word_value d) = d.
Proof.
  induction 1 as [|b d Hb Hd IH]; cbn [length word_bytes word_value]; [done|]. unfold is_u8 in Hb.
  rewrite (Z.mul_comm 256), Z.mod_add, Z.div_add, Z.mod_small, Z.div_small by lia.
  by rewrite Z.add_0_l, IH.
Qed.

Lemma mapped_app memory p a b : mapped memory p (a ++ b) <-> mapped memory p a /\ mapped memory (p + zlen a) b.
Proof.
  unfold mapped. rewrite zlen_app. pose proof (zlen_nonneg a). pose proof (zlen_nonneg b). split.
  - intros H1. split; intros i Hi.
    + rewrite H1 by lia. apply zget_app_l. lia.
    + replace (p + zlen a + i) with (p + (zlen a + i)) by lia. rewrite H1 by lia.
      rewrite zget_app_r by lia. f_equal. lia.
  - intros [H1 H2] i Hi. destruct (Z.lt_ge_cases i (zlen a)).
    + rewrite H1 by lia. symmetry. apply zget_app_l. lia.
    + replace (p + i) with (p + zlen a + (i - zlen a)) by lia. rewrite H2 by lia.
      symmetry. rewrite zget_app_r by lia. f_equal.
Qed.

Lemma mapped_cons memory p b d : mapped memory p (b :: d) <-> memory p = Some b /\ mapped memory (p + 1) d.
Proof.
  change (b :: d) with ([b] ++ d). rewrite mapped_app. change (zlen [b]) with 1.
  assert (mapped memory p [b] <-> memory p = Some b) as ->; [|done].
  unfold mapped. change (zlen [b]) with 1. split.
  - intros H. specialize (H 0 ltac:(lia)). by rewrite Z.add_0_r in H.
  - intros H i Hi. replace i with 0 by lia. by rewrite Z.add_0_r.
Qed.

Lemma load_value memory p d :
  mapped memory p d -> Forall is_u8 d -> load memory (length d) p = Some (word_value d).
Proof.
  intros Hm Hd. revert p Hm. induction Hd as [|b d Hb Hd IH]; intros p Hm; cbn [length load word_value]; [done|].
  apply mapped_cons in Hm as [-> Hm]. cbn [mbind option_bind]. rewrite (IH _ Hm). cbn [mbind option_bind].
  f_equal. pose proof (word_value_range d Hd).
  change 8 with 8. rewrite (lor_shiftl b (word_value d) 8) by (unfold is_u8 in Hb; lia). lia.
Qed.

(** The text of [n] words. *)
Fixpoint words_text (size n : nat) (d : list Z) : list Z :=
  match n with
  | O => []
  | Datatypes.S n => (32 :: hexw (2 * size) (word_value (take size d))) ++ words_text size n (drop size d)
  end.

Lemma pow_256_16 n : 256 ^ Z.of_nat n = 16 ^ Z.of_nat (2 * n).
Proof.
  rewrite Nat2Z.inj_mul. change (Z.of_nat 2) with 2. rewrite Z.pow_mul_r by lia. done.
Qed.

Lemma read_words_text size n : forall d r fuel,
  (0 < size)%nat -> length d = (n * size)%nat -> Forall is_u8 d -> (n < fuel)%nat ->
  read_words size fuel (words_text size n d ++ 32 :: 32 :: r) = d.
Proof.
  induction n as [|n IH]; intros d r fuel Hs Hd Hu Hf; (destruct fuel as [|fuel]; [lia|]).
  { by destruct d. }
  cbn [words_text]. rewrite <- app_assoc. cbn [app]. set (v := word_value (take size d)).
  assert (length (take size d) = size) as Hts by (rewrite length_take; lia).
  assert (Forall is_u8 (take size d)) as Htu by (by apply Forall_take).
  pose proof (word_value_range _ Htu) as Hv. unfold zlen in Hv.
  rewrite Hts, pow_256_16 in Hv. fold v in Hv.
  destruct (hexw (2 * size) v) as [|c h] eqn:Eh.
  { apply (f_equal length) in Eh. rewrite length_hexw in Eh. cbn in Eh. lia. }
  pose proof (hexw_chars (2 * size) v ltac:(lia)) as Hc. rewrite Eh in Hc.
  apply Forall_cons in Hc as [[Hc _] _]. cbn [app read_words]. destruct (Z.eqb_spec c 32); [done|].
  rewrite app_comm_cons.
  rewrite <- Eh, take_app_length', drop_app_length' by (by rewrite length_hexw).
  rewrite unhex_hexw by done. rewrite <- Hts at 1. unfold v. rewrite word_bytes_value by done.
  rewrite IH; [apply take_drop|done|rewrite length_drop; lia|by apply Forall_drop|lia].
Qed.

Lemma words_text_plain size n d :
  Forall is_u8 d -> Forall (fun c => c <> 10) (words_text size n d).
Proof.
  revert d. induction n as [|n IH]; intros d Hd; cbn [words_text]; [constructor|].
  constructor; [done|]. apply Forall_app. split; [|by apply IH, Forall_drop].
  eapply Forall_impl; [apply hexw_chars|by intros c []].
  apply word_value_range. by apply Forall_take.
Qed.

Lemma print_words memory size n : forall d pc i,
  mapped memory (pc + i * Z.of_nat size) d -> length d = (n * size)%nat -> Forall is_u8 d ->
  print_each (fun i =>
    v ← load memory size (pc + i * Z.of_nat size); Some (32 :: hexw (2 * size) v)) n i =
  Some (words_text size n d).
Proof.
  induction n as [|n IH]; intros d pc i Hm Hd Hu; cbn [print_each words_text]; [done|].
  rewrite <- (take_drop size d) in Hm. apply mapped_app in Hm as [Hm1 Hm2].
  assert (length (take size d) = size) as Hts by (rewrite length_take; lia).
  pose proof (load_value _ _ _ Hm1 ltac:(by apply Forall_take)) as Hl. rewrite Hts in Hl.
  rewrite Hl. cbn [mbind option_bind].
  rewrite (IH (drop size d)); [done| |rewrite length_drop; lia|by apply Forall_drop].
  unfold zlen in Hm2. rewrite Hts in Hm2.
  by replace (pc + (i + 1) * Z.of_nat size) with (pc + i * Z.of_nat size + Z.of_nat size) by lia.
Qed.

Lemma print_ascii memory d : forall pc i,
  mapped memory (pc + i) d ->
  print_each (fun i => c ← memory (pc + i); Some [printable c]) (length d) i = Some (map printable d).
Proof.
  induction d as [|c d IH]; intros pc i Hm; cbn [length print_each map]; [done|].
  apply mapped_cons in Hm as [-> Hm]. cbn [mbind option_bind]. rewrite IH; [done|].
  by rewrite Z.add_assoc.
Qed.

Lemma printable_plain d : Forall (fun c => c <> 10) (map printable d).
Proof.
  apply Forall_map, Forall_forall. intros c _. cbn. unfold printable.
  destruct (Z.leb_spec 32 c), (Z.leb_spec c 126); cbn; lia.
Qed.

(** * A line and the table *)

Definition line_text (size : nat) (addr : Z) (d : list Z) : list Z :=
  hexw 8 (u32 addr) ++ [58] ++ words_text size (length d / size) d ++ [32; 32] ++ map printable d.

Section Table.
Context (memory : Z -> option Z) (size : nat) (Hsize : size = 1%nat \/ size = 2%nat \/ size = 4%nat).

Lemma dump_line_text n addr pc d :
  mapped memory pc d -> length d = (n * size)%nat -> Forall is_u8 d ->
  dump_line memory (Z.of_nat size) (Z.of_nat n) addr pc = Some (line_text size addr d ++ [10]).
Proof.
  intros Hm Hd Hu. unfold dump_line, dump_elements, dump_ascii. rewrite !Nat2Z.id.
  rewrite (print_words memory size n d) by (rewrite ?Z.mul_0_l, ?Z.add_0_r; done).
  cbn [mbind option_bind].
  replace (Z.to_nat (Z.of_nat n * Z.of_nat size)) with (length d) by lia.
  rewrite print_ascii by (by rewrite Z.add_0_r). cbn [mbind option_bind]. unfold line_text.
  rewrite Hd, Nat.div_mul by lia. by rewrite <- !app_assoc.
Qed.

Lemma read_row_text n addr d :
  length d = (n * size)%nat -> Forall is_u8 d -> read_row size (line_text size addr d) = (u32 addr, d).
Proof.
  intros Hd Hu. unfold read_row, line_text. rewrite Hd, Nat.div_mul by lia.
  rewrite take_app_length' by (by rewrite length_hexw).
  rewrite unhex_hexw by (pose proof (u32_range addr) as H; unfold is_u32 in H; lia).
  f_equal. rewrite drop_app_ge by (rewrite length_hexw; lia). rewrite length_hexw.
  change (drop (9 - 8) ([58] ++ ?x)) with x.
  set (len := length _). assert (n < len)%nat as Hl.
  { unfold len. rewrite !length_app, length_map, Hd. cbn [length]. nia. }
  cbn [app drop Nat.sub]. by apply read_words_text with (n := n); [lia| | |].
Qed.

Lemma line_text_plain addr d : Forall is_u8 d -> Forall (fun c => c <> 10) (line_text size addr d).
Proof.
  intros Hu. unfold line_text. rewrite !Forall_app. split; [|split; [by repeat constructor|split; [|split]]].
  - eapply Forall_impl; [apply hexw_chars, u32_range|by intros c []].
  - by apply words_text_plain.
  - by repeat constructor.
  - apply printable_plain.
Qed.

Lemma split_line l r acc :
  Forall (fun c => c <> 10) l -> split_lines acc (l ++ 10 :: r) = (rev acc ++ l) :: split_lines [] r.
Proof.
  intros H. revert acc. induction H as [|c l Hc Hl IH]; intros acc; cbn [app split_lines].
  - by rewrite app_nil_r.
  - destruct (Z.eqb_spec c 10); [done|]. rewrite IH. cbn [rev]. by rewrite <- app_assoc.
Qed.

(** The lines of the table: [le] elements in a line, [n] lines, the last one
    with [remain] elements unless this is 0. *)
Lemma dump_lines_read le remain n : forall addr pc d,
  (le * size = 16)%nat -> (remain < le)%nat ->
  length d = (match n with
              | O => 0
              | Datatypes.S n => n * le + (if bool_decide (remain = O) then le else remain)
              end * size)%nat ->
  mapped memory pc d -> Forall is_u8 d ->
  exists t, dump_lines memory (Z.of_nat size) (Z.of_nat remain) n (Z.of_nat le) addr pc = Some t /\
            read_dump size t = dump_rows n addr d.
Proof.
  induction n as [|n IH]; intros addr pc d Hle Hr Hd Hm Hu; cbn [dump_lines dump_rows];
    [by exists []|].
  assert (exists k, (if bool_decide (n = O) && negb (Z.of_nat remain =? 0) then Z.of_nat remain
                     else Z.of_nat le) = Z.of_nat k /\
                    length (take 16 d) = (k * size)%nat /\
                    (n <> 0%nat -> k = le)) as (k & Ek & Hk & Hkle).
  { destruct (Nat.eq_dec n O) as [->|Hn].
    - rewrite bool_decide_true by done. destruct (Z.eqb_spec (Z.of_nat remain) 0) as [Hz|Hz]; cbn [andb negb].
      + exists le. rewrite bool_decide_true in Hd by lia. rewrite length_take. split; [done|]. split; [lia|done].
      + exists remain. rewrite bool_decide_false in Hd by lia. rewrite length_take.
        split; [done|]. split; [nia|done].
    - rewrite bool_decide_false by done. exists le. rewrite length_take. cbn [andb].
      split; [done|]. split; [|done]. destruct (bool_decide (remain = O)); nia. }
  rewrite Ek. rewrite <- (take_drop 16 d) in Hm. apply mapped_app in Hm as [Hm1 Hm2].
  rewrite (dump_line_text k addr pc (take 16 d)) by (done || by apply Forall_take).
  cbn [mbind option_bind].
  destruct (IH (addr + 16) (pc + 16) (drop 16 d)) as (t & Ht & Hread); [done|done| | |by apply Forall_drop|].
  { rewrite length_drop, Hd. destruct n as [|n]; destruct (bool_decide (remain = O)); nia. }
  { destruct (Nat.eq_dec n O) as [->|Hn].
    - assert (length (drop 16 d) = 0)%nat as Hnil
        by (rewrite length_drop, Hd; destruct (bool_decide (remain = O)); nia).
      intros i Hi. unfold zlen in Hi. lia.
    - rewrite (Hkle Hn) in Hk. unfold zlen in Hm2. by rewrite Hk, Hle in Hm2. }
  exists ((line_text size addr (take 16 d) ++ [10]) ++ t). split.
  - destruct (Nat.eq_dec n O) as [->|Hn]; [cbn [dump_lines] in *; by injection Ht as <-|].
    rewrite (Hkle Hn).
    replace (Z.of_nat le * Z.of_nat size) with 16 by lia. by rewrite Ht.
  - unfold read_dump. rewrite <- app_assoc. cbn [app].
    rewrite split_line by (by apply line_text_plain, Forall_take). cbn [rev app map].
    rewrite (read_row_text k) by (done || by apply Forall_take). by f_equal.
Qed.
End Table.

Lemma dump_table_read memory addr pc cnt size d :
  elem_size_ok size = true -> 0 <= cnt -> cnt + 15 < 2147483648 -> zlen d = cnt * size ->
  mapped memory pc d -> Forall is_u8 d ->
  exists t, dump_table memory addr pc cnt size = Some t /\
            read_dump (Z.to_nat size) t = dump_rows ((length d + 15) / 16) addr d.
Proof.
  intros Hs Hc Hov Hd Hm Hu.
  assert (exists sz le : nat, size = Z.of_nat sz /\ 16 ÷ size = Z.of_nat le /\ (le * sz = 16)%nat /\
            (sz = 1 \/ sz = 2 \/ sz = 4)%nat) as (sz & le & -> & Hle & Hls & Hsz).
  { unfold elem_size_ok in Hs. rewrite !orb_true_iff, !Z.eqb_eq in Hs.
    destruct Hs as [[-> | ->] | ->]; [exists 1%nat, 16%nat|exists 2%nat, 8%nat|exists 4%nat, 4%nat];
      (split; [done|split; [done|split; [done|auto]]]). }
  unfold dump_table. rewrite Hle, Nat2Z.id. assert (4 <= Z.of_nat le <= 16) by lia.
  destruct (Z.ltb_spec 2147483647 (cnt + Z.of_nat le - 1)); [lia|].
  rewrite Z.quot_div_nonneg, Z.rem_mod_nonneg by lia.
  pose proof (Z.div_mod cnt (Z.of_nat le) ltac:(lia)) as Hdm.
  pose proof (Z.mod_pos_bound cnt (Z.of_nat le) ltac:(lia)) as Hmb.
  set (q := cnt / Z.of_nat le) in *. set (r := cnt mod Z.of_nat le) in *.
  assert (0 <= q) by (apply Z.div_pos; lia). clearbody q r. unfold zlen in Hd.
  assert (sz = 1%nat /\ le = 16%nat \/ sz = 2%nat /\ le = 8%nat \/ sz = 4%nat /\ le = 4%nat) as Hcases by lia.
  set (lines := (cnt + Z.of_nat le - 1) / Z.of_nat le).
  assert (lines = if bool_decide (r = 0) then q else q + 1) as Hlines.
  { destruct (bool_decide_reflect (r = 0)) as [Hr|Hr]; symmetry.
    - apply (Z.div_unique _ _ _ (Z.of_nat le - 1)); lia.
    - apply (Z.div_unique _ _ _ (r - 1)); lia. }
  clearbody lines.
  destruct (dump_lines_read memory sz Hsz le (Z.to_nat r) (Z.to_nat lines) addr pc d)
    as (t & Ht & Hread); [done|lia| |done|done|].
  - destruct (bool_decide_reflect (r = 0)) as [Hr|Hr]; subst lines.
    + destruct (Z.to_nat q) eqn:Eq; [|rewrite bool_decide_true by lia];
        by destruct Hcases as [[-> ->]|[[-> ->]|[-> ->]]]; lia.
    + replace (Z.to_nat (q + 1)) with (Datatypes.S (Z.to_nat q)) by lia.
      rewrite bool_decide_false by lia. by destruct Hcases as [[-> ->]|[[-> ->]|[-> ->]]]; lia.
  - rewrite Z2Nat.id in Ht by lia. exists t. split; [done|]. rewrite Hread. f_equal.
    assert (Z.of_nat (length d) = (q * Z.of_nat le + r) * Z.of_nat sz) by lia.
    apply Nat2Z.inj. rewrite Nat2Z.inj_div, Nat2Z.inj_add, Z2Nat.id
      by (destruct (bool_decide (r = 0)); lia).
    change (Z.of_nat 15) with 15. change (Z.of_nat 16) with 16. subst lines.
    destruct (bool_decide_reflect (r = 0)) as [Hr|Hr].
    + apply (Z.div_unique _ _ _ 15); destruct Hcases as [[-> ->]|[[-> ->]|[-> ->]]]; lia.
    + apply (Z.div_unique _ _ _ (r * Z.of_nat sz - 1));
        destruct Hcases as [[-> ->]|[[-> ->]|[-> ->]]]; lia.
Qed.

(** * cmp *)

Lemma word_value_inj a b :
  Forall is_u8 a -> Forall is_u8 b -> length a = length b -> word_value a = word_value b -> a = b.
Proof.
  intros Ha Hb Hl E. rewrite <- (word_bytes_value a), <- (word_bytes_value b), Hl, E by done. done.
Qed.

Lemma elem_size_nat size :
  elem_size_ok size = true ->
  exists sz : nat, size = Z.of_nat sz /\ (sz = 1 \/ sz = 2 \/ sz = 4)%nat.
Proof.
  unfold elem_size_ok. rewrite !orb_true_iff, !Z.eqb_eq. intros [[-> | ->] | ->];
    [exists 1%nat|exists 2%nat|exists 4%nat]; auto.
Qed.

(** What cmp says of two areas of [n] elements: they are equal, or the first
    [ngood] elements are and the next ones differ. *)
Definition compared (sz n : nat) (a b : list Z) (good : Z) (r : cmp_result) : Prop :=
  exists k : nat, ngood r = good + Z.of_nat k /\ take (k * sz) a = take (k * sz) b /\
    (if rcode r =? 0 then k = n
     else rcode r = 1 /\ (k < n)%nat /\ take sz (drop (k * sz) a) <> take sz (drop (k * sz) b)).

Lemma cmp_loop_spec memory sz n : forall p q a b good,
  elem_size_ok (Z.of_nat sz) = true ->
  mapped memory p a -> mapped memory q b -> Forall is_u8 a -> Forall is_u8 b ->
  length a = (n * sz)%nat -> length b = (n * sz)%nat -> 0 <= good -> good + Z.of_nat n < 4294967296 ->
  exists r, cmp_loop memory (Z.of_nat sz) n p q good = Some r /\ compared sz n a b good r.
Proof.
  induction n as [|n IH]; intros p q a b good Hs Hp Hq Ha Hb La Lb H0 Hg; cbn [cmp_loop].
  { eexists. split; [done|]. exists O. cbn. repeat split; [lia]. }
  rewrite Hs, Nat2Z.id.
  rewrite <- (take_drop sz a) in Hp. rewrite <- (take_drop sz b) in Hq.
  apply mapped_app in Hp as [Hp1 Hp2]. apply mapped_app in Hq as [Hq1 Hq2].
  assert (length (take sz a) = sz /\ length (take sz b) = sz) as [Ta Tb] by (rewrite !length_take; lia).
  pose proof (load_value _ _ _ Hp1 ltac:(by apply Forall_take)) as H1.
  pose proof (load_value _ _ _ Hq1 ltac:(by apply Forall_take)) as H2.
  rewrite Ta in H1. rewrite Tb in H2. rewrite H1, H2. cbn [mbind option_bind].
  destruct (Z.eqb_spec (word_value (take sz a)) (word_value (take sz b))) as [E|E]; cbn [negb].
  - apply word_value_inj in E; [|by apply Forall_take|by apply Forall_take|congruence].
    unfold zlen in Hp2, Hq2. rewrite Ta in Hp2. rewrite Tb in Hq2.
    rewrite u32_small by (unfold is_u32; lia).
    destruct (IH _ _ (drop sz a) (drop sz b) (good + 1) Hs Hp2 Hq2) as (r & Hr & k & Hk & Htk & Hrest);
      [by apply Forall_drop|by apply Forall_drop|rewrite length_drop; lia|rewrite length_drop; lia|lia|lia|].
    exists r. split; [done|]. exists (Datatypes.S k). split; [lia|].
    replace (Datatypes.S k * sz)%nat with (sz + k * sz)%nat by lia. split.
    + rewrite <- (take_drop sz a), <- (take_drop sz b), !take_app_ge by (rewrite length_take; lia).
      rewrite Ta, Tb, E. f_equal. by replace (sz + k * sz - sz)%nat with (k * sz)%nat by lia.
    + rewrite <- !drop_drop. destruct (rcode r =? 0); [lia|]. destruct Hrest as (? & ? & ?).
      split; [done|]. split; [lia|done].
  - eexists. split; [done|]. exists O. cbn [rcode ngood Nat.mul take]. split; [lia|]. split; [done|].
    cbn [Z.eqb]. split; [done|]. split; [lia|]. rewrite !drop_0. intros H. by rewrite H in E.
Qed.

(** Elements of another size are not compared. *)
Lemma cmp_loop_other memory size n p q good :
  elem_size_ok size = false -> 0 <= good -> good + Z.of_nat n < 4294967296 ->
  cmp_loop memory size n p q good = Some (mkCmp 0 (good + Z.of_nat n)).
Proof.
  intros Hs. revert p q good. induction n as [|n IH]; intros p q good H0 Hg; cbn [cmp_loop].
  - do 2 f_equal. lia.
  - rewrite Hs. cbn [mbind option_bind]. rewrite u32_small by (unfold is_u32; lia).
    rewrite IH by lia. do 2 f_equal. lia.
Qed.

(** * sfmd *)

Lemma land_fffffffc x : is_u32 x -> Z.land x 0xFFFFFFFC = x - x mod 4.
Proof.
  intros Hx. rewrite <- (unit_down_spec x Hx). unfold unit_down, u32.
  change (- FLASH_UNIT_SIZE) with (-4). change 4294967296 with (2 ^ 32). symmetry.
  rewrite <- Z.land_ones by lia. rewrite <- Z.land_assoc. f_equal.
Qed.

(** The bytes that sfmd has in its buffer: those of the flash up to a multiple
    of four, and what malloc has left behind them. *)
Definition sfmd_bytes (m block : list Z) (addr n : Z) : list Z :=
  zsub m addr (n - n mod 4) ++ zsub block (n - n mod 4) (n mod 4).

Lemma wpg_sfmd E malloc block m addr cnt size (Q : Z * list Z -> flash_file -> Prop) s :
  flash_ready s m -> Forall is_u8 m -> Forall is_u8 block -> elem_size_ok size = true ->
  0 <= cnt -> cnt * size < 2147483632 -> 0 <= addr -> addr + cnt * size <= zlen m ->
  malloc (cnt * size - (cnt * size) mod 4 + 4) = Some block ->
  zlen block = cnt * size - (cnt * size) mod 4 + 4 ->
  (forall t, read_dump (Z.to_nat size) t =
     dump_rows (Z.to_nat ((cnt * size + 15) / 16)) addr (sfmd_bytes m block addr (cnt * size)) ->
   Q (0, t) s) ->
  wpg E (sfmd malloc addr cnt size) Q s.
Proof.
  intros Hs Hm Hb Hsz Hc Hn Ha Hend Hmalloc Hblock HQ. unfold sfmd.
  destruct (elem_size_nat _ Hsz) as (sz & Esz & Hcases). assert (1 <= size <= 4) by lia.
  set (n := cnt * size) in *. assert (0 <= n /\ cnt <= n) as [Hn0 Hcn] by (unfold n; nia).
  pose proof (Z.mod_pos_bound n 4 ltac:(lia)). pose proof (Z.mod_le n 4 Hn0 ltac:(lia)).
  rewrite (u32_small n), land_fffffffc by (unfold is_u32; lia).
  rewrite u32_small by (unfold is_u32; lia). rewrite Hmalloc.
  apply wpg_bind, (wpg_flash_read _ _ _ _ _ m); [done|done|lia|lia|].
  change (negb (u8 0 =? 0)) with false. cbn iota.
  set (k := n - n mod 4) in *. assert (k = n - n mod 4) as Ek by done. assert (zlen (zsub m addr k) = k) as Hk by (apply zlen_zsub; lia).
  rewrite zblit_is_Some by (rewrite ?Hk; lia). wp_steps. rewrite Hsz. cbn [negb].
  change (take (Z.to_nat 0) block) with (@nil Z). rewrite Z.add_0_l, Hk. cbn [app].
  set (buf := zsub m addr k ++ drop (Z.to_nat k) block).
  destruct (dump_table_read (zget buf) addr 0 cnt size (sfmd_bytes m block addr n)) as (t & Ht & Hread);
    [done|done|lia| | | |].
  - unfold sfmd_bytes. fold k. rewrite zlen_app, Hk, zlen_zsub by lia. lia.
  - intros i Hi. unfold sfmd_bytes in *. fold k in Hi |- *. rewrite zlen_app, Hk, zlen_zsub in Hi by lia.
    unfold buf. rewrite Z.add_0_l. destruct (Z.lt_ge_cases i k).
    + by rewrite !zget_app_l by lia.
    + rewrite (zget_app_r _ _ i), (zget_app_r _ _ i) by lia. rewrite Hk, zget_zsub by lia. unfold zget.
      destruct (Z.leb_spec 0 (i - k)), (Z.leb_spec 0 (k + (i - k))); try lia.
      rewrite lookup_drop. f_equal. lia.
  - unfold sfmd_bytes. apply Forall_app. split; unfold zsub; by apply Forall_take, Forall_drop.
  - rewrite Ht. wp_steps. apply HQ. rewrite Hread. f_equal.
    unfold sfmd_bytes. fold k. rewrite length_app. pose proof Hk as Hk'.
    assert (zlen (zsub block k (n mod 4)) = n mod 4) as Hk2 by (apply zlen_zsub; lia).
    unfold zlen in Hk, Hk2. apply Nat2Z.inj.
    rewrite Z2Nat.id by (apply Z.div_pos; lia). rewrite Nat2Z.inj_div, !Nat2Z.inj_add, Hk, Hk2.
    change (Z.of_nat 15) with 15. change (Z.of_nat 16) with 16. f_equal. lia.
Qed.
