(* ===== verification/Fcmd.v ===== *)
(** apps/sample_fcmd/fcmd/fcmd.c and fcmd_cfg.h: the command line, which calls a
    C function with the arguments that the user types.

    Parameters: [base] is the address of the line, [long_bits] the width of
    long, [uninit_args] the content of the uninitialised array args, [call] what
    the called function returns, by what has happened so far.  Pointers into
    the line are offsets; a function is named by its symbol. *)

From S2P Require Import Prelude.
From S2P Require Import CMonad.
From S2P Require Import CString.

(** * State *)

Definition PARAMS_NUM : Z := 10.

(** [Printf format values]: a PRINTF with these values; [Listed pfunc fname]: a
    line of sys_ls; [Called pfunc argv memory]: a call of a function with the
    content of the line at that time. *)
Inductive event : Type :=
| Printf (format : string) (values : list Z)
| Listed (pfunc : string) (fname : string)
| Called (pfunc : string) (argv : list Z) (memory : list Z).

(** The typed line, the local array args of fcmd_exec, s_fcmd.login_flag, and
    what has been printed and called. *)
Record shell : Type := mkShell {
  line : list Z;
  args : list Z;
  login_flag : Z;
  events : list event
}.

Definition set_line v s := mkShell v (args s) (login_flag s) (events s).
Definition set_args v s := mkShell (line s) v (login_flag s) (events s).
Definition set_login_flag v s := mkShell (line s) (args s) v (events s).
Definition add_event e s := mkShell (line s) (args s) (login_flag s) (events s ++ [e]).

Definition login_id : list Z := bytes "root".
Definition login_passwd : list Z := bytes "c0dec0ffee".

Record CmdTbl_t : Type := mkCmd { fname : string; pfunc : string }.

Definition CmdSysTbl : list CmdTbl_t :=
  [ mkCmd "l" "sys_ls"; mkCmd "h" "sys_h"; mkCmd "q" "sys_q" ].

Definition CmdTbl : list CmdTbl_t := [
  mkCmd "void md(int addr, int elem_cnt, int elem_size)" "md";
  mkCmd "int cmp(void *addr1, void *addr2, int elem_cnt, int elem_size)" "cmp";
  mkCmd "int sfmd(uint32_t addr, int elem_cnt, int elem_size)" "sfmd";
  mkCmd "int sfmw(uint32_t writeaddr, uint8_t *pbuf, uint32_t num)" "sfmw";
  mkCmd "int sfmc(uint32_t erase_addr, uint32_t erase_mode, uint32_t num)" "sfmc";
  mkCmd "int sfmu(uint32_t start_addr, uint32_t sectors)" "sfmu";
  mkCmd "int flash_init(char *fname)" "flash_init";
  mkCmd "int flash_exit(void)" "flash_exit";
  mkCmd "int flash_flush(void)" "flash_flush";
  mkCmd "int platform_spiffs_init(void)" "platform_spiffs_init";
  mkCmd "int platform_spiffs_exit(int format)" "platform_spiffs_exit";
  mkCmd "int test_list(char *path)" "test_list";
  mkCmd "int test_cat(char *fname)" "test_cat";
  mkCmd "int test_import(char *fname, char *src, int srclen)" "test_import";
  mkCmd "void memset(void *s, int c, size_t n)" "memset";
  mkCmd "void *memcpy(void *s1, const void *s2, size_t n)" "memcpy";
  mkCmd "void *malloc(size_t size)" "malloc";
  mkCmd "void free(void *ptr)" "free";
  mkCmd "long strtol(const char *nptr, char **endptr, int base)" "strtol";
  mkCmd "char *strstr(const char *s1, const char *s2)" "strstr";
  mkCmd "FILE *fopen(const char *file,const char *mode)" "fopen";
  mkCmd "int fclose(File *fp)" "fclose";
  mkCmd "size_t fwrite(const void *p,size_t size,size_t nmemb, FILE *fp)" "fwrite";
  mkCmd "size_t fread(void *p, size_t size, size_t nmenb, FILE *fp)" "fread";
  mkCmd "int strncmp(char *s1,char *s2,int n)" "strncmp";
  mkCmd "int printf(char *fmt,...)" "printf";
  mkCmd "int cJSON_test(void)" "cJSON_test";
  mkCmd "void json_test_init(int select)" "json_test_init";
  mkCmd "void json_test_exit(void)" "json_test_exit";
  mkCmd "void json_struct_print(void *json)" "json_struct_print";
  mkCmd "void create_objects()" "create_objects";
  mkCmd "void tuya_json_test(void)" "tuya_json_test";
  mkCmd "void tuya_json_test2(char *dps_json)" "tuya_json_test2";
  mkCmd "void json_array_test(int i)" "json_array_test";
  mkCmd "void json_test_print(void)" "json_test_print";
  mkCmd "void speech_json_config(void)" "speech_json_config";
  mkCmd "int basicAuth_test(void)" "basicAuth_test";
  mkCmd "int get_test(char *server, uint16_t port, char *url)" "get_test";
  mkCmd "int sslget_test(char *server, uint16_t port, char *url)" "sslget_test";
  mkCmd "int persistent_test(void)" "persistent_test";
  mkCmd "int post_test(void)" "post_test";
  mkCmd "int shoutcast_test(void)" "shoutcast_test";
  mkCmd "int websockets_test(void)" "websockets_test";
  mkCmd "int ssl_client(void)" "ssl_client";
  mkCmd "int ssl_server(void)" "ssl_server";
  mkCmd "int camera_init(void)" "camera_init";
  mkCmd "int camera_exit(void)" "camera_exit";
  mkCmd "int camera_run(char *file)" "camera_run";
  mkCmd "int camera_compress(void)" "camera_compress"
].

Definition CmdSysTblSize : Z := u8 (zlen CmdSysTbl).
Definition CmdTblSize : Z := u8 (zlen CmdTbl).

(** A string literal as the array that holds it. *)
Definition literal (s : string) : list Z := bytes s ++ [0].

(** * The table *)

(** while (pch != NULL): pbrk has room for PARAMS_NUM * 2 pointers. *)
Definition args_num_breaks (str key : list Z) : M shell (list Z) :=
  pch <- access "get_args_num" (strpbrk str 0 key) ;;
  loop (Datatypes.S (Datatypes.S (Z.to_nat (PARAMS_NUM * 2)))) (fun '(pch, pbrk) =>
    match pch with
    | None => ret (inr pbrk)
    | Some p =>
        if zlen pbrk <? PARAMS_NUM * 2 then
          next <- access "get_args_num" (strpbrk str (p + 1) key) ;;
          ret (inl (next, pbrk ++ [p]))
        else stop (Fault "get_args_num")
    end) (pch, []).

(** (  ): while (t != pbrk[1]). *)
Definition args_num_blank (str : list Z) (tail t : Z) : M shell (Z + Z) :=
  if t =? tail then ret (inr 0)
  else
    c <- access "get_args_num" (zget str t) ;;
    if c =? 32 then ret (inl (t + 1)) else ret (inr 1).

Definition get_args_num (str key : list Z) : M shell Z :=
  let site := "get_args_num"%string in
  pbrk <- args_num_breaks str key ;;
  let brk_cnt := zlen pbrk in
  if brk_cnt =? 2 then
    p0 <- access site (zget pbrk 0) ;;
    p1 <- access site (zget pbrk 1) ;;
    void <- access site (strstr str (p0 + 1) (bytes "void")) ;;
    match void with
    | Some _ =>
        star <- access site (strchr str (p0 + 1) 42) ;;
        match star with Some _ => ret 1 | None => ret 0 end
    | None => loop (Datatypes.S (length str)) (args_num_blank str p1) (p0 + 1)
    end
  else if brk_cnt =? 3 then
    p0 <- access site (zget pbrk 0) ;;
    dots <- access site (strstr str p0 (bytes "..")) ;;
    match dots with Some _ => ret (-2) | None => ret (brk_cnt - 1) end
  else ret (brk_cnt - 1).

(** phead-- until the character is not one of [blanks] or until it is. *)
Definition move_back (str : list Z) (blank : Z -> bool) (p : Z) : M shell (Z + Z) :=
  c <- access "get_fname" (zget str p) ;;
  if blank c then ret (inl (p - 1)) else ret (inr p).

Definition get_fname (str : list Z) : M shell (Z * Z) :=
  open <- access "get_fname" (strchr str 0 40) ;;
  open <- access "get_fname" open ;;
  pend <- loop (Datatypes.S (length str)) (move_back str (fun c => (c =? 32) || (c =? 9))) (open - 1) ;;
  phead <- loop (Datatypes.S (length str))
             (move_back str (fun c => negb (c =? 32) && negb (c =? 42) && negb (c =? 9))) pend ;;
  let phead := phead + 1 in
  ret (phead, u8 (pend - phead + 1)).

(** * Parsing a line *)

Section Parser.
Context (base long_bits : Z).

Definition read_line (site : string) (p : Z) : M shell Z :=
  m <- gets line ;; access site (zget m p).
Definition clear_line (site : string) (p : Z) : M shell unit :=
  m <- gets line ;; m <- access site (zset m p 0) ;; modify (set_line m).
Definition write_arg (i v : Z) : M shell unit :=
  a <- gets args ;; a <- access "get_args" (zset a i v) ;; modify (set_args a).

(** (_args_t)p for a pointer into the line. *)
Definition address (p : Z) : Z := s32 (base + p).
(** strtol((char * )(p), NULL, 0) converted to _args_t. *)
Definition strtol_at (p : Z) : M shell Z :=
  m <- gets line ;; s <- access "get_args" (cstr m p) ;; ret (s32 (strtol long_bits s)).

(** while (head != tail) *)
Definition span_isspace (head tail : Z) : M shell Z :=
  loop (Datatypes.S (Z.to_nat (tail - head))) (fun head =>
    if head =? tail then ret (inr 1)
    else
      c <- read_line "span_isspace" head ;;
      ret (if isspace c then inl (head + 1) else inr 0)) head.

(** The separators of the line, PARAMS_NUM * 3 at most. *)
Definition args_breaks (str : Z) (key : list Z) : M shell (list Z) :=
  m <- gets line ;;
  pch <- access "get_args" (strpbrk m str key) ;;
  loop (Datatypes.S (Datatypes.S (Z.to_nat (PARAMS_NUM * 3)))) (fun '(pch, pbrk) =>
    match pch with
    | None => ret (inr pbrk)
    | Some p =>
        if zlen pbrk <? PARAMS_NUM * 3 then
          next <- access "get_args" (strpbrk m (p + 1) key) ;;
          ret (inl (next, pbrk ++ [p]))
        else ret (inr pbrk)
    end) (pch, []).

(** *pbrk[i]; an element that was not stored is not initialised. *)
Definition break_at (pbrk : list Z) (i : Z) : M shell Z := access "get_args" (zget pbrk i).
Definition break_char (pbrk : list Z) (i : Z) : M shell Z :=
  p <- break_at pbrk i ;; read_line "get_args" p.

(** One argument or none: while (t != pbrk[1]). *)
Definition one_arg_body (p0 p1 t : Z) : M shell (Z + unit) :=
  if t =? p1 then ret (inr tt)
  else
    c <- read_line "get_args" t ;;
    if c =? 32 then write_arg 0 0 ;; ret (inl (t + 1))
    else
      write_arg 0 1 ;;
      v <- strtol_at (p0 + 1) ;;
      write_arg 1 v ;; ret (inr tt).

Fixpoint count_quotes (pbrk : list Z) : M shell Z :=
  match pbrk with
  | [] => ret 0
  | p :: pbrk =>
      c <- read_line "get_args" p ;;
      n <- count_quotes pbrk ;;
      ret (if c =? 34 then n + 1 else n)
  end.

Fixpoint clear_breaks (pbrk : list Z) : M shell unit :=
  match pbrk with
  | [] => ret tt
  | p :: pbrk => clear_line "get_args" p ;; clear_breaks pbrk
  end.

Fixpoint store_ints (i : Z) (pbrk : list Z) : M shell unit :=
  match pbrk with
  | [] => ret tt
  | p :: pbrk =>
      v <- strtol_at (p + 1) ;;
      write_arg (i + 1) v ;; store_ints (i + 1) pbrk
  end.

(** The states that case 0 of the switch goes to, and the new i. *)
Inductive arg_kind : Type := Int_arg (i : Z) | Str_arg (i : Z).

(** case 0: when no condition holds, while (finding) goes round for ever. *)
Definition find_arg (pbrk : list Z) (i : Z) : M shell arg_kind :=
  next <- break_char pbrk (i + 1) ;;
  if i =? 0 then
    if next =? 34 then ret (Str_arg (i + 1))
    else if next =? 44 then ret (Int_arg i)
    else stop (Hang "get_args")
  else
    c <- break_char pbrk i ;;
    if c =? 44 then
      if (next =? 44) || (next =? 41) then ret (Int_arg i)
      else if next =? 34 then ret (Str_arg (i + 1))
      else stop (Hang "get_args")
    else stop (Hang "get_args").

(** while ( *pbrk[i] != QUOTE) i++ *)
Definition next_quote (pbrk : list Z) (i : Z) : M shell Z :=
  loop (Datatypes.S (length pbrk)) (fun i =>
    c <- break_char pbrk i ;; ret (if c =? 34 then inr i else inl (i + 1))) i.

(** One round of while (!is_string_end). *)
Definition string_end_body (pbrk : list Z) (i : Z) : M shell (Z + Z) :=
  i <- next_quote pbrk (i + 1) ;;
  let i := i + 1 in
  quote <- break_at pbrk (i - 1) ;;
  if zlen pbrk - 1 <=? i then clear_line "get_args" quote ;; ret (inr i)
  else
    p <- break_at pbrk i ;;
    c <- read_line "get_args" p ;;
    if c =? 44 then
      blank <- span_isspace (quote + 1) p ;;
      if negb (blank =? 0) then clear_line "get_args" quote ;; ret (inr i)
      else i <- next_quote pbrk (i + 1) ;; ret (inl i)
    else ret (inl i).

(** One round of while (i < brk_cnt - 1). *)
Definition args_body (pbrk : list Z) (l : Z * Z) : M shell (Z * Z + Z) :=
  let '(i, args_cnt) := l in
  if i <? zlen pbrk - 1 then
    kind <- find_arg pbrk i ;;
    match kind with
    | Int_arg i =>
        p <- break_at pbrk i ;;
        v <- strtol_at (p + 1) ;;
        write_arg args_cnt v ;; ret (inl (i + 1, args_cnt + 1))
    | Str_arg i =>
        p <- break_at pbrk i ;;
        write_arg args_cnt (address (p + 1)) ;;
        i <- loop (Datatypes.S (length pbrk)) (string_end_body pbrk) i ;;
        ret (inl (i, args_cnt + 1))
    end
  else ret (inr args_cnt).

(** Three separators or more; the result tells whether the function has
    returned before the end of get_args. *)
Definition many_args (pbrk : list Z) : M shell bool :=
  quotation_cnt <- count_quotes (tail pbrk) ;;
  if quotation_cnt =? 0 then
    clear_breaks pbrk ;;
    store_ints 0 pbrk ;;
    write_arg 0 (zlen pbrk - 1) ;; ret true
  else if negb (quotation_cnt mod 2 =? 0) then write_arg 0 (-2) ;; ret true
  else
    args_cnt <- loop (Datatypes.S (length pbrk)) (args_body pbrk) (0, 1) ;;
    write_arg 0 (args_cnt - 1) ;; ret false.

Definition get_args (str : Z) (key : list Z) : M shell unit :=
  pbrk <- args_breaks str key ;;
  let brk_cnt := zlen pbrk in
  if brk_cnt =? 0 then write_arg 0 (-1)
  else if brk_cnt =? 1 then write_arg 0 (-2)
  else
    p0 <- break_at pbrk 0 ;;
    first <- read_line "get_args" p0 ;;
    final <- break_char pbrk (brk_cnt - 1) ;;
    if (first =? 40) && (final =? 41) then
      write_arg 0 0 ;;
      returned <- (if brk_cnt =? 2 then
                     p1 <- break_at pbrk 1 ;;
                     loop (Datatypes.S (Z.to_nat (p1 - p0))) (one_arg_body p0 p1) (p0 + 1) ;; ret false
                   else many_args pbrk) ;;
      if returned : bool then ret tt else clear_line "get_args" p0
    else write_arg 0 (-2).
End Parser.

(** * Executing a line *)

(** The formats are written without the final newline. *)
Definition PRINTF (format : string) (values : list Z) : M shell unit :=
  modify (add_event (Printf format values)).

Definition sys_ls : M shell unit :=
  PRINTF "------------- function list --------------" [] ;;
  modify (fun s => mkShell (line s) (args s) (login_flag s)
    (events s ++ map (fun c => Listed (pfunc c) (fname c)) 
      (take (Z.to_nat CmdSysTblSize) CmdSysTbl ++ take (Z.to_nat CmdTblSize) CmdTbl))) ;;
  PRINTF "-------------------------------------------" [].

Definition sys_h : M shell unit :=
  modify (fun s => mkShell (line s) (args s) (login_flag s) (events s ++ map (fun l => Printf l []) [
    "---------------------------------------------";
    "fcmd v1.0.4  Robin Zhou";
    "Usage:";
    "  md(0x00141280, 512, 1)";
    "  memset(0x00141280, 65, 512)";
    "  malloc(1024)";
    "  free(0x00141280)";
    "---------------------------------------------"]%string)).
Definition sys_q : M shell unit := modify (set_login_flag 0).

(** The call through the pointer of CmdSysTbl. *)
Definition call_system (pfunc : string) : M shell unit :=
  if String.eqb pfunc "sys_ls" then sys_ls
  else if String.eqb pfunc "sys_h" then sys_h
  else sys_q.

(** (strncmp(pcmd, fname, strlen(pcmd)) == 0 for the first entry *)
Definition find_system (pcmd : list Z) : option CmdTbl_t :=
  List.find (fun c => strn_eq (length pcmd) pcmd (bytes (fname c)))
    (take (Z.to_nat CmdSysTblSize) CmdSysTbl).

(** while ( *pcmd_end == ' ') --pcmd_end *)
Definition command_end (p : Z) : M shell (Z + Z) :=
  c <- read_line "fcmd_exec" p ;; ret (if c =? 32 then inl (p - 1) else inr p).

(** The comparison of the line with an entry of CmdTbl. *)
Definition name_matches (pcmd : Z) (c : CmdTbl_t) : M shell bool :=
  let str := literal (fname c) in
  let* (pfname, pfname_len) := get_fname str in
  m <- gets line ;;
  cmd <- access "fcmd_exec" (cstr m pcmd) ;;
  pcmd_end <- loop (Datatypes.S (Z.to_nat (pcmd + zlen cmd))) command_end (pcmd + zlen cmd - 1) ;;
  let pcmd_len := u8 (pcmd_end - pcmd + 1) in
  name <- access "fcmd_exec" (cstr str pfname) ;;
  ret (strn_eq (Z.to_nat (if pfname_len <? pcmd_len then pcmd_len else pfname_len)) name cmd).

Fixpoint find_command (pcmd : Z) (l : list CmdTbl_t) : M shell (option CmdTbl_t) :=
  match l with
  | [] => ret None
  | c :: l =>
      b <- name_matches pcmd c ;;
      if b : bool then ret (Some c) else find_command pcmd l
  end.

(** The login: the identification, an @ and the password, exactly. *)
Definition login_matches (cmd : list Z) : bool :=
  (zlen cmd =? zlen login_id + zlen login_passwd + 1) &&
  is_prefix login_id cmd &&
  bool_decide (zget cmd (zlen login_id) = Some 64) &&
  is_prefix login_passwd (drop (Z.to_nat (zlen login_id + 1)) cmd).

(** memset(args, 0, PARAMS_NUM + 1): 11 bytes, two ints and a part of the third. *)
Definition memset_args (a : list Z) : list Z :=
  match a with
  | _ :: _ :: a2 :: a => 0 :: 0 :: s32 (Z.land (u32 a2) 0xFF000000) :: a
  | _ => a
  end.

Section Exec.
Context (base long_bits : Z) (uninit_args : list Z) (call : list event -> Z).

(** ret = ( *pfunc)(args[1], ...) *)
Definition call_function (c : CmdTbl_t) (n : Z) : M shell Z :=
  a <- gets args ;;
  m <- gets line ;;
  e <- gets events ;;
  modify (add_event (Called (pfunc c) (zsub a 1 n) m)) ;;
  ret (s32 (call (e ++ [Called (pfunc c) (zsub a 1 n) m]))).

Definition exec_function (c : CmdTbl_t) (n : Z) : M shell unit :=
  cmdtbl_param_num <- get_args_num (literal (fname c)) (bytes "(,)") ;;
  if negb (cmdtbl_param_num =? -2) && negb (cmdtbl_param_num =? n) then PRINTF "err:param err" []
  else
    r <- (if (0 <=? n) && (n <=? PARAMS_NUM) then call_function c n
          else PRINTF "err:params num err" [] ;; ret 0) ;;
    PRINTF "=0x%08x,%d;" [r; r].

(** The separators "(,)" and the quote. *)
Definition separators : list Z := [40; 44; 41; 34].

Definition exec_line (pcmd : Z) : M shell unit :=
  modify (set_args (memset_args uninit_args)) ;;
  get_args base long_bits pcmd separators ;;
  a <- gets args ;;
  n <- access "fcmd_exec" (zget a 0) ;;
  if n =? -2 then PRINTF "err:fmt err" []
  else if n =? -1 then
    m <- gets line ;;
    cmd <- access "fcmd_exec" (cstr m pcmd) ;;
    match find_system cmd with
    | None => PRINTF "err:system cmd err" []
    | Some c => call_system (pfunc c)
    end
  else
    found <- find_command pcmd (take (Z.to_nat CmdTblSize) CmdTbl) ;;
    match found with
    | None => PRINTF "err:no such cmd" []
    | Some c => exec_function c n
    end.

(** while ( *pcmd == ' ') pcmd++ *)
Definition skip_blanks (p : Z) : M shell (Z + Z) :=
  c <- read_line "fcmd_exec" p ;; ret (if c =? 32 then inl (p + 1) else inr p).

Definition fcmd_exec (cmd : list Z) : M shell unit :=
  modify (set_line cmd) ;;
  c <- read_line "fcmd_exec" 0 ;;
  if c =? 0 then ret tt
  else
    pcmd <- loop (Datatypes.S (length cmd)) skip_blanks 0 ;;
    flag <- gets login_flag ;;
    if flag =? 0 then
      s <- access "fcmd_exec" (cstr cmd pcmd) ;;
      if login_matches s
      then modify (set_login_flag 1) ;; PRINTF "Hello World!" []
      else ret tt
    else exec_line pcmd.

(** main of main.c: a line after the other until readline returns NULL. *)
Fixpoint shell_main (inputs : list (list Z)) : M shell Z :=
  match inputs with
  | [] => ret 0
  | input :: inputs => fcmd_exec input ;; shell_main inputs
  end.
End Exec.
