(* ===== verification/FcmdFacts.v ===== *)
(** Lines of the form name(argument, ...): a reference for what they mean, and
    that get_args finds these arguments. *)

From S2P Require Import Prelude.
From S2P Require Import CMonad.
From S2P Require Import CString.
From S2P Require Import Fcmd.

(** * Texts *)

Definition is_sep (c : Z) : bool := one_of separators c.
(** A character that is no separator and not the end of the string. *)
Definition plain (c : Z) : Prop := is_sep c = false /\ c <> 0.

(** An argument as it is typed: a number, or a string in quotes with something
    before and after. *)
Inductive argument : Type :=
| Num (text : list Z)
| Str (before body after : list Z).

Definition argument_text (a : argument) : list Z :=
  match a with
  | Num t => t
  | Str b s t => b ++ [34] ++ s ++ [34] ++ t
  end.

(** Characters without a quote and without the end of the string. *)
Definition unquoted (s : list Z) : Prop := Forall (fun c => c <> 34 /\ c <> 0) s.

(** What may stand between the quotes of a pair inside a string: no separators,
    or a comma as the first one, behind something that is not white space. *)
Definition pair_ok (m : list Z) : Prop :=
  unquoted m /\
  (Forall plain m \/
   exists x y, m = x ++ 44 :: y /\ Forall plain x /\ Exists (fun c => isspace c = false) x).

(** The characters of a string: quotes come in pairs. *)
Inductive body_ok : list Z -> Prop :=
| body_last s : unquoted s -> body_ok s
| body_pair s m body :
    unquoted s -> pair_ok m -> body_ok body -> body_ok (s ++ 34 :: m ++ 34 :: body).

(** A number is not blank; only white space stands between a string and the
    next separator. *)
Definition argument_ok (a : argument) : Prop :=
  match a with
  | Num t => Forall plain t /\ Exists (fun c => c <> 32) t
  | Str b s t => Forall plain b /\ body_ok s /\ Forall (fun c => isspace c = true) t
  end.

Definition is_str (a : argument) : bool := match a with Str _ _ _ => true | Num _ => false end.

(** The arguments, each with the comma before it. *)
Fixpoint more_text (l : list argument) : list Z :=
  match l with
  | [] => []
  | a :: l => [44] ++ argument_text a ++ more_text l
  end.

Definition list_text (l : list argument) : list Z :=
  match l with
  | [] => []
  | a :: l => argument_text a ++ more_text l
  end.

(** What an argument becomes when its text stands at [p]: the number, or the
    address of the first character of the string. *)
Definition argument_value (base long_bits p : Z) (a : argument) : Z :=
  match a with
  | Num t => s32 (strtol long_bits t)
  | Str b _ _ => address base (p + zlen b + 1)
  end.

(** The string of an argument at [p] is in memory, terminated. *)
Definition argument_stored (m : list Z) (p : Z) (a : argument) : Prop :=
  match a with
  | Num _ => True
  | Str b s _ => cstr m (p + zlen b + 1) = Some s
  end.

(** The elements of [argv] from [k] on are the arguments typed from [p] on. *)
Fixpoint arguments_at (base long_bits : Z) (m argv : list Z) (k p : Z) (l : list argument) : Prop :=
  match l with
  | [] => True
  | a :: l =>
      zget argv k = Some (argument_value base long_bits p a) /\ argument_stored m p a /\
      arguments_at base long_bits m argv (k + 1) (p + zlen (argument_text a) + 1) l
  end.

Lemma unquoted_nonzero s : unquoted s -> Forall (fun c => c <> 0) s.
Proof. intros H. eapply Forall_impl; [exact H|]. by intros c []. Qed.

Lemma body_nonzero s : body_ok s -> Forall (fun c => c <> 0) s.
Proof.
  induction 1 as [s Hs|s m body Hs [Hm _] _ IH]; [by apply unquoted_nonzero|].
  rewrite Forall_app, Forall_cons, Forall_app, Forall_cons.
  split_and!; try done; by apply unquoted_nonzero.
Qed.

(** The positions of the separators of [s], which begins at [p]. *)
Fixpoint breaks_from (p : Z) (s : list Z) : list Z :=
  match s with
  | [] => []
  | c :: s => if is_sep c then p :: breaks_from (p + 1) s else breaks_from (p + 1) s
  end.

(** * Separators *)

Lemma plain_nonzero s : Forall plain s -> Forall (fun c => c <> 0) s.
Proof. intros H. eapply Forall_impl; [exact H|]. by intros c []. Qed.

Lemma sep_cases c : is_sep c = true -> c = 40 \/ c = 44 \/ c = 41 \/ c = 34.
Proof.
  unfold is_sep, one_of, separators. cbn [existsb].
  rewrite !orb_true_iff, !Z.eqb_eq. intuition discriminate.
Qed.

Lemma space_plain c : isspace c = true -> plain c.
Proof.
  unfold isspace, plain, is_sep, one_of, separators. cbn [existsb].
  rewrite orb_true_iff, andb_true_iff, Z.eqb_eq, !Z.leb_le. intros H.
  repeat (rewrite (proj2 (Z.eqb_neq _ _)) by lia). split; [done|lia].
Qed.

Lemma breaks_app p a b : breaks_from p (a ++ b) = breaks_from p a ++ breaks_from (p + zlen a) b.
Proof.
  revert p. induction a as [|c a IH]; intros p; cbn [app breaks_from].
  - by rewrite zlen_nil, Z.add_0_r.
  - rewrite zlen_cons, IH. replace (p + (zlen a + 1)) with (p + 1 + zlen a) by lia.
    by destruct (is_sep c).
Qed.

Lemma breaks_plain p s : Forall plain s -> breaks_from p s = [].
Proof. intros H. revert p. induction H as [|c s [Hc _] H IH]; intros p; cbn [breaks_from]; [done|]. by rewrite Hc. Qed.

Lemma find_char_range f s k : find_char f s = Some k -> 0 <= k < zlen s.
Proof.
  revert k. induction s as [|c s IH]; intros k; cbn; [done|]. rewrite zlen_cons.
  pose proof (zlen_nonneg s).
  destruct (f c); [intros [= <-]; lia|].
  destruct (find_char f s) as [j|]; cbn; [|done]. intros [= <-]. specialize (IH _ eq_refl). lia.
Qed.

(** strpbrk stops at the first separator. *)
Lemma breaks_find p s :
  breaks_from p s = match find_char is_sep s with
                    | None => []
                    | Some k => p + k :: breaks_from (p + k + 1) (drop (Z.to_nat (k + 1)) s)
                    end.
Proof.
  revert p. induction s as [|c s IH]; intros p; cbn [breaks_from find_char]; [done|].
  destruct (is_sep c) eqn:E.
  - rewrite Z.add_0_r. done.
  - rewrite IH. destruct (find_char is_sep s) as [k|] eqn:F; cbn [fmap option_fmap option_map]; [|done].
    pose proof (find_char_range _ _ _ F).
    replace (p + Z.succ k) with (p + 1 + k) by lia. f_equal.
    replace (Z.to_nat (Z.succ k + 1)) with (Datatypes.S (Z.to_nat (k + 1))) by lia. done.
Qed.

Section Breaks.
Context (E : failure -> Prop).

(** The separators that get_args stores. *)
Lemma wpg_args_breaks str t Q s :
  cstr (line s) str = Some t -> (length (breaks_from str t) <= 30)%nat ->
  Q (breaks_from str t) s -> wpg E (args_breaks str separators) Q s.
Proof.
  intros Ht Hl HQ. unfold args_breaks. wp_steps. unfold strpbrk at 1. rewrite Ht.
  cbn [mbind option_bind]. wp_steps.
  assert (forall fuel p u acc, cstr (line s) p = Some u ->
            acc ++ breaks_from p u = breaks_from str t -> (length (breaks_from p u) < fuel)%nat ->
            wpg E (loop fuel (fun '(pch, pbrk) =>
              match pch with
              | None => ret (inr pbrk)
              | Some p =>
                  if zlen pbrk <? PARAMS_NUM * 3 then
                    next <- access "get_args" (strpbrk (line s) (p + 1) separators) ;;
                    ret (inl (next, pbrk ++ [p]))
                  else ret (inr pbrk)
              end) (Z.add p <$> find_char is_sep u, acc)) Q s) as H.
  { intros fuel. induction fuel as [|fuel IH]; intros p u acc Hp Hacc Hfuel; [lia|].
    rewrite breaks_find in Hacc, Hfuel. apply wpg_loop_S. cbn beta iota.
    destruct (find_char is_sep u) as [k|] eqn:F; cbn [fmap option_fmap option_map].
    - pose proof (find_char_range _ _ _ F). cbn [length] in Hfuel.
      pose proof (cstr_advance _ _ _ (k + 1) Hp ltac:(lia)) as Hn.
      destruct (Z.ltb_spec (zlen acc) (PARAMS_NUM * 3)) as [_|Hge].
      + wp_steps. unfold strpbrk. rewrite <- Z.add_assoc, Hn. cbn [mbind option_bind].
        wp_steps. rewrite Z.add_assoc in Hn |- *. apply IH; [done| |lia].
        rewrite <- app_assoc. done.
      + apply (f_equal length) in Hacc. rewrite length_app in Hacc. cbn [length] in Hacc.
        unfold zlen, PARAMS_NUM in Hge. lia.
    - wp_steps. rewrite app_nil_r in Hacc. by subst. }
  apply (H _ str t []); [done|done|]. unfold PARAMS_NUM. lia.
Qed.
End Breaks.

(** * strtol stops at a separator *)

Lemma sep_facts c : is_sep c = true -> isspace c = false /\ digit_value c = 36 /\ c <> 0.
Proof. intros [->|[->|[->| ->]]]%sep_cases; done. Qed.

Lemma digits_sep base acc t c r :
  base <= 36 -> digit_value c = 36 -> digits base acc (t ++ c :: r) = digits base acc t.
Proof.
  intros Hb Hc. revert acc. induction t as [|x t IH]; intros acc; cbn [app digits].
  - rewrite Hc. destruct (Z.ltb_spec 36 base); [lia|done].
  - by rewrite IH.
Qed.

Lemma strtol_unsigned_sep t c r :
  is_sep c = true -> strtol_unsigned (t ++ c :: r) = strtol_unsigned t.
Proof.
  intros Hs. pose proof (sep_facts _ Hs) as (_ & Hd & _).
  assert ((c =? 48) = false /\ (c =? 120) = false /\ (c =? 88) = false) as (H0 & Hx & HX)
    by (destruct (sep_cases _ Hs) as [->|[->|[->| ->]]]; done).
  unfold strtol_unsigned. destruct t as [|x t]; cbn [app].
  - rewrite H0. cbn [digits]. by rewrite Hd.
  - destruct (Z.eqb_spec x 48) as [->|_].
    2: { rewrite (app_comm_cons t (c :: r) x). by apply digits_sep. }
    assert (digits 8 0 ((48 :: t) ++ c :: r) = digits 8 0 (48 :: t)) as H8 by (by apply digits_sep).
    destruct t as [|y t]; cbn [app] in *.
    + rewrite Hx, HX. cbn [orb andb]. by destruct r.
    + destruct t as [|d t]; cbn [app] in *.
      * rewrite Hd. change (36 <? 16) with false. rewrite andb_false_r. done.
      * destruct (_ && _); [|done]. rewrite (app_comm_cons t (c :: r) d). by apply digits_sep.
Qed.

Lemma skip_space_sep t c r : isspace c = false -> skip_space (t ++ c :: r) = skip_space t ++ c :: r.
Proof.
  intros Hc. induction t as [|x t IH]; cbn [app skip_space]; [by rewrite Hc|].
  by destruct (isspace x).
Qed.

Lemma strtol_sep long_bits t c r :
  1 <= long_bits -> is_sep c = true -> strtol long_bits (t ++ c :: r) = strtol long_bits t.
Proof.
  intros Hb Hs. pose proof (sep_facts _ Hs) as (Hsp & _ & _).
  unfold strtol. rewrite skip_space_sep by done.
  destruct (skip_space t) as [|x u] eqn:E; cbn [app].
  - change (c :: r) with ([] ++ c :: r). rewrite strtol_unsigned_sep by done.
    assert ((c =? 45) = false /\ (c =? 43) = false) as [-> ->]
      by (destruct (sep_cases _ Hs) as [->|[->|[->| ->]]]; done).
    cbn [strtol_unsigned]. apply saturate_small.
    pose proof (Z.pow_pos_nonneg 2 (long_bits - 1) ltac:(lia) ltac:(lia)). lia.
  - rewrite (app_comm_cons u (c :: r) x), !strtol_unsigned_sep by done. done.
Qed.

(** * The operations on the line and on args *)

Section Ops.
Context (E : failure -> Prop) (base long_bits : Z).

Lemma wpg_read_line site p c Q s :
  zget (line s) p = Some c -> Q c s -> wpg E (read_line site p) Q s.
Proof. intros H HQ. unfold read_line. wp_steps. by rewrite H. Qed.

Lemma wpg_clear_line site p Q s :
  0 <= p < zlen (line s) -> Q tt (set_line (<[Z.to_nat p := 0]> (line s)) s) ->
  wpg E (clear_line site p) Q s.
Proof. intros H HQ. unfold clear_line. wp_steps. rewrite zset_is_Some by done. by wp_steps. Qed.

Lemma wpg_write_arg i v Q s :
  0 <= i < zlen (args s) -> Q tt (set_args (<[Z.to_nat i := v]> (args s)) s) ->
  wpg E (write_arg i v) Q s.
Proof. intros H HQ. unfold write_arg. wp_steps. rewrite zset_is_Some by done. by wp_steps. Qed.

Lemma wpg_strtol_at p t Q s :
  cstr (line s) p = Some t -> Q (s32 (strtol long_bits t)) s -> wpg E (strtol_at long_bits p) Q s.
Proof. intros H HQ. unfold strtol_at. wp_steps. rewrite H. by wp_steps. Qed.

Lemma wpg_break_at pbrk i p Q s :
  zget pbrk i = Some p -> Q p s -> wpg E (break_at pbrk i) Q s.
Proof. intros H HQ. unfold break_at. by rewrite H. Qed.

Lemma wpg_break_char pbrk i p c Q s :
  zget pbrk i = Some p -> zget (line s) p = Some c -> Q c s -> wpg E (break_char pbrk i) Q s.
Proof.
  intros Hi Hp HQ. unfold break_char. apply wpg_bind, (wpg_break_at _ _ p); [done|].
  by apply (wpg_read_line _ _ c).
Qed.

Lemma wpg_span_isspace head t p Q s :
  holds (line s) head t -> Forall (fun c => isspace c = true) t -> p = head + zlen t ->
  Q 1 s -> wpg E (span_isspace head p) Q s.
Proof.
  intros Hm Ht -> HQ. unfold span_isspace. pose proof (zlen_nonneg t).
  replace (Z.to_nat (head + zlen t - head)) with (length t) by (unfold zlen; lia).
  set (e := head + zlen t). assert (e = head + zlen t) as He by done. clearbody e.
  revert head Hm He. induction Ht as [|c t Hc Ht IH]; intros head Hm He; apply wpg_loop_S.
  - rewrite zlen_nil, Z.add_0_r in He. rewrite He, Z.eqb_refl. by apply wpg_ret.
  - rewrite zlen_cons in He. pose proof (zlen_nonneg t). destruct (Z.eqb_spec head e); [lia|].
    destruct Hm as [Hm0 Hm]. apply wpg_bind, (wpg_read_line _ _ c); [done|].
    rewrite Hc. apply wpg_ret, IH; [lia|done|lia].
Qed.

(** Something that is not white space stops it. *)
Lemma wpg_span_text head t p Q s :
  holds (line s) head t -> Exists (fun c => isspace c = false) t -> p = head + zlen t ->
  Q 0 s -> wpg E (span_isspace head p) Q s.
Proof.
  intros Hm Ht -> HQ. unfold span_isspace. pose proof (zlen_nonneg t).
  replace (Z.to_nat (head + zlen t - head)) with (length t) by (unfold zlen; lia).
  set (e := head + zlen t). assert (e = head + zlen t) as He by done. clearbody e.
  revert head Hm He. induction Ht as [c t Hc|c t Ht IH]; intros head [Hm0 Hm] He; apply wpg_loop_S;
    rewrite zlen_cons in He; pose proof (zlen_nonneg t); (destruct (Z.eqb_spec head e); [lia|]);
    (apply wpg_bind, (wpg_read_line _ _ c); [done|]).
  - rewrite Hc. by apply wpg_ret.
  - destruct (isspace c); [|by apply wpg_ret]. apply wpg_ret, IH; [apply zlen_nonneg|done|lia].
Qed.

(** The next quote in a list of separators. *)
Lemma wpg_next_quote before skipped q rest Q s :
  Forall (fun p => exists c, zget (line s) p = Some c /\ c <> 34) skipped ->
  zget (line s) q = Some 34 -> Q (zlen before + zlen skipped) s ->
  wpg E (next_quote (before ++ skipped ++ q :: rest) (zlen before)) Q s.
Proof.
  intros Hsk Hq HQ. unfold next_quote.
  set (fuel := Datatypes.S (length (before ++ skipped ++ q :: rest))).
  assert (length skipped < fuel)%nat as Hf by (unfold fuel; rewrite !length_app; lia).
  clearbody fuel. revert fuel Hf before HQ.
  induction Hsk as [|p sk (c & Hp & Hc) Hsk IH]; intros [|fuel] Hf before HQ;
    cbn [length app] in *; try lia; apply wpg_loop_S, wpg_bind.
  - apply (wpg_break_char _ _ q 34); [|done|].
    { by rewrite zget_app_r, Z.sub_diag by lia. }
    apply wpg_ret. rewrite zlen_nil, Z.add_0_r in HQ. exact HQ.
  - apply (wpg_break_char _ _ p c); [|done|].
    { by rewrite zget_app_r, Z.sub_diag by lia. }
    destruct (Z.eqb_spec c 34); [done|]. apply wpg_ret.
    specialize (IH fuel ltac:(lia) (before ++ [p])). rewrite zlen_app, <- app_assoc in IH.
    apply IH. rewrite zlen_cons in HQ. change (zlen [p]) with 1.
    by replace (zlen before + 1 + zlen sk) with (zlen before + (zlen sk + 1)) by lia.
Qed.
End Ops.

(** * One argument *)

(** The closing quote of a string at [p] is overwritten. *)
Definition closed (m : list Z) (p : Z) (a : argument) : list Z :=
  match a with
  | Num _ => m
  | Str b s _ => <[Z.to_nat (p + zlen b + 1 + zlen s) := 0]> m
  end.

Lemma holds_cons {A} (l : list A) i v d : holds l i (v :: d) <-> zget l i = Some v /\ holds l (i + 1) d.
Proof. done. Qed.

Lemma holds_app2 {A} (l : list A) i a v d :
  holds l i (a ++ v :: d) <->
  holds l i a /\ zget l (i + zlen a) = Some v /\ holds l (i + zlen a + 1) d.
Proof. by rewrite holds_app. Qed.

Lemma holds_tail {A} (a b : list A) : holds (a ++ b) (zlen a) b.
Proof. pose proof (holds_self (a ++ b)) as H. by apply holds_app in H as [_ H]. Qed.

Lemma zlen_str b s t : zlen (argument_text (Str b s t)) = zlen b + 1 + zlen s + 1 + zlen t.
Proof. cbn [argument_text]. rewrite !zlen_app. change (zlen [34]) with 1. lia. Qed.

Lemma breaks_str p b s t :
  argument_ok (Str b s t) ->
  breaks_from p (argument_text (Str b s t)) =
    p + zlen b :: breaks_from (p + zlen b + 1) s ++ [p + zlen b + 1 + zlen s].
Proof.
  intros (Hb & _ & Ht). cbn [argument_text]. rewrite !breaks_app. cbn [breaks_from].
  change (is_sep 34) with true. cbn iota. rewrite (breaks_plain _ b) by done.
  rewrite (breaks_plain _ t) by (eapply Forall_impl; [exact Ht|]; apply space_plain).
  change (zlen [34]) with 1. done.
Qed.

Lemma breaks_num p t : argument_ok (Num t) -> breaks_from p (argument_text (Num t)) = [].
Proof. intros [H _]. by apply breaks_plain. Qed.

(** The separators inside a string are not quotes. *)
Lemma breaks_inside m p s :
  holds m p s -> Forall (fun c => c <> 34 /\ c <> 0) s ->
  Forall (fun q => exists c, zget m q = Some c /\ c <> 34) (breaks_from p s).
Proof.
  intros Hm Hs. revert p Hm. induction Hs as [|c s [Hc _] Hs IH]; intros p Hm; cbn [breaks_from];
    [constructor|].
  apply holds_cons in Hm as [Hc0 Hm]. destruct (is_sep c); [|by apply IH].
  constructor; [by exists c|by apply IH].
Qed.

Section Round.
Context (E : failure -> Prop) (base long_bits : Z) (Hlong : 1 <= long_bits).

(** The first break of what follows the break at [p]. *)
Definition arg_separators (before : list Z) (c0 c1 : Z) : Prop :=
  (before = [] /\ c1 = 44) \/ (before <> [] /\ c0 = 44 /\ (c1 = 44 \/ c1 = 41)).

Lemma wpg_find_num before p q rest c0 c1 Q s :
  zget (line s) p = Some c0 -> zget (line s) q = Some c1 -> arg_separators before c0 c1 ->
  Q (Int_arg (zlen before)) s -> wpg E (find_arg (before ++ p :: q :: rest) (zlen before)) Q s.
Proof.
  intros Hp Hq Hsep HQ. pose proof (zlen_nonneg before). unfold find_arg.
  apply wpg_bind, (wpg_break_char _ _ _ q c1); [|done|].
  { rewrite zget_app_r by lia. by replace (_ + 1 - _) with 1 by lia. }
  destruct Hsep as [[-> ->]|(Hne & -> & Hc)]; [by apply wpg_ret|].
  destruct (Z.eqb_spec (zlen before) 0) as [Hz|_]; [by apply zlen_zero_nil in Hz|].
  apply wpg_bind, (wpg_break_char _ _ _ p 44); [|done|].
  { by rewrite zget_app_r, Z.sub_diag by lia. }
  change (44 =? 44) with true. destruct Hc as [->| ->]; by apply wpg_ret.
Qed.

Lemma wpg_find_str before p q rest c0 Q s :
  zget (line s) p = Some c0 -> zget (line s) q = Some 34 -> before = [] \/ c0 = 44 ->
  Q (Str_arg (zlen before + 1)) s -> wpg E (find_arg (before ++ p :: q :: rest) (zlen before)) Q s.
Proof.
  intros Hp Hq Hsep HQ. pose proof (zlen_nonneg before). unfold find_arg.
  apply wpg_bind, (wpg_break_char _ _ _ q 34); [|done|].
  { rewrite zget_app_r by lia. by replace (_ + 1 - _) with 1 by lia. }
  destruct (Z.eqb_spec (zlen before) 0) as [Hz|Hz]; [by apply wpg_ret|].
  destruct Hsep as [->| ->]; [done|].
  apply wpg_bind, (wpg_break_char _ _ _ p 44); [|done|by apply wpg_ret].
  by rewrite zget_app_r, Z.sub_diag by lia.
Qed.

Lemma wpg_num_round before p c0 t c1 u rest k Q s :
  holds (line s) p (c0 :: t ++ c1 :: u ++ [0]) -> 0 <= p ->
  Forall plain t -> Forall (fun c => c <> 0) u -> arg_separators before c0 c1 ->
  0 <= k < zlen (args s) ->
  Q (inl (zlen before + 1, k + 1)) (set_args (<[Z.to_nat k := s32 (strtol long_bits t)]> (args s)) s) ->
  wpg E (args_body base long_bits (before ++ p :: p + 1 + zlen t :: rest) (zlen before, k)) Q s.
Proof.
  intros Hm Hp Ht Hu Hsep Hk HQ. pose proof (zlen_nonneg before). pose proof (zlen_nonneg rest).
  apply holds_cons in Hm as [Hc0 Hm]. pose proof Hm as Hm'.
  apply holds_app2 in Hm' as (_ & Hc1 & _).
  assert (is_sep c1 = true) as Hs1 by (destruct Hsep as [[_ ->]|(_ & _ & [->| ->])]; done).
  assert (cstr (line s) (p + 1) = Some (t ++ c1 :: u)) as Hstr.
  { apply holds_cstr; [lia| |].
    - by rewrite <- app_assoc.
    - apply Forall_app. split; [by apply plain_nonzero|]. constructor; [|done].
      by destruct (sep_facts _ Hs1) as (_ & _ & ?). }
  unfold args_body. rewrite zlen_app, !zlen_cons.
  destruct (Z.ltb_spec (zlen before) (zlen before + (zlen rest + 1 + 1) - 1)); [|lia].
  apply wpg_bind, (wpg_find_num _ _ _ _ c0 c1); [done..|].
  apply wpg_bind, (wpg_break_at _ _ _ p); [by rewrite zget_app_r, Z.sub_diag by lia|].
  apply wpg_bind, (wpg_strtol_at _ _ _ (t ++ c1 :: u)); [done|].
  rewrite strtol_sep by done. apply wpg_bind, wpg_write_arg; [done|]. by apply wpg_ret.
Qed.

(** The end of a string: the next quote, before a comma or at the end. *)
Lemma wpg_string_end before inner q e rest t c1 Q s :
  Forall (fun p => exists c, zget (line s) p = Some c /\ c <> 34) inner ->
  holds (line s) q (34 :: t ++ [c1]) -> Forall (fun c => isspace c = true) t ->
  e = q + 1 + zlen t -> c1 = 44 \/ rest = [] -> 0 <= q ->
  Q (inr (zlen before + zlen inner + 1)) (set_line (<[Z.to_nat q := 0]> (line s)) s) ->
  wpg E (string_end_body (before ++ inner ++ q :: e :: rest) (zlen before - 1)) Q s.
Proof.
  intros Hi Hm Ht -> Hc Hq HQ. pose proof (zlen_nonneg before). pose proof (zlen_nonneg inner).
  pose proof Hm as [Hq0 Ht0]. apply holds_app in Ht0 as [Ht0 [Hc1 _]].
  apply zget_Some_range in Hq0 as Hqr.
  unfold string_end_body. replace (zlen before - 1 + 1) with (zlen before) by lia.
  apply wpg_bind, wpg_next_quote; [done|done|].
  set (pbrk := before ++ _). set (i := zlen before + zlen inner + 1).
  assert (zget pbrk (i - 1) = Some q /\ zget pbrk i = Some (q + 1 + zlen t)) as [H1 H2].
  { unfold pbrk, i. rewrite app_assoc, !(zget_app_r (before ++ inner)) by (rewrite zlen_app; lia).
    rewrite zlen_app. split; [by replace (_ - _) with 0 by lia|by replace (_ - _) with 1 by lia]. }
  cbn beta zeta. apply wpg_bind, (wpg_break_at _ _ _ q); [done|].
  destruct (Z.leb_spec (zlen pbrk - 1) i) as [_|Hlt].
  { apply wpg_bind, wpg_clear_line; [done|]. by apply wpg_ret. }
  destruct Hc as [->| ->].
  2: { unfold pbrk, i in Hlt. rewrite !zlen_app, !zlen_cons, zlen_nil in Hlt. lia. }
  apply wpg_bind, (wpg_break_at _ _ _ (q + 1 + zlen t)); [done|].
  apply wpg_bind, (wpg_read_line _ _ _ 44); [done|]. change (44 =? 44) with true. cbn iota.
  apply wpg_bind, (wpg_span_isspace _ _ t); [done..|].
  change (negb (1 =? 0)) with true. cbn iota.
  apply wpg_bind, wpg_clear_line; [done|]. by apply wpg_ret.
Qed.

(** A quote that does not end the string: the round goes on at its partner. *)
Lemma wpg_string_pair before inner qa m rest Q s :
  Forall (fun p => exists c, zget (line s) p = Some c /\ c <> 34) inner ->
  holds (line s) qa (34 :: m ++ [34]) -> pair_ok m -> 0 <= qa -> rest <> [] ->
  let pair := qa :: breaks_from (qa + 1) m ++ [qa + 1 + zlen m] in
  Q (inl (zlen (before ++ inner ++ pair) - 1)) s ->
  wpg E (string_end_body (before ++ inner ++ pair ++ rest) (zlen before - 1)) Q s.
Proof.
  intros Hi Hm [Hun Hp] Hqa Hrest pair HQ. pose proof (zlen_nonneg before). pose proof (zlen_nonneg inner).
  pose proof Hm as [Hq0 Hm0]. apply holds_app in Hm0 as [Hm1 [Hq1 _]].
  assert (0 < zlen rest) as Hr by (destruct rest; [done|]; rewrite zlen_cons; pose proof (zlen_nonneg rest); lia).
  unfold string_end_body. replace (zlen before - 1 + 1) with (zlen before) by lia.
  unfold pair in *. clear pair. set (qb := qa + 1 + zlen m) in *. cbn [app] in *.
  apply wpg_bind, wpg_next_quote; [done|done|]. cbn beta zeta.
  set (pbrk := before ++ inner ++ qa :: _). set (i := zlen before + zlen inner + 1).
  assert (forall k, 0 <= k -> zget pbrk (zlen before + zlen inner + k) =
            zget (qa :: (breaks_from (qa + 1) m ++ [qb]) ++ rest) k) as Hget.
  { intros k Hk. unfold pbrk. rewrite app_assoc, zget_app_r by (rewrite zlen_app; lia). rewrite zlen_app.
    f_equal. lia. }
  replace (i - 1) with (zlen before + zlen inner + 0) by (unfold i; lia).
  apply wpg_bind, (wpg_break_at _ _ _ qa); [by rewrite Hget by lia|].
  assert (zlen pbrk = zlen before + zlen inner + 1 + (zlen (breaks_from (qa + 1) m) + 1) + zlen rest) as Hz.
  { unfold pbrk. rewrite !zlen_app, zlen_cons, !zlen_app. change (zlen [qb]) with 1. lia. }
  pose proof (zlen_nonneg (breaks_from (qa + 1) m)).
  destruct (Z.leb_spec (zlen pbrk - 1) i) as [Hle|_]; [unfold i in Hle; lia|].
  rewrite !zlen_app, zlen_cons, zlen_app in HQ. change (zlen [qb]) with 1 in HQ.
  destruct Hp as [Hplain|(x & y & -> & Hx & Hx2)].
  - rewrite breaks_plain in * by done. cbn [app] in *. rewrite zlen_nil in HQ.
    apply wpg_bind, (wpg_break_at _ _ _ qb); [unfold i; by rewrite Hget by lia|].
    apply wpg_bind, (wpg_read_line _ _ _ 34); [done|]. change (34 =? 44) with false. cbn iota.
    apply wpg_ret. by replace i with (zlen before + (zlen inner + (0 + 1 + 1)) - 1) by (unfold i; lia).
  - rewrite breaks_app in *. cbn [breaks_from] in *. change (is_sep 44) with true in *. cbn iota in *.
    rewrite (breaks_plain _ x) in * by done. cbn [app] in *. set (qc := qa + 1 + zlen x) in *.
    apply holds_app2 in Hm1 as (Hmx & Hmc & Hmy).
    apply wpg_bind, (wpg_break_at _ _ _ qc); [unfold i; by rewrite Hget by lia|].
    apply wpg_bind, (wpg_read_line _ _ _ 44); [done|]. change (44 =? 44) with true. cbn iota.
    apply wpg_bind, (wpg_span_text _ _ x); [done..|]. change (negb (0 =? 0)) with false. cbn iota.
    assert (Forall (fun p => exists c, zget (line s) p = Some c /\ c <> 34) (breaks_from (qc + 1) y)) as Hy.
    { apply breaks_inside; [done|]. unfold unquoted in Hun. rewrite Forall_app, Forall_cons in Hun. tauto. }
    assert (pbrk = (before ++ inner ++ [qa; qc]) ++ breaks_from (qc + 1) y ++ qb :: rest) as ->.
    { unfold pbrk. rewrite (breaks_app _ x), (breaks_plain _ x) by done. by rewrite <- !app_assoc. }
    replace (i + 1) with (zlen (before ++ inner ++ [qa; qc])).
    2: { unfold i. rewrite !zlen_app. change (zlen [qa; qc]) with 2. lia. }
    apply wpg_bind, wpg_next_quote; [done|done|]. cbn beta. apply wpg_ret.
    rewrite !zlen_app. change (zlen [qa; qc]) with 2. rewrite zlen_cons in HQ.
    by replace (zlen before + (zlen inner + 2) + zlen (breaks_from (qc + 1) y)) with
      (zlen before + (zlen inner + (zlen (breaks_from (qc + 1) y) + 1 + 1 + 1)) - 1) by lia.
Qed.

(** The search for the end of a string whose characters stand at [p]. *)
Lemma wpg_string_loop body t c1 e rest Q s :
  body_ok body -> forall before p fuel, (length (breaks_from p body) < fuel)%nat ->
  holds (line s) p (body ++ 34 :: t ++ [c1]) -> Forall (fun c => isspace c = true) t ->
  e = p + zlen body + 1 + zlen t -> c1 = 44 \/ rest = [] -> 0 <= p ->
  Q (zlen before + zlen (breaks_from p body) + 1) (set_line (<[Z.to_nat (p + zlen body) := 0]> (line s)) s) ->
  wpg E (loop fuel (string_end_body (before ++ breaks_from p body ++ p + zlen body :: e :: rest))
           (zlen before - 1)) Q s.
Proof.
  intros Hbody. induction Hbody as [x Hx|x m body Hx Hm Hbody IH];
    intros before p [|fuel] Hf Hh Ht He Hc Hp HQ; try lia; apply wpg_loop_S.
  - pose proof (zlen_nonneg x). apply holds_app in Hh as Hh2. destruct Hh2 as [Hhx Hht].
    apply (wpg_string_end _ _ _ _ _ t c1); [by apply breaks_inside|done|done|done|done|lia|].
    by apply wpg_ret.
  - pose proof (zlen_nonneg x). pose proof (zlen_nonneg m). pose proof (zlen_nonneg body).
    set (qa := p + zlen x). set (qb := qa + 1 + zlen m).
    assert (breaks_from p (x ++ 34 :: m ++ 34 :: body) =
            breaks_from p x ++ (qa :: breaks_from (qa + 1) m ++ [qb]) ++ breaks_from (qb + 1) body) as HB.
    { rewrite breaks_app. cbn [breaks_from]. change (is_sep 34) with true. cbn iota. fold qa.
      rewrite breaks_app. cbn [breaks_from]. change (is_sep 34) with true. cbn iota. fold qb.
      cbn [app]. by rewrite <- app_assoc. }
    assert (zlen (x ++ 34 :: m ++ 34 :: body) = zlen x + 1 + zlen m + 1 + zlen body) as Hz
      by (rewrite zlen_app, zlen_cons, zlen_app, zlen_cons; lia).
    rewrite HB, Hz in *. rewrite <- !app_assoc in Hh. cbn [app] in Hh. rewrite <- !app_assoc in Hh.
    apply holds_app2 in Hh as (Hhx & Hqa & Hh). fold qa in Hqa, Hh. cbn [app] in Hh.
    apply holds_app2 in Hh as (Hhm & Hqb & Hh). fold qb in Hqb, Hh.
    replace (p + (zlen x + 1 + zlen m + 1 + zlen body)) with (qb + 1 + zlen body) in * by (unfold qb, qa; lia).
    set (A := breaks_from (qa + 1) m) in *. set (B := breaks_from (qb + 1) body) in *.
    set (q2 := qb + 1 + zlen body) in *.
    assert (before ++ (breaks_from p x ++ (qa :: A ++ [qb]) ++ B) ++ q2 :: e :: rest =
            before ++ breaks_from p x ++ (qa :: A ++ [qb]) ++ (B ++ q2 :: e :: rest)) as ->.
    { rewrite <- !app_assoc. cbn [app]. by rewrite <- !app_assoc. }
    apply wpg_string_pair; [by apply breaks_inside| |done|unfold qa; lia|by destruct B|].
    { split; [done|]. apply holds_app. split; [done|]. by split. }
    fold A qb. set (before' := before ++ breaks_from p x ++ qa :: A ++ [qb]).
    assert (before ++ breaks_from p x ++ (qa :: A ++ [qb]) ++ B ++ q2 :: e :: rest =
            before' ++ B ++ q2 :: e :: rest) as ->.
    { unfold before'. by rewrite <- !app_assoc. }
    apply IH; [|done|done|unfold q2 in *; lia|done|unfold qb, qa; lia|].
    + rewrite !length_app in Hf. cbn [length] in Hf. fold B. lia.
    + fold B q2. replace (zlen before' + zlen B + 1) with
        (zlen before + zlen (breaks_from p x ++ (qa :: A ++ [qb]) ++ B) + 1); [exact HQ|].
      unfold before'. rewrite !zlen_app. lia.
Qed.

(** What stands around an argument: a separator before it, a comma or the final
    parenthesis after it; a number alone is not handled here. *)
Definition surrounded (before rest : list Z) (c0 c1 : Z) (a : argument) : Prop :=
  ((before = [] /\ c0 = 40) \/ (before <> [] /\ c0 = 44)) /\
  (c1 = 44 \/ (c1 = 41 /\ rest = [])) /\
  (before = [] -> is_str a = false -> c1 = 44).

Lemma wpg_str_round before p c0 b t v c1 u rest k Q s :
  let a := Str b t v in
  argument_ok a ->
  holds (line s) p (c0 :: argument_text a ++ c1 :: u ++ [0]) -> 0 <= p ->
  surrounded before rest c0 c1 a -> 0 <= k < zlen (args s) ->
  Q (inl (zlen before + 1 + zlen (breaks_from (p + 1) (argument_text a)), k + 1))
    (mkShell (closed (line s) (p + 1) a) (<[Z.to_nat k := address base (p + 1 + zlen b + 1)]> (args s))
       (login_flag s) (events s)) ->
  wpg E (args_body base long_bits
           (before ++ p :: breaks_from (p + 1) (argument_text a) ++
              p + 1 + zlen (argument_text a) :: rest) (zlen before, k)) Q s.
Proof.
  intros a Ha Hm Hp (Hb & Hc & _) Hk. pose proof Ha as (Hpl & Ht & Hv).
  unfold a in *. rewrite (breaks_str (p + 1) b t v) by done.
  apply holds_cons in Hm as [Hc0 Hm]. cbn [argument_text] in Hm. rewrite <- !app_assoc in Hm.
  apply holds_app2 in Hm as (_ & Hq1 & Hm). apply holds_app2 in Hm as (Hin & Hq2 & Hm).
  rewrite zlen_str. set (q1 := p + 1 + zlen b) in *. set (q2 := q1 + 1 + zlen t) in *.
  set (inner := breaks_from (q1 + 1) t).
  pose proof (zlen_nonneg b). pose proof (zlen_nonneg t). pose proof (zlen_nonneg before).
  pose proof (zlen_nonneg inner). pose proof (zlen_nonneg v). pose proof (zlen_nonneg rest).
  replace (p + 1 + (zlen b + 1 + zlen t + 1 + zlen v)) with (q2 + 1 + zlen v) by (unfold q1, q2; lia).
  rewrite zlen_cons, zlen_app. change (zlen [q2]) with 1. cbn [app]. rewrite <- app_assoc. cbn [app].
  set (e := q2 + 1 + zlen v). intros HQ.
  unfold args_body. rewrite zlen_app, !zlen_cons, zlen_app, !zlen_cons.
  destruct (Z.ltb_spec (zlen before) (zlen before + (zlen inner + (zlen rest + 1 + 1) + 1 + 1) - 1)); [|lia].
  apply wpg_bind, (wpg_find_str _ _ _ _ c0); [done|done|tauto|].
  assert (before ++ p :: q1 :: inner ++ q2 :: e :: rest = (before ++ [p; q1]) ++ inner ++ q2 :: e :: rest)
    as -> by (by rewrite <- app_assoc).
  assert (zlen (before ++ [p; q1]) = zlen before + 2) as Hz by (by rewrite zlen_app).
  apply wpg_bind, (wpg_break_at _ _ _ q1).
  { rewrite zget_app_l, zget_app_r by lia. by replace (_ + 1 - _) with 1 by lia. }
  apply wpg_bind, wpg_write_arg; [done|]. apply wpg_bind.
  replace (zlen before + 1) with (zlen (before ++ [p; q1]) - 1) by lia.
  apply (wpg_string_loop t v c1); [done| | |done|done|tauto|lia|].
  { fold inner. rewrite !length_app. lia. }
  { apply holds_app. split; [done|]. split; [done|]. apply holds_app2 in Hm as (Hv0 & Hc1 & _).
    by apply holds_app. }
  fold inner q2.
  apply wpg_ret. rewrite Hz.
  replace (zlen before + 2 + zlen inner + 1) with (zlen before + 1 + (zlen inner + 1 + 1)) by lia.
  exact HQ.
Qed.

Lemma wpg_arg_round a before p c0 c1 u rest k Q s :
  argument_ok a ->
  holds (line s) p (c0 :: argument_text a ++ c1 :: u ++ [0]) -> 0 <= p ->
  Forall (fun c => c <> 0) u ->
  surrounded before rest c0 c1 a -> 0 <= k < zlen (args s) ->
  Q (inl (zlen before + 1 + zlen (breaks_from (p + 1) (argument_text a)), k + 1))
    (mkShell (closed (line s) (p + 1) a)
       (<[Z.to_nat k := argument_value base long_bits (p + 1) a]> (args s)) (login_flag s) (events s)) ->
  wpg E (args_body base long_bits
           (before ++ p :: breaks_from (p + 1) (argument_text a) ++
              p + 1 + zlen (argument_text a) :: rest) (zlen before, k)) Q s.
Proof.
  intros Ha Hm Hp Hu Hs Hk HQ. destruct a as [t|b t v]; [|by apply (wpg_str_round _ _ c0 b t v c1 u)].
  rewrite breaks_num in * by done. cbn [app argument_text] in *.
  apply (wpg_num_round _ _ c0 t c1 u); [done|done|apply Ha|done| |done|].
  - destruct Hs as (Hb & Hc & H1). unfold arg_separators.
    destruct Hb as [[-> _]|[Hne ->]]; [left; auto|right]. tauto.
  - rewrite zlen_nil, Z.add_0_r in HQ. exact HQ.
Qed.
End Round.

(** * All arguments *)

Lemma zlen_closed m p a : zlen (closed m p a) = zlen m.
Proof. destruct a; cbn [closed]; [done|]. apply zlen_insert. Qed.

Lemma closed_outside m p a j :
  0 <= p -> 0 <= j -> j < p \/ p + zlen (argument_text a) <= j -> zget (closed m p a) j = zget m j.
Proof.
  intros Hp Hj H. destruct a as [t|b t v]; cbn [closed]; [done|].
  rewrite zlen_str in H. pose proof (zlen_nonneg b). pose proof (zlen_nonneg t).
  pose proof (zlen_nonneg v). by rewrite zget_insert_ne by lia.
Qed.

Lemma closed_stored m p a :
  argument_ok a -> 0 <= p -> holds m p (argument_text a) -> argument_stored (closed m p a) p a.
Proof.
  destruct a as [t|b t v]; cbn [closed argument_stored]; [done|]. intros (_ & Ht & _) Hp Hm.
  cbn [argument_text] in Hm. apply holds_app2 in Hm as (_ & _ & Hm).
  apply holds_app2 in Hm as (Hm & Hq & _).
  pose proof (zlen_nonneg b). pose proof (zlen_nonneg t).
  apply holds_cstr; [lia| |by apply body_nonzero].
  apply holds_app. apply zget_Some_range in Hq. split.
  - apply holds_insert_after; [lia|lia|done].
  - split; [|done]. by apply zget_insert_eq.
Qed.

Lemma stored_ext m m' p a :
  0 <= p -> (forall j, p <= j < p + zlen (argument_text a) -> zget m' j = zget m j) ->
  argument_stored m p a -> argument_stored m' p a.
Proof.
  destruct a as [t|b t v]; cbn [argument_stored]; [done|]. rewrite zlen_str. intros Hp H Hs.
  pose proof (zlen_nonneg b). pose proof (zlen_nonneg t). pose proof (zlen_nonneg v).
  apply holds_cstr; [lia| |by eapply cstr_nonzero].
  eapply holds_shift; [|by apply cstr_holds]. intros i. rewrite zlen_app. change (zlen [0]) with 1.
  intros Hi. symmetry. apply H. lia.
Qed.

(** The arguments from the break [p] and the element [k] on have been found. *)
Record parsed (base long_bits : Z) (s : shell) (p k : Z) (l : list argument) (s' : shell) : Prop := {
  parsed_line : zlen (line s') = zlen (line s);
  parsed_args : zlen (args s') = zlen (args s);
  parsed_before : forall j, 0 <= j <= p -> zget (line s') j = zget (line s) j;
  parsed_below : forall j, 0 <= j < k -> zget (args s') j = zget (args s) j;
  parsed_at : arguments_at base long_bits (line s') (args s') k (p + 1) l;
  parsed_flag : login_flag s' = login_flag s;
  parsed_events : events s' = events s
}.

Lemma argument_nonzero a : argument_ok a -> Forall (fun c => c <> 0) (argument_text a).
Proof.
  destruct a as [t|b t v].
  - intros [H _]. by apply plain_nonzero.
  - intros (Hb & Ht & Hv). cbn [argument_text]. rewrite !Forall_app.
    repeat split; try (by constructor).
    + by apply plain_nonzero.
    + by apply body_nonzero.
    + eapply Forall_impl; [exact Hv|]. by intros c [_ ?]%space_plain.
Qed.

Lemma more_nonzero l : Forall argument_ok l -> Forall (fun c => c <> 0) (more_text l).
Proof.
  induction 1 as [|a l Ha Hl IH]; cbn [more_text]; [constructor|].
  rewrite !Forall_app. split; [by constructor|]. split; [by apply argument_nonzero|done].
Qed.

Lemma parsed_cons base long_bits s p k a l s1 s' :
  0 <= p -> 0 <= k < zlen (args s) -> argument_ok a -> holds (line s) (p + 1) (argument_text a) ->
  s1 = mkShell (closed (line s) (p + 1) a)
         (<[Z.to_nat k := argument_value base long_bits (p + 1) a]> (args s)) (login_flag s) (events s) ->
  parsed base long_bits s1 (p + 1 + zlen (argument_text a)) (k + 1) l s' ->
  parsed base long_bits s p k (a :: l) s'.
Proof.
  intros Hp Hk Ha Hm -> [H1 H2 H3 H4 H5 H6 H7]. cbn [line args login_flag events] in *.
  pose proof (zlen_nonneg (argument_text a)).
  rewrite zlen_closed in H1. rewrite zlen_insert in H2. constructor; [done|done| | | |done|done].
  - intros j Hj. rewrite H3 by lia. apply closed_outside; lia.
  - intros j Hj. rewrite H4 by lia. apply zget_insert_ne; lia.
  - cbn [arguments_at]. split; [|split].
    + rewrite H4 by lia. by apply zget_insert_eq.
    + eapply stored_ext; [lia| |by apply closed_stored; [|lia|]].
      intros j Hj. apply H3. lia.
    + done.
Qed.

Section Loop.
Context (E : failure -> Prop) (base long_bits : Z) (Hlong : 1 <= long_bits).

Lemma wpg_args_loop l : forall a before p c0 u k fuel Q s,
  Forall argument_ok (a :: l) ->
  holds (line s) p (c0 :: argument_text a ++ more_text l ++ [41] ++ u ++ [0]) -> 0 <= p ->
  Forall (fun c => c <> 0) u ->
  ((before = [] /\ c0 = 40) \/ (before <> [] /\ c0 = 44)) ->
  (before = [] -> l = [] -> is_str a = true) ->
  0 <= k -> k + zlen (a :: l) <= zlen (args s) -> (length (a :: l) < fuel)%nat ->
  (forall s', parsed base long_bits s p k (a :: l) s' -> Q (k + zlen (a :: l)) s') ->
  wpg E (loop fuel (args_body base long_bits
           (before ++ p :: breaks_from (p + 1) (argument_text a ++ more_text l ++ [41])))
           (zlen before, k)) Q s.
Proof.
  induction l as [|a' l IH]; intros a before p c0 u k fuel Q s Hok Hm Hp Hu Hb Hone Hk Hka Hf HQ;
    (destruct fuel as [|fuel]; [lia|]); apply wpg_loop_S;
    rewrite breaks_app; set (n := zlen (argument_text a)) in *;
    apply Forall_cons in Hok as [Ha Hl]; pose proof (zlen_nonneg (argument_text a));
    pose proof (proj2 (proj1 (holds_cons _ _ _ _) Hm)) as Hm1;
    rewrite zlen_cons in Hka, HQ.
  - change (breaks_from (p + 1 + n) (more_text [] ++ [41])) with [p + 1 + n].
    cbn [more_text app] in Hm, Hm1.
    apply (wpg_arg_round E base long_bits Hlong a before p c0 41 u [] k); [done|done|done|done| | |].
    { split; [done|]. split; [by right|]. intros -> H1. rewrite Hone in H1; done. }
    { rewrite zlen_nil in Hka. lia. }
    cbn iota. destruct fuel as [|fuel]; [cbn in Hf; lia|]. apply wpg_loop_S.
    unfold args_body. rewrite zlen_app, zlen_cons, zlen_app. change (zlen [_]) with 1.
    destruct (Z.ltb_spec (zlen before + 1 + zlen (breaks_from (p + 1) (argument_text a)))
      (zlen before + (zlen (breaks_from (p + 1) (argument_text a)) + 1 + 1) - 1)) as [|_]; [lia|].
    apply wpg_ret. rewrite zlen_nil in HQ. rewrite zlen_nil in Hka. apply HQ.
    eapply parsed_cons; [done|lia|done| |done|by constructor].
    by apply holds_app in Hm1 as [? _].
  - cbn [more_text app breaks_from] in Hm, Hm1 |- *. change (is_sep 44) with true. cbn iota.
    rewrite zlen_cons in Hka, HQ. rewrite <- !app_assoc in Hm. rewrite <- !app_assoc in Hm1.
    pose proof (zlen_nonneg l).
    assert (Forall (fun c => c <> 0) (argument_text a' ++ more_text l ++ [41] ++ u)) as Hu'.
    { apply Forall_cons in Hl as [Ha' Hl']. rewrite !Forall_app.
      split; [by apply argument_nonzero|]. split; [by apply more_nonzero|]. by split; [constructor|]. }
    apply (wpg_arg_round E base long_bits Hlong a before p c0 44
             (argument_text a' ++ more_text l ++ [41] ++ u) _ k); [done| |done|done| |lia|].
    { by rewrite <- !app_assoc. }
    { split; [done|]. split; [by left|done]. }
    cbn iota. set (s1 := mkShell _ _ _ _). rewrite <- app_assoc.
    set (first := breaks_from (p + 1) (argument_text a)).
    replace (zlen before + 1 + zlen first) with (zlen (before ++ p :: first))
      by (rewrite zlen_app, zlen_cons; lia).
    replace (before ++ p :: first ++ p + 1 + n :: breaks_from (p + 1 + n + 1)
               (argument_text a' ++ more_text l ++ [41]))
      with ((before ++ p :: first) ++ p + 1 + n :: breaks_from (p + 1 + n + 1)
               (argument_text a' ++ more_text l ++ [41])) by (by rewrite <- app_assoc).
    apply (IH a' (before ++ p :: first) (p + 1 + n) 44 u (k + 1)); [done| |lia|done| | |lia| | |].
    + apply holds_app in Hm1 as [_ Hm1]. eapply holds_shift; [|exact Hm1].
      intros j Hj. symmetry. unfold s1, n. cbn [line]. apply closed_outside; lia.
    + right. split; [|done]. by destruct before.
    + intros Hn. by destruct before.
    + unfold s1. cbn [args]. rewrite zlen_insert, zlen_cons. lia.
    + cbn [length] in Hf |- *. lia.
    + intros s' Hs'. rewrite zlen_cons.
      replace (k + 1 + (zlen l + 1)) with (k + (zlen l + 1 + 1)) by lia. apply HQ.
      eapply parsed_cons; [done|lia|done| |reflexivity|exact Hs'].
      by apply holds_app in Hm1 as [? _].
Qed.
End Loop.

(** * Numbers only *)

Fixpoint quotes (s : list Z) : Z :=
  match s with
  | [] => 0
  | c :: s => (if c =? 34 then 1 else 0) + quotes s
  end.

Lemma quotes_app a b : quotes (a ++ b) = quotes a + quotes b.
Proof. induction a as [|c a IH]; cbn [app quotes]; lia. Qed.

Lemma quotes_none s : Forall (fun c => c <> 34) s -> quotes s = 0.
Proof. induction 1 as [|c s Hc Hs IH]; cbn [quotes]; [done|]. destruct (Z.eqb_spec c 34); [done|lia]. Qed.

Lemma plain_no_quote s : Forall plain s -> Forall (fun c => c <> 34) s.
Proof. intros H. eapply Forall_impl; [exact H|]. by intros c [Hc _] ->. Qed.

Lemma quotes_body s : body_ok s -> exists n, 0 <= n /\ quotes s = 2 * n.
Proof.
  assert (forall s, unquoted s -> quotes s = 0) as Hun.
  { intros x Hx. apply quotes_none. eapply Forall_impl; [exact Hx|]. by intros c []. }
  induction 1 as [s Hs|s m body Hs [Hm _] _ (n & Hn & IH)]; [exists 0; by rewrite Hun|].
  exists (n + 1). split; [lia|]. rewrite quotes_app. cbn [quotes]. rewrite quotes_app. cbn [quotes Z.eqb Pos.eqb].
  rewrite (Hun s), (Hun m), IH by done. lia.
Qed.

Lemma quotes_argument a :
  argument_ok a -> exists n, 0 <= n /\ quotes (argument_text a) = 2 * ((if is_str a then 1 else 0) + n) /\
    (is_str a = false -> n = 0).
Proof.
  destruct a as [t|b t v]; cbn [argument_text is_str].
  - intros [H _]. exists 0. by rewrite (quotes_none t) by (by apply plain_no_quote).
  - intros (Hb & (n & Hn & Ht)%quotes_body & Hv). exists n. split; [done|]. split; [|done].
    rewrite !quotes_app, Ht. change (quotes [34]) with 1.
    rewrite (quotes_none b) by (by apply plain_no_quote). rewrite (quotes_none v); [lia|].
    apply plain_no_quote. eapply Forall_impl; [exact Hv|]. apply space_plain.
Qed.

Fixpoint strings (l : list argument) : Z :=
  match l with
  | [] => 0
  | a :: l => (if is_str a then 1 else 0) + strings l
  end.

Lemma strings_nonneg l : 0 <= strings l.
Proof. induction l as [|a l IH]; cbn; [done|]. destruct (is_str a); lia. Qed.

(** The quotes come in pairs, and there are none when there is no string. *)
Lemma quotes_list l :
  Forall argument_ok l ->
  exists n, 0 <= n /\ quotes (list_text l) = 2 * n /\ (n = 0 <-> strings l = 0).
Proof.
  intros H. assert (exists n, 0 <= n /\ quotes (more_text l) = 2 * n /\ (n = 0 <-> strings l = 0)) as Hmore.
  { induction H as [|a l' Ha Hl (n & Hn & IH & H0)]; cbn [more_text strings]; [by exists 0|].
    destruct (quotes_argument a Ha) as (k & Hk & Hq & Hz). pose proof (strings_nonneg l').
    exists ((if is_str a then 1 else 0) + k + n). split; [destruct (is_str a); lia|]. split.
    - rewrite !quotes_app, Hq, IH. change (quotes [44]) with 0. destruct (is_str a); lia.
    - destruct (is_str a); [lia|]. rewrite Hz by done. lia. }
  destruct Hmore as (n & Hn & Hq & H0). exists n. split; [done|]. split; [|done].
  destruct l as [|a l']; [done|]. cbn [more_text list_text] in *.
  rewrite quotes_app in Hq. change (quotes [44]) with 0 in Hq. lia.
Qed.

(** The separators replaced by the end of the string. *)
Definition cleared (c : Z) : Z := if is_sep c then 0 else c.

Lemma cleared_plain s : Forall plain s -> map cleared s = s.
Proof.
  induction 1 as [|c s [Hc _] Hs IH]; cbn [map]; [done|]. rewrite IH. unfold cleared. by rewrite Hc.
Qed.

(** Segments, each after a terminator. *)
Fixpoint segments_text (l : list (list Z)) : list Z :=
  match l with
  | [] => [0]
  | t :: l => 0 :: t ++ segments_text l
  end.

Fixpoint segment_breaks (p : Z) (l : list (list Z)) : list Z :=
  match l with
  | [] => []
  | t :: l => p :: segment_breaks (p + 1 + zlen t) l
  end.

Lemma segments_nil_or l : exists u, segments_text l = 0 :: u.
Proof. destruct l; cbn; eauto. Qed.

Section Ints.
Context (E : failure -> Prop) (base long_bits : Z).

Lemma wpg_count_quotes p t Q s :
  holds (line s) p t -> Q (quotes t) s -> wpg E (count_quotes (breaks_from p t)) Q s.
Proof.
  revert p Q. induction t as [|c t IH]; intros p Q Hm HQ; cbn [breaks_from quotes] in *.
  { by apply wpg_ret. }
  destruct Hm as [Hc Hm]. destruct (is_sep c) eqn:Hs.
  - cbn [count_quotes]. apply wpg_bind, (wpg_read_line _ _ _ c); [done|].
    apply wpg_bind, IH; [done|]. apply wpg_ret.
    by destruct (Z.eqb_spec c 34); rewrite Z.add_comm in HQ; rewrite ?Z.add_0_r in HQ.
  - apply IH; [done|]. destruct (Z.eqb_spec c 34) as [->|_]; [done|]. by rewrite Z.add_0_l in HQ.
Qed.

Lemma wpg_clear_breaks p t Q s :
  holds (line s) p t -> 0 <= p ->
  (forall m, zlen m = zlen (line s) -> holds m p (map cleared t) ->
     (forall j, 0 <= j -> j < p \/ p + zlen t <= j -> zget m j = zget (line s) j) ->
     Q tt (set_line m s)) ->
  wpg E (clear_breaks (breaks_from p t)) Q s.
Proof.
  revert p Q s. induction t as [|c t IH]; intros p Q s Hm Hp HQ; cbn [breaks_from].
  { apply wpg_ret. destruct s as [m a f e]. by apply (HQ m). }
  destruct Hm as [Hc Hm]. pose proof (zget_Some_range _ _ _ Hc) as Hr. pose proof (zlen_nonneg t).
  rewrite zlen_cons in HQ. cbn [map] in HQ. unfold cleared in HQ at 1.
  destruct (is_sep c) eqn:Hs.
  - cbn [clear_breaks]. apply wpg_bind, wpg_clear_line; [done|]. apply IH; [|lia|].
    + eapply holds_shift; [|exact Hm]. intros j Hj. symmetry. apply zget_insert_ne; lia.
    + intros m Hl Hh Ho. cbn [line set_line] in *. rewrite zlen_insert in Hl.
      apply (HQ m); [done| |].
      * split; [|done]. rewrite Ho by lia. by apply zget_insert_eq.
      * intros j Hj Hout. rewrite Ho by lia. apply zget_insert_ne; lia.
  - apply IH; [done|lia|]. intros m Hl Hh Ho. apply (HQ m); [done| |].
    + split; [|done]. rewrite Ho by lia. done.
    + intros j Hj Hout. apply Ho; lia.
Qed.

Lemma wpg_store_ints l : forall p k Q s,
  Forall (Forall (fun c => c <> 0)) l -> holds (line s) p (segments_text l) -> 0 <= p ->
  0 <= k -> k + 1 + zlen l <= zlen (args s) ->
  (forall a, zlen a = zlen (args s) ->
     (forall j, 0 <= j <= k -> zget a j = zget (args s) j) ->
     arguments_at base long_bits (line s) a (k + 1) (p + 1) (map Num l) -> Q tt (set_args a s)) ->
  wpg E (store_ints long_bits k (segment_breaks p l)) Q s.
Proof.
  induction l as [|t l IH]; intros p k Q s Hnz Hm Hp Hk Hlen HQ; cbn [segment_breaks store_ints].
  { apply wpg_ret. destruct s as [m a f e]. by apply (HQ a). }
  apply Forall_cons in Hnz as [Ht Hnz]. rewrite zlen_cons in Hlen. pose proof (zlen_nonneg l).
  cbn [segments_text] in Hm. apply holds_cons in Hm as [_ Hm].
  pose proof (zlen_nonneg t). pose proof Hm as Hm'. apply holds_app in Hm' as [Hmt Hml].
  destruct (segments_nil_or l) as [u Hu].
  assert (cstr (line s) (p + 1) = Some t) as Hstr.
  { apply holds_cstr; [lia| |done]. apply holds_app. split; [done|]. rewrite Hu in Hml.
    destruct Hml as [Hz _]. by split. }
  apply wpg_bind, (wpg_strtol_at _ _ _ t); [done|].
  apply wpg_bind, wpg_write_arg; [lia|].
  apply IH; [done|done|lia|lia| |].
  { cbn [args set_args]. rewrite zlen_insert. lia. }
  intros a Hl Hbelow Hat. cbn [args set_args line] in *. rewrite zlen_insert in Hl.
  apply (HQ a); [done| |].
  - intros j Hj. rewrite Hbelow by lia. apply zget_insert_ne; lia.
  - cbn [map arguments_at argument_value argument_text argument_stored]. split; [|split; [done|]].
    + rewrite Hbelow by lia. apply zget_insert_eq. lia.
    + by replace (p + 1 + zlen t + 1) with (p + 1 + zlen t + 1) by lia.
Qed.
End Ints.
