(* ===== verification/FcmdCallFacts.v ===== *)
(** get_args on a whole line, the table of commands, and fcmd_exec. *)

From S2P Require Import Prelude.
From S2P Require Import CMonad.
From S2P Require Import CString.
From S2P Require Import Fcmd.
From S2P Require Import FcmdFacts.

(** * get_args *)

(** The arguments that args and pbrk have room for: numbers alone are stored
    with one element too many. *)
Definition fits (l : list argument) : Prop :=
  Forall argument_ok l /\
  (if strings l =? 0 then zlen l <= 9
   else zlen l <= 10 /\ (length (breaks_from 0 (list_text l)) <= 28)%nat).

(** The state after get_args has found the arguments [l] behind the
    parenthesis at [p]. *)
Record got (base long_bits : Z) (s : shell) (p : Z) (l : list argument) (s' : shell) : Prop := {
  got_args : zlen (args s') = zlen (args s);
  got_line : zlen (line s') = zlen (line s);
  got_count : zget (args s') 0 = Some (zlen l);
  got_at : arguments_at base long_bits (line s') (args s') 1 (p + 1) l;
  got_end : zget (line s') p = Some 0;
  got_before : forall j, 0 <= j < p -> zget (line s') j = zget (line s) j;
  got_flag : login_flag s' = login_flag s;
  got_events : events s' = events s
}.

Lemma arguments_at_ext base long_bits m m' a a' l : forall k p,
  0 <= p -> 0 <= k ->
  (forall j, p <= j -> zget m' j = zget m j) -> (forall j, k <= j -> zget a' j = zget a j) ->
  arguments_at base long_bits m a k p l -> arguments_at base long_bits m' a' k p l.
Proof.
  induction l as [|x l IH]; intros k p Hp Hk Hm Ha; cbn [arguments_at]; [done|].
  intros (H1 & H2 & H3). pose proof (zlen_nonneg (argument_text x)). split; [|split].
  - by rewrite Ha by lia.
  - eapply stored_ext; [done| |done]. intros j Hj. apply Hm. lia.
  - apply IH; [lia|lia| | |done]; intros j Hj; [apply Hm|apply Ha]; lia.
Qed.

Lemma breaks_length p q s : length (breaks_from p s) = length (breaks_from q s).
Proof.
  revert p q. induction s as [|c s IH]; intros p q; cbn [breaks_from]; [done|].
  destruct (is_sep c); cbn [length]; by rewrite (IH (p + 1) (q + 1)).
Qed.

Lemma list_text_cons a l : list_text (a :: l) = argument_text a ++ more_text l.
Proof. done. Qed.

Lemma list_nonzero l : Forall argument_ok l -> Forall (fun c => c <> 0) (list_text l).
Proof.
  intros H%more_nonzero. destruct l as [|a l]; [constructor|]. cbn [more_text list_text] in *.
  by apply Forall_app in H as [_ H].
Qed.

(** A list without strings is a list of numbers. *)
Lemma strings_zero l :
  Forall argument_ok l -> strings l = 0 ->
  exists ts, l = map Num ts /\ Forall (Forall plain) ts.
Proof.
  induction 1 as [|a l Ha Hl IH]; intros Hs; cbn [strings] in Hs; [by exists []|].
  pose proof (strings_nonneg l). destruct a as [t|b t v]; cbn [is_str] in Hs; [|lia].
  destruct (IH ltac:(lia)) as (ts & -> & Hts). exists (t :: ts). split; [done|].
  constructor; [apply Ha|done].
Qed.

(** The separators of a list of numbers, and its text without them. *)
Lemma more_breaks ts u p :
  Forall (Forall plain) ts -> Forall plain u ->
  breaks_from p (more_text (map Num ts) ++ 41 :: u) = segment_breaks p (ts ++ [u]) /\
  map cleared (more_text (map Num ts) ++ 41 :: u) ++ [0] = segments_text (ts ++ [u]).
Proof.
  intros Hts Hu. revert p. induction Hts as [|t ts Ht Hts IH]; intros p; cbn [more_text map app].
  - cbn [breaks_from segment_breaks segments_text]. change (is_sep 41) with true. cbn iota.
    rewrite breaks_plain, cleared_plain by done. done.
  - cbn [breaks_from segment_breaks segments_text argument_text]. change (is_sep 44) with true.
    cbn iota. change (cleared 44) with 0. rewrite <- app_assoc, breaks_app, map_app.
    rewrite breaks_plain, cleared_plain by done. cbn [app].
    destruct (IH (p + 1 + zlen t)) as [-> H]. split; [done|]. by rewrite <- H, app_assoc.
Qed.

Lemma call_breaks ts u p :
  ts <> [] -> Forall (Forall plain) ts -> Forall plain u ->
  breaks_from p (40 :: list_text (map Num ts) ++ 41 :: u) = segment_breaks p (ts ++ [u]) /\
  map cleared (40 :: list_text (map Num ts) ++ 41 :: u) ++ [0] = segments_text (ts ++ [u]).
Proof.
  intros Hne Hts Hu. destruct Hts as [|t ts Ht Hts]; [done|].
  destruct (more_breaks (t :: ts) u p ltac:(by constructor) Hu) as [H1 H2].
  cbn [map more_text list_text app argument_text breaks_from] in *. rewrite <- app_assoc in *.
  done.
Qed.

(** The arguments before others. *)
Lemma arguments_app base long_bits m a l2 l : forall k p,
  arguments_at base long_bits m a k p (l ++ l2) -> arguments_at base long_bits m a k p l.
Proof.
  induction l as [|x l IH]; intros k p; cbn [app arguments_at]; [done|].
  intros (H1 & H2 & H3). split; [done|]. split; [done|by apply IH].
Qed.

Lemma nums_plain ts : Forall argument_ok (map Num ts) -> Forall (Forall plain) ts.
Proof.
  induction ts as [|t ts IH]; intros Hok; [constructor|]. apply Forall_cons in Hok as [[Ht _] Hok].
  constructor; [done|by apply IH].
Qed.

Lemma segments_nonzero ts u :
  Forall (Forall plain) ts -> Forall plain u -> Forall (Forall (fun c => c <> 0)) (ts ++ [u]).
Proof.
  intros Hts Hu. apply Forall_app. split; [|constructor; [by apply plain_nonzero|constructor]].
  eapply Forall_impl; [exact Hts|]. intros t. apply plain_nonzero.
Qed.

Lemma segment_breaks_length p l : length (segment_breaks p l) = length l.
Proof. revert p. induction l as [|t l IH]; intros p; cbn; [done|]. by rewrite IH. Qed.

Lemma breaks_trail p l u :
  Forall plain u ->
  breaks_from p (40 :: list_text l ++ 41 :: u) = p :: breaks_from (p + 1) (list_text l ++ [41]).
Proof.
  intros Hu. cbn [breaks_from]. change (is_sep 40) with true. cbn iota.
  replace (list_text l ++ 41 :: u) with ((list_text l ++ [41]) ++ u) by (by rewrite <- app_assoc).
  rewrite breaks_app, (breaks_plain _ u), app_nil_r by done. done.
Qed.

Lemma zlen_map_Num ts : zlen (map Num ts) = zlen ts.
Proof. apply zlen_map. Qed.

(** Every argument has a separator. *)
Lemma more_breaks_length l q : Nat.lt (length l) (length (breaks_from q (more_text l ++ [41]))).
Proof.
  revert q. induction l as [|x l IH]; intros q; cbn [more_text app breaks_from length].
  { change (is_sep 41) with true. cbn [length]. lia. }
  change (is_sep 44) with true. cbn [length]. rewrite <- app_assoc, breaks_app, length_app.
  specialize (IH (q + 1 + zlen (argument_text x))). lia.
Qed.

Section GetArgs.
Context (E : failure -> Prop) (base long_bits : Z) (Hlong : 1 <= long_bits).

(** The line at [p]: the arguments in parentheses, and what follows. *)
Definition call_at (m : list Z) (p : Z) (l : list argument) (u : list Z) : Prop :=
  holds m p (40 :: list_text l ++ 41 :: u ++ [0]) /\ 0 <= p /\ Forall plain u.

Lemma call_at_text m p l u :
  call_at m p l u ->
  holds m p (40 :: list_text l ++ 41 :: u) /\
  zget m (p + zlen (40 :: list_text l ++ 41 :: u)) = Some 0.
Proof.
  intros (Hm & _). rewrite (app_comm_cons (list_text l) (41 :: u ++ [0])) in Hm.
  change (41 :: u ++ [0]) with ((41 :: u) ++ [0]) in Hm. rewrite app_assoc in Hm.
  apply holds_app in Hm as [H [Hz _]]. done.
Qed.

Lemma wpg_quotes p l u Q s :
  call_at (line s) p l u -> Forall argument_ok l ->
  (forall n, 0 <= n -> (n = 0 <-> strings l = 0) -> Q (2 * n) s) ->
  wpg E (count_quotes (tail (breaks_from p (40 :: list_text l ++ 41 :: u)))) Q s.
Proof.
  intros (Hm & Hp & Hu) Hl HQ. rewrite breaks_trail by done. cbn [tail].
  apply wpg_count_quotes.
  - apply holds_cons in Hm as [_ Hm]. apply holds_app2 in Hm as (H1 & H2 & _).
    apply holds_app. split; [done|]. by split.
  - destruct (quotes_list l Hl) as (n & Hn & Hq & H0). rewrite quotes_app, Hq.
    change (quotes [41]) with 0. rewrite Z.add_0_r. by apply HQ.
Qed.

(** Clearing the separators of a list of numbers leaves the numbers as strings. *)
Lemma wpg_clear_call p ts u Q s :
  call_at (line s) p (map Num ts) u -> Forall argument_ok (map Num ts) -> ts <> [] ->
  (forall m, zlen m = zlen (line s) -> holds m p (segments_text (ts ++ [u])) ->
     (forall j, 0 <= j < p -> zget m j = zget (line s) j) -> Q tt (set_line m s)) ->
  wpg E (clear_breaks (segment_breaks p (ts ++ [u]))) Q s.
Proof.
  intros Hc Hok Hne HQ. pose proof (call_at_text _ _ _ _ Hc) as [Hm Hz]. destruct Hc as (_ & Hp & Hu).
  pose proof (nums_plain ts Hok) as Hts.
  destruct (call_breaks ts u p) as [Hb Ht]; [done|done|done|]. rewrite <- Hb.
  apply wpg_clear_breaks; [exact Hm|done|]. intros m Hml Hmm Hmo. apply HQ; [done| |].
  - rewrite <- Ht. apply holds_app. split; [done|]. rewrite zlen_map. split; [|done].
    rewrite Hmo by (pose proof (zlen_nonneg (40 :: list_text (map Num ts) ++ 41 :: u)); lia). exact Hz.
  - intros j Hj. apply Hmo; lia.
Qed.

Lemma wpg_many_ints p l u Q s :
  call_at (line s) p l u -> fits l -> strings l = 0 -> 2 <= zlen l -> zlen (args s) = 11 ->
  (forall s', got base long_bits s p l s' -> Q true s') ->
  wpg E (many_args base long_bits (breaks_from p (40 :: list_text l ++ 41 :: u))) Q s.
Proof.
  intros Hc [Hok Hfit] Hs0 Hl Hargs HQ. rewrite Hs0 in Hfit. cbn in Hfit.
  unfold many_args. apply wpg_bind, (wpg_quotes p l u); [done|done|].
  intros n _ [_ Hn0]. rewrite (Hn0 Hs0). cbn [Z.mul Z.eqb]. pose proof Hc as (_ & Hp & Hu).
  destruct (strings_zero l Hok Hs0) as (ts & -> & Hts). rewrite zlen_map_Num in *.
  destruct (call_breaks ts u p) as [-> _]; [by intros ->|done|done|].
  apply wpg_bind, wpg_clear_call; [done|done|by intros ->|]. intros m Hml Hmm Hmo.
  assert (zlen (ts ++ [u]) = zlen ts + 1) as Hzl by (by rewrite zlen_app).
  apply wpg_bind, (wpg_store_ints E base); cbn [line args set_line];
    [by apply segments_nonzero|done|done|lia|lia|].
  intros a Hal Hbelow Hat. apply wpg_bind, wpg_write_arg; cbn [args set_args set_line line]; [lia|].
  apply wpg_ret, HQ. rewrite map_app in Hat. apply arguments_app in Hat.
  constructor; cbn [args set_args set_line line login_flag events].
  - rewrite zlen_insert. lia.
  - done.
  - change 0%nat with (Z.to_nat 0). rewrite zget_insert_eq by lia. f_equal.
    unfold zlen. rewrite segment_breaks_length, !length_app, length_map. cbn. lia.
  - eapply (arguments_at_ext _ _ m m a); [lia|lia|done| |exact Hat].
    intros j Hj. change 0%nat with (Z.to_nat 0). apply zget_insert_ne; lia.
  - destruct (segments_nil_or (ts ++ [u])) as [v Hv]. rewrite Hv in Hmm. by destruct Hmm.
  - done.
  - done.
  - done.
Qed.

Lemma wpg_many_strings p l u Q s :
  call_at (line s) p l u -> fits l -> strings l <> 0 -> zlen (args s) = 11 ->
  (forall s', zlen (args s') = 11 -> zget (args s') 0 = Some (zlen l) ->
     (exists s1, parsed base long_bits s p 1 l s1 /\
        s' = set_args (<[0%nat := zlen l]> (args s1)) s1) -> Q false s') ->
  wpg E (many_args base long_bits (breaks_from p (40 :: list_text l ++ 41 :: u))) Q s.
Proof.
  intros Hc [Hok Hfit] Hs0 Hargs HQ. pose proof (strings_nonneg l).
  destruct (Z.eqb_spec (strings l) 0) as [|_]; [done|]. destruct Hfit as [Hl Hb].
  unfold many_args. apply wpg_bind, (wpg_quotes p l u); [done|done|].
  intros n Hn [Hn0 _]. destruct (Z.eqb_spec (2 * n) 0) as [Hz|_]; [lia|].
  rewrite Z.mul_comm, Z.mod_mul by lia. change (negb (0 =? 0)) with false. cbn iota.
  destruct Hc as (Hm & Hp & Hu). destruct l as [|a l]; [done|].
  rewrite breaks_trail by done. rewrite list_text_cons, <- app_assoc in Hm |- *.
  apply wpg_bind. apply (wpg_args_loop E base long_bits Hlong l a [] p 40 u 1);
    [done|done|done|by apply plain_nonzero|by left| |lia|lia| |].
  { intros _ ->. cbn [strings] in Hs0. by destruct (is_str a). }
  { cbn [length]. rewrite breaks_app, length_app.
    pose proof (more_breaks_length l (p + 1 + zlen (argument_text a))). lia. }
  intros s1 Hs1. destruct (id Hs1) as [_ Hal _ _ _ _ _].
  apply wpg_bind, wpg_write_arg; [lia|]. apply wpg_ret.
  replace (1 + zlen (a :: l) - 1) with (zlen (a :: l)) by lia.
  apply HQ; cbn [args set_args].
  - rewrite zlen_insert. lia.
  - change (Z.to_nat 0) with 0%nat. change 0%nat with (Z.to_nat 0). apply zget_insert_eq. lia.
  - by exists s1.
Qed.

(** No argument, or a number. *)
Lemma wpg_one_arg p l u Q s :
  call_at (line s) p l u -> Forall argument_ok l -> (l = [] \/ exists t, l = [Num t]) ->
  zlen (args s) = 11 -> zget (args s) 0 = Some 0 ->
  (forall s', line s' = line s -> zlen (args s') = 11 -> zget (args s') 0 = Some (zlen l) ->
     arguments_at base long_bits (line s) (args s') 1 (p + 1) l ->
     login_flag s' = login_flag s -> events s' = events s -> Q tt s') ->
  wpg E (loop (Datatypes.S (Z.to_nat (p + 1 + zlen (list_text l) - p)))
           (one_arg_body long_bits p (p + 1 + zlen (list_text l))) (p + 1)) Q s.
Proof.
  intros (Hm & Hp & Hu) Hok Hl Hargs H0 HQ. apply holds_cons in Hm as [_ Hm].
  destruct Hl as [->|(t & ->)].
  { apply wpg_loop_S. unfold one_arg_body. cbn [list_text]. rewrite zlen_nil, Z.add_0_r, Z.eqb_refl.
    by apply wpg_ret, HQ. }
  apply Forall_cons in Hok as [[Ht Hne] _]. cbn [list_text more_text argument_text] in *.
  rewrite app_nil_r in *. pose proof (zlen_nonneg t).
  assert (cstr (line s) (p + 1) = Some (t ++ 41 :: u)) as Hstr.
  { apply holds_cstr; [lia|by rewrite <- app_assoc|]. apply Forall_app.
    split; [by apply plain_nonzero|]. constructor; [done|by apply plain_nonzero]. }
  set (e := p + 1 + zlen t).
  assert (forall r fuel a, r <> [] -> Exists (fun c => c <> 32) r ->
    (exists b, t = b ++ r /\ zlen b = e - zlen r - (p + 1)) -> (length r < fuel)%nat ->
    zlen a = 11 -> zget a 0 = Some 0 ->
    wpg E (loop fuel (one_arg_body long_bits p e) (e - zlen r)) Q (set_args a s)) as Hloop.
  { induction r as [|c r IH]; intros fuel a _ Hex (b & Hb & Hz) Hf Ha Ha0; [by inversion Hex|].
    destruct fuel as [|fuel]; [cbn in Hf; lia|]. apply wpg_loop_S. rewrite zlen_cons in *.
    pose proof (zlen_nonneg r). unfold one_arg_body.
    destruct (Z.eqb_spec (e - (zlen r + 1)) e) as [|_]; [lia|].
    assert (zget (line s) (e - (zlen r + 1)) = Some c) as Hc.
    { apply holds_app in Hm as [Hmt _]. rewrite Hb in Hmt. apply holds_app2 in Hmt as (_ & Hx & _).
      rewrite <- Hx. f_equal. lia. }
    apply wpg_bind, (wpg_read_line _ _ _ c); [done|]. destruct (Z.eqb_spec c 32) as [->|Hc32].
    - apply wpg_bind, wpg_write_arg; [cbn [args set_args]; lia|]. apply wpg_ret.
      replace (e - (zlen r + 1) + 1) with (e - zlen r) by lia.
      apply Exists_cons in Hex as [|Hex]; [done|].
      apply (IH fuel (<[Z.to_nat 0:=0]> a)); [by destruct Hex|done| |cbn in Hf; lia| |].
      + exists (b ++ [32]). rewrite zlen_app, <- app_assoc. split; [done|]. change (zlen [32]) with 1. lia.
      + by rewrite zlen_insert.
      + apply zget_insert_eq. lia.
    - apply wpg_bind, wpg_write_arg; [cbn [args set_args]; lia|].
      apply wpg_bind, (wpg_strtol_at _ _ _ (t ++ 41 :: u)); [done|]. rewrite strtol_sep by done.
      apply wpg_bind, wpg_write_arg; [cbn [args set_args]; rewrite zlen_insert; lia|].
      apply wpg_ret, HQ; cbn [args set_args line login_flag events]; try done.
      + by rewrite !zlen_insert.
      + rewrite zget_insert_ne by lia. rewrite zget_insert_eq by lia. done.
      + cbn [arguments_at argument_value argument_stored]. split; [|done].
        rewrite zget_insert_eq; [done|]. rewrite zlen_insert. lia. }
  replace (p + 1) with (e - zlen t) by (unfold e; lia).
  destruct s as [m a f ev]. apply (Hloop t _ a); [by destruct Hne|done| |unfold e, zlen; lia|done|done].
  exists []. split; [done|]. rewrite zlen_nil. unfold e. lia.
Qed.

(** Clearing the parenthesis at [p] after the arguments have been found. *)
Lemma got_clear p l s s1 :
  0 <= p < zlen (line s) -> zlen (line s1) = zlen (line s) -> zlen (args s1) = zlen (args s) ->
  (forall j, 0 <= j <= p -> zget (line s1) j = zget (line s) j) ->
  zget (args s1) 0 = Some (zlen l) ->
  arguments_at base long_bits (line s1) (args s1) 1 (p + 1) l ->
  login_flag s1 = login_flag s -> events s1 = events s ->
  got base long_bits s p l (set_line (<[Z.to_nat p := 0]> (line s1)) s1).
Proof.
  intros Hp Hl Ha Hb Hc Hat Hf He. constructor; cbn [line args set_line login_flag events];
    [done|by rewrite zlen_insert|done| | | |done|done].
  - eapply (arguments_at_ext _ _ (line s1) _ (args s1)); [lia|lia| |done|done].
    intros j Hj. apply zget_insert_ne; lia.
  - apply zget_insert_eq. lia.
  - intros j Hj. rewrite zget_insert_ne by lia. apply Hb. lia.
Qed.

(** Two separators are the parentheses of an empty list or of a number. *)
Lemma inner_breaks l p :
  Forall argument_ok l ->
  (breaks_from p (list_text l) = [] /\ (l = [] \/ exists t, l = [Num t])) \/
  (breaks_from p (list_text l) <> [] /\ (strings l = 0 -> 2 <= zlen l)).
Proof.
  intros Hok. destruct l as [|a l]; [left; auto|]. apply Forall_cons in Hok as [Ha _].
  rewrite list_text_cons, breaks_app. destruct l as [|b l].
  - destruct a as [t|x t v].
    + left. rewrite breaks_num by done. split; [done|]. right. by exists t.
    + right. rewrite breaks_str by done. done.
  - right. split.
    + cbn [more_text app breaks_from]. change (is_sep 44) with true. by destruct (breaks_from p _).
    + intros _. rewrite !zlen_cons. pose proof (zlen_nonneg l). lia.
Qed.

Lemma breaks_count l p :
  fits l -> (length (breaks_from p (list_text l)) <= 28)%nat.
Proof.
  intros [Hok H]. rewrite (breaks_length p 0). destruct (Z.eqb_spec (strings l) 0) as [Hs|Hs]; [|tauto].
  destruct (strings_zero l Hok Hs) as (ts & -> & Hts). rewrite zlen_map_Num in H.
  destruct ts as [|t ts]; [cbn; lia|].
  destruct (call_breaks (t :: ts) [] 0 ltac:(done) Hts ltac:(constructor)) as [Hb _].
  apply (f_equal length) in Hb. rewrite segment_breaks_length, length_app in Hb.
  rewrite breaks_trail, (breaks_app _ _ [41]) in Hb by constructor. cbn [length] in Hb.
  rewrite length_app in Hb. rewrite (breaks_length 0 (0 + 1)). unfold zlen in H. cbn [length] in *. lia.
Qed.

(** The part of get_args before the arguments are looked at. *)
Lemma wpg_get_args_start str t p inner e Q s :
  cstr (line s) str = Some t -> breaks_from str t = p :: inner ++ [e] ->
  (length inner <= 28)%nat -> zget (line s) p = Some 40 -> zget (line s) e = Some 41 ->
  0 < zlen (args s) ->
  (let s0 := set_args (<[0%nat := 0]> (args s)) s in
   if bool_decide (inner = [])
   then wpg E (loop (Datatypes.S (Z.to_nat (e - p))) (one_arg_body long_bits p e) (p + 1))
          (fun _ s' => wpg E (clear_line "get_args" p) Q s') s0
   else wpg E (many_args base long_bits (p :: inner ++ [e]))
          (fun b s' => if b : bool then Q tt s' else wpg E (clear_line "get_args" p) Q s') s0) ->
  wpg E (get_args base long_bits str separators) Q s.
Proof.
  intros Hs HB Hl Hp He Ha HQ. unfold get_args. apply wpg_bind, (wpg_args_breaks _ _ _ _ _ Hs).
  { rewrite HB. cbn [length]. rewrite length_app. cbn [length]. lia. }
  rewrite HB. assert (zlen (p :: inner ++ [e]) = zlen inner + 2) as HzB
    by (rewrite zlen_cons, zlen_app; change (zlen [e]) with 1; lia).
  cbn zeta. rewrite HzB. pose proof (zlen_nonneg inner).
  destruct (Z.eqb_spec (zlen inner + 2) 0); [lia|]. destruct (Z.eqb_spec (zlen inner + 2) 1); [lia|].
  apply wpg_bind, (wpg_break_at _ _ _ p); [done|].
  apply wpg_bind, (wpg_read_line _ _ _ 40); [done|].
  apply wpg_bind, (wpg_break_char _ _ _ e 41); [|done|].
  { rewrite (app_comm_cons inner [e] p), zget_app_r by (rewrite zlen_cons; lia).
    rewrite zlen_cons. by replace (zlen inner + 2 - 1 - (zlen inner + 1)) with 0 by lia. }
  change ((40 =? 40) && (41 =? 41)) with true. cbn iota.
  apply wpg_bind, wpg_write_arg; [lia|]. change (Z.to_nat 0) with 0%nat. cbn zeta in HQ.
  destruct (Z.eqb_spec (zlen inner + 2) 2) as [Hz|Hz].
  - assert (inner = []) as -> by (apply zlen_zero_nil; lia).
    rewrite bool_decide_true in HQ by done. apply wpg_bind, wpg_bind.
    apply (wpg_break_at _ _ _ e); [done|]. apply wpg_bind. eapply wpg_mono; [exact HQ|].
    intros [] s' H'. by apply wpg_ret.
  - rewrite bool_decide_false in HQ by (by intros ->). apply wpg_bind.
    eapply wpg_mono; [exact HQ|]. intros [] s' H'; [by apply wpg_ret|done].
Qed.

(** The line at [str] is a name and a call. *)
Lemma call_text str name l u s :
  holds (line s) str (name ++ 40 :: list_text l ++ 41 :: u ++ [0]) -> 0 <= str ->
  Forall plain name -> Forall plain u -> Forall argument_ok l ->
  let p := str + zlen name in
  let t := name ++ 40 :: list_text l ++ 41 :: u in
  call_at (line s) p l u /\ cstr (line s) str = Some t /\
  breaks_from str t = p :: breaks_from (p + 1) (list_text l) ++ [p + 1 + zlen (list_text l)] /\
  zget (line s) p = Some 40 /\ zget (line s) (p + 1 + zlen (list_text l)) = Some 41.
Proof.
  intros Hm Hstr Hname Hu Hok p t. pose proof (zlen_nonneg name).
  assert (call_at (line s) p l u) as Hc.
  { apply holds_app in Hm as [_ Hm]. split; [done|]. split; [unfold p; lia|done]. }
  split; [done|]. split; [|split].
  - apply holds_cstr; [done| |]; unfold t.
    + rewrite <- app_assoc. cbn [app]. by rewrite <- app_assoc.
    + apply Forall_app. split; [by apply plain_nonzero|]. constructor; [done|]. apply Forall_app.
      split; [by apply list_nonzero|]. constructor; [done|by apply plain_nonzero].
  - unfold t. rewrite breaks_app, (breaks_plain _ name), breaks_trail, breaks_app by done. done.
  - destruct Hc as ([Hp Hc] & _). apply holds_app2 in Hc as (_ & He & _). done.
Qed.

Lemma wpg_get_args str name l u Q s :
  holds (line s) str (name ++ 40 :: list_text l ++ 41 :: u ++ [0]) -> 0 <= str ->
  Forall plain name -> Forall plain u -> fits l -> zlen (args s) = 11 ->
  (forall s', got base long_bits s (str + zlen name) l s' -> Q tt s') ->
  wpg E (get_args base long_bits str separators) Q s.
Proof.
  intros Hm Hstr Hname Hu Hfit Hargs HQ. pose proof (proj1 Hfit) as Hok.
  destruct (call_text str name l u s Hm Hstr Hname Hu Hok) as (Hc & Hs & HB & Hopen & Hclose).
  set (p := str + zlen name) in *. pose proof Hc as (_ & Hp & _).
  apply zget_Some_range in Hopen as Hr.
  apply (wpg_get_args_start _ _ _ _ _ _ _ Hs HB); [by apply breaks_count|done|done|lia|].
  cbn zeta. set (s0 := set_args _ s).
  assert (zlen (args s0) = 11) as Ha0 by (unfold s0; cbn [args set_args]; by rewrite zlen_insert).
  pose proof (breaks_trail p l u Hu) as Htrail. rewrite breaks_app in Htrail.
  change (breaks_from (p + 1 + zlen (list_text l)) [41]) with [p + 1 + zlen (list_text l)] in Htrail.
  destruct (inner_breaks l (p + 1) Hok) as [[Hin Hl]|[Hin Hl]].
  - rewrite bool_decide_true by done. apply (wpg_one_arg p l u); [done|done|done|done| |].
    { unfold s0. cbn [args set_args]. change 0%nat with (Z.to_nat 0). apply zget_insert_eq. lia. }
    intros s1 H1 H2 H3 H4 H5 H6. apply wpg_clear_line; [rewrite H1; done|]. apply HQ.
    apply got_clear; [done|by rewrite H1|lia|by rewrite H1|done|by rewrite H1|done|done].
  - rewrite bool_decide_false by done. destruct (Z.eq_dec (strings l) 0) as [Hs0|Hs0].
    + rewrite <- Htrail. apply wpg_many_ints; [done|done|done|by apply Hl|done|].
      intros s1 [H1 H2 H3 H4 H5 H6 H7 H8]. apply HQ.
      constructor; [rewrite H1; lia|done|done|done|done|done|done|done].
    + rewrite <- Htrail. apply wpg_many_strings; [done|done|done|done|].
      intros s1 H1 H2 (s2 & [P1 P2 P3 P4 P5 P6 P7] & ->).
      apply wpg_clear_line; [cbn [line set_args]; by rewrite P1|]. apply HQ.
      apply got_clear; cbn [line args set_args login_flag events];
        [done|done|cbn in H1; lia|done|done| |done|done].
      eapply (arguments_at_ext _ _ (line s2) _ (args s2)); [lia|lia|done| |done].
      intros j Hj. change 0%nat with (Z.to_nat 0). apply zget_insert_ne; lia.
Qed.
End GetArgs.

(** * The table of commands *)

Definition is_ident (c : Z) : bool :=
  isdigit c || ((97 <=? c) && (c <=? 122)) || ((65 <=? c) && (c <=? 90)) || (c =? 95).

Fixpoint take_while (f : Z -> bool) (s : list Z) : list Z :=
  match s with
  | c :: s => if f c then c :: take_while f s else []
  | [] => []
  end.

(** The identifier before the parameter list of a prototype. *)
Definition entry_name (c : CmdTbl_t) : list Z :=
  rev (take_while is_ident (rev (take_while (fun x => negb (x =? 40)) (bytes (fname c))))).

(** The parameters between the parentheses: none, one more than the commas, or
    any number. *)
Definition entry_params (c : CmdTbl_t) : option Z :=
  let inside := take_while (fun x => negb (x =? 41))
                  (drop (length (take_while (fun x => negb (x =? 40)) (bytes (fname c))) + 1)
                     (bytes (fname c))) in
  if bool_decide (is_Some (find_sub (bytes "...") inside)) then None
  else if bool_decide (skip_space inside = []) || bool_decide (inside = bytes "void") then Some 0
  else Some (1 + zlen (List.filter (Z.eqb 44) inside)).

Record entry_ok (c : CmdTbl_t) : Prop := {
  entry_fname : exists pos rest,
    (forall s, get_fname (literal (fname c)) s = Ok (pos, zlen (entry_name c), s)) /\
    cstr (literal (fname c)) pos = Some (entry_name c ++ 40 :: rest);
  entry_args_num : forall s, get_args_num (literal (fname c)) (bytes "(,)") s =
    Ok (default (-2) (entry_params c), s);
  entry_plain : Forall (fun x => is_ident x = true) (entry_name c);
  entry_length : 0 < zlen (entry_name c) < 256
}.

Lemma CmdTbl_ok : Forall entry_ok CmdTbl.
Proof.
  repeat (constructor; [constructor;
    [eexists _, _; split; [intros s; vm_compute; reflexivity | vm_compute; reflexivity]
    | intros s; vm_compute; reflexivity
    | vm_compute; repeat constructor
    | vm_compute; done]|]).
  constructor.
Qed.

Lemma CmdTbl_all : take (Z.to_nat CmdTblSize) CmdTbl = CmdTbl.
Proof. reflexivity. Qed.

Lemma ident_facts x : is_ident x = true -> plain x /\ x <> 32 /\ x <> 40.
Proof.
  unfold is_ident, isdigit. rewrite !orb_true_iff, !andb_true_iff, !Z.leb_le, Z.eqb_eq. intros H.
  assert (is_sep x = false); [|unfold plain; split; [split; [done|lia]|lia]].
  destruct (is_sep x) eqn:Hs; [|done]. apply sep_cases in Hs. lia.
Qed.

(** * Finding the command *)

Section Find.
Context (E : failure -> Prop).

Lemma strn_eq_name en rest n blanks k :
  Forall (fun x => is_ident x = true) en -> Forall (fun x => is_ident x = true) n ->
  Forall (fun x => x = 32) blanks -> k = Nat.max (length en) (length n) ->
  strn_eq k (en ++ 40 :: rest) (n ++ blanks) = bool_decide (en = n).
Proof.
  intros Hen Hn Hb ->. revert n Hn. induction Hen as [|x en Hx Hen IH]; intros n Hn.
  - destruct n as [|y n]; cbn [length Nat.max app strn_eq]; [done|].
    apply Forall_cons in Hn as [(_ & _ & Hy)%ident_facts _].
    destruct (Z.eqb_spec 40 y) as [<-|_]; [done|]. by rewrite bool_decide_false.
  - destruct n as [|y n]; cbn [length Nat.max app strn_eq].
    + rewrite bool_decide_false by done. destruct Hb as [|b blanks -> Hb]; [done|].
      apply ident_facts in Hx as (_ & Hx & _). by destruct (Z.eqb_spec x 32).
    + apply Forall_cons in Hn as [_ Hn]. rewrite IH by done.
      destruct (Z.eqb_spec x y) as [->|Hne]; cbn [andb].
      * apply bool_decide_ext. split; [by intros ->|by intros [=]].
      * rewrite bool_decide_false; [done|]. by intros [=].
Qed.

(** pcmd_end is the last character of the name. *)
Lemma wpg_command_end pcmd n blanks Q s :
  holds (line s) pcmd (n ++ blanks) -> 0 <= pcmd -> Forall (fun x => x = 32) blanks ->
  Forall (fun x => is_ident x = true) n -> n <> [] -> Q (pcmd + zlen n - 1) s ->
  wpg E (loop (Datatypes.S (Z.to_nat (pcmd + zlen (n ++ blanks)))) command_end
           (pcmd + zlen (n ++ blanks) - 1)) Q s.
Proof.
  intros Hm Hp Hb Hn Hne HQ.
  assert (exists n' z, n = n' ++ [z]) as (n' & z & ->).
  { destruct (exists_last Hne) as (n' & z & ->). by exists n', z. }
  set (fuel := Datatypes.S _).
  assert (length blanks < fuel)%nat as Hf by (unfold fuel, zlen; rewrite !length_app; lia).
  clearbody fuel. revert fuel Hf. induction blanks as [|b blanks IH] using rev_ind; intros fuel Hf.
  - destruct fuel as [|fuel]; [cbn in Hf; lia|]. rewrite app_nil_r in *. apply wpg_loop_S.
    apply holds_app in Hm as [_ [Hz _]]. rewrite zlen_app in HQ |- *. change (zlen [z]) with 1 in *.
    replace (pcmd + (zlen n' + 1) - 1) with (pcmd + zlen n') in * by lia.
    apply wpg_bind, (wpg_read_line _ _ _ z); [done|].
    apply Forall_app in Hn as [_ Hn]. apply Forall_cons in Hn as [(_ & Hz32 & _)%ident_facts _].
    destruct (Z.eqb_spec z 32); [done|]. by apply wpg_ret.
  - apply Forall_app in Hb as [Hb Hb32]. apply Forall_cons in Hb32 as [-> _].
    rewrite length_app in Hf. cbn [length] in Hf.
    destruct fuel as [|fuel]; [lia|]. apply wpg_loop_S. rewrite app_assoc in Hm |- *.
    apply holds_app in Hm as [Hm [H32 _]]. rewrite (zlen_app _ [32]). change (zlen [32]) with 1.
    replace (pcmd + (zlen ((n' ++ [z]) ++ blanks) + 1) - 1) with (pcmd + zlen ((n' ++ [z]) ++ blanks)) by lia.
    apply wpg_bind, (wpg_read_line _ _ _ 32); [done|]. change (32 =? 32) with true. apply wpg_ret.
    apply IH; [done|done|lia].
Qed.

Lemma wpg_name_matches pcmd c n blanks Q s :
  entry_ok c -> cstr (line s) pcmd = Some (n ++ blanks) -> Forall (fun x => x = 32) blanks ->
  Forall (fun x => is_ident x = true) n -> 0 < zlen n < 256 ->
  Q (bool_decide (entry_name c = n)) s -> wpg E (name_matches pcmd c) Q s.
Proof.
  intros [(pos & rest & Hf & Hstr) _ Hpl Hlen] Hs Hb Hn Hl HQ.
  pose proof (cstr_bound _ _ _ Hs) as [Hp _]. unfold name_matches. apply wpg_bind.
  eapply run_wpg; [apply Hf|]. cbn beta iota. wp_steps. rewrite Hs. wp_steps.
  apply wpg_command_end; [|done|done|done|intros ->; by destruct Hl|].
  { apply cstr_holds in Hs. by apply holds_app in Hs as [Hs _]. }
  wp_steps. rewrite Hstr. wp_steps.
  replace (pcmd + zlen n - 1 - pcmd + 1) with (zlen n) by lia.
  rewrite u8_small by (unfold is_u8; lia).
  rewrite strn_eq_name; [done|done|done|done|].
  unfold zlen. destruct (Z.ltb_spec (Z.of_nat (length (entry_name c))) (Z.of_nat (length n))); lia.
Qed.

Lemma wpg_find_command pcmd n blanks l Q s :
  Forall entry_ok l -> cstr (line s) pcmd = Some (n ++ blanks) -> Forall (fun x => x = 32) blanks ->
  Forall (fun x => is_ident x = true) n -> 0 < zlen n < 256 ->
  Q (List.find (fun c => bool_decide (entry_name c = n)) l) s ->
  wpg E (find_command pcmd l) Q s.
Proof.
  intros Hok Hs Hb Hn Hl. revert Q. induction Hok as [|c l Hc Hok IH]; intros Q HQ; cbn [find_command].
  { by apply wpg_ret. }
  apply wpg_bind, (wpg_name_matches _ _ n blanks); [done..|]. cbn [List.find] in HQ.
  destruct (bool_decide (entry_name c = n)); [by apply wpg_ret|]. by apply IH.
Qed.
End Find.

(** * fcmd_exec *)

(** A line: blanks, a name, blanks, the arguments, and what follows. *)
Definition call_line (lead name gap : list Z) (l : list argument) (u : list Z) : list Z :=
  lead ++ (name ++ gap) ++ 40 :: list_text l ++ 41 :: u ++ [0].

Definition blank (s : list Z) : Prop := Forall (fun x => x = 32) s.

Lemma blank_plain s : blank s -> Forall plain s.
Proof. intros H. eapply Forall_impl; [exact H|]. by intros x ->. Qed.

Lemma ident_plain s : Forall (fun x => is_ident x = true) s -> Forall plain s.
Proof. intros H. eapply Forall_impl; [exact H|]. by intros x [? _]%ident_facts. Qed.

Lemma memset_args_zlen a : zlen (memset_args a) = zlen a.
Proof. destruct a as [|x [|y [|z a]]]; done. Qed.

Lemma arguments_shift base long_bits m a l : forall k p n,
  0 <= k -> 0 <= n -> zlen l <= n ->
  arguments_at base long_bits m a (k + 1) p l ->
  forall d, (forall j, 0 <= j < n -> zget d (k + j) = zget a (k + 1 + j)) ->
  arguments_at base long_bits m d k p l.
Proof.
  induction l as [|x l IH]; intros k p n Hk Hn Hl; cbn [arguments_at]; [done|].
  rewrite zlen_cons in Hl. pose proof (zlen_nonneg l). intros (H1 & H2 & H3) d Hd.
  split; [|split; [done|]].
  - specialize (Hd 0 ltac:(lia)). rewrite !Z.add_0_r in Hd. by rewrite Hd.
  - apply (IH (k + 1) _ (n - 1)) with (d := d) in H3; [done|lia|lia|lia|].
    intros j Hj. specialize (Hd (j + 1) ltac:(lia)).
    replace (k + 1 + j) with (k + (j + 1)) by lia.
    by replace (k + 1 + 1 + j) with (k + 1 + (j + 1)) by lia.
Qed.

(** A parenthesis right after the first one, and a string: state 0 of get_args
    goes round for ever. *)
Lemma wpg_nested_hang (E : failure -> Prop) base long_bits str name body Q s :
  holds (line s) str (name ++ [40; 40; 34] ++ body ++ [34; 41; 0]) -> 0 <= str ->
  Forall plain name -> Forall plain body -> 0 < zlen (args s) -> E (Hang "get_args") ->
  wpg E (get_args base long_bits str separators) Q s.
Proof.
  intros Hm Hstr Hname Hbody Ha HE. pose proof (zlen_nonneg name). pose proof (zlen_nonneg body).
  set (p := str + zlen name).
  set (t := name ++ [40; 40; 34] ++ body ++ [34; 41]).
  assert (cstr (line s) str = Some t) as Hs.
  { apply holds_cstr; [done| |]; unfold t.
    - by rewrite <- !app_assoc.
    - rewrite !Forall_app. split; [by apply plain_nonzero|]. split; [by repeat constructor|].
      split; [by apply plain_nonzero|by repeat constructor]. }
  set (q := p + 3 + zlen body).
  assert (breaks_from str t = p :: [p + 1; p + 1 + 1; q] ++ [q + 1]) as HB.
  { unfold t. rewrite !breaks_app, (breaks_plain _ name), (breaks_plain _ body) by done.
    change (zlen [40; 40; 34]) with 3. done. }
  apply holds_app in Hm as [_ Hm]. apply holds_app in Hm as [(H1 & H2 & H3 & _) Hm].
  apply holds_app in Hm as [Hm (H4 & H5 & _)]. change (zlen [40; 40; 34]) with 3 in *. fold p in H1, H2, H3, H4, H5, Hm. fold q in H4, H5.
  apply (wpg_get_args_start E base long_bits _ _ _ _ _ _ _ Hs HB); [cbn; lia|done|done|done|].
  cbn zeta. rewrite bool_decide_false by done. unfold many_args. set (s0 := set_args _ s).
  assert (tail (p :: [p + 1; p + 1 + 1; q] ++ [q + 1]) = breaks_from (p + 1) ([40; 34] ++ body ++ [34; 41])) as ->.
  { rewrite !breaks_app, (breaks_plain _ body) by done. change (zlen [40; 34]) with 2.
    cbn [tail app]. replace q with (p + 1 + 2 + zlen body) by (unfold q; lia). done. }
  apply wpg_bind, wpg_count_quotes.
  { split; [exact H2|]. split; [exact H3|]. apply (holds_app _ _ body [34; 41]).
    replace (p + 1 + 1 + 1 + zlen body) with q by (unfold q; lia).
    replace (p + 1 + 1 + 1) with (p + 3) by lia. split; [exact Hm|]. by split. }
  rewrite !quotes_app, (quotes_none body) by (by apply plain_no_quote).
  change (quotes [40; 34] + (0 + quotes [34; 41])) with 2. cbn iota.
  apply wpg_bind, wpg_loop_S. unfold args_body. apply wpg_bind. unfold find_arg.
  apply wpg_bind, (wpg_break_char _ _ _ (p + 1) 40); [done|exact H2|]. by apply wpg_stop.
Qed.

Section Exec.
Context (E : failure -> Prop) (base long_bits : Z) (uninit_args : list Z) (call : list event -> Z).
Context (Hlong : 1 <= long_bits) (Huninit : zlen uninit_args = 11).

(** while ( *pcmd == ' ') pcmd++ *)
Lemma wpg_skip_blanks cmd lead c rest Q s :
  cmd = lead ++ c :: rest -> line s = cmd -> blank lead -> c <> 32 -> Q (zlen lead) s ->
  wpg E (loop (Datatypes.S (length cmd)) skip_blanks 0) Q s.
Proof.
  intros -> Hline Hb Hc HQ. set (fuel := Datatypes.S _).
  assert (length lead < fuel)%nat as Hf by (unfold fuel; rewrite length_app; lia). clearbody fuel.
  assert (forall b a fuel, lead = a ++ b -> blank b -> (length b < fuel)%nat ->
            wpg E (loop fuel skip_blanks (zlen a)) Q s) as H; [|by apply (H lead [])].
  clear Hf fuel. induction b as [|x b IH]; intros a fuel -> Hbl Hf;
    (destruct fuel as [|fuel]; [cbn in Hf; lia|]); apply wpg_loop_S.
  - rewrite app_nil_r in *. apply wpg_bind, (wpg_read_line _ _ _ c).
    { by rewrite Hline, zget_app_r, Z.sub_diag by lia. }
    destruct (Z.eqb_spec c 32); [done|]. by apply wpg_ret.
  - apply Forall_cons in Hbl as [-> Hbl]. apply wpg_bind, (wpg_read_line _ _ _ 32).
    { rewrite Hline, <- app_assoc. by rewrite zget_app_r, Z.sub_diag by lia. }
    change (32 =? 32) with true. apply wpg_ret.
    specialize (IH (a ++ [32]) fuel). rewrite zlen_app in IH. change (zlen [32]) with 1 in IH.
    apply IH; [by rewrite <- app_assoc|done|cbn in Hf; lia].
Qed.

Lemma wpg_exec_start lead x rest cmd Q s :
  cmd = lead ++ x :: rest -> blank lead -> x <> 32 -> x <> 0 -> login_flag s <> 0 ->
  wpg E (exec_line base long_bits uninit_args call (zlen lead)) Q (set_line cmd s) ->
  wpg E (fcmd_exec base long_bits uninit_args call cmd) Q s.
Proof.
  intros Ecmd Hlead Hx Hx0 Hlogin HQ. unfold fcmd_exec. apply wpg_bind, wpg_modify, wpg_bind.
  assert (exists y, zget cmd 0 = Some y /\ y <> 0) as (y & Hy & Hy0).
  { rewrite Ecmd. destruct Hlead as [|y lead -> _]; [by exists x|by exists 32]. }
  apply (wpg_read_line _ _ _ y); [done|]. destruct (Z.eqb_spec y 0); [done|].
  apply wpg_bind, (wpg_skip_blanks _ _ _ _ _ _ Ecmd); [done|done|done|].
  apply wpg_bind, wpg_gets. cbn [login_flag set_line].
  by destruct (Z.eqb_spec (login_flag s) 0).
Qed.

(** Whether a command takes [n] arguments. *)
Definition accepts (c : CmdTbl_t) (n : Z) : bool :=
  match entry_params c with None => true | Some k => k =? n end.

(** The function is called with the arguments typed at [p], and its result
    printed. *)
Definition calls (s : shell) (c : CmdTbl_t) (p : Z) (l : list argument) (s' : shell) : Prop :=
  exists argv m,
    zlen argv = zlen l /\ arguments_at base long_bits m argv 0 p l /\
    let e := events s ++ [Called (pfunc c) argv m] in
    let r := s32 (call e) in
    events s' = e ++ [Printf "=0x%08x,%d;" [r; r]].

(** What a line does that calls [name] with the arguments typed at [p]. *)
Definition outcome_of (s : shell) (name : list Z) (p : Z) (l : list argument) (s' : shell) : Prop :=
  login_flag s' = login_flag s /\
  match List.find (fun c => bool_decide (entry_name c = name)) CmdTbl with
  | None => events s' = events s ++ [Printf "err:no such cmd" []]
  | Some c =>
      if accepts c (zlen l) then calls s c p l s'
      else events s' = events s ++ [Printf "err:param err" []]
  end.

Lemma wpg_exec_function c p l Q s1 s :
  entry_ok c -> got base long_bits s1 p l s -> fits l -> zlen (args s1) = 11 ->
  (forall s', login_flag s' = login_flag s1 ->
     (if accepts c (zlen l) then calls s1 c (p + 1) l s'
      else events s' = events s1 ++ [Printf "err:param err" []]) -> Q tt s') ->
  wpg E (exec_function call c (zlen l)) Q s.
Proof.
  intros Hc [G1 G2 G3 G4 G5 G6 G7 G8] Hfit Hargs HQ. unfold exec_function. apply wpg_bind.
  eapply run_wpg; [apply (entry_args_num _ Hc)|]. pose proof (zlen_nonneg l).
  assert (negb (default (-2) (entry_params c) =? -2) && negb (default (-2) (entry_params c) =? zlen l)
            = negb (accepts c (zlen l))) as ->.
  { unfold accepts. destruct (entry_params c) as [k|] eqn:Ek; cbn [from_option id]; [|done].
    destruct (Z.eqb_spec k (-2)) as [->|_]; [|done].
    destruct (Z.eqb_spec (-2) (zlen l)); [lia|]. exfalso. unfold entry_params in Ek.
    repeat case_match; try done; injection Ek as Ek; unfold zlen in Ek; lia. }
  destruct (accepts c (zlen l)); cbn [negb].
  2: { apply wpg_modify, HQ; [done|]. cbn [events add_event]. by rewrite G8. }
  assert (zlen l <= 10) as Hl by (destruct Hfit as [_ Hf]; destruct (strings l =? 0); lia).
  assert ((0 <=? zlen l) && (zlen l <=? PARAMS_NUM) = true) as ->
    by (unfold PARAMS_NUM; destruct (Z.leb_spec 0 (zlen l)), (Z.leb_spec (zlen l) 10); done || lia).
  apply wpg_bind. unfold call_function. wp_steps. apply HQ; [done|].
  exists (zsub (args s) 1 (zlen l)), (line s). rewrite <- G8. split; [|split; [|done]].
  - apply zlen_zsub; lia.
  - eapply (arguments_shift _ _ _ (args s) _ 0 _ (zlen l)); [lia|lia|lia|exact G4|].
    intros j Hj. apply zget_zsub; lia.
Qed.

Lemma wpg_fcmd_exec lead n gap l u Q s :
  Forall (fun x => is_ident x = true) n -> 0 < zlen n < 256 ->
  blank lead -> blank gap -> Forall plain u -> fits l -> login_flag s <> 0 ->
  (forall s', outcome_of s n (zlen lead + zlen n + zlen gap + 1) l s' -> Q tt s') ->
  wpg E (fcmd_exec base long_bits uninit_args call (call_line lead n gap l u)) Q s.
Proof.
  intros Hn Hnl Hlead Hgap Hu Hfit Hlogin HQ. set (cmd := call_line lead n gap l u).
  assert (exists x n', n = x :: n' /\ x <> 32 /\ x <> 0) as (x & n' & En & Hx & Hx0).
  { destruct n as [|x n']; [by destruct Hnl|]. exists x, n'.
    apply Forall_cons in Hn as [([_ ?] & ? & _)%ident_facts _]. done. }
  apply (wpg_exec_start lead x ((n' ++ gap) ++ 40 :: list_text l ++ 41 :: u ++ [0]));
    [unfold cmd, call_line; by rewrite En|done|done|done|done|].
  pose proof (zlen_nonneg lead). pose proof (zlen_nonneg gap).
  assert (holds cmd (zlen lead) ((n ++ gap) ++ 40 :: list_text l ++ 41 :: u ++ [0])) as Hcmd.
  { apply holds_tail. }
  unfold exec_line. apply wpg_bind, wpg_modify, wpg_bind.
  apply (wpg_get_args E base long_bits Hlong _ (n ++ gap) l u); [exact Hcmd|lia| |done|done| |].
  { apply Forall_app. split; [by apply ident_plain|by apply blank_plain]. }
  { cbn [args set_args]. by rewrite memset_args_zlen. }
  intros s1 G. pose proof G as [G1 G2 G3 G4 G5 G6 G7 G8]. cbn [line set_args set_line] in G6.
  rewrite zlen_app, Z.add_assoc in G5, G6.
  apply wpg_bind, wpg_gets. rewrite G3. wp_steps. pose proof (zlen_nonneg l).
  destruct (Z.eqb_spec (zlen l) (-2)); [lia|]. destruct (Z.eqb_spec (zlen l) (-1)); [lia|].
  assert (cstr (line s1) (zlen lead) = Some (n ++ gap)) as Hs1.
  { apply holds_cstr; [done| |].
    - apply holds_app. rewrite zlen_app, Z.add_assoc. split; [|by split].
      apply holds_app in Hcmd as [Hh _]. eapply holds_shift; [|exact Hh].
      intros j Hj. rewrite zlen_app in Hj. symmetry. apply G6. lia.
    - apply Forall_app. split; [by apply plain_nonzero, ident_plain|by apply plain_nonzero, blank_plain]. }
  rewrite CmdTbl_all. apply wpg_bind, (wpg_find_command _ _ n gap); [exact CmdTbl_ok|done|done|done|done|].
  unfold outcome_of in HQ. cbn [login_flag events set_args set_line] in G7, G8.
  destruct (List.find _ CmdTbl) as [c|] eqn:Hfind.
  - eapply wpg_exec_function; [|exact G|done| |].
    { apply find_some in Hfind as [Hin _]. pose proof CmdTbl_ok as Hok.
      rewrite List.Forall_forall in Hok. by apply Hok. }
    { cbn [args set_args]. by rewrite memset_args_zlen. }
    intros s' Hf Hs'. apply HQ. rewrite zlen_app, Z.add_assoc in Hs'. by split.
  - apply wpg_modify, HQ. split; [done|]. cbn [events add_event]. by rewrite G8.
Qed.

(** ** The login *)

Lemma wpg_logged_out lead t Q s :
  login_flag s = 0 -> blank lead -> Forall (fun x => x <> 0) t -> head t <> Some 32 ->
  (forall s', login_flag s' = (if decide (t = login_id ++ [64] ++ login_passwd) then 1 else 0) ->
     events s' = events s ++ (if decide (t = login_id ++ [64] ++ login_passwd)
                              then [Printf "Hello World!" []] else []) -> Q tt s') ->
  wpg E (fcmd_exec base long_bits uninit_args call (lead ++ t ++ [0])) Q s.
Proof.
  intros Hlogin Hlead Ht Hhead HQ. set (cmd := lead ++ t ++ [0]).
  assert (forall b : bool, b = bool_decide (t = login_id ++ [64] ++ login_passwd) ->
    wpg E (if b then modify (set_login_flag 1) ;; PRINTF "Hello World!" [] else ret tt) Q (set_line cmd s))
    as Hend.
  { intros b ->. rewrite (bool_decide_decide (t = _)).
    destruct (decide (t = login_id ++ [64] ++ login_passwd)).
    - apply wpg_bind, wpg_modify, wpg_modify, HQ; done.
    - apply wpg_ret, HQ; [done|]. cbn [events set_line]. by rewrite app_nil_r. }
  assert (exists x r, t ++ [0] = x :: r /\ x <> 32 /\ (x = 0 -> t = [])) as (x & r & Ex & Hx & Hx0).
  { destruct t as [|x t]; [by exists 0, []|]. exists x, (t ++ [0]). split; [done|].
    split; [by intros ->|]. intros ->. by apply Forall_cons in Ht as [? _]. }
  unfold fcmd_exec. apply wpg_bind, wpg_modify, wpg_bind.
  assert (exists y, zget cmd 0 = Some y /\ (y = 0 -> t = [])) as (y & Hy & Hy0).
  { unfold cmd. rewrite Ex. destruct Hlead as [|y lead -> _]; [by exists x|by exists 32]. }
  apply (wpg_read_line _ _ _ y); [done|]. destruct (Z.eqb_spec y 0) as [Hz|_].
  { apply (Hend false). rewrite bool_decide_false; [done|]. rewrite (Hy0 Hz). discriminate. }
  apply wpg_bind, (wpg_skip_blanks cmd lead x r); [unfold cmd; by rewrite Ex|done|done|done|].
  apply wpg_bind, wpg_gets. cbn [login_flag set_line]. rewrite Hlogin. cbn [Z.eqb].
  assert (cstr cmd (zlen lead) = Some t) as Hs.
  { pose proof (zlen_nonneg lead). apply holds_cstr; [done| |done]. unfold cmd.
    apply holds_tail. }
  rewrite Hs. wp_steps. apply Hend.
  unfold login_matches. change (zlen login_id + zlen login_passwd + 1) with 15.
  change (zlen login_id) with 4. change (Z.to_nat (4 + 1)) with 5%nat.
  destruct (decide (t = login_id ++ [64] ++ login_passwd)) as [->|Hne].
  { by vm_compute. }
  rewrite (bool_decide_false (t = _)) by done. apply not_true_iff_false.
  rewrite !andb_true_iff, Z.eqb_eq, bool_decide_eq_true. intros (((Hl & Hid) & Hat) & Hpw).
  apply is_prefix_spec in Hid as (r1 & ->). apply Hne. f_equal.
  change (zget (login_id ++ r1) 4) with (zget r1 0) in Hat. change (drop 5 (login_id ++ r1)) with (drop 1 r1) in Hpw.
  destruct r1 as [|a r1]; [done|]. injection Hat as ->. change (drop 1 (64 :: r1)) with r1 in Hpw.
  apply is_prefix_spec in Hpw as (r2 & ->). rewrite !zlen_app, zlen_cons, zlen_app in Hl.
  change (zlen login_id) with 4 in Hl. change (zlen login_passwd) with 10 in Hl.
  assert (r2 = []) as -> by (apply zlen_zero_nil; lia). by rewrite app_nil_r.
Qed.

(** *** Commands without parentheses *)

Lemma wpg_quit Q s :
  login_flag s <> 0 ->
  (forall s', login_flag s' = 0 -> events s' = events s -> Q tt s') ->
  wpg E (fcmd_exec base long_bits uninit_args call (literal "q")) Q s.
Proof.
  intros Hlogin HQ. apply (wpg_exec_start [] 113 [0]); [done|constructor|done|done|done|].
  unfold exec_line. apply wpg_bind, wpg_modify, wpg_bind. unfold get_args.
  apply wpg_bind, (wpg_args_breaks _ _ [113]); [done|cbn; lia|].
  change (breaks_from (zlen []) [113]) with (@nil Z). cbn zeta.
  apply wpg_write_arg; [cbn [args set_args]; rewrite memset_args_zlen; lia|].
  apply wpg_bind, wpg_gets. cbn [args set_args].
  change 0%nat with (Z.to_nat 0). rewrite zget_insert_eq by (rewrite memset_args_zlen; lia).
  wp_steps. apply HQ; done.
Qed.

(** Lines typed by somebody who is logged out. *)
Definition locked (input : list Z) : Prop := exists lead t,
  input = lead ++ t ++ [0] /\ blank lead /\ Forall (fun x => x <> 0) t /\ head t <> Some 32 /\
  t <> login_id ++ [64] ++ login_passwd.

Lemma wpg_locked inputs k Q s :
  Forall locked inputs -> login_flag s = 0 ->
  (forall s', login_flag s' = 0 -> events s' = events s ->
     wpg E (shell_main base long_bits uninit_args call k) Q s') ->
  wpg E (shell_main base long_bits uninit_args call (inputs ++ k)) Q s.
Proof.
  intros Hin. revert s. induction Hin as [|input inputs (lead & t & -> & Hlead & Ht & Hh & Hne) Hin IH];
    intros s Hlogin HQ; cbn [app shell_main].
  - by apply HQ.
  - apply wpg_bind, wpg_logged_out; [done|done|done|done|]. intros s' Hf He.
    destruct (decide (t = login_id ++ [64] ++ login_passwd)); [done|]. rewrite app_nil_r in He.
    apply IH; [done|]. intros s2 Hf2 He2. apply HQ; congruence.
Qed.

(** ** The limits of get_args *)

(** Storing more numbers than args has elements. *)
Lemma wpg_store_ints_overflow l : forall p k Q s,
  Forall (Forall (fun c => c <> 0)) l -> holds (line s) p (segments_text l) -> 0 <= p -> 0 <= k ->
  zlen (args s) < k + 1 + zlen l -> k + 1 <= zlen (args s) -> E (Fault "get_args") ->
  wpg E (store_ints long_bits k (segment_breaks p l)) Q s.
Proof.
  induction l as [|t l IH]; intros p k Q s Hnz Hm Hp Hk Hlen Hlen' HE; cbn [segment_breaks store_ints].
  { rewrite zlen_nil in Hlen. lia. }
  apply Forall_cons in Hnz as [Ht Hnz]. rewrite zlen_cons in Hlen. pose proof (zlen_nonneg t).
  cbn [segments_text] in Hm. apply holds_cons in Hm as [_ Hm].
  pose proof Hm as Hm'. apply holds_app in Hm' as [Hmt Hml].
  destruct (segments_nil_or l) as [u Hu].
  assert (cstr (line s) (p + 1) = Some t) as Hstr.
  { apply holds_cstr; [lia| |done]. apply holds_app. split; [done|]. rewrite Hu in Hml.
    destruct Hml as [Hz _]. by split. }
  apply wpg_bind, (wpg_strtol_at _ _ _ t); [done|]. apply wpg_bind.
  destruct (Z.eq_dec (k + 1) (zlen (args s))) as [Heq|Hne].
  - unfold write_arg. apply wpg_bind, wpg_gets, wpg_bind.
    rewrite zset_None by lia. by apply wpg_stop.
  - apply wpg_write_arg; [lia|]. apply IH; [done|done|lia|lia| | |done];
      cbn [args set_args]; rewrite zlen_insert; lia.
Qed.

Lemma wpg_many_overflow p ts u Q s :
  call_at (line s) p (map Num ts) u -> Forall argument_ok (map Num ts) -> zlen (args s) = 11 ->
  10 <= zlen ts -> E (Fault "get_args") ->
  wpg E (many_args base long_bits (breaks_from p (40 :: list_text (map Num ts) ++ 41 :: u))) Q s.
Proof.
  intros Hc Hok Hargs Hl HE. unfold many_args.
  assert (strings (map Num ts) = 0) as Hs0 by (clear; induction ts; cbn; done).
  apply wpg_bind, (wpg_quotes E p (map Num ts) u); [done|done|]. intros n _ [_ Hn0]. rewrite (Hn0 Hs0). cbn [Z.mul Z.eqb].
  pose proof Hc as (_ & Hp & Hu). pose proof (nums_plain ts Hok) as Hts.
  destruct (call_breaks ts u p) as [-> _]; [by intros ->|done|done|].
  apply wpg_bind, wpg_clear_call; [done|done|by intros ->|].
  intros m Hml Hmm _. apply wpg_bind, wpg_store_ints_overflow; cbn [line args set_line];
    [by apply segments_nonzero|done|done|lia| |lia|done].
  rewrite zlen_app. change (zlen [u]) with 1. lia.
Qed.

Lemma nums_breaks ts p :
  Forall (Forall plain) ts -> ts <> [] ->
  length (breaks_from p (list_text (map Num ts))) = (length ts - 1)%nat.
Proof.
  intros Hts Hne. destruct (call_breaks ts [] 0 Hne Hts ltac:(constructor)) as [Hb _].
  apply (f_equal length) in Hb. rewrite segment_breaks_length, length_app in Hb.
  rewrite breaks_trail, (breaks_app _ _ [41]) in Hb by constructor. cbn [length] in Hb.
  rewrite length_app in Hb. rewrite (breaks_length p (0 + 1)).
  assert (forall q, length (breaks_from q [41]) = 1%nat) as H1 by done. rewrite H1 in Hb. lia.
Qed.

Lemma wpg_get_args_overflow str name ts u Q s :
  holds (line s) str (name ++ 40 :: list_text (map Num ts) ++ 41 :: u ++ [0]) -> 0 <= str ->
  Forall plain name -> Forall plain u -> Forall argument_ok (map Num ts) ->
  10 <= zlen ts <= 29 -> zlen (args s) = 11 -> E (Fault "get_args") ->
  wpg E (get_args base long_bits str separators) Q s.
Proof.
  intros Hm Hstr Hname Hu Hok Hl Hargs HE.
  destruct (call_text str name (map Num ts) u s Hm Hstr Hname Hu Hok) as (Hc & Hs & HB & Hopen & Hclose).
  set (p := str + zlen name) in *. pose proof (nums_plain ts Hok) as Hts.
  unfold zlen in Hl. assert (ts <> []) as Hne by (intros ->; cbn in Hl; lia).
  pose proof (nums_breaks ts (p + 1) Hts Hne) as Hn.
  apply (wpg_get_args_start _ _ _ _ _ _ _ _ _ _ Hs HB); [lia|done|done|lia|]. cbn zeta.
  rewrite bool_decide_false by (intros Hz; rewrite Hz in Hn; cbn in Hn; lia).
  pose proof (breaks_trail p (map Num ts) u Hu) as Htrail. rewrite breaks_app in Htrail.
  change (breaks_from (p + 1 + zlen (list_text (map Num ts))) [41])
    with [p + 1 + zlen (list_text (map Num ts))] in Htrail.
  rewrite <- Htrail. apply wpg_many_overflow; [done|done| |unfold zlen; lia|done].
  cbn [args set_args]. by rewrite zlen_insert.
Qed.
End Exec.
