(* ===== verification/JpgeTypes.v ===== *)
(** components/jpge/jpge.c and jpge.h: the tables and the state of the JPEG
    encoder.

    The fields of struct jpeg_encoder are grouped by what changes them:
    [jpge_params] is set by jpg_open only, [jpge_out] belongs to the functions
    that write the stream, [jpge_tables] are the static tables of the file. *)

From S2P Require Import Prelude.
From S2P Require Import CMonad.

(** * Constants and tables *)

Definition JPGE_OUT_BUF_SIZE : Z := 512.

Definition Y_ONLY : Z := 0.
Definition H1V1 : Z := 1.
Definition H2V1 : Z := 2.
Definition H2V2 : Z := 3.

Definition M_SOF0 : Z := 0xC0.
Definition M_DHT : Z := 0xC4.
Definition M_SOI : Z := 0xD8.
Definition M_EOI : Z := 0xD9.
Definition M_SOS : Z := 0xDA.
Definition M_DQT : Z := 0xDB.
Definition M_APP0 : Z := 0xE0.

Definition s_zag : list Z :=
  [0; 1; 8; 16; 9; 2; 3; 10; 17; 24; 32; 25; 18; 11; 4; 5; 12; 19; 26; 33; 40; 48; 41; 34;
   27; 20; 13; 6; 7; 14; 21; 28; 35; 42; 49; 56; 57; 50; 43; 36; 29; 22; 15; 23; 30; 37;
   44; 51; 58; 59; 52; 45; 38; 31; 39; 46; 53; 60; 61; 54; 47; 55; 62; 63].

Definition s_std_lum_quant : list Z :=
  [16; 11; 12; 14; 12; 10; 16; 14; 13; 14; 18; 17; 16; 19; 24; 40; 26; 24; 22; 22; 24; 49;
   35; 37; 29; 40; 58; 51; 61; 60; 57; 51; 56; 55; 64; 72; 92; 78; 64; 68; 87; 69; 55; 56;
   80; 109; 81; 87; 95; 98; 103; 104; 103; 62; 77; 113; 121; 112; 100; 120; 92; 101; 103; 99].

Definition s_std_croma_quant : list Z :=
  [17; 18; 18; 24; 21; 24; 47; 26; 26; 47; 99; 66; 56; 66; 99; 99; 99; 99; 99; 99; 99; 99;
   99; 99; 99; 99; 99; 99; 99; 99; 99; 99; 99; 99; 99; 99; 99; 99; 99; 99; 99; 99; 99; 99;
   99; 99; 99; 99; 99; 99; 99; 99; 99; 99; 99; 99; 99; 99; 99; 99; 99; 99; 99; 99].

Definition s_dc_lum_bits : list Z :=
  [0; 0; 1; 5; 1; 1; 1; 1; 1; 1; 0; 0; 0; 0; 0; 0; 0].

Definition s_dc_lum_val : list Z :=
  [0; 1; 2; 3; 4; 5; 6; 7; 8; 9; 10; 11].

Definition s_ac_lum_bits : list Z :=
  [0; 0; 2; 1; 3; 3; 2; 4; 3; 5; 5; 4; 4; 0; 0; 1; 125].

Definition s_ac_lum_val : list Z :=
  [1; 2; 3; 0; 4; 17; 5; 18; 33; 49; 65; 6; 19; 81; 97; 7; 34; 113; 20; 50; 129; 145; 161;
   8; 35; 66; 177; 193; 21; 82; 209; 240; 36; 51; 98; 114; 130; 9; 10; 22; 23; 24; 25; 26;
   37; 38; 39; 40; 41; 42; 52; 53; 54; 55; 56; 57; 58; 67; 68; 69; 70; 71; 72; 73; 74; 83;
   84; 85; 86; 87; 88; 89; 90; 99; 100; 101; 102; 103; 104; 105; 106; 115; 116; 117; 118;
   119; 120; 121; 122; 131; 132; 133; 134; 135; 136; 137; 138; 146; 147; 148; 149; 150;
   151; 152; 153; 154; 162; 163; 164; 165; 166; 167; 168; 169; 170; 178; 179; 180; 181;
   182; 183; 184; 185; 186; 194; 195; 196; 197; 198; 199; 200; 201; 202; 210; 211; 212;
   213; 214; 215; 216; 217; 218; 225; 226; 227; 228; 229; 230; 231; 232; 233; 234; 241;
   242; 243; 244; 245; 246; 247; 248; 249; 250] ++ replicate 94 0.

Definition s_dc_chroma_bits : list Z :=
  [0; 0; 3; 1; 1; 1; 1; 1; 1; 1; 1; 1; 0; 0; 0; 0; 0].

Definition s_dc_chroma_val : list Z :=
  [0; 1; 2; 3; 4; 5; 6; 7; 8; 9; 10; 11].

Definition s_ac_chroma_bits : list Z :=
  [0; 0; 2; 1; 2; 4; 4; 3; 4; 7; 5; 4; 4; 0; 1; 2; 119].

Definition s_ac_chroma_val : list Z :=
  [0; 1; 2; 3; 17; 4; 5; 33; 49; 6; 18; 65; 81; 7; 97; 113; 19; 34; 50; 129; 8; 20; 66;
   145; 161; 177; 193; 9; 35; 51; 82; 240; 21; 98; 114; 209; 10; 22; 36; 52; 225; 37; 241;
   23; 24; 25; 26; 38; 39; 40; 41; 42; 53; 54; 55; 56; 57; 58; 67; 68; 69; 70; 71; 72; 73;
   74; 83; 84; 85; 86; 87; 88; 89; 90; 99; 100; 101; 102; 103; 104; 105; 106; 115; 116;
   117; 118; 119; 120; 121; 122; 130; 131; 132; 133; 134; 135; 136; 137; 138; 146; 147;
   148; 149; 150; 151; 152; 153; 154; 162; 163; 164; 165; 166; 167; 168; 169; 170; 178;
   179; 180; 181; 182; 183; 184; 185; 186; 194; 195; 196; 197; 198; 199; 200; 201; 202;
   210; 211; 212; 213; 214; 215; 216; 217; 218; 226; 227; 228; 229; 230; 231; 232; 233;
   234; 242; 243; 244; 245; 246; 247; 248; 249; 250] ++ replicate 94 0.

(** * The state *)

(** What jpg_open computes from the size of the image and the subsampling. *)
Record jpge_params : Type := mkParams {
  m_quality : Z;
  m_subsampling : Z;
  m_num_components : Z;
  m_comp_h_samp : list Z;
  m_comp_v_samp : list Z;
  m_image_x : Z;
  m_image_y : Z;
  m_image_bpp : Z;
  m_image_bpl : Z;
  m_image_x_mcu : Z;
  m_image_y_mcu : Z;
  m_image_bpl_xlt : Z;
  m_image_bpl_mcu : Z;
  m_mcus_per_row : Z;
  m_mcu_x : Z;
  m_mcu_y : Z
}.

(** The output buffer and the bits that do not fill a byte yet; [m_pOut_buf] is
    an index of [m_out_buf].  [calls] are the arguments of the callback so far,
    [None] for NULL. *)
Record jpge_out : Type := mkOut {
  m_out_buf : list Z;
  m_pOut_buf : Z;
  m_out_buf_left : Z;
  m_bit_buffer : Z;
  m_bits_in : Z;
  m_all_stream_writes_succeeded : bool;
  calls : list (option (list Z))
}.

(** The static variables. *)
Record jpge_tables : Type := mkTables {
  m_last_quality : Z;
  m_quantization_tables : list (list Z);
  m_huff_initialized : bool;
  m_huff_codes : list (list Z);
  m_huff_code_sizes : list (list Z);
  m_huff_bits : list (list Z);
  m_huff_val : list (list Z)
}.

(** [m_mcu_lines]: the lines of the current row of blocks, [None] for NULL; an
    access beyond a line is a fault although the lines share one allocation. *)
Record jpeg_encoder : Type := mkEncoder {
  prm : jpge_params;
  m_mcu_lines : option (list (list Z));
  m_mcu_y_ofs : Z;
  m_sample_array : list Z;
  m_coefficient_array : list Z;
  m_last_dc_val : list Z;
  m_pass_num : Z;
  out : jpge_out;
  tables : jpge_tables
}.

Definition set_prm v s := mkEncoder v (m_mcu_lines s) (m_mcu_y_ofs s) (m_sample_array s)
  (m_coefficient_array s) (m_last_dc_val s) (m_pass_num s) (out s) (tables s).
Definition set_mcu_lines v s := mkEncoder (prm s) v (m_mcu_y_ofs s) (m_sample_array s)
  (m_coefficient_array s) (m_last_dc_val s) (m_pass_num s) (out s) (tables s).
Definition set_mcu_y_ofs v s := mkEncoder (prm s) (m_mcu_lines s) v (m_sample_array s)
  (m_coefficient_array s) (m_last_dc_val s) (m_pass_num s) (out s) (tables s).
Definition set_sample_array v s := mkEncoder (prm s) (m_mcu_lines s) (m_mcu_y_ofs s) v
  (m_coefficient_array s) (m_last_dc_val s) (m_pass_num s) (out s) (tables s).
Definition set_coefficient_array v s := mkEncoder (prm s) (m_mcu_lines s) (m_mcu_y_ofs s)
  (m_sample_array s) v (m_last_dc_val s) (m_pass_num s) (out s) (tables s).
Definition set_last_dc_val v s := mkEncoder (prm s) (m_mcu_lines s) (m_mcu_y_ofs s)
  (m_sample_array s) (m_coefficient_array s) v (m_pass_num s) (out s) (tables s).
Definition set_pass_num v s := mkEncoder (prm s) (m_mcu_lines s) (m_mcu_y_ofs s)
  (m_sample_array s) (m_coefficient_array s) (m_last_dc_val s) v (out s) (tables s).
Definition set_out v s := mkEncoder (prm s) (m_mcu_lines s) (m_mcu_y_ofs s) (m_sample_array
  s) (m_coefficient_array s) (m_last_dc_val s) (m_pass_num s) v (tables s).
Definition set_tables v s := mkEncoder (prm s) (m_mcu_lines s) (m_mcu_y_ofs s)
  (m_sample_array s) (m_coefficient_array s) (m_last_dc_val s) (m_pass_num s) (out s) v.

Definition set_out_buf v o := mkOut v (m_pOut_buf o) (m_out_buf_left o) (m_bit_buffer o)
  (m_bits_in o) (m_all_stream_writes_succeeded o) (calls o).
Definition set_pOut_buf v o := mkOut (m_out_buf o) v (m_out_buf_left o) (m_bit_buffer o)
  (m_bits_in o) (m_all_stream_writes_succeeded o) (calls o).
Definition set_out_buf_left v o := mkOut (m_out_buf o) (m_pOut_buf o) v (m_bit_buffer o)
  (m_bits_in o) (m_all_stream_writes_succeeded o) (calls o).
Definition set_bit_buffer v o := mkOut (m_out_buf o) (m_pOut_buf o) (m_out_buf_left o) v
  (m_bits_in o) (m_all_stream_writes_succeeded o) (calls o).
Definition set_bits_in v o := mkOut (m_out_buf o) (m_pOut_buf o) (m_out_buf_left o)
  (m_bit_buffer o) v (m_all_stream_writes_succeeded o) (calls o).
Definition set_succeeded v o := mkOut (m_out_buf o) (m_pOut_buf o) (m_out_buf_left o)
  (m_bit_buffer o) (m_bits_in o) v (calls o).
Definition set_calls v o := mkOut (m_out_buf o) (m_pOut_buf o) (m_out_buf_left o)
  (m_bit_buffer o) (m_bits_in o) (m_all_stream_writes_succeeded o) v.

(** * Computations *)

(** A computation on the output part of the encoder. *)
Definition on_out {A} (m : M jpge_out A) : M jpeg_encoder A := fun s =>
  match m (out s) with
  | Ok (a, o) => Ok (a, set_out o s)
  | Stop f => Stop f
  end.

Lemma wpg_on_out E {A} (m : M jpge_out A) (Q : A -> jpeg_encoder -> Prop) s :
  wpg E m (fun a o => Q a (set_out o s)) (out s) -> wpg E (on_out m) Q s.
Proof. unfold wpg, on_out. by destruct (m (out s)) as [[a o]|f]. Qed.

(** A signed 32-bit result: overflow is undefined. *)
Definition int32 (x : Z) : option Z :=
  if (-2147483648 <=? x) && (x <? 2147483648) then Some x else None.

(** Conversion to int16_t. *)
Definition s16 (x : Z) : Z := (x + 32768) mod 65536 - 32768.

Lemma int32_small x : -2147483648 <= x < 2147483648 -> int32 x = Some x.
Proof.
  intros H. unfold int32. by rewrite (proj2 (Z.leb_le _ _)), (proj2 (Z.ltb_lt _ _)) by lia.
Qed.

Lemma s16_small x : -32768 <= x < 32768 -> s16 x = x.
Proof. intros H. unfold s16. rewrite Z.mod_small; lia. Qed.
