(* ===== verification/JpgeDct.v ===== *)
(** components/jpge/jpge.c: the conversion of colours, the forward DCT, the
    quantization and the computation of the Huffman codes, as functions of their
    arguments. [None]: an access out of bounds or a signed overflow. *)

From S2P Require Import Prelude.
From S2P Require Import CMonad.
From S2P Require Import JpgeTypes.

#[local] Open Scope stdpp_scope.

(** * Colours *)

Definition YR : Z := 19595.
Definition YG : Z := 38470.
Definition YB : Z := 7471.
Definition CB_R : Z := -11059.
Definition CB_G : Z := -21709.
Definition CB_B : Z := 32768.
Definition CR_R : Z := 32768.
Definition CR_G : Z := -27439.
Definition CR_B : Z := -5329.

Definition clamp (i : Z) : Z := if i <? 0 then 0 else if 255 <? i then 255 else u8 i.

(** The [num_pixels] pixels that are written to pDst. *)
Fixpoint RGB_to_YCC (num_pixels : nat) (pSrc : list Z) : option (list Z) :=
  match num_pixels, pSrc with
  | O, _ => Some []
  | S n, r :: g :: b :: pSrc =>
      l ← RGB_to_YCC n pSrc;
      Some (u8 (Z.shiftr (r * YR + g * YG + b * YB + 32768) 16)
            :: clamp (128 + Z.shiftr (r * CB_R + g * CB_G + b * CB_B + 32768) 16)
            :: clamp (128 + Z.shiftr (r * CR_R + g * CR_G + b * CR_B + 32768) 16) :: l)
  | _, _ => None
  end.

Fixpoint RGB_to_Y (num_pixels : nat) (pSrc : list Z) : option (list Z) :=
  match num_pixels, pSrc with
  | O, _ => Some []
  | S n, r :: g :: b :: pSrc =>
      l ← RGB_to_Y n pSrc;
      Some (u8 (Z.shiftr (r * YR + g * YG + b * YB + 32768) 16) :: l)
  | _, _ => None
  end.

Fixpoint Y_to_YCC (num_pixels : nat) (pSrc : list Z) : option (list Z) :=
  match num_pixels, pSrc with
  | O, _ => Some []
  | S n, y :: pSrc => l ← Y_to_YCC n pSrc; Some (y :: 128 :: 128 :: l)
  | _, _ => None
  end.

(** * The forward DCT *)

Definition CONST_BITS : Z := 13.
Definition ROW_BITS : Z := 2.

Definition DCT_DESCALE (x n : Z) : option Z :=
  y ← int32 (x + Z.shiftl 1 (n - 1)); Some (Z.shiftr y n).
Definition DCT_MUL (var c : Z) : option Z := int32 (s16 var * c).

(** The new values of the eight variables. *)
Definition DCT1D (s0 s1 s2 s3 s4 s5 s6 s7 : Z) : option (list Z) :=
  t0 ← int32 (s0 + s7); t7 ← int32 (s0 - s7); t1 ← int32 (s1 + s6); t6 ← int32 (s1 - s6);
  t2 ← int32 (s2 + s5); t5 ← int32 (s2 - s5); t3 ← int32 (s3 + s4); t4 ← int32 (s3 - s4);
  t10 ← int32 (t0 + t3); t13 ← int32 (t0 - t3); t11 ← int32 (t1 + t2); t12 ← int32 (t1 - t2);
  v ← int32 (t12 + t13); u1 ← DCT_MUL v 4433;
  w ← DCT_MUL t13 6270; s2 ← int32 (u1 + w);
  w ← DCT_MUL t12 (-15137); s6 ← int32 (u1 + w);
  u1 ← int32 (t4 + t7);
  u2 ← int32 (t5 + t6); u3 ← int32 (t4 + t6); u4 ← int32 (t5 + t7);
  v ← int32 (u3 + u4); z5 ← DCT_MUL v 9633;
  t4 ← DCT_MUL t4 2446; t5 ← DCT_MUL t5 16819;
  t6 ← DCT_MUL t6 25172; t7 ← DCT_MUL t7 12299;
  u1 ← DCT_MUL u1 (-7373); u2 ← DCT_MUL u2 (-20995);
  u3 ← DCT_MUL u3 (-16069); u4 ← DCT_MUL u4 (-3196);
  u3 ← int32 (u3 + z5); u4 ← int32 (u4 + z5);
  s0 ← int32 (t10 + t11);
  s1 ← (x ← int32 (t7 + u1); int32 (x + u4));
  s3 ← (x ← int32 (t6 + u2); int32 (x + u3));
  s4 ← int32 (t10 - t11);
  s5 ← (x ← int32 (t5 + u2); int32 (x + u4));
  s7 ← (x ← int32 (t4 + u1); int32 (x + u3));
  Some [s0; s1; s2; s3; s4; s5; s6; s7].

(** The elements q[0], q[d], ..., q[7 * d]. *)
Definition dct_read (p : list Z) (q d : Z) : option (list Z) :=
  mapM (fun k => zget p (q + k * d)) [0; 1; 2; 3; 4; 5; 6; 7].

Fixpoint dct_write (p : list Z) (q d : Z) (l : list Z) : option (list Z) :=
  match l with
  | [] => Some p
  | v :: l => p ← zset p q v; dct_write p (q + d) d l
  end.

(** One round of the first loop: the row at [q]. *)
Definition dct_row (q : Z) (p : list Z) : option (list Z) :=
  s ← dct_read p q 1;
  match s with
  | [s0; s1; s2; s3; s4; s5; s6; s7] =>
      r ← DCT1D s0 s1 s2 s3 s4 s5 s6 s7;
      match r with
      | [s0; s1; s2; s3; s4; s5; s6; s7] =>
          s0 ← int32 (Z.shiftl s0 ROW_BITS); s1 ← DCT_DESCALE s1 (CONST_BITS - ROW_BITS);
          s2 ← DCT_DESCALE s2 (CONST_BITS - ROW_BITS); s3 ← DCT_DESCALE s3 (CONST_BITS - ROW_BITS);
          s4 ← int32 (Z.shiftl s4 ROW_BITS); s5 ← DCT_DESCALE s5 (CONST_BITS - ROW_BITS);
          s6 ← DCT_DESCALE s6 (CONST_BITS - ROW_BITS); s7 ← DCT_DESCALE s7 (CONST_BITS - ROW_BITS);
          dct_write p q 1 [s0; s1; s2; s3; s4; s5; s6; s7]
      | _ => None
      end
  | _ => None
  end.

(** One round of the second loop: the column at [q]. *)
Definition dct_column (q : Z) (p : list Z) : option (list Z) :=
  s ← dct_read p q 8;
  match s with
  | [s0; s1; s2; s3; s4; s5; s6; s7] =>
      r ← DCT1D s0 s1 s2 s3 s4 s5 s6 s7;
      match r with
      | [s0; s1; s2; s3; s4; s5; s6; s7] =>
          s0 ← DCT_DESCALE s0 (ROW_BITS + 3); s1 ← DCT_DESCALE s1 (CONST_BITS + ROW_BITS + 3);
          s2 ← DCT_DESCALE s2 (CONST_BITS + ROW_BITS + 3);
          s3 ← DCT_DESCALE s3 (CONST_BITS + ROW_BITS + 3);
          s4 ← DCT_DESCALE s4 (ROW_BITS + 3); s5 ← DCT_DESCALE s5 (CONST_BITS + ROW_BITS + 3);
          s6 ← DCT_DESCALE s6 (CONST_BITS + ROW_BITS + 3);
          s7 ← DCT_DESCALE s7 (CONST_BITS + ROW_BITS + 3);
          dct_write p q 8 [s0; s1; s2; s3; s4; s5; s6; s7]
      | _ => None
      end
  | _ => None
  end.

(** for (c = 7; c >= 0; c--, q += step) *)
Fixpoint dct_loop (f : Z -> list Z -> option (list Z)) (c : nat) (q step : Z) (p : list Z)
    : option (list Z) :=
  match c with
  | O => Some p
  | S c => p ← f q p; dct_loop f c (q + step) step p
  end.

Definition DCT2D (p : list Z) : option (list Z) :=
  p ← dct_loop dct_row 8 0 8 p; dct_loop dct_column 8 0 1 p.

(** * Quantization *)

(** Division truncates towards zero. *)
Definition quant_entry (q j : Z) : option Z :=
  j ← int32 (j * q + 50); Some (Z.min (Z.max (Z.quot j 100) 1) 255).

Definition compute_quant_table (m_quality : Z) (pSrc : list Z) : option (list Z) :=
  let q := if m_quality <? 50 then Z.quot 5000 m_quality else 200 - m_quality * 2 in
  mapM (quant_entry q) pSrc.

(** One element of pDst for the sample [j] and the divisor [q]. *)
Definition quantize (q j : Z) : option Z :=
  if j <? 0
  then
    j ← int32 (- j + Z.shiftr q 1);
    Some (if j <? q then 0 else s16 (- Z.quot j q))
  else
    j ← int32 (j + Z.shiftr q 1);
    Some (if j <? q then 0 else s16 (Z.quot j q)).

Definition quantize_at (sample_array q : list Z) (i : Z) : option Z :=
  z ← zget s_zag i; j ← zget sample_array z; q ← zget q i; quantize q j.

(** load_quantized_coefficients: the coefficient array for [sample_array] and
    the quantization table [q]. *)
Definition quantized_coefficients (sample_array q : list Z) : option (list Z) :=
  mapM (fun i => quantize_at sample_array q (Z.of_nat i)) (seq 0 64).

(** * The Huffman codes *)

Definition HUFF_TABLE : Z := 257.

(** huff_size[p++] = (char)l, [n] times. *)
Fixpoint put_sizes (n : nat) (l : Z) (huff_size : list Z) (p : Z) : option (list Z * Z) :=
  match n with
  | O => Some (huff_size, p)
  | S n => h ← zset huff_size p (u8 l); put_sizes n l h (p + 1)
  end.

(** for (l = 1; l <= 16; l++) *)
Fixpoint fill_sizes (rounds : nat) (l : Z) (bits huff_size : list Z) (p : Z) : option (list Z * Z) :=
  match rounds with
  | O => Some (huff_size, p)
  | S n =>
      b ← zget bits l; r ← put_sizes (Z.to_nat b) l huff_size p;
      fill_sizes n (l + 1) bits r.1 r.2
  end.

(** The two nested loops that number the codes, one step of either at a time:
    while the size at [p] is [si] it gets a code, else the codes grow by one bit;
    the sentinel ends both. *)
Fixpoint number_codes (fuel : nat) (huff_size huff_code : list Z) (p code si : Z)
    : option (list Z) :=
  match fuel with
  | O => None
  | S n =>
      sz ← zget huff_size p;
      if sz =? 0 then Some huff_code
      else if sz =? si
      then h ← zset huff_code p code; number_codes n huff_size h (p + 1) (u32 (code + 1)) si
      else number_codes n huff_size huff_code p (u32 (Z.shiftl code 1)) (si + 1)
  end.

(** for (p = 0; p < last_p; p++) *)
Fixpoint store_codes (rounds : nat) (p : Z) (val huff_size huff_code codes code_sizes : list Z)
    : option (list Z * list Z) :=
  match rounds with
  | O => Some (codes, code_sizes)
  | S n =>
      v ← zget val p; c ← zget huff_code p; sz ← zget huff_size p;
      codes ← zset codes v c; code_sizes ← zset code_sizes v sz;
      store_codes n (p + 1) val huff_size huff_code codes code_sizes
  end.

(** The codes and their sizes. huff_size and huff_code are static arrays whose
    old contents are not read. *)
Definition compute_huffman_table (bits val : list Z) : option (list Z * list Z) :=
  let zeros := replicate (Z.to_nat HUFF_TABLE) 0 in
  '(huff_size, p) ← fill_sizes 16 1 bits zeros 0;
  huff_size ← zset huff_size p 0;
  si ← zget huff_size 0;
  huff_code ← number_codes 600 huff_size zeros 0 0 si;
  store_codes (Z.to_nat p) 0 val huff_size huff_code (replicate 256 0) (replicate 256 0).
