(* ===== verification/JpgeDctFacts.v ===== *)
(** The forward DCT as two products with an integer matrix, without overflow;
    quantization as division with rounding; colours stay in a byte. *)

From S2P Require Import Prelude.
From S2P Require Import CMonad.
From S2P Require Import JpgeTypes.
From S2P Require Import JpgeDct.

(** * The reference transform *)

(** The effective factors of the additions and multiplications of DCT1D.  They
    are 8192 * sqrt 2 * cos ((2 j + 1) k pi / 16), rounded or, where the code adds
    two rounded constants, one unit beside that; the rows 0 and 4 are not scaled. *)
Definition dct_matrix (k : Z) : list Z :=
  match k with
  | 0 => [1; 1; 1; 1; 1; 1; 1; 1]
  | 1 => [11363; 9633; 6437; 2260; -2260; -6437; -9633; -11363]
  | 2 => [10703; 4433; -4433; -10703; -10703; -4433; 4433; 10703]
  | 3 => [9633; -2259; -11362; -6436; 6436; 11362; 2259; -9633]
  | 4 => [1; -1; -1; 1; 1; -1; -1; 1]
  | 5 => [6437; -11362; 2261; 9633; -9633; -2261; 11362; -6437]
  | 6 => [4433; -10704; 10704; -4433; -4433; 10704; -10704; 4433]
  | _ => [2260; -6436; 9633; -11363; 11363; -9633; 6436; -2260]
  end.

Fixpoint dot (c x : list Z) : Z :=
  match c, x with
  | a :: c, v :: x => a * v + dot c x
  | _, _ => 0
  end.

(** x / 2^n, rounded to the nearest integer. *)
Definition round_shift (x n : Z) : Z := (x + 2 ^ (n - 1)) / 2 ^ n.

(** A row is transformed to four times the DCT coefficients, a column of them
    to the coefficients. *)
Definition row_out (x : list Z) (k : Z) : Z :=
  if k mod 4 =? 0 then dot (dct_matrix k) x * 4 else round_shift (dot (dct_matrix k) x) 11.
Definition column_out (x : list Z) (k : Z) : Z :=
  round_shift (dot (dct_matrix k) x) (if k mod 4 =? 0 then 5 else 18).

Definition indices : list Z := [0; 1; 2; 3; 4; 5; 6; 7].

(** Element [c] of row [r]. *)
Definition at_rc (p : list Z) (r c : Z) : Z := default 0 (zget p (8 * r + c)).

Definition dct_row_ref (p : list Z) (r u : Z) : Z := row_out (map (at_rc p r) indices) u.
Definition dct_ref (p : list Z) (v u : Z) : Z :=
  column_out (map (fun r => dct_row_ref p r u) indices) v.

(** * One dimension *)

Definition dct_range (x : Z) : Prop := -4096 <= x <= 4095.

Lemma option_bind_Some {A B} (a : A) (f : A -> option B) : (Some a ≫= f) = f a.
Proof. done. Qed.

(** Computes the next checked operation of a chain; [lia] proves it in range. *)
Ltac int32_step :=
  lazymatch goal with
  | |- mbind _ (int32 (s16 ?x * ?c)) = _ => rewrite (s16_small x) by lia
  | |- mbind _ (int32 ?x) = _ => rewrite (int32_small x) by lia; rewrite option_bind_Some
  | |- mbind _ (mbind _ (int32 ?x)) = _ => rewrite (int32_small x) by lia; rewrite option_bind_Some
  end.

Lemma DCT1D_spec x0 x1 x2 x3 x4 x5 x6 x7 :
  Forall dct_range [x0; x1; x2; x3; x4; x5; x6; x7] ->
  DCT1D x0 x1 x2 x3 x4 x5 x6 x7 =
    Some (map (fun k => dot (dct_matrix k) [x0; x1; x2; x3; x4; x5; x6; x7]) indices).
Proof.
  unfold dct_range. rewrite !Forall_cons. intros (H0 & H1 & H2 & H3 & H4 & H5 & H6 & H7 & _).
  unfold DCT1D, DCT_MUL. repeat int32_step.
  cbn [map indices dct_matrix dot]. f_equal. repeat (apply f_equal2; [lia|]). done.
Qed.

(** * Two dimensions *)

Lemma zset_get (p : list Z) i v :
  0 <= i < zlen p -> exists p', zset p i v = Some p' /\ zlen p' = zlen p /\
    forall k, 0 <= k -> zget p' k = if k =? i then Some v else zget p k.
Proof.
  intros Hi. rewrite zset_is_Some by done. eexists. split; [done|].
  split; [apply zlen_insert|]. intros k Hk. destruct (Z.eqb_spec k i) as [->|Hne].
  - by apply zget_insert_eq.
  - by apply zget_insert_ne; lia.
Qed.

Lemma mapM_map {A B} (f : A -> option B) (g : A -> B) l :
  (forall x, In x l -> f x = Some (g x)) -> mapM f l = Some (map g l).
Proof.
  intros H. apply mapM_Some. induction l as [|x l IH]; cbn; constructor.
  - apply H. by left.
  - apply IH. intros y Hy. apply H. by right.
Qed.

(** Reading and writing eight elements at the distance [d]. *)
Lemma dct_read_spec p q d :
  0 < d -> 0 <= q -> q + 7 * d < zlen p ->
  dct_read p q d = Some (map (fun k => default 0 (zget p (q + k * d))) indices).
Proof.
  intros Hd Hq Hp. apply mapM_map. intros k Hk.
  assert (0 <= k <= 7) by (cbn in Hk; lia).
  destruct (zget_is_Some p (q + k * d) ltac:(nia)) as [v ->]. done.
Qed.

Lemma dct_write_spec l p q d :
  0 < d -> 0 <= q -> q + (zlen l - 1) * d < zlen p ->
  exists p', dct_write p q d l = Some p' /\ zlen p' = zlen p /\
    (forall k, 0 <= k < zlen l -> zget p' (q + k * d) = zget l k) /\
    (forall i, 0 <= i -> (forall k, 0 <= k < zlen l -> i <> q + k * d) -> zget p' i = zget p i).
Proof.
  intros Hd. revert p q. induction l as [|v l IH]; intros p q Hq Hp.
  - exists p. split; [done|]. split; [done|]. split; [|done].
    intros k Hk. change (0 <= k < 0) in Hk. lia.
  - rewrite zlen_cons in *. pose proof (zlen_nonneg l). cbn [dct_write].
    destruct (zset_get p q v) as (p1 & -> & Hl1 & Hg1); [nia|]. rewrite option_bind_Some.
    destruct (IH p1 (q + d)) as (p' & -> & Hl' & Hin & Hout); [lia | nia|].
    exists p'. split; [done|]. split; [lia|]. split.
    + intros k Hk. destruct (decide (k = 0)) as [->|Hne].
      * rewrite zget_0. replace (q + 0 * d) with q by lia. rewrite Hout, Hg1 by nia.
        by rewrite Z.eqb_refl.
      * rewrite zget_cons by lia. rewrite <- Hin by lia. f_equal. lia.
    + intros i Hi Hk. rewrite Hout, Hg1; [|done | done|].
      * rewrite (proj2 (Z.eqb_neq _ _)); [done|]. specialize (Hk 0). lia.
      * intros k Hk'. specialize (Hk (k + 1)). lia.
Qed.

Lemma at_rc_range p r c (P : Z -> Prop) :
  zlen p = 64 -> Forall P p -> 0 <= r < 8 -> 0 <= c < 8 -> P (at_rc p r c).
Proof.
  intros Hl Hp Hr Hc. unfold at_rc.
  destruct (zget_is_Some p (8 * r + c) ltac:(lia)) as [v Hv]. rewrite Hv. cbn.
  rewrite Forall_forall in Hp. apply Hp. unfold zget in Hv.
  destruct (0 <=? 8 * r + c); [|done]. by apply list_elem_of_lookup_2 in Hv.
Qed.

Lemma indices_range k : In k indices <-> 0 <= k < 8.
Proof. unfold indices. cbn. lia. Qed.

Lemma DCT_DESCALE_spec x n :
  0 < n -> -2147483648 <= x + 2 ^ (n - 1) < 2147483648 ->
  DCT_DESCALE x n = Some (round_shift x n).
Proof.
  intros Hn Hx. unfold DCT_DESCALE, round_shift. rewrite Z.shiftl_mul_pow2, Z.mul_1_l by lia.
  rewrite int32_small by done. rewrite option_bind_Some, Z.shiftr_div_pow2 by lia. done.
Qed.

Definition sample_range (x : Z) : Prop := -128 <= x <= 127.

Lemma zlen_8_list {A} (x : list A) :
  zlen x = 8 -> exists x0 x1 x2 x3 x4 x5 x6 x7, x = [x0; x1; x2; x3; x4; x5; x6; x7].
Proof.
  unfold zlen. intros H. do 8 (destruct x as [|? x]; cbn [length] in H; [lia|]).
  destruct x; cbn [length] in H; [by repeat eexists | lia].
Qed.

(** Splits a statement on an index into its eight cases and computes its tests. *)
Ltac index_cases Hk k :=
  assert (k = 0 \/ k = 1 \/ k = 2 \/ k = 3 \/ k = 4 \/ k = 5 \/ k = 6 \/ k = 7) as Hk by lia;
  destruct Hk as [-> | [-> | [-> | [-> | [-> | [-> | [-> | ->]]]]]]].
Ltac compute_test t :=
  let b := eval vm_compute in t in change t with b; cbv match.

(** The eight values of a line after the first pass: what is computed on the
    way fits an int. *)
Lemma row_values (x : list Z) k :
  zlen x = 8 -> Forall sample_range x -> 0 <= k < 8 ->
  (if k =? 0 then -4096 <= row_out x k <= 4064 else -4080 <= row_out x k <= 4080) /\
  -2147483648 <= dot (dct_matrix k) x * 4 < 2147483648 /\
  -2147483648 <= dot (dct_matrix k) x + 2 ^ (11 - 1) < 2147483648.
Proof.
  intros Hl Hx Hk. destruct (zlen_8_list x Hl) as (x0 & x1 & x2 & x3 & x4 & x5 & x6 & x7 & ->).
  unfold sample_range in Hx. rewrite !Forall_cons in Hx.
  destruct Hx as (H0 & H1 & H2 & H3 & H4 & H5 & H6 & H7 & _).
  index_cases Hc k; unfold row_out, round_shift; cbn [dot dct_matrix];
    change (2 ^ (11 - 1)) with 1024; change (2 ^ 11) with 2048;
    lazymatch goal with |- context [?a mod 4 =? 0] => compute_test (a mod 4 =? 0) end;
    lazymatch goal with |- context [?a =? 0] => compute_test (a =? 0) end;
    (split; [|lia]); Z.to_euclidean_division_equations; lia.
Qed.

(** What the first pass makes of column [u]. *)
Definition pass_range (u : Z) (y : Z) : Prop :=
  if u =? 0 then -4096 <= y <= 4064 else -4080 <= y <= 4080.

Lemma column_values (y : list Z) u k :
  zlen y = 8 -> Forall (pass_range u) y -> 0 <= k < 8 ->
  (if (u =? 0) && (k =? 0) then -1024 <= column_out y k <= 1016 else -1023 <= column_out y k <= 1023) /\
  -2147000000 <= dot (dct_matrix k) y <= 2147000000.
Proof.
  intros Hl Hy Hk. destruct (zlen_8_list y Hl) as (y0 & y1 & y2 & y3 & y4 & y5 & y6 & y7 & ->).
  rewrite !Forall_cons in Hy. unfold pass_range in Hy.
  destruct Hy as (H0 & H1 & H2 & H3 & H4 & H5 & H6 & H7 & _).
  index_cases Hc k; unfold column_out, round_shift; cbn [dot dct_matrix];
    lazymatch goal with |- context [?a mod 4 =? 0] => compute_test (a mod 4 =? 0) end;
    change (2 ^ (18 - 1)) with 131072; change (2 ^ 18) with 262144;
    change (2 ^ (5 - 1)) with 16; change (2 ^ 5) with 32;
    destruct (u =? 0); cbn [andb];
    lazymatch goal with |- context [?a =? 0] => compute_test (a =? 0) | |- _ => idtac end;
    (split; [|lia]); Z.to_euclidean_division_equations; lia.
Qed.

(** The values of a row and of a column. *)
Definition row_of (p : list Z) (r : Z) : list Z := map (at_rc p r) indices.
Definition column_of (p : list Z) (c : Z) : list Z := map (fun r => at_rc p r c) indices.

(** [p'] is [p] with row [r] (column [c]) replaced. *)
Definition row_set (r : Z) (f : Z -> Z) (p p' : list Z) : Prop :=
  zlen p' = 64 /\ forall r' c, 0 <= r' < 8 -> 0 <= c < 8 ->
    at_rc p' r' c = if r' =? r then f c else at_rc p r' c.
Definition column_set (c : Z) (f : Z -> Z) (p p' : list Z) : Prop :=
  zlen p' = 64 /\ forall r c', 0 <= r < 8 -> 0 <= c' < 8 ->
    at_rc p' r c' = if c' =? c then f r else at_rc p r c'.

Lemma dct_read_row p r :
  zlen p = 64 -> 0 <= r < 8 -> dct_read p (8 * r) 1 = Some (row_of p r).
Proof.
  intros Hp Hr. by rewrite dct_read_spec by lia.
Qed.

Lemma dct_read_column p c :
  zlen p = 64 -> 0 <= c < 8 -> dct_read p c 8 = Some (column_of p c).
Proof.
  intros Hp Hc. rewrite dct_read_spec by lia. f_equal. apply map_ext. intros k.
  unfold at_rc. do 2 f_equal. lia.
Qed.

Lemma zget_map_indices (f : Z -> Z) k : 0 <= k < 8 -> zget (map f indices) k = Some (f k).
Proof. intros Hk. index_cases Hc k; reflexivity. Qed.

Lemma dct_write_row p r f :
  zlen p = 64 -> 0 <= r < 8 ->
  exists p', dct_write p (8 * r) 1 (map f indices) = Some p' /\ row_set r f p p'.
Proof.
  intros Hp Hr. assert (zlen (map f indices) = 8) as Hl by reflexivity.
  destruct (dct_write_spec (map f indices) p (8 * r) 1) as (p' & Hw & Hl' & Hin & Hout); [lia..|].
  exists p'. split; [done|]. split; [lia|]. intros r' c Hr' Hc. unfold at_rc.
  destruct (Z.eqb_spec r' r) as [->|Hne].
  - replace (8 * r + c) with (8 * r + c * 1) by lia.
    by rewrite Hin, zget_map_indices by lia.
  - rewrite Hout; [done | lia|]. intros k Hk. lia.
Qed.

Lemma dct_write_column p c f :
  zlen p = 64 -> 0 <= c < 8 ->
  exists p', dct_write p c 8 (map f indices) = Some p' /\ column_set c f p p'.
Proof.
  intros Hp Hc. assert (zlen (map f indices) = 8) as Hl by reflexivity.
  destruct (dct_write_spec (map f indices) p c 8) as (p' & Hw & Hl' & Hin & Hout); [lia..|].
  exists p'. split; [done|]. split; [lia|]. intros r c' Hr Hc'. unfold at_rc.
  destruct (Z.eqb_spec c' c) as [->|Hne].
  - replace (8 * r + c) with (c + r * 8) by lia.
    by rewrite Hin, zget_map_indices by lia.
  - rewrite Hout; [done | lia|]. intros k Hk. lia.
Qed.

Lemma Forall_indices {A} (P : A -> Prop) (f : Z -> A) :
  (forall k, 0 <= k < 8 -> P (f k)) -> Forall P (map f indices).
Proof. intros H. repeat constructor; apply H; lia. Qed.

Lemma dct_row_spec p r :
  zlen p = 64 -> 0 <= r < 8 -> Forall sample_range (row_of p r) ->
  exists p', dct_row (8 * r) p = Some p' /\ row_set r (row_out (row_of p r)) p p'.
Proof.
  intros Hp Hr Hx. unfold dct_row. rewrite dct_read_row, option_bind_Some by done.
  assert (zlen (row_of p r) = 8) as Hl by reflexivity.
  pose proof (fun k => row_values _ k Hl Hx) as Hv.
  destruct (zlen_8_list _ Hl) as (x0 & x1 & x2 & x3 & x4 & x5 & x6 & x7 & Hrow).
  destruct (dct_write_row p r (row_out (row_of p r)) Hp Hr) as (p' & Hw & Hset).
  exists p'. split; [|done]. rewrite Hrow in *.
  rewrite DCT1D_spec.
  2: { eapply Forall_impl; [exact Hx|]. unfold sample_range, dct_range. lia. }
  rewrite option_bind_Some. rewrite <- Hw. cbn [map indices]. unfold row_out.
  assert (forall k, 0 <= k < 8 -> k mod 4 <> 0 ->
    DCT_DESCALE (dot (dct_matrix k) [x0; x1; x2; x3; x4; x5; x6; x7]) (CONST_BITS - ROW_BITS) =
    Some (round_shift (dot (dct_matrix k) [x0; x1; x2; x3; x4; x5; x6; x7]) 11)) as Hd.
  { intros k Hk _. apply DCT_DESCALE_spec; [done|]. destruct (Hv k Hk) as (_ & _ & H). exact H. }
  assert (forall k, 0 <= k < 8 ->
    int32 (Z.shiftl (dot (dct_matrix k) [x0; x1; x2; x3; x4; x5; x6; x7]) ROW_BITS) =
    Some (dot (dct_matrix k) [x0; x1; x2; x3; x4; x5; x6; x7] * 4)) as Hs.
  { intros k Hk. unfold ROW_BITS. rewrite Z.shiftl_mul_pow2 by lia. apply int32_small.
    destruct (Hv k Hk) as (_ & H & _). exact H. }
  rewrite (Hs 0), option_bind_Some by lia. rewrite (Hd 1), option_bind_Some by (done || lia).
  rewrite (Hd 2), option_bind_Some by (done || lia). rewrite (Hd 3), option_bind_Some by (done || lia).
  rewrite (Hs 4), option_bind_Some by lia. rewrite (Hd 5), option_bind_Some by (done || lia).
  rewrite (Hd 6), option_bind_Some by (done || lia). rewrite (Hd 7), option_bind_Some by (done || lia).
  reflexivity.
Qed.

Lemma pass_range_dct u y : pass_range u y -> dct_range y.
Proof. unfold pass_range, dct_range. destruct (u =? 0); lia. Qed.

Lemma dct_column_spec p c :
  zlen p = 64 -> 0 <= c < 8 -> Forall (pass_range c) (column_of p c) ->
  exists p', dct_column c p = Some p' /\ column_set c (column_out (column_of p c)) p p'.
Proof.
  intros Hp Hc Hy. unfold dct_column. rewrite dct_read_column, option_bind_Some by done.
  assert (zlen (column_of p c) = 8) as Hl by reflexivity.
  pose proof (fun k => column_values _ c k Hl Hy) as Hv.
  destruct (zlen_8_list _ Hl) as (x0 & x1 & x2 & x3 & x4 & x5 & x6 & x7 & Hcol).
  destruct (dct_write_column p c (column_out (column_of p c)) Hp Hc) as (p' & Hw & Hset).
  exists p'. split; [|done]. rewrite Hcol in *.
  rewrite DCT1D_spec.
  2: { eapply Forall_impl; [exact Hy|]. apply pass_range_dct. }
  rewrite option_bind_Some. rewrite <- Hw. cbn [map indices]. unfold column_out.
  assert (forall k n, 0 <= k < 8 -> n = 5 \/ n = 18 ->
    DCT_DESCALE (dot (dct_matrix k) [x0; x1; x2; x3; x4; x5; x6; x7]) n =
    Some (round_shift (dot (dct_matrix k) [x0; x1; x2; x3; x4; x5; x6; x7]) n)) as Hd.
  { intros k n Hk Hn. destruct (Hv k Hk) as (_ & H). apply DCT_DESCALE_spec; [lia|].
    assert (0 <= 2 ^ (n - 1) <= 131072) by by destruct Hn as [-> | ->]. lia. }
  change (CONST_BITS + ROW_BITS + 3) with 18. change (ROW_BITS + 3) with 5.
  rewrite (Hd 0 5), option_bind_Some by lia. rewrite (Hd 1 18), option_bind_Some by lia.
  rewrite (Hd 2 18), option_bind_Some by lia. rewrite (Hd 3 18), option_bind_Some by lia.
  rewrite (Hd 4 5), option_bind_Some by lia. rewrite (Hd 5 18), option_bind_Some by lia.
  rewrite (Hd 6 18), option_bind_Some by lia. rewrite (Hd 7 18), option_bind_Some by lia.
  reflexivity.
Qed.

Lemma map_indices_ext (f g : Z -> Z) :
  (forall k, 0 <= k < 8 -> f k = g k) -> map f indices = map g indices.
Proof. intros H. unfold indices. cbn [map]. rewrite !H by lia. done. Qed.

Lemma row_of_range p r :
  zlen p = 64 -> Forall sample_range p -> 0 <= r < 8 -> Forall sample_range (row_of p r).
Proof. intros Hl Hp Hr. apply Forall_indices. intros k Hk. by apply (at_rc_range p r k). Qed.

(** The first pass. *)
Lemma dct_rows p0 n r p :
  zlen p0 = 64 -> Forall sample_range p0 -> zlen p = 64 -> 0 <= r -> r + Z.of_nat n = 8 ->
  (forall r' c, 0 <= r' < 8 -> 0 <= c < 8 ->
     at_rc p r' c = if r' <? r then dct_row_ref p0 r' c else at_rc p0 r' c) ->
  exists p', dct_loop dct_row n (8 * r) 8 p = Some p' /\ zlen p' = 64 /\
    forall r' c, 0 <= r' < 8 -> 0 <= c < 8 -> at_rc p' r' c = dct_row_ref p0 r' c.
Proof.
  intros Hl0 Hs Hl Hr Hn Hp. revert r p Hl Hr Hn Hp. induction n as [|n IH]; intros r p Hl Hr Hn Hp.
  - exists p. split; [done|]. split; [done|]. intros r' c Hr' Hc. rewrite Hp by done.
    by rewrite (proj2 (Z.ltb_lt r' r)) by lia.
  - assert (row_of p r = row_of p0 r) as Hrow.
    { apply map_indices_ext. intros k Hk. rewrite Hp by lia.
      by rewrite (proj2 (Z.ltb_ge r r)) by lia. }
    destruct (dct_row_spec p r) as (p1 & Hp1 & Hl1 & Hg1); [done | lia | rewrite Hrow; apply row_of_range; (done || lia)|].
    cbn [dct_loop]. rewrite Hp1, option_bind_Some. replace (8 * r + 8) with (8 * (r + 1)) by lia.
    apply IH; [done | lia | lia|]. intros r' c Hr' Hc. rewrite Hg1, Hrow, Hp by done.
    destruct (Z.eqb_spec r' r) as [->|Hne].
    + by rewrite (proj2 (Z.ltb_lt r (r + 1))) by lia.
    + destruct (Z.ltb_spec r' r), (Z.ltb_spec r' (r + 1)); try done; lia.
Qed.

(** The second pass. *)
Lemma dct_columns p0 n c p :
  (forall c', 0 <= c' < 8 -> Forall (pass_range c') (column_of p0 c')) ->
  zlen p = 64 -> 0 <= c -> c + Z.of_nat n = 8 ->
  (forall r c', 0 <= r < 8 -> 0 <= c' < 8 ->
     at_rc p r c' = if c' <? c then column_out (column_of p0 c') r else at_rc p0 r c') ->
  exists p', dct_loop dct_column n c 1 p = Some p' /\ zlen p' = 64 /\
    forall r c', 0 <= r < 8 -> 0 <= c' < 8 -> at_rc p' r c' = column_out (column_of p0 c') r.
Proof.
  intros Hs Hl Hc Hn Hp. revert c p Hl Hc Hn Hp. induction n as [|n IH]; intros c p Hl Hc Hn Hp.
  - exists p. split; [done|]. split; [done|]. intros r c' Hr Hc'. rewrite Hp by done.
    by rewrite (proj2 (Z.ltb_lt c' c)) by lia.
  - assert (column_of p c = column_of p0 c) as Hcol.
    { apply map_indices_ext. intros k Hk. rewrite Hp by lia.
      by rewrite (proj2 (Z.ltb_ge c c)) by lia. }
    destruct (dct_column_spec p c) as (p1 & Hp1 & Hl1 & Hg1); [done | lia | rewrite Hcol; apply Hs; lia|].
    cbn [dct_loop]. rewrite Hp1, option_bind_Some.
    apply IH; [done | lia | lia|]. intros r c' Hr Hc'. rewrite Hg1, Hcol, Hp by done.
    destruct (Z.eqb_spec c' c) as [->|Hne].
    + by rewrite (proj2 (Z.ltb_lt c (c + 1))) by lia.
    + destruct (Z.ltb_spec c' c), (Z.ltb_spec c' (c + 1)); try done; lia.
Qed.

(** DC coefficients are in the range of 11 bits with sign, AC coefficients in
    that of 10 bits with sign. *)
Definition coefficient_range (v u : Z) (x : Z) : Prop :=
  if (u =? 0) && (v =? 0) then -1024 <= x <= 1016 else -1023 <= x <= 1023.

(** DCT2D on samples: no overflow, the reference transform, and the range of
    the coefficients. *)
Lemma DCT2D_spec p :
  zlen p = 64 -> Forall sample_range p ->
  exists p', DCT2D p = Some p' /\ zlen p' = 64 /\
    forall v u, 0 <= v < 8 -> 0 <= u < 8 ->
      at_rc p' v u = dct_ref p v u /\ coefficient_range v u (at_rc p' v u).
Proof.
  intros Hl Hp. unfold DCT2D.
  destruct (dct_rows p 8 0 p) as (p1 & H1 & Hl1 & Hg1); [done | done | done | lia | lia | |].
  { intros r c Hr Hc. by rewrite (proj2 (Z.ltb_ge r 0)) by lia. }
  change (8 * 0) with 0 in H1. rewrite H1, option_bind_Some.
  assert (forall c, 0 <= c < 8 -> column_of p1 c = map (fun r => dct_row_ref p r c) indices) as Hc1.
  { intros c Hc. apply map_indices_ext. intros k Hk. by apply Hg1. }
  assert (forall c, 0 <= c < 8 -> Forall (pass_range c) (column_of p1 c)) as Hr1.
  { intros c Hc. rewrite Hc1 by done. apply Forall_indices. intros r Hr.
    pose proof (row_values (row_of p r) c) as Hv. unfold dct_row_ref, pass_range.
    apply Hv; [done | by apply row_of_range | done]. }
  destruct (dct_columns p1 8 0 p1) as (p2 & H2 & Hl2 & Hg2); [done | done | lia | lia | |].
  { intros r c Hr Hc. by rewrite (proj2 (Z.ltb_ge c 0)) by lia. }
  exists p2. split; [done|]. split; [done|]. intros v u Hv Hu. rewrite Hg2, Hc1 by done.
  split; [done|]. unfold coefficient_range.
  apply (column_values _ u v); [done | rewrite <- Hc1 by done; by apply Hr1 | done].
Qed.

(** * Quantization *)

(** Division with rounding to the nearest integer, away from zero. *)
Definition rounded (q j : Z) : Z := Z.sgn j * ((Z.abs j + q / 2) / q).

Definition divisor (q : Z) : Prop := 1 <= q <= 255.

Lemma rounded_error q j : divisor q -> 2 * Z.abs (q * rounded q j - j) <= q.
Proof.
  unfold divisor, rounded. intros Hq. pose proof (Z.div_mod (Z.abs j + q / 2) q ltac:(lia)).
  pose proof (Z.mod_pos_bound (Z.abs j + q / 2) q ltac:(lia)).
  pose proof (Z.div_mod q 2 ltac:(lia)). pose proof (Z.mod_pos_bound q 2 ltac:(lia)).
  set (c := (Z.abs j + q / 2) / q) in *.
  destruct (Z.sgn_spec j) as [[? ->] | [[<- ->] | [? ->]]].
  - rewrite Z.mul_1_l. lia.
  - rewrite Z.mul_0_l. lia.
  - replace (q * (-1 * c)) with (- (q * c)) by lia. lia.
Qed.

Lemma quotient_le q a : divisor q -> 0 <= a -> 0 <= (a + q / 2) / q <= a.
Proof.
  unfold divisor. intros Hq Ha.
  assert (0 <= q / 2 <= q - 1) by (Z.to_euclidean_division_equations; lia).
  split; [apply Z.div_pos; lia|]. destruct (decide (a = 0)) as [->|Hne].
  - rewrite Z.div_small by lia. lia.
  - apply Z.div_le_upper_bound; [lia|]. nia.
Qed.

Lemma rounded_le q j : divisor q -> Z.abs (rounded q j) <= Z.abs j.
Proof.
  intros Hq. pose proof (quotient_le q (Z.abs j) Hq ltac:(lia)). unfold rounded.
  destruct (Z.sgn_spec j) as [[? ->] | [[? ->] | [? ->]]]; lia.
Qed.

Lemma quantize_spec q j :
  divisor q -> -1024 <= j <= 1024 -> quantize q j = Some (rounded q j).
Proof.
  intros Hq Hj. pose proof (quotient_le q (Z.abs j) Hq ltac:(lia)) as Hle. unfold divisor in Hq.
  unfold quantize, rounded. rewrite Z.shiftr_div_pow2 by lia. change (2 ^ 1) with 2.
  assert (0 <= q / 2 <= 127 /\ q / 2 < q) by (Z.to_euclidean_division_equations; lia).
  assert (forall a, 0 <= a -> a < q -> a / q = 0) as Hsmall by (intros; by apply Z.div_small).
  destruct (Z.ltb_spec j 0).
  - replace (Z.abs j) with (- j) in * by lia. replace (Z.sgn j) with (-1) by lia.
    rewrite int32_small, option_bind_Some by lia. destruct (Z.ltb_spec (- j + q / 2) q).
    + by rewrite Hsmall by lia.
    + rewrite Z.quot_div_nonneg by lia. rewrite s16_small by lia. f_equal; lia.
  - replace (Z.abs j) with j in * by lia.
    rewrite int32_small, option_bind_Some by lia. destruct (Z.ltb_spec (j + q / 2) q).
    + rewrite Hsmall by lia. f_equal; lia.
    + replace (Z.sgn j) with 1 by lia. rewrite Z.quot_div_nonneg, s16_small by lia. f_equal; lia.
Qed.

(** The coefficient number [i] in the zig-zag order. *)
Definition zigzag (i : nat) : Z := default 0 (zget s_zag (Z.of_nat i)).
Definition quantized (q a : list Z) (i : nat) : Z :=
  rounded (default 0 (zget q (Z.of_nat i))) (default 0 (zget a (zigzag i))).

Lemma zigzag_range i : (i < 64)%nat -> zget s_zag (Z.of_nat i) = Some (zigzag i) /\ 0 <= zigzag i < 64.
Proof.
  intros Hi. unfold zigzag.
  assert (forallb (fun i => match zget s_zag (Z.of_nat i) with
    | Some z => (0 <=? z) && (z <? 64) | None => false end) (seq 0 64) = true) as H by reflexivity.
  rewrite forallb_forall in H. specialize (H i ltac:(apply in_seq; lia)).
  destruct (zget s_zag (Z.of_nat i)) as [z|]; [|done]. cbn. split; [done|]. lia.
Qed.

(** Only the first position of the zig-zag order is the DC coefficient. *)
Lemma zigzag_0 i : (0 < i < 64)%nat -> zigzag i <> 0.
Proof.
  intros Hi. assert (forallb (fun i => negb (zigzag i =? 0)) (seq 1 63) = true) as H by reflexivity.
  rewrite forallb_forall in H. specialize (H i ltac:(apply in_seq; lia)).
  apply negb_true_iff, Z.eqb_neq in H. exact H.
Qed.

Lemma Forall_zget {A} (P : A -> Prop) l i v : Forall P l -> zget l i = Some v -> P v.
Proof.
  intros Hl. unfold zget. destruct (0 <=? i); [|done]. intros H.
  rewrite Forall_forall in Hl. apply Hl. by apply list_elem_of_lookup_2 in H.
Qed.

Lemma quantized_coefficients_spec a q :
  zlen a = 64 -> Forall (fun x => -1024 <= x <= 1024) a -> zlen q = 64 -> Forall divisor q ->
  quantized_coefficients a q = Some (map (quantized q a) (seq 0 64)).
Proof.
  intros Ha Har Hq Hqr. unfold quantized_coefficients. apply mapM_map. intros i Hi%in_seq.
  unfold quantize_at, quantized. destruct (zigzag_range i ltac:(lia)) as [-> Hz].
  rewrite option_bind_Some.
  destruct (zget_is_Some a (zigzag i) ltac:(lia)) as [j Hj].
  destruct (zget_is_Some q (Z.of_nat i) ltac:(lia)) as [d Hd].
  rewrite Hj, option_bind_Some, Hd, option_bind_Some. cbn.
  apply quantize_spec; [by apply (Forall_zget _ q (Z.of_nat i)) | by apply (Forall_zget _ a (zigzag i) j Har)].
Qed.

(** The table of a quality: the standard table scaled, in the range of a byte
    and without zero. *)
Definition quality_scale (quality : Z) : Z :=
  if quality <? 50 then 5000 / quality else 200 - quality * 2.
Definition scaled_entry (scale j : Z) : Z := Z.min (Z.max ((j * scale + 50) / 100) 1) 255.

Lemma compute_quant_table_spec quality src :
  1 <= quality <= 100 -> Forall (fun j => 0 <= j <= 255) src ->
  compute_quant_table quality src = Some (map (scaled_entry (quality_scale quality)) src) /\
  Forall divisor (map (scaled_entry (quality_scale quality)) src).
Proof.
  intros Hq Hs. unfold compute_quant_table, quality_scale.
  rewrite Z.quot_div_nonneg by lia.
  set (sc := if quality <? 50 then 5000 / quality else 200 - quality * 2).
  assert (0 <= sc <= 5000) as Hsc.
  { unfold sc. destruct (Z.ltb_spec quality 50); [|lia].
    split; [apply Z.div_pos; lia | apply Z.div_le_upper_bound; lia]. }
  split.
  - apply mapM_map. intros j Hj. rewrite Forall_forall in Hs.
    specialize (Hs j ltac:(by apply list_elem_of_In)). unfold quant_entry, scaled_entry.
    rewrite int32_small, option_bind_Some by nia. by rewrite Z.quot_div_nonneg by nia.
  - apply Forall_forall. intros d (j & -> & _)%list_elem_of_fmap. unfold divisor, scaled_entry. lia.
Qed.

(** * Colours *)

Lemma clamp_range i : is_u8 (clamp i).
Proof.
  unfold clamp, is_u8. destruct (Z.ltb_spec i 0); [lia|]. destruct (Z.ltb_spec 255 i); [lia|].
  apply u8_range.
Qed.

(** Luminance needs no clamping. *)
Lemma luma_range r g b :
  is_u8 r -> is_u8 g -> is_u8 b ->
  is_u8 (Z.shiftr (r * YR + g * YG + b * YB + 32768) 16).
Proof.
  unfold is_u8, YR, YG, YB. intros Hr Hg Hb. rewrite Z.shiftr_div_pow2 by lia.
  change (2 ^ 16) with 65536. Z.to_euclidean_division_equations. lia.
Qed.
