(* ===== verification/Jpge.v ===== *)
(** components/jpge/jpge.c: the encoder.

    Parameters: [pPut_buf calls d] is what the callback returns for the data
    [d] ([None] for NULL) after the calls [calls]; [malloc n] is the content of
    a new block of [n] bytes. *)

From S2P Require Import Prelude.
From S2P Require Import CMonad.
From S2P Require Import JpgeTypes.
From S2P Require Import JpgeDct.

(** for (i = a; i < b; i++) body *)
Definition for_range {S} (a b : Z) (body : Z -> M S unit) : M S unit :=
  loop (Datatypes.S (Z.to_nat (b - a)))
    (fun i => if i <? b then body i ;; ret (inl (i + 1)) else ret (inr tt)) a.

(** * Writing the stream *)

Section Output.
Context (pPut_buf : list (option (list Z)) -> option (list Z) -> bool).

(** m_all_stream_writes_succeeded = m_all_stream_writes_succeeded && m_pPut_buf(d) *)
Definition put_buf_and (d : option (list Z)) : M jpge_out unit :=
  ok <- gets m_all_stream_writes_succeeded ;;
  if ok
  then
    cs <- gets calls ;;
    modify (set_calls (cs ++ [d])) ;;
    modify (set_succeeded (pPut_buf cs d))
  else ret tt.

Definition flush_output_buffer : M jpge_out unit :=
  left <- gets m_out_buf_left ;;
  (if negb (left =? JPGE_OUT_BUF_SIZE)
   then
     buf <- gets m_out_buf ;;
     put_buf_and (Some (zsub buf 0 (JPGE_OUT_BUF_SIZE - left)))
   else ret tt) ;;
  modify (set_pOut_buf 0) ;;
  modify (set_out_buf_left JPGE_OUT_BUF_SIZE).

Definition emit_byte (i : Z) : M jpge_out unit :=
  buf <- gets m_out_buf ;;
  p <- gets m_pOut_buf ;;
  buf <- access "emit_byte" (zset buf p (u8 i)) ;;
  modify (set_out_buf buf) ;;
  modify (set_pOut_buf (p + 1)) ;;
  left <- gets m_out_buf_left ;;
  let left := u32 (left - 1) in
  modify (set_out_buf_left left) ;;
  if left =? 0 then flush_output_buffer else ret tt.

(** One round of while (m_bits_in >= 8). *)
Definition put_bits_body (_ : unit) : M jpge_out (unit + unit) :=
  n <- gets m_bits_in ;;
  if n <? 8 then ret (inr tt)
  else
    b <- gets m_bit_buffer ;;
    let c := Z.land (Z.shiftr b 16) 0xFF in
    emit_byte c ;;
    (if c =? 0xFF then emit_byte 0 else ret tt) ;;
    modify (set_bit_buffer (u32 (Z.shiftl b 8))) ;;
    modify (set_bits_in (u32 (n - 8))) ;;
    ret (inl tt).

(** The shift count 24 - (m_bits_in += len) is unsigned; 32 or more is
    undefined. *)
Definition put_bits (bits len : Z) : M jpge_out unit :=
  n <- gets m_bits_in ;;
  let n := u32 (n + len) in
  modify (set_bits_in n) ;;
  let sh := u32 (24 - n) in
  b <- gets m_bit_buffer ;;
  v <- access "put_bits" (if sh <? 32 then Some (u32 (Z.shiftl bits sh)) else None) ;;
  modify (set_bit_buffer (Z.lor b v)) ;;
  loop (Datatypes.S (Z.to_nat n)) put_bits_body tt.

Definition emit_word (i : Z) : M jpge_out unit :=
  emit_byte (Z.shiftr i 8) ;; emit_byte (Z.land i 0xFF).

Definition emit_marker (marker : Z) : M jpge_out unit :=
  emit_byte 0xFF ;; emit_byte marker.

(** * Headers *)

Definition emit_jfif_app0 : M jpge_out unit :=
  emit_marker M_APP0 ;;
  emit_word (2 + 4 + 1 + 2 + 1 + 2 + 2 + 1 + 1) ;;
  emit_byte 0x4A ;; emit_byte 0x46 ;; emit_byte 0x49 ;; emit_byte 0x46 ;;
  emit_byte 0 ;;
  emit_byte 1 ;;
  emit_byte 1 ;;
  emit_byte 0 ;;
  emit_word 1 ;;
  emit_word 1 ;;
  emit_byte 0 ;;
  emit_byte 0.

(** One round over the tables: all 64 entries of table [i]. *)
Definition emit_dqt_body (quant : list (list Z)) (i : Z) : M jpge_out unit :=
  emit_marker M_DQT ;;
  emit_word (64 + 1 + 2) ;;
  emit_byte i ;;
  q <- access "emit_dqt" (zget quant i) ;;
  for_range 0 64 (fun j => v <- access "emit_dqt" (zget q j) ;; emit_byte v).

Definition emit_dqt (p : jpge_params) (quant : list (list Z)) : M jpge_out unit :=
  for_range 0 (if m_num_components p =? 3 then 2 else 1) (emit_dqt_body quant).

Definition emit_sof (p : jpge_params) : M jpge_out unit :=
  emit_marker M_SOF0 ;;
  emit_word (3 * m_num_components p + 2 + 5 + 1) ;;
  emit_byte 8 ;;
  emit_word (m_image_y p) ;;
  emit_word (m_image_x p) ;;
  emit_byte (m_num_components p) ;;
  for_range 0 (m_num_components p) (fun i =>
    emit_byte (i + 1) ;;
    h <- access "emit_sof" (zget (m_comp_h_samp p) i) ;;
    v <- access "emit_sof" (zget (m_comp_v_samp p) i) ;;
    emit_byte (Z.shiftl h 4 + v) ;;
    emit_byte (if 0 <? i then 1 else 0)).

Definition emit_dht (bits val : list Z) (index : Z) (ac_flag : bool) : M jpge_out unit :=
  let site := "emit_dht"%string in
  emit_marker M_DHT ;;
  length <- loop 17 (fun '(i, length) =>
    if i <=? 16
    then b <- access site (zget bits i) ;; ret (inl (i + 1, length + b))
    else ret (inr length)) (1, 0) ;;
  emit_word (length + 2 + 1 + 16) ;;
  emit_byte (index + (if ac_flag then 16 else 0)) ;;
  for_range 1 17 (fun i => b <- access site (zget bits i) ;; emit_byte b) ;;
  for_range 0 length (fun i => v <- access site (zget val i) ;; emit_byte v).

Definition emit_dht_of (t : jpge_tables) (k index : Z) (ac_flag : bool) : M jpge_out unit :=
  bits <- access "emit_dhts" (zget (m_huff_bits t) k) ;;
  val <- access "emit_dhts" (zget (m_huff_val t) k) ;;
  emit_dht bits val index ac_flag.

Definition emit_dhts (p : jpge_params) (t : jpge_tables) : M jpge_out unit :=
  emit_dht_of t (0 + 0) 0 false ;;
  emit_dht_of t (2 + 0) 0 true ;;
  if m_num_components p =? 3
  then emit_dht_of t (0 + 1) 1 false ;; emit_dht_of t (2 + 1) 1 true
  else ret tt.

Definition emit_sos (p : jpge_params) : M jpge_out unit :=
  emit_marker M_SOS ;;
  emit_word (2 * m_num_components p + 2 + 1 + 3) ;;
  emit_byte (m_num_components p) ;;
  for_range 0 (m_num_components p) (fun i =>
    emit_byte (i + 1) ;;
    if i =? 0 then emit_byte (Z.shiftl 0 4 + 0) else emit_byte (Z.shiftl 1 4 + 1)) ;;
  emit_byte 0 ;;
  emit_byte 63 ;;
  emit_byte 0.

(** * Loading blocks *)

(** The samples at x, x + step, ... of line [y], 8 of them, by [f]. *)
Definition mcu_line (site : string) (y : Z) : M jpeg_encoder (list Z) :=
  lines <- gets m_mcu_lines ;;
  lines <- access site lines ;;
  access site (zget lines y).

(** The samples [f 0], ..., [f 7] go to pDst[0], ..., pDst[7] of row [i]. *)
Definition store_row (site : string) (i : Z) (f : Z -> option Z) : M jpeg_encoder unit :=
  row <- access site (mapM f [0; 1; 2; 3; 4; 5; 6; 7]) ;;
  a <- gets m_sample_array ;;
  a <- access site (zblit a (8 * i) row) ;;
  modify (set_sample_array a).

Definition load_block_8_8_grey (x : Z) : M jpeg_encoder unit :=
  let site := "load_block_8_8_grey"%string in
  let x := Z.shiftl x 3 in
  for_range 0 8 (fun i =>
    src <- mcu_line site i ;;
    store_row site i (fun k => v ← zget src (x + k); Some (v - 128))).

Definition load_block_8_8 (x y c : Z) : M jpeg_encoder unit :=
  let site := "load_block_8_8"%string in
  let x := x * (8 * 3) + c in
  let y := Z.shiftl y 3 in
  for_range 0 8 (fun i =>
    src <- mcu_line site (y + i) ;;
    store_row site i (fun k => v ← zget src (x + k * 3); Some (v - 128))).

(** The mean of four samples; the rounding term alternates between the columns
    and between the rows. *)
Definition load_block_16_8 (x c : Z) : M jpeg_encoder unit :=
  let site := "load_block_16_8"%string in
  let x := x * (16 * 3) + c in
  for_range 0 8 (fun i =>
    let a := if Z.even i then 0 else 2 in
    let b := if Z.even i then 2 else 0 in
    src1 <- mcu_line site (2 * i + 0) ;;
    src2 <- mcu_line site (2 * i + 1) ;;
    store_row site i (fun k =>
      p1 ← zget src1 (x + (2 * k) * 3); p2 ← zget src1 (x + (2 * k + 1) * 3);
      p3 ← zget src2 (x + (2 * k) * 3); p4 ← zget src2 (x + (2 * k + 1) * 3);
      Some (Z.shiftr (p1 + p2 + p3 + p4 + (if Z.even k then a else b)) 2 - 128))).

Definition load_block_16_8_8 (x c : Z) : M jpeg_encoder unit :=
  let site := "load_block_16_8_8"%string in
  let x := x * (16 * 3) + c in
  for_range 0 8 (fun i =>
    src <- mcu_line site i ;;
    store_row site i (fun k =>
      p1 ← zget src (x + (2 * k) * 3); p2 ← zget src (x + (2 * k + 1) * 3);
      Some (Z.shiftr (p1 + p2) 1 - 128))).

(** * Coding a block *)

Definition load_quantized_coefficients (component_num : Z) : M jpeg_encoder unit :=
  let site := "load_quantized_coefficients"%string in
  t <- gets tables ;;
  q <- access site (zget (m_quantization_tables t) (if 0 <? component_num then 1 else 0)) ;;
  a <- gets m_sample_array ;;
  co <- access site (quantized_coefficients a q) ;;
  modify (set_coefficient_array co).

(** while (temp1) { nbits++; temp1 >>= 1; }; the fuel 32 covers an int. *)
Fixpoint count_bits (fuel : nat) (nbits temp1 : Z) : Z :=
  match fuel with
  | O => nbits
  | S n => if temp1 =? 0 then nbits else count_bits n (nbits + 1) (Z.shiftr temp1 1)
  end.

(** put_bits(codes[k][j], code_sizes[k][j]) *)
Definition put_code (codes sizes : list Z) (j : Z) : M jpeg_encoder unit :=
  let site := "code_coefficients_pass_two"%string in
  c <- access site (zget codes j) ;;
  n <- access site (zget sizes j) ;;
  on_out (put_bits c n).

(** The low bits of [temp2]. *)
Definition put_low (temp2 nbits : Z) : M jpeg_encoder unit :=
  on_out (put_bits (Z.land temp2 (Z.shiftl 1 nbits - 1)) nbits).

(** while (run_len >= 16) *)
Definition zrl_body (codes sizes : list Z) (run_len : Z) : M jpeg_encoder (Z + Z) :=
  if 16 <=? run_len
  then put_code codes sizes 0xF0 ;; ret (inl (run_len - 16))
  else ret (inr run_len).

(** One round over the coefficients; the state is run_len. *)
Definition ac_body (codes sizes : list Z) (st : Z * Z) : M jpeg_encoder (Z * Z + Z) :=
  let '(run_len, i) := st in
  if 64 <=? i then ret (inr run_len)
  else
    co <- gets m_coefficient_array ;;
    temp1 <- access "code_coefficients_pass_two" (zget co i) ;;
    if temp1 =? 0 then ret (inl (run_len + 1, i + 1))
    else
      run_len <- loop 5 (zrl_body codes sizes) run_len ;;
      let temp2 := if temp1 <? 0 then temp1 - 1 else temp1 in
      let nbits := count_bits 32 1 (Z.shiftr (Z.abs temp1) 1) in
      put_code codes sizes (Z.shiftl run_len 4 + nbits) ;;
      put_low temp2 nbits ;;
      ret (inl (0, i + 1)).

Definition code_coefficients_pass_two (component_num : Z) : M jpeg_encoder unit :=
  let site := "code_coefficients_pass_two"%string in
  t <- gets tables ;;
  let k := if component_num =? 0 then 0 else 1 in
  codes0 <- access site (zget (m_huff_codes t) (0 + k)) ;;
  codes1 <- access site (zget (m_huff_codes t) (2 + k)) ;;
  sizes0 <- access site (zget (m_huff_code_sizes t) (0 + k)) ;;
  sizes1 <- access site (zget (m_huff_code_sizes t) (2 + k)) ;;
  co <- gets m_coefficient_array ;;
  dc <- access site (zget co 0) ;;
  last <- gets m_last_dc_val ;;
  l <- access site (zget last component_num) ;;
  let temp := dc - l in
  last <- access site (zset last component_num dc) ;;
  modify (set_last_dc_val last) ;;
  let temp2 := if temp <? 0 then temp - 1 else temp in
  let nbits := count_bits 32 0 (Z.abs temp) in
  put_code codes0 sizes0 nbits ;;
  (if negb (nbits =? 0) then put_low temp2 nbits else ret tt) ;;
  run_len <- loop 64 (ac_body codes1 sizes1) (0, 1) ;;
  if negb (run_len =? 0) then put_code codes1 sizes1 0 else ret tt.

Definition code_block (component_num : Z) : M jpeg_encoder unit :=
  a <- gets m_sample_array ;;
  a <- access "DCT2D" (DCT2D a) ;;
  modify (set_sample_array a) ;;
  load_quantized_coefficients component_num ;;
  code_coefficients_pass_two component_num.

(** * Rows of blocks *)

Definition process_mcu_row : M jpeg_encoder unit :=
  p <- gets prm ;;
  h <- access "process_mcu_row" (zget (m_comp_h_samp p) 0) ;;
  v <- access "process_mcu_row" (zget (m_comp_v_samp p) 0) ;;
  if m_num_components p =? 1
  then for_range 0 (m_mcus_per_row p) (fun i => load_block_8_8_grey i ;; code_block 0)
  else if (h =? 1) && (v =? 1)
  then for_range 0 (m_mcus_per_row p) (fun i =>
    load_block_8_8 i 0 0 ;; code_block 0 ;; load_block_8_8 i 0 1 ;; code_block 1 ;;
    load_block_8_8 i 0 2 ;; code_block 2)
  else if (h =? 2) && (v =? 1)
  then for_range 0 (m_mcus_per_row p) (fun i =>
    load_block_8_8 (i * 2 + 0) 0 0 ;; code_block 0 ;; load_block_8_8 (i * 2 + 1) 0 0 ;; code_block 0 ;;
    load_block_16_8_8 i 1 ;; code_block 1 ;; load_block_16_8_8 i 2 ;; code_block 2)
  else if (h =? 2) && (v =? 2)
  then for_range 0 (m_mcus_per_row p) (fun i =>
    load_block_8_8 (i * 2 + 0) 0 0 ;; code_block 0 ;; load_block_8_8 (i * 2 + 1) 0 0 ;; code_block 0 ;;
    load_block_8_8 (i * 2 + 0) 1 0 ;; code_block 0 ;; load_block_8_8 (i * 2 + 1) 1 0 ;; code_block 0 ;;
    load_block_16_8 i 1 ;; code_block 1 ;; load_block_16_8 i 2 ;; code_block 2)
  else ret tt.

(** The pixels of a scanline as load_mcu writes them to pDst. *)
Definition convert_pixels (p : jpge_params) (pSrc : list Z) : option (list Z) :=
  let n := Z.to_nat (m_image_x p) in
  if m_num_components p =? 1
  then
    if m_image_bpp p =? 3 then RGB_to_Y n pSrc
    else if m_image_x p <=? zlen pSrc then Some (take n pSrc) else None
  else
    if m_image_bpp p =? 3 then RGB_to_YCC n pSrc else Y_to_YCC n pSrc.

(** What is written behind the pixels up to the end of the last block. *)
Definition padding (p : jpge_params) (pDst : list Z) : option (list Z) :=
  let n := Z.to_nat (m_image_x_mcu p - m_image_x p) in
  if m_num_components p =? 1
  then v ← zget pDst (m_image_bpl_xlt p - 1); Some (replicate n v)
  else
    y ← zget pDst (m_image_bpl_xlt p - 3 + 0);
    cb ← zget pDst (m_image_bpl_xlt p - 3 + 1);
    cr ← zget pDst (m_image_bpl_xlt p - 3 + 2);
    Some (concat (replicate n [y; cb; cr])).

(** m_mcu_lines[i] = d *)
Definition set_line (site : string) (i : Z) (d : list Z) : M jpeg_encoder unit :=
  lines <- gets m_mcu_lines ;;
  lines <- access site lines ;;
  lines <- access site (zset lines i d) ;;
  modify (set_mcu_lines (Some lines)).

Definition load_mcu (pSrc : list Z) : M jpeg_encoder unit :=
  let site := "load_mcu"%string in
  p <- gets prm ;;
  ofs <- gets m_mcu_y_ofs ;;
  pDst <- mcu_line site ofs ;;
  d <- access site (convert_pixels p pSrc) ;;
  pDst <- access site (zblit pDst 0 d) ;;
  pad <- access site (padding p pDst) ;;
  pDst <- access site (zblit pDst (m_image_bpl_xlt p) pad) ;;
  set_line site ofs pDst ;;
  let ofs := u8 (ofs + 1) in
  modify (set_mcu_y_ofs ofs) ;;
  if ofs =? m_mcu_y p
  then process_mcu_row ;; modify (set_mcu_y_ofs 0)
  else ret tt.

(** * Opening *)

(** x rounded up to a multiple of the power of two [m]. *)
Definition mcu_round (x m : Z) : option Z :=
  y ← int32 (x + m - 1); Some (Z.land y (Z.lnot (m - 1))).

(** The sampling factors and the size of a row of blocks; a subsampling
    outside the enumeration leaves them as they are. *)
Definition jpg_sampling (p : jpge_params) : Z * list Z * list Z * Z * Z :=
  let sub := m_subsampling p in
  if sub =? Y_ONLY
  then (1, <[0%nat := 1]> (m_comp_h_samp p), <[0%nat := 1]> (m_comp_v_samp p), 8, 8)
  else if sub =? H1V1 then (3, [1; 1; 1], [1; 1; 1], 8, 8)
  else if sub =? H2V1 then (3, [2; 1; 1], [1; 1; 1], 16, 8)
  else if sub =? H2V2 then (3, [2; 1; 1], [2; 1; 1], 16, 16)
  else (3, m_comp_h_samp p, m_comp_v_samp p, m_mcu_x p, m_mcu_y p).

Definition jpg_geometry (p : jpge_params) (p_x_res p_y_res src_channels : Z) : option jpge_params :=
  let '(n, h, v, mx, my) := jpg_sampling p in
  bpl ← int32 (p_x_res * src_channels);
  x_mcu ← mcu_round p_x_res mx;
  y_mcu ← mcu_round p_y_res my;
  bpl_xlt ← int32 (p_x_res * n);
  bpl_mcu ← int32 (x_mcu * n);
  Some (mkParams (m_quality p) (m_subsampling p) n h v p_x_res p_y_res src_channels bpl x_mcu y_mcu
          bpl_xlt bpl_mcu (Z.quot x_mcu mx) mx my).

(** Copy number [k] of the standard tables to the static ones. *)
Definition init_huff (k : Z) (bits val : list Z) (t : jpge_tables) : option jpge_tables :=
  val0 ← zget (m_huff_val t) k;
  val ← zblit val0 0 val;
  '(codes, sizes) ← compute_huffman_table bits val;
  codes ← zset (m_huff_codes t) k codes;
  sizes ← zset (m_huff_code_sizes t) k sizes;
  bits ← zset (m_huff_bits t) k bits;
  vals ← zset (m_huff_val t) k val;
  Some (mkTables (m_last_quality t) (m_quantization_tables t) (m_huff_initialized t)
          codes sizes bits vals).

Definition jpg_tables (quality : Z) (t : jpge_tables) : option jpge_tables :=
  t ← (if negb (m_last_quality t =? quality)
       then
         lum ← compute_quant_table quality s_std_lum_quant;
         chroma ← compute_quant_table quality s_std_croma_quant;
         Some (mkTables quality [lum; chroma] (m_huff_initialized t) (m_huff_codes t)
                 (m_huff_code_sizes t) (m_huff_bits t) (m_huff_val t))
       else Some t);
  if negb (m_huff_initialized t)
  then
    let t := mkTables (m_last_quality t) (m_quantization_tables t) true (m_huff_codes t)
               (m_huff_code_sizes t) (m_huff_bits t) (m_huff_val t) in
    t ← init_huff (0 + 0) s_dc_lum_bits s_dc_lum_val t;
    t ← init_huff (2 + 0) s_ac_lum_bits s_ac_lum_val t;
    t ← init_huff (0 + 1) s_dc_chroma_bits s_dc_chroma_val t;
    init_huff (2 + 1) s_ac_chroma_bits s_ac_chroma_val t
  else Some t.

Context (malloc : Z -> option (list Z)).

Definition jpg_headers : M jpeg_encoder unit :=
  p <- gets prm ;;
  t <- gets tables ;;
  on_out (
    emit_marker M_SOI ;;
    emit_jfif_app0 ;;
    emit_dqt p (m_quantization_tables t) ;;
    emit_sof p ;;
    emit_dhts p t ;;
    emit_sos p).

Definition jpg_open (p_x_res p_y_res src_channels : Z) : M jpeg_encoder bool :=
  let site := "jpg_open"%string in
  p <- gets prm ;;
  p <- access site (jpg_geometry p p_x_res p_y_res src_channels) ;;
  modify (set_prm p) ;;
  size <- access site (int32 (m_image_bpl_mcu p * m_mcu_y p)) ;;
  match malloc size with
  | None => modify (set_mcu_lines None) ;; ret false
  | Some block =>
      modify (set_mcu_lines (Some (map (fun i => zsub block (Z.of_nat i * m_image_bpl_mcu p)
        (m_image_bpl_mcu p)) (seq 0 (Z.to_nat (m_mcu_y p)))))) ;;
      t <- gets tables ;;
      t <- access site (jpg_tables (m_quality p) t) ;;
      modify (set_tables t) ;;
      on_out (modify (fun o => mkOut (m_out_buf o) 0 JPGE_OUT_BUF_SIZE 0 0
        (m_all_stream_writes_succeeded o) (calls o))) ;;
      modify (set_mcu_y_ofs 0) ;;
      modify (set_pass_num 2) ;;
      modify (set_last_dc_val [0; 0; 0]) ;;
      jpg_headers ;;
      o <- gets out ;;
      ret (m_all_stream_writes_succeeded o)
  end.

(** * The interface *)

(** for (i = m_mcu_y_ofs; i < m_mcu_y; i++): the last line is repeated. *)
Definition repeat_line (i : Z) : M jpeg_encoder unit :=
  let site := "process_end_of_image"%string in
  p <- gets prm ;;
  ofs <- gets m_mcu_y_ofs ;;
  last <- mcu_line site (ofs - 1) ;;
  line <- mcu_line site i ;;
  line <- access site (if m_image_bpl_mcu p <=? zlen last
                       then zblit line 0 (zsub last 0 (m_image_bpl_mcu p)) else None) ;;
  set_line site i line.

Definition process_end_of_image : M jpeg_encoder bool :=
  p <- gets prm ;;
  ofs <- gets m_mcu_y_ofs ;;
  (if negb (ofs =? 0)
   then
     (if ofs <? 16 then for_range ofs (m_mcu_y p) repeat_line else ret tt) ;;
     process_mcu_row
   else ret tt) ;;
  on_out (
    put_bits 0x7F 7 ;;
    emit_marker M_EOI ;;
    flush_output_buffer ;;
    put_buf_and None) ;;
  n <- gets m_pass_num ;;
  modify (set_pass_num (u8 (n + 1))) ;;
  ret true.

(** [pPut_buf_null]: the pointer pPut_buf is NULL. *)
Definition jpge_init (pPut_buf_null : bool) (width height src_channels quality subsampling : Z)
    : M jpeg_encoder bool :=
  modify (set_mcu_lines None) ;;
  modify (set_pass_num 0) ;;
  on_out (modify (set_succeeded true)) ;;
  if (pPut_buf_null || (width <? 1) || (height <? 1)) ||
     (negb (src_channels =? 1) && negb (src_channels =? 3) && negb (src_channels =? 4)) ||
     (quality <? 1) || (100 <? quality) || (H2V2 <? subsampling)
  then ret false
  else
    p <- gets prm ;;
    modify (set_prm (mkParams quality subsampling (m_num_components p) (m_comp_h_samp p)
      (m_comp_v_samp p) (m_image_x p) (m_image_y p) (m_image_bpp p) (m_image_bpl p)
      (m_image_x_mcu p) (m_image_y_mcu p) (m_image_bpl_xlt p) (m_image_bpl_mcu p)
      (m_mcus_per_row p) (m_mcu_x p) (m_mcu_y p))) ;;
    jpg_open width height src_channels.

Definition jpge_deinit : M jpeg_encoder unit :=
  modify (set_mcu_lines None) ;;
  modify (set_pass_num 0) ;;
  on_out (modify (set_succeeded true)).

Definition jpge_process_scanline (pScanline : option (list Z)) : M jpeg_encoder bool :=
  n <- gets m_pass_num ;;
  if (n <? 1) || (2 <? n) then ret false
  else
    o <- gets out ;;
    if m_all_stream_writes_succeeded o
    then
      match pScanline with
      | None =>
          r <- process_end_of_image ;;
          if negb r then ret false
          else o <- gets out ;; ret (m_all_stream_writes_succeeded o)
      | Some d => load_mcu d ;; o <- gets out ;; ret (m_all_stream_writes_succeeded o)
      end
    else ret false.
End Output.

(** The static tables before the first use, and an encoder in zeroed memory. *)
Definition zero_tables : jpge_tables :=
  mkTables 0 (replicate 2 (replicate 64 0)) false (replicate 4 (replicate 256 0))
    (replicate 4 (replicate 256 0)) (replicate 4 (replicate 17 0)) (replicate 4 (replicate 256 0)).
Definition zero_encoder : jpeg_encoder :=
  mkEncoder (mkParams 0 0 0 [0; 0; 0] [0; 0; 0] 0 0 0 0 0 0 0 0 0 0 0) None 0 (replicate 64 0)
    (replicate 64 0) [0; 0; 0] 0 (mkOut (replicate 512 0) 0 0 0 0 false []) zero_tables.
