(* ===== verification/JpgeOutFacts.v ===== *)
(** What the encoder writes: the stream of bytes behind the output buffer, and
    the bit string behind the bytes of the entropy-coded data. *)

From S2P Require Import Prelude.
From S2P Require Import CMonad.
From S2P Require Import JpgeTypes.
From S2P Require Import Jpge.

(** * Bit strings, most significant bit first *)

Fixpoint bits_of (n : nat) (v : Z) : list bool :=
  match n with
  | O => []
  | S n => Z.testbit v (Z.of_nat n) :: bits_of n v
  end.

Fixpoint bits_value_from (a : Z) (l : list bool) : Z :=
  match l with
  | [] => a
  | b :: l => bits_value_from (2 * a + Z.b2z b) l
  end.
Definition bits_value : list bool -> Z := bits_value_from 0.

(** The full bytes of a bit string, and the bits behind them. *)
Fixpoint pack (l : list bool) : list Z * list bool :=
  match l with
  | b7 :: b6 :: b5 :: b4 :: b3 :: b2 :: b1 :: b0 :: l' =>
      let '(c, r) := pack l' in (bits_value [b7; b6; b5; b4; b3; b2; b1; b0] :: c, r)
  | _ => ([], l)
  end.

(** ITU T.81, F.1.2.3: a byte 0xFF is followed by a byte 0. *)
Definition stuff (l : list Z) : list Z :=
  concat (map (fun c => if c =? 0xFF then [0xFF; 0] else [c]) l).

Lemma bits_value_from_spec a l : bits_value_from a l = a * 2 ^ zlen l + bits_value l.
Proof.
  unfold bits_value. revert a. induction l as [|b l IH]; intros a; cbn [bits_value_from].
  - rewrite zlen_nil. lia.
  - rewrite IH, (IH (2 * 0 + _)), zlen_cons. pose proof (zlen_nonneg l).
    rewrite Z.pow_add_r by lia. lia.
Qed.

Lemma bits_value_cons b l : bits_value (b :: l) = Z.b2z b * 2 ^ zlen l + bits_value l.
Proof.
  unfold bits_value at 1. cbn [bits_value_from]. rewrite bits_value_from_spec. lia.
Qed.

Lemma bits_value_app l r : bits_value (l ++ r) = bits_value l * 2 ^ zlen r + bits_value r.
Proof.
  induction l as [|b l IH]; cbn [app]; [done|].
  pose proof (zlen_nonneg l). pose proof (zlen_nonneg r).
  rewrite !bits_value_cons, IH, zlen_app, Z.pow_add_r by lia. lia.
Qed.

Lemma bits_value_range l : 0 <= bits_value l < 2 ^ zlen l.
Proof.
  induction l as [|b l IH]; [change (0 <= 0 < 1); lia|]. pose proof (zlen_nonneg l).
  rewrite bits_value_cons, zlen_cons, Z.pow_add_r by lia. destruct b; cbn [Z.b2z]; lia.
Qed.

Lemma zlen_bits_of n v : zlen (bits_of n v) = Z.of_nat n.
Proof. induction n as [|n IH]; cbn [bits_of]; [done|]. rewrite zlen_cons, IH. lia. Qed.

Lemma bits_value_of n v : 0 <= v < 2 ^ Z.of_nat n -> bits_value (bits_of n v) = v.
Proof.
  enough (forall v, 0 <= v -> bits_value (bits_of n v) = v mod 2 ^ Z.of_nat n) as H.
  { intros Hv. rewrite H by lia. by apply Z.mod_small. }
  clear v. intros v Hv. induction n as [|n IH]; cbn [bits_of].
  - by rewrite Z.mod_1_r.
  - rewrite bits_value_cons, IH, zlen_bits_of by done.
    rewrite Nat2Z.inj_succ, Z.pow_succ_r, (Z.mul_comm 2) by lia.
    rewrite Z.rem_mul_r by (try apply Z.pow_nonzero; lia).
    rewrite <- Z.testbit_spec' by lia. lia.
Qed.

Lemma zlen_8 {A} (l : list A) : 8 <= zlen l ->
  exists a b c d e f g h l', l = a :: b :: c :: d :: e :: f :: g :: h :: l'.
Proof.
  unfold zlen. intros H.
  do 8 (destruct l as [|? l]; cbn [length] in H; [lia|]). by repeat eexists.
Qed.

Lemma pack_short l : zlen l < 8 -> pack l = ([], l).
Proof.
  unfold zlen. intros H. do 8 (destruct l as [|? l]; [done|]). cbn [length] in H. lia.
Qed.

Lemma list_ind8 {A} (P : list A -> Prop) :
  (forall l, zlen l < 8 -> P l) ->
  (forall a b c d e f g h l, P l -> P (a :: b :: c :: d :: e :: f :: g :: h :: l)) ->
  forall l, P l.
Proof.
  intros H0 H8 l. remember (length l) as n eqn:Hn.
  revert l Hn. induction (lt_wf n) as [n _ IH]. intros l ->.
  destruct (Z.lt_ge_cases (zlen l) 8) as [Hl|Hl]; [by apply H0|].
  destruct (zlen_8 l Hl) as (a & b & c & d & e & f & g & h & l' & ->).
  apply H8. eapply IH; [|done]. cbn [length]. lia.
Qed.

Lemma pack_rest l : zlen (pack l).2 < 8.
Proof.
  induction l as [l Hl | a b c d e f g h l IH] using list_ind8.
  - by rewrite pack_short.
  - cbn [pack]. by destruct (pack l).
Qed.

Lemma pack_app l r :
  pack (l ++ r) = ((pack l).1 ++ (pack ((pack l).2 ++ r)).1, (pack ((pack l).2 ++ r)).2).
Proof.
  induction l as [l Hl | a b c d e f g h l IH] using list_ind8.
  - rewrite (pack_short l) by done. cbn. by destruct (pack (l ++ r)).
  - cbn [pack app]. rewrite IH. by destruct (pack l).
Qed.

Lemma stuff_app l r : stuff (l ++ r) = stuff l ++ stuff r.
Proof. unfold stuff. by rewrite map_app, concat_app. Qed.

(** * The output buffer *)

(** The bytes passed to the callback and those in the buffer. *)
Definition stream (o : jpge_out) : list Z :=
  concat (omap id (calls o)) ++ take (Z.to_nat (m_pOut_buf o)) (m_out_buf o).

(** The buffer is in order, and unless a write has failed the stream is [bs]. *)
Record written (o : jpge_out) (bs : list Z) : Prop := {
  wr_buf : zlen (m_out_buf o) = JPGE_OUT_BUF_SIZE;
  wr_pos : 0 <= m_pOut_buf o < JPGE_OUT_BUF_SIZE;
  wr_left : m_out_buf_left o = JPGE_OUT_BUF_SIZE - m_pOut_buf o;
  wr_stream : m_all_stream_writes_succeeded o = true -> stream o = bs
}.

(** The pending bits are those of [o]. *)
Definition same_bits (o o' : jpge_out) : Prop :=
  m_bit_buffer o' = m_bit_buffer o /\ m_bits_in o' = m_bits_in o.

(** The bytes [pre] have been written, then the bit string [bs] of which the
    last bits are still pending. *)
Record coded (o : jpge_out) (pre : list Z) (bs : list bool) : Prop := {
  cd_written : written o (pre ++ stuff (pack bs).1);
  cd_bits_in : m_bits_in o = zlen (pack bs).2;
  cd_buffer : m_bit_buffer o mod 2 ^ 24 =
    bits_value (pack bs).2 * 2 ^ (24 - zlen (pack bs).2);
  cd_u32 : is_u32 (m_bit_buffer o)
}.

Section Output.
Context (pPut_buf : list (option (list Z)) -> option (list Z) -> bool).
Context (E : failure -> Prop).

Lemma wpg_flush o bs (Q : unit -> jpge_out -> Prop) :
  zlen (m_out_buf o) = JPGE_OUT_BUF_SIZE -> 0 <= m_pOut_buf o <= JPGE_OUT_BUF_SIZE ->
  m_out_buf_left o = JPGE_OUT_BUF_SIZE - m_pOut_buf o ->
  (m_all_stream_writes_succeeded o = true -> stream o = bs) ->
  (forall o', written o' bs -> same_bits o o' -> m_pOut_buf o' = 0 -> Q tt o') ->
  wpg E (flush_output_buffer pPut_buf) Q o.
Proof.
  intros Hb Hp Hl Hs HQ. unfold flush_output_buffer. wp_steps.
  destruct (Z.eqb_spec (m_out_buf_left o) JPGE_OUT_BUF_SIZE) as [He|He]; cbn [negb].
  - wp_steps. apply HQ; [|done | done]. split; cbn; [done | unfold JPGE_OUT_BUF_SIZE; lia | done|].
    intros Hok. rewrite <- (Hs Hok). unfold stream. cbn.
    by replace (m_pOut_buf o) with 0 by lia.
  - wp_steps. unfold put_buf_and. wp_steps.
    destruct (m_all_stream_writes_succeeded o) eqn:Hok; wp_steps;
      (apply HQ; [|done | done]); (split; cbn; [done | unfold JPGE_OUT_BUF_SIZE; lia | done|]).
    + intros _. rewrite <- (Hs eq_refl). unfold stream. cbn.
      rewrite omap_app, concat_app. cbn. rewrite !app_nil_r. do 2 f_equal. unfold zsub.
      rewrite Hl, drop_0. f_equal. lia.
    + congruence.
Qed.

Lemma wpg_emit_byte o bs i (Q : unit -> jpge_out -> Prop) :
  written o bs ->
  (forall o', written o' (bs ++ [u8 i]) -> same_bits o o' -> Q tt o') ->
  wpg E (emit_byte pPut_buf i) Q o.
Proof.
  intros [Hb Hp Hl Hs] HQ. unfold emit_byte. wp_steps.
  rewrite zset_is_Some by lia. wp_steps. cbn [m_out_buf_left set_out_buf set_pOut_buf].
  rewrite u32_small by (unfold is_u32, JPGE_OUT_BUF_SIZE in *; lia).
  set (o' := set_out_buf_left _ _).
  assert (m_all_stream_writes_succeeded o' = true -> stream o' = bs ++ [u8 i]) as Hs'.
  { intros Hok. rewrite <- (Hs Hok). unfold stream, o'. cbn. rewrite <- app_assoc. f_equal.
    replace (Z.to_nat (m_pOut_buf o + 1)) with (S (Z.to_nat (m_pOut_buf o))) by lia.
    rewrite (take_S_r _ _ (u8 i)).
    - by rewrite take_insert_ge by lia.
    - apply list_lookup_insert_eq. unfold zlen in Hb. lia. }
  assert (zlen (m_out_buf o') = JPGE_OUT_BUF_SIZE) as Hb' by (cbn; by rewrite zlen_insert).
  destruct (Z.eqb_spec (m_out_buf_left o - 1) 0).
  - apply (wpg_flush _ (bs ++ [u8 i])); [done | cbn; lia | cbn; lia | done|].
    intros o'' Hw Hsb _. apply HQ; [done|]. exact Hsb.
  - wp_steps. apply HQ; [|done]. split; [done | cbn; lia | cbn; lia | done].
Qed.

(** ** Bits *)

(** Within put_bits: [q] are the bits of the buffer. *)
Record coding (o : jpge_out) (bs : list Z) (q : list bool) : Prop := {
  cg_written : written o bs;
  cg_bits_in : m_bits_in o = zlen q;
  cg_buffer : m_bit_buffer o mod 2 ^ 24 = bits_value q * 2 ^ (24 - zlen q);
  cg_u32 : is_u32 (m_bit_buffer o)
}.

(** The byte that put_bits takes out. *)
Lemma buffer_byte b c q :
  zlen q <= 16 -> 0 <= c < 256 -> is_u32 b ->
  b mod 2 ^ 24 = (c * 2 ^ zlen q + bits_value q) * 2 ^ (16 - zlen q) ->
  Z.land (Z.shiftr b 16) 0xFF = c /\
  u32 (Z.shiftl b 8) mod 2 ^ 24 = bits_value q * 2 ^ (24 - zlen q).
Proof.
  intros Hq Hc Hb Heq. pose proof (zlen_nonneg q) as Hq0. pose proof (bits_value_range q) as Hv.
  set (v := bits_value q) in *. set (k := zlen q) in *.
  assert (0 <= v * 2 ^ (16 - k) < 2 ^ 16) as Hlow.
  { replace 16 with (k + (16 - k)) at 3 by lia. rewrite Z.pow_add_r by lia.
    pose proof (Z.pow_pos_nonneg 2 (16 - k)). nia. }
  assert (b mod 2 ^ 24 = c * 2 ^ 16 + v * 2 ^ (16 - k)) as Hb24.
  { rewrite Heq, Z.mul_add_distr_r, <- Z.mul_assoc, <- Z.pow_add_r by lia.
    by replace (k + (16 - k)) with 16 by lia. }
  split.
  - change 0xFF with (Z.ones 8). rewrite Z.land_ones, Z.shiftr_div_pow2 by lia.
    change (2 ^ 24) with 16777216 in *. change (2 ^ 16) with 65536 in *. change (2 ^ 8) with 256.
    clear Heq. revert Hb24 Hlow. generalize (v * 2 ^ (16 - k)). intros y ? ?.
    Z.to_euclidean_division_equations. lia.
  - replace (24 - k) with (8 + (16 - k)) by lia. rewrite Z.pow_add_r by lia.
    rewrite Z.shiftl_mul_pow2 by lia. unfold u32.
    replace (v * (2 ^ 8 * 2 ^ (16 - k))) with ((v * 2 ^ (16 - k)) * 256) by lia.
    change (2 ^ 24) with 16777216 in *. change (2 ^ 16) with 65536 in *. change (2 ^ 8) with 256.
    clear Heq. revert Hb24 Hlow. generalize (v * 2 ^ (16 - k)). intros y ? ?.
    Z.to_euclidean_division_equations. lia.
Qed.

Lemma wpg_put_bits_loop fuel o bs q (Q : unit -> jpge_out -> Prop) :
  coding o bs q -> zlen q <= 24 -> (zlen q < Z.of_nat fuel) ->
  (forall o', coding o' (bs ++ stuff (pack q).1) (pack q).2 -> Q tt o') ->
  wpg E (loop fuel (put_bits_body pPut_buf) tt) Q o.
Proof.
  revert o bs q. induction fuel as [|fuel IH]; intros o bs q [Hw Hn Hb Hu] H24 Hfuel HQ;
    [pose proof (zlen_nonneg q); lia|].
  apply wpg_loop_S. unfold put_bits_body. wp_steps.
  rewrite Hn. destruct (Z.ltb_spec (zlen q) 8) as [H8|H8].
  - wp_steps. apply HQ. rewrite pack_short by done. cbn [fst snd]. rewrite app_nil_r. by split.
  - destruct (zlen_8 q H8) as (b7 & b6 & b5 & b4 & b3 & b2 & b1 & b0 & q' & ->).
    set (c := [b7; b6; b5; b4; b3; b2; b1; b0]).
    change (_ :: _ :: _ :: _ :: _ :: _ :: _ :: _ :: q') with (c ++ q') in *.
    assert (pack (c ++ q') = (bits_value c :: (pack q').1, (pack q').2)) as Hpack
      by (cbn [c app pack]; by destruct (pack q')).
    assert (zlen (c ++ q') = 8 + zlen q') as Hlen by (rewrite zlen_app; reflexivity).
    pose proof (bits_value_range c) as Hc. change (2 ^ zlen c) with 256 in Hc.
    pose proof (zlen_nonneg q') as Hq'.
    destruct (buffer_byte (m_bit_buffer o) (bits_value c) q' ltac:(lia) Hc Hu) as [Hbyte Hshift].
    { rewrite Hb, bits_value_app, Hlen. do 2 f_equal. lia. }
    wp_steps. rewrite Hbyte. apply (wpg_emit_byte _ bs); [done|]. intros o1 Hw1 [Hb1 Hn1].
    rewrite u8_small in Hw1 by done.
    assert (forall o2, written o2 (bs ++ stuff [bits_value c]) -> same_bits o1 o2 ->
      wpg E (modify (set_bit_buffer (u32 (Z.shiftl (m_bit_buffer o) 8))) ;;
             modify (set_bits_in (u32 (zlen (c ++ q') - 8))) ;; ret (inl tt))
        (fun r s' => match r with
          | inl a' => wpg E (loop fuel (put_bits_body pPut_buf) a') Q s'
          | inr b => Q b s' end) o2) as Hrest.
    { intros o2 Hw2 [Hb2 Hn2]. wp_steps. apply (IH _ (bs ++ stuff [bits_value c]) q').
      - split; cbn [m_bits_in m_bit_buffer set_bits_in set_bit_buffer].
        + by destruct Hw2.
        + rewrite u32_small by (unfold is_u32; lia). lia.
        + exact Hshift.
        + apply u32_range.
      - lia.
      - lia.
      - intros o' Hcg. apply HQ. rewrite Hpack. cbn [fst snd].
        change (bits_value c :: (pack q').1) with ([bits_value c] ++ (pack q').1).
        by rewrite stuff_app, app_assoc. }
    destruct (Z.eqb_spec (bits_value c) 0xFF) as [Hff|Hff].
    + wp_step. apply (wpg_emit_byte _ (bs ++ [bits_value c])); [done|]. intros o2 Hw2 Hsb.
      apply Hrest; [|done]. rewrite <- app_assoc in Hw2. rewrite Hff in *. exact Hw2.
    + wp_steps. apply Hrest; [|done]. unfold stuff. cbn [map concat].
      rewrite (proj2 (Z.eqb_neq _ _) Hff). exact Hw1.
Qed.

Lemma wpg_put_bits o pre bs v n (Q : unit -> jpge_out -> Prop) :
  coded o pre bs -> 0 <= n <= 16 -> 0 <= v < 2 ^ n ->
  (forall o', coded o' pre (bs ++ bits_of (Z.to_nat n) v) -> Q tt o') ->
  wpg E (put_bits pPut_buf v n) Q o.
Proof.
  intros [Hw Hn Hb Hu] Hlen Hv HQ. unfold put_bits. wp_steps.
  pose proof (pack_rest bs) as Hr. set (r := (pack bs).2) in *. pose proof (zlen_nonneg r).
  set (q := r ++ bits_of (Z.to_nat n) v).
  assert (zlen (bits_of (Z.to_nat n) v) = n) as Hbl by (rewrite zlen_bits_of; lia).
  assert (zlen q = zlen r + n) as Hq by (unfold q; by rewrite zlen_app, Hbl).
  rewrite Hn, (u32_small (zlen r + n)), <- Hq, (u32_small (24 - zlen q)) by (unfold is_u32; lia).
  rewrite (proj2 (Z.ltb_lt _ _)) by lia. wp_steps. cbn [m_bit_buffer set_bits_in].
  assert (0 <= Z.shiftl v (24 - zlen q) < 2 ^ (24 - zlen r)) as Hsh.
  { rewrite Z.shiftl_mul_pow2 by lia. replace (24 - zlen r) with (n + (24 - zlen q)) by lia.
    rewrite Z.pow_add_r by lia. pose proof (Z.pow_pos_nonneg 2 (24 - zlen q)). nia. }
  assert (2 ^ (24 - zlen r) <= 2 ^ 24) as H24 by (apply Z.pow_le_mono_r; lia).
  change (2 ^ 24) with 16777216 in H24.
  rewrite (u32_small (Z.shiftl _ _)) by (unfold is_u32; lia).
  apply (wpg_put_bits_loop _ _ (pre ++ stuff (pack bs).1) q); [|lia|lia|].
  - split; cbn [m_bits_in m_bit_buffer set_bits_in set_bit_buffer].
    + by destruct Hw.
    + done.
    + rewrite mod_lor, Hb, (Z.mod_small (Z.shiftl _ _)) by lia.
      rewrite Z.lor_comm, <- (Z.shiftl_mul_pow2 (bits_value r)), lor_shiftl by lia.
      unfold q at 2. rewrite bits_value_app, Hbl, bits_value_of by (rewrite ?Z2Nat.id; lia).
      rewrite Z.shiftl_mul_pow2, Z.mul_add_distr_r, <- Z.mul_assoc, <- Z.pow_add_r by lia.
      replace (n + (24 - zlen q)) with (24 - zlen r) by lia. lia.
    + apply lor_u32; [done|]. unfold is_u32. lia.
  - intros o' [Hw' Hn' Hb' Hu']. apply HQ. pose proof (pack_app bs (bits_of (Z.to_nat n) v)) as Hp.
    fold r q in Hp. split; rewrite ?Hp; cbn [fst snd]; [|done..].
    by rewrite stuff_app, app_assoc.
Qed.

Lemma same_bits_trans o o' o'' : same_bits o o' -> same_bits o' o'' -> same_bits o o''.
Proof. intros [] []. split; congruence. Qed.
End Output.
