(* ===== verification/JpegSpec.v ===== *)
(** A reference for what the encoder writes: the entropy coding of ITU T.81 for
    one block of coefficients, as an encoder and as a decoder on bit strings. *)

From S2P Require Import Prelude.
From S2P Require Import JpgeTypes.
From S2P Require Import JpgeOutFacts.

(** * Coding a block *)

(** The number of bits of |v| (T.81, table F.1). *)
Definition category (v : Z) : Z := if v =? 0 then 0 else Z.log2 (Z.abs v) + 1.

(** The additional bits of a coefficient. *)
Definition value_bits (v : Z) : list bool :=
  let n := category v in bits_of (Z.to_nat n) (if v <? 0 then v - 1 + 2 ^ n else v).

Section Encode.
Context (word : Z -> list bool).

Definition dc_bits (diff : Z) : list bool := word (category diff) ++ value_bits diff.

(** The coefficients [l] behind [run] zeros. *)
Fixpoint ac_bits (run : Z) (l : list Z) : list bool :=
  match l with
  | [] => if run =? 0 then [] else word 0
  | v :: l =>
      if v =? 0 then ac_bits (run + 1) l
      else
        concat (replicate (Z.to_nat (run / 16)) (word 0xF0)) ++
        word (16 * (run mod 16) + category v) ++ value_bits v ++ ac_bits 0 l
  end.
End Encode.

(** * Decoding *)

(** The code words of a table, with their symbols. *)
Definition code_table : Type := list (list bool * Z).

(** T.81, annex C: the code words in order of length, counted up, for the
    numbers [bits] of words of the lengths [len], [len] + 1, ... *)
Fixpoint canonical (len : nat) (code : Z) (bits vals : list Z) : code_table :=
  match bits with
  | [] => []
  | b :: bits =>
      zip_with (fun k v => (bits_of len (code + Z.of_nat k), v)) (seq 0 (Z.to_nat b)) vals ++
      canonical (S len) (2 * (code + b)) bits (drop (Z.to_nat b) vals)
  end.

Fixpoint strip_prefix (w bs : list bool) : option (list bool) :=
  match w, bs with
  | [], _ => Some bs
  | x :: w, y :: bs => if Bool.eqb x y then strip_prefix w bs else None
  | _, _ => None
  end.

Fixpoint read_symbol (t : code_table) (bs : list bool) : option (Z * list bool) :=
  match t with
  | [] => None
  | (w, v) :: t =>
      match strip_prefix w bs with
      | Some bs => Some (v, bs)
      | None => read_symbol t bs
      end
  end.

(** RECEIVE and EXTEND (T.81, F.2.2.1). *)
Definition receive_extend (n : Z) (bs : list bool) : option (Z * list bool) :=
  if zlen bs <? n then None
  else
    let v := bits_value (take (Z.to_nat n) bs) in
    Some (if (n =? 0) || (2 ^ (n - 1) <=? v) then v else v - 2 ^ n + 1, drop (Z.to_nat n) bs).

Definition decode_dc (t : code_table) (bs : list bool) : option (Z * list bool) :=
  '(n, bs) ← read_symbol t bs; receive_extend n bs.

(** [k] coefficients (T.81, F.2.2.2); every round yields at least one. *)
Fixpoint decode_ac (fuel : nat) (t : code_table) (k : Z) (bs : list bool)
    : option (list Z * list bool) :=
  match fuel with
  | O => None
  | S fuel =>
      if k =? 0 then Some ([], bs)
      else
        '(rs, bs) ← read_symbol t bs;
        let r := rs / 16 in
        let n := rs mod 16 in
        if n =? 0
        then
          if r =? 0 then Some (replicate (Z.to_nat k) 0, bs)
          else if (r =? 15) && (16 <=? k)
          then
            '(l, bs) ← decode_ac fuel t (k - 16) bs;
            Some (replicate 16 0 ++ l, bs)
          else None
        else if r <? k
        then
          '(v, bs) ← receive_extend n bs;
          '(l, bs) ← decode_ac fuel t (k - r - 1) bs;
          Some (replicate (Z.to_nat r) 0 ++ v :: l, bs)
        else None
  end.

(** The 63 AC coefficients. *)
Definition decode_ac_block (t : code_table) (bs : list bool) : option (list Z * list bool) :=
  decode_ac 64 t 63 bs.

(** The coefficients of a block; [pred] is the last DC coefficient. *)
Definition decode_block (dc ac : code_table) (pred : Z) (bs : list bool)
    : option (list Z * list bool) :=
  match decode_dc dc bs with
  | Some (diff, bs) =>
      match decode_ac_block ac bs with
      | Some (l, bs) => Some (pred + diff :: l, bs)
      | None => None
      end
  | None => None
  end.

(** * Prefix codes *)

Definition is_prefix_of (w w' : list bool) : bool :=
  match strip_prefix w w' with Some _ => true | None => false end.

(** No code word is a prefix of a later or an earlier one. *)
Fixpoint prefix_free (t : code_table) : bool :=
  match t with
  | [] => true
  | (w, _) :: t =>
      forallb (fun e => negb (is_prefix_of w e.1) && negb (is_prefix_of e.1 w)) t && prefix_free t
  end.

Lemma strip_prefix_app w bs : strip_prefix w (w ++ bs) = Some bs.
Proof. induction w as [|x w IH]; cbn; [done|]. by rewrite eqb_reflx. Qed.

(** A word that is a prefix of the bits behind another one: one of the two is a
    prefix of the other. *)
Lemma strip_prefix_comparable w w' bs r :
  strip_prefix w (w' ++ bs) = Some r -> is_prefix_of w w' = true \/ is_prefix_of w' w = true.
Proof.
  unfold is_prefix_of. revert w'. induction w as [|x w IH]; intros [|y w']; cbn; auto.
  destruct x, y; cbn; try done; apply IH.
Qed.

Lemma read_symbol_word t w v bs :
  prefix_free t = true -> In (w, v) t -> read_symbol t (w ++ bs) = Some (v, bs).
Proof.
  induction t as [|[w' v'] t IH]; [done|]. cbn [prefix_free read_symbol].
  intros [Hfree Ht]%andb_true_iff Hin. rewrite forallb_forall in Hfree.
  destruct Hin as [[= -> ->]|Hin].
  - by rewrite strip_prefix_app.
  - specialize (Hfree _ Hin). cbn in Hfree. apply andb_true_iff in Hfree as [H1 H2].
    destruct (strip_prefix w' (w ++ bs)) as [r|] eqn:Hs; [|by apply IH].
    apply strip_prefix_comparable in Hs as [Hs|Hs]; by rewrite Hs in *.
Qed.

(** * The round trip *)

Lemma category_range v : v <> 0 -> 0 < category v /\ 2 ^ (category v - 1) <= Z.abs v < 2 ^ category v.
Proof.
  intros Hv. unfold category. rewrite (proj2 (Z.eqb_neq _ _) Hv).
  pose proof (Z.log2_spec (Z.abs v) ltac:(lia)) as H. pose proof (Z.log2_nonneg (Z.abs v)).
  replace (Z.log2 (Z.abs v) + 1 - 1) with (Z.log2 (Z.abs v)) by lia.
  rewrite <- Z.add_1_r in H. lia.
Qed.

Lemma category_nonneg v : 0 <= category v.
Proof. unfold category. destruct (v =? 0); [done|]. pose proof (Z.log2_nonneg (Z.abs v)). lia. Qed.

Lemma category_le v n : 0 <= n -> Z.abs v < 2 ^ n -> category v <= n.
Proof.
  intros Hn Hv. destruct (decide (v = 0)) as [->|Hne]; [done|].
  unfold category. rewrite (proj2 (Z.eqb_neq _ _) Hne).
  assert (Z.log2 (Z.abs v) < n); [|lia]. apply Z.log2_lt_pow2; lia.
Qed.

Lemma zlen_value_bits v : zlen (value_bits v) = category v.
Proof. unfold value_bits. rewrite zlen_bits_of. pose proof (category_nonneg v). lia. Qed.

Lemma take_app_zlen {A} (l r : list A) n : n = zlen l -> take (Z.to_nat n) (l ++ r) = l.
Proof. intros ->. unfold zlen. rewrite Nat2Z.id. by rewrite take_app_length. Qed.
Lemma drop_app_zlen {A} (l r : list A) n : n = zlen l -> drop (Z.to_nat n) (l ++ r) = r.
Proof. intros ->. unfold zlen. rewrite Nat2Z.id. by rewrite drop_app_length. Qed.

Lemma receive_value v bs : receive_extend (category v) (value_bits v ++ bs) = Some (v, bs).
Proof.
  unfold receive_extend. pose proof (zlen_value_bits v) as Hl. pose proof (zlen_nonneg bs).
  rewrite (proj2 (Z.ltb_ge _ _)) by (rewrite zlen_app; lia).
  rewrite take_app_zlen, drop_app_zlen by done. do 2 f_equal.
  unfold value_bits. destruct (decide (v = 0)) as [->|Hv]; [done|].
  destruct (category_range v Hv) as [Hc Hr].
  set (n := category v) in *. rewrite (proj2 (Z.eqb_neq n 0)) by lia. cbn [orb].
  assert (2 ^ n = 2 * 2 ^ (n - 1)) as Hn.
  { rewrite <- Z.pow_succ_r by lia. f_equal. lia. }
  destruct (Z.ltb_spec v 0).
  - rewrite bits_value_of by (rewrite Z2Nat.id; lia).
    destruct (Z.leb_spec (2 ^ (n - 1)) (v - 1 + 2 ^ n)); lia.
  - rewrite bits_value_of by (rewrite Z2Nat.id; lia).
    destruct (Z.leb_spec (2 ^ (n - 1)) v); lia.
Qed.

(** [t] decodes the words of the symbols in [P]. *)
Definition decodes (t : code_table) (word : Z -> list bool) (P : Z -> Prop) : Prop :=
  prefix_free t = true /\ forall j, P j -> In (word j, j) t.

Lemma decodes_read t word P j bs :
  decodes t word P -> P j -> read_symbol t (word j ++ bs) = Some (j, bs).
Proof. intros [Hf Hin] Hj. by apply read_symbol_word; [|apply Hin]. Qed.

(** The symbols that occur: the end of the block, a run of 16 zeros, and a run
    of up to 15 zeros before a coefficient of at most [n] bits. *)
Definition ac_symbol (n : Z) (j : Z) : Prop :=
  j = 0 \/ j = 0xF0 \/ exists r c, 0 <= r < 16 /\ 1 <= c <= n /\ j = 16 * r + c.

Lemma decode_dc_bits t word n diff bs :
  decodes t word (fun j => 0 <= j <= n) -> category diff <= n ->
  decode_dc t (dc_bits word diff ++ bs) = Some (diff, bs).
Proof.
  intros Ht Hd. unfold decode_dc, dc_bits. rewrite <- app_assoc.
  pose proof (category_nonneg diff).
  rewrite (decodes_read _ _ _ _ _ Ht) by lia. apply receive_value.
Qed.

Lemma replicate_app_cons {A} n (x : A) l : replicate n x ++ x :: l = replicate (S n) x ++ l.
Proof. by rewrite replicate_S_end, <- app_assoc. Qed.

(** Runs of 16. *)
Lemma decode_zrl t word n q fuel k bs :
  decodes t word (ac_symbol n) -> 16 * Z.of_nat q < k ->
  decode_ac (q + fuel) t k (concat (replicate q (word 0xF0)) ++ bs) =
  ('(l, r) ← decode_ac fuel t (k - 16 * Z.of_nat q) bs;
   Some (replicate (16 * q) 0 ++ l, r)).
Proof.
  intros Ht. revert k. induction q as [|q IH]; intros k Hk.
  - cbn [replicate concat app Nat.add Nat.mul]. rewrite Z.sub_0_r.
    by destruct (decode_ac fuel t k bs) as [[l r]|].
  - cbn [replicate concat Nat.add decode_ac]. rewrite (proj2 (Z.eqb_neq k 0)) by lia.
    rewrite <- app_assoc, (decodes_read _ _ _ _ _ Ht) by (right; by left).
    cbn [mbind option_bind]. change (0xF0 mod 16 =? 0) with true. change (0xF0 / 16) with 15.
    cbn [Z.eqb andb]. rewrite (proj2 (Z.leb_le 16 k)) by lia.
    rewrite IH by lia. replace (k - 16 - 16 * Z.of_nat q) with (k - 16 * Z.of_nat (S q)) by lia.
    destruct (decode_ac fuel t _ bs) as [[l r]|]; cbn [mbind option_bind]; [|done].
    change ((15 =? 15)%positive && true) with true. cbv match. do 2 f_equal.
    change [0; 0; 0; 0; 0; 0; 0; 0; 0; 0; 0; 0; 0; 0; 0; 0] with (replicate 16 0).
    rewrite app_assoc, <- replicate_add. do 2 f_equal. lia.
Qed.

Lemma decode_ac_bits t word n fuel run l bs :
  decodes t word (ac_symbol n) -> n <= 15 -> Forall (fun v => category v <= n) l -> 0 <= run ->
  run + zlen l < Z.of_nat fuel ->
  decode_ac fuel t (run + zlen l) (ac_bits word run l ++ bs) =
    Some (replicate (Z.to_nat run) 0 ++ l, bs).
Proof.
  intros Ht Hn15 Hl. revert fuel run. induction Hl as [|v l Hv Hl IH]; intros fuel run Hrun Hfuel.
  - rewrite zlen_nil, Z.add_0_r in *. cbn [ac_bits]. destruct fuel as [|fuel]; [lia|]. cbn [decode_ac].
    destruct (Z.eqb_spec run 0) as [->|Hne]; [done|].
    rewrite (decodes_read _ _ _ _ _ Ht) by by left.
    cbn [mbind option_bind]. change (0 mod 16 =? 0) with true. change (0 / 16 =? 0) with true. cbv match.
    by rewrite app_nil_r.
  - rewrite zlen_cons in *. cbn [ac_bits]. pose proof (zlen_nonneg l).
    destruct (Z.eqb_spec v 0) as [->|Hne].
    + replace (run + (zlen l + 1)) with (run + 1 + zlen l) by lia. rewrite IH by lia.
      rewrite replicate_app_cons. by replace (Z.to_nat (run + 1)) with (S (Z.to_nat run)) by lia.
    + rewrite <- !app_assoc. pose proof (Z.div_mod run 16 ltac:(lia)) as Hdm.
      pose proof (Z.mod_pos_bound run 16 ltac:(lia)). pose proof (Z.div_pos run 16 ltac:(lia) ltac:(lia)).
      destruct (category_range v Hne) as [Hc _].
      set (q := Z.to_nat (run / 16)). set (r := run mod 16) in *.
      replace fuel with (q + S (fuel - q - 1))%nat by lia.
      rewrite (decode_zrl t word n) by (done || lia).
      cbn [decode_ac]. rewrite (proj2 (Z.eqb_neq _ 0)) by lia.
      rewrite (decodes_read _ _ _ _ _ Ht).
      2: { right. right. exists r, (category v). lia. }
      cbn [mbind option_bind].
      assert ((16 * r + category v) mod 16 = category v) as ->.
      { rewrite Z.add_comm, Z.mul_comm, Z.mod_add by lia. apply Z.mod_small. lia. }
      assert ((16 * r + category v) / 16 = r) as ->.
      { rewrite Z.add_comm, Z.mul_comm, Z.div_add by lia. rewrite Z.div_small by lia. lia. }
      rewrite (proj2 (Z.eqb_neq (category v) 0)), (proj2 (Z.ltb_lt r _)) by lia.
      rewrite receive_value. cbn [mbind option_bind].
      replace (run + (zlen l + 1) - 16 * Z.of_nat q - r - 1) with (0 + zlen l) by lia.
      rewrite IH by lia. cbn [mbind option_bind Z.to_nat replicate app].
      rewrite app_assoc, <- replicate_add. do 3 f_equal. f_equal. lia.
Qed.

Lemma decode_ac_block_bits ac acw na l bs :
  decodes ac acw (ac_symbol na) -> na <= 15 -> Forall (fun x => category x <= na) l -> zlen l = 63 ->
  decode_ac_block ac (ac_bits acw 0 l ++ bs) = Some (l, bs).
Proof.
  intros Hac Hna Hl H63.
  pose proof (decode_ac_bits ac acw na 64 0 l bs Hac Hna Hl ltac:(lia) ltac:(lia)) as H.
  rewrite Z.add_0_l, H63 in H. exact H.
Qed.

(** The bits of a block are decoded to the block. *)
Lemma decode_block_bits dc ac dcw acw nd na pred v l bs :
  decodes dc dcw (fun j => 0 <= j <= nd) -> category (v - pred) <= nd ->
  decodes ac acw (ac_symbol na) -> na <= 15 -> Forall (fun x => category x <= na) l -> zlen l = 63 ->
  decode_block dc ac pred (dc_bits dcw (v - pred) ++ ac_bits acw 0 l ++ bs) = Some (v :: l, bs).
Proof.
  intros Hdc Hv Hac Hna Hl H63. unfold decode_block.
  rewrite (decode_dc_bits _ _ nd), (decode_ac_block_bits _ _ na) by done.
  by replace (pred + (v - pred)) with v by lia.
Qed.
