(* ===== verification/JpgeCodeFacts.v ===== *)
(** Coding a block of coefficients: code_coefficients_pass_two writes the bits
    of the reference, and the standard tables make them decodable.

    The second part goes from the samples to the bits of a block. *)

From S2P Require Import Prelude.
From S2P Require Import CMonad.
From S2P Require Import JpgeTypes.
From S2P Require Import JpgeDct.
From S2P Require Import JpgeDctFacts.
From S2P Require Import Jpge.
From S2P Require Import JpgeOutFacts.
From S2P Require Import JpegSpec.

(** * Tables *)

(** The code word of symbol [j]. *)
Definition code_word (codes sizes : list Z) (j : Z) : list bool :=
  bits_of (Z.to_nat (default 0 (zget sizes j))) (default 0 (zget codes j)).

(** The sizes fit put_bits and the codes fit their sizes. *)
Definition codes_ok (codes sizes : list Z) : Prop :=
  zlen codes = 256 /\ zlen sizes = 256 /\
  forall j c n, zget codes j = Some c -> zget sizes j = Some n -> 0 <= n <= 16 /\ 0 <= c < 2 ^ n.

Definition codes_okb (codes sizes : list Z) : bool :=
  (zlen codes =? 256) && (zlen sizes =? 256) &&
  forallb (fun '(c, n) => (0 <=? n) && (n <=? 16) && (0 <=? c) && (c <? 2 ^ n)) (zip codes sizes).

Lemma codes_okb_spec codes sizes : codes_okb codes sizes = true -> codes_ok codes sizes.
Proof.
  unfold codes_okb. intros H. apply andb_true_iff in H as [H Hall].
  apply andb_true_iff in H as [H1%Z.eqb_eq H2%Z.eqb_eq].
  rewrite forallb_forall in Hall. split; [done|]. split; [done|]. intros j c n Hc Hn.
  unfold zget in *. destruct (0 <=? j); [|done].
  assert (In (c, n) (zip codes sizes)) as Hin.
  { apply list_elem_of_In, list_elem_of_lookup. exists (Z.to_nat j).
    apply lookup_zip_with_Some. by exists c, n. }
  specialize (Hall _ Hin). cbn in Hall. rewrite !andb_true_iff in Hall. lia.
Qed.

(** * The bit length of a value *)

Lemma count_bits_spec fuel n v :
  0 <= v < 2 ^ Z.of_nat fuel -> count_bits fuel n v = n + category v.
Proof.
  revert n v. induction fuel as [|fuel IH]; intros n v Hv.
  - replace v with 0 by (cbn in Hv; lia). cbn. lia.
  - cbn [count_bits]. destruct (Z.eqb_spec v 0) as [->|Hne]; [cbn; lia|].
    rewrite IH.
    + unfold category. rewrite (proj2 (Z.eqb_neq v 0)) by done.
      rewrite Z.shiftr_div_pow2 by lia. change (2 ^ 1) with 2.
      assert (0 <= v / 2) by (apply Z.div_pos; lia).
      destruct (Z.eqb_spec (v / 2) 0) as [H0|H0].
      * apply Z.div_small_iff in H0; [|lia]. replace v with 1 by lia. change (Z.log2 (Z.abs 1)) with 0. lia.
      * rewrite !Z.abs_eq by lia. rewrite <- (Z.div2_div v).
        assert (Z.log2 v = Z.succ (Z.log2 (Z.div2 v))) as ->; [|lia].
        rewrite Z.div2_spec. rewrite Z.log2_shiftr by lia.
        assert (1 <= Z.log2 v); [|lia].
        apply Z.log2_le_pow2; [lia|]. Z.to_euclidean_division_equations. lia.
    + rewrite Z.shiftr_div_pow2 by lia. change (2 ^ 1) with 2.
      rewrite Nat2Z.inj_succ, Z.pow_succ_r in Hv by lia.
      split; [apply Z.div_pos; lia | apply Z.div_lt_upper_bound; lia].
Qed.

Lemma category_abs v : category (Z.abs v) = category v.
Proof.
  unfold category. rewrite Z.abs_idemp.
  by destruct (Z.eqb_spec (Z.abs v) 0), (Z.eqb_spec v 0); try lia.
Qed.

(** nbits = 1; while (temp1 >>= 1) nbits++ *)
Lemma count_bits_one v :
  0 < v < 2147483648 -> count_bits 32 1 (Z.shiftr v 1) = category v.
Proof.
  intros Hv. pose proof (count_bits_spec 33 0 v) as H. cbn [count_bits] in H.
  rewrite (proj2 (Z.eqb_neq v 0)) in H by lia. rewrite Z.add_0_l in H. apply H.
  change (2 ^ Z.of_nat 33) with 8589934592. lia.
Qed.

(** temp2 & ((1 << nbits) - 1) *)
Lemma low_bits v :
  v <> 0 ->
  let n := category v in
  Z.land (if v <? 0 then v - 1 else v) (Z.shiftl 1 n - 1) = (if v <? 0 then v - 1 + 2 ^ n else v) /\
  0 <= (if v <? 0 then v - 1 + 2 ^ n else v) < 2 ^ n.
Proof.
  intros Hv n. destruct (category_range v Hv) as [Hc Hr]. fold n in Hc, Hr.
  rewrite Z.shiftl_mul_pow2, Z.mul_1_l by lia.
  replace (2 ^ n - 1) with (Z.ones n) by (rewrite Z.ones_equiv; lia).
  rewrite Z.land_ones by lia. pose proof (Z.pow_pos_nonneg 2 n).
  destruct (Z.ltb_spec v 0).
  - split; [|lia]. rewrite <- (Z.mod_add _ 1), Z.mul_1_l by lia. apply Z.mod_small. lia.
  - split; [|lia]. apply Z.mod_small. lia.
Qed.

(** * Writing *)

(** [s'] is [s] but for what has been written. *)
Definition only_out (s s' : jpeg_encoder) : Prop := s' = set_out (out s') s.

Lemma only_out_refl s : only_out s s.
Proof. by destruct s. Qed.
Lemma only_out_trans s s' s'' : only_out s s' -> only_out s' s'' -> only_out s s''.
Proof. unfold only_out. intros -> ->. reflexivity. Qed.
Lemma only_out_set o s : only_out s (set_out o s).
Proof. done. Qed.

Section Write.
Context (pPut_buf : list (option (list Z)) -> option (list Z) -> bool).
Context (E : failure -> Prop).

Lemma wpg_put_code codes sizes j s pre bs (Q : unit -> jpeg_encoder -> Prop) :
  codes_ok codes sizes -> 0 <= j < 256 -> coded (out s) pre bs ->
  (forall s', only_out s s' -> coded (out s') pre (bs ++ code_word codes sizes j) -> Q tt s') ->
  wpg E (put_code pPut_buf codes sizes j) Q s.
Proof.
  intros (Hc & Hn & Hok) Hj Ho HQ. unfold put_code, code_word in *.
  destruct (zget_is_Some codes j ltac:(lia)) as [c Ec].
  destruct (zget_is_Some sizes j ltac:(lia)) as [n En].
  specialize (Hok _ _ _ Ec En). rewrite Ec, En in *. wp_steps. apply wpg_on_out.
  apply (wpg_put_bits _ _ _ pre bs); [done | lia | lia|]. intros o' Ho'.
  apply HQ; [apply only_out_set | exact Ho'].
Qed.

Lemma wpg_put_low v s pre bs (Q : unit -> jpeg_encoder -> Prop) :
  v <> 0 -> category v <= 16 -> coded (out s) pre bs ->
  (forall s', only_out s s' -> coded (out s') pre (bs ++ value_bits v) -> Q tt s') ->
  wpg E (put_low pPut_buf (if v <? 0 then v - 1 else v) (category v)) Q s.
Proof.
  intros Hv H16 Ho HQ. unfold put_low. apply wpg_on_out. destruct (low_bits v Hv) as [-> Hr].
  apply (wpg_put_bits _ _ _ pre bs); [done | pose proof (category_nonneg v); lia | done|].
  intros o' Ho'. apply HQ; [apply only_out_set|]. exact Ho'.
Qed.

Section Ac.
Context (codes sizes : list Z) (Hok : codes_ok codes sizes).
Abbreviation word := (code_word codes sizes).

Lemma wpg_zrl fuel run s pre bs (Q : Z -> jpeg_encoder -> Prop) :
  0 <= run < 16 * Z.of_nat fuel -> coded (out s) pre bs ->
  (forall s', only_out s s' ->
     coded (out s') pre (bs ++ concat (replicate (Z.to_nat (run / 16)) (word 0xF0))) ->
     Q (run mod 16) s') ->
  wpg E (loop fuel (zrl_body pPut_buf codes sizes) run) Q s.
Proof.
  revert run s bs. induction fuel as [|fuel IH]; intros run s bs Hrun Ho HQ; [lia|].
  apply wpg_loop_S. unfold zrl_body. destruct (Z.leb_spec 16 run) as [H16|H16].
  - wp_step. apply (wpg_put_code _ _ _ _ pre bs); [done | lia | done|]. intros s1 Hs1 Ho1.
    wp_steps. apply (IH _ _ (bs ++ word 0xF0)); [lia | done|]. intros s2 Hs2 Ho2.
    replace ((run - 16) mod 16) with (run mod 16).
    + apply HQ; [by apply (only_out_trans s s1)|]. rewrite <- app_assoc in Ho2.
      replace (run / 16) with (1 + (run - 16) / 16) by (Z.to_euclidean_division_equations; lia).
      rewrite Z2Nat.inj_add by (try apply Z.div_pos; lia). exact Ho2.
    + replace run with (run - 16 + 1 * 16) at 1 by lia. by rewrite Z.mod_add.
  - wp_steps. rewrite Z.mod_small in HQ by lia. apply HQ; [apply only_out_refl|].
    rewrite Z.div_small by lia. cbn [Z.to_nat replicate concat]. by rewrite app_nil_r.
Qed.

Lemma wpg_ac_loop fuel run i l s pre bs :
  (forall k, 0 <= k < zlen l -> zget (m_coefficient_array s) (i + k) = zget l k) ->
  i + zlen l = 64 -> zlen l < Z.of_nat fuel -> 0 <= run -> run + zlen l <= 64 ->
  Forall (fun v => category v <= 15 /\ Z.abs v < 2147483648) l -> coded (out s) pre bs ->
  wpg E (loop fuel (ac_body pPut_buf codes sizes) (run, i)) (fun run' s' =>
    only_out s s' /\ exists b, coded (out s') pre (bs ++ b) /\
      b ++ (if run' =? 0 then [] else word 0) = ac_bits word run l) s.
Proof.
  revert run i l s bs. induction fuel as [|fuel IH];
    intros run i l s bs Hco Hi Hfuel Hrun Hmax Hl Ho.
  { pose proof (zlen_nonneg l). lia. }
  apply wpg_loop_S. unfold ac_body. destruct l as [|v l].
  - rewrite zlen_nil in Hi. rewrite (proj2 (Z.leb_le _ _)) by lia. wp_steps.
    split; [apply only_out_refl|]. exists []. rewrite app_nil_r. by split.
  - rewrite zlen_cons in *. pose proof (zlen_nonneg l).
    rewrite (proj2 (Z.leb_gt _ _)) by lia. wp_steps.
    specialize (Hco 0 ltac:(lia)) as H0. rewrite Z.add_0_r, zget_0 in H0. rewrite H0. wp_steps.
    assert (forall s', only_out s s' -> forall k, 0 <= k < zlen l ->
      zget (m_coefficient_array s') (i + 1 + k) = zget l k) as Hco'.
    { intros s' -> k Hk. cbn. rewrite <- Z.add_assoc, Hco, zget_cons by lia. f_equal. lia. }
    inversion_clear Hl as [|? ? [Hv1 Hv2] Hl']. cbn [ac_bits].
    destruct (Z.eqb_spec v 0) as [->|Hne].
    + wp_steps. apply IH; [by apply Hco', only_out_refl | lia | lia | lia | lia | done | done].
    + wp_steps. apply (wpg_zrl _ _ _ pre bs); [lia | done|]. intros s1 Hs1 Ho1. wp_steps.
      pose proof (Z.mod_pos_bound run 16 ltac:(lia)).
      destruct (category_range v Hne) as [Hc _].
      rewrite count_bits_one, category_abs, Z.shiftl_mul_pow2 by lia. change (2 ^ 4) with 16.
      eapply wpg_put_code; [done | lia | exact Ho1|]. intros s2 Hs2 Ho2. wp_steps.
      eapply wpg_put_low; [done | lia | exact Ho2|]. intros s3 Hs3 Ho3. wp_steps.
      assert (only_out s s3) as Hs03 by (by eapply only_out_trans; [|eapply only_out_trans]).
      eapply wpg_mono.
      { eapply (IH 0 (i + 1) l s3); [by apply Hco' | lia | lia | lia | lia | done | exact Ho3]. }
      intros run' s' [Hs' (b & Hb & Heq)]. split; [by apply (only_out_trans s s3)|].
      rewrite <- Heq. eexists. rewrite <- !app_assoc in Hb. split; [exact Hb|].
      rewrite Z.mul_comm. by rewrite <- !app_assoc.
Qed.
End Ac.

(** The four tables that a component uses, for DC and AC. *)
Record tables_of (t : jpge_tables) (component_num : Z) (dc ac : list Z * list Z) : Prop := {
  to_dc : codes_ok dc.1 dc.2;
  to_ac : codes_ok ac.1 ac.2;
  to_dc_codes : zget (m_huff_codes t) (if component_num =? 0 then 0 else 1) = Some dc.1;
  to_dc_sizes : zget (m_huff_code_sizes t) (if component_num =? 0 then 0 else 1) = Some dc.2;
  to_ac_codes : zget (m_huff_codes t) (2 + if component_num =? 0 then 0 else 1) = Some ac.1;
  to_ac_sizes : zget (m_huff_code_sizes t) (2 + if component_num =? 0 then 0 else 1) = Some ac.2
}.

(** The bits of the block [v :: l] after the DC coefficient [pred]. *)
Definition block_bits (dc ac : list Z * list Z) (pred v : Z) (l : list Z) : list bool :=
  dc_bits (code_word dc.1 dc.2) (v - pred) ++ ac_bits (code_word ac.1 ac.2) 0 l.

Definition coefficient_ok (v : Z) : Prop := category v <= 15 /\ Z.abs v < 2147483648.

Lemma wpg_code_coefficients component_num dc ac pred v l s pre bs (Q : unit -> jpeg_encoder -> Prop) :
  tables_of (tables s) component_num dc ac ->
  m_coefficient_array s = v :: l -> zlen l = 63 ->
  zget (m_last_dc_val s) component_num = Some pred ->
  coefficient_ok (v - pred) -> Forall coefficient_ok l -> coded (out s) pre bs ->
  (forall s', only_out (set_last_dc_val (<[Z.to_nat component_num := v]> (m_last_dc_val s)) s) s' ->
     coded (out s') pre (bs ++ block_bits dc ac pred v l) -> Q tt s') ->
  wpg E (code_coefficients_pass_two pPut_buf component_num) Q s.
Proof.
  intros [Hdc Hac Hdc1 Hdc2 Hac1 Hac2] Hco Hl63 Hpred [Hd1 Hd2] Hl Ho HQ.
  unfold code_coefficients_pass_two. wp_steps. rewrite !Z.add_0_l.
  rewrite Hdc1. wp_steps. rewrite Hac1. wp_steps. rewrite Hdc2. wp_steps. rewrite Hac2. wp_steps.
  rewrite Hco, zget_0. wp_steps. rewrite Hpred. wp_steps.
  rewrite zset_is_Some by by apply zget_Some_range in Hpred. wp_steps.
  set (s0 := set_last_dc_val _ s) in *.
  rewrite count_bits_spec by (change (2 ^ Z.of_nat 32) with 4294967296; lia).
  rewrite category_abs, Z.add_0_l. pose proof (category_nonneg (v - pred)).
  eapply (wpg_put_code _ _ _ s0); [exact Hdc | lia | exact Ho|]. intros s1 Hs1 Ho1. wp_step.
  assert (wpg E (if negb (category (v - pred) =? 0)
      then put_low pPut_buf (if v - pred <? 0 then v - pred - 1 else v - pred) (category (v - pred))
      else ret tt)
    (fun _ s2 => only_out s0 s2 /\
       coded (out s2) pre (bs ++ dc_bits (code_word dc.1 dc.2) (v - pred))) s1) as Hlow.
  { unfold dc_bits. destruct (decide (v - pred = 0)) as [H0|Hne].
    - rewrite H0 in *. cbn [category Z.eqb negb]. wp_steps. split; [done|]. unfold value_bits. cbn. 
      rewrite app_nil_r. exact Ho1.
    - destruct (category_range _ Hne) as [Hc _]. rewrite (proj2 (Z.eqb_neq _ _)) by lia. cbn [negb].
      eapply wpg_put_low; [done | lia | exact Ho1|]. intros s2 Hs2 Ho2.
      split; [by apply (only_out_trans s0 s1)|]. by rewrite app_assoc. }
  eapply wpg_mono; [exact Hlow|]. intros [] s2 [Hs2 Ho2]. wp_step.
  eapply wpg_mono.
  { eapply (wpg_ac_loop ac.1 ac.2 Hac 64 0 1 l s2 pre); [|lia|lia|lia|lia|done|exact Ho2].
    intros k Hk. rewrite Hs2. cbn. rewrite Hco, zget_cons by lia. f_equal. lia. }
  intros run s3 [Hs3 (b & Hb & Heq)].
  assert (only_out s0 s3) as Hs03 by by apply (only_out_trans s0 s2).
  unfold block_bits in HQ. rewrite <- Heq in HQ. destruct (Z.eqb_spec run 0); cbn [negb].
  - wp_steps. apply HQ; [done|]. rewrite app_nil_r, app_assoc. exact Hb.
  - eapply wpg_put_code; [exact Hac | lia | exact Hb|]. intros s4 Hs4 Ho4.
    apply HQ; [by apply (only_out_trans s0 s3)|]. by rewrite !app_assoc in *.
Qed.
End Write.

(** From the lines of a row of blocks to the bits of a block: loading samples,
    the transform, quantization and coding. *)

(** * Loops *)

Lemma wpg_for_range {S} E (a b : Z) (body : Z -> M S unit) (I : Z -> S -> Prop)
    (Q : unit -> S -> Prop) s :
  a <= b -> I a s ->
  (forall i s, a <= i < b -> I i s -> wpg E (body i) (fun _ s' => I (i + 1) s') s) ->
  (forall s, I b s -> Q tt s) ->
  wpg E (for_range a b body) Q s.
Proof.
  intros Hab Ha Hbody HQ. unfold for_range.
  apply (wpg_loop E _ (fun i s => a <= i <= b /\ I i s) (fun i _ => Z.to_nat (b - i)));
    [|by split|lia].
  intros i s0 [Hi HI]. destruct (Z.ltb_spec i b).
  - wp_step. eapply wpg_mono; [apply Hbody; [lia | done]|]. intros [] s1 HI1. wp_steps.
    split; [|lia]. by split; [lia|].
  - wp_steps. apply HQ. by replace b with i by lia.
Qed.

(** * Blocks of 64 samples *)

Definition block_of (f : Z -> Z -> Z) : list Z :=
  concat (map (fun r => map (f r) indices) indices).

Lemma block_of_get f r c : 0 <= r < 8 -> 0 <= c < 8 -> zget (block_of f) (8 * r + c) = Some (f r c).
Proof. intros Hr Hc. index_cases Hr' r; index_cases Hc' c; reflexivity. Qed.

Lemma block_of_zlen f : zlen (block_of f) = 64.
Proof. reflexivity. Qed.

Lemma block_of_at f r c : 0 <= r < 8 -> 0 <= c < 8 -> at_rc (block_of f) r c = f r c.
Proof. intros Hr Hc. unfold at_rc. by rewrite block_of_get. Qed.

Lemma block_of_ext l f :
  zlen l = 64 -> (forall r c, 0 <= r < 8 -> 0 <= c < 8 -> zget l (8 * r + c) = Some (f r c)) ->
  l = block_of f.
Proof.
  intros Hl H. apply zget_ext; [done|]. intros k Hk.
  pose proof (Z.div_mod k 8 ltac:(lia)) as Hdm. pose proof (Z.mod_pos_bound k 8 ltac:(lia)).
  rewrite Hdm. rewrite H, block_of_get; [done|..]; Z.to_euclidean_division_equations; lia.
Qed.

Lemma Forall_block_of (P : Z -> Prop) f :
  (forall r c, 0 <= r < 8 -> 0 <= c < 8 -> P (f r c)) -> Forall P (block_of f).
Proof.
  intros H. unfold block_of. apply Forall_concat. apply Forall_indices. intros r Hr.
  apply Forall_indices. intros c Hc. by apply H.
Qed.

(** * Loading *)

(** Sample [x] of line [y]. *)
Definition pixel (lines : list (list Z)) (y x : Z) : Z :=
  default 0 (match zget lines y with Some l => zget l x | None => None end).

(** [lines] has [h] lines of [w] bytes. *)
Definition lines_ok (h w : Z) (lines : list (list Z)) : Prop :=
  zlen lines = h /\ Forall (fun l => zlen l = w /\ Forall is_u8 l) lines.

Lemma lines_get h w lines y :
  lines_ok h w lines -> 0 <= y < h ->
  exists l, zget lines y = Some l /\ zlen l = w /\
    forall x, 0 <= x < w -> zget l x = Some (pixel lines y x) /\ is_u8 (pixel lines y x).
Proof.
  intros [Hh Hl] Hy. destruct (zget_is_Some lines y ltac:(lia)) as [l El]. exists l.
  split; [done|].
  assert (zlen l = w /\ Forall is_u8 l) as [Hw Hu].
  { exact (Forall_zget _ _ _ _ Hl El). }
  split; [done|]. intros x Hx. unfold pixel. rewrite El.
  destruct (zget_is_Some l x ltac:(lia)) as [v Ev]. rewrite Ev. cbn.
  split; [done|]. by apply (Forall_zget _ l x).
Qed.

Definition grey_sample (lines : list (list Z)) (x : Z) (r c : Z) : Z :=
  pixel lines r (8 * x + c) - 128.
Definition full_sample (lines : list (list Z)) (x y k : Z) (r c : Z) : Z :=
  pixel lines (8 * y + r) (24 * x + k + 3 * c) - 128.
(** The mean of two pixels of a line. *)
Definition half_sample (lines : list (list Z)) (x k : Z) (r c : Z) : Z :=
  (pixel lines r (48 * x + k + 6 * c) + pixel lines r (48 * x + k + 6 * c + 3)) / 2 - 128.
(** The mean of two pixels of two lines, rounded down and up alternately. *)
Definition quarter_sample (lines : list (list Z)) (x k : Z) (r c : Z) : Z :=
  (pixel lines (2 * r) (48 * x + k + 6 * c) + pixel lines (2 * r) (48 * x + k + 6 * c + 3) +
   pixel lines (2 * r + 1) (48 * x + k + 6 * c) + pixel lines (2 * r + 1) (48 * x + k + 6 * c + 3) +
   (if Z.even (r + c) then 0 else 2)) / 4 - 128.

Section Load.
Context (E : failure -> Prop) (h w : Z) (lines : list (list Z)) (Hlines : lines_ok h w lines).

(** A loop that stores the rows of the block [f]. *)
Lemma wpg_store_rows (f : Z -> Z -> Z) (body : Z -> M jpeg_encoder unit) (Q : unit -> jpeg_encoder -> Prop) s :
  m_mcu_lines s = Some lines -> zlen (m_sample_array s) = 64 ->
  (forall i s', 0 <= i < 8 -> m_mcu_lines s' = Some lines ->
     exists site g, body i s' = store_row site i g s' /\ forall c, 0 <= c < 8 -> g c = Some (f i c)) ->
  Q tt (set_sample_array (block_of f) s) ->
  wpg E (for_range 0 8 body) Q s.
Proof.
  intros Hm Ha Hbody HQ.
  apply (wpg_for_range E 0 8 body (fun i s' => exists a, s' = set_sample_array a s /\ zlen a = 64 /\
    forall r c, 0 <= r < i -> 0 <= c < 8 -> zget a (8 * r + c) = Some (f r c))); [lia| | |].
  - exists (m_sample_array s). split; [by destruct s|]. split; [done|]. lia.
  - intros i s' Hi (a & -> & Hl & Hr).
    destruct (Hbody i (set_sample_array a s) Hi Hm) as (site & g & Heq & Hg).
    eapply wpg_ext; [exact Heq|]. unfold store_row. wp_steps.
    change [0; 1; 2; 3; 4; 5; 6; 7] with indices.
    rewrite (mapM_map g (f i)) by (intros c Hc; apply Hg, indices_range, Hc). wp_steps. cbn [m_sample_array set_sample_array].
    assert (zlen (map (f i) indices) = 8) as H8 by reflexivity.
    destruct (zblit_ex a (8 * i) (map (f i) indices)) as [a' Ha']; [lia..|]. rewrite Ha'. wp_steps.
    exists a'. split; [done|]. split; [by rewrite (zblit_zlen _ _ _ _ Ha')|].
    intros r c Hr' Hc. rewrite (zget_zblit _ _ _ _ _ Ha'), H8 by lia.
    destruct (decide (r = i)) as [->|Hne].
    + rewrite (proj2 (Z.leb_le _ _)), (proj2 (Z.ltb_lt _ _)) by lia. cbn [andb].
      replace (8 * i + c - 8 * i) with c by lia. by apply zget_map_indices.
    + rewrite (proj2 (Z.leb_gt (8 * i) _)) by lia. cbn [andb]. apply Hr; lia.
  - intros s' (a & -> & Hl & Hr). by rewrite (block_of_ext a f Hl Hr).
Qed.

(** The pixel that an access finds. *)
Lemma mcu_line_get site y s :
  m_mcu_lines s = Some lines -> 0 <= y < h ->
  exists l, mcu_line site y s = Ok (l, s) /\
    forall x, 0 <= x < w -> zget l x = Some (pixel lines y x).
Proof.
  intros Hm Hy. destruct (lines_get h w lines y Hlines Hy) as (l & El & _ & Hx).
  exists l. split; [|intros x Hx'; by apply Hx].
  unfold mcu_line, bind, gets. rewrite Hm. cbn. by rewrite El.
Qed.

Lemma wpg_load_grey x s (Q : unit -> jpeg_encoder -> Prop) :
  m_mcu_lines s = Some lines -> zlen (m_sample_array s) = 64 -> 8 <= h -> 0 <= x -> 8 * x + 8 <= w ->
  Q tt (set_sample_array (block_of (grey_sample lines x)) s) -> wpg E (load_block_8_8_grey x) Q s.
Proof.
  intros Hm Ha Hh Hx Hw HQ. unfold load_block_8_8_grey.
  apply (wpg_store_rows (grey_sample lines x)); [done | done | | done].
  intros i s' Hi Hm'. destruct (mcu_line_get "load_block_8_8_grey" i s' Hm') as (l & El & Hl); [lia|].
  eexists _, _. split; [unfold bind at 1; by rewrite El|]. intros c Hc. cbv beta.
  rewrite Z.shiftl_mul_pow2 by lia. rewrite Hl by lia. rewrite option_bind_Some.
  unfold grey_sample. do 3 f_equal. lia.
Qed.

Lemma wpg_load_full x y k s (Q : unit -> jpeg_encoder -> Prop) :
  m_mcu_lines s = Some lines -> zlen (m_sample_array s) = 64 ->
  0 <= y -> 8 * y + 8 <= h -> 0 <= x -> 24 * x + 24 <= w -> 0 <= k < 3 ->
  Q tt (set_sample_array (block_of (full_sample lines x y k)) s) -> wpg E (load_block_8_8 x y k) Q s.
Proof.
  intros Hm Ha Hy Hh Hx Hw Hk HQ. unfold load_block_8_8.
  apply (wpg_store_rows (full_sample lines x y k)); [done | done | | done].
  intros i s' Hi Hm'. rewrite Z.shiftl_mul_pow2 by lia. change (2 ^ 3) with 8.
  destruct (mcu_line_get "load_block_8_8" (y * 8 + i) s' Hm') as (l & El & Hl); [lia|].
  eexists _, _. split; [unfold bind at 1; by rewrite El|]. intros c Hc. cbv beta.
  rewrite Hl by lia. rewrite option_bind_Some. unfold full_sample. do 3 f_equal; lia.
Qed.

Lemma wpg_load_half x k s (Q : unit -> jpeg_encoder -> Prop) :
  m_mcu_lines s = Some lines -> zlen (m_sample_array s) = 64 ->
  8 <= h -> 0 <= x -> 48 * x + 48 <= w -> 0 <= k < 3 ->
  Q tt (set_sample_array (block_of (half_sample lines x k)) s) -> wpg E (load_block_16_8_8 x k) Q s.
Proof.
  intros Hm Ha Hh Hx Hw Hk HQ. unfold load_block_16_8_8.
  apply (wpg_store_rows (half_sample lines x k)); [done | done | | done].
  intros i s' Hi Hm'.
  destruct (mcu_line_get "load_block_16_8_8" i s' Hm') as (l & El & Hl); [lia|].
  eexists _, _. split; [unfold bind at 1; by rewrite El|]. intros c Hc. cbv beta.
  rewrite !Hl by lia. rewrite !option_bind_Some. rewrite Z.shiftr_div_pow2 by lia. change (2 ^ 1) with 2.
  unfold half_sample. do 2 f_equal. f_equal; f_equal; f_equal; lia.
Qed.

Lemma wpg_load_quarter x k s (Q : unit -> jpeg_encoder -> Prop) :
  m_mcu_lines s = Some lines -> zlen (m_sample_array s) = 64 ->
  16 <= h -> 0 <= x -> 48 * x + 48 <= w -> 0 <= k < 3 ->
  Q tt (set_sample_array (block_of (quarter_sample lines x k)) s) -> wpg E (load_block_16_8 x k) Q s.
Proof.
  intros Hm Ha Hh Hx Hw Hk HQ. unfold load_block_16_8.
  apply (wpg_store_rows (quarter_sample lines x k)); [done | done | | done].
  intros i s' Hi Hm'. rewrite Z.add_0_r.
  destruct (mcu_line_get "load_block_16_8" (2 * i) s' Hm') as (l & El & Hl); [lia|].
  destruct (mcu_line_get "load_block_16_8" (2 * i + 1) s' Hm') as (l' & El' & Hl'); [lia|].
  eexists _, _. split; [unfold bind at 1; rewrite El; unfold bind at 1; by rewrite El'|].
  intros c Hc. cbv beta. rewrite !Hl, !Hl' by lia. rewrite !option_bind_Some.
  rewrite Z.shiftr_div_pow2 by lia. change (2 ^ 2) with 4. unfold quarter_sample.
  replace (if Z.even c then if Z.even i then 0 else 2 else if Z.even i then 2 else 0)
    with (if Z.even (i + c) then 0 else 2).
  - replace (48 * x + k + 6 * c + 3) with (x * (16 * 3) + k + (2 * c + 1) * 3) by lia.
    replace (48 * x + k + 6 * c) with (x * (16 * 3) + k + 2 * c * 3) by lia.
    done.
  - rewrite Z.even_add. by destruct (Z.even i), (Z.even c).
Qed.
End Load.
