(* ===== verification/JpgeScanFacts.v ===== *)
(** The entropy-coded data of an image: the blocks of a row of MCUs in the
    order of the code, the bits they are coded to, and a decoder for them. *)

From S2P Require Import Prelude.
From S2P Require Import CMonad.
From S2P Require Import JpgeTypes.
From S2P Require Import JpgeDct.
From S2P Require Import JpgeDctFacts.
From S2P Require Import Jpge.
From S2P Require Import JpgeOutFacts.
From S2P Require Import JpegSpec.
From S2P Require Import JpgeCodeFacts.

(** * Samples *)

Section Samples.
Context (h w : Z) (lines : list (list Z)) (Hlines : lines_ok h w lines).

Lemma pixel_u8 y x : is_u8 (pixel lines y x).
Proof.
  unfold pixel. destruct (zget lines y) as [l|] eqn:El; [|done].
  destruct (zget l x) as [v|] eqn:Ev; [|done]. cbn. apply (Forall_zget _ l x); [|done].
  destruct Hlines as [_ Hl]. exact (proj2 (Forall_zget _ _ _ _ Hl El)).
Qed.

Ltac pixels :=
  repeat match goal with
  | |- context [pixel lines ?y ?x] =>
      let v := fresh "v" in let H := fresh "Hv" in
      pose proof (pixel_u8 y x) as H; set (v := pixel lines y x) in *; clearbody v
  end.

Lemma grey_range x r c : sample_range (grey_sample lines x r c).
Proof. unfold grey_sample, sample_range. pixels. unfold is_u8 in *. lia. Qed.
Lemma full_range x y k r c : sample_range (full_sample lines x y k r c).
Proof. unfold full_sample, sample_range. pixels. unfold is_u8 in *. lia. Qed.
Lemma half_range x k r c : sample_range (half_sample lines x k r c).
Proof.
  unfold half_sample, sample_range. pixels. unfold is_u8 in *.
  Z.to_euclidean_division_equations. lia.
Qed.
Lemma quarter_range x k r c : sample_range (quarter_sample lines x k r c).
Proof.
  unfold quarter_sample, sample_range. pixels. unfold is_u8 in *.
  destruct (Z.even (r + c)); Z.to_euclidean_division_equations; lia.
Qed.
End Samples.

(** * A block *)

(** The tables of the components: code and size of every symbol, and divisors. *)
Record coder : Type := mkCoder {
  cr_dc : Z -> list Z * list Z;
  cr_ac : Z -> list Z * list Z;
  cr_q : Z -> list Z
}.

(** The static tables are those of [cr]. *)
Record has_tables (t : jpge_tables) (cr : coder) : Prop := {
  ht_codes : forall c, tables_of t c (cr_dc cr c) (cr_ac cr c);
  ht_quant : forall c, zget (m_quantization_tables t) (if 0 <? c then 1 else 0) = Some (cr_q cr c);
  ht_divisors : forall c, zlen (cr_q cr c) = 64 /\ Forall divisor (cr_q cr c)
}.

(** The quantized coefficients of the samples [f] in zig-zag order. *)
Definition coefficients (q : list Z) (f : Z -> Z -> Z) : list Z :=
  map (fun i => rounded (default 0 (zget q (Z.of_nat i)))
                  (dct_ref (block_of f) (zigzag i / 8) (zigzag i mod 8))) (seq 0 64).

Definition dc_range (v : Z) : Prop := -1024 <= v <= 1016.
Definition ac_range (v : Z) : Prop := -1023 <= v <= 1023.

(** A DC coefficient and 63 AC coefficients. *)
Definition block_ok (co : list Z) : Prop :=
  exists v l, co = v :: l /\ zlen l = 63 /\ dc_range v /\ Forall ac_range l.

Lemma rounded_sign q j :
  divisor q -> (0 <= j -> 0 <= rounded q j <= j) /\ (j <= 0 -> j <= rounded q j <= 0).
Proof.
  intros Hq. pose proof (quotient_le q (Z.abs j) Hq ltac:(lia)). unfold rounded.
  destruct (Z.sgn_spec j) as [[? ->] | [[? ->] | [? ->]]]; lia.
Qed.

Lemma zget_divisor q i :
  zlen q = 64 -> Forall divisor q -> (i < 64)%nat -> divisor (default 0 (zget q (Z.of_nat i))).
Proof.
  intros Hl Hq Hi. destruct (zget_is_Some q (Z.of_nat i) ltac:(lia)) as [d Hd]. rewrite Hd.
  by apply (Forall_zget _ q (Z.of_nat i)).
Qed.

(** The transform and the quantization of a block, as the code computes them. *)
Lemma coefficients_spec q f :
  (forall r c, 0 <= r < 8 -> 0 <= c < 8 -> sample_range (f r c)) ->
  zlen q = 64 -> Forall divisor q ->
  exists a, DCT2D (block_of f) = Some a /\ zlen a = 64 /\
    quantized_coefficients a q = Some (coefficients q f) /\ block_ok (coefficients q f).
Proof.
  intros Hf Hq Hqr.
  destruct (DCT2D_spec (block_of f)) as (a & Ha & Hl & Hv);
    [apply block_of_zlen | by apply Forall_block_of|].
  assert (forall k, 0 <= k < 64 -> exists x, zget a k = Some x /\
    x = dct_ref (block_of f) (k / 8) (k mod 8) /\ coefficient_range (k / 8) (k mod 8) x) as Hk.
  { intros k Hk. destruct (zget_is_Some a k ltac:(lia)) as [x Hx]. exists x. split; [done|].
    pose proof (Z.div_mod k 8 ltac:(lia)) as Hdm. pose proof (Z.mod_pos_bound k 8 ltac:(lia)).
    destruct (Hv (k / 8) (k mod 8)) as [He Hr]; [split; [apply Z.div_pos|apply Z.div_lt_upper_bound]; lia|done|].
    unfold at_rc in He, Hr. rewrite <- Hdm, Hx in He, Hr. by split. }
  assert (forall i, (i < 64)%nat -> quantized q a i = rounded (default 0 (zget q (Z.of_nat i)))
    (dct_ref (block_of f) (zigzag i / 8) (zigzag i mod 8)) /\
    (if Nat.eqb i 0 then dc_range (quantized q a i) else ac_range (quantized q a i))) as Hi.
  { intros i Hi. destruct (zigzag_range i Hi) as [_ Hz].
    destruct (Hk (zigzag i) Hz) as (x & Hx & Heq & Hr). unfold quantized. rewrite Hx. change (default 0 (Some x)) with x.
    split; [by rewrite <- Heq|].
    pose proof (rounded_sign _ x (zget_divisor q i Hq Hqr Hi)) as [Hp Hn].
    set (y := rounded _ x) in *. clearbody y.
    unfold coefficient_range in Hr. destruct (Nat.eqb_spec i 0) as [->|Hne].
    - change (-1024 <= x <= 1016) in Hr. unfold dc_range. lia.
    - pose proof (zigzag_0 i ltac:(lia)).
      rewrite (proj2 (andb_false_iff _ _)) in Hr.
      + unfold ac_range. lia.
      + rewrite !Z.eqb_neq. Z.to_euclidean_division_equations. lia. }
  exists a. split; [done|]. split; [done|].
  assert (coefficients q f = map (quantized q a) (seq 0 64)) as Hco.
  { apply map_ext_in. intros i Hin%in_seq. symmetry. apply Hi. lia. }
  split.
  - rewrite Hco. apply quantized_coefficients_spec; [done | | done | done].
    apply Forall_lookup. intros i x Hx.
    pose proof (lookup_lt_Some _ _ _ Hx) as Hlt. unfold zlen in Hl.
    destruct (Hk (Z.of_nat i) ltac:(lia)) as (x' & Hx' & _ & Hr).
    unfold zget in Hx'. rewrite (proj2 (Z.leb_le _ _)), Nat2Z.id, Hx in Hx' by lia. injection Hx' as <-.
    unfold coefficient_range in Hr. destruct (_ && _); lia.
  - rewrite Hco. exists (quantized q a 0), (map (quantized q a) (seq 1 63)). split; [done|].
    split; [done|]. split; [apply (Hi 0%nat); lia|].
    apply Forall_forall. intros x (i & -> & Hin)%list_elem_of_fmap.
    apply list_elem_of_In, in_seq in Hin. destruct (Hi i ltac:(lia)) as [_ H].
    by rewrite (proj2 (Nat.eqb_neq _ _)) in H by lia.
Qed.

(** * A sequence of blocks *)

(** Component and coefficients. *)
Definition cblock : Type := Z * list Z.

Definition dc_of (co : list Z) : Z := default 0 (head co).

(** [last.(c)] *)
Definition pred_of (last : list Z) (c : Z) : Z := default 0 (zget last c).

Fixpoint scan_bits (cr : coder) (last : list Z) (bl : list cblock) : list bool :=
  match bl with
  | [] => []
  | (c, co) :: bl =>
      block_bits (cr_dc cr c) (cr_ac cr c) (pred_of last c) (dc_of co) (tail co) ++
      scan_bits cr (<[Z.to_nat c := dc_of co]> last) bl
  end.

(** The predictors behind the blocks. *)
Fixpoint scan_last (last : list Z) (bl : list cblock) : list Z :=
  match bl with
  | [] => last
  | (c, co) :: bl => scan_last (<[Z.to_nat c := dc_of co]> last) bl
  end.

Lemma scan_bits_app cr last l r :
  scan_bits cr last (l ++ r) = scan_bits cr last l ++ scan_bits cr (scan_last last l) r.
Proof.
  revert last. induction l as [|[c co] l IH]; intros last; cbn; [done|]. by rewrite IH, app_assoc.
Qed.
Lemma scan_last_app last l r : scan_last last (l ++ r) = scan_last (scan_last last l) r.
Proof. revert last. induction l as [|[c co] l IH]; intros last; cbn; [done|]. apply IH. Qed.

Definition component (c : Z) : Prop := 0 <= c < 3.
Definition cblock_ok (b : cblock) : Prop := component b.1 /\ block_ok b.2.
Definition last_ok (last : list Z) : Prop := zlen last = 3 /\ Forall dc_range last.

Lemma dc_of_range co : block_ok co -> dc_range (dc_of co).
Proof. by intros (v & l & -> & _ & Hv & _). Qed.

Lemma last_ok_insert last c v : last_ok last -> dc_range v -> last_ok (<[Z.to_nat c := v]> last).
Proof. intros [Hl Hr] Hv. split; [by rewrite zlen_insert|]. by apply Forall_insert. Qed.

Lemma pred_of_spec last c :
  last_ok last -> component c -> zget last c = Some (pred_of last c) /\ dc_range (pred_of last c).
Proof.
  intros [Hl Hr] Hc. unfold pred_of, component in *.
  destruct (zget_is_Some last c ltac:(lia)) as [v Hv]. rewrite Hv. split; [done|].
  by apply (Forall_zget _ last c).
Qed.

Lemma scan_last_ok last bl : last_ok last -> Forall cblock_ok bl -> last_ok (scan_last last bl).
Proof.
  intros Hl Hbl. revert last Hl. induction Hbl as [|[c co] bl [Hc Hco] _ IH]; intros last Hl; [done|].
  apply IH, last_ok_insert; [done|]. by apply dc_of_range.
Qed.

(** ** The decoder *)

(** The tables of the decoder for a component. *)
Record decoder : Type := mkDecoder {
  dr_dc : Z -> code_table;
  dr_ac : Z -> code_table
}.

(** The blocks of the components [cs]. *)
Fixpoint decode_scan (dr : decoder) (last : list Z) (cs : list Z) (bs : list bool)
    : option (list (list Z) * list bool) :=
  match cs with
  | [] => Some ([], bs)
  | c :: cs =>
      match decode_block (dr_dc dr c) (dr_ac dr c) (pred_of last c) bs with
      | None => None
      | Some (co, bs) =>
          match decode_scan dr (<[Z.to_nat c := dc_of co]> last) cs bs with
          | None => None
          | Some (l, bs) => Some (co :: l, bs)
          end
      end
  end.

(** The decoder reads every symbol that the encoder may write. *)
Definition matches (dr : decoder) (cr : coder) : Prop := forall c,
  decodes (dr_dc dr c) (code_word (cr_dc cr c).1 (cr_dc cr c).2) (fun j => 0 <= j <= 11) /\
  decodes (dr_ac dr c) (code_word (cr_ac cr c).1 (cr_ac cr c).2) (ac_symbol 10).

Lemma ac_range_category v : ac_range v -> category v <= 10.
Proof. unfold ac_range. intros Hv. apply category_le; [lia|]. change (2 ^ 10) with 1024. lia. Qed.

Lemma dc_range_category v p : dc_range v -> dc_range p -> category (v - p) <= 11.
Proof.
  unfold dc_range. intros Hv Hp. apply category_le; [lia|]. change (2 ^ 11) with 2048. lia.
Qed.

Lemma decode_scan_bits dr cr last bl bs :
  matches dr cr -> last_ok last -> Forall cblock_ok bl ->
  decode_scan dr last (map fst bl) (scan_bits cr last bl ++ bs) = Some (map snd bl, bs).
Proof.
  intros Hm Hl Hbl. revert last Hl. induction Hbl as [|[c co] bl [Hc Hco] _ IH]; intros last Hl; [done|].
  cbn in Hc, Hco. destruct Hco as (v & l & -> & Hl63 & Hv & Hac).
  destruct (pred_of_spec last c Hl Hc) as [_ Hp]. destruct (Hm c) as [Hdc Hacc].
  cbn [scan_bits decode_scan map fst snd]. change (dc_of (v :: l)) with v. cbn [tail].
  unfold block_bits. rewrite <- !app_assoc.
  rewrite (decode_block_bits _ _ _ _ 11 10 (pred_of last c) v l); [|done|by apply dc_range_category|done|done| |done].
  - change (dc_of (v :: l)) with v. rewrite IH; [done|]. by apply last_ok_insert.
  - eapply Forall_impl; [exact Hac|]. apply ac_range_category.
Qed.

(** ** The encoder on a sequence of blocks *)

(** code_coefficients_pass_two on one block of coefficients after the other. *)
Fixpoint code_blocks (pPut_buf : list (option (list Z)) -> option (list Z) -> bool)
    (bl : list cblock) : M jpeg_encoder unit :=
  match bl with
  | [] => ret tt
  | (c, co) :: bl =>
      modify (set_coefficient_array co) ;;
      code_coefficients_pass_two pPut_buf c ;;
      code_blocks pPut_buf bl
  end.

Lemma wpg_code_blocks pPut_buf E cr pre bl s bs last (Q : unit -> jpeg_encoder -> Prop) :
  has_tables (tables s) cr -> m_last_dc_val s = last -> last_ok last ->
  Forall cblock_ok bl -> coded (out s) pre bs ->
  (forall s', coded (out s') pre (bs ++ scan_bits cr last bl) -> Q tt s') ->
  wpg E (code_blocks pPut_buf bl) Q s.
Proof.
  intros Ht Hla Hl Hbl. revert s bs last Ht Hla Hl.
  induction Hbl as [|[c co] bl [Hc Hco] _ IH]; intros s bs last Ht Hla Hl Ho HQ; cbn [code_blocks].
  { wp_steps. apply HQ. cbn. by rewrite app_nil_r. }
  cbn in Hc, Hco. destruct Hco as (v & l & -> & Hl63 & Hv & Hac).
  destruct (pred_of_spec last c Hl Hc) as [Hp Hpr]. wp_steps.
  assert (forall x, category x <= 11 -> Z.abs x < 2147483648 -> coefficient_ok x) as Hcok
    by (intros; split; lia).
  eapply (wpg_code_coefficients pPut_buf E c (cr_dc cr c) (cr_ac cr c) (pred_of last c) v l);
    [by apply (ht_codes _ _ Ht) | done | done | cbn; by rewrite Hla | | | exact Ho |].
  - apply Hcok; [by apply dc_range_category|]. unfold dc_range in *. lia.
  - eapply Forall_impl; [exact Hac|]. intros x Hx. pose proof (ac_range_category x Hx).
    apply Hcok; [lia|]. unfold ac_range in Hx. lia.
  - intros s' -> Ho'. eapply IH; [exact Ht | reflexivity | | exact Ho' |].
    + cbn. rewrite Hla. by apply last_ok_insert.
    + intros s2 Ho2. apply HQ. cbn [scan_bits]. change (dc_of (v :: l)) with v. cbn [tail].
      cbn in Ho2. by rewrite Hla, <- app_assoc in Ho2.
Qed.
