(* ===== verification/JpgeImageFacts.v ===== *)
(** Coding a row of MCUs: process_mcu_row writes the bits of the blocks that
    the lines of the row hold.

    The second part is about the lines, the padding and the end of the image. *)

From S2P Require Import Prelude.
From S2P Require Import CMonad.
From S2P Require Import JpgeTypes.
From S2P Require Import JpgeDct.
From S2P Require Import JpgeDctFacts.
From S2P Require Import Jpge.
From S2P Require Import JpgeOutFacts.
From S2P Require Import JpegSpec.
From S2P Require Import JpgeCodeFacts.
From S2P Require Import JpgeScanFacts.

(** * The geometry of an image *)

(** Components, and the sampling factors of the first one. *)
Inductive sampling : Z -> Z -> Z -> Prop :=
| sampling_grey : sampling 1 1 1
| sampling_1x1 : sampling 3 1 1
| sampling_2x1 : sampling 3 2 1
| sampling_2x2 : sampling 3 2 2.

(** What jpg_open makes of the size of the image: [n] components, MCUs of [h]
    by [v] blocks of the first one. *)
Record geometry (p : jpge_params) (n h v : Z) : Prop := {
  ge_sampling : sampling n h v;
  ge_components : m_num_components p = n;
  ge_h : zget (m_comp_h_samp p) 0 = Some h;
  ge_v : zget (m_comp_v_samp p) 0 = Some v;
  ge_chroma : n = 3 -> m_comp_h_samp p = [h; 1; 1] /\ m_comp_v_samp p = [v; 1; 1];
  ge_mcu_y : m_mcu_y p = 8 * v;
  ge_x : 1 <= m_image_x p <= m_image_x_mcu p;
  ge_mcus : m_image_x_mcu p = 8 * h * m_mcus_per_row p;
  ge_xlt : m_image_bpl_xlt p = n * m_image_x p;
  ge_bpl_mcu : m_image_bpl_mcu p = n * m_image_x_mcu p
}.

(** The lines of a row of MCUs. *)
Definition row_ok (p : jpge_params) (lines : list (list Z)) : Prop :=
  lines_ok (m_mcu_y p) (m_image_bpl_mcu p) lines.

(** The components and samples of MCU number [i] of a row. *)
Definition mcu_units (n h v : Z) (lines : list (list Z)) (i : Z) : list (Z * (Z -> Z -> Z)) :=
  if n =? 1 then [(0, grey_sample lines i)]
  else if h =? 1
  then [(0, full_sample lines i 0 0); (1, full_sample lines i 0 1); (2, full_sample lines i 0 2)]
  else if v =? 1
  then [(0, full_sample lines (2 * i) 0 0); (0, full_sample lines (2 * i + 1) 0 0);
        (1, half_sample lines i 1); (2, half_sample lines i 2)]
  else [(0, full_sample lines (2 * i) 0 0); (0, full_sample lines (2 * i + 1) 0 0);
        (0, full_sample lines (2 * i) 1 0); (0, full_sample lines (2 * i + 1) 1 0);
        (1, quarter_sample lines i 1); (2, quarter_sample lines i 2)].

(** The blocks of the first [k] MCUs. *)
Definition row_units (n h v : Z) (lines : list (list Z)) (k : Z) : list (Z * (Z -> Z -> Z)) :=
  concat (map (fun i => mcu_units n h v lines (Z.of_nat i)) (seq 0 (Z.to_nat k))).

Definition code_units (cr : coder) (l : list (Z * (Z -> Z -> Z))) : list cblock :=
  map (fun u => (u.1, coefficients (cr_q cr u.1) u.2)) l.

(** Component and samples of a block as the code produces them. *)
Definition unit_ok (u : Z * (Z -> Z -> Z)) : Prop :=
  component u.1 /\ forall r c, sample_range (u.2 r c).

Lemma mcu_units_ok n h v hh w lines i :
  lines_ok hh w lines -> Forall unit_ok (mcu_units n h v lines i).
Proof.
  intros Hl. unfold mcu_units.
  destruct (n =? 1); [|destruct (h =? 1); [|destruct (v =? 1)]];
    repeat constructor; cbn [fst snd]; intros; unfold component; try lia;
    first [eapply grey_range | eapply full_range | eapply half_range | eapply quarter_range]; exact Hl.
Qed.

Lemma row_units_ok n h v hh w lines k :
  lines_ok hh w lines -> Forall unit_ok (row_units n h v lines k).
Proof.
  intros Hl. unfold row_units. apply Forall_concat, Forall_forall.
  intros l (i & -> & _)%list_elem_of_fmap. by apply (mcu_units_ok _ _ _ hh w).
Qed.

Lemma code_units_ok t cr l :
  has_tables t cr -> Forall unit_ok l -> Forall cblock_ok (code_units cr l).
Proof.
  intros Ht Hl. apply Forall_forall. intros b (u & -> & Hu)%list_elem_of_fmap.
  rewrite Forall_forall in Hl. destruct (Hl u Hu) as [Hc Hs]. split; [done|].
  destruct (ht_divisors t cr Ht u.1) as [Hq Hqr].
  by destruct (coefficients_spec (cr_q cr u.1) u.2) as (a & _ & _ & _ & H).
Qed.

Lemma row_units_S n h v lines k :
  0 <= k -> row_units n h v lines (k + 1) = row_units n h v lines k ++ mcu_units n h v lines k.
Proof.
  intros Hk. unfold row_units. replace (Z.to_nat (k + 1)) with (S (Z.to_nat k)) by lia.
  rewrite seq_S, map_app, concat_app. cbn [map concat]. by rewrite app_nil_r, Nat.add_0_l, Z2Nat.id.
Qed.

(** * The state during the scan *)

(** Relative to [s0], blocks have been coded: [bs] has been written behind
    [pre]. *)
Record scanning (s0 : jpeg_encoder) (cr : coder) (pre : list Z) (bs : list bool) (last : list Z)
    (s : jpeg_encoder) : Prop := {
  sc_prm : prm s = prm s0;
  sc_lines : m_mcu_lines s = m_mcu_lines s0;
  sc_ofs : m_mcu_y_ofs s = m_mcu_y_ofs s0;
  sc_pass : m_pass_num s = m_pass_num s0;
  sc_tables : tables s = tables s0;
  sc_samples : zlen (m_sample_array s) = 64;
  sc_last : m_last_dc_val s = last;
  sc_last_ok : last_ok last;
  sc_has : has_tables (tables s0) cr;
  sc_coded : coded (out s) pre bs
}.

Section Row.
Context (pPut_buf : list (option (list Z)) -> option (list Z) -> bool).
Context (E : failure -> Prop) (s0 : jpeg_encoder) (cr : coder) (pre : list Z).

Lemma wpg_code_block c f s bs last (Q : unit -> jpeg_encoder -> Prop) :
  scanning s0 cr pre bs last s -> m_sample_array s = block_of f -> unit_ok (c, f) ->
  (forall s', scanning s0 cr pre (bs ++ scan_bits cr last (code_units cr [(c, f)]))
                (scan_last last (code_units cr [(c, f)])) s' -> Q tt s') ->
  wpg E (code_block pPut_buf c) Q s.
Proof.
  intros Hs Ha [Hc Hf] HQ. cbn in Hc, Hf. pose proof Hs as [? ? ? ? Ht _ Hla Hlok Hhas Ho].
  destruct (ht_divisors _ _ Hhas c) as [Hq Hqr].
  destruct (coefficients_spec (cr_q cr c) f) as (a & Hdct & Hl & Hquant & Hok); [auto..|].
  unfold code_block. wp_steps. rewrite Ha, Hdct. wp_steps.
  unfold load_quantized_coefficients. wp_steps. cbn [tables set_sample_array].
  rewrite Ht, (ht_quant _ _ Hhas). wp_steps. cbn [m_sample_array set_sample_array].
  rewrite Hquant. wp_steps.
  destruct Hok as (v & l & Hco & Hl63 & Hv & Hac). destruct (pred_of_spec last c Hlok Hc) as [Hp Hpr].
  assert (forall x, category x <= 11 -> Z.abs x < 2147483648 -> coefficient_ok x) as Hcok
    by (intros; split; lia).
  eapply (wpg_code_coefficients pPut_buf E c (cr_dc cr c) (cr_ac cr c) (pred_of last c) v l);
    [cbn; rewrite Ht; by apply ht_codes | exact Hco | done | cbn; by rewrite Hla | | | exact Ho |].
  - apply Hcok; [by apply dc_range_category|]. unfold dc_range in *. lia.
  - eapply Forall_impl; [exact Hac|]. intros x Hx. pose proof (ac_range_category x Hx).
    apply Hcok; [lia|]. unfold ac_range in Hx. lia.
  - intros s' -> Ho'. apply HQ. cbn [code_units map fst snd scan_bits scan_last]. rewrite Hco.
    change (dc_of (v :: l)) with v. cbn [tail]. rewrite app_nil_r.
    split; cbn; [done..| by rewrite Hla | by apply last_ok_insert | done | exact Ho'].
Qed.

(** [load] loads the samples [f]. *)
Definition loads (load : M jpeg_encoder unit) (f : Z -> Z -> Z) : Prop :=
  forall s (Q : unit -> jpeg_encoder -> Prop), m_mcu_lines s = m_mcu_lines s0 -> zlen (m_sample_array s) = 64 ->
    Q tt (set_sample_array (block_of f) s) -> wpg E load Q s.

Lemma wpg_unit load c f s bs last (Q : unit -> jpeg_encoder -> Prop) :
  scanning s0 cr pre bs last s -> loads load f -> unit_ok (c, f) ->
  (forall s', scanning s0 cr pre (bs ++ scan_bits cr last (code_units cr [(c, f)]))
                (scan_last last (code_units cr [(c, f)])) s' -> Q tt s') ->
  wpg E (load ;; code_block pPut_buf c) Q s.
Proof.
  intros Hs Hload Hu HQ. wp_step. apply Hload; [apply Hs | apply Hs|].
  eapply wpg_code_block; [|done|done|done]. destruct Hs. by split.
Qed.

(** The loads and blocks of an MCU one after the other. *)
Fixpoint code_all (l : list (M jpeg_encoder unit * Z)) : M jpeg_encoder unit :=
  match l with
  | [] => ret tt
  | [(load, c)] => load ;; code_block pPut_buf c
  | (load, c) :: l => load ;; code_block pPut_buf c ;; code_all l
  end.

Lemma wpg_code_all l us s bs last :
  scanning s0 cr pre bs last s ->
  Forall2 (fun m u => loads m.1 u.2 /\ m.2 = u.1 /\ unit_ok u) l us ->
  wpg E (code_all l) (fun _ => scanning s0 cr pre (bs ++ scan_bits cr last (code_units cr us))
    (scan_last last (code_units cr us))) s.
Proof.
  intros Hs Hl. revert s bs last Hs.
  induction Hl as [|[m c] [c' f] l us (Hm & Hcc & Hu) Hl IH]; intros s bs last Hs.
  - cbn. wp_steps. by rewrite app_nil_r.
  - cbn in Hm, Hcc. subst c'. destruct l as [|m' l].
    + inversion Hl; subst. cbn [code_all]. by eapply wpg_unit.
    + apply (wpg_ext _ _ ((m ;; code_block pPut_buf c) ;; code_all (m' :: l))).
      { cbn [code_all]. unfold bind. destruct (m s) as [[[] ?]|]; [|done].
        by destruct (code_block _ _ _) as [[[] ?]|]. }
      wp_step. eapply wpg_unit; [done..|]. intros s' Hs'.
      eapply wpg_mono; [by apply IH|]. intros [] s'' H. revert H.
      rewrite <- app_assoc. change (code_units cr ((c, f) :: us)) with (code_units cr [(c, f)] ++ code_units cr us).
      by rewrite scan_bits_app, scan_last_app.
Qed.

(** ** A row *)

Context (n h v : Z) (lines : list (list Z)).
Context (Hgeo : geometry (prm s0) n h v) (Hrow : row_ok (prm s0) lines).

Lemma row_lines : lines_ok (8 * v) (8 * h * n * m_mcus_per_row (prm s0)) lines.
Proof using Hgeo Hrow.
  unfold row_ok in Hrow. rewrite (ge_mcu_y _ _ _ _ Hgeo), (ge_bpl_mcu _ _ _ _ Hgeo), (ge_mcus _ _ _ _ Hgeo) in Hrow.
  by replace (8 * h * n * m_mcus_per_row (prm s0)) with (n * (8 * h * m_mcus_per_row (prm s0))) by lia.
Qed.

(** The MCUs of a row by the operations [l i] of each. *)
Lemma wpg_mcus (l : Z -> list (M jpeg_encoder unit * Z)) s bs last :
  scanning s0 cr pre bs last s -> 0 <= m_mcus_per_row (prm s0) ->
  (forall i, 0 <= i < m_mcus_per_row (prm s0) ->
     Forall2 (fun m u => loads m.1 u.2 /\ m.2 = u.1) (l i) (mcu_units n h v lines i)) ->
  wpg E (for_range 0 (m_mcus_per_row (prm s0)) (fun i => code_all (l i)))
    (fun _ => let us := code_units cr (row_units n h v lines (m_mcus_per_row (prm s0))) in
       scanning s0 cr pre (bs ++ scan_bits cr last us) (scan_last last us)) s.
Proof using Hgeo Hrow.
  intros Hs Hm Hl.
  apply (wpg_for_range E _ _ _ (fun i => let us := code_units cr (row_units n h v lines i) in
    scanning s0 cr pre (bs ++ scan_bits cr last us) (scan_last last us))); [done| | |done].
  - cbn. by rewrite app_nil_r.
  - intros i s' Hi Hs'. eapply wpg_mono.
    + eapply (wpg_code_all (l i) (mcu_units n h v lines i)); [exact Hs'|]. specialize (Hl i Hi).
      pose proof (mcu_units_ok n h v _ _ lines i row_lines) as Hok. clear - Hl Hok.
      induction Hl as [|m u ms us [Hld Hc] Hl IH]; constructor; inversion_clear Hok; auto.
    + intros [] s''. cbn beta zeta. rewrite row_units_S by lia. unfold code_units. rewrite map_app.
      by rewrite scan_bits_app, scan_last_app, app_assoc.
Qed.

End Row.

Ltac loads_by lemma :=
  let s := fresh in let Q := fresh in let H := fresh in let H' := fresh in
  intros s Q H H' ?; 
  match goal with Hl : m_mcu_lines _ = Some _, Hr : lines_ok _ _ _ |- _ =>
    rewrite Hl in H; eapply lemma; [exact Hr | exact H | exact H' | ..] end; try lia; assumption.

Lemma wpg_process_mcu_row pPut_buf E s0 cr pre n h v lines s bs last :
  geometry (prm s0) n h v -> row_ok (prm s0) lines -> m_mcu_lines s0 = Some lines ->
  scanning s0 cr pre bs last s ->
  wpg E (process_mcu_row pPut_buf)
    (fun _ => let us := code_units cr (row_units n h v lines (m_mcus_per_row (prm s0))) in
       scanning s0 cr pre (bs ++ scan_bits cr last us) (scan_last last us)) s.
Proof.
  intros Hgeo Hrow Hlines Hs. unfold process_mcu_row. wp_steps. rewrite (sc_prm _ _ _ _ _ _ Hs).
  rewrite (ge_h _ _ _ _ Hgeo). wp_steps. rewrite (ge_v _ _ _ _ Hgeo). wp_steps.
  rewrite (ge_components _ _ _ _ Hgeo).
  pose proof (ge_x _ _ _ _ Hgeo). pose proof (ge_mcus _ _ _ _ Hgeo). pose proof (row_lines _ _ _ _ _ Hgeo Hrow) as Hrl.
  set (k := m_mcus_per_row (prm s0)) in *.
  destruct (ge_sampling _ _ _ _ Hgeo); cbn [Z.eqb Pos.eqb andb] in *; cbv match.
  - apply (wpg_mcus pPut_buf E s0 cr pre _ _ _ lines Hgeo Hrow (fun i => [(load_block_8_8_grey i, 0)])); [done | lia|]. intros i Hi.
    repeat constructor; cbn [fst snd]. loads_by wpg_load_grey.
  - apply (wpg_mcus pPut_buf E s0 cr pre _ _ _ lines Hgeo Hrow (fun i => [(load_block_8_8 i 0 0, 0); (load_block_8_8 i 0 1, 1); (load_block_8_8 i 0 2, 2)]));
      [done | lia|]. intros i Hi. repeat constructor; cbn [fst snd]; loads_by wpg_load_full.
  - apply (wpg_mcus pPut_buf E s0 cr pre _ _ _ lines Hgeo Hrow (fun i => [(load_block_8_8 (i * 2 + 0) 0 0, 0); (load_block_8_8 (i * 2 + 1) 0 0, 0);
      (load_block_16_8_8 i 1, 1); (load_block_16_8_8 i 2, 2)])); [done | lia|].
    intros i Hi. rewrite Z.add_0_r, (Z.mul_comm i 2).
    repeat constructor; cbn [fst snd]; first [loads_by wpg_load_full | loads_by wpg_load_half].
  - apply (wpg_mcus pPut_buf E s0 cr pre _ _ _ lines Hgeo Hrow (fun i => [(load_block_8_8 (i * 2 + 0) 0 0, 0); (load_block_8_8 (i * 2 + 1) 0 0, 0);
      (load_block_8_8 (i * 2 + 0) 1 0, 0); (load_block_8_8 (i * 2 + 1) 1 0, 0);
      (load_block_16_8 i 1, 1); (load_block_16_8 i 2, 2)])); [done | lia|].
    intros i Hi. rewrite Z.add_0_r, (Z.mul_comm i 2).
    repeat constructor; cbn [fst snd]; first [loads_by wpg_load_full | loads_by wpg_load_quarter].
Qed.

(** From scanlines to the bits of an image: converting and padding lines,
    collecting them to rows of MCUs, and the end of the image. *)

(** * Converting a scanline *)

(** [f] makes [k] bytes of every pixel of [m] bytes. *)
Definition converts (f : nat -> list Z -> option (list Z)) (m k : Z) : Prop :=
  forall n d, m * Z.of_nat n <= zlen d -> Forall is_u8 d ->
  exists l, f n d = Some l /\ zlen l = k * Z.of_nat n /\ Forall is_u8 l.

Lemma zlen_3 {A} (d : list A) : 3 <= zlen d -> exists a b c d', d = a :: b :: c :: d'.
Proof.
  unfold zlen. intros H. do 3 (destruct d as [|? d]; cbn [length] in H; [lia|]). by repeat eexists.
Qed.

Lemma RGB_to_YCC_converts : converts RGB_to_YCC 3 3.
Proof.
  intros n. induction n as [|n IH]; intros d Hd Hu; [by exists []|].
  destruct (zlen_3 d) as (r & g & b & d' & ->); [lia|].
  rewrite !zlen_cons in Hd. rewrite !Forall_cons in Hu. destruct Hu as (Hr & Hg & Hb & Hu).
  destruct (IH d') as (l & Hl & Hlen & Hlu); [lia | done|].
  eexists. cbn [RGB_to_YCC]. rewrite Hl. cbn [mbind option_bind]. split; [done|].
  rewrite !zlen_cons, Hlen. split; [lia|].
  repeat apply Forall_cons_2; [apply u8_range | apply clamp_range | apply clamp_range | done].
Qed.

Lemma RGB_to_Y_converts : converts RGB_to_Y 3 1.
Proof.
  intros n. induction n as [|n IH]; intros d Hd Hu; [by exists []|].
  destruct (zlen_3 d) as (r & g & b & d' & ->); [lia|].
  rewrite !zlen_cons in Hd. rewrite !Forall_cons in Hu. destruct Hu as (Hr & Hg & Hb & Hu).
  destruct (IH d') as (l & Hl & Hlen & Hlu); [lia | done|].
  eexists. cbn [RGB_to_Y]. rewrite Hl. cbn [mbind option_bind]. split; [done|].
  rewrite !zlen_cons, Hlen. split; [lia|]. apply Forall_cons_2; [apply u8_range | done].
Qed.

Lemma Y_to_YCC_converts : converts Y_to_YCC 1 3.
Proof.
  intros n. induction n as [|n IH]; intros d Hd Hu; [by exists []|].
  destruct d as [|y d]; [rewrite zlen_nil in Hd; lia|].
  rewrite zlen_cons in Hd. rewrite Forall_cons in Hu. destruct Hu as [Hy Hu].
  destruct (IH d) as (l & Hl & Hlen & Hlu); [lia | done|].
  eexists. cbn [Y_to_YCC]. rewrite Hl. cbn [mbind option_bind]. split; [done|].
  rewrite !zlen_cons, Hlen. split; [lia|]. by repeat apply Forall_cons_2.
Qed.

(** A scanline as load_mcu needs it: three bytes a pixel when the image has
    three channels, else one. *)
Definition scanline_ok (p : jpge_params) (d : list Z) : Prop :=
  (if m_image_bpp p =? 3 then 3 else 1) * m_image_x p <= zlen d /\ Forall is_u8 d.

Lemma convert_pixels_spec p n h v d :
  geometry p n h v -> scanline_ok p d ->
  exists l, convert_pixels p d = Some l /\ zlen l = m_image_bpl_xlt p /\ Forall is_u8 l.
Proof.
  intros Hg [Hd Hu]. unfold convert_pixels.
  rewrite (ge_components _ _ _ _ Hg), (ge_xlt _ _ _ _ Hg). pose proof (ge_x _ _ _ _ Hg) as Hx.
  set (x := m_image_x p) in *.
  assert (forall f m k, converts f m k -> m * x <= zlen d ->
    exists l, f (Z.to_nat x) d = Some l /\ zlen l = k * x /\ Forall is_u8 l) as Hf.
  { intros f m k Hf Hm.
    destruct (Hf (Z.to_nat x) d) as (l & ? & Hlen & ?); [by rewrite Z2Nat.id by lia | done|].
    exists l. by rewrite Z2Nat.id in Hlen by lia. }
  assert (n = 1 \/ n = 3) as [-> | ->] by (destruct (ge_sampling _ _ _ _ Hg); auto);
    cbn [Z.eqb Pos.eqb]; destruct (m_image_bpp p =? 3).
  - by apply (Hf _ 3 1 RGB_to_Y_converts).
  - rewrite (proj2 (Z.leb_le _ _)) by lia. eexists. split; [done|].
    unfold zlen in *. rewrite length_take. split; [lia|]. by apply Forall_take.
  - by apply (Hf _ 3 3 RGB_to_YCC_converts).
  - by apply (Hf _ 1 3 Y_to_YCC_converts).
Qed.

Lemma zlen_concat_replicate {A} n (l : list A) : zlen (concat (replicate n l)) = zlen l * Z.of_nat n.
Proof. induction n as [|n IH]; cbn [replicate concat]; [rewrite zlen_nil; lia|]. rewrite zlen_app, IH. lia. Qed.
Lemma Forall_concat_replicate {A} (P : A -> Prop) n l : Forall P l -> Forall P (concat (replicate n l)).
Proof. intros H. induction n as [|n IH]; cbn; [done|]. by apply Forall_app. Qed.

(** The padding depends on the pixels only. *)
Lemma padding_spec p n h v l r :
  geometry p n h v -> zlen l = m_image_bpl_xlt p -> Forall is_u8 l ->
  padding p (l ++ r) = padding p l /\
  exists pad, padding p l = Some pad /\ zlen pad = m_image_bpl_mcu p - m_image_bpl_xlt p /\ Forall is_u8 pad.
Proof.
  intros Hg Hl Hu. pose proof (ge_x _ _ _ _ Hg) as Hx.
  unfold padding. rewrite (ge_components _ _ _ _ Hg), (ge_bpl_mcu _ _ _ _ Hg).
  rewrite (ge_xlt _ _ _ _ Hg) in *. set (x := m_image_x p) in *.
  assert (n = 1 \/ n = 3) as [-> | ->] by (destruct (ge_sampling _ _ _ _ Hg); auto);
    cbn [Z.eqb Pos.eqb]; (split; [by rewrite !zget_app_l by lia|]).
  - destruct (zget_is_Some l (1 * x - 1) ltac:(lia)) as [y Hy]. rewrite Hy.
    cbn [mbind option_bind]. eexists. split; [done|]. split.
    + unfold zlen. rewrite length_replicate. lia.
    + apply Forall_replicate. by apply (Forall_zget _ l _ _ Hu Hy).
  - destruct (zget_is_Some l (3 * x - 3 + 0) ltac:(lia)) as [y Hy]. rewrite Hy.
    destruct (zget_is_Some l (3 * x - 3 + 1) ltac:(lia)) as [cb Hcb]. rewrite Hcb.
    destruct (zget_is_Some l (3 * x - 3 + 2) ltac:(lia)) as [c Hc]. rewrite Hc.
    cbn [mbind option_bind]. eexists. split; [done|]. split.
    + rewrite zlen_concat_replicate. change (zlen [y; cb; c]) with 3. lia.
    + apply Forall_concat_replicate. repeat apply Forall_cons_2; [by eapply (Forall_zget is_u8 l)..|done].
Qed.

(** The line that load_mcu makes of a scanline. *)
Definition line_of (p : jpge_params) (d : list Z) : list Z :=
  let l := default [] (convert_pixels p d) in l ++ default [] (padding p l).

Lemma line_of_ok p n h v d :
  geometry p n h v -> scanline_ok p d ->
  zlen (line_of p d) = m_image_bpl_mcu p /\ Forall is_u8 (line_of p d).
Proof.
  intros Hg Hd. destruct (convert_pixels_spec p n h v d Hg Hd) as (l & Hl & Hll & Hu).
  destruct (padding_spec p n h v l [] Hg Hll Hu) as (_ & pad & Hp & Hpl & Hpu).
  unfold line_of. rewrite Hl. cbn [from_option id]. rewrite Hp. cbn [from_option id].
  rewrite zlen_app. split; [lia|]. by apply Forall_app.
Qed.

(** * The lines of an image *)

(** Line [y] of the image [img] extended downwards with its last line. *)
Definition image_line (p : jpge_params) (img : list (list Z)) (y : Z) : list Z :=
  line_of p (default [] (zget img (Z.min y (zlen img - 1)))).

(** The lines of row [i] of MCUs. *)
Definition image_row (p : jpge_params) (img : list (list Z)) (i : Z) : list (list Z) :=
  map (fun j => image_line p img (i * m_mcu_y p + Z.of_nat j)) (seq 0 (Z.to_nat (m_mcu_y p))).

(** The blocks of the first [k] rows. *)
Definition image_blocks (cr : coder) (p : jpge_params) (n h v : Z) (img : list (list Z)) (k : Z)
    : list cblock :=
  concat (map (fun i => code_units cr
      (row_units n h v (image_row p img (Z.of_nat i)) (m_mcus_per_row p))) (seq 0 (Z.to_nat k))).

Definition image_ok (p : jpge_params) (img : list (list Z)) : Prop :=
  0 < zlen img /\ Forall (scanline_ok p) img.

Lemma image_line_ok p n h v img y :
  geometry p n h v -> image_ok p img -> 0 <= y ->
  zlen (image_line p img y) = m_image_bpl_mcu p /\ Forall is_u8 (image_line p img y).
Proof.
  intros Hg [Hl Hi] Hy. unfold image_line.
  destruct (zget_is_Some img (Z.min y (zlen img - 1)) ltac:(lia)) as [d Hd]. rewrite Hd.
  apply (line_of_ok p n h v); [done|]. by eapply (Forall_zget _ img).
Qed.

Lemma geometry_mcu_y p n h v : geometry p n h v -> m_mcu_y p = 8 \/ m_mcu_y p = 16.
Proof. intros Hg. rewrite (ge_mcu_y _ _ _ _ Hg). destruct (ge_sampling _ _ _ _ Hg); auto. Qed.

Lemma zlen_image_row p n h v img i : geometry p n h v -> zlen (image_row p img i) = m_mcu_y p.
Proof.
  intros Hg. pose proof (geometry_mcu_y _ _ _ _ Hg). unfold image_row, zlen.
  rewrite length_map, length_seq. lia.
Qed.

Lemma zget_map_seq {A} (f : nat -> A) n j :
  0 <= j < Z.of_nat n -> zget (map f (seq 0 n)) j = Some (f (Z.to_nat j)).
Proof.
  intros Hj. unfold zget. rewrite (proj2 (Z.leb_le _ _)) by lia.
  apply list_lookup_fmap_Some. exists (Z.to_nat j). split; [done|]. by apply lookup_seq_lt; lia.
Qed.

Lemma image_row_get p n h v img i j :
  geometry p n h v -> 0 <= j < m_mcu_y p ->
  zget (image_row p img i) j = Some (image_line p img (i * m_mcu_y p + j)).
Proof.
  intros Hg Hj. unfold image_row. rewrite zget_map_seq by lia. by rewrite Z2Nat.id by lia.
Qed.

Lemma image_row_ok p n h v img i :
  geometry p n h v -> image_ok p img -> 0 <= i -> row_ok p (image_row p img i).
Proof.
  intros Hg Hi Hi0. split; [by apply (zlen_image_row p n h v)|].
  pose proof (geometry_mcu_y _ _ _ _ Hg).
  apply Forall_forall. intros l (j & -> & _)%list_elem_of_fmap.
  apply (image_line_ok p n h v); [done | done | nia].
Qed.

Lemma image_blocks_S cr p n h v img k :
  0 <= k -> image_blocks cr p n h v img (k + 1) =
    image_blocks cr p n h v img k ++ code_units cr (row_units n h v (image_row p img k) (m_mcus_per_row p)).
Proof.
  intros Hk. unfold image_blocks. replace (Z.to_nat (k + 1)) with (S (Z.to_nat k)) by lia.
  rewrite seq_S, map_app, concat_app. cbn [map concat]. by rewrite app_nil_r, Nat.add_0_l, Z2Nat.id.
Qed.

Lemma image_blocks_ok cr t p n h v img k :
  has_tables t cr -> geometry p n h v -> image_ok p img -> Forall cblock_ok (image_blocks cr p n h v img k).
Proof.
  intros Ht Hg Hi. apply Forall_concat, Forall_forall.
  intros l (i & -> & _)%list_elem_of_fmap. apply (code_units_ok t); [done|].
  eapply row_units_ok. by apply (image_row_ok p n h v); [| |lia].
Qed.

(** * The state between two scanlines *)

Definition first_dc : list Z := [0; 0; 0].

Section Image.
Context (pPut_buf : list (option (list Z)) -> option (list Z) -> bool).
Context (E : failure -> Prop) (cr : coder) (pre : list Z).
Context (p : jpge_params) (n h v : Z) (Hgeo : geometry p n h v).
Context (img : list (list Z)) (Himg : image_ok p img).

Abbreviation blocks := (image_blocks cr p n h v img).

(** The first [y] scanlines have been processed: the full rows among them are
    coded, the lines of the last row are stored. *)
Record imaging (y : Z) (s : jpeg_encoder) : Prop := {
  im_prm : prm s = p;
  im_has : has_tables (tables s) cr;
  im_pass : m_pass_num s = 2;
  im_ofs : m_mcu_y_ofs s = y mod m_mcu_y p;
  im_lines : exists lines, m_mcu_lines s = Some lines /\ row_ok p lines /\
    forall j, 0 <= j < y mod m_mcu_y p ->
      zget lines j = Some (image_line p img (y / m_mcu_y p * m_mcu_y p + j));
  im_samples : zlen (m_sample_array s) = 64;
  im_last : m_last_dc_val s = scan_last first_dc (blocks (y / m_mcu_y p));
  im_coded : coded (out s) pre (scan_bits cr first_dc (blocks (y / m_mcu_y p)))
}.

Lemma first_dc_ok : last_ok first_dc.
Proof. split; [done|]. repeat apply Forall_cons_2; unfold dc_range; try lia. apply Forall_nil_2. Qed.

(** A row of MCUs whose lines are those of the image. *)
Lemma wpg_code_row s k (Q : unit -> jpeg_encoder -> Prop) :
  prm s = p -> has_tables (tables s) cr -> 0 <= k -> m_mcu_lines s = Some (image_row p img k) ->
  zlen (m_sample_array s) = 64 -> m_last_dc_val s = scan_last first_dc (blocks k) ->
  coded (out s) pre (scan_bits cr first_dc (blocks k)) ->
  (forall s', scanning s cr pre (scan_bits cr first_dc (blocks (k + 1)))
                (scan_last first_dc (blocks (k + 1))) s' -> Q tt s') ->
  wpg E (process_mcu_row pPut_buf) Q s.
Proof using Hgeo Himg.
  intros Hp Ht Hk Hlines Ha Hlast Ho HQ. eapply wpg_mono.
  - apply (wpg_process_mcu_row pPut_buf E s cr pre n h v (image_row p img k));
      [by rewrite Hp | rewrite Hp; by apply (image_row_ok p n h v) | done|].
    split; try done. apply scan_last_ok; [apply first_dc_ok | by apply (image_blocks_ok _ (tables s))].
  - intros [] s'. cbn beta zeta. rewrite Hp. rewrite <- scan_bits_app, <- scan_last_app, <- image_blocks_S by done.
    apply HQ.
Qed.

Lemma row_ok_insert lines i d :
  row_ok p lines -> zlen d = m_image_bpl_mcu p -> Forall is_u8 d -> row_ok p (<[i := d]> lines).
Proof. intros [Hl Hr] Hd Hu. split; [by rewrite zlen_insert|]. by apply Forall_insert. Qed.

(** Storing a scanline. *)
Lemma store_line d (dst : list Z) :
  scanline_ok p d -> zlen dst = m_image_bpl_mcu p ->
  exists l d1 pad, convert_pixels p d = Some l /\ zblit dst 0 l = Some d1 /\
    padding p d1 = Some pad /\ zblit d1 (m_image_bpl_xlt p) pad = Some (line_of p d).
Proof using Hgeo.
  intros Hd Hdst. destruct (convert_pixels_spec p n h v d Hgeo Hd) as (l & Hl & Hll & Hu).
  assert (0 <= m_image_bpl_xlt p <= m_image_bpl_mcu p) as Hx.
  { rewrite (ge_xlt _ _ _ _ Hgeo), (ge_bpl_mcu _ _ _ _ Hgeo). pose proof (ge_x _ _ _ _ Hgeo).
    destruct (ge_sampling _ _ _ _ Hgeo); lia. }
  exists l, (l ++ drop (length l) dst).
  destruct (padding_spec p n h v l (drop (length l) dst) Hgeo Hll Hu) as (Heq & pad & Hp & Hpl & _).
  exists pad. split; [done|]. split.
  { rewrite zblit_is_Some by lia. unfold zlen. rewrite Z.add_0_l, Nat2Z.id. done. }
  rewrite Heq. split; [done|].
  unfold line_of. rewrite Hl. cbn [from_option id]. rewrite Hp. cbn [from_option id].
  rewrite zblit_is_Some; [|lia|].
  - rewrite <- Hll at 1. unfold zlen at 1. rewrite Nat2Z.id, take_app_length. do 2 f_equal.
    rewrite (drop_ge _ (Z.to_nat _)); [apply app_nil_r|]. unfold zlen in *. rewrite length_app, length_drop. lia.
  - unfold zlen in *. rewrite length_app, length_drop. lia.
Qed.

Lemma wpg_load_mcu y d s :
  imaging y s -> 0 <= y -> zget img y = Some d ->
  wpg E (load_mcu pPut_buf d) (fun _ => imaging (y + 1)) s.
Proof using Hgeo Himg.
  intros [Hp Ht Hpass Hofs (lines & Hlines & Hrow & Hget) Ha Hlast Ho] Hy Hd.
  pose proof (geometry_mcu_y _ _ _ _ Hgeo) as Hm. set (m := m_mcu_y p) in *.
  pose proof (Z.mod_pos_bound y m ltac:(lia)) as Hmod. pose proof (Z.div_mod y m ltac:(lia)) as Hdm.
  pose proof (zget_Some_range _ _ _ Hd) as Hyr.
  assert (scanline_ok p d) as Hdok by (destruct Himg as [_ H]; by apply (Forall_zget _ img y)).
  assert (line_of p d = image_line p img (y / m * m + y mod m)) as Hline.
  { unfold image_line. replace (y / m * m + y mod m) with y by lia.
    rewrite Z.min_l by lia. by rewrite Hd. }
  destruct (lines_get _ _ lines (y mod m) Hrow ltac:(lia)) as (dst & Edst & Hdst & _).
  destruct (store_line d dst Hdok Hdst) as (l & d1 & pad & E1 & E2 & E3 & E4).
  destruct (line_of_ok p n h v d Hgeo Hdok) as [Hlz Hlu].
  unfold load_mcu. wp_steps. rewrite Hp, Hofs.
  unfold mcu_line, set_line. wp_steps. rewrite Hlines. wp_steps. rewrite Edst. wp_steps.
  rewrite E1. wp_steps. rewrite E2. wp_steps. rewrite E3. wp_steps. rewrite E4. wp_steps.
  rewrite Hlines. wp_steps.
  rewrite zset_is_Some by (destruct Hrow as [-> _]; lia). wp_steps.
  set (lines' := <[_ := _]> lines).
  assert (row_ok p lines') as Hrow' by (by apply row_ok_insert).
  assert (forall j, 0 <= j < y mod m + 1 -> zget lines' j = Some (image_line p img (y / m * m + j))) as Hget'.
  { intros j Hj. unfold lines'. destruct (decide (j = y mod m)) as [->|Hne].
    - rewrite zget_insert_eq by (destruct Hrow as [-> _]; lia). by rewrite Hline.
    - rewrite zget_insert_ne by lia. apply Hget. lia. }
  rewrite u8_small by (unfold is_u8; lia). fold m.
  destruct (Z.eqb_spec (y mod m + 1) m) as [Hfull|Hpart].
  - assert ((y + 1) / m = y / m + 1 /\ (y + 1) mod m = 0) as [Hdiv Hmod0].
    { split; [symmetry; apply (Z.div_unique _ _ _ 0) | symmetry; apply (Z.mod_unique _ _ (y / m + 1))]; lia. }
    assert (lines' = image_row p img (y / m)) as Hrl.
    { destruct Hrow' as [Hz _]. apply zget_ext; [by rewrite (zlen_image_row p n h v)|].
      intros j Hj. rewrite (image_row_get p n h v) by (fold m; done || lia). apply Hget'. lia. }
    wp_step. eapply (wpg_code_row _ (y / m)); cbn; [done | done | by apply Z.div_pos; lia | by rewrite Hrl | done..|].
    intros s' [Sp Sl So Sps St Sa Sla _ _ Sc]. wp_steps. cbn in *.
    split; cbn; fold m; rewrite ?Hdiv, ?Hmod0, ?St; try (done || congruence).
    + exists lines'. split; [by rewrite Sl|]. split; [done|]. lia.
  - assert ((y + 1) / m = y / m /\ (y + 1) mod m = y mod m + 1) as [Hdiv Hmod1].
    { split; [symmetry; apply (Z.div_unique _ _ _ (y mod m + 1)) | symmetry; apply (Z.mod_unique _ _ (y / m))]; lia. }
    wp_steps. split; cbn; fold m; rewrite ?Hdiv, ?Hmod1; try done. by exists lines'.
Qed.

(** ** The end of the image *)

(** The lines below the image repeat its last line. *)
Lemma image_line_below y : zlen img - 1 <= y -> image_line p img y = image_line p img (zlen img - 1).
Proof. intros Hy. unfold image_line. by rewrite !Z.min_r by lia. Qed.

(** process_end_of_image fills the last row of MCUs. *)
Lemma wpg_repeat_lines k ofs s (Q : unit -> jpeg_encoder -> Prop) lines :
  prm s = p -> m_mcu_y_ofs s = ofs -> 0 < ofs <= m_mcu_y p -> m_mcu_lines s = Some lines ->
  row_ok p lines -> 0 <= k -> k * m_mcu_y p + ofs = zlen img ->
  (forall j, 0 <= j < ofs -> zget lines j = Some (image_line p img (k * m_mcu_y p + j))) ->
  Q tt (set_mcu_lines (Some (image_row p img k)) s) ->
  wpg E (for_range ofs (m_mcu_y p) repeat_line) Q s.
Proof using Hgeo Himg.
  intros Hp Hofs Hr Hlines Hrow Hk Hend Hget HQ.
  apply (wpg_for_range E _ _ _ (fun i s' => exists ls, s' = set_mcu_lines (Some ls) s /\ row_ok p ls /\
    forall j, 0 <= j < i -> zget ls j = Some (image_line p img (k * m_mcu_y p + j)))); [lia| | |].
  - exists lines. split; [|done]. destruct s. cbn in Hlines. by subst.
  - intros i s' Hi (ls & -> & Hls & Hg).
    destruct (lines_get _ _ ls i Hls ltac:(lia)) as (line & Eline & Hll & _).
    destruct (image_line_ok p n h v img (k * m_mcu_y p + i) Hgeo Himg ltac:(nia)) as [Hz Hu].
    unfold repeat_line, mcu_line, set_line. wp_steps. cbn [prm m_mcu_y_ofs m_mcu_lines set_mcu_lines].
    wp_steps. rewrite Hofs, Hg by lia. wp_steps.
    cbn [m_mcu_lines set_mcu_lines]. wp_steps. rewrite Eline. wp_steps. rewrite Hp.
    rewrite (image_line_below (k * m_mcu_y p + (ofs - 1))), <- (image_line_below (k * m_mcu_y p + i)) by lia.
    rewrite (proj2 (Z.leb_le _ _)), <- Hz, zsub_all by lia.
    assert (zblit line 0 (image_line p img (k * m_mcu_y p + i)) = Some (image_line p img (k * m_mcu_y p + i))) as ->.
    { rewrite zblit_is_Some by lia. rewrite Z.add_0_l, drop_ge by (unfold zlen in *; lia).
      cbn [Z.to_nat take app]. by rewrite app_nil_r. }
    wp_steps. cbn [m_mcu_lines set_mcu_lines]. wp_steps. rewrite zset_is_Some by (destruct Hls as [-> _]; lia). wp_steps.
    eexists. split; [done|]. split; [by apply row_ok_insert|]. intros j Hj.
    destruct (decide (j = i)) as [->|Hne].
    + apply zget_insert_eq. destruct Hls as [-> _]. lia.
    + rewrite zget_insert_ne by lia. apply Hg. lia.
  - intros s' (ls & -> & [Hz _] & Hg). replace (image_row p img k) with ls in HQ; [done|].
    apply zget_ext; [by rewrite (zlen_image_row p n h v)|].
    intros j Hj. rewrite (image_row_get p n h v) by (done || lia). apply Hg. lia.
Qed.

(** The number of rows of MCUs. *)
Definition row_count : Z := (zlen img + m_mcu_y p - 1) / m_mcu_y p.

(** The callback was given the bytes [bs] and then NULL, unless it failed. *)
Definition complete (o : jpge_out) (bs : list Z) : Prop :=
  m_all_stream_writes_succeeded o = true ->
  concat (omap id (calls o)) = bs /\ exists cs, calls o = cs ++ [None].

(** The bytes behind the headers: the bits padded with ones, and EOI. *)
Definition tail_bytes (bits : list bool) : list Z :=
  stuff (pack (bits ++ replicate 7 true)).1 ++ [0xFF; M_EOI].

Lemma wpg_emit_marker m bs o (Q : unit -> jpge_out -> Prop) :
  written o bs -> is_u8 m -> (forall o', written o' (bs ++ [0xFF; m]) -> same_bits o o' -> Q tt o') ->
  wpg E (emit_marker pPut_buf m) Q o.
Proof.
  intros Hw Hm HQ. unfold emit_marker. wp_step. eapply wpg_emit_byte; [done|]. intros o1 Hw1 Hb1.
  eapply wpg_emit_byte; [done|]. intros o2 Hw2 Hb2. apply HQ; [|by apply (same_bits_trans o o1)].
  rewrite <- app_assoc, (u8_small m) in Hw2 by done. exact Hw2.
Qed.

(** The end of the entropy-coded data, and of the file. *)
Lemma wpg_finish o bits (Q : unit -> jpge_out -> Prop) :
  coded o pre bits -> (forall o', complete o' (pre ++ tail_bytes bits) -> Q tt o') ->
  wpg E (put_bits pPut_buf 0x7F 7 ;; emit_marker pPut_buf M_EOI ;;
         flush_output_buffer pPut_buf ;; put_buf_and pPut_buf None) Q o.
Proof.
  intros Ho HQ. wp_step. eapply wpg_put_bits; [exact Ho | lia | lia|]. intros o1 [Hw1 _ _ _].
  change (bits_of (Z.to_nat 7) 127) with (replicate 7 true) in Hw1.
  wp_step. eapply wpg_emit_marker; [exact Hw1 | done|]. intros o2 [Hb Hp Hl Hs] _.
  wp_step. eapply (wpg_flush _ _ _ _ _ Hb ltac:(lia) Hl Hs). intros o3 [_ _ _ Hs3] _ Hp3.
  unfold put_buf_and. wp_step. wp_step. destruct (m_all_stream_writes_succeeded o3) eqn:Hok; wp_steps.
  - apply HQ. intros _. cbn [calls set_calls set_succeeded]. split; [|by eexists].
    rewrite omap_app, concat_app. cbn. rewrite app_nil_r.
    specialize (Hs3 eq_refl). unfold stream in Hs3. rewrite Hp3 in Hs3. cbn in Hs3.
    rewrite app_nil_r in Hs3. by rewrite Hs3, <- app_assoc.
  - apply HQ. intros H. congruence.
Qed.

Lemma wpg_process_end_of_image s :
  imaging (zlen img) s ->
  wpg E (process_end_of_image pPut_buf) (fun r s' =>
    r = true /\ m_pass_num s' = 3 /\
    complete (out s') (pre ++ tail_bytes (scan_bits cr first_dc (blocks row_count)))) s.
Proof using Hgeo Himg.
  intros [Hp Ht Hpass Hofs (lines & Hlines & Hrow & Hget) Ha Hlast Ho].
  pose proof (geometry_mcu_y _ _ _ _ Hgeo) as Hm. pose proof (proj1 Himg) as Hpos.
  set (m := m_mcu_y p) in *. set (y := zlen img) in *.
  pose proof (Z.mod_pos_bound y m ltac:(lia)) as Hmod. pose proof (Z.div_mod y m ltac:(lia)) as Hdm.
  assert (0 <= y / m) as Hq by (apply Z.div_pos; lia).
  unfold process_end_of_image. wp_step. wp_step. wp_step. wp_step. rewrite Hp, Hofs. fold m. wp_step.
  assert (forall s', m_pass_num s' = 2 ->
    coded (out s') pre (scan_bits cr first_dc (blocks row_count)) ->
    wpg E (on_out (put_bits pPut_buf 0x7F 7 ;; emit_marker pPut_buf M_EOI ;;
         flush_output_buffer pPut_buf ;; put_buf_and pPut_buf None) ;;
       k <- gets m_pass_num ;; modify (set_pass_num (u8 (k + 1))) ;; ret true)
      (fun r s' => r = true /\ m_pass_num s' = 3 /\
        complete (out s') (pre ++ tail_bytes (scan_bits cr first_dc (blocks row_count)))) s') as Hend.
  { intros s' Hs' Ho'. wp_step. apply wpg_on_out, (wpg_finish _ _ _ Ho'). intros o' Hc.
    wp_steps. cbn. rewrite Hs'. by split. }
  destruct (Z.eqb_spec (y mod m) 0) as [H0|Hne]; cbn [negb].
  - wp_step. apply Hend; [done|]. replace row_count with (y / m); [done|].
    unfold row_count. fold y m. apply (Z.div_unique _ _ _ (m - 1)); lia.
  - assert (row_count = y / m + 1) as Hrc.
    { unfold row_count. fold y m. symmetry. apply (Z.div_unique _ _ _ (y mod m - 1)); lia. }
    rewrite (proj2 (Z.ltb_lt (y mod m) 16)) by lia. wp_step.
    eapply (wpg_repeat_lines (y / m) (y mod m) s); [done | done | fold m; lia | done | done | done | fold y m; lia | done|].
    eapply (wpg_code_row _ (y / m)); cbn; [done..|].
    intros s' Hs'. apply Hend; [rewrite (sc_pass _ _ _ _ _ _ Hs'); done|].
    rewrite Hrc. apply Hs'.
Qed.
End Image.
