(* ===== verification/JpgeHeadFacts.v ===== *)
(** Opening an image: the tables, the geometry and the headers. *)

From S2P Require Import Prelude.
From S2P Require Import CMonad.
From S2P Require Import JpgeTypes.
From S2P Require Import JpgeDct.
From S2P Require Import JpgeDctFacts.
From S2P Require Import Jpge.
From S2P Require Import JpgeOutFacts.
From S2P Require Import JpegSpec.
From S2P Require Import JpgeCodeFacts.
From S2P Require Import JpgeScanFacts.
From S2P Require Import JpgeImageFacts.

(** * The headers *)

Definition word16 (x : Z) : list Z := [x / 256; x mod 256].

(** A marker segment: its length counts the two bytes of the length. *)
Definition segment (marker : Z) (payload : list Z) : list Z :=
  [0xFF; marker] ++ word16 (2 + zlen payload) ++ payload.

Definition app0_segment : list Z :=
  segment M_APP0 ([0x4A; 0x46; 0x49; 0x46; 0] ++ [1; 1; 0] ++ word16 1 ++ word16 1 ++ [0; 0]).
Definition dqt_segment (i : Z) (q : list Z) : list Z := segment M_DQT (i :: q).

(** Component numbers, sampling factors and quantization tables. *)
Definition frame_components (n h v : Z) : list Z :=
  [1; 16 * h + v; 0] ++ if n =? 3 then [2; 17; 1; 3; 17; 1] else [].
Definition sof_segment (x y n h v : Z) : list Z :=
  segment M_SOF0 ([8] ++ word16 y ++ word16 x ++ [n] ++ frame_components n h v).

(** [bits]: the numbers of codes of the lengths 1 to 16. *)
Definition dht_segment (id : Z) (bits vals : list Z) : list Z :=
  segment M_DHT (id :: bits ++ vals).

Definition sos_segment (n : Z) : list Z :=
  segment M_SOS ([n] ++ [1; 0] ++ (if n =? 3 then [2; 17; 3; 17] else []) ++ [0; 63; 0]).

(** The standard tables, without the unused end of the arrays. *)
Definition std_vals (bits val : list Z) : list Z := take (Z.to_nat (foldr Z.add 0 (tail bits))) val.
Definition std_dht (id : Z) (bits val : list Z) : list Z :=
  dht_segment id (tail bits) (std_vals bits val).

Definition jpeg_headers (q0 q1 : list Z) (x y n h v : Z) : list Z :=
  [0xFF; M_SOI] ++ app0_segment ++
  dqt_segment 0 q0 ++ (if n =? 3 then dqt_segment 1 q1 else []) ++
  sof_segment x y n h v ++
  std_dht 0 s_dc_lum_bits s_dc_lum_val ++ std_dht 16 s_ac_lum_bits s_ac_lum_val ++
  (if n =? 3
   then std_dht 1 s_dc_chroma_bits s_dc_chroma_val ++ std_dht 17 s_ac_chroma_bits s_ac_chroma_val
   else []) ++
  sos_segment n.

Section Emit.
Context (pPut_buf : list (option (list Z)) -> option (list Z) -> bool).
Context (E : failure -> Prop).

(** [m] writes the bytes [bs]. *)
Definition emits {A} (m : M jpge_out A) (bs : list Z) (a : A) : Prop := forall o b,
  written o b -> wpg E m (fun a' o' => a' = a /\ written o' (b ++ bs) /\ same_bits o o') o.

Lemma same_bits_refl o : same_bits o o.
Proof. done. Qed.

Lemma emits_ret {A} (a : A) : emits (ret a) [] a.
Proof. intros o b Hw. wp_step. rewrite app_nil_r. by split. Qed.

Lemma emits_bind {A B} (m : M jpge_out A) (k : A -> M jpge_out B) bs bs' a b :
  emits m bs a -> emits (k a) bs' b -> emits (bind m k) (bs ++ bs') b.
Proof.
  intros Hm Hk o b0 Hw. wp_step. eapply wpg_mono; [by apply Hm|]. intros a' o1 (-> & Hw1 & Hb1).
  eapply wpg_mono; [by apply Hk|]. intros b' o2 (-> & Hw2 & Hb2). split; [done|].
  rewrite <- app_assoc in Hw2. split; [done|]. by apply (same_bits_trans o o1).
Qed.

Lemma emits_eq {A} (m : M jpge_out A) bs bs' a : emits m bs a -> bs = bs' -> emits m bs' a.
Proof. by intros H <-. Qed.

Lemma emits_access {A} site (a : A) o : o = Some a -> emits (access site o) [] a.
Proof. intros -> o' b Hw. wp_step. rewrite app_nil_r. by split. Qed.

Lemma emits_byte i : emits (emit_byte pPut_buf i) [u8 i] tt.
Proof.
  intros o b Hw. eapply wpg_emit_byte; [done|]. intros o' Hw' Hb'. by split.
Qed.

Lemma emits_small i : is_u8 i -> emits (emit_byte pPut_buf i) [i] tt.
Proof. intros Hi. rewrite <- (u8_small i Hi) at 2. apply emits_byte. Qed.

Lemma emits_word i : is_u16 i -> emits (emit_word pPut_buf i) (word16 i) tt.
Proof.
  unfold is_u16. intros Hi. unfold emit_word, word16.
  change [i / 256; i mod 256] with ([i / 256] ++ [i mod 256]).
  rewrite Z.shiftr_div_pow2 by lia. change 255 with (Z.ones 8). rewrite Z.land_ones by lia.
  apply (emits_bind _ _ _ _ tt); apply emits_small; unfold is_u8; change (2 ^ 8) with 256;
    Z.to_euclidean_division_equations; lia.
Qed.

Lemma emits_marker m : is_u8 m -> emits (emit_marker pPut_buf m) [0xFF; m] tt.
Proof.
  intros Hm. change [0xFF; m] with ([0xFF] ++ [m]).
  apply (emits_bind _ _ _ _ tt); by apply emits_small.
Qed.

(** A loop that writes [f i] in round [i]. *)
Lemma emits_for_range a n (body : Z -> M jpge_out unit) (f : Z -> list Z) :
  (forall i, a <= i < a + Z.of_nat n -> emits (body i) (f i) tt) ->
  emits (for_range a (a + Z.of_nat n) body) (concat (map (fun k => f (a + Z.of_nat k)) (seq 0 n))) tt.
Proof.
  intros Hbody o b Hw.
  apply (wpg_for_range E _ _ _ (fun i o' =>
    written o' (b ++ concat (map (fun k => f (a + Z.of_nat k)) (seq 0 (Z.to_nat (i - a))))) /\ same_bits o o')); [lia| | |].
  - rewrite Z.sub_diag. cbn. rewrite app_nil_r. by split.
  - intros i o' Hi [Hw' Hb']. eapply wpg_mono; [by apply Hbody|]. cbn beta.
    intros _ o'' (_ & Hw'' & Hb''). split; [|by apply (same_bits_trans o o')].
    replace (Z.to_nat (i + 1 - a)) with (S (Z.to_nat (i - a))) by lia.
    rewrite seq_S, map_app, concat_app. cbn [map concat]. rewrite app_nil_r, app_assoc.
    replace (a + Z.of_nat (0 + Z.to_nat (i - a))) with i by lia. exact Hw''.
  - intros o' [Hw' Hb']. replace (Z.to_nat (a + Z.of_nat n - a)) with n in Hw' by lia. by split.
Qed.

(** The elements of an array one after the other. *)
Lemma emits_list site (l : list Z) a n d :
  holds l a d -> n = a + zlen d -> Forall is_u8 d -> 0 <= a ->
  emits (for_range a n (fun i => v <- access site (zget l i) ;; emit_byte pPut_buf v)) d tt.
Proof.
  intros Hd -> Hu Ha. eapply emits_eq.
  - apply (emits_for_range a (length d) _ (fun i => [default 0 (zget l i)])).
    intros i Hi. destruct (zget_is_Some d (i - a)) as [v Hv]; [unfold zlen; lia|].
    assert (zget l i = Some v) as Hl.
    { replace i with (a + (i - a)) by lia. by apply (holds_get l a d). }
    rewrite Hl. change [default 0 (Some v)] with ([] ++ [v]).
    apply (emits_bind _ _ _ _ v); [by apply emits_access|]. apply emits_small.
    by apply (Forall_zget _ d (i - a)).
  - clear Hu. revert a Hd Ha. induction d as [|v d IH]; intros a Hd Ha; [done|].
    cbn [length]. rewrite <- cons_seq, <- fmap_S_seq. cbn [map concat].
    destruct Hd as [Hv Hd]. rewrite Z.add_0_r, Hv. cbn. f_equal.
    rewrite <- (IH (a + 1)) at 2 by (done || lia). rewrite map_map. f_equal. apply map_ext.
    intros k. do 3 f_equal. lia.
Qed.

(** A marker segment. *)
Lemma emits_segment (m : Z) (len : Z) (k : M jpge_out unit) payload :
  is_u8 m -> len = 2 + zlen payload -> is_u16 len -> emits k payload tt ->
  emits (emit_marker pPut_buf m ;; emit_word pPut_buf len ;; k) (segment m payload) tt.
Proof.
  intros Hm Hl Hu Hk. unfold segment. rewrite <- Hl.
  apply (emits_bind _ _ _ _ tt); [by apply emits_marker|].
  apply (emits_bind _ _ _ _ tt); [by apply emits_word | done].
Qed.

(** ** The segments *)

Ltac emit_step :=
  first [apply emits_small; done | apply emits_word; done | apply emits_ret].
(** A fixed sequence of bytes and words. *)
Ltac emit_all :=
  eapply emits_eq; [repeat (eapply emits_bind; [emit_step|]); emit_step | try reflexivity].

Lemma emits_app0 : emits (emit_jfif_app0 pPut_buf) app0_segment tt.
Proof. apply emits_segment; [done..|]. emit_all. Qed.

Lemma emits_dqt_body quant i q :
  zget quant i = Some q -> zlen q = 64 -> Forall divisor q -> 0 <= i < 16 ->
  emits (emit_dqt_body pPut_buf quant i) (dqt_segment i q) tt.
Proof.
  intros Hq Hl Hd Hi. apply emits_segment; [done | by rewrite zlen_cons, Hl | done|].
  change (i :: q) with ([i] ++ [] ++ q).
  apply (emits_bind _ _ _ _ tt); [apply emits_small; unfold is_u8; lia|].
  apply (emits_bind _ _ _ _ q); [by apply emits_access|].
  apply emits_list; [apply holds_self | lia | | lia].
  eapply Forall_impl; [exact Hd|]. unfold divisor, is_u8. lia.
Qed.

Context (p : jpge_params) (n h v : Z) (Hgeo : geometry p n h v).

Lemma emits_dqt quant q0 q1 :
  quant = [q0; q1] -> zlen q0 = 64 -> zlen q1 = 64 -> Forall divisor q0 -> Forall divisor q1 ->
  emits (emit_dqt pPut_buf p quant) (dqt_segment 0 q0 ++ if n =? 3 then dqt_segment 1 q1 else []) tt.
Proof using Hgeo.
  intros -> H0 H1 Hd0 Hd1. unfold emit_dqt. rewrite (ge_components _ _ _ _ Hgeo).
  assert (forall i, 0 <= i < 2 -> emits (emit_dqt_body pPut_buf [q0; q1] i)
    (if i =? 0 then dqt_segment 0 q0 else dqt_segment 1 q1) tt) as Hbody.
  { intros i Hi. assert (i = 0 \/ i = 1) as [-> | ->] by lia; by apply emits_dqt_body. }
  destruct (n =? 3).
  - eapply emits_eq; [apply (emits_for_range 0 2)|]; [intros i Hi; apply Hbody; lia|].
    cbn [map seq concat]. by rewrite app_nil_r.
  - eapply emits_eq; [apply (emits_for_range 0 1)|]; [intros i Hi; apply Hbody; lia|].
    cbn [map seq concat]. by rewrite !app_nil_r.
Qed.

Lemma emits_sof :
  is_u16 (m_image_x p) -> is_u16 (m_image_y p) ->
  emits (emit_sof pPut_buf p) (sof_segment (m_image_x p) (m_image_y p) n h v) tt.
Proof using Hgeo.
  intros Hx Hy. unfold emit_sof. rewrite (ge_components _ _ _ _ Hgeo).
  pose proof (ge_h _ _ _ _ Hgeo) as Hh. pose proof (ge_v _ _ _ _ Hgeo) as Hv.
  pose proof (ge_chroma _ _ _ _ Hgeo) as Hc.
  assert (forall i hi vi, zget (m_comp_h_samp p) i = Some hi -> zget (m_comp_v_samp p) i = Some vi ->
    0 <= i < 3 -> 0 <= hi < 3 -> 0 <= vi < 3 ->
    emits (emit_byte pPut_buf (i + 1) ;;
           a <- access "emit_sof" (zget (m_comp_h_samp p) i) ;;
           b <- access "emit_sof" (zget (m_comp_v_samp p) i) ;;
           emit_byte pPut_buf (Z.shiftl a 4 + b) ;; emit_byte pPut_buf (if 0 <? i then 1 else 0))
      [i + 1; 16 * hi + vi; if 0 <? i then 1 else 0] tt) as Hbody.
  { intros i hi vi Hhi Hvi Hi Hhr Hvr. eapply emits_eq.
    - eapply emits_bind; [apply emits_small; unfold is_u8; lia|].
      eapply emits_bind; [by apply emits_access|]. eapply emits_bind; [by apply emits_access|].
      eapply emits_bind; [|apply emits_small; by destruct (0 <? i)].
      apply emits_small. rewrite Z.shiftl_mul_pow2 by lia. unfold is_u8. lia.
    - cbn [app]. rewrite Z.shiftl_mul_pow2 by lia. by replace (hi * 2 ^ 4) with (16 * hi) by lia. }
  assert (0 <= h < 3 /\ 0 <= v < 3) as [Hhr Hvr] by (destruct (ge_sampling _ _ _ _ Hgeo); lia).
  assert (n = 1 \/ n = 3) as [Hn | Hn] by (destruct (ge_sampling _ _ _ _ Hgeo); auto); rewrite Hn in *.
  - unfold sof_segment. apply emits_segment; [done..|].
    eapply emits_eq.
    + do 4 (eapply emits_bind; [first [by apply emits_word | by apply emits_small]|]).
      apply (emits_for_range 0 1 _ (fun i => [i + 1; 16 * h + v; if 0 <? i then 1 else 0])).
      intros i Hi. assert (i = 0) as -> by lia. by apply Hbody.
    + reflexivity.
  - destruct (Hc eq_refl) as [Eh Ev]. unfold sof_segment. apply emits_segment; [done..|].
    eapply emits_eq.
    + do 4 (eapply emits_bind; [first [by apply emits_word | by apply emits_small]|]).
      apply (emits_for_range 0 3 _ (fun i => [i + 1; if i =? 0 then 16 * h + v else 17; if 0 <? i then 1 else 0])).
      intros i Hi. assert (i = 0 \/ i = 1 \/ i = 2) as [-> | [-> | ->]] by lia;
        [by apply Hbody | by apply (Hbody _ 1 1); rewrite ?Eh, ?Ev ..].
    + reflexivity.
Qed.

Lemma emits_sos : emits (emit_sos pPut_buf p) (sos_segment n) tt.
Proof using Hgeo.
  unfold emit_sos. rewrite (ge_components _ _ _ _ Hgeo).
  assert (n = 1 \/ n = 3) as [-> | ->] by (destruct (ge_sampling _ _ _ _ Hgeo); auto);
    (apply emits_segment; [done..|]); (eapply emits_eq; [eapply emits_bind; [by apply emits_small|]|]).
  1, 3: eapply emits_bind; [|emit_all].
  - apply (emits_for_range 0 1 _ (fun i => [i + 1; if i =? 0 then 0 else 17])).
    intros i Hi. assert (i = 0) as -> by lia. emit_all.
  - apply (emits_for_range 0 3 _ (fun i => [i + 1; if i =? 0 then 0 else 17])).
    intros i Hi. assert (i = 0 \/ i = 1 \/ i = 2) as [-> | [-> | ->]] by lia; emit_all.
  - reflexivity.
  - reflexivity.
Qed.

(** [length]: the sum that the first loop of emit_dht computes. *)
Lemma emits_dht bits val vals length index (ac_flag : bool) :
  (forall o, loop (S := jpge_out) 17 (fun '(i, length) =>
    if i <=? 16
    then b <- access "emit_dht" (zget bits i) ;; ret (inl (i + 1, length + b))
    else ret (inr length)) (1, 0) o = Ok (length, o)) ->
  zlen (tail bits) = 16 -> holds bits 1 (tail bits) -> Forall is_u8 (tail bits) ->
  zlen vals = length -> length < 1000 -> holds val 0 vals -> Forall is_u8 vals -> 0 <= index < 16 ->
  emits (emit_dht pPut_buf bits val index ac_flag)
    (dht_segment (index + if ac_flag then 16 else 0) (tail bits) vals) tt.
Proof.
  intros Hlen H16 Hbits Hbu Hl Hmax Hvals Hvu Hi. unfold emit_dht, dht_segment, segment.
  pose proof (zlen_nonneg vals).
  apply (emits_bind _ _ _ _ tt); [by apply emits_marker|].
  change (word16 ?x ++ ?y) with ([] ++ word16 x ++ y).
  apply (emits_bind _ _ _ _ length).
  { intros o b Hw. unfold wpg. rewrite Hlen, app_nil_r. by split. }
  replace (length + 2 + 1 + 16) with (2 + zlen ((index + if ac_flag then 16 else 0) :: tail bits ++ vals))
    by (rewrite zlen_cons, zlen_app; lia).
  apply (emits_bind _ _ _ _ tt).
  { apply emits_word. unfold is_u16. rewrite zlen_cons, zlen_app. lia. }
  change (?x :: ?y) with ([x] ++ y).
  apply (emits_bind _ _ _ _ tt); [apply emits_small; unfold is_u8; destruct ac_flag; lia|].
  apply (emits_bind _ _ _ _ tt); apply emits_list; (done || lia).
Qed.
End Emit.

(** * The static tables *)

(** The standard Huffman tables, number [k] in the order of the code: bits,
    values, codes and sizes. *)
Definition std_bits : list (list Z) := [s_dc_lum_bits; s_dc_chroma_bits; s_ac_lum_bits; s_ac_chroma_bits].
Definition std_val : list (list Z) :=
  map (fun l => l ++ replicate (256 - length l) 0) [s_dc_lum_val; s_dc_chroma_val; s_ac_lum_val; s_ac_chroma_val].
Definition std_codes : list (list Z * list Z) :=
  zip_with (fun b v => default ([], []) (compute_huffman_table b v)) std_bits std_val.

Definition std_quant (quality : Z) : list (list Z) :=
  map (map (scaled_entry (quality_scale quality))) [s_std_lum_quant; s_std_croma_quant].

(** The static variables between two calls: what is flagged as computed is. *)
Record statics_ok (t : jpge_tables) : Prop := {
  st_quant : m_last_quality t <> 0 ->
    1 <= m_last_quality t <= 100 /\ m_quantization_tables t = std_quant (m_last_quality t);
  st_huff : if m_huff_initialized t
    then m_huff_codes t = map fst std_codes /\ m_huff_code_sizes t = map snd std_codes /\
         m_huff_bits t = std_bits /\ m_huff_val t = std_val
    else m_huff_codes t = m_huff_codes zero_tables /\ m_huff_code_sizes t = m_huff_code_sizes zero_tables /\
         m_huff_bits t = m_huff_bits zero_tables /\ m_huff_val t = m_huff_val zero_tables
}.

(** The tables for [quality]. *)
Record ready (quality : Z) (t : jpge_tables) : Prop := {
  rd_statics : statics_ok t;
  rd_quality : m_last_quality t = quality;
  rd_huff : m_huff_initialized t = true
}.

Lemma Forall_check {A} (P : A -> Prop) (f : A -> bool) l :
  (forall x, f x = true -> P x) -> forallb f l = true -> Forall P l.
Proof.
  intros Hf. induction l as [|x l IH]; cbn; [done|]. intros [Hx Hl]%andb_true_iff.
  constructor; auto.
Qed.

Definition u8b (x : Z) : bool := (0 <=? x) && (x <? 256).
Lemma u8b_spec x : u8b x = true -> is_u8 x.
Proof. unfold u8b, is_u8. rewrite andb_true_iff, Z.leb_le, Z.ltb_lt. done. Qed.

Lemma std_quant_u8 : Forall (fun j => 0 <= j <= 255) s_std_lum_quant /\
  Forall (fun j => 0 <= j <= 255) s_std_croma_quant.
Proof. split; (apply (Forall_check _ u8b); [|reflexivity]); intros x Hx; apply u8b_spec in Hx; unfold is_u8 in Hx; lia. Qed.

Lemma std_quant_ok quality :
  1 <= quality <= 100 -> exists q0 q1, std_quant quality = [q0; q1] /\
    compute_quant_table quality s_std_lum_quant = Some q0 /\
    compute_quant_table quality s_std_croma_quant = Some q1 /\
    zlen q0 = 64 /\ zlen q1 = 64 /\ Forall divisor q0 /\ Forall divisor q1.
Proof.
  intros Hq. destruct std_quant_u8 as [H0 H1].
  destruct (compute_quant_table_spec quality _ Hq H0) as [E0 D0].
  destruct (compute_quant_table_spec quality _ Hq H1) as [E1 D1].
  eexists _, _. split; [reflexivity|]. split; [exact E0|]. split; [exact E1|].
  split; [unfold zlen; by rewrite length_map|]. by split; [unfold zlen; rewrite length_map|].
Qed.

(** The Huffman part of jpg_open on the zeroed tables. *)
Lemma init_huff_all last quant :
  match init_huff (0 + 0) s_dc_lum_bits s_dc_lum_val
          (mkTables last quant true (m_huff_codes zero_tables) (m_huff_code_sizes zero_tables)
             (m_huff_bits zero_tables) (m_huff_val zero_tables)) with
  | Some t =>
      match init_huff (2 + 0) s_ac_lum_bits s_ac_lum_val t with
      | Some t =>
          match init_huff (0 + 1) s_dc_chroma_bits s_dc_chroma_val t with
          | Some t => init_huff (2 + 1) s_ac_chroma_bits s_ac_chroma_val t
          | None => None
          end
      | None => None
      end
  | None => None
  end = Some (mkTables last quant true (map fst std_codes) (map snd std_codes) std_bits std_val).
Proof. vm_compute. reflexivity. Qed.

Lemma ready_intro quality :
  1 <= quality <= 100 ->
  ready quality (mkTables quality (std_quant quality) true (map fst std_codes) (map snd std_codes)
                   std_bits std_val).
Proof.
  intros Hq. constructor; [constructor | reflexivity | reflexivity].
  - intros _. split; [exact Hq | reflexivity].
  - repeat split.
Qed.

Lemma jpg_tables_spec quality t :
  statics_ok t -> 1 <= quality <= 100 -> exists t', jpg_tables quality t = Some t' /\ ready quality t'.
Proof.
  intros [Hq Hh] Hr. exists (mkTables quality (std_quant quality) true (map fst std_codes)
    (map snd std_codes) std_bits std_val). split; [|by apply ready_intro].
  unfold jpg_tables.
  destruct (std_quant_ok quality Hr) as (q0 & q1 & Hstd & E0 & E1 & _).
  destruct t as [last quant ini codes sizes bits vals].
  cbn [m_last_quality m_quantization_tables m_huff_initialized m_huff_codes m_huff_code_sizes
    m_huff_bits m_huff_val] in *.
  set (o := if negb (last =? quality) then _ else _).
  assert (o = Some (mkTables quality (std_quant quality) ini codes sizes bits vals)) as ->.
  { unfold o. destruct (Z.eqb_spec last quality) as [->|Hne]; cbn [negb].
    - destruct Hq as [_ ->]; [lia | reflexivity].
    - rewrite E0, E1, Hstd. reflexivity. }
  cbn [mbind option_bind m_last_quality m_quantization_tables m_huff_initialized m_huff_codes
    m_huff_code_sizes m_huff_bits m_huff_val].
  destruct ini; cbn [negb]; destruct Hh as (-> & -> & -> & ->); [reflexivity|].
  pose proof (init_huff_all quality (std_quant quality)) as Hi.
  destruct (init_huff (0 + 0) _ _ _) as [t1|]; [|discriminate Hi]. cbn [mbind option_bind].
  destruct (init_huff (2 + 0) _ _ _) as [t2|]; [|discriminate Hi]. cbn [mbind option_bind].
  destruct (init_huff (0 + 1) _ _ _) as [t3|]; [|discriminate Hi]. cbn [mbind option_bind].
  exact Hi.
Qed.

(** ** The tables of encoder and decoder *)

Definition chroma (c : Z) : Z := if c =? 0 then 0 else 1.
Definition std_code (k : Z) : list Z * list Z := default ([], []) (zget std_codes k).

Definition std_coder (quality : Z) : coder :=
  mkCoder (fun c => std_code (chroma c)) (fun c => std_code (2 + chroma c))
    (fun c => default [] (zget (std_quant quality) (if 0 <? c then 1 else 0))).

(** The code words that a decoder derives from the DHT segments. *)
Definition std_table (k : Z) : code_table :=
  canonical 1 0 (tail (default [] (zget std_bits k))) (default [] (zget std_val k)).
Definition std_decoder : decoder :=
  mkDecoder (fun c => std_table (chroma c)) (fun c => std_table (2 + chroma c)).

Lemma std_codes_ok k : 0 <= k < 4 -> codes_ok (std_code k).1 (std_code k).2.
Proof.
  intros Hk. apply codes_okb_spec.
  assert (k = 0 \/ k = 1 \/ k = 2 \/ k = 3) as [-> | [-> | [-> | ->]]] by lia; vm_compute; reflexivity.
Qed.

Lemma ready_has_tables quality t :
  1 <= quality <= 100 -> ready quality t -> has_tables t (std_coder quality).
Proof.
  intros Hq [[Hsq Hsh] Hlast Hini]. rewrite Hini in Hsh. destruct Hsh as (Hc & Hs & _ & _).
  destruct Hsq as [_ Hquant]; [lia|]. rewrite Hlast in Hquant.
  destruct (std_quant_ok quality Hq) as (q0 & q1 & Hstd & _ & _ & L0 & L1 & D0 & D1).
  split.
  - intros c. unfold std_coder, chroma. cbn [cr_dc cr_ac].
    split; rewrite ?Hc, ?Hs; destruct (c =? 0); try (apply std_codes_ok; lia); try reflexivity.
  - intros c. unfold std_coder. cbn [cr_q]. rewrite Hquant, Hstd. by destruct (0 <? c).
  - intros c. unfold std_coder. cbn [cr_q]. rewrite Hstd. by destruct (0 <? c).
Qed.

(** Every symbol that may occur has its code word in the table. *)
Definition symbols_in (k : Z) (js : list Z) : bool :=
  prefix_free (std_table k) &&
  forallb (fun j => existsb (fun e => bool_decide (e = (code_word (std_code k).1 (std_code k).2 j, j)))
                      (std_table k)) js.

Lemma symbols_in_spec k js P :
  symbols_in k js = true -> (forall j, P j -> In j js) ->
  decodes (std_table k) (code_word (std_code k).1 (std_code k).2) P.
Proof.
  intros [Hp Ha]%andb_true_iff HP. split; [done|]. intros j Hj.
  rewrite forallb_forall in Ha. specialize (Ha j (HP j Hj)). apply existsb_exists in Ha as (e & Hin & He).
  apply bool_decide_eq_true_1 in He. by subst.
Qed.

Definition dc_symbols : list Z := map Z.of_nat (seq 0 12).
Definition ac_symbols : list Z :=
  0 :: 0xF0 :: concat (map (fun r => map (fun c => 16 * Z.of_nat r + Z.of_nat c) (seq 1 10)) (seq 0 16)).

Lemma dc_symbols_all j : 0 <= j <= 11 -> In j dc_symbols.
Proof. intros Hj. apply in_map_iff. exists (Z.to_nat j). rewrite in_seq. lia. Qed.
Lemma ac_symbols_all j : ac_symbol 10 j -> In j ac_symbols.
Proof.
  intros [-> | [-> | (r & c & Hr & Hc & ->)]]; [by left | right; by left | do 2 right].
  apply in_concat. exists (map (fun c => 16 * Z.of_nat (Z.to_nat r) + Z.of_nat c) (seq 1 10)). split.
  - apply in_map_iff. exists (Z.to_nat r). rewrite in_seq. split; [done | lia].
  - apply in_map_iff. exists (Z.to_nat c). rewrite in_seq. lia.
Qed.

Lemma std_matches quality : matches std_decoder (std_coder quality).
Proof.
  intros c. cbn. split.
  - eapply symbols_in_spec; [|apply dc_symbols_all].
    unfold chroma. destruct (c =? 0); vm_compute; reflexivity.
  - eapply symbols_in_spec; [|apply ac_symbols_all].
    unfold chroma. destruct (c =? 0); vm_compute; reflexivity.
Qed.
