(* ===== verification/JpgeOpenFacts.v ===== *)
(** With a callback that never fails the flag of the encoder stays set; the
    static tables do not change after jpge_init.

    The second part opens the encoder as jpge.h promises. *)

From S2P Require Import Prelude.
From S2P Require Import CMonad.
From S2P Require Import JpgeTypes.
From S2P Require Import JpgeDct.
From S2P Require Import JpgeDctFacts.
From S2P Require Import Jpge.
From S2P Require Import JpgeOutFacts.
From S2P Require Import JpegSpec.
From S2P Require Import JpgeCodeFacts.
From S2P Require Import JpgeScanFacts.
From S2P Require Import JpgeImageFacts.
From S2P Require Import JpgeHeadFacts.

(** Whatever else happens, [P] is kept. *)
Definition maintains {S A} (P : S -> Prop) (m : M S A) : Prop := forall s,
  P s -> wpg (fun _ => True) m (fun _ => P) s.

Section Rules.
Context {S : Type} (P : S -> Prop).

Lemma maintains_ret {A} (a : A) : maintains P (ret a).
Proof. intros s H. exact H. Qed.
Lemma maintains_gets {A} (f : S -> A) : maintains P (gets f).
Proof. intros s H. exact H. Qed.
Lemma maintains_modify f : (forall s, P s -> P (f s)) -> maintains P (modify f).
Proof. intros Hf s H. by apply Hf. Qed.
Lemma maintains_access {A} site (o : option A) : maintains P (access site o).
Proof. intros s H. by destruct o. Qed.
Lemma maintains_bind {A B} (m : M S A) (k : A -> M S B) :
  maintains P m -> (forall a, maintains P (k a)) -> maintains P (bind m k).
Proof. intros Hm Hk s H. apply wpg_bind. eapply wpg_mono; [by apply Hm|]. intros a s'. apply Hk. Qed.
Lemma maintains_loop {A B} fuel (body : A -> M S (A + B)) a :
  (forall a, maintains P (body a)) -> maintains P (loop fuel body a).
Proof.
  intros Hb s H. apply (wpg_loop_partial _ body (fun _ => P)); [done | | done].
  intros a' s' H'. eapply wpg_mono; [by apply Hb|]. by intros [] ?.
Qed.
Lemma maintains_for_range a b body :
  (forall i, maintains P (body i)) -> maintains P (for_range a b body).
Proof.
  intros Hb. apply maintains_loop. intros i. destruct (i <? b); [|apply maintains_ret].
  apply maintains_bind; [apply Hb | intros; apply maintains_ret].
Qed.
End Rules.

Create HintDb maintains.
#[export] Hint Resolve maintains_ret maintains_gets maintains_access : maintains.

(** Takes a computation apart; conditions are split. *)
Ltac maintain_step :=
  lazymatch goal with
  | |- maintains _ (bind _ _) => apply maintains_bind; [|intros ?]
  | |- maintains _ (for_range _ _ _) => apply maintains_for_range; intros ?
  | |- maintains _ (loop _ _ _) => apply maintains_loop; intros ?
  | |- maintains _ (modify _) => apply maintains_modify; intros ? H; first [done | by destruct H; split]
  | |- maintains _ (if ?b then _ else _) => destruct b
  | |- maintains _ (match ?x with _ => _ end) => destruct x
  | |- maintains _ (let '_ := ?x in _) => destruct x
  end.
Ltac maintain := repeat first [solve [eauto 2 with maintains] | maintain_step].

Definition unbroken (o : jpge_out) : Prop := m_all_stream_writes_succeeded o = true.
(** ... and the static tables are those of [t]. *)
Definition kept (t : option jpge_tables) (s : jpeg_encoder) : Prop :=
  unbroken (out s) /\ match t with Some t => tables s = t | None => True end.

Lemma maintains_on_out {A} t (m : M jpge_out A) : maintains unbroken m -> maintains (kept t) (on_out m).
Proof. intros Hm s [H Ht]. apply wpg_on_out. eapply wpg_mono; [by apply Hm|]. by intros a o' ?. Qed.

Section Callback.
Context (pPut_buf : list (option (list Z)) -> option (list Z) -> bool).
Context (Htrue : forall cs d, pPut_buf cs d = true).

Lemma put_buf_and_unbroken d : maintains unbroken (put_buf_and pPut_buf d).
Proof using Htrue.
  unfold put_buf_and. apply maintains_bind; [auto with maintains|]. intros ok. destruct ok; [|auto with maintains].
  apply maintains_bind; [auto with maintains|]. intros cs. rewrite Htrue. maintain.
Qed.
Hint Resolve put_buf_and_unbroken : maintains.

Lemma flush_unbroken : maintains unbroken (flush_output_buffer pPut_buf).
Proof using Htrue. unfold flush_output_buffer. maintain. Qed.
Hint Resolve flush_unbroken : maintains.

Lemma emit_byte_unbroken i : maintains unbroken (emit_byte pPut_buf i).
Proof using Htrue. unfold emit_byte. maintain. Qed.
Hint Resolve emit_byte_unbroken : maintains.

Lemma put_bits_unbroken bits len : maintains unbroken (put_bits pPut_buf bits len).
Proof using Htrue. unfold put_bits, put_bits_body. maintain. Qed.
Hint Resolve put_bits_unbroken maintains_on_out : maintains.

Section Kept.
Context (t : option jpge_tables).
Abbreviation unbroken_out := (kept t).

Lemma put_code_unbroken codes sizes j : maintains unbroken_out (put_code pPut_buf codes sizes j).
Proof using Htrue. unfold put_code. maintain. Qed.
Lemma put_low_unbroken v n : maintains unbroken_out (put_low pPut_buf v n).
Proof using Htrue. unfold put_low. maintain. Qed.
Hint Resolve put_code_unbroken put_low_unbroken : maintains.

Lemma code_block_unbroken c : maintains unbroken_out (code_block pPut_buf c).
Proof using Htrue.
  unfold code_block, load_quantized_coefficients, code_coefficients_pass_two, ac_body, zrl_body. maintain.
Qed.
Hint Resolve code_block_unbroken : maintains.

Lemma process_mcu_row_unbroken : maintains unbroken_out (process_mcu_row pPut_buf).
Proof using Htrue.
  unfold process_mcu_row, load_block_8_8_grey, load_block_8_8, load_block_16_8, load_block_16_8_8,
    mcu_line, store_row. maintain.
Qed.
Hint Resolve process_mcu_row_unbroken : maintains.

Lemma load_mcu_unbroken d : maintains unbroken_out (load_mcu pPut_buf d).
Proof using Htrue. unfold load_mcu, mcu_line, set_line. maintain. Qed.
Hint Resolve load_mcu_unbroken : maintains.

Lemma headers_unbroken : maintains unbroken_out (jpg_headers pPut_buf).
Proof using Htrue.
  unfold jpg_headers. maintain. all: apply maintains_on_out.
  all: unfold emit_marker, emit_jfif_app0, emit_dqt, emit_dqt_body, emit_sof, emit_dhts, emit_dht_of,
    emit_dht, emit_sos, emit_word, emit_marker; maintain.
Qed.
Hint Resolve headers_unbroken : maintains.

Lemma end_unbroken : maintains unbroken_out (process_end_of_image pPut_buf).
Proof using Htrue.
  unfold process_end_of_image, repeat_line, mcu_line, set_line. maintain.
  all: apply maintains_on_out; unfold emit_marker; maintain.
Qed.
Hint Resolve end_unbroken : maintains.

Lemma scanline_unbroken d : maintains unbroken_out (jpge_process_scanline pPut_buf d).
Proof using Htrue. unfold jpge_process_scanline. maintain. Qed.

End Kept.
Hint Resolve headers_unbroken : maintains.

Lemma jpg_open_unbroken malloc w h c : maintains (kept None) (jpg_open pPut_buf malloc w h c).
Proof using Htrue. unfold jpg_open. maintain. all: apply maintains_on_out; maintain. Qed.

(** jpge_init sets the flag. *)
Lemma jpge_init_unbroken malloc null w h c q sub s :
  wpg (fun _ => True) (jpge_init pPut_buf malloc null w h c q sub) (fun _ => kept None) s.
Proof using Htrue.
  unfold jpge_init. wp_steps. apply wpg_on_out. wp_steps.
  set (b := _ || (H2V2 <? sub)). destruct b; [by wp_steps|]. wp_steps.
  by apply jpg_open_unbroken.
Qed.
End Callback.

(** jpge_init and jpge_process_scanline: opening an image, its scanlines and
    its end. *)

(** * Geometry *)

(** Components and sampling factors of a subsampling mode. *)
Definition sampling_of (sub : Z) : Z * Z * Z :=
  if sub =? Y_ONLY then (1, 1, 1)
  else if sub =? H1V1 then (3, 1, 1)
  else if sub =? H2V1 then (3, 2, 1) else (3, 2, 2).

Lemma mcu_round_spec x k :
  0 <= k <= 4 -> 0 <= x < 1000000 -> mcu_round x (2 ^ k) = Some ((x + 2 ^ k - 1) / 2 ^ k * 2 ^ k).
Proof.
  intros Hk Hx. unfold mcu_round.
  assert (1 <= 2 ^ k <= 16) by (split; [apply (Z.pow_le_mono_r 2 0) | apply (Z.pow_le_mono_r 2 k 4)]; lia).
  rewrite int32_small by lia. cbn [mbind option_bind]. f_equal.
  rewrite <- Z.ldiff_land. replace (2 ^ k - 1) with (Z.ones k) by (rewrite Z.ones_equiv; lia).
  rewrite Z.ldiff_ones_r, Z.shiftr_div_pow2, Z.shiftl_mul_pow2 by lia. f_equal.
Qed.

(** The image has a size that fits the frame header. *)
Definition size_ok (x y : Z) : Prop := 1 <= x <= 65535 /\ 1 <= y <= 65535.

Lemma jpg_geometry_spec p x y ch n h v :
  zlen (m_comp_h_samp p) = 3 -> zlen (m_comp_v_samp p) = 3 -> 0 <= m_subsampling p <= H2V2 ->
  sampling_of (m_subsampling p) = (n, h, v) -> size_ok x y -> 1 <= ch <= 4 ->
  exists p', jpg_geometry p x y ch = Some p' /\ geometry p' n h v /\
    m_quality p' = m_quality p /\ m_image_x p' = x /\ m_image_y p' = y /\ m_image_bpp p' = ch /\
    0 <= m_image_bpl_mcu p' * m_mcu_y p' < 2147483648 /\
    m_mcus_per_row p' = (x + 8 * h - 1) / (8 * h) /\
    zlen (m_comp_h_samp p') = 3 /\ zlen (m_comp_v_samp p') = 3.
Proof.
  intros Hh Hv Hsub Hs [Hx Hy] Hch. unfold jpg_geometry.
  assert (exists hs vs, jpg_sampling p = (n, hs, vs, 8 * h, 8 * v) /\ sampling n h v /\
    zget hs 0 = Some h /\ zget vs 0 = Some v /\ (n = 3 -> hs = [h; 1; 1] /\ vs = [v; 1; 1]) /\
    zlen hs = 3 /\ zlen vs = 3) as (hs & vs & -> & Hsm & Eh & Ev & Ec & Lh & Lv).
  { unfold sampling_of in Hs. unfold jpg_sampling, Y_ONLY, H1V1, H2V1, H2V2 in *.
    assert (m_subsampling p = 0 \/ m_subsampling p = 1 \/ m_subsampling p = 2 \/ m_subsampling p = 3)
      as [E | [E | [E | E]]] by lia; rewrite E in *; injection Hs as <- <- <-; cbn [Z.eqb Pos.eqb];
      eexists _, _; (split; [reflexivity|]); (split; [constructor|]); try (by repeat split).
    rewrite !zlen_insert. split; [|split; [|done]]; (destruct (m_comp_h_samp p), (m_comp_v_samp p); done). }
  assert (exists k l, 8 * h = 2 ^ k /\ 8 * v = 2 ^ l /\ 0 <= k <= 4 /\ 0 <= l <= 4) as (k & l & Ek & El & Hk & Hl).
  { destruct Hsm; [exists 3, 3 | exists 3, 3 | exists 4, 3 | exists 4, 4]; lia. }
  assert (1 <= n <= 3 /\ (8 <= 8 * h <= 16) /\ (8 <= 8 * v <= 16)) as (Hn & H8h & H8v) by (destruct Hsm; lia).
  rewrite Ek, El, int32_small by nia. cbn [mbind option_bind].
  rewrite !mcu_round_spec by lia. cbn [mbind option_bind]. rewrite <- Ek, <- El.
  set (q := (x + 8 * h - 1) / (8 * h)).
  assert (x <= q * (8 * h) <= x + 15) as Hq.
  { unfold q. pose proof (Z.div_mod (x + 8 * h - 1) (8 * h) ltac:(lia)).
    pose proof (Z.mod_pos_bound (x + 8 * h - 1) (8 * h) ltac:(lia)). lia. }
  rewrite int32_small by nia. cbn [mbind option_bind]. rewrite int32_small by nia. cbn [mbind option_bind].
  eexists. split; [reflexivity|].
  assert (0 <= q * (8 * h) * n * (8 * v) <= 65550 * 3 * 16) as Hsize.
  { assert (0 <= q * (8 * h) * n <= 65550 * 3) by nia. nia. }
  assert (Z.quot (q * (8 * h)) (8 * h) = q) as Hquot by (apply Z.quot_mul; lia).
  split.
  - split; cbn [m_image_x m_mcu_y m_mcus_per_row m_num_components m_comp_h_samp m_comp_v_samp
      m_image_x_mcu m_image_bpl_xlt m_image_bpl_mcu]; rewrite ?Hquot; try done; lia.
  - repeat split; cbn [m_image_bpl_mcu m_mcu_y m_mcus_per_row m_comp_h_samp m_comp_v_samp]; rewrite ?Hquot; try done; lia.
Qed.

(** * Opening *)

(** What an encoder needs before jpge_init: the sizes of its arrays and the
    invariant of the static tables; the rest is arbitrary. *)
Record encoder_ok (s : jpeg_encoder) : Prop := {
  en_statics : statics_ok (tables s);
  en_h : zlen (m_comp_h_samp (prm s)) = 3;
  en_v : zlen (m_comp_v_samp (prm s)) = 3;
  en_samples : zlen (m_sample_array s) = 64;
  en_buf : zlen (m_out_buf (out s)) = JPGE_OUT_BUF_SIZE
}.

(** malloc returns blocks of the size asked for. *)
Definition malloc_ok (malloc : Z -> option (list Z)) : Prop :=
  forall n b, 0 <= n -> malloc n = Some b -> zlen b = n /\ Forall is_u8 b.

(** The bytes that the callback was given before. *)
Definition given (s : jpeg_encoder) : list Z := concat (omap id (calls (out s))).

(** The lines of the allocated block. *)
Lemma block_lines p n h v block :
  geometry p n h v -> zlen block = m_image_bpl_mcu p * m_mcu_y p -> Forall is_u8 block ->
  row_ok p (map (fun i => zsub block (Z.of_nat i * m_image_bpl_mcu p) (m_image_bpl_mcu p))
    (seq 0 (Z.to_nat (m_mcu_y p)))).
Proof.
  intros Hg Hl Hu. pose proof (geometry_mcu_y _ _ _ _ Hg) as Hm.
  assert (0 <= m_image_bpl_mcu p).
  { rewrite (ge_bpl_mcu _ _ _ _ Hg). pose proof (ge_x _ _ _ _ Hg). destruct (ge_sampling _ _ _ _ Hg); lia. }
  split; [unfold zlen; rewrite length_map, length_seq; lia|].
  apply Forall_forall. intros l (i & -> & Hi)%list_elem_of_fmap. apply list_elem_of_In, in_seq in Hi.
  split; [apply zlen_zsub; nia|]. by apply Forall_take, Forall_drop.
Qed.

Section Open.
Context (pPut_buf : list (option (list Z)) -> option (list Z) -> bool).
Context (E : failure -> Prop).

(** Rewrites with an emission inside of a longer computation. *)
Lemma wpg_emits {A B} (m : M jpge_out A) (k : A -> M jpge_out B) bs a b o (Q : B -> jpge_out -> Prop) :
  emits E m bs a -> written o b ->
  (forall o', written o' (b ++ bs) -> same_bits o o' -> wpg E (k a) Q o') ->
  wpg E (bind m k) Q o.
Proof.
  intros Hm Hw HQ. wp_step. eapply wpg_mono; [by apply Hm|]. intros a' o' (-> & Hw' & Hb). by apply HQ.
Qed.

(** The table number [k] of the standard ones. *)
Lemma emits_dht_std t quality k index (ac_flag : bool) bits val :
  ready quality t -> zget std_bits k = Some bits -> zget std_val k = Some val -> 0 <= index < 2 ->
  emits E (emit_dht_of pPut_buf t k index ac_flag)
    (std_dht (index + if ac_flag then 16 else 0) bits val) tt.
Proof.
  intros [[_ Hh] _ Hini] Hb Hv Hi. rewrite Hini in Hh. destruct Hh as (_ & _ & Eb & Ev).
  unfold emit_dht_of. rewrite Eb, Ev, Hb, Hv.
  change (std_dht ?i ?b ?v) with ([] ++ [] ++ std_dht i b v).
  apply (emits_bind _ _ _ _ _ bits); [by apply emits_access|].
  apply (emits_bind _ _ _ _ _ val); [by apply emits_access|].
  assert (In k [0; 1; 2; 3]) as Hk.
  { pose proof (zget_Some_range _ _ _ Hb) as Hr. change (zlen std_bits) with 4 in Hr. cbn. lia. }
  assert (forall l : list Z, forallb u8b l = true -> Forall is_u8 l) as Hu8
    by (intros l; apply Forall_check, u8b_spec).
  unfold std_dht, std_vals.
  destruct Hk as [<- | [<- | [<- | [<- | []]]]]; injection Hb as <-; injection Hv as <-;
    (eapply emits_dht; [intros o; cbv; reflexivity | reflexivity | cbv; tauto | by apply Hu8 | vm_compute; reflexivity
      | reflexivity | cbv; tauto | by apply Hu8 | lia]).
Qed.

Lemma emits_dhts t quality p n h v :
  geometry p n h v -> ready quality t ->
  emits E (emit_dhts pPut_buf p t)
    (std_dht 0 s_dc_lum_bits s_dc_lum_val ++ std_dht 16 s_ac_lum_bits s_ac_lum_val ++
     if n =? 3
     then std_dht 1 s_dc_chroma_bits s_dc_chroma_val ++ std_dht 17 s_ac_chroma_bits s_ac_chroma_val
     else []) tt.
Proof.
  intros Hg Ht. unfold emit_dhts. rewrite (ge_components _ _ _ _ Hg).
  assert (forall k index (ac : bool) id bits val,
    match zget std_bits k, zget std_val k with
    | Some b, Some w => std_dht id bits val = std_dht (index + if ac then 16 else 0) b w
    | _, _ => False
    end -> 0 <= index < 2 -> emits E (emit_dht_of pPut_buf t k index ac) (std_dht id bits val) tt) as Hdht.
  { intros k index ac id bits val Heq Hi.
    destruct (zget std_bits k) as [b|] eqn:Eb; [|done]. destruct (zget std_val k) as [w|] eqn:Ew; [|done].
    rewrite Heq. by apply (emits_dht_std t quality). }
  apply (emits_bind _ _ _ _ _ tt); [apply Hdht; [vm_compute; reflexivity | lia]|].
  apply (emits_bind _ _ _ _ _ tt); [apply Hdht; [vm_compute; reflexivity | lia]|].
  destruct (n =? 3); [|apply emits_ret].
  apply (emits_bind _ _ _ _ _ tt); (apply Hdht; [vm_compute; reflexivity | lia]).
Qed.

Lemma emits_headers t quality p n h v x y q0 q1 :
  geometry p n h v -> m_image_x p = x -> m_image_y p = y -> size_ok x y ->
  1 <= quality <= 100 -> ready quality t -> std_quant quality = [q0; q1] ->
  emits E (emit_marker pPut_buf M_SOI ;; emit_jfif_app0 pPut_buf ;;
    emit_dqt pPut_buf p (m_quantization_tables t) ;; emit_sof pPut_buf p ;;
    emit_dhts pPut_buf p t ;; emit_sos pPut_buf p) (jpeg_headers q0 q1 x y n h v) tt.
Proof.
  intros Hg <- <- [Hx Hy] Hq Ht Hstd.
  destruct (std_quant_ok quality Hq) as (q0' & q1' & Hstd' & _ & _ & L0 & L1 & D0 & D1).
  rewrite Hstd in Hstd'. injection Hstd' as <- <-.
  assert (m_quantization_tables t = [q0; q1]) as Hquant.
  { destruct Ht as [[Hs _] Hl _]. rewrite Hl in Hs. destruct Hs as [_ Hs]; [lia|]. by rewrite Hs. }
  assert (forall l r s' : list Z, (l ++ r) ++ s' = l ++ r ++ s') as Happ by (intros; by rewrite app_assoc).
  eapply emits_eq.
  - eapply (emits_bind _ _ _ _ _ tt); [by eapply emits_marker|].
    eapply (emits_bind _ _ _ _ _ tt); [eapply emits_app0|].
    eapply (emits_bind _ _ _ _ _ tt); [by eapply (emits_dqt _ _ _ _ _ _ Hg _ _ _ Hquant)|].
    eapply (emits_bind _ _ _ _ _ tt); [eapply (emits_sof _ _ _ _ _ _ Hg); unfold is_u16; lia|].
    eapply (emits_bind _ _ _ _ _ tt); [by eapply (emits_dhts t quality _ _ _ _ Hg) | eapply (emits_sos _ _ _ _ _ _ Hg)].
  - unfold jpeg_headers. by rewrite !Happ.
Qed.

(** ** jpge_init *)

Context (malloc : Z -> option (list Z)) (Hmalloc : malloc_ok malloc).

Definition std_headers (quality x y n h v : Z) : list Z :=
  jpeg_headers (default [] (zget (std_quant quality) 0)) (default [] (zget (std_quant quality) 1)) x y n h v.

(** The parameters of an image. *)
Record image_params (width height channels n h v : Z) (p : jpge_params) : Prop := {
  ip_geometry : geometry p n h v;
  ip_x : m_image_x p = width;
  ip_y : m_image_y p = height;
  ip_bpp : m_image_bpp p = channels;
  ip_mcus : m_mcus_per_row p = (width + 8 * h - 1) / (8 * h);
  ip_samp : zlen (m_comp_h_samp p) = 3 /\ zlen (m_comp_v_samp p) = 3
}.

(** jpg_open on a valid image: without memory it fails before anything is
    written; else the headers have been written and the scan can start. *)
Lemma wpg_jpg_open s width height channels quality n h v img (Q : bool -> jpeg_encoder -> Prop) :
  encoder_ok s -> m_quality (prm s) = quality -> 1 <= quality <= 100 ->
  0 <= m_subsampling (prm s) <= H2V2 -> sampling_of (m_subsampling (prm s)) = (n, h, v) ->
  size_ok width height -> 1 <= channels <= 4 ->
  (forall p, image_params width height channels n h v p ->
     malloc (m_image_bpl_mcu p * m_mcu_y p) = None -> Q false (set_mcu_lines None (set_prm p s))) ->
  (forall p s', image_params width height channels n h v p ->
     imaging (std_coder quality) (given s ++ std_headers quality width height n h v) p n h v img 0 s' ->
     ready quality (tables s') -> Q (m_all_stream_writes_succeeded (out s')) s') ->
  wpg E (jpg_open pPut_buf malloc width height channels) Q s.
Proof using Hmalloc.
  intros [Hst Hh Hv Ha Hbuf] Hqual Hq Hsub Hsamp Hsize Hch Hfail HQ.
  destruct (jpg_geometry_spec (prm s) width height channels n h v) as
    (p & Hp & Hg & Hpq & Hx & Hy & Hbpp & Hmem & Hmcus & Hhs & Hvs); [done..|].
  assert (image_params width height channels n h v p) as Hip by by split.
  unfold jpg_open. wp_steps. rewrite Hp. wp_steps. rewrite int32_small by lia. wp_steps.
  destruct (malloc _) as [block|] eqn:Em; [|wp_steps; by apply (Hfail p)].
  destruct (Hmalloc (m_image_bpl_mcu p * m_mcu_y p) block ltac:(lia) Em) as [Hbl Hbu].
  wp_steps. cbn [tables set_mcu_lines set_prm]. rewrite Hpq, Hqual.
  destruct (jpg_tables_spec quality (tables s) Hst Hq) as (t & Ht & Hready). rewrite Ht. wp_steps.
  apply wpg_on_out. wp_steps. unfold jpg_headers. wp_steps.
  cbn [prm tables set_mcu_lines set_prm set_tables set_out set_mcu_y_ofs set_pass_num set_last_dc_val].
  apply wpg_on_out. cbn [out set_mcu_lines set_prm set_tables set_out set_mcu_y_ofs set_pass_num set_last_dc_val].
  destruct (std_quant_ok quality Hq) as (q0 & q1 & Hstd & _).
  set (o := mkOut _ _ _ _ _ _ _).
  assert (written o (given s)) as Hw.
  { split; unfold o; cbn; [done | unfold JPGE_OUT_BUF_SIZE; lia | done|].
    intros _. unfold stream. cbn. by rewrite app_nil_r. }
  eapply wpg_mono.
  { by apply (emits_headers t quality p n h v width height q0 q1). }
  cbn beta. intros _ o' (_ & Hw' & Hb1 & Hb2). wp_steps. cbn [out set_out].
  refine (HQ p (set_out o' _) Hip _ _); [|exact Hready].
  assert (0 mod m_mcu_y p = 0 /\ 0 / m_mcu_y p = 0) as [E0 E0'] by (by rewrite Z.mod_0_l, Z.div_0_l by
    (destruct (geometry_mcu_y _ _ _ _ Hg); lia)).
  split; cbn [prm tables m_pass_num m_mcu_y_ofs m_mcu_lines m_sample_array m_last_dc_val out
    set_mcu_lines set_prm set_tables set_out set_mcu_y_ofs set_pass_num set_last_dc_val];
    rewrite ?E0, ?E0'; try done.
  - by apply ready_has_tables.
  - eexists. split; [reflexivity|]. split; [by apply (block_lines p n h v)|]. lia.
  - unfold std_headers. rewrite Hstd. cbn [from_option id zget]. 
    split; cbn; [by rewrite app_nil_r | by rewrite Hb2 | by rewrite Hb1 | by rewrite Hb1].
Qed.

(** The tests of jpge_init; [sub] below the enumeration passes them. *)
Definition init_args_ok (width height channels quality sub : Z) : bool :=
  (1 <=? width) && (1 <=? height) && ((channels =? 1) || (channels =? 3) || (channels =? 4)) &&
  (1 <=? quality) && (quality <=? 100) && (sub <=? H2V2).

Lemma wpg_jpge_init s width height channels quality sub n h v img (Q : bool -> jpeg_encoder -> Prop) :
  encoder_ok s -> init_args_ok width height channels quality sub = true -> 0 <= sub ->
  width <= 65535 -> height <= 65535 -> sampling_of sub = (n, h, v) ->
  (forall k s', malloc k = None -> m_pass_num s' = 0 -> m_mcu_lines s' = None -> encoder_ok s' ->
     calls (out s') = calls (out s) -> Q false s') ->
  (forall p s', image_params width height channels n h v p ->
     imaging (std_coder quality) (given s ++ std_headers quality width height n h v) p n h v img 0 s' ->
     ready quality (tables s') -> Q (m_all_stream_writes_succeeded (out s')) s') ->
  wpg E (jpge_init pPut_buf malloc false width height channels quality sub) Q s.
Proof using Hmalloc.
  intros Hok Hargs Hsub Hw Hh Hsamp Hfail HQ. unfold jpge_init. wp_steps. apply wpg_on_out. wp_steps.
  unfold init_args_ok, H2V2 in *.
  assert (((false || (width <? 1) || (height <? 1)) ||
    (negb (channels =? 1) && negb (channels =? 3) && negb (channels =? 4)) ||
    (quality <? 1) || (100 <? quality) || (3 <? sub)) = false) as -> by lia.
  wp_steps. cbn [prm out set_mcu_lines set_pass_num set_out].
  pose proof Hok as [Hst H1 H2 H3 H4].
  set (s0 := set_prm _ _).
  assert (encoder_ok s0) as Hok0 by by split.
  apply (wpg_jpg_open s0 width height channels quality n h v img); try done; try lia.
  - cbn. unfold H2V2. lia.
  - unfold size_ok. lia.
  - intros p [_ _ _ _ _ [? ?]] Hnone. by apply (Hfail _ _ Hnone).
Qed.
End Open.

(** * Scanlines *)

Section Scanlines.
Context (pPut_buf : list (option (list Z)) -> option (list Z) -> bool).
Context (E : failure -> Prop) (cr : coder) (pre : list Z).
Context (p : jpge_params) (n h v : Z) (Hgeo : geometry p n h v).
Context (img : list (list Z)) (Himg : image_ok p img).
Abbreviation imaging := (imaging cr pre p n h v img).

(** A scanline is taken unless a write has failed; the result tells whether
    one has. *)
Lemma wpg_scanline y d s :
  imaging y s -> 0 <= y -> zget img y = Some d ->
  wpg E (jpge_process_scanline pPut_buf (Some d)) (fun r s' =>
    r = m_all_stream_writes_succeeded (out s') /\
    if m_all_stream_writes_succeeded (out s) then imaging (y + 1) s' else s' = s) s.
Proof using Hgeo Himg.
  intros Hs Hy Hd. unfold jpge_process_scanline. wp_steps. rewrite (im_pass _ _ _ _ _ _ _ _ _ Hs).
  cbn [Z.ltb Z.compare Pos.compare Pos.compare_cont orb]. wp_steps.
  destruct (m_all_stream_writes_succeeded (out s)) eqn:Hok; [|wp_steps; by rewrite Hok].
  wp_step. eapply wpg_mono; [by eapply (wpg_load_mcu pPut_buf E cr pre p n h v Hgeo img Himg y d s)|].
  intros [] s' Hs'. wp_steps. by split.
Qed.

(** The end of the image. *)
Lemma wpg_finish_image s :
  imaging (zlen img) s -> m_all_stream_writes_succeeded (out s) = true ->
  wpg E (jpge_process_scanline pPut_buf None) (fun r s' =>
    r = m_all_stream_writes_succeeded (out s') /\ m_pass_num s' = 3 /\
    complete (out s') (pre ++ tail_bytes (scan_bits cr first_dc
      (image_blocks cr p n h v img (row_count p img))))) s.
Proof using Hgeo Himg.
  intros Hs Hok. unfold jpge_process_scanline. wp_steps. rewrite (im_pass _ _ _ _ _ _ _ _ _ Hs).
  cbn [Z.ltb Z.compare Pos.compare Pos.compare_cont orb]. wp_steps. rewrite Hok.
  wp_step. eapply wpg_mono; [by apply (wpg_process_end_of_image pPut_buf E cr pre p n h v Hgeo img Himg)|].
  intros r s' (-> & H3 & Hc). cbn [negb]. wp_steps. by split.
Qed.
End Scanlines.

(** After the end of an image, or when jpge_init has failed, scanlines are
    refused. *)
Lemma scanline_refused pPut_buf l s :
  m_pass_num s < 1 \/ 2 < m_pass_num s -> jpge_process_scanline pPut_buf l s = Ok (false, s).
Proof.
  intros Hn. unfold jpge_process_scanline, bind, gets.
  assert ((m_pass_num s <? 1) || (2 <? m_pass_num s) = true) as -> by lia. done.
Qed.
