(* ===== verification/JpegFile.v ===== *)
(** A reference decoder for baseline JPEG files (ITU T.81, annexes B and F): the
    marker segments, the entropy-coded data, and the quantized coefficients of
    the blocks.  It knows nothing of the encoder. *)

From S2P Require Import Prelude.
From S2P Require Import JpgeOutFacts.
From S2P Require Import JpegSpec.
From S2P Require Import JpgeScanFacts.

(** * Tables and frame *)

Record frame_component : Type := mkComponent {
  fc_id : Z;
  fc_h : Z;
  fc_v : Z;
  fc_tq : Z
}.

Record frame : Type := mkFrame {
  fr_y : Z;
  fr_x : Z;
  fr_components : list frame_component
}.

(** What the segments have defined so far; later definitions come first. *)
Record jpeg_state : Type := mkState {
  js_quant : list (Z * list Z);
  js_huff : list (Z * code_table);
  js_frame : option frame
}.

Fixpoint assoc {A} (k : Z) (l : list (Z * A)) : option A :=
  match l with
  | [] => None
  | (k', a) :: l => if k =? k' then Some a else assoc k l
  end.

(** * Segments *)

(** One component of a frame header (B.2.2). *)
Fixpoint parse_components (n : nat) (l : list Z) : option (list frame_component) :=
  match n, l with
  | O, [] => Some []
  | S n, id :: hv :: tq :: l =>
      match parse_components n l with
      | Some cs => Some (mkComponent id (hv / 16) (hv mod 16) tq :: cs)
      | None => None
      end
  | _, _ => None
  end.

Definition parse_frame (l : list Z) : option frame :=
  match l with
  | 8 :: y1 :: y0 :: x1 :: x0 :: n :: l =>
      match parse_components (Z.to_nat n) l with
      | Some cs => Some (mkFrame (256 * y1 + y0) (256 * x1 + x0) cs)
      | None => None
      end
  | _ => None
  end.

(** One table of 8-bit elements (B.2.4.1). *)
Definition parse_quant (l : list Z) : option (Z * list Z) :=
  match l with
  | pq_tq :: q => if (pq_tq <? 16) && (zlen q =? 64) then Some (pq_tq, q) else None
  | [] => None
  end.

(** One Huffman table (B.2.4.2): class and number, 16 counts, the symbols. *)
Definition parse_huff (l : list Z) : option (Z * code_table) :=
  match l with
  | tc_th :: l =>
      let bits := take 16 l in
      let vals := drop 16 l in
      if (zlen bits =? 16) && (zlen vals =? foldr Z.add 0 bits)
      then Some (tc_th, canonical 1 0 bits vals) else None
  | [] => None
  end.

(** The components of a scan with the numbers of their DC and AC tables
    (B.2.3). *)
Fixpoint parse_selectors (n : nat) (l : list Z) : option (list (Z * Z * Z)) :=
  match n, l with
  | O, [0; 63; 0] => Some []
  | S n, id :: t :: l =>
      match parse_selectors n l with
      | Some s => Some ((id, t / 16, t mod 16) :: s)
      | None => None
      end
  | _, _ => None
  end.

Definition parse_scan (l : list Z) : option (list (Z * Z * Z)) :=
  match l with
  | n :: l => parse_selectors (Z.to_nat n) l
  | [] => None
  end.

(** A segment other than SOS. *)
Definition apply_segment (marker : Z) (payload : list Z) (st : jpeg_state) : option jpeg_state :=
  if marker =? 0xDB then
    match parse_quant payload with
    | Some q => Some (mkState (q :: js_quant st) (js_huff st) (js_frame st))
    | None => None
    end
  else if marker =? 0xC4 then
    match parse_huff payload with
    | Some t => Some (mkState (js_quant st) (t :: js_huff st) (js_frame st))
    | None => None
    end
  else if marker =? 0xC0 then
    match parse_frame payload with
    | Some f => Some (mkState (js_quant st) (js_huff st) (Some f))
    | None => None
    end
  else if (0xE0 <=? marker) && (marker <=? 0xEF) then Some st
  else None.

(** The next segment: marker, payload, and what follows. *)
Definition next_segment (l : list Z) : option (Z * list Z * list Z) :=
  match l with
  | 0xFF :: m :: hi :: lo :: l =>
      let len := 256 * hi + lo - 2 in
      if (0 <=? len) && (len <=? zlen l)
      then Some (m, take (Z.to_nat len) l, drop (Z.to_nat len) l) else None
  | _ => None
  end.

(** The segments up to and with SOS; the fuel bounds their number. *)
Fixpoint parse_segments (fuel : nat) (st : jpeg_state) (l : list Z)
    : option (jpeg_state * list (Z * Z * Z) * list Z) :=
  match fuel with
  | O => None
  | S fuel =>
      match next_segment l with
      | None => None
      | Some (m, payload, rest) =>
          if m =? 0xDA then
            match parse_scan payload with
            | Some s => Some (st, s, rest)
            | None => None
            end
          else
            match apply_segment m payload st with
            | Some st => parse_segments fuel st rest
            | None => None
            end
      end
  end.

(** * Entropy-coded data *)

(** The bytes up to the next marker, without the stuffed zeros, and the rest. *)
Fixpoint unstuff (l : list Z) : list Z * list Z :=
  match l with
  | 0xFF :: 0 :: l => let '(d, r) := unstuff l in (0xFF :: d, r)
  | 0xFF :: _ => ([], l)
  | c :: l => let '(d, r) := unstuff l in (c :: d, r)
  | [] => ([], [])
  end.

Definition bits_of_bytes (l : list Z) : list bool := concat (map (bits_of 8) l).

(** The components of the blocks of an MCU, in order. *)
Definition mcu_order (cs : list frame_component) : list Z :=
  concat (imap (fun i c => replicate (Z.to_nat (fc_h c * fc_v c)) (Z.of_nat i)) cs).

Definition ceil_div (a b : Z) : Z := (a + b - 1) / b.
Definition max_of (f : frame_component -> Z) (cs : list frame_component) : Z :=
  foldr (fun c m => Z.max (f c) m) 1 cs.

(** The number of MCUs (A.2). *)
Definition mcu_count (f : frame) : Z :=
  ceil_div (fr_x f) (8 * max_of fc_h (fr_components f)) *
  ceil_div (fr_y f) (8 * max_of fc_v (fr_components f)).

Definition table_for (st : jpeg_state) (k : Z) : code_table := default [] (assoc k (js_huff st)).

(** The tables that the scan header selects for component number [c]. *)
Definition scan_decoder (st : jpeg_state) (s : list (Z * Z * Z)) : decoder :=
  mkDecoder
    (fun c => match zget s c with Some (_, d, _) => table_for st d | None => [] end)
    (fun c => match zget s c with Some (_, _, a) => table_for st (16 + a) | None => [] end).

(** * Files *)

(** Size, quantization tables of the components, and the blocks in the order
    of the scan: component and quantized coefficients. *)
Record jpeg_image : Type := mkImage {
  ji_width : Z;
  ji_height : Z;
  ji_quant : list (list Z);
  ji_blocks : list (Z * list Z)
}.

Definition decode_jpeg (l : list Z) : option jpeg_image :=
  match l with
  | 0xFF :: 0xD8 :: l =>
      match parse_segments 64 (mkState [] [] None) l with
      | Some (st, s, rest) =>
          match js_frame st with
          | None => None
          | Some f =>
              let '(d, trailer) := unstuff rest in
              let order := concat (replicate (Z.to_nat (mcu_count f)) (mcu_order (fr_components f))) in
              match decode_scan (scan_decoder st s) [0; 0; 0] order (bits_of_bytes d) with
              | Some (bl, padding) =>
                  if forallb id padding && (zlen padding <? 8) && bool_decide (trailer = [0xFF; 0xD9])
                  then Some (mkImage (fr_x f) (fr_y f)
                         (map (fun c => default [] (assoc (fc_tq c) (js_quant st))) (fr_components f))
                         (zip order bl))
                  else None
              | None => None
              end
          end
      | None => None
      end
  | _ => None
  end.
