(* ===== verification/JpgeFileFacts.v ===== *)
(** The file that the encoder writes is decoded by the reference decoder to the
    blocks of the image. *)

From S2P Require Import Prelude.
From S2P Require Import CMonad.
From S2P Require Import JpgeTypes.
From S2P Require Import JpgeDct.
From S2P Require Import JpgeDctFacts.
From S2P Require Import Jpge.
From S2P Require Import JpgeOutFacts.
From S2P Require Import JpegSpec.
From S2P Require Import JpgeCodeFacts.
From S2P Require Import JpgeScanFacts.
From S2P Require Import JpgeImageFacts.
From S2P Require Import JpgeHeadFacts.
From S2P Require Import JpgeOpenFacts.
From S2P Require Import JpegFile.

(** * Entropy-coded data *)


Lemma bits_of_bytes_value b7 b6 b5 b4 b3 b2 b1 b0 :
  bits_of 8 (bits_value [b7; b6; b5; b4; b3; b2; b1; b0]) = [b7; b6; b5; b4; b3; b2; b1; b0].
Proof. by destruct b7, b6, b5, b4, b3, b2, b1, b0. Qed.

Lemma pack_bits l : bits_of_bytes (pack l).1 ++ (pack l).2 = l.
Proof.
  induction l as [l Hl | a b c d e f g h l IH] using list_ind8.
  - by rewrite pack_short.
  - cbn [pack]. destruct (pack l) as [q r] eqn:Hp. cbn [fst snd] in *.
    unfold bits_of_bytes in *. cbn [map concat]. rewrite bits_of_bytes_value, <- app_assoc, IH. done.
Qed.

(** The decoder sees the bits and fewer than eight ones behind them. *)
Lemma padded_bits bits :
  exists k, (k < 8)%nat /\ bits_of_bytes (pack (bits ++ replicate 7 true)).1 = bits ++ replicate k true.
Proof.
  pose proof (pack_bits (bits ++ replicate 7 true)) as H. pose proof (pack_rest (bits ++ replicate 7 true)) as Hr.
  set (r := (pack _).2) in *. set (q := bits_of_bytes _) in *. clearbody q r.
  unfold zlen in Hr. exists (7 - length r)%nat. split; [lia|].
  assert (length r <= 7)%nat by lia.
  assert (q ++ r = (bits ++ replicate (7 - length r) true) ++ replicate (length r) true) as H'.
  { rewrite H, <- app_assoc, <- replicate_add. do 2 f_equal. lia. }
  apply app_inj_2 in H'; [tauto|]. by rewrite length_replicate.
Qed.

Lemma unstuff_plain c l : c <> 0xFF -> unstuff (c :: l) = let '(d, r) := unstuff l in (c :: d, r).
Proof.
  intros Hc. cbn [unstuff]. destruct c as [|p|p]; [done| |done].
  do 8 (destruct p as [p|p|]; try done). 
Qed.

Lemma unstuff_stuff d t : unstuff (stuff d ++ 0xFF :: M_EOI :: t) = (d, 0xFF :: M_EOI :: t).
Proof.
  induction d as [|c d IH]; [done|]. unfold stuff in *. cbn [map concat]. rewrite <- app_assoc.
  destruct (Z.eqb_spec c 0xFF) as [->|Hne].
  - cbn [app unstuff]. by rewrite IH.
  - cbn [app]. by rewrite unstuff_plain, IH.
Qed.

(** * Segments *)

Lemma word16_value x : is_u16 x -> 256 * (x / 256) + x mod 256 = x.
Proof. intros Hx. pose proof (Z.div_mod x 256 ltac:(lia)). lia. Qed.

Lemma next_segment_spec m payload rest :
  zlen payload <= 65533 -> next_segment (segment m payload ++ rest) = Some (m, payload, rest).
Proof.
  intros Hl. unfold segment, word16. rewrite <- !app_assoc. cbn [app]. unfold next_segment.
  pose proof (zlen_nonneg payload). pose proof (zlen_nonneg rest).
  rewrite word16_value by (unfold is_u16; lia).
  rewrite (proj2 (Z.leb_le 0 _)), (proj2 (Z.leb_le _ _)) by (rewrite ?zlen_app; lia). cbn [andb].
  rewrite take_app_zlen, drop_app_zlen by lia. done.
Qed.

Lemma parse_segment fuel st m payload rest st' :
  zlen payload <= 65533 -> (m =? 0xDA) = false -> apply_segment m payload st = Some st' ->
  parse_segments (S fuel) st (segment m payload ++ rest) = parse_segments fuel st' rest.
Proof. intros Hl Hm Ha. cbn [parse_segments]. by rewrite next_segment_spec, Hm, Ha. Qed.

Lemma parse_sos fuel st n rest :
  n = 1 \/ n = 3 ->
  parse_segments (S fuel) st (sos_segment n ++ rest) =
    Some (st, (1, 0, 0) :: (if n =? 3 then [(2, 1, 1); (3, 1, 1)] else []), rest).
Proof.
  intros [-> | ->]; unfold sos_segment; cbn [parse_segments]; by rewrite next_segment_spec.
Qed.

Definition frame_of (x y n h v : Z) : frame :=
  mkFrame y x (mkComponent 1 h v 0 :: if n =? 3 then [mkComponent 2 1 1 1; mkComponent 3 1 1 1] else []).

Lemma parse_frame_spec x y n h v :
  is_u16 x -> is_u16 y -> sampling n h v ->
  parse_frame ([8] ++ word16 y ++ word16 x ++ [n] ++ frame_components n h v) = Some (frame_of x y n h v).
Proof.
  intros Hx Hy Hs. unfold word16, frame_of. cbn [app]. unfold parse_frame.
  rewrite !word16_value by done. by destruct Hs.
Qed.

(** The tables that are defined behind the headers of an image with [n]
    components. *)
Definition huff_of (n : Z) : list (Z * code_table) :=
  (if n =? 3 then [(17, std_table 3); (1, std_table 1)] else []) ++ [(16, std_table 2); (0, std_table 0)].
Definition quant_of (n : Z) (q0 q1 : list Z) : list (Z * list Z) :=
  (if n =? 3 then [(1, q1)] else []) ++ [(0, q0)].

Lemma parse_std_dht fuel id bits val k st rest :
  match parse_huff (id :: tail bits ++ std_vals bits val) with
  | Some (id', t) => id' = id /\ t = std_table k
  | None => False
  end -> zlen (id :: tail bits ++ std_vals bits val) <= 65533 ->
  parse_segments (S fuel) st (std_dht id bits val ++ rest) =
  parse_segments fuel (mkState (js_quant st) ((id, std_table k) :: js_huff st) (js_frame st)) rest.
Proof.
  intros H Hl. unfold std_dht, dht_segment. apply parse_segment; [done | done|].
  unfold apply_segment. change (M_DHT =? 0xDB) with false. change (M_DHT =? 0xC4) with true. cbv match.
  destruct (parse_huff _) as [[id' t]|]; [|done]. by destruct H as [-> ->].
Qed.

Lemma parse_dqt fuel st i q rest :
  0 <= i < 16 -> zlen q = 64 ->
  parse_segments (S fuel) st (dqt_segment i q ++ rest) =
  parse_segments fuel (mkState ((i, q) :: js_quant st) (js_huff st) (js_frame st)) rest.
Proof.
  intros Hi Hq. unfold dqt_segment. apply parse_segment; [rewrite zlen_cons; lia | done|].
  unfold apply_segment. change (M_DQT =? 0xDB) with true. cbv match. unfold parse_quant.
  by rewrite (proj2 (Z.ltb_lt _ _)), (proj2 (Z.eqb_eq _ _)) by lia.
Qed.

Lemma parse_sof fuel st x y n h v rest :
  is_u16 x -> is_u16 y -> sampling n h v ->
  parse_segments (S fuel) st (sof_segment x y n h v ++ rest) =
  parse_segments fuel (mkState (js_quant st) (js_huff st) (Some (frame_of x y n h v))) rest.
Proof.
  intros Hx Hy Hs. unfold sof_segment. apply parse_segment; [by destruct Hs | done|].
  unfold apply_segment. by rewrite (parse_frame_spec x y n h v).
Qed.

(** The headers define the tables, the frame and the scan. *)
Lemma parse_headers q0 q1 x y n h v rest :
  zlen q0 = 64 -> zlen q1 = 64 -> is_u16 x -> is_u16 y -> sampling n h v ->
  exists l, jpeg_headers q0 q1 x y n h v ++ rest = 0xFF :: 0xD8 :: l /\
    parse_segments 64 (mkState [] [] None) l =
      Some (mkState (quant_of n q0 q1) (huff_of n) (Some (frame_of x y n h v)),
            (1, 0, 0) :: (if n =? 3 then [(2, 1, 1); (3, 1, 1)] else []), rest).
Proof.
  intros H0 H1 Hx Hy Hs. eexists.
  assert (forall l r s' : list Z, (l ++ r) ++ s' = l ++ r ++ s') as Happ by (intros; by rewrite app_assoc).
  split; [unfold jpeg_headers; rewrite !Happ; reflexivity|].
  assert (forall fuel st rest, parse_segments (S fuel) st (app0_segment ++ rest) = parse_segments fuel st rest) as Happ0
    by (intros; by apply parse_segment).
  rewrite Happ0, parse_dqt by done.
  assert (n = 1 \/ n = 3) as [Hn | Hn] by (destruct Hs; auto); rewrite Hn in *; cbn [Z.eqb Pos.eqb]; rewrite ?Happ; cbn [app].
  - rewrite parse_sof by done. 
    rewrite (parse_std_dht _ 0 _ _ 0) by (vm_compute; done).
    rewrite (parse_std_dht _ 16 _ _ 2) by (vm_compute; done).
    rewrite parse_sos by auto. done.
  - rewrite parse_dqt by done. rewrite parse_sof by done.
    rewrite (parse_std_dht _ 0 _ _ 0) by (vm_compute; done).
    rewrite (parse_std_dht _ 16 _ _ 2) by (vm_compute; done).
    rewrite (parse_std_dht _ 1 _ _ 1) by (vm_compute; done).
    rewrite (parse_std_dht _ 17 _ _ 3) by (vm_compute; done).
    rewrite parse_sos by auto. done.
Qed.

(** * The order of the blocks *)

Lemma concat_map_const {A} (f : nat -> list A) l a k :
  (forall i, f i = l) -> concat (map f (seq a k)) = concat (replicate k l).
Proof. intros Hf. revert a. induction k as [|k IH]; intros a; cbn; [done|]. by rewrite Hf, IH. Qed.

Lemma concat_replicate_mul {A} (l : list A) a b :
  concat (replicate a (concat (replicate b l))) = concat (replicate (a * b) l).
Proof.
  induction a as [|a IH]; [done|]. cbn [replicate concat Nat.mul].
  by rewrite IH, replicate_add, concat_app.
Qed.

Definition mcu_components (n h v : Z) : list Z :=
  if n =? 1 then [0] else replicate (Z.to_nat (h * v)) 0 ++ [1; 2].

Lemma mcu_units_order n h v lines i :
  sampling n h v -> map fst (mcu_units n h v lines i) = mcu_components n h v.
Proof. by destruct 1. Qed.

Lemma frame_order x y n h v :
  sampling n h v -> mcu_order (fr_components (frame_of x y n h v)) = mcu_components n h v.
Proof. by destruct 1. Qed.

Lemma frame_mcus x y n h v :
  sampling n h v -> mcu_count (frame_of x y n h v) = ceil_div x (8 * h) * ceil_div y (8 * v).
Proof. by destruct 1. Qed.

Lemma image_order cr p n h v img k :
  sampling n h v -> map fst (image_blocks cr p n h v img k) =
    concat (replicate (Z.to_nat k * Z.to_nat (m_mcus_per_row p)) (mcu_components n h v)).
Proof.
  intros Hs. unfold image_blocks. rewrite concat_map, map_map, <- concat_replicate_mul.
  apply concat_map_const. intros i. unfold code_units. rewrite map_map.
  change (fun x : Z * (Z -> Z -> Z) => (x.1, coefficients (cr_q cr x.1) x.2).1) with
    (@fst Z (Z -> Z -> Z)).
  unfold row_units. rewrite concat_map, map_map. apply concat_map_const. intros j.
  by apply mcu_units_order.
Qed.

Lemma mcu_components_range n h v c : sampling n h v -> In c (mcu_components n h v) -> 0 <= c < n.
Proof. intros Hs Hc. destruct Hs; cbv [mcu_components Z.eqb Pos.eqb In replicate app Z.to_nat Z.mul Pos.mul Pos.to_nat Pos.iter_op Nat.add] in Hc; lia. Qed.

Lemma decode_scan_ext dr dr' last cs bs :
  (forall c, In c cs -> dr_dc dr c = dr_dc dr' c /\ dr_ac dr c = dr_ac dr' c) ->
  decode_scan dr last cs bs = decode_scan dr' last cs bs.
Proof.
  revert last bs. induction cs as [|c cs IH]; intros last bs H; [done|]. cbn [decode_scan].
  destruct (H c) as [-> ->]; [by left|].
  destruct (decode_block _ _ _ _) as [[co r]|]; [|done]. rewrite IH; [done|].
  intros c' Hc'. apply H. by right.
Qed.

(** The tables that the decoder selects for a component are the standard ones. *)
Lemma scan_decoder_std quant f n c :
  n = 1 \/ n = 3 -> 0 <= c < n ->
  let dr := scan_decoder (mkState quant (huff_of n) f)
    ((1, 0, 0) :: (if n =? 3 then [(2, 1, 1); (3, 1, 1)] else [])) in
  dr_dc dr c = dr_dc std_decoder c /\ dr_ac dr c = dr_ac std_decoder c.
Proof.
  intros [-> | ->] Hc; [assert (c = 0) as -> by lia | assert (c = 0 \/ c = 1 \/ c = 2) as [-> | [-> | ->]] by lia];
    split; reflexivity.
Qed.

Lemma zip_map_fst_snd {A B} (l : list (A * B)) : zip (map fst l) (map snd l) = l.
Proof. induction l as [|[a b] l IH]; cbn; [done|]. by f_equal. Qed.

(** * The file *)

(** The quantization tables of the components. *)
Definition component_quant (n quality : Z) : list (list Z) :=
  map (fun c => cr_q (std_coder quality) c) (if n =? 1 then [0] else [0; 1; 2]).

(** What the reference decoder makes of the file for [img]. *)
Lemma decode_file quality p n h v width height channels img t :
  1 <= quality <= 100 -> image_params width height channels n h v p -> size_ok width height ->
  image_ok p img -> zlen img = height -> ready quality t ->
  let bl := image_blocks (std_coder quality) p n h v img (row_count p img) in
  decode_jpeg (std_headers quality width height n h v ++
               tail_bytes (scan_bits (std_coder quality) first_dc bl)) =
    Some (mkImage width height (component_quant n quality) bl).
Proof.
  intros Hq [Hg Hpx Hpy Hbpp Hmcus _] [Hx Hy] Himg Hh Hready bl.
  pose proof (ge_sampling _ _ _ _ Hg) as Hs.
  assert (n = 1 \/ n = 3) as Hn by (destruct Hs; auto).
  destruct (std_quant_ok quality Hq) as (q0 & q1 & Hstd & _ & _ & L0 & L1 & _).
  unfold std_headers. rewrite Hstd. change (default [] (zget [q0; q1] 0)) with q0.
  change (default [] (zget [q0; q1] 1)) with q1.
  destruct (parse_headers q0 q1 width height n h v
    (tail_bytes (scan_bits (std_coder quality) first_dc bl))) as (l & -> & Hp); [done | done | unfold is_u16; lia.. | done|].
  unfold decode_jpeg. rewrite Hp. cbn [js_frame]. unfold tail_bytes. rewrite unstuff_stuff.
  rewrite frame_order, frame_mcus by done.
  destruct (padded_bits (scan_bits (std_coder quality) first_dc bl)) as (k & Hk & ->).
  assert (concat (replicate (Z.to_nat (ceil_div width (8 * h) * ceil_div height (8 * v)))
    (mcu_components n h v)) = map fst bl) as ->.
  { unfold bl. rewrite image_order by done. do 2 f_equal. unfold row_count, ceil_div.
    rewrite Hmcus, Hh, (ge_mcu_y _ _ _ _ Hg), <- Z2Nat.inj_mul by (apply Z.div_pos; destruct Hs; lia).
    f_equal. lia. }
  rewrite (decode_scan_ext _ std_decoder).
  2: { intros c Hc. apply scan_decoder_std; [done|].
    unfold bl in Hc. rewrite image_order in Hc by done. apply in_concat in Hc as (d & Hd & Hc).
    apply list_elem_of_In, elem_of_replicate in Hd as [Hd _]. apply (mcu_components_range n h v); [done|]. by rewrite <- Hd. }
  rewrite (decode_scan_bits _ (std_coder quality));
    [|apply std_matches | apply first_dc_ok | by apply (image_blocks_ok _ t); [by apply ready_has_tables|..]].
  assert (forallb id (replicate k true) = true) as -> by (clear; by induction k).
  rewrite (proj2 (Z.ltb_lt _ _)) by (unfold zlen; rewrite length_replicate; lia).
  cbn [andb]. rewrite bool_decide_eq_true_2 by done. rewrite zip_map_fst_snd. do 2 f_equal.
  unfold component_quant, std_coder. cbn [cr_q]. rewrite Hstd. by destruct Hn as [-> | ->].
Qed.
