(* ===== verification/Yuv.v ===== *)
(** components/jpge/yuv.c: the conversion of YUV to RGB by a table. *)

From S2P Require Import Prelude.
From S2P Require Import JpgeTypes.

Record yuv_table_row : Type := mkRow {
  vY : Z;
  vVr : Z;
  vVg : Z;
  vUg : Z;
  vUb : Z
}.

Definition yuv_table : list yuv_table_row :=
  map (fun '(y, vr, vg, ug, ub) => mkRow y vr vg ug ub) [
    (-18, -204, 50, 104, -258); (-17, -202, 49, 103, -256); (-16, -201, 49, 102, -254);
    (-15, -199, 48, 101, -252); (-13, -197, 48, 100, -250); (-12, -196, 48, 99, -248);
    (-11, -194, 47, 99, -246); (-10, -193, 47, 98, -244); (-9, -191, 46, 97, -242);
    (-8, -189, 46, 96, -240); (-6, -188, 46, 95, -238); (-5, -186, 45, 95, -236);
    (-4, -185, 45, 94, -234); (-3, -183, 44, 93, -232); (-2, -181, 44, 92, -230);
    (-1, -180, 44, 91, -228); (0, -178, 43, 91, -226); (1, -177, 43, 90, -223);
    (2, -175, 43, 89, -221); (3, -173, 42, 88, -219); (4, -172, 42, 87, -217);
    (5, -170, 41, 86, -215); (6, -169, 41, 86, -213); (8, -167, 41, 85, -211);
    (9, -165, 40, 84, -209); (10, -164, 40, 83, -207); (11, -162, 39, 82, -205);
    (12, -161, 39, 82, -203); (13, -159, 39, 81, -201); (15, -158, 38, 80, -199);
    (16, -156, 38, 79, -197); (17, -154, 37, 78, -195); (18, -153, 37, 78, -193);
    (19, -151, 37, 77, -191); (20, -150, 36, 76, -189); (22, -148, 36, 75, -187);
    (23, -146, 35, 74, -185); (24, -145, 35, 73, -183); (25, -143, 35, 73, -181);
    (26, -142, 34, 72, -179); (27, -140, 34, 71, -177); (29, -138, 34, 70, -175);
    (30, -137, 33, 69, -173); (31, -135, 33, 69, -171); (32, -134, 32, 68, -169);
    (33, -132, 32, 67, -167); (34, -130, 32, 66, -165); (36, -129, 31, 65, -163);
    (37, -127, 31, 65, -161); (38, -126, 30, 64, -159); (39, -124, 30, 63, -157);
    (40, -122, 30, 62, -155); (41, -121, 29, 61, -153); (43, -119, 29, 60, -151);
    (44, -118, 28, 60, -149); (45, -116, 28, 59, -147); (46, -114, 28, 58, -145);
    (47, -113, 27, 57, -143); (48, -111, 27, 56, -141); (50, -110, 26, 56, -139);
    (51, -108, 26, 55, -137); (52, -106, 26, 54, -135); (53, -105, 25, 53, -133);
    (54, -103, 25, 52, -131); (55, -102, 25, 52, -129); (57, -100, 24, 51, -127);
    (58, -98, 24, 50, -125); (59, -97, 23, 49, -123); (60, -95, 23, 48, -121);
    (61, -94, 23, 47, -119); (62, -92, 22, 47, -117); (64, -90, 22, 46, -115);
    (65, -89, 21, 45, -113); (66, -87, 21, 44, -110); (67, -86, 21, 43, -108);
    (68, -84, 20, 43, -106); (69, -82, 20, 42, -104); (71, -81, 19, 41, -102);
    (72, -79, 19, 40, -100); (73, -78, 19, 39, -98); (74, -76, 18, 39, -96);
    (75, -75, 18, 38, -94); (76, -73, 17, 37, -92); (77, -71, 17, 36, -90);
    (79, -70, 17, 35, -88); (80, -68, 16, 34, -86); (81, -67, 16, 34, -84);
    (82, -65, 16, 33, -82); (83, -63, 15, 32, -80); (84, -62, 15, 31, -78);
    (86, -60, 14, 30, -76); (87, -59, 14, 30, -74); (88, -57, 14, 29, -72);
    (89, -55, 13, 28, -70); (90, -54, 13, 27, -68); (91, -52, 12, 26, -66);
    (93, -51, 12, 26, -64); (94, -49, 12, 25, -62); (95, -47, 11, 24, -60);
    (96, -46, 11, 23, -58); (97, -44, 10, 22, -56); (98, -43, 10, 21, -54);
    (100, -41, 10, 21, -52); (101, -39, 9, 20, -50); (102, -38, 9, 19, -48);
    (103, -36, 8, 18, -46); (104, -35, 8, 17, -44); (105, -33, 8, 17, -42);
    (107, -31, 7, 16, -40); (108, -30, 7, 15, -38); (109, -28, 7, 14, -36);
    (110, -27, 6, 13, -34); (111, -25, 6, 13, -32); (112, -23, 5, 12, -30);
    (114, -22, 5, 11, -28); (115, -20, 5, 10, -26); (116, -19, 4, 9, -24);
    (117, -17, 4, 8, -22); (118, -15, 3, 8, -20); (119, -14, 3, 7, -18); (121, -12, 3, 6, -16);
    (122, -11, 2, 5, -14); (123, -9, 2, 4, -12); (124, -7, 1, 4, -10); (125, -6, 1, 3, -8);
    (126, -4, 1, 2, -6); (128, -3, 0, 1, -4); (129, -1, 0, 0, -2); (130, 0, 0, 0, 0);
    (131, 1, 0, 0, 2); (132, 3, 0, -1, 4); (133, 4, -1, -2, 6); (135, 6, -1, -3, 8);
    (136, 7, -1, -4, 10); (137, 9, -2, -4, 12); (138, 11, -2, -5, 14); (139, 12, -3, -6, 16);
    (140, 14, -3, -7, 18); (142, 15, -3, -8, 20); (143, 17, -4, -8, 22); (144, 19, -4, -9, 24);
    (145, 20, -5, -10, 26); (146, 22, -5, -11, 28); (147, 23, -5, -12, 30);
    (148, 25, -6, -13, 32); (150, 27, -6, -13, 34); (151, 28, -7, -14, 36);
    (152, 30, -7, -15, 38); (153, 31, -7, -16, 40); (154, 33, -8, -17, 42);
    (155, 35, -8, -17, 44); (157, 36, -8, -18, 46); (158, 38, -9, -19, 48);
    (159, 39, -9, -20, 50); (160, 41, -10, -21, 52); (161, 43, -10, -21, 54);
    (162, 44, -10, -22, 56); (164, 46, -11, -23, 58); (165, 47, -11, -24, 60);
    (166, 49, -12, -25, 62); (167, 51, -12, -26, 64); (168, 52, -12, -26, 66);
    (169, 54, -13, -27, 68); (171, 55, -13, -28, 70); (172, 57, -14, -29, 72);
    (173, 59, -14, -30, 74); (174, 60, -14, -30, 76); (175, 62, -15, -31, 78);
    (176, 63, -15, -32, 80); (178, 65, -16, -33, 82); (179, 67, -16, -34, 84);
    (180, 68, -16, -34, 86); (181, 70, -17, -35, 88); (182, 71, -17, -36, 90);
    (183, 73, -17, -37, 92); (185, 75, -18, -38, 94); (186, 76, -18, -39, 96);
    (187, 78, -19, -39, 98); (188, 79, -19, -40, 100); (189, 81, -19, -41, 102);
    (190, 82, -20, -42, 104); (192, 84, -20, -43, 106); (193, 86, -21, -43, 108);
    (194, 87, -21, -44, 110); (195, 89, -21, -45, 113); (196, 90, -22, -46, 115);
    (197, 92, -22, -47, 117); (199, 94, -23, -47, 119); (200, 95, -23, -48, 121);
    (201, 97, -23, -49, 123); (202, 98, -24, -50, 125); (203, 100, -24, -51, 127);
    (204, 102, -25, -52, 129); (206, 103, -25, -52, 131); (207, 105, -25, -53, 133);
    (208, 106, -26, -54, 135); (209, 108, -26, -55, 137); (210, 110, -26, -56, 139);
    (211, 111, -27, -56, 141); (213, 113, -27, -57, 143); (214, 114, -28, -58, 145);
    (215, 116, -28, -59, 147); (216, 118, -28, -60, 149); (217, 119, -29, -60, 151);
    (218, 121, -29, -61, 153); (219, 122, -30, -62, 155); (221, 124, -30, -63, 157);
    (222, 126, -30, -64, 159); (223, 127, -31, -65, 161); (224, 129, -31, -65, 163);
    (225, 130, -32, -66, 165); (226, 132, -32, -67, 167); (228, 134, -32, -68, 169);
    (229, 135, -33, -69, 171); (230, 137, -33, -69, 173); (231, 138, -34, -70, 175);
    (232, 140, -34, -71, 177); (233, 142, -34, -72, 179); (235, 143, -35, -73, 181);
    (236, 145, -35, -73, 183); (237, 146, -35, -74, 185); (238, 148, -36, -75, 187);
    (239, 150, -36, -76, 189); (240, 151, -37, -77, 191); (242, 153, -37, -78, 193);
    (243, 154, -37, -78, 195); (244, 156, -38, -79, 197); (245, 158, -38, -80, 199);
    (246, 159, -39, -81, 201); (247, 161, -39, -82, 203); (249, 162, -39, -82, 205);
    (250, 164, -40, -83, 207); (251, 165, -40, -84, 209); (252, 167, -41, -85, 211);
    (253, 169, -41, -86, 213); (254, 170, -41, -86, 215); (256, 172, -42, -87, 217);
    (257, 173, -42, -88, 219); (258, 175, -43, -89, 221); (259, 177, -43, -90, 223);
    (260, 178, -43, -91, 226); (261, 180, -44, -91, 228); (263, 181, -44, -92, 230);
    (264, 183, -44, -93, 232); (265, 185, -45, -94, 234); (266, 186, -45, -95, 236);
    (267, 188, -46, -95, 238); (268, 189, -46, -96, 240); (270, 191, -46, -97, 242);
    (271, 193, -47, -98, 244); (272, 194, -47, -99, 246); (273, 196, -48, -99, 248);
    (274, 197, -48, -100, 250); (275, 199, -48, -101, 252); (277, 201, -49, -102, 254);
    (278, 202, -49, -103, 256)
  ].

Definition YUYV_CONSTRAIN (v : Z) : Z := if v <? 0 then 0 else if 255 <? v then 255 else v.

(** The sums are assigned to int16_t variables and the results to uint8_t. *)
Definition yuv2rgb (y u v : Z) : option (Z * Z * Z) :=
  ry ← zget yuv_table y; ru ← zget yuv_table u; rv ← zget yuv_table v;
  let ri := s16 (vY ry + vVr rv) in
  let gi := s16 (vY ry + vUg ru + vVg rv) in
  let bi := s16 (vY ry + vUb ru) in
  Some (u8 (YUYV_CONSTRAIN ri), u8 (YUYV_CONSTRAIN gi), u8 (YUYV_CONSTRAIN bi)).

(** * The conversion it implements *)

(** ITU-R BT.601 for studio swing, in thousandths. *)
Definition bt601_r (y v : Z) : Z := 1164 * (y - 16) + 1596 * (v - 128).
Definition bt601_g (y u v : Z) : Z := 1164 * (y - 16) - 391 * (u - 128) - 813 * (v - 128).
Definition bt601_b (y u : Z) : Z := 1164 * (y - 16) + 2018 * (u - 128).
(** The green that the table yields: the factors of [u] and [v] are exchanged. *)
Definition coded_g (y u v : Z) : Z := 1164 * (y - 16) - 813 * (u - 128) - 391 * (v - 128).

(** [v] is [x] thousandths, limited to a byte, up to an error of [e]
    thousandths. *)
Definition near (e v x : Z) : Prop := Z.abs (1000 * v - Z.min (Z.max x 0) 255000) <= e.

Definition row_near (i : Z) (r : yuv_table_row) : bool :=
  (Z.abs (1000 * vY r - 1164 * (i - 16)) <? 1000) &&
  (Z.abs (1000 * vVr r - 1596 * (i - 128)) <? 1000) &&
  (Z.abs (1000 * vVg r + 391 * (i - 128)) <? 1000) &&
  (Z.abs (1000 * vUg r + 813 * (i - 128)) <? 1000) &&
  (Z.abs (1000 * vUb r - 2018 * (i - 128)) <? 1000).

Lemma yuv_table_rows i : is_u8 i -> exists r, zget yuv_table i = Some r /\ row_near i r = true.
Proof.
  intros Hi.
  assert (forallb (fun k => match zget yuv_table (Z.of_nat k) with
    | Some r => row_near (Z.of_nat k) r | None => false end) (seq 0 256) = true) as H by (vm_compute; reflexivity).
  rewrite forallb_forall in H. unfold is_u8 in Hi.
  specialize (H (Z.to_nat i) ltac:(apply in_seq; lia)). rewrite Z2Nat.id in H by lia.
  destruct (zget yuv_table i) as [r|]; [|done]. by exists r.
Qed.

Lemma constrain_near e v x :
  Z.abs (1000 * v - x) < e -> is_u8 (YUYV_CONSTRAIN v) /\ near e (YUYV_CONSTRAIN v) x.
Proof.
  unfold is_u8, near, YUYV_CONSTRAIN. intros H.
  destruct (Z.ltb_spec v 0); [lia|]. destruct (Z.ltb_spec 255 v); lia.
Qed.

Lemma yuv2rgb_near y u v :
  is_u8 y -> is_u8 u -> is_u8 v -> exists r g b, yuv2rgb y u v = Some (r, g, b) /\
    is_u8 r /\ is_u8 g /\ is_u8 b /\
    near 2000 r (bt601_r y v) /\ near 3000 g (coded_g y u v) /\ near 2000 b (bt601_b y u).
Proof.
  intros Hy Hu Hv.
  destruct (yuv_table_rows y Hy) as (ry & Ey & Ny). destruct (yuv_table_rows u Hu) as (ru & Eu & Nu).
  destruct (yuv_table_rows v Hv) as (rv & Ev & Nv).
  assert (yuv2rgb y u v = Some (u8 (YUYV_CONSTRAIN (s16 (vY ry + vVr rv))),
    u8 (YUYV_CONSTRAIN (s16 (vY ry + vUg ru + vVg rv))), u8 (YUYV_CONSTRAIN (s16 (vY ry + vUb ru))))) as ->.
  { unfold yuv2rgb. rewrite Ey, Eu, Ev. reflexivity. }
  clear Ey Eu Ev. unfold row_near in *. rewrite !andb_true_iff, !Z.ltb_lt, !Z.abs_lt in Ny, Nu, Nv.
  destruct ry as [y0 y1 y2 y3 y4], ru as [u0 u1 u2 u3 u4], rv as [v0 v1 v2 v3 v4].
  cbn [vY vVr vVg vUg vUb] in *. unfold is_u8 in Hy, Hu, Hv.
  rewrite !s16_small by lia.
  destruct (constrain_near 2000 (y0 + v1) (bt601_r y v)) as [R1 R2]; [unfold bt601_r; apply Z.abs_lt; lia|].
  destruct (constrain_near 3000 (y0 + u3 + v2) (coded_g y u v)) as [G1 G2]; [unfold coded_g; apply Z.abs_lt; lia|].
  destruct (constrain_near 2000 (y0 + u4) (bt601_b y u)) as [B1 B2]; [unfold bt601_b; apply Z.abs_lt; lia|].
  rewrite !u8_small by done. do 3 eexists. split; [reflexivity|]. tauto.
Qed.
