(* ===== verification/ToJpg.v ===== *)
(** components/jpge/to_jpg.c: conversion of a camera image to JPEG.

    Parameters: [malloc_lines] and [malloc] are what malloc returns in jpg_open
    and in this file, by the size; [dst_image] is the content of the
    uninitialised local variable. *)

From S2P Require Import Prelude.
From S2P Require Import CMonad.
From S2P Require Import JpgeTypes.
From S2P Require Import Jpge.
From S2P Require Import Yuv.

Inductive pixformat_t : Type :=
| PIXFORMAT_RGB565
| PIXFORMAT_YUV422
| PIXFORMAT_GRAYSCALE
| PIXFORMAT_JPEG
| PIXFORMAT_RGB888.

#[export] Instance pixformat_eq_dec : EqDecision pixformat_t.
Proof. solve_decision. Defined.

Record camera_fb_t : Type := mkFb {
  fb_buf : list Z;
  fb_len : Z;
  fb_width : Z;
  fb_height : Z;
  fb_format : pixformat_t
}.

(** * Lines *)

(** for (; i < l; i += step) with the loop variables o and dst; [l] rounds are
    enough. *)
Fixpoint for_step (fuel : nat) (i l step : Z) (body : Z -> Z * list Z -> option (Z * list Z))
    (st : Z * list Z) : option (Z * list Z) :=
  match fuel with
  | O => Some st
  | S n => if i <? l then st ← body i st; for_step n (i + step) l step body st else Some st
  end.

(** dst[o++] = a; dst[o++] = b; dst[o++] = c; *)
Definition put3 (a b c : Z) (st : Z * list Z) : option (Z * list Z) :=
  let '(o, dst) := st in
  dst ← zset dst o (u8 a); dst ← zset dst (o + 1) (u8 b); dst ← zset dst (o + 2) (u8 c);
  Some (o + 3, dst).

Definition rgb888_round (src : list Z) (base i : Z) (st : Z * list Z) : option (Z * list Z) :=
  s2 ← zget src (base + (i + 2)); s1 ← zget src (base + (i + 1)); s0 ← zget src (base + i);
  put3 s2 s1 s0 st.

Definition rgb565_round (src : list Z) (base i : Z) (st : Z * list Z) : option (Z * list Z) :=
  s0 ← zget src (base + i); s1 ← zget src (base + (i + 1));
  put3 (Z.land s1 0xF8)
    (Z.lor (Z.shiftl (Z.land s1 0x07) 5) (Z.shiftr (Z.land s0 0xE0) 3))
    (Z.shiftl (Z.land s0 0x1F) 3) st.

Definition yuv422_round (src : list Z) (base i : Z) (st : Z * list Z) : option (Z * list Z) :=
  y0 ← zget src (base + i); u ← zget src (base + (i + 1));
  y1 ← zget src (base + (i + 2)); v ← zget src (base + (i + 3));
  '(r, g, b) ← yuv2rgb y0 u v;
  st ← put3 r g b st;
  '(r, g, b) ← yuv2rgb y1 u v;
  put3 r g b st.

(** The new content of [dst]; a JPEG image leaves it as it is. *)
Definition convert_line_format (src : list Z) (format : pixformat_t) (dst : list Z) (width line : Z)
    : option (list Z) :=
  match format with
  | PIXFORMAT_GRAYSCALE =>
      if (0 <=? line * width) && (line * width + width <=? zlen src)
      then zblit dst 0 (zsub src (line * width) width) else None
  | PIXFORMAT_RGB888 =>
      let l := width * 3 in
      st ← for_step (Z.to_nat l) 0 l 3 (rgb888_round src (l * line)) (0, dst); Some st.2
  | PIXFORMAT_RGB565 =>
      let l := width * 2 in
      st ← for_step (Z.to_nat l) 0 l 2 (rgb565_round src (l * line)) (0, dst); Some st.2
  | PIXFORMAT_YUV422 =>
      let l := width * 2 in
      st ← for_step (Z.to_nat l) 0 l 4 (yuv422_round src (l * line)) (0, dst); Some st.2
  | PIXFORMAT_JPEG => Some dst
  end.

(** * Images *)

Section Convert.
Context (malloc_lines malloc : Z -> option (list Z)).
Context (pPut_buf : list (option (list Z)) -> option (list Z) -> bool).

Definition num_channels_of (format : pixformat_t) : Z :=
  if decide (format = PIXFORMAT_GRAYSCALE) then 1 else 3.
Definition subsampling_of (format : pixformat_t) : Z :=
  if decide (format = PIXFORMAT_GRAYSCALE) then Y_ONLY else H2V2.

(** One round of the loop over the lines; [false] leaves it. *)
Definition convert_image_round (src : list Z) (width height : Z) (format : pixformat_t)
    (st : Z * list Z) : M jpeg_encoder (Z * list Z + bool) :=
  let '(i, line) := st in
  if i <? height
  then
    line <- access "convert_line_format" (convert_line_format src format line width i) ;;
    ok <- jpge_process_scanline pPut_buf (Some line) ;;
    if negb ok then ret (inr false) else ret (inl (i + 1, line))
  else ret (inr true).

Definition convert_image (src : list Z) (width height : Z) (format : pixformat_t) (quality : Z)
    : M jpeg_encoder bool :=
  let num_channels := num_channels_of format in
  let subsampling := subsampling_of format in
  let quality := if quality =? 0 then 1 else if 100 <? quality then 100 else quality in
  ok <- jpge_init pPut_buf malloc_lines false width height num_channels quality subsampling ;;
  if negb ok then ret false
  else
    match malloc (width * num_channels) with
    | None => ret false
    | Some line =>
        ok <- loop (S (Z.to_nat height)) (convert_image_round src width height format) (0, line) ;;
        if negb ok then ret false
        else
          ok <- jpge_process_scanline pPut_buf None ;;
          if negb ok then ret false
          else jpge_deinit ;; ret true
    end.
End Convert.

(** * The output buffer *)

Record jpg_buf : Type := mkJpgBuf {
  jb_buf : option (list Z);
  jb_size : Z;
  jb_cnt : Z
}.

(** The buffer after put_buf(d, len), which returns true; [None] as data is the
    end of the image. *)
Definition put_buf (d : option (list Z)) (b : jpg_buf) : option jpg_buf :=
  match d with
  | None => Some b
  | Some d =>
      let len := if jb_size b - jb_cnt b <? zlen d then jb_size b - jb_cnt b else zlen d in
      if len =? 0 then Some b
      else
        buf ← jb_buf b;
        buf ← zblit buf (jb_cnt b) (take (Z.to_nat len) d);
        Some (mkJpgBuf (Some buf) (jb_size b) (jb_cnt b + len))
  end.

(** The buffer after a sequence of calls. *)
Fixpoint put_bufs (l : list (option (list Z))) (b : jpg_buf) : option jpg_buf :=
  match l with
  | [] => Some b
  | d :: l => b ← put_buf d b; put_bufs l b
  end.

(** The static variables of the two files. *)
Record jpg_state : Type := mkJpgState {
  st_tables : jpge_tables;
  s_jpg_buf : jpg_buf
}.

Section Fmt.
Context (malloc_lines malloc : Z -> option (list Z)) (dst_image : jpeg_encoder).

(** convert_image with the callback put_buf. *)
Definition convert_image_put_buf (src : list Z) (width height : Z) (format : pixformat_t) (quality : Z)
    : M jpg_state bool := fun s =>
  match convert_image malloc_lines malloc (fun _ _ => true) src width height format quality
          (set_tables (st_tables s) (set_out (set_calls [] (out dst_image)) dst_image)) with
  | Stop f => Stop f
  | Ok (r, e) =>
      match put_bufs (calls (out e)) (s_jpg_buf s) with
      | None => Stop (Fault "put_buf")
      | Some b => Ok (r, mkJpgState (tables e) b)
      end
  end.

Definition set_jpg_buf (b : jpg_buf) (s : jpg_state) : jpg_state := mkJpgState (st_tables s) b.

(** The result is [out] with [out_len], or [None] for false. *)
Definition fmt2jpg (src : list Z) (src_len width height : Z) (format : pixformat_t) (quality : Z)
    : M jpg_state (option (list Z * Z)) :=
  let size := 1024 * 1024 in
  modify (set_jpg_buf (mkJpgBuf (malloc size) size 0)) ;;
  match malloc size with
  | None => ret None
  | Some _ =>
      ok <- convert_image_put_buf src width height format quality ;;
      b <- gets s_jpg_buf ;;
      if negb ok
      then modify (set_jpg_buf (mkJpgBuf None (jb_size b) (jb_cnt b))) ;; ret None
      else ret (Some (default [] (jb_buf b), jb_cnt b))
  end.

(** The parameters of fmt2jpg are uint16_t. *)
Definition frame2jpg (fb : camera_fb_t) (quality : Z) : M jpg_state (option (list Z * Z)) :=
  fmt2jpg (fb_buf fb) (fb_len fb) (u16 (fb_width fb)) (u16 (fb_height fb)) (fb_format fb) quality.
End Fmt.
