(* ===== verification/ToJpgFacts.v ===== *)
(** to_jpg.c: the lines that the encoder is given, and what is written to the
    output buffer. *)

From S2P Require Import Prelude.
From S2P Require Import CMonad.
From S2P Require Import JpgeTypes.
From S2P Require Import JpgeDct.
From S2P Require Import JpgeDctFacts.
From S2P Require Import Jpge.
From S2P Require Import JpgeOutFacts.
From S2P Require Import JpegSpec.
From S2P Require Import JpgeCodeFacts.
From S2P Require Import JpgeScanFacts.
From S2P Require Import JpgeImageFacts.
From S2P Require Import JpgeHeadFacts.
From S2P Require Import JpgeOpenFacts.
From S2P Require Import JpegFile.
From S2P Require Import JpgeFileFacts.
From S2P Require Import Yuv.
From S2P Require Import ToJpg.

(** * Lines *)

(** Byte [i] of the image. *)
Definition byte_at (src : list Z) (i : Z) : Z := default 0 (zget src i).

Lemma zget_byte_at src i : 0 <= i < zlen src -> zget src i = Some (byte_at src i).
Proof. intros Hi. unfold byte_at. by destruct (zget_is_Some src i Hi) as [v ->]. Qed.

Definition rgb888_pixel (src : list Z) (i : Z) : list Z :=
  [byte_at src (i + 2); byte_at src (i + 1); byte_at src i].
(** Five, six and five bits, the high byte second. *)
Definition rgb565_pixel (src : list Z) (i : Z) : list Z :=
  let w := 256 * byte_at src (i + 1) + byte_at src i in
  [w / 2048 * 8; w / 32 mod 64 * 4; w mod 32 * 8].
Definition yuv_pixel (y u v : Z) : list Z :=
  match yuv2rgb y u v with Some (r, g, b) => [r; g; b] | None => [] end.
Definition yuv422_pixels (src : list Z) (i : Z) : list Z :=
  yuv_pixel (byte_at src i) (byte_at src (i + 1)) (byte_at src (i + 3)) ++
  yuv_pixel (byte_at src (i + 2)) (byte_at src (i + 1)) (byte_at src (i + 3)).

(** Line [y] of the image as the encoder is given it. *)
Definition pixel_line (format : pixformat_t) (src : list Z) (width y : Z) : list Z :=
  match format with
  | PIXFORMAT_GRAYSCALE => zsub src (y * width) width
  | PIXFORMAT_RGB888 =>
      concat (map (fun k => rgb888_pixel src (3 * width * y + 3 * Z.of_nat k)) (seq 0 (Z.to_nat width)))
  | PIXFORMAT_RGB565 =>
      concat (map (fun k => rgb565_pixel src (2 * width * y + 2 * Z.of_nat k)) (seq 0 (Z.to_nat width)))
  | PIXFORMAT_YUV422 =>
      concat (map (fun k => yuv422_pixels src (2 * width * y + 4 * Z.of_nat k)) (seq 0 (Z.to_nat (width / 2))))
  | PIXFORMAT_JPEG => []
  end.

Definition bytes_per_pixel (format : pixformat_t) : Z :=
  match format with
  | PIXFORMAT_GRAYSCALE => 1
  | PIXFORMAT_RGB888 => 3
  | _ => 2
  end.

(** A loop whose round [k] writes the [m] bytes [f k] behind the earlier ones. *)
Lemma for_step_spec (n : nat) l step m body (f : nat -> list Z) dst fuel :
  0 < step -> 0 <= m -> step * (Z.of_nat n - 1) < l <= step * Z.of_nat n -> (n <= fuel)%nat ->
  m * Z.of_nat n <= zlen dst -> (forall k, (k < n)%nat -> zlen (f k) = m) ->
  (forall k d, (k < n)%nat -> zlen d = zlen dst ->
     body (step * Z.of_nat k) (m * Z.of_nat k, d) =
     (d' ← zblit d (m * Z.of_nat k) (f k); Some (m * Z.of_nat k + m, d'))) ->
  for_step fuel 0 l step body (0, dst) =
    Some (m * Z.of_nat n, concat (map f (seq 0 n)) ++ drop (Z.to_nat (m * Z.of_nat n)) dst).
Proof.
  intros Hstep Hm Hl Hfuel Hdst Hf Hbody.
  assert (forall j fuel, (j <= n)%nat -> (n - j <= fuel)%nat ->
    for_step fuel (step * Z.of_nat j) l step body
      (m * Z.of_nat j, concat (map f (seq 0 j)) ++ drop (Z.to_nat (m * Z.of_nat j)) dst) =
    Some (m * Z.of_nat n, concat (map f (seq 0 n)) ++ drop (Z.to_nat (m * Z.of_nat n)) dst)) as H.
  2: { specialize (H 0%nat fuel ltac:(lia) ltac:(lia)). rewrite !Z.mul_0_r in H. exact H. }
  clear fuel Hfuel. intros j fuel Hj Hfuel.
  assert (forall j, (j <= n)%nat -> zlen (concat (map f (seq 0 j))) = m * Z.of_nat j) as Hlen.
  { clear -Hf. intros j Hj. induction j as [|j IH]; [cbn; rewrite zlen_nil; lia|].
    rewrite seq_S, map_app, concat_app, zlen_app, IH by lia. cbn [map concat].
    rewrite app_nil_r, Hf by lia. lia. }
  revert j Hj Hfuel. induction fuel as [|fuel IH]; intros j Hj Hfuel.
  - replace j with n by lia. done.
  - cbn [for_step]. destruct (decide (j = n)) as [->|Hne].
    + by rewrite (proj2 (Z.ltb_ge _ _)) by lia.
    + rewrite (proj2 (Z.ltb_lt _ _)) by nia. pose proof (Hlen j Hj) as Hlj.
      assert (zlen (drop (Z.to_nat (m * Z.of_nat j)) dst) = zlen dst - m * Z.of_nat j) as Hd.
      { unfold zlen in *. rewrite length_drop. nia. }
      rewrite Hbody by (rewrite ?zlen_app; lia).
      rewrite zblit_is_Some by (rewrite ?zlen_app, ?(Hf j); nia).
      rewrite option_bind_Some. cbn [mbind option_bind]. 
      rewrite take_app_zlen by done. rewrite (Hf j) by lia.
      replace (step * Z.of_nat j + step) with (step * Z.of_nat (S j)) by lia.
      replace (m * Z.of_nat j + m) with (m * Z.of_nat (S j)) by lia.
      rewrite drop_app, drop_drop, (drop_ge (concat _)) by (unfold zlen in Hlj; nia). cbn [app].
      rewrite <- (IH (S j)) by lia. do 2 f_equal.
      rewrite seq_S, map_app, concat_app. cbn [map concat]. rewrite app_nil_r, <- app_assoc. do 3 f_equal.
      unfold zlen in Hlj. nia.
Qed.

Lemma put3_spec a b c o dst :
  is_u8 a -> is_u8 b -> is_u8 c -> 0 <= o -> o + 3 <= zlen dst ->
  put3 a b c (o, dst) = (d' ← zblit dst o [a; b; c]; Some (o + 3, d')).
Proof.
  intros Ha Hb Hc Ho Hl. unfold put3. rewrite !u8_small by done.
  destruct (zblit_ex dst o [a]) as [d1 E1]; [done | change (zlen [a]) with 1; lia|].
  destruct (zblit_ex dst o [a; b]) as [d2 E2]; [done | change (zlen [a; b]) with 2; lia|].
  assert (zset dst o a = Some d1) as ->.
  { rewrite <- E1, <- (zblit_cons dst o [] dst a); [done | | done].
    apply zblit_nil. lia. }
  rewrite option_bind_Some.
  change (o + 1) with (o + zlen [a]). rewrite (zblit_snoc dst o [a] d1 b) by (done || (change (zlen [a]) with 1; lia)).
  cbn [app]. rewrite E2, option_bind_Some.
  change (o + 2) with (o + zlen [a; b]). rewrite (zblit_snoc dst o [a; b] d2 c) by (done || (change (zlen [a; b]) with 2; lia)).
  done.
Qed.

Lemma byte_at_u8 src i : Forall is_u8 src -> is_u8 (byte_at src i).
Proof.
  intros Hu. unfold byte_at. destruct (zget src i) as [v|] eqn:Hv; [|done]. by apply (Forall_zget _ src i).
Qed.

Lemma rgb888_pixel_ok src i : Forall is_u8 src -> zlen (rgb888_pixel src i) = 3 /\ Forall is_u8 (rgb888_pixel src i).
Proof. intros Hu. split; [done|]. repeat apply Forall_cons_2; try by apply byte_at_u8. apply Forall_nil_2. Qed.

(** The masks and shifts of the code extract the fields of the word. *)
Lemma rgb565_fields s0 s1 :
  is_u8 s0 -> is_u8 s1 -> let w := 256 * s1 + s0 in
  Z.land s1 0xF8 = w / 2048 * 8 /\
  u8 (Z.lor (Z.shiftl (Z.land s1 0x07) 5) (Z.shiftr (Z.land s0 0xE0) 3)) = w / 32 mod 64 * 4 /\
  Z.shiftl (Z.land s0 0x1F) 3 = w mod 32 * 8.
Proof.
  intros H0 H1 w.
  assert (forallb (fun k => let s1 := Z.of_nat k in Z.land s1 0xF8 =? s1 / 8 * 8) (seq 0 256) = true) as Ha
    by (vm_compute; reflexivity).
  assert (forallb (fun k => let s1 := Z.of_nat k in Z.land s1 7 =? s1 mod 8) (seq 0 256) = true) as Hb
    by (vm_compute; reflexivity).
  assert (forallb (fun k => let s0 := Z.of_nat k in
    (Z.shiftr (Z.land s0 0xE0) 3 =? s0 / 32 * 4) && (Z.shiftl (Z.land s0 0x1F) 3 =? s0 mod 32 * 8)) (seq 0 256) = true) as Hc
    by (vm_compute; reflexivity).
  rewrite forallb_forall in Ha, Hb, Hc. unfold is_u8 in *.
  specialize (Ha (Z.to_nat s1) ltac:(apply in_seq; lia)). specialize (Hb (Z.to_nat s1) ltac:(apply in_seq; lia)).
  specialize (Hc (Z.to_nat s0) ltac:(apply in_seq; lia)). cbn zeta in Ha, Hb, Hc.
  rewrite Z2Nat.id in Ha, Hb, Hc by lia. apply andb_true_iff in Hc as [Hc Hd].
  apply Z.eqb_eq in Ha, Hb, Hc, Hd. rewrite Ha, Hb, Hc, Hd. unfold w, u8.
  rewrite Z.lor_comm, lor_shiftl; [|lia|].
  - change (2 ^ 5) with 32. split; [|split]; Z.to_euclidean_division_equations; lia.
  - change (2 ^ 5) with 32. Z.to_euclidean_division_equations; lia.
Qed.

Lemma rgb565_pixel_ok src i : Forall is_u8 src -> zlen (rgb565_pixel src i) = 3 /\ Forall is_u8 (rgb565_pixel src i).
Proof.
  intros Hu. split; [done|]. pose proof (byte_at_u8 src i Hu) as H0. pose proof (byte_at_u8 src (i + 1) Hu) as H1.
  unfold rgb565_pixel, is_u8 in *. cbv zeta. set (s0 := byte_at src i) in *. set (s1 := byte_at src (i + 1)) in *.
  clearbody s0 s1. repeat apply Forall_cons_2; [..|apply Forall_nil_2]; Z.to_euclidean_division_equations; lia.
Qed.

Lemma yuv_pixel_ok y u v :
  is_u8 y -> is_u8 u -> is_u8 v -> exists r g b, yuv2rgb y u v = Some (r, g, b) /\
    yuv_pixel y u v = [r; g; b] /\ is_u8 r /\ is_u8 g /\ is_u8 b.
Proof.
  intros Hy Hu Hv. destruct (yuv2rgb_near y u v Hy Hu Hv) as (r & g & b & E & Hr & Hg & Hb & _).
  exists r, g, b. unfold yuv_pixel. by rewrite E.
Qed.

Lemma yuv422_pixels_ok src i : Forall is_u8 src -> zlen (yuv422_pixels src i) = 6 /\ Forall is_u8 (yuv422_pixels src i).
Proof.
  intros Hu. unfold yuv422_pixels.
  destruct (yuv_pixel_ok (byte_at src i) (byte_at src (i + 1)) (byte_at src (i + 3)))
    as (r & g & b & _ & -> & ? & ? & ?); [by apply byte_at_u8..|].
  destruct (yuv_pixel_ok (byte_at src (i + 2)) (byte_at src (i + 1)) (byte_at src (i + 3)))
    as (r' & g' & b' & _ & -> & ? & ? & ?); [by apply byte_at_u8..|].
  split; [done|]. cbn [app]. by repeat apply Forall_cons_2.
Qed.

Lemma rgb888_round_spec src base i o dst :
  Forall is_u8 src -> 0 <= base + i -> base + i + 3 <= zlen src -> 0 <= o -> o + 3 <= zlen dst ->
  rgb888_round src base i (o, dst) = (d' ← zblit dst o (rgb888_pixel src (base + i)); Some (o + 3, d')).
Proof.
  intros Hu Hi Hl Ho Hd. unfold rgb888_round. rewrite !zget_byte_at, !option_bind_Some by lia.
  rewrite put3_spec by (try apply byte_at_u8; done). unfold rgb888_pixel.
  by rewrite !Z.add_assoc.
Qed.

Lemma rgb565_round_spec src base i o dst :
  Forall is_u8 src -> 0 <= base + i -> base + i + 2 <= zlen src -> 0 <= o -> o + 3 <= zlen dst ->
  rgb565_round src base i (o, dst) = (d' ← zblit dst o (rgb565_pixel src (base + i)); Some (o + 3, d')).
Proof.
  intros Hu Hi Hl Ho Hd. unfold rgb565_round. rewrite !zget_byte_at, !option_bind_Some by lia.
  pose proof (byte_at_u8 src (base + i) Hu) as H0. pose proof (byte_at_u8 src (base + i + 1) Hu) as H1.
  destruct (rgb565_fields _ _ H0 H1) as (Ea & Eb & Ec). destruct (rgb565_pixel_ok src (base + i) Hu) as [_ Hp].
  unfold rgb565_pixel in *. rewrite Z.add_assoc. cbv zeta in *.
  set (s0 := byte_at src (base + i)) in *. set (s1 := byte_at src (base + i + 1)) in *.
  rewrite !Forall_cons in Hp. destruct Hp as (Pa & Pb & Pc & _).
  rewrite <- Ea in Pa. rewrite <- Ec in Pc.
  assert (put3 (Z.land s1 0xF8) (Z.lor (Z.shiftl (Z.land s1 0x07) 5) (Z.shiftr (Z.land s0 0xE0) 3))
    (Z.shiftl (Z.land s0 0x1F) 3) (o, dst) =
    put3 (Z.land s1 0xF8) ((256 * s1 + s0) / 32 mod 64 * 4) (Z.shiftl (Z.land s0 0x1F) 3) (o, dst)) as ->.
  { unfold put3. rewrite Eb. by rewrite (u8_small (_ * 4)). }
  rewrite put3_spec by done. by rewrite Ea, Ec.
Qed.

Lemma yuv422_round_spec src base i o dst :
  Forall is_u8 src -> 0 <= base + i -> base + i + 4 <= zlen src -> 0 <= o -> o + 6 <= zlen dst ->
  yuv422_round src base i (o, dst) = (d' ← zblit dst o (yuv422_pixels src (base + i)); Some (o + 6, d')).
Proof.
  intros Hu Hi Hl Ho Hd. unfold yuv422_round. rewrite !zget_byte_at, !option_bind_Some by lia.
  unfold yuv422_pixels. rewrite !Z.add_assoc.
  destruct (yuv_pixel_ok (byte_at src (base + i)) (byte_at src (base + i + 1)) (byte_at src (base + i + 3)))
    as (r & g & b & -> & -> & ? & ? & ?); [by apply byte_at_u8..|].
  destruct (yuv_pixel_ok (byte_at src (base + i + 2)) (byte_at src (base + i + 1)) (byte_at src (base + i + 3)))
    as (r' & g' & b' & -> & -> & ? & ? & ?); [by apply byte_at_u8..|].
  rewrite option_bind_Some. rewrite put3_spec by (done || lia).
  destruct (zblit_ex dst o [r; g; b]) as [d1 E1]; [done | change (zlen [r; g; b]) with 3; lia|].
  rewrite E1, !option_bind_Some. pose proof (zblit_zlen _ _ _ _ E1).
  rewrite put3_spec by (done || lia).
  change (o + 3) with (o + zlen [r; g; b]). rewrite (zblit_app dst o [r; g; b] [r'; g'; b'] d1 E1) by (change (zlen [r; g; b]) with 3; change (zlen [r'; g'; b']) with 3; lia).
  by replace (o + zlen [r; g; b] + 3) with (o + 6) by (change (zlen [r; g; b]) with 3; lia).
Qed.

(** A triple that is stored lies in the line. *)
Lemma put3_inv a b c o dst st :
  put3 a b c (o, dst) = Some st -> st.1 = o + 3 /\ zlen st.2 = zlen dst /\ 0 <= o /\ o + 3 <= zlen dst.
Proof.
  unfold put3. destruct (zset dst o (u8 a)) as [d1|] eqn:E1; [|done]. cbn [mbind option_bind].
  destruct (zset d1 (o + 1) (u8 b)) as [d2|] eqn:E2; [|done]. cbn [mbind option_bind].
  destruct (zset d2 (o + 2) (u8 c)) as [d3|] eqn:E3; [|done]. intros [= <-]. cbn [fst snd].
  apply zset_Some in E1 as [R1 ->]. apply zset_Some in E2 as [R2 ->]. apply zset_Some in E3 as [R3 ->].
  rewrite !zlen_insert in *. lia.
Qed.

Lemma yuv422_round_inv src base i o dst o' dst' :
  yuv422_round src base i (o, dst) = Some (o', dst') ->
  zlen dst' = zlen dst /\ o' = o + 6 /\ o + 6 <= zlen dst.
Proof.
  unfold yuv422_round.
  destruct (zget src (base + i)) as [y0|]; [|done]. destruct (zget src (base + (i + 1))) as [u|]; [|done].
  destruct (zget src (base + (i + 2))) as [y1|]; [|done]. destruct (zget src (base + (i + 3))) as [v|]; [|done].
  cbn [mbind option_bind].
  destruct (yuv2rgb y0 u v) as [[[r g] b]|]; [|done]. cbn [mbind option_bind].
  destruct (put3 r g b (o, dst)) as [[o1 d1]|] eqn:E1; [|done]. cbn [mbind option_bind].
  destruct (yuv2rgb y1 u v) as [[[r' g'] b']|]; [|done]. cbn [mbind option_bind]. intros E2.
  apply put3_inv in E1. apply put3_inv in E2. cbn [fst snd] in *. lia.
Qed.

(** The image lies in [src]; YUV pixels come in pairs. *)
Definition source_ok (format : pixformat_t) (src : list Z) (width height : Z) : Prop :=
  format <> PIXFORMAT_JPEG /\ Forall is_u8 src /\
  bytes_per_pixel format * width * height <= zlen src /\
  (format = PIXFORMAT_YUV422 -> width mod 2 = 0).

Lemma line_replaced {A} (l dst : list A) k : zlen l = zlen dst -> zlen dst = k -> l ++ drop (Z.to_nat k) dst = l.
Proof. unfold zlen. intros H1 H2. rewrite drop_ge by lia. apply app_nil_r. Qed.

Lemma zlen_concat_map {A} (f : nat -> list A) m n a :
  (forall k, zlen (f k) = m) -> zlen (concat (map f (seq a n))) = m * Z.of_nat n.
Proof.
  intros Hf. revert a. induction n as [|n IH]; intros a; cbn [seq map concat]; [rewrite zlen_nil; lia|].
  rewrite zlen_app, IH, Hf. lia.
Qed.
Lemma Forall_concat_map {A B} (P : B -> Prop) (f : A -> list B) l :
  (forall k, Forall P (f k)) -> Forall P (concat (map f l)).
Proof. intros Hf. apply Forall_concat, Forall_forall. by intros x (k & -> & _)%list_elem_of_fmap. Qed.

(** The rounds of a conversion loop. *)
Lemma convert_loop (n : nat) l step m body (f : nat -> list Z) dst :
  0 < step -> 0 < m -> step * Z.of_nat n = l -> m * Z.of_nat n = zlen dst ->
  (forall k, zlen (f k) = m) ->
  (forall k d, (k < n)%nat -> zlen d = zlen dst ->
     body (step * Z.of_nat k) (m * Z.of_nat k, d) =
     (d' ← zblit d (m * Z.of_nat k) (f k); Some (m * Z.of_nat k + m, d'))) ->
  (st ← for_step (Z.to_nat l) 0 l step body (0, dst); Some st.2) = Some (concat (map f (seq 0 n))).
Proof.
  intros Hs Hm Hl Hd Hf Hb.
  rewrite (for_step_spec n l step m body f dst) by (done || nia || auto).
  cbn [mbind option_bind snd]. f_equal. apply line_replaced; [|lia]. rewrite (zlen_concat_map f m) by done. lia.
Qed.

Lemma convert_line_format_spec format src width height y dst :
  source_ok format src width height -> 0 <= width -> 0 <= y < height ->
  zlen dst = width * num_channels_of format ->
  convert_line_format src format dst width y = Some (pixel_line format src width y) /\
  zlen (pixel_line format src width y) = width * num_channels_of format /\
  Forall is_u8 (pixel_line format src width y).
Proof.
  intros (Hf & Hu & Hl & Heven) Hw Hy Hd.
  assert (forall k, bytes_per_pixel format * width * y + k <= zlen src \/ bytes_per_pixel format * width < k) as Hin.
  { intros k. destruct (Z.le_gt_cases k (bytes_per_pixel format * width)); [left|by right].
    assert (bytes_per_pixel format * width * (y + 1) <= bytes_per_pixel format * width * height).
    { apply Z.mul_le_mono_nonneg_l; [|lia]. destruct format; cbn; lia. }
    lia. }
  destruct format; cbn [bytes_per_pixel convert_line_format pixel_line] in *;
    try change (num_channels_of _) with 3 in *; try change (num_channels_of _) with 1 in *.
  - split; [|split].
    + replace (width * 2 * y) with (2 * width * y) by lia.
      apply (convert_loop _ _ _ 3); [lia | lia | lia | lia | intros k; by apply rgb565_pixel_ok|].
      intros k d Hk Hdl. specialize (Hin (2 * Z.of_nat k + 2)).
      apply rgb565_round_spec; [done | nia | lia | lia | lia].
    + rewrite (zlen_concat_map _ 3) by (intros k; by apply rgb565_pixel_ok). lia.
    + apply Forall_concat_map. intros k. by apply rgb565_pixel_ok.
  - specialize (Heven eq_refl). pose proof (Z.div_mod width 2 ltac:(lia)).
    assert (0 <= width / 2) by (apply Z.div_pos; lia). split; [|split].
    + replace (width * 2 * y) with (2 * width * y) by lia.
      apply (convert_loop _ _ _ 6); [lia | lia | lia | lia | intros k; by apply yuv422_pixels_ok|].
      intros k d Hk Hdl. specialize (Hin (4 * Z.of_nat k + 4)).
      apply yuv422_round_spec; [done | nia | lia | lia | lia].
    + rewrite (zlen_concat_map _ 6) by (intros k; by apply yuv422_pixels_ok). lia.
    + apply Forall_concat_map. intros k. by apply yuv422_pixels_ok.
  - specialize (Hin width). assert (zlen (zsub src (y * width) width) = width) as Hz by (apply zlen_zsub; nia).
    split; [|split].
    + rewrite (proj2 (Z.leb_le 0 _)), (proj2 (Z.leb_le _ _)) by nia. cbn [andb].
      rewrite zblit_is_Some by lia. cbn [Z.to_nat take app]. rewrite Z.add_0_l.
      f_equal. apply line_replaced; lia.
    + lia.
    + by apply Forall_take, Forall_drop.
  - done.
  - split; [|split].
    + replace (width * 3 * y) with (3 * width * y) by lia.
      apply (convert_loop _ _ _ 3); [lia | lia | lia | lia | intros k; by apply rgb888_pixel_ok|].
      intros k d Hk Hdl. specialize (Hin (3 * Z.of_nat k + 3)).
      apply rgb888_round_spec; [done | nia | lia | lia | lia].
    + rewrite (zlen_concat_map _ 3) by (intros k; by apply rgb888_pixel_ok). lia.
    + apply Forall_concat_map. intros k. by apply rgb888_pixel_ok.
Qed.

(** * Images *)

(** The lines that the encoder is given. *)
Definition image_lines (format : pixformat_t) (src : list Z) (width height : Z) : list (list Z) :=
  map (fun y => pixel_line format src width (Z.of_nat y)) (seq 0 (Z.to_nat height)).

Definition effective_quality (quality : Z) : Z :=
  if quality =? 0 then 1 else if 100 <? quality then 100 else quality.

(** Components and sampling factors for a format. *)
Definition format_sampling (format : pixformat_t) : Z * Z * Z := sampling_of (subsampling_of format).

(** The JPEG file of the image [img]. *)
Definition jpeg_file (quality width height n h v : Z) (p : jpge_params) (img : list (list Z)) : list Z :=
  std_headers quality width height n h v ++
  tail_bytes (scan_bits (std_coder quality) first_dc
    (image_blocks (std_coder quality) p n h v img (row_count p img))).

Lemma zlen_image_lines format src width height : 0 <= height -> zlen (image_lines format src width height) = height.
Proof. intros Hh. unfold zlen, image_lines. rewrite length_map, length_seq. lia. Qed.

Lemma image_lines_get format src width height y :
  0 <= y < height -> zget (image_lines format src width height) y = Some (pixel_line format src width y).
Proof. intros Hy. unfold image_lines. rewrite zget_map_seq by lia. by rewrite Z2Nat.id by lia. Qed.

Lemma image_lines_ok format src width height p n h v :
  source_ok format src width height -> image_params width height (num_channels_of format) n h v p ->
  1 <= width -> 1 <= height -> image_ok p (image_lines format src width height).
Proof.
  intros Hsrc Hp Hw Hh. split; [rewrite zlen_image_lines; lia|].
  apply Forall_forall. intros l (y & -> & Hy)%list_elem_of_fmap. apply list_elem_of_In, in_seq in Hy.
  destruct (convert_line_format_spec format src width height (Z.of_nat y)
    (replicate (Z.to_nat (width * num_channels_of format)) 0)) as (_ & Hl & Hu); [done | lia | lia | |].
  { rewrite zlen_replicate. assert (num_channels_of format = 1 \/ num_channels_of format = 3)
      by (unfold num_channels_of; destruct (decide _); auto). lia. }
  split; [|done]. rewrite (ip_bpp _ _ _ _ _ _ _ Hp), (ip_x _ _ _ _ _ _ _ Hp), Hl.
  unfold num_channels_of. destruct (decide _); cbn [Z.eqb Pos.eqb]; lia.
Qed.

Section Convert.
Context (malloc_lines malloc : Z -> option (list Z)).
Context (Hlines : malloc_ok malloc_lines) (Hmalloc : malloc_ok malloc).
Context (pPut_buf : list (option (list Z)) -> option (list Z) -> bool).
Context (E : failure -> Prop).
Context (src : list Z) (width height : Z) (format : pixformat_t) (quality : Z).
Context (Hsrc : source_ok format src width height).
Context (Hw : 1 <= width <= 65535) (Hh : 1 <= height <= 65535) (Hq : 0 <= quality <= 255).

Abbreviation img := (image_lines format src width height).
Abbreviation q := (effective_quality quality).

(** What is known when convert_image has returned true. *)
Definition converted (s : jpeg_encoder) (n h v : Z) (s' : jpeg_encoder) : Prop :=
  exists p, image_params width height (num_channels_of format) n h v p /\
    concat (omap id (calls (out s'))) = given s ++ jpeg_file q width height n h v p img /\
    exists cs, calls (out s') = cs ++ [None].

(** A callback that never fails, and enough memory. *)
Definition always : Prop := forall cs d, pPut_buf cs d = true.
Definition memory : Prop := (forall k, malloc_lines k <> None) /\ forall k, malloc k <> None.

(** With such a callback the flag stays set and the tables stay. *)
Lemma wpg_and_kept {A} (m : M jpeg_encoder A) t (Q : A -> jpeg_encoder -> Prop) s :
  (always -> maintains (kept t) m) -> (always -> kept t s) -> wpg E m Q s ->
  wpg E m (fun a s' => Q a s' /\ (always -> kept t s')) s.
Proof.
  unfold wpg. intros Hm Hs. destruct (m s) as [[a s']|f] eqn:Er; [|done]. intros HQ. split; [done|].
  intros Ha. specialize (Hm Ha s (Hs Ha)). unfold wpg in Hm. by rewrite Er in Hm.
Qed.

(** The state at the head of the loop over the lines; [pre]: what has been
    written before the scan. *)
Record loop_state (pre : list Z) (p : jpge_params) (n h v : Z) (t : jpge_tables) (st : Z * list Z)
    (s : jpeg_encoder) : Prop := {
  ls_i : 0 <= st.1 <= height;
  ls_line : zlen st.2 = width * num_channels_of format;
  ls_ok : m_all_stream_writes_succeeded (out s) = true;
  ls_imaging : imaging (std_coder q) pre p n h v img st.1 s;
  ls_kept : always -> kept (Some t) s
}.

Lemma effective_quality_range : 1 <= q <= 100.
Proof using Hq.
  unfold effective_quality. destruct (Z.eqb_spec quality 0), (Z.ltb_spec 100 quality); lia.
Qed.

Lemma num_channels_cases : num_channels_of format = 1 \/ num_channels_of format = 3.
Proof. unfold num_channels_of. destruct (decide _); auto. Qed.

(** jpge_init as convert_image calls it. *)
Lemma wpg_init_kept s n h v :
  encoder_ok s -> format_sampling format = (n, h, v) ->
  wpg E (jpge_init pPut_buf malloc_lines false width height (num_channels_of format) q (subsampling_of format))
    (fun r s' => (exists p, image_params width height (num_channels_of format) n h v p /\
         r = m_all_stream_writes_succeeded (out s') /\
         imaging (std_coder q) (given s ++ std_headers q width height n h v) p n h v img 0 s' /\
         ready q (tables s') /\ (always -> kept None s')) \/
       (r = false /\ ~ memory)) s.
Proof using Hlines Hw Hh Hq.
  intros Hs Hsamp. pose proof effective_quality_range. pose proof num_channels_cases as Hnc.
  set (m := jpge_init _ _ _ _ _ _ _ _).
  assert (always -> wpg (fun _ => True) m (fun _ => kept None) s) as Hk by (intros Ha; by apply jpge_init_unbroken).
  assert (wpg E m (fun r s' => (exists p, image_params width height (num_channels_of format) n h v p /\
         r = m_all_stream_writes_succeeded (out s') /\
         imaging (std_coder q) (given s ++ std_headers q width height n h v) p n h v img 0 s' /\
         ready q (tables s')) \/ (r = false /\ ~ memory)) s) as Hm.
  { eapply (wpg_jpge_init pPut_buf E malloc_lines Hlines s width height (num_channels_of format) q
      (subsampling_of format) n h v img); try done; try lia.
    - unfold init_args_ok, subsampling_of, H2V2, Y_ONLY. destruct (decide _), Hnc as [-> | ->]; lia.
    - unfold subsampling_of. by destruct (decide _).
    - intros k s' Hnone _ _ _ _. right. split; [done|]. intros [Hmem _]. by destruct (Hmem k).
    - intros p s' Hip Him Hready. left. by exists p. }
  unfold wpg in *. destruct (m s) as [[r s']|f]; [|done].
  destruct Hm as [(p & H1 & H2 & H3 & H4)|Hm]; [left; by exists p | by right].
Qed.

Lemma wpg_convert_image s n h v :
  encoder_ok s -> format_sampling format = (n, h, v) ->
  wpg E (convert_image malloc_lines malloc pPut_buf src width height format quality)
    (fun r s' => (r = true -> converted s n h v s') /\
                 (always -> memory -> r = true /\ statics_ok (tables s'))) s.
Proof using Hlines Hmalloc Hsrc Hw Hh Hq.
  intros Hs Hsamp. unfold convert_image. fold q.
  pose proof effective_quality_range as Hq'. pose proof num_channels_cases as Hnc.
  wp_step. eapply wpg_mono.
  { apply (wpg_init_kept s n h v Hs Hsamp). }
  cbn beta. intros r s1 [(p & Hip & -> & Him & Hready & Hkeep) | [-> Hno]]; [|cbn [negb]; wp_steps; split; [done|tauto]].
  destruct (m_all_stream_writes_succeeded (out s1)) eqn:Hok; cbn [negb];
    [|wp_steps; split; [done|]; intros Ha; destruct (Hkeep Ha) as [Hk _]; unfold unbroken in Hk; congruence].
  destruct (malloc _) as [line|] eqn:Em; [|wp_steps; split; [done|]; intros _ [_ Hmem]; by destruct (Hmem _ Em)].
  destruct (Hmalloc (width * num_channels_of format) line ltac:(nia) Em) as [Hll _].
  pose proof (ip_geometry _ _ _ _ _ _ _ Hip) as Hg.
  assert (image_ok p img) as Hiok by (apply (image_lines_ok _ _ _ _ _ n h v); (done || lia)).
  assert (always -> kept (Some (tables s1)) s1) as Hk1 by (intros Ha; split; [apply Hkeep, Ha | done]).
  pose proof (rd_statics _ _ Hready) as Hst. revert Hk1 Hst. generalize (tables s1). intros t Hk1 Hst.
  wp_step. apply (wpg_loop E _ (loop_state (given s ++ std_headers q width height n h v) p n h v t) (fun st _ => Z.to_nat (height - st.1))).
  2: { split; cbn [fst snd]; (done || lia). }
  2: { cbn [fst]. lia. }
  clear Hok Him s1 Hready Hkeep Hk1. intros [i ln] s1 [Hi Hln Hok Him Hk]. cbn [fst snd] in *.
  unfold convert_image_round. destruct (Z.ltb_spec i height).
  - destruct (convert_line_format_spec format src width height i ln Hsrc ltac:(lia) ltac:(lia) Hln) as (-> & Hl' & _).
    wp_step. wp_step. wp_step.
    eapply wpg_mono; [apply (wpg_and_kept _ (Some t)); [intros Ha; by apply scanline_unbroken | exact Hk|];
      eapply (wpg_scanline pPut_buf E _ _ p n h v Hg img Hiok i); [exact Him | lia | apply image_lines_get; lia]|].
    cbn beta. rewrite Hok. intros r s2 [[-> Him2] Hk2].
    destruct (m_all_stream_writes_succeeded (out s2)) eqn:Hok2; cbn [negb].
    + wp_steps. cbn [fst snd]. split; [|lia]. split; cbn [fst snd]; (done || lia).
    + wp_steps. cbn [negb]. wp_steps. split; [done|]. intros Ha. destruct (Hk2 Ha) as [Hf _].
      unfold unbroken in Hf. congruence.
  - assert (i = height) as -> by lia. wp_steps. cbn [negb]. wp_step.
    eapply wpg_mono; [apply (wpg_and_kept _ (Some t)); [intros Ha; by apply scanline_unbroken | exact Hk|];
      eapply (wpg_finish_image pPut_buf E _ _ p n h v Hg img Hiok); [|exact Hok]|].
    { by rewrite zlen_image_lines by lia. }
    cbn beta. intros r s2 [(-> & _ & Hc) Hk2].
    destruct (m_all_stream_writes_succeeded (out s2)) eqn:Hok2; cbn [negb].
    + wp_step. unfold jpge_deinit. wp_steps. apply wpg_on_out. wp_steps. split.
      * intros _. exists p. split; [done|]. destruct (Hc Hok2) as [Hcat Hnull]. split; [|exact Hnull].
        cbn [calls out set_mcu_lines set_pass_num set_out set_succeeded]. unfold jpeg_file.
        by rewrite Hcat, <- app_assoc.
      * intros Ha _. split; [done|]. cbn. by destruct (Hk2 Ha) as [_ ->].
    + wp_steps. split; [done|]. intros Ha. destruct (Hk2 Ha) as [Hf _]. unfold unbroken in Hf. congruence.
Qed.
End Convert.

(** * The output buffer *)

(** The buffer holds the data [d], as far as they fit. *)
Record buffered (d : list Z) (b : jpg_buf) : Prop := {
  bf_size : 0 <= jb_size b;
  bf_buf : exists buf, jb_buf b = Some buf /\ zlen buf = jb_size b /\
    take (Z.to_nat (jb_cnt b)) buf = take (Z.to_nat (jb_size b)) d;
  bf_cnt : jb_cnt b = Z.min (jb_size b) (zlen d)
}.

Lemma zlen_take {A} n (l : list A) : 0 <= n -> zlen (take (Z.to_nat n) l) = Z.min n (zlen l).
Proof. intros Hn. unfold zlen. rewrite length_take. lia. Qed.

Lemma put_buf_spec d x b :
  buffered d b -> exists b', put_buf x b = Some b' /\ buffered (d ++ default [] x) b' /\ jb_size b' = jb_size b.
Proof.
  intros [Hs (buf & Hb & Hl & Ht) Hc]. pose proof (zlen_nonneg d).
  destruct x as [x|]; cbn [put_buf from_option id].
  2: { exists b. rewrite app_nil_r. split; [done|]. split; [|done]. split; [done|by exists buf|done]. }
  pose proof (zlen_nonneg x).
  assert ((if jb_size b - jb_cnt b <? zlen x then jb_size b - jb_cnt b else zlen x) =
    Z.min (jb_size b - jb_cnt b) (zlen x)) as -> by (destruct (Z.ltb_spec (jb_size b - jb_cnt b) (zlen x)); lia).
  set (n := Z.min _ _).
  assert (take (Z.to_nat (jb_size b)) (d ++ x) =
          take (Z.to_nat (jb_size b)) d ++ take (Z.to_nat (jb_size b - jb_cnt b)) x) as Happ.
  { rewrite take_app. do 2 f_equal. unfold zlen in *. lia. }
  destruct (Z.eqb_spec n 0) as [Hz|Hne].
  - exists b. split; [done|]. split; [|done]. split; [done| |rewrite zlen_app; lia].
    exists buf. split; [done|]. split; [done|]. rewrite Ht, Happ.
    assert (take (Z.to_nat (jb_size b - jb_cnt b)) x = []) as ->; [|by rewrite app_nil_r].
    destruct (decide (zlen x = 0)).
    + rewrite (zlen_zero_nil x) by lia. apply take_nil.
    + by replace (jb_size b - jb_cnt b) with 0 by lia.
  - rewrite Hb. cbn [mbind option_bind].
    assert (zlen (take (Z.to_nat n) x) = n) as Hn by (rewrite zlen_take; lia).
    rewrite zblit_is_Some by lia. cbn [mbind option_bind]. eexists. split; [reflexivity|].
    split; [|done]. split; cbn [jb_size jb_buf jb_cnt]; [done| |rewrite zlen_app; lia].
    eexists. split; [reflexivity|]. split.
    + unfold zlen in *. rewrite !length_app, length_drop, length_take. lia.
    + rewrite app_assoc. rewrite take_app_zlen.
      * rewrite Ht, Happ. f_equal. unfold n. 
        destruct (Z.le_ge_cases (jb_size b - jb_cnt b) (zlen x)).
        -- by rewrite Z.min_l.
        -- rewrite Z.min_r by lia. unfold zlen in *. rewrite !take_ge by lia. done.
      * rewrite zlen_app, Hn, zlen_take by lia. unfold zlen in *. lia.
Qed.

Lemma put_bufs_spec l d b :
  buffered d b -> exists b', put_bufs l b = Some b' /\ buffered (d ++ concat (omap id l)) b' /\ jb_size b' = jb_size b.
Proof.
  revert d b. induction l as [|x l IH]; intros d b Hb; cbn [put_bufs].
  - exists b. cbn. by rewrite app_nil_r.
  - destruct (put_buf_spec d x b Hb) as (b1 & -> & Hb1 & Hs1). cbn [mbind option_bind].
    destruct (IH _ _ Hb1) as (b' & -> & Hb' & Hs'). exists b'. split; [done|]. split; [|congruence].
    destruct x as [x|]; cbn in *; [by rewrite app_assoc|by rewrite app_nil_r in Hb'].
Qed.

(** * fmt2jpg *)

Section Fmt.
Context (malloc_lines malloc : Z -> option (list Z)) (dst_image : jpeg_encoder).
Context (Hlines : malloc_ok malloc_lines) (Hmalloc : malloc_ok malloc).
Context (Hdst : encoder_ok (set_tables zero_tables dst_image)).
Context (E : failure -> Prop).

Abbreviation always_true := (fun (_ : list (option (list Z))) (_ : option (list Z)) => true).

Definition out_size : Z := 1024 * 1024.

(** The invariant of the static variables of jpge.c. *)
Definition jpg_state_ok (s : jpg_state) : Prop := statics_ok (st_tables s).

(** What fmt2jpg returns is the beginning of the file, all of it if it fits the
    buffer. *)
Definition fmt2jpg_result (src : list Z) (width height : Z) (format : pixformat_t) (quality : Z)
    (o : list Z) (len : Z) : Prop :=
  exists n h v p, format_sampling format = (n, h, v) /\
    image_params width height (num_channels_of format) n h v p /\
    let file := jpeg_file (effective_quality quality) width height n h v p
                  (image_lines format src width height) in
    len = Z.min out_size (zlen file) /\ take (Z.to_nat len) o = take (Z.to_nat out_size) file.

Lemma wpg_convert_put_buf src width height format quality s d :
  jpg_state_ok s -> source_ok format src width height -> 1 <= width <= 65535 -> 1 <= height <= 65535 ->
  0 <= quality <= 255 -> buffered d (s_jpg_buf s) ->
  wpg E (convert_image_put_buf malloc_lines malloc dst_image src width height format quality)
    (fun r s' => jb_size (s_jpg_buf s') = jb_size (s_jpg_buf s) /\
      (r = true -> exists n h v p, format_sampling format = (n, h, v) /\
        image_params width height (num_channels_of format) n h v p /\
        buffered (d ++ jpeg_file (effective_quality quality) width height n h v p
                         (image_lines format src width height)) (s_jpg_buf s')) /\
      (memory malloc_lines malloc -> r = true /\ jpg_state_ok s')) s.
Proof using Hlines Hmalloc Hdst.
  intros Hst Hsrc Hw Hh Hq Hb.
  destruct (format_sampling format) as [[n h] v] eqn:Hsamp.
  set (s0 := set_tables (st_tables s) (set_out (set_calls [] (out dst_image)) dst_image)).
  assert (encoder_ok s0) as Hs0 by (destruct Hdst; by split).
  pose proof (wpg_convert_image malloc_lines malloc Hlines Hmalloc always_true E src width height format quality
    Hsrc Hw Hh Hq s0 n h v Hs0 Hsamp) as Hrun.
  unfold wpg, convert_image_put_buf in *. fold s0.
  destruct (convert_image _ _ _ _ _ _ _ _ _) as [[r e]|f]; [|done]. destruct Hrun as [Hconv Htot].
  destruct (put_bufs_spec (calls (out e)) d (s_jpg_buf s) Hb) as (b' & -> & Hb' & Hsize).
  split; [done|]. split.
  - intros Hr. destruct (Hconv Hr) as (p & Hip & Hcat & _). exists n, h, v, p. split; [done|].
    split; [done|]. cbn [s_jpg_buf]. rewrite Hcat in Hb'. exact Hb'.
  - intros Hmem. by apply Htot.
Qed.

Lemma wpg_fmt2jpg src src_len width height format quality s :
  jpg_state_ok s -> source_ok format src width height -> 1 <= width <= 65535 -> 1 <= height <= 65535 ->
  0 <= quality <= 255 ->
  wpg E (fmt2jpg malloc_lines malloc dst_image src src_len width height format quality)
    (fun r s' => match r with
       | Some (o, len) => fmt2jpg_result src width height format quality o len
       | None => ~ memory malloc_lines malloc
       end /\ (memory malloc_lines malloc -> jpg_state_ok s')) s.
Proof using Hlines Hmalloc Hdst.
  intros Hst Hsrc Hw Hh Hq. unfold fmt2jpg. change (1024 * 1024) with out_size.
  wp_steps. destruct (malloc out_size) as [block|] eqn:Em.
  2: { wp_steps. split; [|done]. intros [_ Hm]. by apply (Hm out_size). }
  destruct (Hmalloc out_size block ltac:(done) Em) as [Hbl _].
  wp_step. eapply wpg_mono.
  { apply (wpg_convert_put_buf src width height format quality _ []); try done.
    split; cbn [s_jpg_buf set_jpg_buf jb_size jb_buf jb_cnt]; [done| |done]. by exists block. }
  cbn beta. intros r s' (Hsize & Hres & Hmem). cbn [s_jpg_buf set_jpg_buf jb_size] in Hsize.
  wp_steps. destruct r; cbn [negb].
  - wp_steps. destruct (Hres eq_refl) as (n & h & v & p & Hsamp & Hip & [_ (buf & -> & _ & Ht) Hc]).
    rewrite Hsize in *. cbn [app] in Ht, Hc. split; [|intros Hm; by apply Hmem].
    exists n, h, v, p. split; [done|]. split; [done|]. by split.
  - wp_steps. split; [intros Hm; by destruct (Hmem Hm)|].
    intros Hm. by destruct (Hmem Hm).
Qed.
End Fmt.

(** The file of a picture is decoded to its blocks. *)
Lemma picture_file_decodes src width height format quality n h v p :
  source_ok format src width height -> 1 <= width <= 65535 -> 1 <= height <= 65535 ->
  0 <= quality <= 255 -> format_sampling format = (n, h, v) ->
  image_params width height (num_channels_of format) n h v p ->
  let q := effective_quality quality in
  let img := image_lines format src width height in
  decode_jpeg (jpeg_file q width height n h v p img) =
    Some (mkImage width height (component_quant n q)
            (image_blocks (std_coder q) p n h v img (row_count p img))).
Proof.
  intros Hsrc Hw Hh Hq Hsamp Hip. cbv zeta.
  destruct (jpg_tables_spec (effective_quality quality) zero_tables) as (t & _ & Hready).
  { split; [done|]. by repeat split. }
  { by apply effective_quality_range. }
  apply (decode_file _ p n h v width height (num_channels_of format) _ t); try done.
  - by apply effective_quality_range.
  - apply (image_lines_ok _ _ _ _ _ n h v); (done || lia).
  - apply zlen_image_lines. lia.
Qed.
