(* ===== verification/TransferTheorems.v ===== *)
(** What mangoHelper.c and mangoCrypto_base64.c compute: conversions of
    numbers, the status line, headers and base64.

    The second part is about transfers: reading and writing, frames, bodies. *)

From S2P Require Import Prelude.
From S2P Require Import CMonad.
From S2P Require Import CString.
From S2P Require Import MangoTypes.
From S2P Require Import MangoHelper.
From S2P Require Import MangoHelperFacts.
From S2P Require Import MangoHttpFacts.
From S2P Require Import MangoBase64.
From S2P Require Import MangoPort.
From S2P Require Import MangoPortFacts.
From S2P Require Import MangoWS.
From S2P Require Import MangoWSFacts.
From S2P Require Import MangoDP.
From S2P Require Import MangoDPFacts.
From S2P Require Import MangoChunkedFacts.
From S2P Require Import MangoSM.
From S2P Require Import MangoInvariant.
From S2P Require Import Mango.
From S2P Require Import MangoSession.

(** An HTTP response, and its bytes in an array of 100. *)
Definition example_header : list Z :=
  bytes "HTTP/1.1 200 OK" ++ CRLF ++ bytes "Content-Length:  42 " ++ CRLF ++ CRLF.
Definition example_array : list Z := example_header ++ replicate 59 0.

(** The digits of a 32-bit number have its value. *)
Lemma dec_digits_facts n :
  is_u32 n ->
  dec_digits n <> [] /\ digits_ok 10 (dec_digits n) /\ zlen (dec_digits n) <= 10 /\
  digits_value 10 0 (dec_digits n) = n.
Proof.
  intros Hn. unfold is_u32 in Hn. unfold dec_digits. split_and!.
  - apply dec_digits_aux_nonempty.
  - apply dec_digits_aux_ok; [lia | constructor].
  - pose proof (dec_digits_aux_length 10 n []) as Hl. rewrite zlen_nil in Hl. lia.
  - rewrite dec_digits_aux_value; [done|]. change (10 ^ Z.of_nat 10) with 10000000000. lia.
Qed.

(** mangoHelper_dec2decstr followed by mangoHelper_decstr2dec gives every
    32-bit number back, inside the 11 bytes the callers provide. *)
Theorem dec_string_roundtrip n buf (u : unit) :
  is_u32 n -> zlen buf = 11 ->
  wp (m <- mangoHelper_dec2decstr n buf 0 ;; mangoHelper_decstr2dec m 0)
     (fun r _ => r = (0, n)) u.
Proof.
  intros Hn Hb. destruct (dec_digits_facts n Hn) as (Hne & Hok & Hl & Hv). wp_step.
  apply wpg_dec2decstr; [done | lia | lia|]. intros m Hm.
  apply (wpg_decstr2dec _ _ _ (dec_digits n) 0); rewrite ?Hv; try done; [apply Hn|].
  by apply (zblit_holds _ _ _ _ Hm).
Qed.

Lemma dec_string_roundtrip_witness :
  wp (m <- mangoHelper_dec2decstr 4294967295 (replicate 11 0) 0 ;; mangoHelper_decstr2dec m 0)
     (fun r _ => r = (0, 4294967295)) tt.
Proof. apply dec_string_roundtrip; [unfold is_u32; lia | reflexivity]. Defined.

(** mangoHelper_dec2hexstr followed by mangoHelper_hexstr2dec gives every
    32-bit number but zero back, inside 9 bytes; for zero mangoHelper_dec2hexstr
    does not return after writing its result but goes on and reads past the end
    of its local array. *)
Theorem hex_string_roundtrip n buf (u : unit) :
  is_u32 n -> zlen buf = 9 ->
  if n =? 0
  then mangoHelper_dec2hexstr n buf 0 u = Stop (Fault "mangoHelper_dec2hexstr")
  else wp (m <- mangoHelper_dec2hexstr n buf 0 ;; mangoHelper_hexstr2dec m 0)
         (fun r _ => r = (0, n)) u.
Proof.
  intros Hn Hb. pose proof (hex_digits_length n). destruct (Z.eqb_spec n 0) as [->|H0].
  - unfold mangoHelper_dec2hexstr, bind. cbn [Z.eqb].
    rewrite (zset_is_Some buf 0 48) by lia. cbn [access ret].
    rewrite zset_is_Some by (rewrite zlen_insert; lia). reflexivity.
  - wp_step. apply wpg_dec2hexstr; [done | done | lia | lia|]. intros m Hm.
    apply (wpg_hexstr2dec _ _ _ (hex_digits n) 0);
      [by apply hex_digits_nonempty | apply hex_digits_ok | done
      | by apply (zblit_holds _ _ _ _ Hm) | reflexivity | discriminate | discriminate|].
    by rewrite hex_digits_value.
Qed.

Lemma hex_string_roundtrip_witness :
  wp (m <- mangoHelper_dec2hexstr 0x1000 (replicate 9 0) 0 ;; mangoHelper_hexstr2dec m 0)
     (fun r _ => r = (0, 0x1000)) tt /\
  mangoHelper_dec2hexstr 0 (replicate 9 0) 0 tt = Stop (Fault "mangoHelper_dec2hexstr").
Proof.
  split.
  - apply (hex_string_roundtrip 0x1000); [unfold is_u32; lia | reflexivity].
  - apply (hex_string_roundtrip 0); [unfold is_u32; lia | reflexivity].
Defined.

(** C34 mangoHelper_httpReponseVerify on the string [s] returns 0 while the
    blank line that ends the header is missing, the status code of a complete
    header that has one in [100, 600), and -1 otherwise; on return the string
    ends before the blank line. *)
Theorem response_verify_correct m s (u : unit) :
  cstr m 0 = Some s ->
  wp (mangoHelper_httpReponseVerify m)
     (fun r _ =>
        let '(status, m') := r in
        status = response_status s /\
        (status = 0 <-> find_sub (CRLF ++ CRLF) s = None) /\
        (status = -1 \/ status = 0 \/ 100 <= status < 600) /\
        match find_sub (CRLF ++ CRLF) s with
        | None => m' = m
        | Some e => cstr m' 0 = Some (take (Z.to_nat (e + 2)) s)
        end) u.
Proof.
  intros Hs. apply (wpg_httpReponseVerify _ _ s); [done|]. split; [done|].
  split; [apply response_status_incomplete|]. split; [apply response_status_range|].
  destruct (find_sub (CRLF ++ CRLF) s) as [e|] eqn:He.
  - by apply response_trim_cstr.
  - unfold response_trim. by rewrite He.
Qed.

Lemma response_verify_correct_witness :
  response_status example_header = 200 /\
  wp (mangoHelper_httpReponseVerify example_array)
     (fun r _ =>
        let '(status, m') := r in
        status = response_status example_header /\
        (status = 0 <-> find_sub (CRLF ++ CRLF) example_header = None) /\
        (status = -1 \/ status = 0 \/ 100 <= status < 600) /\
        match find_sub (CRLF ++ CRLF) example_header with
        | None => m' = example_array
        | Some e => cstr m' 0 = Some (take (Z.to_nat (e + 2)) example_header)
        end) tt.
Proof. split; [reflexivity|]. apply response_verify_correct. vm_compute. reflexivity. Defined.

(** mangoHelper_httpHeaderGet, on a string whose last line is complete,
    returns -1 when no line starts with the name and a colon follows it, else
    1 with the value, without the spaces around it, in the buffer when it
    fits, else 0; the buffer keeps its size. *)
Theorem header_get_correct m p s name v (u : unit) :
  cstr m p = Some s -> ends_crlf s -> header_name name ->
  wp (mangoHelper_httpHeaderGet m p name v (zlen v))
     (fun r _ =>
        let '(result, v') := r in
        zlen v' = zlen v /\
        match header_raw name s with
        | None => result = -1 /\ v' = v
        | Some raw =>
            if zlen raw <? zlen v
            then result = 1 /\ cstr v' 0 = header_value name s
            else result = 0
        end) u.
Proof.
  intros Hs Hcr Hn. apply (wpg_httpHeaderGet _ _ _ s); [done | done | done | done|].
  unfold header_value. destruct (header_raw name s) as [raw|]; [|done].
  split; intros Hl v' Hz.
  - intros Hv. split; [done|]. rewrite (proj2 (Z.ltb_lt _ _)) by done. done.
  - split; [done|]. rewrite (proj2 (Z.ltb_ge _ _)) by lia. done.
Qed.

Lemma header_get_correct_witness :
  header_value (bytes "content-length") (take 39 example_header) = Some (bytes "42") /\
  wp (mangoHelper_httpHeaderGet (take 39 example_header ++ [0]) 0 (bytes "content-length")
        (replicate 11 0) (zlen (replicate 11 0)))
     (fun r _ =>
        let '(result, v') := r in
        zlen v' = zlen (replicate 11 0) /\
        match header_raw (bytes "content-length") (take 39 example_header) with
        | None => result = -1 /\ v' = replicate 11 0
        | Some raw =>
            if zlen raw <? zlen (replicate 11 0)
            then result = 1 /\
                 cstr v' 0 = header_value (bytes "content-length") (take 39 example_header)
            else result = 0
        end) tt.
Proof.
  split; [vm_compute; reflexivity|]. apply header_get_correct.
  - vm_compute. reflexivity.
  - exists (take 37 example_header). vm_compute. reflexivity.
  - split; [discriminate|]. unfold bytes. cbn. repeat (constructor; [discriminate|]). constructor.
Defined.

(** C36 mangoCrypto_base64Encode writes a string that decodes to the data, with
    a terminator, when the encoding and the terminator fit into the buffer of
    [rs] bytes at [p]; when they do not, it returns -1 and has changed no byte
    outside of the buffer. *)
Theorem base64_encode_correct data m p rs (u : unit) :
  Forall is_u8 data -> (zlen data + 2) / 3 * 4 < 2147483648 ->
  0 <= p -> 0 <= rs -> p + rs <= zlen m ->
  wp (mangoCrypto_base64Encode data (zlen data) m p rs)
     (fun r _ =>
        let '(result, m') := r in
        let len := (zlen data + 2) / 3 * 4 in
        zlen m' = zlen m /\
        (if len <? rs
         then result = len /\
              exists s, b64_decode s = Some data /\ zlen s = len /\
                        zblit m p (s ++ [0]) = Some m'
         else result = -1 /\ exists d, zlen d = rs /\ zblit m p d = Some m')) u.
Proof.
  intros Hb Hl Hp Hrs Hfit. pose proof (b64_encode_length data) as Hlen.
  pose proof (b64_roundtrip data Hb) as Hrt.
  apply wpg_base64Encode; [done | done | done | done | lia | |]; intros Hc m' Hm'; cbv zeta;
    (split; [by apply (zblit_zlen _ _ _ _ Hm')|]).
  - rewrite (proj2 (Z.ltb_lt _ _)) by lia. split; [done|]. by exists (b64_encode data).
  - rewrite (proj2 (Z.ltb_ge _ _)) by lia. split; [done|]. eexists. split; [|exact Hm'].
    unfold zlen in *. rewrite length_take. lia.
Qed.

Lemma base64_encode_correct_witness :
  b64_encode (bytes "Aladdin:open sesame") = bytes "QWxhZGRpbjpvcGVuIHNlc2FtZQ==" /\
  wp (mangoCrypto_base64Encode (bytes "user:pw") (zlen (bytes "user:pw")) (replicate 20 0) 2 16)
     (fun r _ =>
        let '(result, m') := r in
        let len := (zlen (bytes "user:pw") + 2) / 3 * 4 in
        zlen m' = zlen (replicate 20 0) /\
        (if len <? 16
         then result = len /\
              exists s, b64_decode s = Some (bytes "user:pw") /\ zlen s = len /\
                        zblit (replicate 20 0) 2 (s ++ [0]) = Some m'
         else result = -1 /\ exists d, zlen d = 16 /\ zblit (replicate 20 0) 2 d = Some m')) tt.
Proof.
  split; [vm_compute; reflexivity|].
  apply base64_encode_correct;
    [unfold bytes; cbn; repeat (constructor; [unfold is_u8; lia|]); constructor
    | reflexivity | lia | lia | vm_compute; discriminate].
Defined.

(** How bytes travel: the transport functions, the websocket frames and the
    data processors. *)

(** The client of the examples: one that has just been connected, with data
    in its working buffer. *)
Definition example_world (data : list Z) : world :=
  mkWorld (set_userFunc true (set_workingBuffer
    (data ++ replicate (Z.to_nat MANGO_WORKING_BUFFER_SZ - length data) 0) zero_client)) [].

(** C35 mangoPort_read (and mangoPort_sslread) stores exactly the bytes the
    transport delivered, in order and inside the buffer it was given; it
    returns their number or -1.  It returns when every recv brings something
    or fails. *)
Theorem port_read_stores E fuel t data datalen timeout w :
  environment_ok E -> is_u16 datalen ->
  0 <= data -> data + datalen <= zlen (workingBuffer (client w)) ->
  (forall tr len, 0 < len -> (sys_recv E tr t len).1 <> 0) -> (Z.to_nat datalen < fuel)%nat ->
  wp (mangoPort_read E fuel t data datalen timeout)
     (fun r w' =>
        exists d, (r = -1 \/ r = zlen d) /\ zlen d <= datalen /\ Forall is_byte d /\
          io_step (trace w) (trace w') d [] [] /\
          exists wb, zblit (workingBuffer (client w)) data d = Some wb /\
            client w' = set_workingBuffer wb (client w)) w.
Proof.
  intros HE Hu Hd Hfit Hlive Hfuel. apply wpg_port_read_total; try done.
  intros r d w' (Hb & Hc & Hl & Hok & Hio) Hr. exists d. split_and!; try done. by eexists.
Qed.

Lemma port_read_stores_witness :
  wp (mangoPort_read (script (-1) (bytes "hello")) 100 PLAIN 8 10 1000)
     (fun r w' =>
        exists d, (r = -1 \/ r = zlen d) /\ zlen d <= 10 /\ Forall is_byte d /\
          io_step [] (trace w') d [] [] /\
          exists wb, zblit (workingBuffer zero_client) 8 d = Some wb /\
            client w' = set_workingBuffer wb zero_client) (mkWorld zero_client []).
Proof.
  apply (port_read_stores _ _ _ _ _ _ (mkWorld zero_client []));
    [apply script_ok; [lia | by apply bytes_of_string] | unfold is_u16; lia | lia
    | vm_compute; discriminate | intros; apply script_live_recv | vm_compute; lia].
Defined.

(** mangoPort_write (and mangoPort_sslwrite) hands a prefix of the data
    over, in order and without repetition, and returns its length or -1; it
    returns when the connection makes progress. *)
Theorem port_write_prefix E fuel t data datalen timeout w :
  environment_ok E -> live_connection E -> 65536 <= Z.of_nat fuel -> u16 datalen <= zlen data ->
  wp (mangoPort_write E fuel t data datalen timeout)
     (fun r w' =>
        client w' = client w /\
        exists k, (r = -1 \/ r = k) /\ 0 <= k <= u16 datalen /\
          io_step (trace w) (trace w') [] (take (Z.to_nat k) data) []) w.
Proof.
  intros HE HL Hf Hfit. apply (can_write_live never E fuel HE HL Hf); [done|].
  intros r k w' (Hc & Hk & Hio) Hr. split; [done|]. by exists k.
Qed.

Lemma port_write_prefix_witness :
  wp (mangoPort_write (script 0 []) (Z.to_nat 65536) PLAIN (bytes "hello") 5 1000)
     (fun r w' =>
        client w' = zero_client /\
        exists k, (r = -1 \/ r = k) /\ 0 <= k <= u16 5 /\
          io_step [] (trace w') [] (take (Z.to_nat k) (bytes "hello")) [])
     (mkWorld zero_client []).
Proof.
  apply (port_write_prefix _ _ _ _ _ _ (mkWorld zero_client []));
    [by apply script_ok | apply script_live | lia | vm_compute; discriminate].
Defined.

(** The select loop of mangoPort_write never ends once a select has timed
    out: the set it passes again is the one the timeout has cleared. *)
Theorem port_write_stuck E fuel t data datalen timeout w :
  environment_ok E ->
  (forall tr usec, (sys_select E tr true true usec).1.1 = 0) ->
  mangoPort_write E fuel t data datalen timeout w = Stop OutOfFuel.
Proof.
  intros HE Hsel. unfold mangoPort_write, mangoPort_timeNow, bind, do_gettimeofday.
  destruct (gettimeofday E (trace w)) as [s us]. cbn [ret].
  destruct fuel as [|n]; [done|]. cbn [loop].
  unfold port_select_body at 1, bind at 1, do_select.
  match goal with |- context [sys_select E ?tr true true ?us] =>
    pose proof (Hsel tr us) as H1; pose proof (select_ok tr true true us) as H2;
    destruct (sys_select E tr true true us) as [[r b] rest] end.
  cbn in H1. subst r. destruct H2 as (_ & Hz & _ & _). rewrite (Hz eq_refl). cbn [ret Z.leb Z.compare].
  by rewrite port_select_stuck.
Qed.

(** An environment where no socket ever becomes ready. *)
Definition blocked : environment := {|
  gettimeofday tr := (0, 0); sys_select tr w watched us := (0, false, 0);
  sys_recv tr t len := (0, []); sys_send tr t d := 0; sys_malloc tr sz := false;
  application tr arg := MANGO_ERR |}.

Lemma blocked_ok : environment_ok blocked.
Proof.
  split; [intros tr t len Hl; split_and!; [lia | lia | done | constructor]
         | intros tr t d; cbn; pose proof (zlen_nonneg d); lia
         | intros; cbn; split_and!; intros; done || lia].
Qed.

Lemma port_write_stuck_witness :
  mangoPort_write blocked 1000 PLAIN (bytes "hello") 5 10000 (mkWorld zero_client []) =
    Stop OutOfFuel.
Proof. apply port_write_stuck; [exact blocked_ok | done]. Defined.

(** C6 mangoWS_frameSend returns, and returns MANGO_OK only when it has handed
    over a complete frame that a receiver decodes to the type and the payload;
    on an error it has handed over a part of that frame. *)
Theorem ws_frame_sent E fuel buf type payload w :
  environment_ok E -> live_connection E -> ~ malloc_fails E -> 65536 <= Z.of_nat fuel ->
  sent_payload type buf = Some payload -> Forall is_u8 buf -> is_u32 (zlen buf + 14) ->
  wp (mangoWS_frameSend E fuel buf (zlen buf) type)
     (fun err w' =>
        client w' = client w /\
        exists frame,
          ws_decode frame = Some (ws_frame_type_code type, payload) /\
          (err = MANGO_OK /\ io_step (trace w) (trace w') [] frame [] \/
           err = MANGO_ERR /\ exists k, io_step (trace w) (trace w') [] (take k frame) [])) w.
Proof.
  intros HE HL Hm Hf Hp Hb Hl.
  apply (wpg_frameSend E never fuel _ _ payload); [by apply can_write_live | done | done | done|].
  intros err w' Hs. split; [apply Hs|].
  apply (ws_sent_decoded E w type payload err w' Hs Hm).
  unfold is_u32 in Hl. change (256 ^ 8) with 18446744073709551616.
  assert (zlen payload <= Z.max 2 (zlen buf)); [|lia].
  destruct type; try done; injection Hp as <-; rewrite ?zlen_cons, ?zlen_nil; lia.
Qed.

Lemma ws_frame_sent_witness :
  wp (mangoWS_frameSend (script 0 []) (Z.to_nat 65536) (bytes "Hello") (zlen (bytes "Hello"))
        MANGO_WS_FRAME_TYPE_TEXT)
     (fun err w' =>
        client w' = zero_client /\
        exists frame,
          ws_decode frame = Some (1, bytes "Hello") /\
          (err = MANGO_OK /\ io_step [] (trace w') [] frame [] \/
           err = MANGO_ERR /\ exists k, io_step [] (trace w') [] (take k frame) []))
     (mkWorld zero_client []).
Proof.
  apply (ws_frame_sent _ _ _ MANGO_WS_FRAME_TYPE_TEXT _ (mkWorld zero_client []));
    [by apply script_ok | apply script_live | intros (? & ? & ?); done | lia
    | reflexivity | by apply bytes_of_string | unfold is_u32; vm_compute; split; congruence].
Defined.

(** mangoIDP_raw hands the received bytes to the application once and in
    order, counts them, and reports completion exactly when the count reaches
    the Content-Length; with Content-Length 0 it completes at once, and
    without bytes it asks for more. *)
Theorem idp_raw_correct E buf buflen w :
  userFunc (client w) = true -> 0 <= buf -> is_u16 buflen ->
  buf + buflen < zlen (workingBuffer (client w)) ->
  wp (mangoIDP_raw E buf buflen DPArgs_IDPRaw)
     (fun r w' =>
        let a := IDPArgsRaw (client w) in
        let p := u32 (idp_fileSzProcessed a + buflen) in
        if idp_fileSz a =? 0 then r = (MANGO_OK, 0, true) /\ w' = w
        else if buflen =? 0 then r = (MANGO_ERR_MOREDATANEEDED, 0, false) /\ w' = w
        else
          (r.1.1 = MANGO_OK \/ r.1.1 = MANGO_ERR_APPABORTED) /\ r.1.2 = buflen /\
          r.2 = (p =? idp_fileSz a) /\
          IDPArgsRaw (client w') = mkIDPRaw (idp_fileSz a) p /\
          workingBuffer (client w') = <[Z.to_nat (buf + buflen) := 0]> (workingBuffer (client w)) /\
          io_step (trace w) (trace w') [] []
            [data_arg MANGO_ARG_TYPE_HTTP_DATA_RECEIVED
               (zsub (workingBuffer (client w)) buf buflen) None]) w.
Proof.
  intros Hu Hb Hl Hfit. apply wpg_IDP_raw; [done | done | done | done | ..].
  - intros Hz. cbv zeta. by destruct (Z.eqb_spec (idp_fileSz (IDPArgsRaw (client w))) 0).
  - intros Hz H0. cbv zeta. destruct (Z.eqb_spec (idp_fileSz (IDPArgsRaw (client w))) 0); [done|].
    by destruct (Z.eqb_spec buflen 0).
  - intros Hz H0 err tr' He Hio. cbv zeta.
    destruct (Z.eqb_spec (idp_fileSz (IDPArgsRaw (client w))) 0); [done|].
    by destruct (Z.eqb_spec buflen 0).
Qed.

Lemma idp_raw_correct_witness :
  let w := mkWorld (set_IDPArgsRaw (mkIDPRaw 5 0) (client (example_world (bytes "hello")))) [] in
  idp_fileSz (IDPArgsRaw (client w)) = 5 /\
  wp (mangoIDP_raw (script 0 []) 0 5 DPArgs_IDPRaw)
     (fun r w' =>
        let a := IDPArgsRaw (client w) in
        let p := u32 (idp_fileSzProcessed a + 5) in
        if idp_fileSz a =? 0 then r = (MANGO_OK, 0, true) /\ w' = w
        else if 5 =? 0 then r = (MANGO_ERR_MOREDATANEEDED, 0, false) /\ w' = w
        else
          (r.1.1 = MANGO_OK \/ r.1.1 = MANGO_ERR_APPABORTED) /\ r.1.2 = 5 /\
          r.2 = (p =? idp_fileSz a) /\
          IDPArgsRaw (client w') = mkIDPRaw (idp_fileSz a) p /\
          workingBuffer (client w') = <[Z.to_nat (0 + 5) := 0]> (workingBuffer (client w)) /\
          io_step (trace w) (trace w') [] []
            [data_arg MANGO_ARG_TYPE_HTTP_DATA_RECEIVED
               (zsub (workingBuffer (client w)) 0 5) None]) w.
Proof.
  split; [reflexivity|].
  apply idp_raw_correct; [reflexivity | lia | unfold is_u16; lia | vm_compute; reflexivity].
Defined.

(** C4 mangoIDP_chunked decodes the chunked coding however the stream is cut
    into buffers: if the unread bytes [U] followed by the bytes [F] still to
    come carry the body [D] and the trailer [T], a call hands the application
    the next part of the body, and either the body is complete, or the rest of
    the stream carries the rest of the body, or the application refused. *)
Theorem idp_chunked_decodes E buf U F D T w :
  let a := IDPArgsChunked (client w) in
  userFunc (client w) = true -> 0 <= buf -> zlen U <= 65535 ->
  holds (workingBuffer (client w)) buf (U ++ [0]) ->
  chunk_args_ok a -> chunked_rest (chunk_state a) (chunk_left a) (U ++ F) D T ->
  wp (mangoIDP_chunked E buf (zlen U) DPArgs_IDPChunked) (chunked_post E w U F D T) w.
Proof. intros a Hu Hb Hl Hh Ha Hr. by apply (wpg_IDP_chunked E never buf U F D T). Qed.

(** The client at the start of a chunked body that lies in its buffer. *)
Definition chunked_world (data : list Z) : world :=
  mkWorld (set_IDPArgsChunked (mkIDPChunked 1 0 0) (client (example_world data))) [].

Lemma idp_chunked_decodes_witness :
  chunked_rest 1 0 ((encode_chunks 3 (bytes "hello") ++ bytes "0") ++ [13; 10; 13; 10])
    (bytes "hello") [] /\
  wp (mangoIDP_chunked (script 0 []) 0 (zlen (encode_chunks 3 (bytes "hello") ++ bytes "0"))
        DPArgs_IDPChunked)
     (chunked_post (script 0 []) (chunked_world (encode_chunks 3 (bytes "hello") ++ bytes "0"))
        (encode_chunks 3 (bytes "hello") ++ bytes "0") [13; 10; 13; 10] (bytes "hello") [])
     (chunked_world (encode_chunks 3 (bytes "hello") ++ bytes "0")).
Proof.
  assert (chunked_rest 1 0 ((encode_chunks 3 (bytes "hello") ++ bytes "0") ++ [13; 10; 13; 10])
    (bytes "hello") []) as Hr.
  { rewrite <- app_assoc. rewrite <- (app_nil_r (bytes "hello")) at 2.
    apply (encode_chunks_rest 3 ltac:(lia) 5); [done | apply last_chunk_rest]. }
  split; [exact Hr|].
  apply idp_chunked_decodes; [done | lia | vm_compute; discriminate | | done | exact Hr].
  apply holds_app. split; [vm_compute; repeat split | vm_compute; repeat split].
Defined.

(** A client that can receive a chunked body in these pieces: it is at the
    start of a body, its application takes all it is given, and the buffer has
    room for a piece behind the bytes that may be left unread. *)
Definition receiver_ready (E : environment) (pieces : list (list Z)) (w : world) : Prop :=
  ~ app_refuses E /\ userFunc (client w) = true /\
  IDPArgsChunked (client w) = mkIDPChunked 1 0 0 /\
  Forall (fun p => zlen p + 256 <= 65535 /\
                   zlen p + 257 <= zlen (workingBuffer (client w))) pieces.

(** C5 A body given to mangoODP_chunked in any buffers (not empty, of at most
    65535 bytes) and ended with the empty buffer is received: when every call
    returned MANGO_OK, mangoIDP_chunked, reading what was sent in any pieces
    (each leaving 257 bytes of the working buffer free), completes and has
    given the application exactly the body.  When a write failed, a part of
    the chunked coding has been sent. *)
Theorem chunked_roundtrip E fuel bufs sz w :
  environment_ok E -> live_connection E -> 65536 <= Z.of_nat fuel -> Forall buffer_ok bufs ->
  0 < sz -> sz + 13 <= 65535 -> sz + 13 <= zlen (workingBuffer (client w)) ->
  ODPArgsChunked (client w) = mkODPChunked (Some 0) (sz + 13) ->
  wp (send_body E fuel bufs)
     (fun ok w' =>
        exists tx, io_step (trace w) (trace w') [] tx [] /\
        (if ok
         then forall E' pieces v, receiver_ready E' pieces v -> concat pieces = tx ->
          wp (receive_body E' [] pieces)
             (fun complete v' =>
                complete = true /\
                exists calls, io_step (trace v) (trace v') [] [] calls /\
                  body_of calls = concat bufs) v
         else exists k, tx = take k (body_code sz bufs))) w.
Proof.
  intros HE HL Hf Hb Hsz Hsz2 Hfit Ha.
  apply (wpg_send_body E never fuel sz); try done; [by apply can_write_live|].
  intros ok tx w' Hio Htx. exists tx. split; [done|]. destruct ok; [|done].
  intros E' pieces v (Happ & Hu & Hc & Hp) Hcut.
  assert (concat pieces = body_code sz bufs) as Hcode by congruence.
  apply (wpg_receive_body E' never [] pieces (concat bufs)); rewrite ?Hc; try done.
  - intros ->. cbn in Hcode. unfold body_code in Hcode.
    apply (f_equal zlen) in Hcode. rewrite zlen_app in Hcode. change (zlen last_chunk) with 5 in Hcode.
    change (zlen (@nil Z)) with 0 in Hcode.
    pose proof (zlen_nonneg (concat (map (encode_chunks sz) bufs))). lia.
  - cbn [app]. rewrite Hcode. apply body_code_rest. lia.
  - intros calls v' Hio2 Hb2. split; [done|]. by exists calls.
Qed.

(** The client at the start of sending a chunked body, in chunks of 4 bytes. *)
Definition sending_world : world :=
  mkWorld (set_ODPArgsChunked (mkODPChunked (Some 0) 17) (client (example_world []))) [].

Definition sent_by (r : outcome (bool * world)) : option (list Z) :=
  match r with Ok (true, w) => Some (accepted (trace w)) | _ => None end.

Definition received_by (r : outcome (bool * world)) : option (list Z) :=
  match r with Ok (true, w) => Some (body_of (app_calls (trace w))) | _ => None end.

Lemma chunked_roundtrip_witness :
  let bufs := [bytes "hello "; bytes "world"] in
  let sent := send_body (script 0 []) (Z.to_nat 65536) bufs sending_world in
  sent_by sent = Some (body_code 4 bufs) /\
  (let code := body_code 4 bufs in
   received_by (receive_body (script 0 []) [] [take 1 code; take 9 (drop 1 code); drop 10 code]
                  (chunked_world [])) = Some (bytes "hello world")) /\
  wp (send_body (script 0 []) (Z.to_nat 65536) bufs)
     (fun ok w' =>
        exists tx, io_step [] (trace w') [] tx [] /\
        (if ok
         then forall E' pieces v, receiver_ready E' pieces v -> concat pieces = tx ->
          wp (receive_body E' [] pieces)
             (fun complete v' =>
                complete = true /\
                exists calls, io_step (trace v) (trace v') [] [] calls /\
                  body_of calls = bytes "hello world") v
         else exists k, tx = take k (body_code 4 bufs))) sending_world.
Proof.
  split; [vm_compute; reflexivity|]. split; [vm_compute; reflexivity|].
  apply (chunked_roundtrip (script 0 []) (Z.to_nat 65536) [bytes "hello "; bytes "world"] 4
    sending_world);
    [by apply script_ok | apply script_live | lia | repeat constructor; done | lia | lia
    | vm_compute; discriminate | reflexivity].
Defined.
