(* ===== verification/ClientTheorems.v ===== *)
(** The API of the client: sessions, building a request, exchanging data, and
    complete runs. *)

From S2P Require Import Prelude.
From S2P Require Import CMonad.
From S2P Require Import CString.
From S2P Require Import MangoTypes.
From S2P Require Import MangoHelper.
From S2P Require Import MangoHelperFacts.
From S2P Require Import MangoHttpFacts.
From S2P Require Import MangoBase64.
From S2P Require Import MangoPort.
From S2P Require Import MangoPortFacts.
From S2P Require Import MangoWS.
From S2P Require Import MangoWSFacts.
From S2P Require Import MangoDP.
From S2P Require Import MangoDPFacts.
From S2P Require Import MangoChunkedFacts.
From S2P Require Import MangoSM.
From S2P Require Import MangoInvariant.
From S2P Require Import Mango.
From S2P Require Import MangoApiFacts.
From S2P Require Import MangoSession.

(** * Sessions *)

(** C1 Whatever the server, the network and the callback do, a client that is
    connected and then used in any order, requests being built before they are
    processed, is at rest after every call: in one of the five states that
    wait for the application, with the invariant of that state, nothing
    subscribed, its buffer indices in bounds, and the request under
    construction terminated by a line end. *)
Theorem session_at_rest E fuel ready w :
  environment_ok E -> session E fuel ready w ->
  resting (client w) /\ resting_state (curState (client w)) = true /\
  (ready = true -> request_ready (client w)).
Proof.
  intros HE Hs. destruct (session_invariant _ _ _ _ Hs) as [Hrest Hreq].
  split; [done|]. split; [by apply resting_resting_state|].
  intros Hr. apply request_built_ready; [by apply resting_wb_ok | by apply Hreq].
Qed.

(** The clients of the examples: connected, and with a request built. *)
Definition example_start : world := world_after [] [].
Definition example_built : world :=
  world_after [] [Call_httpRequestNew (bytes "/") MANGO_HTTP_METHOD_GET].

Lemma example_start_session : session (script 0 []) 100 false example_start.
Proof. apply world_after_session. vm_compute. reflexivity. Qed.

Lemma example_built_session : session (script 0 []) 100 true example_built.
Proof. apply world_after_session. vm_compute. reflexivity. Qed.

Lemma session_at_rest_witness :
  session (script 0 []) 100 true example_built /\ resting (client example_built) /\
  resting_state (curState (client example_built)) = true /\
  (true = true -> request_ready (client example_built)).
Proof.
  split; [exact example_built_session|].
  apply (session_at_rest (script 0 []) 100 true example_built);
    [apply script_silent_ok | exact example_built_session].
Defined.

(** C2 In a session every call that is allowed returns, and reads and writes
    inside its buffers, except for the failures listed in [sm_failure]: size
    lines of a chunked body of 256 bytes and more, a Content-Length of more
    than 10 characters, and an environment that keeps the client waiting. *)
Theorem session_call_safe E fuel ready a w :
  environment_ok E -> session E fuel ready w -> call_allowed ready a ->
  (exists err w', do_call E fuel a w = Ok (err, w')) \/
  (exists f, do_call E fuel a w = Stop f /\ sm_failure f).
Proof.
  intros HE Hs Ha. pose proof (wpg_do_call _ fuel _ _ _ (session_invariant _ _ _ _ Hs) Ha) as Hw.
  unfold wpg in Hw. destruct (do_call E fuel a w) as [[err w']|f]; [left; by do 2 eexists|].
  right. by exists f.
Qed.

Lemma session_call_safe_witness :
  (exists err w', do_call (script 0 []) 100 Call_httpRequestProcess example_built = Ok (err, w')) \/
  (exists f, do_call (script 0 []) 100 Call_httpRequestProcess example_built = Stop f /\ sm_failure f).
Proof.
  apply (session_call_safe (script 0 []) 100 true Call_httpRequestProcess example_built);
    [apply script_silent_ok | exact example_built_session | reflexivity].
Defined.

(** A call that the state of a session does not support is refused with the
    error of the state, and changes nothing but the error. *)
Theorem refused_call_exact E fuel ready ev err w :
  environment_ok E -> session E fuel ready w -> fuel <> O -> is_api_event ev = true ->
  refusal (curState (client w)) ev = Some err ->
  mangoSM_PROCESS E fuel ev w = Ok (err, mkWorld (set_smExitError err (client w)) (trace w)).
Proof.
  intros HE Hs Hf Hev Hr. apply PROCESS_refused; try done.
  by apply (session_invariant _ _ _ _ Hs).
Qed.

Lemma refused_call_exact_witness :
  mangoSM_PROCESS (script 0 []) 100 EVENT_APICALL_wsClose example_start =
    Ok (MANGO_ERR_APICALLNOTSUPPORTED,
        mkWorld (set_smExitError MANGO_ERR_APICALLNOTSUPPORTED (client example_start))
          (trace example_start)).
Proof.
  apply (refused_call_exact (script 0 []) 100 false);
    [apply script_silent_ok | exact example_start_session | discriminate | reflexivity
    | vm_compute; reflexivity].
Defined.

(** * Building a request *)

(** mango_httpRequestNew leaves the request line and the empty line in the
    buffer, terminated, and fails, with an empty buffer, exactly when they do
    not fit or the method has no request line. *)
Theorem httpRequestNew_builds URI method w :
  zlen (workingBuffer (client w)) = MANGO_WORKING_BUFFER_SZ -> zlen URI <= 65535 ->
  wp (mango_httpRequestNew URI method)
     (fun err w' =>
        trace w' = trace w /\
        match method_token method with
        | Some token =>
            let text := request_line token URI in
            if zlen text <=? MANGO_WB_TOT_SZ
            then err = MANGO_OK /\ request_started (client w) method text (client w')
            else err = MANGO_ERR /\ request_started (client w) method [] (client w')
        | None => err = MANGO_ERR /\ request_started (client w) method [] (client w')
        end) w.
Proof.
  intros Hz HU. apply wpg_httpRequestNew; [done | done | |].
  - intros token c Htok Hfit Hst. split; [done|]. rewrite Htok. cbv zeta.
    by rewrite (proj2 (Z.leb_le _ _)).
  - intros c Hbig Hst. split; [done|]. destruct (method_token method) as [token|]; [|done].
    cbv zeta. specialize (Hbig token eq_refl). by rewrite (proj2 (Z.leb_gt _ _)).
Qed.

Lemma httpRequestNew_builds_witness :
  wp (mango_httpRequestNew (bytes "/index.html") MANGO_HTTP_METHOD_HEAD)
     (fun err w' =>
        trace w' = trace example_start /\
        match method_token MANGO_HTTP_METHOD_HEAD with
        | Some token =>
            let text := request_line token (bytes "/index.html") in
            if zlen text <=? MANGO_WB_TOT_SZ
            then err = MANGO_OK /\
              request_started (client example_start) MANGO_HTTP_METHOD_HEAD text (client w')
            else err = MANGO_ERR /\
              request_started (client example_start) MANGO_HTTP_METHOD_HEAD [] (client w')
        | None => err = MANGO_ERR /\
            request_started (client example_start) MANGO_HTTP_METHOD_HEAD [] (client w')
        end) example_start.
Proof.
  apply (httpRequestNew_builds (bytes "/index.html") MANGO_HTTP_METHOD_HEAD example_start);
    [vm_compute; reflexivity | vm_compute; discriminate].
Defined.

(** mango_httpHeaderSet replaces the empty line of the request by the
    header line and an empty line when they fit, and otherwise fails and
    leaves the request as it was. *)
Theorem httpHeaderSet_atomic name value p w :
  let line := name ++ bytes ": " ++ value ++ CRLF ++ CRLF in
  wb_ok (client w) -> workingBufferIndexLeft (client w) = 0 ->
  request_text (client w) = p ++ CRLF -> p <> [] ->
  zlen name <= 65535 -> zlen value <= 65535 ->
  wp (mango_httpHeaderSet name value)
     (fun err w' =>
        trace w' = trace w /\
        if zlen (p ++ line) <=? MANGO_WB_TOT_SZ
        then err = MANGO_OK /\ request_becomes (client w) (p ++ line) (client w')
        else err = MANGO_ERR /\ request_becomes (client w) (p ++ CRLF) (client w')) w.
Proof.
  intros line Hwb Hl Htxt Hp Hn Hv. apply (wpg_httpHeaderSet _ name value p); try done.
  - intros Hfit c Hb. split; [done|]. by rewrite (proj2 (Z.leb_le _ _)).
  - intros Hbig c Hb. split; [done|]. by rewrite (proj2 (Z.leb_gt _ _)).
Qed.

Lemma example_built_facts :
  wb_ok (client example_built) /\ workingBufferIndexLeft (client example_built) = 0 /\
  request_text (client example_built) = (bytes "GET / HTTP/1.1" ++ CRLF) ++ CRLF.
Proof. vm_compute. by repeat split. Qed.

Lemma httpHeaderSet_atomic_witness :
  let p := bytes "GET / HTTP/1.1" ++ CRLF in
  let line := bytes "Host" ++ bytes ": " ++ bytes "x" ++ CRLF ++ CRLF in
  request_text (client example_built) = p ++ CRLF /\
  wp (mango_httpHeaderSet (bytes "Host") (bytes "x"))
     (fun err w' =>
        trace w' = trace example_built /\
        if zlen (p ++ line) <=? MANGO_WB_TOT_SZ
        then err = MANGO_OK /\ request_becomes (client example_built) (p ++ line) (client w')
        else err = MANGO_ERR /\ request_becomes (client example_built) (p ++ CRLF) (client w'))
     example_built.
Proof.
  destruct example_built_facts as (Hwb & Hl & Htxt). split; [exact Htxt|].
  apply (httpHeaderSet_atomic (bytes "Host") (bytes "x") (bytes "GET / HTTP/1.1" ++ CRLF)
           example_built);
    [exact Hwb | exact Hl | exact Htxt | discriminate | vm_compute; discriminate
    | vm_compute; discriminate].
Defined.

(** mango_httpAuthSet with MANGO_HTTP_AUTH__BASIC adds the header of RFC
    7617, the base64 encoding of user:password, when the credentials have at
    most 30 characters and the request fits, and otherwise leaves the request
    as it was; any other scheme is refused, but the empty line that ends the
    request is lost. *)
Theorem httpAuthSet_basic auth user pass p w :
  wb_ok (client w) -> workingBufferIndexLeft (client w) = 0 ->
  request_text (client w) = p ++ CRLF -> p <> [] -> is_string user -> is_string pass ->
  wp (mango_httpAuthSet auth user pass)
     (fun err w' =>
        trace w' = trace w /\
        match auth with
        | Some MANGO_HTTP_AUTH__BASIC =>
            if (zlen user + zlen pass <=? 30) &&
               (zlen (p ++ basic_auth user pass) <=? MANGO_WB_TOT_SZ)
            then err = MANGO_OK /\
              request_becomes (client w) (p ++ basic_auth user pass) (client w')
            else err = MANGO_ERR /\ request_becomes (client w) (p ++ CRLF) (client w')
        | None =>
            err = MANGO_ERR /\ client w' = set_workingBufferIndexRight (zlen p) (client w)
        end) w.
Proof.
  intros Hwb Hl Htxt Hp Hu Hs. destruct auth as [[]|].
  - apply (wpg_httpAuthSet _ user pass p); try done.
    + intros [H1 H2] c Hb. split; [done|].
      rewrite (proj2 (Z.leb_le _ _)) by lia. by rewrite (proj2 (Z.leb_le _ _)).
    + intros Hbig c Hb. split; [done|].
      destruct (Z.leb_spec (zlen user + zlen pass) 30); [|done].
      destruct (Z.leb_spec (zlen (p ++ basic_auth user pass)) MANGO_WB_TOT_SZ); [|done].
      exfalso. apply Hbig. split; [lia | done].
  - by apply (wpg_httpAuthSet_unknown _ user pass p).
Qed.

Lemma httpAuthSet_basic_witness :
  let p := bytes "GET / HTTP/1.1" ++ CRLF in
  wp (mango_httpAuthSet None (bytes "u") (bytes "p"))
     (fun err w' =>
        trace w' = trace example_built /\
        err = MANGO_ERR /\
        client w' = set_workingBufferIndexRight (zlen p) (client example_built)) example_built.
Proof.
  destruct example_built_facts as (Hwb & Hl & Htxt).
  apply (httpAuthSet_basic None (bytes "u") (bytes "p") (bytes "GET / HTTP/1.1" ++ CRLF)
           example_built);
    [exact Hwb | exact Hl | exact Htxt | discriminate | by repeat constructor
    | by repeat constructor].
Defined.

(** * Exchanging data *)

(** * Exchanging data *)

(** Clients that have reached the states in which data are exchanged. *)
Definition example_sending : world :=
  world_after (padded "HTTP/1.1 100 Continue")
    (request_calls MANGO_HTTP_METHOD_POST "Content-Length" "11").
Definition example_chunking : world :=
  world_after (padded "HTTP/1.1 100 Continue")
    (request_calls MANGO_HTTP_METHOD_POST "Transfer-Encoding" "chunked").
Definition example_websocket : world :=
  world_after (padded "HTTP/1.1 101 Switching Protocols")
    (request_calls MANGO_HTTP_METHOD_GET "Upgrade" "websocket").

Lemma world_after_resting input calls ready :
  Forall is_byte input -> fst <$> after_calls input calls = Some ready ->
  resting (client (world_after input calls)).
Proof.
  intros Hb Hr. apply world_after_session in Hr.
  pose proof (script_ok 0 input ltac:(lia) Hb). by apply (session_invariant _ _ _ _ Hr).
Qed.

Lemma example_sending_facts :
  resting (client example_sending) /\
  curState (client example_sending) = mangoSM__HTTP_SENDING_DATA /\
  outputDataProcessor (client example_sending) = Some mangoODP_RAW /\
  ODPArgsRaw (client example_sending) = mkODPRaw 11 0.
Proof.
  split; [|by vm_compute]. unfold example_sending; apply (world_after_resting _ _ false); [|vm_compute; reflexivity].
  apply bytes_of_string. vm_compute. reflexivity.
Qed.

Lemma example_chunking_facts :
  resting (client example_chunking) /\
  curState (client example_chunking) = mangoSM__HTTP_SENDING_DATA /\
  outputDataProcessor (client example_chunking) = Some mangoODP_CHUNKED.
Proof.
  split; [|by vm_compute]. unfold example_chunking; apply (world_after_resting _ _ false); [|vm_compute; reflexivity].
  apply bytes_of_string. vm_compute. reflexivity.
Qed.

Lemma example_websocket_facts :
  resting (client example_websocket) /\
  curState (client example_websocket) = mangoSM__WS_CONNECTED.
Proof.
  split; [|by vm_compute]. unfold example_websocket; apply (world_after_resting _ _ false); [|vm_compute; reflexivity].
  apply bytes_of_string. vm_compute. reflexivity.
Qed.

(** C19 mango_httpDataSend during a request with a Content-Length: data that
    would exceed it are refused and abort the request; otherwise the bytes are
    sent unchanged and counted, or a write timeout aborts the request after a
    part of them.  The call returns. *)
Theorem httpDataSend_content_length E fuel buf w :
  environment_ok E -> live_connection E -> 65536 <= Z.of_nat fuel ->
  resting (client w) -> curState (client w) = mangoSM__HTTP_SENDING_DATA ->
  outputDataProcessor (client w) = Some mangoODP_RAW -> buf <> [] -> zlen buf <= 65535 ->
  wp (mango_httpDataSend E fuel buf (zlen buf))
     (fun err w' =>
        let a := ODPArgsRaw (client w) in
        let p := u32 (odp_fileSzProcessed a + zlen buf) in
        if odp_fileSz a <? p
        then err = MANGO_ERR_CONTENTLENGTH /\ curState (client w') = mangoSM__ABORTED /\
          quiet (trace w) (trace w')
        else
          err = MANGO_OK /\ curState (client w') = mangoSM__HTTP_SENDING_DATA /\
            ODPArgsRaw (client w') = mkODPRaw (odp_fileSz a) p /\
            io_step (trace w) (trace w') [] buf [] \/
          err = MANGO_ERR_WRITETIMEOUT /\ curState (client w') = mangoSM__ABORTED /\
            exists k, io_step (trace w) (trace w') [] (take k buf) []) w.
Proof.
  intros HE HL Hf Hrest Hc Ho Hne Hl.
  apply wpg_httpDataSend_raw; [by apply can_write_live | lia | done.. | | |].
  - intros Hlt w' Hq Hc'. lazy zeta. by rewrite (proj2 (Z.ltb_lt _ _)).
  - intros Hle w' Hio Hc' Ha. lazy zeta. rewrite (proj2 (Z.ltb_ge _ _)) by done. by left.
  - intros Hle w' k Hio Hc'. lazy zeta. rewrite (proj2 (Z.ltb_ge _ _)) by done. right.
    split; [done|]. split; [done|]. by exists k.
Qed.

Lemma httpDataSend_content_length_witness :
  wp (mango_httpDataSend (script 0 []) (Z.to_nat 65536) (bytes "hello world")
        (zlen (bytes "hello world")))
     (fun err w' =>
        err = MANGO_OK /\ curState (client w') = mangoSM__HTTP_SENDING_DATA /\
          ODPArgsRaw (client w') = mkODPRaw 11 11 /\
          io_step (trace example_sending) (trace w') [] (bytes "hello world") [] \/
        err = MANGO_ERR_WRITETIMEOUT /\ curState (client w') = mangoSM__ABORTED /\
          exists k, io_step (trace example_sending) (trace w') [] (take k (bytes "hello world")) [])
     example_sending.
Proof.
  destruct example_sending_facts as (Hr & Hc & Ho & Ha).
  eapply wpg_mono.
  { apply (httpDataSend_content_length (script 0 []) (Z.to_nat 65536) (bytes "hello world")
             example_sending);
      [apply script_silent_ok | apply script_live | lia | exact Hr | exact Hc | exact Ho
      | discriminate | vm_compute; discriminate]. }
  intros err w'. cbv beta zeta. rewrite Ha. exact id.
Defined.

(** C20 mango_httpDataSend during a chunked request: the bytes leave as chunks
    of at most 4082 bytes, or a write timeout aborts the request after a part
    of the code.  The call returns. *)
Theorem httpDataSend_chunked E fuel buf w :
  environment_ok E -> live_connection E -> 65536 <= Z.of_nat fuel ->
  resting (client w) -> curState (client w) = mangoSM__HTTP_SENDING_DATA ->
  outputDataProcessor (client w) = Some mangoODP_CHUNKED -> buf <> [] -> zlen buf <= 65535 ->
  wp (mango_httpDataSend E fuel buf (zlen buf))
     (fun err w' =>
        err = MANGO_OK /\ curState (client w') = mangoSM__HTTP_SENDING_DATA /\
          io_step (trace w) (trace w') [] (encode_chunks 4082 buf) [] \/
        err = MANGO_ERR_WRITETIMEOUT /\ curState (client w') = mangoSM__ABORTED /\
          exists k, io_step (trace w) (trace w') [] (take k (encode_chunks 4082 buf)) []) w.
Proof.
  intros HE HL Hf Hrest Hc Ho Hne Hl.
  apply wpg_httpDataSend_chunked; [by apply can_write_live | lia | done.. | |].
  - intros w' Hio Hc'. by left.
  - intros w' k Hio Hc'. right. split; [done|]. split; [done|]. by exists k.
Qed.

Lemma httpDataSend_chunked_witness :
  wp (mango_httpDataSend (script 0 []) (Z.to_nat 65536) (bytes "hello world")
        (zlen (bytes "hello world")))
     (fun err w' =>
        err = MANGO_OK /\ curState (client w') = mangoSM__HTTP_SENDING_DATA /\
          io_step (trace example_chunking) (trace w') []
            (encode_chunks 4082 (bytes "hello world")) [] \/
        err = MANGO_ERR_WRITETIMEOUT /\ curState (client w') = mangoSM__ABORTED /\
          exists k, io_step (trace example_chunking) (trace w') []
            (take k (encode_chunks 4082 (bytes "hello world"))) [])
     example_chunking.
Proof.
  destruct example_chunking_facts as (Hr & Hc & Ho).
  apply (httpDataSend_chunked (script 0 []) (Z.to_nat 65536) (bytes "hello world")
           example_chunking);
    [apply script_silent_ok | apply script_live | lia | exact Hr | exact Hc | exact Ho
    | discriminate | vm_compute; discriminate].
Defined.

(** C21 mango_wsFrameSend of a connected websocket sends one frame that an RFC
    6455 decoder reads as the given type and bytes and stays connected, or
    aborts after a part of it; it returns MANGO_OK in both cases, and payloads
    of more than 65527 bytes always abort. *)
Theorem wsFrameSend_decoded E fuel buf type w :
  environment_ok E -> live_connection E -> ~ malloc_fails E -> 65536 <= Z.of_nat fuel ->
  resting (client w) -> curState (client w) = mangoSM__WS_CONNECTED ->
  type = MANGO_WS_FRAME_TYPE_TEXT \/ type = MANGO_WS_FRAME_TYPE_BINARY ->
  zlen buf <= 65535 -> Forall is_u8 buf ->
  wp (mango_wsFrameSend E fuel buf (zlen buf) type)
     (fun err w' =>
        err = MANGO_OK /\
        (65527 < zlen buf -> curState (client w') = mangoSM__ABORTED) /\
        exists frame,
          ws_decode frame = Some (ws_frame_type_code type, buf) /\
          (curState (client w') = mangoSM__WS_CONNECTED /\
             io_step (trace w) (trace w') [] frame [] \/
           curState (client w') = mangoSM__ABORTED /\
             exists k, io_step (trace w) (trace w') [] (take k frame) [])) w.
Proof.
  intros HE HL Hm Hf Hrest Hc Hty Hl Hb.
  apply wpg_wsFrameSend; [by apply can_write_live | lia | done.. |].
  intros w' Hout. split; [done|]. split; [by intros Hbig; eapply frame_outcome_long|].
  eapply frame_outcome_decoded; [exact Hout | exact Hm|].
  change (256 ^ 8) with 18446744073709551616. lia.
Qed.

Lemma wsFrameSend_decoded_witness :
  wp (mango_wsFrameSend (script 0 []) (Z.to_nat 65536) (bytes "hello") (zlen (bytes "hello"))
        MANGO_WS_FRAME_TYPE_TEXT)
     (fun err w' =>
        err = MANGO_OK /\
        (65527 < zlen (bytes "hello") -> curState (client w') = mangoSM__ABORTED) /\
        exists frame,
          ws_decode frame = Some (1, bytes "hello") /\
          (curState (client w') = mangoSM__WS_CONNECTED /\
             io_step (trace example_websocket) (trace w') [] frame [] \/
           curState (client w') = mangoSM__ABORTED /\
             exists k, io_step (trace example_websocket) (trace w') [] (take k frame) []))
     example_websocket.
Proof.
  destruct example_websocket_facts as (Hr & Hc).
  apply (wsFrameSend_decoded (script 0 []) (Z.to_nat 65536) (bytes "hello")
           MANGO_WS_FRAME_TYPE_TEXT example_websocket);
    [apply script_silent_ok | apply script_live | intros (? & ? & Hx); discriminate Hx | lia
    | exact Hr | exact Hc | by left | vm_compute; discriminate
    | by apply bytes_of_string].
Defined.

(** mango_wsClose of a connected websocket sends a close frame with status
    1000 and disconnects, or aborts after a part of it. *)
Theorem wsClose_disconnects E fuel w :
  environment_ok E -> live_connection E -> ~ malloc_fails E -> 65536 <= Z.of_nat fuel ->
  resting (client w) -> curState (client w) = mangoSM__WS_CONNECTED ->
  wp (mango_wsClose E fuel)
     (fun err w' =>
        err = MANGO_OK /\
        exists frame,
          ws_decode frame = Some (8, [1000 / 256; 1000 mod 256]) /\
          (curState (client w') = mangoSM__DISCONNECTED /\
             io_step (trace w) (trace w') [] frame [] \/
           curState (client w') = mangoSM__ABORTED /\
             exists k, io_step (trace w) (trace w') [] (take k frame) [])) w.
Proof.
  intros HE HL Hm Hf Hrest Hc.
  apply wpg_wsClose; [by apply can_write_live | lia | done.. |].
  intros w' Hout. split; [done|].
  by apply (frame_outcome_decoded E _ MANGO_WS_FRAME_TYPE_CLOSE).
Qed.

Lemma wsClose_disconnects_witness :
  wp (mango_wsClose (script 0 []) (Z.to_nat 65536))
     (fun err w' =>
        err = MANGO_OK /\
        exists frame,
          ws_decode frame = Some (8, [3; 232]) /\
          (curState (client w') = mangoSM__DISCONNECTED /\
             io_step (trace example_websocket) (trace w') [] frame [] \/
           curState (client w') = mangoSM__ABORTED /\
             exists k, io_step (trace example_websocket) (trace w') [] (take k frame) []))
     example_websocket.
Proof.
  destruct example_websocket_facts as (Hr & Hc).
  apply (wsClose_disconnects (script 0 []) (Z.to_nat 65536) example_websocket);
    [apply script_silent_ok | apply script_live | intros (? & ? & Hx); discriminate Hx | lia
    | exact Hr | exact Hc].
Defined.

(** * Complete runs *)

(** The response to the GET request of the example, with a body of 5000
    bytes that does not arrive in one piece. *)
Definition example_body : list Z := replicate (Z.to_nat 5000) 65.
Definition example_headers : list Z :=
  header_line "HTTP/1.1 200 OK" ++ header_line "Content-Length: 5000".
Definition example_response : list Z := example_headers ++ CRLF_string ++ example_body.

(** Two GET requests.  Against a server that answers with a Content-Length
    body larger than the working buffer the request is sent as built, the
    application is given the headers with the status code and then the body in
    order, and the client can make another request.  Against a server whose
    whole answer is shorter than the free part of the working buffer the
    request fails with MANGO_ERR_RESPTIMEOUT and an aborted client:
    mangoPort_read keeps waiting for more until the timeout of the state has
    passed, and the timeout is looked at before the answer. *)
Theorem get_requests_run :
  option_map (fun r =>
      let '(err, s, sent, calls) := r in
      (err, s, sent, map argType calls, concat (map arg_data (tail (tail calls)))))
    (let E := script 0 example_response in observe (get_request E 100 (connected E 100))) =
  Some (MANGO_ERR_HTTP 200, mangoSM__HTTP_CONNECTED,
        header_line "GET / HTTP/1.1" ++ header_line "Host: x" ++ CRLF_string,
        [MANGO_ARG_TYPE_HTTP_REQUEST_READY; MANGO_ARG_TYPE_HTTP_RESP_RECEIVED;
         MANGO_ARG_TYPE_HTTP_DATA_RECEIVED; MANGO_ARG_TYPE_HTTP_DATA_RECEIVED],
        example_body) /\
  option_map (fun r => let '(err, s, _, calls) := r in (err, s, map argType calls))
    (let E := script 0 (header_line "HTTP/1.1 200 OK" ++ header_line "Content-Length: 2" ++
                        CRLF_string ++ bytes "ok") in
     observe (get_request E 100 (connected E 100))) =
  Some (MANGO_ERR_RESPTIMEOUT, mangoSM__ABORTED, [MANGO_ARG_TYPE_HTTP_REQUEST_READY]).
Proof. split; vm_compute; reflexivity. Qed.
