(* ===== verification/DeviceTheorems.v ===== *)
(** The checksums, the scheduler of the sample application, and the cache and
    the frame buffer of the picture encoder.

    The second part is about the flash, its alignment layer and its commands. *)

From S2P Require Import Prelude.
From S2P Require Import CMonad.
From S2P Require Import Crc.
From S2P Require Import CrcFacts.
From S2P Require Import Fsm.
From S2P Require Import FsmFacts.
From S2P Require MyCache.
From S2P Require FbIo.
From S2P Require Import Flash.
From S2P Require Import CmdMem.
From S2P Require Import FlashFacts.

(** * Checksums *)

(** C26 crcFast after crcInit computes what crcSlow computes, for every
    standard and every message, and leaves the table alone. *)
Theorem crc_fast_is_slow std message t :
  standard_ok std -> Forall is_u8 message -> zlen t = 256 ->
  exists crc t',
    (crcInit std ;; crcFast std message (zlen message)) t = Ok (crc, t') /\
    crcSlow std message (zlen message) t = Ok (crc, t) /\
    crcFast std message (zlen message) t' = Ok (crc, t').
Proof.
  intros Hstd Hm Hl.
  destruct (wp_run _ _ _ (wpg_crcInit std never (fun _ t' => table_ok std t') t Hl
    ltac:(by auto))) as ([] & t1 & Hinit & Ht).
  destruct (wp_run _ _ _ (wpg_crcFast std Hstd never message
    (fun r t' => r = crc_value std message /\ t' = t1) t1 Hm Ht ltac:(done)))
    as (r & t2 & Hfast & -> & ->).
  destruct (wp_run _ _ _ (wpg_crcSlow std Hstd never message
    (fun r t' => r = crc_value std message /\ t' = t) t ltac:(done))) as (r & t3 & Hslow & -> & ->).
  exists (crc_value std message), t1. unfold bind. by rewrite Hinit.
Qed.

Lemma crc_fast_is_slow_witness :
  standard_ok CRC_CCITT /\
  exists crc t',
    (crcInit CRC_CCITT ;; crcFast CRC_CCITT (bytes "123456789") (zlen (bytes "123456789")))
      crcTable_initial = Ok (crc, t') /\
    crcSlow CRC_CCITT (bytes "123456789") (zlen (bytes "123456789")) crcTable_initial =
      Ok (crc, crcTable_initial) /\
    crcFast CRC_CCITT (bytes "123456789") (zlen (bytes "123456789")) t' = Ok (crc, t').
Proof.
  assert (standard_ok CRC_CCITT) as Hs by (unfold standard_ok; cbn; lia).
  split; [exact Hs|].
  apply crc_fast_is_slow; [exact Hs | | reflexivity].
  repeat (constructor; [unfold is_u8; vm_compute; split; [discriminate | reflexivity]|]).
  constructor.
Defined.

(** With an odd polynomial, as in the three standards, the CRC detects every
    error that is confined to one byte, wherever it is. *)
Theorem crc_detects_byte_error std pre d d' post t :
  standard_ok std -> Z.testbit (POLYNOMIAL std) 0 = true ->
  is_u8 d -> is_u8 d' -> d <> d' ->
  exists a b,
    crcSlow std (pre ++ d :: post) (zlen (pre ++ d :: post)) t = Ok (a, t) /\
    crcSlow std (pre ++ d' :: post) (zlen (pre ++ d' :: post)) t = Ok (b, t) /\ a <> b.
Proof.
  intros Hstd Hodd Hd Hd' Hne.
  assert (forall m, crcSlow std m (zlen m) t = Ok (crc_value std m, t)) as Hslow.
  { intros m. destruct (wp_run _ _ _ (wpg_crcSlow std Hstd never m
      (fun r t' => r = crc_value std m /\ t' = t) t ltac:(done))) as (r & t' & Hr & -> & ->). done. }
  rewrite !Hslow. do 2 eexists. split; [reflexivity|]. split; [reflexivity|].
  by apply crc_value_byte.
Qed.

Lemma crc_detects_byte_error_witness :
  exists a b,
    crcSlow (CRC32 4) ([1; 2] ++ 3 :: [4]) (zlen ([1; 2] ++ 3 :: [4])) [] = Ok (a, []) /\
    crcSlow (CRC32 4) ([1; 2] ++ 7 :: [4]) (zlen ([1; 2] ++ 7 :: [4])) [] = Ok (b, []) /\ a <> b.
Proof.
  apply crc_detects_byte_error;
    [unfold standard_ok; cbn; lia | reflexivity | unfold is_u8; lia | unfold is_u8; lia
    | discriminate].
Defined.

(** * The scheduler *)

(** C38 From zeroed memory, any sequence of the scheduler's operations returns,
    with all accesses inside the arrays, and keeps the queues and the timers
    well-formed, for handlers and hooks that do so themselves. *)
Theorem fsm_run_safe {handler hook user_t} run_handler run_hook
    (Happ : application_ok run_handler run_hook)
    (h0 h1 h2 : handler) (u : user_t) (ops : list (@fsm_op hook)) :
  Forall op_ok ops ->
  wp (run_ops run_handler run_hook ops) (fun _ s' => fsm_ok s') (zero_fsm h0 h1 h2 u).
Proof. intros Hops. apply wp_run_ops; [done | apply zero_fsm_ok | done]. Qed.

(** An application: a handler that counts the events it is given. *)
Definition count_handler (_ : unit) (e : Z) : M (fsm unit unit Z) unit :=
  u <- gets user ;; modify (set_user (u + 1)).
Definition idle_hook (_ : unit) : M (fsm unit unit Z) unit := ret tt.

#[export] Instance count_application : application_ok count_handler idle_hook.
Proof.
  split.
  - intros h e s Hs. unfold count_handler. wp_steps. split; [by destruct Hs | done].
  - intros f s Hs. unfold idle_hook. wp_steps. by split.
Qed.

Lemma fsm_run_safe_witness :
  let ops := [Op_init_tasks; Op_reload_timer_set 1 7 2; Op_timer_update; Op_timer_update;
              Op_timer_update; Op_dispatch; Op_dispatch] in
  Forall op_ok ops /\
  wp (run_ops count_handler idle_hook ops) (fun _ s' => fsm_ok s') (zero_fsm tt tt tt 0).
Proof.
  intros ops.
  assert (Forall op_ok ops) as Hops.
  { repeat constructor; cbn; unfold is_task, TASKS_CNT, is_u8, is_u16; lia. }
  split; [exact Hops|]. apply fsm_run_safe; [apply count_application | exact Hops].
Defined.

(** os_post_message on a full queue returns QUEUE_FULLED and changes
    nothing; otherwise the message becomes the youngest of its task, and no
    other task's messages change. *)
Theorem post_message_fifo {handler hook user_t} run_hook id e (s : fsm handler hook user_t) q :
  fsm_ok s -> is_task id -> is_u8 e -> zget (tasks_queue s) id = Some q ->
  next_dispatch s <> 0 \/ dispatch_hook s = None ->
  wp (os_post_message run_hook id e)
     (fun r s' =>
        if q_used q =? QUEUE_SIZE then r = QUEUE_FULLED /\ s' = s
        else r = RET_SUCCESS /\ fsm_ok s' /\
          view s' = alter (fun t => (t.1, t.2 ++ [e])) (Z.to_nat id) (view s)) s.
Proof.
  intros Hs Hid He Hq Hhook.
  pose proof (zget_Forall _ _ _ _ (fo_queue _ Hs) Hq) as Hqok. destruct Hqok as [_ _ _ Hu _].
  apply (wpg_post _ _ _ _ _ _ q); try done.
  - intros Hfull. by rewrite Hfull, Z.eqb_refl.
  - intros Hlt Hn f Hf. exfalso. destruct Hhook; congruence.
  - intros Hlt _. rewrite (proj2 (Z.eqb_neq _ _)) by lia. split; [done|].
    split; [by apply posted_ok | by apply (view_posted _ _ _ q)].
Qed.

Lemma post_message_fifo_witness :
  let s := zero_fsm tt tt tt 0 in
  wp (os_post_message idle_hook 1 42)
     (fun r s' =>
        if 0 =? QUEUE_SIZE then r = QUEUE_FULLED /\ s' = s
        else r = RET_SUCCESS /\ fsm_ok s' /\
          view s' = alter (fun t => (t.1, t.2 ++ [42])) (Z.to_nat 1) (view s)) s.
Proof.
  apply (post_message_fifo idle_hook 1 42 (zero_fsm tt tt tt 0) zero_queue);
    [apply zero_fsm_ok | unfold is_task, TASKS_CNT; lia | unfold is_u8; lia | reflexivity
    | by right].
Defined.

(** C25 os_dispatch refines the machine in which every task, in order, takes its
    oldest message, acts on it and, when it asks for a transition, runs its
    exit action, enters the new state and runs the entry action there. *)
Theorem dispatch_refines {handler hook user_t} act next (s : fsm handler hook user_t) :
  (forall h, next h STM_ENTRY_SIG = None) -> (forall h, next h STM_EXIT_SIG = None) ->
  fsm_ok s -> stm_ret_value s <> STM_TRAN ->
  wp (os_dispatch (machine act next))
     (fun _ s' => fsm_ok s' /\ (view s', user s') = spec_dispatch act next (view s) (user s)) s.
Proof.
  intros Hen Hex Hs Ht. apply wpg_os_dispatch; [done | done | done | done|].
  by apply view_dispatch.
Qed.

(** A machine with two states that the event 5 toggles and that logs. *)
Definition toggle_act (h : bool) (e : Z) (log : list (bool * Z)) : list (bool * Z) := (h, e) :: log.
Definition toggle_next (h : bool) (e : Z) : option bool := if e =? 5 then Some (negb h) else None.

Definition toggle_start : fsm bool unit (list (bool * Z)) :=
  posted 2 9 (posted 2 5 (posted 0 7 (zero_fsm false false false []))).

Lemma dispatch_refines_witness :
  spec_dispatch toggle_act toggle_next (view toggle_start) [] =
    ([(false, []); (false, []); (true, [9])],
     [(true, 0); (false, 1); (false, 5); (false, 7)]) /\
  wp (os_dispatch (machine toggle_act toggle_next))
     (fun _ s' => fsm_ok s' /\
        (view s', user s') = spec_dispatch toggle_act toggle_next (view toggle_start) [])
     toggle_start.
Proof.
  split; [reflexivity|].
  apply (dispatch_refines toggle_act toggle_next toggle_start);
    [reflexivity | reflexivity | | discriminate].
  unfold toggle_start. repeat (apply posted_ok; [|unfold is_u8; lia]). apply zero_fsm_ok.
Defined.

(** os_timer_update posts the messages of the timers that expire, in the
    order of their slots, and lets every timer tick. *)
Theorem timer_update_refines {handler hook user_t} run_hook (s : fsm handler hook user_t) :
  fsm_ok s -> dispatch_hook s = None ->
  os_timer_update run_hook s =
    Ok (tt, set_timer_pool (map tick (timer_pool s)) (post_all (expired (timer_pool s)) s)).
Proof.
  intros Hs Hh.
  destruct (wp_run _ _ _ (wpg_os_timer_update run_hook never s (fun _ s' =>
    s' = set_timer_pool (map tick (timer_pool s)) (post_all (expired (timer_pool s)) s))
    Hs Hh eq_refl)) as ([] & s' & Hrun & ->). done.
Qed.

Lemma timer_update_refines_witness :
  let s := zero_fsm tt tt tt 0 in
  expired (timer_pool s) = repeat (0, 0) 32 /\
  os_timer_update idle_hook s =
    Ok (tt, set_timer_pool (map tick (timer_pool s)) (post_all (expired (timer_pool s)) s)).
Proof.
  split; [reflexivity|]. apply timer_update_refines; [apply zero_fsm_ok | reflexivity].
Defined.

(** C37 With no dispatch hook registered, a timer of [n] ticks counts down by one
    with every update, and the update after [n] of them reloads it or frees its
    slot.  If it is the only timer of its task for its signal, the first [n]
    updates post no message like its own, and the next one posts exactly one,
    unless the queue of the task is full. *)
Theorem timer_counts_down {handler hook user_t} run_hook (s : fsm handler hook user_t) k t :
  fsm_ok s -> dispatch_hook s = None -> zget (timer_pool s) k = Some t ->
  timer_active t = true ->
  let n := Z.to_nat (timeout t) in
  (forall m, (m <= n)%nat ->
     wp (updates run_hook m)
       (fun _ s' =>
          zget (timer_pool s') k = Some (mkTimer (sig t) (task_id t) (flag t) (timeout t - Z.of_nat m) (reload t)) /\
          (only_timer k t (timer_pool s) ->
           count (task_id t) (sig t) s' = count (task_id t) (sig t) s)) s) /\
  wp (updates run_hook (S n))
    (fun _ s' =>
       zget (timer_pool s') k = Some
         (if Z.land (flag t) TIMER_RELOAD_FLAG =? 0
          then mkTimer (sig t) INVALID_TASK_ID (flag t) 0 (reload t)
          else mkTimer (sig t) (task_id t) (flag t) (reload t) (reload t)) /\
       (only_timer k t (timer_pool s) -> one_more (task_id t) (sig t) s s')) s.
Proof.
  intros Hs Hh Hk Ha n. pose proof (zget_Forall _ _ _ _ (fo_timer _ Hs) Hk) as Ht.
  pose proof (to_timeout _ Ht) as Hto. assert (Z.of_nat n = timeout t) as Hn by (unfold n, is_u16 in *; lia).
  split.
  - intros m Hle. apply wpg_conj with never.
    + eapply wpg_mono; [by apply wpg_updates_timer|]. intros [] s' ->. f_equal. apply tick_countdown; (done || lia).
    + eapply wpg_implies; [by apply wpg_updates|]. intros Ho. apply (updates_count _ (timer_pool s) k t); (done || lia).
  - apply wpg_conj with never.
    + eapply wpg_mono; [by apply wpg_updates_timer|]. intros [] s' ->. f_equal. by apply tick_expired.
    + eapply wpg_implies; [by apply wpg_updates|]. intros Ho. by apply (updates_fire _ (timer_pool s) k t).
Qed.

Definition timer_example : fsm unit unit Z :=
  set_timer_pool (mkTimer 7 1 TIMER_RELOAD_FLAG 3 5 :: replicate 31 (mkTimer 0 INVALID_TASK_ID 0 0 0))
    (zero_fsm tt tt tt 0).

Lemma timer_counts_down_witness :
  only_timer 0 (mkTimer 7 1 TIMER_RELOAD_FLAG 3 5) (timer_pool timer_example) /\
  wp (updates idle_hook 4)
    (fun _ s' => zget (timer_pool s') 0 = Some (mkTimer 7 1 TIMER_RELOAD_FLAG 5 5) /\
       (only_timer 0 (mkTimer 7 1 TIMER_RELOAD_FLAG 3 5) (timer_pool timer_example) ->
        one_more 1 7 timer_example s')) timer_example.
Proof.
  split.
  { intros k' t' Hk' Ht'. destruct (Z.eq_dec k' 0) as [|Hne]; [done|]. pose proof (zget_Some_range _ _ _ Hk').
    unfold timer_example in Hk'. cbn [timer_pool set_timer_pool] in Hk'. rewrite zget_cons in Hk' by lia.
    unfold zget in Hk'. destruct (0 <=? k' - 1); [|done]. apply lookup_replicate_1 in Hk' as [-> _]. done. }
  apply (timer_counts_down idle_hook timer_example 0 (mkTimer 7 1 TIMER_RELOAD_FLAG 3 5));
    [|reflexivity | reflexivity | reflexivity].
  apply set_timer_pool_ok; [apply zero_fsm_ok | reflexivity|].
  constructor; [split; cbn; unfold is_task, TASKS_CNT, is_u8, is_u16; lia|].
  apply (Forall_replicate _ 31 (mkTimer 0 INVALID_TASK_ID 0 0 0)).
  split; cbn; unfold is_u8, is_u16; try lia.
Defined.

(** os_timer_set gives a task's timer for a signal the new ticks, in its
    slot or a free one, when there is one of them, and leaves every timer of
    other tasks and signals as it is. *)
Theorem timer_set_sets {handler hook user_t} id sg ticks (s : fsm handler hook user_t) :
  zlen (timer_pool s) = TIMER_CNT -> id <> INVALID_TASK_ID ->
  has_room id sg (timer_pool s) = true ->
  wp (os_timer_set id sg ticks)
     (fun _ s' =>
        (exists t, timer_of id sg (timer_pool s') = Some t /\ timeout t = ticks) /\
        forall id' sg', id' <> INVALID_TASK_ID -> (id', sg') <> (id, sg) ->
          List.filter (is_timer id' sg') (timer_pool s') =
          List.filter (is_timer id' sg') (timer_pool s)) s.
Proof.
  intros Hl Hid Hroom. apply wpg_timer_set; [done|]. cbn [timer_pool set_timer_pool]. split.
  - destruct (timer_of_set_first id sg
      (fun t => mkTimer (sig t) (task_id t) (flag t) ticks (reload t))
      (fun t => mkTimer sg id 0 ticks (reload t)) (timer_pool s)) as (t & [[Ht _]|Ht]);
      [done | | done | by eexists | by eexists].
    intros t. unfold is_timer. cbn. by rewrite !Z.eqb_refl.
  - intros id' sg' Hid' Hne.
    assert (forall a b, a = id -> b = sg -> (a =? id') && (b =? sg') = false) as Hoff.
    { intros a b -> ->. destruct (Z.eqb_spec id id'), (Z.eqb_spec sg sg'); try done. congruence. }
    apply set_first_other; [done | |].
    + intros t Ht. unfold is_timer in *. cbn. apply andb_true_iff in Ht as [Ht1%Z.eqb_eq Ht2%Z.eqb_eq].
      by rewrite (Hoff _ _ Ht1 Ht2).
    + intros t. unfold is_timer. cbn. by apply Hoff.
Qed.

Lemma timer_set_sets_witness :
  wp (os_timer_set 2 9 100)
     (fun _ s' =>
        (exists t, timer_of 2 9 (timer_pool s') = Some t /\ timeout t = 100) /\
        forall id' sg', id' <> INVALID_TASK_ID -> (id', sg') <> (2, 9) ->
          List.filter (is_timer id' sg') (timer_pool s') =
          List.filter (is_timer id' sg') (timer_pool timer_example)) timer_example.
Proof. apply timer_set_sets; [reflexivity | discriminate | reflexivity]. Defined.

(** * The cache *)

Module Cache.
Import MyCache.

(** What is written to an open cache comes back: after a write of [buf] that
    fits behind the header, a read of [n] bytes gives the next [n] bytes of
    all that has been written, or the rest of it. *)
Theorem cache_roundtrip data r buf n c :
  cache_holds data r c -> buf <> [] -> 8 + zlen data + zlen buf <= c_max_size c ->
  0 <= n < 2147483648 ->
  wp (w <- cache_write buf (zlen buf) ;; let* (d, k) := cache_read n in ret (w, d, k))
     (fun res c' =>
        let '(w, d, k) := res in
        w = zlen buf /\ k = Z.min n (zlen (data ++ buf) - r) /\
        d = zsub (data ++ buf) r k /\ cache_holds (data ++ buf) (r + k) c') c.
Proof.
  intros Hc Hne Hfit Hn. wp_step. apply (wpg_cache_write _ data r); [done | done | done|].
  intros c1 Hc1 _. wp_step. apply (wpg_cache_read _ (data ++ buf) r); [done | done|].
  intros c2 k Hc2. by wp_step.
Qed.

(** A cache of 64 bytes, opened. *)
Definition example_cache : cache_io :=
  mkCache (Some (bytes_le32 CACHE_MAGIC ++ replicate 60 0)) CACHE_MAGIC 64 0 0 0 1 1.

Lemma example_cache_holds : cache_holds [] 0 example_cache.
Proof.
  split; cbn; try done; try lia. eexists. split; [reflexivity|]. by repeat split.
Qed.

Lemma cache_roundtrip_witness :
  wp (w <- cache_write (bytes "hello") (zlen (bytes "hello")) ;;
      let* (d, k) := cache_read 3 in ret (w, d, k))
     (fun res c' =>
        let '(w, d, k) := res in
        w = 5 /\ k = Z.min 3 (zlen ([] ++ bytes "hello") - 0) /\
        d = zsub ([] ++ bytes "hello") 0 k /\ cache_holds ([] ++ bytes "hello") (0 + k) c')
     example_cache.
Proof.
  apply (cache_roundtrip [] 0 (bytes "hello") 3 example_cache);
    [apply example_cache_holds | discriminate | vm_compute; discriminate | lia].
Defined.

(** The bounds of cache_write: more than the maximum is refused without
    effect, but the check forgets the header, so a write that reaches into the
    last 8 bytes of the maximum runs over the end of the block. *)
Theorem cache_write_bounds data r buf c :
  cache_holds data r c -> buf <> [] -> zlen data + zlen buf < 4294967296 ->
  c_max_size c < 8 + zlen data + zlen buf ->
  cache_write buf (zlen buf) c =
    if c_max_size c <? zlen data + zlen buf then Ok (0, c) else Stop (Fault "cache_write").
Proof.
  intros Hc Hne H32 Hbig. destruct (Z.ltb_spec (c_max_size c) (zlen data + zlen buf)).
  - by apply (cache_write_full data r).
  - by apply (cache_write_overflow data r).
Qed.

Lemma cache_write_bounds_witness :
  cache_write (replicate 60 7) (zlen (replicate 60 7)) example_cache = Stop (Fault "cache_write").
Proof.
  apply (cache_write_bounds [] 0 (replicate 60 7) example_cache);
    [apply example_cache_holds | discriminate | reflexivity | reflexivity].
Defined.

End Cache.

(** * The frame buffer *)

Module Ring.
Import FbIo.

(** C40 The ring buffer is a queue of bytes: a transfer that fits before the end
    of the ring appends its bytes, the reader takes the oldest ones from
    consecutive memory, and a request for more than there is or fits is
    refused without effect. *)
Theorem fb_io_fifo io d :
  fb_ok io d ->
  (forall e, head io + zlen e <= real_size io -> len io + zlen e <= real_size io ->
     tail io + len io + zlen e - real_size io < size io ->
     exists buf', zblit (fb_buf io) (fb_io_space io) e = Some buf' /\
       exists io', fb_io_inc_head (set_buf buf' io) (zlen e) = (zlen e, io') /\
         fb_ok io' (d ++ e)) /\
  (forall n, 0 <= n <= fb_io_data_len io ->
     zsub (fb_buf io) (fb_io_data io) n = take (Z.to_nat n) d /\
     exists io', fb_io_inc_tail io n = (n, io') /\ fb_ok io' (drop (Z.to_nat n) d)) /\
  (forall n, fb_io_space_len io < n -> fb_io_inc_head io n = (-1, io)) /\
  (forall n, fb_io_data_total_len io < n -> fb_io_inc_tail io n = (-1, io)).
Proof.
  intros Hok. split; [|split; [|split]].
  - intros e He Hlen Hw. by apply fb_put.
  - intros n Hn. by apply fb_get.
  - intros n Hn. unfold fb_io_inc_head, fb_io_space_len in *.
    by destruct (Z.ltb_spec (real_size io) (len io + n)); [|lia].
  - intros n Hn. unfold fb_io_inc_tail, fb_io_data_total_len in *.
    by destruct (Z.ltb_spec (len io - n) 0); [|lia].
Qed.

(** A ring of 4 bytes, and 2 more, that has wrapped. *)
Definition example_ring : fb_io := mkFbIo [30; 0; 10; 20; 0; 0] 4 4 2 1 2 3 0 0.

Lemma example_ring_ok : fb_ok example_ring [10; 20; 30].
Proof.
  split; cbn; try (unfold zlen; cbn; lia).
  - reflexivity.
  - intros k Hk. change (zlen [10; 20; 30]) with 3 in Hk.
    assert (k = 0 \/ k = 1 \/ k = 2) as [-> | [-> | ->]] by lia; reflexivity.
Qed.

Lemma fb_io_fifo_witness :
  fb_ok example_ring [10; 20; 30] /\
  zsub (fb_buf example_ring) (fb_io_data example_ring) 2 = take (Z.to_nat 2) [10; 20; 30] /\
  exists io', fb_io_inc_tail example_ring 2 = (2, io') /\
    fb_ok io' (drop (Z.to_nat 2) [10; 20; 30]).
Proof.
  split; [exact example_ring_ok|].
  apply (fb_io_fifo example_ring [10; 20; 30]);
    [exact example_ring_ok | vm_compute; split; discriminate].
Defined.

(** What fb_io_space_tail_len calls the free space up to the end is the
    consecutive free space behind the write position, except for a ring that
    has been emptied elsewhere than at its start: there it is too large by the
    write position, and a transfer of that length runs over the end. *)
Theorem fb_io_space_is_consecutive io d :
  fb_ok io d ->
  if bool_decide (d = []) && negb (tail io =? 0)
  then fb_io_space_tail_len io = real_size io /\ 0 < head io /\
    real_size io < head io + fb_io_space_tail_len io
  else
    fb_io_space_tail_len io =
      (if tail io <=? head io then (if 0 <? len io then
         (if tail io =? head io then 0 else real_size io - head io) else real_size io)
       else tail io - head io) /\
    head io + fb_io_space_tail_len io <= real_size io.
Proof.
  intros Hok. pose proof (fb_head_range _ _ Hok) as Hhr.
  destruct Hok as [Hb [H0 Hr] [Hl Hl2] Ht Hh Hd Hw]. pose proof (zlen_nonneg d).
  unfold fb_io_space_tail_len, position in *.
  destruct (bool_decide_reflect (d = [])) as [->|Hne]; cbn [andb].
  - change (zlen (@nil Z)) with 0 in *. rewrite Hl in *. clear Hd Hw.
    rewrite Z.add_0_r in Hh. destruct (Z.ltb_spec (tail io) (real_size io)); [|lia].
    destruct (Z.eqb_spec (tail io) 0), (Z.ltb_spec (tail io) (head io)); cbn [negb]; try lia.
    destruct (Z.leb_spec (tail io) (head io)); [|lia]. change (0 <? 0) with false. cbv match. lia.
  - assert (0 < zlen d).
    { destruct d as [|x d]; [done|]. rewrite zlen_cons. pose proof (zlen_nonneg d). lia. }
    destruct (Z.ltb_spec (tail io + len io) (real_size io)),
      (Z.ltb_spec (tail io) (head io)), (Z.leb_spec (tail io) (head io)),
      (Z.ltb_spec 0 (len io)), (Z.eqb_spec (tail io) (head io)); lia.
Qed.

Lemma fb_io_space_is_consecutive_witness :
  fb_io_space_tail_len example_ring = 1 /\
  (let io := mkFbIo [0; 0; 0; 0] 4 4 0 3 3 0 0 0 in
   fb_io_space_tail_len io = real_size io /\ 0 < head io /\
   real_size io < head io + fb_io_space_tail_len io).
Proof.
  split; [reflexivity|].
  apply (fb_io_space_is_consecutive (mkFbIo [0; 0; 0; 0] 4 4 0 3 3 0 0 0) []).
  split; cbn; try (unfold zlen; cbn; lia). reflexivity.
Defined.
End Ring.

(** The simulated flash, the layer of the file system above it and the
    commands that work on it. *)

Definition example_bytes : list Z := replicate 4096 0 ++ replicate 4096 255.

(** A device of two sectors, the first full of zeros. *)
Definition example_flash : flash_file :=
  mkFlash (Some example_bytes) 8192 1 [].

Lemma example_flash_ready :
  flash_ready example_flash example_bytes.
Proof. by split. Qed.

Lemma example_flash_u8 : Forall is_u8 example_bytes.
Proof. apply Forall_app. split; apply Forall_replicate; unfold is_u8; lia. Qed.

(** C31 sfmw writes the [n] bytes at any address of the device, however they lie
    across the sectors and although the device can only clear bits, and every
    other byte keeps its value, when malloc returns an address of 32 bits; with
    an address above, which the cast to uint32_t cuts off, the first sector is
    read to a place outside the block. *)
Theorem sfmw_in_place s m block addr data n :
  flash_ready s m -> Forall is_u8 m -> zlen m mod 4096 = 0 -> zlen m < 2147483648 ->
  Forall is_u8 data -> 0 <= addr < zlen m -> 0 <= n <= zlen data -> addr + n <= zlen m -> 0 <= block ->
  if 4294967292 <? block then sfmw (Some block) addr data n s = Stop (Fault "sfmw")
  else wp (sfmw (Some block) addr data n)
     (fun r s' => r = 0 /\ exists m',
        flash_ready s' m' /\ zblit m addr (zsub data 0 n) = Some m' /\
        forall k, 0 <= k < zlen m ->
          zget m' k = if (addr <=? k) && (k <? addr + n) then zget data (k - addr) else zget m k) s.
Proof.
  intros Hs Hm Hsec Hsize Hd Ha Hn Hend Hb. destruct (Z.ltb_spec 4294967292 block); [by apply (sfmw_wild s m)|].
  apply (wpg_sfmw block ltac:(lia) _ s m addr n data); [done..| | |lia|]; [lia | done|].
  split; [done|]. exists (over m addr (zsub data 0 n)).
  assert (zlen (zsub data 0 n) = n) as Hl by (arr_len; lia).
  split; [apply (stored_ready s m); [done | arr_len; lia]|].
  split; [apply zblit_over; lia|]. intros k Hk. rewrite zget_over, Hl by lia.
  destruct (Z.leb_spec addr k), (Z.ltb_spec k (addr + n)); cbn [andb]; try done.
  rewrite zget_zsub by lia. f_equal.
Qed.

Lemma sfmw_in_place_witness :
  sfmw (Some 0x7f0000001000) 4094 [1; 2; 3; 4] 4 example_flash = Stop (Fault "sfmw") /\
  wp (sfmw (Some 0x1002) 4094 [1; 2; 3; 4] 4)
     (fun r s' => r = 0 /\ exists m',
        flash_ready s' m' /\
        zblit example_bytes 4094 (zsub [1; 2; 3; 4] 0 4) = Some m' /\
        forall k, 0 <= k < zlen example_bytes ->
          zget m' k = if (4094 <=? k) && (k <? 4094 + 4) then zget [1; 2; 3; 4] (k - 4094)
                      else zget example_bytes k) example_flash.
Proof.
  split; [apply (sfmw_in_place example_flash example_bytes 0x7f0000001000) | apply (sfmw_in_place example_flash example_bytes 0x1002)];
    (apply example_flash_ready || apply example_flash_u8 || reflexivity || discriminate ||
     (repeat constructor; lia) || (split; [lia | reflexivity || discriminate])).
Defined.

(** sfmc erases the units it is asked for from the address rounded down to a
    unit, and nothing else, for the three sizes it supports; it refuses every
    other size without effect. *)
Theorem sfmc_erases s m addr mode n :
  flash_ready s m -> zlen m < 2147483648 -> is_u32 addr -> 0 <= n ->
  addr - addr mod mode + n * mode <= zlen m ->
  if bool_decide (mode = 4096 \/ mode = 32768 \/ mode = 65536)
  then wp (sfmc addr mode n)
         (fun r s' => r = 0 /\ exists m',
            flash_ready s' m' /\
            zblit m (addr - addr mod mode) (replicate (Z.to_nat (n * mode)) 255) = Some m') s
  else sfmc addr mode n s = Ok (-1, s).
Proof.
  intros Hs Hsize Ha Hn Hend. destruct (bool_decide_reflect (mode = 4096 \/ mode = 32768 \/ mode = 65536))
    as [Hmode|Hmode].
  - assert (0 <= addr - addr mod mode /\ 0 <= n * mode) as [Hb Hk].
    { unfold is_u32 in Ha. pose proof (Z.mod_le addr mode).
      destruct Hmode as [-> | [-> | ->]]; lia. }
    apply (wpg_sfmc _ s m); [done | done | done | apply Ha | done | done | apply Ha|].
    split; [done|]. eexists. split; [apply (stored_ready s m); [done|]|].
    + arr_len. lia.
    + apply zblit_over; arr_len; lia.
  - unfold sfmc. destruct (Z.eqb_spec mode 4096), (Z.eqb_spec mode 32768), (Z.eqb_spec mode 65536);
      cbn [negb andb]; try done; exfalso; auto.
Qed.

Lemma sfmc_erases_witness :
  wp (sfmc 5 4096 1)
     (fun r s' => r = 0 /\ exists m',
        flash_ready s' m' /\
        zblit example_bytes (5 - 5 mod 4096)
          (replicate (Z.to_nat (1 * 4096)) 255) = Some m') example_flash /\
  sfmc 5 100 1 example_flash = Ok (-1, example_flash).
Proof.
  split.
  - apply (sfmc_erases example_flash example_bytes 5 4096 1);
      [apply example_flash_ready | reflexivity | unfold is_u32; lia | lia | discriminate].
  - apply (sfmc_erases example_flash example_bytes 5 100 1);
      [apply example_flash_ready | reflexivity | unfold is_u32; lia | lia | discriminate].
Defined.

(** sfmu prints the table of its comment: sixteen sectors to a row that
    starts with their address, a gap after eight of them, and a sector marked
    as idle exactly when all its bytes are erased; as sfmw, it reads outside its
    block when the address of that needs more than 32 bits. *)
Theorem sfmu_table s m block addr n :
  flash_ready s m -> Forall is_u8 m -> zlen m < 2147483648 -> is_u32 addr -> 0 <= n ->
  addr - addr mod 4096 + n * 4096 <= zlen m -> 0 <= block ->
  if (0 <? n) && (4294967292 <? block) then sfmu (Some block) addr n s = Stop (Fault "sfmu")
  else wp (sfmu (Some block) addr n)
     (fun r s' => r = (0, usage_table m (addr - addr mod 4096) (Z.to_nat n)) /\ s' = s) s.
Proof.
  intros Hs Hm Hsize Ha Hn Hend Hb. destruct (Z.ltb_spec 0 n); cbn [andb]; cycle 1.
  { replace n with 0 by lia. unfold sfmu. by wp_steps. }
  destruct (Z.ltb_spec 4294967292 block); [apply (sfmu_wild s m); (done || lia)|].
  apply (wpg_sfmu block ltac:(lia) _ s m); (done || lia).
Qed.

Lemma sfmu_table_witness :
  wp (sfmu (Some 0x1001) 7 2)
     (fun r s' => r = (0, usage_table example_bytes (7 - 7 mod 4096)
                            (Z.to_nat 2)) /\ s' = example_flash) example_flash /\
  usage_table example_bytes (7 - 7 mod 4096) (Z.to_nat 2) =
    [P_address 0; P_used; P_idle].
Proof.
  split; [|vm_compute; reflexivity].
  apply (sfmu_table example_flash example_bytes 0x1001 7 2);
    [apply example_flash_ready | apply example_flash_u8 | reflexivity
    | unfold is_u32; lia | lia | discriminate | lia].
Defined.

(** The functions by which spiffs reads and writes do what flash_read and
    flash_write do at the same unaligned address, as long as the aligned words
    of the range and one more are inside the device; a range further at its
    end, although inside, is read past the end.  More than a page is refused. *)
Theorem spiffs_layer_exact page s m addr src :
  flash_ready s m -> is_u32 addr -> page < 65536 ->
  if page <? zlen src
  then _spiffs_read page addr (zlen src) s = Ok ((SPIFFS_ERR_NOT_CONFIGURED, []), s) /\
       _spiffs_write page addr (zlen src) src s = Ok (SPIFFS_ERR_NOT_CONFIGURED, s)
  else if addr - addr mod 4 + (zlen src + 3 - (zlen src + 3) mod 4 + 4) <=? zlen m
  then _spiffs_read page addr (zlen src) s = flash_read addr (zlen src) s /\
       _spiffs_write page addr (zlen src) src s = flash_write addr (zlen src) src s
  else _spiffs_read page addr (zlen src) s = Stop (Fault "flash_read") /\
       _spiffs_write page addr (zlen src) src s = Stop (Fault "flash_read").
Proof.
  intros Hs Ha Hp2. pose proof (zlen_nonneg src) as Hn.
  destruct (Z.ltb_spec page (zlen src)) as [Hbig|Hp].
  { unfold _spiffs_read, _spiffs_write, lowlevel_spiffs_readwrite, bind.
    by rewrite (proj2 (Z.ltb_lt _ _) Hbig). }
  destruct (Z.leb_spec (addr - addr mod 4 + (zlen src + 3 - (zlen src + 3) mod 4 + 4)) (zlen m)) as [Hw|Hw].
  - pose proof (window_spec page addr (zlen src) Ha ltac:(lia) ltac:(lia)) as Hwin.
    cbn [window] in Hwin. unfold is_u32 in Ha. split.
    + destruct (wp_run _ _ _ (wpg_spiffs_read never page s m addr (zlen src) Hs Ha ltac:(lia) Hp2 Hw
        (fun r s' => r = (0, zsub m addr (zlen src)) /\ s' = s) ltac:(done))) as (r & s' & -> & -> & ->).
      destruct (wp_run _ _ _ (wpg_flash_read never addr (zlen src)
        (fun r s' => r = (0, zsub m addr (zlen src)) /\ s' = s) s m Hs
        ltac:(lia) ltac:(lia) ltac:(lia) ltac:(done))) as (r & s' & -> & -> & ->). done.
    + pose (after := over m addr (zip_with Z.land (zsub m addr (zlen src)) (zsub src 0 (zlen src)))).
      destruct (wp_run _ _ _ (wpg_spiffs_write never page s m addr (zlen src) Hs Ha ltac:(lia) Hp2 Hw
        src (fun r s' => r = 0 /\ s' = stored after s) ltac:(lia) ltac:(done)))
        as (r & s' & -> & -> & ->).
      destruct (wp_run _ _ _ (wpg_flash_write never addr (zlen src) src
        (fun r s' => r = 0 /\ s' = stored after s) s m Hs
        ltac:(lia) ltac:(lia) ltac:(lia) ltac:(lia) ltac:(done))) as (r & s' & -> & -> & ->). done.
  - unfold _spiffs_read, _spiffs_write, bind.
    by rewrite !(spiffs_window_fault page s m) by (done || lia).
Qed.

Lemma spiffs_layer_exact_witness :
  _spiffs_write 128 4093 (zlen [170; 170]) [170; 170] example_flash =
    flash_write 4093 (zlen [170; 170]) [170; 170] example_flash /\
  _spiffs_read 128 8190 (zlen [0; 0]) example_flash = Stop (Fault "flash_read").
Proof.
  split.
  - assert ((4093 - 4093 mod 4 + (zlen [170; 170] + 3 - (zlen [170; 170] + 3) mod 4 + 4) <=?
      zlen example_bytes) = true) as Hw by reflexivity.
    pose proof (spiffs_layer_exact 128 example_flash example_bytes 4093 [170; 170]
      example_flash_ready ltac:(unfold is_u32; lia) ltac:(reflexivity)) as H.
    change (128 <? _) with false in H. rewrite Hw in H. exact (proj2 H).
  - assert ((8190 - 8190 mod 4 + (zlen [0; 0] + 3 - (zlen [0; 0] + 3) mod 4 + 4) <=?
      zlen example_bytes) = false) as Hw by reflexivity.
    pose proof (spiffs_layer_exact 128 example_flash example_bytes 8190 [0; 0]
      example_flash_ready ltac:(unfold is_u32; lia) ltac:(reflexivity)) as H.
    change (128 <? _) with false in H. rewrite Hw in H. exact (proj1 H).
Defined.

(** C39 What is in the flash survives: flash_exit writes it to the file and a
    later flash_init reads it back, whatever the new memory holds and however
    the file is cut into reads, when writes are never short. *)
Theorem flash_persists os_read os_write s m fd block :
  flash_ready s m -> 0 < zlen m -> zlen m mod 4096 = 0 -> zlen (image s) <= zlen m ->
  (forall n, os_write n = 4096) -> file_reads os_read m -> fd <> -1 -> zlen block = zlen m ->
  wp (a <- flash_exit os_write ;; b <- flash_init os_read fd (Some block) ;; ret (a, b))
     (fun r s' => r = (0, 0) /\ flash_ready s' m /\ image s' = m) s.
Proof.
  intros Hs Hpos Hmod Himg Hw Hr Hfd Hb. wp_step. unfold flash_exit. wp_steps.
  rewrite (proj2 (Z.eqb_neq _ _) (fr_flag _ _ Hs)). wp_step.
  apply (wpg_flush_loop _ _ _ _ m); [done..|]. wp_steps.
  assert (m ++ drop (length m) (image s) = m) as ->.
  { rewrite drop_ge by (unfold zlen in *; lia). apply app_nil_r. }
  cbn. pose proof (fr_size _ _ Hs) as Hsz.
  assert (over block 0 m = m) as Hov.
  { unfold over. cbn [Z.to_nat take app]. rewrite drop_ge by (unfold zlen in *; lia).
    apply app_nil_r. }
  apply wpg_flash_init; cbn; rewrite ?Hov; [done | done | lia | lia | done|].
  intros Hready. by wp_steps.
Qed.

Lemma flash_persists_witness :
  file_reads (fun n => if n <? 8192 then Z.min 1000 (8192 - n) else 0)
    example_bytes /\
  wp (a <- flash_exit (fun _ => 4096) ;;
      b <- flash_init (fun n => if n <? 8192 then Z.min 1000 (8192 - n) else 0) 3
             (Some (replicate 4096 85 ++ replicate 4096 85)) ;; ret (a, b))
     (fun r s' => r = (0, 0) /\ flash_ready s' example_bytes /\
        image s' = example_bytes) example_flash.
Proof.
  assert (zlen example_bytes = 8192) as Hl by reflexivity.
  assert (file_reads (fun n => if n <? 8192 then Z.min 1000 (8192 - n) else 0)
    example_bytes) as Hr.
  { intros n Hn. rewrite Hl. destruct (Z.ltb_spec n 8192); lia. }
  split; [exact Hr|].
  apply flash_persists; [apply example_flash_ready | reflexivity | reflexivity | discriminate
    | reflexivity | exact Hr | discriminate | reflexivity].
Defined.
