(* ===== verification/Bitmap.v ===== *)
(** components/jpge/bitmap.h and bitmap.c: the header of a BMP file.
    [long_size] is sizeof(long); the structures are packed and little-endian. *)

From S2P Require Import Prelude.

Record BITMAPFILEHEADER : Type := mkFileHeader {
  bfType : Z;
  bfSize : Z;
  bfReserved1 : Z;
  bfReserved2 : Z;
  bfOffBits : Z
}.

Record BITMAPINFOHEADER : Type := mkInfoHeader {
  biSize : Z;
  biWidth : Z;
  biHeight : Z;
  biPlanes : Z;
  biBitCount : Z;
  biCompression : Z;
  biSizeImage : Z;
  biXPelsPerMeter : Z;
  biYPelsPerMeter : Z;
  biClrUsed : Z;
  biClrImportant : Z
}.

Record BITMAPINFO : Type := mkBitmapInfo {
  bmfHeader : BITMAPFILEHEADER;
  bmiHeader : BITMAPINFOHEADER;
  RGB_MASK : list Z
}.

Definition BI_RGB : Z := 0.
Definition BI_BITFIELDS : Z := 3.

Section Bitmap.
Context (long_size : Z).

Definition sizeof_BITMAPINFOHEADER : Z := 24 + 4 * long_size.
Definition sizeof_BITMAPINFO : Z := 14 + sizeof_BITMAPINFOHEADER + 16.

(** [None]: calloc has returned NULL, and the function writes through it. *)
Definition bmp_create_header (calloc : bool) (w h bitperpix : Z) : option BITMAPINFO :=
  if negb calloc then None
  else
    let '(compression, size_image) :=
      if bitperpix =? 16 then (BI_BITFIELDS, u32 (w * h * 2 + 2)) else (BI_RGB, 0) in
    let info := mkInfoHeader sizeof_BITMAPINFOHEADER w h 1 (u16 bitperpix) compression size_image
                  0x130b 0x130b 0 0 in
    let type := u16 (Z.lor (Z.shiftl 77 8) 66) in
    if bitperpix =? 16
    then Some (mkBitmapInfo
                 (mkFileHeader type (u32 (sizeof_BITMAPINFO + size_image)) 0 0 sizeof_BITMAPINFO)
                 info [0xF800; 0x07E0; 0x001F; 0])
    else Some (mkBitmapInfo
                 (mkFileHeader type (u32 (sizeof_BITMAPINFO - 16 + w * h * 3)) 0 0 (sizeof_BITMAPINFO - 16))
                 info [0; 0; 0; 0]).

(** The bytes of an integer of [n] bytes. *)
Fixpoint le_bytes (n : nat) (v : Z) : list Z :=
  match n with
  | O => []
  | S n => v mod 256 :: le_bytes n (v / 256)
  end.

(** The structure as it lies in memory. *)
Definition bitmap_bytes (b : BITMAPINFO) : list Z :=
  let f := bmfHeader b in
  let i := bmiHeader b in
  let long := le_bytes (Z.to_nat long_size) in
  le_bytes 2 (bfType f) ++ le_bytes 4 (bfSize f) ++ le_bytes 2 (bfReserved1 f) ++
  le_bytes 2 (bfReserved2 f) ++ le_bytes 4 (bfOffBits f) ++
  le_bytes 4 (biSize i) ++ long (biWidth i) ++ long (biHeight i) ++ le_bytes 2 (biPlanes i) ++
  le_bytes 2 (biBitCount i) ++ le_bytes 4 (biCompression i) ++ le_bytes 4 (biSizeImage i) ++
  long (biXPelsPerMeter i) ++ long (biYPelsPerMeter i) ++ le_bytes 4 (biClrUsed i) ++
  le_bytes 4 (biClrImportant i) ++ concat (map (le_bytes 4) (RGB_MASK b)).
End Bitmap.
