(* ===== verification/Camera.v ===== *)
(** apps/sample_fcmd/fcmd/cmd_jpge.c: the commands that load a picture from a
    file and write it as a JPEG file.

    Parameters: [long_size] is sizeof(long); [fopen name] the content of a file
    that can be read; [fopen_w name] whether a file can be written; [fwrite n k]
    how many of [k] bytes are written when [n] have been; [tmp] and [uninit] the
    content of uninitialised local variables; the rest as for fmt2jpg. *)

From S2P Require Import Prelude.
From S2P Require Import CMonad.
From S2P Require Import CString.
From S2P Require Import MemDump.
From S2P Require Import JpgeTypes.
From S2P Require Import Jpge.
From S2P Require Import ToJpg.

(** s_camera, file_name, the static variables of the encoder, and the files that
    have been written. *)
Record camera : Type := mkCamera {
  cam_buf : option (list Z);
  cam_len : Z;
  cam_width : Z;
  cam_height : Z;
  cam_format : pixformat_t;
  file_name : list Z;
  encoder_statics : jpg_state;
  written : list (list Z * list Z)
}.

Definition set_cam_buf v s := mkCamera v (cam_len s) (cam_width s) (cam_height s) (cam_format s)
  (file_name s) (encoder_statics s) (written s).
Definition set_cam_len v s := mkCamera (cam_buf s) v (cam_width s) (cam_height s) (cam_format s)
  (file_name s) (encoder_statics s) (written s).
Definition set_cam_picture w h f s := mkCamera (cam_buf s) (cam_len s) w h f
  (file_name s) (encoder_statics s) (written s).
Definition set_file_name v s := mkCamera (cam_buf s) (cam_len s) (cam_width s) (cam_height s)
  (cam_format s) v (encoder_statics s) (written s).
Definition set_encoder_statics v s := mkCamera (cam_buf s) (cam_len s) (cam_width s) (cam_height s)
  (cam_format s) (file_name s) v (written s).
Definition set_written v s := mkCamera (cam_buf s) (cam_len s) (cam_width s) (cam_height s)
  (cam_format s) (file_name s) (encoder_statics s) v.

(** * Turning a picture upside down *)

(** One round: the lines i and h-i-1 change places. *)
Definition xchg_round (w h b : Z) (i : Z) (data : list Z) : option (list Z) :=
  let n := w * b in
  let top := zsub data (i * n) n in
  if (0 <=? n) && (0 <=? i * n) && (i * n + n <=? zlen data) && (0 <=? (h - i - 1) * n) && ((h - i - 1) * n + n <=? zlen data)
  then (zblit data (i * n) (zsub data ((h - i - 1) * n) n) ≫= fun data =>
        zblit data ((h - i - 1) * n) top)%stdpp
  else None.

Fixpoint xchg_loop (rounds : nat) (w h b : Z) (i : Z) (data : list Z) : option (list Z) :=
  match rounds with
  | O => Some data
  | S n => (xchg_round w h b i data ≫= xchg_loop n w h b (i + 1))%stdpp
  end.

(** The result and the new data; [alloc] is whether malloc succeeds. *)
Definition xchg_line (alloc : bool) (data : list Z) (w h b : Z) : option (Z * list Z) :=
  if negb alloc then Some (-1, data)
  else (xchg_loop (Z.to_nat (h ÷ 2)) w h b 0 data ≫= fun data => Some (0, data))%stdpp.

(** strrchr(file, DOT) as an offset. *)
Fixpoint last_dot (p : Z) (s : list Z) (found : option Z) : option Z :=
  match s with
  | [] => found
  | c :: s => last_dot (p + 1) s (if c =? 46 then Some p else found)
  end.

Definition file_type (s : list Z) : option Z := last_dot 0 s None.

(** strcmp(ext, file_type(file)) == 0; strcmp of NULL is a fault. *)
Definition has_type (ext file : list Z) : option bool :=
  (file_type file ≫= fun p => Some (bool_decide (drop (Z.to_nat p) file = ext)))%stdpp.

Section Camera.
Context (long_size : Z) (malloc_lines malloc : Z -> option (list Z)) (dst_image : jpeg_encoder).
Context (fopen : list Z -> option (list Z)) (fopen_w : list Z -> bool) (fwrite : Z -> Z -> Z).
Context (tmp : list Z) (uninit : Z).

Definition camera_init : M camera Z :=
  modify (set_cam_len (4 * 1024 * 1024)) ;;
  let block := malloc (4 * 1024 * 1024) in
  modify (set_cam_buf block) ;;
  match block with None => ret (-1) | Some _ => ret 0 end.

Definition camera_exit : M camera Z := modify (set_cam_buf None) ;; ret 0.

(** An unsigned value of [n] bytes in tmp; a long read into a size_t keeps its
    bits. *)
Definition tmp_value (tmp : list Z) (n : nat) (p : Z) : M camera Z :=
  access "camera_run" (load (zget tmp) n p).

(** The header of a BMP file: the bytes per pixel and the position of the data. *)
Definition read_bmp_header (content : list Z) : M camera (Z * Z) :=
  let br := Z.min 128 (zlen content) in
  tmp <- access "camera_run" (zblit tmp 0 (take 128 content)) ;;
  bits <- tmp_value tmp 2 28 ;;
  bytes_per_pix <-
    (if (bits =? 16) || (bits =? 24) then
       w <- tmp_value tmp (Z.to_nat long_size) 18 ;;
       h <- tmp_value tmp (Z.to_nat long_size) 22 ;;
       modify (set_cam_picture w h (if bits =? 16 then PIXFORMAT_RGB565 else PIXFORMAT_RGB888)) ;;
       ret (if bits =? 16 then 2 else 3)
     else ret uninit) ;;
  off <- tmp_value tmp 4 10 ;;
  let data_off := s32 off in
  ret (bytes_per_pix, if data_off <? 0 then br else data_off).

(** One round of the loop that reads 4096 bytes; the file is at [pos] + [n]. *)
Definition read_round (content : list Z) (pos : Z) (n : Z) : M camera (Z + Z) :=
  let d := zsub content (pos + n) 4096 in
  if 0 <? zlen d then
    buf <- gets cam_buf ;;
    buf <- access "camera_run" buf ;;
    buf <- access "camera_run" (zblit buf n d) ;;
    modify (set_cam_buf (Some buf)) ;; ret (inl (n + zlen d))
  else ret (inr n).

Definition camera_run (file : list Z) : M camera Z :=
  let site := "camera_run"%string in
  name <- access site (cstr file 0) ;;
  room <- gets file_name ;;
  room <- access site (zblit room 0 (name ++ [0])) ;;
  modify (set_file_name room) ;;
  match fopen name with
  | None => ret (-1)
  | Some content =>
      bmp <- access site (has_type (bytes ".bmp") name) ;;
      yuv <- access site (has_type (bytes ".yuv") name) ;;
      let* (bytes_per_pix, pos) :=
        if bmp : bool then read_bmp_header content
        else if yuv : bool then modify (set_cam_picture 1920 1080 PIXFORMAT_YUV422) ;; ret (2, 0)
        else ret (uninit, 0) in
      loop (S (length content)) (read_round content pos) 0 ;;
      if bmp then
        w <- gets cam_width ;; h <- gets cam_height ;;
        buf <- gets cam_buf ;;
        let w := s32 w in
        let h := s32 h in
        r <- access "xchg_line" (xchg_line (bool_decide (is_Some (malloc (w * bytes_per_pix + 64))))
               (default [] buf) w h bytes_per_pix) ;;
        modify (set_cam_buf (Some (snd r))) ;; ret 0
      else ret 0
  end.

(** frame2jpg(&s_camera, 85, ...) *)
Definition camera_jpg : M camera (option (list Z * Z)) := fun s =>
  let fb := mkFb (default [] (cam_buf s)) (cam_len s) (cam_width s) (cam_height s) (cam_format s) in
  match frame2jpg malloc_lines malloc dst_image fb 85 (encoder_statics s) with
  | Ok (r, st) => Ok (r, set_encoder_statics st s)
  | Stop f => Stop f
  end.

(** One round of the loop that writes; [d] has been written. *)
Definition write_round (out : list Z) (out_len : Z) (d : list Z) : M camera (list Z + list Z) :=
  let n := zlen d in
  let bw := fwrite n (out_len - n) in
  if 0 <? bw then
    chunk <- access "camera_compress" (if n + bw <=? zlen out then Some (zsub out n bw) else None) ;;
    ret (inl (d ++ chunk))
  else ret (inr d).

Definition camera_compress : M camera Z :=
  let site := "camera_compress"%string in
  r <- camera_jpg ;;
  match r with
  | None => ret 0
  | Some (out, out_len) =>
      room <- gets file_name ;;
      name <- access site (cstr room 0) ;;
      dot <- access site (file_type name) ;;
      room <- access site (zblit room dot (bytes ".jpg" ++ [0])) ;;
      modify (set_file_name room) ;;
      name <- access site (cstr room 0) ;;
      if negb (fopen_w name) then ret (-1)
      else
        d <- loop (S (Z.to_nat out_len)) (write_round out out_len) [] ;;
        modify (fun s => set_written (written s ++ [(name, d)]) s) ;; ret 0
  end.
End Camera.
