(* ===== verification/CameraFacts.v ===== *)
(** Loading a BMP file and writing it as a JPEG file. *)

From S2P Require Import Prelude.
From S2P Require Import CMonad.
From S2P Require Import CString.
From S2P Require Import MemDump.
From S2P Require Import MemDumpFacts.
From S2P Require Import JpgeTypes.
From S2P Require Import Jpge.
From S2P Require Import JpegSpec.
From S2P Require Import JpgeCodeFacts.
From S2P Require Import JpgeScanFacts.
From S2P Require Import JpgeImageFacts.
From S2P Require Import JpgeHeadFacts.
From S2P Require Import JpgeOpenFacts.
From S2P Require Import JpegFile.
From S2P Require Import JpgeFileFacts.
From S2P Require Import ToJpg.
From S2P Require Import ToJpgFacts.
From S2P Require Import Bitmap.
From S2P Require Import Camera.

(** * Upside down *)

Lemma zsub_middle {A} (a x r : list A) p n :
  p = zlen a -> n = zlen x -> zsub (a ++ x ++ r) p n = x.
Proof.
  intros -> ->. unfold zsub, zlen. rewrite !Nat2Z.id, drop_app_length. apply take_app_length.
Qed.

Lemma zblit_middle {A} (a x y r : list A) p :
  p = zlen a -> zlen x = zlen y -> zblit (a ++ x ++ r) p y = Some (a ++ y ++ r).
Proof.
  intros -> Hl. pose proof (zlen_nonneg a). pose proof (zlen_nonneg r). pose proof (zlen_nonneg x).
  rewrite zblit_is_Some by (rewrite ?zlen_app; lia). f_equal. unfold zlen in *.
  replace (Z.to_nat (Z.of_nat (length a))) with (length a) by lia. rewrite take_app_length.
  replace (Z.to_nat (Z.of_nat (length a) + Z.of_nat (length y))) with (length a + length x)%nat by lia.
  by rewrite <- drop_drop, drop_app_length, drop_app_length.
Qed.

Lemma zlen_concat_rows {A} (l : list (list A)) n : Forall (fun x => zlen x = n) l -> zlen (concat l) = zlen l * n.
Proof.
  induction 1 as [|x l Hx Hl IH]; cbn [concat]; [by rewrite zlen_nil|].
  rewrite zlen_app, zlen_cons, IH, Hx. lia.
Qed.

(** Exchanging the lines [x] and [y]. *)
Lemma xchg_round_rows w h b i (front middle back : list (list Z)) x y rest :
  let n := w * b in
  Forall (fun r => zlen r = n) (front ++ x :: middle ++ y :: back) -> 0 <= n ->
  zlen front = i -> h - i - 1 = i + 1 + zlen middle ->
  xchg_round w h b i (concat (front ++ x :: middle ++ y :: back) ++ rest) =
    Some (concat (front ++ y :: middle ++ x :: back) ++ rest).
Proof.
  intros n Hrows Hn Hi Hh.
  apply Forall_app in Hrows as [Hf Hrows]. apply Forall_cons in Hrows as [Hx Hrows].
  apply Forall_app in Hrows as [Hm Hrows]. apply Forall_cons in Hrows as [Hy Hb].
  rewrite !concat_app. cbn [concat]. rewrite !concat_app. cbn [concat].
  set (F := concat front). set (D := concat middle). set (R := concat back ++ rest).
  assert (zlen F = i * n) as HF by (unfold F; rewrite (zlen_concat_rows _ n Hf); lia).
  assert (zlen (F ++ x ++ D) = (h - i - 1) * n) as HD.
  { rewrite !zlen_app. unfold D. rewrite (zlen_concat_rows _ n Hm), HF, Hx, Hh. lia. }
  assert (zlen (F ++ y ++ D) = (h - i - 1) * n) as HD'.
  { rewrite <- HD, !zlen_app. lia. }
  assert (forall u v, (F ++ u ++ D ++ v ++ concat back) ++ rest = F ++ u ++ D ++ v ++ R) as Hassoc
    by (intros u v; unfold R; by rewrite <- !app_assoc).
  rewrite !Hassoc.
  pose proof (zlen_nonneg F). pose proof (zlen_nonneg D). pose proof (zlen_nonneg R).
  assert (zlen (F ++ x ++ D ++ y ++ R) = i * n + n + zlen D + n + zlen R) as Hz
    by (rewrite !zlen_app; lia).
  rewrite !zlen_app in HD. unfold xchg_round. fold n. rewrite Hz.
  rewrite !(proj2 (Z.leb_le _ _)) by lia. cbn [andb].
  rewrite (zsub_middle F x) by congruence.
  assert (forall u v : list Z, F ++ u ++ D ++ v ++ R = (F ++ u ++ D) ++ v ++ R) as Hback
    by (intros u v; by rewrite <- !app_assoc).
  assert (zsub (F ++ x ++ D ++ y ++ R) ((h - i - 1) * n) n = y) as ->.
  { rewrite Hback. apply zsub_middle; [|congruence]. rewrite !zlen_app. lia. }
  rewrite zblit_middle by congruence. cbn [mbind option_bind].
  rewrite !Hback. apply zblit_middle; congruence.
Qed.

Lemma xchg_loop_rows w h b k : forall front middle back (rest : list Z) i,
  let n := w * b in
  Forall (fun r => zlen r = n) (front ++ middle ++ back) -> 0 <= n ->
  zlen front = i -> zlen back = i -> h = i + zlen middle + i ->
  length middle = (2 * k)%nat \/ length middle = (2 * k + 1)%nat ->
  xchg_loop k w h b i (concat (front ++ middle ++ back) ++ rest) =
    Some (concat (front ++ rev middle ++ back) ++ rest).
Proof.
  induction k as [|k IH]; intros front middle back rest i n Hrows Hn Hf Hb Hh Hk; cbn [xchg_loop].
  - destruct middle as [|x [|y m]]; [done|done|]. cbn [length] in Hk. lia.
  - destruct middle as [|x m] using rev_ind; [cbn in Hk; lia|]. clear IHm.
    rename x into y. destruct m as [|x m]; [cbn in Hk; lia|].
    rewrite length_app in Hk. cbn [length] in Hk.
    assert (front ++ ((x :: m) ++ [y]) ++ back = front ++ x :: m ++ y :: back) as E
      by (cbn [app]; by rewrite <- app_assoc).
    rewrite E in Hrows |- *. rewrite zlen_app, zlen_cons in Hh. change (zlen [y]) with 1 in Hh.
    rewrite (xchg_round_rows w h b i front m back x y rest) by (done || lia). cbn [mbind option_bind].
    assert (front ++ y :: m ++ x :: back = (front ++ [y]) ++ m ++ x :: back) as ->
      by (by rewrite <- app_assoc).
    rewrite IH; [| |done| | | |lia].
    + f_equal. f_equal. rewrite rev_app_distr. cbn [rev app]. by rewrite <- !app_assoc.
    + rewrite Forall_forall in Hrows. apply Forall_forall. intros r Hr. apply Hrows.
      rewrite ?elem_of_app, ?elem_of_cons, ?elem_of_app, ?elem_of_cons, ?elem_of_nil in *. tauto.
    + rewrite zlen_app. change (zlen [y]) with 1. lia.
    + rewrite zlen_cons. lia.
    + lia.
Qed.

(** xchg_line turns the order of the lines around. *)
Lemma xchg_line_rows w b (rows : list (list Z)) rest :
  Forall (fun r => zlen r = w * b) rows -> 0 <= w * b ->
  xchg_line true (concat rows ++ rest) w (zlen rows) b = Some (0, concat (rev rows) ++ rest).
Proof.
  intros Hrows Hn. unfold xchg_line. cbn [negb].
  pose proof (xchg_loop_rows w (zlen rows) b (Z.to_nat (zlen rows ÷ 2)) [] rows [] rest 0) as H.
  cbn zeta in H. rewrite !app_nil_r in H. cbn [app] in H. rewrite H; [done|done|done|done|done| |].
  - rewrite Z.add_0_r. done.
  - rewrite Z.quot_div_nonneg by (unfold zlen; lia). unfold zlen.
    pose proof (Z.div_mod (Z.of_nat (length rows)) 2 ltac:(lia)).
    pose proof (Z.mod_pos_bound (Z.of_nat (length rows)) 2 ltac:(lia)). lia.
Qed.

(** * Reading the header *)

Lemma le_bytes_u8 n v : Forall is_u8 (le_bytes n v).
Proof.
  revert v. induction n as [|n IH]; intros v; cbn [le_bytes]; constructor; [|apply IH].
  unfold is_u8. apply Z.mod_pos_bound. lia.
Qed.

Lemma length_le_bytes n v : length (le_bytes n v) = n.
Proof. revert v. induction n as [|n IH]; intros v; cbn [le_bytes length]; [done|]. by rewrite IH. Qed.

Lemma word_value_le_bytes n v : 0 <= v < 256 ^ Z.of_nat n -> word_value (le_bytes n v) = v.
Proof.
  revert v. induction n as [|n IH]; intros v Hv; cbn [le_bytes word_value]; [cbn in Hv; lia|].
  rewrite Nat2Z.inj_succ, Z.pow_succ_r in Hv by lia. rewrite IH.
  - pose proof (Z.div_mod v 256). lia.
  - split; [apply Z.div_pos; lia|]. apply Z.div_lt_upper_bound; lia.
Qed.

(** The value of an integer in an array. *)
Lemma load_le_bytes (m : list Z) n p v :
  holds m p (le_bytes n v) -> 0 <= v < 256 ^ Z.of_nat n -> load (zget m) n p = Some v.
Proof.
  intros Hm Hv. pose proof (load_value (zget m) p (le_bytes n v)) as H.
  rewrite length_le_bytes, word_value_le_bytes in H by done. apply H; [|apply le_bytes_u8].
  intros i Hi. destruct (zget_is_Some (le_bytes n v) i Hi) as [x Hx]. rewrite Hx.
  by apply (holds_get _ _ _ _ _ Hm).
Qed.

(** The part of a BMP file before the lines. *)
Definition bmp_header (b : BITMAPINFO) : list Z :=
  take (Z.to_nat (bfOffBits (bmfHeader b))) (bitmap_bytes 4 b).

(** A file with the lines [rows], from the bottom to the top, and [rest]. *)
Definition bmp_file (b : BITMAPINFO) (rows : list (list Z)) (rest : list Z) : list Z :=
  bmp_header b ++ concat (rev rows) ++ rest.

Lemma header_fields w h bits b :
  bmp_create_header 4 true w h bits = Some b -> bits = 16 \/ bits = 24 ->
  0 <= w < 2147483648 -> 0 <= h < 2147483648 ->
  let off := if bits =? 16 then 70 else 54 in
  zlen (bmp_header b) = off /\
  holds (bmp_header b) 10 (le_bytes 4 off) /\ holds (bmp_header b) 18 (le_bytes 4 w) /\
  holds (bmp_header b) 22 (le_bytes 4 h) /\ holds (bmp_header b) 28 (le_bytes 2 bits).
Proof.
  unfold bmp_create_header. cbn [negb]. intros Hb [-> | ->] Hw Hh; injection Hb as <-.
  - cbn zeta. repeat split.
  - cbn zeta. repeat split.
Qed.

(** What lies in the first 128 bytes of the file is read from tmp. *)
Lemma tmp_holds (tmp content t : list Z) p d :
  zblit tmp 0 (take 128 content) = Some t -> holds content p d -> 0 <= p -> p + zlen d <= 128 ->
  holds t p d.
Proof.
  intros Ht Hd Hp Hl. eapply holds_shift; [|exact Hd]. intros i Hi.
  rewrite (zget_zblit _ _ _ _ _ Ht) by lia.
  destruct (zget_is_Some d i Hi) as [x Hx]. pose proof (holds_get _ _ _ _ _ Hd Hx) as Hx'.
  pose proof (zget_Some_range _ _ _ Hx') as Hr.
  assert (zlen (take 128 content) = Z.min 128 (zlen content)) as Hz
    by (unfold zlen; rewrite length_take; lia).
  rewrite Hz. destruct (Z.leb_spec 0 (p + i)), (Z.ltb_spec (p + i) (0 + Z.min 128 (zlen content))); cbn; try lia.
  unfold zget. destruct (Z.leb_spec 0 (p + i)), (Z.leb_spec 0 (p + i - 0)); try lia.
  rewrite lookup_take_lt by lia. f_equal. lia.
Qed.

Lemma holds_app_l {A} (a r : list A) p d : 0 <= p -> holds a p d -> holds (a ++ r) p d.
Proof.
  intros Hp H. eapply holds_shift; [|exact H]. intros i Hi.
  destruct (zget_is_Some d i Hi) as [x Hx]. pose proof (holds_get _ _ _ _ _ H Hx) as Hx'.
  pose proof (zget_Some_range _ _ _ Hx'). symmetry. apply zget_app_l. lia.
Qed.

Section Run.
Context (E : failure -> Prop) (malloc : Z -> option (list Z)) (fopen : list Z -> option (list Z)).
Context (tmp : list Z) (uninit : Z) (Htmp : zlen tmp = 128).

Definition bmp_format (bits : Z) : pixformat_t := if bits =? 16 then PIXFORMAT_RGB565 else PIXFORMAT_RGB888.

Lemma wpg_read_bmp_header w h bits b rows rest Q s :
  bmp_create_header 4 true w h bits = Some b -> bits = 16 \/ bits = 24 ->
  0 <= w < 2147483648 -> 0 <= h < 2147483648 ->
  Q (bits / 8, zlen (bmp_header b)) (set_cam_picture w h (bmp_format bits) s) ->
  wpg E (read_bmp_header 4 tmp uninit (bmp_file b rows rest)) Q s.
Proof.
  intros Hb Hbits Hw Hh HQ.
  destruct (header_fields w h bits b Hb Hbits Hw Hh) as (Hl & Hoff & H18 & H22 & H28).
  set (content := bmp_file b rows rest).
  assert (forall p d, 0 <= p -> holds (bmp_header b) p d -> holds content p d) as Hin
    by (intros p d; apply holds_app_l).
  unfold read_bmp_header.
  assert (zlen (take 128 content) <= 128) as Ht by (unfold zlen; rewrite length_take; lia).
  destruct (zblit_ex tmp 0 (take 128 content) ltac:(lia) ltac:(lia)) as [t Et].
  assert (forall p n v, 0 <= p -> p + Z.of_nat n <= 128 -> holds (bmp_header b) p (le_bytes n v) ->
            0 <= v < 256 ^ Z.of_nat n -> load (zget t) n p = Some v) as Hload.
  { intros p n v Hp Hpn Hd Hv. apply load_le_bytes; [|done].
    apply (tmp_holds tmp content t); [done|by apply Hin|done|]. unfold zlen. by rewrite length_le_bytes. }
  apply wpg_bind. rewrite Et. cbn [access]. apply wpg_ret. unfold tmp_value.
  rewrite (Hload 28 2%nat bits) by (done || lia). wp_steps.
  set (off := if bits =? 16 then 70 else 54) in *.
  assert (0 <= off < 256) as Ho by (unfold off; destruct (bits =? 16); lia).
  assert ((bits =? 16) || (bits =? 24) = true) as -> by (by destruct Hbits as [-> | ->]).
  change (Z.to_nat 4) with 4%nat.
  rewrite (Hload 18 4%nat w), (Hload 22 4%nat h), (Hload 10 4%nat off) by (done || lia). wp_steps.
  rewrite s32_small by lia. destruct (Z.ltb_spec off 0); [lia|]. rewrite <- Hl.
  replace (if bits =? 16 then 2 else 3) with (bits / 8) by (by destruct Hbits as [-> | ->]).
  exact HQ.
Qed.

(** The loop that reads the rest of the file into the frame buffer. *)
Lemma wpg_read_loop content pos buf buf' Q s :
  0 <= pos -> cam_buf s = Some buf -> zblit buf 0 (drop (Z.to_nat pos) content) = Some buf' ->
  (forall n, Q n (set_cam_buf (Some buf') s)) ->
  wpg E (loop (S (length content)) (read_round content pos) 0) Q s.
Proof.
  intros Hpos Hbuf Hblit HQ. set (d := drop (Z.to_nat pos) content) in *.
  pose proof (zblit_range _ _ _ _ Hblit) as [_ Hroom].
  assert (forall fuel d1 d2 cur s1, d = d1 ++ d2 -> (length d2 < fuel)%nat -> cam_buf s1 = Some cur ->
            zblit buf 0 d1 = Some cur -> set_cam_buf (Some buf') s1 = set_cam_buf (Some buf') s ->
            wpg E (loop fuel (read_round content pos) (zlen d1)) Q s1) as H.
  { intros fuel. induction fuel as [|fuel IH]; intros d1 d2 cur s1 Hd Hf Hs1 Hcur Hset; [lia|].
    apply wpg_loop_S. unfold read_round.
    assert (zsub content (pos + zlen d1) 4096 = take 4096 d2) as ->.
    { unfold zsub. change (Z.to_nat 4096) with 4096%nat. f_equal.
      replace (Z.to_nat (pos + zlen d1)) with (Z.to_nat pos + length d1)%nat by (unfold zlen; lia).
      rewrite <- drop_drop. fold d. rewrite Hd. apply drop_app_length. }
    destruct (Z.ltb_spec 0 (zlen (take 4096 d2))) as [Hpos2|Hz].
    - wp_steps. rewrite Hs1. wp_steps.
      assert (zlen d = zlen d1 + zlen (take 4096 d2) + zlen (drop 4096 d2)) as Hzd.
      { rewrite Hd, zlen_app. rewrite <- (take_drop 4096 d2) at 1. rewrite zlen_app. lia. }
      pose proof (zlen_nonneg (drop 4096 d2)).
      pose proof (zblit_app buf 0 d1 (take 4096 d2) cur Hcur ltac:(lia)) as Happ. rewrite Z.add_0_l in Happ.
      destruct (zblit_ex buf 0 (d1 ++ take 4096 d2) ltac:(lia)) as [cur' Hcur']; [rewrite zlen_app; lia|].
      rewrite Happ, Hcur'. wp_steps. rewrite <- zlen_app.
      apply (IH _ (drop 4096 d2) cur'); [by rewrite <- app_assoc, take_drop| |done|done|exact Hset].
      unfold zlen in Hpos2. rewrite length_take in Hpos2. rewrite length_drop. lia.
    - wp_steps. assert (d2 = []) as ->.
      { destruct d2 as [|x d2]; [done|]. cbn [take] in Hz. rewrite zlen_cons in Hz.
        pose proof (zlen_nonneg (take 4095 d2)). lia. }
      rewrite app_nil_r in Hd. subst d1. rewrite Hblit in Hcur. injection Hcur as <-.
      assert (set_cam_buf (Some buf') s1 = s1) as Hid by (unfold set_cam_buf; rewrite <- Hs1; by destruct s1).
      rewrite <- Hid, Hset. apply HQ. }
  apply (H _ [] d buf s); [done| |done| |done].
  - unfold d. rewrite length_drop. lia.
  - apply zblit_nil. pose proof (zlen_nonneg buf). lia.
Qed.

(** A string that ends in the extension. *)
Lemma last_dot_app p a t found :
  Forall (fun c => c <> 46) t -> last_dot p (a ++ 46 :: t) found = Some (p + zlen a).
Proof.
  intros Ht. revert p found. induction a as [|c a IH]; intros p found; cbn [app last_dot].
  - rewrite zlen_nil, Z.add_0_r. change (46 =? 46) with true. cbn iota.
    generalize (p + 1) as q. revert p. induction Ht as [|c t Hc Ht IH]; intros p q; cbn [last_dot]; [done|].
    destruct (Z.eqb_spec c 46); [done|]. apply IH.
  - rewrite IH, zlen_cons. f_equal. lia.
Qed.

Lemma file_type_app a t : Forall (fun c => c <> 46) t -> file_type (a ++ 46 :: t) = Some (zlen a).
Proof. apply last_dot_app. Qed.

Lemma has_type_app ext a t :
  Forall (fun c => c <> 46) t -> has_type ext (a ++ 46 :: t) = Some (bool_decide (46 :: t = ext)).
Proof.
  intros Ht. unfold has_type. rewrite file_type_app by done. cbn [mbind option_bind].
  unfold zlen. by rewrite Nat2Z.id, drop_app_length.
Qed.

Definition loaded (w h bits : Z) (rows : list (list Z)) (rest room buf : list Z) (s : camera) : camera :=
  set_cam_buf (Some (concat rows ++ rest ++ drop (length (concat rows ++ rest)) buf))
    (set_cam_picture w h (bmp_format bits) (set_file_name room s)).

Lemma wpg_camera_run file stem w h bits b rows rest buf room Q s :
  let name := stem ++ bytes ".bmp" in
  cstr file 0 = Some name -> zblit (file_name s) 0 (name ++ [0]) = Some room ->
  fopen name = Some (bmp_file b rows rest) ->
  bmp_create_header 4 true w h bits = Some b -> bits = 16 \/ bits = 24 ->
  0 <= w < 2147483648 -> h < 2147483648 -> zlen rows = h ->
  Forall (fun r => zlen r = w * (bits / 8)) rows ->
  cam_buf s = Some buf -> zlen (concat rows ++ rest) <= zlen buf ->
  is_Some (malloc (w * (bits / 8) + 64)) ->
  Q 0 (loaded w h bits rows rest room buf s) ->
  wpg E (camera_run 4 malloc fopen tmp uninit file) Q s.
Proof.
  intros name Hfile Hroom Hopen Hb Hbits Hw Hh Hrows Hlen Hbuf Hfit Hmalloc HQ.
  pose proof (zlen_nonneg rows).
  assert (0 <= w * (bits / 8)) as Hn by (apply Z.mul_nonneg_nonneg; [lia|by destruct Hbits as [-> | ->]]).
  unfold camera_run. rewrite Hfile. wp_steps. rewrite Hroom. wp_steps. rewrite Hopen.
  assert (name = stem ++ 46 :: bytes "bmp") as Ename by done.
  rewrite Ename, !has_type_app by (by repeat constructor).
  rewrite bool_decide_true, bool_decide_false by done. wp_steps.
  apply (wpg_read_bmp_header w h bits); [done|done|done|lia|].
  destruct (header_fields w h bits b Hb Hbits Hw ltac:(lia)) as (Hl & _).
  pose proof (zlen_nonneg (bmp_header b)).
  assert (zlen (concat (rev rows)) = zlen (concat rows)) as Hrev.
  { rewrite !(zlen_concat_rows _ (w * (bits / 8))); [unfold zlen; by rewrite length_rev|done|].
    by apply Forall_rev. }
  set (data := concat (rev rows) ++ rest).
  assert (zlen data = zlen (concat rows ++ rest)) as Hd by (unfold data; rewrite !zlen_app; lia).
  assert (drop (Z.to_nat (zlen (bmp_header b))) (bmp_file b rows rest) = data) as Hdrop.
  { unfold zlen. rewrite Nat2Z.id. apply drop_app_length. }
  apply wpg_bind. cbn beta iota.
  eapply (wpg_read_loop _ _ buf (data ++ drop (length data) buf)); [done|done| |].
  { rewrite Hdrop, zblit_is_Some by lia. change (take (Z.to_nat 0) buf) with (@nil Z). cbn [app].
    unfold zlen. by rewrite Z.add_0_l, Nat2Z.id. }
  intros n. wp_steps. cbn [cam_width cam_height cam_buf set_cam_buf set_cam_picture from_option id].
  rewrite !s32_small by lia. rewrite bool_decide_true by done. unfold data. rewrite <- app_assoc.
  replace h with (zlen (rev rows)) by (unfold zlen in *; rewrite length_rev; lia).
  rewrite xchg_line_rows; [|by apply Forall_rev|done]. wp_steps. rewrite rev_involutive.
  unfold loaded in HQ.
  replace (length (concat (rev rows) ++ rest)) with (length (concat rows ++ rest))
    by (unfold zlen in Hd; unfold data in Hd; lia).
  replace (zlen (rev rows)) with h by (unfold zlen in *; rewrite length_rev; lia).
  exact HQ.
Qed.

End Run.

(** * Writing the JPEG file *)

Section Compress.
Context (E : failure -> Prop) (malloc_lines malloc : Z -> option (list Z)) (dst_image : jpeg_encoder).
Context (fopen_w : list Z -> bool) (fwrite : Z -> Z -> Z).

(** The standard library writes something as long as something is left. *)
Definition fwrite_ok : Prop := forall n k, 0 <= k -> 0 <= fwrite n k <= k /\ (0 < k -> 0 < fwrite n k).

Lemma wpg_write_loop o len Q s :
  fwrite_ok -> 0 <= len <= zlen o -> Q (take (Z.to_nat len) o) s ->
  wpg E (loop (S (Z.to_nat len)) (write_round fwrite o len) []) Q s.
Proof.
  intros Hfw Hlen HQ.
  assert (forall fuel d, d = take (length d) o -> zlen d <= len -> (Z.to_nat (len - zlen d) < fuel)%nat ->
            wpg E (loop fuel (write_round fwrite o len) d) Q s) as H.
  { intros fuel. induction fuel as [|fuel IH]; intros d Hd Hdl Hf; [lia|]. apply wpg_loop_S.
    unfold write_round. pose proof (zlen_nonneg d).
    destruct (Hfw (zlen d) (len - zlen d) ltac:(lia)) as [Hb Hpos].
    set (bw := fwrite (zlen d) (len - zlen d)) in *. destruct (Z.ltb_spec 0 bw).
    - destruct (Z.leb_spec (zlen d + bw) (zlen o)); [|lia]. wp_steps.
      assert (zlen (zsub o (zlen d) bw) = bw) as Hz by (apply zlen_zsub; lia).
      apply IH; [|rewrite zlen_app; lia|rewrite zlen_app; lia].
      assert (length (zsub o (zlen d) bw) = Z.to_nat bw) as Hz'.
      { change (zlen (zsub o (zlen d) bw)) with (Z.of_nat (length (zsub o (zlen d) bw))) in Hz. lia. }
      rewrite length_app, Hz'. transitivity (take (length d) o ++ zsub o (zlen d) bw); [by rewrite <- Hd|].
      unfold zsub, zlen. rewrite Nat2Z.id. apply take_take_drop.
    - wp_steps. assert (len = zlen d) as -> by (destruct (Z.lt_ge_cases 0 (len - zlen d)); lia).
      unfold zlen in HQ. rewrite Nat2Z.id, <- Hd in HQ. exact HQ. }
  apply H; [done|rewrite zlen_nil; lia|]. rewrite zlen_nil. lia.
Qed.

(** The name of the file with another extension. *)
Lemma replace_extension room a t rest room' :
  zblit room 0 ((a ++ 46 :: t) ++ 0 :: rest) = Some room' ->
  Forall (fun c => c <> 0) a -> Forall (fun c => c <> 0 /\ c <> 46) t -> zlen a + 5 <= zlen room ->
  cstr room' 0 = Some (a ++ 46 :: t) /\
  exists room2, zblit room' (zlen a) (bytes ".jpg" ++ [0]) = Some room2 /\
    cstr room2 0 = Some (a ++ bytes ".jpg").
Proof.
  intros Hb Ha Ht Hfit. pose proof (zlen_nonneg a). pose proof (zblit_zlen _ _ _ _ Hb) as Hl.
  pose proof (zblit_holds _ _ _ _ Hb) as Hh.
  change (0 :: rest) with ([0] ++ rest) in Hh. rewrite app_assoc in Hh. apply holds_app in Hh as [Hh _].
  split.
  { apply holds_cstr; [done|done|]. apply Forall_app. split; [done|]. constructor; [done|].
    eapply Forall_impl; [exact Ht|]. by intros c []. }
  destruct (zblit_ex room' (zlen a) (bytes ".jpg" ++ [0]) ltac:(lia)) as [room2 H2].
  { change (zlen (bytes ".jpg" ++ [0])) with 5. lia. }
  exists room2. split; [done|]. apply holds_cstr; [done| |].
  - rewrite <- app_assoc. apply holds_app. split; [|rewrite Z.add_0_l; by eapply zblit_holds].
    eapply zblit_holds_before; [exact H2|done|lia|]. rewrite <- app_assoc in Hh.
    by apply holds_app in Hh as [Hh _].
  - apply Forall_app. split; [done|]. by repeat constructor.
Qed.

Context (Hlines : malloc_ok malloc_lines) (Hmalloc : malloc_ok malloc).
Context (Hdst : encoder_ok (set_tables zero_tables dst_image)).

Lemma wpg_camera_compress src width height format stem ext Q s :
  memory malloc_lines malloc -> fwrite_ok -> fopen_w (stem ++ bytes ".jpg") = true ->
  jpg_state_ok (encoder_statics s) -> cam_buf s = Some src -> cam_format s = format ->
  cam_width s = width -> cam_height s = height ->
  source_ok format src width height -> 1 <= width <= 65535 -> 1 <= height <= 65535 ->
  (exists room, zblit room 0 ((stem ++ 46 :: ext) ++ [0]) = Some (file_name s) /\
     zlen stem + 5 <= zlen room) ->
  Forall (fun c => c <> 0) stem -> Forall (fun c => c <> 0 /\ c <> 46) ext ->
  (forall s' d, (exists o len, fmt2jpg_result src width height format 85 o len /\
                   d = take (Z.to_nat len) o) ->
     written s' = written s ++ [(stem ++ bytes ".jpg", d)] -> Q 0 s') ->
  wpg E (camera_compress malloc_lines malloc dst_image fopen_w fwrite) Q s.
Proof.
  intros Hmem Hfw Hopen Hst Hbuf Hf Hw0 Hh0 Hsrc Hw Hh (room & Hroom & Hfit) Hstem Hext HQ.
  pose proof (wpg_fmt2jpg malloc_lines malloc dst_image Hlines Hmalloc Hdst E src (cam_len s) width height
    format 85 (encoder_statics s) Hst Hsrc Hw Hh ltac:(lia)) as Hrun.
  unfold camera_compress. apply wpg_bind. unfold wpg in Hrun. unfold wpg at 1, camera_jpg, frame2jpg.
  cbn [fb_buf fb_len fb_width fb_height fb_format]. rewrite Hbuf, Hf, Hw0, Hh0.
  cbn [from_option id]. rewrite !u16_small by (unfold is_u16; lia).
  destruct (fmt2jpg _ _ _ _ _ _ _ _ _ _) as [[r st]|f]; [|done].
  destruct r as [[o len]|]; [|by destruct Hrun as [Hr _]]. destruct Hrun as [Hres _].
  destruct (replace_extension _ _ _ [] _ Hroom Hstem Hext Hfit) as (Hname & room2 & H2 & Hname2).
  wp_steps. cbn [file_name set_encoder_statics]. rewrite Hname. wp_steps.
  rewrite file_type_app by (eapply Forall_impl; [exact Hext|]; by intros c []). wp_steps.
  rewrite H2. wp_steps. rewrite Hname2. wp_steps. rewrite Hopen. cbn [negb]. apply wpg_bind.
  assert (0 <= len <= zlen o) as Hlen.
  { destruct Hres as (n & h & v & p & _ & _ & Hl & Ht).
    assert (0 <= len) by (pose proof (zlen_nonneg (jpeg_file (effective_quality 85) width height n h v p
      (image_lines format src width height))); unfold out_size in *; lia).
    split; [done|]. apply (f_equal length) in Ht. rewrite !length_take in Ht. unfold zlen in *. lia. }
  apply wpg_write_loop; [done|done|]. wp_steps. eapply HQ; [by exists o, len|done].
Qed.
End Compress.

(** * Pictures *)

Lemma byte_at_app a b i : i < zlen a -> byte_at (a ++ b) i = byte_at a i.
Proof. intros Hi. unfold byte_at. by rewrite zget_app_l. Qed.

(** A byte of row [k] among the rows of [n] bytes. *)
Lemma byte_at_rows (rows : list (list Z)) rest n k r i :
  Forall (fun r => zlen r = n) rows -> rows !! k = Some r -> 0 <= i < n ->
  byte_at (concat rows ++ rest) (n * Z.of_nat k + i) = byte_at r i.
Proof.
  intros Hrows. revert k. induction Hrows as [|x rows Hx Hrows IH]; intros k Hk Hi; [done|].
  cbn [concat]. rewrite <- app_assoc. unfold byte_at in *. destruct k as [|k].
  - injection Hk as ->. rewrite Z.mul_0_r, zget_app_l by lia. done.
  - cbn in Hk. rewrite zget_app_r by nia. rewrite Hx.
    replace (n * Z.of_nat (S k) + i - n) with (n * Z.of_nat k + i) by lia. by apply IH.
Qed.

Lemma pixel_line_rows bits rows rest w k r :
  bits = 16 \/ bits = 24 -> 0 <= w ->
  Forall (fun r => zlen r = w * (bits / 8)) rows -> rows !! k = Some r ->
  pixel_line (bmp_format bits) (concat rows ++ rest) w (Z.of_nat k) = pixel_line (bmp_format bits) r w 0.
Proof.
  intros Hbits Hw Hrows Hk.
  pose proof (fun i => byte_at_rows rows rest _ k r i Hrows Hk) as Hb.
  destruct Hbits as [-> | ->]; [change (16 / 8) with 2 in Hb | change (24 / 8) with 3 in Hb];
    cbn [bmp_format Z.eqb Pos.eqb pixel_line]; f_equal; apply map_ext_in; intros j Hj%in_seq;
    unfold rgb565_pixel, rgb888_pixel;
    rewrite ?Z.mul_0_r, ?Z.add_0_l, <- !Z.add_assoc; [replace (2 * w) with (w * 2) by lia | replace (3 * w) with (w * 3) by lia];
    rewrite !Hb by lia; done.
Qed.

(** The lines that are given to the encoder are those of the rows. *)
Lemma image_lines_rows bits rows rest w :
  bits = 16 \/ bits = 24 -> 0 <= w -> Forall (fun r => zlen r = w * (bits / 8)) rows ->
  image_lines (bmp_format bits) (concat rows ++ rest) w (zlen rows) =
    map (fun r => pixel_line (bmp_format bits) r w 0) rows.
Proof.
  intros Hbits Hw Hrows. unfold image_lines, zlen. rewrite Nat2Z.id.
  apply list_eq. intros k. rewrite !list_lookup_fmap.
  destruct (rows !! k) as [r|] eqn:Hk.
  - rewrite lookup_seq_lt by (by eapply lookup_lt_Some). cbn. f_equal. by eapply pixel_line_rows.
  - apply lookup_ge_None_1 in Hk. by rewrite lookup_seq_ge.
Qed.

(** The picture in the frame buffer can be converted. *)
Lemma bmp_source_ok bits rows rest w :
  bits = 16 \/ bits = 24 -> Forall (fun r => zlen r = w * (bits / 8)) rows ->
  Forall (Forall is_u8) rows -> Forall is_u8 rest ->
  source_ok (bmp_format bits) (concat rows ++ rest) w (zlen rows).
Proof.
  intros Hbits Hrows Hu Hr. pose proof (zlen_nonneg rest).
  split; [|split; [|split]].
  - by destruct Hbits as [-> | ->].
  - apply Forall_app. split; [|done]. by apply Forall_concat.
  - rewrite zlen_app, (zlen_concat_rows _ _ Hrows).
    destruct Hbits as [-> | ->]; [change (16 / 8) with 2 | change (24 / 8) with 3];
      cbn [bmp_format Z.eqb Pos.eqb bytes_per_pixel]; lia.
  - by destruct Hbits as [-> | ->].
Qed.

(** camera_init, camera_run and camera_compress for a BMP file. *)
Definition camera_session (long_size : Z) (malloc_lines malloc : Z -> option (list Z))
    (dst_image : jpeg_encoder) (fopen : list Z -> option (list Z)) (fopen_w : list Z -> bool)
    (fwrite : Z -> Z -> Z) (tmp : list Z) (uninit : Z) (file : list Z) : M camera Z :=
  camera_init malloc ;; camera_run long_size malloc fopen tmp uninit file ;;
  camera_compress malloc_lines malloc dst_image fopen_w fwrite.

Record camera_ready (malloc_lines malloc : Z -> option (list Z)) (dst_image : jpeg_encoder)
    (fwrite : Z -> Z -> Z) (tmp : list Z) (s : camera) : Prop := {
  cr_lines : malloc_ok malloc_lines;
  cr_malloc : malloc_ok malloc;
  cr_memory : memory malloc_lines malloc;
  cr_dst : encoder_ok (set_tables zero_tables dst_image);
  cr_fwrite : fwrite_ok fwrite;
  cr_tmp : zlen tmp = 128;
  cr_name : zlen (file_name s) = 128;
  cr_statics : jpg_state_ok (encoder_statics s)
}.

(** What is written for the picture of the lines [rows]: the beginning of the
    JPEG file, from which a decoder reads the blocks of the picture if it is
    complete. *)
Definition picture_written (format : pixformat_t) (w h : Z) (rows : list (list Z)) (d : list Z) : Prop :=
  exists n hs vs p, format_sampling format = (n, hs, vs) /\
    image_params w h (num_channels_of format) n hs vs p /\
    let img := map (fun r => pixel_line format r w 0) rows in
    let file := jpeg_file 85 w h n hs vs p img in
    d = take (Z.to_nat out_size) file /\
    (zlen file < out_size -> decode_jpeg d =
       Some (mkImage w h (component_quant n 85) (image_blocks (std_coder 85) p n hs vs img (row_count p img)))).

Lemma fmt2jpg_result_written bits rows rest w o len :
  bits = 16 \/ bits = 24 -> Forall (fun r => zlen r = w * (bits / 8)) rows ->
  Forall (Forall is_u8) rows -> Forall is_u8 rest -> 1 <= w <= 65535 -> 1 <= zlen rows <= 65535 ->
  fmt2jpg_result (concat rows ++ rest) w (zlen rows) (bmp_format bits) 85 o len ->
  picture_written (bmp_format bits) w (zlen rows) rows (take (Z.to_nat len) o).
Proof.
  intros Hbits Hrows Hu Hr Hw Hh (n & h & v & p & Hsamp & Hip & Hlen & Htake).
  rewrite image_lines_rows in Hlen, Htake by (done || lia). change (effective_quality 85) with 85 in *.
  exists n, h, v, p. split; [done|]. split; [done|]. cbv zeta. split; [exact Htake|].
  intros Hfit. rewrite Htake, take_ge by (apply Nat2Z.inj_le; rewrite Z2Nat.id by done; apply Z.lt_le_incl, Hfit).
  rewrite <- (image_lines_rows bits rows rest) by (done || lia).
  apply (picture_file_decodes (concat rows ++ rest) w (zlen rows) (bmp_format bits) 85);
    [by apply bmp_source_ok|done|done|lia|done|done].
Qed.

Lemma wpg_camera_init E malloc buf Q s :
  malloc (4 * 1024 * 1024) = Some buf ->
  Q 0 (set_cam_buf (Some buf) (set_cam_len (4 * 1024 * 1024) s)) -> wpg E (camera_init malloc) Q s.
Proof. intros Hbuf HQ. unfold camera_init. rewrite Hbuf. wp_steps. exact HQ. Qed.

Lemma wpg_camera_session E malloc_lines malloc dst_image fopen fopen_w fwrite tmp uninit file stem w bits b
    rows rest s :
  let h := zlen rows in
  camera_ready malloc_lines malloc dst_image fwrite tmp s ->
  cstr file 0 = Some (stem ++ bytes ".bmp") -> zlen stem + 5 <= 128 ->
  bmp_create_header 4 true w h bits = Some b -> bits = 16 \/ bits = 24 ->
  fopen (stem ++ bytes ".bmp") = Some (bmp_file b rows rest) -> fopen_w (stem ++ bytes ".jpg") = true ->
  1 <= w <= 65535 -> 1 <= h <= 65535 -> Forall (fun r => zlen r = w * (bits / 8)) rows ->
  Forall (Forall is_u8) rows -> Forall is_u8 rest -> zlen (concat rows ++ rest) <= 4 * 1024 * 1024 ->
  wpg E (camera_session 4 malloc_lines malloc dst_image fopen fopen_w fwrite tmp uninit file)
    (fun r s' => r = 0 /\ exists d, written s' = written s ++ [(stem ++ bytes ".jpg", d)] /\
       picture_written (bmp_format bits) w h rows d) s.
Proof.
  intros h [Hl Hm [Hml Hmem] Hdst Hfw Htmp Hname Hst] Hfile Hstem Hb Hbits Hopen Hopenw Hw Hh Hrows Hu Hrest Hfit.
  unfold camera_session.
  destruct (malloc (4 * 1024 * 1024)) as [buf|] eqn:Hbuf; [|by destruct (Hmem _ Hbuf)].
  destruct (Hm (4 * 1024 * 1024) buf ltac:(lia) Hbuf) as [Hbl Hbu].
  apply wpg_bind. eapply wpg_camera_init; [exact Hbuf|]. apply wpg_bind.
  destruct (zblit_ex (file_name s) 0 ((stem ++ bytes ".bmp") ++ [0]) ltac:(lia)) as [room Hroom].
  { rewrite !zlen_app. change (zlen (bytes ".bmp")) with 4. change (zlen [0]) with 1. lia. }
  eapply (wpg_camera_run E malloc fopen tmp uninit Htmp file stem w h bits b rows rest buf room);
    [exact Hfile|exact Hroom|exact Hopen|exact Hb|exact Hbits|lia|lia|done|exact Hrows|done|lia| |].
  { destruct (malloc (w * (bits / 8) + 64)) eqn:E1; [done|]. by destruct (Hmem _ E1). }
  assert (Forall (fun c => c <> 0) stem) as Hnz.
  { apply cstr_nonzero in Hfile. by apply Forall_app in Hfile as [? _]. }
  set (rest' := rest ++ drop (length (concat rows ++ rest)) buf).
  assert (Forall is_u8 rest') as Hrest' by (apply Forall_app; split; [done|by apply Forall_drop]).
  eapply (wpg_camera_compress E malloc_lines malloc dst_image fopen_w fwrite Hl Hm Hdst
            (concat rows ++ rest') w h (bmp_format bits) stem (bytes "bmp"));
    [by split|exact Hfw|exact Hopenw|exact Hst|done|done|done|done|by apply bmp_source_ok|lia|lia| |done|
     by repeat constructor|].
  - exists (file_name s). split; [|lia]. unfold loaded. cbn. rewrite <- app_assoc in Hroom.
    rewrite <- app_assoc. exact Hroom.
  - intros s' d (o & len & Hres & ->) Hwr. split; [done|]. exists (take (Z.to_nat len) o).
    split; [exact Hwr|]. by eapply fmt2jpg_result_written.
Qed.
