(* ===== verification/JpegTheorems.v ===== *)
(** The JPEG encoder: the transform, the quantization, the entropy coding, the
    file, and the conversion of camera images. *)

From S2P Require Import Prelude.
From S2P Require Import CMonad.
From S2P Require Import CString.
From S2P Require Import JpgeTypes.
From S2P Require Import JpgeDct.
From S2P Require Import JpgeDctFacts.
From S2P Require Import Jpge.
From S2P Require Import JpgeOutFacts.
From S2P Require Import JpegSpec.
From S2P Require Import JpgeCodeFacts.
From S2P Require Import JpgeScanFacts.
From S2P Require Import JpgeImageFacts.
From S2P Require Import JpgeHeadFacts.
From S2P Require Import JpgeOpenFacts.
From S2P Require Import JpegFile.
From S2P Require Import JpgeFileFacts.
From S2P Require Import Yuv.
From S2P Require Import ToJpg.
From S2P Require Import ToJpgFacts.
From S2P Require Import Bitmap.
From S2P Require Import Camera.
From S2P Require Import CameraFacts.

(** * Concrete inputs for the witnesses *)

(** A malloc that never fails. *)
Definition zeroed (n : Z) : option (list Z) := Some (replicate (Z.to_nat n) 0).

Lemma zeroed_ok : malloc_ok zeroed.
Proof.
  intros n b Hn [= <-]. rewrite zlen_replicate. split; [lia|]. by apply Forall_replicate.
Qed.

Lemma zeroed_memory : memory zeroed zeroed.
Proof. by split. Qed.

Lemma zero_statics_ok : statics_ok zero_tables.
Proof. split; [done|]. by repeat split. Qed.

Lemma zero_encoder_ok : encoder_ok zero_encoder.
Proof. split; [apply zero_statics_ok | done..]. Qed.

(** The static variables when the program starts. *)
Definition jpg_start : jpg_state := mkJpgState zero_tables (mkJpgBuf None 0 0).

(** * Images *)

(** C3 With enough memory fmt2jpg succeeds on every image of at most 65535 by
    65535 pixels in a supported format and leaves the static tables in order.
    What it returns is the beginning of a JPEG file, all of it if it is shorter
    than the buffer of one megabyte; then a decoder of ITU T.81 reads from it
    the size of the image, the quantization tables of the quality, and the
    blocks: the transformed and quantized samples of the converted lines,
    extended to full blocks. *)
Theorem fmt2jpg_decodes malloc_lines malloc dst_image src src_len width height format quality s :
  malloc_ok malloc_lines -> malloc_ok malloc -> memory malloc_lines malloc ->
  encoder_ok (set_tables zero_tables dst_image) -> jpg_state_ok s ->
  source_ok format src width height -> 1 <= width <= 65535 -> 1 <= height <= 65535 ->
  0 <= quality <= 255 ->
  exists o len s' n h v p,
    fmt2jpg malloc_lines malloc dst_image src src_len width height format quality s = Ok (Some (o, len), s') /\
    jpg_state_ok s' /\ format_sampling format = (n, h, v) /\
    image_params width height (num_channels_of format) n h v p /\
    let q := effective_quality quality in
    let img := image_lines format src width height in
    let file := jpeg_file q width height n h v p img in
    len = Z.min out_size (zlen file) /\ take (Z.to_nat len) o = take (Z.to_nat out_size) file /\
    (len < out_size -> decode_jpeg (take (Z.to_nat len) o) =
       Some (mkImage width height (component_quant n q)
               (image_blocks (std_coder q) p n h v img (row_count p img)))).
Proof.
  intros Hml Hm Hmem Hdst Hst Hsrc Hw Hh Hq.
  destruct (wp_run _ _ _ (wpg_fmt2jpg malloc_lines malloc dst_image Hml Hm Hdst never src src_len width height
    format quality s Hst Hsrc Hw Hh Hq)) as (r & s' & Hrun & Hres & Hst').
  destruct r as [[o len]|]; [|done]. destruct Hres as (n & h & v & p & Hsamp & Hip & Hlen & Htake).
  exists o, len, s', n, h, v, p. do 4 (split; [auto|]). cbv zeta. split; [done|]. split; [done|].
  intros Hfit. rewrite Htake, take_ge by (unfold zlen in Hlen; lia). by apply picture_file_decodes.
Qed.

Lemma fmt2jpg_decodes_witness : exists o len s',
  fmt2jpg zeroed zeroed zero_encoder [10; 20; 30; 40; 50; 60; 70; 80] 8 2 2 PIXFORMAT_RGB565 90 jpg_start =
    Ok (Some (o, len), s') /\ jpg_state_ok s'.
Proof.
  destruct (fmt2jpg_decodes zeroed zeroed zero_encoder [10; 20; 30; 40; 50; 60; 70; 80] 8 2 2 PIXFORMAT_RGB565 90
    jpg_start) as (o & len & s' & n & h & v & p & Hrun & Hok & _);
    [apply zeroed_ok | apply zeroed_ok | apply zeroed_memory | apply zero_encoder_ok | apply zero_statics_ok | | lia..|].
  - split; [done|]. split; [|done]. repeat apply Forall_cons_2; unfold is_u8; try lia. apply Forall_nil_2.
  - exists o, len, s'. split; [exact Hrun | exact Hok].
Defined.

(** C18 Whatever the callback does: when convert_image returns true, the
    callback was given exactly the JPEG file of the image, piece by piece, and
    then NULL; convert_image always returns. *)
Theorem convert_image_writes malloc_lines malloc pPut_buf src width height format quality s n h v :
  malloc_ok malloc_lines -> malloc_ok malloc -> encoder_ok s ->
  source_ok format src width height -> 1 <= width <= 65535 -> 1 <= height <= 65535 ->
  0 <= quality <= 255 -> format_sampling format = (n, h, v) ->
  exists r s', convert_image malloc_lines malloc pPut_buf src width height format quality s = Ok (r, s') /\
    (r = true -> exists p cs,
       image_params width height (num_channels_of format) n h v p /\
       calls (out s') = cs ++ [None] /\
       concat (omap id (calls (out s'))) = concat (omap id (calls (out s))) ++
         jpeg_file (effective_quality quality) width height n h v p (image_lines format src width height)).
Proof.
  intros Hml Hm Hs Hsrc Hw Hh Hq Hsamp.
  destruct (wp_run _ _ _ (wpg_convert_image malloc_lines malloc Hml Hm pPut_buf never src width height format
    quality Hsrc Hw Hh Hq s n h v Hs Hsamp)) as (r & s' & Hrun & Hconv & _).
  exists r, s'. split; [done|]. intros Hr. destruct (Hconv Hr) as (p & Hip & Hcat & cs & Hcs). by exists p, cs.
Qed.

Lemma convert_image_writes_witness : exists r s',
  convert_image zeroed zeroed (fun cs _ => Nat.ltb (length cs) 2) [7] 1 1 PIXFORMAT_GRAYSCALE 0 zero_encoder = Ok (r, s').
Proof.
  destruct (convert_image_writes zeroed zeroed (fun cs _ => Nat.ltb (length cs) 2) [7] 1 1 PIXFORMAT_GRAYSCALE 0
    zero_encoder 1 1 1) as (r & s' & Hrun & _);
    [apply zeroed_ok | apply zeroed_ok | apply zero_encoder_ok | | lia | lia | lia | reflexivity|].
  - split; [done|]. split; [|done]. apply Forall_cons_2; [unfold is_u8; lia | apply Forall_nil_2].
  - by exists r, s'.
Defined.

(** * Transform and quantization *)

(** C27 DCT2D on 64 samples of a byte does not overflow and equals the
    reference, two multiplications by the matrix of the code's effective
    factors (which differ from the rounded cosines by at most one) with one
    rounding each; the DC coefficient fits 11 bits and the others 10. *)
Theorem DCT2D_reference p :
  zlen p = 64 -> Forall sample_range p ->
  exists p', DCT2D p = Some p' /\ zlen p' = 64 /\
    forall r c, 0 <= r < 8 -> 0 <= c < 8 ->
      zget p' (8 * r + c) = Some (dct_ref p r c) /\ coefficient_range r c (dct_ref p r c).
Proof.
  intros Hl Hp. destruct (DCT2D_spec p Hl Hp) as (p' & Hd & Hl' & Hg). exists p'.
  split; [done|]. split; [done|]. intros r c Hr Hc. destruct (Hg r c Hr Hc) as [<- Hrange].
  split; [|done]. unfold at_rc. by destruct (zget_is_Some p' (8 * r + c) ltac:(lia)) as [v ->].
Qed.

Lemma DCT2D_reference_witness : exists p', DCT2D (replicate 32 (-128) ++ replicate 32 127) = Some p'.
Proof.
  destruct (DCT2D_reference (replicate 32 (-128) ++ replicate 32 127)) as (p' & Hd & _); [reflexivity| |by exists p'].
  apply Forall_app. split; apply Forall_replicate; unfold sample_range; lia.
Defined.

(** C32 For every quality the quantization tables have elements from 1 to 255,
    and the coefficient of a block that is stored for the divisor [d] times [d]
    differs from the transformed sample by at most half of [d]; it has the sign
    and at most the magnitude of that sample. *)
Theorem quantization_error quality t src q f :
  1 <= quality <= 100 -> In src [s_std_lum_quant; s_std_croma_quant] ->
  compute_quant_table quality src = Some q -> DCT2D (block_of f) = Some t ->
  (forall r c, 0 <= r < 8 -> 0 <= c < 8 -> sample_range (f r c)) ->
  exists co, quantized_coefficients t q = Some co /\
    forall i, 0 <= i < 64 -> exists d z x y,
      zget q i = Some d /\ zget s_zag i = Some z /\ zget t z = Some x /\ zget co i = Some y /\
      1 <= d <= 255 /\ 2 * Z.abs (d * y - x) <= d /\ (0 <= x -> 0 <= y <= x) /\ (x <= 0 -> x <= y <= 0).
Proof.
  intros Hq Hsrc Hcq Ht Hf.
  destruct (std_quant_ok quality Hq) as (q0 & q1 & _ & E0 & E1 & L0 & L1 & D0 & D1).
  assert (zlen q = 64 /\ Forall divisor q) as [Hl Hd].
  { destruct Hsrc as [<- | [<- | []]]; rewrite Hcq in *; [injection E0 as <- | injection E1 as <-]; done. }
  destruct (coefficients_spec q f Hf Hl Hd) as (t' & Ht' & Hlt & Hco & _).
  rewrite Ht in Ht'. injection Ht' as <-. eexists. split; [exact Hco|]. intros i Hi.
  destruct (DCT2D_spec (block_of f)) as (t' & Ht' & _ & Hg);
    [apply block_of_zlen | by apply Forall_block_of|]. rewrite Ht in Ht'. injection Ht' as <-.
  destruct (zigzag_range (Z.to_nat i) ltac:(lia)) as [Hz Hzr]. rewrite Z2Nat.id in Hz by lia.
  destruct (zget_is_Some q i ltac:(lia)) as [d Ed]. destruct (zget_is_Some t (zigzag (Z.to_nat i)) ltac:(lia)) as [x Ex].
  exists d, (zigzag (Z.to_nat i)), x. unfold coefficients. rewrite zget_map_seq by lia.
  eexists. split; [done|]. split; [done|]. split; [done|]. split; [reflexivity|].
  rewrite Z2Nat.id, Ed by lia. cbn [from_option id].
  set (z := zigzag (Z.to_nat i)) in *. pose proof (Z.div_mod z 8 ltac:(lia)) as Hdm.
  destruct (Hg (z / 8) (z mod 8)) as [Hx _]; [|apply Z.mod_pos_bound; lia|].
  { split; [apply Z.div_pos | apply Z.div_lt_upper_bound]; lia. }
  unfold at_rc in Hx. rewrite <- Hdm, Ex in Hx. cbn [from_option id] in Hx. rewrite <- Hx.
  assert (divisor d) as Hdd by (by apply (Forall_zget _ q i)).
  split; [exact Hdd|]. split; [by apply rounded_error | by apply rounded_sign].
Qed.

Lemma quantization_error_witness :
  exists co, match DCT2D (block_of (fun r c => 10 * r - 3 * c)), compute_quant_table 75 s_std_lum_quant with
  | Some t, Some q => quantized_coefficients t q = Some co
  | _, _ => False
  end.
Proof.
  destruct (DCT2D_spec (block_of (fun r c => 10 * r - 3 * c))) as (t & Ht & _).
  { reflexivity. }
  { apply Forall_block_of. intros. unfold sample_range. lia. }
  destruct (std_quant_ok 75 ltac:(lia)) as (q0 & q1 & _ & E0 & _).
  rewrite Ht, E0.
  destruct (quantization_error 75 t s_std_lum_quant q0 (fun r c => 10 * r - 3 * c)) as (co & Hco & _);
    [lia | by left | exact E0 | exact Ht | | by exists co].
  intros. unfold sample_range. lia.
Defined.

(** * Entropy coding *)

(** C33 For the four standard tables compute_huffman_table yields the codes of
    ITU T.81: they are prefix-free, and every symbol the encoder may use, the
    bit lengths 0 to 11 and the runs with bit lengths 1 to 10, has its code
    word in the table that a decoder derives from the DHT segment. *)
Theorem huffman_codes_standard :
  Forall (fun k => exists bits val codes sizes,
      zget std_bits k = Some bits /\ zget std_val k = Some val /\
      compute_huffman_table bits val = Some (codes, sizes) /\
      codes_ok codes sizes /\
      decodes (canonical 1 0 (tail bits) val) (code_word codes sizes)
        (fun j => if k <? 2 then 0 <= j <= 11 else ac_symbol 10 j)) [0; 1; 2; 3].
Proof.
  assert (forall k, 0 <= k < 4 -> exists bits val, zget std_bits k = Some bits /\ zget std_val k = Some val /\
    compute_huffman_table bits val = Some (std_code k)) as Hk.
  { intros k Hk. assert (k = 0 \/ k = 1 \/ k = 2 \/ k = 3) as [-> | [-> | [-> | ->]]] by lia;
      eexists _, _; (split; [reflexivity|]); (split; [reflexivity|]); vm_compute; reflexivity. }
  apply Forall_forall. intros k Hin%list_elem_of_In.
  assert (0 <= k < 4) as Hr by (cbn in Hin; lia).
  destruct (Hk k Hr) as (bits & val & Eb & Ev & Ec). exists bits, val, (std_code k).1, (std_code k).2.
  split; [done|]. split; [done|]. split; [by rewrite <- surjective_pairing|].
  split; [by apply std_codes_ok|].
  replace (canonical 1 0 (tail bits) val) with (std_table k) by (unfold std_table; by rewrite Eb, Ev).
  pose proof (std_matches 50 0) as [M0 M2]. pose proof (std_matches 50 1) as [M1 M3].
  cbn [std_decoder std_coder dr_dc dr_ac cr_dc cr_ac] in *.
  assert (k = 0 \/ k = 1 \/ k = 2 \/ k = 3) as [-> | [-> | [-> | ->]]] by lia; assumption.
Qed.

(** put_bits appends the [n] low bits of a value to the bit string of the
    stream: whatever has been written, full bytes go out with the stuffed zeros
    and the rest stays in the bit buffer, unless a write has failed. *)
Theorem put_bits_appends pPut_buf o pre bs v n :
  coded o pre bs -> 0 <= n <= 16 -> 0 <= v < 2 ^ n ->
  exists o', put_bits pPut_buf v n o = Ok (tt, o') /\ coded o' pre (bs ++ bits_of (Z.to_nat n) v).
Proof.
  intros Ho Hn Hv.
  destruct (wp_run (put_bits pPut_buf v n) (fun _ o' => coded o' pre (bs ++ bits_of (Z.to_nat n) v)) o)
    as ([] & o' & Hrun & Ho'); [|by exists o'].
  by apply (wpg_put_bits _ _ _ pre bs).
Qed.

Lemma put_bits_appends_witness :
  exists o', put_bits (fun _ _ => true) 0xFF 8 (mkOut (replicate 512 0) 0 512 0 0 true []) = Ok (tt, o') /\
    coded o' [] (replicate 8 true).
Proof.
  apply (put_bits_appends (fun _ _ => true) (mkOut (replicate 512 0) 0 512 0 0 true []) [] [] 0xFF 8); [|lia|lia].
  split; [|reflexivity|reflexivity|unfold is_u32; cbn; lia]. split; [reflexivity | unfold JPGE_OUT_BUF_SIZE; cbn; lia | reflexivity | reflexivity].
Defined.

(** C28 code_coefficients_pass_two, called on any sequence of blocks with the
    tables of the file, returns, and appends to the stream bits that a decoder
    of ITU T.81 reads as those blocks, whatever bits follow. *)
Theorem scan_roundtrip pPut_buf quality s pre bl :
  1 <= quality <= 100 -> ready quality (tables s) -> m_last_dc_val s = first_dc ->
  coded (out s) pre [] -> Forall cblock_ok bl ->
  exists s' bs, code_blocks pPut_buf bl s = Ok (tt, s') /\ coded (out s') pre bs /\
    forall rest, decode_scan std_decoder first_dc (map fst bl) (bs ++ rest) =
      Some (map snd bl, rest).
Proof.
  intros Hq Hr Hla Ho Hbl.
  destruct (wp_run (code_blocks pPut_buf bl)
    (fun _ s' => coded (out s') pre (scan_bits (std_coder quality) first_dc bl)) s)
    as ([] & s' & Hrun & Ho').
  { by apply (wpg_code_blocks _ _ (std_coder quality) pre bl s [] first_dc);
      [apply ready_has_tables | | apply first_dc_ok | | |]. }
  exists s', (scan_bits (std_coder quality) first_dc bl). split; [done|]. split; [done|].
  intros rest. apply decode_scan_bits; [apply std_matches | apply first_dc_ok | done].
Qed.

(** An opened encoder for one grey pixel. *)
Definition one_pixel_params : jpge_params :=
  mkParams 50 Y_ONLY 1 [1; 0; 0] [1; 0; 0] 1 1 1 1 8 8 1 8 1 8 8.
Definition one_pixel_encoder : jpeg_encoder :=
  mkEncoder one_pixel_params (Some (replicate 8 (replicate 8 0))) 0 (replicate 64 0) (replicate 64 0) [0; 0; 0] 2
    (mkOut (replicate 512 0) 0 512 0 0 true [])
    (mkTables 50 (std_quant 50) true (map fst std_codes) (map snd std_codes) std_bits std_val).

(** A run of 40 zeros, the extremes, and a block that ends in zeros. *)
Definition example_blocks : list cblock :=
  [(0, -1024 :: replicate 63 0); (2, 5 :: replicate 40 0 ++ 1023 :: replicate 22 (-3))].

Lemma example_blocks_ok : Forall cblock_ok example_blocks.
Proof.
  repeat apply Forall_cons_2; [..|apply Forall_nil_2]; (split; [unfold component; cbn; lia|]);
    eexists _, _; (split; [reflexivity|]); (split; [reflexivity|]); (split; [unfold dc_range; lia|]).
  - apply Forall_replicate. unfold ac_range. lia.
  - apply Forall_app. split; [apply Forall_replicate; unfold ac_range; lia|].
    apply Forall_cons_2; [unfold ac_range; lia|]. apply Forall_replicate. unfold ac_range. lia.
Qed.

Lemma scan_roundtrip_witness :
  exists s' bs, code_blocks (fun _ _ => true) example_blocks one_pixel_encoder = Ok (tt, s') /\
    coded (out s') [] bs /\
    forall rest, decode_scan std_decoder first_dc [0; 2] (bs ++ rest) =
      Some (map snd example_blocks, rest).
Proof.
  apply (scan_roundtrip (fun _ _ => true) 50 one_pixel_encoder [] example_blocks);
    [lia | | reflexivity | | exact example_blocks_ok].
  - apply ready_intro. lia.
  - split; [|reflexivity|reflexivity|unfold is_u32; cbn; lia].
    split; [reflexivity | unfold JPGE_OUT_BUF_SIZE; cbn; lia | reflexivity | reflexivity].
Defined.

(** * Scanlines *)

(** jpge_process_scanline keeps the relation between the encoder and the
    image: after [y] lines the full rows of MCUs among them are coded in the
    stream and the lines of the last row are stored; the next line extends
    both, or a write has failed before and nothing changes. *)
Theorem scanline_extends pPut_buf cr pre p n h v img y d s :
  geometry p n h v -> image_ok p img -> imaging cr pre p n h v img y s -> 0 <= y -> zget img y = Some d ->
  exists r s', jpge_process_scanline pPut_buf (Some d) s = Ok (r, s') /\
    r = m_all_stream_writes_succeeded (out s') /\
    if m_all_stream_writes_succeeded (out s) then imaging cr pre p n h v img (y + 1) s' else s' = s.
Proof.
  intros Hg Himg Hs Hy Hd.
  destruct (wp_run _ _ _ (wpg_scanline pPut_buf never cr pre p n h v Hg img Himg y d s Hs Hy Hd))
    as (r & s' & Hrun & Hr & Hs'). by exists r, s'.
Qed.

Lemma scanline_extends_witness : exists r s',
  jpge_process_scanline (fun _ _ => true) (Some [200]) one_pixel_encoder = Ok (r, s').
Proof.
  destruct (scanline_extends (fun _ _ => true) (std_coder 50) [] one_pixel_params 1 1 1 [[200]] 0 [200]
    one_pixel_encoder) as (r & s' & Hrun & _); [| | |lia|reflexivity|by exists r, s'].
  - split; cbn; try lia; try done. constructor.
  - split; [done|]. apply Forall_cons_2; [|apply Forall_nil_2]. split; [done|].
    apply Forall_cons_2; [unfold is_u8; lia | apply Forall_nil_2].
  - split; [done | | done | done | | done | done |].
    + apply (ready_has_tables 50); [lia|]. by apply ready_intro.
    + eexists. split; [reflexivity|]. split.
      * split; [done|]. apply Forall_replicate. split; [done|]. by apply Forall_replicate.
      * intros j Hj. change (0 mod m_mcu_y one_pixel_params) with 0 in Hj. lia.
    + split; [|reflexivity|reflexivity|unfold is_u32; cbn; lia].
      split; [reflexivity | unfold JPGE_OUT_BUF_SIZE; cbn; lia | reflexivity | reflexivity].
Defined.

(** jpge_init refuses a missing callback, an empty image, a number of
    channels other than 1, 3 and 4, a quality outside of 1 to 100 and a
    subsampling above H2V2: it returns false and neither allocates nor writes;
    from then on every scanline is refused without effect.  A negative
    subsampling passes the test. *)
Theorem jpge_init_refuses pPut_buf malloc null width height channels quality sub s :
  null || negb (init_args_ok width height channels quality sub) = true ->
  exists s', jpge_init pPut_buf malloc null width height channels quality sub s = Ok (false, s') /\
    calls (out s') = calls (out s) /\ m_mcu_lines s' = None /\
    forall l, jpge_process_scanline pPut_buf l s' = Ok (false, s').
Proof.
  intros Hbad.
  destruct (wp_run (jpge_init pPut_buf malloc null width height channels quality sub) (fun r s' => r = false /\
    calls (out s') = calls (out s) /\ m_mcu_lines s' = None /\ m_pass_num s' = 0) s)
    as (r & s' & Hrun & -> & Hc & Hm & Hp).
  - unfold jpge_init. wp_steps. apply wpg_on_out. wp_steps.
    assert ((null || (width <? 1) || (height <? 1)) ||
      (negb (channels =? 1) && negb (channels =? 3) && negb (channels =? 4)) ||
      (quality <? 1) || (100 <? quality) || (H2V2 <? sub) = true) as ->.
    { unfold init_args_ok in Hbad. destruct null; [done|]. cbn [orb] in *. lia. }
    by wp_steps.
  - exists s'. split; [done|]. split; [done|]. split; [done|].
    intros l. apply scanline_refused. left. lia.
Qed.

Lemma jpge_init_refuses_witness : exists s',
  jpge_init (fun _ _ => true) zeroed false 0 10 3 50 H2V2 zero_encoder = Ok (false, s') /\
  calls (out s') = calls (out zero_encoder) /\ m_mcu_lines s' = None /\
  forall l, jpge_process_scanline (fun _ _ => true) l s' = Ok (false, s').
Proof. by apply (jpge_init_refuses (fun _ _ => true) zeroed false 0 10 3 50 H2V2 zero_encoder). Defined.

(** * Camera images *)

(** convert_line_format replaces the whole line by the pixels of line [y]:
    RGB888 with the bytes of a pixel reversed, the fields of the 16-bit words of
    RGB565 scaled to bytes, pairs of pixels converted from YUV422, or grey
    values as they are. *)
Theorem convert_line_format_pixels format src width height y dst :
  source_ok format src width height -> 0 <= width -> 0 <= y < height ->
  zlen dst = width * num_channels_of format ->
  convert_line_format src format dst width y = Some (pixel_line format src width y) /\
  zlen (pixel_line format src width y) = zlen dst /\ Forall is_u8 (pixel_line format src width y).
Proof. intros Hsrc Hw Hy Hd. rewrite Hd. by apply (convert_line_format_spec format src width height). Qed.

Lemma convert_line_format_pixels_witness :
  convert_line_format [0; 0; 0; 0; 0xE0; 0x07; 0x1F; 0xF8] PIXFORMAT_RGB565 (replicate 6 0) 2 1 = Some [0; 252; 0; 248; 0; 248].
Proof.
  destruct (convert_line_format_pixels PIXFORMAT_RGB565 [0; 0; 0; 0; 0xE0; 0x07; 0x1F; 0xF8] 2 2 1 (replicate 6 0))
    as [E _]; [|lia|lia|reflexivity|rewrite E; reflexivity].
  split; [done|]. split; [|done]. repeat apply Forall_cons_2; unfold is_u8; try lia. apply Forall_nil_2.
Defined.

(** The last round of an odd YUV422 line writes a pixel too many: it runs
    over the end of the line buffer of convert_image. *)
Theorem yuv422_odd_width_faults src dst width line :
  0 <= width -> width mod 2 = 1 -> zlen dst = width * num_channels_of PIXFORMAT_YUV422 ->
  convert_line_format src PIXFORMAT_YUV422 dst width line = None.
Proof.
  intros Hw Hodd Hd. change (num_channels_of PIXFORMAT_YUV422) with 3 in Hd.
  pose proof (Z.div_mod width 2 ltac:(lia)) as Hdm. set (k := width / 2) in *.
  assert (0 <= k) by (apply Z.div_pos; lia).
  cbn [convert_line_format]. set (l := width * 2). set (base := l * line).
  assert (forall fuel j d, 0 <= j <= k -> zlen d = 3 * width -> k - j < Z.of_nat fuel ->
    for_step fuel (4 * j) l 4 (yuv422_round src base) (6 * j, d) = None) as H0.
  { intros fuel. induction fuel as [|fuel IH]; intros j d Hj Hdl Hfuel; [lia|].
    cbn [for_step]. rewrite (proj2 (Z.ltb_lt _ _)) by lia.
    destruct (yuv422_round src base (4 * j) (6 * j, d)) as [[o d']|] eqn:Er; [|done].
    cbn [mbind option_bind].
    assert (zlen d' = zlen d /\ o = 6 * j + 6 /\ 6 * j + 6 <= zlen d) as (Hl' & -> & Hin).
    { by apply yuv422_round_inv in Er. }
    replace (4 * j + 4) with (4 * (j + 1)) by lia. replace (6 * j + 6) with (6 * (j + 1)) by lia.
    apply IH; lia. }
  specialize (H0 (Z.to_nat l) 0 dst ltac:(lia) ltac:(lia) ltac:(lia)). rewrite !Z.mul_0_r in H0. by rewrite H0.
Qed.

Lemma yuv422_odd_width_faults_witness :
  convert_line_format (replicate 100 128) PIXFORMAT_YUV422 (replicate 9 0) 3 0 = None.
Proof. by apply (yuv422_odd_width_faults (replicate 100 128) (replicate 9 0) 3 0). Defined.

(** yuv2rgb computes red and blue of ITU-R BT.601 up to 2 and limits them to
    a byte.  Green is computed, up to 3, with the factors of [u] and [v]
    exchanged, and differs from BT.601 by more than 50 for some pixels. *)
Theorem yuv2rgb_bt601 :
  (forall y u v, is_u8 y -> is_u8 u -> is_u8 v -> exists r g b, yuv2rgb y u v = Some (r, g, b) /\
     is_u8 r /\ is_u8 g /\ is_u8 b /\
     near 2000 r (bt601_r y v) /\ near 3000 g (coded_g y u v) /\ near 2000 b (bt601_b y u)) /\
  exists y u v r g b, is_u8 y /\ is_u8 u /\ is_u8 v /\ yuv2rgb y u v = Some (r, g, b) /\
    ~ near 50000 g (bt601_g y u v).
Proof.
  split; [apply yuv2rgb_near|]. exists 128, 255, 128.
  destruct (yuv2rgb 128 255 128) as [[[r g] b]|] eqn:E; [|by vm_compute in E].
  exists r, g, b. vm_compute in E. injection E as <- <- <-. unfold is_u8.
  do 3 (split; [lia|]). split; [done|]. unfold near, bt601_g. lia.
Qed.

Lemma yuv2rgb_bt601_witness : exists r g b, yuv2rgb 200 90 170 = Some (r, g, b) /\ near 2000 r (bt601_r 200 170).
Proof.
  destruct (proj1 yuv2rgb_bt601 200 90 170) as (r & g & b & E & _ & _ & _ & Hr & _); [unfold is_u8; lia..|].
  by exists r, g, b.
Defined.

(** * The camera commands *)

(** xchg_line turns the order of the lines of a picture around and leaves what
    follows them. *)
Theorem xchg_line_reverses w b rows rest :
  Forall (fun r => zlen r = w * b) rows -> 0 <= w * b ->
  xchg_line true (concat rows ++ rest) w (zlen rows) b = Some (0, concat (rev rows) ++ rest).
Proof. by apply xchg_line_rows. Qed.

(** C16 Loading a BMP file of 16 or 24 bits, whose lines are stored from the
    bottom to the top without padding and fit the frame buffer, and compressing
    it writes one file, with the extension changed to .jpg.  It is the JPEG file
    of quality 85 of the picture with its lines from the top to the bottom, up
    to one megabyte; if it is shorter, a decoder reads the size of the picture
    and its blocks from it. *)
Theorem bmp_to_jpeg malloc_lines malloc dst_image fopen fopen_w fwrite tmp uninit file stem w bits b
    rows rest s :
  let h := zlen rows in
  camera_ready malloc_lines malloc dst_image fwrite tmp s ->
  cstr file 0 = Some (stem ++ bytes ".bmp") -> zlen stem + 5 <= 128 ->
  bmp_create_header 4 true w h bits = Some b -> bits = 16 \/ bits = 24 ->
  fopen (stem ++ bytes ".bmp") = Some (bmp_file b rows rest) -> fopen_w (stem ++ bytes ".jpg") = true ->
  1 <= w <= 65535 -> 1 <= h <= 65535 -> Forall (fun r => zlen r = w * (bits / 8)) rows ->
  Forall (Forall is_u8) rows -> Forall is_u8 rest -> zlen (concat rows ++ rest) <= 4 * 1024 * 1024 ->
  wp (camera_session 4 malloc_lines malloc dst_image fopen fopen_w fwrite tmp uninit file)
    (fun r s' => r = 0 /\ exists d, written s' = written s ++ [(stem ++ bytes ".jpg", d)] /\
       picture_written (bmp_format bits) w h rows d) s.
Proof. intros. by eapply wpg_camera_session. Qed.

(** A camera before its first use, and a picture of two lines of two pixels. *)
Definition example_camera : camera := mkCamera None 0 0 0 PIXFORMAT_RGB565 (replicate 128 0) jpg_start [].
Definition example_rows : list (list Z) := [[1; 2; 3; 4; 5; 6]; [7; 8; 9; 10; 11; 12]].
Definition example_header : BITMAPINFO := default (mkBitmapInfo (mkFileHeader 0 0 0 0 0)
  (mkInfoHeader 0 0 0 0 0 0 0 0 0 0 0) []) (bmp_create_header 4 true 2 2 24).

Lemma bmp_to_jpeg_witness :
  wp (camera_session 4 zeroed zeroed zero_encoder (fun _ => Some (bmp_file example_header example_rows []))
        (fun _ => true) (fun _ k => Z.min 1000 k) (replicate 128 77) 5 (bytes "p.bmp" ++ [0]))
    (fun r s' => r = 0 /\ exists d, written s' = [(bytes "p.jpg", d)] /\
       picture_written PIXFORMAT_RGB888 2 2 example_rows d) example_camera.
Proof.
  apply (bmp_to_jpeg zeroed zeroed zero_encoder (fun _ => Some (bmp_file example_header example_rows []))
    (fun _ => true) (fun _ k => Z.min 1000 k) (replicate 128 77) 5 (bytes "p.bmp" ++ [0]) (bytes "p") 2 24
    example_header example_rows [] example_camera);
    [|reflexivity|by vm_compute|reflexivity|by right|reflexivity|reflexivity|lia|by vm_compute
    |by repeat constructor| |constructor|by vm_compute].
  - split; [apply zeroed_ok | apply zeroed_ok | apply zeroed_memory | apply zero_encoder_ok | | reflexivity
      | reflexivity | apply zero_statics_ok]. intros n k Hk. lia.
  - repeat (constructor; [repeat (constructor; [by vm_compute|]); constructor|]). constructor.
Defined.
