(* ===== verification/CommandTheorems.v ===== *)
(** The command line: calls of functions with typed arguments, the login, and
    the limits of the parser. *)

From S2P Require Import Prelude.
From S2P Require Import CMonad.
From S2P Require Import CString.
From S2P Require Import Flash.
From S2P Require Import FlashFacts.
From S2P Require Import MemDump.
From S2P Require Import MemDumpFacts.
From S2P Require Import Fcmd.
From S2P Require Import FcmdFacts.
From S2P Require Import FcmdCallFacts.

(** C30 The table of the functions is well-formed: its size fits the byte that
    counts its entries, and no name occurs twice.  In every entry get_fname finds
    the name of the function that the pointer is to, and get_args_num the number
    of its parameters, at most four, or that the number is variable. *)
Theorem command_table_typed :
  CmdTblSize = zlen CmdTbl /\ NoDup (map entry_name CmdTbl) /\
  Forall (fun c => entry_name c = bytes (pfunc c) /\
    (forall s, exists pos rest, get_fname (literal (fname c)) s = Ok (pos, zlen (entry_name c), s) /\
       cstr (literal (fname c)) pos = Some (entry_name c ++ 40 :: rest)) /\
    (forall s, get_args_num (literal (fname c)) (bytes "(,)") s = Ok (default (-2) (entry_params c), s)) /\
    match entry_params c with Some k => 0 <= k <= 4 | None => True end) CmdTbl.
Proof.
  split; [done|]. split; [by apply (bool_decide_unpack _); vm_compute|].
  assert (Forall (fun c => entry_name c = bytes (pfunc c) /\
    match entry_params c with Some k => 0 <= k <= 4 | None => True end) CmdTbl) as Htbl.
  { repeat (constructor; [split; [reflexivity|by vm_compute]|]). constructor. }
  pose proof CmdTbl_ok as Hok. rewrite Forall_forall in Hok, Htbl. apply Forall_forall. intros c Hc.
  destruct (Hok c Hc) as [(pos & rest & Hf & Hr) Hn _ _]. destruct (Htbl c Hc) as [He Hp].
  split; [done|]. split; [|done]. intros s. exists pos, rest. by split.
Qed.

Section Commands.
Context (base long_bits : Z) (uninit_args : list Z) (call : list event -> Z).

(** C15 A line [name(argument, ...)] does what it says: when the table has no
    such name or the function takes another number of arguments this is printed;
    otherwise the function is called once, with the numbers that were typed and
    with the addresses of the strings, which are in memory without their quotes,
    and its result is printed.  The arguments are numbers as strtol reads them
    or strings, at most nine numbers, or with a string among them at most ten
    arguments with 28 separators.  A string may contain commas and parentheses,
    and quotes in pairs; the first separator inside a pair, if there is one, is
    a comma behind something that is not white space. *)
Theorem fcmd_exec_calls lead name gap l u s :
  1 <= long_bits -> zlen uninit_args = 11 ->
  Forall (fun x => is_ident x = true) name -> 0 < zlen name < 256 ->
  blank lead -> blank gap -> Forall plain u -> fits l -> login_flag s <> 0 ->
  wp (fcmd_exec base long_bits uninit_args call (call_line lead name gap l u))
    (fun _ s' =>
       outcome_of base long_bits call s name (zlen lead + zlen name + zlen gap + 1) l s') s.
Proof. intros Hlong Hu Hn Hnl ? ? ? ? ?. by apply wpg_fcmd_exec. Qed.

(** C17 Between a line "q" and a line with the right identification and password
    nothing that is typed has an effect: every line returns, nothing is printed
    or called; the password then logs in. *)
Theorem login_guard inputs lead s :
  zlen uninit_args = 11 -> Forall locked inputs -> blank lead -> login_flag s <> 0 ->
  let password := lead ++ (login_id ++ [64] ++ login_passwd) ++ [0] in
  wp (shell_main base long_bits uninit_args call (literal "q" :: inputs))
    (fun _ s' => login_flag s' = 0 /\ events s' = events s) s /\
  wp (shell_main base long_bits uninit_args call (literal "q" :: inputs ++ [password]))
    (fun _ s' => login_flag s' = 1 /\ events s' = events s ++ [Printf "Hello World!" []]) s.
Proof.
  intros Hu Hin Hlead Hlogin password. split; cbn [shell_main]; apply wpg_bind;
    (apply wpg_quit; [done|done|]; intros s1 Hf1 He1).
  - rewrite <- (app_nil_r inputs). apply wpg_locked; [done|done|].
    intros s2 Hf2 He2. apply wpg_ret. split; congruence.
  - apply wpg_locked; [done|done|]. intros s2 Hf2 He2. cbn [shell_main]. apply wpg_bind.
    apply wpg_logged_out; [done|done|by repeat constructor|done|]. intros s3 Hf3 He3.
    apply wpg_ret. cbn in Hf3, He3. split; [done|]. by rewrite He3, He2, He1.
Qed.

(** What get_args has no room for: ten numbers or more are stored behind the
    array args, although PARAMS_NUM is 10; a parenthesis directly after the
    first one, before a string, makes it loop for ever; a line that begins with
    a parenthesis is read before its first character. *)
Theorem get_args_limits lead name ts body u s :
  1 <= long_bits -> zlen uninit_args = 11 -> login_flag s <> 0 -> blank lead ->
  Forall (fun x => is_ident x = true) name -> name <> [] ->
  Forall argument_ok (map Num ts) -> 10 <= zlen ts <= 29 -> Forall plain u -> Forall plain body ->
  let exec := fcmd_exec base long_bits uninit_args call in
  wpg (fun f => f = Fault "get_args") (exec (call_line lead name [] (map Num ts) u)) (fun _ _ => False) s /\
  wpg (fun f => f = Hang "get_args")
    (exec (lead ++ name ++ [40; 40; 34] ++ body ++ [34; 41; 0])) (fun _ _ => False) s /\
  wpg (fun f => f = Fault "fcmd_exec") (exec (literal "(1)")) (fun _ _ => False) s.
Proof.
  intros Hlong Hun Hlogin Hlead Hn Hne Hok Hl Hu Hb exec.
  assert (exists x n', name = x :: n' /\ x <> 32 /\ x <> 0) as (x & n' & -> & Hx & Hx0).
  { destruct name as [|x n']; [done|]. exists x, n'.
    apply Forall_cons in Hn as [([_ ?] & ? & _)%ident_facts _]. done. }
  pose proof (zlen_nonneg lead). split; [|split]; unfold exec, call_line; cbn [app].
  - apply (wpg_exec_start _ _ _ _ _ lead x (n' ++ 40 :: list_text (map Num ts) ++ 41 :: u ++ [0]));
      [by rewrite app_nil_r|done|done|done|done|].
    unfold exec_line. apply wpg_bind, wpg_modify, wpg_bind.
    apply (wpg_get_args_overflow _ _ _ _ (x :: n') ts u); [|done|by apply ident_plain|done|done|done| |done].
    + rewrite app_nil_r. cbn [line set_args set_line]. eapply holds_tail.
    + cbn [args set_args]. by rewrite memset_args_zlen.
  - apply (wpg_exec_start _ _ _ _ _ lead x (n' ++ [40; 40; 34] ++ body ++ [34; 41; 0]));
      [done|done|done|done|done|].
    unfold exec_line. apply wpg_bind, wpg_modify, wpg_bind.
    apply (wpg_nested_hang _ _ _ _ (x :: n') body); [|done|by apply ident_plain|done| |done].
    + cbn [line set_args set_line]. apply holds_tail.
    + cbn [args set_args]. rewrite memset_args_zlen. lia.
  - apply (wpg_exec_start _ _ _ _ _ [] 40 [49; 41; 0]); [done|constructor|done|done|done|].
    unfold exec_line. apply wpg_bind, wpg_modify, wpg_bind.
    apply (wpg_get_args _ base long_bits Hlong _ [] [Num [49]] []); [|done|constructor|constructor| | |].
    + repeat split.
    + split; [by repeat constructor|done].
    + cbn [args set_args]. by rewrite memset_args_zlen.
    + intros s1 [G1 G2 G3 G4 G5 G6 G7 G8]. apply wpg_bind, wpg_gets. rewrite G3. wp_steps.
      assert (exists c tbl, CmdTbl = c :: tbl /\ entry_ok c) as (c & tbl & Htbl & [(pos & rest & Hf & Hrest) _ _ _]).
      { eexists _, _. split; [reflexivity|]. exact (Forall_inv CmdTbl_ok). }
      rewrite CmdTbl_all, Htbl.
      cbn [find_command]. apply wpg_bind, wpg_bind. unfold name_matches.
      apply wpg_bind. eapply run_wpg; [exact (Hf s1)|]. cbn beta iota zeta. wp_steps.
      change (zlen [] + zlen []) with 0 in G5. change (zlen []) with 0.
      assert (cstr (line s1) 0 = Some []) as -> by (by apply holds_cstr; [done|split|constructor]).
      wp_steps. by apply wpg_loop_S.
Qed.
End Commands.

(** * The theorems on concrete lines *)

Definition example_shell : shell := mkShell [] [] 1 [].
Definition example_room : list Z := replicate 11 77.
(** printf( with the string a(b),%d and 56V, in quotes inside it, and the number 7 *)
Definition example_arguments : list argument :=
  [Str [] (bytes "a(b),%d" ++ 34 :: bytes "56V," ++ 34 :: []) []; Num (bytes " 7")].

Lemma fcmd_exec_calls_witness :
  fits example_arguments /\
  wp (fcmd_exec 4096 64 example_room (fun _ => 7)
        (call_line (bytes " ") (bytes "printf") [] example_arguments []))
    (fun _ s' => outcome_of 4096 64 (fun _ => 7) example_shell (bytes "printf") 8 example_arguments s')
    example_shell.
Proof.
  assert (fits example_arguments) as Hfits.
  { split; [|by vm_compute; split; [discriminate|lia]].
    constructor; [|constructor; [|constructor]].
    - split; [constructor|]. split; [|constructor].
      apply body_pair; [vm_compute; by repeat constructor| |apply body_last; constructor].
      split; [vm_compute; by repeat constructor|]. right. exists (bytes "56V"), []. split; [done|].
      split; [vm_compute; by repeat constructor|by apply Exists_cons_hd].
    - split; [by vm_compute; repeat constructor|]. vm_compute. by apply Exists_cons_tl, Exists_cons_hd. }
  split; [exact Hfits|].
  apply (fcmd_exec_calls 4096 64 example_room (fun _ => 7) (bytes " ") (bytes "printf") []
           example_arguments [] example_shell);
    [lia|done|by vm_compute; repeat constructor|by vm_compute|by vm_compute; repeat constructor
    |constructor|constructor|exact Hfits|done].
Defined.

(** With a parenthesis as the first separator of a pair, as in a"(b)"c, get_args
    loses the pairing and reads elements of pbrk that it has not stored. *)
Example pair_with_parenthesis :
  fcmd_exec 4096 64 example_room (fun _ => 7)
    (bytes "printf(" ++ 34 :: bytes "a" ++ 34 :: bytes "(b)" ++ 34 :: bytes "c" ++ [34; 41; 0])
    example_shell = Stop (Fault "get_args").
Proof. vm_compute. reflexivity. Qed.

(** With a comma behind white space in the pair the string ends there: the
    string a" ,b"c is read as the two strings a and c. *)
Example pair_with_blank_comma : exists memory s,
  fcmd_exec 4096 64 example_room (fun _ => 7)
    (bytes "printf(" ++ 34 :: bytes "a" ++ 34 :: bytes " ,b" ++ 34 :: bytes "c" ++ [34; 41; 0])
    example_shell = Ok (tt, s) /\
  head (events s) = Some (Called "printf" [4104; 4110] memory) /\
  cstr memory 8 = Some (bytes "a") /\ cstr memory 14 = Some (bytes "c").
Proof. eexists _, _. vm_compute. repeat split; reflexivity. Qed.

Lemma login_guard_witness :
  wp (shell_main 4096 64 example_room (fun _ => 7) [literal "q"; literal "malloc(8)"])
    (fun _ s' => login_flag s' = 0 /\ events s' = []) example_shell.
Proof.
  apply (proj1 (login_guard 4096 64 example_room (fun _ => 7) [literal "malloc(8)"] [] example_shell
    eq_refl ltac:(constructor; [exists [], (bytes "malloc(8)"); split; [done|]; split; [constructor|];
      split; [by vm_compute; repeat constructor|by split]|constructor])
    ltac:(constructor) ltac:(done))).
Defined.

Lemma get_args_limits_witness :
  wpg (fun f => f = Fault "get_args")
    (fcmd_exec 4096 64 example_room (fun _ => 7)
       (call_line [] (bytes "printf") [] (map Num (replicate 10 (bytes "1"))) []))
    (fun _ _ => False) example_shell.
Proof.
  apply (proj1 (get_args_limits 4096 64 example_room (fun _ => 7) [] (bytes "printf")
    (replicate 10 (bytes "1")) [] [] example_shell ltac:(lia) eq_refl ltac:(done) ltac:(constructor)
    ltac:(by vm_compute; repeat constructor) ltac:(done)
    ltac:(vm_compute; repeat (constructor; [split; [by repeat constructor|by apply Exists_cons_hd]|]); constructor)
    ltac:(by vm_compute) ltac:(constructor) ltac:(constructor))).
Defined.

(** * Memory *)

(** C29 What md prints can be read back: a row for every sixteen bytes, which
    begins with their address, and in the words of 1, 2 or 4 bytes the bytes of
    memory, up to the last element asked for.  Other sizes print nothing. *)
Theorem md_reads_back memory addr cnt size d :
  0 <= cnt < 2147483632 -> Forall is_u8 d -> mapped memory addr d -> zlen d = cnt * size ->
  if elem_size_ok size
  then exists t, md memory addr cnt size = Some (10 :: t) /\
         read_dump (Z.to_nat size) t = dump_rows ((length d + 15) / 16) addr d
  else md memory addr cnt size = Some [].
Proof.
  intros Hc Hu Hm Hd. unfold md. destruct (elem_size_ok size) eqn:Hs; cbn [negb]; [|done].
  destruct (dump_table_read memory addr addr cnt size d) as (t & -> & Hr); [done|lia|lia|done|done|done|].
  by exists t.
Qed.

(** Memory in which every byte is its address modulo 256. *)
Lemma example_mapped (n : nat) p :
  Z.of_nat n <= 256 -> mapped (fun p => Some (u8 p)) (256 * p) (map Z.of_nat (seq 0 n)).
Proof.
  intros Hn i Hi. rewrite zlen_map in Hi. unfold zlen in Hi. rewrite length_seq in Hi.
  unfold u8. rewrite Z.add_comm, (Z.mul_comm 256), Z.mod_add, Z.mod_small by lia.
  unfold zget. destruct (Z.leb_spec 0 i); [|lia]. rewrite list_lookup_fmap, lookup_seq_lt by lia.
  cbn. f_equal. lia.
Qed.

Lemma md_reads_back_witness :
  (exists t, md (fun p => Some (u8 p)) 4096 5 4 = Some (10 :: t) /\
     read_dump 4 t = dump_rows 2 4096 (map Z.of_nat (seq 0 20))) /\
  md (fun p => Some (u8 p)) 4096 2 3 = Some [].
Proof.
  split.
  - apply (md_reads_back (fun p => Some (u8 p)) 4096 5 4 (map Z.of_nat (seq 0 20)));
      [lia|by vm_compute; repeat constructor|by apply (example_mapped 20 16)|done].
  - apply (md_reads_back (fun p => Some (u8 p)) 4096 2 3 (map Z.of_nat (seq 0 6)));
      [lia|by vm_compute; repeat constructor|by apply (example_mapped 6 16)|done].
Defined.

(** cmp compares element by element: it returns 0 when the two areas are
    equal and 1 when not, and counts the elements before the first difference.
    Elements of a size other than 1, 2 or 4 it never compares: it returns 0. *)
Theorem cmp_compares memory p q cnt size a b :
  0 <= cnt < 2147483648 -> Forall is_u8 a -> Forall is_u8 b -> mapped memory p a -> mapped memory q b ->
  zlen a = cnt * size -> zlen b = cnt * size ->
  if elem_size_ok size
  then exists r, cmp memory p q cnt size = Some r /\
         compared (Z.to_nat size) (Z.to_nat cnt) a b 0 r /\ (rcode r = 0 <-> a = b)
  else cmp memory p q cnt size = Some (mkCmp 0 cnt).
Proof.
  intros Hc Ha Hb Hp Hq La Lb. unfold cmp. destruct (elem_size_ok size) eqn:Hs.
  2: { rewrite cmp_loop_other by (done || lia). do 2 f_equal. lia. }
  destruct (elem_size_nat _ Hs) as (sz & -> & Hcases). rewrite Nat2Z.id.
  unfold zlen in La, Lb.
  destruct (cmp_loop_spec memory sz (Z.to_nat cnt) p q a b 0) as (r & Hr & Hcmp);
    [done|done|done|done|done|nia|nia|lia|lia|].
  exists r. split; [done|]. split; [done|]. destruct Hcmp as (k & _ & Ht & Hrest). split.
  - intros H0. rewrite H0 in Hrest. cbn in Hrest. subst k.
    rewrite !take_ge in Ht by nia. done.
  - intros ->. destruct (Z.eqb_spec (rcode r) 0); [done|]. by destruct Hrest as (_ & _ & H).
Qed.

Lemma cmp_compares_witness :
  (exists r, cmp (fun p => Some (u8 p)) 0 256 3 2 = Some r /\
     compared 2 3 (map Z.of_nat (seq 0 6)) (map Z.of_nat (seq 0 6)) 0 r /\
     (rcode r = 0 <-> map Z.of_nat (seq 0 6) = map Z.of_nat (seq 0 6))) /\
  cmp (fun p => Some (u8 p)) 0 1 2 3 = Some (mkCmp 0 2).
Proof.
  split.
  - apply (cmp_compares (fun p => Some (u8 p)) 0 256 3 2 (map Z.of_nat (seq 0 6)) (map Z.of_nat (seq 0 6)));
      [lia|by vm_compute; repeat constructor|by vm_compute; repeat constructor
      |by apply (example_mapped 6 0)|by apply (example_mapped 6 1)|done|done].
  - apply (cmp_compares (fun p => Some (u8 p)) 0 1 2 3 (map Z.of_nat (seq 0 6)) (map Z.of_nat (seq 1 6)));
      [lia|by vm_compute; repeat constructor|by vm_compute; repeat constructor
      |by apply (example_mapped 6 0)| |done|done].
    intros i Hi. change (zlen (map Z.of_nat (seq 1 6))) with 6 in Hi.
    assert (i = 0 \/ i = 1 \/ i = 2 \/ i = 3 \/ i = 4 \/ i = 5) as Hcase by lia.
    destruct Hcase as [->|[->|[->|[->|[-> | ->]]]]]; reflexivity.
Defined.

(** sfmd prints the flash like md, but only up to a multiple of four bytes: the
    rest of the last word is what malloc has left in the buffer. *)
Theorem sfmd_reads_back malloc block s m addr cnt size :
  flash_ready s m -> Forall is_u8 m -> Forall is_u8 block -> elem_size_ok size = true ->
  0 <= cnt -> cnt * size < 2147483632 -> 0 <= addr -> addr + cnt * size <= zlen m ->
  malloc (cnt * size - (cnt * size) mod 4 + 4) = Some block ->
  zlen block = cnt * size - (cnt * size) mod 4 + 4 ->
  wp (sfmd malloc addr cnt size)
    (fun r s' => s' = s /\ r.1 = 0 /\ read_dump (Z.to_nat size) r.2 =
       dump_rows (Z.to_nat ((cnt * size + 15) / 16)) addr (sfmd_bytes m block addr (cnt * size))) s.
Proof. intros. by apply (wpg_sfmd _ malloc block m). Qed.
