(* ===== verification/TlsTheorems.v ===== *)
(** Connections over TCP and TLS: what they hold is given back, the state they
    start in, the verification they choose, and the life of certificates. *)

From stdpp Require Import gmap.
From S2P Require Import Prelude.
From S2P Require Import CMonad.
From S2P Require Import CString.
From S2P Require Import MangoTypes.
From S2P Require Import MangoInvariant.
From S2P Require Import Mango.
From S2P Require Import Process.
From S2P Require Import MangoTls.
From S2P Require Import MangoTlsFacts.
From S2P Require Import MangoSession.

Section Tls.
Context (succeeds : list sys_call -> sys_call -> bool) (files : list Z -> list Z).
Context (read_result : list sys_call -> Z -> Z) (fill : list sys_call -> nat -> Z) (sizeof : string -> Z).
Context (consumed : list Z -> Z) (E : environment) (fuel : nat).

(** C7 Whatever the system and OpenSSL answer, mango_sslconnect returns.  After
    a failure nothing is held that was not held before, and a connection is at
    rest in its first state, and mango_ssldisconnect, called any time later,
    gives back what it holds: the client, the socket and the objects of
    OpenSSL, each once; only a CA certificate that was given is never freed and
    its pointer is moved.  The peer is verified as [chosen_modes] says: with the
    mode of the caller when a CA certificate or nothing is given, not at all
    with a structure without one or with names of files. *)
Theorem sslconnect_gives_back serverIP port cck cck_files method verify_mode s :
  environment_ok E -> is_Some serverIP -> process_ok s ->
  (forall i, cck = Some i -> exists f, certs_ok (objects s) i f) ->
  wp (mango_sslconnect succeeds sizeof consumed E fuel serverIP port cck cck_files method verify_mode)
    (sslconnected succeeds consumed (objects s) (next s) (omap verify_of (history s)) cck cck_files verify_mode) s.
Proof. intros HE. by apply wpg_sslconnect. Qed.

(** mango_connect over TCP gives everything back as well, and its client is that
    of [mango_connect]. *)
Theorem connect_gives_back serverIP port s :
  environment_ok E -> is_Some serverIP -> process_ok s ->
  wp (mango_connect_tcp succeeds sizeof E fuel serverIP port) (fun r s' =>
    tcp_connected succeeds (objects s) r s' /\
    forall cn, r = Some cn -> exists fd, mango_connect E fuel true true fd 0 = Ok (Some (cn_world cn))) s.
Proof.
  intros HE Hip Hok. destruct (wp_run _ _ _ (wpg_connect_tcp succeeds sizeof never E fuel HE serverIP port s Hip Hok))
    as (r & s' & Hrun & Hr).
  eapply run_wpg; [exact Hrun|]. split; [exact Hr|]. intros cn ->. by eapply connect_tcp_connects.
Qed.

(** C22 sslcert_load returns NULL and keeps nothing, or a structure with the
    content of the files that are named, as far as they can be read, which
    sslcert_free gives back completely. *)
Theorem sslcert_load_free cacrt_name cert_name key_name s :
  reads_ok read_result -> process_ok s ->
  wp (sslcert_load succeeds files read_result fill sizeof cacrt_name cert_name key_name)
    (certs_loaded succeeds files read_result (objects s) cacrt_name cert_name key_name) s.
Proof. intros Hr Hok. by apply wpg_sslcert_load. Qed.

(** C24 Certificates are loaded, used for a connection, and freed after it:
    everything is given back, but with a CA certificate sslcert_free calls free
    with a pointer that malloc has not returned, because d2i_X509 has moved the
    pointer of the structure. *)
Theorem used_certificates_freed cacrt_name cert_name key_name serverIP port cck_files method verify_mode s i s1 cn s2 s3 :
  environment_ok E -> reads_ok read_result -> process_ok s -> is_Some serverIP -> (forall d, 0 < consumed d) ->
  sslcert_load succeeds files read_result fill sizeof cacrt_name cert_name key_name s = Ok (Some i, s1) ->
  mango_sslconnect succeeds sizeof consumed E fuel serverIP port (Some i) cck_files method verify_mode s1 =
    Ok (Some cn, s2) ->
  mango_ssldisconnect succeeds (Some cn) s2 = Ok (tt, s3) ->
  match cacrt_name with
  | Some _ => sslcert_free succeeds (Some i) s3 = Stop (Fault "free")
  | None => exists s4, sslcert_free succeeds (Some i) s3 = Ok (tt, s4) /\ objects s4 = objects s
  end.
Proof.
  intros HE Hr Hok Hip Hcons Hload Hconn Hdisc.
  pose proof (wpg_sslcert_load succeeds files read_result fill sizeof never Hr cacrt_name cert_name key_name s Hok) as H1.
  unfold wpg in H1. rewrite Hload in H1. destruct H1 as (Hok1 & f & Hi & Ha & Hc & Hk & Hfree).
  assert (certs_ok (objects s1) i f) as Hcerts by (by split_and!; [|by eapply member_points_to..]).
  pose proof (wpg_sslconnect succeeds sizeof consumed never E fuel HE serverIP port (Some i) cck_files method verify_mode
    s1 Hip Hok1 ltac:(intros ? [= <-]; by exists f)) as H2.
  unfold wpg in H2. rewrite Hconn in H2. destruct H2 as (used & m' & Haft & -> & _ & _ & _ & _ & Hdis).
  specialize (Hdis (cn_world cn) eq_refl). unfold wpg in Hdis.
  replace (at_world cn (cn_world cn)) with cn in Hdis by (by destruct cn). rewrite Hdisc in Hdis.
  unfold after_certs, gives_ca in Haft. cbn in Haft. rewrite Hi in Haft.
  destruct cacrt_name as [nm|].
  - destruct Ha as (j & d & Ep & _). rewrite Ep in Haft. cbn in Haft.
    destruct Haft as (i1 & f1 & p & x & [= <-] & Hi1 & Ep1 & Hx & Hm').
    rewrite Hi in Hi1. injection Hi1 as <-. rewrite Ep in Ep1. injection Ep1 as <-.
    pose proof (process_ok_lookup _ _ _ Hok1 Hi).
    assert (exists off, 0 < off /\ objects s3 !! i = Some (Certs (set_cacrt (Some (j, off)) f))) as (off & Hoff & Hi3).
    { rewrite Hdis, Hm'. unfold ca_used. rewrite lookup_insert_ne, lookup_insert_eq by lia.
      eexists. split; [|done]. cbn [snd]. rewrite Z.add_0_l. apply Hcons. }
    unfold sslcert_free, get_certs, bind, gets. rewrite Hi3. cbn. destruct (Z.eqb_spec off 0); [lia|done].
  - destruct Ha as [Ep _]. rewrite Ep in Haft. cbn in Haft.
    destruct (wp_run _ _ _ (Hfree s3 ltac:(congruence))) as ([] & s4 & Hrun & Ho). by exists s4.
Qed.
End Tls.

(** * Concrete systems *)

(** Everything succeeds, every file has the same five bytes, and a certificate
    is four bytes long. *)
Definition all_well (h : list sys_call) (c : sys_call) : bool := true.
Definition five_bytes (name : list Z) : list Z := [48; 3; 1; 2; 3].
Definition reads_thousand (h : list sys_call) (left : Z) : Z := Z.min 1024 left.
Definition empty_process : process := mkProcess ∅ 0 [].

Lemma reads_thousand_ok : reads_ok reads_thousand.
Proof. intros h left Hl. unfold reads_thousand. lia. Qed.

Lemma empty_process_ok : process_ok empty_process.
Proof. intros i _. apply lookup_empty. Qed.

Lemma sslconnect_gives_back_witness :
  wp (mango_sslconnect all_well (fun _ => 100) (fun _ => 4) (script 0 []) 100 (Some (bytes "host")) 443 None None 7 1)
    (sslconnected all_well (fun _ => 4) ∅ 0 [] None None 1) empty_process.
Proof.
  apply (sslconnect_gives_back all_well (fun _ => 100) (fun _ => 4) (script 0 []) 100 (Some (bytes "host")) 443
    None None 7 1 empty_process); [apply script_silent_ok|by eexists|apply empty_process_ok|done].
Defined.

Lemma connect_gives_back_witness :
  wp (mango_connect_tcp all_well (fun _ => 100) (script 0 []) 100 (Some (bytes "host")) 80) (fun r s' =>
    tcp_connected all_well ∅ r s' /\
    forall cn, r = Some cn -> exists fd, mango_connect (script 0 []) 100 true true fd 0 = Ok (Some (cn_world cn)))
    empty_process.
Proof.
  apply (connect_gives_back all_well (fun _ => 100) (script 0 []) 100 (Some (bytes "host")) 80 empty_process);
    [apply script_silent_ok|by eexists|apply empty_process_ok].
Defined.

Lemma sslcert_load_free_witness :
  wp (sslcert_load all_well five_bytes reads_thousand (fun _ _ => 9) (fun _ => 100)
        (Some (bytes "ca")) None (Some (bytes "key")))
    (certs_loaded all_well five_bytes reads_thousand ∅ (Some (bytes "ca")) None (Some (bytes "key"))) empty_process.
Proof.
  apply (sslcert_load_free all_well five_bytes reads_thousand (fun _ _ => 9) (fun _ => 100)
    (Some (bytes "ca")) None (Some (bytes "key")) empty_process); [apply reads_thousand_ok|apply empty_process_ok].
Defined.

(** A client that loads certificates, connects and disconnects. *)
Definition example_load (ca : option (list Z)) : M process (option nat) :=
  sslcert_load all_well five_bytes reads_thousand (fun _ _ => 9) (fun _ => 100) ca None (Some (bytes "key")).
Definition example_connect : M process (option connection) :=
  mango_sslconnect all_well (fun _ => 100) (fun _ => 4) (script 0 []) 100 (Some (bytes "host")) 443 (Some 0%nat) None 7 1.
Definition state_of {A} (r : outcome (A * process)) : process :=
  match r with Ok (_, s) => s | Stop _ => empty_process end.
Definition connection_of (r : outcome (option connection * process)) : connection :=
  match r with
  | Ok (Some cn, _) => cn
  | _ => mkConnection 0 (mkWorld zero_client []) None None
  end.
Definition example_loaded (ca : option (list Z)) : process := state_of (example_load ca empty_process).
Definition example_connected (ca : option (list Z)) : process := state_of (example_connect (example_loaded ca)).
Definition example_client (ca : option (list Z)) : connection := connection_of (example_connect (example_loaded ca)).
Definition example_closed (ca : option (list Z)) : process :=
  state_of (mango_ssldisconnect all_well (Some (example_client ca)) (example_connected ca)).

Lemma used_certificates_freed_witness :
  sslcert_free all_well (Some 0%nat) (example_closed (Some (bytes "ca"))) = Stop (Fault "free") /\
  exists s4, sslcert_free all_well (Some 0%nat) (example_closed None) = Ok (tt, s4) /\ objects s4 = ∅.
Proof.
  pose proof (fun ca => used_certificates_freed all_well five_bytes reads_thousand (fun _ _ => 9) (fun _ => 100) (fun _ => 4)
    (script 0 []) 100 ca None (Some (bytes "key")) (Some (bytes "host")) 443 None 7 1 empty_process 0 (example_loaded ca)
    (example_client ca) (example_connected ca) (example_closed ca) script_silent_ok reads_thousand_ok empty_process_ok
    ltac:(by eexists) ltac:(by intros)) as H.
  split.
  - apply (H (Some (bytes "ca"))); vm_compute; reflexivity.
  - apply (H None); vm_compute; reflexivity.
Defined.
