(* ===== verification/JsonDouble.v ===== *)
(** The doubles of cJSON.c: IEEE 754 binary64 with rounding to nearest, as the
    specification of floating-point numbers of the Standard Library computes
    them, the conversions to and from int, floor, and what printf writes for
    %d, %.0f, %f and %e. *)

From Stdlib Require Import SpecFloat.
From S2P Require Import Prelude.

Definition double : Type := spec_float.

#[export] Instance spec_float_eq_dec : EqDecision spec_float.
Proof. solve_decision. Defined.

Definition d_zero : double := S754_zero false.
Definition d_add : double -> double -> double := SFadd 53 1024.
Definition d_sub : double -> double -> double := SFsub 53 1024.
Definition d_mul : double -> double -> double := SFmul 53 1024.
Definition d_div : double -> double -> double := SFdiv 53 1024.

(** Conversion of an integer. *)
Definition d_of_Z (z : Z) : double := binary_normalize 53 1024 z 0 false.

Definition DBL_EPSILON : double := S754_finite false 4503599627370496 (-104).
Definition INT_MAX : Z := 2147483647.
Definition INT_MIN : Z := -2147483648.
(** The constants 1.0e60, 1.0e9 and 1.0e-6. *)
Definition d_1e60 : double := d_of_Z (10 ^ 60).
Definition d_1e9 : double := d_of_Z (10 ^ 9).
Definition d_1em6 : double := d_div (d_of_Z 1) (d_of_Z (10 ^ 6)).

(** [(int) d] and [floor d]. *)
Definition d_trunc (d : double) : option Z :=
  match d with
  | S754_zero _ => Some 0
  | S754_finite s m e =>
      let a := if 0 <=? e then Zpos m * 2 ^ e else Zpos m / 2 ^ (- e) in
      Some (if s then - a else a)
  | _ => None
  end.

Definition d_floor (d : double) : double :=
  match d with
  | S754_finite s m e =>
      if 0 <=? e then d
      else d_of_Z ((if s then - Zpos m else Zpos m) / 2 ^ (- e))
  | _ => d
  end.

#[global] Arguments d_of_Z : simpl never.
#[global] Arguments d_add : simpl never.
#[global] Arguments d_sub : simpl never.
#[global] Arguments d_mul : simpl never.
#[global] Arguments d_div : simpl never.

(** * printf *)

(** Decimal digits, the last one first; a number below 2^n has at most n. *)
Fixpoint digits_rev (n : nat) (z : Z) : list Z :=
  match n with
  | O => []
  | S n => (48 + z mod 10) :: (if z <? 10 then [] else digits_rev n (z / 10))
  end.
Definition decimal (z : Z) : list Z := rev (digits_rev (S (Z.to_nat (Z.log2 z))) z).

(** %d. *)
Definition fmt_d (z : Z) : list Z := if z <? 0 then 45 :: decimal (- z) else decimal z.

(** The fraction num/den to the nearest integer, ties to even. *)
Definition round_even (num den : Z) : Z :=
  let q := num / den in
  let r := num mod den in
  if (2 * r <? den) || ((2 * r =? den) && Z.even q) then q else q + 1.

(** The magnitude of a finite double as a fraction. *)
Definition fraction (m : positive) (e : Z) : Z * Z :=
  if 0 <=? e then (Zpos m * 2 ^ e, 1) else (Zpos m, 2 ^ (- e)).

Definition sign_text (s : bool) : list Z := if s then [45] else [].

(** [z] with at least [w] digits. *)
Definition padded (w : nat) (z : Z) : list Z :=
  let d := decimal z in replicate (w - length d) 48 ++ d.

(** %.[n]f of a fraction: the point is not written when [n] is 0. *)
Definition fixed (n : nat) (num den : Z) : list Z :=
  let p := 10 ^ Z.of_nat n in
  let r := round_even (num * p) den in
  decimal (r / p) ++ (if decide (n = 0%nat) then [] else 46 :: padded n (r mod p)).

(** The decimal exponent of a fraction, from 400 downwards. *)
Fixpoint exponent_below (n : nat) (k num den : Z) : Z :=
  match n with
  | O => k
  | S n => if (if 0 <=? k then 10 ^ k * den <=? num else den <=? num * 10 ^ (- k)) then k
           else exponent_below n (k - 1) num den
  end.

Definition exponential (num den : Z) : list Z :=
  let k := exponent_below 800 400 num den in
  let r := if k <=? 6 then round_even (num * 10 ^ (6 - k)) den else round_even num (den * 10 ^ (k - 6)) in
  let '(r, k) := if r =? 10 ^ 7 then (10 ^ 6, k + 1) else (r, k) in
  decimal (r / 10 ^ 6) ++ [46] ++ padded 6 (r mod 10 ^ 6) ++ [101; if k <? 0 then 45 else 43] ++
  padded 2 (Z.abs k).

Definition special (d : double) : list Z :=
  match d with
  | S754_infinity s => sign_text s ++ bytes "inf"
  | _ => bytes "nan"
  end.

Definition fmt_f (n : nat) (d : double) : list Z :=
  match d with
  | S754_zero s => sign_text s ++ fixed n 0 1
  | S754_finite s m e => let '(num, den) := fraction m e in sign_text s ++ fixed n num den
  | _ => special d
  end.

Definition fmt_e (d : double) : list Z :=
  match d with
  | S754_zero s => sign_text s ++ bytes "0.000000e+00"
  | S754_finite s m e => let '(num, den) := fraction m e in sign_text s ++ exponential num den
  | _ => special d
  end.

Example fmt_e_avogadro : fmt_e (d_of_Z 602214076000000000000000) = bytes "6.022141e+23".
Proof. reflexivity. Qed.
Example fmt_f_third : fmt_f 6 (d_div (d_of_Z (-1)) (d_of_Z 3)) = bytes "-0.333333".
Proof. reflexivity. Qed.
Example fmt_e_small : fmt_e d_1em6 = bytes "1.000000e-06".
Proof. reflexivity. Qed.
