(* ===== verification/JsonHeap.v ===== *)
(** The memory of cJSON.c: items, strings, print buffers and tables of strings
    as the objects of a finite map, malloc and free, and the loads and stores.

    A pointer to an item is the number of its object and NULL is [None].  A
    [char *] into the heap is the number of a block and an offset.  A character
    is a byte; [None] is one that was never written, and reading it is a fault,
    as is every access outside the block, to an object of another kind or to one
    that was freed.

    Parameter: [can_malloc f h n] is whether the allocator [f] has [n] bytes after
    the requests [h]. *)

From stdpp Require Import gmap.
From S2P Require Import Prelude.
From S2P Require Import CMonad.
From S2P Require Import JsonDouble.

Definition ptr : Type := nat * Z.
Definition ptr_add (p : ptr) (n : Z) : ptr := (p.1, p.2 + n).

(** struct cJSON.  [name] is its member [string]. *)
Record cJSON : Type := mkItem {
  next : option nat;
  prev : option nat;
  child : option nat;
  type : Z;
  valuestring : option ptr;
  valueint : Z;
  valuedouble : double;
  name : option ptr
}.

(** After memset(node, 0, sizeof(cJSON)). *)
Definition zero_item : cJSON := mkItem None None None 0 None 0 d_zero None.

Definition set_next v c := mkItem v (prev c) (child c) (type c) (valuestring c) (valueint c) (valuedouble c) (name c).
Definition set_prev v c := mkItem (next c) v (child c) (type c) (valuestring c) (valueint c) (valuedouble c) (name c).
Definition set_child v c := mkItem (next c) (prev c) v (type c) (valuestring c) (valueint c) (valuedouble c) (name c).
Definition set_type v c := mkItem (next c) (prev c) (child c) v (valuestring c) (valueint c) (valuedouble c) (name c).
Definition set_valuestring v c := mkItem (next c) (prev c) (child c) (type c) v (valueint c) (valuedouble c) (name c).
Definition set_valueint v c := mkItem (next c) (prev c) (child c) (type c) (valuestring c) v (valuedouble c) (name c).
Definition set_valuedouble v c := mkItem (next c) (prev c) (child c) (type c) (valuestring c) (valueint c) v (name c).
Definition set_name v c := mkItem (next c) (prev c) (child c) (type c) (valuestring c) (valueint c) (valuedouble c) v.

Record printbuffer : Type := mkBuffer {
  buffer : option ptr;
  length : Z;
  offset : Z
}.

Inductive object : Type :=
| Item (c : cJSON)
| Chars (b : list (option Z))
| Buffer (p : printbuffer)
| Table (t : list (option ptr)).

(** The function pointers cJSON_malloc and cJSON_free: malloc and free of the C
    library, or functions of the application. *)
Inductive allocator : Type := Libc | Hook (f : nat).

(** [ep] is an offset into the text that is parsed. *)
Record memory : Type := mkMemory {
  objects : gmap nat object;
  unused : nat;
  requests : list Z;
  ep : option Z;
  cJSON_malloc : allocator;
  cJSON_free : allocator
}.

Definition set_objects v s := mkMemory v (unused s) (requests s) (ep s) (cJSON_malloc s) (cJSON_free s).
Definition set_ep v s := mkMemory (objects s) (unused s) (requests s) v (cJSON_malloc s) (cJSON_free s).

Definition put_objects (f : gmap nat object -> gmap nat object) : M memory unit :=
  modify (fun s => set_objects (f (objects s)) s).

Section Allocation.
Context (can_malloc : allocator -> list Z -> Z -> bool).

Definition allocate (n : Z) (o : object) : M memory (option nat) := fun s =>
  let i := unused s in
  if can_malloc (cJSON_malloc s) (requests s) n
  then Ok (Some i, mkMemory (<[i := o]> (objects s)) (S i) (requests s ++ [n]) (ep s) (cJSON_malloc s) (cJSON_free s))
  else Ok (None, mkMemory (objects s) i (requests s ++ [n]) (ep s) (cJSON_malloc s) (cJSON_free s)).

Definition malloc (n : Z) : M memory (option ptr) :=
  i <- allocate n (Chars (replicate (Z.to_nat n) None)) ;;
  ret (i ← i; Some (i, 0))%stdpp.

(** cJSON_malloc(n * sizeof a pointer), and memset to zero. *)
Definition malloc_table (n : Z) : M memory (option nat) :=
  allocate (n * 8) (Table (replicate (Z.to_nat n) None)).
End Allocation.

(** A local variable of the caller that has its address taken. *)
Definition local (o : object) : M memory nat := fun s =>
  let i := unused s in
  Ok (i, mkMemory (<[i := o]> (objects s)) (S i) (requests s) (ep s) (cJSON_malloc s) (cJSON_free s)).
Definition end_local (i : nat) : M memory unit := put_objects (delete i).

Definition at_ {A} (site : string) (f : object -> option A) (i : nat) : M memory A :=
  m <- gets objects ;;
  access site (o ← m !! i; f o)%stdpp.

Definition is_item (o : object) : option cJSON := match o with Item c => Some c | _ => None end.
Definition is_chars (o : object) : option (list (option Z)) := match o with Chars b => Some b | _ => None end.
Definition is_buffer (o : object) : option printbuffer := match o with Buffer p => Some p | _ => None end.
Definition is_table (o : object) : option (list (option ptr)) := match o with Table t => Some t | _ => None end.

Definition free_item (i : nat) : M memory unit :=
  at_ "free" is_item i ;; put_objects (delete i).
Definition free_table (i : nat) : M memory unit :=
  at_ "free" is_table i ;; put_objects (delete i).
(** free of a [char *]: it must point to the start of a block. *)
Definition free (p : option ptr) : M memory unit :=
  match p with
  | None => ret tt
  | Some (i, off) =>
      if off =? 0 then at_ "free" is_chars i ;; put_objects (delete i) else stop (Fault "free")
  end.

(** ** Items and buffers *)

Definition item (i : nat) : M memory cJSON := at_ "item" is_item i.
Definition edit (f : cJSON -> cJSON) (i : nat) : M memory unit :=
  c <- item i ;; put_objects <[i := Item (f c)]>.
Definition get_buffer (i : nat) : M memory printbuffer := at_ "buffer" is_buffer i.
Definition set_buffer (i : nat) (p : printbuffer) : M memory unit :=
  get_buffer i ;; put_objects <[i := Buffer p]>.
Definition entry (t : nat) (i : Z) : M memory (option ptr) :=
  l <- at_ "entry" is_table t ;; access "entry" (zget l i).
Definition set_entry (t : nat) (i : Z) (v : option ptr) : M memory unit :=
  l <- at_ "entry" is_table t ;;
  l' <- access "entry" (zset l i v) ;;
  put_objects <[t := Table l']>.

(** ** Characters *)

(** The block behind a pointer, up to its end. *)
Definition chars (site : string) (p : ptr) : M memory (list (option Z)) :=
  b <- at_ site is_chars p.1 ;;
  if (0 <=? p.2) && (p.2 <=? zlen b) then ret (drop (Z.to_nat p.2) b) else stop (Fault site).

Definition load (site : string) (p : ptr) : M memory Z :=
  b <- chars site p ;; access site (match b with Some c :: _ => Some c | _ => None end).

(** The string before the first NUL, if every character up to it was written. *)
Fixpoint string_in (b : list (option Z)) : option (list Z) :=
  match b with
  | Some c :: b => if c =? 0 then Some [] else (c ::.) <$> string_in b
  | _ => None
  end.

Definition cstring (site : string) (p : ptr) : M memory (list Z) :=
  b <- chars site p ;; access site (string_in b).
Definition strlen (p : ptr) : M memory Z :=
  s <- cstring "strlen" p ;; ret (zlen s).

Definition store_all (site : string) (p : ptr) (l : list (option Z)) : M memory unit :=
  b <- at_ site is_chars p.1 ;;
  b' <- access site (zblit b p.2 l) ;;
  put_objects <[p.1 := Chars b']>.
(** [*p = c], and [*p++ = c]. *)
Definition store (site : string) (p : ptr) (c : Z) : M memory unit := store_all site p [Some c].
Definition put_char (site : string) (p : ptr) (c : Z) : M memory ptr :=
  store site p c ;; ret (ptr_add p 1).
(** strcpy of a string constant, and sprintf of a text. *)
Definition write (site : string) (p : ptr) (l : list Z) : M memory unit :=
  store_all site p (map Some (l ++ [0])).
(** memcpy(dst, src, n). *)
Definition memcpy (dst src : ptr) (n : Z) : M memory unit :=
  b <- chars "memcpy" src ;;
  if (0 <=? n) && (n <=? zlen b) then store_all "memcpy" dst (take (Z.to_nat n) b)
  else stop (Fault "memcpy").
(** strcpy(dst, src). *)
Definition strcpy (dst src : ptr) : M memory unit :=
  s <- cstring "strcpy" src ;; write "strcpy" dst s.
