(* ===== verification/CJson.v ===== *)
(** cJSON.c without the parser and the printer: items are created, linked into
    arrays and objects, found, detached, replaced, duplicated and deleted.

    A list of items is the chain of their [next] pointers; [prev] points back,
    and is NULL in the first item.  Loops over a chain have [fuel] rounds, as
    the recursion over children.  Parameters: [can_malloc] of JsonHeap.v, and
    [int_overflow d], the int that the conversion of a double outside the range
    of int gives. *)

From stdpp Require Import gmap.
From S2P Require Import Prelude.
From S2P Require Import CMonad.
From S2P Require Import CString.
From S2P Require Import JsonDouble.
From S2P Require Import JsonHeap.

Definition cJSON_False : Z := 0.
Definition cJSON_True : Z := 1.
Definition cJSON_NULL : Z := 2.
Definition cJSON_Number : Z := 3.
Definition cJSON_String : Z := 4.
Definition cJSON_Array : Z := 5.
Definition cJSON_Object : Z := 6.
Definition cJSON_IsReference : Z := 256.
Definition cJSON_StringIsConst : Z := 512.

Definition is_reference (t : Z) : bool := negb (Z.land t cJSON_IsReference =? 0).
Definition is_const (t : Z) : bool := negb (Z.land t cJSON_StringIsConst =? 0).

(** The comparison of two blocks, character by character up to a difference or
    to the terminator; [None] when a block ends before. *)
Fixpoint strcasecmp_in (a b : list (option Z)) : option Z :=
  match a, b with
  | Some x :: a, Some y :: b =>
      if tolower x =? tolower y then (if x =? 0 then Some 0 else strcasecmp_in a b)
      else Some (tolower x - tolower y)
  | _, _ => None
  end.

Definition cJSON_strcasecmp (s1 s2 : option ptr) : M memory Z :=
  match s1, s2 with
  | None, None => ret 0
  | None, Some _ | Some _, None => ret 1
  | Some p1, Some p2 =>
      a <- chars "strcasecmp" p1 ;;
      b <- chars "strcasecmp" p2 ;;
      access "strcasecmp" (strcasecmp_in a b)
  end.

Definition cJSON_GetErrorPtr : M memory (option Z) := gets ep.

(** cJSON_InitHooks: [None] is NULL, in the structure too. *)
Definition cJSON_InitHooks (hooks : option (option nat * option nat)) : M memory unit :=
  modify (fun s =>
    match hooks with
    | None => mkMemory (objects s) (unused s) (requests s) (ep s) Libc Libc
    | Some (m, f) =>
        mkMemory (objects s) (unused s) (requests s) (ep s)
          (match m with Some m => Hook m | None => Libc end) (match f with Some f => Hook f | None => Libc end)
    end).

(** A pointer that the code dereferences. *)
Definition deref (site : string) (p : option nat) : M memory nat := access site p.

Section Items.
Context (can_malloc : allocator -> list Z -> Z -> bool) (int_overflow : double -> Z) (fuel : nat).

Definition cJSON_strdup (str : ptr) : M memory (option ptr) :=
  len <- strlen str ;;
  copy <- malloc can_malloc (len + 1) ;;
  match copy with
  | None => ret None
  | Some copy => memcpy copy str (len + 1) ;; ret (Some copy)
  end.

(** sizeof(cJSON) is 64. *)
Definition cJSON_New_Item : M memory (option nat) := allocate can_malloc 64 (Item zero_item).

Fixpoint delete_items (fuel : nat) (c : option nat) : M memory unit :=
  match fuel with
  | O => stop OutOfFuel
  | S n =>
      match c with
      | None => ret tt
      | Some i =>
          it <- item i ;;
          (if negb (is_reference (type it)) && bool_decide (is_Some (child it))
           then delete_items n (child it) else ret tt) ;;
          (if negb (is_reference (type it)) && bool_decide (is_Some (valuestring it))
           then free (valuestring it) else ret tt) ;;
          (if negb (is_const (type it)) && bool_decide (is_Some (name it))
           then free (name it) else ret tt) ;;
          free_item i ;;
          delete_items n (next it)
      end
  end.
Definition cJSON_Delete (c : option nat) : M memory unit := delete_items fuel c.

(** ** Looking at arrays and objects *)

Definition cJSON_GetArraySize (array : nat) : M memory Z :=
  a <- item array ;;
  loop fuel (fun '(c, i) =>
    match c with
    | None => ret (inr i)
    | Some c => it <- item c ;; ret (inl (next it, s32 (i + 1)))
    end) (child a, 0).

(** The item number [which] of a chain, or NULL. *)
Definition walk (c : option nat) (which : Z) : M memory (option nat) :=
  loop fuel (fun '(c, which) =>
    match c with
    | None => ret (inr None)
    | Some i => if 0 <? which then it <- item i ;; ret (inl (next it, which - 1)) else ret (inr (Some i))
    end) (c, which).

Definition cJSON_GetArrayItem (array : nat) (which : Z) : M memory (option nat) :=
  a <- item array ;; walk (child a) which.

(** The first item of a chain with a name, and its number. *)
Definition find_name (c : option nat) (string : option ptr) : M memory (option nat * Z) :=
  loop fuel (fun '(c, i) =>
    match c with
    | None => ret (inr (None, i))
    | Some k =>
        it <- item k ;;
        r <- cJSON_strcasecmp (name it) string ;;
        if r =? 0 then ret (inr (Some k, i)) else ret (inl (next it, i + 1))
    end) (c, 0).

Definition cJSON_GetObjectItem (object : nat) (string : option ptr) : M memory (option nat) :=
  o <- item object ;;
  r <- find_name (child o) string ;; ret (fst r).

(** ** Linking items *)

Definition suffix_object (prev_ item_ : option nat) : M memory unit :=
  p <- deref "suffix_object" prev_ ;;
  edit (set_next item_) p ;;
  i <- deref "suffix_object" item_ ;;
  edit (set_prev (Some p)) i.

Definition create_reference (i : nat) : M memory (option nat) :=
  ref <- cJSON_New_Item ;;
  match ref with
  | None => ret None
  | Some r =>
      it <- item i ;;
      edit (fun _ => it) r ;;
      edit (set_name None) r ;;
      edit (fun c => set_type (Z.lor (type c) cJSON_IsReference) c) r ;;
      edit (fun c => set_next None (set_prev None c)) r ;;
      ret (Some r)
  end.

(** while (c && c->next) c = c->next. *)
Definition last_item (c : nat) : M memory nat :=
  loop fuel (fun c =>
    it <- item c ;;
    match next it with
    | Some n => ret (inl n)
    | None => ret (inr c)
    end) c.

Definition cJSON_AddItemToArray (array : nat) (item_ : option nat) : M memory unit :=
  a <- item array ;;
  match item_ with
  | None => ret tt
  | Some _ =>
      match child a with
      | None => edit (set_child item_) array
      | Some c => c <- last_item c ;; suffix_object (Some c) item_
      end
  end.

Definition cJSON_AddItemToObject (object : nat) (string : ptr) (item_ : option nat) : M memory unit :=
  match item_ with
  | None => ret tt
  | Some i =>
      it <- item i ;;
      (if bool_decide (is_Some (name it)) then free (name it) else ret tt) ;;
      s <- cJSON_strdup string ;;
      edit (set_name s) i ;;
      cJSON_AddItemToArray object item_
  end.

Definition cJSON_AddItemToObjectCS (object : nat) (string : option ptr) (item_ : option nat) : M memory unit :=
  match item_ with
  | None => ret tt
  | Some i =>
      it <- item i ;;
      (if negb (is_const (type it)) && bool_decide (is_Some (name it)) then free (name it) else ret tt) ;;
      edit (set_name string) i ;;
      edit (fun c => set_type (Z.lor (type c) cJSON_StringIsConst) c) i ;;
      cJSON_AddItemToArray object item_
  end.

Definition cJSON_AddItemReferenceToArray (array : nat) (i : nat) : M memory unit :=
  r <- create_reference i ;; cJSON_AddItemToArray array r.
Definition cJSON_AddItemReferenceToObject (object : nat) (string : ptr) (i : nat) : M memory unit :=
  r <- create_reference i ;; cJSON_AddItemToObject object string r.

(** ** Unlinking items *)

Definition cJSON_DetachItemFromArray (array : nat) (which : Z) : M memory (option nat) :=
  a <- item array ;;
  c <- walk (child a) which ;;
  match c with
  | None => ret None
  | Some i =>
      c <- item i ;;
      match prev c with Some p => edit (set_next (next c)) p | None => ret tt end ;;
      match next c with Some n => edit (set_prev (prev c)) n | None => ret tt end ;;
      a <- item array ;;
      (if bool_decide (Some i = child a) then edit (set_child (next c)) array else ret tt) ;;
      edit (fun c => set_prev None (set_next None c)) i ;;
      ret (Some i)
  end.
Definition cJSON_DeleteItemFromArray (array : nat) (which : Z) : M memory unit :=
  c <- cJSON_DetachItemFromArray array which ;; cJSON_Delete c.

Definition cJSON_DetachItemFromObject (object : nat) (string : option ptr) : M memory (option nat) :=
  o <- item object ;;
  let* (c, i) := find_name (child o) string in
  match c with
  | Some _ => cJSON_DetachItemFromArray object i
  | None => ret None
  end.
Definition cJSON_DeleteItemFromObject (object : nat) (string : option ptr) : M memory unit :=
  c <- cJSON_DetachItemFromObject object string ;; cJSON_Delete c.

(** ** Inserting and replacing *)

Definition cJSON_InsertItemInArray (array : nat) (which : Z) (newitem : nat) : M memory unit :=
  a <- item array ;;
  c <- walk (child a) which ;;
  match c with
  | None => cJSON_AddItemToArray array (Some newitem)
  | Some i =>
      edit (set_next (Some i)) newitem ;;
      c <- item i ;;
      edit (set_prev (prev c)) newitem ;;
      edit (set_prev (Some newitem)) i ;;
      a <- item array ;;
      if bool_decide (Some i = child a) then edit (set_child (Some newitem)) array
      else n <- item newitem ;;
           p <- deref "cJSON_InsertItemInArray" (prev n) ;;
           edit (set_next (Some newitem)) p
  end.

Definition cJSON_ReplaceItemInArray (array : nat) (which : Z) (newitem : nat) : M memory unit :=
  a <- item array ;;
  c <- walk (child a) which ;;
  match c with
  | None => ret tt
  | Some i =>
      c <- item i ;;
      edit (set_next (next c)) newitem ;;
      c <- item i ;;
      edit (set_prev (prev c)) newitem ;;
      n <- item newitem ;;
      match next n with Some k => edit (set_prev (Some newitem)) k | None => ret tt end ;;
      a <- item array ;;
      (if bool_decide (Some i = child a) then edit (set_child (Some newitem)) array
       else n <- item newitem ;;
            p <- deref "cJSON_ReplaceItemInArray" (prev n) ;;
            edit (set_next (Some newitem)) p) ;;
      edit (fun c => set_next None (set_prev None c)) i ;;
      cJSON_Delete (Some i)
  end.

Definition cJSON_ReplaceItemInObject (object : nat) (string : ptr) (newitem : nat) : M memory unit :=
  o <- item object ;;
  let* (c, i) := find_name (child o) (Some string) in
  match c with
  | Some _ =>
      s <- cJSON_strdup string ;;
      edit (set_name s) newitem ;;
      cJSON_ReplaceItemInArray object i newitem
  | None => ret tt
  end.

(** ** Creating items *)

Definition create (f : cJSON -> cJSON) : M memory (option nat) :=
  i <- cJSON_New_Item ;;
  match i with
  | Some i => edit f i ;; ret (Some i)
  | None => ret None
  end.

Definition int_of_double (d : double) : Z :=
  match d_trunc d with
  | Some z => if (INT_MIN <=? z) && (z <=? INT_MAX) then z else int_overflow d
  | None => int_overflow d
  end.

Definition cJSON_CreateNull : M memory (option nat) := create (set_type cJSON_NULL).
Definition cJSON_CreateTrue : M memory (option nat) := create (set_type cJSON_True).
Definition cJSON_CreateFalse : M memory (option nat) := create (set_type cJSON_False).
Definition cJSON_CreateBool (b : Z) : M memory (option nat) :=
  create (set_type (if b =? 0 then cJSON_False else cJSON_True)).
Definition cJSON_CreateNumber (num : double) : M memory (option nat) :=
  create (fun c => set_valueint (int_of_double num) (set_valuedouble num (set_type cJSON_Number c))).
Definition cJSON_CreateString (string : ptr) : M memory (option nat) :=
  i <- cJSON_New_Item ;;
  match i with
  | Some i =>
      edit (set_type cJSON_String) i ;;
      s <- cJSON_strdup string ;;
      edit (set_valuestring s) i ;;
      ret (Some i)
  | None => ret None
  end.
Definition cJSON_CreateArray : M memory (option nat) := create (set_type cJSON_Array).
Definition cJSON_CreateObject : M memory (option nat) := create (set_type cJSON_Object).

(** The loop of the four functions below: [create_n k] creates the item of the
    element [k] of the argument. *)
Definition create_items (create_n : Z -> M memory (option nat)) (count : Z) : M memory (option nat) :=
  a <- cJSON_CreateArray ;;
  match a with
  | None => ret None
  | Some arr =>
      loop (S (Z.to_nat count)) (fun '(i, p) =>
        if i <? count then
          n <- create_n i ;;
          (if i =? 0 then edit (set_child n) arr else suffix_object p n) ;;
          ret (inl (i + 1, n))
        else ret (inr a)) (0, None)
  end.

Definition cJSON_CreateIntArray (numbers : list Z) (count : Z) : M memory (option nat) :=
  create_items (fun i => n <- access "cJSON_CreateIntArray" (zget numbers i) ;;
                         cJSON_CreateNumber (d_of_Z n)) count.
(** Every float is a double. *)
Definition cJSON_CreateFloatArray (numbers : list double) (count : Z) : M memory (option nat) :=
  create_items (fun i => n <- access "cJSON_CreateFloatArray" (zget numbers i) ;; cJSON_CreateNumber n) count.
Definition cJSON_CreateDoubleArray (numbers : list double) (count : Z) : M memory (option nat) :=
  create_items (fun i => n <- access "cJSON_CreateDoubleArray" (zget numbers i) ;; cJSON_CreateNumber n) count.
Definition cJSON_CreateStringArray (strings : list ptr) (count : Z) : M memory (option nat) :=
  create_items (fun i => s <- access "cJSON_CreateStringArray" (zget strings i) ;; cJSON_CreateString s) count.

(** ** Duplication *)

(** newitem->valuestring = cJSON_strdup(item->valuestring), where there is one;
    whether that worked. *)
Definition copy_string (s : option ptr) (set : option ptr -> cJSON -> cJSON) (newitem : nat) : M memory bool :=
  match s with
  | None => ret true
  | Some p =>
      c <- cJSON_strdup p ;;
      edit (set c) newitem ;;
      ret (bool_decide (is_Some c))
  end.

(** ~cJSON_IsReference as an int. *)
Definition without_reference (t : Z) : Z := Z.land t (Z.lnot cJSON_IsReference).

Fixpoint duplicate (n : nat) (i : option nat) (recurse : bool) : M memory (option nat) :=
  match n with
  | O => stop OutOfFuel
  | S n =>
      match i with
      | None => ret None
      | Some i =>
          newitem <- cJSON_New_Item ;;
          match newitem with
          | None => ret None
          | Some new =>
              it <- item i ;;
              edit (fun c => set_valuedouble (valuedouble it) (set_valueint (valueint it)
                               (set_type (without_reference (type it)) c))) new ;;
              ok <- copy_string (valuestring it) set_valuestring new ;;
              if negb ok then cJSON_Delete newitem ;; ret None else
              ok <- copy_string (name it) set_name new ;;
              if negb ok then cJSON_Delete newitem ;; ret None else
              if negb recurse then ret newitem else
              loop n (fun '(cptr, nptr) =>
                match cptr with
                | None => ret (inr newitem)
                | Some c =>
                    newchild <- duplicate n (Some c) true ;;
                    match newchild with
                    | None => cJSON_Delete newitem ;; ret (inr None)
                    | Some nc =>
                        match nptr with
                        | Some np => edit (set_next newchild) np ;; edit (set_prev (Some np)) nc
                        | None => edit (set_child newchild) new
                        end ;;
                        cc <- item c ;;
                        ret (inl (next cc, newchild))
                    end
                end) (child it, None)
          end
      end
  end.
Definition cJSON_Duplicate (i : option nat) (recurse : Z) : M memory (option nat) :=
  duplicate fuel i (negb (recurse =? 0)).
End Items.
