(* ===== verification/CJsonParse.v ===== *)
(** The parser of cJSON.c and cJSON_Minify.

    The text that is parsed is the array [text]; a [const char *] into it is an
    offset, and reading past its end is a fault.  Its characters are unsigned
    here, those of the code may be signed: all comparisons are between ASCII
    characters.  A loop over the text has its length as fuel, the recursion of
    the values too.  Parameter: [pow x y] is pow of math.h. *)

From stdpp Require Import gmap.
From S2P Require Import Prelude.
From S2P Require Import CMonad.
From S2P Require Import CString.
From S2P Require Import JsonDouble.
From S2P Require Import JsonHeap.
From S2P Require Import CJson.

Definition hex_digit (c : Z) : option Z :=
  if (48 <=? c) && (c <=? 57) then Some (c - 48)
  else if (65 <=? c) && (c <=? 70) then Some (10 + c - 65)
  else if (97 <=? c) && (c <=? 102) then Some (10 + c - 97)
  else None.

(** firstByteMark. *)
Definition firstByteMark : list Z := [0; 0; 192; 224; 240; 248; 252].

Section Parse.
Context (can_malloc : allocator -> list Z -> Z -> bool) (int_overflow : double -> Z) (fuel : nat).
Context (pow : double -> double -> double) (text : list Z).

Definition char (i : Z) : M memory Z := access "text" (zget text i).
Definition rounds : nat := S (List.length text).

(** ** Numbers *)

(** do n = n * 10.0 + ( *num++ - '0') while digit, with [k] the effect of
    the rest of the comma expression on [scale]. *)
Definition scan_digits (k : double -> double) (st : Z * double * double) : M memory (Z * double * double) :=
  loop rounds (fun '(num, n, scale) =>
    c <- char num ;;
    if isdigit c
    then ret (inl (num + 1, d_add (d_mul n (d_of_Z 10)) (d_of_Z (c - 48)), k scale))
    else ret (inr (num, n, scale))) st.

Definition scan_exponent (st : Z * Z) : M memory (Z * Z) :=
  loop rounds (fun '(num, subscale) =>
    c <- char num ;;
    if isdigit c then ret (inl (num + 1, s32 (s32 (subscale * 10) + (c - 48))))
    else ret (inr (num, subscale))) st.

Definition parse_number (i : nat) (num : Z) : M memory (option Z) :=
  c <- char num ;;
  let* (sign, num) := if c =? 45 then ret (d_of_Z (-1), num + 1) else ret (d_of_Z 1, num) in
  c <- char num ;;
  let num := if c =? 48 then num + 1 else num in
  c <- char num ;;
  let* (num, n, scale) :=
    if (49 <=? c) && (c <=? 57) then scan_digits (fun x => x) (num, d_zero, d_zero)
    else ret (num, d_zero, d_zero) in
  c <- char num ;;
  c1 <- (if c =? 46 then char (num + 1) else ret 0) ;;
  let* (num, n, scale) :=
    if (c =? 46) && isdigit c1 then scan_digits (fun x => d_sub x (d_of_Z 1)) (num + 1, n, scale)
    else ret (num, n, scale) in
  c <- char num ;;
  let* (num, subscale, signsubscale) :=
    if (c =? 101) || (c =? 69) then
      c <- char (num + 1) ;;
      let* (num, signsubscale) :=
        if c =? 43 then ret (num + 2, 1)
        else if c =? 45 then ret (num + 2, -1)
        else ret (num + 1, 1) in
      let* (num, subscale) := scan_exponent (num, 0) in
      ret (num, subscale, signsubscale)
    else ret (num, 0, 1) in
  let n := d_mul (d_mul sign n)
             (pow (d_of_Z 10) (d_add scale (d_of_Z (s32 (subscale * signsubscale))))) in
  edit (set_valuedouble n) i ;;
  edit (set_valueint (int_of_double int_overflow n)) i ;;
  edit (set_type cJSON_Number) i ;;
  ret (Some num).

(** ** Strings *)

Definition parse_hex4 (str : Z) : M memory Z :=
  let digit k h (rest : Z -> M memory Z) :=
    c <- char (str + k) ;;
    match hex_digit c with
    | None => ret 0
    | Some d => rest (h + d)
    end in
  digit 0 0 (fun h => digit 1 (Z.shiftl h 4) (fun h => digit 2 (Z.shiftl h 4) (fun h =>
  digit 3 (Z.shiftl h 4) ret))).

(** The first pass of parse_string, which counts. *)
Definition count_chars (ptr : Z) : M memory Z :=
  loop rounds (fun '(ptr, len) =>
    c <- char ptr ;;
    if (c =? 34) || (c =? 0) then ret (inr len) else
    let len := s32 (len + 1) in
    if len =? 0 then ret (inr len) else
    ret (inl (if c =? 92 then ptr + 2 else ptr + 1, len))) (ptr, 0).

(** The bytes of a character, the last one first; then [*--ptr2] four times. *)
Definition utf8_length (uc : Z) : Z :=
  if uc <? 128 then 1 else if uc <? 2048 then 2 else if uc <? 65536 then 3 else 4.

Definition put_tail (cond : bool) (st : ptr * Z) : M memory (ptr * Z) :=
  let '(p, uc) := st in
  if cond then
    store "parse_string" (ptr_add p (-1)) (u8 (Z.land (Z.lor uc 128) 191)) ;;
    ret (ptr_add p (-1), Z.shiftr uc 6)
  else ret (p, uc).

Definition put_utf8 (ptr2 : ptr) (uc : Z) : M memory ptr :=
  let len := utf8_length uc in
  st <- put_tail (4 <=? len) (ptr_add ptr2 len, uc) ;;
  st <- put_tail (3 <=? len) st ;;
  let* (p, uc) := put_tail (2 <=? len) st in
  mark <- access "firstByteMark" (zget firstByteMark len) ;;
  store "parse_string" (ptr_add p (-1)) (u8 (Z.lor uc mark)) ;;
  ret (ptr_add (ptr_add p (-1)) len).

(** case 'u', with [ptr] at the u; the new [ptr] and [ptr2]. *)
Definition parse_escape_u (ptr : Z) (ptr2 : JsonHeap.ptr) : M memory (Z * JsonHeap.ptr) :=
  uc <- parse_hex4 (ptr + 1) ;;
  let ptr := ptr + 4 in
  if ((56320 <=? uc) && (uc <=? 57343)) || (uc =? 0) then ret (ptr, ptr2) else
  if (55296 <=? uc) && (uc <=? 56319) then
    c1 <- char (ptr + 1) ;;
    if negb (c1 =? 92) then ret (ptr, ptr2) else
    c2 <- char (ptr + 2) ;;
    if negb (c2 =? 117) then ret (ptr, ptr2) else
    uc2 <- parse_hex4 (ptr + 3) ;;
    let ptr := ptr + 6 in
    if (uc2 <? 56320) || (57343 <? uc2) then ret (ptr, ptr2) else
    ptr2 <- put_utf8 ptr2 (65536 + Z.lor (Z.shiftl (Z.land uc 1023) 10) (Z.land uc2 1023)) ;;
    ret (ptr, ptr2)
  else
    ptr2 <- put_utf8 ptr2 uc ;;
    ret (ptr, ptr2).

Definition escaped_char (c : Z) : Z :=
  if c =? 98 then 8 else if c =? 102 then 12 else if c =? 110 then 10
  else if c =? 114 then 13 else if c =? 116 then 9 else c.

Definition copy_chars (ptr : Z) (ptr2 : JsonHeap.ptr) : M memory (Z * JsonHeap.ptr) :=
  loop rounds (fun '(ptr, ptr2) =>
    c <- char ptr ;;
    if (c =? 34) || (c =? 0) then ret (inr (ptr, ptr2)) else
    if negb (c =? 92) then
      ptr2 <- put_char "parse_string" ptr2 c ;;
      ret (inl (ptr + 1, ptr2))
    else
      let ptr := ptr + 1 in
      c <- char ptr ;;
      let* (ptr, ptr2) :=
        if c =? 117 then parse_escape_u ptr ptr2
        else ptr2 <- put_char "parse_string" ptr2 (escaped_char c) ;; ret (ptr, ptr2) in
      ret (inl (ptr + 1, ptr2))) (ptr, ptr2).

Definition fail_at (i : Z) : M memory (option Z) :=
  modify (set_ep (Some i)) ;; ret None.

Definition parse_string (i : nat) (str : Z) : M memory (option Z) :=
  c <- char str ;;
  if negb (c =? 34) then fail_at str else
  len <- count_chars (str + 1) ;;
  out <- malloc can_malloc (len + 1) ;;
  match out with
  | None => ret None
  | Some out =>
      let* (ptr, ptr2) := copy_chars (str + 1) out in
      store "parse_string" ptr2 0 ;;
      c <- char ptr ;;
      let ptr := if c =? 34 then ptr + 1 else ptr in
      edit (set_valuestring (Some out)) i ;;
      edit (set_type cJSON_String) i ;;
      ret (Some ptr)
  end.

(** ** Values *)

Definition skip (p : option Z) : M memory (option Z) :=
  match p with
  | None => ret None
  | Some i =>
      loop rounds (fun i =>
        c <- char i ;;
        if negb (c =? 0) && (c <=? 32) then ret (inl (i + 1)) else ret (inr (Some i))) i
  end.

(** !strncmp(&text[i], s, strlen(s)). *)
Fixpoint starts_with (i : Z) (s : list Z) : M memory bool :=
  match s with
  | [] => ret true
  | x :: s => c <- char i ;; if c =? x then starts_with (i + 1) s else ret false
  end.

Section Lists.
Context (parse_value : nat -> option Z -> M memory (option Z)).

(** child->next = new_item, and so on: the new item, or [None] without memory. *)
Definition next_item (child : nat) : M memory (option nat) :=
  new_item <- cJSON_New_Item can_malloc ;;
  match new_item with
  | None => ret None
  | Some n =>
      edit (set_next new_item) child ;;
      edit (set_prev (Some child)) n ;;
      ret new_item
  end.

(** item->child = child = cJSON_New_Item(). *)
Definition first_item (i : nat) : M memory (option nat) :=
  c <- cJSON_New_Item can_malloc ;;
  edit (set_child c) i ;;
  ret c.

(** The elements after the first one, which [element] parses, to the closing
    bracket. *)
Definition parse_elements (element : nat -> Z -> M memory (option Z)) (close : Z)
    (child : nat) (value : Z) : M memory (option Z) :=
  loop rounds (fun '(child, value) =>
    c <- char value ;;
    if c =? 44 then
      new_item <- next_item child ;;
      match new_item with
      | None => ret (inr None)
      | Some n =>
          value <- element n (value + 1) ;;
          match value with
          | None => ret (inr None)
          | Some value => ret (inl (n, value))
          end
      end
    else if c =? close then ret (inr (Some (value + 1)))
    else r <- fail_at value ;; ret (inr r)) (child, value).

Definition parse_list (element : nat -> Z -> M memory (option Z)) (open close t : Z)
    (i : nat) (value : Z) : M memory (option Z) :=
  c <- char value ;;
  if negb (c =? open) then fail_at value else
  edit (set_type t) i ;;
  value <- skip (Some (value + 1)) ;;
  value <- access "parse_list" value ;;
  c <- char value ;;
  if c =? close then ret (Some (value + 1)) else
  child <- first_item i ;;
  match child with
  | None => ret None
  | Some child =>
      value <- element child value ;;
      match value with
      | None => ret None
      | Some value => parse_elements element close child value
      end
  end.

(** skip(parse_value(child, skip(value))). *)
Definition parse_element (child : nat) (value : Z) : M memory (option Z) :=
  value <- skip (Some value) ;;
  value <- parse_value child value ;;
  skip value.
Definition parse_array (i : nat) (value : Z) : M memory (option Z) :=
  parse_list parse_element 91 93 cJSON_Array i value.

(** A name, a colon and a value. *)
Definition parse_member (child : nat) (value : Z) : M memory (option Z) :=
  value <- skip (Some value) ;;
  value <- access "parse_object" value ;;
  value <- parse_string child value ;;
  value <- skip value ;;
  match value with
  | None => ret None
  | Some value =>
      edit (fun c => set_name (valuestring c) c) child ;;
      edit (set_valuestring None) child ;;
      c <- char value ;;
      if negb (c =? 58) then fail_at value else
      value <- skip (Some (value + 1)) ;;
      value <- parse_value child value ;;
      skip value
  end.
Definition parse_object (i : nat) (value : Z) : M memory (option Z) :=
  parse_list parse_member 123 125 cJSON_Object i value.
End Lists.

Fixpoint parse_value (n : nat) (i : nat) (value : option Z) : M memory (option Z) :=
  match n with
  | O => stop OutOfFuel
  | S n =>
      match value with
      | None => ret None
      | Some v =>
          is_null <- starts_with v (bytes "null") ;;
          if is_null : bool then edit (set_type cJSON_NULL) i ;; ret (Some (v + 4)) else
          is_false <- starts_with v (bytes "false") ;;
          if is_false : bool then edit (set_type cJSON_False) i ;; ret (Some (v + 5)) else
          is_true <- starts_with v (bytes "true") ;;
          if is_true : bool then
            edit (set_type cJSON_True) i ;; edit (set_valueint 1) i ;; ret (Some (v + 4))
          else
          c <- char v ;;
          if c =? 34 then parse_string i v else
          if (c =? 45) || isdigit c then parse_number i v else
          if c =? 91 then parse_array (parse_value n) i v else
          if c =? 123 then parse_object (parse_value n) i v else
          fail_at v
      end
  end.

(** The item, and what is stored in *return_parse_end when it is not NULL. *)
Definition cJSON_ParseWithOpts (value : Z) (require_null_terminated : Z) :
    M memory (option nat * option Z) :=
  c <- cJSON_New_Item can_malloc ;;
  modify (set_ep None) ;;
  match c with
  | None => ret (None, None)
  | Some i =>
      v <- skip (Some value) ;;
      end_ <- parse_value rounds i v ;;
      match end_ with
      | None => cJSON_Delete fuel c ;; ret (None, None)
      | Some _ =>
          if require_null_terminated =? 0 then ret (c, end_) else
          end_ <- skip end_ ;;
          e <- access "cJSON_ParseWithOpts" end_ ;;
          ch <- char e ;;
          if ch =? 0 then ret (c, end_)
          else cJSON_Delete fuel c ;; modify (set_ep end_) ;; ret (None, None)
      end
  end.
Definition cJSON_Parse (value : Z) : M memory (option nat) :=
  r <- cJSON_ParseWithOpts value 0 ;; ret (fst r).
End Parse.

(** ** cJSON_Minify *)

Section Minify.
Context (fuel : nat).

(** [*into++ = *json++]. *)
Definition move (st : ptr * ptr) : M memory (ptr * ptr) :=
  let '(json, into) := st in
  c <- load "cJSON_Minify" json ;;
  into <- put_char "cJSON_Minify" into c ;;
  ret (ptr_add json 1, into).

Definition skip_line (json : ptr) : M memory ptr :=
  loop fuel (fun json =>
    c <- load "cJSON_Minify" json ;;
    if negb (c =? 0) && negb (c =? 10) then ret (inl (ptr_add json 1)) else ret (inr json)) json.

Definition skip_comment (json : ptr) : M memory ptr :=
  json <- loop fuel (fun json =>
    c <- load "cJSON_Minify" json ;;
    if c =? 0 then ret (inr json) else
    if c =? 42 then
      c1 <- load "cJSON_Minify" (ptr_add json 1) ;;
      if c1 =? 47 then ret (inr json) else ret (inl (ptr_add json 1))
    else ret (inl (ptr_add json 1))) json ;;
  ret (ptr_add json 2).

Definition move_string (st : ptr * ptr) : M memory (ptr * ptr) :=
  st <- move st ;;
  st <- loop fuel (fun st =>
    c <- load "cJSON_Minify" (fst st) ;;
    if negb (c =? 0) && negb (c =? 34) then
      st <- (if c =? 92 then move st else ret st) ;;
      st <- move st ;;
      ret (inl st)
    else ret (inr st)) st ;;
  move st.

Definition cJSON_Minify (json : ptr) : M memory unit :=
  into <- loop fuel (fun '(json, into) =>
    c <- load "cJSON_Minify" json ;;
    if c =? 0 then ret (inr into) else
    if (c =? 32) || (c =? 9) || (c =? 13) || (c =? 10) then ret (inl (ptr_add json 1, into)) else
    c1 <- (if c =? 47 then load "cJSON_Minify" (ptr_add json 1) else ret 0) ;;
    if (c =? 47) && (c1 =? 47) then json <- skip_line json ;; ret (inl (json, into)) else
    if (c =? 47) && (c1 =? 42) then json <- skip_comment json ;; ret (inl (json, into)) else
    if c =? 34 then st <- move_string (json, into) ;; ret (inl st) else
    st <- move (json, into) ;; ret (inl st)) (json, json) ;;
  store "cJSON_Minify" into 0.
End Minify.
