(* ===== verification/CJsonPrint.v ===== *)
(** The printer of cJSON.c.

    [p] is the print buffer, an object of the memory, or [None] for NULL: then
    every value is printed into a string of its own.  A length is an int; its
    sums are taken modulo 2^32. *)

From stdpp Require Import gmap.
From S2P Require Import Prelude.
From S2P Require Import CMonad.
From S2P Require Import CString.
From S2P Require Import JsonDouble.
From S2P Require Import JsonHeap.
From S2P Require Import CJson.

Definition pow2gt (x : Z) : Z :=
  let x := s32 (x - 1) in
  let x := Z.lor x (Z.shiftr x 1) in
  let x := Z.lor x (Z.shiftr x 2) in
  let x := Z.lor x (Z.shiftr x 4) in
  let x := Z.lor x (Z.shiftr x 8) in
  let x := Z.lor x (Z.shiftr x 16) in
  s32 (x + 1).

(** Conversion of an int to size_t. *)
Definition size_t (n : Z) : Z := n mod 2 ^ 64.

Section Print.
Context (can_malloc : allocator -> list Z -> Z -> bool) (fuel : nat).

Definition ensure (p : nat) (needed : Z) : M memory (option ptr) :=
  b <- get_buffer p ;;
  match buffer b with
  | None => ret None
  | Some buf =>
      let needed := s32 (needed + offset b) in
      if needed <=? length b then ret (Some (ptr_add buf (offset b))) else
      let newsize := pow2gt needed in
      newbuffer <- malloc can_malloc (size_t newsize) ;;
      match newbuffer with
      | None =>
          free (buffer b) ;;
          set_buffer p (mkBuffer None 0 (offset b)) ;;
          ret None
      | Some new =>
          memcpy new buf (length b) ;;
          free (buffer b) ;;
          set_buffer p (mkBuffer newbuffer newsize (offset b)) ;;
          ret (Some (ptr_add new (offset b)))
      end
  end.

Definition update (p : nat) : M memory Z :=
  b <- get_buffer p ;;
  match buffer b with
  | None => ret 0
  | Some buf => n <- strlen (ptr_add buf (offset b)) ;; ret (s32 (offset b + n))
  end.

Definition set_offset (p : nat) (v : Z) : M memory unit :=
  b <- get_buffer p ;; set_buffer p (mkBuffer (buffer b) (length b) v).
(** p->offset += n, and p->offset = update(p). *)
Definition advance (p : nat) (n : Z) : M memory unit :=
  b <- get_buffer p ;; set_offset p (s32 (offset b + n)).
Definition take_update (p : nat) : M memory unit := n <- update p ;; set_offset p n.

(** p ? ensure(p, n) : cJSON_malloc(n). *)
Definition room (p : option nat) (n : Z) : M memory (option ptr) :=
  match p with
  | Some p => ensure p n
  | None => malloc can_malloc (size_t n)
  end.

(** Room for [n] characters, and a text that is written there. *)
Definition room_for (p : option nat) (n : Z) (l : list Z) : M memory (option ptr) :=
  str <- room p n ;;
  match str with
  | None => ret None
  | Some q => write "print" q l ;; ret str
  end.

Definition print_number (i : nat) (p : option nat) : M memory (option ptr) :=
  it <- item i ;;
  let d := valuedouble it in
  let v := d_of_Z (valueint it) in
  if SpecFloat.SFeqb d d_zero then room_for p 2 (bytes "0")
  else if SpecFloat.SFleb (SpecFloat.SFabs (d_sub v d)) DBL_EPSILON &&
          SpecFloat.SFleb d (d_of_Z INT_MAX) && SpecFloat.SFleb (d_of_Z INT_MIN) d
  then room_for p 21 (fmt_d (valueint it))
  else room_for p 64
         (if SpecFloat.SFleb (SpecFloat.SFabs (d_sub (d_floor d) d)) DBL_EPSILON &&
             SpecFloat.SFltb (SpecFloat.SFabs d) d_1e60 then fmt_f 0 d
          else if SpecFloat.SFltb (SpecFloat.SFabs d) d_1em6 || SpecFloat.SFltb d_1e9 (SpecFloat.SFabs d)
          then fmt_e d
          else fmt_f 6 d).

(** ** Strings *)

(** One of the characters of [strchr]'s argument, which ends in a NUL; the
    token is not NUL. *)
Definition has_letter (c : Z) : bool :=
  (c =? 34) || (c =? 92) || (c =? 8) || (c =? 12) || (c =? 10) || (c =? 13) || (c =? 9).

Definition needs_escape (c : Z) : bool := ((0 <? c) && (c <? 32)) || (c =? 34) || (c =? 92).

(** The letter after the backslash, if the switch has one. *)
Definition escape_letter (c : Z) : option Z :=
  if c =? 92 then Some 92 else if c =? 34 then Some 34 else if c =? 8 then Some 98
  else if c =? 12 then Some 102 else if c =? 10 then Some 110 else if c =? 13 then Some 114
  else if c =? 9 then Some 116 else None.

Definition hex_char (d : Z) : Z := if d <? 10 then 48 + d else 87 + d.
(** sprintf(ptr2, "u%04x", token) for a token below 256. *)
Definition fmt_u4 (c : Z) : list Z := [117; 48; 48; hex_char (c / 16); hex_char (c mod 16)].

Definition print_escape (p : ptr) (c : Z) : M memory ptr :=
  match escape_letter c with
  | Some l => put_char "print_string_ptr" p l
  | None => write "print_string_ptr" p (fmt_u4 c) ;; ret (ptr_add p 5)
  end.

Definition print_string_ptr (str : option ptr) (p : option nat) : M memory (option ptr) :=
  str <- access "print_string_ptr" str ;;
  s <- cstring "print_string_ptr" str ;;
  if negb (existsb needs_escape s) then
    let len := zlen s in
    out <- room p (s32 (len + 3)) ;;
    match out with
    | None => ret None
    | Some q =>
        ptr2 <- put_char "print_string_ptr" q 34 ;;
        strcpy ptr2 str ;;
        store "print_string_ptr" (ptr_add ptr2 len) 34 ;;
        store "print_string_ptr" (ptr_add ptr2 (len + 1)) 0 ;;
        ret out
    end
  else
    let len := foldl (fun len c =>
      let len := s32 (len + 1) in
      if has_letter c then s32 (len + 1) else if c <? 32 then s32 (len + 5) else len) 0 s in
    out <- room p (s32 (len + 3)) ;;
    match out with
    | None => ret None
    | Some q =>
        ptr2 <- put_char "print_string_ptr" q 34 ;;
        let* (ptr, ptr2) := loop fuel (fun '(ptr, ptr2) =>
          c <- load "print_string_ptr" ptr ;;
          if c =? 0 then ret (inr (ptr, ptr2)) else
          if (31 <? c) && negb (c =? 34) && negb (c =? 92) then
            ptr2 <- put_char "print_string_ptr" ptr2 c ;;
            ret (inl (ptr_add ptr 1, ptr2))
          else
            ptr2 <- put_char "print_string_ptr" ptr2 92 ;;
            ptr2 <- print_escape ptr2 c ;;
            ret (inl (ptr_add ptr 1, ptr2))) (str, ptr2) in
        ptr2 <- put_char "print_string_ptr" ptr2 34 ;;
        put_char "print_string_ptr" ptr2 0 ;;
        ret out
    end.

Definition print_string (i : nat) (p : option nat) : M memory (option ptr) :=
  it <- item i ;; print_string_ptr (valuestring it) p.

(** ** Arrays and objects *)

(** [*ptr++ = c], [n] times. *)
Definition put_tabs (n : Z) (p : ptr) : M memory ptr :=
  loop (S (Z.to_nat n)) (fun '(j, p) =>
    if j <? n then p <- put_char "print" p 9 ;; ret (inl (j + 1, p)) else ret (inr p)) (0, p).
Definition put_if (b : bool) (c : Z) (p : ptr) : M memory ptr :=
  if b then put_char "print" p c else ret p.

Definition count_entries (c : option nat) : M memory Z :=
  loop fuel (fun '(c, n) =>
    match c with
    | None => ret (inr n)
    | Some k => it <- item k ;; ret (inl (next it, s32 (n + 1)))
    end) (c, 0).

(** Copies a text to [*p], without its terminator. *)
Definition append (p : ptr) (entry : option ptr) : M memory ptr :=
  e <- access "append" entry ;;
  tmplen <- strlen e ;;
  memcpy p e tmplen ;;
  ret (ptr_add p tmplen).

Definition free_entry (t : nat) (i : Z) : M memory unit :=
  e <- entry t i ;;
  if bool_decide (is_Some e) then free e else ret tt.
Definition free_entries (ts : list nat) (numentries : Z) : M memory unit :=
  loop (S (Z.to_nat numentries)) (fun i =>
    if i <? numentries then
      foldr (fun t k => free_entry t i ;; k) (ret tt) ts ;;
      ret (inl (i + 1))
    else ret (inr tt)) 0.

Definition has_next (it : cJSON) : bool := bool_decide (is_Some (next it)).
Definition b2z (b : bool) : Z := if b then 1 else 0.

Section Lists.
Context (print_value : option nat -> Z -> Z -> option nat -> M memory (option ptr)).

(** print_array, [p] not NULL. *)
Definition print_array_buffered (i : nat) (depth fmt : Z) (p : nat) : M memory (option ptr) :=
  b <- get_buffer p ;;
  let i0 := offset b in
  ptr <- ensure p 1 ;;
  match ptr with
  | None => ret None
  | Some q =>
      store "print_array" q 91 ;;
      advance p 1 ;;
      it <- item i ;;
      ok <- loop fuel (fun child =>
        match child with
        | None => ret (inr true)
        | Some c =>
            print_value child (depth + 1) fmt (Some p) ;;
            take_update p ;;
            it <- item c ;;
            if has_next it then
              let len := if fmt =? 0 then 1 else 2 in
              ptr <- ensure p (len + 1) ;;
              match ptr with
              | None => ret (inr false)
              | Some q =>
                  q <- put_char "print_array" q 44 ;;
                  q <- put_if (negb (fmt =? 0)) 32 q ;;
                  store "print_array" q 0 ;;
                  advance p len ;;
                  ret (inl (next it))
              end
            else ret (inl (next it))
        end) (child it) ;;
      if negb ok then ret None else
      ptr <- ensure p 2 ;;
      match ptr with
      | None => ret None
      | Some q =>
          q <- put_char "print_array" q 93 ;;
          store "print_array" q 0 ;;
          b <- get_buffer p ;;
          buf <- access "print_array" (buffer b) ;;
          ret (Some (ptr_add buf i0))
      end
  end.

(** print_array, [p] NULL. *)
Definition print_array_plain (i : nat) (depth fmt numentries : Z) : M memory (option ptr) :=
  entries <- malloc_table can_malloc numentries ;;
  match entries with
  | None => ret None
  | Some t =>
      it <- item i ;;
      let* (len, fail) := loop fuel (fun '(child, i, len, fail) =>
        match child with
        | Some c =>
            if fail : bool then ret (inr (len, fail)) else
            r <- print_value child (depth + 1) fmt None ;;
            set_entry t i r ;;
            let* (len, fail) :=
              match r with
              | Some q => n <- strlen q ;; ret (s32 (len + (n + 2 + b2z (negb (fmt =? 0)))), false)
              | None => ret (len, true)
              end in
            it <- item c ;;
            ret (inl (next it, i + 1, len, fail))
        | None => ret (inr (len, fail))
        end) (child it, 0, 5, false) in
      out <- (if fail then ret None else malloc can_malloc (size_t len)) ;;
      match out with
      | None => free_entries [t] numentries ;; free_table t ;; ret None
      | Some q =>
          ptr <- put_char "print_array" q 91 ;;
          store "print_array" ptr 0 ;;
          let* (_, ptr) := loop (S (Z.to_nat numentries)) (fun '(i, ptr) =>
            if i <? numentries then
              e <- entry t i ;;
              ptr <- append ptr e ;;
              ptr <- (if negb (i =? numentries - 1) then
                        ptr <- put_char "print_array" ptr 44 ;;
                        ptr <- put_if (negb (fmt =? 0)) 32 ptr ;;
                        store "print_array" ptr 0 ;;
                        ret ptr
                      else ret ptr) ;;
              free e ;;
              ret (inl (i + 1, ptr))
            else ret (inr (i, ptr))) (0, ptr) in
          free_table t ;;
          ptr <- put_char "print_array" ptr 93 ;;
          put_char "print_array" ptr 0 ;;
          ret out
      end
  end.

Definition print_array (i : nat) (depth fmt : Z) (p : option nat) : M memory (option ptr) :=
  it <- item i ;;
  numentries <- count_entries (child it) ;;
  if numentries =? 0 then room_for p 3 (bytes "[]")
  else match p with
       | Some p => print_array_buffered i depth fmt p
       | None => print_array_plain i depth fmt numentries
       end.

(** print_object of an object without members. *)
Definition print_object_empty (depth fmt : Z) (p : option nat) : M memory (option ptr) :=
  out <- room p (if fmt =? 0 then 3 else s32 (depth + 4)) ;;
  match out with
  | None => ret None
  | Some q =>
      ptr <- put_char "print_object" q 123 ;;
      ptr <- (if fmt =? 0 then ret ptr
              else ptr <- put_char "print_object" ptr 10 ;; put_tabs (depth - 1) ptr) ;;
      ptr <- put_char "print_object" ptr 125 ;;
      put_char "print_object" ptr 0 ;;
      ret out
  end.

(** print_object, [p] not NULL.  The variable i, which holds the offset of the
    result, counts the tabs before the closing brace too. *)
Definition print_object_buffered (i : nat) (depth fmt : Z) (p : nat) : M memory (option ptr) :=
  let f := negb (fmt =? 0) in
  b <- get_buffer p ;;
  let i0 := offset b in
  let len := if f then 2 else 1 in
  ptr <- ensure p (len + 1) ;;
  match ptr with
  | None => ret None
  | Some q =>
      q <- put_char "print_object" q 123 ;;
      q <- put_if f 10 q ;;
      store "print_object" q 0 ;;
      advance p len ;;
      it <- item i ;;
      let depth := depth + 1 in
      ok <- loop fuel (fun child =>
        match child with
        | None => ret (inr true)
        | Some c =>
            go <- (if f then
                     ptr <- ensure p depth ;;
                     match ptr with
                     | None => ret false
                     | Some q => put_tabs depth q ;; advance p depth ;; ret true
                     end
                   else ret true) ;;
            if negb go then ret (inr false) else
            it <- item c ;;
            print_string_ptr (name it) (Some p) ;;
            take_update p ;;
            ptr <- ensure p len ;;
            match ptr with
            | None => ret (inr false)
            | Some q =>
                q <- put_char "print_object" q 58 ;;
                put_if f 9 q ;;
                advance p len ;;
                print_value child depth fmt (Some p) ;;
                take_update p ;;
                it <- item c ;;
                let len := b2z f + b2z (has_next it) in
                ptr <- ensure p (len + 1) ;;
                match ptr with
                | None => ret (inr false)
                | Some q =>
                    q <- put_if (has_next it) 44 q ;;
                    q <- put_if f 10 q ;;
                    store "print_object" q 0 ;;
                    advance p len ;;
                    ret (inl (next it))
                end
            end
        end) (child it) ;;
      if negb ok then ret None else
      ptr <- ensure p (if f then depth + 1 else 2) ;;
      match ptr with
      | None => ret None
      | Some q =>
          q <- (if f then put_tabs (depth - 1) q else ret q) ;;
          q <- put_char "print_object" q 125 ;;
          store "print_object" q 0 ;;
          b <- get_buffer p ;;
          buf <- access "print_object" (buffer b) ;;
          ret (Some (ptr_add buf (if f then Z.max 0 (depth - 1) else i0)))
      end
  end.

(** print_object, [p] NULL. *)
Definition print_object_plain (i : nat) (depth fmt numentries : Z) : M memory (option ptr) :=
  let f := negb (fmt =? 0) in
  entries <- malloc_table can_malloc numentries ;;
  match entries with
  | None => ret None
  | Some te =>
  names <- malloc_table can_malloc numentries ;;
  match names with
  | None => free_table te ;; ret None
  | Some tn =>
      it <- item i ;;
      let depth := depth + 1 in
      let len := if f then s32 (7 + depth) else 7 in
      let* (len, fail) := loop fuel (fun '(child, i, len, fail) =>
        match child with
        | Some c =>
            it <- item c ;;
            str <- print_string_ptr (name it) None ;;
            set_entry tn i str ;;
            r <- print_value child depth fmt None ;;
            set_entry te i r ;;
            let* (len, fail) :=
              match str, r with
              | Some qs, Some qr =>
                  nr <- strlen qr ;;
                  ns <- strlen qs ;;
                  ret (s32 (len + (nr + ns + 2 + (if f then 2 + depth else 0))), fail)
              | _, _ => ret (len, true)
              end in
            it <- item c ;;
            ret (inl (next it, i + 1, len, fail))
        | None => ret (inr (len, fail))
        end) (child it, 0, len, false) in
      out <- (if fail : bool then ret None else malloc can_malloc (size_t len)) ;;
      match out with
      | None =>
          free_entries [tn; te] numentries ;;
          free_table tn ;; free_table te ;;
          ret None
      | Some q =>
          ptr <- put_char "print_object" q 123 ;;
          ptr <- put_if f 10 ptr ;;
          store "print_object" ptr 0 ;;
          ptr <- loop (S (Z.to_nat numentries)) (fun '(i, ptr) =>
            if i <? numentries then
              ptr <- (if f then put_tabs depth ptr else ret ptr) ;;
              n <- entry tn i ;;
              ptr <- append ptr n ;;
              ptr <- put_char "print_object" ptr 58 ;;
              ptr <- put_if f 9 ptr ;;
              e <- entry te i ;;
              src <- access "print_object" e ;;
              strcpy ptr src ;;
              k <- strlen src ;;
              let ptr := ptr_add ptr k in
              ptr <- put_if (negb (i =? numentries - 1)) 44 ptr ;;
              ptr <- put_if f 10 ptr ;;
              store "print_object" ptr 0 ;;
              free n ;; free e ;;
              ret (inl (i + 1, ptr))
            else ret (inr ptr)) (0, ptr) ;;
          free_table tn ;; free_table te ;;
          ptr <- (if f then put_tabs (depth - 1) ptr else ret ptr) ;;
          ptr <- put_char "print_object" ptr 125 ;;
          put_char "print_object" ptr 0 ;;
          ret out
      end
  end end.

Definition print_object (i : nat) (depth fmt : Z) (p : option nat) : M memory (option ptr) :=
  it <- item i ;;
  numentries <- count_entries (child it) ;;
  if numentries =? 0 then print_object_empty depth fmt p
  else match p with
       | Some p => print_object_buffered i depth fmt p
       | None => print_object_plain i depth fmt numentries
       end.
End Lists.

(** A word, printed into the buffer or into a string of its own (cJSON_strdup). *)
Definition print_word (l : list Z) (p : option nat) : M memory (option ptr) :=
  room_for p (zlen l + 1) l.

Fixpoint print_value (n : nat) (i : option nat) (depth fmt : Z) (p : option nat) : M memory (option ptr) :=
  match n with
  | O => stop OutOfFuel
  | S n =>
      match i with
      | None => ret None
      | Some i =>
          it <- item i ;;
          let t := Z.land (type it) 255 in
          if t =? cJSON_NULL then print_word (bytes "null") p
          else if t =? cJSON_False then print_word (bytes "false") p
          else if t =? cJSON_True then print_word (bytes "true") p
          else if t =? cJSON_Number then print_number i p
          else if t =? cJSON_String then print_string i p
          else if t =? cJSON_Array then print_array (print_value n) i depth fmt p
          else if t =? cJSON_Object then print_object (print_value n) i depth fmt p
          else ret None
      end
  end.

Definition cJSON_Print (i : option nat) : M memory (option ptr) := print_value fuel i 0 1 None.
Definition cJSON_PrintUnformatted (i : option nat) : M memory (option ptr) := print_value fuel i 0 0 None.

Definition cJSON_PrintBuffered (i : option nat) (prebuffer fmt : Z) : M memory (option ptr) :=
  buf <- malloc can_malloc (size_t prebuffer) ;;
  p <- local (Buffer (mkBuffer buf prebuffer 0)) ;;
  out <- print_value fuel i 0 fmt (Some p) ;;
  end_local p ;;
  ret out.
End Print.
