(* ===== verification/JsonLogic.v ===== *)
(** A separation logic for the memory of cJSON.c: assertions on finite maps of
    objects as a logic of Iris's proof mode, and the weakest precondition of a
    computation in it.

    An assertion says exactly which objects there are, so that nothing can be
    lost: a computation that gives back [emp] has freed everything it was given.

    The second part has the rules of the accesses: strings as assertions, reads
    and writes of a block. *)

From iris.proofmode Require Import proofmode.
From stdpp Require Import gmap.
From S2P Require Import Prelude.
From S2P Require Import CMonad.
From S2P Require Import JsonDouble.
From S2P Require Import JsonHeap.

#[global] Arguments loop : simpl never.

Definition heap : Type := gmap nat object.

Record hprop : Type := HProp { satisfies : heap -> Prop }.

Section Model.
Implicit Types P Q : hprop.

Inductive hprop_equiv' P Q : Prop := { hprop_in_equiv h : satisfies P h <-> satisfies Q h }.
#[local] Instance hprop_equiv : Equiv hprop := hprop_equiv'.
#[local] Instance hprop_equivalence : Equivalence (≡@{hprop}).
Proof.
  split.
  - by intros P; constructor.
  - intros P Q [H]. constructor. intros h. by rw H.
  - intros P Q R [H1] [H2]. constructor. intros h. by rw H1.
Qed.
Canonical Structure hpropO : ofe := discreteO hprop.

Inductive entails P Q : Prop := { entails_at h : satisfies P h -> satisfies Q h }.

Definition h_emp : hprop := HProp (fun h => h = ∅).
Definition h_pure (φ : Prop) : hprop := HProp (fun _ => φ).
Definition h_and P Q := HProp (fun h => satisfies P h /\ satisfies Q h).
Definition h_or P Q := HProp (fun h => satisfies P h \/ satisfies Q h).
Definition h_impl P Q := HProp (fun h => satisfies P h -> satisfies Q h).
Definition h_forall {A} (f : A -> hprop) := HProp (fun h => forall a, satisfies (f a) h).
Definition h_exist {A} (f : A -> hprop) := HProp (fun h => exists a, satisfies (f a) h).
Definition h_sep P Q :=
  HProp (fun h => exists h1 h2, h = h1 ∪ h2 /\ h1 ##ₘ h2 /\ satisfies P h1 /\ satisfies Q h2).
Definition h_wand P Q := HProp (fun h => forall h', h ##ₘ h' -> satisfies P h' -> satisfies Q (h ∪ h')).
Definition h_pers P := h_pure (entails h_emp P).
Definition h_later P := P.

Ltac unseal := unfold h_emp, h_pure, h_and, h_or, h_impl, h_forall, h_exist, h_sep, h_wand, h_pers, h_later in *; simpl in *.

Lemma hprop_mixin :
  BiMixin entails h_emp h_pure h_and h_or h_impl (@h_forall) (@h_exist) h_sep h_wand.
Proof.
  split.
  - split; [by intros P; constructor|]. intros P Q R [H1] [H2]. constructor. eauto.
  - intros P Q. split.
    + intros [H]. split; constructor; intros h Hh; by apply H.
    + intros [[H1] [H2]]. constructor. split; eauto.
  - intros n φ1 φ2 H. constructor. by intros h.
  - intros n P P' [HP] Q Q' [HQ]. constructor. intros h. unseal. by rw HP HQ.
  - intros n P P' [HP] Q Q' [HQ]. constructor. intros h. unseal. by rw HP HQ.
  - intros n P P' [HP] Q Q' [HQ]. constructor. intros h. unseal. by rw HP HQ.
  - intros A n f g H. constructor. intros h. unseal.
    split; intros Hf a; by apply (H a).
  - intros A n f g H. constructor. intros h. unseal.
    split; intros [a Ha]; exists a; by apply (H a).
  - intros n P P' [HP] Q Q' [HQ]. constructor. intros h. unseal. by setoid_rewrite HP; setoid_rewrite HQ.
  - intros n P P' [HP] Q Q' [HQ]. constructor. intros h. unseal. by setoid_rewrite HP; setoid_rewrite HQ.
  - intros φ P H. by constructor.
  - intros φ P H. constructor. intros h Hφ. destruct (H Hφ) as [Hh]. by apply Hh.
  - intros P Q. constructor. unseal. by intros h [].
  - intros P Q. constructor. unseal. by intros h [].
  - intros P Q R [H1] [H2]. constructor. unseal. eauto.
  - intros P Q. constructor. unseal. eauto.
  - intros P Q. constructor. unseal. eauto.
  - intros P Q R [H1] [H2]. constructor. unseal. intros h []; eauto.
  - intros P Q R [H]. constructor. unseal. eauto.
  - intros P Q R [H]. constructor. unseal. intros h []. by apply H.
  - intros A P f H. constructor. unseal. intros h HP a. by apply (H a).
  - intros A f a. constructor. unseal. eauto.
  - intros A f a. constructor. unseal. eauto.
  - intros A f Q H. constructor. unseal. intros h [a Ha]. by apply (H a).
  - intros P P' Q Q' [H1] [H2]. constructor. unseal. intros h (h1 & h2 & -> & ? & ? & ?).
    exists h1, h2. split_and!; auto.
  - intros P. constructor. unseal. intros h HP. exists ∅, h. rw map_empty_union.
    split_and!; [done|apply map_disjoint_empty_l|done|done].
  - intros P. constructor. unseal. intros h (h1 & h2 & -> & ? & -> & ?). by rw map_empty_union.
  - intros P Q. constructor. unseal. intros h (h1 & h2 & -> & ? & ? & ?).
    exists h2, h1. split_and!; [by apply map_union_comm|by symmetry|done|done].
  - intros P Q R. constructor. unseal. intros h (h' & h3 & -> & Hd & (h1 & h2 & -> & ? & ? & ?) & ?).
    apply map_disjoint_union_l in Hd as [? ?].
    exists h1, (h2 ∪ h3). rw -map_union_assoc. split_and!; [done|by apply map_disjoint_union_r|done|].
    by exists h2, h3.
  - intros P Q R [H]. constructor. unseal. intros h HP h' Hd HQ. apply H. by exists h, h'.
  - intros P Q R [H]. constructor. unseal. intros h (h1 & h2 & -> & ? & ? & ?). by apply H.
Qed.

Lemma hprop_pers_mixin : BiPersistentlyMixin entails h_emp h_and (@h_exist) h_sep h_pers.
Proof.
  eapply bi_persistently_mixin_discrete, hprop_mixin; [done| |done].
  intros A f [H]. destruct (H ∅ eq_refl) as [a Ha]. exists a. constructor. by intros h ->.
Qed.

Lemma hprop_later_mixin :
  BiLaterMixin entails h_pure h_or h_impl (@h_forall) (@h_exist) h_sep h_pers h_later.
Proof. by eapply bi_later_mixin_id, hprop_mixin. Qed.
End Model.

Canonical Structure hpropI : bi :=
  {| bi_ofe_mixin := ofe_mixin_of hprop;
     bi_cofe_aux := _;
     bi_bi_mixin := hprop_mixin; bi_bi_persistently_mixin := hprop_pers_mixin;
     bi_bi_later_mixin := hprop_later_mixin |}.

#[export] Instance hprop_pure_forall : BiPureForall hpropI.
Proof. intros A φ. constructor. intros h H. exact H. Qed.

(** * Assertions *)

Definition points_to (i : nat) (o : object) : hprop := HProp (fun h => h = {[i := o]}).
Notation "i ↦ o" := (points_to i o) (at level 20, format "i  ↦  o") : bi_scope.

(** A fact, of no memory. *)
Notation "⟨ φ ⟩" := (<affine> ⌜φ⌝)%I (at level 0, φ at level 200, format "⟨ φ ⟩") : bi_scope.

(** The heap that every state of a run has: numbers from [unused] on are new. *)
Definition memory_ok (s : memory) : Prop := forall i, (unused s <= i)%nat -> objects s !! i = None.

(** [m] run in a part of the memory returns, and leaves [Q] there and the rest
    of the memory as it was. *)
Definition swp {A} (m : M memory A) (Q : A -> hprop) : hprop :=
  HProp (fun h => forall s rest, objects s = h ∪ rest -> h ##ₘ rest -> memory_ok s ->
    wp m (fun a s' => exists h', objects s' = h' ∪ rest /\ h' ##ₘ rest /\ memory_ok s' /\ satisfies (Q a) h') s).

(** What an entailment says of a run. *)
Lemma swp_run {A} (P : hprop) (m : M memory A) Q s h rest :
  (P ⊢ swp m Q) -> satisfies P h -> objects s = h ∪ rest -> h ##ₘ rest -> memory_ok s ->
  exists a s', m s = Ok (a, s') /\
    exists h', objects s' = h' ∪ rest /\ h' ##ₘ rest /\ memory_ok s' /\ satisfies (Q a) h'.
Proof. intros [H] HP Hs Hd Hok. apply wp_run. by apply (H h). Qed.

Section Rules.
Context {A B : Type}.
Implicit Types (m : M memory A) (Q : A -> hprop).

Lemma swp_ret (a : A) Q : Q a ⊢ swp (ret a) Q.
Proof. constructor. intros h HQ s rest Hs Hd Hok. apply wpg_ret. by exists h. Qed.

Lemma swp_bind m (k : A -> M memory B) (Q : B -> hprop) :
  swp m (fun a => swp (k a) Q) ⊢ swp (bind m k) Q.
Proof.
  constructor. intros h Hm s rest Hs Hd Hok. apply wpg_bind.
  eapply wpg_mono; [by apply Hm|]. cbn. intros a s' (h' & Hs' & Hd' & Hok' & Hk). by apply (Hk s' rest).
Qed.

Lemma swp_wand m Q Q' : swp m Q -∗ (∀ a, Q a -∗ Q' a) -∗ swp m Q'.
Proof.
  apply bi.entails_wand, bi.wand_intro_r. constructor. intros h (h1 & h2 & -> & H12 & Hm & Hw) s rest Hs Hd Hok.
  apply map_disjoint_union_l in Hd as [Hd1 Hd2].
  eapply wpg_mono.
  { apply (Hm s (h2 ∪ rest)); [by rw map_union_assoc|by apply map_disjoint_union_r|done]. }
  cbn. intros a s' (h' & Hs' & Hd' & Hok' & HQ).
  apply map_disjoint_union_r in Hd' as [Hd'2 Hd'r].
  exists (h2 ∪ h'). split_and!; [|by apply map_disjoint_union_l|done|].
  { rw Hs' map_union_assoc. f_equal. by apply map_union_comm. }
  by apply (Hw a h').
Qed.

Lemma swp_mono m Q Q' : (forall a, Q a ⊢ Q' a) -> swp m Q ⊢ swp m Q'.
Proof. iIntros (H) "Hm". iApply (swp_wand with "Hm"). iIntros (a) "HQ". by iApply H. Qed.

Lemma swp_modify (f : memory -> memory) (Q : unit -> hprop) :
  (forall s, objects (f s) = objects s /\ unused (f s) = unused s) -> Q tt ⊢ swp (modify f) Q.
Proof.
  intros Hf. constructor. intros h HQ s rest Hs Hd Hok. apply wpg_modify.
  destruct (Hf s) as [Ho Hu]. exists h. split_and!; [by rw Ho|done| |done].
  intros i Hi. rw Ho. apply Hok. by rw -Hu.
Qed.

Lemma swp_gets (f : memory -> A) Q : (∀ a, Q a) ⊢ swp (gets f) Q.
Proof. constructor. intros h HQ s rest Hs Hd Hok. apply wpg_gets. by exists h. Qed.

Lemma swp_access site (a : A) Q : Q a ⊢ swp (access site (Some a)) Q.
Proof. apply swp_ret. Qed.

Lemma swp_loop (body : B -> M memory (B + A)) n b Q :
  swp (body b) (fun r => match r with inl b' => swp (loop n body b') Q | inr a => Q a end)
  ⊢ swp (loop (S n) body b) Q.
Proof.
  constructor. intros h Hm s rest Hs Hd Hok. apply wpg_loop_S.
  eapply wpg_mono; [by apply Hm|]. cbn. intros [b'|a] s' (h' & Hs' & Hd' & Hok' & Hk); [|by exists h'].
  by apply (Hk s' rest).
Qed.
End Rules.

(** ** The memory *)

Section Memory.
Context {A : Type}.
Implicit Types (h rest : heap) (Q : A -> hprop).

Lemma owned_lookup i (o : object) h rest : ({[i := o]} ∪ h ∪ rest) !! i = Some o.
Proof. apply lookup_union_Some_l, lookup_union_Some_l, lookup_singleton_eq. Qed.

Lemma owned_insert i (o o' : object) h rest :
  <[i := o']> ({[i := o]} ∪ h ∪ rest) = {[i := o']} ∪ h ∪ rest.
Proof. by rw !insert_union_l insert_singleton_eq. Qed.

Lemma owned_disjoint i (o o' : object) h : {[i := o]} ##ₘ h -> {[i := o']} ##ₘ h.
Proof. rw !map_disjoint_singleton_l. done. Qed.

Lemma owned_delete i (o : object) h rest :
  {[i := o]} ##ₘ h -> {[i := o]} ∪ h ##ₘ rest -> delete i ({[i := o]} ∪ h ∪ rest) = h ∪ rest.
Proof.
  rw map_disjoint_union_l !map_disjoint_singleton_l. intros Hh [Hr _].
  by rw !delete_union delete_singleton_eq map_empty_union !delete_id.
Qed.

Lemma swp_at site (f : object -> option A) i o a Q :
  f o = Some a -> i ↦ o -∗ (i ↦ o -∗ Q a) -∗ swp (at_ site f i) Q.
Proof.
  intros Hf. apply bi.entails_wand, bi.wand_intro_r.
  constructor. intros h (h1 & h2 & -> & H12 & -> & Hw) s rest Hs Hd Hok.
  unfold at_. apply wpg_bind, wpg_gets. rw Hs owned_lookup /= Hf. apply wpg_ret.
  exists ({[i := o]} ∪ h2). split_and!; [done..|].
  rw map_union_comm; [|done]. by apply Hw.
Qed.

Lemma swp_insert i o o' (Q : unit -> hprop) :
  i ↦ o -∗ (i ↦ o' -∗ Q tt) -∗ swp (put_objects <[i := o']>) Q.
Proof.
  apply bi.entails_wand, bi.wand_intro_r.
  constructor. intros h (h1 & h2 & -> & H12 & -> & Hw) s rest Hs Hd Hok. apply wpg_modify.
  pose proof (owned_disjoint _ _ o' _ H12) as H12'.
  apply map_disjoint_union_l in Hd as [Hd1 Hd2].
  exists ({[i := o']} ∪ h2). split_and!.
  - by rw /= Hs owned_insert.
  - apply map_disjoint_union_l. split; [by eapply owned_disjoint|done].
  - intros k Hk. cbn in *. apply lookup_insert_None. split; [by apply Hok|]. intros ->.
    specialize (Hok k Hk). by rw Hs owned_lookup in Hok.
  - rw map_union_comm; [|done]. by apply Hw.
Qed.

Lemma swp_delete i o (Q : unit -> hprop) : i ↦ o -∗ Q tt -∗ swp (put_objects (delete i)) Q.
Proof.
  apply bi.entails_wand, bi.wand_intro_r.
  constructor. intros h (h1 & h2 & -> & H12 & -> & Hw) s rest Hs Hd Hok. apply wpg_modify.
  exists h2. split_and!; [by rw /= Hs owned_delete|by apply map_disjoint_union_l in Hd as [_ ?]| |done].
  intros k Hk. cbn. apply lookup_delete_None. right. by apply Hok.
Qed.

Lemma new_object i (o : object) (h rest : heap) s :
  memory_ok s -> objects s = h ∪ rest -> i = unused s ->
  <[i := o]> (objects s) = ({[i := o]} ∪ h) ∪ rest /\ {[i := o]} ##ₘ h /\ {[i := o]} ##ₘ rest /\ (forall k, (S i <= k)%nat -> <[i := o]> (objects s) !! k = None).
Proof.
  intros Hok Hs ->. assert (objects s !! unused s = None) as Hn by (apply Hok; lia).
  rw Hs lookup_union_None in Hn. destruct Hn as [Hnh Hnr]. split_and!.
  - by rw Hs insert_union_singleton_l map_union_assoc.
  - by apply map_disjoint_singleton_l.
  - by apply map_disjoint_singleton_l.
  - intros k Hk. apply lookup_insert_None. split; [apply Hok; lia|lia].
Qed.

Lemma swp_local o (Q : nat -> hprop) : (∀ i, i ↦ o -∗ Q i) ⊢ swp (local o) Q.
Proof.
  constructor. intros h Hw s rest Hs Hd Hok. unfold wpg, local.
  destruct (new_object (unused s) o h rest s Hok Hs eq_refl) as (Ho & Hh & Hr & Hok').
  exists (h ∪ {[unused s := o]}). cbn. split_and!; [|by apply map_disjoint_union_l|done|by apply Hw].
  rw Ho. f_equal. by apply map_union_comm.
Qed.

Lemma swp_allocate (can_malloc : allocator -> list Z -> Z -> bool) n o (Q : option nat -> hprop) :
  (∀ r, match r with
        | Some i => i ↦ o
        | None => ⟨exists f asked, can_malloc f asked n = false⟩
        end -∗ Q r) ⊢ swp (allocate can_malloc n o) Q.
Proof.
  constructor. intros h Hw s rest Hs Hd Hok. unfold wpg, allocate.
  destruct (can_malloc _ _ _) eqn:E.
  - destruct (new_object (unused s) o h rest s Hok Hs eq_refl) as (Ho & Hh & Hr & Hok').
    exists (h ∪ {[unused s := o]}). cbn. split_and!; [|by apply map_disjoint_union_l|done|by apply (Hw (Some _))].
    rw Ho. f_equal. by apply map_union_comm.
  - exists h. cbn. split_and!; [done..|]. rw -(map_union_empty h).
    apply (Hw None); [apply map_disjoint_empty_r|]. split; [done|]. by do 2 eexists.
Qed.
End Memory.

Bind Scope bi_scope with hprop.

(** The rules of JsonLogic.v for what JsonHeap.v defines: items, buffers, tables
    and characters.

    [room_at i w n] is a block that begins with the characters [w] and goes on
    for [n] characters of which nothing is known; [str_at p s] a block that holds
    the string [s]. *)

(** ** Steps in the proof mode *)

Ltac sbind := iApply swp_bind.
Ltac sret := iApply swp_ret.

Section Rules.
Implicit Types (i : nat) (b r : list (option Z)) (w l s : list Z).

Lemma swp_item i c (Q : cJSON -> hprop) :
  i ↦ Item c -∗ (i ↦ Item c -∗ Q c) -∗ swp (item i) Q.
Proof. by apply swp_at. Qed.

Lemma swp_edit f i c (Q : unit -> hprop) :
  i ↦ Item c -∗ (i ↦ Item (f c) -∗ Q tt) -∗ swp (edit f i) Q.
Proof.
  iIntros "Hi HQ". sbind. iApply (swp_item with "Hi"). iIntros "Hi".
  iApply (swp_insert with "Hi"). iIntros "Hi". by iApply "HQ".
Qed.

Lemma swp_get_buffer i p (Q : printbuffer -> hprop) :
  i ↦ Buffer p -∗ (i ↦ Buffer p -∗ Q p) -∗ swp (get_buffer i) Q.
Proof. by apply swp_at. Qed.

Lemma swp_set_buffer i p p' (Q : unit -> hprop) :
  i ↦ Buffer p -∗ (i ↦ Buffer p' -∗ Q tt) -∗ swp (set_buffer i p') Q.
Proof.
  iIntros "Hi HQ". sbind. iApply (swp_get_buffer with "Hi"). iIntros "Hi".
  iApply (swp_insert with "Hi"). iIntros "Hi". by iApply "HQ".
Qed.

Lemma swp_entry t k (l : list (option ptr)) v (Q : option ptr -> hprop) :
  zget l k = Some v -> t ↦ Table l -∗ (t ↦ Table l -∗ Q v) -∗ swp (entry t k) Q.
Proof.
  iIntros (Hk) "Ht HQ". sbind. iApply (swp_at with "Ht"); [done|]. iIntros "Ht".
  rw Hk. iApply swp_access. by iApply "HQ".
Qed.

Lemma swp_set_entry t k (l l' : list (option ptr)) v (Q : unit -> hprop) :
  zset l k v = Some l' -> t ↦ Table l -∗ (t ↦ Table l' -∗ Q tt) -∗ swp (set_entry t k v) Q.
Proof.
  iIntros (Hk) "Ht HQ". sbind. iApply (swp_at with "Ht"); [done|]. iIntros "Ht".
  rw Hk. sbind. iApply swp_access. iApply (swp_insert with "Ht"). iIntros "Hi". by iApply "HQ".
Qed.

Lemma swp_free_item i c (Q : unit -> hprop) : i ↦ Item c -∗ Q tt -∗ swp (free_item i) Q.
Proof.
  iIntros "Hi HQ". sbind. iApply (swp_at with "Hi"); [done|]. iIntros "Hi". by iApply (swp_delete with "Hi").
Qed.

Lemma swp_free_table i t (Q : unit -> hprop) : i ↦ Table t -∗ Q tt -∗ swp (free_table i) Q.
Proof.
  iIntros "Hi HQ". sbind. iApply (swp_at with "Hi"); [done|]. iIntros "Hi". by iApply (swp_delete with "Hi").
Qed.

Lemma swp_free i b (Q : unit -> hprop) : i ↦ Chars b -∗ Q tt -∗ swp (free (Some (i, 0))) Q.
Proof.
  iIntros "Hi HQ". sbind. iApply (swp_at with "Hi"); [done|]. iIntros "Hi". by iApply (swp_delete with "Hi").
Qed.

Lemma swp_set_ep v (Q : unit -> hprop) : Q tt ⊢ swp (modify (set_ep v)) Q.
Proof. by apply swp_modify. Qed.

(** ** Characters *)

Lemma swp_chars site i off b (Q : list (option Z) -> hprop) :
  0 <= off <= zlen b ->
  i ↦ Chars b -∗ (i ↦ Chars b -∗ Q (drop (Z.to_nat off) b)) -∗ swp (chars site (i, off)) Q.
Proof.
  iIntros (Hoff) "Hi HQ". sbind. iApply (swp_at with "Hi"); [done|]. iIntros "Hi". cbn.
  destruct (Z.leb_spec 0 off), (Z.leb_spec off (zlen b)); try lia. sret. by iApply "HQ".
Qed.

Lemma swp_load site i off b (c : Z) (Q : Z -> hprop) :
  zget b off = Some (Some c) ->
  i ↦ Chars b -∗ (i ↦ Chars b -∗ Q c) -∗ swp (load site (i, off)) Q.
Proof.
  iIntros (Hc) "Hi HQ". pose proof (zget_Some_range _ _ _ Hc).
  sbind. iApply (swp_chars with "Hi"); [lia|]. iIntros "Hi".
  unfold zget in Hc. destruct (Z.leb_spec 0 off); [|lia].
  rw (drop_S _ _ _ Hc). iApply swp_access. by iApply "HQ".
Qed.

Lemma swp_store_all site i off b (l b' : list (option Z)) (Q : unit -> hprop) :
  zblit b off l = Some b' ->
  i ↦ Chars b -∗ (i ↦ Chars b' -∗ Q tt) -∗ swp (store_all site (i, off) l) Q.
Proof.
  iIntros (Hb) "Hi HQ". sbind. iApply (swp_at with "Hi"); [done|]. iIntros "Hi". cbn.
  rw Hb. sbind. iApply swp_access. iApply (swp_insert with "Hi"). iIntros "Hi". by iApply "HQ".
Qed.

Lemma zblit_between {A} (a m m' z : list A) :
  zlen m = zlen m' -> zblit (a ++ m ++ z) (zlen a) m' = Some (a ++ m' ++ z).
Proof.
  intros Hm. unfold zblit. pose proof (zlen_nonneg a). pose proof (zlen_nonneg z).
  rewrite (proj2 (Z.leb_le 0 (zlen a))); [|done].
  rewrite (proj2 (Z.leb_le _ _)); [|autorewrite with zlen; lia]. cbn.
  unfold zlen in *. f_equal. rewrite Nat2Z.id take_app_length. do 2 f_equal.
  replace (Z.to_nat _) with (List.length (a ++ m))%nat by (rewrite length_app; lia).
  by rewrite app_assoc drop_app_length.
Qed.

(** *** Blocks that are being filled *)

Definition room_at i w (n : Z) : hprop := (∃ r, ⟨zlen r = n⟩ ∗ i ↦ Chars (map Some w ++ r))%I.

Lemma room_intro i b : i ↦ Chars b ⊢ room_at i [] (zlen b).
Proof. iIntros "H". iExists b. by iFrame. Qed.

Lemma room_at_forget i w l n : room_at i (w ++ l) n ⊢ room_at i w (zlen l + n).
Proof.
  iIntros "(%r & <- & H)". iExists (map Some l ++ r). rw map_app -app_assoc. iFrame.
  iPureIntro. by rw zlen_app zlen_map.
Qed.

Lemma room_at_nonneg i w n : room_at i w n ⊢ room_at i w n ∗ ⟨0 <= n⟩.
Proof. iIntros "(%r & <- & H)". iSplitL; [iExists r; by iFrame|]. iPureIntro. apply zlen_nonneg. Qed.

Lemma room_split {A} (r : list A) n : 0 <= n <= zlen r -> exists a z, r = a ++ z /\ zlen a = n /\ zlen z = zlen r - n.
Proof.
  intros Hn. exists (take (Z.to_nat n) r), (drop (Z.to_nat n) r). unfold zlen in *.
  rewrite take_drop length_take length_drop. split_and!; [done|lia|lia].
Qed.

Lemma swp_store_text site i w l n off (Q : unit -> hprop) :
  zlen w = off -> zlen l <= n ->
  room_at i w n -∗ (room_at i (w ++ l) (n - zlen l) -∗ Q tt) -∗ swp (store_all site (i, off) (map Some l)) Q.
Proof.
  iIntros (<- Hn) "(%r & <- & Hi) HQ". pose proof (zlen_nonneg l).
  destruct (room_split r (zlen l)) as (a & z & -> & Ha & Hz); [lia|].
  iApply (swp_store_all with "Hi").
  { rw -(zlen_map Some w). apply zblit_between. by rw zlen_map. }
  iIntros "Hi". iApply "HQ". iExists z. rw map_app -app_assoc. iFrame. done.
Qed.

Lemma swp_write site i w l n off (Q : unit -> hprop) :
  zlen w = off -> zlen l < n ->
  room_at i w n -∗ (room_at i (w ++ l ++ [0]) (n - zlen l - 1) -∗ Q tt) -∗ swp (write site (i, off) l) Q.
Proof.
  iIntros (Hw Hn) "Hi HQ". iApply (swp_store_text site i w (l ++ [0]) with "Hi"); [done|autorewrite with zlen; lia|].
  iIntros "Hi". iApply "HQ". replace (n - zlen l - 1) with (n - zlen (l ++ [0])); [done|].
  autorewrite with zlen. lia.
Qed.

Lemma swp_store site i w (c : Z) n off (Q : unit -> hprop) :
  zlen w = off -> 0 < n ->
  room_at i w n -∗ (room_at i (w ++ [c]) (n - 1) -∗ Q tt) -∗ swp (store site (i, off) c) Q.
Proof.
  iIntros (Hw Hn) "Hi HQ". iApply (swp_store_text site i w [c] with "Hi"); [done|change (zlen [c]) with 1; lia|].
  iIntros "Hi". by iApply "HQ".
Qed.

Lemma swp_put_char site i w (c : Z) n off (Q : ptr -> hprop) :
  zlen w = off -> 0 < n ->
  room_at i w n -∗ (room_at i (w ++ [c]) (n - 1) -∗ Q (i, off + 1)) -∗ swp (put_char site (i, off) c) Q.
Proof.
  iIntros (Hw Hn) "Hi HQ". sbind. iApply (swp_store with "Hi"); [done|done|].
  iIntros "Hi". sret. by iApply "HQ".
Qed.

(** *** Strings *)

Definition c_string s : Prop := Forall (fun c => c <> 0) s.

Lemma string_in_map s r : c_string s -> string_in (map Some (s ++ [0]) ++ r) = Some s.
Proof.
  induction 1 as [|c s Hc Hs IH]; [done|]. cbn. destruct (Z.eqb_spec c 0); [done|]. cbn in IH. by rw IH.
Qed.

Lemma swp_cstring_room site i w s n off (Q : list Z -> hprop) :
  zlen w = off -> c_string s ->
  room_at i (w ++ s ++ [0]) n -∗ (room_at i (w ++ s ++ [0]) n -∗ Q s) -∗ swp (cstring site (i, off)) Q.
Proof.
  iIntros (<- Hs) "(%r & <- & Hi) HQ". sbind. iApply (swp_chars with "Hi").
  { autorewrite with zlen. pose proof (zlen_nonneg s). pose proof (zlen_nonneg w). pose proof (zlen_nonneg r). lia. }
  iIntros "Hi".
  replace (drop (Z.to_nat (zlen w)) _) with (map Some (s ++ [0]) ++ r).
  - rw string_in_map; [|done]. iApply swp_access. iApply "HQ". iExists r. by iFrame.
  - rw (map_app Some w) -app_assoc. unfold zlen. rw Nat2Z.id -(length_map Some w). by rw drop_app_length.
Qed.

Definition str_at (p : ptr) s : hprop :=
  (∃ i n, ⟨p = (i, 0)⟩ ∗ ⟨c_string s⟩ ∗ room_at i (s ++ [0]) n)%I.

Lemma swp_cstring site p s (Q : list Z -> hprop) :
  str_at p s -∗ (str_at p s -∗ Q s) -∗ swp (cstring site p) Q.
Proof.
  iIntros "(%i & %n & -> & %Hs & Hi) HQ".
  iApply (swp_cstring_room site i [] with "Hi"); [done..|].
  iIntros "Hi". iApply "HQ". iExists i, n. by iFrame.
Qed.

Lemma swp_strlen p s (Q : Z -> hprop) : str_at p s -∗ (str_at p s -∗ Q (zlen s)) -∗ swp (strlen p) Q.
Proof.
  iIntros "Hp HQ". sbind. iApply (swp_cstring with "Hp"). iIntros "Hp". sret. by iApply "HQ".
Qed.

Lemma swp_free_string p s (Q : unit -> hprop) : str_at p s -∗ Q tt -∗ swp (free (Some p)) Q.
Proof. iIntros "(%i & %n & -> & _ & %r & _ & Hi) HQ". by iApply (swp_free with "Hi"). Qed.
End Rules.
