(* ===== verification/CJsonFacts.v ===== *)
(** What an item with its children is in memory, and that the operations of
    CJson.v are operations on the list of the children.

    A [tree] is an item with everything below it.  [tree_at t i nx pv] says that
    the item [i] is the tree [t], between the neighbours [pv] and [nx];
    [segment l f pv nx la] that the items from [f] to [la] are the trees [l].  An
    item whose type has the bit cJSON_IsReference does not own its string and its
    children, one with the bit cJSON_StringIsConst does not own its name.

    The parts behind it are about names ([named]) and about cJSON_Duplicate. *)

From iris.proofmode Require Import proofmode.
From stdpp Require Import gmap.
From S2P Require Import Prelude.
From S2P Require Import CMonad.
From S2P Require Import CString.
From S2P Require Import JsonDouble.
From S2P Require Import JsonHeap.
From S2P Require Import CJson.
From S2P Require Import JsonLogic.

Record data : Type := mkData {
  d_type : Z;
  d_string : option (list Z);
  d_int : Z;
  d_double : double;
  d_name : option (list Z)
}.

Inductive tree : Type := Tree (d : data) (kids : list tree).

Definition data_of (t : tree) : data := let 'Tree d _ := t in d.
Definition kids_of (t : tree) : list tree := let 'Tree _ kids := t in kids.

Section Induction.
Context (P : tree -> Prop).
Hypothesis step : forall d kids, Forall P kids -> P (Tree d kids).
Fixpoint tree_induction (t : tree) : P t :=
  let 'Tree d kids := t in
  step d kids ((fix all l : Forall P l :=
    match l with
    | [] => Forall_nil_2 _
    | t :: l => Forall_cons_2 _ _ _ (tree_induction t) (all l)
    end) kids).
End Induction.

(** The number of items. *)
Fixpoint tree_size (t : tree) : nat :=
  let 'Tree _ kids := t in S (sum_list_with tree_size kids).
Abbreviation list_size := (sum_list_with tree_size).

Lemma list_size_length l : (List.length l <= list_size l)%nat.
Proof. induction l as [|[d kids] l IH]; cbn [List.length sum_list_with tree_size]; lia. Qed.

(** No item refers to what it does not own. *)
Definition plain (d : data) : bool := negb (is_reference (d_type d)) && negb (is_const (d_type d)).
Fixpoint all_plain (t : tree) : bool :=
  let 'Tree d kids := t in plain d && forallb all_plain kids.

(** * In memory *)

Definition text_at (p : option ptr) (s : option (list Z)) : hprop :=
  match p, s with
  | None, None => emp
  | Some p, Some s => str_at p s
  | _, _ => ⟨False⟩
  end.

Section Segment.
Context (tree_at : tree -> nat -> option nat -> option nat -> hprop).
Fixpoint segment_of (l : list tree) (f pv nx la : option nat) : hprop :=
  match l with
  | [] => ⟨f = nx⟩ ∗ ⟨pv = la⟩
  | t :: l => ∃ i n, ⟨f = Some i⟩ ∗ tree_at t i n pv ∗ segment_of l n (Some i) nx la
  end.
End Segment.

(** What the item has beside its own structure. *)
Definition owned (seg : option nat -> hprop) (kids : list tree) (d : data) (ch : option nat) (vs nm : option ptr) : hprop :=
  ((if is_reference (d_type d) then ⟨kids = []⟩ else text_at vs (d_string d) ∗ seg ch) ∗
   (if is_const (d_type d) then emp else text_at nm (d_name d)))%I.

Definition item_of (d : data) (nx pv ch : option nat) (vs nm : option ptr) : cJSON :=
  mkItem nx pv ch (d_type d) vs (d_int d) (d_double d) nm.

Fixpoint tree_at (t : tree) (i : nat) (nx pv : option nat) : hprop :=
  let 'Tree d kids := t in
  (∃ ch vs nm, i ↦ Item (item_of d nx pv ch vs nm) ∗
     owned (fun ch => ∃ la, segment_of tree_at kids ch None None la) kids d ch vs nm)%I.
#[global] Arguments tree_at : simpl never.
#[global] Typeclasses Opaque tree_at.
Abbreviation segment := (segment_of tree_at).
Definition chain (l : list tree) (f : option nat) : hprop := (∃ la, segment l f None None la)%I.

Lemma tree_at_unfold d kids i nx pv :
  tree_at (Tree d kids) i nx pv ⊣⊢
  ∃ ch vs nm, i ↦ Item (item_of d nx pv ch vs nm) ∗ owned (chain kids) kids d ch vs nm.
Proof. done. Qed.

Lemma segment_app l1 l2 f pv nx la :
  segment (l1 ++ l2) f pv nx la ⊣⊢ ∃ m q, segment l1 f pv m q ∗ segment l2 m q nx la.
Proof.
  revert f pv. induction l1 as [|t l1 IH]; intros f pv; cbn.
  - iSplit.
    + iIntros "H". iExists f, pv. by iFrame.
    + iIntros "(%m & %q & (-> & ->) & H)". done.
  - iSplit.
    + iIntros "(%i & %n & -> & Ht & H)". iPoseProof (IH with "H") as "(%m & %q & H1 & H2)".
      iExists m, q. by iFrame.
    + iIntros "(%m & %q & (%i & %n & -> & Ht & H1) & H2)". iExists i, n. iFrame. iSplit; [done|].
      iApply IH. iExists m, q. iFrame.
Qed.

Lemma segment_snoc l t f pv nx la :
  segment (l ++ [t]) f pv nx la ⊣⊢
  ∃ i q, segment l f pv (Some i) q ∗ tree_at t i nx q ∗ ⟨la = Some i⟩.
Proof.
  rw segment_app. iSplit.
  - iIntros "(%m & %q & H1 & %i & %n & -> & Ht & -> & <-)". iExists i, q. by iFrame.
  - iIntros "(%i & %q & H1 & Ht & ->)". iExists (Some i), q. by iFrame.
Qed.

(** The links of an item are changed without looking at it. *)
Lemma tree_at_item t i nx pv :
  tree_at t i nx pv ⊣⊢
  ∃ ch vs nm, i ↦ Item (item_of (data_of t) nx pv ch vs nm) ∗ owned (chain (kids_of t)) (kids_of t) (data_of t) ch vs nm.
Proof. by destruct t. Qed.

Section Links.
Context (t : tree) (i : nat) (nx pv : option nat).

Lemma swp_item_tree (Q : cJSON -> hprop) :
  tree_at t i nx pv -∗
  (∀ ch vs nm, i ↦ Item (item_of (data_of t) nx pv ch vs nm) -∗
     owned (chain (kids_of t)) (kids_of t) (data_of t) ch vs nm -∗ Q (item_of (data_of t) nx pv ch vs nm)) -∗
  swp (item i) Q.
Proof.
  rw tree_at_item. iIntros "(%ch & %vs & %nm & Hi & Ho) HQ". iApply (swp_item with "Hi").
  iIntros "Hi". iApply ("HQ" with "Hi Ho").
Qed.

(** The next item of a chain. *)
Lemma swp_next (Q : cJSON -> hprop) :
  tree_at t i nx pv -∗
  (∀ c, ⟨next c = nx /\ prev c = pv /\ type c = d_type (data_of t)⟩ -∗ tree_at t i nx pv -∗ Q c) -∗ swp (item i) Q.
Proof.
  iIntros "Ht HQ". iApply (swp_item_tree with "Ht"). iIntros (ch vs nm) "Hi Ho".
  iApply "HQ"; [done|]. rw tree_at_item. iExists ch, vs, nm. iFrame.
Qed.

Lemma swp_edit_links f nx' pv' (Q : unit -> hprop) :
  (forall d ch vs nm, f (item_of d nx pv ch vs nm) = item_of d nx' pv' ch vs nm) ->
  tree_at t i nx pv -∗ (tree_at t i nx' pv' -∗ Q tt) -∗ swp (edit f i) Q.
Proof.
  iIntros (Hf) "Ht HQ". rw !tree_at_item. iDestruct "Ht" as "(%ch & %vs & %nm & Hi & Ho)".
  iApply (swp_edit with "Hi"). iIntros "Hi". rw Hf. iApply "HQ". iExists ch, vs, nm. iFrame.
Qed.

Lemma swp_link_next v (Q : unit -> hprop) :
  tree_at t i nx pv -∗ (tree_at t i v pv -∗ Q tt) -∗ swp (edit (set_next v) i) Q.
Proof. by apply swp_edit_links. Qed.
Lemma swp_link_prev v (Q : unit -> hprop) :
  tree_at t i nx pv -∗ (tree_at t i nx v -∗ Q tt) -∗ swp (edit (set_prev v) i) Q.
Proof. by apply swp_edit_links. Qed.
End Links.

Section Items.
Context (can_malloc : allocator -> list Z -> Z -> bool) (int_overflow : double -> Z) (fuel : nat).

(** There is not always enough memory. *)
Definition out_of_memory : Prop := exists f asked n, can_malloc f asked n = false.

Lemma swp_new_item (Q : option nat -> hprop) :
  (∀ r, match r with Some i => i ↦ Item zero_item | None => ⟨out_of_memory⟩ end -∗ Q r)
  ⊢ swp (cJSON_New_Item can_malloc) Q.
Proof.
  iIntros "HQ". iApply swp_allocate. iIntros ([i|]) "Hr"; iApply "HQ"; [done|].
  iDestruct "Hr" as %(f & h & H). iPureIntro. by exists f, h, 64.
Qed.

Lemma swp_malloc n (Q : option ptr -> hprop) :
  0 <= n ->
  (∀ r, match r with Some p => ∃ i, ⟨p = (i, 0)⟩ ∗ room_at i [] n | None => ⟨out_of_memory⟩ end -∗ Q r)
  ⊢ swp (malloc can_malloc n) Q.
Proof.
  iIntros (Hn) "HQ". sbind. iApply swp_allocate. iIntros ([i|]) "Hr"; sret; iApply "HQ".
  - iExists i. iSplit; [done|]. iExists _. iFrame. iPureIntro. rw zlen_replicate. lia.
  - iDestruct "Hr" as %(f & h & H). iPureIntro. by exists f, h, n.
Qed.

(** ** cJSON_strdup *)

Lemma swp_memcpy_all i j s n m (Q : unit -> hprop) :
  zlen s + 1 <= m ->
  room_at i (s ++ [0]) n -∗ room_at j [] m -∗
  (room_at i (s ++ [0]) n -∗ room_at j (s ++ [0]) (m - (zlen s + 1)) -∗ Q tt) -∗
  swp (memcpy (j, 0) (i, 0) (zlen s + 1)) Q.
Proof.
  iIntros (Hm) "(%r & <- & Hi) Hj HQ". pose proof (zlen_nonneg s). pose proof (zlen_nonneg r).
  sbind. iApply (swp_chars with "Hi"); [autorewrite with zlen; lia|]. iIntros "Hi". rw drop_0.
  rewrite (proj2 (Z.leb_le 0 (zlen s + 1))); [|lia].
  rewrite (proj2 (Z.leb_le _ _)); [|autorewrite with zlen; lia]. cbn.
  replace (take _ _) with (map Some (s ++ [0])).
  - iApply (swp_store_text _ j [] (s ++ [0]) with "Hj"); [done|autorewrite with zlen; lia|].
    iIntros "Hj". iApply ("HQ" with "[Hi]"); [iExists r; by iFrame|].
    replace (zlen s + 1) with (zlen (s ++ [0])) by (autorewrite with zlen; lia). done.
  - replace (Z.to_nat (zlen s + 1)) with (List.length (map Some (s ++ [0]))).
    + by rw take_app_length.
    + unfold zlen. rewrite length_map length_app. cbn. lia.
Qed.

Lemma swp_strdup p s (Q : option ptr -> hprop) :
  str_at p s -∗
  (∀ r, str_at p s -∗ match r with Some q => str_at q s | None => ⟨out_of_memory⟩ end -∗ Q r) -∗
  swp (cJSON_strdup can_malloc p) Q.
Proof.
  iIntros "Hp HQ". sbind. iApply (swp_strlen with "Hp"). iIntros "Hp". sbind.
  iApply swp_malloc; [pose proof (zlen_nonneg s); lia|]. iIntros ([q|]) "Hr".
  - iDestruct "Hr" as "(%j & -> & Hj)". iDestruct "Hp" as "(%i & %n & -> & %Hs & Hi)".
    sbind. iApply (swp_memcpy_all with "Hi Hj"); [lia|]. iIntros "Hi Hj". sret.
    iApply ("HQ" with "[Hi]"); [iExists i, n; by iFrame|]. iExists j, _. by iFrame.
  - sret. iApply ("HQ" $! None with "Hp Hr").
Qed.

(** ** cJSON_Delete *)

Lemma swp_free_text (kept : bool) p s (Q : unit -> hprop) :
  (if kept then emp else text_at p s) -∗ Q tt -∗
  swp (if negb kept && bool_decide (is_Some p) then free p else ret tt) Q.
Proof.
  destruct kept; cbn; [iIntros "_ HQ"; by sret|].
  destruct p as [p|], s as [s|]; cbn; iIntros "H HQ".
  - iApply (swp_free_string with "H HQ").
  - iDestruct "H" as %[].
  - iDestruct "H" as %[].
  - by sret.
Qed.

Lemma chain_nil l : chain l None ⊢ ⟨l = []⟩.
Proof.
  destruct l as [|t l]; cbn.
  - by iIntros "(%la & _ & _)".
  - by iIntros "(%la & %i & %n & %H & H)".
Qed.

Lemma swp_free_kids (kept : bool) n kids ch (P : hprop) (Q : unit -> hprop) :
  (forall f (Q : unit -> hprop), chain kids f -∗ Q tt -∗ swp (delete_items n f) Q) ->
  (if kept then ⟨kids = []⟩ else P ∗ chain kids ch) -∗ ((if kept then emp else P) -∗ Q tt) -∗
  swp (if negb kept && bool_decide (is_Some ch) then delete_items n ch else ret tt) Q.
Proof.
  intros IH. destruct kept; cbn.
  - iIntros "_ HQ". sret. by iApply "HQ".
  - iIntros "[HP Hch] HQ". destruct ch as [ch|]; cbn.
    + iApply (IH with "Hch"). by iApply "HQ".
    + iDestruct (chain_nil with "Hch") as "Hnil". iDestruct "Hnil" as %Hkids. sret. by iApply "HQ".
Qed.

(** Everything is freed that the items own. *)
Lemma swp_delete_items n l f pv (Q : unit -> hprop) :
  (list_size l < n)%nat ->
  (∃ la, segment l f pv None la) -∗ Q tt -∗ swp (delete_items n f) Q.
Proof.
  revert l f pv Q. induction n as [|n IH]; intros l f pv Q Hn; [lia|].
  destruct l as [|[d kids] l]; cbn [sum_list_with tree_size] in Hn; iIntros "(%la & Hl) HQ".
  { iDestruct "Hl" as "[-> _]". by sret. }
  cbn [segment_of]. iDestruct "Hl" as "(%i & %nx & -> & Ht & Hl)". cbn [delete_items]. sbind.
  iApply (swp_item_tree with "Ht"). iIntros (ch vs nm) "Hi [Hown Hname]". cbn. sbind.
  iApply (swp_free_kids with "Hown"); [intros; apply IH; lia|]. iIntros "Hvs". sbind.
  iApply (swp_free_text with "Hvs"). sbind. iApply (swp_free_text with "Hname"). sbind.
  iApply (swp_free_item with "Hi"). iApply (IH l with "[Hl]"); [lia| |done]. by iExists la.
Qed.

Lemma swp_cJSON_Delete t i pv (Q : unit -> hprop) :
  (tree_size t < fuel)%nat -> tree_at t i None pv -∗ Q tt -∗ swp (cJSON_Delete fuel (Some i)) Q.
Proof.
  iIntros (Hf) "Ht HQ". iApply (swp_delete_items fuel [t] _ pv with "[Ht] HQ"); [cbn; lia|].
  iExists (Some i), i, None. by iFrame.
Qed.

(** ** Walking along a chain *)

Lemma swp_count n l f pv la k (Q : Z -> hprop) :
  (List.length l < n)%nat -> 0 <= k -> k + zlen l < 2147483648 ->
  segment l f pv None la -∗ (segment l f pv None la -∗ Q (k + zlen l)) -∗
  swp (loop n (fun '(c, i) =>
    match c with
    | None => ret (inr i)
    | Some c => it <- item c ;; ret (inl (next it, s32 (i + 1)))
    end) (f, k)) Q.
Proof.
  revert l f pv k Q. induction n as [|n IH]; intros l f pv k Q Hf Hk Hl; [lia|].
  iIntros "Hs HQ". iApply swp_loop. destruct l as [|t l]; cbn [segment_of].
  - iDestruct "Hs" as "[-> ->]". sret. replace (k + zlen []) with k by (change (@zlen tree []) with 0; lia).
    by iApply "HQ".
  - iDestruct "Hs" as "(%i & %n' & -> & Ht & Hs)". rewrite zlen_cons in Hl. pose proof (zlen_nonneg l).
    cbn in Hf. sbind. iApply (swp_next with "Ht"). iIntros (c (Hc & _)) "Ht". sret.
    rw Hc s32_small; [|lia]. iApply (IH with "Hs"); [lia..|]. iIntros "Hs".
    rewrite zlen_cons. replace (k + (zlen l + 1)) with (k + 1 + zlen l) by lia.
    iApply "HQ". iExists i, n'. by iFrame.
Qed.

(** The item [t] of a chain, between those before and those after it. *)
Definition focus (l1 : list tree) (t : tree) (l2 : list tree) (f pv : option nat) (la : option nat) (i : nat) : hprop :=
  (∃ n q, segment l1 f pv (Some i) q ∗ tree_at t i n q ∗ segment l2 n (Some i) None la)%I.

Lemma focus_segment l1 t l2 f pv la i : focus l1 t l2 f pv la i ⊢ segment (l1 ++ t :: l2) f pv None la.
Proof.
  iIntros "(%n & %q & H1 & Ht & H2)". rw segment_app. iExists (Some i), q. by iFrame.
Qed.

Lemma focus_cons t1 l1 t l2 i1 n1 pv la i :
  tree_at t1 i1 n1 pv -∗ focus l1 t l2 n1 (Some i1) la i -∗ focus (t1 :: l1) t l2 (Some i1) pv la i.
Proof.
  iIntros "H1 (%n & %q & H & Ht & H2)". iExists n, q. by iFrame.
Qed.

Lemma swp_walk l f pv la k (Q : option nat -> hprop) :
  (List.length l < fuel)%nat ->
  segment l f pv None la -∗
  (∀ r, match r with
        | Some i => ∃ l1 t l2, ⟨l = l1 ++ t :: l2⟩ ∗ ⟨zlen l1 = Z.max 0 k⟩ ∗ focus l1 t l2 f pv la i
        | None => ⟨zlen l <= Z.max 0 k⟩ ∗ segment l f pv None la
        end -∗ Q r) -∗
  swp (walk fuel f k) Q.
Proof.
  unfold walk. generalize fuel. intros n. revert l f pv k Q. induction n as [|n IH]; intros l f pv k Q Hf; [lia|].
  iIntros "Hs HQ". iApply swp_loop. destruct l as [|t l]; cbn [segment_of].
  - iDestruct "Hs" as "[-> ->]". sret. iApply "HQ". iSplit; [|done]. iPureIntro. change (@zlen tree []) with 0. lia.
  - iDestruct "Hs" as "(%i & %n' & -> & Ht & Hs)". cbn in Hf. destruct (Z.ltb_spec 0 k).
    + sbind. iApply (swp_next with "Ht"). iIntros (c (Hc & _)) "Ht". sret. rw Hc.
      iApply (IH with "Hs"); [lia|]. iIntros ([j|]) "Hr".
      * iDestruct "Hr" as "(%l1 & %t' & %l2 & -> & %Hl1 & Hfoc)". iApply ("HQ" $! (Some j)).
        iExists (t :: l1), t', l2. iSplit; [done|]. iSplit; [iPureIntro; rewrite zlen_cons; lia|].
        iApply (focus_cons with "Ht Hfoc").
      * iDestruct "Hr" as "(%Hl & Hs)". iApply ("HQ" $! None). iSplit; [iPureIntro; rewrite zlen_cons; lia|].
        iExists i, n'. by iFrame.
    + sret. iApply ("HQ" $! (Some i)). iExists [], t, l. iSplit; [done|]. iSplit; [iPureIntro; change (@zlen tree []) with 0; lia|].
      iExists n', pv. by iFrame.
Qed.

Lemma swp_last_item n l c pv la (Q : nat -> hprop) :
  (List.length l < n)%nat -> l <> [] ->
  segment l (Some c) pv None la -∗ (∀ r, ⟨la = Some r⟩ -∗ segment l (Some c) pv None la -∗ Q r) -∗
  swp (last_item n c) Q.
Proof.
  unfold last_item. revert l c pv Q. induction n as [|n IH]; intros l c pv Q Hf Hl; [lia|].
  destruct l as [|t l]; [done|]. cbn [segment_of List.length] in *.
  iIntros "(%i & %n' & %Hi & Ht & Hs) HQ". injection Hi as <-.
  iApply swp_loop. sbind. iApply (swp_next with "Ht"). iIntros (it (Hn & _)) "Ht". rw Hn.
  destruct l as [|t' l]; cbn [segment_of].
  - iDestruct "Hs" as "[-> %Hla]". sret. iApply ("HQ" $! c); [done|]. iExists c, None. by iFrame.
  - iDestruct "Hs" as "(%j & %n2 & -> & Ht' & Hs)". sret.
    iApply (IH (t' :: l) j (Some c) with "[Ht' Hs]"); [cbn in *; lia|done| |].
    { iExists j, n2. by iFrame. }
    iIntros (r) "%Hr Hs". iApply "HQ"; [done|]. iExists c, (Some j). by iFrame.
Qed.

(** ** Links of a chain *)

Lemma last_is_Some l f pv m q : l <> [] -> segment l f pv m q ⊢ ⌜is_Some q⌝.
Proof.
  intros Hl. destruct l as [|t l _] using rev_ind; [done|]. rw segment_snoc.
  by iIntros "(%i & %q' & _ & _ & ->)".
Qed.

Lemma swp_relink_next l f pv m p v (Q : unit -> hprop) :
  l <> [] -> segment l f pv m (Some p) -∗ (segment l f pv v (Some p) -∗ Q tt) -∗ swp (edit (set_next v) p) Q.
Proof.
  intros Hl. destruct l as [|t l _] using rev_ind; [done|]. rw !segment_snoc.
  iIntros "(%i & %q & Hl & Ht & %Hp) HQ". injection Hp as <-. iApply (swp_link_next with "Ht"). iIntros "Ht".
  iApply "HQ". iExists p, q. by iFrame.
Qed.

Lemma swp_relink_prev l n pv la v (Q : unit -> hprop) :
  segment l n pv None la -∗ (∀ la', segment l n v None la' -∗ Q tt) -∗
  swp (match n with Some k => edit (set_prev v) k | None => ret tt end) Q.
Proof.
  destruct l as [|t l]; cbn [segment_of].
  - iIntros "[-> ->] HQ". sret. iApply ("HQ" $! v). done.
  - iIntros "(%i & %n' & -> & Ht & Hl) HQ". iApply (swp_link_prev with "Ht"). iIntros "Ht".
    iApply ("HQ" $! la). iExists i, n'. by iFrame.
Qed.

Lemma points_to_excl i o o' : i ↦ o -∗ i ↦ o' -∗ False.
Proof.
  apply bi.entails_wand, bi.wand_intro_r. constructor. intros h (h1 & h2 & -> & Hd & -> & ->).
  apply map_disjoint_singleton_l in Hd. by rw lookup_singleton_eq in Hd.
Qed.

Lemma tree_at_excl t t' i nx nx' pv pv' : tree_at t i nx pv -∗ tree_at t' i nx' pv' -∗ False.
Proof.
  rw !tree_at_item. iIntros "(% & % & % & H1 & _) (% & % & % & H2 & _)".
  iApply (points_to_excl with "H1 H2").
Qed.

(** Whether an item is the first one. *)
Lemma is_first l1 t f pv i n q :
  segment l1 f pv (Some i) q -∗ tree_at t i n q -∗ ⌜bool_decide (Some i = f) = match l1 with [] => true | _ => false end⌝.
Proof.
  destruct l1 as [|t1 l1]; cbn [segment_of].
  - iIntros "[-> _] _". iPureIntro. by apply bool_decide_eq_true.
  - iIntros "(%i1 & %n1 & -> & H1 & _) Ht". destruct (decide (i = i1)) as [->|Hi].
    + iDestruct (tree_at_excl with "H1 Ht") as %[].
    + iPureIntro. apply bool_decide_eq_false. congruence.
Qed.

(** ** Arrays *)

(** What an item owns beside its children. *)
Definition strings d vs nm : hprop :=
  (text_at vs (d_string d) ∗ (if is_const (d_type d) then emp else text_at nm (d_name d)))%I.

Lemma open_array d kids a nx pv :
  is_reference (d_type d) = false ->
  tree_at (Tree d kids) a nx pv ⊣⊢
  ∃ ch vs nm la, a ↦ Item (item_of d nx pv ch vs nm) ∗ segment kids ch None None la ∗ strings d vs nm.
Proof.
  intros Hr. rw tree_at_unfold. unfold owned, strings. rw Hr. iSplit.
  - iIntros "(%ch & %vs & %nm & Ha & [Hvs (%la & Hc)] & Hn)". iExists ch, vs, nm, la. iFrame.
  - iIntros "(%ch & %vs & %nm & %la & Ha & Hc & Hvs & Hn)". iExists ch, vs, nm. iFrame.
Qed.

Lemma close_array d kids a nx pv ch vs nm la :
  is_reference (d_type d) = false ->
  a ↦ Item (item_of d nx pv ch vs nm) -∗ segment kids ch None None la -∗ strings d vs nm -∗
  tree_at (Tree d kids) a nx pv.
Proof.
  iIntros (Hr) "Ha Hc Hs". iApply open_array; [done|]. iExists ch, vs, nm, la. iFrame.
Qed.

Section Array.
Context (a : nat) (nx pv : option nat) (d : data) (vs nm : option ptr).
Hypothesis Hd : is_reference (d_type d) = false.
Implicit Types (kids : list tree) (Q : unit -> hprop).

Lemma swp_suffix_object l c t la j q Q :
  segment l (Some c) q None la -∗ ⟨l <> []⟩ -∗ tree_at t j None None -∗
  (segment (l ++ [t]) (Some c) q None (Some j) -∗ Q tt) -∗ swp (suffix_object la (Some j)) Q.
Proof.
  iIntros "Hc %Hl Ht HQ". destruct l as [|t0 l0 _] using rev_ind; [done|]. rw segment_snoc.
  iDestruct "Hc" as "(%i & %q' & Hc & H0 & ->)". sbind. sret. sbind.
  iApply (swp_link_next with "H0"). iIntros "H0". sbind. sret.
  iApply (swp_link_prev with "Ht"). iIntros "Ht". iApply "HQ".
  rw segment_snoc. iExists j, (Some i). rw segment_snoc. by iFrame.
Qed.

Lemma swp_add kids t j Q :
  (List.length kids < fuel)%nat ->
  tree_at (Tree d kids) a nx pv -∗ tree_at t j None None -∗
  (tree_at (Tree d (kids ++ [t])) a nx pv -∗ Q tt) -∗
  swp (cJSON_AddItemToArray fuel a (Some j)) Q.
Proof.
  iIntros (Hf) "Ha Ht HQ". rw open_array; [|done]. iDestruct "Ha" as "(%ch & %vs' & %nm' & %la & Ha & Hc & Hs)".
  sbind. iApply (swp_item with "Ha"). iIntros "Ha". cbn. destruct kids as [|t0 l0]; cbn [segment_of app].
  - iDestruct "Hc" as "[-> <-]". iApply (swp_edit with "Ha"). iIntros "Ha". iApply "HQ".
    iApply (close_array d _ a nx pv with "Ha [Ht] Hs"); [done|]. iExists j, None. by iFrame.
  - iDestruct "Hc" as "(%i & %n & -> & H0 & Hc)". sbind.
    iApply (swp_last_item _ (t0 :: l0) with "[H0 Hc]"); [done|done| |].
    { iExists i, n. by iFrame. }
    iIntros (r ->) "Hc". iApply (swp_suffix_object (t0 :: l0) with "Hc [//] Ht"). iIntros "Hc". iApply "HQ".
    iApply (close_array with "Ha Hc Hs"). done.
Qed.

Lemma swp_detach kids k (R : option nat -> hprop) :
  (List.length kids < fuel)%nat ->
  tree_at (Tree d kids) a nx pv -∗
  (∀ r, match r with
        | Some i => ∃ l1 t l2, ⟨kids = l1 ++ t :: l2⟩ ∗ ⟨zlen l1 = Z.max 0 k⟩ ∗
                      tree_at t i None None ∗ tree_at (Tree d (l1 ++ l2)) a nx pv
        | None => ⟨zlen kids <= Z.max 0 k⟩ ∗ tree_at (Tree d kids) a nx pv
        end -∗ R r) -∗
  swp (cJSON_DetachItemFromArray fuel a k) R.
Proof.
  iIntros (Hf) "Ha HR". iEval (rw open_array //) in "Ha". iDestruct "Ha" as "(%ch & %vs' & %nm' & %la & Ha & Hc & Hs)".
  sbind. iApply (swp_item with "Ha"). iIntros "Ha". sbind. iApply (swp_walk with "Hc"); [done|].
  iIntros ([i|]) "Hr"; cycle 1.
  { iDestruct "Hr" as "[Hl Hc]". sret. iApply ("HR" $! None). iFrame "Hl". by iApply (close_array with "Ha Hc Hs"). }
  iDestruct "Hr" as "(%l1 & %t & %l2 & -> & %Hk & %n & %q & H1 & Ht & H2)". cbn [child item_of].
  iDestruct (is_first with "H1 Ht") as %Hfirst.
  sbind. iApply (swp_next with "Ht"). iIntros (c (Hn & Hp & _)) "Ht". rw Hn Hp. sbind.
  destruct l1 as [|t1 l1].
  - iDestruct "H1" as "[-> <-]". sret. sbind.
    iApply (swp_relink_prev with "H2"). iIntros (la') "H2". sbind. iApply (swp_item with "Ha"). iIntros "Ha".
    cbn [child item_of] in *. rw Hfirst. sbind. iApply (swp_edit with "Ha"). iIntros "Ha". sbind.
    iApply (swp_edit_links _ _ _ _ _ None None with "Ht"); [done|]. iIntros "Ht". sret.
    iApply ("HR" $! (Some i)). iExists [], t, l2. iFrame. iSplit; [done|]. iSplit; [done|].
    iApply (close_array d _ a nx pv with "Ha H2 Hs"). done.
  - iDestruct (last_is_Some with "H1") as %[p ->]; [done|].
    iApply (swp_relink_next with "H1"); [done|]. iIntros "H1". sbind.
    iApply (swp_relink_prev with "H2"). iIntros (la') "H2". sbind. iApply (swp_item with "Ha"). iIntros "Ha".
    cbn [child item_of] in *. rw Hfirst. sbind. sret. sbind.
    iApply (swp_edit_links _ _ _ _ _ None None with "Ht"); [done|]. iIntros "Ht". sret.
    iApply ("HR" $! (Some i)). iExists (t1 :: l1), t, l2. iFrame. iSplit; [done|]. iSplit; [done|].
    iApply (close_array d _ a nx pv with "Ha [H1 H2] Hs"); [done|]. rw segment_app. iExists n, (Some p). iFrame.
Qed.

Lemma swp_insert_item kids k t' j Q :
  (List.length kids < fuel)%nat ->
  tree_at (Tree d kids) a nx pv -∗ tree_at t' j None None -∗
  (∀ l1 l2, ⟨kids = l1 ++ l2⟩ -∗ ⟨zlen l1 = Z.min (Z.max 0 k) (zlen kids)⟩ -∗
     tree_at (Tree d (l1 ++ t' :: l2)) a nx pv -∗ Q tt) -∗
  swp (cJSON_InsertItemInArray fuel a k j) Q.
Proof.
  iIntros (Hf) "Ha Hj HQ". iEval (rw open_array //) in "Ha". iDestruct "Ha" as "(%ch & %vs' & %nm' & %la & Ha & Hc & Hs)".
  sbind. iApply (swp_item with "Ha"). iIntros "Ha". sbind. iApply (swp_walk with "Hc"); [done|].
  iIntros ([i|]) "Hr"; cycle 1.
  { iDestruct "Hr" as "[%Hl Hc]". iApply (swp_add with "[Ha Hc Hs] Hj"); [done|by iApply (close_array with "Ha Hc Hs")|].
    iApply ("HQ" $! kids []); iPureIntro; [by rw app_nil_r|lia]. }
  iDestruct "Hr" as "(%l1 & %t & %l2 & -> & %Hk & %n & %q & H1 & Ht & H2)". cbn [child item_of].
  iDestruct (is_first with "H1 Ht") as %Hfirst. sbind.
  iApply (swp_link_next with "Hj"). iIntros "Hj". sbind.
  iApply (swp_next with "Ht"). iIntros (c (_ & Hp & _)) "Ht". rw Hp. sbind.
  iApply (swp_link_prev with "Hj"). iIntros "Hj". sbind.
  iApply (swp_link_prev with "Ht"). iIntros "Ht". sbind.
  iApply (swp_item with "Ha"). iIntros "Ha". cbn [child item_of]. rw Hfirst.
  iSpecialize ("HQ" $! l1 (t :: l2) with "[//] []").
  { iPureIntro. rewrite zlen_app zlen_cons. pose proof (zlen_nonneg l2). lia. }
  destruct l1 as [|t1 l1].
  - iDestruct "H1" as "[-> <-]". iApply (swp_edit with "Ha"). iIntros "Ha". iApply "HQ".
    iApply (close_array d _ a nx pv with "Ha [Hj Ht H2] Hs"); [done|].
    iExists j, (Some i). iSplit; [done|]. iFrame "Hj". iExists i, n. by iFrame.
  - iDestruct (last_is_Some with "H1") as %[p ->]; [done|]. sbind.
    iApply (swp_next with "Hj"). iIntros (c' (_ & Hp' & _)) "Hj". rw Hp'. sbind. sret.
    iApply (swp_relink_next with "H1"); [done|]. iIntros "H1". iApply "HQ".
    iApply (close_array d _ a nx pv with "Ha [H1 Hj Ht H2] Hs"); [done|]. rw segment_app.
    iExists (Some j), (Some p). iFrame "H1". iExists j, (Some i). iSplit; [done|]. iFrame "Hj". iExists i, n. by iFrame.
Qed.

Lemma swp_replace kids k t' j Q :
  (sum_list_with tree_size kids < fuel)%nat -> (List.length kids < fuel)%nat ->
  tree_at (Tree d kids) a nx pv -∗ tree_at t' j None None -∗
  ((∃ l1 t l2, ⟨kids = l1 ++ t :: l2⟩ ∗ ⟨zlen l1 = Z.max 0 k⟩ ∗ tree_at (Tree d (l1 ++ t' :: l2)) a nx pv) ∨
   ⟨zlen kids <= Z.max 0 k⟩ ∗ tree_at (Tree d kids) a nx pv ∗ tree_at t' j None None -∗ Q tt) -∗
  swp (cJSON_ReplaceItemInArray fuel a k j) Q.
Proof.
  iIntros (Hs Hf) "Ha Hj HQ". iEval (rw open_array //) in "Ha". iDestruct "Ha" as "(%ch & %vs' & %nm' & %la & Ha & Hc & Hs)".
  sbind. iApply (swp_item with "Ha"). iIntros "Ha". sbind. iApply (swp_walk with "Hc"); [done|].
  iIntros ([i|]) "Hr"; cycle 1.
  { iDestruct "Hr" as "[Hl Hc]". sret. iApply "HQ". iRight. iFrame "Hl Hj". by iApply (close_array with "Ha Hc Hs"). }
  iDestruct "Hr" as "(%l1 & %t & %l2 & -> & %Hk & %n & %q & H1 & Ht & H2)". cbn [child item_of].
  assert (tree_size t < fuel)%nat as Hsize by (rewrite sum_list_with_app in Hs; cbn in Hs; lia).
  iDestruct (is_first with "H1 Ht") as %Hfirst. sbind.
  iApply (swp_next with "Ht"). iIntros (c (Hn & _)) "Ht". rw Hn. sbind.
  iApply (swp_link_next with "Hj"). iIntros "Hj". sbind.
  iApply (swp_next with "Ht"). iIntros (c' (_ & Hp & _)) "Ht". rw Hp. sbind.
  iApply (swp_link_prev with "Hj"). iIntros "Hj". sbind.
  iApply (swp_next with "Hj"). iIntros (c2 (Hn2 & _)) "Hj". rw Hn2. sbind.
  iApply (swp_relink_prev with "H2"). iIntros (la') "H2". sbind.
  iApply (swp_item with "Ha"). iIntros "Ha". cbn [child item_of]. rw Hfirst. sbind.
  iAssert (∀ Q : unit -> hprop, tree_at t i n q -∗ Q tt -∗
    swp (edit (fun c => set_next None (set_prev None c)) i) (fun _ => swp (cJSON_Delete fuel (Some i)) Q))%I as "Hdelete".
  { iIntros (Q') "Ht HQ'". iApply (swp_edit_links _ _ _ _ _ None None with "Ht"); [done|]. iIntros "Ht".
    by iApply (swp_cJSON_Delete with "Ht"). }
  destruct l1 as [|t1 l1].
  - iDestruct "H1" as "[-> <-]". iApply (swp_edit with "Ha"). iIntros "Ha". sbind. iApply ("Hdelete" with "Ht"). iApply "HQ".
    iLeft. iExists [], t, l2. iSplit; [done|]. iSplit; [done|].
    iApply (close_array d _ a nx pv with "Ha [Hj H2] Hs"); [done|]. iExists j, n. by iFrame.
  - iDestruct (last_is_Some with "H1") as %[p ->]; [done|]. sbind.
    iApply (swp_next with "Hj"). iIntros (c3 (_ & Hp' & _)) "Hj". rw Hp'. sbind. sret.
    iApply (swp_relink_next with "H1"); [done|]. iIntros "H1". sbind. iApply ("Hdelete" with "Ht"). iApply "HQ".
    iLeft. iExists (t1 :: l1), t, l2. iSplit; [done|]. iSplit; [done|].
    iApply (close_array d _ a nx pv with "Ha [H1 Hj H2] Hs"); [done|]. rw segment_app.
    iExists (Some j), (Some p). iFrame "H1". iExists j, n. by iFrame.
Qed.
End Array.
End Items.

(** More operations of CJson.v on trees: names of members, copies of a tree, and
    arrays that are created from numbers. *)

(** ** Names *)

(** Names are compared without regard to case; an item without a name has none. *)
Definition same_name (n : option (list Z)) (s : list Z) : bool :=
  match n with Some x => bool_decide (map tolower x = map tolower s) | None => false end.

Lemma tolower_0 c : tolower c = 0 <-> c = 0.
Proof. unfold tolower. destruct (_ && _) eqn:E; [|done]. apply andb_true_iff in E as [?%Z.leb_le ?%Z.leb_le]. lia. Qed.

Lemma strcasecmp_in_spec a b r1 r2 :
  c_string a -> c_string b ->
  exists v, strcasecmp_in (map Some (a ++ [0]) ++ r1) (map Some (b ++ [0]) ++ r2) = Some v /\
    (v =? 0) = same_name (Some a) b.
Proof.
  intros Ha. revert b. induction Ha as [|x a Hx Ha IH]; intros b Hb; destruct Hb as [|y b Hy Hb]; cbn -[tolower]; change (tolower 0) with 0.
  - by exists 0.
  - pose proof (tolower_0 y). destruct (Z.eqb_spec 0 (tolower y)) as [E|E]; [lia|].
    eexists. split; [done|]. apply Z.eqb_neq. lia.
  - pose proof (tolower_0 x). destruct (Z.eqb_spec (tolower x) 0) as [E|E]; [lia|].
    eexists. split; [done|]. apply Z.eqb_neq. lia.
  - destruct (Z.eqb_spec (tolower x) (tolower y)) as [E|E].
    + destruct (Z.eqb_spec x 0); [done|]. destruct (IH b Hb) as (v & Hv & E'). exists v. cbn in Hv.
      split; [done|]. rewrite E'. cbn. apply bool_decide_ext. rewrite E. split; [congruence|]. intros [= H]. done.
    + eexists. split; [done|]. rewrite bool_decide_eq_false_2; [apply Z.eqb_neq; lia|congruence].
Qed.

Lemma swp_chars_str site p s (Q : list (option Z) -> hprop) :
  str_at p s -∗ (∀ r, ⟨c_string s⟩ -∗ str_at p s -∗ Q (map Some (s ++ [0]) ++ r)) -∗ swp (chars site p) Q.
Proof.
  iIntros "(%i & %n & -> & %Hs & %r & <- & Hi) HQ". iApply (swp_chars with "Hi"); [pose proof (zlen_nonneg r); autorewrite with zlen; pose proof (zlen_nonneg s); lia|].
  iIntros "Hi". rw drop_0. iApply "HQ"; [done|]. iExists i, (zlen r). iSplit; [done|]. iSplit; [done|]. iExists r. by iFrame.
Qed.

Lemma swp_strcasecmp nm dn p s (Q : Z -> hprop) :
  text_at nm dn -∗ str_at p s -∗
  (∀ v, ⟨(v =? 0) = same_name dn s⟩ -∗ text_at nm dn -∗ str_at p s -∗ Q v) -∗
  swp (cJSON_strcasecmp nm (Some p)) Q.
Proof.
  destruct nm as [q|], dn as [x|]; cbn [text_at]; iIntros "Hn Hp HQ"; [|iDestruct "Hn" as %[]..|].
  - sbind. iApply (swp_chars_str with "Hn"). iIntros (r1 Hx) "Hn". sbind.
    iApply (swp_chars_str with "Hp"). iIntros (r2 Hs) "Hp".
    destruct (strcasecmp_in_spec x s r1 r2 Hx Hs) as (v & -> & Hv). iApply swp_access. by iApply ("HQ" with "[//] Hn Hp").
  - sret. iApply ("HQ" $! 1 with "[//] Hn Hp").
Qed.

Definition named (s : list Z) (t : tree) : bool := same_name (d_name (data_of t)) s.

Section Names.
Context (can_malloc : allocator -> list Z -> Z -> bool) (fuel : nat).

(** The first item with a name. *)
Lemma swp_find_name n l f pv la p s k (Q : option nat * Z -> hprop) :
  (List.length l < n)%nat -> forallb (fun t => plain (data_of t)) l = true ->
  segment l f pv None la -∗ str_at p s -∗
  (∀ r, str_at p s -∗
        match fst r with
        | Some i => ∃ l1 t l2, ⟨l = l1 ++ t :: l2⟩ ∗ ⟨snd r = (k + zlen l1)%Z⟩ ∗
                      ⟨existsb (named s) l1 = false /\ named s t = true⟩ ∗ focus l1 t l2 f pv la i
        | None => ⟨existsb (named s) l = false⟩ ∗ segment l f pv None la
        end -∗ Q r) -∗
  swp (loop n (fun '(c, i) =>
    match c with
    | None => ret (inr (None, i))
    | Some k =>
        it <- item k ;;
        r <- cJSON_strcasecmp (name it) (Some p) ;;
        if r =? 0 then ret (inr (Some k, i)) else ret (inl (next it, i + 1))
    end) (f, k)) Q.
Proof.
  revert l f pv k Q. induction n as [|n IH]; intros l f pv k Q Hf Hp; [lia|].
  iIntros "Hs Hp HQ". iApply swp_loop. destruct l as [|t l]; cbn [segment_of].
  - iDestruct "Hs" as "[-> ->]". sret. iApply ("HQ" $! (None, k) with "Hp"). done.
  - iDestruct "Hs" as "(%i & %n' & -> & Ht & Hs)". cbn [List.length forallb] in Hf, Hp.
    apply andb_true_iff in Hp as [Hpt Hp]. sbind.
    iApply (swp_item_tree with "Ht"). iIntros (ch vs nm) "Hi Ho". unfold owned.
    unfold plain in Hpt. destruct (is_reference _) eqn:Er; [done|]. destruct (is_const _) eqn:Ec; [done|].
    iDestruct "Ho" as "[Hvc Hn]". sbind. iApply (swp_strcasecmp with "Hn Hp"). iIntros (v Hv) "Hn Hp".
    iAssert (tree_at t i n' pv) with "[Hi Hvc Hn]" as "Ht".
    { rw tree_at_item. iExists ch, vs, nm. unfold owned. rw Er Ec. iFrame. }
    rw Hv. fold (named s t). destruct (named s t) eqn:Hname.
    + sret. iApply ("HQ" $! (Some i, k) with "Hp"). iExists [], t, l. iSplit; [done|].
      iSplit; [iPureIntro; change (@zlen tree []) with 0; cbn; lia|]. iSplit; [done|]. iExists n', pv. by iFrame.
    + sret. iApply (IH with "Hs Hp"); [lia|done|]. iIntros ([[j|] k']) "Hp Hr"; cbn.
      * iDestruct "Hr" as "(%l1 & %t' & %l2 & -> & %Hk & %Hl1 & Hfoc)". iApply ("HQ" $! (Some j, k') with "Hp"). cbn.
        iExists (t :: l1), t', l2. iSplit; [done|]. iSplit; [iPureIntro; rewrite zlen_cons; lia|].
        iSplit; [iPureIntro; cbn; by rw Hname|]. iApply (focus_cons with "Ht Hfoc").
      * iDestruct "Hr" as "(%Hl & Hs)". iApply ("HQ" $! (None, k') with "Hp"). cbn. rw Hname Hl. iSplit; [done|].
        iExists i, n'. by iFrame.
Qed.
End Names.

(** cJSON_Duplicate copies a tree, or gives back what it copied when memory runs
    out. *)

Lemma plain_type ty : is_reference ty = false -> without_reference ty = ty.
Proof.
  unfold is_reference, without_reference. intros H%negb_false_iff%Z.eqb_eq. rewrite -Z.ldiff_land. apply Z.bits_inj. intros n.
  assert (Z.testbit (Z.land ty cJSON_IsReference) n = false) as Hn by (by rewrite H Z.bits_0).
  rewrite Z.land_spec in Hn. rewrite Z.ldiff_spec. destruct (Z.testbit ty n); [|done]. cbn in *. by rewrite Hn.
Qed.

Section Copy.
Context (can_malloc : allocator -> list Z -> Z -> bool) (fuel : nat).
Abbreviation oom := (out_of_memory can_malloc).

Lemma swp_copy_string p s set new c (Q : bool -> hprop) :
  set None c = c -> text_at p s -∗ new ↦ Item c -∗
  (∀ q ok, text_at p s -∗ new ↦ Item (set q c) -∗
     match ok with
     | true => text_at q s
     | false => ⟨oom /\ q = None⟩
     end -∗ Q ok) -∗
  swp (copy_string can_malloc p set new) Q.
Proof.
  intros Hset. destruct p as [p|], s as [s|]; cbn [text_at]; iIntros "Hp Hn HQ"; [|iDestruct "Hp" as %[]..|].
  - sbind. iApply (swp_strdup with "Hp"). iIntros (r) "Hp Hr". sbind. iApply (swp_edit with "Hn"). iIntros "Hn". sret.
    iApply ("HQ" $! r with "Hp Hn"). destruct r as [q|]; cbn [bool_decide]; [done|]. iDestruct "Hr" as %Hoom. done.
  - sret. iApply ("HQ" $! None true with "[//] [Hn] [//]"). by rw Hset.
Qed.

Lemma all_plain_data d kids : all_plain (Tree d kids) = true -> is_reference (d_type d) = false /\ is_const (d_type d) = false /\ forallb all_plain kids = true.
Proof.
  cbn [all_plain]. unfold plain. intros [[H1%negb_true_iff H2%negb_true_iff]%andb_true_iff H3]%andb_true_iff. done.
Qed.

(** An item of its own. *)
Lemma close_item d kids i nx pv ch vs nm :
  is_reference (d_type d) = false -> is_const (d_type d) = false ->
  i ↦ Item (item_of d nx pv ch vs nm) -∗ text_at vs (d_string d) -∗ chain kids ch -∗ text_at nm (d_name d) -∗
  tree_at (Tree d kids) i nx pv.
Proof.
  iIntros (Hr Hc) "Hi Hv Hk Hn". rw tree_at_unfold. iExists ch, vs, nm. unfold owned. rw Hr Hc. iFrame.
Qed.

Lemma open_item d kids i nx pv :
  is_reference (d_type d) = false -> is_const (d_type d) = false ->
  tree_at (Tree d kids) i nx pv ⊢ ∃ ch vs nm, i ↦ Item (item_of d nx pv ch vs nm) ∗ text_at vs (d_string d) ∗ chain kids ch ∗ text_at nm (d_name d).
Proof.
  iIntros (Hr Hc) "Ht". rw tree_at_unfold. iDestruct "Ht" as "(%ch & %vs & %nm & Hi & Ho)". unfold owned. rw Hr Hc.
  iDestruct "Ho" as "[[Hv Hk] Hn]". iExists ch, vs, nm. iFrame.
Qed.

(** A copied item: all of it, or nothing. *)
Definition copied (t : tree) (r : option nat) : hprop :=
  match r with Some j => tree_at t j None None | None => ⟨oom⟩ end.

Definition copies (dup : option nat -> M memory (option nat)) (f : tree -> tree) (t : tree) : Prop :=
  forall i nx pv (Q : option nat -> hprop),
    tree_at t i nx pv -∗ (∀ r, tree_at t i nx pv -∗ copied (f t) r -∗ Q r) -∗ swp (dup (Some i)) Q.

Definition copy_children (dup : option nat -> M memory (option nat)) (new : nat) :
    option nat * option nat -> M memory (option nat * option nat + option nat) := fun '(cptr, nptr) =>
                match cptr with
                | None => ret (inr (Some new))
                | Some c =>
                    newchild <- dup (Some c) ;;
                    match newchild with
                    | None => cJSON_Delete fuel (Some new) ;; ret (inr None)
                    | Some nc =>
                        match nptr with
                        | Some np => edit (set_next newchild) np ;; edit (set_prev (Some np)) nc
                        | None => edit (set_child newchild) new
                        end ;;
                        cc <- item c ;;
                        ret (inl (next cc, newchild))
                    end
                end.

(** The children that are left, and those that were copied. *)
Lemma swp_copy_children dup d l done_ n ch pv la new nptr (Q : option nat -> hprop) :
  is_reference (d_type d) = false -> (List.length l < n)%nat -> (tree_size (Tree d (done_ ++ l)) < fuel)%nat ->
  Forall (copies dup (fun t => t)) l ->
  segment l ch pv None la -∗
  (∃ ch' vs nm, new ↦ Item (item_of d None None ch' vs nm) ∗ segment done_ ch' None None nptr ∗ strings d vs nm) -∗
  (∀ r, segment l ch pv None la -∗ copied (Tree d (done_ ++ l)) r -∗ Q r) -∗
  swp (loop n (copy_children dup new) (ch, nptr)) Q.
Proof.
  intros Hr. revert l done_ ch pv nptr. induction n as [|n IH]; intros l done_ ch pv nptr Hn Hsize Hl; [lia|].
  iIntros "Hl (%ch' & %vs & %nm & Hnew & Hdone & Hs) HQ". iApply swp_loop. destruct Hl as [|t l Ht Hl]; cbn [segment_of].
  { iDestruct "Hl" as "[-> ->]". sret. iApply ("HQ" $! (Some new)); [done|]. rw app_nil_r. iApply (close_array with "Hnew Hdone Hs"). done. }
  iDestruct "Hl" as "(%i & %nx & -> & Ht & Hl)". sbind. iApply (Ht with "Ht"). iIntros ([nc|]) "Ht Hc"; cbn [copied]; cycle 1.
  { iDestruct "Hc" as %Hoom. sbind. iDestruct (close_array with "Hnew Hdone Hs") as "Hnew"; [done|].
    iApply (swp_cJSON_Delete with "Hnew"); [cbn [tree_size] in *; rewrite sum_list_with_app in Hsize; lia|]. sret.
    iApply ("HQ" $! None with "[Ht Hl]"); [iExists i, nx; by iFrame|done]. }
  iAssert (∀ R : unit -> hprop, ((∃ ch' vs nm, new ↦ Item (item_of d None None ch' vs nm) ∗ segment (done_ ++ [t]) ch' None None (Some nc) ∗ strings d vs nm) -∗ R tt) -∗
    swp (match nptr with
         | Some np => edit (set_next (Some nc)) np ;; edit (set_prev (Some np)) nc
         | None => edit (set_child (Some nc)) new
         end) R)%I with "[Hnew Hdone Hs Hc]" as "Hlink".
  { iIntros (R) "HR". destruct done_ as [|t0 done_].
    - cbn [segment_of]. iDestruct "Hdone" as "[-> <-]". iApply (swp_edit with "Hnew"). iIntros "Hnew". iApply "HR".
      iExists (Some nc), vs, nm. iFrame "Hnew Hs". iExists nc, None. by iFrame.
    - iDestruct (last_is_Some (t0 :: done_) with "Hdone") as %[np ->]; [done|]. sbind.
      iApply (swp_relink_next with "Hdone"); [done|]. iIntros "Hdone". iApply (swp_link_prev with "Hc"). iIntros "Hc". iApply "HR".
      iExists ch', vs, nm. iFrame "Hnew Hs". iApply segment_snoc. iExists nc, (Some np). by iFrame. }
  sbind. iApply "Hlink". iIntros "Hnew". sbind. iApply (swp_next with "Ht"). iIntros (c (Hnx & _)) "Ht". sret. rw Hnx.
  iApply (IH l (done_ ++ [t]) with "Hl Hnew"); [cbn in Hn; lia|by rewrite -app_assoc|done|]. iIntros (r) "Hl Hc". rw -app_assoc.
  iApply ("HQ" with "[Ht Hl] Hc"). iExists i, nx. by iFrame.
Qed.

(** The copy of an item, with its children when [recurse] is set. *)
Definition copy_of (recurse : bool) (t : tree) : tree := if recurse then t else Tree (data_of t) [].

Lemma swp_duplicate n recurse t : all_plain t = true -> (tree_size t < n)%nat -> (tree_size t < fuel)%nat ->
  copies (fun i => duplicate can_malloc fuel n i recurse) (copy_of recurse) t.
Proof.
  revert recurse t. induction n as [|n IH]; intros recurse [d kids] Hp Hn Hf i nx pv Q; [lia|].
  apply all_plain_data in Hp as (Hr & Hc & Hk). iIntros "Ht HQ". cbn [duplicate]. sbind.
  iApply swp_new_item. iIntros ([new|]) "Hnew"; cycle 1.
  { sret. iApply ("HQ" $! None with "Ht Hnew"). }
  iDestruct (open_item with "Ht") as (ch vs nm) "(Hi & Hv & Hkids & Hnm)"; [done|done|].
  iAssert (i ↦ Item (item_of d nx pv ch vs nm) -∗ text_at vs (d_string d) -∗ chain kids ch -∗ text_at nm (d_name d) -∗
    tree_at (Tree d kids) i nx pv)%I as "Hclose"; [iIntros "Hi Hv Hk Hn"; iApply (close_item with "Hi Hv Hk Hn"); done|].
  sbind. iApply (swp_item with "Hi"). iIntros "Hi". cbn [valuedouble valueint type valuestring name child item_of].
  sbind. iApply (swp_edit with "Hnew"). iIntros "Hnew". rw plain_type //. sbind.
  iApply (swp_copy_string with "Hv Hnew"); [done|]. iIntros (q [|]) "Hv Hnew Hq"; cbn [negb]; cycle 1.
  { iDestruct "Hq" as %[Hoom ->]. sbind. iApply (swp_cJSON_Delete _ (Tree (mkData (d_type d) None (d_int d) (d_double d) None) []) with "[Hnew]"); [cbn in *; lia| |].
    { iApply (close_item (mkData (d_type d) None (d_int d) (d_double d) None) [] new None None None None None with "Hnew"); [done|done|done|by iExists None|done]. }
    sret. iApply ("HQ" $! None with "[-]"); [iApply ("Hclose" with "Hi Hv Hkids Hnm")|done]. }
  sbind. iApply (swp_copy_string with "Hnm Hnew"); [done|]. iIntros (q' [|]) "Hnm Hnew Hq'"; cbn [negb]; cycle 1.
  { iDestruct "Hq'" as %[Hoom ->]. sbind. iApply (swp_cJSON_Delete _ (Tree (mkData (d_type d) (d_string d) (d_int d) (d_double d) None) []) with "[Hnew Hq]"); [cbn in *; lia| |].
    { iApply (close_item (mkData (d_type d) (d_string d) (d_int d) (d_double d) None) [] new None None None q None with "Hnew Hq"); [done|done|by iExists None|done]. }
    sret. iApply ("HQ" $! None with "[-]"); [iApply ("Hclose" with "Hi Hv Hkids Hnm")|done]. }
  destruct recurse; cbn [negb copy_of data_of]; cycle 1.
  { sret. iApply ("HQ" $! (Some new) with "[-Hnew Hq Hq']"); [iApply ("Hclose" with "Hi Hv Hkids Hnm")|].
    iApply (close_item d [] new None None None q q' with "Hnew Hq [] Hq'"); [done|done|by iExists None]. }
  iDestruct "Hkids" as "(%la & Hkids)".
  iApply (swp_copy_children (fun i => duplicate can_malloc fuel n i true) d kids [] with "Hkids [Hnew Hq Hq']"); [done| |done| | |].
  - cbn [tree_size] in Hn. pose proof (list_size_length kids). lia.
  - rewrite forallb_forall in Hk. apply Forall_forall. intros t Ht. cbn [tree_size] in *. pose proof (sum_list_with_in t tree_size kids Ht).
    apply (IH true); [by apply Hk, list_elem_of_In|lia|lia].
  - iExists None, q, q'. unfold strings. rw Hc. iFrame. by iSplit.
  - iIntros (r) "Hkids Hr". iApply ("HQ" with "[-Hr] Hr"). iApply ("Hclose" with "Hi Hv [Hkids] Hnm"). by iExists la.
Qed.
End Copy.
