(* ===== verification/CJsonText.v ===== *)
(** JSON texts without memory: what a text says, as functions on the characters
    that are left.  They are the specification of the parser (CJsonParse.v) and
    of the printer (CJsonPrint.v).

    [value_of] reads a value and gives the tree and the rest of the text;
    [Wrong] is an error of syntax.  A string in which an escape is cut short by
    the end of the text, by a quote or by a backslash is [Unsafe]: there the two
    passes of parse_string do not agree. *)

From S2P Require Import Prelude.
From S2P Require Import CString.
From S2P Require Import JsonDouble.
From S2P Require Import CJson.
From S2P Require Import CJsonParse.
From S2P Require Import CJsonPrint.
From S2P Require Import CJsonFacts.

Inductive reading (A : Type) : Type :=
| Good (a : A) (rest : list Z)
| Wrong
| Unsafe.
Arguments Good {A} a rest.
Arguments Wrong {A}.
Arguments Unsafe {A}.

Definition and_then {A B} (r : reading A) (k : A -> list Z -> reading B) : reading B :=
  match r with Good a rest => k a rest | Wrong => Wrong | Unsafe => Unsafe end.

Fixpoint skip_space (l : list Z) : list Z :=
  match l with
  | c :: r => if negb (c =? 0) && (c <=? 32) then skip_space r else l
  | [] => []
  end.

(** ** Numbers *)

Fixpoint digits_of (k : double -> double) (n scale : double) (l : list Z) : double * double * list Z :=
  match l with
  | c :: r =>
      if isdigit c then digits_of k (d_add (d_mul n (d_of_Z 10)) (d_of_Z (c - 48))) (k scale) r
      else (n, scale, l)
  | [] => (n, scale, [])
  end.

Fixpoint exponent_of (e : Z) (l : list Z) : Z * list Z :=
  match l with
  | c :: r => if isdigit c then exponent_of (s32 (s32 (e * 10) + (c - 48))) r else (e, l)
  | [] => (e, [])
  end.

Definition minus_sign (l : list Z) : double * list Z :=
  match l with
  | c :: r => if c =? 45 then (d_of_Z (-1), r) else (d_of_Z 1, l)
  | [] => (d_of_Z 1, [])
  end.
Definition leading_zero (l : list Z) : list Z :=
  match l with
  | c :: r => if c =? 48 then r else l
  | [] => []
  end.
Definition integer_part (l : list Z) : double * double * list Z :=
  match l with
  | c :: _ => if (49 <=? c) && (c <=? 57) then digits_of (fun x => x) d_zero d_zero l else (d_zero, d_zero, l)
  | [] => (d_zero, d_zero, [])
  end.
Definition fraction_part (n scale : double) (l : list Z) : double * double * list Z :=
  match l with
  | c :: ((c1 :: _) as r) =>
      if (c =? 46) && isdigit c1 then digits_of (fun x => d_sub x (d_of_Z 1)) n scale r else (n, scale, l)
  | _ => (n, scale, l)
  end.
Definition exponent_part (l : list Z) : Z * Z * list Z :=
  match l with
  | c :: r =>
      if (c =? 101) || (c =? 69) then
        let '(s, r) := match r with
          | c :: r' => if c =? 43 then (1, r') else if c =? 45 then (-1, r') else (1, r)
          | [] => (1, [])
          end in
        let '(e, r) := exponent_of 0 r in (e, s, r)
      else (0, 1, l)
  | [] => (0, 1, [])
  end.

Definition number_of (pow : double -> double -> double) (l : list Z) : double * list Z :=
  let '(sign, l) := minus_sign l in
  let '(n, scale, l) := integer_part (leading_zero l) in
  let '(n, scale, l) := fraction_part n scale l in
  let '(e, s, l) := exponent_part l in
  (d_mul (d_mul sign n) (pow (d_of_Z 10) (d_add scale (d_of_Z (s32 (e * s))))), l).

(** ** Strings *)

(** RFC 3629. *)
Definition utf8 (u : Z) : list Z :=
  if u <? 128 then [u]
  else if u <? 2048 then [192 + u / 64; 128 + u mod 64]
  else if u <? 65536 then [224 + u / 4096; 128 + u / 64 mod 64; 128 + u mod 64]
  else [240 + u / 262144; 128 + u / 4096 mod 64; 128 + u / 64 mod 64; 128 + u mod 64].

(** The value of four hexadecimal digits, and 0 for anything else. *)
Definition hex4 (a b c d : Z) : Z :=
  match hex_digit a, hex_digit b, hex_digit c, hex_digit d with
  | Some a, Some b, Some c, Some d => ((a * 16 + b) * 16 + c) * 16 + d
  | _, _, _, _ => 0
  end.

(** A character that may stand in an escape. *)
Definition inner (c : Z) : bool := negb ((c =? 0) || (c =? 34) || (c =? 92)).
Definition all_inner (a b c d : Z) : bool := inner a && inner b && inner c && inner d.

Definition is_low (u : Z) : bool := (56320 <=? u) && (u <=? 57343).
Definition is_high (u : Z) : bool := (55296 <=? u) && (u <=? 56319).

(** The characters up to the closing quote, or to the end of the text. *)
Fixpoint decode (l : list Z) : reading (list Z) :=
  let more s r := match decode r with Good x rest => Good (s ++ x) rest | r => r end in
  match l with
  | [] => Unsafe
  | c :: r =>
      if c =? 34 then Good [] r
      else if c =? 0 then Good [] l
      else if negb (c =? 92) then more [c] r
      else match r with
           | [] => Unsafe
           | x :: r =>
               if x =? 0 then Unsafe
               else if negb (x =? 117) then more [escaped_char x] r
               else match r with
                    | h1 :: h2 :: h3 :: h4 :: r =>
                        if negb (all_inner h1 h2 h3 h4) then Unsafe else
                        let u := hex4 h1 h2 h3 h4 in
                        if is_low u || (u =? 0) then more [] r
                        else if is_high u then
                          match r with
                          | b :: u' :: r' =>
                              if (b =? 92) && (u' =? 117) then
                                match r' with
                                | k1 :: k2 :: k3 :: k4 :: r' =>
                                    if negb (all_inner k1 k2 k3 k4) then Unsafe else
                                    let v := hex4 k1 k2 k3 k4 in
                                    if is_low v
                                    then more (utf8 (65536 + (u - 55296) * 1024 + (v - 56320))) r'
                                    else more [] r'
                                | _ => Unsafe
                                end
                              else more [] r
                          | _ => more [] r
                          end
                        else more (utf8 u) r
                    | _ => Unsafe
                    end
           end
  end.

Definition string_of (l : list Z) : reading (list Z) :=
  match l with
  | c :: r => if c =? 34 then decode r else Wrong
  | [] => Wrong
  end.

(** ** Values *)

Definition leaf (t : Z) (s : option (list Z)) (n : Z) (d : double) : tree := Tree (mkData t s n d None) [].
Definition with_name (s : list Z) (t : tree) : tree :=
  let 'Tree d kids := t in Tree (mkData (d_type d) (d_string d) (d_int d) (d_double d) (Some s)) kids.

(** The elements after the first one. *)
Fixpoint elements_of (n : nat) (element : list Z -> reading tree) (close : Z) (l : list Z) : reading (list tree) :=
  match n with
  | O => Unsafe
  | S n =>
      match l with
      | c :: r =>
          if c =? 44 then
            and_then (element r) (fun t r => and_then (elements_of n element close r) (fun ts r => Good (t :: ts) r))
          else if c =? close then Good [] r
          else Wrong
      | [] => Unsafe
      end
  end.

(** What follows the opening bracket. *)
Definition list_of (element : list Z -> reading tree) (close : Z) (l : list Z) : reading (list tree) :=
  match skip_space l with
  | c :: r =>
      if c =? close then Good [] r
      else and_then (element (c :: r)) (fun t r =>
             and_then (elements_of (S (length r)) element close r) (fun ts r => Good (t :: ts) r))
  | [] => Unsafe
  end.

Definition element_of (value : list Z -> reading tree) (l : list Z) : reading tree :=
  and_then (value (skip_space l)) (fun t r => Good t (skip_space r)).

Definition member_of (value : list Z -> reading tree) (l : list Z) : reading tree :=
  and_then (string_of (skip_space l)) (fun s r =>
    match skip_space r with
    | c :: r =>
        if c =? 58 then and_then (value (skip_space r)) (fun t r => Good (with_name s t) (skip_space r))
        else Wrong
    | [] => Unsafe
    end).

Section Value.
Context (pow : double -> double -> double) (int_overflow : double -> Z).

Fixpoint value_of (n : nat) (l : list Z) : reading tree :=
  match n with
  | O => Unsafe
  | S n =>
      if is_prefix (bytes "null") l then Good (leaf cJSON_NULL None 0 d_zero) (drop 4 l) else
      if is_prefix (bytes "false") l then Good (leaf cJSON_False None 0 d_zero) (drop 5 l) else
      if is_prefix (bytes "true") l then Good (leaf cJSON_True None 1 d_zero) (drop 4 l) else
      match l with
      | [] => Unsafe
      | c :: r =>
          if c =? 34 then and_then (decode r) (fun s r => Good (leaf cJSON_String (Some s) 0 d_zero) r)
          else if (c =? 45) || isdigit c then
            let '(d, r) := number_of pow l in
            Good (leaf cJSON_Number None (int_of_double int_overflow d) d) r
          else if c =? 91 then
            and_then (list_of (element_of (value_of n)) 93 r) (fun ts r =>
              Good (Tree (mkData cJSON_Array None 0 d_zero None) ts) r)
          else if c =? 123 then
            and_then (list_of (member_of (value_of n)) 125 r) (fun ts r =>
              Good (Tree (mkData cJSON_Object None 0 d_zero None) ts) r)
          else Wrong
      end
  end.

(** A whole text. *)
Definition text_value (l : list Z) : reading tree := value_of (S (length l)) (skip_space l).
End Value.

(** * Printing *)

(** A string between quotes. *)
Definition escape (c : Z) : list Z :=
  if needs_escape c then 92 :: (match escape_letter c with Some x => [x] | None => fmt_u4 c end) else [c].
Definition quoted (s : list Z) : list Z := 34 :: flat_map escape s ++ [34].

(** The text of a number. *)
Definition number_text (n : Z) (d : double) : list Z :=
  let v := d_of_Z n in
  if SpecFloat.SFeqb d d_zero then bytes "0"
  else if SpecFloat.SFleb (SpecFloat.SFabs (d_sub v d)) DBL_EPSILON &&
          SpecFloat.SFleb d (d_of_Z INT_MAX) && SpecFloat.SFleb (d_of_Z INT_MIN) d
  then fmt_d n
  else if SpecFloat.SFleb (SpecFloat.SFabs (d_sub (d_floor d) d)) DBL_EPSILON &&
          SpecFloat.SFltb (SpecFloat.SFabs d) d_1e60 then fmt_f 0 d
  else if SpecFloat.SFltb (SpecFloat.SFabs d) d_1em6 || SpecFloat.SFltb d_1e9 (SpecFloat.SFabs d) then fmt_e d
  else fmt_f 6 d.

Definition tabs (n : nat) : list Z := replicate n 9.

(** The texts of the elements, with commas between them. *)
Fixpoint joined (sep : list Z) (l : list (list Z)) : list Z :=
  match l with
  | [] => []
  | [x] => x
  | x :: l => x ++ sep ++ joined sep l
  end.

Section Lists.
Context {A B : Type} (f : A -> option B).
Fixpoint all_some (l : list A) : option (list B) :=
  match l with
  | [] => Some []
  | x :: l => match f x, all_some l with Some y, Some ys => Some (y :: ys) | _, _ => None end
  end.
End Lists.

(** The text of a value, if it has one; [fmt] is with spaces, tabs and lines. *)
Fixpoint render (fmt : bool) (depth : nat) (t : tree) : option (list Z) :=
  let 'Tree d kids := t in
  let ty := Z.land (d_type d) 255 in
  if ty =? cJSON_NULL then Some (bytes "null")
  else if ty =? cJSON_False then Some (bytes "false")
  else if ty =? cJSON_True then Some (bytes "true")
  else if ty =? cJSON_Number then Some (number_text (d_int d) (d_double d))
  else if ty =? cJSON_String then option_map quoted (d_string d)
  else if ty =? cJSON_Array then
    match all_some (render fmt (S depth)) kids with
    | Some l => Some (91 :: joined (if fmt then [44; 32] else [44]) l ++ [93])
    | None => None
    end
  else if ty =? cJSON_Object then
    match all_some (fun t =>
            match d_name (data_of t), render fmt (S depth) t with
            | Some s, Some v =>
                Some ((if fmt then tabs (S depth) else []) ++ quoted s ++ [58] ++ (if fmt then [9] else []) ++ v)
            | _, _ => None
            end) kids with
    | Some l =>
        Some (123 :: (if fmt then [10] else []) ++ joined (if fmt then [44; 10] else [44]) l ++
              (if fmt then (match kids with [] => [] | _ => [10] end) ++ tabs (match kids with [] => depth - 1 | _ => depth end) else []) ++ [125])
    | None => None
    end
  else None.
