(* ===== verification/CJsonTextFacts.v ===== *)
(** Reading the text of CJsonParse.v: white space, words and numbers are read as
    CJsonText.v says, whatever follows, as long as the text is terminated.

    The second part is about strings, which parse_string goes over twice; the
    third about the grammar itself and the texts without broken escapes. *)

From iris.proofmode Require Import proofmode.
From stdpp Require Import gmap.
From S2P Require Import Prelude.
From S2P Require Import CMonad.
From S2P Require Import CString.
From S2P Require Import JsonDouble.
From S2P Require Import JsonHeap.
From S2P Require Import CJson.
From S2P Require Import CJsonParse.
From S2P Require Import JsonLogic.
From S2P Require Import CJsonFacts.
From S2P Require Import CJsonText.

(** ** Going through a text *)

(** [r] is what is left of [l] after some characters that are not NUL. *)
Definition passed (l r : list Z) : Prop := exists a, l = a ++ r /\ c_string a.

#[export] Instance passed_preorder : PreOrder passed.
Proof.
  split.
  - intros l. exists []. split; [done|constructor].
  - intros l1 l2 l3 (a & -> & Ha) (b & -> & Hb). exists (a ++ b). rewrite <- app_assoc.
    split; [done|]. by apply Forall_app_2.
Qed.

Lemma passed_cons c l r : c <> 0 -> passed l r -> passed (c :: l) r.
Proof. intros Hc (a & -> & Ha). exists (c :: a). split; [done|]. by constructor. Qed.

Lemma passed_app a l : c_string a -> passed (a ++ l) l.
Proof. intros Ha. by exists a. Qed.

Lemma passed_terminated l r : passed l r -> 0 ∈ l -> 0 ∈ r.
Proof.
  intros (a & -> & Ha) [H|H]%elem_of_app; [|done]. unfold c_string in Ha. rewrite Forall_forall in Ha. by apply Ha in H.
Qed.

Lemma passed_length l r : passed l r -> (List.length r <= List.length l)%nat.
Proof. intros (a & -> & _). rewrite length_app. lia. Qed.

Lemma terminated_tail c l : c <> 0 -> 0 ∈ c :: l -> 0 ∈ l.
Proof. intros Hc [?|?]%elem_of_cons; [congruence|done]. Qed.

Lemma isdigit_nonzero c : isdigit c = true -> c <> 0.
Proof. unfold isdigit. rewrite andb_true_iff Z.leb_le Z.leb_le. lia. Qed.

Lemma skip_space_passed l : passed l (skip_space l).
Proof.
  induction l as [|c l IH]; cbn; [done|]. destruct (Z.eqb_spec c 0); cbn; [done|].
  destruct (c <=? 32); [|done]. by apply passed_cons.
Qed.

Lemma digits_of_passed k n s l n' s' r : digits_of k n s l = (n', s', r) -> passed l r.
Proof.
  revert n s. induction l as [|c l IH]; intros n s; cbn; [by intros [= _ _ <-]|].
  destruct (isdigit c) eqn:E; [|by intros [= _ _ <-]].
  intros H%IH. by apply passed_cons; [apply isdigit_nonzero|].
Qed.

Lemma exponent_of_passed e l e' r : exponent_of e l = (e', r) -> passed l r.
Proof.
  revert e. induction l as [|c l IH]; intros e; cbn; [by intros [= _ <-]|].
  destruct (isdigit c) eqn:E; [|by intros [= _ <-]].
  intros H%IH. by apply passed_cons; [apply isdigit_nonzero|].
Qed.

Lemma minus_sign_passed l s r : minus_sign l = (s, r) -> passed l r.
Proof.
  destruct l as [|c l]; cbn; [by intros [= _ <-]|]. destruct (Z.eqb_spec c 45); intros [= _ <-]; [|done].
  apply passed_cons; [lia|done].
Qed.

Lemma leading_zero_passed l : passed l (leading_zero l).
Proof. destruct l as [|c l]; cbn; [done|]. destruct (Z.eqb_spec c 48); [|done]. apply passed_cons; [lia|done]. Qed.

Lemma integer_part_passed l x s r : integer_part l = (x, s, r) -> passed l r.
Proof.
  destruct l as [|c l]; [by intros [= _ _ <-]|]. unfold integer_part.
  destruct (_ && _); [apply digits_of_passed|by intros [= _ _ <-]].
Qed.

Lemma fraction_part_passed x s l x' s' r : fraction_part x s l = (x', s', r) -> passed l r.
Proof.
  destruct l as [|c [|c1 l]]; [by intros [= _ _ <-]..|]. unfold fraction_part.
  destruct (Z.eqb_spec c 46); cbn [andb]; [|by intros [= _ _ <-]].
  destruct (isdigit c1); [|by intros [= _ _ <-]]. intros H%digits_of_passed. apply passed_cons; [lia|done].
Qed.

Lemma exponent_part_passed l e s r : exponent_part l = (e, s, r) -> passed l r.
Proof.
  destruct l as [|c l]; [by intros [= _ _ <-]|]. unfold exponent_part.
  destruct (_ || _) eqn:Ec; [|by intros [= _ _ <-]]. assert (c <> 0) by (intros ->; done).
  set (p := match l with [] => _ | _ :: _ => _ end). destruct p as [s0 r0] eqn:E.
  destruct (exponent_of 0 r0) as [e1 r1] eqn:E1. intros [= _ _ <-]. apply passed_cons; [done|].
  apply exponent_of_passed in E1. etransitivity; [|exact E1].
  unfold p in E. destruct l as [|c1 l]; [by injection E as _ <-|].
  destruct (Z.eqb_spec c1 43); [|destruct (Z.eqb_spec c1 45)]; injection E as _ <-; [..|done].
  all: apply passed_cons; [lia|done].
Qed.

Lemma number_of_passed pow l d r : number_of pow l = (d, r) -> passed l r.
Proof.
  unfold number_of. destruct (minus_sign l) as [s l1] eqn:E1. destruct (integer_part _) as [[x sc] l2] eqn:E2.
  destruct (fraction_part _ _ _) as [[x' sc'] l3] eqn:E3. destruct (exponent_part l3) as [[e sg] l4] eqn:E4.
  intros [= _ <-]. apply minus_sign_passed in E1. apply integer_part_passed in E2.
  apply fraction_part_passed in E3. apply exponent_part_passed in E4.
  etransitivity; [exact E1|]. etransitivity; [apply leading_zero_passed|].
  etransitivity; [exact E2|]. by etransitivity.
Qed.

Section Scan.
Context (text : list Z).

(** What is left of the text from an offset. *)
Definition at_pos (i : Z) (l : list Z) : Prop := 0 <= i /\ drop (Z.to_nat i) text = l.

Lemma at_pos_char i c l : at_pos i (c :: l) -> zget text i = Some c.
Proof.
  intros [Hi Hl]. unfold zget. rewrite (proj2 (Z.leb_le _ _) Hi).
  rewrite <- (Nat.add_0_r (Z.to_nat i)), <- lookup_drop, Hl. done.
Qed.

Lemma at_pos_app i a l : at_pos i (a ++ l) -> at_pos (i + zlen a) l.
Proof.
  intros [Hi Hl]. pose proof (zlen_nonneg a). split; [lia|].
  rewrite Z2Nat.inj_add; [|done|done]. rewrite <- drop_drop, Hl.
  unfold zlen. by rewrite Nat2Z.id drop_app_length.
Qed.

Lemma at_pos_next i c l : at_pos i (c :: l) -> at_pos (i + 1) l.
Proof. apply (at_pos_app i [c]). Qed.

Lemma at_pos_length i l : at_pos i l -> (List.length l <= List.length text)%nat.
Proof. intros [_ <-]. rewrite length_drop. lia. Qed.

Lemma at_pos_rounds i l : at_pos i l -> (List.length l < rounds text)%nat.
Proof. intros H%at_pos_length. unfold rounds. lia. Qed.

Lemma swp_char i c l (Q : Z -> hprop) : at_pos i (c :: l) -> Q c ⊢ swp (char text i) Q.
Proof. intros H%at_pos_char. unfold char. rewrite H. apply swp_access. Qed.

Lemma swp_skip_loop n i l (Q : option Z -> hprop) :
  at_pos i l -> 0 ∈ l -> (List.length l < n)%nat ->
  (∀ j, ⟨at_pos j (skip_space l)⟩ -∗ Q (Some j)) ⊢
  swp (loop n (fun i => c <- char text i ;;
        if negb (c =? 0) && (c <=? 32) then ret (inl (i + 1)) else ret (inr (Some i))) i) Q.
Proof.
  revert i l. induction n as [|n IH]; intros i l Hi H0 Hn; [lia|].
  destruct l as [|c l]; [by apply elem_of_nil in H0|]. cbn [skip_space List.length] in *.
  iIntros "HQ". iApply swp_loop. sbind. iApply swp_char; [done|].
  destruct (Z.eqb_spec c 0) as [->|Hc]; cbn; [by sret; iApply "HQ"|].
  destruct (c <=? 32); [|by sret; iApply "HQ"]. sret.
  iApply (IH with "HQ"); [by eapply at_pos_next|by eapply terminated_tail|lia].
Qed.

Lemma swp_skip i l (Q : option Z -> hprop) :
  at_pos i l -> 0 ∈ l -> (∀ j, ⟨at_pos j (skip_space l)⟩ -∗ Q (Some j)) ⊢ swp (skip text (Some i)) Q.
Proof. intros Hi H0. apply swp_skip_loop; [done|done|]. by eapply at_pos_rounds. Qed.

(** A prefix without a NUL. *)
Lemma swp_starts_with s i l (Q : bool -> hprop) :
  at_pos i l -> 0 ∈ l -> c_string s -> Q (is_prefix s l) ⊢ swp (starts_with text i s) Q.
Proof.
  revert i l. induction s as [|x s IH]; intros i l Hi H0 Hs; [by apply swp_ret|].
  apply Forall_cons in Hs as [Hx Hs]. destruct l as [|c l]; [by apply elem_of_nil in H0|]. cbn.
  iIntros "HQ". sbind. iApply swp_char; [done|]. rewrite (Z.eqb_sym c x).
  destruct (Z.eqb_spec x c) as [->|]; cbn; [|by sret].
  iApply (IH with "HQ"); [by eapply at_pos_next|by eapply terminated_tail|done].
Qed.

(** ** Numbers *)

Lemma swp_digits n k i l x s x' s' r (Q : Z * double * double -> hprop) :
  at_pos i l -> 0 ∈ l -> (List.length l < n)%nat -> digits_of k x s l = (x', s', r) ->
  (∀ j, ⟨at_pos j r⟩ -∗ Q (j, x', s')) ⊢
  swp (loop n (fun '(num, n, scale) =>
    c <- char text num ;;
    if isdigit c
    then ret (inl (num + 1, d_add (d_mul n (d_of_Z 10)) (d_of_Z (c - 48)), k scale))
    else ret (inr (num, n, scale))) (i, x, s)) Q.
Proof.
  revert i l x s. induction n as [|n IH]; intros i l x s Hi H0 Hn Hd; [lia|].
  destruct l as [|c l]; [by apply elem_of_nil in H0|]. cbn [digits_of List.length] in *.
  iIntros "HQ". iApply swp_loop. sbind. iApply swp_char; [done|].
  destruct (isdigit c) eqn:E.
  - sret. iApply (IH with "HQ"); [by eapply at_pos_next|by eapply terminated_tail; [apply isdigit_nonzero|]|lia|done].
  - injection Hd as <- <- <-. sret. by iApply "HQ".
Qed.

Lemma swp_exponent n i l e e' r (Q : Z * Z -> hprop) :
  at_pos i l -> 0 ∈ l -> (List.length l < n)%nat -> exponent_of e l = (e', r) ->
  (∀ j, ⟨at_pos j r⟩ -∗ Q (j, e')) ⊢
  swp (loop n (fun '(num, subscale) =>
    c <- char text num ;;
    if isdigit c then ret (inl (num + 1, s32 (s32 (subscale * 10) + (c - 48))))
    else ret (inr (num, subscale))) (i, e)) Q.
Proof.
  revert i l e. induction n as [|n IH]; intros i l e Hi H0 Hn Hd; [lia|].
  destruct l as [|c l]; [by apply elem_of_nil in H0|]. cbn [exponent_of List.length] in *.
  iIntros "HQ". iApply swp_loop. sbind. iApply swp_char; [done|].
  destruct (isdigit c) eqn:E.
  - sret. iApply (IH with "HQ"); [by eapply at_pos_next|by eapply terminated_tail; [apply isdigit_nonzero|]|lia|done].
  - injection Hd as <- <-. sret. by iApply "HQ".
Qed.

Lemma terminated_cons l : 0 ∈ l -> exists c r, l = c :: r.
Proof. destruct l as [|c r]; [by intros ?%elem_of_nil|eauto]. Qed.

(** The parts of a number, one after the other. *)
Lemma swp_sign i c l s r (Q : double * Z -> hprop) :
  at_pos i (c :: l) -> minus_sign (c :: l) = (s, r) ->
  (∀ j, ⟨at_pos j r⟩ -∗ Q (s, j)) ⊢
  swp (if c =? 45 then ret (d_of_Z (-1), i + 1) else ret (d_of_Z 1, i)) Q.
Proof.
  unfold minus_sign. iIntros (Hi Hr) "HQ". destruct (c =? 45); injection Hr as <- <-; sret; iApply "HQ".
  - iPureIntro. by eapply at_pos_next.
  - done.
Qed.

Lemma leading_zero_pos i c l :
  at_pos i (c :: l) -> at_pos (if c =? 48 then i + 1 else i) (leading_zero (c :: l)).
Proof. intros H. cbn. destruct (c =? 48); [by eapply at_pos_next|done]. Qed.

Lemma swp_integer i c l x s r (Q : Z * double * double -> hprop) :
  at_pos i (c :: l) -> 0 ∈ c :: l -> integer_part (c :: l) = (x, s, r) ->
  (∀ j, ⟨at_pos j r⟩ -∗ Q (j, x, s)) ⊢
  swp (if (49 <=? c) && (c <=? 57) then scan_digits text (fun x => x) (i, d_zero, d_zero)
       else ret (i, d_zero, d_zero)) Q.
Proof.
  unfold integer_part, scan_digits. iIntros (Hi H0 Hr) "HQ". destruct (_ && _).
  - iApply (swp_digits with "HQ"); [done|done|by eapply at_pos_rounds|done].
  - injection Hr as <- <- <-. sret. by iApply "HQ".
Qed.

Lemma swp_fraction {A} i c l x s x' s' r (k : Z * double * double -> M memory A) Q :
  at_pos i (c :: l) -> 0 ∈ c :: l -> fraction_part x s (c :: l) = (x', s', r) ->
  (∀ j, ⟨at_pos j r⟩ -∗ swp (k (j, x', s')) Q) ⊢
  swp (c1 <- (if c =? 46 then char text (i + 1) else ret 0) ;;
       p <- (if (c =? 46) && isdigit c1 then scan_digits text (fun x => d_sub x (d_of_Z 1)) (i + 1, x, s)
             else ret (i, x, s)) ;; k p) Q.
Proof.
  unfold fraction_part, scan_digits. iIntros (Hi H0 Hr) "HQ". sbind. destruct (Z.eqb_spec c 46) as [->|Hc]; cbn in *.
  - assert (0 ∈ l) as H0' by (by eapply terminated_tail; [|done]). destruct (terminated_cons l H0') as (c1 & l' & ->).
    iApply swp_char; [by eapply at_pos_next|]. sbind. destruct (isdigit c1).
    +  iApply (swp_digits with "HQ"); [by eapply at_pos_next|done|eapply at_pos_rounds, at_pos_next; done|done].
    + injection Hr as <- <- <-. sret. by iApply "HQ".
  - destruct l; injection Hr as <- <- <-; sret; sbind; sret; by iApply "HQ".
Qed.

Lemma exponent_of_rounds i l : at_pos i l -> (List.length l < rounds text)%nat.
Proof. apply at_pos_rounds. Qed.

Lemma swp_exponent_part i c l e s r (Q : Z * Z * Z -> hprop) :
  at_pos i (c :: l) -> 0 ∈ c :: l -> exponent_part (c :: l) = (e, s, r) ->
  (∀ j, ⟨at_pos j r⟩ -∗ Q (j, e, s)) ⊢
  swp (if (c =? 101) || (c =? 69) then
         c <- char text (i + 1) ;;
         let* (num, signsubscale) :=
           if c =? 43 then ret (i + 2, 1)
           else if c =? 45 then ret (i + 2, -1)
           else ret (i + 1, 1) in
         let* (num, subscale) := scan_exponent text (num, 0) in
         ret (num, subscale, signsubscale)
       else ret (i, 0, 1)) Q.
Proof.
  unfold exponent_part, scan_exponent. iIntros (Hi H0 Hr) "HQ". destruct (_ || _) eqn:Ec; cycle 1.
  { injection Hr as <- <- <-. sret. by iApply "HQ". }
  assert (c <> 0) as Hc by (intros ->; done). pose proof (terminated_tail _ _ Hc H0) as H0'.
  destruct (terminated_cons l H0') as (c1 & l' & ->). pose proof (at_pos_next _ _ _ Hi) as Hi'.
  sbind. iApply swp_char; [done|]. sbind.
  iAssert (∀ j l2, ⟨at_pos j l2⟩ -∗ ⟨0 ∈ l2⟩ -∗ ⟨(let '(e0, r0) := exponent_of 0 l2 in (e0, s, r0)) = (e, s, r)⟩ -∗
    (∀ j : Z, ⟨at_pos j r⟩ -∗ Q (j, e, s)) -∗
    swp (let* (num, subscale) := loop (rounds text) (fun '(num, subscale) =>
            c <- char text num ;;
            if isdigit c then ret (inl (num + 1, s32 (s32 (subscale * 10) + (c - 48))))
            else ret (inr (num, subscale))) (j, 0) in ret (num, subscale, s)) Q)%I as "Hexp".
  { iIntros (j l2 Hj Hl2 He) "HQ". destruct (exponent_of 0 l2) as [e0 r0] eqn:E. injection He as <- <-. sbind.
    iApply swp_exponent; [done|done|by eapply at_pos_rounds|done|]. iIntros (j' Hj'). sret. by iApply "HQ". }
  destruct (Z.eqb_spec c1 43) as [->|H43]; [|destruct (Z.eqb_spec c1 45) as [->|H45]].
  all: destruct (exponent_of 0 _) as [e0 r0] eqn:E; injection Hr as -> <- ->; sret.
  - iApply ("Hexp" $! _ l' with "[] [] [] HQ"); iPureIntro; [|by eapply terminated_tail; [|done]|by rw E].
    replace (i + 2) with (i + 1 + 1) by lia. by eapply at_pos_next.
  - iApply ("Hexp" $! _ l' with "[] [] [] HQ"); iPureIntro; [|by eapply terminated_tail; [|done]|by rw E].
    replace (i + 2) with (i + 1 + 1) by lia. by eapply at_pos_next.
  - iApply ("Hexp" $! _ (c1 :: l') with "[] [] [] HQ"); iPureIntro; [done|done|by rw E].
Qed.

Lemma swp_parse_number pow int_overflow it c0 i l d r (Q : option Z -> hprop) :
  at_pos i l -> 0 ∈ l -> number_of pow l = (d, r) ->
  it ↦ Item c0 -∗
  (∀ j, ⟨at_pos j r⟩ -∗
     it ↦ Item (set_type cJSON_Number (set_valueint (int_of_double int_overflow d) (set_valuedouble d c0))) -∗ Q (Some j)) -∗
  swp (parse_number int_overflow pow text it i) Q.
Proof.
  unfold number_of. iIntros (Hi H0 Hr) "Hit HQ".
  destruct (minus_sign l) as [s l1] eqn:E1. destruct (integer_part _) as [[x sc] l2] eqn:E2.
  destruct (fraction_part _ _ _) as [[x' sc'] l3] eqn:E3. destruct (exponent_part l3) as [[e sg] l4] eqn:E4.
  injection Hr as <- <-.
  assert (0 ∈ l1) as H1 by (eapply passed_terminated; [by eapply minus_sign_passed|done]).
  assert (0 ∈ leading_zero l1) as Hz by (eapply passed_terminated; [apply leading_zero_passed|done]).
  assert (0 ∈ l2) as H2 by (eapply passed_terminated; [by eapply integer_part_passed|done]).
  assert (0 ∈ l3) as H3 by (eapply passed_terminated; [by eapply fraction_part_passed|done]).
  destruct (terminated_cons l H0) as (c & l' & ->). sbind. iApply swp_char; [done|]. sbind.
  iApply swp_sign; [done|done|]. iIntros (j1 Hj1). destruct (terminated_cons l1 H1) as (c1 & l1' & ->).
  sbind. iApply swp_char; [done|]. apply leading_zero_pos in Hj1.
  set (j2 := if c1 =? 48 then j1 + 1 else j1) in *.
  destruct (terminated_cons _ Hz) as (c2 & l2' & Ez). rewrite Ez in Hj1 Hz E2.
  sbind. iApply swp_char; [done|]. sbind. iApply swp_integer; [done|done|done|]. iIntros (j3 Hj3).
  destruct (terminated_cons l2 H2) as (c3 & l3' & ->). sbind. iApply swp_char; [done|].
  iApply swp_fraction; [done|done|done|]. iIntros (j4 Hj4).
  destruct (terminated_cons l3 H3) as (c4 & l4' & ->). sbind. iApply swp_char; [done|].
  sbind. iApply swp_exponent_part; [done|done|done|]. iIntros (j5 Hj5).
  sbind. iApply (swp_edit with "Hit"). iIntros "Hit". sbind. iApply (swp_edit with "Hit"). iIntros "Hit".
  sbind. iApply (swp_edit with "Hit"). iIntros "Hit". sret. by iApply "HQ".
Qed.
End Scan.

(** parse_string reads a string as CJsonText.decode says: the first pass counts
    enough characters for what the second one writes, and the second one writes
    the characters, those of escapes in UTF-8. *)

(** * The relation behind decode *)

Inductive decodes : list Z -> list Z -> list Z -> Prop :=
| dec_quote r : decodes (34 :: r) [] r
| dec_end r : decodes (0 :: r) [] (0 :: r)
| dec_plain c r s e : inner c = true -> decodes r s e -> decodes (c :: r) (c :: s) e
| dec_escape x r s e : x <> 0 -> x <> 117 -> decodes r s e -> decodes (92 :: x :: r) (escaped_char x :: s) e
| dec_nothing a b c d r s e :
    all_inner a b c d = true -> is_low (hex4 a b c d) || (hex4 a b c d =? 0) = true ->
    decodes r s e -> decodes (92 :: 117 :: a :: b :: c :: d :: r) s e
| dec_char a b c d r s e :
    all_inner a b c d = true -> is_low (hex4 a b c d) || (hex4 a b c d =? 0) = false ->
    is_high (hex4 a b c d) = false ->
    decodes r s e -> decodes (92 :: 117 :: a :: b :: c :: d :: r) (utf8 (hex4 a b c d) ++ s) e
| dec_pair a b c d a' b' c' d' r s e :
    all_inner a b c d = true -> is_high (hex4 a b c d) = true ->
    all_inner a' b' c' d' = true -> is_low (hex4 a' b' c' d') = true ->
    decodes r s e ->
    decodes (92 :: 117 :: a :: b :: c :: d :: 92 :: 117 :: a' :: b' :: c' :: d' :: r)
      (utf8 (65536 + (hex4 a b c d - 55296) * 1024 + (hex4 a' b' c' d' - 56320)) ++ s) e
| dec_half a b c d a' b' c' d' r s e :
    all_inner a b c d = true -> is_high (hex4 a b c d) = true ->
    all_inner a' b' c' d' = true -> is_low (hex4 a' b' c' d') = false ->
    decodes r s e ->
    decodes (92 :: 117 :: a :: b :: c :: d :: 92 :: 117 :: a' :: b' :: c' :: d' :: r) s e
| dec_lone a b c d r s e :
    all_inner a b c d = true -> is_high (hex4 a b c d) = true ->
    is_prefix [92; 117] r = false ->
    decodes r s e -> decodes (92 :: 117 :: a :: b :: c :: d :: r) s e.

Lemma more_good (r0 : reading (list Z)) s0 s e :
  match r0 with Good x rest => Good (s0 ++ x) rest | Wrong => Wrong | Unsafe => Unsafe end = Good s e ->
  exists x, r0 = Good x e /\ s = s0 ++ x.
Proof. destruct r0 as [x rest| |]; [|done|done]. intros [= <- <-]. eauto. Qed.

Lemma decode_decodes l s e : decode l = Good s e -> decodes l s e.
Proof.
  remember (List.length l) as n eqn:Hn. assert (List.length l <= n)%nat as Hl by lia. clear Hn.
  revert l s e Hl. induction n as [|n IH]; intros l s e Hl; [destruct l; [done|cbn in Hl; lia]|].
  destruct l as [|c r]; [done|]. cbn [decode List.length] in *.
  destruct (Z.eqb_spec c 34) as [->|H34]; [intros [= <- <-]; constructor|].
  destruct (Z.eqb_spec c 0) as [->|H0]; [intros [= <- <-]; constructor|].
  destruct (Z.eqb_spec c 92) as [->|H92]; cbn [negb]; cycle 1.
  { intros (x & Hx & ->)%more_good. apply dec_plain; [|apply IH; [lia|done]].
    unfold inner. by rewrite (proj2 (Z.eqb_neq _ _) H34) (proj2 (Z.eqb_neq _ _) H0) (proj2 (Z.eqb_neq _ _) H92). }
  destruct r as [|x r]; [done|]. cbn [List.length] in *. destruct (Z.eqb_spec x 0) as [->|Hx0]; [done|].
  destruct (Z.eqb_spec x 117) as [->|H117]; cbn [negb]; cycle 1.
  { intros (x' & Hx & ->)%more_good. apply dec_escape; [done|done|]. apply IH; [lia|done]. }
  destruct r as [|h1 [|h2 [|h3 [|h4 r]]]]; try done. cbn [List.length] in *.
  destruct (all_inner h1 h2 h3 h4) eqn:Hin; cbn [negb]; [|done].
  destruct (is_low _ || _) eqn:Hlow.
  { intros (x' & Hx & ->)%more_good. apply dec_nothing; [done|done|]. apply IH; [lia|done]. }
  destruct (is_high _) eqn:Hhigh; cycle 1.
  { intros (x' & Hx & ->)%more_good. apply dec_char; [done..|]. apply IH; [lia|done]. }
  assert (forall s0 e0, is_prefix [92; 117] r = false ->
    match decode r with Good x rest => Good ([] ++ x) rest | Wrong => Wrong | Unsafe => Unsafe end = Good s0 e0 ->
    decodes (92 :: 117 :: h1 :: h2 :: h3 :: h4 :: r) s0 e0) as Hlone.
  { intros s0 e0 Hpre (x' & Hx & ->)%more_good. apply dec_lone; [done..|]. apply IH; [lia|done]. }
  destruct r as [|b [|u' r']].
  { by apply Hlone. }
  { apply Hlone. cbn. apply andb_false_r. }
  destruct ((b =? 92) && (u' =? 117)) eqn:Hbu; cycle 1.
  { apply Hlone. cbn [is_prefix]. by rewrite andb_true_r (Z.eqb_sym 92 b) (Z.eqb_sym 117 u'). }
  apply andb_true_iff in Hbu as [->%Z.eqb_eq ->%Z.eqb_eq].
  destruct r' as [|k1 [|k2 [|k3 [|k4 r']]]]; try done. cbn [List.length] in *.
  destruct (all_inner k1 k2 k3 k4) eqn:Hin'; cbn [negb]; [|done].
  destruct (is_low (hex4 k1 _ _ _)) eqn:Hlow'; intros (x' & Hx & ->)%more_good.
  - apply dec_pair; [done..|]. apply IH; [lia|done].
  - apply dec_half; [done..|]. apply IH; [lia|done].
Qed.

Lemma decode_not_wrong l : decode l <> Wrong.
Proof.
  remember (List.length l) as n eqn:Hn. assert (List.length l <= n)%nat as Hl by lia. clear Hn.
  revert l Hl. induction n as [|n IH]; intros l Hl; [destruct l; [done|cbn in Hl; lia]|].
  assert (forall s0 r, (List.length r <= n)%nat ->
    match decode r with Good x rest => Good (s0 ++ x) rest | Wrong => Wrong | Unsafe => Unsafe end <> Wrong) as Hmore.
  { intros s0 r Hr. specialize (IH r Hr). by destruct (decode r). }
  destruct l as [|c r]; [done|]. cbn [decode List.length] in *.
  destruct (c =? 34); [done|]. destruct (c =? 0); [done|]. destruct (negb (c =? 92)); [apply Hmore; lia|].
  destruct r as [|x r]; [done|]. cbn [List.length] in *. destruct (x =? 0); [done|].
  destruct (negb (x =? 117)); [apply Hmore; lia|].
  destruct r as [|h1 [|h2 [|h3 [|h4 r]]]]; try done. cbn [List.length] in *.
  destruct (negb _); [done|]. destruct (_ || _); [apply Hmore; lia|]. destruct (is_high _); [|apply Hmore; lia].
  destruct r as [|b [|u' r']]; cbn [List.length] in *; [apply Hmore; cbn; lia..|].
  destruct (_ && _); [|apply Hmore; cbn; lia].
  destruct r' as [|k1 [|k2 [|k3 [|k4 r']]]]; try done. cbn [List.length] in *.
  destruct (negb _); [done|]. destruct (is_low _); apply Hmore; lia.
Qed.

Lemma inner_neq c : inner c = true -> c <> 0 /\ c <> 34 /\ c <> 92.
Proof. unfold inner. destruct (Z.eqb_spec c 0), (Z.eqb_spec c 34), (Z.eqb_spec c 92); try done. Qed.

Lemma all_inner_each a b c d :
  all_inner a b c d = true -> inner a = true /\ inner b = true /\ inner c = true /\ inner d = true.
Proof. unfold all_inner. rewrite !andb_true_iff. tauto. Qed.

Lemma decodes_passed l s e : decodes l s e -> passed l e.
Proof.
  assert (forall a b c d r e, all_inner a b c d = true -> passed r e ->
    passed (92 :: 117 :: a :: b :: c :: d :: r) e) as Hu.
  { intros a b c d r e' (H1%inner_neq & H2%inner_neq & H3%inner_neq & H4%inner_neq)%all_inner_each Hr.
    repeat (apply passed_cons; [lia|]). done. }
  induction 1; [apply passed_cons; [lia|done]|done|apply passed_cons; [|done]|..]; auto.
  - apply inner_neq in H. lia.
  - do 2 (apply passed_cons; [lia|]). done.
Qed.

(** * UTF-8 *)

Lemma tail_byte u : u8 (Z.land (Z.lor u 128) 191) = 128 + u mod 64.
Proof.
  replace 191 with (Z.lor 63 128) by reflexivity. rewrite <- Z.lor_land_distr_l.
  change 63 with (Z.ones 6). rewrite Z.land_ones; [|lia]. pose proof (Z.mod_pos_bound u 64 ltac:(lia)).
  change 128 with (Z.shiftl 1 7) at 1. change (2 ^ 6) with 64. rewrite lor_shiftl; [|lia|lia].
  rewrite u8_small; [|unfold is_u8; lia]. lia.
Qed.

Lemma lead_byte u m k : 0 <= k -> 0 <= u < 2 ^ k -> 0 <= m -> u + m * 2 ^ k < 256 -> u8 (Z.lor u (Z.shiftl m k)) = u + m * 2 ^ k.
Proof.
  intros Hk Hu Hm H. rewrite lor_shiftl; [|done|done]. apply u8_small. unfold is_u8. split; [|done].
  assert (0 < 2 ^ k) by (apply Z.pow_pos_nonneg; lia). nia.
Qed.

Lemma shr6 u : Z.shiftr u 6 = u / 64.
Proof. by rewrite Z.shiftr_div_pow2. Qed.

(** A block with [w], then [k] characters that are not written yet, then [z]. *)
Definition gap_at (i : nat) (w : list Z) (k : Z) (z : list Z) (n : Z) : hprop :=
  (∃ g r, ⟨zlen g = k⟩ ∗ ⟨zlen r = n⟩ ∗ i ↦ Chars (map Some w ++ g ++ map Some z ++ r))%I.

Lemma gap_open i w k n : 0 <= k <= n -> room_at i w n ⊢ gap_at i w k [] (n - k).
Proof.
  iIntros (Hk) "(%r & <- & Hi)". destruct (room_split r k) as (g & r' & -> & Hg & Hr'); [done|].
  iExists g, r'. by iFrame.
Qed.

Lemma gap_close i w z n : gap_at i w 0 z n ⊢ room_at i (w ++ z) n.
Proof.
  iIntros "(%g & %r & %Hg & <- & Hi)". apply zlen_zero_nil in Hg as ->. iExists r. rw map_app -app_assoc. by iFrame.
Qed.

Lemma swp_store_gap site i w k z n off c (Q : unit -> hprop) :
  0 < k -> off = zlen w + k ->
  gap_at i w k z n -∗ (gap_at i w (k - 1) (c :: z) n -∗ Q tt) -∗ swp (store site (i, off + -1) c) Q.
Proof.
  iIntros (Hk ->) "(%g & %r & %Hg & %Hr & Hi) HQ". destruct g as [|x g _] using rev_ind.
  { change (zlen (@nil (option Z))) with 0 in Hg. lia. }
  rewrite zlen_app in Hg. change (zlen [x]) with 1 in Hg.
  rw -app_assoc app_assoc. iApply (swp_store_all with "Hi").
  { replace (zlen w + k + -1) with (zlen (map Some w ++ g)) by (rewrite zlen_app zlen_map; lia). by apply zblit_between. }
  iIntros "Hi". iApply "HQ". iExists g, r. rw -app_assoc. iFrame. iPureIntro. split; [lia|done].
Qed.

Lemma swp_put_tail (b : bool) i w k z n u (Q : ptr * Z -> hprop) :
  0 < k ->
  gap_at i w k z n -∗
  ((if b then gap_at i w (k - 1) (128 + u mod 64 :: z) n else gap_at i w k z n) -∗
     Q (if b then ((i, zlen w + (k - 1)), u / 64) else ((i, zlen w + k), u))) -∗
  swp (put_tail b ((i, zlen w + k), u)) Q.
Proof.
  iIntros (Hk) "Hg HQ". destruct b; cbn [put_tail]; [|sret; by iApply "HQ"].
  sbind. iApply (swp_store_gap with "Hg"); [done|done|]. iIntros "Hg". rewrite tail_byte. sret.
  unfold ptr_add; cbn [fst snd]. rewrite shr6. replace (zlen w + k + -1) with (zlen w + (k - 1)) by lia. by iApply "HQ".
Qed.

Lemma utf8_length_eq u : utf8_length u = zlen (utf8 u).
Proof. unfold utf8_length, utf8. by destruct (u <? 128), (u <? 2048), (u <? 65536). Qed.

Lemma div_range u k b : 0 < k -> 0 <= u < b * k -> 0 <= u / k < b.
Proof. intros Hk Hu. split; [apply Z.div_pos; lia|apply Z.div_lt_upper_bound; lia]. Qed.

(** The first byte: what is left of the character, and the mark of the length. *)
Lemma swp_put_lead site i w z n u v m (Q : ptr -> hprop) :
  u8 (Z.lor u m) = v -> gap_at i w 1 z n -∗
  (room_at i (w ++ v :: z) n -∗ Q (i, zlen w + zlen (v :: z))) -∗
  swp (store site (ptr_add (i, zlen w + 1) (-1)) (u8 (Z.lor u m)) ;;
       ret (ptr_add (ptr_add (i, zlen w + 1) (-1)) (zlen (v :: z)))) Q.
Proof.
  iIntros (->) "Hg HQ". sbind. iApply (swp_store_gap with "Hg"); [lia|done|]. iIntros "Hg". sret.
  unfold ptr_add; cbn [fst snd]. replace (zlen w + 1 + -1) with (zlen w) by lia. iApply "HQ".
  by iApply gap_close.
Qed.

Lemma swp_put_utf8 i w n u (Q : ptr -> hprop) :
  0 <= u < 1114112 -> zlen (utf8 u) <= n ->
  room_at i w n -∗ (room_at i (w ++ utf8 u) (n - zlen (utf8 u)) -∗ Q (i, zlen w + zlen (utf8 u))) -∗
  swp (put_utf8 (i, zlen w) u) Q.
Proof.
  iIntros (Hu Hn) "Hi HQ". unfold put_utf8. rewrite utf8_length_eq.
  iDestruct (gap_open i w (zlen (utf8 u)) n with "Hi") as "Hg".
  { split; [apply zlen_nonneg|done]. }
  unfold ptr_add at 1; cbn [fst snd]. revert Hn. unfold utf8.
  destruct (Z.ltb_spec u 128); [|destruct (Z.ltb_spec u 2048); [|destruct (Z.ltb_spec u 65536)]]; intros Hn.
  - sbind. iApply (swp_put_tail false with "Hg"); [done|]. iIntros "Hg".
    sbind. iApply (swp_put_tail false with "Hg"); [done|]. iIntros "Hg".
    sbind. iApply (swp_put_tail false with "Hg"); [done|]. iIntros "Hg". sbind. iApply swp_access.
    iApply (swp_put_lead with "Hg HQ"). transitivity (u + 0 * 2 ^ 8); [apply (lead_byte u 0 8); lia|lia].
  - sbind. iApply (swp_put_tail false with "Hg"); [done|]. iIntros "Hg".
    sbind. iApply (swp_put_tail false with "Hg"); [done|]. iIntros "Hg".
    sbind. iApply (swp_put_tail true with "Hg"); [done|]. iIntros "Hg". sbind. iApply swp_access.
    iApply (swp_put_lead with "Hg HQ"). pose proof (div_range u 64 32 ltac:(lia) ltac:(lia)). transitivity (u / 64 + 3 * 2 ^ 6); [apply (lead_byte (u / 64) 3 6); lia|lia].
  - sbind. iApply (swp_put_tail false with "Hg"); [done|]. iIntros "Hg".
    sbind. iApply (swp_put_tail true with "Hg"); [done|]. iIntros "Hg".
    sbind. iApply (swp_put_tail true with "Hg"); [done|]. iIntros "Hg". sbind. iApply swp_access.
    rewrite Z.div_div; [|lia|lia]. iApply (swp_put_lead with "Hg HQ"). pose proof (div_range u 4096 16 ltac:(lia) ltac:(lia)). transitivity (u / 4096 + 7 * 2 ^ 5); [apply (lead_byte (u / 4096) 7 5); lia|lia].
  - sbind. iApply (swp_put_tail true with "Hg"); [done|]. iIntros "Hg".
    sbind. iApply (swp_put_tail true with "Hg"); [done|]. iIntros "Hg".
    sbind. iApply (swp_put_tail true with "Hg"); [done|]. iIntros "Hg". sbind. iApply swp_access.
    rewrite !Z.div_div; [|lia..]. iApply (swp_put_lead with "Hg HQ"). pose proof (div_range u 262144 8 ltac:(lia) ltac:(lia)). transitivity (u / 262144 + 15 * 2 ^ 4); [apply (lead_byte (u / 262144) 15 4); lia|lia].
Qed.

(** * The two passes *)

Lemma hex_digit_range c d : hex_digit c = Some d -> 0 <= d < 16.
Proof.
  unfold hex_digit. destruct (Z.leb_spec 48 c), (Z.leb_spec c 57); cbn; try (intros [= <-]; lia).
  all: destruct (Z.leb_spec 65 c), (Z.leb_spec c 70); cbn; try (intros [= <-]; lia).
  all: destruct (Z.leb_spec 97 c), (Z.leb_spec c 102); cbn; try (intros [= <-]; lia); try done.
Qed.

Lemma hex4_range a b c d : 0 <= hex4 a b c d < 65536.
Proof.
  unfold hex4. destruct (hex_digit a) eqn:Ea, (hex_digit b) eqn:Eb, (hex_digit c) eqn:Ec, (hex_digit d) eqn:Ed; try lia.
  apply hex_digit_range in Ea, Eb, Ec, Ed. lia.
Qed.

Lemma zlen_utf8 u : 1 <= zlen (utf8 u) <= 4.
Proof. rewrite <- utf8_length_eq. unfold utf8_length. repeat case_match; lia. Qed.

Section Passes.
Context (can_malloc : allocator -> list Z -> Z -> bool) (text : list Z).
Abbreviation at_pos := (at_pos text).

Lemma swp_parse_hex4 i a b c d r (Q : Z -> hprop) :
  at_pos i (a :: b :: c :: d :: r) -> Q (hex4 a b c d) ⊢ swp (parse_hex4 text i) Q.
Proof.
  iIntros (Hi) "HQ". pose proof (at_pos_next _ _ _ _ Hi) as Hi1. pose proof (at_pos_next _ _ _ _ Hi1) as Hi2.
  pose proof (at_pos_next _ _ _ _ Hi2) as Hi3. unfold parse_hex4, hex4. rewrite Z.add_0_r.
  replace (i + 2) with (i + 1 + 1) by lia. replace (i + 3) with (i + 1 + 1 + 1) by lia.
  sbind. iApply swp_char; [done|]. destruct (hex_digit a) as [x|]; [|by sret].
  sbind. iApply swp_char; [done|]. destruct (hex_digit b) as [y|]; [|by sret].
  sbind. iApply swp_char; [done|]. destruct (hex_digit c) as [z|]; [|by sret].
  sbind. iApply swp_char; [done|]. destruct (hex_digit d) as [v|]; [|by sret].
  sret. rewrite !Z.shiftl_mul_pow2; [|lia..]. by change (2 ^ 4) with 16.
Qed.

(** ** The pass that counts *)

Definition count_body : Z * Z -> M memory (Z * Z + Z) := fun '(ptr, len) =>
  c <- char text ptr ;;
  if (c =? 34) || (c =? 0) then ret (inr len) else
  let len := s32 (len + 1) in
  if len =? 0 then ret (inr len) else
  ret (inl (if c =? 92 then ptr + 2 else ptr + 1, len)).

Section Count.
Context (Q : Z -> hprop).

Lemma swp_count_char n i c r len :
  at_pos i (c :: r) -> inner c = true -> 0 <= len < 2147483647 ->
  swp (loop n count_body (i + 1, len + 1)) Q ⊢ swp (loop (S n) count_body (i, len)) Q.
Proof.
  iIntros (Hi Hc Hlen) "HQ". apply inner_neq in Hc as (H0 & H34 & H92).
  iApply swp_loop. sbind. iApply swp_char; [done|].
  rewrite (proj2 (Z.eqb_neq _ _) H34) (proj2 (Z.eqb_neq _ _) H0) (proj2 (Z.eqb_neq _ _) H92) s32_small; [|lia].
  cbn [orb]. destruct (Z.eqb_spec (len + 1) 0); [lia|]. by sret.
Qed.

Lemma swp_count_escape n i x r len :
  at_pos i (92 :: x :: r) -> 0 <= len < 2147483647 ->
  swp (loop n count_body (i + 1 + 1, len + 1)) Q ⊢ swp (loop (S n) count_body (i, len)) Q.
Proof.
  iIntros (Hi Hlen) "HQ". iApply swp_loop. sbind. iApply swp_char; [done|].
  rewrite s32_small; [|lia]. cbn [orb Z.eqb Pos.eqb]. destruct (Z.eqb_spec (len + 1) 0); [lia|]. sret.
  by replace (i + 2) with (i + 1 + 1) by lia.
Qed.

(** An escape with four digits is counted as five characters. *)
Lemma swp_count_unicode n i a b c d r len :
  at_pos i (92 :: 117 :: a :: b :: c :: d :: r) -> all_inner a b c d = true -> 0 <= len < 2147483640 ->
  (∀ j, ⟨at_pos j r⟩ -∗ swp (loop n count_body (j, len + 5)) Q) ⊢
  swp (loop (S (S (S (S (S n))))) count_body (i, len)) Q.
Proof.
  iIntros (H (Ha & Hb & Hc & Hd)%all_inner_each Hlen) "HQ".
  iApply swp_count_escape; [done|lia|]. do 2 apply at_pos_next in H.
  iApply swp_count_char; [done|done|lia|]. apply at_pos_next in H.
  iApply swp_count_char; [done|done|lia|]. apply at_pos_next in H.
  iApply swp_count_char; [done|done|lia|]. apply at_pos_next in H.
  iApply swp_count_char; [done|done|lia|]. apply at_pos_next in H.
  replace (len + 1 + 1 + 1 + 1 + 1) with (len + 5) by lia. by iApply "HQ".
Qed.

Lemma swp_count_chars l s e i n len :
  decodes l s e -> at_pos i l -> (List.length l < n)%nat -> 0 <= len -> len + zlen l < 2147483640 ->
  (∀ len', ⟨len + zlen s <= len' <= len + zlen l⟩ -∗ Q len') ⊢ swp (loop n count_body (i, len)) Q.
Proof.
  intros Hd. revert i n len. induction Hd; intros i n len Hi Hn Hlen Hmax; iIntros "HQ".
  all: repeat rewrite zlen_cons in Hmax; cbn [List.length] in Hn; destruct n as [|n]; [lia|].
  all: match goal with Hd : decodes ?r _ _ |- _ => pose proof (zlen_nonneg r) | Hi : at_pos _ (_ :: ?r) |- _ => pose proof (zlen_nonneg r) end.
  all: try (destruct n as [|[|[|[|n]]]]; [lia..|]; iApply swp_count_unicode; [done|done|lia|]; clear Hi i; iIntros (i Hi)).
  - iApply swp_loop. sbind. iApply swp_char; [done|]. sret. iApply "HQ". iPureIntro.
    rewrite zlen_cons. change (@zlen Z []) with 0. lia.
  - iApply swp_loop. sbind. iApply swp_char; [done|]. sret. iApply "HQ". iPureIntro.
    rewrite zlen_cons. change (@zlen Z []) with 0. lia.
  - iApply swp_count_char; [done|done|lia|]. apply at_pos_next in Hi.
    iApply IHHd; [done|lia|lia|lia|]. iIntros (len' H'). iApply "HQ". iPureIntro. rewrite !zlen_cons. lia.
  - iApply swp_count_escape; [done|lia|]. do 2 apply at_pos_next in Hi.
    iApply IHHd; [done|lia|lia|lia|]. iIntros (len' H'). iApply "HQ". iPureIntro. rewrite !zlen_cons. lia.
  - iApply IHHd; [done|lia|lia|lia|]. iIntros (len' H'). iApply "HQ". iPureIntro. rewrite !zlen_cons. lia.
  - pose proof (zlen_utf8 (hex4 a b c d)). iApply IHHd; [done|lia|lia|lia|].
    iIntros (len' H'). iApply "HQ". iPureIntro. rewrite !zlen_cons zlen_app. lia.
  - destruct n as [|[|[|[|[|n]]]]]; [lia..|]. iApply swp_count_unicode; [done|done|lia|]. clear Hi i. iIntros (i Hi).
    pose proof (zlen_utf8 (65536 + (hex4 a b c d - 55296) * 1024 + (hex4 a' b' c' d' - 56320))).
    iApply IHHd; [done|lia|lia|lia|].
    iIntros (len' H'). iApply "HQ". iPureIntro. rewrite !zlen_cons zlen_app. lia.
  - destruct n as [|[|[|[|[|n]]]]]; [lia..|]. iApply swp_count_unicode; [done|done|lia|]. clear Hi i. iIntros (i Hi).
    iApply IHHd; [done|lia|lia|lia|]. iIntros (len' H'). iApply "HQ". iPureIntro. rewrite !zlen_cons. lia.
  - iApply IHHd; [done|lia|lia|lia|]. iIntros (len' H'). iApply "HQ". iPureIntro. rewrite !zlen_cons. lia.
Qed.
End Count.

(** ** The pass that writes *)

Lemma surrogates u v :
  is_high u = true -> is_low v = true ->
  65536 + Z.lor (Z.shiftl (Z.land u 1023) 10) (Z.land v 1023) = 65536 + (u - 55296) * 1024 + (v - 56320) /\
  0 <= 65536 + (u - 55296) * 1024 + (v - 56320) < 1114112.
Proof.
  unfold is_high, is_low. rewrite !andb_true_iff !Z.leb_le. intros Hu Hv. split; [|lia].
  change 1023 with (Z.ones 10). rewrite !Z.land_ones; [|lia..]. change (2 ^ 10) with 1024.
  rewrite Z.lor_comm lor_shiftl; [|lia|apply Z.mod_pos_bound; lia]. change (2 ^ 10) with 1024.
  replace (u mod 1024) with (u - 55296) by (apply (Z.mod_unique _ _ 54); lia).
  replace (v mod 1024) with (v - 56320) by (apply (Z.mod_unique _ _ 55); lia). lia.
Qed.

Section Escape.
Context (b : nat) (w : list Z) (n : Z) (Q : Z * ptr -> hprop).

Lemma swp_escape_nothing i h1 h2 h3 h4 r :
  at_pos i (117 :: h1 :: h2 :: h3 :: h4 :: r) -> is_low (hex4 h1 h2 h3 h4) || (hex4 h1 h2 h3 h4 =? 0) = true ->
  Q (i + 4, (b, zlen w)) ⊢ swp (parse_escape_u text i (b, zlen w)) Q.
Proof.
  iIntros (Hi Hu) "HQ". sbind. iApply swp_parse_hex4; [by eapply at_pos_next|]. unfold is_low in Hu. rewrite Hu. by sret.
Qed.

Lemma swp_escape_char i h1 h2 h3 h4 r :
  at_pos i (117 :: h1 :: h2 :: h3 :: h4 :: r) -> is_low (hex4 h1 h2 h3 h4) || (hex4 h1 h2 h3 h4 =? 0) = false ->
  is_high (hex4 h1 h2 h3 h4) = false -> zlen (utf8 (hex4 h1 h2 h3 h4)) <= n ->
  room_at b w n -∗
  (room_at b (w ++ utf8 (hex4 h1 h2 h3 h4)) (n - zlen (utf8 (hex4 h1 h2 h3 h4))) -∗
     Q (i + 4, (b, zlen w + zlen (utf8 (hex4 h1 h2 h3 h4))))) -∗
  swp (parse_escape_u text i (b, zlen w)) Q.
Proof.
  iIntros (Hi Hu Hh Hn) "Hb HQ". sbind. iApply swp_parse_hex4; [by eapply at_pos_next|].
  unfold is_low in Hu. unfold is_high in Hh. rewrite Hu Hh. pose proof (hex4_range h1 h2 h3 h4). sbind.
  iApply (swp_put_utf8 with "Hb"); [lia|done|]. iIntros "Hb". sret. by iApply "HQ".
Qed.

(** A high surrogate: what comes after it decides. *)
Lemma swp_escape_high i h1 h2 h3 h4 r :
  at_pos i (117 :: h1 :: h2 :: h3 :: h4 :: r) -> is_high (hex4 h1 h2 h3 h4) = true ->
  swp (c1 <- char text (i + 4 + 1) ;;
       if negb (c1 =? 92) then ret (i + 4, (b, zlen w)) else
       c2 <- char text (i + 4 + 2) ;;
       if negb (c2 =? 117) then ret (i + 4, (b, zlen w)) else
       uc2 <- parse_hex4 text (i + 4 + 3) ;;
       if (uc2 <? 56320) || (57343 <? uc2) then ret (i + 4 + 6, (b, zlen w)) else
       ptr2 <- put_utf8 (b, zlen w)
         (65536 + Z.lor (Z.shiftl (Z.land (hex4 h1 h2 h3 h4) 1023) 10) (Z.land uc2 1023)) ;;
       ret (i + 4 + 6, ptr2)) Q ⊢
  swp (parse_escape_u text i (b, zlen w)) Q.
Proof.
  iIntros (Hi Hh) "HQ". sbind. iApply swp_parse_hex4; [by eapply at_pos_next|].
  unfold is_high in Hh. rewrite Hh. replace (_ || _) with false; [done|].
  apply andb_true_iff in Hh as [?%Z.leb_le ?%Z.leb_le]. symmetry. apply orb_false_iff.
  split; [apply andb_false_iff; left; apply Z.leb_gt; lia|apply Z.eqb_neq; lia].
Qed.

Lemma at_pos_5 i x1 x2 x3 x4 x5 r : at_pos i (x1 :: x2 :: x3 :: x4 :: x5 :: r) -> at_pos (i + 4 + 1) r.
Proof. intros H. apply (at_pos_app _ _ [x1; x2; x3; x4; x5]) in H. by replace (i + 4 + 1) with (i + 5) by lia. Qed.

Lemma swp_escape_lone i h1 h2 h3 h4 r s e :
  at_pos i (117 :: h1 :: h2 :: h3 :: h4 :: r) -> is_high (hex4 h1 h2 h3 h4) = true ->
  is_prefix [92; 117] r = false -> decodes r s e ->
  Q (i + 4, (b, zlen w)) ⊢ swp (parse_escape_u text i (b, zlen w)) Q.
Proof.
  iIntros (Hi Hh Hpre Hd) "HQ". iApply swp_escape_high; [done|done|]. apply at_pos_5 in Hi.
  assert (exists c1 r1, r = c1 :: r1 /\ (c1 = 92 -> exists c2 r2, r1 = c2 :: r2)) as (c1 & r1 & -> & H92).
  { inversion Hd; subst; (do 2 eexists; split; [done|]); intros ?; eauto; exfalso; try done.
    match goal with H : inner _ = true |- _ => by apply inner_neq in H as (_ & _ & ?) end. }
  sbind. iApply swp_char; [done|]. destruct (Z.eqb_spec c1 92) as [->|]; cbn [negb]; [|by sret].
  destruct (H92 eq_refl) as (c2 & r2 & ->). apply at_pos_next in Hi.
  replace (i + 4 + 2) with (i + 4 + 1 + 1) by lia.
  sbind. iApply swp_char; [done|]. destruct (Z.eqb_spec c2 117) as [->|]; cbn [negb]; [|by sret]. done.
Qed.

Lemma swp_escape_half i h1 h2 h3 h4 k1 k2 k3 k4 r :
  at_pos i (117 :: h1 :: h2 :: h3 :: h4 :: 92 :: 117 :: k1 :: k2 :: k3 :: k4 :: r) ->
  is_high (hex4 h1 h2 h3 h4) = true -> is_low (hex4 k1 k2 k3 k4) = false ->
  Q (i + 10, (b, zlen w)) ⊢ swp (parse_escape_u text i (b, zlen w)) Q.
Proof.
  iIntros (Hi Hh Hl) "HQ". iApply swp_escape_high; [done|done|]. apply at_pos_5 in Hi.
  sbind. iApply swp_char; [done|]. apply at_pos_next in Hi. replace (i + 4 + 2) with (i + 4 + 1 + 1) by lia.
  cbn [Z.eqb Pos.eqb negb]. sbind. iApply swp_char; [done|]. apply at_pos_next in Hi.
  replace (i + 4 + 3) with (i + 4 + 1 + 1 + 1) by lia. cbn [Z.eqb Pos.eqb negb]. sbind.
  iApply swp_parse_hex4; [done|]. replace (_ || _) with true; [by sret; replace (i + 4 + 6) with (i + 10) by lia|].
  unfold is_low in Hl. symmetry. rewrite !Z.ltb_antisym -negb_andb Hl. done.
Qed.

Lemma swp_escape_pair i h1 h2 h3 h4 k1 k2 k3 k4 r u :
  at_pos i (117 :: h1 :: h2 :: h3 :: h4 :: 92 :: 117 :: k1 :: k2 :: k3 :: k4 :: r) ->
  is_high (hex4 h1 h2 h3 h4) = true -> is_low (hex4 k1 k2 k3 k4) = true ->
  u = 65536 + (hex4 h1 h2 h3 h4 - 55296) * 1024 + (hex4 k1 k2 k3 k4 - 56320) -> zlen (utf8 u) <= n ->
  room_at b w n -∗
  (room_at b (w ++ utf8 u) (n - zlen (utf8 u)) -∗ Q (i + 10, (b, zlen w + zlen (utf8 u)))) -∗
  swp (parse_escape_u text i (b, zlen w)) Q.
Proof.
  iIntros (Hi Hh Hl Hu Hn) "Hb HQ". iApply swp_escape_high; [done|done|]. apply at_pos_5 in Hi.
  sbind. iApply swp_char; [done|]. apply at_pos_next in Hi. replace (i + 4 + 2) with (i + 4 + 1 + 1) by lia.
  cbn [Z.eqb Pos.eqb negb]. sbind. iApply swp_char; [done|]. apply at_pos_next in Hi.
  replace (i + 4 + 3) with (i + 4 + 1 + 1 + 1) by lia. cbn [Z.eqb Pos.eqb negb]. sbind.
  iApply swp_parse_hex4; [done|].
  destruct (surrogates _ _ Hh Hl) as [-> Hrange]. rewrite -Hu in Hrange |- *.
  replace (_ || _) with false.
  - sbind. iApply (swp_put_utf8 with "Hb"); [done|done|]. iIntros "Hb". sret.
    replace (i + 4 + 6) with (i + 10) by lia. by iApply "HQ".
  - unfold is_low in Hl. symmetry. rewrite !Z.ltb_antisym -negb_andb Hl. done.
Qed.
End Escape.

Definition copy_body : Z * ptr -> M memory (Z * ptr + Z * ptr) := fun '(ptr, ptr2) =>
  c <- char text ptr ;;
  if (c =? 34) || (c =? 0) then ret (inr (ptr, ptr2)) else
  if negb (c =? 92) then
    ptr2 <- put_char "parse_string" ptr2 c ;;
    ret (inl (ptr + 1, ptr2))
  else
    let ptr := ptr + 1 in
    c <- char text ptr ;;
    let* (ptr, ptr2) :=
      if c =? 117 then parse_escape_u text ptr ptr2
      else ptr2 <- put_char "parse_string" ptr2 (escaped_char c) ;; ret (ptr, ptr2) in
    ret (inl (ptr + 1, ptr2)).

(** Where the second pass stops: at the quote, or at the end of the text. *)
Definition stops_at (j : Z) (e : list Z) : Prop :=
  exists c r, at_pos j (c :: r) /\ ((c = 34 /\ e = r) \/ (c = 0 /\ e = c :: r)).

Section Copy.
Context (b : nat) (Q : Z * ptr -> hprop).

Lemma swp_copy_escape n i (w : list Z) m x r :
  at_pos i (92 :: x :: r) -> x <> 117 -> 0 < m ->
  room_at b w m -∗
  (room_at b (w ++ [escaped_char x]) (m - 1) -∗ swp (loop n copy_body (i + 1 + 1, (b, zlen w + 1))) Q) -∗
  swp (loop (S n) copy_body (i, (b, zlen w))) Q.
Proof.
  iIntros (Hi Hx Hm) "Hb HQ". iApply swp_loop. sbind. iApply swp_char; [done|]. cbn [Z.eqb Pos.eqb orb negb].
  sbind. iApply swp_char; [by eapply at_pos_next|]. rewrite (proj2 (Z.eqb_neq _ _) Hx). sbind. sbind.
  iApply (swp_put_char with "Hb"); [done|done|]. iIntros "Hb". do 2 sret. by iApply "HQ".
Qed.

Lemma swp_copy_unicode n i (w : list Z) r :
  at_pos i (92 :: 117 :: r) ->
  swp (parse_escape_u text (i + 1) (b, zlen w)) (fun '(j, p) => swp (loop n copy_body (j + 1, p)) Q) ⊢
  swp (loop (S n) copy_body (i, (b, zlen w))) Q.
Proof.
  iIntros (Hi) "HQ". iApply swp_loop. sbind. iApply swp_char; [done|]. cbn [Z.eqb Pos.eqb orb negb].
  sbind. iApply swp_char; [by eapply at_pos_next|]. cbn [Z.eqb Pos.eqb]. sbind.
  iApply (swp_wand with "HQ"). iIntros ([j p]) "HQ". by sret.
Qed.

Lemma at_pos_6 i x1 x2 x3 x4 x5 x6 r :
  at_pos i (x1 :: x2 :: x3 :: x4 :: x5 :: x6 :: r) -> at_pos (i + 1 + 4 + 1) r.
Proof. intros H. apply (at_pos_app _ _ [x1; x2; x3; x4; x5; x6]) in H. by replace (i + 1 + 4 + 1) with (i + 6) by lia. Qed.
Lemma at_pos_12 i x1 x2 x3 x4 x5 x6 x7 x8 x9 xa xb xc r :
  at_pos i (x1 :: x2 :: x3 :: x4 :: x5 :: x6 :: x7 :: x8 :: x9 :: xa :: xb :: xc :: r) -> at_pos (i + 1 + 10 + 1) r.
Proof.
  intros H. apply (at_pos_app _ _ [x1; x2; x3; x4; x5; x6; x7; x8; x9; xa; xb; xc]) in H.
  by replace (i + 1 + 10 + 1) with (i + 12) by lia.
Qed.

(** The rest of the string is written behind [w]. *)
Definition copies (r s e : list Z) (n : nat) : Prop :=
  forall i w m, at_pos i r -> zlen s <= m ->
  room_at b w m -∗
  (∀ j, ⟨stops_at j e⟩ -∗ room_at b (w ++ s) (m - zlen s) -∗ Q (j, (b, zlen w + zlen s))) -∗
  swp (loop n copy_body (i, (b, zlen w))) Q.

Lemma copies_more r s e n x i w m :
  copies r s e n -> at_pos i r -> zlen (x ++ s) <= m ->
  room_at b (w ++ x) (m - zlen x) -∗
  (∀ j, ⟨stops_at j e⟩ -∗ room_at b (w ++ x ++ s) (m - zlen (x ++ s)) -∗ Q (j, (b, zlen w + zlen (x ++ s)))) -∗
  swp (loop n copy_body (i, (b, zlen w + zlen x))) Q.
Proof.
  rewrite zlen_app. iIntros (H Hi Hm) "Hb HQ". rewrite -(zlen_app w x). iApply (H with "Hb"); [done|lia|].
  iIntros (j Hj) "Hb". rewrite -app_assoc zlen_app. replace (m - zlen x - zlen s) with (m - (zlen x + zlen s)) by lia.
  replace (zlen w + zlen x + zlen s) with (zlen w + (zlen x + zlen s)) by lia. by iApply "HQ".
Qed.

Lemma swp_copy_chars l s e n :
  decodes l s e -> (List.length l < n)%nat -> copies l s e n.
Proof.
  intros Hd. revert n. induction Hd; intros n Hn i w m Hi Hm; iIntros "Hb HQ".
  all: cbn [List.length] in Hn; destruct n as [|n]; [lia|].
  all: try specialize (IHHd n ltac:(lia)).
  - iApply swp_loop. sbind. iApply swp_char; [done|]. sret. rw app_nil_r Z.add_0_r Z.sub_0_r. iApply ("HQ" with "[] Hb").
    iPureIntro. exists 34, r. auto.
  - iApply swp_loop. sbind. iApply swp_char; [done|]. sret. rw app_nil_r Z.add_0_r Z.sub_0_r. iApply ("HQ" with "[] Hb").
    iPureIntro. exists 0, r. auto.
  - pose proof (zlen_nonneg s). rewrite zlen_cons in Hm.
    apply inner_neq in H as (Hc0 & Hc34 & Hc92). iApply swp_loop. sbind. iApply swp_char; [done|].
    rewrite (proj2 (Z.eqb_neq _ _) Hc34) (proj2 (Z.eqb_neq _ _) Hc0) (proj2 (Z.eqb_neq _ _) Hc92). cbn [orb negb].
    sbind. iApply (swp_put_char with "Hb"); [done|lia|]. iIntros "Hb". sret.
    iApply (copies_more r s e n [c] with "Hb HQ"); [done|by eapply at_pos_next|rewrite zlen_app; change (zlen [c]) with 1; lia].
  - pose proof (zlen_nonneg s). rewrite zlen_cons in Hm.
    iApply (swp_copy_escape with "Hb"); [done|done|lia|]. iIntros "Hb". do 2 apply at_pos_next in Hi.
    iApply (copies_more r s e n [escaped_char x] with "Hb HQ"); [done|done|].
    rewrite zlen_app; change (zlen [escaped_char x]) with 1; lia.
  - iApply swp_copy_unicode; [done|]. iApply swp_escape_nothing; [by eapply at_pos_next|done|].
    iApply (IHHd with "Hb HQ"); [by eapply at_pos_6|done].
  - iApply swp_copy_unicode; [done|]. pose proof (zlen_nonneg s). pose proof Hm as Hm'. rewrite zlen_app in Hm'.
    iApply (swp_escape_char with "Hb"); [by eapply at_pos_next|done|done|lia|]. iIntros "Hb".
    iApply (copies_more with "Hb HQ"); [done|by eapply at_pos_6|done].
  - iApply swp_copy_unicode; [done|]. pose proof (zlen_nonneg s). pose proof Hm as Hm'. rewrite zlen_app in Hm'.
    iApply (swp_escape_pair with "Hb"); [by eapply at_pos_next|done|done|done|lia|]. iIntros "Hb".
    iApply (copies_more with "Hb HQ"); [done|by eapply at_pos_12|done].
  - iApply swp_copy_unicode; [done|]. iApply swp_escape_half; [by eapply at_pos_next|done|done|].
    iApply (IHHd with "Hb HQ"); [by eapply at_pos_12|done].
  - iApply swp_copy_unicode; [done|]. iApply swp_escape_lone; [by eapply at_pos_next|done|done|done|].
    iApply (IHHd with "Hb HQ"); [by eapply at_pos_6|done].
Qed.
End Copy.

(** ** parse_string *)

Lemma utf8_nonzero u : 0 < u -> c_string (utf8 u).
Proof.
  intros Hu. unfold c_string, utf8. pose proof (Z.mod_pos_bound u 64 ltac:(lia)).
  pose proof (Z.mod_pos_bound (u / 64) 64 ltac:(lia)). pose proof (Z.mod_pos_bound (u / 4096) 64 ltac:(lia)).
  pose proof (Z.div_pos u 64 ltac:(lia) ltac:(lia)). pose proof (Z.div_pos u 4096 ltac:(lia) ltac:(lia)).
  pose proof (Z.div_pos u 262144 ltac:(lia) ltac:(lia)).
  repeat case_match; repeat constructor; lia.
Qed.

Lemma decodes_string l s e : decodes l s e -> c_string s.
Proof.
  unfold c_string. induction 1; try done; try (by constructor).
  - constructor; [|done]. by apply inner_neq in H as [? _].
  - constructor; [|done]. unfold escaped_char. repeat case_match; lia.
  - apply Forall_app_2; [|done]. apply orb_false_iff in H0 as [_ H0%Z.eqb_neq]. pose proof (hex4_range a b c d).
    apply utf8_nonzero. lia.
  - apply Forall_app_2; [|done]. apply utf8_nonzero. destruct (surrogates _ _ H0 H2).
    unfold is_high, is_low in *. rewrite !andb_true_iff !Z.leb_le in H0 H2. lia.
Qed.

Lemma decodes_length l s e : decodes l s e -> zlen s <= zlen l.
Proof.
  induction 1; rewrite ?zlen_cons ?zlen_app; change (@zlen Z []) with 0; try lia.
  - pose proof (zlen_nonneg r). lia.
  - pose proof (zlen_nonneg r). lia.
  - pose proof (zlen_utf8 (hex4 a b c d)). lia.
  - pose proof (zlen_utf8 (65536 + (hex4 a b c d - 55296) * 1024 + (hex4 a' b' c' d' - 56320))). lia.
Qed.
End Passes.

Section String.
Context (can_malloc : allocator -> list Z -> Z -> bool) (text : list Z).
Hypothesis Htext : zlen text < 2147483640.

Lemma swp_parse_string it c0 i l s e (Q : option Z -> hprop) :
  at_pos text i (34 :: l) -> decode l = Good s e ->
  it ↦ Item c0 -∗
  (∀ r, match r with
        | Some j => ∃ p, ⟨at_pos text j e⟩ ∗ str_at p s ∗ it ↦ Item (set_type cJSON_String (set_valuestring (Some p) c0))
        | None => ⟨out_of_memory can_malloc⟩ ∗ it ↦ Item c0
        end -∗ Q r) -∗
  swp (parse_string can_malloc text it i) Q.
Proof.
  iIntros (Hi Hd%decode_decodes) "Hit HQ". pose proof (decodes_string _ _ _ Hd) as Hs.
  sbind. iApply swp_char; [done|]. cbn [Z.eqb Pos.eqb negb]. apply at_pos_next in Hi.
  assert (zlen l < 2147483640) as Hl.
  { apply at_pos_length in Hi. unfold zlen in *. lia. }
  sbind. iApply swp_count_chars; [done|done|by eapply at_pos_rounds|lia|lia|]. iIntros (len Hlen).
  pose proof (zlen_nonneg s). sbind. iApply swp_malloc; [lia|]. iIntros ([p|]) "Hr"; cycle 1.
  { sret. iApply ("HQ" $! None). by iFrame. }
  iDestruct "Hr" as "(%b & -> & Hb)". sbind.
  iApply (swp_copy_chars _ _ _ _ s e with "Hb"); [done|by eapply at_pos_rounds|done|lia|].
  iIntros (j (c & r & Hj & He)) "Hb". sbind. cbn [app] in *.
  iApply (swp_store with "Hb"); [done|lia|]. iIntros "Hb". sbind. iApply swp_char; [done|].
  sbind. iApply (swp_edit with "Hit"). iIntros "Hit". sbind. iApply (swp_edit with "Hit"). iIntros "Hit". sret.
  iApply ("HQ" $! (Some _)). iExists (b, 0). iFrame "Hit". iSplit.
  - iPureIntro. destruct He as [[-> ->]|[-> ->]]; [|done]. by eapply at_pos_next.
  - iExists b, _. by iFrame.
Qed.
End String.

(** Facts about the texts of CJsonText.v: what reading a value consumes, that
    the bound on the recursion does not matter, and that only a string with a
    broken escape is [Unsafe]. *)

Lemma number_of_shorter pow c l d r :
  (c =? 45) || isdigit c = true -> number_of pow (c :: l) = (d, r) -> (List.length r <= List.length l)%nat.
Proof.
  unfold number_of. intros Hc. destruct (minus_sign (c :: l)) as [s l1] eqn:E1.
  destruct (integer_part _) as [[x sc] l2] eqn:E2. destruct (fraction_part _ _ _) as [[x' sc'] l3] eqn:E3.
  destruct (exponent_part l3) as [[e sg] l4] eqn:E4. intros [= _ <-].
  apply fraction_part_passed, passed_length in E3. apply exponent_part_passed, passed_length in E4.
  enough (List.length l2 <= List.length l)%nat by lia. clear E3 E4. cbn in E1.
  destruct (Z.eqb_spec c 45) as [->|H45].
  - injection E1 as _ <-. apply integer_part_passed, passed_length in E2. pose proof (passed_length _ _ (leading_zero_passed l)). lia.
  - injection E1 as _ <-. cbn [orb] in Hc. cbn [leading_zero] in E2. destruct (Z.eqb_spec c 48) as [->|H48].
    + apply integer_part_passed, passed_length in E2. lia.
    + unfold integer_part in E2. replace (_ && _) with true in E2.
      * cbn [digits_of] in E2. rewrite Hc in E2. apply digits_of_passed, passed_length in E2. lia.
      * unfold isdigit in Hc. symmetry. rewrite !andb_true_iff !Z.leb_le in Hc |- *. lia.
Qed.

(** ** What is consumed *)

(** Reading a list of items from [l] leaves [e]. *)
Definition consumed (size : nat) (l e : list Z) : Prop :=
  passed l e /\ (size + List.length e <= List.length l)%nat.

Section Lists.
Context (element : list Z -> reading tree) (close : Z).
Hypothesis Hclose : close <> 0.

Lemma elements_consumed n l ts e :
  (forall l t e, element l = Good t e -> consumed (tree_size t) l e) ->
  elements_of n element close l = Good ts e -> consumed (list_size ts) l e.
Proof.
  intros Hel. revert l ts e. induction n as [|n IH]; intros l ts e; [done|]. destruct l as [|c r]; [done|]. cbn [elements_of].
  destruct (Z.eqb_spec c 44) as [->|H44].
  - destruct (element r) as [t e1| |] eqn:E1; [|done..]. cbn [and_then].
    destruct (elements_of n element close e1) as [ts' e2| |] eqn:E2; [|done..]. cbn [and_then]. intros [= <- <-].
    apply Hel in E1 as [H1 L1]. apply IH in E2 as [H2 L2]. split; [|cbn; lia].
    apply passed_cons; [done|]. by etransitivity.
  - destruct (Z.eqb_spec c close) as [->|]; [|done]. intros [= <- <-]. split; [by apply passed_cons|cbn; lia].
Qed.

Lemma list_consumed l ts e :
  (forall l t e, element l = Good t e -> consumed (tree_size t) l e) ->
  list_of element close l = Good ts e -> consumed (list_size ts) l e.
Proof.
  intros Hel. unfold list_of. pose proof (skip_space_passed l) as Hs. pose proof (passed_length _ _ Hs).
  destruct (skip_space l) as [|c r]; [done|]. destruct (Z.eqb_spec c close) as [->|].
  - intros [= <- <-]. split; [|cbn in *; lia]. etransitivity; [done|]. by apply passed_cons.
  - destruct (element (c :: r)) as [t e1| |] eqn:E1; [|done..]. cbn [and_then].
    destruct (elements_of _ element close e1) as [ts' e2| |] eqn:E2; [|done..]. cbn [and_then]. intros [= <- <-].
    apply Hel in E1 as [H1 L1]. apply elements_consumed in E2 as [H2 L2]; [|done]. split; [|cbn in *; lia].
    etransitivity; [done|]. by etransitivity.
Qed.
End Lists.

Lemma element_consumed value l t e :
  (forall l t e, value l = Good t e -> consumed (tree_size t) l e) ->
  element_of value l = Good t e -> consumed (tree_size t) l e.
Proof.
  intros Hv. unfold element_of. pose proof (skip_space_passed l) as Hs. pose proof (passed_length _ _ Hs).
  destruct (value (skip_space l)) as [t1 e1| |] eqn:E; [|done..]. cbn [and_then]. intros [= <- <-].
  apply Hv in E as [H1 L1]. pose proof (skip_space_passed e1) as Hs1. pose proof (passed_length _ _ Hs1).
  split; [|lia]. etransitivity; [done|]. by etransitivity.
Qed.

Lemma tree_size_name s t : tree_size (with_name s t) = tree_size t.
Proof. by destruct t. Qed.

Lemma string_consumed l s e : string_of l = Good s e -> passed l e /\ (List.length e < List.length l)%nat.
Proof.
  unfold string_of. destruct l as [|c r]; [done|]. destruct (Z.eqb_spec c 34) as [->|]; [|done].
  intros H%decode_decodes%decodes_passed. split; [by apply passed_cons|]. apply passed_length in H. cbn. lia.
Qed.

Lemma member_consumed value l t e :
  (forall l t e, value l = Good t e -> consumed (tree_size t) l e) ->
  member_of value l = Good t e -> consumed (tree_size t) l e.
Proof.
  intros Hv. unfold member_of. pose proof (skip_space_passed l) as Hs. pose proof (passed_length _ _ Hs).
  destruct (string_of (skip_space l)) as [s e1| |] eqn:E; [|done..]. cbn [and_then]. apply string_consumed in E as [H1 L1].
  pose proof (skip_space_passed e1) as Hs1. pose proof (passed_length _ _ Hs1).
  destruct (skip_space e1) as [|c r]; [done|]. destruct (Z.eqb_spec c 58) as [->|]; [|done].
  pose proof (skip_space_passed r) as Hs2. pose proof (passed_length _ _ Hs2).
  destruct (value (skip_space r)) as [t1 e2| |] eqn:E2; [|done..]. cbn [and_then]. intros [= <- <-].
  apply Hv in E2 as [Hp2 L2]. pose proof (skip_space_passed e2) as Hs3. pose proof (passed_length _ _ Hs3).
  rewrite /consumed tree_size_name. split; [|cbn in *; lia].
  etransitivity; [done|]. etransitivity; [done|]. etransitivity; [done|]. apply passed_cons; [done|].
  etransitivity; [done|]. by etransitivity.
Qed.

Lemma prefix_consumed s l : c_string s -> is_prefix s l = true -> passed l (drop (List.length s) l).
Proof. intros Hs (r & ->)%is_prefix_spec. rewrite drop_app_length. by apply passed_app. Qed.

Section Value.
Context (pow : double -> double -> double) (int_overflow : double -> Z).
Abbreviation value_of := (value_of pow int_overflow).

Lemma value_consumed n l t e : value_of n l = Good t e -> consumed (tree_size t) l e.
Proof.
  revert l t e. induction n as [|n IH]; intros l t e; [done|]. cbn [CJsonText.value_of].
  assert (forall s k t', c_string s -> (0 < List.length s)%nat -> k = List.length s -> is_prefix s l = true -> tree_size t' = 1%nat ->
    Good t' (drop k l) = Good t e -> consumed (tree_size t) l e) as Hword.
  { intros s k t' Hs Hpos -> Hp Ht [= <- <-]. split; [by apply prefix_consumed|]. rewrite Ht length_drop.
    apply is_prefix_spec in Hp as (r & ->). rewrite length_app. lia. }
  destruct (is_prefix (bytes "null") l) eqn:En; [eapply Hword; [..|done|done]; [by repeat constructor|cbn; lia|done]|].
  destruct (is_prefix (bytes "false") l) eqn:Ef; [eapply Hword; [..|done|done]; [by repeat constructor|cbn; lia|done]|].
  destruct (is_prefix (bytes "true") l) eqn:Et; [eapply Hword; [..|done|done]; [by repeat constructor|cbn; lia|done]|].
  clear Hword En Ef Et. destruct l as [|c r]; [done|]. destruct (Z.eqb_spec c 34) as [->|H34].
  { destruct (decode r) as [s e1| |] eqn:E; [|done..]. cbn [and_then]. intros [= <- <-].
    apply decode_decodes, decodes_passed in E. split; [by apply passed_cons|]. apply passed_length in E. cbn. lia. }
  destruct (_ || _) eqn:Enum.
  { destruct (number_of pow (c :: r)) as [d e1] eqn:E. intros [= <- <-]. split; [by eapply number_of_passed|].
    apply number_of_shorter in E; [|done]. cbn. lia. }
  destruct (Z.eqb_spec c 91) as [->|H91].
  { destruct (list_of _ 93 r) as [ts e1| |] eqn:E; [|done..]. cbn [and_then]. intros [= <- <-].
    apply list_consumed in E as [H L]; [|done|intros; by eapply element_consumed].
    split; [by apply passed_cons|cbn; lia]. }
  destruct (Z.eqb_spec c 123) as [->|H123]; [|done].
  destruct (list_of _ 125 r) as [ts e1| |] eqn:E; [|done..]. cbn [and_then]. intros [= <- <-].
  apply list_consumed in E as [H L]; [|done|intros; by eapply member_consumed].
  split; [by apply passed_cons|cbn; lia].
Qed.
End Value.

(** ** The bound on the recursion *)

Section Extension.
Context (f g : list Z -> reading tree) (close : Z) (k : nat).
Hypothesis Hf : forall l t e, f l = Good t e -> consumed (tree_size t) l e.
Hypothesis Hfg : forall l, (List.length l < k)%nat -> f l = g l.

Lemma elements_ext n l :
  (List.length l <= k)%nat -> elements_of n f close l = elements_of n g close l.
Proof.
  revert l. induction n as [|n IH]; intros l Hl; [done|]. destruct l as [|c r]; [done|]. cbn in *.
  destruct (c =? 44); [|done]. rewrite -Hfg; [|lia]. destruct (f r) as [t e| |] eqn:E; [|done..]. cbn.
  apply Hf in E as [_ L]. by rewrite IH; [|lia].
Qed.

Lemma list_ext l : (List.length l < k)%nat -> list_of f close l = list_of g close l.
Proof.
  intros Hl. unfold list_of. pose proof (passed_length _ _ (skip_space_passed l)).
  destruct (skip_space l) as [|c r]; [done|]. destruct (c =? close); [done|]. rewrite -Hfg; [|cbn in *; lia].
  destruct (f (c :: r)) as [t e| |] eqn:E; [|done..]. cbn [and_then]. apply Hf in E as [_ L].
  by rewrite elements_ext; [|cbn in *; lia].
Qed.
End Extension.

Lemma element_ext f g k l :
  (forall l, (List.length l < k)%nat -> f l = g l) -> (List.length l < k)%nat -> element_of f l = element_of g l.
Proof.
  intros H Hl. unfold element_of. pose proof (passed_length _ _ (skip_space_passed l)). by rewrite H; [|lia].
Qed.

Lemma member_ext f g k l :
  (forall l, (List.length l < k)%nat -> f l = g l) -> (List.length l < k)%nat -> member_of f l = member_of g l.
Proof.
  intros H Hl. unfold member_of. pose proof (passed_length _ _ (skip_space_passed l)).
  destruct (string_of (skip_space l)) as [s e| |] eqn:E; [|done..]. cbn [and_then]. apply string_consumed in E as [_ L].
  pose proof (passed_length _ _ (skip_space_passed e)). destruct (skip_space e) as [|c r]; [done|].
  destruct (c =? 58); [|done]. pose proof (passed_length _ _ (skip_space_passed r)). by rewrite H; [|cbn in *; lia].
Qed.

Lemma value_of_enough pow int_overflow n m l :
  (List.length l < n)%nat -> (List.length l < m)%nat ->
  value_of pow int_overflow n l = value_of pow int_overflow m l.
Proof.
  revert m l. induction n as [|n IH]; intros m l Hn Hm; [lia|]. destruct m as [|m]; [lia|]. cbn [value_of].
  destruct (is_prefix _ l), (is_prefix (bytes "false") l), (is_prefix (bytes "true") l); try done.
  destruct l as [|c r]; [done|]. cbn in Hn, Hm. destruct (c =? 34); [done|]. destruct (_ || _); [done|].
  assert (forall l, (List.length l < S (List.length r))%nat -> value_of pow int_overflow n l = value_of pow int_overflow m l) as He.
  { intros l Hl. apply IH; lia. }
  destruct (c =? 91).
  - rewrite (list_ext _ (element_of (value_of pow int_overflow m)) _ (S (List.length r))); [done| | |lia].
    + intros. eapply element_consumed; [intros; by eapply value_consumed|done].
    + intros l Hl. by apply (element_ext _ _ (S (List.length r))).
  - destruct (c =? 123); [|done].
    rewrite (list_ext _ (member_of (value_of pow int_overflow m)) _ (S (List.length r))); [done| | |lia].
    + intros. eapply member_consumed; [intros; by eapply value_consumed|done].
    + intros l Hl. by apply (member_ext _ _ (S (List.length r))).
Qed.

(** ** Broken escapes *)

(** Every string of the text has whole escapes. *)
Definition whole_escapes (l : list Z) : Prop := forall a r, l = a ++ 34 :: r -> decode r <> Unsafe.

Lemma whole_passed l e : passed l e -> whole_escapes l -> whole_escapes e.
Proof. intros (x & -> & _) H a r ->. apply (H (x ++ a)). by rewrite app_assoc. Qed.

(** What holds of the rest of a text while it is read. *)
Definition readable (l : list Z) : Prop := 0 ∈ l /\ whole_escapes l.
Lemma readable_passed l e : passed l e -> readable l -> readable e.
Proof. intros Hp [H0 Hw]. split; [by eapply passed_terminated|by eapply whole_passed]. Qed.
Lemma readable_tail c r : c <> 0 -> readable (c :: r) -> readable r.
Proof. intros Hc. apply readable_passed. by apply passed_cons. Qed.
Lemma readable_skip l : readable l -> readable (skip_space l).
Proof. apply readable_passed, skip_space_passed. Qed.

Section Safe.
Context (f : list Z -> reading tree) (close : Z) (k : nat).
Hypothesis Hf : forall l t e, f l = Good t e -> consumed (tree_size t) l e.
Hypothesis Hsafe : forall l, (List.length l < k)%nat -> readable l -> f l <> Unsafe.

Lemma elements_safe n l :
  (List.length l < n)%nat -> (List.length l <= k)%nat -> readable l -> elements_of n f close l <> Unsafe.
Proof.
  revert l. induction n as [|n IH]; intros l Hn Hk Hr; [lia|]. destruct l as [|c r].
  { by destruct Hr as [?%elem_of_nil _]. }
  cbn in *. destruct (Z.eqb_spec c 44) as [->|]; [|by destruct (c =? close)].
  apply readable_tail in Hr; [|done]. destruct (f r) as [t e| |] eqn:E; [|done|by apply Hsafe in E; [|lia|]]. cbn.
  apply Hf in E as [Hp L]. pose proof (IH e ltac:(lia) ltac:(lia) (readable_passed _ _ Hp Hr)) as He.
  by destruct (elements_of n f close e).
Qed.

Lemma list_safe l : (List.length l < k)%nat -> readable l -> list_of f close l <> Unsafe.
Proof.
  intros Hk Hr. unfold list_of. pose proof (passed_length _ _ (skip_space_passed l)). apply readable_skip in Hr.
  destruct (skip_space l) as [|c r]; [by destruct Hr as [?%elem_of_nil _]|]. destruct (c =? close); [done|].
  destruct (f (c :: r)) as [t e| |] eqn:E; [|done|by apply Hsafe in E; [|cbn in *; lia|]]. cbn [and_then].
  apply Hf in E as [Hp L]. pose proof (elements_safe (S (List.length e)) e ltac:(lia) ltac:(cbn in *; lia) (readable_passed _ _ Hp Hr)) as He.
  by destruct (elements_of (S (List.length e)) f close e).
Qed.

Lemma element_safe l : (List.length l < k)%nat -> readable l -> element_of f l <> Unsafe.
Proof.
  intros Hk Hr. unfold element_of. pose proof (passed_length _ _ (skip_space_passed l)). apply readable_skip in Hr.
  pose proof (Hsafe (skip_space l) ltac:(lia) Hr). by destruct (f (skip_space l)).
Qed.

Lemma member_safe l : (List.length l < k)%nat -> readable l -> member_of f l <> Unsafe.
Proof.
  intros Hk Hr. unfold member_of. pose proof (passed_length _ _ (skip_space_passed l)). apply readable_skip in Hr.
  destruct (string_of (skip_space l)) as [s e| |] eqn:E; cbn [and_then]; [|done|].
  - apply string_consumed in E as [Hp L]. apply (readable_passed _ _ Hp), readable_skip in Hr.
    pose proof (passed_length _ _ (skip_space_passed e)). destruct (skip_space e) as [|c r]; [by destruct Hr as [?%elem_of_nil _]|].
    destruct (Z.eqb_spec c 58) as [->|]; [|done]. apply readable_tail in Hr; [|done]. apply readable_skip in Hr.
    pose proof (passed_length _ _ (skip_space_passed r)).
    pose proof (Hsafe (skip_space r) ltac:(cbn in *; lia) Hr). by destruct (f (skip_space r)).
  - unfold string_of in E. destruct (skip_space l) as [|c r]; [done|]. destruct (Z.eqb_spec c 34) as [->|]; [|done].
    destruct Hr as [_ Hw]. by apply (Hw [] r) in E.
Qed.
End Safe.

Lemma value_safe pow int_overflow n l :
  (List.length l < n)%nat -> readable l -> value_of pow int_overflow n l <> Unsafe.
Proof.
  revert l. induction n as [|n IH]; intros l Hn Hr; [lia|]. cbn [value_of].
  destruct (is_prefix _ l), (is_prefix (bytes "false") l), (is_prefix (bytes "true") l); try done.
  destruct l as [|c r]; [by destruct Hr as [?%elem_of_nil _]|]. cbn in Hn. destruct (Z.eqb_spec c 34) as [->|].
  { destruct Hr as [_ Hw]. specialize (Hw [] r eq_refl). by destruct (decode r). }
  destruct (_ || _); [by destruct (number_of pow (c :: r))|].
  assert (forall l, (List.length l < n)%nat -> readable l -> value_of pow int_overflow n l <> Unsafe) as He by (intros; by apply IH).
  destruct (Z.eqb_spec c 91) as [->|]; [|destruct (Z.eqb_spec c 123) as [->|]; [|done]].
  all: apply readable_tail in Hr; [|done].
  - pose proof (list_safe (element_of (value_of pow int_overflow n)) 93 n) as H. 
    destruct (list_of _ 93 r) eqn:E; [done..|]. exfalso. revert E. apply H; [| |lia|done].
    + intros. eapply element_consumed; [intros; by eapply value_consumed|done].
    + intros. by eapply element_safe.
  - pose proof (list_safe (member_of (value_of pow int_overflow n)) 125 n) as H.
    destruct (list_of _ 125 r) eqn:E; [done..|]. exfalso. revert E. apply H; [| |lia|done].
    + intros. eapply member_consumed; [intros; by eapply value_consumed|done].
    + intros. by eapply member_safe.
Qed.

(** * An escape that a quote cuts short

    The counting pass stops at the quote; the writing pass takes the quote for
    the first of four digits and goes on behind it. *)

Section ShortEscape.
Context (text : list Z).

Definition ordinary (l : list Z) : Prop := Forall (fun c => inner c = true) l.

(** At [i] there is a string that begins with [p] and the short escape; behind
    the three characters after its quote come [d] and a quote or the end. *)
Definition short_escape (i : Z) (p d : list Z) : Prop :=
  ordinary p /\ ordinary d /\ exists x1 x2 x3 q r,
    at_pos text i (34 :: p ++ 92 :: 117 :: 34 :: x1 :: x2 :: x3 :: d ++ q :: r) /\ (q = 34 \/ q = 0).

(** [m] with the block [b] of the heap. *)
Definition with_chars (b : nat) (block : list (option Z)) (m : memory) : memory :=
  set_objects (<[b := Chars block]> (objects m)) m.

Lemma loop_step {S A B} (body : A -> M S (A + B)) n a s :
  loop (Datatypes.S n) body a s =
  match body a s with
  | Ok (inl a', s') => loop n body a' s'
  | Ok (inr b, s') => Ok (b, s')
  | Stop f => Stop f
  end.
Proof. done. Qed.

Lemma char_ok i c l m : at_pos text i (c :: l) -> char text i m = Ok (c, m).
Proof. intros H%at_pos_char. unfold char. by rewrite H. Qed.

Lemma starts_not i c l x s m :
  at_pos text i (c :: l) -> c <> x -> starts_with text i (x :: s) m = Ok (false, m).
Proof.
  intros Hi Hx. cbn [starts_with]. unfold bind. rewrite (char_ok _ _ _ m Hi).
  by rewrite (proj2 (Z.eqb_neq _ _) Hx).
Qed.

Lemma store_next site b w rest c m :
  store site (b, zlen w) c (with_chars b (map Some w ++ rest) m) =
  match rest with
  | [] => Stop (Fault site)
  | _ :: rest => Ok (tt, with_chars b (map Some (w ++ [c]) ++ rest) m)
  end.
Proof.
  unfold store, store_all, at_, bind, gets, put_objects, modify. cbn [fst snd].
  unfold with_chars at 1. cbn [objects set_objects]. rewrite lookup_insert_eq. cbn.
  pose proof (zlen_nonneg w). destruct rest as [|y rest].
  - unfold zblit. rewrite app_nil_r zlen_map. change (zlen [Some c]) with 1.
    rewrite (proj2 (Z.leb_gt (zlen w + 1) (zlen w))); [|lia]. by rewrite andb_false_r.
  - rewrite zblit_is_Some;
      [|lia|rewrite zlen_app !zlen_cons zlen_nil zlen_map; pose proof (zlen_nonneg rest); lia].
    assert (take (Z.to_nat (zlen w)) (map Some w ++ y :: rest) ++ [Some c] ++
            drop (Z.to_nat (zlen w + zlen [Some c])) (map Some w ++ y :: rest) =
            map Some (w ++ [c]) ++ rest) as ->.
    { rewrite map_app -app_assoc. f_equal.
      - unfold zlen. rewrite Nat2Z.id. rewrite take_app_le; [|by rewrite length_map].
        by rewrite take_ge; [|rewrite length_map].
      - cbn [map app]. f_equal. change (zlen [Some c]) with 1.
        replace (Z.to_nat (zlen w + 1)) with (List.length (map Some w) + 1)%nat
          by (rewrite length_map; unfold zlen; lia).
        by rewrite -drop_drop drop_app_length. }
    cbn. unfold with_chars, set_objects. cbn. by rewrite insert_insert_eq.
Qed.

Lemma copy_plain b l r : forall i w rest m n,
  at_pos text i (l ++ r) -> ordinary l ->
  loop (List.length l + n) (copy_body text) (i, (b, zlen w)) (with_chars b (map Some w ++ rest) m) =
  if zlen l <=? zlen rest
  then loop n (copy_body text) (i + zlen l, (b, zlen (w ++ l)))
         (with_chars b (map Some (w ++ l) ++ drop (List.length l) rest) m)
  else Stop (Fault "parse_string").
Proof.
  induction l as [|c l IH]; intros i w rest m n Hi Hl.
  - rewrite zlen_nil (proj2 (Z.leb_le _ _) (zlen_nonneg rest)). cbn [List.length Nat.add].
    by rewrite app_nil_r Z.add_0_r drop_0.
  - apply Forall_cons in Hl as [(H0 & H34 & H92)%inner_neq Hl]. cbn [List.length Nat.add]. rewrite loop_step.
    unfold copy_body at 1, bind. rewrite (char_ok i c (l ++ r)); [|done].
    rewrite (proj2 (Z.eqb_neq _ _) H34) (proj2 (Z.eqb_neq _ _) H0) (proj2 (Z.eqb_neq _ _) H92). cbn [orb negb].
    unfold put_char, bind. rewrite store_next. rewrite zlen_cons. pose proof (zlen_nonneg l).
    destruct rest as [|y rest].
    + rewrite zlen_nil. by rewrite (proj2 (Z.leb_gt _ _)); [|lia].
    + cbn [ret]. unfold ptr_add. cbn [fst snd]. apply at_pos_next in Hi.
      replace (zlen w + 1) with (zlen (w ++ [c])) by (by rewrite zlen_app).
      rewrite IH; [|done|done]. rewrite zlen_cons -!app_assoc. cbn [app drop].
      replace (i + 1 + zlen l) with (i + (zlen l + 1)) by lia.
      by destruct (Z.leb_spec (zlen l) (zlen rest)), (Z.leb_spec (zlen l + 1) (zlen rest + 1)); try lia.
Qed.

Lemma copy_short_body i l p m :
  at_pos text i (92 :: 117 :: 34 :: l) ->
  copy_body text (i, p) m = Ok (inl (i + 6, p), m).
Proof.
  intros Hi. pose proof (at_pos_next _ _ _ _ Hi) as H1. pose proof (at_pos_next _ _ _ _ H1) as H2.
  unfold copy_body, parse_escape_u, parse_hex4, bind. rewrite (char_ok _ _ _ m Hi). cbn [Z.eqb Pos.eqb orb negb].
  rewrite (char_ok _ _ _ m H1). cbn [Z.eqb Pos.eqb]. rewrite Z.add_0_r (char_ok _ _ _ m H2).
  by replace (i + 6) with (i + 1 + 4 + 1) by lia.
Qed.

(** The second pass writes [p] and [d]. *)
Lemma copy_short i p d b block m :
  short_escape i p d ->
  copy_chars text (i + 1) (b, 0) (with_chars b block m) =
  if zlen p + zlen d <=? zlen block
  then Ok ((i + zlen p + 7 + zlen d, (b, zlen p + zlen d)),
           with_chars b (map Some (p ++ d) ++ drop (List.length (p ++ d)) block) m)
  else Stop (Fault "parse_string").
Proof.
  intros (Hp & Hd & x1 & x2 & x3 & q & r & Hi & Hq). pose proof (at_pos_length _ _ _ Hi) as Hlen.
  apply at_pos_next in Hi. pose proof (at_pos_app _ _ p _ Hi) as He.
  pose proof (at_pos_app _ _ [92; 117; 34; x1; x2; x3] _ He) as Hd2. change (zlen [92; 117; 34; x1; x2; x3]) with 6 in Hd2.
  pose proof (at_pos_app _ _ d _ Hd2) as Hend.
  assert (exists n, rounds text = (List.length p + S (List.length d + S n))%nat) as [n Hn].
  { exists (rounds text - List.length p - List.length d - 2)%nat. unfold rounds.
    cbn in Hlen. rewrite !length_app in Hlen. cbn in Hlen. rewrite length_app in Hlen. cbn in Hlen. lia. }
  unfold copy_chars. rewrite Hn. fold (copy_body text).
  change (b, 0) with (b, zlen (@nil Z)). change block with (map Some [] ++ block) at 1.
  rewrite (copy_plain b p _ (i + 1) [] block m _ Hi Hp).
  pose proof (zlen_nonneg d). pose proof (zlen_nonneg p). cbn [app].
  destruct (Z.leb_spec (zlen p) (zlen block)) as [Hfit|Hfit];
    [|by rewrite (proj2 (Z.leb_gt _ _)); [|lia]].
  rewrite loop_step. rewrite (copy_short_body _ _ _ _ He). rewrite (copy_plain b d _ _ p _ m _ Hd2 Hd).
  assert (zlen (drop (List.length p) block) = zlen block - zlen p) as ->.
  { unfold zlen in *. rewrite length_drop. lia. }
  destruct (Z.leb_spec (zlen d) (zlen block - zlen p)), (Z.leb_spec (zlen p + zlen d) (zlen block)); try lia; [|done].
  rewrite loop_step. unfold copy_body at 1, bind. rewrite (char_ok _ _ _ _ Hend).
  replace ((q =? 34) || (q =? 0)) with true by (by destruct Hq as [-> | ->]).
  cbn [ret]. rewrite drop_drop length_app zlen_app.
  by replace (i + 1 + zlen p + 6 + zlen d) with (i + zlen p + 7 + zlen d) by lia.
Qed.

(** The first pass counts [p] and the escape. *)
Lemma count_plain l r : forall i n m len,
  at_pos text i (l ++ r) -> ordinary l -> 0 <= len -> len + zlen l < 2147483647 ->
  loop (List.length l + n) (count_body text) (i, len) m = loop n (count_body text) (i + zlen l, len + zlen l) m.
Proof.
  induction l as [|c l IH]; intros i n m len Hi Hl Hlen Hmax; [by rewrite !Z.add_0_r|].
  rewrite zlen_cons in Hmax |- *. pose proof (zlen_nonneg l).
  apply Forall_cons in Hl as [(H0 & H34 & H92)%inner_neq Hl]. cbn [List.length Nat.add]. rewrite loop_step.
  unfold count_body at 1, bind. rewrite (char_ok i c (l ++ r)); [|done].
  rewrite (proj2 (Z.eqb_neq _ _) H34) (proj2 (Z.eqb_neq _ _) H0) (proj2 (Z.eqb_neq _ _) H92) s32_small; [|lia].
  cbn [orb]. rewrite (proj2 (Z.eqb_neq (len + 1) 0)); [|lia]. cbn [ret].
  apply at_pos_next in Hi. rewrite IH; [|done|done|lia|lia].
  replace (i + 1 + zlen l) with (i + (zlen l + 1)) by lia. by replace (len + 1 + zlen l) with (len + (zlen l + 1)) by lia.
Qed.

Lemma count_short i p d m :
  short_escape i p d -> zlen text < 2147483640 -> count_chars text (i + 1) m = Ok (zlen p + 1, m).
Proof.
  intros (Hp & _ & x1 & x2 & x3 & q & r & Hi & _) Ht. pose proof (at_pos_length _ _ _ Hi) as Hlen.
  apply at_pos_next in Hi. pose proof (at_pos_app _ _ p _ Hi) as He. pose proof (zlen_nonneg p).
  cbn in Hlen. rewrite length_app in Hlen. cbn in Hlen.
  assert (exists n, rounds text = (List.length p + S (S n))%nat) as [n Hn].
  { exists (rounds text - List.length p - 2)%nat. unfold rounds. lia. }
  unfold count_chars. rewrite Hn. fold (count_body text).
  rewrite (count_plain p _ (i + 1) _ m 0 Hi Hp); [|lia|unfold zlen in *; lia].
  rewrite loop_step. unfold count_body at 1, bind. rewrite (char_ok _ _ _ _ He). cbn [Z.eqb Pos.eqb orb].
  rewrite Z.add_0_l s32_small; [|unfold zlen in *; lia]. rewrite (proj2 (Z.eqb_neq (zlen p + 1) 0)); [|lia]. cbn [ret].
  do 2 apply at_pos_next in He. rewrite loop_step. unfold count_body, bind. replace (i + 1 + zlen p + 2) with (i + 1 + zlen p + 1 + 1) by lia.
  by rewrite (char_ok _ _ _ _ He).
Qed.

(** Two characters behind the escape are too many for the block. *)
Lemma string_short can_malloc it i p d m :
  short_escape i p d -> zlen text < 2147483640 -> 2 <= zlen d ->
  can_malloc (cJSON_malloc m) (requests m) (zlen p + 2) = true ->
  parse_string can_malloc text it i m = Stop (Fault "parse_string").
Proof.
  intros Hs Ht Hd Hm. pose proof Hs as (_ & _ & x1 & x2 & x3 & q & r & Hi & _). pose proof (zlen_nonneg p).
  unfold parse_string, bind at 1. rewrite (char_ok _ _ _ m Hi). cbn [Z.eqb Pos.eqb negb]. unfold bind at 1.
  rewrite (count_short i p d m Hs Ht). unfold malloc, allocate, bind at 1, bind at 1.
  replace (zlen p + 1 + 1) with (zlen p + 2) by lia. rewrite Hm. cbn [ret mbind option_bind].
  set (m' := mkMemory (objects m) (S (unused m)) (requests m ++ [zlen p + 2]) (ep m) (cJSON_malloc m) (cJSON_free m)).
  change (mkMemory (<[unused m := ?o]> (objects m)) _ _ _ _ _) with (set_objects (<[unused m := o]> (objects m')) m').
  fold (with_chars (unused m) (replicate (Z.to_nat (zlen p + 2)) None) m'). unfold bind at 1.
  rewrite (copy_short i p d _ _ _ Hs). rewrite zlen_replicate Z2Nat.id; [|lia].
  destruct (Z.leb_spec (zlen p + zlen d) (zlen p + 2)); [|done]. unfold bind at 1.
  rewrite <- zlen_app, store_next.
  assert (drop (List.length (p ++ d)) (replicate (Z.to_nat (zlen p + 2)) (@None Z)) = []) as ->; [|done].
  apply drop_ge. rewrite length_replicate length_app. unfold zlen in *. lia.
Qed.
End ShortEscape.
