(* ===== verification/CJsonParseFacts.v ===== *)
(** The parser builds in memory the tree that CJsonText.value_of reads, or gives
    back everything: whatever the text says and whenever memory runs out. *)

From iris.proofmode Require Import proofmode.
From stdpp Require Import gmap.
From S2P Require Import Prelude.
From S2P Require Import CMonad.
From S2P Require Import CString.
From S2P Require Import JsonDouble.
From S2P Require Import JsonHeap.
From S2P Require Import CJson.
From S2P Require Import CJsonParse.
From S2P Require Import JsonLogic.
From S2P Require Import CJsonFacts.
From S2P Require Import CJsonText.
From S2P Require Import CJsonTextFacts.

(** ** Items without children *)

Definition flagless (ty : Z) : Prop := is_reference ty = false /\ is_const ty = false.

(** An item before its value is read: it may have a name. *)
Definition blank (ty : Z) (nm : option (list Z)) : tree := Tree (mkData ty None 0 d_zero nm) [].

Definition rename (nm : option (list Z)) (t : tree) : tree :=
  let 'Tree d kids := t in Tree (mkData (d_type d) (d_string d) (d_int d) (d_double d) nm) kids.

Lemma close_leaf ty s k d nm it nx pv vs p :
  flagless ty ->
  it ↦ Item (mkItem nx pv None ty vs k d p) -∗ text_at vs s -∗ text_at p nm -∗
  tree_at (Tree (mkData ty s k d nm) []) it nx pv.
Proof.
  iIntros ([Hr Hc]) "Hit Hs Hn". rw tree_at_unfold. iExists None, vs, p. unfold owned, item_of; cbn. rw Hr Hc. iFrame.
  iExists None. done.
Qed.

Lemma open_blank ty nm it nx pv :
  flagless ty ->
  tree_at (blank ty nm) it nx pv ⊢ ∃ p, it ↦ Item (mkItem nx pv None ty None 0 d_zero p) ∗ text_at p nm.
Proof.
  iIntros ([Hr Hc]) "H". rw tree_at_unfold. iDestruct "H" as (ch vs p) "[Hit Ho]". unfold owned, item_of; cbn.
  rw Hr Hc. iDestruct "Ho" as "([Hvs (%la & -> & _)] & Hn)".
  destruct vs; cbn [text_at]; [iDestruct "Hvs" as %[]|]. iExists p. iFrame.
Qed.

Lemma open_leaf ty s k d nm it nx pv :
  flagless ty ->
  tree_at (Tree (mkData ty s k d nm) []) it nx pv ⊢
  ∃ vs p, it ↦ Item (mkItem nx pv None ty vs k d p) ∗ text_at vs s ∗ text_at p nm.
Proof.
  iIntros ([Hr Hc]) "H". rw tree_at_unfold. iDestruct "H" as (ch vs p) "[Hit Ho]". unfold owned, item_of; cbn.
  rw Hr Hc. iDestruct "Ho" as "([Hvs (%la & -> & _)] & Hn)". iExists vs, p. iFrame.
Qed.

Section Parser.
Context (can_malloc : allocator -> list Z -> Z -> bool) (int_overflow : double -> Z) (fuel : nat).
Context (pow : double -> double -> double) (text : list Z).
Hypothesis Htext : zlen text < 2147483640.
Abbreviation at_pos := (at_pos text).
Abbreviation value_of := (value_of pow int_overflow).
Abbreviation oom := (out_of_memory can_malloc).

(** What [f] reads from [l] is at [it], or a part of it when it stopped. *)
Definition result_at (f : list Z -> reading tree) (g : tree -> tree) (l : list Z) (it : nat) (nx pv : option nat)
    (r : option Z) : hprop :=
  match r with
  | Some j => ∃ t e, ⟨f l = Good t e⟩ ∗ ⟨at_pos j e⟩ ∗ tree_at (g t) it nx pv
  | None => ∃ t, ⟨f l = Wrong \/ oom⟩ ∗ ⟨(tree_size t <= S (List.length l))%nat⟩ ∗ tree_at t it nx pv
  end.

Definition reads (m : nat -> Z -> M memory (option Z)) (f : list Z -> reading tree) (nms : option (list Z) -> Prop)
    (g : option (list Z) -> tree -> tree) (k : nat) : Prop :=
  forall it nx pv ty nm i l (Q : option Z -> hprop),
    flagless ty -> nms nm -> at_pos i l -> readable l -> (List.length l < k)%nat ->
    tree_at (blank ty nm) it nx pv -∗ (∀ r, result_at f (g nm) l it nx pv r -∗ Q r) -∗ swp (m it i) Q.

(** A value keeps the name that its item has; an element has none before. *)
Definition reads_value (n : nat) : Prop :=
  reads (fun it i => parse_value can_malloc int_overflow pow text n it (Some i)) (value_of n) (fun _ => True) rename n.
Definition reads_element (m : nat -> Z -> M memory (option Z)) (f : list Z -> reading tree) (k : nat) : Prop :=
  reads m f (fun nm => nm = None) (fun _ t => t) k.

Lemma rename_none n l t e : value_of n l = Good t e -> rename None t = t.
Proof.
  destruct n as [|n]; [done|]. cbn [CJsonText.value_of]. 
  destruct (is_prefix _ l); [by intros [= <- _]|]. destruct (is_prefix _ l); [by intros [= <- _]|].
  destruct (is_prefix _ l); [by intros [= <- _]|]. destruct l as [|c r]; [done|].
  destruct (c =? 34); [destruct (decode r); cbn; [by intros [= <- _]|done..]|].
  destruct (_ || _); [destruct (number_of _ _); by intros [= <- _]|].
  destruct (c =? 91); [destruct (list_of _ _ _); cbn; [by intros [= <- _]|done..]|].
  destruct (c =? 123); [|done]. destruct (list_of _ _ _); cbn; [by intros [= <- _]|done..].
Qed.

Lemma rename_with_name n s l t e : value_of n l = Good t e -> rename (Some s) t = with_name s t.
Proof. by destruct t. Qed.

Lemma swp_fail_at i (Q : option Z -> hprop) : Q None ⊢ swp (fail_at i) Q.
Proof. iIntros "HQ". sbind. iApply swp_set_ep. by sret. Qed.

Lemma swp_skip_pos i l (Q : option Z -> hprop) :
  at_pos i l -> readable l -> (∀ j, ⟨at_pos j (skip_space l)⟩ -∗ Q (Some j)) ⊢ swp (skip text (Some i)) Q.
Proof. intros Hi [H0 _]. by apply swp_skip. Qed.

Lemma swp_new_blank (Q : option nat -> hprop) :
  (∀ r, match r with Some i => tree_at (blank 0 None) i None None | None => ⟨oom⟩ end -∗ Q r)
  ⊢ swp (cJSON_New_Item can_malloc) Q.
Proof.
  iIntros "HQ". iApply swp_new_item. iIntros ([i|]) "Hr"; [|by iApply ("HQ" $! None)].
  iApply ("HQ" $! (Some i)). iApply (close_leaf with "Hr"); done.
Qed.

(** ** Elements of arrays *)

Lemma reads_element_of n : reads_value n -> reads_element (parse_element text (parse_value can_malloc int_overflow pow text n)) (element_of (value_of n)) n.
Proof.
  intros H it nx pv ty nm i l Q Hty -> Hi Hl Hlen. iIntros "Ht HQ". sbind. iApply swp_skip_pos; [done|done|].
  iIntros (j Hj). pose proof (passed_length _ _ (skip_space_passed l)) as Hskip. sbind.
  iApply (H with "Ht"); [done|done|done|by apply readable_skip|lia|].
  iIntros ([j'|]) "Hr"; unfold result_at.
  - iDestruct "Hr" as "(%t & %e & %Hv & %He & Ht)". pose proof (value_consumed _ _ _ _ _ _ Hv) as [Hp _].
    iApply swp_skip_pos; [done|by eapply readable_passed; [|apply readable_skip]|]. iIntros (j2 Hj2). iApply "HQ".
    iExists t, _. rw (rename_none _ _ _ _ Hv). iFrame. unfold element_of. rw Hv. done.
  - iDestruct "Hr" as "(%t & %Hv & %Hs & Ht)". sret. iApply "HQ". iExists t. iFrame. iPureIntro. split; [|lia].
    unfold element_of. destruct Hv as [->|?]; auto.
Qed.

(** ** Members of objects *)

Lemma reads_member_of n : reads_value n -> reads_element (parse_member can_malloc text (parse_value can_malloc int_overflow pow text n)) (member_of (value_of n)) n.
Proof.
  intros H it nx pv ty nm i l Q Hty -> Hi Hl Hlen. iIntros "Ht HQ". sbind. iApply swp_skip_pos; [done|done|].
  iIntros (j Hj). pose proof (passed_length _ _ (skip_space_passed l)) as Hskip. apply readable_skip in Hl. sbind. sret.
  unfold result_at, member_of. destruct (skip_space l) as [|c l1] eqn:El; [by destruct Hl as [?%elem_of_nil _]|].
  unfold string_of. sbind. destruct (Z.eqb_spec c 34) as [->|Hc]; cycle 1.
  { unfold parse_string. sbind. iApply swp_char; [done|]. rewrite (proj2 (Z.eqb_neq _ _) Hc). cbn [negb].
    iApply swp_fail_at. sbind. do 2 sret. iApply "HQ". iExists _. iFrame. iPureIntro. split; [by left|cbn; lia]. }
  destruct (decode l1) as [s e| |] eqn:Es; [|by apply decode_not_wrong in Es|by destruct Hl as [_ Hw]; apply (Hw [] l1) in Es].
  pose proof (string_consumed (34 :: l1) s e Es) as [Hpe Le]. cbn [List.length] in *.
  assert (readable e) as He by by eapply readable_passed.
  iDestruct (open_blank with "Ht") as (p) "[Hit Hp]"; [done|]. destruct p as [p|]; cbn [text_at]; [iDestruct "Hp" as %[]|].
  iApply (swp_parse_string with "Hit"); [done|done|done|]. iIntros ([j1|]) "Hr"; cycle 1.
  { iDestruct "Hr" as "[%Hoom Hit]". sbind. do 2 sret. iApply "HQ". iExists (blank ty None). iSplit; [by auto|].
    iSplit; [iPureIntro; cbn; lia|]. by iApply (close_leaf with "Hit"). }
  iDestruct "Hr" as "(%q & %Hj1 & Hq & Hit)". sbind. iApply swp_skip_pos; [done|done|]. iIntros (j2 Hj2).
  pose proof (passed_length _ _ (skip_space_passed e)). apply readable_skip in He. cbn [and_then].
  sbind. iApply (swp_edit with "Hit"). iIntros "Hit". sbind. iApply (swp_edit with "Hit"). iIntros "Hit".
  iAssert (tree_at (blank cJSON_String (Some s)) it nx pv) with "[Hit Hq]" as "Ht".
  { iApply (close_leaf with "Hit [] [Hq]"); done. }
  destruct (skip_space e) as [|c r] eqn:Ee; [by destruct He as [?%elem_of_nil _]|]. cbn [List.length] in *.
  sbind. iApply swp_char; [done|]. destruct (Z.eqb_spec c 58) as [->|Hc]; cbn [negb]; cycle 1.
  { iApply swp_fail_at. iApply "HQ". iExists _. iFrame. iPureIntro. split; [by auto|cbn; lia]. }
  apply at_pos_next in Hj2. apply readable_tail in He; [|done]. sbind. iApply swp_skip_pos; [done|done|]. iIntros (j3 Hj3). sbind.
  pose proof (passed_length _ _ (skip_space_passed r)).
  iApply (H with "Ht"); [done|done|done|by apply readable_skip|lia|].
  iIntros ([j'|]) "Hr"; unfold result_at.
  - iDestruct "Hr" as "(%t & %e2 & %Hv & %He2 & Ht)". pose proof (value_consumed _ _ _ _ _ _ Hv) as [Hp2 _]. rw Hv. cbn [and_then].
    iApply swp_skip_pos; [done|by eapply readable_passed; [|apply readable_skip]|]. iIntros (j4 Hj4). iApply "HQ".
    iExists (with_name s t), _. rw (rename_with_name _ _ _ _ _ Hv). iFrame. done.
  - iDestruct "Hr" as "(%t & %Hv & %Hs & Ht)". sret. iApply "HQ". iExists t. iFrame. iPureIntro. split; [|lia].
    destruct Hv as [->|?]; auto.
Qed.

(** ** Lists of items *)

Section Lists.
Context (m : nat -> Z -> M memory (option Z)) (f : list Z -> reading tree) (k : nat) (close : Z).
Hypothesis Hclose : close <> 0.
Hypothesis Hreads : reads_element m f k.
Hypothesis Hf : forall l t e, f l = Good t e -> consumed (tree_size t) l e.

(** The items [L], and those that were read from [l]. *)
Definition items_at (L : list tree) (l : list Z) (p : list Z -> reading (list tree)) (ch : option nat) (r : option Z) : hprop :=
  match r with
  | Some j => ∃ ts e, ⟨p l = Good ts e⟩ ∗ ⟨at_pos j e⟩ ∗ chain (L ++ ts) ch
  | None => ∃ ts, ⟨p l = Wrong \/ oom⟩ ∗ ⟨(list_size ts <= S (List.length l))%nat⟩ ∗ chain (L ++ ts) ch
  end.

(** A new item behind the last one. *)
Lemma swp_next_item L ch cur (Q : option nat -> hprop) :
  L <> [] -> segment L ch None None (Some cur) -∗
  (∀ r, match r with
        | Some n => segment L ch None (Some n) (Some cur) ∗ tree_at (blank 0 None) n None (Some cur)
        | None => ⟨oom⟩ ∗ segment L ch None None (Some cur)
        end -∗ Q r) -∗
  swp (next_item can_malloc cur) Q.
Proof.
  iIntros (HL) "HL HQ". sbind. iApply swp_new_blank. iIntros ([n|]) "Hr"; cycle 1.
  { sret. iApply ("HQ" $! None). iFrame. }
  sbind. iApply (swp_relink_next with "HL"); [done|]. iIntros "HL". sbind.
  iApply (swp_link_prev with "Hr"). iIntros "Hn". sret. iApply ("HQ" $! (Some n)). iFrame.
Qed.

Lemma swp_parse_elements n n' L ch cur i l (Q : option Z -> hprop) :
  L <> [] -> at_pos i l -> readable l -> (List.length l < n)%nat -> (List.length l < n')%nat -> (List.length l <= k)%nat ->
  segment L ch None None (Some cur) -∗
  (∀ r, items_at L l (elements_of n' f close) ch r -∗ Q r) -∗
  swp (loop n (fun '(child, value) =>
    c <- char text value ;;
    if c =? 44 then
      new_item <- next_item can_malloc child ;;
      match new_item with
      | None => ret (inr None)
      | Some n =>
          value <- m n (value + 1) ;;
          match value with
          | None => ret (inr None)
          | Some value => ret (inl (n, value))
          end
      end
    else if c =? close then ret (inr (Some (value + 1)))
    else r <- fail_at value ;; ret (inr r)) (cur, i)) Q.
Proof.
  revert n' L cur i l. induction n as [|n IH]; intros n' L cur i l HL Hi Hl Hn Hn' Hk; [lia|].
  destruct n' as [|n']; [lia|]. iIntros "HL HQ". iApply swp_loop.
  destruct l as [|c r]; [by destruct Hl as [?%elem_of_nil _]|]. sbind. iApply swp_char; [done|].
  cbn [elements_of List.length] in *. unfold items_at. cbn [elements_of].
  destruct (Z.eqb_spec c 44) as [->|H44]; cycle 1.
  { destruct (Z.eqb_spec c close) as [->|].
    - sret. iApply "HQ". iExists [], r. rw app_nil_r. iSplit; [done|]. iSplit; [iPureIntro; by eapply at_pos_next|]. by iExists (Some cur).
    - sbind. iApply swp_fail_at. sret. iApply "HQ". iExists []. rw app_nil_r. iSplit; [by auto|]. iSplit; [iPureIntro; cbn; lia|].
      by iExists (Some cur). }
  apply readable_tail in Hl; [|done]. apply at_pos_next in Hi.
  sbind. iApply (swp_next_item with "HL"); [done|]. iIntros ([nw|]) "Hr"; cycle 1.
  { iDestruct "Hr" as "[%Hoom HL]". sret. iApply "HQ". iExists []. rw app_nil_r. iSplit; [by auto|].
    iSplit; [iPureIntro; cbn; lia|]. by iExists (Some cur). }
  iDestruct "Hr" as "[HL Hnew]". sbind.
  iApply (Hreads with "Hnew"); [done|done|done|done|lia|]. iIntros ([j|]) "Hr"; unfold result_at; cycle 1.
  { iDestruct "Hr" as "(%t & %Hv & %Hs & Ht)". sret. iApply "HQ". iExists [t]. iSplit.
    - iPureIntro. destruct Hv as [->|?]; auto.
    - iSplit; [iPureIntro; cbn; lia|]. iExists (Some nw). rw segment_snoc. iExists nw, (Some cur). by iFrame. }
  iDestruct "Hr" as "(%t & %e & %Hv & %He & Ht)". sret. destruct (Hf _ _ _ Hv) as [Hp Hsz].
  iApply (IH n' (L ++ [t]) with "[HL Ht]"); [by destruct L|done|by eapply readable_passed|lia|lia|lia| |].
  { rw segment_snoc. iExists nw, (Some cur). by iFrame. }
  iIntros (r') "Hr". iApply "HQ". unfold items_at. rw Hv. cbn [and_then]. destruct r' as [j'|].
  - iDestruct "Hr" as "(%ts & %e' & %Hts & %He' & Hc)". rw Hts. iExists (t :: ts), e'. rw -app_assoc. by iFrame.
  - iDestruct "Hr" as "(%ts & %Hts & %Hs & Hc)". iExists (t :: ts). rw -app_assoc. iFrame.
    iPureIntro. split; [destruct Hts as [->|?]; auto|cbn; lia].
Qed.

Lemma chain_cons t i n pv la ts : tree_at t i n pv -∗ segment ts n (Some i) None la -∗ segment (t :: ts) (Some i) pv None la.
Proof. iIntros "Ht Hs". iExists i, n. by iFrame. Qed.

(** A list from its opening bracket on. *)
Lemma swp_parse_list open t it nx pv ty nm i l (Q : option Z -> hprop) :
  flagless ty -> flagless t -> at_pos i (open :: l) -> open <> 0 -> readable l -> (List.length l < k)%nat ->
  list_of f close l <> Unsafe ->
  tree_at (blank ty nm) it nx pv -∗
  (∀ r, result_at (fun l => and_then (list_of f close (tail l)) (fun ts e => Good (Tree (mkData t None 0 d_zero None) ts) e))
          (rename nm) (open :: l) it nx pv r -∗ Q r) -∗
  swp (parse_list can_malloc text m open close t it i) Q.
Proof.
  iIntros (Hty Ht Hi Hopen Hl Hk Hsafe) "Hb HQ". sbind. iApply swp_char; [done|]. rewrite Z.eqb_refl. cbn [negb].
  iDestruct (open_blank with "Hb") as (p) "[Hit Hp]"; [done|].
  sbind. iApply (swp_edit with "Hit"). iIntros "Hit". apply at_pos_next in Hi.
  sbind. iApply swp_skip_pos; [done|done|]. iIntros (j Hj). sbind. sret.
  pose proof (passed_length _ _ (skip_space_passed l)) as Hskip. apply readable_skip in Hl.
  unfold result_at, list_of in *. cbn [tail]. destruct (skip_space l) as [|c r] eqn:El; [done|]. cbn [List.length] in *.
  sbind. iApply swp_char; [done|]. destruct Ht as [Htr Htc]. destruct (Z.eqb_spec c close) as [->|Hc].
  { sret. iApply "HQ". iExists _, r. iSplit; [done|]. iSplit; [iPureIntro; by eapply at_pos_next|].
    iApply (close_leaf with "Hit [] Hp"); done. }
  sbind. sbind. iApply swp_new_blank. iIntros ([ch|]) "Hch"; sbind; iApply (swp_edit with "Hit"); iIntros "Hit"; sret; cycle 1.
  { iDestruct "Hch" as %Hoom. sret. iApply "HQ". iExists (blank t nm). iSplit; [by auto|]. iSplit; [iPureIntro; cbn; lia|].
    iApply (close_leaf with "Hit [] Hp"); done. }
  sbind. iApply (Hreads with "Hch"); [done|done|done|done|cbn; lia|].
  iAssert (∀ ts, chain ts (Some ch) -∗ tree_at (Tree (mkData t None 0 d_zero nm) ts) it nx pv)%I with "[Hit Hp]" as "Hclose".
  { iIntros (ts) "[%la Hc]". iApply (close_array (mkData t None 0 d_zero nm) ts it nx pv (Some ch) None p la Htr with "Hit Hc [Hp]").
    unfold strings; cbn. rw Htc. by iFrame. }
  iIntros ([j1|]) "Hr"; unfold result_at; cycle 1.
  { iDestruct "Hr" as "(%t1 & %Hv & %Hs & Ht)". sret. iApply "HQ". iExists (Tree (mkData t None 0 d_zero nm) [t1]).
    iSplit; [iPureIntro; destruct Hv as [->|?]; auto|]. iSplit; [iPureIntro; cbn in *; lia|].
    iApply "Hclose". iExists (Some ch). iApply (chain_cons with "Ht"). done. }
  iDestruct "Hr" as "(%t1 & %e & %Hv & %He & Ht)". destruct (Hf _ _ _ Hv) as [Hp Hsz]. rw Hv in Hsafe. rw Hv. cbn [and_then] in *.
  iApply (swp_parse_elements _ (S (List.length e)) [t1] (Some ch) with "[Ht]");
    [done|done|by eapply readable_passed|by eapply at_pos_rounds|lia|cbn in *; lia| |].
  { iApply (chain_cons with "Ht"). done. }
  iIntros (r') "Hr". iApply "HQ". destruct r' as [j'|]; unfold items_at.
  - iDestruct "Hr" as "(%ts & %e' & %Hts & %He' & Hc)". rw Hts. cbn [and_then]. iExists _, e'. iSplit; [done|]. iSplit; [done|].
    cbn [rename d_type d_string d_int d_double]. by iApply "Hclose".
  - iDestruct "Hr" as "(%ts & %Hts & %Hs & Hc)". iExists (Tree (mkData t None 0 d_zero nm) (t1 :: ts)). iSplit.
    { iPureIntro. destruct Hts as [->|?]; auto. }
    iSplit; [iPureIntro; cbn in *; lia|]. by iApply "Hclose".
Qed.
End Lists.

(** ** Values *)

Lemma skip_word s i l : at_pos i l -> is_prefix s l = true -> at_pos (i + zlen s) (drop (List.length s) l).
Proof. intros Hi (r & ->)%is_prefix_spec. rewrite drop_app_length. by eapply at_pos_app. Qed.

Lemma swp_word f s ty n e it nx pv ty0 nm i l (Q : option Z -> hprop) :
  flagless ty0 -> flagless ty -> at_pos i l -> is_prefix s l = true ->
  f l = Good (Tree (mkData ty None n d_zero None) []) (drop (List.length s) l) -> e = i + zlen s ->
  tree_at (blank ty0 nm) it nx pv -∗ (∀ r, result_at f (rename nm) l it nx pv r -∗ Q r) -∗
  swp (edit (fun c => if n =? 0 then set_type ty c else set_valueint n (set_type ty c)) it ;; ret (Some e)) Q.
Proof.
  iIntros (H0 Hty Hi Hs Hf ->) "Hb HQ". iDestruct (open_blank with "Hb") as (p) "[Hit Hp]"; [done|].
  sbind. iApply (swp_edit with "Hit"). iIntros "Hit". sret. iApply "HQ". iExists _, _. iSplit; [done|].
  iSplit; [iPureIntro; by apply skip_word|]. destruct (Z.eqb_spec n 0) as [->|]; iApply (close_leaf with "Hit [] Hp"); done.
Qed.

Lemma value_reads n : reads_value n.
Proof.
  induction n as [|n IH]; intros it nx pv ty nm i l Q Hty _ Hi Hl Hlen; [lia|]. iIntros "Hb HQ".
  pose proof (proj1 Hl) as H0. assert (flagless 0 /\ flagless 1 /\ flagless 2 /\ flagless 3 /\ flagless 4 /\ flagless 5 /\ flagless 6) as (F0 & F1 & F2 & F3 & F4 & F5 & F6) by done.
  cbn [parse_value]. sbind. iApply swp_starts_with; [done|done|by repeat constructor|].
  destruct (is_prefix (bytes "null") l) eqn:En.
  { iApply (swp_word (value_of (S n)) (bytes "null") cJSON_NULL 0 with "Hb HQ"); try done. cbn [CJsonText.value_of]. by rw En. }
  sbind. iApply swp_starts_with; [done|done|by repeat constructor|].
  destruct (is_prefix (bytes "false") l) eqn:Ef.
  { iApply (swp_word (value_of (S n)) (bytes "false") cJSON_False 0 with "Hb HQ"); try done. cbn [CJsonText.value_of]. by rw En Ef. }
  sbind. iApply swp_starts_with; [done|done|by repeat constructor|].
  destruct (is_prefix (bytes "true") l) eqn:Et.
  { iDestruct (open_blank with "Hb") as (p) "[Hit Hp]"; [done|].
    sbind. iApply (swp_edit with "Hit"). iIntros "Hit". sbind. iApply (swp_edit with "Hit"). iIntros "Hit". sret. iApply "HQ".
    iExists (leaf cJSON_True None 1 d_zero), (drop 4 l). iSplit; [iPureIntro; cbn [CJsonText.value_of]; by rw En Ef Et|].
    iSplit; [iPureIntro; by apply (skip_word (bytes "true"))|]. iApply (close_leaf with "Hit [] Hp"); done. }
  destruct l as [|c r]; [by apply elem_of_nil in H0|]. sbind. iApply swp_char; [done|]. cbn [List.length] in Hlen.
  unfold result_at. cbn [CJsonText.value_of]. rw En Ef Et. clear En Ef Et.
  destruct (Z.eqb_spec c 34) as [->|H34].
  { destruct Hl as [_ Hw]. specialize (Hw [] r eq_refl). destruct (decode r) as [s e| |] eqn:Es; [|by apply decode_not_wrong in Es|done]. clear Hw.
    iDestruct (open_blank with "Hb") as (p) "[Hit Hp]"; [done|].
    iApply (swp_parse_string with "Hit"); [done|done|done|]. iIntros ([j|]) "Hr"; iApply "HQ".
    - iDestruct "Hr" as "(%q & %Hj & Hq & Hit)". iExists _, e. iSplit; [done|]. iSplit; [done|].
      iApply (close_leaf with "Hit [Hq] Hp"); done.
    - iDestruct "Hr" as "[%Hoom Hit]". iExists (blank ty nm). iSplit; [by auto|]. iSplit; [iPureIntro; cbn; lia|].
      iApply (close_leaf with "Hit [] Hp"); done. }
  destruct (_ || _) eqn:Enum.
  { destruct (number_of pow (c :: r)) as [d e] eqn:Ed. iDestruct (open_blank with "Hb") as (p) "[Hit Hp]"; [done|].
    iApply (swp_parse_number with "Hit"); [done|done|done|]. iIntros (j Hj) "Hit". iApply "HQ". iExists _, e. iSplit; [done|].
    iSplit; [done|]. iApply (close_leaf with "Hit [] Hp"); done. }
  destruct (Z.eqb_spec c 91) as [->|H91].
  { apply readable_tail in Hl as Hr; [|done].
    iApply (swp_parse_list _ (element_of (value_of n)) n 93 with "Hb HQ"); [by apply reads_element_of|
      intros; by eapply element_consumed; [intros; by eapply value_consumed|]|done|done|done|done|done|lia|].
    eapply (list_safe _ _ n); [intros; by eapply element_consumed; [intros; by eapply value_consumed|]|
      intros; eapply element_safe; [intros; by eapply value_safe|done..]|lia|done]. }
  destruct (Z.eqb_spec c 123) as [->|H123]; cycle 1.
  { iApply swp_fail_at. iApply "HQ". iExists _. iFrame. iPureIntro. split; [by auto|cbn; lia]. }
  apply readable_tail in Hl as Hr; [|done].
  iApply (swp_parse_list _ (member_of (value_of n)) n 125 with "Hb HQ"); [by apply reads_member_of|
    intros; by eapply member_consumed; [intros; by eapply value_consumed|]|done|done|done|done|done|lia|].
  eapply (list_safe _ _ n); [intros; by eapply member_consumed; [intros; by eapply value_consumed|]|
    intros; eapply member_safe; [intros; by eapply value_safe|done..]|lia|done].
Qed.

(** ** The whole parser *)

(** What is behind the value, as cJSON_ParseWithOpts looks at it. *)
Definition rest_of (require : bool) (e : list Z) : list Z := if require then skip_space e else e.

(** The value is there, and nothing that was not asked for is behind it. *)
Definition accepted (require : bool) (l : list Z) (t : tree) (e : list Z) : Prop :=
  text_value pow int_overflow l = Good t e /\ (require = true -> head (skip_space e) = Some 0).
Definition rejected (require : bool) (l : list Z) : Prop :=
  text_value pow int_overflow l = Wrong \/
  exists t e, text_value pow int_overflow l = Good t e /\ require = true /\ head (skip_space e) <> Some 0.

Definition parsed_at (require : bool) (l : list Z) (r : option nat * option Z) : hprop :=
  match r with
  | (Some p, Some j) => ∃ t e, ⟨accepted require l t e⟩ ∗ ⟨at_pos j (rest_of require e)⟩ ∗ tree_at t p None None
  | (None, None) => ⟨rejected require l \/ oom⟩
  | _ => ⟨False⟩
  end.

Lemma swp_parse i l require (Q : option nat * option Z -> hprop) :
  at_pos i l -> readable l -> (S (List.length l) < fuel)%nat ->
  (∀ r, parsed_at (negb (require =? 0)) l r -∗ Q r) ⊢
  swp (cJSON_ParseWithOpts can_malloc int_overflow fuel pow text i require) Q.
Proof.
  iIntros (Hi Hl Hfuel) "HQ". sbind. iApply swp_new_blank. iIntros ([p|]) "Hp"; sbind; iApply swp_set_ep; cycle 1.
  { iDestruct "Hp" as %Hoom. sret. iApply ("HQ" $! (None, None)). by auto. }
  sbind. iApply swp_skip_pos; [done|done|]. iIntros (j Hj). pose proof (passed_length _ _ (skip_space_passed l)).
  pose proof (readable_skip _ Hl) as Hl'. sbind.
  iApply (value_reads (rounds text) with "Hp"); [done|done|done|done|by eapply at_pos_rounds|].
  assert (value_of (rounds text) (skip_space l) = text_value pow int_overflow l) as Hval.
  { apply value_of_enough; [by eapply at_pos_rounds|lia]. }
  iIntros ([j1|]) "Hr"; unfold result_at; rw Hval; cycle 1.
  { iDestruct "Hr" as "(%t & %Hv & %Hs & Ht)". sbind. iApply (swp_cJSON_Delete with "Ht"); [lia|]. sret.
    iApply ("HQ" $! (None, None)). iPureIntro. unfold rejected. destruct Hv; auto. }
  iDestruct "Hr" as "(%t & %e & %Hv & %He & Ht)". rewrite -Hval in Hv. rw (rename_none _ _ _ _ Hv).
  pose proof (value_consumed _ _ _ _ _ _ Hv) as [Hp Hsz]. rewrite Hval in Hv.
  destruct (Z.eqb_spec require 0) as [->|Hreq].
  { sret. iApply ("HQ" $! (Some p, Some j1)). iExists t, e. by iFrame. }
  cbn [negb]. assert (readable e) as Hre by by eapply readable_passed. sbind. iApply swp_skip_pos; [done|done|].
  iIntros (j2 Hj2). sbind. sret. pose proof (readable_skip _ Hre) as [H0 _].
  destruct (skip_space e) as [|c r] eqn:Ee; [by apply elem_of_nil in H0|]. sbind. iApply swp_char; [done|].
  destruct (Z.eqb_spec c 0) as [->|Hc].
  - sret. iApply ("HQ" $! (Some p, Some j2)). iExists t, e. iFrame. iPureIntro. cbn [rest_of]. rw Ee.
    split; [|done]. split; [done|]. by rw Ee.
  - sbind. iApply (swp_cJSON_Delete with "Ht"); [lia|]. sbind. iApply swp_set_ep. sret. iApply ("HQ" $! (None, None)).
    iPureIntro. left. right. exists t, e. rw Ee. split; [done|]. split; [done|]. by intros [= ?].
Qed.
End Parser.
