(* ===== verification/JsonNumberFacts.v ===== *)
(** Integers of less than 53 bits are doubles, and sums and products of them
    are exact.

    The second part is about their texts: what printf writes of a number. *)

From Stdlib Require Import SpecFloat.
From S2P Require Import Prelude.
From S2P Require Import CString.
From S2P Require Import JsonDouble.
From S2P Require Import CJsonPrint.
From S2P Require Import CJsonText.

#[local] Abbreviation digits p := (Zpos (digits2_pos p)).

Lemma digits_bound p : 2 ^ (digits p - 1) <= Zpos p < 2 ^ digits p.
Proof.
  induction p as [p IH|p IH|]; cbn [digits2_pos]; [..|done]; rewrite Pos2Z.inj_succ;
    replace (Z.succ (digits p) - 1) with (Z.succ (digits p - 1)) by lia;
    rewrite !Z.pow_succ_r by lia; lia.
Qed.

Lemma digits_unique p n : 2 ^ (n - 1) <= Zpos p < 2 ^ n -> 0 < n -> digits p = n.
Proof.
  intros [H1 H2] Hn. pose proof (digits_bound p) as [H3 H4].
  assert (digits p - 1 < n) by (apply (Z.pow_lt_mono_r_iff 2); lia).
  assert (n - 1 < digits p) by (apply (Z.pow_lt_mono_r_iff 2); lia). lia.
Qed.

Lemma digits_shift p q k : 0 <= k -> Zpos q = Zpos p * 2 ^ k -> digits q = digits p + k.
Proof.
  intros Hk Hq. apply digits_unique; [|lia]. rewrite Hq. pose proof (digits_bound p) as [H1 H2].
  assert (0 < 2 ^ k) by (apply Z.pow_pos_nonneg; lia).
  replace (digits p + k - 1) with (digits p - 1 + k) by lia. rewrite !Z.pow_add_r by lia. nia.
Qed.

(** The double of an integer below 2^53. *)
Definition int_double (s : bool) (p : positive) : double :=
  S754_finite s (Z.to_pos (Zpos p * 2 ^ (53 - digits p))) (digits p - 53).

Lemma small_digits p : Zpos p < 2 ^ 53 -> digits p <= 53.
Proof.
  intros H. pose proof (digits_bound p) as [H1 _]. enough (digits p - 1 < 53) by lia.
  apply (Z.pow_lt_mono_r_iff 2); lia.
Qed.

Lemma exact_mantissa p : Zpos p < 2 ^ 53 -> Zpos (Z.to_pos (Zpos p * 2 ^ (53 - digits p))) = Zpos p * 2 ^ (53 - digits p).
Proof.
  intros H. apply small_digits in H. rewrite Z2Pos.id; [done|]. apply Z.mul_pos_pos; [lia|]. apply Z.pow_pos_nonneg; lia.
Qed.

Abbreviation bits q := (Build_shr_record q false false).

Lemma shr_exact n q : 0 < q -> SpecFloat.iter_pos shr_1 n (bits (q * 2 ^ Zpos n)) = bits q.
Proof.
  assert (forall q, 0 < q -> shr_1 (bits (q * 2)) = bits q) as H1 by (intros [|p|p] H; [lia| |lia]; rewrite Z.mul_comm; done).
  revert q. induction n as [n IH|n IH|]; intros q Hq; cbn [SpecFloat.iter_pos].
  - replace (q * 2 ^ Zpos n~1) with (q * 2 ^ Zpos n * 2 ^ Zpos n * 2); cycle 1.
    { rewrite (Pos2Z.inj_xI n). replace (2 * Zpos n + 1) with (Zpos n + Zpos n + 1) by lia. rewrite !Z.pow_add_r by lia. ring. }
    assert (0 < 2 ^ Zpos n) by (apply Z.pow_pos_nonneg; lia). rewrite H1 by nia. rewrite IH by nia. by apply IH.
  - replace (q * 2 ^ Zpos n~0) with (q * 2 ^ Zpos n * 2 ^ Zpos n); cycle 1.
    { rewrite (Pos2Z.inj_xO n). replace (2 * Zpos n) with (Zpos n + Zpos n) by lia. rewrite !Z.pow_add_r by lia. ring. }
    assert (0 < 2 ^ Zpos n) by (apply Z.pow_pos_nonneg; lia). rewrite IH by nia. by apply IH.
  - change (2 ^ 1) with 2. by apply H1.
Qed.

Lemma shr_steps q e n : 0 < q -> 0 <= n -> shr (bits (q * 2 ^ n)) e n = (bits q, e + n).
Proof.
  intros Hq Hn. destruct n as [|n|n]; [|cbn [shr]; by rewrite shr_exact|lia]. cbn [shr].
  by rewrite Z.pow_0_r, Z.mul_1_r, Z.add_0_r.
Qed.

Lemma round_aux_exact s p m k :
  Zpos p < 2 ^ 53 -> Zpos m = Zpos p * 2 ^ k -> 53 - digits p <= k ->
  binary_round_aux 53 1024 s (Zpos m) (- k) loc_Exact = int_double s p.
Proof.
  intros Hp Hm Hk. pose proof (small_digits p Hp) as Hd. pose proof (exact_mantissa p Hp) as Hq.
  set (q := Z.to_pos _) in *. assert (digits q = 53) as Hdq by (rewrite (digits_shift p q (53 - digits p)); lia).
  assert (fexp 53 1024 (digits p) = digits p - 53) as Hf by (unfold fexp, emin; lia).
  unfold binary_round_aux, shr_fexp. cbn [Zdigits2 shr_record_of_loc]. rewrite (digits_shift p m k) by lia.
  replace (digits p + k + - k) with (digits p) by lia. rewrite Hf.
  replace (Zpos m) with (Zpos q * 2 ^ (digits p - 53 - - k)); cycle 1.
  { rewrite Hq, Hm, <- Z.mul_assoc, <- Z.pow_add_r by lia. do 2 f_equal. lia. }
  rewrite shr_steps by lia. cbn [shr_m loc_of_shr_record round_nearest_even shr_record_of_loc Zdigits2].
  replace (- k + (digits p - 53 - - k)) with (digits p - 53) by lia.
  rewrite Hdq. replace (53 + (digits p - 53)) with (digits p) by lia. rewrite Hf, Z.sub_diag. cbn [shr shr_m].
  rewrite (proj2 (Z.leb_le _ _)) by lia. done.
Qed.

Lemma iter_xO m n : Zpos (Pos.iter xO m n) = Zpos m * 2 ^ Zpos n.
Proof.
  induction n as [|n IH] using Pos.peano_ind; [cbn; lia|].
  rewrite Pos.iter_succ, Pos2Z.inj_xO, IH, Pos2Z.inj_succ, Z.pow_succ_r by lia. lia.
Qed.

Lemma round_exact s p m k :
  Zpos p < 2 ^ 53 -> Zpos m = Zpos p * 2 ^ k -> 0 <= k -> binary_round 53 1024 s m (- k) = int_double s p.
Proof.
  intros Hp Hm Hk. pose proof (small_digits p Hp) as Hd. unfold binary_round. rewrite (digits_shift p m k) by done.
  replace (digits p + k + - k) with (digits p) by lia.
  replace (fexp 53 1024 (digits p)) with (digits p - 53) by (unfold fexp, emin; lia).
  unfold shl_align. destruct (digits p - 53 - - k) as [|n|n] eqn:E.
  - apply round_aux_exact; [done|done|lia].
  - apply round_aux_exact; [done|done|lia].
  - replace (digits p - 53) with (- (53 - digits p)) by lia. apply round_aux_exact; [done| |lia].
    rewrite iter_xO, Hm, <- Z.mul_assoc, <- Z.pow_add_r by lia. do 2 f_equal. lia.
Qed.

(** ** Integers *)

Definition fine (z : Z) : Prop := - 2 ^ 53 < z < 2 ^ 53.

Lemma normalize_exact z m k :
  fine z -> m = z * 2 ^ k -> 0 <= k ->
  binary_normalize 53 1024 m (- k) false = match z with Z0 => d_zero | Zpos p => int_double false p | Zneg p => int_double true p end.
Proof.
  intros Hz -> Hk. unfold fine in Hz. assert (0 < 2 ^ k) as Hpow by (apply Z.pow_pos_nonneg; lia).
  destruct z as [|p|p]; [done|..].
  - destruct (Zpos p * 2 ^ k) as [|m|m] eqn:E; [lia| |lia]. cbn [binary_normalize]. apply round_exact; lia.
  - destruct (Zneg p * 2 ^ k) as [|m|m] eqn:E; [lia|lia|]. cbn [binary_normalize]. apply round_exact; lia.
Qed.

Lemma d_of_Z_exact z : fine z ->
  d_of_Z z = match z with Z0 => d_zero | Zpos p => int_double false p | Zneg p => int_double true p end.
Proof. intros Hz. unfold d_of_Z. change 0 with (- 0). apply normalize_exact; [done|by rewrite Z.mul_1_r|done]. Qed.

Lemma d_mul_positive a b s t :
  Zpos a * Zpos b < 2 ^ 53 -> d_mul (int_double s a) (int_double t b) = int_double (xorb s t) (a * b).
Proof.
  intros H. assert (Zpos a < 2 ^ 53 /\ Zpos b < 2 ^ 53) as [Ha Hb] by nia.
  pose proof (small_digits a Ha). pose proof (small_digits b Hb). unfold d_mul, int_double at 1 2, SFmul.
  set (k := 53 - digits a + (53 - digits b)). replace (digits a - 53 + (digits b - 53)) with (- k) by lia.
  apply round_aux_exact; [lia| |].
  - rewrite !Pos2Z.inj_mul, !exact_mantissa by done. unfold k. rewrite Z.pow_add_r by lia. ring.
  - unfold k. pose proof (digits_bound a) as [Ha1 _]. pose proof (digits_bound b) as [Hb1 _]. pose proof (digits_bound (a * b)) as [_ Hab].
    assert (2 ^ (digits a - 1 + (digits b - 1)) < 2 ^ digits (a * b)) as Hlt.
    { rewrite Z.pow_add_r by lia. rewrite Pos2Z.inj_mul in Hab. pose proof (Z.pow_pos_nonneg 2 (digits a - 1)). pose proof (Z.pow_pos_nonneg 2 (digits b - 1)). nia. }
    apply Z.pow_lt_mono_r_iff in Hlt; lia.
Qed.

Lemma d_mul_exact a b : fine (a * b) -> 0 <= b -> (b = 0 -> 0 <= a) -> fine a -> fine b -> d_mul (d_of_Z a) (d_of_Z b) = d_of_Z (a * b).
Proof.
  intros Hab Hb H0 Ha Hb'. rewrite !d_of_Z_exact by done. unfold fine in *.
  destruct a as [|a|a], b as [|b|b]; try lia; try done; cbn [Z.mul]; rewrite d_mul_positive; try done; lia.
Qed.

Lemma align_exact p K : Zpos p < 2 ^ 53 -> 53 - digits p <= K ->
  Zpos (fst (shl_align (Z.to_pos (Zpos p * 2 ^ (53 - digits p))) (digits p - 53) (- K))) = Zpos p * 2 ^ K.
Proof.
  intros Hp HK. pose proof (exact_mantissa p Hp) as Hq. pose proof (small_digits p Hp). set (q := Z.to_pos _) in *.
  unfold shl_align. destruct (- K - (digits p - 53)) as [|n|n] eqn:E; cbn [fst].
  - rewrite Hq. do 2 f_equal. lia.
  - lia.
  - rewrite iter_xO, Hq, <- Z.mul_assoc, <- Z.pow_add_r by lia. do 2 f_equal. lia.
Qed.

(** A nonzero integer, shifted to an exponent that is not above its own. *)
Lemma d_add_exact a b : fine a -> fine b -> fine (a + b) -> d_add (d_of_Z a) (d_of_Z b) = d_of_Z (a + b).
Proof.
  intros Ha Hb Hab.
  assert (forall s t p q, fine (Zpos p) -> fine (Zpos q) -> fine (cond_Zopp s (Zpos p) + cond_Zopp t (Zpos q)) ->
    d_add (int_double s p) (int_double t q) = d_of_Z (cond_Zopp s (Zpos p) + cond_Zopp t (Zpos q))) as H.
  { clear. intros s t p q [_ Hp] [_ Hq] Hpq. rewrite d_of_Z_exact by done. unfold d_add, int_double, SFadd.
    pose proof (small_digits p Hp). pose proof (small_digits q Hq).
    set (K := Z.max (53 - digits p) (53 - digits q)). replace (Z.min (digits p - 53) (digits q - 53)) with (- K) by lia.
    rewrite !align_exact by lia. apply normalize_exact; [done| |lia].
    destruct s, t; cbn [cond_Zopp]; ring. }
  rewrite (d_of_Z_exact a), (d_of_Z_exact b) by done.
  destruct a as [|a|a], b as [|b|b]; try (rewrite Z.add_0_r); try (rewrite Z.add_0_l).
  - done.
  - by rewrite d_of_Z_exact.
  - by rewrite d_of_Z_exact.
  - by rewrite d_of_Z_exact.
  - by apply (H false false).
  - apply (H false true); unfold fine in *; cbn; lia.
  - by rewrite d_of_Z_exact.
  - apply (H true false); unfold fine in *; cbn; lia.
  - apply (H true true); unfold fine in *; cbn; lia.
Qed.

(** ** Comparisons *)

Lemma d_sub_self z : fine z -> d_sub (d_of_Z z) (d_of_Z z) = d_zero.
Proof.
  intros Hz. rewrite d_of_Z_exact by done.
  assert (forall s p, d_sub (int_double s p) (int_double s p) = d_zero) as H.
  { intros s p. unfold d_sub, int_double, SFsub. by rewrite Z.sub_diag. }
  destruct z as [|p|p]; [done|apply H..].
Qed.

Lemma d_of_Z_zero z : fine z -> SFeqb (d_of_Z z) d_zero = (z =? 0).
Proof. intros Hz. rewrite d_of_Z_exact by done. by destruct z. Qed.

Lemma int_double_order p q :
  Zpos p < 2 ^ 53 -> Zpos q < 2 ^ 53 -> Zpos p <= Zpos q ->
  SFcompare (int_double false p) (int_double false q) = Some Lt \/ SFcompare (int_double false p) (int_double false q) = Some Eq.
Proof.
  intros Hp Hq Hpq. cbn [SFcompare int_double]. pose proof (exact_mantissa p Hp) as Ep. pose proof (exact_mantissa q Hq) as Eq'.
  destruct (Z.compare_spec (digits p - 53) (digits q - 53)) as [E|E|E]; [|by left|exfalso].
  - set (m1 := Z.to_pos _) in *. set (m2 := Z.to_pos (Zpos q * _)) in *.
    change (Pos.compare_cont Eq m1 m2) with (Pos.compare m1 m2).
    assert (Zpos m1 <= Zpos m2) by (rewrite Ep, Eq'; replace (53 - digits q) with (53 - digits p) by lia; pose proof (Z.pow_nonneg 2 (53 - digits p)); nia).
    destruct (Pos.compare_spec m1 m2); [by right|by left|lia].
  - pose proof (digits_bound p) as [H1 _]. pose proof (digits_bound q) as [_ H2].
    assert (2 ^ digits q <= 2 ^ (digits p - 1)) by (apply Z.pow_le_mono_r; lia). lia.
Qed.

Lemma SFcompare_opp p q e1 e2 :
  SFcompare (S754_finite true p e1) (S754_finite true q e2) = SFcompare (S754_finite false q e2) (S754_finite false p e1).
Proof.
  cbn. rewrite (Z.compare_antisym e1 e2). destruct (e1 ?= e2); cbn; try done.
  change (Pos.compare_cont Eq p q) with (Pos.compare p q). change (Pos.compare_cont Eq q p) with (Pos.compare q p).
  by rewrite (Pos.compare_antisym p q).
Qed.

Lemma d_le_exact a b : fine a -> fine b -> a <= b -> SFleb (d_of_Z a) (d_of_Z b) = true.
Proof.
  intros Ha Hb Hab. rewrite !d_of_Z_exact by done. unfold SFleb, fine in *.
  destruct a as [|p|p], b as [|q|q]; try done; try lia.
  - destruct (int_double_order p q) as [H|H]; [lia..| |]; by rewrite H.
  - unfold int_double at 1 2. rewrite SFcompare_opp. fold (int_double false p) (int_double false q).
    destruct (int_double_order q p) as [H|H]; [lia..| |]; by rewrite H.
Qed.

Lemma d_trunc_exact z : fine z -> d_trunc (d_of_Z z) = Some z.
Proof.
  intros Hz. rewrite d_of_Z_exact by done.
  assert (forall s p, Zpos p < 2 ^ 53 -> d_trunc (int_double s p) = Some (if s then - Zpos p else Zpos p)) as H.
  { clear. intros s p Hp. unfold d_trunc, int_double. rewrite exact_mantissa by done. pose proof (small_digits p Hp).
    replace (if 0 <=? digits p - 53 then _ else _) with (Zpos p); [done|]. destruct (Z.leb_spec 0 (digits p - 53)).
    - replace (digits p) with 53 by lia. change (53 - 53) with 0. rewrite Z.pow_0_r. lia.
    - replace (- (digits p - 53)) with (53 - digits p) by lia. rewrite Z.div_mul; [done|]. pose proof (Z.pow_pos_nonneg 2 (53 - digits p)). lia. }
  unfold fine in Hz. destruct z as [|p|p]; [done|rewrite H by lia; done..].
Qed.

(** What printf writes for a number: how long it is, and which characters it has. *)

(** ** Digits *)

Lemma digits_rev_length k n z : 0 <= z < 10 ^ Z.of_nat (S k) -> (length (digits_rev n z) <= S k)%nat.
Proof.
  revert n z. induction k as [|k IH]; intros n z Hz; destruct n as [|n]; cbn [digits_rev length]; try lia.
  - change (10 ^ Z.of_nat 1) with 10 in Hz. rewrite (proj2 (Z.ltb_lt z 10)) by lia. cbn. lia.
  - destruct (z <? 10); [cbn; lia|]. apply le_n_S, IH.
    rewrite Nat2Z.inj_succ, Z.pow_succ_r in Hz by lia.
    split; [apply Z.div_pos; lia|apply Z.div_lt_upper_bound; lia].
Qed.

Lemma decimal_length k z : 0 <= z < 10 ^ k -> 0 < k -> zlen (decimal z) <= k.
Proof.
  intros Hz Hk. unfold decimal, zlen. rewrite length_rev.
  pose proof (digits_rev_length (Z.to_nat (k - 1)) (S (Z.to_nat (Z.log2 z))) z) as H.
  replace (Z.of_nat (S (Z.to_nat (k - 1)))) with k in H by lia. specialize (H Hz). lia.
Qed.

Abbreviation digit := (fun c => isdigit c = true).

Lemma digits_rev_digits n z : Forall digit (digits_rev n z).
Proof.
  revert z. induction n as [|n IH]; intros z; cbn; [constructor|]. constructor; [|destruct (z <? 10); [constructor|apply IH]].
  pose proof (Z.mod_pos_bound z 10 ltac:(lia)). unfold isdigit. apply andb_true_iff. split; apply Z.leb_le; lia.
Qed.

Lemma decimal_digits z : Forall digit (decimal z).
Proof. apply Forall_rev, digits_rev_digits. Qed.

Lemma digit_range c : isdigit c = true -> 48 <= c <= 57.
Proof. unfold isdigit. intros [?%Z.leb_le ?%Z.leb_le]%andb_true_iff. lia. Qed.

Lemma padded_length w z : (w <= 60)%nat -> 0 <= z < 10 ^ Z.of_nat (S w) -> zlen (padded w z) <= Z.of_nat (S w).
Proof.
  intros Hw Hz. unfold padded. rewrite zlen_app. pose proof (decimal_length _ z Hz ltac:(lia)).
  unfold zlen in *. rewrite length_replicate. lia.
Qed.

(** ** Fractions *)

Lemma round_even_nonneg num den : 0 <= num -> 0 < den -> 0 <= round_even num den.
Proof. intros Hn Hd. unfold round_even. pose proof (Z.div_pos num den Hn Hd). cbv zeta. destruct (_ || _); lia. Qed.

Lemma round_even_le num den b : 0 <= num -> 0 < den -> num <= b * den -> round_even num den <= b.
Proof.
  intros Hn Hd Hb. unfold round_even. cbv zeta. pose proof (Z.div_mod num den ltac:(lia)).
  pose proof (Z.mod_pos_bound num den ltac:(lia)).
  destruct (Z.eqb_spec (num mod den) 0) as [E|E].
  - assert (num / den <= b) by nia. rewrite E. rewrite (proj2 (Z.ltb_lt (2 * 0) den)) by lia. done.
  - assert (num / den < b) by nia. destruct (_ || _); lia.
Qed.

Lemma fixed_0_length num den : 0 <= num -> 0 < den -> num <= 10 ^ 60 * den -> zlen (fixed 0 num den) <= 61.
Proof.
  intros Hn Hd Hb. unfold fixed. change (Z.of_nat 0) with 0. rewrite Z.pow_0_r, Z.mul_1_r, Z.div_1_r. cbn [decide].
  destruct (decide _); [|done]. rewrite app_nil_r. apply decimal_length; [|lia].
  pose proof (round_even_nonneg num den Hn Hd). pose proof (round_even_le num den _ Hn Hd Hb). lia.
Qed.

Lemma fixed_6_length num den : 0 <= num -> 0 < den -> num <= 10 ^ 9 * den -> zlen (fixed 6 num den) <= 18.
Proof.
  intros Hn Hd Hb. unfold fixed. change (Z.of_nat 6) with 6. destruct (decide _); [done|]. cbv zeta.
  pose proof (round_even_nonneg (num * 10 ^ 6) den ltac:(lia) Hd).
  pose proof (round_even_le (num * 10 ^ 6) den (10 ^ 15) ltac:(lia) Hd ltac:(lia)).
  set (r := round_even _ _) in *. rewrite zlen_app, zlen_cons.
  pose proof (Z.mod_pos_bound r (10 ^ 6) ltac:(lia)).
  assert (zlen (decimal (r / 10 ^ 6)) <= 10).
  { apply decimal_length; [|lia]. split; [apply Z.div_pos; lia|apply Z.div_lt_upper_bound; lia]. }
  pose proof (padded_length 6 (r mod 10 ^ 6) ltac:(lia) ltac:(change (Z.of_nat 7) with 7; lia)).
  lia.
Qed.

(** 10^k is not above the fraction. *)
Definition reaches (k num den : Z) : bool :=
  if 0 <=? k then 10 ^ k * den <=? num else den <=? num * 10 ^ (- k).

Lemma exponent_below_spec n k num den :
  let j := exponent_below n k num den in
  k - Z.of_nat n <= j <= k /\ (j = k \/ reaches (j + 1) num den = false).
Proof.
  revert k. induction n as [|n IH]; intros k; cbn [exponent_below]; cbv zeta; [lia|].
  fold (reaches k num den). destruct (reaches k num den) eqn:E; [lia|].
  destruct (IH (k - 1)) as [H1 H2]. split; [lia|]. right. destruct H2 as [->|H2]; [|done].
  by replace (k - 1 + 1) with k by lia.
Qed.

Lemma exponential_length num den :
  0 <= num -> 0 < den -> num < 10 ^ 400 * den -> zlen (exponential num den) <= 14.
Proof.
  intros Hn Hd Hb. unfold exponential. destruct (exponent_below_spec 800 400 num den) as [Hk Hr].
  set (k := exponent_below 800 400 num den) in *. change (Z.of_nat 800) with 800 in Hk.
  set (r := if k <=? 6 then _ else _).
  assert (0 <= r <= 10 ^ 7) as Hr7.
  { assert (reaches (k + 1) num den = false) as Hlt.
    { destruct Hr as [Hr|]; [|done]. rewrite Hr. unfold reaches. change (0 <=? 400 + 1) with true. cbv iota.
      apply Z.leb_gt. replace (10 ^ (400 + 1)) with (10 ^ 400 * 10) by (rewrite Z.pow_add_r by lia; done).
      pose proof (Z.pow_pos_nonneg 10 400 ltac:(lia) ltac:(lia)). rewrite <- Z.mul_assoc, (Z.mul_comm 10), Z.mul_assoc.
      revert Hb. generalize (10 ^ 400 * den). lia. }
    clear Hr Hb. unfold r, reaches in *. clear r. destruct (Z.leb_spec k 6).
    - split; [apply round_even_nonneg; [|done]; apply Z.mul_nonneg_nonneg; [done|apply Z.pow_nonneg; lia]|].
      apply round_even_le; [apply Z.mul_nonneg_nonneg; [done|apply Z.pow_nonneg; lia]|done|].
      destruct (Z.leb_spec 0 (k + 1)).
      + apply Z.leb_gt in Hlt. replace (10 ^ 7) with (10 ^ (k + 1) * 10 ^ (6 - k)) by (rewrite <- Z.pow_add_r by lia; f_equal; lia).
        assert (0 < 10 ^ (6 - k)) by (apply Z.pow_pos_nonneg; lia).
        transitivity (10 ^ (k + 1) * den * 10 ^ (6 - k)); [apply Z.mul_le_mono_nonneg_r; lia|apply Z.eq_le_incl; ring].
      + apply Z.leb_gt in Hlt. replace (10 ^ (6 - k)) with (10 ^ 7 * 10 ^ (- (k + 1))) by (rewrite <- Z.pow_add_r by lia; f_equal; lia).
        transitivity (10 ^ 7 * (num * 10 ^ (- (k + 1)))); [apply Z.eq_le_incl; ring|apply Z.mul_le_mono_nonneg_l; lia].
    - assert (0 < 10 ^ (k - 6)) by (apply Z.pow_pos_nonneg; lia).
      split; [apply round_even_nonneg; nia|]. apply round_even_le; [done|nia|].
      rewrite (proj2 (Z.leb_le 0 (k + 1))) in Hlt by lia. apply Z.leb_gt in Hlt.
      replace (10 ^ (k + 1)) with (10 ^ 7 * 10 ^ (k - 6)) in Hlt by (rewrite <- Z.pow_add_r by lia; f_equal; lia). nia. }
  clearbody r k. clear Hr Hb.
  assert (forall r k, 0 <= r < 10 ^ 7 -> -400 <= k <= 401 ->
    zlen (decimal (r / 10 ^ 6) ++ [46] ++ padded 6 (r mod 10 ^ 6) ++ [101; if k <? 0 then 45 else 43] ++ padded 2 (Z.abs k)) <= 14) as H.
  { clear. intros r k Hr Hk. rewrite !zlen_app. change (zlen [46]) with 1. change (zlen [101; _]) with 2.
    pose proof (Z.mod_pos_bound r (10 ^ 6) ltac:(lia)).
    pose proof (padded_length 6 (r mod 10 ^ 6) ltac:(lia) ltac:(change (Z.of_nat 7) with 7; lia)).
    pose proof (padded_length 2 (Z.abs k) ltac:(lia) ltac:(change (Z.of_nat 3) with 3; lia)).
    assert (zlen (decimal (r / 10 ^ 6)) <= 1).
    { apply decimal_length; [|lia]. split; [apply Z.div_pos; lia|apply Z.div_lt_upper_bound; lia]. }
    change (Z.of_nat 7) with 7 in *. change (Z.of_nat 3) with 3 in *. lia. }
  destruct (Z.eqb_spec r (10 ^ 7)); apply H; lia.
Qed.

(** ** Doubles *)

Definition valid (d : double) : bool := SpecFloat.valid_binary 53 1024 d.

Lemma digits2_pos_bound m : 2 ^ (Zpos (digits2_pos m) - 1) <= Zpos m < 2 ^ Zpos (digits2_pos m).
Proof.
  induction m as [m IH|m IH|]; cbn [digits2_pos]; [..|done]; rewrite Pos2Z.inj_succ;
    replace (Z.succ (Zpos (digits2_pos m)) - 1) with (Z.succ (Zpos (digits2_pos m) - 1)) by lia;
    rewrite !Z.pow_succ_r by lia; lia.
Qed.

Lemma canonical_bounds m e :
  canonical_mantissa 53 1024 m e = true ->
  Zpos m < 2 ^ 53 /\ -1074 <= e /\ (-1074 < e -> 2 ^ 52 <= Zpos m).
Proof.
  unfold canonical_mantissa. intros H%Z.eqb_eq. unfold fexp, emin in H. pose proof (digits2_pos_bound m) as [Hl Hu].
  assert (Zpos (digits2_pos m) <= 53) by lia. split_and!.
  - eapply Z.lt_le_trans; [exact Hu|]. apply Z.pow_le_mono_r; lia.
  - lia.
  - intros He. replace 52 with (Zpos (digits2_pos m) - 1) by lia. done.
Qed.

(** The order of two positive doubles, the second one with all its digits. *)
Lemma finite_le m1 e1 m2 e2 :
  canonical_mantissa 53 1024 m1 e1 = true -> 2 ^ 52 <= Zpos m2 ->
  (SFcompare (S754_finite false m1 e1) (S754_finite false m2 e2) = Some Lt \/
   SFcompare (S754_finite false m1 e1) (S754_finite false m2 e2) = Some Eq) ->
  e1 < e2 \/ (e1 = e2 /\ Zpos m1 <= Zpos m2).
Proof.
  intros Hm1 Hm2. cbn. destruct (Z.compare_spec e1 e2) as [->|E|E]; [|by left|by intros []].
  intros H. right. split; [done|]. change (Pos.compare_cont Eq m1 m2) with (Pos.compare m1 m2) in H.
  destruct H as [[= H]|[= H]]; revert H; destruct (Pos.compare_spec m1 m2); try done; lia.
Qed.

(** The magnitude of the first double as a fraction is not above the second one. *)
Lemma fraction_le m1 e1 m2 e2 :
  Zpos m1 < 2 ^ 53 -> 2 ^ 52 <= Zpos m2 -> e1 < e2 \/ (e1 = e2 /\ Zpos m1 <= Zpos m2) ->
  let '(num, den) := fraction m1 e1 in
  num * 2 ^ Z.max 0 (- e2) <= Zpos m2 * 2 ^ Z.max 0 e2 * den.
Proof.
  intros H1 H2 He.
  assert (Zpos m1 * 2 ^ (Z.max 0 e1 + Z.max 0 (- e2)) <= Zpos m2 * 2 ^ (Z.max 0 e2 + Z.max 0 (- e1))) as H.
  { assert (0 < 2 ^ (Z.max 0 e1 + Z.max 0 (- e2))) by (apply Z.pow_pos_nonneg; lia).
    destruct He as [He|[-> He]]; [|replace (Z.max 0 e2 + Z.max 0 (- e2)) with (Z.max 0 e2 + Z.max 0 (- e2)) by lia; nia].
    assert (2 * 2 ^ (Z.max 0 e1 + Z.max 0 (- e2)) <= 2 ^ (Z.max 0 e2 + Z.max 0 (- e1))).
    { rewrite <- Z.pow_succ_r by lia. apply Z.pow_le_mono_r; lia. }
    change (2 ^ 53) with (2 * 2 ^ 52) in H1. nia. }
  unfold fraction. destruct (Z.leb_spec 0 e1).
  - rewrite (Z.max_l 0 (- e1)), Z.add_0_r, (Z.max_r 0 e1), Z.pow_add_r in H by lia. lia.
  - rewrite (Z.max_l 0 e1), Z.add_0_l, (Z.max_r 0 (- e1)), Z.pow_add_r in H by lia. lia.
Qed.

Lemma fraction_pos m e : let '(num, den) := fraction m e in 0 <= num /\ 0 < den.
Proof.
  unfold fraction. destruct (0 <=? e) eqn:E; [apply Z.leb_le in E|apply Z.leb_gt in E].
  - split; [|lia]. pose proof (Z.pow_nonneg 2 e). nia.
  - split; [lia|apply Z.pow_pos_nonneg; lia].
Qed.

Lemma d_1e60_value : d_1e60 = S754_finite false 5605193857299268 147.
Proof. vm_compute. reflexivity. Qed.
Lemma d_1e9_value : d_1e9 = S754_finite false 8388608000000000 (-23).
Proof. vm_compute. reflexivity. Qed.

Lemma fmt_f0_length d : valid d = true -> SFltb (SFabs d) d_1e60 = true -> zlen (fmt_f 0 d) <= 62.
Proof.
  intros Hv Hd. rewrite d_1e60_value in Hd. destruct d as [s|s| |s m e]; cbn [fmt_f SFabs] in *.
  - by destruct s.
  - discriminate.
  - discriminate.
  - apply andb_true_iff in Hv as [Hm _]. pose proof (fraction_pos m e) as Hf.
    pose proof (fraction_le m e 5605193857299268 147) as H.
    destruct (fraction m e) as [num den]. rewrite zlen_app.
    assert (zlen (sign_text s) <= 1) by by destruct s.
    enough (zlen (fixed 0 num den) <= 61) by lia. apply fixed_0_length; [lia..|].
    assert (num * 1 <= 5605193857299268 * 2 ^ 147 * den) as Hle.
    { apply H; [by eapply canonical_bounds|lia|]. apply finite_le; [done|lia|left].
      unfold SFltb in Hd. destruct (SFcompare _ _) as [[]|]; try discriminate. reflexivity. }
    rewrite Z.mul_1_r in Hle. etransitivity; [exact Hle|]. apply Z.mul_le_mono_nonneg_r; [lia|].
    rewrite <- Z.leb_le. vm_compute. reflexivity.
Qed.

Lemma SFcompare_finite_swap m1 e1 m2 e2 :
  SFcompare (S754_finite false m1 e1) (S754_finite false m2 e2) <> Some Lt ->
  SFcompare (S754_finite false m2 e2) (S754_finite false m1 e1) = Some Lt \/
  SFcompare (S754_finite false m2 e2) (S754_finite false m1 e1) = Some Eq.
Proof.
  cbn. rewrite (Z.compare_antisym e1 e2). destruct (Z.compare_spec e1 e2); cbn; [|done|by left].
  change (Pos.compare_cont Eq m1 m2) with (Pos.compare m1 m2). change (Pos.compare_cont Eq m2 m1) with (Pos.compare m2 m1).
  rewrite (Pos.compare_antisym m1 m2). destruct (Pos.compare m1 m2); cbn; auto. done.
Qed.

Lemma fmt_f6_length d : valid d = true -> SFltb d_1e9 (SFabs d) = false -> zlen (fmt_f 6 d) <= 19.
Proof.
  intros Hv Hd. rewrite d_1e9_value in Hd. destruct d as [s|s| |s m e]; cbn [fmt_f SFabs] in *.
  - by destruct s.
  - discriminate.
  - vm_compute. discriminate.
  - apply andb_true_iff in Hv as [Hm _]. pose proof (fraction_pos m e) as Hf.
    pose proof (fraction_le m e 8388608000000000 (-23)) as H.
    destruct (fraction m e) as [num den]. rewrite zlen_app.
    assert (zlen (sign_text s) <= 1) by by destruct s.
    enough (zlen (fixed 6 num den) <= 18) by lia. apply fixed_6_length; [lia..|].
    assert (num * 2 ^ 23 <= 8388608000000000 * 1 * den) as Hle.
    { apply H; [by eapply canonical_bounds|lia|]. apply finite_le; [done|lia|]. apply SFcompare_finite_swap.
      unfold SFltb in Hd. intros E. by rewrite E in Hd. }
    change (2 ^ 23) with 8388608 in Hle. lia.
Qed.

Lemma fmt_e_length d : valid d = true -> zlen (fmt_e d) <= 15.
Proof.
  intros Hv. destruct d as [s|s| |s m e]; cbn [fmt_e] in *.
  - by destruct s.
  - by destruct s.
  - done.
  - apply andb_true_iff in Hv as [Hm He%Z.leb_le]. pose proof (fraction_pos m e) as Hf.
    destruct (canonical_bounds _ _ Hm) as (Hm53 & _).
    assert (let '(num, den) := fraction m e in num < 10 ^ 400 * den) as H.
    { unfold fraction. destruct (Z.leb_spec 0 e) as [E|E].
      - rewrite Z.mul_1_r. apply Z.lt_trans with (2 ^ 53 * 2 ^ 972).
        + assert (0 < 2 ^ e) by (apply Z.pow_pos_nonneg; lia).
          assert (2 ^ e <= 2 ^ 971) by (apply Z.pow_le_mono_r; lia).
          change (2 ^ 972) with (2 * 2 ^ 971). revert H0 Hm53. generalize (2 ^ 971) (2 ^ 53). intros. nia.
        + by rewrite <- Z.ltb_lt.
      - assert (1 <= 2 ^ (- e)) by (pose proof (Z.pow_pos_nonneg 2 (- e)); lia).
        apply Z.lt_le_trans with (10 ^ 400 * 1); [|apply Z.mul_le_mono_nonneg_l; [by rewrite <- Z.leb_le|done]].
        eapply Z.lt_trans; [exact Hm53|]. by rewrite <- Z.ltb_lt. }
    destruct (fraction m e) as [num den]. rewrite zlen_app.
    assert (zlen (sign_text s) <= 1) by by destruct s. pose proof (exponential_length num den). lia.
Qed.

Lemma fmt_d_length z : -2147483648 <= z < 2147483648 -> zlen (fmt_d z) <= 11.
Proof.
  intros Hz. unfold fmt_d. destruct (Z.ltb_spec z 0).
  - rewrite zlen_cons. pose proof (decimal_length 10 (- z) ltac:(lia) ltac:(lia)). lia.
  - pose proof (decimal_length 10 z ltac:(lia) ltac:(lia)). lia.
Qed.

(** ** Characters *)

Abbreviation printable_char := (fun c => 0 < c < 256).

Lemma decimal_text z : Forall printable_char (decimal z).
Proof. eapply Forall_impl; [apply decimal_digits|]. cbn. intros c Hc%digit_range. lia. Qed.

Lemma padded_text w z : Forall printable_char (padded w z).
Proof. apply Forall_app_2; [|apply decimal_text]. by apply Forall_replicate. Qed.

Lemma sign_text_text s : Forall printable_char (sign_text s).
Proof. destruct s; repeat constructor. Qed.

Lemma fixed_text n num den : Forall printable_char (fixed n num den).
Proof.
  unfold fixed. cbv zeta. apply Forall_app_2; [apply decimal_text|]. destruct (decide _); [constructor|].
  constructor; [lia|apply padded_text].
Qed.

Lemma exponential_text num den : Forall printable_char (exponential num den).
Proof.
  unfold exponential. destruct (if _ =? _ then _ else _) as [r k].
  apply Forall_app_2; [apply decimal_text|]. constructor; [lia|]. apply Forall_app_2; [apply padded_text|].
  constructor; [lia|]. constructor; [destruct (k <? 0); lia|]. apply padded_text.
Qed.

Lemma bytes_text l : forallb (fun c => (0 <? c) && (c <? 256)) l = true -> Forall printable_char l.
Proof.
  intros H. apply Forall_forall. intros c Hc%list_elem_of_In. rewrite forallb_forall in H.
  apply H in Hc. apply andb_true_iff in Hc as [?%Z.ltb_lt ?%Z.ltb_lt]. done.
Qed.

Lemma special_text d : Forall printable_char (special d).
Proof. destruct d as [s|[]| |]; by apply bytes_text. Qed.

Lemma fmt_f_text k d : Forall printable_char (fmt_f k d).
Proof.
  destruct d as [s|s| |s m e]; cbn [fmt_f]; [|apply special_text..|destruct (fraction m e)];
    (apply Forall_app_2; [apply sign_text_text|apply fixed_text]).
Qed.

Lemma fmt_e_text d : Forall printable_char (fmt_e d).
Proof.
  destruct d as [s|s| |s m e]; cbn [fmt_e]; [|apply special_text..|destruct (fraction m e)];
    (apply Forall_app_2; [apply sign_text_text|]).
  - by apply bytes_text.
  - apply exponential_text.
Qed.

Lemma number_text_text n d : Forall printable_char (number_text n d).
Proof.
  unfold number_text. cbv zeta.
  destruct (SFeqb _ _); [by apply bytes_text|]. destruct (_ && _).
  { unfold fmt_d. destruct (n <? 0); [constructor; [lia|]|]; apply decimal_text. }
  destruct (_ && _); [apply fmt_f_text|]. destruct (_ || _); [apply fmt_e_text|apply fmt_f_text].
Qed.

Lemma decimal_nonempty z : (0 < length (decimal z))%nat.
Proof. unfold decimal. rewrite length_rev. cbn. lia. Qed.

Lemma number_text_nonempty n d : (0 < length (number_text n d))%nat.
Proof.
  unfold number_text. cbv zeta. pose proof decimal_nonempty as Hd.
  assert (forall k num den, 0 < length (fixed k num den))%nat as Hfix.
  { intros k num den. unfold fixed. cbv zeta. rewrite length_app. pose proof (Hd (round_even (num * 10 ^ Z.of_nat k) den / 10 ^ Z.of_nat k)). lia. }
  assert (forall k, 0 < length (fmt_f k d))%nat as Hf.
  { intros k. destruct d as [s|[]| |s m e]; cbn [fmt_f]; [|cbn; lia..|destruct (fraction m e)]; rewrite length_app.
    - pose proof (Hfix k 0 1). lia.
    - pose proof (Hfix k z z0). lia. }
  assert (0 < length (fmt_e d))%nat as He.
  { destruct d as [s|[]| |s m e]; cbn [fmt_e]; [rewrite length_app; cbn; lia|cbn; lia..|destruct (fraction m e)]; rewrite length_app.
    unfold exponential. destruct (if _ =? _ then _ else _) as [r k]. rewrite !length_app. cbn [length]. lia. }
  destruct (SFeqb _ _); [cbn; lia|]. destruct (_ && _).
  { unfold fmt_d. destruct (n <? 0); [cbn; lia|apply Hd]. }
  destruct (_ && _); [apply Hf|]. destruct (_ || _); [apply He|apply Hf].
Qed.
