(* ===== verification/CJsonPrintFacts.v ===== *)
(** Room for the output of the printer: a new string, or the print buffer, which
    grows to the next power of two.

    [out_at p w] is the output before a value is printed: nothing, or the buffer
    with the text [w] up to its offset.  [printed p w s] is the output when [s]
    has been printed behind it, up to its terminator.

    The second part prints strings and words, the third numbers, arrays and
    objects into a buffer. *)

From iris.proofmode Require Import proofmode.
From stdpp Require Import gmap.
From S2P Require Import Prelude.
From S2P Require Import CMonad.
From S2P Require Import CString.
From S2P Require Import JsonDouble.
From S2P Require Import JsonHeap.
From S2P Require Import CJson.
From S2P Require Import CJsonPrint.
From S2P Require Import JsonLogic.
From S2P Require Import CJsonFacts.
From S2P Require Import CJsonText.
From S2P Require Import JsonNumberFacts.

(** ** pow2gt *)

(** The [k] bits from bit [n] downwards are set, and none above. *)
Definition filled (n k x : Z) : Prop :=
  0 <= x < 2 ^ (n + 1) /\ forall i, 0 <= i -> n - k < i <= n -> Z.testbit x i = true.

Lemma filled_double n k x : 0 <= n -> 0 < k -> filled n k x -> filled n (2 * k) (Z.lor x (Z.shiftr x k)).
Proof.
  intros Hn Hk [Hx Hb]. split.
  - assert (forall y, 0 <= y < 2 ^ (n + 1) <-> 0 <= y /\ Z.shiftr y (n + 1) = 0) as Hsmall.
    { intros y. rewrite Z.shiftr_div_pow2; [|lia]. split.
      - intros H. split; [lia|]. by apply Z.div_small.
      - intros [H1 H2]. split; [done|]. apply Z.div_small_iff in H2; [|apply Z.pow_nonzero; lia]. lia. }
    apply Hsmall in Hx as [Hx0 Hxs]. apply Hsmall. split; [apply Z.lor_nonneg; split; [done|by apply Z.shiftr_nonneg]|].
    rewrite Z.shiftr_lor Hxs Z.shiftr_shiftr; [|lia].
    rewrite Z.add_comm -Z.shiftr_shiftr; [|lia]. by rewrite Hxs Z.shiftr_0_l.
  - intros i Hi Hr. rewrite Z.lor_spec Z.shiftr_spec; [|done]. apply orb_true_iff.
    destruct (decide (n - k < i)); [left; apply Hb; lia|right; apply Hb; lia].
Qed.

Lemma filled_ones n k x : 0 <= n < k -> filled n k x -> x = 2 ^ (n + 1) - 1.
Proof.
  intros Hn [Hx Hb]. replace (2 ^ (n + 1) - 1) with (Z.ones (n + 1)) by (rewrite Z.ones_equiv; lia).
  apply Z.bits_inj'. intros i Hi. destruct (decide (i <= n)).
  - rewrite Hb; [|done|lia]. symmetry. apply Z.ones_spec_low. lia.
  - rewrite Z.ones_spec_high; [|lia]. rewrite -(Z.mod_small x (2 ^ (n + 1))); [|done].
    apply Z.mod_pow2_bits_high. lia.
Qed.

(** The least power of two that is not below [x]. *)
Lemma pow2gt_log2_up x : 1 <= x <= 1073741824 -> pow2gt x = 2 ^ Z.log2_up x.
Proof.
  intros Hx. unfold pow2gt. rewrite (s32_small (x - 1)); [|lia].
  destruct (decide (x = 1)) as [->|H1]; [done|].
  pose proof (Z.log2_spec (x - 1) ltac:(lia)) as Hl. pose proof (Z.log2_nonneg (x - 1)) as Hn.
  assert (Z.log2 (x - 1) < 30) as Hlt by (apply Z.log2_lt_pow2; lia).
  rewrite /Z.log2_up (proj2 (Z.compare_lt_iff 1 x)); [|lia]. rewrite -Z.sub_1_r.
  revert Hl Hn Hlt. generalize (Z.log2 (x - 1)) as n. intros n Hl Hn Hlt.
  assert (filled n 1 (x - 1)) as H.
  { split; [lia|]. intros i Hi Hr. replace i with n by lia. replace n with (Z.log2 (x - 1)) by (apply Z.log2_unique; lia).
    apply Z.bit_log2. lia. }
  do 5 (apply filled_double in H; [|done|done]; cbn [Z.mul Pos.mul] in H).
  apply filled_ones in H; [|lia]. cbv zeta. rewrite H.
  assert (0 < 2 ^ (n + 1) <= 2 ^ 30) by (split; [apply Z.pow_pos_nonneg; lia|apply Z.pow_le_mono_r; lia]).
  rewrite s32_small; [|lia]. rewrite -Z.add_1_r. lia.
Qed.

Lemma pow2gt_range x : 1 <= x <= 1073741824 -> x <= pow2gt x <= 1073741824.
Proof.
  intros Hx. rewrite pow2gt_log2_up; [|done]. split.
  - destruct (decide (x = 1)) as [->|]; [done|]. apply Z.log2_up_spec. lia.
  - change 1073741824 with (2 ^ 30). apply Z.pow_le_mono_r; [lia|]. apply Z.log2_up_le_pow2; lia.
Qed.

(** ** The output *)

Section Output.
Context (can_malloc : allocator -> list Z -> Z -> bool).
Abbreviation oom := (out_of_memory can_malloc).

Definition holder (p : option nat) (k : nat) (len off : Z) : hprop :=
  match p with
  | None => emp
  | Some b => b ↦ Buffer (mkBuffer (Some (k, 0)) len off)
  end.

Definition out_at (p : option nat) (w : list Z) : hprop :=
  match p with
  | None => ⟨w = []⟩
  | Some b => ∃ k m, room_at k w m ∗ b ↦ Buffer (mkBuffer (Some (k, 0)) (zlen w + m) (zlen w))
  end.

(** The buffer was given back because it could not grow. *)
Definition dead (p : option nat) : hprop :=
  match p with
  | None => emp
  | Some b => ∃ len off, b ↦ Buffer (mkBuffer None len off)
  end.
Definition failed (p : option nat) : hprop := (⟨oom⟩ ∗ dead p)%I.

(** Room for [n] characters behind [w]. *)
Definition room_in (p : option nat) (w : list Z) (n : Z) (r : option ptr) : hprop :=
  match r with
  | Some q => ∃ k m, ⟨q = (k, zlen w)⟩ ∗ ⟨n <= m⟩ ∗ room_at k w m ∗ holder p k (zlen w + m) (zlen w) ∗ ⟨p = None -> w = []⟩
  | None => failed p
  end.

(** [top]: the value is printed first, so that its pointer is the string. *)
Definition printed (p : option nat) (w s : list Z) (top : Prop) (q : ptr) : hprop :=
  (∃ k m off, room_at k (w ++ s ++ [0]) m ∗ holder p k (zlen w + zlen s + 1 + m) off ∗
     ⟨zlen w <= off <= zlen w + zlen s⟩ ∗ ⟨p = None \/ (top /\ w = []) -> q = (k, 0)⟩ ∗ ⟨p = None -> w = []⟩)%I.
Definition print_result (p : option nat) (w s : list Z) (top : Prop) (r : option ptr) : hprop :=
  match r with Some q => printed p w s top q | None => failed p end.

Lemma zlen_bound {A} (l : list A) : 0 <= zlen l.
Proof. apply zlen_nonneg. Qed.

Lemma size_t_small n : 0 <= n < 18446744073709551616 -> size_t n = n.
Proof. intros H. unfold size_t. by rewrite Z.mod_small. Qed.

(** memcpy of a whole block into a larger one. *)
Lemma swp_copy_block i j w n m (Q : unit -> hprop) :
  zlen w + n <= m ->
  room_at i w n -∗ room_at j [] m -∗ (room_at i w n -∗ room_at j w (m - zlen w) -∗ Q tt) -∗
  swp (memcpy (j, 0) (i, 0) (zlen w + n)) Q.
Proof.
  iIntros (Hm) "(%r & <- & Hi) (%r' & <- & Hj) HQ". pose proof (zlen_bound w). pose proof (zlen_bound r).
  sbind. iApply (swp_chars with "Hi"); [autorewrite with zlen; lia|]. iIntros "Hi". rw drop_0.
  rewrite (proj2 (Z.leb_le 0 (zlen w + zlen r))); [|lia].
  rewrite (proj2 (Z.leb_le _ _)); [|autorewrite with zlen; lia]. cbn [andb].
  replace (take _ _) with (map Some w ++ r); cycle 1.
  { rewrite take_ge; [done|]. unfold zlen. rewrite length_app length_map. lia. }
  destruct (room_split r' (zlen w + zlen r)) as (a & z & -> & Ha & Hz); [lia|].
  iApply (swp_store_all _ j 0 _ (map Some w ++ r) with "Hj").
  { cbn [map app]. apply (zblit_between []). rewrite Ha. by autorewrite with zlen. }
  iIntros "Hj". iApply ("HQ" with "[Hi]"); [iExists r; by iFrame|].
  iExists (r ++ z). cbn [app]. rw -app_assoc. iFrame. iPureIntro. autorewrite with zlen in *. lia.
Qed.

Lemma swp_ensure b w n (Q : option ptr -> hprop) :
  0 <= n -> 1 <= zlen w + n <= 1073741824 ->
  out_at (Some b) w -∗ (∀ r, room_in (Some b) w n r -∗ Q r) -∗ swp (ensure can_malloc b n) Q.
Proof.
  iIntros (Hn Hw) "(%k & %m & Hk & Hb) HQ". pose proof (zlen_bound w).
  sbind. iApply (swp_get_buffer with "Hb"). iIntros "Hb". cbn [buffer length offset].
  rewrite s32_small; [|lia]. destruct (Z.leb_spec (n + zlen w) (zlen w + m)).
  { sret. iApply ("HQ" $! (Some _)). iExists k, m. iFrame. iPureIntro. cbn. split_and!; [done|lia|done]. }
  replace (n + zlen w) with (zlen w + n) by lia. pose proof (pow2gt_range _ Hw) as Hp. rewrite size_t_small; [|lia].
  iDestruct (room_at_nonneg with "Hk") as "[Hk %Hm]".
  sbind. iApply swp_malloc; [lia|]. iIntros ([q|]) "Hr".
  - iDestruct "Hr" as "(%k' & -> & Hk')". sbind. iApply (swp_copy_block with "Hk Hk'"); [lia|]. iIntros "Hk Hk'".
    sbind. iDestruct "Hk" as "(%r & _ & Hk)". iApply (swp_free with "Hk").
    sbind. iApply (swp_set_buffer with "Hb"). iIntros "Hb". sret. iApply ("HQ" $! (Some _)).
    iExists k', (pow2gt (zlen w + n) - zlen w). iFrame "Hk'". cbn [holder].
    replace (zlen w + (pow2gt (zlen w + n) - zlen w)) with (pow2gt (zlen w + n)) by lia. iFrame. iPureIntro.
    split_and!; [done|lia|done].
  - iDestruct "Hr" as %Hoom. sbind. iDestruct "Hk" as "(%r & _ & Hk)". iApply (swp_free with "Hk").
    sbind. iApply (swp_set_buffer with "Hb"). iIntros "Hb". sret. iApply ("HQ" $! None). iSplit; [done|]. by iExists _, _.
Qed.

Lemma swp_ensure_dead b n (Q : option ptr -> hprop) :
  dead (Some b) -∗ (dead (Some b) -∗ Q None) -∗ swp (ensure can_malloc b n) Q.
Proof.
  iIntros "(%len & %off & Hb) HQ". sbind. iApply (swp_get_buffer with "Hb"). iIntros "Hb". sret. iApply "HQ". by iExists len, off.
Qed.

Lemma swp_room p w n (Q : option ptr -> hprop) :
  0 <= n -> 1 <= zlen w + n <= 1073741824 ->
  out_at p w -∗ (∀ r, room_in p w n r -∗ Q r) -∗ swp (room can_malloc p n) Q.
Proof.
  intros Hn Hw. pose proof (zlen_bound w). destruct p as [b|]; [by apply swp_ensure|]. iIntros "-> HQ". cbn [room].
  rewrite size_t_small; [|lia]. iApply swp_malloc; [done|]. iIntros ([q|]) "Hr".
  - iDestruct "Hr" as "(%k & -> & Hk)". iApply ("HQ" $! (Some _)). iExists k, n. by iFrame.
  - iApply ("HQ" $! None). by iFrame.
Qed.

(** The pointer, and what was written there. *)
Lemma print_done p w s top k m n :
  room_at k (w ++ s ++ [0]) m -∗ holder p k n (zlen w) -∗ ⟨p = None -> w = []⟩ -∗
  ⟨n = (zlen w + zlen s + 1 + m)%Z⟩ -∗ printed p w s top (k, zlen w).
Proof.
  iIntros "Hk Hh %Hp ->". iExists k, m, (zlen w). iFrame. iPureIntro. pose proof (zlen_bound s). split_and!; [lia|lia| |done].
  intros [->|[_ ->]]; [|done]. by rewrite Hp.
Qed.

Lemma swp_room_for p w n s top (Q : option ptr -> hprop) :
  zlen s < n -> zlen w + n <= 1073741824 ->
  out_at p w -∗ (∀ r, print_result p w s top r -∗ Q r) -∗ swp (room_for can_malloc p n s) Q.
Proof.
  iIntros (Hn Hw) "Hout HQ". pose proof (zlen_bound s). pose proof (zlen_bound w).
  sbind. iApply (swp_room with "Hout"); [lia|lia|]. iIntros ([q|]) "Hr"; cycle 1.
  { sret. by iApply "HQ". }
  iDestruct "Hr" as "(%k & %m & -> & %Hm & Hk & Hh & Hp)". sbind. iApply (swp_write with "Hk"); [done|lia|]. iIntros "Hk".
  sret. iApply "HQ". iApply (print_done with "Hk Hh Hp"). iPureIntro. lia.
Qed.

(** ** update *)

(** The output after a value: [w] is there, or there is no memory. *)
Definition state_at (b : nat) (w : list Z) : hprop := (out_at (Some b) w ∨ failed (Some b))%I.

Lemma swp_take_update b w s top r (Q : unit -> hprop) :
  c_string s -> zlen w + zlen s < 1073741824 ->
  print_result (Some b) w s top r -∗ (state_at b (w ++ s) -∗ Q tt) -∗ swp (take_update b) Q.
Proof.
  iIntros (Hs Hlen) "Hr HQ". pose proof (zlen_bound s). pose proof (zlen_bound w). destruct r as [q|]; cbn [print_result].
  - iDestruct "Hr" as "(%k & %m & %off & Hk & Hh & %Hoff & _)". cbn [holder]. sbind. sbind.
    iApply (swp_get_buffer with "Hh"). iIntros "Hh". cbn [buffer]. sbind. unfold ptr_add; cbn [fst snd offset]. sbind.
    destruct (room_split s (off - zlen w)) as (s1 & s2 & -> & H1 & H2); [lia|].
    replace (w ++ (s1 ++ s2) ++ [0]) with ((w ++ s1) ++ s2 ++ [0]) by by rewrite -!app_assoc.
    apply Forall_app in Hs as [_ Hs2]. rewrite zlen_app in H2 Hlen. rewrite zlen_app.
    iApply (swp_cstring_room _ k (w ++ s1) s2 with "Hk"); [rewrite zlen_app; lia|done|]. iIntros "Hk". sret. sret.
    sbind. iApply (swp_get_buffer with "Hh"). iIntros "Hh". iApply (swp_set_buffer with "Hh"). iIntros "Hh".
    iApply "HQ". iLeft. iExists k, (1 + m). rw app_assoc. cbn [buffer length].
    iDestruct (room_at_forget k ((w ++ s1) ++ s2) [0] m with "[Hk]") as "Hk"; [by rw -app_assoc|].
    change (zlen [0]) with 1. rw -!app_assoc. iFrame.
    rewrite s32_small; [|pose proof (zlen_bound s1); pose proof (zlen_bound s2); lia]. rewrite !zlen_app.
    replace (off + zlen s2) with (zlen w + (zlen s1 + zlen s2)) by lia.
    replace (zlen w + (zlen s1 + zlen s2) + 1 + m) with (zlen w + (zlen s1 + zlen s2) + (1 + m)) by lia. done.
  - iDestruct "Hr" as "[%Hoom (%len & %off & Hb)]". sbind. sbind. iApply (swp_get_buffer with "Hb"). iIntros "Hb". sret.
    sbind. iApply (swp_get_buffer with "Hb"). iIntros "Hb". iApply (swp_set_buffer with "Hb"). iIntros "Hb".
    iApply "HQ". iRight. iSplit; [done|]. by iExists _, _.
Qed.

Lemma swp_ensure_state b w n (Q : option ptr -> hprop) :
  0 <= n -> 1 <= zlen w + n <= 1073741824 ->
  state_at b w -∗ (∀ r, room_in (Some b) w n r -∗ Q r) -∗ swp (ensure can_malloc b n) Q.
Proof.
  iIntros (Hn Hw) "[Hout|[%Hoom Hdead]] HQ"; [by iApply (swp_ensure with "Hout")|].
  iApply (swp_ensure_dead with "Hdead"). iIntros "Hdead". iApply ("HQ" $! None). by iFrame.
Qed.

(** p->offset += n behind what was written. *)
Lemma swp_advance b k w s m n (Q : unit -> hprop) :
  zlen w + zlen s < 1073741824 -> n = zlen s ->
  room_at k (w ++ s) m -∗ holder (Some b) k (zlen w + zlen s + m) (zlen w) -∗
  (out_at (Some b) (w ++ s) -∗ Q tt) -∗ swp (advance b n) Q.
Proof.
  iIntros (Hlen ->) "Hk Hb HQ". pose proof (zlen_bound s). pose proof (zlen_bound w). cbn [holder].
  sbind. iApply (swp_get_buffer with "Hb"). iIntros "Hb". cbn [offset]. sbind.
  iApply (swp_get_buffer with "Hb"). iIntros "Hb". iApply (swp_set_buffer with "Hb"). iIntros "Hb".
  iApply "HQ". iExists k, m. iFrame. cbn [buffer length]. rewrite s32_small; [|lia]. by rewrite zlen_app.
Qed.
End Output.

(** What the printer writes for words, numbers and strings. *)

(** ** Escapes *)

(** The characters of a string: bytes but NUL. *)
Definition is_text (s : list Z) : Prop := Forall (fun c => 0 < c < 256) s.

Lemma is_text_string s : is_text s -> c_string s.
Proof. intros H. eapply Forall_impl; [exact H|]. cbn. lia. Qed.

Lemma zlen_escape c :
  0 < c -> zlen (escape c) = if has_letter c then 2 else if c <? 32 then 6 else 1.
Proof.
  intros Hc. unfold escape, needs_escape, has_letter, escape_letter.
  rewrite (proj2 (Z.ltb_lt _ _) Hc). cbn [andb].
  destruct (Z.eqb_spec c 34) as [->|]; [done|]. destruct (Z.eqb_spec c 92) as [->|]; [done|].
  destruct (Z.eqb_spec c 8) as [->|]; [done|]. destruct (Z.eqb_spec c 12) as [->|]; [done|].
  destruct (Z.eqb_spec c 10) as [->|]; [done|]. destruct (Z.eqb_spec c 13) as [->|]; [done|].
  destruct (Z.eqb_spec c 9) as [->|]; [done|]. by destruct (c <? 32).
Qed.

Lemma zlen_escape_range c : 0 < c -> 1 <= zlen (escape c) <= 6.
Proof. intros Hc. rewrite zlen_escape; [|done]. repeat case_match; lia. Qed.

(** The length that print_string_ptr computes. *)
Lemma escaped_length s n :
  is_text s -> 0 <= n -> n + zlen (flat_map escape s) < 2147483648 ->
  foldl (fun len c =>
    let len := s32 (len + 1) in
    if has_letter c then s32 (len + 1) else if c <? 32 then s32 (len + 5) else len) n s =
  n + zlen (flat_map escape s).
Proof.
  intros Hs. revert n. induction Hs as [|c s Hc Hs IH]; intros n Hn Hlen; cbn [foldl flat_map] in *.
  - change (@zlen Z []) with 0. lia.
  - rewrite zlen_app in Hlen |- *. pose proof (zlen_escape c ltac:(lia)) as He.
    pose proof (zlen_bound (flat_map escape s)).
    assert (0 <= zlen (escape c)) by apply zlen_bound. revert Hlen. rewrite He. intros Hlen.
    destruct (has_letter c); [|destruct (c <? 32)]; rewrite !s32_small; try lia; rewrite IH; lia.
Qed.

Lemma no_escapes s : existsb needs_escape s = false -> flat_map escape s = s.
Proof.
  induction s as [|c s IH]; [done|]. cbn [existsb flat_map]. intros [Hc Hs]%orb_false_iff.
  unfold escape at 1. by rewrite Hc IH.
Qed.

Lemma zlen_quoted s : zlen (quoted s) = zlen (flat_map escape s) + 2.
Proof. unfold quoted. rewrite zlen_cons zlen_app. change (zlen [34]) with 1. lia. Qed.

Lemma hex_char_pos d : 0 <= d < 16 -> 0 < hex_char d < 256.
Proof. intros Hd. unfold hex_char. destruct (d <? 10); lia. Qed.

Lemma escape_text c : 0 < c < 256 -> is_text (escape c).
Proof.
  intros Hc. unfold escape. destruct (needs_escape c); [|by constructor]. constructor; [lia|].
  unfold escape_letter. repeat (match goal with |- context [if ?b then _ else _] => destruct b end; [constructor; [lia|constructor]|]).
  pose proof (hex_char_pos (c / 16) ltac:(split; [apply Z.div_pos; lia|apply Z.div_lt_upper_bound; lia])).
  pose proof (hex_char_pos (c mod 16) ltac:(apply Z.mod_pos_bound; lia)).
  unfold fmt_u4. by repeat (constructor; [lia|]).
Qed.

Lemma flat_map_escape_text s : is_text s -> is_text (flat_map escape s).
Proof.
  induction 1 as [|c s Hc Hs IH]; [constructor|]. cbn. apply Forall_app_2; [by apply escape_text|done].
Qed.

Lemma quoted_text s : is_text s -> is_text (quoted s).
Proof.
  intros Hs. constructor; [lia|]. apply Forall_app_2; [by apply flat_map_escape_text|]. by constructor.
Qed.

Section Print.
Context (can_malloc : allocator -> list Z -> Z -> bool) (fuel : nat).
Abbreviation oom := (out_of_memory can_malloc).

Lemma swp_load_room site i a c z n off (Q : Z -> hprop) :
  zlen a = off -> room_at i (a ++ c :: z) n -∗ (room_at i (a ++ c :: z) n -∗ Q c) -∗ swp (load site (i, off)) Q.
Proof.
  iIntros (<-) "(%r & <- & Hi) HQ". iApply (swp_load with "Hi").
  { rewrite map_app -app_assoc. rewrite zget_app_r zlen_map; [|lia]. by rewrite Z.sub_diag. }
  iIntros "Hi". iApply "HQ". iExists r. by iFrame.
Qed.

(** One character of the second branch of print_string_ptr. *)
Lemma swp_print_escape k w c m (Q : ptr -> hprop) :
  0 < c -> needs_escape c = true -> zlen (escape c) < m ->
  room_at k (w ++ [92]) (m - 1) -∗
  (room_at k (w ++ escape c) (m - zlen (escape c)) -∗ Q (k, zlen w + zlen (escape c))) -∗
  swp (print_escape (k, zlen w + 1) c) Q.
Proof.
  iIntros (Hc Hn Hm) "Hk HQ". unfold print_escape, escape. rewrite Hn.
  assert (zlen (w ++ [92]) = zlen w + 1) as Hw by (rewrite zlen_app; done).
  unfold escape in Hm. rewrite Hn in Hm. destruct (escape_letter c) as [x|].
  - iApply (swp_put_char with "Hk"); [done|change (zlen [92; x]) with 2 in Hm; lia|]. iIntros "Hk".
    rw -app_assoc. change (zlen [92; x]) with 2. replace (m - 1 - 1) with (m - 2) by lia.
    replace (zlen w + 1 + 1) with (zlen w + 2) by lia. by iApply "HQ".
  - change (zlen (92 :: fmt_u4 c)) with 6 in *. sbind. iApply (swp_write with "Hk"); [done|change (zlen (fmt_u4 c)) with 5; lia|].
    iIntros "Hk". sret. unfold ptr_add; cbn [fst snd]. replace (zlen w + 1 + 5) with (zlen w + 6) by lia. iApply "HQ".
    iDestruct (room_at_forget k (w ++ [92] ++ fmt_u4 c) [0] with "[Hk]") as "Hk"; [by rw -!app_assoc|].
    change (zlen (fmt_u4 c)) with 5. change (zlen [0]) with 1. by replace (1 + (m - 1 - 5 - 1)) with (m - 6) by lia.
Qed.

(** The loop of the second branch. *)
Definition print_body : ptr * ptr -> M memory (ptr * ptr + ptr * ptr) := fun '(ptr, ptr2) =>
    c <- load "print_string_ptr" ptr ;;
    if c =? 0 then ret (inr (ptr, ptr2)) else
    if (31 <? c) && negb (c =? 34) && negb (c =? 92) then
      ptr2 <- put_char "print_string_ptr" ptr2 c ;;
      ret (inl (ptr_add ptr 1, ptr2))
    else
      ptr2 <- put_char "print_string_ptr" ptr2 92 ;;
      ptr2 <- print_escape ptr2 c ;;
      ret (inl (ptr_add ptr 1, ptr2)).

Lemma swp_print_chars n j done rest nj k w m (Q : ptr * ptr -> hprop) :
  (List.length rest < n)%nat -> is_text rest -> zlen (flat_map escape rest) < m ->
  room_at j (done ++ rest ++ [0]) nj -∗ room_at k w m -∗
  (∀ p, room_at j (done ++ rest ++ [0]) nj -∗
     room_at k (w ++ flat_map escape rest) (m - zlen (flat_map escape rest)) -∗
     Q (p, (k, zlen w + zlen (flat_map escape rest)))) -∗
  swp (loop n print_body ((j, zlen done), (k, zlen w))) Q.
Proof.
  intros Hn Hr. revert n done w m Hn. induction Hr as [|c rest Hc Hr IH]; intros n done w m Hn Hm; iIntros "Hj Hk HQ".
  all: destruct n as [|n]; [cbn in Hn; lia|]; iApply swp_loop; sbind.
  - iApply (swp_load_room _ j done 0 [] with "Hj"); [done|]. iIntros "Hj". sret.
    cbn [flat_map]. change (@zlen Z []) with 0. rw app_nil_r Z.add_0_r Z.sub_0_r. iApply ("HQ" with "Hj Hk").
  - iApply (swp_load_room _ j done c (rest ++ [0]) with "Hj"); [done|]. iIntros "Hj".
    cbn [flat_map] in *. rewrite zlen_app in Hm. pose proof (zlen_bound (flat_map escape rest)).
    pose proof (zlen_escape_range c ltac:(lia)) as He. destruct (Z.eqb_spec c 0) as [->|H0]; [lia|].
    iAssert (∀ m', ⟨m' = m - zlen (escape c)⟩ -∗ room_at j (done ++ c :: rest ++ [0]) nj -∗ room_at k (w ++ escape c) m' -∗ 
      swp (loop n print_body ((j, zlen done + 1), (k, zlen w + zlen (escape c)))) Q)%I with "[HQ]" as "Hnext".
    { iIntros (m' ->) "Hj Hk". replace (zlen done + 1) with (zlen (done ++ [c])) by (rewrite zlen_app; done).
      replace (zlen w + zlen (escape c)) with (zlen (w ++ escape c)) by (by rewrite zlen_app). iApply (IH n (done ++ [c]) (w ++ escape c) with "[Hj] Hk"); [cbn in Hn; lia|lia|by rw -!app_assoc|].
      iIntros (p) "Hj Hk". rw -!app_assoc !zlen_app. 
      replace (m - zlen (escape c) - zlen (flat_map escape rest)) with (m - (zlen (escape c) + zlen (flat_map escape rest))) by lia.
      replace (zlen w + zlen (escape c) + zlen (flat_map escape rest)) with (zlen w + (zlen (escape c) + zlen (flat_map escape rest))) by lia.
      iApply ("HQ" with "Hj Hk"). }
    replace ((31 <? c) && negb (c =? 34) && negb (c =? 92)) with (negb (needs_escape c)); cycle 1.
    { unfold needs_escape. rewrite (proj2 (Z.ltb_lt 0 c)); [|lia]. cbn [andb]. rewrite !negb_orb.
      do 2 f_equal. rewrite Z.ltb_antisym negb_involutive. destruct (Z.leb_spec 32 c), (Z.ltb_spec 31 c); (done || lia). }
    destruct (needs_escape c) eqn:Hesc; cbn [negb].
    + sbind. iApply (swp_put_char with "Hk"); [done|lia|]. iIntros "Hk". sbind.
      iApply (swp_print_escape with "Hk"); [lia|done|lia|]. iIntros "Hk". sret. iApply ("Hnext" with "[//] Hj Hk").
    + sbind. iApply (swp_put_char with "Hk"); [done|lia|]. iIntros "Hk". sret.
      unfold escape. rewrite Hesc. change (zlen [c]) with 1. iApply ("Hnext" with "[//] Hj Hk").
Qed.

Lemma swp_strcpy k w m p s off (Q : unit -> hprop) :
  zlen w = off -> zlen s < m ->
  room_at k w m -∗ str_at p s -∗ (room_at k (w ++ s ++ [0]) (m - zlen s - 1) -∗ str_at p s -∗ Q tt) -∗
  swp (strcpy (k, off) p) Q.
Proof.
  iIntros (Hw Hm) "Hk Hp HQ". sbind. iApply (swp_cstring with "Hp"). iIntros "Hp".
  iApply (swp_write with "Hk"); [done|done|]. iIntros "Hk". iApply ("HQ" with "Hk Hp").
Qed.

(** The quotes around a text of which the first one is there. *)
Lemma print_quoted_done p w s top k m n :
  room_at k (w ++ [34] ++ s ++ [34] ++ [0]) m -∗ holder p k n (zlen w) -∗ ⟨p = None -> w = []⟩ -∗
  ⟨n = (zlen w + (zlen s + 2) + 1 + m)%Z⟩ -∗ printed p w (34 :: s ++ [34]) top (k, zlen w).
Proof.
  iIntros "Hk Hh Hp ->". iApply (print_done _ _ _ _ _ m with "[Hk] Hh Hp").
  - cbn [app]. by rw -!app_assoc.
  - iPureIntro. rewrite zlen_cons zlen_app. change (zlen [34]) with 1. lia.
Qed.

Lemma swp_print_string_ptr p w sp s top (Q : option ptr -> hprop) :
  is_text s -> (List.length s < fuel)%nat -> zlen w + zlen (quoted s) < 1073741824 ->
  str_at sp s -∗ out_at p w -∗
  (∀ r, str_at sp s -∗ print_result can_malloc p w (quoted s) top r -∗ Q r) -∗
  swp (print_string_ptr can_malloc fuel (Some sp) p) Q.
Proof.
  iIntros (Hs Hf Hlen) "Hsp Hout HQ". rewrite zlen_quoted in Hlen. pose proof (zlen_bound w).
  sbind. iApply swp_access. sbind. iApply (swp_cstring with "Hsp"). iIntros "Hsp".
  destruct (existsb needs_escape s) eqn:Hesc; cbn [negb].
  - pose proof (zlen_bound (flat_map escape s)). cbv zeta. rewrite escaped_length; [|done|lia|lia].
    rewrite s32_small; [|lia]. sbind. iApply (swp_room with "Hout"); [lia|lia|]. iIntros ([q|]) "Hr"; cycle 1.
    { sret. by iApply ("HQ" $! None with "Hsp"). }
    iDestruct "Hr" as "(%k & %m & -> & %Hm & Hk & Hh & Hp)". sbind. iApply (swp_put_char with "Hk"); [done|lia|]. iIntros "Hk".
    iDestruct "Hsp" as "(%j & %nj & -> & %Hcs & Hj)". sbind.
    replace (zlen w + 1) with (zlen (w ++ [34])) by (rewrite zlen_app; done).
    iApply (swp_print_chars fuel j [] s nj k (w ++ [34]) with "Hj Hk"); [done|done|lia|].
    iIntros (p') "Hj Hk". sbind. iApply (swp_put_char with "Hk"); [rewrite !zlen_app; done|lia|]. iIntros "Hk".
    sbind. iApply (swp_put_char with "Hk"); [rewrite !zlen_app; done|lia|]. iIntros "Hk". sret.
    iApply ("HQ" with "[Hj]"); [iExists j, nj; by iFrame|]. rw -!app_assoc.
    iApply (print_quoted_done with "Hk Hh Hp"). iPureIntro. lia.
  - apply no_escapes in Hesc. unfold quoted. rewrite Hesc in Hlen |- *. pose proof (zlen_bound s).
    rewrite s32_small; [|lia]. sbind. iApply (swp_room with "Hout"); [lia|lia|]. iIntros ([q|]) "Hr"; cycle 1.
    { sret. by iApply ("HQ" $! None with "Hsp"). }
    iDestruct "Hr" as "(%k & %m & -> & %Hm & Hk & Hh & Hp)". sbind. iApply (swp_put_char with "Hk"); [done|lia|]. iIntros "Hk".
    sbind. iApply (swp_strcpy with "Hk Hsp"); [rewrite zlen_app; done|lia|]. iIntros "Hk Hsp".
    iDestruct (room_at_forget k ((w ++ [34]) ++ s) [0] with "[Hk]") as "Hk"; [by rw -!app_assoc|].
    change (zlen [0]) with 1. unfold ptr_add; cbn [fst snd].
    sbind. iApply (swp_store with "Hk"); [rewrite !zlen_app; change (zlen [34]) with 1; lia|lia|]. iIntros "Hk".
    sbind. iApply (swp_store with "Hk"); [rewrite !zlen_app; change (zlen [34]) with 1; lia|lia|]. iIntros "Hk". sret.
    iApply ("HQ" with "Hsp"). rw -!app_assoc. iApply (print_quoted_done with "Hk Hh Hp"). iPureIntro. lia.
Qed.

(** ** Leaves *)

Lemma swp_print_word p w s top (Q : option ptr -> hprop) :
  zlen w + zlen s < 1073741824 ->
  out_at p w -∗ (∀ r, print_result can_malloc p w s top r -∗ Q r) -∗ swp (print_word can_malloc s p) Q.
Proof. intros H. apply swp_room_for; lia. Qed.
End Print.

(** What the printer writes for numbers, arrays and objects into a buffer. *)

(** ** What can be printed *)

Definition is_text_option (s : option (list Z)) : Prop := match s with Some s => is_text s | None => True end.

Definition printable_data (d : data) : Prop :=
  plain d = true /\ is_text_option (d_string d) /\ is_text_option (d_name d) /\
  valid (d_double d) = true /\ -2147483648 <= d_int d < 2147483648.

Definition container (ty : Z) : bool := (Z.land ty 255 =? cJSON_Array) || (Z.land ty 255 =? cJSON_Object).

(** Items that own what they refer to, with strings and numbers of C, and with
    children only in arrays and objects. *)
Inductive printable : tree -> Prop :=
| printable_tree d kids :
    printable_data d -> (container (d_type d) = false -> kids = []) -> Forall printable kids ->
    printable (Tree d kids).

Lemma printable_data_of t : printable t -> printable_data (data_of t).
Proof. by intros []. Qed.

Lemma flat_map_escape_length s : is_text s -> (List.length s <= List.length (flat_map escape s))%nat.
Proof.
  induction 1 as [|c s Hc Hs IH]; [done|]. cbn [flat_map List.length]. rewrite length_app.
  pose proof (zlen_escape_range c ltac:(lia)) as H. unfold zlen in H. lia.
Qed.

(** ** Pieces *)

Lemma zlen_indent (b : bool) n : zlen (if b then tabs n else []) = if b then Z.of_nat n else 0.
Proof. destruct b; [unfold tabs; by rewrite zlen_replicate|done]. Qed.

Section Pieces.
Context (site : string) (k : nat).

Lemma swp_put_if (b : bool) c w m off (Q : ptr -> hprop) :
  zlen w = off -> b2z b <= m ->
  room_at k w m -∗ (room_at k (w ++ (if b then [c] else [])) (m - b2z b) -∗ Q (k, off + b2z b)) -∗
  swp (put_if b c (k, off)) Q.
Proof.
  iIntros (Hw Hm) "Hk HQ". destruct b; cbn [put_if b2z] in *.
  - iApply (swp_put_char with "Hk"); [done|lia|done].
  - sret. rw app_nil_r Z.sub_0_r Z.add_0_r. by iApply "HQ".
Qed.

Lemma swp_put_tabs n w m off (Q : ptr -> hprop) :
  zlen w = off -> Z.of_nat n <= m ->
  room_at k w m -∗ (room_at k (w ++ tabs n) (m - Z.of_nat n) -∗ Q (k, off + Z.of_nat n)) -∗
  swp (put_tabs (Z.of_nat n) (k, off)) Q.
Proof.
  iIntros (Hw Hm) "Hk HQ". unfold put_tabs. rewrite Nat2Z.id.
  assert (forall i w m off, (i <= n)%nat -> zlen w = off -> Z.of_nat i <= m ->
    room_at k w m -∗ (room_at k (w ++ tabs i) (m - Z.of_nat i) -∗ Q (k, off + Z.of_nat i)) -∗
    swp (loop (S i) (fun '(j, p) =>
      if j <? Z.of_nat n then p <- put_char "print" p 9 ;; ret (inl (j + 1, p)) else ret (inr p))
      (Z.of_nat n - Z.of_nat i, (k, off))) Q) as H; cycle 1.
  { iPoseProof (H n w m off ltac:(lia) Hw Hm with "Hk HQ") as "H". iEval (rw Z.sub_diag) in "H". iExact "H". }
  clear. intros i. induction i as [|i IH]; intros w m off Hi Hw Hm; iIntros "Hk HQ"; iApply swp_loop.
  - rewrite (proj2 (Z.ltb_ge _ _)); [|lia]. sret. cbn [tabs replicate Z.of_nat]. rw app_nil_r Z.sub_0_r Z.add_0_r. by iApply "HQ".
  - rewrite (proj2 (Z.ltb_lt _ _)); [|lia]. sbind. iApply (swp_put_char with "Hk"); [done|lia|]. iIntros "Hk". sret.
    replace (Z.of_nat n - Z.of_nat (S i) + 1) with (Z.of_nat n - Z.of_nat i) by lia.
    iApply (IH with "Hk"); [lia|rewrite zlen_app; change (zlen [9]) with 1; lia|lia|]. iIntros "Hk".
    rw -app_assoc. change ([9] ++ tabs i) with (tabs (S i)).
    replace (m - 1 - Z.of_nat i) with (m - Z.of_nat (S i)) by lia.
    replace (off + 1 + Z.of_nat i) with (off + Z.of_nat (S i)) by lia. by iApply "HQ".
Qed.
End Pieces.

Lemma points_to_eq i o o' : o = o' -> i ↦ o ⊢ i ↦ o'.
Proof. by intros ->. Qed.

Section Lists.
Context (can_malloc : allocator -> list Z -> Z -> bool) (fuel : nat).
Abbreviation oom := (out_of_memory can_malloc).

(** p->offset += n, after what was written into the room for more. *)
Lemma swp_advance_room b k w s m n (Q : unit -> hprop) :
  zlen w + zlen s < 1073741824 -> n = zlen s ->
  room_at k (w ++ s) (m - zlen s) -∗ holder (Some b) k (zlen w + m) (zlen w) -∗
  (out_at (Some b) (w ++ s) -∗ Q tt) -∗ swp (advance b n) Q.
Proof.
  iIntros (Hlen Hn) "Hk Hb HQ". iApply (swp_advance with "Hk [Hb] HQ"); [done|done|].
  by replace (zlen w + zlen s + (m - zlen s)) with (zlen w + m) by lia.
Qed.

Lemma swp_advance_room_0 b k w s m n m' (Q : unit -> hprop) :
  zlen w + zlen s < 1073741824 -> n = zlen s -> m' = m - zlen s - 1 ->
  room_at k (w ++ s ++ [0]) m' -∗ holder (Some b) k (zlen w + m) (zlen w) -∗
  (out_at (Some b) (w ++ s) -∗ Q tt) -∗ swp (advance b n) Q.
Proof.
  iIntros (Hlen Hn ->) "Hk Hb HQ". rw app_assoc. iDestruct (room_at_forget with "Hk") as "Hk".
  change (zlen [0]) with 1. replace (1 + (m - zlen s - 1)) with (m - zlen s) by lia.
  by iApply (swp_advance_room with "Hk Hb HQ").
Qed.

(** The fields of an item. *)
Lemma swp_fields t i nx pv (Q : cJSON -> hprop) :
  tree_at t i nx pv -∗
  (∀ c, ⟨next c = nx /\ type c = d_type (data_of t) /\ valueint c = d_int (data_of t) /\
         valuedouble c = d_double (data_of t)⟩ -∗ tree_at t i nx pv -∗ Q c) -∗ swp (item i) Q.
Proof.
  iIntros "Ht HQ". iApply (swp_item_tree with "Ht"). iIntros (ch vs nm) "Hi Ho".
  iApply "HQ"; [done|]. rw tree_at_item. iExists ch, vs, nm. iFrame.
Qed.

Lemma zlen_number n d :
  valid d = true -> -2147483648 <= n < 2147483648 -> zlen (number_text n d) < 64.
Proof.
  intros Hv Hn. unfold number_text. cbv zeta. destruct (SpecFloat.SFeqb _ _); [by vm_compute|].
  destruct (_ && _); [pose proof (fmt_d_length n Hn); lia|]. destruct (_ && _) eqn:E.
  { apply andb_true_iff in E as [_ E]. pose proof (fmt_f0_length d Hv E). lia. }
  destruct (SpecFloat.SFltb _ d_1em6); cbn [orb]; [pose proof (fmt_e_length d Hv); lia|].
  destruct (SpecFloat.SFltb d_1e9 _) eqn:E9; [pose proof (fmt_e_length d Hv)|pose proof (fmt_f6_length d Hv E9)]; lia.
Qed.

Lemma swp_print_number t i nx pv p w top (Q : option ptr -> hprop) :
  printable_data (data_of t) -> zlen w + 64 <= 1073741824 ->
  tree_at t i nx pv -∗ out_at p w -∗
  (∀ r, tree_at t i nx pv -∗
     print_result can_malloc p w (number_text (d_int (data_of t)) (d_double (data_of t))) top r -∗ Q r) -∗
  swp (print_number can_malloc i p) Q.
Proof.
  intros (_ & _ & _ & Hv & Hn) Hlen. iIntros "Ht Hout HQ". sbind. iApply (swp_fields with "Ht").
  iIntros (c (_ & _ & Hi & Hd)) "Ht". rw Hi Hd. pose proof (zlen_number _ _ Hv Hn) as H64.
  unfold number_text in *. cbv zeta in *. destruct (SpecFloat.SFeqb _ _).
  { iApply (swp_room_for with "Hout"); [by vm_compute|lia|]. iIntros (r) "Hr". iApply ("HQ" with "Ht Hr"). }
  destruct (_ && _).
  { iApply (swp_room_for with "Hout"); [pose proof (fmt_d_length _ Hn); lia|lia|]. iIntros (r) "Hr". iApply ("HQ" with "Ht Hr"). }
  iApply (swp_room_for with "Hout"); [done|lia|]. iIntros (r) "Hr". iApply ("HQ" with "Ht Hr").
Qed.

(** ** Arrays in a buffer *)

Section Value.
Context (print : option nat -> Z -> Z -> option nat -> M memory (option ptr)) (fmt : Z) (depth : nat) (K : tree -> Prop).
Abbreviation f := (negb (fmt =? 0)).

(** What the printer of the children does. *)
Definition prints : Prop :=
  forall t s i nx pv p w (Q : option ptr -> hprop),
    K t -> render f depth t = Some s -> (List.length s < fuel)%nat -> zlen w + zlen s + 64 <= 1073741824 ->
    tree_at t i nx pv -∗ out_at p w -∗
    (∀ r, tree_at t i nx pv -∗ print_result can_malloc p w s (depth = 0%nat) r -∗ Q r) -∗
    swp (print (Some i) (Z.of_nat depth) fmt p) Q.
End Value.

(** The texts of a list, with their separators. *)
Lemma zlen_joined_cons sep x (l : list (list Z)) : zlen (joined sep (x :: l)) =
  zlen x + match l with [] => 0 | _ => zlen sep + zlen (joined sep l) end.
Proof. destruct l; cbn [joined]; [lia|]. rewrite !zlen_app. lia. Qed.

Lemma all_some_cons {A B} (g : A -> option B) x l ys :
  all_some g (x :: l) = Some ys -> exists y ys', ys = y :: ys' /\ g x = Some y /\ all_some g l = Some ys'.
Proof.
  cbn [all_some]. destruct (g x) as [y|]; [|done]. destruct (all_some g l) as [ys'|]; [|done].
  intros [= <-]. by exists y, ys'.
Qed.

Lemma segment_next l f pv nx la : segment l f pv nx la ⊢ ⟨(l = [] -> f = nx) /\ (l <> [] -> is_Some f)⟩ ∗ segment l f pv nx la.
Proof.
  destruct l as [|t l]; cbn [segment_of].
  - iIntros "[-> ->]". done.
  - iIntros "(%i & %n & -> & Ht & Hs)". iSplitR; [done|]. iExists i, n. by iFrame.
Qed.

Section Buffered.
Context (print : option nat -> Z -> Z -> option nat -> M memory (option ptr)) (fmt : Z) (depth : nat) (K : tree -> Prop).
Hypothesis Hprint : prints print fmt (S depth) K.
Hypothesis Hstring : forall t s, K t -> render (negb (fmt =? 0)) (S depth) t = Some s -> c_string s.
Abbreviation f := (negb (fmt =? 0)).
Abbreviation comma := (if f then [44; 32] else [44]).
Abbreviation short := (Forall (fun s : list Z => (List.length s < fuel)%nat)).

Definition array_body (b : nat) : option nat -> M memory (option nat + bool) := fun child =>
        match child with
        | None => ret (inr true)
        | Some c =>
            print child (Z.of_nat depth + 1) fmt (Some b) ;;
            take_update b ;;
            it <- item c ;;
            if has_next it then
              let len := if fmt =? 0 then 1 else 2 in
              ptr <- ensure can_malloc b (len + 1) ;;
              match ptr with
              | None => ret (inr false)
              | Some q =>
                  q <- put_char "print_array" q 44 ;;
                  q <- put_if (negb (fmt =? 0)) 32 q ;;
                  store "print_array" q 0 ;;
                  advance b len ;;
                  ret (inl (next it))
              end
            else ret (inl (next it))
        end.

Lemma swp_array_loop l texts n ch pv la b w (Q : bool -> hprop) :
  (List.length l < n)%nat -> l <> [] -> Forall K l -> all_some (render f (S depth)) l = Some texts -> short texts ->
  zlen w + zlen (joined comma texts) + 64 <= 1073741824 ->
  segment l ch pv None la -∗ out_at (Some b) w -∗
  (∀ ok : bool, segment l ch pv None la -∗
     (if ok then state_at can_malloc b (w ++ joined comma texts) else failed can_malloc (Some b)) -∗ Q ok) -∗
  swp (loop n (array_body b) ch) Q.
Proof.
  intros Hn Hl Hk Ht Hsh. revert l texts ch pv w Hn Hl Hk Ht Hsh.
  induction n as [|n IH]; intros l texts ch pv w Hn Hl Hk Ht Hsh Hlen; [lia|].
  destruct l as [|t l]; [done|]. inversion Hk as [|? ? Kt Kl]; subst.
  apply all_some_cons in Ht as (s & texts' & -> & Hs & Ht). rewrite zlen_joined_cons in Hlen.
  apply Forall_cons in Hsh as [Hshort Hsh].
  pose proof (zlen_bound s). pose proof (zlen_bound w). pose proof (zlen_bound (joined comma texts')). pose proof (zlen_bound comma).
  iIntros "(%i & %n' & -> & Ht & Hl) Hout HQ". iApply swp_loop. sbind.
  replace (Z.of_nat depth + 1) with (Z.of_nat (S depth)) by lia.
  iApply (Hprint with "Ht Hout"); [done|done|done|destruct texts'; lia|]. iIntros (r) "Ht Hr". sbind.
  iApply (swp_take_update with "Hr"); [by eapply Hstring|destruct texts'; lia|]. iIntros "Hst". sbind.
  iApply (swp_fields with "Ht"). iIntros (c (Hnx & _)) "Ht". unfold has_next. rw Hnx.
  iDestruct (segment_next with "Hl") as "([%Hnil %Hcons] & Hl)".
  destruct l as [|t' l].
  - rewrite Hnil; [|done]. cbn. sret. destruct texts' as [|]; [|done].
    destruct n as [|n]; [cbn in Hn; lia|]. iApply swp_loop. sret. iApply ("HQ" $! true with "[Ht Hl] Hst").
    iExists i, n'. rewrite Hnil; [|done]. by iFrame.
  - destruct Hcons as [k ->]; [done|]. cbn [bool_decide decide_rel]. 
    destruct texts' as [|s' texts']; [by apply all_some_cons in Ht as (? & ? & ? & _)|].
    rewrite bool_decide_true; [|by eexists].
    assert (zlen comma = if fmt =? 0 then 1 else 2) as Hcomma by by destruct (fmt =? 0).
    sbind. iApply (swp_ensure_state with "Hst"); [destruct (fmt =? 0); lia|rewrite zlen_app; destruct (fmt =? 0); lia|].
    iIntros ([q|]) "Hr"; cycle 1.
    { sret. iApply ("HQ" $! false with "[Ht Hl] Hr"). iExists i, (Some k). by iFrame. }
    iDestruct "Hr" as "(%kb & %m & -> & %Hm & Hkb & Hh & _)".
    sbind. iApply (swp_put_char with "Hkb"); [done|destruct (fmt =? 0); lia|]. iIntros "Hkb".
    sbind. iApply (swp_put_if with "Hkb"); [by rewrite zlen_app|destruct (fmt =? 0); cbn; lia|]. iIntros "Hkb".
    rw -app_assoc. replace ([44] ++ (if f then [32] else [])) with comma by by destruct f.
    sbind. iApply (swp_store with "Hkb"); [|destruct (fmt =? 0); cbn; lia|].
    { rewrite zlen_app Hcomma. destruct (fmt =? 0); cbn; lia. }
    iIntros "Hkb". rw -app_assoc.
    sbind. iApply (swp_advance_room_0 b kb (w ++ s) comma m with "Hkb Hh"); [rewrite zlen_app; lia|by rewrite Hcomma| |].
    { rewrite Hcomma. destruct (fmt =? 0); cbn [negb b2z]; lia. }
    iIntros "Hout". sret. iApply (IH (t' :: l) with "Hl Hout"); [cbn in *; lia|done|done|done|done| |].
    { rewrite !zlen_app. lia. }
    iIntros (ok) "Hl Hr". iApply ("HQ" with "[Ht Hl]"); [iExists i, (Some k); by iFrame|].
    destruct ok; [|done]. rw -!app_assoc. iExact "Hr".
Qed.

Lemma swp_print_array_buffered kids texts a d nx pv ch vs nm la b w (Q : option ptr -> hprop) :
  (List.length kids < fuel)%nat -> kids <> [] -> Forall K kids -> all_some (render f (S depth)) kids = Some texts -> short texts ->
  zlen w + (zlen (joined comma texts) + 2) + 64 <= 1073741824 ->
  a ↦ Item (item_of d nx pv ch vs nm) -∗ segment kids ch None None la -∗ out_at (Some b) w -∗
  (∀ r, a ↦ Item (item_of d nx pv ch vs nm) -∗ segment kids ch None None la -∗
     print_result can_malloc (Some b) w (91 :: joined comma texts ++ [93]) (depth = 0%nat) r -∗ Q r) -∗
  swp (print_array_buffered can_malloc fuel print a (Z.of_nat depth) fmt b) Q.
Proof.
  intros Hf Hk HK Ht Hsh Hlen. pose proof (zlen_bound w). pose proof (zlen_bound (joined comma texts)).
  iIntros "Ha Hl Hout HQ". unfold print_array_buffered. sbind.
  iDestruct "Hout" as "(%k0 & %m0 & Hk0 & Hb)". iApply (swp_get_buffer with "Hb"). iIntros "Hb". cbn [offset].
  sbind. iApply (swp_ensure _ b w 1 with "[Hk0 Hb]"); [done|lia|iExists k0, m0; by iFrame|]. iIntros ([q|]) "Hr"; cycle 1.
  { sret. iApply ("HQ" $! None with "Ha Hl Hr"). }
  iDestruct "Hr" as "(%k & %m & -> & %Hm & Hk & Hh & _)".
  sbind. iApply (swp_store with "Hk"); [done|lia|]. iIntros "Hk". sbind.
  iApply (swp_advance_room b k w [91] m with "Hk Hh"); [change (zlen [91]) with 1; lia|done|]. iIntros "Hout".
  sbind. iApply (swp_item with "Ha"). iIntros "Ha". cbn [child item_of]. sbind.
  iApply (swp_array_loop kids texts with "Hl Hout"); [done|done|done|done|done| |].
  { rewrite zlen_app. change (zlen [91]) with 1. lia. }
  iIntros (ok) "Hl Hr". destruct ok; cbn [negb]; cycle 1.
  { sret. iApply ("HQ" $! None with "Ha Hl Hr"). }
  sbind. iApply (swp_ensure_state with "Hr"); [done| |].
  { rewrite !zlen_app. change (zlen [91]) with 1. lia. }
  clear k m Hm. iIntros ([q|]) "Hr"; cycle 1.
  { sret. iApply ("HQ" $! None with "Ha Hl Hr"). }
  iDestruct "Hr" as "(%k & %m & -> & %Hm & Hk & Hh & _)".
  sbind. iApply (swp_put_char with "Hk"); [done|lia|]. iIntros "Hk".
  sbind. iApply (swp_store with "Hk"); [by rewrite (zlen_app _ [93])|lia|]. iIntros "Hk". cbn [holder].
  sbind. iApply (swp_get_buffer with "Hh"). iIntros "Hh". cbn [buffer]. sbind. iApply swp_access. sret.
  iApply ("HQ" $! (Some _) with "Ha Hl"). unfold ptr_add; cbn [fst snd].
  iExists k, (m - 1 - 1), (zlen ((w ++ [91]) ++ joined comma texts)).
  replace (w ++ (91 :: joined comma texts ++ [93]) ++ [0]) with ((((w ++ [91]) ++ joined comma texts) ++ [93]) ++ [0]); cycle 1.
  { rewrite -!app_assoc. cbn [app]. by rewrite -!app_assoc. }
  iFrame "Hk". autorewrite with zlen.
  replace (zlen w + (zlen (joined comma texts) + (0 + 1) + 1) + 1 + (m - 1 - 1)) with (zlen w + (0 + 1) + zlen (joined comma texts) + m) by lia.
  cbn [holder]. iFrame "Hh". iPureIntro. split_and!; [lia|lia| |done]. intros [|[_ ->]]; [done|]. by rewrite /zlen.
Qed.

(** ** Objects in a buffer *)

Abbreviation indent n := (if f then tabs n else []).

Lemma swp_indent b w (Q : bool -> hprop) :
  zlen w + zlen (indent (S depth)) + 64 <= 1073741824 ->
  out_at (Some b) w -∗
  (∀ go : bool, (if go then out_at (Some b) (w ++ indent (S depth)) else failed can_malloc (Some b)) -∗ Q go) -∗
  swp (if f then
         ptr <- ensure can_malloc b (Z.of_nat depth + 1) ;;
         match ptr with
         | None => ret false
         | Some q => put_tabs (Z.of_nat depth + 1) q ;; advance b (Z.of_nat depth + 1) ;; ret true
         end
       else ret true) Q.
Proof.
  iIntros (Hlen) "Hout HQ". pose proof (zlen_bound w). destruct f; cycle 1.
  { sret. iApply ("HQ" $! true). by rw app_nil_r. }
  unfold tabs in Hlen. rewrite zlen_replicate in Hlen. replace (Z.of_nat depth + 1) with (Z.of_nat (S depth)) by lia.
  sbind. iApply (swp_ensure with "Hout"); [lia|lia|]. iIntros ([q|]) "Hr"; cycle 1.
  { sret. by iApply ("HQ" $! false). }
  iDestruct "Hr" as "(%k & %m & -> & %Hm & Hk & Hh & _)".
  sbind. iApply (swp_put_tabs with "Hk"); [done|lia|]. iIntros "Hk".
  assert (zlen (tabs (S depth)) = Z.of_nat (S depth)) as Htabs by (unfold tabs; by rewrite zlen_replicate).
  sbind. iApply (swp_advance_room b k w (tabs (S depth)) m with "[Hk] Hh"); [lia|done| |].
  { by rw Htabs. }
  iIntros "Hout". sret. iApply ("HQ" $! true with "Hout").
Qed.

(** The name of an item that has one of its own. *)
Lemma swp_print_name {A} t i nx pv s b w top (k : cJSON -> option ptr -> M memory A) (Q : A -> hprop) :
  printable_data (data_of t) -> d_name (data_of t) = Some s -> (List.length (quoted s) < fuel)%nat ->
  zlen w + zlen (quoted s) < 1073741824 ->
  tree_at t i nx pv -∗ out_at b w -∗
  (∀ it r, tree_at t i nx pv -∗ print_result can_malloc b w (quoted s) top r -∗ swp (k it r) Q) -∗
  swp (it <- item i ;; r <- print_string_ptr can_malloc fuel (name it) b ;; k it r) Q.
Proof.
  intros (Hp & _ & Hn & _) Hs Hf Hlen. rewrite Hs in Hn. unfold plain in Hp. apply andb_true_iff in Hp as [_ Hc%negb_true_iff].
  iIntros "Ht Hout HQ". sbind. iApply (swp_item_tree with "Ht"). iIntros (ch vs nm) "Hi [Ho Hn]". cbn [name item_of]. rw Hc Hs.
  destruct nm as [p|]; cbn [text_at]; [|iDestruct "Hn" as %[]]. sbind.
  iApply (swp_print_string_ptr with "Hn Hout"); [done| |done|].
  { pose proof (zlen_quoted s) as H. pose proof (flat_map_escape_length s Hn). unfold zlen in H. lia. }
  iIntros (r) "Hn Hr". iApply ("HQ" with "[Hi Ho Hn] Hr"). rw tree_at_item. iExists ch, vs, (Some p). iFrame.
  unfold owned. rw Hc Hs. iFrame.
Qed.

Definition object_body (b : nat) : option nat -> M memory (option nat + bool) := fun child =>
        match child with
        | None => ret (inr true)
        | Some c =>
            go <- (if f then
                     ptr <- ensure can_malloc b (Z.of_nat depth + 1) ;;
                     match ptr with
                     | None => ret false
                     | Some q => put_tabs (Z.of_nat depth + 1) q ;; advance b (Z.of_nat depth + 1) ;; ret true
                     end
                   else ret true) ;;
            if negb go then ret (inr false) else
            it <- item c ;;
            print_string_ptr can_malloc fuel (name it) (Some b) ;;
            take_update b ;;
            ptr <- ensure can_malloc b (if f then 2 else 1) ;;
            match ptr with
            | None => ret (inr false)
            | Some q =>
                q <- put_char "print_object" q 58 ;;
                put_if f 9 q ;;
                advance b (if f then 2 else 1) ;;
                print child (Z.of_nat depth + 1) fmt (Some b) ;;
                take_update b ;;
                it <- item c ;;
                let len := b2z f + b2z (has_next it) in
                ptr <- ensure can_malloc b (len + 1) ;;
                match ptr with
                | None => ret (inr false)
                | Some q =>
                    q <- put_if (has_next it) 44 q ;;
                    q <- put_if f 10 q ;;
                    store "print_object" q 0 ;;
                    advance b len ;;
                    ret (inl (next it))
                end
            end
        end.

(** The text of a member. *)
Definition member_text (t : tree) : option (list Z) :=
  match d_name (data_of t), render f (S depth) t with
  | Some s, Some v => Some (indent (S depth) ++ quoted s ++ [58] ++ (if f then [9] else []) ++ v)
  | _, _ => None
  end.
Abbreviation newline := (if f then [10] else []).

(** What follows a member. *)
Lemma swp_member_end (more : bool) b w (nx : option nat) (Q : option nat + bool -> hprop) :
  zlen w + 64 <= 1073741824 ->
  state_at can_malloc b w -∗
  ((failed can_malloc (Some b) -∗ Q (inr false)) ∧
   (out_at (Some b) (w ++ (if more then [44] else []) ++ newline) -∗ Q (inl nx))) -∗
  swp (ptr <- ensure can_malloc b (b2z f + b2z more + 1) ;;
       match ptr with
       | None => ret (inr false)
       | Some q =>
           q <- put_if more 44 q ;;
           q <- put_if f 10 q ;;
           store "print_object" q 0 ;;
           advance b (b2z f + b2z more) ;;
           ret (inl nx)
       end) Q.
Proof.
  iIntros (Hlen) "Hst HQ". pose proof (zlen_bound w). assert (0 <= b2z f <= 1) as Hf by by destruct f. assert (0 <= b2z more <= 1) as Hmore by by destruct more.
  assert (zlen (if more then [44] else []) = b2z more) as H1 by by destruct more.
  assert (zlen newline = b2z f) as H2 by by destruct f.
  sbind. iApply (swp_ensure_state with "Hst"); [lia|lia|]. iIntros ([q|]) "Hr"; cycle 1.
  { sret. iDestruct "HQ" as "[HQ _]". by iApply "HQ". }
  iDestruct "HQ" as "[_ HQ]". iDestruct "Hr" as "(%k & %m & -> & %Hm & Hk & Hh & _)".
  sbind. iApply (swp_put_if with "Hk"); [done|lia|]. iIntros "Hk".
  sbind. iApply (swp_put_if with "Hk"); [by rewrite zlen_app H1|lia|]. iIntros "Hk".
  sbind. iApply (swp_store with "Hk"); [by rewrite !zlen_app H1 H2|lia|]. iIntros "Hk". rw -!app_assoc.
  rw (app_assoc (if more then [44] else [])). 
  sbind. iApply (swp_advance_room_0 b k w ((if more then [44] else []) ++ newline) m with "Hk Hh"); [rewrite zlen_app; lia|rewrite zlen_app; lia|rewrite zlen_app; lia|].
  iIntros "Hout". sret. by iApply "HQ".
Qed.

#[local] Opaque quoted.

(** A member, up to its value. *)
Lemma swp_member t x i nx pv b w (Q : option nat + bool -> hprop) :
  K t -> printable_data (data_of t) -> member_text t = Some x -> (List.length x < fuel)%nat ->
  zlen w + zlen x + 64 <= 1073741824 ->
  tree_at t i nx pv -∗ out_at (Some b) w -∗
  (tree_at t i nx pv -∗
     ((failed can_malloc (Some b) -∗ Q (inr false)) ∧
      (out_at (Some b) (w ++ x ++ (if bool_decide (is_Some nx) then [44] else []) ++ newline) -∗ Q (inl nx)))) -∗
  swp (object_body b (Some i)) Q.
Proof.
  intros HK Hd Hx Hf Hlen. unfold member_text in Hx. destruct (d_name (data_of t)) as [s|] eqn:Hs; [|done].
  destruct (render f (S depth) t) as [v|] eqn:Hv; [|done].
  set (tab := if f then [9] else []) in *. apply Some_inj in Hx. subst x. pose proof (zlen_bound w). pose proof (zlen_bound (quoted s)).
  pose proof (zlen_bound v). pose proof (zlen_bound (indent (S depth))). pose proof (zlen_bound tab).
  autorewrite with zlen in Hlen. rewrite !length_app in Hf.
  assert (1 + zlen tab = if f then 2 else 1) as Htab by (unfold tab; by destruct f).
  assert (zlen tab = b2z f) as Hf9 by (unfold tab; by destruct f).
  iIntros "Ht Hout HQ". unfold object_body. sbind. iApply (swp_indent with "Hout"); [lia|]. iIntros ([|]) "Hr"; cbn [negb]; cycle 1.
  { sret. iDestruct ("HQ" with "Ht") as "[HQ _]". by iApply "HQ". }
  iApply (swp_print_name t i nx pv s (Some b) _ True with "Ht Hr"); [done|done|lia|autorewrite with zlen; lia|]. iIntros (it r) "Ht Hr". sbind.
  iApply (swp_take_update with "Hr"); [|autorewrite with zlen; lia|].
  { apply is_text_string, quoted_text. destruct Hd as (_ & _ & Hn & _). by rewrite Hs in Hn. }
  iIntros "Hst". sbind.
  iApply (swp_ensure_state with "Hst"); [rewrite -Htab; lia|autorewrite with zlen; rewrite -Htab; lia|]. iIntros ([q|]) "Hr"; cycle 1.
  { sret. iDestruct ("HQ" with "Ht") as "[HQ _]". by iApply "HQ". }
  iDestruct "Hr" as "(%k & %m & -> & %Hm & Hk & Hh & _)". rewrite -Htab in Hm.
  sbind. iApply (swp_put_char with "Hk"); [done|lia|]. iIntros "Hk".
  sbind. iApply (swp_put_if with "Hk"); [by rewrite (zlen_app _ [58])|lia|]. iIntros "Hk". fold tab.
  rw -Htab -Hf9. replace (m - 1 - zlen tab) with (m - zlen ([58] ++ tab)) by (autorewrite with zlen; lia).
  rw -(app_assoc _ [58]). sbind. iApply (swp_advance_room b k ((w ++ indent (S depth)) ++ quoted s) ([58] ++ tab) m with "Hk Hh").
  { autorewrite with zlen. lia. }
  { autorewrite with zlen. lia. }
  iIntros "Hout". sbind. replace (Z.of_nat depth + 1) with (Z.of_nat (S depth)) by lia.
  iApply (Hprint with "Ht Hout"); [done|done|lia|autorewrite with zlen; lia|]. iIntros (r2) "Ht Hr". sbind.
  iApply (swp_take_update with "Hr"); [by eapply Hstring|autorewrite with zlen; lia|]. iIntros "Hst". sbind.
  iApply (swp_fields with "Ht"). iIntros (c (Hnx & _)) "Ht". unfold has_next. rw Hnx.
  rw Hf9.  iApply (swp_member_end with "Hst"); [autorewrite with zlen; lia|].
  iDestruct ("HQ" with "Ht") as "HQ". rw -!app_assoc. iExact "HQ".
Qed.

Abbreviation comma_line := (if f then [44; 10] else [44]).

Lemma swp_object_loop l texts n ch pv la b w (Q : bool -> hprop) :
  (List.length l < n)%nat -> l <> [] -> Forall K l -> Forall (fun t => printable_data (data_of t)) l ->
  all_some member_text l = Some texts -> short texts ->
  zlen w + zlen (joined comma_line texts) + 64 <= 1073741824 ->
  segment l ch pv None la -∗ out_at (Some b) w -∗
  (∀ ok : bool, segment l ch pv None la -∗
     (if ok then out_at (Some b) (w ++ joined comma_line texts ++ newline) else failed can_malloc (Some b)) -∗ Q ok) -∗
  swp (loop n (object_body b) ch) Q.
Proof.
  intros Hn Hl Hk Hd Ht Hsh. revert l texts ch pv w Hn Hl Hk Hd Ht Hsh.
  induction n as [|n IH]; intros l texts ch pv w Hn Hl Hk Hd Ht Hsh Hlen; [lia|].
  destruct l as [|t l]; [done|]. apply Forall_cons in Hk as [Kt Kl]. apply Forall_cons in Hd as [Dt Dl].
  apply all_some_cons in Ht as (s & texts' & -> & Hs & Ht). rewrite zlen_joined_cons in Hlen.
  apply Forall_cons in Hsh as [Hshort Hsh].
  pose proof (zlen_bound s). pose proof (zlen_bound w). pose proof (zlen_bound (joined comma_line texts')). pose proof (zlen_bound comma_line).
  iIntros "(%i & %n' & -> & Ht & Hl) Hout HQ". iApply swp_loop.
  iApply (swp_member with "Ht Hout"); [done|done|done|done|destruct texts'; lia|]. iIntros "Ht".
  iDestruct (segment_next with "Hl") as "([%Hnil %Hcons] & Hl)". iSplit.
  { iIntros "Hr". iApply ("HQ" $! false with "[Ht Hl] Hr"). iExists i, n'. by iFrame. }
  destruct l as [|t' l].
  - rewrite Hnil; [|done]. cbn [bool_decide decide_rel]. destruct texts' as [|]; [|done]. iIntros "Hout".
    destruct n as [|n]; [cbn in Hn; lia|]. iApply swp_loop. sret. iApply ("HQ" $! true with "[Ht Hl] Hout").
    iExists i, n'. rewrite Hnil; [|done]. by iFrame.
  - destruct Hcons as [k ->]; [done|].
    destruct texts' as [|s' texts']; [by apply all_some_cons in Ht as (? & ? & ? & _)|].
    rewrite bool_decide_true; [|by eexists]. iIntros "Hout".
    replace ([44] ++ newline) with comma_line by by destruct f.
    iApply (IH (t' :: l) with "Hl Hout"); [cbn in *; lia|done|done|done|done|done| |].
    { rewrite !zlen_app. lia. }
    iIntros (ok) "Hl Hr". iApply ("HQ" with "[Ht Hl]"); [iExists i, (Some k); by iFrame|].
    destruct ok; [|done]. cbn [joined]. rw -!app_assoc. iExact "Hr".
Qed.

(** What follows the last member. *)
Lemma swp_object_end b w i0 (Q : option ptr -> hprop) :
  zlen w + zlen (indent depth) + 64 <= 1073741824 ->
  out_at (Some b) w -∗
  ((failed can_malloc (Some b) -∗ Q None) ∧
   (∀ k m, room_at k (w ++ (indent depth ++ [125]) ++ [0]) m -∗
      holder (Some b) k (zlen w + zlen (indent depth ++ [125]) + 1 + m) (zlen w) -∗
      Q (Some (k, if f then Z.of_nat depth else i0)))) -∗
  swp (ptr <- ensure can_malloc b (if f then Z.of_nat depth + 1 + 1 else 2) ;;
       match ptr with
       | None => ret None
       | Some q =>
           q <- (if f then put_tabs (Z.of_nat depth + 1 - 1) q else ret q) ;;
           q <- put_char "print_object" q 125 ;;
           store "print_object" q 0 ;;
           b <- get_buffer b ;;
           buf <- access "print_object" (buffer b) ;;
           ret (Some (ptr_add buf (if f then Z.max 0 (Z.of_nat depth + 1 - 1) else i0)))
       end) Q.
Proof.
  iIntros (Hlen) "Hout HQ". pose proof (zlen_bound w). replace (Z.of_nat depth + 1 - 1) with (Z.of_nat depth) by lia.
  pose proof (zlen_indent f depth) as Htabs.
  sbind. iApply (swp_ensure with "Hout"); [destruct f; lia|destruct f; lia|]. iIntros ([q|]) "Hr"; cycle 1.
  { sret. iDestruct "HQ" as "[HQ _]". by iApply "HQ". }
  iDestruct "HQ" as "[_ HQ]". iDestruct "Hr" as "(%k & %m & -> & %Hm & Hk & Hh & _)". cbn [holder].
  iAssert (swp (if f then put_tabs (Z.of_nat depth) (k, zlen w) else ret ((k, zlen w) : ptr))
    (fun q => ⟨q = (k, (zlen w + zlen (indent depth))%Z)⟩ ∗ room_at k (w ++ indent depth) (m - zlen (indent depth))))%I with "[Hk]" as "Htab".
  { rw Htabs. destruct f.
    - iApply (swp_put_tabs with "Hk"); [done|lia|]. iIntros "Hk". by iFrame.
    - sret. rw Z.add_0_r Z.sub_0_r app_nil_r. by iFrame. }
  sbind. iApply (swp_wand with "Htab"). iIntros (q) "[-> Hk]".
  assert (2 <= m - zlen (indent depth)) by (rewrite Htabs; destruct f; lia).
  sbind. iApply (swp_put_char with "Hk"); [by rewrite zlen_app|lia|]. iIntros "Hk".
  sbind. iApply (swp_store with "Hk"); [by rewrite !zlen_app|lia|]. iIntros "Hk".
  sbind. iApply (swp_get_buffer with "Hh"). iIntros "Hh". cbn [buffer]. sbind. iApply swp_access. sret.
  unfold ptr_add; cbn [fst snd]. rewrite Z.max_r; [|lia]. rewrite Z.add_0_l. 
  iApply ("HQ" $! k (m - zlen (indent depth) - 1 - 1) with "[Hk]"); [by rw -!app_assoc|].
  autorewrite with zlen. cbn [holder].
  replace (zlen w + (zlen (indent depth) + (0 + 1)) + 1 + (m - zlen (indent depth) - 1 - 1)) with (zlen w + m) by lia. done.
Qed.

Lemma swp_print_object_buffered kids texts a d nx pv ch vs nm la b w (Q : option ptr -> hprop) :
  (List.length kids < fuel)%nat -> kids <> [] -> Forall K kids -> Forall (fun t => printable_data (data_of t)) kids ->
  all_some member_text kids = Some texts -> short texts ->
  let s := 123 :: newline ++ joined comma_line texts ++ newline ++ indent depth ++ [125] in
  zlen w + zlen s + 64 <= 1073741824 ->
  a ↦ Item (item_of d nx pv ch vs nm) -∗ segment kids ch None None la -∗ out_at (Some b) w -∗
  (∀ r, a ↦ Item (item_of d nx pv ch vs nm) -∗ segment kids ch None None la -∗
     print_result can_malloc (Some b) w s (depth = 0%nat) r -∗ Q r) -∗
  swp (print_object_buffered can_malloc fuel print a (Z.of_nat depth) fmt b) Q.
Proof.
  intros Hf Hk HK HD Ht Hsh s Hlen. unfold s in *. clear s.
  pose proof (zlen_bound w). pose proof (zlen_bound (joined comma_line texts)). autorewrite with zlen in Hlen.
  assert (zlen newline = b2z f) as Hline by by destruct f. pose proof (zlen_bound newline). pose proof (zlen_bound (indent depth)).
  pose proof (zlen_indent f depth) as Htabs.
  assert (0 <= b2z f <= 1) as Hb2 by by destruct f. assert (1 + b2z f = if f then 2 else 1) as Hlen1 by by destruct f.
  iIntros "Ha Hl Hout HQ". unfold print_object_buffered. sbind.
  iDestruct "Hout" as "(%k0 & %m0 & Hk0 & Hb)". iApply (swp_get_buffer with "Hb"). iIntros "Hb". cbn [offset].
  rewrite -Hlen1. sbind. iApply (swp_ensure _ b w with "[Hk0 Hb]"); [lia|lia|iExists k0, m0; by iFrame|]. iIntros ([q|]) "Hr"; cycle 1.
  { sret. iApply ("HQ" $! None with "Ha Hl Hr"). }
  iDestruct "Hr" as "(%k & %m & -> & %Hm & Hk & Hh & _)".
  sbind. iApply (swp_put_char with "Hk"); [done|lia|]. iIntros "Hk".
  sbind. iApply (swp_put_if with "Hk"); [by rewrite zlen_app|lia|]. iIntros "Hk".
  sbind. iApply (swp_store with "Hk"); [by rewrite !zlen_app Hline|lia|]. iIntros "Hk". rw -!app_assoc. rw (app_assoc [123]).
  sbind. iApply (swp_advance_room_0 b k w ([123] ++ newline) m with "Hk Hh"); [autorewrite with zlen; lia..|]. iIntros "Hout".
  sbind. iApply (swp_item with "Ha"). iIntros "Ha". cbn [child item_of]. sbind. rw Hlen1.
  iApply (swp_object_loop kids texts with "Hl Hout"); [done|done|done|done|done|done| |].
  { autorewrite with zlen. lia. }
  iIntros (ok) "Hl Hr". destruct ok; cbn [negb]; cycle 1.
  { sret. iApply ("HQ" $! None with "Ha Hl Hr"). }
  iApply (swp_object_end with "Hr").
  { autorewrite with zlen. lia. }
  iSplit; [iIntros "Hr"; iApply ("HQ" $! None with "Ha Hl Hr")|]. clear k m Hm. iIntros (k m) "Hk Hh".
  iApply ("HQ" $! (Some _) with "Ha Hl"). iExists k, m, (zlen (w ++ ([123] ++ newline) ++ joined comma_line texts ++ newline)).
  replace (w ++ (123 :: newline ++ joined comma_line texts ++ newline ++ indent depth ++ [125]) ++ [0]) with
    (((w ++ [123] ++ newline) ++ joined comma_line texts ++ newline) ++ (indent depth ++ [125]) ++ [0]); cycle 1.
  { do 3 (cbn [app]; rewrite -?app_assoc). done. }
  iFrame "Hk". cbn [holder]. autorewrite with zlen. iSplitL "Hh".
  { iApply (points_to_eq with "Hh"). do 2 f_equal; lia. }
  iPureIntro. split_and!; [lia|lia| |done]. intros [|[-> ->]]; [done|]. by destruct f.
Qed.
End Buffered.
End Lists.
