(* ===== verification/CJsonPrintPlainFacts.v ===== *)
(** The tables in which the printer keeps the texts of the elements, when it has
    no buffer.

    The second part prints arrays and objects through them. *)

From iris.proofmode Require Import proofmode.
From stdpp Require Import gmap.
From S2P Require Import Prelude.
From S2P Require Import CMonad.
From S2P Require Import CString.
From S2P Require Import JsonDouble.
From S2P Require Import JsonHeap.
From S2P Require Import CJson.
From S2P Require Import CJsonPrint.
From S2P Require Import JsonLogic.
From S2P Require Import CJsonFacts.
From S2P Require Import CJsonText.
From S2P Require Import CJsonPrintFacts.

(** A table whose entries from the [i]-th on are its own: the texts [xs], where
    [None] is NULL. *)
Definition table_from (t : nat) (i : Z) (xs : list (option (list Z))) : hprop :=
  (∃ es1 es2, ⟨zlen es1 = i⟩ ∗ t ↦ Table (es1 ++ es2) ∗ [∗ list] e;x ∈ es2;xs, text_at e x)%I.

Lemma swp_entry_head t i x xs (Q : option ptr -> hprop) :
  table_from t i (x :: xs) -∗ (∀ e, text_at e x -∗ table_from t (i + 1) xs -∗ Q e) -∗ swp (entry t i) Q.
Proof.
  iIntros "(%es1 & %es2 & <- & Ht & Hl) HQ". destruct es2 as [|e es2]; [done|]. cbn [big_sepL2].
  iDestruct "Hl" as "[He Hl]". iApply (swp_entry with "Ht"); [by rewrite zget_app_r // Z.sub_diag|].
  iIntros "Ht". iApply ("HQ" with "He"). iExists (es1 ++ [e]), es2. rw -app_assoc. iFrame. iPureIntro.
  by autorewrite with zlen.
Qed.

Lemma zset_middle {A} (a z : list A) x y : zset (a ++ x :: z) (zlen a) y = Some (a ++ y :: z).
Proof.
  unfold zset. pose proof (zlen_nonneg a). pose proof (zlen_nonneg z).
  rewrite (proj2 (Z.leb_le 0 (zlen a))); [|lia]. rewrite (proj2 (Z.ltb_lt _ _)); [|autorewrite with zlen; lia]. cbn [andb].
  unfold zlen. rewrite Nat2Z.id. f_equal. by rewrite -[X in <[X:=_]> _](Nat.add_0_r (List.length a)) insert_app_r.
Qed.

(** An entry is set to a text, which may be used before the table takes it. *)
Lemma swp_set_entry_at t (xs1 xs2 : list (option (list Z))) r i (Q : unit -> hprop) :
  i = zlen xs1 ->
  table_from t 0 (xs1 ++ None :: xs2) -∗
  ((∀ x, text_at r x -∗ table_from t 0 (xs1 ++ x :: xs2)) -∗ Q tt) -∗
  swp (set_entry t i r) Q.
Proof.
  iIntros (->) "(%es & %es2 & %Hes & Ht & Hl) HQ". destruct es as [|e es]; [|rewrite zlen_cons in Hes; pose proof (zlen_nonneg es); lia].
  cbn [app]. iDestruct (big_sepL2_app_inv_r with "Hl") as (e1 e2 ->) "[H1 H2]". destruct e2 as [|e e2]; [done|]. cbn [big_sepL2].
  iDestruct "H2" as "[He H2]". destruct e; [iDestruct "He" as %[]|]. iDestruct (big_sepL2_length with "H1") as %Hlen.
  iApply (swp_set_entry with "Ht"). { rewrite /zlen -Hlen. apply zset_middle. }
  iIntros "Ht". iApply "HQ". iIntros (x) "Hr". iExists [], (e1 ++ r :: e2). iSplit; [done|]. iFrame "Ht". iApply (big_sepL2_app with "H1"). cbn. by iFrame.
Qed.

Lemma swp_malloc_table can_malloc n (Q : option nat -> hprop) :
  (∀ r, match r with
        | Some t => table_from t 0 (replicate n None)
        | None => ⟨out_of_memory can_malloc⟩
        end -∗ Q r) ⊢ swp (malloc_table can_malloc (Z.of_nat n)) Q.
Proof.
  iIntros "HQ". iApply swp_allocate. iIntros ([t|]) "Hr"; iApply "HQ".
  - rewrite Nat2Z.id. iExists [], (replicate n None). iSplit; [done|]. iFrame "Hr".
    iInduction n as [|n] "IH"; cbn [replicate big_sepL2]; [done|]. by iSplit.
  - iDestruct "Hr" as %(f & h & H). iPureIntro. by exists f, h, (Z.of_nat n * 8).
Qed.

Lemma swp_free_table_from t i (Q : unit -> hprop) : table_from t i [] -∗ Q tt -∗ swp (free_table t) Q.
Proof.
  iIntros "(%es1 & %es2 & _ & Ht & Hl) HQ". iDestruct (big_sepL2_nil_inv_r with "Hl") as %->. iApply (swp_free_table with "Ht HQ").
Qed.

Lemma swp_free_new_table t i n (Q : unit -> hprop) : table_from t i (replicate n None) -∗ Q tt -∗ swp (free_table t) Q.
Proof.
  iIntros "(%es1 & %es2 & _ & Ht & Hl) HQ".
  iAssert emp%I with "[Hl]" as "_"; [|iApply (swp_free_table with "Ht HQ")].
  iInduction n as [|n] "IH" forall (es2); destruct es2 as [|e es2]; try done. cbn [replicate big_sepL2].
  iDestruct "Hl" as "[He Hl]". destruct e; [iDestruct "He" as %[]|]. by iApply "IH".
Qed.

Lemma swp_free_entry t i x xs (Q : unit -> hprop) :
  table_from t i (x :: xs) -∗ (table_from t (i + 1) xs -∗ Q tt) -∗ swp (free_entry t i) Q.
Proof.
  iIntros "Ht HQ". sbind. iApply (swp_entry_head with "Ht"). iIntros (e) "He Ht".
  iApply (swp_free_text false with "He"). by iApply "HQ".
Qed.

Abbreviation tables := (list (nat * list (option (list Z)))).

Lemma swp_free_row (l : tables) i k (Q : unit -> hprop) :
  Forall (fun tx => List.length tx.2 = S k) l ->
  ([∗ list] tx ∈ l, table_from tx.1 i tx.2) -∗
  (∀ l', ⟨l'.*1 = l.*1⟩ -∗ ⟨Forall (fun tx => List.length tx.2 = k) l'⟩ -∗ ([∗ list] tx ∈ l', table_from tx.1 (i + 1) tx.2) -∗ Q tt) -∗
  swp (foldr (fun t k => free_entry t i ;; k) (ret tt) (l.*1)) Q.
Proof.
  revert Q. induction l as [|[t xs] l IH]; intros Q Hl; iIntros "Hl HQ"; cbn [fmap list_fmap foldr].
  - sret. by iApply ("HQ" $! []).
  - apply Forall_cons in Hl as [Hx Hl]. destruct xs as [|x xs]; [done|]. injection Hx as Hx. cbn [big_opL fst snd].
    iDestruct "Hl" as "[Ht Hl]". sbind. iApply (swp_free_entry with "Ht"). iIntros "Ht".
    iApply (IH with "Hl"); [done|]. iIntros (l') "%Hl1 %Hl2 Hl". iApply ("HQ" $! ((t, xs) :: l')).
    + iPureIntro. cbn. by f_equal.
    + iPureIntro. by constructor.
    + cbn. iFrame.
Qed.

Lemma swp_free_entries_loop (l : tables) k n i (Q : unit -> hprop) :
  Forall (fun tx => List.length tx.2 = k) l -> n = i + Z.of_nat k ->
  ([∗ list] tx ∈ l, table_from tx.1 i tx.2) -∗
  (([∗ list] t ∈ l.*1, table_from t n []) -∗ Q tt) -∗
  swp (loop (S k) (fun i =>
    if i <? n then
      foldr (fun t k => free_entry t i ;; k) (ret tt) (l.*1) ;;
      ret (inl (i + 1))
    else ret (inr tt)) i) Q.
Proof.
  revert l i. induction k as [|k IH]; intros l i Hl Hn; iIntros "Hl HQ"; iApply swp_loop.
  - rewrite (proj2 (Z.ltb_ge _ _)); [|lia]. sret. iApply "HQ". clear -Hl Hn. replace n with i by lia.
    iInduction Hl as [|[t xs] l Hx] "IH"; [done|]. destruct xs; [|done]. cbn. iDestruct "Hl" as "[$ Hl]". by iApply "IH".
  - rewrite (proj2 (Z.ltb_lt _ _)); [|lia]. sbind. iApply (swp_free_row with "Hl"); [done|].
    iIntros (l') "%Hl1 %Hl2 Hl". sret. rewrite -Hl1. iApply (IH with "Hl"); [done|lia|done].
Qed.

Lemma swp_free_entries (l : tables) k (Q : unit -> hprop) :
  Forall (fun tx => List.length tx.2 = k) l ->
  ([∗ list] tx ∈ l, table_from tx.1 0 tx.2) -∗
  (([∗ list] t ∈ l.*1, table_from t (Z.of_nat k) []) -∗ Q tt) -∗
  swp (free_entries (l.*1) (Z.of_nat k)) Q.
Proof. intros Hl. unfold free_entries. rewrite Nat2Z.id. by apply swp_free_entries_loop. Qed.

(** memcpy of a string without its terminator. *)
Lemma swp_append k w m off q x (Q : ptr -> hprop) :
  zlen w = off -> zlen x <= m ->
  room_at k w m -∗ str_at q x -∗ (room_at k (w ++ x) (m - zlen x) -∗ str_at q x -∗ Q (k, off + zlen x)) -∗
  swp (append (k, off) (Some q)) Q.
Proof.
  iIntros (Hw Hm) "Hk Hq HQ". sbind. iApply swp_access. sbind. iApply (swp_strlen with "Hq"). iIntros "Hq".
  sbind. sbind. iApply (swp_chars_str with "Hq"). iIntros (r Hx) "Hq". pose proof (zlen_nonneg x). pose proof (zlen_nonneg r).
  rewrite (proj2 (Z.leb_le 0 (zlen x))); [|lia]. rewrite (proj2 (Z.leb_le _ _)); [|autorewrite with zlen; lia]. cbn [andb].
  replace (take _ _) with (map Some x); cycle 1.
  { rewrite map_app -app_assoc. unfold zlen. by rewrite Nat2Z.id -(length_map Some x) take_app_length. }
  iApply (swp_store_text with "Hk"); [done|done|]. iIntros "Hk". sret. iApply ("HQ" with "Hk Hq").
Qed.

(** What the printer makes of arrays and objects without a buffer: the texts of
    the elements are collected in tables and put together in a block whose
    length was added up before. *)

Section Plain.
Context (can_malloc : allocator -> list Z -> Z -> bool) (fuel : nat).
Context (print : option nat -> Z -> Z -> option nat -> M memory (option ptr)) (fmt : Z) (depth : nat) (K : tree -> Prop).
Hypothesis Hprint : prints can_malloc fuel print fmt (S depth) K.
Hypothesis Hstring : forall t s, K t -> render (negb (fmt =? 0)) (S depth) t = Some s -> c_string s.
Abbreviation oom := (out_of_memory can_malloc).
Abbreviation f := (negb (fmt =? 0)).
Abbreviation comma := (if f then [44; 32] else [44]).
Abbreviation short := (Forall (fun s : list Z => (List.length s < fuel)%nat)).

(** A string of its own, or NULL. *)
Lemma own_string s top r :
  c_string s -> print_result can_malloc None [] s top r ⊢
  match r with Some q => str_at q s | None => ⟨oom⟩ end.
Proof.
  intros Hs. destruct r as [q|]; cbn [print_result failed dead].
  - iIntros "(%k & %m & %off & Hk & _ & _ & %Hq & _)". iExists k, m. rewrite Hq; [|by left]. by iFrame.
  - by iIntros "[% _]".
Qed.

(** What the elements add to the length. *)
Definition cost (extra : Z) (texts : list (list Z)) : Z := foldr (fun x n => zlen x + extra + n) 0 texts.

Lemma cost_nonneg extra texts : 0 <= extra -> 0 <= cost extra texts.
Proof. intros He. induction texts as [|x l IH]; cbn [cost foldr]; [done|]. pose proof (zlen_bound x). unfold cost in IH. lia. Qed.

Lemma cost_joined sep extra texts :
  0 <= extra <= 2 * zlen sep ->
  cost extra texts <= 2 * (zlen (joined sep texts) + zlen sep).
Proof.
  intros He. induction texts as [|x l IH]; [cbn; change (@zlen Z []) with 0; lia|]. rewrite zlen_joined_cons. cbn [cost foldr].
  fold (cost extra l). pose proof (zlen_bound x). destruct l; [cbn in *; lia|]. lia.
Qed.

Lemma joined_cost sep extra texts : zlen sep <= extra -> zlen (joined sep texts) <= cost extra texts.
Proof.
  intros He. pose proof (zlen_bound sep). induction texts as [|x l IH]; [done|]. rewrite zlen_joined_cons. cbn [cost foldr].
  fold (cost extra l). destruct l; [|lia]. change (cost extra []) with 0. lia.
Qed.

(** ** Arrays *)

Definition collect_body (t : nat) : option nat * Z * Z * bool -> M memory (option nat * Z * Z * bool + Z * bool) :=
  fun '(child, i, len, fail) =>
        match child with
        | Some c =>
            if fail : bool then ret (inr (len, fail)) else
            r <- print child (Z.of_nat depth + 1) fmt None ;;
            set_entry t i r ;;
            let* (len, fail) :=
              match r with
              | Some q => n <- strlen q ;; ret (s32 (len + (n + 2 + b2z f)), false)
              | None => ret (len, true)
              end in
            it <- item c ;;
            ret (inl (next it, i + 1, len, fail))
        | None => ret (inr (len, fail))
        end.

Definition collected (t : nat) (xs1 : list (option (list Z))) (texts : list (list Z)) (n len len' : Z) (fail : bool) : hprop :=
  (if fail then ⟨oom⟩ ∗ ∃ xs, ⟨zlen xs = (zlen xs1 + zlen texts)%Z⟩ ∗ table_from t 0 xs
   else ⟨len' = (len + n)%Z⟩ ∗ table_from t 0 (xs1 ++ map Some texts))%I.

Lemma collected_more t xs1 s texts extra len len1 len' fail :
  len1 = len + (zlen s + extra) ->
  collected t (xs1 ++ [Some s]) texts (cost extra texts) len1 len' fail ⊢
  collected t xs1 (s :: texts) (cost extra (s :: texts)) len len' fail.
Proof.
  intros ->. cbn [cost foldr]. fold (cost extra texts). destruct fail; cbn [collected].
  - iIntros "[$ (%xs & %Hxs & Ht)]". iExists xs. iFrame. iPureIntro. autorewrite with zlen in *. lia.
  - iIntros "[-> Ht]". rw -app_assoc. iFrame. iPureIntro. lia.
Qed.

Lemma all_some_length {A B} (g : A -> option B) l ys : all_some g l = Some ys -> List.length l = List.length ys.
Proof.
  revert ys. induction l as [|x l IH]; intros ys H; [by injection H as <-|].
  apply all_some_cons in H as (y & ys' & -> & _ & H). cbn. by rewrite (IH _ H).
Qed.

Lemma swp_collect l texts xs1 n ch pv la t len (Q : Z * bool -> hprop) :
  (List.length l < n)%nat -> Forall K l -> all_some (render f (S depth)) l = Some texts -> short texts ->
  zlen (joined comma texts) + 64 <= 1073741824 -> 0 <= len ->
  len + cost (2 + b2z f) texts < 2147483648 ->
  segment l ch pv None la -∗ table_from t 0 (xs1 ++ replicate (List.length l) None) -∗
  (∀ len' fail, segment l ch pv None la -∗ collected t xs1 texts (cost (2 + b2z f) texts) len len' fail -∗ Q (len', fail)) -∗
  swp (loop n (collect_body t) (ch, zlen xs1, len, false)) Q.
Proof.
  assert (0 <= b2z f <= 1) as Hb by by destruct f.
  revert l texts xs1 ch pv len. induction n as [|n IH]; intros l texts xs1 ch pv len Hn Hk Ht Hsh Hlen Hpos Hcost; [lia|].
  iIntros "Hl Ht HQ". iApply swp_loop. destruct l as [|e l]; cbn [segment_of].
  { iDestruct "Hl" as "[-> ->]". injection Ht as <-. sret. iApply "HQ"; [done|]. iSplit; [cbn; iPureIntro; lia|]. done. }
  apply Forall_cons in Hk as [Kt Kl]. apply all_some_cons in Ht as (s & texts' & -> & Hs & Ht).
  apply Forall_cons in Hsh as [Hshort Hsh]. rewrite zlen_joined_cons in Hlen.
  cbn [cost foldr] in Hcost. fold (cost (2 + b2z f) texts') in Hcost. pose proof (cost_nonneg (2 + b2z f) texts').
  pose proof (zlen_bound s). pose proof (zlen_bound (joined comma texts')). pose proof (zlen_bound comma).
  assert (zlen s + 64 <= 1073741824 /\ zlen (joined comma texts') + 64 <= 1073741824) as [Hl1 Hl2].
  { destruct texts'; [change (joined comma []) with (@nil Z); change (@zlen Z []) with 0|]; lia. }
  iDestruct "Hl" as "(%i & %nx & -> & He & Hl)". sbind. replace (Z.of_nat depth + 1) with (Z.of_nat (S depth)) by lia.
  iApply (Hprint e s i nx pv None [] with "He"); [done|done|done|done|done|].
  iIntros (r) "He Hr". iDestruct (own_string with "Hr") as "Hr"; [by eapply Hstring|]. sbind. cbn [List.length replicate].
  iApply (swp_set_entry_at with "Ht"); [done|]. iIntros "Htake". 
  assert (zlen (xs1 ++ [Some s]) = zlen xs1 + 1) as Hz by by autorewrite with zlen.
  destruct r as [q|].
  - sbind. sbind. iApply (swp_strlen with "Hr"). iIntros "Hr". sret. sbind.
    iApply (swp_fields with "He"). iIntros (c (Hnx & _)) "He". sret. rw Hnx. rewrite s32_small; [|lia].
    iDestruct ("Htake" $! (Some s) with "Hr") as "Ht". rw -Hz (app_assoc xs1 [Some s]).
    iApply (IH l texts' (xs1 ++ [Some s]) with "Hl Ht"); [cbn in *; lia|done|done|done|done|lia|lia|].
    iIntros (len' fail) "Hl Hc". iApply ("HQ" with "[He Hl]"); [iExists i, nx; by iFrame|].
    iApply (collected_more with "Hc"). lia.
  - sbind. sret. sbind. iApply (swp_fields with "He"). iIntros (c (Hnx & _)) "He". sret. rw Hnx.
    iDestruct "Hr" as %Hoom. iDestruct ("Htake" $! None with "[//]") as "Ht".
    iAssert (segment (e :: l) (Some i) pv None la) with "[He Hl]" as "Hl"; [iExists i, nx; by iFrame|].
    iSpecialize ("HQ" $! len true with "Hl [Ht]").
    { iSplit; [done|]. iExists _. iFrame "Ht". iPureIntro. autorewrite with zlen. rewrite (all_some_length _ _ _ Ht). by unfold zlen. }
    destruct n as [|n]; [cbn in Hn; lia|]. iApply swp_loop. destruct nx; sret; iExact "HQ".
Qed.

Definition put_array_body (t : nat) (numentries : Z) : Z * ptr -> M memory (Z * ptr + Z * ptr) := fun '(i, ptr) =>
            if i <? numentries then
              e <- entry t i ;;
              ptr <- append ptr e ;;
              ptr <- (if negb (i =? numentries - 1) then
                        ptr <- put_char "print_array" ptr 44 ;;
                        ptr <- put_if (negb (fmt =? 0)) 32 ptr ;;
                        store "print_array" ptr 0 ;;
                        ret ptr
                      else ret ptr) ;;
              free e ;;
              ret (inl (i + 1, ptr))
            else ret (inr (i, ptr)).

(** The separator, if there is another element. *)
Lemma swp_put_comma (more : bool) k w m off (Q : ptr -> hprop) :
  zlen w = off -> (if more then zlen comma + 1 <= m else 0 <= m) ->
  room_at k w m -∗
  (room_at k (w ++ (if more then comma else [])) (m - zlen (if more then comma else [])) -∗
     Q (k, zlen (w ++ (if more then comma else [])))) -∗
  swp (if more then
         ptr <- put_char "print_array" (k, off) 44 ;;
         ptr <- put_if (negb (fmt =? 0)) 32 ptr ;;
         store "print_array" ptr 0 ;;
         ret ptr
       else ret (k, off)) Q.
Proof.
  assert (zlen comma = 1 + b2z f) as Hc by by destruct f. assert (0 <= b2z f <= 1) as Hb by by destruct f.
  iIntros (<- Hm) "Hk HQ". destruct more; cycle 1.
  { sret. rw app_nil_r. change (@zlen Z []) with 0. rw Z.sub_0_r. by iApply "HQ". }
  sbind. iApply (swp_put_char with "Hk"); [done|lia|]. iIntros "Hk".
  sbind. iApply (swp_put_if with "Hk"); [by autorewrite with zlen|lia|]. iIntros "Hk".
  rw -app_assoc. replace ([44] ++ (if f then [32] else [])) with comma by by destruct f.
  sbind. iApply (swp_store with "Hk"); [rewrite zlen_app Hc; lia|lia|]. iIntros "Hk".
  iDestruct (room_at_forget with "Hk") as "Hk". change (zlen [0]) with 1. sret.
  rw zlen_app Hc. replace (1 + (m - 1 - b2z f - 1)) with (m - (1 + b2z f)) by lia.
  replace (zlen w + 1 + b2z f) with (zlen w + (1 + b2z f)) by lia. by iApply "HQ".
Qed.

Lemma swp_put_array xs i n t k w m off (Q : Z * ptr -> hprop) :
  zlen w = off -> n = i + zlen xs -> zlen (joined comma xs) + 1 <= m ->
  table_from t i (map Some xs) -∗ room_at k w m -∗
  (table_from t n [] -∗ room_at k (w ++ joined comma xs) (m - zlen (joined comma xs)) -∗
     Q (n, (k, zlen (w ++ joined comma xs)))) -∗
  swp (loop (S (List.length xs)) (put_array_body t n) (i, (k, off))) Q.
Proof.
  revert i w m off. induction xs as [|x xs IH]; intros i w m off <- Hn Hm; iIntros "Ht Hk HQ"; iApply swp_loop; unfold put_array_body at 1.
  - change (@zlen (list Z) []) with 0 in Hn. rewrite (proj2 (Z.ltb_ge _ _)); [|lia]. sret. change (joined comma []) with (@nil Z) in *.
    change (@zlen Z []) with 0. rw app_nil_r Z.sub_0_r. replace n with i by lia. iApply ("HQ" with "Ht Hk").
  - rewrite zlen_cons in Hn. pose proof (zlen_nonneg xs). rewrite zlen_joined_cons in Hm. pose proof (zlen_bound x).
    pose proof (zlen_bound (joined comma xs)). pose proof (zlen_bound comma).
    rewrite (proj2 (Z.ltb_lt _ _)); [|lia]. sbind. iApply (swp_entry_head with "Ht"). iIntros (e) "He Ht".
    destruct e as [q|]; cbn [text_at]; [|iDestruct "He" as %[]]. sbind.
    iApply (swp_append with "Hk He"); [done|destruct xs; lia|]. iIntros "Hk He". sbind.
    set (sep := match xs with [] => [] | _ => comma end).
    assert (joined comma (x :: xs) = x ++ sep ++ joined comma xs) as E by (unfold sep; destruct xs; [by cbn; rewrite app_nil_r|done]).
    assert ((if negb (i =? n - 1) then comma else []) = sep) as Esep.
    { unfold sep. destruct (Z.eqb_spec i (n - 1)); cbn [negb]; destruct xs as [|x' xs]; try done; autorewrite with zlen in Hn; [pose proof (zlen_nonneg xs)|]; lia. }
    assert (zlen sep + zlen (joined comma xs) + 1 <= m - zlen x) as Hm'.
    { unfold sep. destruct xs; [change (@zlen Z []) with 0; change (joined comma []) with (@nil Z); change (@zlen Z []) with 0|]; lia. }
    iApply (swp_put_comma with "Hk"); [by rewrite zlen_app| |].
    { rewrite -Esep in Hm'. destruct (negb (i =? n - 1)); [lia|]. change (@zlen Z []) with 0 in Hm'. lia. }
    rw Esep. iIntros "Hk". sbind. iApply (swp_free_string with "He"). sret.
    iApply (IH with "Ht Hk"); [done|lia|lia|]. iIntros "Ht Hk".
    rewrite E. rw -!app_assoc. iApply ("HQ" with "Ht"). autorewrite with zlen.
    by replace (m - (zlen x + (zlen sep + zlen (joined comma xs)))) with (m - zlen x - zlen sep - zlen (joined comma xs)) by lia.
Qed.

Lemma own_text k w s m top : w = s ++ [0] -> room_at k w m ⊢ printed None [] s top (k, 0).
Proof. iIntros (->) "Hk". iApply (print_done None [] s top k m with "Hk"); done. Qed.

(** Everything that was collected is given back. *)
Lemma swp_collect_failed t xs n (Q : option ptr -> hprop) :
  zlen xs = zlen n -> table_from t 0 xs -∗ Q None -∗
  swp (free_entries [t] (zlen (A:=tree) n) ;; free_table t ;; ret None) Q.
Proof.
  iIntros (Hxs) "Ht HQ". sbind. unfold zlen in *. 
  iApply (swp_free_entries [(t, xs)] (List.length n) with "[Ht]"); [repeat constructor; cbn; lia|by cbn; iFrame|].
  cbn. iIntros "[Ht _]". sbind. iApply (swp_free_table_from with "Ht"). by sret.
Qed.

Lemma swp_print_array_plain kids texts a d nx pv ch vs nm la (Q : option ptr -> hprop) :
  (List.length kids < fuel)%nat -> kids <> [] -> Forall K kids -> all_some (render f (S depth)) kids = Some texts -> short texts ->
  zlen (joined comma texts) + 66 <= 1073741824 ->
  a ↦ Item (item_of d nx pv ch vs nm) -∗ segment kids ch None None la -∗
  (∀ r, a ↦ Item (item_of d nx pv ch vs nm) -∗ segment kids ch None None la -∗
     print_result can_malloc None [] (91 :: joined comma texts ++ [93]) (depth = 0%nat) r -∗ Q r) -∗
  swp (print_array_plain can_malloc fuel print a (Z.of_nat depth) fmt (zlen kids)) Q.
Proof.
  intros Hf Hk HK Ht Hsh Hlen. pose proof (zlen_bound (joined comma texts)).
  assert (zlen comma = 1 + b2z f) as Hc by by destruct f. assert (0 <= b2z f <= 1) as Hb by by destruct f.
  pose proof (cost_joined comma (2 + b2z f) texts ltac:(lia)) as Hmax.
  pose proof (joined_cost comma (2 + b2z f) texts ltac:(lia)) as Hmin.
  iIntros "Ha Hl HQ". unfold print_array_plain. sbind. unfold zlen at 1. iApply swp_malloc_table. iIntros ([t|]) "Hr"; cycle 1.
  { sret. iApply ("HQ" $! None with "Ha Hl"). by iFrame. }
  sbind. iApply (swp_item with "Ha"). iIntros "Ha". cbn [child item_of]. sbind.
  iApply (swp_collect kids texts [] with "Hl Hr"); [done|done|done|done|lia|done|lia|].
  iIntros (len fail) "Hl Hc". destruct fail; cbn [collected].
  { iDestruct "Hc" as "[%Hoom (%xs & %Hxs & Ht)]". sbind. sret.
    iApply (swp_collect_failed with "Ht"); [rewrite Hxs /zlen (all_some_length _ _ _ Ht); done|].
    iApply ("HQ" $! None with "Ha Hl"). by iFrame. }
  iDestruct "Hc" as "[-> Ht]". sbind. rewrite size_t_small; [|lia]. iApply swp_malloc; [lia|]. iIntros ([q|]) "Hr"; cycle 1.
  { iDestruct "Hr" as %Hoom. iApply (swp_collect_failed with "Ht"); [by rewrite /zlen length_map (all_some_length _ _ _ Ht)|].
    iApply ("HQ" $! None with "Ha Hl"). by iFrame. }
  iDestruct "Hr" as "(%k & -> & Hk)". sbind. iApply (swp_put_char with "Hk"); [done|lia|]. iIntros "Hk".
  sbind. iApply (swp_store with "Hk"); [done|lia|]. iIntros "Hk". iDestruct (room_at_forget with "Hk") as "Hk". sbind.
  assert (zlen kids = 0 + zlen texts) as Hn by (rewrite /zlen (all_some_length _ _ _ Ht); lia).
  replace (Z.to_nat (zlen kids)) with (List.length texts) by (rewrite /zlen (all_some_length _ _ _ Ht); lia).
  iApply (swp_put_array with "Ht Hk"); [done|done|change (zlen [0]) with 1; lia|]. iIntros "Ht Hk".
  sbind. iApply (swp_free_table_from with "Ht").
  sbind. iApply (swp_put_char with "Hk"); [done|change (zlen [0]) with 1; lia|]. iIntros "Hk".
  sbind. iApply (swp_put_char with "Hk"); [by rewrite zlen_app|change (zlen [0]) with 1; lia|]. iIntros "Hk". sret.
  iApply ("HQ" $! (Some _) with "Ha Hl"). 
  iApply (own_text with "Hk"). cbn [app]. by rewrite -app_assoc.
Qed.

(** ** Objects *)

Abbreviation indent n := (if f then tabs n else []).
Abbreviation newline := (if f then [10] else []).
Abbreviation comma_line := (if f then [44; 10] else [44]).
Abbreviation depth1 := (Z.of_nat depth + 1).

(** The two texts of a member, and what they become. *)
Definition member_parts (t : tree) : option (list Z * list Z) :=
  match d_name (data_of t), render f (S depth) t with
  | Some s, Some v => Some (quoted s, v)
  | _, _ => None
  end.
Definition put_together (m : list Z * list Z) : list Z :=
  indent (S depth) ++ m.1 ++ [58] ++ (if f then [9] else []) ++ m.2.

Definition member_extra : Z := 2 + (if f then 2 + depth1 else 0).
Definition members_cost (ms : list (list Z * list Z)) : Z := foldr (fun m n => zlen m.2 + zlen m.1 + member_extra + n) 0 ms.

Lemma member_extra_nonneg : 0 <= member_extra.
Proof. unfold member_extra. destruct f; lia. Qed.

Lemma members_cost_nonneg ms : 0 <= members_cost ms.
Proof.
  pose proof member_extra_nonneg. induction ms as [|m ms IH]; cbn [members_cost foldr]; [done|].
  unfold members_cost in IH. pose proof (zlen_bound m.1). pose proof (zlen_bound m.2). lia.
Qed.

Lemma zlen_put_together m : zlen (put_together m) + zlen comma_line = zlen m.2 + zlen m.1 + member_extra.
Proof.
  unfold put_together, member_extra. autorewrite with zlen. destruct f; autorewrite with zlen; [|lia].
  unfold tabs. rewrite zlen_replicate. lia.
Qed.

Lemma members_cost_joined m ms :
  members_cost (m :: ms) = zlen (joined comma_line (map put_together (m :: ms))) + zlen comma_line.
Proof.
  revert m. induction ms as [|m' ms IH]; intros m; cbn [map app]; rewrite zlen_joined_cons; unfold members_cost; cbn [foldr].
  - rewrite Z.add_0_r -zlen_put_together. lia.
  - fold (members_cost (m' :: ms)). change (zlen m'.2 + zlen m'.1 + member_extra + foldr _ 0 ms) with (members_cost (m' :: ms)).
    rewrite IH -zlen_put_together. cbn [map app]. lia.
Qed.

Definition collect_members_body (te tn : nat) : option nat * Z * Z * bool -> M memory (option nat * Z * Z * bool + Z * bool) :=
  fun '(child, i, len, fail) =>
        match child with
        | Some c =>
            it <- item c ;;
            str <- print_string_ptr can_malloc fuel (name it) None ;;
            set_entry tn i str ;;
            r <- print child depth1 fmt None ;;
            set_entry te i r ;;
            let* (len, fail) :=
              match str, r with
              | Some qs, Some qr =>
                  nr <- strlen qr ;;
                  ns <- strlen qs ;;
                  ret (s32 (len + (nr + ns + 2 + (if f then 2 + depth1 else 0))), fail)
              | _, _ => ret (len, true)
              end in
            it <- item c ;;
            ret (inl (next it, i + 1, len, fail))
        | None => ret (inr (len, fail))
        end.

Definition members_collected (te tn : nat) (xe xn : list (option (list Z))) (ms : list (list Z * list Z)) (len len' : Z) (fail fail' : bool) : hprop :=
  (if fail' then ⟨oom⟩ ∗ ∃ ye yn, ⟨zlen ye = (zlen xe + zlen ms)%Z /\ zlen yn = (zlen xn + zlen ms)%Z⟩ ∗ table_from te 0 ye ∗ table_from tn 0 yn
   else ⟨fail = false /\ len' = (len + members_cost ms)%Z⟩ ∗
        table_from te 0 (xe ++ map (fun m => Some m.2) ms) ∗ table_from tn 0 (xn ++ map (fun m => Some m.1) ms))%I.

(** One more member. *)
Lemma members_collected_more te tn xe xn se sn n v ms len len1 len' fail fail1 fail' :
  (fail = true -> fail1 = true) ->
  (fail1 = false -> se = Some v /\ sn = Some n /\ len1 = len + (zlen v + zlen n + member_extra)) ->
  members_collected te tn (xe ++ [se]) (xn ++ [sn]) ms len1 len' fail1 fail' ⊢
  members_collected te tn xe xn ((n, v) :: ms) len len' fail fail'.
Proof.
  intros Hf Hs. unfold members_collected. destruct fail'.
  - iIntros "[$ (%ye & %yn & [%H1 %H2] & He & Hn)]". iExists ye, yn. iFrame. iPureIntro. autorewrite with zlen in *. lia.
  - iIntros "([%Hfail ->] & He & Hn)". destruct (Hs Hfail) as (-> & -> & ->). rw -!app_assoc. iFrame. iPureIntro.
    split; [by destruct fail; [rewrite Hf in Hfail|]|]. cbn [members_cost foldr fst snd]. unfold members_cost. lia.
Qed.

(** The length after a member. *)
Lemma swp_member_length (sq rq : option ptr) n v len fail (Q : Z * bool -> hprop) :
  text_at sq (sq ← sq; Some n)%stdpp -∗ text_at rq (rq ← rq; Some v)%stdpp -∗
  (∀ len1 (fail1 : bool), ⟨fail = true -> fail1 = true⟩ -∗ ⟨fail1 = false -> is_Some sq /\ is_Some rq /\ len1 = s32 (len + (zlen v + zlen n + member_extra))⟩ -∗
     text_at sq (sq ← sq; Some n)%stdpp -∗ text_at rq (rq ← rq; Some v)%stdpp -∗
     ⟨(fail1 = true -> fail = true \/ sq = None \/ rq = None)⟩ -∗ Q (len1, fail1)) -∗
  swp (match sq, rq with
       | Some qs, Some qr =>
           nr <- strlen qr ;;
           ns <- strlen qs ;;
           ret (s32 (len + (nr + ns + 2 + (if f then 2 + depth1 else 0))), fail)
       | _, _ => ret (len, true)
       end) Q.
Proof.
  iIntros "Hs Hr HQ". destruct sq as [qs|]; [|sret; iApply ("HQ" with "[//] [//] Hs Hr"); by auto].
  destruct rq as [qr|]; [|sret; iApply ("HQ" with "[//] [//] Hs Hr"); by auto]. cbn [option_bind mbind].
  sbind. iApply (swp_strlen with "Hr"). iIntros "Hr". sbind. iApply (swp_strlen with "Hs"). iIntros "Hs". sret.
  iApply ("HQ" $! _ fail with "[//] [] Hs Hr"); iPureIntro; [|by auto]. intros _. split; [by eexists|]. split; [by eexists|].
  f_equal. unfold member_extra. lia.
Qed.

(** A string of its own is an entry of a table. *)
Lemma own_entry s top r :
  c_string s -> print_result can_malloc None [] s top r ⊢ text_at r (r ← r; Some s)%stdpp ∗ ⟨r = None -> oom⟩.
Proof.
  intros Hs. rewrite own_string; [|done]. destruct r; cbn [option_bind mbind text_at].
  - iIntros "H". by iFrame.
  - by iIntros "%H".
Qed.

Lemma put_together_short n v k : (List.length (put_together (n, v)) < k)%nat -> (List.length n < k)%nat /\ (List.length v < k)%nat.
Proof. unfold put_together. rewrite !length_app. cbn [fst snd]. lia. Qed.

Lemma put_together_room n v ms :
  zlen (joined comma_line (map put_together ((n, v) :: ms))) + 64 <= 1073741824 ->
  zlen n + 64 <= 1073741824 /\ zlen v + 64 <= 1073741824 /\ zlen (joined comma_line (map put_together ms)) + 64 <= 1073741824.
Proof.
  cbn [map app]. rewrite zlen_joined_cons. intros H. 
  assert (zlen (put_together (n, v)) = zlen (indent (S depth)) + (zlen n + (1 + (zlen (if f then [9] else []) + zlen v)))) as E.
  { unfold put_together. autorewrite with zlen. cbn [fst snd]. lia. }
  pose proof (zlen_bound n). pose proof (zlen_bound v). pose proof (zlen_bound (indent (S depth))). pose proof (zlen_bound (if f then [9] else [])).
  pose proof (zlen_bound (joined comma_line (map put_together ms))). pose proof (zlen_bound comma_line).
  destruct ms; cbn [map app] in *; [change (joined comma_line []) with (@nil Z) in *; change (@zlen Z []) with 0 in *|]; lia.
Qed.

Lemma swp_collect_members l ms xe xn n ch pv la te tn len fail (Q : Z * bool -> hprop) :
  (List.length l < n)%nat -> Forall K l -> Forall (fun t => printable_data (data_of t)) l ->
  all_some member_parts l = Some ms -> Forall (fun m => (List.length (put_together m) < fuel)%nat) ms ->
  zlen xe = zlen xn -> (fail = true -> oom) ->
  zlen (joined comma_line (map put_together ms)) + 64 <= 1073741824 ->
  (fail = false -> 0 <= len /\ len + members_cost ms < 2147483648) ->
  segment l ch pv None la -∗
  table_from te 0 (xe ++ replicate (List.length l) None) -∗ table_from tn 0 (xn ++ replicate (List.length l) None) -∗
  (∀ len' fail', segment l ch pv None la -∗ members_collected te tn xe xn ms len len' fail fail' -∗ Q (len', fail')) -∗
  swp (loop n (collect_members_body te tn) (ch, zlen xe, len, fail)) Q.
Proof.
  revert l ms xe xn ch pv len fail. induction n as [|n IH]; intros l ms xe xn ch pv len fail Hn Hk Hd Ht Hsh Hx Hoom Hlen Hcost; [lia|].
  iIntros "Hl He Hn HQ". iApply swp_loop. destruct l as [|t l]; cbn [segment_of].
  { iDestruct "Hl" as "[-> ->]". injection Ht as <-. sret. iApply "HQ"; [done|]. unfold members_collected. cbn [List.length replicate map app].
    destruct fail; [iSplit; [iPureIntro; by apply Hoom|]; iExists xe, xn; rw !app_nil_r; iFrame; iPureIntro; change (@zlen (list Z * list Z) []) with 0; lia|].
    iFrame. iPureIntro. cbn. split; [done|lia]. }
  apply Forall_cons in Hk as [Kt Kl]. apply Forall_cons in Hd as [Dt Dl].
  apply all_some_cons in Ht as (m & ms' & -> & Hm & Ht). apply Forall_cons in Hsh as [Hshort Hsh].
  unfold member_parts in Hm. destruct (d_name (data_of t)) as [s|] eqn:Hname; [|done]. destruct (render f (S depth) t) as [v|] eqn:Hv; [|done].
  apply Some_inj in Hm. subst m. destruct (put_together_short _ _ _ Hshort) as [Hf1 Hf2].
  destruct (put_together_room (quoted s) v ms' Hlen) as (Hl1 & Hl2 & Hl3).
  iDestruct "Hl" as "(%i & %nx & -> & Ht & Hl)". cbn [List.length replicate].
  iApply (swp_print_name can_malloc fuel t i nx pv s None [] True with "Ht [//]"); [done|done|done|change (@zlen Z []) with 0; lia|].
  iIntros (it sq) "Ht Hs". iDestruct (own_entry with "Hs") as "[Hs %Hs]".
  { apply is_text_string, quoted_text. destruct Dt as (_ & _ & Hn' & _). by rewrite Hname in Hn'. }
  sbind. iApply (swp_set_entry_at with "Hn"); [done|]. iIntros "Htn". sbind. replace depth1 with (Z.of_nat (S depth)) by lia.
  iApply (Hprint t v i nx pv None [] with "Ht"); [done|done|done|change (@zlen Z []) with 0; lia|done|].
  iIntros (rq) "Ht Hr". iDestruct (own_entry with "Hr") as "[Hr %Hr]"; [by eapply Hstring|]. replace (Z.of_nat (S depth)) with depth1 by lia.
  sbind. iApply (swp_set_entry_at with "He"); [done|]. iIntros "Hte". sbind.
  iApply (swp_member_length sq rq (quoted s) v len fail with "Hs Hr").
  iIntros (len1 fail1) "%Hfail %Hlen1 Hs Hr %Hwhy". sbind. iApply (swp_fields with "Ht"). iIntros (c (Hnx & _)) "Ht". sret. rw Hnx.
  iDestruct ("Htn" with "Hs") as "Hn". iDestruct ("Hte" with "Hr") as "He".
  set (se := (rq ← rq; Some v)%stdpp). set (sn := (sq ← sq; Some (quoted s))%stdpp).
  assert (fail1 = false -> se = Some v /\ sn = Some (quoted s) /\ len1 = len + (zlen v + zlen (quoted s) + member_extra) /\
    0 <= len1 /\ len1 + members_cost ms' < 2147483648) as Hsum.
  { intros E. destruct (Hlen1 E) as ([p ->] & [p' ->] & ->). destruct fail; [by rewrite Hfail in E|].
    pose proof member_extra_nonneg. pose proof (zlen_bound v). pose proof (zlen_bound (quoted s)). pose proof (members_cost_nonneg ms').
    destruct Hcost as [Hc0 Hc]; [done|]. cbn [members_cost foldr fst snd] in Hc. fold (members_cost ms') in Hc.
    rewrite s32_small; [|lia]. split_and!; [done|done|done|lia|lia]. }
  replace (zlen xe + 1) with (zlen (xe ++ [se])) by by autorewrite with zlen. rw (app_assoc xe [se]) (app_assoc xn [sn]).
  iApply (IH l ms' (xe ++ [se]) (xn ++ [sn]) with "Hl He Hn"); [cbn in *; lia|done|done|done|done|autorewrite with zlen; lia| |done| |].
  { intros ->. destruct Hwhy as [|[|]]; auto. }
  { intros E. by destruct (Hsum E) as (_ & _ & -> & ?). }
  iIntros (len' fail') "Hl Hc". iApply ("HQ" with "[Ht Hl]"); [iExists i, nx; by iFrame|].
  iApply (members_collected_more with "Hc"); [done|]. intros E. by destruct (Hsum E) as (? & ? & ? & _).
Qed.

Definition put_object_body (te tn : nat) (numentries : Z) : Z * ptr -> M memory (Z * ptr + ptr) := fun '(i, ptr) =>
            if i <? numentries then
              ptr <- (if f then put_tabs depth1 ptr else ret ptr) ;;
              n <- entry tn i ;;
              ptr <- append ptr n ;;
              ptr <- put_char "print_object" ptr 58 ;;
              ptr <- put_if f 9 ptr ;;
              e <- entry te i ;;
              src <- access "print_object" e ;;
              strcpy ptr src ;;
              k <- strlen src ;;
              let ptr := ptr_add ptr k in
              ptr <- put_if (negb (i =? numentries - 1)) 44 ptr ;;
              ptr <- put_if f 10 ptr ;;
              store "print_object" ptr 0 ;;
              free n ;; free e ;;
              ret (inl (i + 1, ptr))
            else ret (inr ptr).

Lemma swp_put_indent n k w m off (Q : ptr -> hprop) :
  zlen w = off -> zlen (indent n) <= m ->
  room_at k w m -∗ (room_at k (w ++ indent n) (m - zlen (indent n)) -∗ Q (k, zlen (w ++ indent n))) -∗
  swp (if f then put_tabs (Z.of_nat n) (k, off) else ret (k, off)) Q.
Proof.
  iIntros (<- Hm) "Hk HQ". rewrite zlen_app. rewrite zlen_indent in Hm |- *. destruct f.
  - iApply (swp_put_tabs with "Hk"); done.
  - sret. rw Z.add_0_r Z.sub_0_r app_nil_r. by iApply "HQ".
Qed.

Lemma room_at_eq k w w' m m' : w = w' -> m = m' -> room_at k w m ⊢ room_at k w' m'.
Proof. by intros -> ->. Qed.

Lemma inl_eq (Q : Z * ptr + ptr -> hprop) i k x y : x = y -> Q (inl (i, (k, x))) ⊢ Q (inl (i, (k, y))).
Proof. by intros ->. Qed.

(** A member is put into the block, and its texts are freed. *)
Lemma swp_put_member te tn n v xe xn i numentries k w m off (Q : Z * ptr + ptr -> hprop) :
  zlen w = off -> i < numentries ->
  let x := put_together (n, v) ++ (if negb (i =? numentries - 1) then [44] else []) ++ newline in
  zlen x + 1 <= m ->
  table_from te i (Some v :: xe) -∗ table_from tn i (Some n :: xn) -∗ room_at k w m -∗
  (table_from te (i + 1) xe -∗ table_from tn (i + 1) xn -∗ room_at k (w ++ x) (m - zlen x) -∗
     Q (inl (i + 1, (k, zlen (w ++ x))))) -∗
  swp (put_object_body te tn numentries (i, (k, off))) Q.
Proof.
  intros Hw Hi x Hm. iIntros "He Hn Hk HQ". unfold put_object_body. rewrite (proj2 (Z.ltb_lt _ _)); [|lia].
  set (more := negb (i =? numentries - 1)) in *. pose proof (zlen_bound n). pose proof (zlen_bound v).
  assert (zlen x = zlen (indent (S depth)) + zlen n + 1 + b2z f + zlen v + b2z more + b2z f) as Hx.
  { unfold x, put_together. autorewrite with zlen. cbn [fst snd]. destruct f, more; autorewrite with zlen; cbn [b2z]; lia. }
  assert (0 <= b2z f <= 1) as Hb by by destruct f. assert (0 <= b2z more <= 1) as Hbm by by destruct more.
  pose proof (zlen_bound (indent (S depth))).
  replace depth1 with (Z.of_nat (S depth)) by lia.
  sbind. iApply (swp_put_indent with "Hk"); [done|lia|]. iIntros "Hk". sbind. iApply (swp_entry_head with "Hn"). iIntros (en) "Hsn Hn".
  destruct en as [qn|]; cbn [text_at]; [|iDestruct "Hsn" as %[]]. sbind. iApply (swp_append with "Hk Hsn"); [done|lia|]. iIntros "Hk Hsn".
  sbind. iApply (swp_put_char with "Hk"); [by autorewrite with zlen|lia|]. iIntros "Hk".
  sbind. iApply (swp_put_if with "Hk"); [by autorewrite with zlen|lia|]. iIntros "Hk".
  sbind. iApply (swp_entry_head with "He"). iIntros (ee) "Hse He". destruct ee as [qe|]; cbn [text_at]; [|iDestruct "Hse" as %[]].
  sbind. iApply swp_access. sbind. iApply (swp_strcpy with "Hk Hse"); [|lia|].
  { autorewrite with zlen. destruct f; autorewrite with zlen; cbn [b2z]; lia. }
  iIntros "Hk Hse". sbind. iApply (swp_strlen with "Hse"). iIntros "Hse". rw (app_assoc _ v [0]).
  iDestruct (room_at_forget with "Hk") as "Hk". change (zlen [0]) with 1. unfold ptr_add; cbn [fst snd].
  sbind. iApply (swp_put_if with "Hk"); [|lia|].
  { autorewrite with zlen. destruct f; autorewrite with zlen; cbn [b2z]; lia. }
  iIntros "Hk". sbind. iApply (swp_put_if with "Hk"); [|lia|].
  { autorewrite with zlen. destruct f, more; autorewrite with zlen; cbn [b2z]; lia. }
  iIntros "Hk". sbind. iApply (swp_store with "Hk"); [|lia|].
  { autorewrite with zlen. destruct f, more; autorewrite with zlen; cbn [b2z]; lia. }
  iIntros "Hk". iDestruct (room_at_forget with "Hk") as "Hk". change (zlen [0]) with 1.
  sbind. iApply (swp_free_string with "Hsn"). sbind. iApply (swp_free_string with "Hse"). sret.
  iDestruct (room_at_eq _ _ (w ++ x) _ (m - zlen x) with "Hk") as "Hk"; [by rewrite -!app_assoc /x /put_together -!app_assoc|lia|].
  iSpecialize ("HQ" with "He Hn Hk"). rewrite zlen_app Hx.
  iApply (inl_eq with "HQ"). autorewrite with zlen. lia.
Qed.

Lemma swp_put_object ms i n te tn k w m off (Q : ptr -> hprop) :
  zlen w = off -> n = i + zlen ms -> zlen (joined comma_line (map put_together ms) ++ newline) + 1 <= m ->
  table_from te i (map (fun m => Some m.2) ms) -∗ table_from tn i (map (fun m => Some m.1) ms) -∗ room_at k w m -∗
  ⟨ms <> []⟩ -∗
  (table_from te n [] -∗ table_from tn n [] -∗
     room_at k (w ++ joined comma_line (map put_together ms) ++ newline) (m - zlen (joined comma_line (map put_together ms) ++ newline)) -∗
     Q (k, zlen (w ++ joined comma_line (map put_together ms) ++ newline))) -∗
  swp (loop (S (List.length ms)) (put_object_body te tn n) (i, (k, off))) Q.
Proof.
  revert i w m off. induction ms as [|[nm v] ms IH]; intros i w m off <- Hn Hm; iIntros "He Hn Hk %Hne HQ"; [done|].
  rewrite zlen_cons in Hn. pose proof (zlen_nonneg ms). iApply swp_loop. 
  destruct ms as [|m' ms].
  - cbn [map app joined] in *. change (@zlen (list Z * list Z) []) with 0 in Hn.
    iApply (swp_put_member with "He Hn Hk"); [done|lia| |].
    { rewrite (proj2 (Z.eqb_eq i (n - 1))); [|lia]. exact Hm. }
    rewrite (proj2 (Z.eqb_eq i (n - 1))); [|lia]. cbn [negb app]. iIntros "He Hn Hk". iApply swp_loop. unfold put_object_body at 1.
    rewrite (proj2 (Z.ltb_ge _ _)); [|lia]. sret. replace n with (i + 1) by lia. iApply ("HQ" with "He Hn Hk").
  - rewrite zlen_cons in Hn. pose proof (zlen_nonneg ms).
    assert (joined comma_line (map put_together ((nm, v) :: m' :: ms)) ++ newline =
      (put_together (nm, v) ++ [44] ++ newline) ++ (joined comma_line (map put_together (m' :: ms)) ++ newline)) as E.
    { cbn [map app]. destruct f; cbn [joined app]; by rewrite -!app_assoc. }
    rewrite E zlen_app in Hm |- *. set (rest := joined comma_line (map put_together (m' :: ms)) ++ newline) in *.
    pose proof (zlen_bound rest). cbn [map app].
    iApply (swp_put_member with "He Hn Hk"); [done|lia| |].
    { rewrite (proj2 (Z.eqb_neq i (n - 1))); [|lia]. cbn [negb]. cbn [fst snd]. lia. }
    rewrite (proj2 (Z.eqb_neq i (n - 1))); [|lia]. cbn [negb fst snd]. iIntros "He Hn Hk".
    iApply (IH with "He Hn Hk [//]"); [done|rewrite zlen_cons; lia|fold rest; lia|]. fold rest. iIntros "He Hn Hk".
    rw -!(app_assoc w). iApply ("HQ" with "He Hn").
    iApply (room_at_eq with "Hk"); [done|rewrite ?zlen_app; lia].
Qed.

Lemma swp_members_failed te tn ye yn (n : list tree) (Q : option ptr -> hprop) :
  zlen ye = zlen n -> zlen yn = zlen n -> table_from te 0 ye -∗ table_from tn 0 yn -∗ Q None -∗
  swp (free_entries [tn; te] (zlen n) ;; free_table tn ;; free_table te ;; ret None) Q.
Proof.
  iIntros (He Hn) "He Hn HQ". sbind. unfold zlen in *.
  iApply (swp_free_entries [(tn, yn); (te, ye)] (List.length n) with "[He Hn]"); [repeat constructor; cbn; lia|cbn; iFrame|].
  cbn. iIntros "(Hn & He & _)". sbind. iApply (swp_free_table_from with "Hn"). sbind. iApply (swp_free_table_from with "He"). by sret.
Qed.

Lemma swp_print_object_plain kids ms a d nx pv ch vs nm la (Q : option ptr -> hprop) :
  (List.length kids < fuel)%nat -> kids <> [] -> Forall K kids -> Forall (fun t => printable_data (data_of t)) kids ->
  all_some member_parts kids = Some ms -> Forall (fun m => (List.length (put_together m) < fuel)%nat) ms ->
  let s := 123 :: newline ++ joined comma_line (map put_together ms) ++ newline ++ indent depth ++ [125] in
  zlen s + 64 <= 1073741824 ->
  a ↦ Item (item_of d nx pv ch vs nm) -∗ segment kids ch None None la -∗
  (∀ r, a ↦ Item (item_of d nx pv ch vs nm) -∗ segment kids ch None None la -∗
     print_result can_malloc None [] s (depth = 0%nat) r -∗ Q r) -∗
  swp (print_object_plain can_malloc fuel print a (Z.of_nat depth) fmt (zlen kids)) Q.
Proof.
  intros Hf Hk HK HD Ht Hsh s Hlen. pose proof (all_some_length _ _ _ Ht) as Hlms.
  destruct ms as [|m ms]; [by destruct kids|]. pose proof (members_cost_joined m ms) as Hcost. set (l := m :: ms) in *.
  pose proof (zlen_bound (joined comma_line (map put_together l))). unfold s in Hlen. autorewrite with zlen in Hlen. rewrite zlen_indent in Hlen.
  assert (zlen comma_line = 1 + b2z f) as Hc by by destruct f. assert (zlen newline = b2z f) as Hnl by by destruct f.
  assert (0 <= b2z f <= 1) as Hb by by destruct f.
  set (len0 := if f then s32 (7 + depth1) else 7). 
  assert (len0 = 7 + (if f then Z.of_nat depth else 0) + b2z f) as Hlen0 by (unfold len0; destruct f; [rewrite s32_small; cbn [b2z]; lia|done]).
  assert (0 <= if f then Z.of_nat depth else 0) as Hd0 by (destruct f; lia).
  iIntros "Ha Hl HQ". unfold print_object_plain. sbind. unfold zlen at 1. iApply swp_malloc_table. iIntros ([te|]) "He"; cycle 1.
  { sret. iApply ("HQ" $! None with "Ha Hl"). by iFrame. }
  sbind. unfold zlen at 1. iApply swp_malloc_table. iIntros ([tn|]) "Hn"; cycle 1.
  { sbind. iApply (swp_free_new_table with "He"). sret. iApply ("HQ" $! None with "Ha Hl"). by iFrame. }
  sbind. iApply (swp_item with "Ha"). iIntros "Ha". cbn [child item_of]. sbind.
  iApply (swp_collect_members kids l [] [] with "Hl He Hn"); [done|done|done|done|done|done|done|lia|lia|].
  iIntros (len fail) "Hl Hms". destruct fail; cbn [members_collected].
  { iDestruct "Hms" as "(%Hoom & %ye & %yn & [%He %Hn] & He & Hn)". sbind. sret.
    iApply (swp_members_failed with "He Hn"); [unfold zlen in *; cbn in *; lia..|]. iApply ("HQ" $! None with "Ha Hl"). by iFrame. }
  iDestruct "Hms" as "([_ ->] & He & Hn)". sbind. rewrite size_t_small; [|lia]. iApply swp_malloc; [lia|]. iIntros ([q|]) "Hr"; cycle 1.
  { iDestruct "Hr" as %Hoom. iApply (swp_members_failed with "He Hn"); [unfold zlen; rewrite length_map; lia..|].
    iApply ("HQ" $! None with "Ha Hl"). by iFrame. }
  iDestruct "Hr" as "(%k & -> & Hk)". sbind. iApply (swp_put_char with "Hk"); [done|lia|]. iIntros "Hk".
  sbind. iApply (swp_put_if with "Hk"); [done|lia|]. iIntros "Hk".
  sbind. iApply (swp_store with "Hk"); [by rewrite zlen_app Hnl|lia|]. iIntros "Hk". iDestruct (room_at_forget with "Hk") as "Hk". sbind.
  assert (zlen kids = 0 + zlen l) as Hn by (unfold zlen; lia).
  replace (Z.to_nat (zlen kids)) with (List.length l) by (unfold zlen; lia).
  change (zlen [0]) with 1. iApply (swp_put_object with "He Hn Hk [//]"); [by rewrite zlen_app Hnl|done|rewrite zlen_app; lia|].
  iIntros "He Hn Hk". sbind. iApply (swp_free_table_from with "Hn"). sbind. iApply (swp_free_table_from with "He").
  replace (depth1 - 1) with (Z.of_nat depth) by lia.
  sbind. iApply (swp_put_indent with "Hk"); [done|rewrite zlen_indent zlen_app; lia|]. iIntros "Hk".
  sbind. iApply (swp_put_char with "Hk"); [done|rewrite zlen_indent zlen_app; lia|]. iIntros "Hk".
  sbind. iApply (swp_put_char with "Hk"); [by rewrite zlen_app|rewrite zlen_indent zlen_app; lia|]. iIntros "Hk". sret.
  iApply ("HQ" $! (Some _) with "Ha Hl"). iApply (own_text with "Hk"). unfold s. do 3 (cbn [app]; rewrite -?app_assoc). done.
Qed.
End Plain.
