(* ===== verification/CJsonPrintValueFacts.v ===== *)
(** The printer writes what CJsonText.render says: into a string of its own or
    into a buffer, and whenever memory runs out. *)

From iris.proofmode Require Import proofmode.
From stdpp Require Import gmap.
From S2P Require Import Prelude.
From S2P Require Import CMonad.
From S2P Require Import CString.
From S2P Require Import JsonDouble.
From S2P Require Import JsonHeap.
From S2P Require Import CJson.
From S2P Require Import CJsonPrint.
From S2P Require Import JsonLogic.
From S2P Require Import CJsonFacts.
From S2P Require Import CJsonText.
From S2P Require Import JsonNumberFacts.
From S2P Require Import CJsonPrintFacts.
From S2P Require Import CJsonPrintPlainFacts.

(** ** The text of a value *)

Section Text.
Context (fmt : bool).
Abbreviation indent n := (if fmt then tabs n else []).
Abbreviation newline := (if fmt then [10] else []).

Definition member_of_text (depth : nat) (t : tree) : option (list Z) :=
  match d_name (data_of t), render fmt depth t with
  | Some s, Some v => Some (indent depth ++ quoted s ++ [58] ++ (if fmt then [9] else []) ++ v)
  | _, _ => None
  end.

(** One level of [render]. *)
Definition array_text (l : list (list Z)) : list Z := 91 :: joined (if fmt then [44; 32] else [44]) l ++ [93].
Definition object_text (depth : nat) (l : list (list Z)) : list Z :=
  match l with
  | [] => 123 :: newline ++ indent (depth - 1) ++ [125]
  | _ => 123 :: newline ++ joined (if fmt then [44; 10] else [44]) l ++ newline ++ indent depth ++ [125]
  end.

Lemma render_unfold depth d kids :
  render fmt depth (Tree d kids) =
  (let ty := Z.land (d_type d) 255 in
   if ty =? cJSON_NULL then Some (bytes "null")
   else if ty =? cJSON_False then Some (bytes "false")
   else if ty =? cJSON_True then Some (bytes "true")
   else if ty =? cJSON_Number then Some (number_text (d_int d) (d_double d))
   else if ty =? cJSON_String then option_map quoted (d_string d)
   else if ty =? cJSON_Array then array_text <$> all_some (render fmt (S depth)) kids
   else if ty =? cJSON_Object then object_text depth <$> all_some (member_of_text (S depth)) kids
   else None).
Proof.
  cbn [render]. cbv zeta. repeat (case_match; [reflexivity|]).
  destruct (_ =? cJSON_Array); [by destruct (all_some _ _)|]. destruct (_ =? cJSON_Object); [|done].
  change (all_some (fun t => match d_name (data_of t), render fmt (S depth) t with
    | Some s, Some v => Some (indent (S depth) ++ quoted s ++ [58] ++ (if fmt then [9] else []) ++ v)
    | _, _ => None end) kids) with (all_some (member_of_text (S depth)) kids).
  destruct (all_some _ _) as [l|] eqn:E; [|done]. cbn [fmap option_fmap option_map]. f_equal. unfold object_text.
  pose proof (all_some_length _ _ _ E). destruct kids, l; try done; cbn [joined app]. by destruct fmt.
Qed.

(** What holds of the texts of a list holds of the whole. *)
Lemma joined_text sep l : is_text sep -> Forall is_text l -> is_text (joined sep l).
Proof.
  intros Hs Hl. induction Hl as [|x l Hx Hl IH]; [constructor|]. destruct l; cbn [joined]; [done|].
  apply Forall_app_2; [done|]. by apply Forall_app_2.
Qed.

Lemma joined_length sep l : (sum_list_with List.length l <= List.length (joined sep l))%nat.
Proof.
  induction l as [|x l IH]; [done|]. destruct l; cbn [joined sum_list_with] in *; [lia|]. rewrite !length_app. lia.
Qed.

Lemma joined_short sep l k : (List.length (joined sep l) < k)%nat -> Forall (fun s => List.length s < k)%nat l.
Proof.
  intros H. pose proof (joined_length sep l) as Hs. assert (sum_list_with List.length l < k)%nat as Hk by lia. clear H Hs.
  induction l as [|x l IH]; constructor; cbn [sum_list_with] in Hk; [lia|]. apply IH. lia.
Qed.

Definition fits (t : tree) (s : list Z) : Prop := is_text s /\ (tree_size t <= List.length s)%nat.

Lemma fits_all (g : tree -> option (list Z)) kids texts :
  Forall (fun t => forall s, g t = Some s -> fits t s) kids -> all_some g kids = Some texts ->
  Forall is_text texts /\ (list_size kids <= sum_list_with List.length texts)%nat.
Proof.
  intros Hk. revert texts. induction Hk as [|t kids Ht Hk IH]; intros texts H; [injection H as <-; by split|].
  apply all_some_cons in H as (s & texts' & -> & Hs & H). destruct (Ht s Hs). destruct (IH _ H).
  split; [by constructor|]. cbn [sum_list_with]. lia.
Qed.

Lemma indent_text n : is_text (indent n).
Proof. destruct fmt; [|constructor]. unfold tabs. by apply Forall_replicate. Qed.

Lemma fits_member depth t s :
  printable_data (data_of t) -> (forall v, render fmt depth t = Some v -> fits t v) -> member_of_text depth t = Some s -> fits t s.
Proof.
  intros (_ & _ & Hn & _) Hv H. unfold member_of_text in H. destruct (d_name _) as [nm|]; [|done].
  destruct (render fmt depth t) as [v|]; [|done]. apply Some_inj in H. subst s. destruct (Hv v eq_refl) as [Hv1 Hv2]. split.
  - apply Forall_app_2; [apply indent_text|]. apply Forall_app_2; [by apply quoted_text|]. apply Forall_app_2; [by constructor|].
    apply Forall_app_2; [by destruct fmt; constructor|done].
  - rewrite !length_app. lia.
Qed.

Lemma array_text_fits d kids texts :
  Forall is_text texts -> (list_size kids <= sum_list_with List.length texts)%nat -> fits (Tree d kids) (array_text texts).
Proof.
  intros H1 H2. unfold array_text. split.
  - constructor; [lia|]. apply Forall_app_2; [|by constructor]. apply joined_text; [|done]. destruct fmt; by repeat constructor.
  - cbn [tree_size List.length]. rewrite length_app. pose proof (joined_length (if fmt then [44; 32] else [44]) texts). cbn. lia.
Qed.

Lemma object_text_fits depth d kids texts :
  Forall is_text texts -> (list_size kids <= sum_list_with List.length texts)%nat -> fits (Tree d kids) (object_text depth texts).
Proof.
  intros H1 H2. pose proof (joined_text (if fmt then [44; 10] else [44]) texts ltac:(destruct fmt; by repeat constructor) H1).
  pose proof (joined_length (if fmt then [44; 10] else [44]) texts). unfold object_text.
  assert (is_text newline) by (destruct fmt; by repeat constructor). pose proof (indent_text depth). pose proof (indent_text (depth - 1)).
  assert (is_text [125]) by by constructor.
  destruct texts as [|x l]; (split; [constructor; [lia|]; repeat (apply Forall_app_2; [done|]); done|]).
  - cbn in *. lia.
  - cbn [tree_size List.length]. rewrite !length_app. lia.
Qed.

Lemma render_fits t depth s : printable t -> render fmt depth t = Some s -> fits t s.
Proof.
  revert depth s. induction t as [d kids IH] using tree_induction. intros depth s Hp. rewrite render_unfold. cbv zeta.
  inversion Hp as [? ? Hd Hleaf Hk]; subst. set (ty := Z.land (d_type d) 255) in *.
  assert (forall s, is_text s -> (0 < List.length s)%nat -> container (d_type d) = false -> fits (Tree d kids) s) as Hl.
  { intros s' H1 H2 Hc. rewrite (Hleaf Hc). by split. }
  unfold container in *. fold ty in Hl. destruct Hd as (_ & Hs & _).
  destruct (Z.eqb_spec ty cJSON_NULL) as [E|_]; [intros [= <-]; apply Hl; [by apply bytes_text|cbn; lia|by rewrite E]|].
  destruct (Z.eqb_spec ty cJSON_False) as [E|_]; [intros [= <-]; apply Hl; [by apply bytes_text|cbn; lia|by rewrite E]|].
  destruct (Z.eqb_spec ty cJSON_True) as [E|_]; [intros [= <-]; apply Hl; [by apply bytes_text|cbn; lia|by rewrite E]|].
  destruct (Z.eqb_spec ty cJSON_Number) as [E|_]; [intros H; apply Some_inj in H; subst s; apply Hl; [apply number_text_text|apply number_text_nonempty|by rewrite E]|].
  destruct (Z.eqb_spec ty cJSON_String) as [E|_].
  { destruct (d_string d) as [x|]; [|done]. intros H; apply Some_inj in H; subst s. apply Hl; [by apply quoted_text|cbn; lia|by rewrite E]. }
  rewrite Forall_forall in IH. rewrite Forall_forall in Hk.
  destruct (ty =? cJSON_Array).
  { destruct (all_some _ _) as [texts|] eqn:Ht; [|done]. intros H; apply Some_inj in H; subst s.
    apply fits_all in Ht as [H1 H2]; [by apply array_text_fits|]. apply Forall_forall. intros t Hin s. apply IH; auto. }
  destruct (ty =? cJSON_Object); [|done].
  destruct (all_some _ _) as [texts|] eqn:Ht; [|done]. intros H; apply Some_inj in H; subst s.
  apply fits_all in Ht as [H1 H2]; [by apply object_text_fits|]. apply Forall_forall. intros t Hin s.
  apply fits_member; [by apply printable_data_of, Hk|]. intros v. apply IH; auto.
Qed.
End Text.

(** ** The printer *)

Section Printer.
Context (can_malloc : allocator -> list Z -> Z -> bool) (fuel : nat) (fmt : Z).
Abbreviation oom := (out_of_memory can_malloc).
Abbreviation f := (negb (fmt =? 0)).
Abbreviation indent n := (if f then tabs n else []).
Abbreviation newline := (if f then [10] else []).

Lemma all_some_ext {A B} (g h : A -> option B) l : (forall x, g x = h x) -> all_some g l = all_some h l.
Proof. intros H. induction l as [|x l IH]; [done|]. cbn. by rewrite H IH. Qed.

Lemma all_some_map {A B C} (g : A -> option B) (h : B -> C) l :
  all_some (fun x => h <$> g x) l = map h <$> all_some g l.
Proof. induction l as [|x l IH]; [done|]. cbn. rewrite IH. destruct (g x); [|done]. by destruct (all_some g l). Qed.

Lemma member_of_parts depth t : member_of_text f (S depth) t = put_together fmt depth <$> member_parts fmt depth t.
Proof. unfold member_of_text, member_parts. destruct (d_name _); [|done]. by destruct (render _ _ _). Qed.

Section Value.
Context (print : option nat -> Z -> Z -> option nat -> M memory (option ptr)) (depth : nat) (K : tree -> Prop).
Hypothesis Hprint : prints can_malloc fuel print fmt (S depth) K.
Hypothesis HK : forall t, K t -> printable t.

Lemma K_string t s : K t -> render f (S depth) t = Some s -> c_string s.
Proof. intros Ht Hs. apply is_text_string. by eapply render_fits; [apply HK|]. Qed.

(** The number of children is counted first. *)
Lemma swp_count_entries kids ch (Q : Z -> hprop) la :
  (List.length kids < fuel)%nat -> zlen kids < 2147483648 ->
  segment kids ch None None la -∗ (segment kids ch None None la -∗ Q (zlen kids)) -∗ swp (count_entries fuel ch) Q.
Proof.
  iIntros (Hf Hl) "Hs HQ". unfold count_entries. 
  iApply (swp_count fuel kids ch None la 0 with "Hs"); [done|done|lia|]. done.
Qed.

Lemma kids_short (g : tree -> option (list Z)) kids texts :
  Forall (fun t => forall s, g t = Some s -> fits t s) kids -> all_some g kids = Some texts ->
  (List.length kids <= sum_list_with List.length texts)%nat.
Proof. intros H Ht. destruct (fits_all _ _ _ H Ht) as [_ Hs]. pose proof (list_size_length kids). lia. Qed.

Lemma swp_print_array d kids texts a nx pv p w (Q : option ptr -> hprop) :
  printable_data d -> Forall K kids -> all_some (render f (S depth)) kids = Some texts ->
  (List.length (array_text f texts) < fuel)%nat -> zlen w + zlen (array_text f texts) + 64 <= 1073741824 ->
  tree_at (Tree d kids) a nx pv -∗ out_at p w -∗
  (∀ r, tree_at (Tree d kids) a nx pv -∗ print_result can_malloc p w (array_text f texts) (depth = 0%nat) r -∗ Q r) -∗
  swp (print_array can_malloc fuel print a (Z.of_nat depth) fmt p) Q.
Proof.
  intros (Hd & _) Hk Ht Hf Hlen. unfold plain in Hd. apply andb_true_iff in Hd as [Hr%negb_true_iff _].
  assert (Forall (fun t => forall s, render f (S depth) t = Some s -> fits t s) kids) as Hfits.
  { eapply Forall_impl; [exact Hk|]. intros t Kt s. apply render_fits. by apply HK. }
  pose proof (kids_short _ _ _ Hfits Ht) as Hkids. pose proof (joined_length (if f then [44; 32] else [44]) texts) as Hj.
  unfold array_text in Hf, Hlen |- *. set (J := joined _ texts) in *. cbn [List.length] in Hf. rewrite length_app in Hf.
  autorewrite with zlen in Hlen. pose proof (zlen_bound w). 
  assert (zlen kids <= zlen J) as Hz by (unfold zlen; lia).
  iIntros "Ht Hout HQ". iEval (rw open_array //) in "Ht". iDestruct "Ht" as "(%ch & %vs & %nm & %la & Ha & Hl & Hs)".
  sbind. iApply (swp_item with "Ha"). iIntros "Ha". cbn [child item_of]. sbind.
  iApply (swp_count_entries with "Hl"); [lia|lia|]. iIntros "Hl".
  iAssert (∀ r, a ↦ Item (item_of d nx pv ch vs nm) -∗ segment kids ch None None la -∗
     print_result can_malloc p w (91 :: J ++ [93]) (depth = 0%nat) r -∗ Q r)%I with "[HQ Hs]" as "HQ".
  { iIntros (r) "Ha Hl Hr". iApply ("HQ" with "[Ha Hl Hs] Hr"). by iApply (close_array with "Ha Hl Hs"). }
  destruct (Z.eqb_spec (zlen kids) 0) as [E|E].
  { destruct kids; [|autorewrite with zlen in E; pose proof (zlen_nonneg kids); lia]. injection Ht as <-.
    iApply (swp_room_for with "Hout"); [done|pose proof (zlen_bound J); lia|]. iIntros (r) "Hr". iApply ("HQ" with "Ha Hl Hr"). }
  assert (kids <> []) as Hne by (intros ->; done).
  destruct p as [b|].
  - iApply (swp_print_array_buffered with "Ha Hl Hout HQ"); [done|intros t s; by apply K_string|lia|done|done|done| |fold J; lia].
    eapply joined_short with (sep := if f then [44; 32] else [44]). fold J. lia.
  - iDestruct "Hout" as "->". iApply (swp_print_array_plain with "Ha Hl HQ"); [done|intros t s; by apply K_string|lia|done|done|done| |fold J; lia].
    eapply joined_short with (sep := if f then [44; 32] else [44]). fold J. lia.
Qed.

Lemma put_tabs_pred q : put_tabs (Z.of_nat depth - 1) q = put_tabs (Z.of_nat (depth - 1)) q.
Proof. destruct depth as [|n]; [done|]. f_equal. lia. Qed.

(** An object without members. *)
Lemma swp_print_object_empty p w (Q : option ptr -> hprop) :
  zlen w + zlen (object_text f depth []) + 64 <= 1073741824 ->
  out_at p w -∗ (∀ r, print_result can_malloc p w (object_text f depth []) (depth = 0%nat) r -∗ Q r) -∗
  swp (print_object_empty can_malloc (Z.of_nat depth) fmt p) Q.
Proof.
  iIntros (Hlen) "Hout HQ". unfold object_text in *. autorewrite with zlen in Hlen. pose proof (zlen_bound w).
  rewrite zlen_indent in Hlen. assert (zlen newline = b2z f) as Hnl by by destruct f.
  pose proof (zlen_bound newline).
  set (need := if fmt =? 0 then 3 else s32 (Z.of_nat depth + 4)).
  assert (need = (if f then Z.of_nat depth + 4 else 3)) as Hneed.
  { unfold need. destruct (fmt =? 0); cbn [negb] in *; cbv iota in *; [done|]. apply s32_small. pose proof (zlen_bound [10]). lia. }
  unfold print_object_empty. fold need. sbind.
  iApply (swp_room with "Hout"); [destruct f; lia|destruct f; lia|]. iIntros ([q|]) "Hr"; cycle 1.
  { sret. by iApply ("HQ" $! None). }
  iDestruct "Hr" as "(%k & %m & -> & %Hm & Hk & Hh & Hp)". rewrite Hneed in Hm.
  sbind. iApply (swp_put_char with "Hk"); [done|destruct f; lia|]. iIntros "Hk". sbind.
  iAssert (∀ R : ptr -> hprop, (room_at k (w ++ [123] ++ newline ++ indent (depth - 1)) (m - 1 - b2z f - zlen (indent (depth - 1))) -∗
    R (k, zlen (w ++ [123] ++ newline ++ indent (depth - 1)))) -∗
    swp (if fmt =? 0 then ret (k, zlen w + 1) else ptr <- put_char "print_object" (k, zlen w + 1) 10 ;; put_tabs (Z.of_nat depth - 1) ptr) R)%I with "[Hk]" as "Hline".
  { iIntros (R) "HR". destruct (fmt =? 0); cbn [negb b2z app] in *.
    - sret. replace (m - 1 - 0 - zlen []) with (m - 1) by (change (@zlen Z []) with 0; lia).
      replace (zlen w + 1) with (zlen (w ++ [123])) by by autorewrite with zlen. by iApply "HR".
    - sbind. iApply (swp_put_char with "Hk"); [by autorewrite with zlen|lia|]. iIntros "Hk". rewrite put_tabs_pred.
      iApply (swp_put_tabs with "Hk"); [autorewrite with zlen; lia|lia|]. iIntros "Hk". unfold tabs at 3 4. rewrite zlen_app !zlen_cons zlen_replicate.
      rw -!app_assoc. replace (zlen w + (Z.of_nat (depth - 1) + 1 + 1)) with (zlen w + 1 + 1 + Z.of_nat (depth - 1)) by lia. by iApply "HR". }
  iApply "Hline". iIntros "Hk". set (pre := [123] ++ newline ++ indent (depth - 1)).
  assert (2 <= m - 1 - b2z f - zlen (indent (depth - 1))) as H2 by (rewrite zlen_indent; destruct f; cbn [b2z]; lia).
  sbind. iApply (swp_put_char with "Hk"); [done|lia|]. iIntros "Hk".
  sbind. iApply (swp_put_char with "Hk"); [by autorewrite with zlen|lia|]. iIntros "Hk". sret.
  iApply ("HQ" $! (Some _)). iApply (print_done with "[Hk] Hh Hp").
  { iApply (room_at_eq with "Hk"); [|done]. unfold pre. do 3 (cbn [app]; rewrite -?app_assoc). done. }
  iPureIntro. autorewrite with zlen. rewrite zlen_indent Hnl. lia.
Qed.

Lemma swp_print_object d kids ms a nx pv p w (Q : option ptr -> hprop) :
  let s := object_text f depth (map (put_together fmt depth) ms) in
  printable_data d -> Forall K kids -> all_some (member_parts fmt depth) kids = Some ms ->
  (List.length s < fuel)%nat -> zlen w + zlen s + 64 <= 1073741824 ->
  tree_at (Tree d kids) a nx pv -∗ out_at p w -∗
  (∀ r, tree_at (Tree d kids) a nx pv -∗ print_result can_malloc p w s (depth = 0%nat) r -∗ Q r) -∗
  swp (print_object can_malloc fuel print a (Z.of_nat depth) fmt p) Q.
Proof.
  intros s (Hd & _) Hk Ht Hf Hlen. unfold plain in Hd. apply andb_true_iff in Hd as [Hr%negb_true_iff _].
  assert (Forall (fun t => printable_data (data_of t)) kids) as HD.
  { eapply Forall_impl; [exact Hk|]. intros t Kt. by apply printable_data_of, HK. }
  assert (all_some (member_of_text f (S depth)) kids = Some (map (put_together fmt depth) ms)) as Htexts.
  { rewrite (all_some_ext _ _ _ (member_of_parts depth)) all_some_map Ht. done. }
  assert (Forall (fun t => forall s, member_of_text f (S depth) t = Some s -> fits t s) kids) as Hfits.
  { eapply Forall_impl; [exact Hk|]. intros t Kt x. apply fits_member; [by apply printable_data_of, HK|]. intros v. apply render_fits. by apply HK. }
  pose proof (kids_short _ _ _ Hfits Htexts) as Hkids. set (l := map (put_together fmt depth) ms) in *.
  pose proof (joined_length (if f then [44; 10] else [44]) l) as Hj. pose proof (zlen_bound w).
  assert (List.length (joined (if f then [44%Z; 10%Z] else [44%Z]) l) <= List.length s)%nat as Hjs.
  { unfold s, object_text. destruct l; cbn [List.length]; rewrite !length_app; cbn; lia. }
  assert (zlen kids <= zlen s) as Hz by (unfold zlen; lia).
  iIntros "Ht Hout HQ". iEval (rw open_array //) in "Ht". iDestruct "Ht" as "(%ch & %vs & %nm & %la & Ha & Hl & Hs)".
  sbind. iApply (swp_item with "Ha"). iIntros "Ha". cbn [child item_of]. sbind.
  iApply (swp_count_entries with "Hl"); [lia|lia|]. iIntros "Hl".
  iAssert (∀ r, a ↦ Item (item_of d nx pv ch vs nm) -∗ segment kids ch None None la -∗
     print_result can_malloc p w s (depth = 0%nat) r -∗ Q r)%I with "[HQ Hs]" as "HQ".
  { iIntros (r) "Ha Hl Hr". iApply ("HQ" with "[Ha Hl Hs] Hr"). by iApply (close_array with "Ha Hl Hs"). }
  destruct (Z.eqb_spec (zlen kids) 0) as [E|E].
  { destruct kids; [|autorewrite with zlen in E; pose proof (zlen_nonneg kids); lia]. injection Ht as <-.
    iApply (swp_print_object_empty with "Hout"); [exact Hlen|]. iIntros (r) "Hr". iApply ("HQ" with "Ha Hl Hr"). }
  assert (kids <> []) as Hne by (intros ->; done). destruct kids as [|t0 kids0]; [done|]. set (kids := t0 :: kids0) in *.
  assert (s = 123 :: newline ++ joined (if f then [44; 10] else [44]) l ++ newline ++ indent depth ++ [125]) as Es.
  { unfold s, l. destruct ms; [by apply all_some_length in Ht|done]. }
  clearbody s. subst s. destruct p as [b|].
  - iApply (swp_print_object_buffered _ _ _ _ _ K with "Ha Hl Hout HQ"); [done|intros t s; by apply K_string|lia|done|done|done|exact Htexts| |lia].
    eapply joined_short with (sep := if f then [44; 10] else [44]). lia.
  - iDestruct "Hout" as "->". iApply (swp_print_object_plain with "Ha Hl HQ"); [done|intros t s; by apply K_string|lia|done|done|done|done| |exact Hlen].
    apply (proj1 (List.Forall_map (put_together fmt depth) (fun x => (List.length x < fuel)%nat) ms)).
    eapply joined_short with (sep := if f then [44; 10] else [44]). fold l. lia.
Qed.
End Value.

Definition small (n : nat) (t : tree) : Prop := printable t /\ (tree_size t <= n)%nat.

Lemma small_kids n d kids : small (S n) (Tree d kids) -> Forall (small n) kids.
Proof.
  intros [Hp Hs]. inversion Hp as [? ? _ _ Hk]; subst. cbn [tree_size] in Hs. rewrite Forall_forall in Hk.
  apply Forall_forall. intros t Hin. split; [by apply Hk|]. pose proof (sum_list_with_in t tree_size kids Hin). lia.
Qed.

Lemma swp_print_leaf t i nx pv (x : list Z) p w top (Q : option ptr -> hprop) :
  zlen w + zlen x + 64 <= 1073741824 ->
  tree_at t i nx pv -∗ out_at p w -∗ (∀ r, tree_at t i nx pv -∗ print_result can_malloc p w x top r -∗ Q r) -∗
  swp (print_word can_malloc x p) Q.
Proof.
  iIntros (Hlen) "Ht Hout HQ". iApply (swp_print_word with "Hout"); [lia|]. iIntros (r) "Hr". iApply ("HQ" with "Ht Hr").
Qed.

Lemma swp_print_string t i nx pv x p w top (Q : option ptr -> hprop) :
  printable_data (data_of t) -> d_string (data_of t) = Some x -> (List.length (quoted x) < fuel)%nat ->
  zlen w + zlen (quoted x) + 64 <= 1073741824 ->
  tree_at t i nx pv -∗ out_at p w -∗ (∀ r, tree_at t i nx pv -∗ print_result can_malloc p w (quoted x) top r -∗ Q r) -∗
  swp (print_string can_malloc fuel i p) Q.
Proof.
  intros (Hd & Hs & _) Hx Hf Hlen. rewrite Hx in Hs. unfold plain in Hd. apply andb_true_iff in Hd as [Hr%negb_true_iff _].
  iIntros "Ht Hout HQ". sbind. iApply (swp_item_tree with "Ht"). iIntros (ch vs nm) "Hi [Ho Hn]". cbn [valuestring item_of]. rw Hr Hx.
  iDestruct "Ho" as "[Ho Hc]". destruct vs as [q|]; cbn [text_at]; [|iDestruct "Ho" as %[]].
  iApply (swp_print_string_ptr with "Ho Hout"); [done| |lia|].
  { pose proof (zlen_quoted x) as H. pose proof (flat_map_escape_length x Hs). unfold zlen in H. lia. }
  iIntros (r) "Ho Hr". iApply ("HQ" with "[Hi Ho Hc Hn] Hr"). rw tree_at_item. iExists ch, (Some q), nm. iFrame.
  unfold owned. rw Hr Hx. iFrame.
Qed.

Lemma prints_value n : forall depth, prints can_malloc fuel (print_value can_malloc fuel n) fmt depth (small n).
Proof.
  induction n as [|n IH]; intros depth t s i nx pv p w Q [Hp Hn] Hs Hf Hlen; [destruct t; cbn in Hn; lia|].
  pose proof (printable_data_of t Hp) as Hd. pose proof (small_kids n (data_of t) (kids_of t)) as Hk.
  destruct t as [d kids]. cbn [data_of kids_of] in *. specialize (Hk (conj Hp Hn)). rewrite render_unfold in Hs. cbv zeta in Hs.
  iIntros "Ht Hout HQ". cbn [print_value]. sbind. iApply (swp_next with "Ht"). iIntros (c (_ & _ & Hty)) "Ht". cbv zeta. rw Hty.
  cbn [data_of]. set (ty := Z.land (d_type d) 255) in *.
  destruct (ty =? cJSON_NULL); [apply Some_inj in Hs; subst s; iApply (swp_print_leaf with "Ht Hout HQ"); lia|].
  destruct (ty =? cJSON_False); [apply Some_inj in Hs; subst s; iApply (swp_print_leaf with "Ht Hout HQ"); lia|].
  destruct (ty =? cJSON_True); [apply Some_inj in Hs; subst s; iApply (swp_print_leaf with "Ht Hout HQ"); lia|].
  destruct (ty =? cJSON_Number).
  { apply Some_inj in Hs; subst s. pose proof (zlen_bound (number_text (d_int d) (d_double d))).
    iApply (swp_print_number with "Ht Hout HQ"); [done|lia]. }
  destruct (ty =? cJSON_String).
  { destruct (d_string d) as [x|] eqn:Hx; [|done]. apply Some_inj in Hs; subst s.
    iApply (swp_print_string (Tree d kids) with "Ht Hout HQ"); [done|done|done|lia]. }
  destruct (ty =? cJSON_Array).
  { destruct (all_some _ _) as [texts|] eqn:Ht; [|done]. apply Some_inj in Hs; subst s.
    iApply (swp_print_array _ _ _ (IH (S depth)) with "Ht Hout HQ"); [by intros ? []|done|done|done|done|done]. }
  destruct (ty =? cJSON_Object); [|done]. rewrite (all_some_ext _ _ _ (member_of_parts depth)) all_some_map in Hs.
  destruct (all_some _ _) as [ms|] eqn:Ht; [|done]. apply Some_inj in Hs; subst s.
  iApply (swp_print_object _ _ _ (IH (S depth)) with "Ht Hout HQ"); [by intros ? []|done|done|done|done|done].
Qed.
End Printer.
