(* ===== verification/CJsonRoundTrip.v ===== *)
(** What is printed is read back: CJsonText.value_of of the text that
    CJsonText.render writes for a tree is the tree.  Numbers are those that are
    an int. *)

From S2P Require Import Prelude.
From S2P Require Import CString.
From S2P Require Import JsonDouble.
From S2P Require Import CJson.
From S2P Require Import CJsonParse.
From S2P Require Import CJsonPrint.
From S2P Require Import CJsonFacts.
From S2P Require Import CJsonText.
From S2P Require Import CJsonTextFacts.
From S2P Require Import JsonNumberFacts.

(** ** Decimal digits *)

Lemma digits_rev_fuel n m z : 0 <= z < 2 ^ Z.of_nat n -> z < 2 ^ Z.of_nat m -> (0 < n)%nat -> (0 < m)%nat -> digits_rev n z = digits_rev m z.
Proof.
  revert m z. induction n as [|n IH]; intros m z Hn Hm H1 H2; [lia|]. destruct m as [|m]; [lia|]. cbn [digits_rev].
  destruct (Z.ltb_spec z 10) as [|H10]; [done|]. f_equal.
  assert (0 <= z / 10) by (apply Z.div_pos; lia).
  rewrite Nat2Z.inj_succ, Z.pow_succ_r in Hn, Hm by lia.
  assert (forall k, 0 < k -> z < 2 * k -> z / 10 < k) as Hdiv by (intros k Hk Hz; apply Z.div_lt_upper_bound; lia).
  apply IH; [split; [done|apply Hdiv; lia]|apply Hdiv; lia| |].
  - destruct n; [cbn in Hn; lia|lia].
  - destruct m; [cbn in Hm; lia|lia].
Qed.

Lemma decimal_fuel n z : 0 <= z < 2 ^ Z.of_nat n -> (0 < n)%nat -> decimal z = rev (digits_rev n z).
Proof.
  intros Hz Hn. unfold decimal. f_equal. apply digits_rev_fuel; [|lia|lia|done].
  split; [lia|]. rewrite Nat2Z.inj_succ, Z2Nat.id by apply Z.log2_nonneg.
  destruct (decide (z = 0)) as [->|]; [done|]. apply Z.log2_spec. lia.
Qed.

Lemma decimal_small z : 0 <= z < 10 -> decimal z = [48 + z].
Proof.
  intros Hz. rewrite (decimal_fuel 4 z) by (cbn; lia). cbn [digits_rev].
  rewrite (proj2 (Z.ltb_lt z 10)) by lia. rewrite Z.mod_small by lia. done.
Qed.

Lemma decimal_step z : 10 <= z -> decimal z = decimal (z / 10) ++ [48 + z mod 10].
Proof.
  intros Hz. set (n := S (Z.to_nat (Z.log2 z))).
  assert (z < 2 ^ Z.of_nat n) as Hn.
  { unfold n. rewrite Nat2Z.inj_succ, Z2Nat.id by apply Z.log2_nonneg. apply Z.log2_spec. lia. }
  rewrite (decimal_fuel (S n) z), (decimal_fuel n (z / 10)); [|split; [apply Z.div_pos; lia|apply Z.div_lt_upper_bound; lia]|lia| |lia].
  - cbn [digits_rev rev]. rewrite (proj2 (Z.ltb_ge z 10)) by lia. done.
  - rewrite Nat2Z.inj_succ, Z.pow_succ_r by lia. lia.
Qed.

Lemma decimal_head z : 0 < z -> exists c l, decimal z = c :: l /\ 49 <= c <= 57.
Proof.
  intros Hz. assert (0 <= z) as H0 by lia. revert Hz. pattern z. apply Z_lt_induction; [|done]. clear z H0. intros z IH Hz.
  destruct (Z.ltb_spec z 10).
  - rewrite decimal_small by lia. exists (48 + z), []. split; [done|lia].
  - rewrite decimal_step by done. assert (1 <= z / 10) by (apply Z.div_le_lower_bound; lia).
    destruct (IH (z / 10)) as (c & l & -> & Hc); [split; [lia|apply Z.div_lt; lia]|lia|]. by exists c, (l ++ [48 + z mod 10]).
Qed.

(** ** Numbers *)

(** The characters that may follow a number. *)
Definition stops (l : list Z) : Prop :=
  match l with c :: _ => isdigit c = false /\ c <> 46 /\ c <> 101 /\ c <> 69 | [] => True end.

Lemma isdigit_digit d : 0 <= d < 10 -> isdigit (48 + d) = true.
Proof. intros Hd. unfold isdigit. apply andb_true_iff. split; apply Z.leb_le; lia. Qed.

Lemma digits_of_decimal z scale rest :
  0 <= z < 2 ^ 53 -> digits_of (fun x => x) d_zero scale (decimal z ++ rest) = digits_of (fun x => x) (d_of_Z z) scale rest.
Proof.
  intros Hz. assert (0 <= z) as H0 by lia. revert Hz rest. pattern z. apply Z_lt_induction; [|done]. clear z H0. intros z IH Hz rest.
  assert (forall a d, 0 <= d < 10 -> 0 <= 10 * a + d < 2 ^ 53 -> 0 <= a ->
    d_add (d_mul (d_of_Z a) (d_of_Z 10)) (d_of_Z (48 + d - 48)) = d_of_Z (10 * a + d)) as Hstep.
  { intros a d Hd Had Ha. unfold fine. rewrite d_mul_exact by (unfold fine; lia). replace (48 + d - 48) with d by lia.
    rewrite d_add_exact by (unfold fine; lia). f_equal. lia. }
  destruct (Z.ltb_spec z 10).
  - rewrite decimal_small by lia. cbn [app digits_of]. rewrite isdigit_digit by lia.
    change d_zero with (d_of_Z 0) at 1. rewrite Hstep by lia. do 2 f_equal. 
  - rewrite decimal_step, <- app_assoc by done. pose proof (Z.mod_pos_bound z 10 ltac:(lia)). pose proof (Z.div_mod z 10 ltac:(lia)).
    assert (0 <= z / 10) by (apply Z.div_pos; lia).
    rewrite IH by (split; [done|apply Z.div_lt; lia] || lia). cbn [app digits_of]. rewrite isdigit_digit by lia.
    rewrite Hstep by lia. do 2 f_equal. lia.
Qed.

Section Numbers.
Context (pow : double -> double -> double).
Hypothesis Hpow : pow (d_of_Z 10) d_zero = d_of_Z 1.

Lemma digits_of_stops k n s l : stops l -> digits_of k n s l = (n, s, l).
Proof. destruct l as [|c l]; [done|]. intros (H & _). cbn. by rewrite H. Qed.

Lemma fraction_stops n s l : stops l -> fraction_part n s l = (n, s, l).
Proof. destruct l as [|c [|c1 l]]; try done. intros (_ & H & _). cbn. by rewrite (proj2 (Z.eqb_neq _ _) H). Qed.

Lemma exponent_stops l : stops l -> exponent_part l = (0, 1, l).
Proof. destruct l as [|c l]; [done|]. intros (_ & _ & H1 & H2). cbn. by rewrite (proj2 (Z.eqb_neq _ _) H1), (proj2 (Z.eqb_neq _ _) H2). Qed.

Lemma unsigned_number z rest :
  0 <= z < 2 ^ 53 -> stops rest -> integer_part (leading_zero (decimal z ++ rest)) = (d_of_Z z, d_zero, rest).
Proof.
  intros Hz Hr. destruct (decide (z = 0)) as [->|H0].
  - rewrite decimal_small by lia. change (leading_zero ([48 + 0] ++ rest)) with rest. destruct rest as [|c r]; [done|].
    cbn [integer_part]. destruct ((49 <=? c) && (c <=? 57)) eqn:E; [|done]. destruct Hr as (Hr & _). unfold isdigit in Hr.
    apply andb_true_iff in E as [?%Z.leb_le ?%Z.leb_le]. apply andb_false_iff in Hr as [?%Z.leb_gt|?%Z.leb_gt]; lia.
  - destruct (decimal_head z) as (c & l & E & Hc); [lia|]. pose proof (digits_of_decimal z d_zero rest ltac:(lia)) as Hd. rewrite E in *.
    cbn [app leading_zero]. rewrite (proj2 (Z.eqb_neq c 48)) by lia. cbn [integer_part].
    rewrite (proj2 (Z.leb_le 49 c)), (proj2 (Z.leb_le c 57)) by lia. cbn [andb app] in *. rewrite Hd. by apply digits_of_stops.
Qed.

Lemma number_of_int n rest : - 2147483648 <= n < 2147483648 -> stops rest -> number_of pow (fmt_d n ++ rest) = (d_of_Z n, rest).
Proof.
  intros Hn Hr. unfold number_of, fmt_d.
  assert (forall s, d_mul (d_of_Z s) (pow (d_of_Z 10) (d_add d_zero (d_of_Z (s32 (0 * 1))))) = d_mul (d_of_Z s) (d_of_Z 1)) as Hone.
  { intros s. change (d_add d_zero (d_of_Z (s32 (0 * 1)))) with d_zero. by rewrite Hpow. }
  destruct (Z.ltb_spec n 0).
  - cbn [app minus_sign]. change (45 =? 45) with true. cbv iota. rewrite unsigned_number by (done || lia).
    rewrite fraction_stops, exponent_stops by done. rewrite d_mul_exact by (unfold fine; lia). rewrite Hone, d_mul_exact by (unfold fine; lia).
    do 2 f_equal. lia.
  - assert (minus_sign (decimal n ++ rest) = (d_of_Z 1, decimal n ++ rest)) as ->.
    { destruct (decide (n = 0)) as [->|]; [by rewrite decimal_small by lia|]. destruct (decimal_head n) as (c & l & -> & Hc); [lia|].
      cbn [app minus_sign]. by rewrite (proj2 (Z.eqb_neq c 45)) by lia. }
    rewrite unsigned_number by (done || lia). rewrite fraction_stops, exponent_stops by done.
    rewrite d_mul_exact by (unfold fine; lia). rewrite Hone, d_mul_exact by (unfold fine; lia). do 2 f_equal. lia.
Qed.
End Numbers.

(** The text of an int. *)
Lemma number_text_int n : - 2147483648 <= n < 2147483648 -> number_text n (d_of_Z n) = fmt_d n.
Proof.
  intros Hn. assert (fine n) as Hf by (unfold fine; lia). unfold number_text. cbv zeta. rewrite d_of_Z_zero by done.
  destruct (Z.eqb_spec n 0) as [->|]; [done|]. rewrite d_sub_self by done.
  assert (SpecFloat.SFleb (SpecFloat.SFabs d_zero) DBL_EPSILON = true) as -> by done.
  rewrite !d_le_exact by (unfold fine, INT_MAX, INT_MIN; lia). done.
Qed.

Lemma int_of_double_int ov n : - 2147483648 <= n < 2147483648 -> int_of_double ov (d_of_Z n) = n.
Proof.
  intros Hn. unfold int_of_double. rewrite d_trunc_exact by (unfold fine; lia). unfold INT_MIN, INT_MAX.
  rewrite (proj2 (Z.leb_le _ n)), (proj2 (Z.leb_le n _)) by lia. done.
Qed.

(** ** Strings *)

Definition more (s : list Z) (r : reading (list Z)) : reading (list Z) :=
  match r with Good x rest => Good (s ++ x) rest | r => r end.

Lemma decode_plain c l : c <> 34 -> c <> 0 -> c <> 92 -> decode (c :: l) = more [c] (decode l).
Proof.
  intros H1 H2 H3. cbn [decode]. rewrite (proj2 (Z.eqb_neq c 34)), (proj2 (Z.eqb_neq c 0)), (proj2 (Z.eqb_neq c 92)) by done.
  by destruct (decode l).
Qed.

Lemma escaped_cases c : 0 < c < 256 -> needs_escape c = true -> In c (34 :: 92 :: map Z.of_nat (seq 1 31)).
Proof.
  intros Hc. unfold needs_escape. intros [[[_ H%Z.ltb_lt]%andb_true_iff|H%Z.eqb_eq]%orb_true_iff|H%Z.eqb_eq]%orb_true_iff; [|by left|by right; left].
  right; right. apply in_map_iff. exists (Z.to_nat c). split; [lia|]. apply in_seq. lia.
Qed.

Lemma decode_escape c l : 0 < c < 256 -> decode (escape c ++ l) = more [c] (decode l).
Proof.
  intros Hc. destruct (needs_escape c) eqn:E.
  - apply escaped_cases in E; [|done]. clear Hc. vm_compute in E.
    repeat (destruct E as [<-|E]; [by cbn; destruct (decode l)|]). done.
  - unfold escape. rewrite E. apply decode_plain; intros ->; try lia; done.
Qed.

Lemma more_more a b r : more a (more b r) = more (a ++ b) r.
Proof. destruct r; cbn; [by rewrite app_assoc|done..]. Qed.

Lemma decode_escapes s l : Forall printable_char s -> decode (flat_map escape s ++ l) = more s (decode l).
Proof.
  induction 1 as [|c s Hc Hs IH]; [cbn; by destruct (decode l)|]. cbn [flat_map]. rewrite <- app_assoc, decode_escape, IH by done.
  by rewrite more_more.
Qed.

Lemma decode_quoted s rest : Forall printable_char s -> decode (flat_map escape s ++ 34 :: rest) = Good s rest.
Proof. intros Hs. rewrite decode_escapes by done. cbn. by rewrite app_nil_r. Qed.

(** ** Texts that the parser can read: no escape is cut short *)

Definition safe (l : list Z) : Prop := decode l <> Unsafe /\ whole_escapes l.
(** A text before anything that is safe. *)
Definition quiet (x : list Z) : Prop := forall l, safe l -> safe (x ++ l).

Lemma safe_end : safe [0].
Proof. split; [done|]. intros [|a0 [|a1 a]] r H; discriminate. Qed.

Lemma quiet_nil : quiet [].
Proof. by intros l. Qed.

Lemma quiet_app x y : quiet x -> quiet y -> quiet (x ++ y).
Proof. intros Hx Hy l Hl. rewrite <- app_assoc. by apply Hx, Hy. Qed.

Lemma whole_cons c l : (c = 34 -> decode l <> Unsafe) -> whole_escapes l -> whole_escapes (c :: l).
Proof.
  intros Hc Hl [|a0 a] r H; cbn in H.
  - injection H as -> ->. by apply Hc.
  - injection H as -> ->. by apply (Hl a).
Qed.

Lemma quiet_char c : c <> 92 -> quiet [c].
Proof.
  intros Hc l [Hd Hw]. split; [|by apply whole_cons]. cbn [app].
  destruct (decide (c = 34)) as [->|H34]; [done|]. destruct (decide (c = 0)) as [->|H0]; [done|].
  rewrite decode_plain by done. by destruct (decode l).
Qed.

Lemma quiet_cons c x : c <> 92 -> quiet x -> quiet (c :: x).
Proof. intros Hc Hx. apply (quiet_app [c] x); [by apply quiet_char|done]. Qed.

Lemma quiet_plain x : Forall (fun c => c <> 92) x -> quiet x.
Proof. induction 1; [apply quiet_nil|by apply quiet_cons]. Qed.

Lemma quiet_escape c : 0 < c < 256 -> quiet (escape c).
Proof.
  intros Hc l [Hd Hw]. split; [rewrite decode_escape by done; by destruct (decode l)|].
  unfold escape. destruct (needs_escape c) eqn:E.
  - apply escaped_cases in E; [|done]. clear Hc. vm_compute in E.
    repeat (destruct E as [<-|E]; [cbn; repeat (apply whole_cons; [done|]); exact Hw|]). done.
  - apply whole_cons; [|done]. intros ->. done.
Qed.

Lemma quiet_quoted s : Forall printable_char s -> quiet (quoted s).
Proof.
  intros Hs. apply quiet_cons; [lia|]. apply quiet_app; [|by apply quiet_char].
  induction Hs; [apply quiet_nil|]. cbn [flat_map]. by apply quiet_app; [apply quiet_escape|].
Qed.

Lemma quiet_joined sep l : quiet sep -> Forall quiet l -> quiet (joined sep l).
Proof.
  intros Hs Hl. induction Hl as [|x l Hx Hl IH]; [apply quiet_nil|]. destruct l; [done|]. cbn [joined].
  apply quiet_app; [done|]. by apply quiet_app.
Qed.

Lemma quiet_fmt_d n : quiet (fmt_d n).
Proof.
  apply quiet_plain. assert (forall z, Forall (fun c => c <> 92) (decimal z)) as H.
  { intros z. eapply Forall_impl; [apply decimal_digits|]. cbn. intros c Hc%digit_range. lia. }
  unfold fmt_d. destruct (n <? 0); [constructor; [lia|]|]; apply H.
Qed.

(** ** Spaces *)

Definition spaces (l : list Z) : Prop := Forall (fun c => 0 < c <= 32) l.

Lemma skip_spaces sp l : spaces sp -> skip_space (sp ++ l) = skip_space l.
Proof.
  induction 1 as [|c sp Hc Hsp IH]; [done|]. cbn [app skip_space].
  rewrite (proj2 (Z.eqb_neq c 0)), (proj2 (Z.leb_le c 32)) by lia. exact IH.
Qed.

Lemma skip_none c l : 32 < c -> skip_space (c :: l) = c :: l.
Proof. intros Hc. cbn [skip_space]. rewrite (proj2 (Z.leb_gt c 32)) by lia. by rewrite andb_false_r. Qed.

(** ** Lists *)

Definition skips (element : list Z -> reading tree) : Prop := forall sp l, spaces sp -> element (sp ++ l) = element l.

(** An element is read back, whatever follows. *)
Definition reads_back (element : list Z -> reading tree) (t : tree) (x : list Z) : Prop :=
  forall rest, stops rest -> element (x ++ rest) = Good t (skip_space rest).

(** The first character that is not a space closes no list. *)
Definition begins (x : list Z) : Prop := exists sp c r, x = sp ++ c :: r /\ spaces sp /\ 32 < c /\ c <> 93 /\ c <> 125.

Section ListsBack.
Context (element : list Z -> reading tree) (close : Z) (sp ws : list Z) (rest : list Z).
Hypothesis Hskip : skips element.
Hypothesis Hsp : spaces sp.
Hypothesis Hws : spaces ws.
Hypothesis Hclose : close = 93 \/ close = 125.

(** The elements behind the first one. *)
Fixpoint tail_text (l : list (list Z)) : list Z :=
  match l with
  | [] => ws ++ close :: rest
  | x :: l => 44 :: sp ++ x ++ tail_text l
  end.

Lemma joined_tail x l : joined (44 :: sp) (x :: l) ++ ws ++ close :: rest = x ++ tail_text l.
Proof.
  revert x. induction l as [|y l IH]; intros x; [done|].
  change (joined (44 :: sp) (x :: y :: l)) with (x ++ (44 :: sp) ++ joined (44 :: sp) (y :: l)).
  change (tail_text (y :: l)) with (44 :: sp ++ y ++ tail_text l). rewrite <- !app_assoc, IH. done.
Qed.

Lemma tail_stops l : stops (tail_text l).
Proof.
  destruct l as [|x l]; cbn [tail_text]; [|done]. destruct ws as [|c w]; cbn [app stops].
  - destruct Hclose as [->| ->]; done.
  - inversion Hws; subst. split; [|lia]. unfold isdigit. rewrite (proj2 (Z.leb_gt 48 c)) by lia. done.
Qed.

Lemma tail_length l : (length l <= length (skip_space (tail_text l)))%nat.
Proof.
  induction l as [|x l IH]; [cbn; lia|]. cbn [tail_text]. rewrite skip_none by lia. cbn [length]. rewrite !length_app.
  assert (length (skip_space (tail_text l)) <= length (tail_text l))%nat; [|lia].
  generalize (tail_text l). intros y. induction y as [|c y IHy]; cbn; [lia|]. destruct (_ && _); cbn; lia.
Qed.

Lemma elements_back ts l n :
  Forall2 (reads_back element) ts l -> (length l < n)%nat -> elements_of n element close (skip_space (tail_text l)) = Good ts rest.
Proof.
  intros H. revert n. induction H as [|t x ts l Hx Hl IH]; intros n Hn; (destruct n as [|n]; [lia|]).
  - cbn [tail_text]. rewrite skip_spaces by done. rewrite skip_none by lia. cbn [elements_of].
    rewrite (proj2 (Z.eqb_neq close 44)) by lia. by rewrite Z.eqb_refl.
  - cbn [tail_text]. rewrite skip_none by lia. cbn [elements_of]. change (44 =? 44) with true. cbv iota.
    rewrite Hskip by done. rewrite Hx by apply tail_stops. cbn [and_then]. rewrite IH by (cbn in *; lia). done.
Qed.

Lemma list_back ts l :
  Forall2 (reads_back element) ts l -> Forall begins l -> (l = [] -> ws = []) ->
  forall pre, spaces pre -> list_of element close (pre ++ joined (44 :: sp) l ++ ws ++ close :: rest) = Good ts rest.
Proof.
  intros H Hb Hempty pre Hpre. unfold list_of. rewrite skip_spaces by done. destruct H as [|t x ts l Hx Hl].
  - rewrite Hempty by done. cbn [joined app]. rewrite skip_none by lia. by rewrite Z.eqb_refl.
  - rewrite joined_tail. inversion Hb as [|? ? (s0 & c & r & -> & Hs0 & Hc & H93 & H125) _]; subst.
    rewrite <- app_assoc. rewrite skip_spaces by done. cbn [app]. rewrite skip_none by done.
    rewrite (proj2 (Z.eqb_neq c close)) by lia.
    replace (element (c :: r ++ tail_text l)) with (Good t (skip_space (tail_text l))); cycle 1.
    { rewrite <- (Hx (tail_text l) (tail_stops l)), <- app_assoc. cbn [app]. by rewrite Hskip. }
    cbn [and_then]. rewrite (elements_back ts l); [done|done|]. pose proof (tail_length l). lia.
Qed.
End ListsBack.

(** ** Values *)

Abbreviation item_data ty s n d nm := (mkData ty s n d nm).

(** The trees that the parser builds, with numbers that are ints.  Elements of
    arrays have no name, members of objects have one. *)
Inductive canonical : tree -> Prop :=
| canonical_null nm : canonical (Tree (mkData cJSON_NULL None 0 d_zero nm) [])
| canonical_false nm : canonical (Tree (mkData cJSON_False None 0 d_zero nm) [])
| canonical_true nm : canonical (Tree (mkData cJSON_True None 1 d_zero nm) [])
| canonical_number n nm : - 2147483648 <= n < 2147483648 ->
    canonical (Tree (mkData cJSON_Number None n (d_of_Z n) nm) [])
| canonical_string s nm : Forall printable_char s -> canonical (Tree (mkData cJSON_String (Some s) 0 d_zero nm) [])
| canonical_array kids nm : Forall canonical kids -> Forall (fun t => d_name (data_of t) = None) kids ->
    canonical (Tree (mkData cJSON_Array None 0 d_zero nm) kids)
| canonical_object kids nm : Forall canonical kids ->
    Forall (fun t => exists s, d_name (data_of t) = Some s /\ Forall printable_char s) kids ->
    canonical (Tree (mkData cJSON_Object None 0 d_zero nm) kids).

(** A canonical tree without the name of its root. *)
Definition unnamed (t : tree) : tree :=
  let 'Tree d kids := t in Tree (mkData (d_type d) (d_string d) (d_int d) (d_double d) None) kids.

Section Values.
Context (pow : double -> double -> double) (int_overflow : double -> Z) (fmt : bool).
Hypothesis Hpow : pow (d_of_Z 10) d_zero = d_of_Z 1.
Abbreviation value_of := (value_of pow int_overflow).

(** What is proved of a value and its text. *)
Definition back (n : nat) (t : tree) (x : list Z) : Prop :=
  (forall rest, stops rest -> value_of n (x ++ rest) = Good (unnamed t) rest) /\
  (exists c r, x = c :: r /\ 32 < c /\ c <> 93 /\ c <> 125) /\ quiet x.

Lemma prefix_differs p c r : match p with x :: _ => x <> c | [] => False end -> is_prefix p (c :: r) = false.
Proof. destruct p as [|x p]; [done|]. intros H. cbn. by rewrite (proj2 (Z.eqb_neq x c)) by done. Qed.

(** The value of a text by its first character. *)
Lemma value_by_char n c r :
  c <> 110 -> c <> 102 -> c <> 116 ->
  value_of (S n) (c :: r) =
  (if c =? 34 then and_then (decode r) (fun s r => Good (leaf cJSON_String (Some s) 0 d_zero) r)
   else if (c =? 45) || isdigit c then
     let '(d, r) := number_of pow (c :: r) in
     Good (leaf cJSON_Number None (int_of_double int_overflow d) d) r
   else if c =? 91 then
     and_then (list_of (element_of (value_of n)) 93 r) (fun ts r => Good (Tree (mkData cJSON_Array None 0 d_zero None) ts) r)
   else if c =? 123 then
     and_then (list_of (member_of (value_of n)) 125 r) (fun ts r => Good (Tree (mkData cJSON_Object None 0 d_zero None) ts) r)
   else Wrong).
Proof.
  intros H1 H2 H3. cbn [CJsonText.value_of].
  rewrite (prefix_differs (bytes "null")) by (intros E; by apply H1). rewrite (prefix_differs (bytes "false")) by (intros E; by apply H2).
  by rewrite (prefix_differs (bytes "true")) by (intros E; by apply H3).
Qed.

Lemma element_skips n : skips (element_of (value_of n)).
Proof. intros sp l Hsp. unfold element_of. by rewrite skip_spaces. Qed.
Lemma member_skips n : skips (member_of (value_of n)).
Proof. intros sp l Hsp. unfold member_of. by rewrite skip_spaces. Qed.

Lemma element_back n t x :
  back n t x -> d_name (data_of t) = None -> reads_back (element_of (value_of n)) t x.
Proof.
  intros (Hv & (c & r & -> & Hc & _) & _) Hn rest Hr. unfold element_of. cbn [app]. rewrite skip_none by done.
  change (c :: r ++ rest) with ((c :: r) ++ rest). rewrite Hv by done. cbn [and_then].
  destruct t as [[] kids]. cbn in Hn |- *. by subst.
Qed.

Abbreviation indent n := (if fmt then tabs n else []).

Lemma spaces_indent n : spaces (indent n).
Proof. destruct fmt; [|constructor]. unfold tabs. apply Forall_replicate. lia. Qed.

Lemma member_back n t s v depth :
  back n t v -> d_name (data_of t) = Some s -> Forall printable_char s ->
  reads_back (member_of (value_of n)) t (indent depth ++ quoted s ++ [58] ++ (if fmt then [9] else []) ++ v).
Proof.
  intros (Hv & (c & r & -> & Hc & _) & _) Hn Hs rest Hr. unfold member_of, quoted. rewrite <- !app_assoc. rewrite skip_spaces by apply spaces_indent.
  cbn [app]. rewrite skip_none by lia. cbn [string_of]. change (34 =? 34) with true. cbv iota.
  rewrite <- app_assoc. cbn [app]. rewrite decode_quoted by done. cbn [and_then].
  rewrite skip_none by lia. change (58 =? 58) with true. cbv iota.
  assert (spaces (if fmt then [9] else [])) as H9 by (destruct fmt; repeat constructor; lia).
  rewrite skip_spaces by done. cbn [app]. rewrite skip_none by done.
  change (c :: r ++ rest) with ((c :: r) ++ rest). rewrite Hv by done. cbn [and_then].
  destruct t as [[] kids]. cbn in Hn |- *. by subst.
Qed.
End Values.
