(* ===== verification/CJsonReadBack.v ===== *)
(** The round trip: the parser, on the text that the printer wrote for a tree,
    builds the same tree. *)

From iris.proofmode Require Import proofmode.
From stdpp Require Import gmap.
From S2P Require Import Prelude.
From S2P Require Import CMonad.
From S2P Require Import CString.
From S2P Require Import JsonDouble.
From S2P Require Import JsonHeap.
From S2P Require Import CJson.
From S2P Require Import CJsonParse.
From S2P Require Import CJsonPrint.
From S2P Require Import JsonLogic.
From S2P Require Import CJsonFacts.
From S2P Require Import CJsonText.
From S2P Require Import CJsonTextFacts.
From S2P Require Import CJsonParseFacts.
From S2P Require Import JsonNumberFacts.
From S2P Require Import CJsonPrintFacts.
From S2P Require Import CJsonPrintPlainFacts.
From S2P Require Import CJsonPrintValueFacts.
From S2P Require Import CJsonRoundTrip.

Section Values.
Context (pow : double -> double -> double) (int_overflow : double -> Z) (fmt : bool).
Hypothesis Hpow : pow (d_of_Z 10) d_zero = d_of_Z 1.
Abbreviation value_of := (value_of pow int_overflow).
Abbreviation back := (back pow int_overflow).

Lemma back_word n ty k s nm :
  (forall rest, stops rest -> value_of (S n) (s ++ rest) = Good (leaf ty None k d_zero) rest) ->
  (exists c r, s = c :: r /\ 32 < c /\ c <> 93 /\ c <> 125) -> Forall (fun c => c <> 92) s ->
  back (S n) (Tree (mkData ty None k d_zero nm) []) s.
Proof. intros Hv Hc Hs. split; [exact Hv|]. split; [done|]. by apply quiet_plain. Qed.

Lemma back_number n k nm : -2147483648 <= k < 2147483648 ->
  back (S n) (Tree (mkData cJSON_Number None k (d_of_Z k) nm) []) (fmt_d k).
Proof.
  intros Hk. assert (exists c r, fmt_d k = c :: r /\ (c = 45 \/ isdigit c = true)) as (c & r & E & Hc).
  { unfold fmt_d. destruct (k <? 0); [by exists 45, (decimal (-k)); auto|].
    pose proof (decimal_digits k) as H. pose proof (decimal_nonempty k). destruct (decimal k) as [|c r]; [cbn in *; lia|].
    exists c, r. inversion H; auto. }
  assert (c = 45 \/ 48 <= c <= 57) as Hr by (destruct Hc as [|H%digit_range]; auto).
  split; [|split].
  - intros rest Hrest. pose proof (number_of_int pow Hpow k rest Hk Hrest) as Hn. rewrite E in Hn |- *. cbn [app] in *.
    rewrite value_by_char; [|lia..]. rewrite (proj2 (Z.eqb_neq c 34)); [|lia].
    assert ((c =? 45) || isdigit c = true) as -> by (destruct Hc as [->| ->]; [done|by rewrite orb_true_r]).
    rewrite Hn. by rewrite int_of_double_int.
  - exists c, r. split; [done|]. lia.
  - apply quiet_fmt_d.
Qed.

Lemma back_string n s nm : Forall printable_char s -> back (S n) (Tree (mkData cJSON_String (Some s) 0 d_zero nm) []) (quoted s).
Proof.
  intros Hs. split; [|split].
  - intros rest _. unfold quoted. cbn [app]. rewrite value_by_char; [|lia..]. change (34 =? 34) with true. cbv iota.
    rewrite -app_assoc. cbn [app]. by rewrite decode_quoted.
  - eexists _, _. split; [done|]. lia.
  - by apply quiet_quoted.
Qed.

Lemma back_all (g : tree -> option (list Z)) (P : tree -> list Z -> Prop) kids texts :
  (forall t x, t ∈ kids -> g t = Some x -> P t x) -> all_some g kids = Some texts -> Forall2 P kids texts.
Proof.
  revert texts. induction kids as [|t kids IH]; intros texts HP H; [by injection H as <-|].
  apply all_some_cons in H as (y & ys & -> & Hy & H). constructor; [apply HP; [by left|done]|].
  apply IH; [|done]. intros t' x Hin. apply HP. by right.
Qed.

Abbreviation indent n := (if fmt then tabs n else []).

Lemma back_array n kids nm texts :
  Forall (fun t => d_name (data_of t) = None) kids -> Forall2 (back n) kids texts ->
  back (S n) (Tree (mkData cJSON_Array None 0 d_zero nm) kids) (array_text fmt texts).
Proof.
  intros Hn Hb. unfold array_text. split; [|split].
  - intros rest Hr. cbn [app]. rewrite value_by_char; [|lia..]. change (91 =? 34) with false. change ((91 =? 45) || isdigit 91) with false.
    change (91 =? 91) with true. cbv iota.
    pose (sp := if fmt then [32] else []). replace (if fmt then [44; 32] else [44]) with (44 :: sp) by (unfold sp; by destruct fmt).
    rewrite -app_assoc. rewrite (list_back _ 93 sp [] rest (element_skips _ _ n) ltac:(unfold sp; destruct fmt; repeat constructor; lia) ltac:(constructor) ltac:(by left) kids texts _ _ _ []).
    + done.
    + clear -Hn Hb. induction Hb; inversion Hn; subst; constructor; [by apply element_back|auto].
    + clear -Hb. induction Hb as [|t x l l' (_ & (c & r & -> & H) & _) Hl IH]; constructor; [|done]. exists [], c, r. split; [done|]. by split; [constructor|].
    + done.
    + constructor.
  - eexists _, _. split; [done|]. lia.
  - apply quiet_cons; [lia|]. apply quiet_app; [|by apply quiet_char]. apply quiet_joined.
    + apply quiet_plain. destruct fmt; repeat constructor; lia.
    + clear -Hb. induction Hb as [|t x l l' (_ & _ & H) Hl IH]; by constructor.
Qed.

Abbreviation newline := (if fmt then [10] else []).

Lemma spaces_newline : spaces newline.
Proof. destruct fmt; repeat constructor; lia. Qed.

(** Members and their texts. *)
Definition member_texts (n : nat) : list tree -> list (list Z) -> Prop :=
  Forall2 (fun t x => exists s v depth, d_name (data_of t) = Some s /\ Forall printable_char s /\ back n t v /\
    x = indent depth ++ quoted s ++ [58] ++ (if fmt then [9] else []) ++ v).

Lemma members_read n kids texts : member_texts n kids texts -> Forall2 (reads_back (member_of (value_of n))) kids texts.
Proof.
  induction 1 as [|t x l l' (s & v & depth & Hn & Hs & Hv & ->) Hl IH]; constructor; [|done]. by apply member_back.
Qed.

Lemma members_begin n kids texts : member_texts n kids texts -> Forall begins texts.
Proof.
  induction 1 as [|t x l l' (s & v & depth & Hn & Hs & Hv & ->) Hl IH]; constructor; [|done].
  exists (indent depth), 34, (flat_map escape s ++ [34] ++ [58] ++ (if fmt then [9] else []) ++ v). split.
  - unfold quoted. cbn [app]. by rewrite -!app_assoc.
  - split; [apply spaces_indent|lia].
Qed.

Lemma quiet_spaces l : spaces l -> quiet l.
Proof. intros H. apply quiet_plain. eapply Forall_impl; [exact H|]. cbn. lia. Qed.

Lemma members_quiet n kids texts : member_texts n kids texts -> Forall quiet texts.
Proof.
  induction 1 as [|t x l l' (s & v & depth & Hn & Hs & (_ & _ & Hv) & ->) Hl IH]; constructor; [|done].
  apply quiet_app; [apply quiet_spaces, spaces_indent|]. apply quiet_app; [by apply quiet_quoted|].
  apply quiet_cons; [lia|]. apply quiet_app; [|done]. apply quiet_plain. destruct fmt; repeat constructor; lia.
Qed.

Lemma object_quiet n depth kids texts : member_texts n kids texts -> quiet (object_text fmt depth texts).
Proof.
  intros Hb%members_quiet. pose proof (quiet_spaces _ spaces_newline) as Hnl. pose proof (fun k => quiet_spaces _ (spaces_indent fmt k)) as Hin.
  assert (quiet [125]) as H125 by by apply quiet_char.
  unfold object_text. destruct texts; (apply quiet_cons; [lia|]); repeat (apply quiet_app; [done|]); [done|].
  apply quiet_app; [|repeat (apply quiet_app; [done|]); done]. apply quiet_joined; [|done]. apply quiet_plain. destruct fmt; repeat constructor; lia.
Qed.

Lemma back_object n depth kids nm texts :
  member_texts n kids texts -> back (S n) (Tree (mkData cJSON_Object None 0 d_zero nm) kids) (object_text fmt depth texts).
Proof.
  intros Hb. split; [|split; [|by eapply object_quiet]].
  - intros rest Hr. 
    assert (exists pre ws, object_text fmt depth texts = 123 :: pre ++ joined (44 :: newline) texts ++ ws ++ [125] /\
      spaces pre /\ spaces ws /\ (texts = [] -> ws = [])) as (pre & ws & -> & Hpre & Hws & Hnil).
    { unfold object_text. destruct texts as [|x l].
      - exists (newline ++ indent (depth - 1)), []. split; [cbn [joined app]; by rewrite -app_assoc|].
        split; [apply Forall_app_2; [apply spaces_newline|apply spaces_indent]|]. split; [constructor|done].
      - exists newline, (newline ++ indent depth). replace (if fmt then [44; 10] else [44]) with (44 :: newline) by by destruct fmt.
        split; [by rewrite -app_assoc|]. split; [apply spaces_newline|]. split; [apply Forall_app_2; [apply spaces_newline|apply spaces_indent]|done]. }
    cbn [app]. rewrite value_by_char; [|lia..]. change (123 =? 34) with false. change ((123 =? 45) || isdigit 123) with false.
    change (123 =? 91) with false. change (123 =? 123) with true. cbv iota. rewrite -!app_assoc. cbn [app].
    rewrite (list_back _ 125 newline ws rest (member_skips _ _ n) spaces_newline Hws ltac:(by right) kids texts
      (members_read _ _ _ Hb) (members_begin _ _ _ Hb) Hnil pre Hpre). done.
  - unfold object_text. destruct texts; eexists _, _; (split; [done|lia]).
Qed.

Lemma canonical_back t n depth x :
  canonical t -> (tree_size t <= n)%nat -> render fmt depth t = Some x -> back n t x.
Proof.
  revert n depth x. induction t as [d kids IH] using tree_induction. intros n depth x Hc Hn.
  destruct n as [|n]; [cbn in Hn; lia|]. rewrite render_unfold. cbv zeta. cbn [tree_size] in Hn. rewrite Forall_forall in IH.
  assert (forall t, t ∈ kids -> (tree_size t <= n)%nat) as Hsize.
  { intros t Ht. pose proof (sum_list_with_in t tree_size kids Ht). lia. }
  inversion Hc as [nm|nm|nm|k nm Hk|s nm Hs|kids' nm Hk Hnm|kids' nm Hk Hnm]; subst; cbn [d_type d_string d_int d_double];
    intros H; apply Some_inj in H || idtac; subst.
  - apply back_word; [done|by eexists _, _|]. by repeat constructor.
  - apply back_word; [done|by eexists _, _|]. by repeat constructor.
  - apply back_word; [done|by eexists _, _|]. by repeat constructor.
  - rewrite number_text_int; [|done]. by apply back_number.
  - by apply back_string.
  - change (array_text fmt <$> all_some (render fmt (S depth)) kids = Some x) in H.
    destruct (all_some _ _) as [texts|] eqn:Ht; [|done]. apply Some_inj in H. subst x. apply back_array; [done|].
    eapply back_all; [|exact Ht]. intros t x Hin. rewrite Forall_forall in Hk. apply IH; auto.
  - change (object_text fmt depth <$> all_some (member_of_text fmt (S depth)) kids = Some x) in H.
    destruct (all_some _ _) as [texts|] eqn:Ht; [|done]. apply Some_inj in H. subst x. apply back_object.
    eapply back_all; [|exact Ht]. intros t x Hin Hx. rewrite Forall_forall in Hk. rewrite Forall_forall in Hnm.
    destruct (Hnm t Hin) as (s & Hs & Hp). unfold member_of_text in Hx. rewrite Hs in Hx.
    destruct (render fmt (S depth) t) as [v|] eqn:Hv; [|done]. apply Some_inj in Hx. subst x.
    exists s, v, (S depth). split_and!; [done|done| |done]. by eapply IH; auto.
Qed.

(** Every canonical tree has a text. *)
Lemma all_some_total {A B} (g : A -> option B) l : (forall x, x ∈ l -> is_Some (g x)) -> is_Some (all_some g l).
Proof.
  induction l as [|x l IH]; intros H; [by eexists|]. cbn. destruct (H x) as [y ->]; [by left|].
  destruct IH as [ys ->]; [|by eexists]. intros x' Hx. apply H. by right.
Qed.

Lemma canonical_text t depth : canonical t -> is_Some (render fmt depth t).
Proof.
  revert depth. induction t as [d kids IH] using tree_induction. intros depth Hc. rewrite Forall_forall in IH. rewrite render_unfold. cbv zeta.
  inversion Hc as [nm|nm|nm|k nm Hk|s nm Hs|kids' nm Hk Hnm|kids' nm Hk Hnm]; subst; cbn [d_type d_string d_int d_double]; try by eexists.
  - destruct (all_some_total (render fmt (S depth)) kids) as [l Hl]; [|exists (array_text fmt l); cbn; by rewrite Hl].
    intros t Ht. rewrite Forall_forall in Hk. by apply IH; auto.
  - destruct (all_some_total (member_of_text fmt (S depth)) kids) as [l Hl]; [|exists (object_text fmt depth l); cbn; by rewrite Hl].
    intros t Ht. rewrite Forall_forall in Hk. rewrite Forall_forall in Hnm. destruct (Hnm t Ht) as (s & Hs & _).
    unfold member_of_text. rewrite Hs. destruct (IH t Ht (S depth)) as [v ->]; [by apply Hk|]. by eexists.
Qed.
End Values.

(** A canonical tree can be printed. *)
Lemma int_double_valid s p : Zpos p < 2 ^ 53 -> valid (int_double s p) = true.
Proof.
  intros Hp. pose proof (small_digits p Hp) as Hd. pose proof (exact_mantissa p Hp) as Hq. unfold valid, int_double. cbn [SpecFloat.valid_binary].
  set (q := Z.to_pos _) in *. unfold SpecFloat.bounded, SpecFloat.canonical_mantissa.
  rewrite (digits_shift p q (53 - Zpos (SpecFloat.digits2_pos p))); [|lia|done].
  apply andb_true_iff. split; [apply Z.eqb_eq; unfold SpecFloat.fexp, SpecFloat.emin; lia|apply Z.leb_le; lia].
Qed.

Lemma d_of_Z_valid z : fine z -> valid (d_of_Z z) = true.
Proof.
  intros Hz. rewrite d_of_Z_exact; [|done]. unfold fine in Hz. destruct z; [done|apply int_double_valid; lia..].
Qed.

Definition named_text (t : tree) : Prop := is_text_option (d_name (data_of t)).

Lemma printable_leaf d : printable_data d -> printable (Tree d []).
Proof. intros H. by constructor. Qed.

Lemma plain_data ty s k d nm :
  flagless ty -> is_text_option s -> is_text_option nm -> valid d = true -> -2147483648 <= k < 2147483648 ->
  printable_data (mkData ty s k d nm).
Proof. intros [Hr Hc] Hs Hn Hd Hk. split; [unfold plain; cbn; by rewrite Hr Hc|done]. Qed.

Lemma canonical_printable t : canonical t -> named_text t -> printable t.
Proof.
  induction t as [d kids IH] using tree_induction. intros Hc Hn. unfold named_text in Hn. cbn [data_of] in Hn.
  rewrite Forall_forall in IH.
  inversion Hc as [nm|nm|nm|k nm Hk|s nm Hs|kids' nm Hk Hnm|kids' nm Hk Hnm]; subst.
  - apply printable_leaf, plain_data; by try split.
  - apply printable_leaf, plain_data; by try split.
  - apply printable_leaf, plain_data; by try split.
  - apply printable_leaf, plain_data; [by split|done|done|apply d_of_Z_valid; unfold fine; lia|lia].
  - apply printable_leaf, plain_data; by try split.
  - constructor; [apply plain_data; by try split|done|]. rewrite Forall_forall in Hk. rewrite Forall_forall in Hnm.
    apply Forall_forall. intros t Ht. apply IH; [done|by apply Hk|]. unfold named_text. by rewrite Hnm.
  - constructor; [apply plain_data; by try split|done|]. rewrite Forall_forall in Hk. rewrite Forall_forall in Hnm.
    apply Forall_forall. intros t Ht. apply IH; [done|by apply Hk|]. unfold named_text. by destruct (Hnm t Ht) as (s & -> & Hs).
Qed.
