(* ===== verification/CJsonApiFacts.v ===== *)
(** The operations of cJSON.h as whole computations: from one state of the
    memory to another, with the rest of the memory as it was.

    [holds P rest s] says that the memory of [s] is [rest] and a part of which
    [P] holds; [triple P m Q] that [m] returns from such a state and makes [Q] of
    [P] there. *)

From iris.proofmode Require Import proofmode.
From stdpp Require Import gmap.
From S2P Require Import Prelude.
From S2P Require Import CMonad.
From S2P Require Import CString.
From S2P Require Import JsonDouble.
From S2P Require Import JsonHeap.
From S2P Require Import CJson.
From S2P Require Import CJsonParse.
From S2P Require Import CJsonPrint.
From S2P Require Import JsonLogic.
From S2P Require Import CJsonFacts.
From S2P Require Import CJsonText.
From S2P Require Import CJsonTextFacts.
From S2P Require Import CJsonParseFacts.
From S2P Require Import CJsonPrintFacts.
From S2P Require Import CJsonPrintPlainFacts.
From S2P Require Import CJsonPrintValueFacts.

Definition holds (P : hprop) (rest : heap) (s : memory) : Prop :=
  exists h, objects s = h ∪ rest /\ h ##ₘ rest /\ memory_ok s /\ satisfies P h.

Definition triple {A} (P : hprop) (m : M memory A) (Q : A -> hprop) : Prop :=
  forall rest s, holds P rest s -> exists a s', m s = Ok (a, s') /\ holds (Q a) rest s'.

Lemma triple_swp {A} P (m : M memory A) Q : (P ⊢ swp m Q) -> triple P m Q.
Proof.
  intros H rest s (h & Hs & Hd & Hok & HP). destruct (swp_run P m Q s h rest H HP Hs Hd Hok) as (a & s' & Hm & h' & ?).
  exists a, s'. split; [done|]. by exists h'.
Qed.

(** What holds of nothing, and what is left out. *)
Lemma holds_emp rest s : holds emp rest s <-> objects s = rest /\ memory_ok s.
Proof.
  split.
  - intros (h & Hs & Hd & Hok & HP). change (h = ∅) in HP. subst h. by rewrite map_empty_union in Hs.
  - intros [<- Hok]. exists ∅. split; [by rewrite map_empty_union|]. split; [apply map_disjoint_empty_l|]. done.
Qed.

Lemma holds_mono P Q rest s : (P ⊢ Q) -> holds P rest s -> holds Q rest s.
Proof. intros [H] (h & Hs & Hd & Hok & HP). exists h. split_and!; auto. Qed.

Lemma holds_fact φ P rest s : holds (⟨φ⟩ ∗ P) rest s -> φ /\ holds P rest s.
Proof.
  intros H. assert (φ) as Hφ; [|split; [done|]].
  - destruct H as (h & _ & _ & _ & h1 & h2 & -> & _ & [_ Hφ] & _). exact Hφ.
  - eapply holds_mono; [|exact H]. by iIntros "[_ $]".
Qed.

(** No request for memory fails. *)
Definition enough_memory (can_malloc : allocator -> list Z -> Z -> bool) : Prop := forall f h n, can_malloc f h n = true.

Lemma never_out can_malloc : enough_memory can_malloc -> ~ out_of_memory can_malloc.
Proof. intros H (f & h & n & E). by rewrite H in E. Qed.

Section Printing.
Context (can_malloc : allocator -> list Z -> Z -> bool) (fuel : nat).
Abbreviation oom := (out_of_memory can_malloc).

(** A string of the caller's, or NULL because there was no memory. *)
Definition text_result (x : list Z) (r : option ptr) : hprop :=
  match r with Some q => str_at q x | None => ⟨oom⟩ end.

(** The text of a tree, as long as the printer can make it. *)
Definition text_of (fmt : bool) (t : tree) (x : list Z) : Prop :=
  printable t /\ render fmt 0 t = Some x /\ (List.length x < fuel)%nat /\ zlen x + 64 <= 1073741824.

Lemma text_small fmt t x : text_of fmt t x -> small fuel t /\ c_string x.
Proof.
  intros (Hp & Hx & Hf & _). destruct (render_fits _ _ _ _ Hp Hx) as [H1 H2]. split; [split; [done|lia]|]. by apply is_text_string.
Qed.

Lemma swp_print_plain fmt t x i nx pv (Q : option ptr -> hprop) :
  text_of (negb (fmt =? 0)) t x ->
  tree_at t i nx pv -∗ (∀ r, tree_at t i nx pv -∗ text_result x r -∗ Q r) -∗
  swp (print_value can_malloc fuel fuel (Some i) 0 fmt None) Q.
Proof.
  intros Ht. destruct (text_small _ _ _ Ht) as [Hs Hc]. destruct Ht as (Hp & Hx & Hf & Hl). iIntros "Ht HQ".
  iApply (prints_value can_malloc fuel fmt fuel 0 t x i nx pv None [] with "Ht [//]"); [done|done|done|done|].
  iIntros (r) "Ht Hr". iApply ("HQ" with "Ht"). by iApply own_string.
Qed.

(** Without a buffer there is nothing to print into. *)
Lemma swp_room_for_dead b n x (Q : option ptr -> hprop) :
  dead (Some b) -∗ (dead (Some b) -∗ Q None) -∗ swp (room_for can_malloc (Some b) n x) Q.
Proof.
  iIntros "Hb HQ". sbind. iApply (swp_ensure_dead with "Hb"). iIntros "Hb". sret. by iApply "HQ".
Qed.

Lemma swp_print_string_ptr_dead b sp s (Q : option ptr -> hprop) :
  str_at sp s -∗ dead (Some b) -∗ (str_at sp s -∗ dead (Some b) -∗ Q None) -∗
  swp (print_string_ptr can_malloc fuel (Some sp) (Some b)) Q.
Proof.
  iIntros "Hs Hb HQ". sbind. iApply swp_access. sbind. iApply (swp_cstring with "Hs"). iIntros "Hs".
  destruct (existsb needs_escape s); cbn [negb]; sbind; iApply (swp_ensure_dead with "Hb"); iIntros "Hb"; sret; iApply ("HQ" with "Hs Hb").
Qed.

Lemma swp_print_list_dead (m m' : M memory (option ptr)) kids ch la b (Q : option ptr -> hprop) :
  (List.length kids < fuel)%nat -> zlen kids < 2147483648 ->
  (forall Q : option ptr -> hprop, dead (Some b) -∗ (dead (Some b) -∗ Q None) -∗ swp m Q) ->
  (forall Q : option ptr -> hprop, dead (Some b) -∗ (dead (Some b) -∗ Q None) -∗ swp m' Q) ->
  segment kids ch None None la -∗ dead (Some b) -∗ (segment kids ch None None la -∗ dead (Some b) -∗ Q None) -∗
  swp (n <- count_entries fuel ch ;; if n =? 0 then m else m') Q.
Proof.
  iIntros (Hf Hl Hm Hm') "Hs Hb HQ". sbind. iApply (swp_count_entries with "Hs"); [done|done|]. iIntros "Hs".
  destruct (zlen kids =? 0); [iApply (Hm with "Hb")|iApply (Hm' with "Hb")]; iIntros "Hb"; iApply ("HQ" with "Hs Hb").
Qed.

Lemma swp_buffered_dead (print : option nat -> Z -> Z -> option nat -> M memory (option ptr)) a depth fmt b (Q : option ptr -> hprop) :
  dead (Some b) -∗ (dead (Some b) -∗ Q None) -∗ swp (print_array_buffered can_malloc fuel print a depth fmt b) Q.
Proof.
  iIntros "(%len & %off & Hb) HQ". sbind. iApply (swp_get_buffer with "Hb"). iIntros "Hb". sbind.
  iApply (swp_ensure_dead with "[Hb]"); [by iExists len, off|]. iIntros "Hb". sret. by iApply "HQ".
Qed.

Lemma swp_object_buffered_dead (print : option nat -> Z -> Z -> option nat -> M memory (option ptr)) a depth fmt b (Q : option ptr -> hprop) :
  dead (Some b) -∗ (dead (Some b) -∗ Q None) -∗ swp (print_object_buffered can_malloc fuel print a depth fmt b) Q.
Proof.
  iIntros "(%len & %off & Hb) HQ". sbind. iApply (swp_get_buffer with "Hb"). iIntros "Hb". sbind.
  iApply (swp_ensure_dead with "[Hb]"); [by iExists len, off|]. iIntros "Hb". sret. by iApply "HQ".
Qed.

Lemma swp_empty_dead depth fmt b (Q : option ptr -> hprop) :
  dead (Some b) -∗ (dead (Some b) -∗ Q None) -∗ swp (print_object_empty can_malloc depth fmt (Some b)) Q.
Proof.
  iIntros "Hb HQ". sbind. iApply (swp_ensure_dead with "Hb"). iIntros "Hb". sret. by iApply "HQ".
Qed.

Lemma swp_print_dead t i nx pv n fmt depth b (Q : option ptr -> hprop) :
  printable_data (data_of t) -> (Z.land (d_type (data_of t)) 255 = cJSON_String -> is_Some (d_string (data_of t))) ->
  (0 < n)%nat -> (List.length (kids_of t) < fuel)%nat -> zlen (kids_of t) < 2147483648 ->
  tree_at t i nx pv -∗ dead (Some b) -∗ (tree_at t i nx pv -∗ dead (Some b) -∗ Q None) -∗
  swp (print_value can_malloc fuel n (Some i) depth fmt (Some b)) Q.
Proof.
  destruct t as [d kids]. cbn [data_of kids_of]. intros (Hd & _) Hstr Hn Hf Hl. destruct n as [|n]; [lia|]. unfold plain in Hd. apply andb_true_iff in Hd as [Hr%negb_true_iff _].
  iIntros "Ht Hb HQ". cbn [print_value]. sbind. iApply (swp_fields with "Ht"). iIntros (c (_ & Hty & _)) "Ht". cbv zeta. rw Hty. cbn [data_of].
  set (ty := Z.land (d_type d) 255) in *.
  destruct (ty =? cJSON_NULL); [iApply (swp_room_for_dead with "Hb"); iApply ("HQ" with "Ht")|].
  destruct (ty =? cJSON_False); [iApply (swp_room_for_dead with "Hb"); iApply ("HQ" with "Ht")|].
  destruct (ty =? cJSON_True); [iApply (swp_room_for_dead with "Hb"); iApply ("HQ" with "Ht")|].
  destruct (ty =? cJSON_Number).
  { sbind. iApply (swp_fields with "Ht"). iIntros (c' _) "Ht". cbv zeta.
    repeat (case_match; [iApply (swp_room_for_dead with "Hb"); iApply ("HQ" with "Ht")|]). iApply (swp_room_for_dead with "Hb"). iApply ("HQ" with "Ht"). }
  iDestruct (open_array with "Ht") as (ch vs nm la) "(Ha & Hk & Hvs & Hnm)"; [done|].
  destruct (Z.eqb_spec ty cJSON_String) as [E|_].
  { destruct (Hstr E) as [x Hx]. sbind. iApply (swp_item with "Ha"). iIntros "Ha". cbn [valuestring item_of]. rw Hx.
    destruct vs as [q|]; cbn [text_at]; [|iDestruct "Hvs" as %[]]. iApply (swp_print_string_ptr_dead with "Hvs Hb"). iIntros "Hvs Hb".
    iApply ("HQ" with "[-Hb] Hb"). iApply (close_array with "Ha Hk"); [done|]. unfold strings. rw Hx. iFrame. }
  iAssert (i ↦ Item (item_of d nx pv ch vs nm) -∗ segment kids ch None None la -∗ tree_at (Tree d kids) i nx pv)%I with "[Hvs Hnm]" as "Hclose".
  { iIntros "Ha Hk". iApply (close_array with "Ha Hk"); [done|]. iFrame. }
  destruct (ty =? cJSON_Array).
  { sbind. iApply (swp_item with "Ha"). iIntros "Ha". cbn [child item_of].
    iApply (swp_print_list_dead with "Hk Hb"); [done|done|intros; apply swp_room_for_dead|intros; apply swp_buffered_dead|].
    iIntros "Hk Hb". iApply ("HQ" with "[-Hb] Hb"). iApply ("Hclose" with "Ha Hk"). }
  destruct (ty =? cJSON_Object).
  { sbind. iApply (swp_item with "Ha"). iIntros "Ha". cbn [child item_of].
    iApply (swp_print_list_dead with "Hk Hb"); [done|done|intros; apply swp_empty_dead|intros; apply swp_object_buffered_dead|].
    iIntros "Hk Hb". iApply ("HQ" with "[-Hb] Hb"). iApply ("Hclose" with "Ha Hk"). }
  sret. iApply ("HQ" with "[-Hb] Hb"). iApply ("Hclose" with "Ha Hk").
Qed.

(** A buffer of the caller's, or one that could not be had. *)
Lemma swp_print_buffered fmt t x i nx pv prebuffer (Q : option ptr -> hprop) :
  text_of (negb (fmt =? 0)) t x -> 0 <= prebuffer < 18446744073709551616 ->
  tree_at t i nx pv -∗ (∀ r, tree_at t i nx pv -∗ text_result x r -∗ Q r) -∗
  swp (cJSON_PrintBuffered can_malloc fuel (Some i) prebuffer fmt) Q.
Proof.
  intros Ht Hpre. destruct (text_small _ _ _ Ht) as [Hs Hc]. destruct Ht as (Hp & Hx & Hf & Hl). iIntros "Ht HQ".
  sbind. rewrite size_t_small; [|done]. iApply swp_malloc; [lia|]. iIntros ([q|]) "Hbuf".
  - iDestruct "Hbuf" as "(%k & -> & Hk)". sbind. iApply swp_local. iIntros (b) "Hb". sbind.
    iApply (prints_value can_malloc fuel fmt fuel 0 t x i nx pv (Some b) [] with "Ht [Hk Hb]"); [done|done|done|done| |].
    { iExists k, prebuffer. iFrame. }
    iIntros (r) "Ht Hr". sbind. destruct r as [q|]; cbn [print_result].
    + iDestruct "Hr" as "(%k' & %m & %off & Hk & Hb & _ & %Hq & _)". cbn [holder]. iApply (JsonLogic.swp_delete with "Hb"). sret.
      iApply ("HQ" with "Ht"). cbn [text_result]. iExists k', m. rewrite Hq; [|by right]. by iFrame.
    + iDestruct "Hr" as "[%Hoom (%len & %off & Hb)]". iApply (JsonLogic.swp_delete with "Hb"). sret. by iApply ("HQ" $! None with "Ht").
  - iDestruct "Hbuf" as %Hoom. sbind. iApply swp_local. iIntros (b) "Hb". sbind.
    pose proof (printable_data_of t Hp) as Hd. destruct Hs as [_ Hs].
    assert (List.length (kids_of t) < tree_size t)%nat as Hkids.
    { destruct t as [d kids]. cbn [kids_of tree_size]. pose proof (list_size_length kids). lia. }
    destruct (render_fits _ _ _ _ Hp Hx) as [_ Hsize].
    iApply (swp_print_dead with "Ht [Hb]"); [done| |lia|lia|unfold zlen in *; lia|by iExists _, _|].
    { intros E. destruct t as [d kids]. cbn [data_of] in *. rewrite render_unfold E in Hx. by destruct (d_string d). }
    iIntros "Ht (%len & %off & Hb)". sbind. iApply (JsonLogic.swp_delete with "Hb"). sret. by iApply ("HQ" $! None with "Ht").
Qed.
End Printing.

(** * Arrays and objects *)

Section Lists.
Context (can_malloc : allocator -> list Z -> Z -> bool) (fuel : nat).
Context (a : nat) (nx pv : option nat) (d : data).
Hypothesis Hd : plain d = true.
Implicit Types (kids : list tree).
Abbreviation array_at kids := (tree_at (Tree d kids) a nx pv).

Lemma owner : is_reference (d_type d) = false.
Proof. unfold plain in Hd. by apply andb_true_iff in Hd as [?%negb_true_iff _]. Qed.

(** The item that was asked for, or NULL; it is given back to the array later. *)
Definition item_or_null kids (t : option tree) (r : option nat) : hprop :=
  match t with
  | None => ⟨r = None⟩ ∗ array_at kids
  | Some t => ∃ i n q, ⟨r = Some i⟩ ∗ tree_at t i n q ∗ (tree_at t i n q -∗ array_at kids)
  end.

Lemma focus_item l1 t l2 ch vs nm la i :
  a ↦ Item (item_of d nx pv ch vs nm) -∗ strings d vs nm -∗ focus l1 t l2 ch None la i -∗
  item_or_null (l1 ++ t :: l2) (Some t) (Some i).
Proof.
  iIntros "Ha Hs (%n & %q & H1 & Ht & H2)". iExists i, n, q. iSplit; [done|]. iFrame "Ht". iIntros "Ht".
  iApply (close_array with "Ha [H1 Ht H2] Hs"); [apply owner|]. iApply focus_segment. iExists n, q. iFrame.
Qed.

Lemma swp_get_size kids (Q : Z -> hprop) :
  (List.length kids < fuel)%nat -> zlen kids < 2147483648 ->
  array_at kids -∗ (array_at kids -∗ Q (zlen kids)) -∗ swp (cJSON_GetArraySize fuel a) Q.
Proof.
  iIntros (Hf Hl) "Ha HQ". iDestruct (open_array with "Ha") as (ch vs nm la) "(Ha & Hk & Hs)"; [apply owner|].
  sbind. iApply (swp_item with "Ha"). iIntros "Ha". cbn [child item_of].
  iApply (swp_count fuel kids ch None la 0 with "Hk"); [done|done|lia|]. iIntros "Hk". iApply "HQ".
  iApply (close_array with "Ha Hk Hs"). apply owner.
Qed.

Lemma swp_get_item kids k (Q : option nat -> hprop) :
  (List.length kids < fuel)%nat ->
  array_at kids -∗ (∀ r, item_or_null kids (kids !! Z.to_nat k) r -∗ Q r) -∗ swp (cJSON_GetArrayItem fuel a k) Q.
Proof.
  iIntros (Hf) "Ha HQ". iDestruct (open_array with "Ha") as (ch vs nm la) "(Ha & Hk & Hs)"; [apply owner|].
  sbind. iApply (swp_item with "Ha"). iIntros "Ha". cbn [child item_of]. iApply (swp_walk with "Hk"); [done|].
  iIntros ([i|]) "Hr"; iApply "HQ".
  - iDestruct "Hr" as "(%l1 & %t & %l2 & -> & %Hk & Hf)".
    replace (Z.to_nat k) with (List.length l1) by (unfold zlen in Hk; lia). rewrite list_lookup_middle; [|done].
    iApply (focus_item with "Ha Hs Hf").
  - iDestruct "Hr" as "[%Hk Hk]". rewrite lookup_ge_None_2; [|unfold zlen in Hk; lia]. iSplit; [done|].
    iApply (close_array with "Ha Hk Hs"). apply owner.
Qed.

Lemma find_first s l1 t l2 : existsb (named s) l1 = false -> named s t = true -> List.find (named s) (l1 ++ t :: l2) = Some t.
Proof.
  intros H1 Ht. induction l1 as [|t1 l1 IH]; cbn in *; [by rewrite Ht|]. apply orb_false_iff in H1 as [-> H1]. by apply IH.
Qed.

Lemma find_no s l : existsb (named s) l = false -> List.find (named s) l = None.
Proof. induction l as [|t l IH]; [done|]. cbn. intros [-> H]%orb_false_iff. by apply IH. Qed.

Lemma swp_get_object_item kids p s (Q : option nat -> hprop) :
  (List.length kids < fuel)%nat -> forallb (fun t => plain (data_of t)) kids = true ->
  array_at kids -∗ str_at p s -∗
  (∀ r, str_at p s -∗ item_or_null kids (List.find (named s) kids) r -∗ Q r) -∗ swp (cJSON_GetObjectItem fuel a (Some p)) Q.
Proof.
  iIntros (Hf Hp) "Ha Hp HQ". iDestruct (open_array with "Ha") as (ch vs nm la) "(Ha & Hk & Hs)"; [apply owner|].
  sbind. iApply (swp_item with "Ha"). iIntros "Ha". cbn [child item_of]. sbind. iApply (swp_find_name with "Hk Hp"); [done|done|].
  iIntros ([[i|] k]) "Hp Hr"; cbn [fst snd]; sret; iApply ("HQ" with "Hp").
  - iDestruct "Hr" as "(%l1 & %t & %l2 & -> & _ & [%Hl1 %Ht] & Hf)". rewrite find_first; [|done|done]. iApply (focus_item with "Ha Hs Hf").
  - iDestruct "Hr" as "[%Hl Hk]". rewrite find_no; [|done]. iSplit; [done|]. iApply (close_array with "Ha Hk Hs"). apply owner.
Qed.

(** ** Taking items out *)

Fixpoint remove_named (s : list Z) (l : list tree) : list tree :=
  match l with [] => [] | t :: l => if named s t then l else t :: remove_named s l end.

Lemma remove_first s l1 t l2 : existsb (named s) l1 = false -> named s t = true -> remove_named s (l1 ++ t :: l2) = l1 ++ l2.
Proof.
  intros H1 Ht. induction l1 as [|t1 l1 IH]; cbn in *; [by rewrite Ht|]. apply orb_false_iff in H1 as [-> H1]. by rewrite IH.
Qed.

Lemma remove_no s l : existsb (named s) l = false -> remove_named s l = l.
Proof. induction l as [|t l IH]; [done|]. cbn. intros [-> H]%orb_false_iff. by rewrite IH. Qed.

(** The item [k] of a list without the item. *)
Definition without (k : Z) (l : list tree) : list tree := delete (Z.to_nat k) l.

Lemma without_ge k l : (List.length l <= Z.to_nat k)%nat -> without k l = l.
Proof.
  unfold without. generalize (Z.to_nat k) as n. induction l as [|t l IH]; intros n Hn; destruct n as [|n]; cbn in *; try lia; try done.
  f_equal. apply IH. lia.
Qed.

Lemma swp_delete_from_array kids k (Q : unit -> hprop) :
  (list_size kids < fuel)%nat ->
  array_at kids -∗ (array_at (without k kids) -∗ Q tt) -∗ swp (cJSON_DeleteItemFromArray fuel a k) Q.
Proof.
  iIntros (Hf) "Ha HQ". pose proof (list_size_length kids). sbind. iApply (swp_detach with "Ha"); [apply owner|lia|].
  iIntros ([i|]) "Hr".
  - iDestruct "Hr" as "(%l1 & %t & %l2 & -> & %Hk & Ht & Ha)". unfold without.
    replace (Z.to_nat k) with (List.length l1) by (unfold zlen in Hk; lia). rewrite delete_middle.
    iApply (swp_cJSON_Delete with "Ht"); [|by iApply "HQ"]. rewrite sum_list_with_app in Hf. cbn in Hf. lia.
  - iDestruct "Hr" as "[%Hk Ha]". destruct fuel as [|n]; [lia|]. sret. iApply "HQ".
    rewrite without_ge; [done|]. unfold zlen in Hk. lia.
Qed.

Lemma swp_detach_named kids p s (R : option nat -> hprop) :
  (List.length kids < fuel)%nat -> forallb (fun t => plain (data_of t)) kids = true ->
  array_at kids -∗ str_at p s -∗
  (∀ r, str_at p s -∗ array_at (remove_named s kids) -∗
        match r with Some i => ∃ t, ⟨List.find (named s) kids = Some t⟩ ∗ tree_at t i None None | None => ⟨List.find (named s) kids = None⟩ end -∗ R r) -∗
  swp (cJSON_DetachItemFromObject fuel a (Some p)) R.
Proof.
  iIntros (Hf Hp) "Ha Hp HR". iDestruct (open_array with "Ha") as (ch vs nm la) "(Ha & Hk & Hs)"; [apply owner|].
  sbind. iApply (swp_item with "Ha"). iIntros "Ha". cbn [child item_of]. sbind. iApply (swp_find_name with "Hk Hp"); [done|done|].
  iIntros ([[i|] k]) "Hp Hr"; cbn [fst snd].
  - iDestruct "Hr" as "(%l1 & %t & %l2 & -> & -> & [%Hl1 %Ht] & Hfoc)".
    iDestruct (focus_segment with "Hfoc") as "Hk". iDestruct (close_array with "Ha Hk Hs") as "Ha"; [apply owner|].
    iApply (swp_detach with "Ha"); [apply owner|done|]. iIntros ([j|]) "Hr".
    + iDestruct "Hr" as "(%l1' & %t' & %l2' & %E & %Hz & Ht & Ha)". pose proof (zlen_nonneg l1).
      apply app_inj_1 in E as [-> [= -> ->]]; [|unfold zlen in *; lia]. rewrite remove_first; [|done|done]. rewrite find_first; [|done|done].
      iApply ("HR" $! (Some j) with "Hp Ha"). iExists t'. by iFrame.
    + iDestruct "Hr" as "[%Hz Ha]". exfalso. autorewrite with zlen in Hz. pose proof (zlen_nonneg l1). pose proof (zlen_nonneg l2). lia.
  - iDestruct "Hr" as "[%Hl Hk]". sret. iDestruct (close_array with "Ha Hk Hs") as "Ha"; [apply owner|]. 
    rewrite remove_no; [|done]. rewrite find_no; [|done]. by iApply ("HR" $! None with "Hp Ha").
Qed.

Lemma swp_delete_from_object kids p s (Q : unit -> hprop) :
  (list_size kids < fuel)%nat -> forallb (fun t => plain (data_of t)) kids = true ->
  array_at kids -∗ str_at p s -∗ (array_at (remove_named s kids) -∗ str_at p s -∗ Q tt) -∗
  swp (cJSON_DeleteItemFromObject fuel a (Some p)) Q.
Proof.
  iIntros (Hf Hp) "Ha Hp HQ". pose proof (list_size_length kids). sbind. iApply (swp_detach_named with "Ha Hp"); [lia|done|].
  iIntros ([i|]) "Hp Ha Hr".
  - iDestruct "Hr" as "(%t & %Ht & Hr)". iApply (swp_cJSON_Delete with "Hr"); [|iApply ("HQ" with "Ha Hp")].
    apply find_some in Ht as [Ht _]. apply list_elem_of_In in Ht. pose proof (sum_list_with_in t tree_size kids Ht). lia.
  - iDestruct "Hr" as "%Hr". destruct fuel as [|n]; [lia|]. sret. iApply ("HQ" with "Ha Hp").
Qed.

(** ** Putting items in *)

(** An item that becomes a member loses its old name. *)
Lemma swp_add_to_object kids t j p s (Q : unit -> hprop) :
  (List.length kids < fuel)%nat -> plain (data_of t) = true ->
  array_at kids -∗ tree_at t j None None -∗ str_at p s -∗
  (∀ nm, ⟨nm = Some s \/ (nm = None /\ out_of_memory can_malloc)⟩ -∗ array_at (kids ++ [rename nm t]) -∗ str_at p s -∗ Q tt) -∗
  swp (cJSON_AddItemToObject can_malloc fuel a p (Some j)) Q.
Proof.
  iIntros (Hf Hp) "Ha Ht Hp HQ". destruct t as [dt kt]. unfold plain in Hp. cbn [data_of] in Hp.
  apply andb_true_iff in Hp as [Hr%negb_true_iff Hc%negb_true_iff].
  iEval (rw tree_at_unfold) in "Ht". iDestruct "Ht" as "(%ch & %vs & %nm & Hj & Ho)". unfold owned. rw Hr Hc. iDestruct "Ho" as "[Hvc Hn]".
  sbind. iApply (swp_item with "Hj"). iIntros "Hj". cbn [name item_of]. sbind.
  iApply (swp_free_text false with "Hn"). sbind. iApply (swp_strdup with "Hp"). iIntros (r) "Hp Hs". sbind.
  iApply (swp_edit with "Hj"). iIntros "Hj".
  iAssert (⟨out_of_memory can_malloc \/ is_Some r⟩ ∗ text_at r (r ← r; Some s)%stdpp)%I with "[Hs]" as "[%Hwhy Hs]".
  { destruct r as [q|]; cbn [option_bind mbind text_at]; [iFrame; iPureIntro; right; by eexists|]. iDestruct "Hs" as %Hoom. iPureIntro. split; [by left|done]. }
  iApply (swp_add _ _ _ _ _ owner kids (rename (r ← r; Some s)%stdpp (Tree dt kt)) with "Ha [Hj Hvc Hs]"); [done| |].
  - cbn [rename]. rw tree_at_unfold. iExists ch, vs, r. unfold owned; cbn [d_type d_string d_name]. rw Hr Hc. iFrame.
  - iIntros "Ha". iApply ("HQ" with "[] Ha Hp"). iPureIntro. destruct r; cbn; [by left|]. destruct Hwhy as [?|[]]; [by right|done].
Qed.
End Lists.

(** ** Positions *)

Section Positions.
Context (fuel : nat) (a : nat) (nx pv : option nat) (d : data).
Hypothesis Hd : plain d = true.
Implicit Types (kids : list tree).
Abbreviation array_at kids := (tree_at (Tree d kids) a nx pv).

Lemma swp_detach_at kids k (Q : option nat -> hprop) :
  (List.length kids < fuel)%nat -> array_at kids -∗
  (∀ r, array_at (without k kids) -∗
        match kids !! Z.to_nat k with Some t => ∃ i, ⟨r = Some i⟩ ∗ tree_at t i None None | None => ⟨r = None⟩ end -∗ Q r) -∗
  swp (cJSON_DetachItemFromArray fuel a k) Q.
Proof.
  iIntros (Hf) "Ha HQ". iApply (swp_detach with "Ha"); [by apply owner|done|]. iIntros ([i|]) "Hr".
  - iDestruct "Hr" as "(%l1 & %t & %l2 & -> & %Hk & Ht & Ha)". unfold without.
    replace (Z.to_nat k) with (List.length l1) by (unfold zlen in Hk; lia). rewrite delete_middle list_lookup_middle; [|done].
    iApply ("HQ" with "Ha"). iExists i. by iFrame.
  - iDestruct "Hr" as "[%Hk Ha]". rewrite without_ge; [|unfold zlen in Hk; lia]. rewrite lookup_ge_None_2; [|unfold zlen in Hk; lia].
    by iApply ("HQ" with "Ha").
Qed.

Lemma swp_insert_at kids k t j (Q : unit -> hprop) :
  (List.length kids < fuel)%nat -> array_at kids -∗ tree_at t j None None -∗
  (array_at (take (Z.to_nat k) kids ++ t :: drop (Z.to_nat k) kids) -∗ Q tt) -∗
  swp (cJSON_InsertItemInArray fuel a k j) Q.
Proof.
  iIntros (Hf) "Ha Ht HQ". iApply (swp_insert_item with "Ha Ht"); [by apply owner|done|].
  iIntros (l1 l2 -> Hk) "Ha". autorewrite with zlen in Hk. destruct (decide (Z.to_nat k <= List.length l1)%nat) as [Hle|Hgt].
  - assert (Z.to_nat k = List.length l1) as -> by (unfold zlen in Hk; lia). rewrite take_app_length drop_app_length. by iApply "HQ".
  - assert (l2 = []) as -> by (destruct l2; [done|autorewrite with zlen in Hk; unfold zlen in Hk; lia]). rewrite app_nil_r.
    rewrite take_ge; [|lia]. rewrite drop_ge; [|lia]. by iApply "HQ".
Qed.

Lemma swp_replace_at kids k t j (Q : unit -> hprop) :
  (list_size kids < fuel)%nat -> array_at kids -∗ tree_at t j None None -∗
  (array_at (<[Z.to_nat k := t]> kids) ∗ (if decide (Z.to_nat k < List.length kids)%nat then emp else tree_at t j None None) -∗ Q tt) -∗
  swp (cJSON_ReplaceItemInArray fuel a k j) Q.
Proof.
  iIntros (Hf) "Ha Ht HQ". pose proof (list_size_length kids). iApply (swp_replace with "Ha Ht"); [by apply owner|done|lia|].
  iIntros "[(%l1 & %t0 & %l2 & -> & %Hk & Ha)|(%Hk & Ha & Ht)]"; iApply "HQ".
  - rewrite decide_True; [|rewrite length_app; cbn; unfold zlen in Hk; lia].
    replace (Z.to_nat k) with (List.length l1 + 0)%nat by (unfold zlen in Hk; lia). rewrite insert_app_r. cbn. by iFrame.
  - rewrite decide_False; [|unfold zlen in Hk; lia]. rewrite list_insert_ge; [|unfold zlen in Hk; lia]. iFrame.
Qed.
End Positions.
