(* ===== verification/JsonTheorems.v ===== *)
(** What the parser, the printer and the operations of cJSON.c do, each as a
    whole run from one state of the memory to another. *)

From iris.proofmode Require Import proofmode.
From stdpp Require Import gmap.
From S2P Require Import Prelude.
From S2P Require Import CMonad.
From S2P Require Import CString.
From S2P Require Import JsonDouble.
From S2P Require Import JsonHeap.
From S2P Require Import CJson.
From S2P Require Import CJsonParse.
From S2P Require Import CJsonPrint.
From S2P Require Import JsonLogic.
From S2P Require Import CJsonFacts.
From S2P Require Import CJsonText.
From S2P Require Import CJsonTextFacts.
From S2P Require Import CJsonParseFacts.
From S2P Require Import CJsonPrintFacts.
From S2P Require Import CJsonPrintValueFacts.
From S2P Require Import CJsonRoundTrip.
From S2P Require Import CJsonReadBack.
From S2P Require Import CJsonApiFacts.

(** ** Concrete inputs *)

(** Memory without end, and pow for the exponent 0. *)
Definition always (f : allocator) (asked : list Z) (n : Z) : bool := true.
Definition one (x y : double) : double := d_of_Z 1.
Definition int_min (d : double) : Z := INT_MIN.

(** An object whose member a is 1 and whose member b is an array of true. *)
Definition sample_tree : tree :=
  Tree (mkData cJSON_Object None 0 d_zero None)
    [Tree (mkData cJSON_Number None 1 (d_of_Z 1) (Some (bytes "a"))) [];
     Tree (mkData cJSON_Array None 0 d_zero (Some (bytes "b"))) [Tree (mkData cJSON_True None 1 d_zero None) []]].
Definition sample_text : list Z := [123; 34; 97; 34; 58; 49; 44; 34; 98; 34; 58; 91; 116; 114; 117; 101; 93; 125].

(** A brace, the two characters backslash and u in quotes, a comma, and forty
    letters A in quotes. *)
Definition broken_text : list Z := [123; 34; 92; 117; 34; 44; 34] ++ replicate 40 65 ++ [34; 125; 0].

Definition no_memory_used : memory := mkMemory ∅ 0 [] None Libc Libc.

Lemma sample_canonical : canonical sample_tree.
Proof.
  constructor.
  - repeat constructor; lia.
  - constructor; [|constructor; [|constructor]]; eexists; (split; [reflexivity|]); repeat constructor; lia.
Qed.

Lemma sample_renders : render false 0 sample_tree = Some sample_text.
Proof. by vm_compute. Qed.

(** The text of a canonical tree can be read, and says that tree. *)
Lemma canonical_readable pow int_overflow fmt t x :
  pow (d_of_Z 10) d_zero = d_of_Z 1 -> canonical t -> named_text t -> render fmt 0 t = Some x ->
  readable (x ++ [0]) /\ text_value pow int_overflow (x ++ [0]) = Good (unnamed t) [0].
Proof.
  intros Hpow Hc Hn Hx. destruct (render_fits _ _ _ _ (canonical_printable t Hc Hn) Hx) as [_ Hs].
  destruct (canonical_back pow int_overflow fmt Hpow t (S (List.length (x ++ [0]))) 0 x Hc ltac:(rewrite length_app; lia) Hx)
    as (Hv & (c & r & -> & Hr & _) & Hq).
  split.
  - split; [apply elem_of_app; right; by left|]. apply (Hq [0]), safe_end.
  - unfold text_value. rewrite <- (Hv [0]); [|by cbn]. f_equal. cbn.
    replace (negb (c =? 0) && (c <=? 32)) with false; [done|]. symmetry. apply andb_false_intro2, Z.leb_gt. lia.
Qed.


Lemma sample_text_of fuel : (1000 < fuel)%nat -> text_of fuel false sample_tree sample_text.
Proof. intros Hf. split; [by apply canonical_printable; [apply sample_canonical|]|]. split; [apply sample_renders|]. split; [cbn; lia|by vm_compute]. Qed.

Lemma end_position x j require : at_pos (x ++ [0]) j (rest_of require [0]) -> j = zlen x.
Proof.
  intros [Hj H]. replace (rest_of require [0]) with [0] in H by (by destruct require).
  apply (f_equal List.length) in H. rewrite length_drop length_app in H. cbn in H. unfold zlen. lia.
Qed.

(** * The parser *)

Section Parser.
Context (can_malloc : allocator -> list Z -> Z -> bool) (int_overflow : double -> Z) (fuel : nat) (pow : double -> double -> double).


End Parser.


(** C9 What is printed is read back: the text that cJSON_Print or
    cJSON_PrintUnformatted makes of a tree of ints, strings, arrays, objects and
    constants is parsed by cJSON_ParseWithOpts to its end and gives the same
    tree again, without the name its root had. *)
Theorem print_parse_roundtrip can_malloc int_overflow pow fuel (fmt : bool) require t i nx pv :
  enough_memory can_malloc -> pow (d_of_Z 10) d_zero = d_of_Z 1 -> canonical t -> named_text t ->
  exists x, render fmt 0 t = Some x /\
    ((S (S (List.length x)) < fuel)%nat -> zlen x + 64 <= 1073741824 ->
     triple (tree_at t i nx pv) ((if fmt then cJSON_Print can_malloc fuel else cJSON_PrintUnformatted can_malloc fuel) (Some i))
       (fun r => tree_at t i nx pv ∗ ∃ q, ⟨r = Some q⟩ ∗ str_at q x)%I /\
     triple emp (cJSON_ParseWithOpts can_malloc int_overflow fuel pow (x ++ [0]) 0 require)
       (fun r => ∃ j, ⟨r = (Some j, Some (zlen x))⟩ ∗ tree_at (unnamed t) j None None)%I).
Proof.
  intros Hmem%never_out Hpow Hc Hn. destruct (canonical_text fmt t 0 Hc) as [x Hx]. exists x. split; [done|].
  intros Hf Hl. destruct (canonical_readable pow int_overflow fmt t x Hpow Hc Hn Hx) as [Hr Hv]. split; apply triple_swp.
  - iIntros "Ht". assert (text_of fuel fmt t x) as Ht by (split_and!; [by apply canonical_printable|done|lia|done]).
    destruct fmt; (iApply (swp_print_plain with "Ht"); [exact Ht|]); iIntros ([q|]) "$ Hs"; [iExists q; by iFrame|by iDestruct "Hs" as %?|iExists q; by iFrame|by iDestruct "Hs" as %?].
  - iIntros "_". iApply swp_parse; [autorewrite with zlen; cbn; lia|done|done|rewrite length_app; cbn; lia|].
    iIntros ([[j|] [e|]]) "Hr"; cbn [parsed_at]; try by iDestruct "Hr" as %[].
    + iDestruct "Hr" as "(%t' & %e' & %Ha & %He & Ht)". iExists j.
      destruct Ha as [Ha _]. rewrite Hv in Ha. injection Ha as <- <-. iFrame "Ht". iPureIntro. f_equal. f_equal. by apply (end_position x e _ He).
    + iDestruct "Hr" as %[[Hw|(t' & e' & Ha & _ & He)]|Hoom]; [by rewrite Hv in Hw| |done].
      rewrite Hv in Ha. by injection Ha as <- <-.
Qed.

Lemma print_parse_roundtrip_witness :
  exists x, render false 0 sample_tree = Some x /\
    triple (tree_at sample_tree 0 None None) (cJSON_PrintUnformatted always 100 (Some 0%nat))
      (fun r => tree_at sample_tree 0 None None ∗ ∃ q, ⟨r = Some q⟩ ∗ str_at q x)%I /\
    triple emp (cJSON_ParseWithOpts always int_min 100 one (x ++ [0]) 0 1)
      (fun r => ∃ j, ⟨r = (Some j, Some (zlen x))⟩ ∗ tree_at sample_tree j None None)%I.
Proof.
  destruct (print_parse_roundtrip always int_min one 100 false 1 sample_tree 0 None None) as (x & Hx & H);
    [done|done|exact sample_canonical|done|].
  exists x. split; [done|]. rewrite sample_renders in Hx. injection Hx as <-. apply H; [cbn; lia|by vm_compute].
Defined.

(** C10 All printers write the same: a tree that has a text [x] is printed as [x]
    by cJSON_Print or cJSON_PrintUnformatted and by cJSON_PrintBuffered with
    any guess of the size.  The result is a string of its own with [x], or NULL
    when an allocation failed; the tree is as before, no access is outside a
    block, and of the buffers, tables and strings on the way nothing stays. *)
Theorem printers_agree can_malloc fuel (fmt : bool) t x i nx pv prebuffer :
  text_of fuel fmt t x -> 0 <= prebuffer < 18446744073709551616 ->
  triple (tree_at t i nx pv) ((if fmt then cJSON_Print can_malloc fuel else cJSON_PrintUnformatted can_malloc fuel) (Some i))
    (fun r => tree_at t i nx pv ∗ text_result can_malloc x r)%I /\
  triple (tree_at t i nx pv) (cJSON_PrintBuffered can_malloc fuel (Some i) prebuffer (if fmt then 1 else 0))
    (fun r => tree_at t i nx pv ∗ text_result can_malloc x r)%I.
Proof.
  intros Ht Hp. split; apply triple_swp; iIntros "Ht".
  - destruct fmt; (iApply (swp_print_plain with "Ht"); [exact Ht|]); by iIntros (r) "$ $".
  - destruct fmt; (iApply (swp_print_buffered with "Ht"); [exact Ht|done|]); by iIntros (r) "$ $".
Qed.

Lemma printers_agree_witness :
  triple (tree_at sample_tree 0 None None) (cJSON_PrintUnformatted always 2000 (Some 0%nat))
    (fun r => tree_at sample_tree 0 None None ∗ text_result always sample_text r)%I /\
  triple (tree_at sample_tree 0 None None) (cJSON_PrintBuffered always 2000 (Some 0%nat) 1 0)
    (fun r => tree_at sample_tree 0 None None ∗ text_result always sample_text r)%I.
Proof. apply (printers_agree always 2000 false); [apply sample_text_of; lia|lia]. Defined.

(** * Items *)

(** C14 cJSON_Delete gives back all of an item: the item, its strings and its
    children to any depth, each once, and leaves the rest of the memory alone. *)
Theorem delete_frees_all fuel t i pv :
  (S (tree_size t) < fuel)%nat -> triple (tree_at t i None pv) (cJSON_Delete fuel (Some i)) (fun _ => emp%I).
Proof. intros Hf. apply triple_swp. iIntros "Ht". iApply (swp_cJSON_Delete with "Ht"); [lia|done]. Qed.

Lemma delete_frees_all_witness : triple (tree_at sample_tree 0 None None) (cJSON_Delete 10 (Some 0%nat)) (fun _ => emp%I).
Proof. apply (delete_frees_all 10 sample_tree). cbn. lia. Defined.

(** C13 cJSON_Duplicate makes a copy that shares nothing with the item: all of
    the tree when [recurse] is set, the item alone otherwise.  When an
    allocation fails it returns NULL and what was copied is freed. *)
Theorem duplicate_copies can_malloc fuel t i nx pv recurse :
  all_plain t = true -> (tree_size t < fuel)%nat ->
  triple (tree_at t i nx pv) (cJSON_Duplicate can_malloc fuel (Some i) recurse)
    (fun r => tree_at t i nx pv ∗
       match r with
       | Some j => tree_at (if recurse =? 0 then Tree (data_of t) [] else t) j None None
       | None => ⟨out_of_memory can_malloc⟩
       end)%I.
Proof.
  intros Hp Hf. apply triple_swp. iIntros "Ht". iApply (swp_duplicate with "Ht"); [done..|].
  iIntros (r) "$ Hr". destruct r as [j|]; cbn [copied]; [|done]. by destruct (recurse =? 0).
Qed.

Lemma duplicate_copies_witness :
  triple (tree_at sample_tree 0 None None) (cJSON_Duplicate always 10 (Some 0%nat) 1)
    (fun r => tree_at sample_tree 0 None None ∗
       match r with Some j => tree_at sample_tree j None None | None => ⟨out_of_memory always⟩ end)%I.
Proof. apply (duplicate_copies always 10 sample_tree 0 None None 1); [done|cbn; lia]. Defined.

(** C11 The items of an array are a list: cJSON_GetArraySize is its length,
    cJSON_AddItemToArray appends, cJSON_InsertItemInArray inserts before a
    position or appends, cJSON_ReplaceItemInArray replaces and frees the item of
    a position if there is one, cJSON_DetachItemFromArray and
    cJSON_DeleteItemFromArray take it out.  A negative position is the first. *)
Theorem array_is_list fuel a nx pv d kids k t j :
  plain d = true -> (list_size kids < fuel)%nat -> zlen kids < 2147483648 ->
  let array l := tree_at (Tree d l) a nx pv in
  let item t := tree_at t j None None in
  let n := Z.to_nat k in
  triple (array kids) (cJSON_GetArraySize fuel a) (fun r => ⟨r = zlen kids⟩ ∗ array kids)%I /\
  triple (array kids ∗ item t) (cJSON_AddItemToArray fuel a (Some j)) (fun _ => array (kids ++ [t])) /\
  triple (array kids ∗ item t) (cJSON_InsertItemInArray fuel a k j) (fun _ => array (take n kids ++ t :: drop n kids)) /\
  triple (array kids ∗ item t) (cJSON_ReplaceItemInArray fuel a k j)
    (fun _ => array (<[n := t]> kids) ∗ if decide (n < List.length kids)%nat then emp else item t)%I /\
  triple (array kids) (cJSON_DetachItemFromArray fuel a k)
    (fun r => array (delete n kids) ∗
       match kids !! n with Some t => ∃ i, ⟨r = Some i⟩ ∗ tree_at t i None None | None => ⟨r = None⟩ end)%I /\
  triple (array kids) (cJSON_DeleteItemFromArray fuel a k) (fun _ => array (delete n kids)).
Proof.
  intros Hd Hf Hl. pose proof (list_size_length kids). cbv zeta. pose proof (owner d Hd) as Ho. split_and!; apply triple_swp.
  - iIntros "Ha". iApply (swp_get_size with "Ha"); [done|lia|done|]. by iIntros "$".
  - iIntros "[Ha Ht]". iApply (swp_add with "Ha Ht"); [done|lia|]. by iIntros "$".
  - iIntros "[Ha Ht]". iApply (swp_insert_at with "Ha Ht"); [done|lia|]. by iIntros "$".
  - iIntros "[Ha Ht]". iApply (swp_replace_at with "Ha Ht"); [done|lia|]. by iIntros "$".
  - iIntros "Ha". iApply (swp_detach_at with "Ha"); [done|lia|]. by iIntros (r) "$ $".
  - iIntros "Ha". iApply (swp_delete_from_array with "Ha"); [done|lia|]. by iIntros "$".
Qed.

Lemma array_is_list_witness :
  let array l := tree_at (Tree (mkData cJSON_Array None 0 d_zero None) l) 0 None None in
  let item := leaf cJSON_True None 1 d_zero in
  triple (array [leaf cJSON_NULL None 0 d_zero] ∗ tree_at item 1 None None) (cJSON_InsertItemInArray 10 0 0 1)
    (fun _ => array [item; leaf cJSON_NULL None 0 d_zero]).
Proof.
  apply (array_is_list 10 0 None None (mkData cJSON_Array None 0 d_zero None) [leaf cJSON_NULL None 0 d_zero] 0 (leaf cJSON_True None 1 d_zero) 1);
    [done|cbn; lia|by vm_compute].
Defined.

(** C12 The members of an object are found by their names, whatever the case:
    cJSON_GetObjectItem returns the first member with the name or NULL,
    cJSON_DeleteItemFromObject frees that one, and cJSON_AddItemToObject appends
    a member with the new name, or without a name when the name cannot be copied;
    there the old name is freed all the same. *)
Theorem object_is_named_list can_malloc fuel o nx pv d kids p s t j :
  plain d = true -> (list_size kids < fuel)%nat -> forallb (fun t => plain (data_of t)) (t :: kids) = true ->
  let object l := tree_at (Tree d l) o nx pv in
  triple (object kids ∗ str_at p s) (cJSON_GetObjectItem fuel o (Some p))
    (fun r => str_at p s ∗ item_or_null o nx pv d kids (List.find (named s) kids) r)%I /\
  triple (object kids ∗ str_at p s) (cJSON_DeleteItemFromObject fuel o (Some p))
    (fun _ => object (remove_named s kids) ∗ str_at p s)%I /\
  triple (object kids ∗ tree_at t j None None ∗ str_at p s) (cJSON_AddItemToObject can_malloc fuel o p (Some j))
    (fun _ => ∃ nm, ⟨nm = Some s \/ (nm = None /\ out_of_memory can_malloc)⟩ ∗ object (kids ++ [rename nm t]) ∗ str_at p s)%I.
Proof.
  intros Hd Hf Hp. pose proof (list_size_length kids). apply andb_true_iff in Hp as [Ht Hp]. cbv zeta. split_and!; apply triple_swp.
  - iIntros "[Ho Hs]". iApply (swp_get_object_item with "Ho Hs"); [done|lia|done|]. by iIntros (r) "$ $".
  - iIntros "[Ho Hs]". iApply (swp_delete_from_object with "Ho Hs"); [done|lia|done|]. by iIntros "$ $".
  - iIntros "(Ho & Ht & Hs)". iApply (swp_add_to_object with "Ho Ht Hs"); [done|lia|done|].
    iIntros (nm) "Hnm Ho Hs". iExists nm. iFrame.
Qed.

Lemma object_is_named_list_witness :
  triple (tree_at sample_tree 0 None None ∗ str_at (1%nat, 0) (bytes "B")) (cJSON_DeleteItemFromObject 10 0 (Some (1%nat, 0)))
    (fun _ => tree_at (Tree (mkData cJSON_Object None 0 d_zero None) [Tree (mkData cJSON_Number None 1 (d_of_Z 1) (Some (bytes "a"))) []]) 0 None None ∗
              str_at (1%nat, 0) (bytes "B"))%I.
Proof.
  apply (object_is_named_list always 10 0 None None (mkData cJSON_Object None 0 d_zero None) (kids_of sample_tree) (1%nat, 0) (bytes "B")
           (leaf cJSON_NULL None 0 d_zero) 5); [done|cbn; lia|done].
Defined.

(** * Where the parser is not safe *)

(** C23 An escape that a quote cuts short: a string of ordinary characters [p], a
    backslash, a u, a quote and three characters of any kind, then ordinary
    characters [d] up to a quote or the end.  The first pass of parse_string
    counts [p] and one character more, so the block has room for two characters
    behind [p]; the second pass writes [p] and [d] (in a block with room for
    them that is what it leaves there).  From two characters in [d] on,
    parse_string stops with a write behind its block, wherever it meets the
    string, and so does cJSON_ParseWithOpts on a text that begins with it. *)
Theorem short_escape_overflows can_malloc int_overflow fuel pow text i it require p d m :
  short_escape text i p d -> zlen text < 2147483640 ->
  (forall h n, can_malloc (cJSON_malloc m) h n = true) ->
  count_chars text (i + 1) m = Ok (zlen p + 1, m) /\
  (forall b block, zlen p + zlen d <= zlen block ->
     copy_chars text (i + 1) (b, 0) (with_chars b block m) =
       Ok ((i + zlen p + 7 + zlen d, (b, zlen p + zlen d)),
           with_chars b (map Some (p ++ d) ++ drop (List.length (p ++ d)) block) m)) /\
  (2 <= zlen d ->
     parse_string can_malloc text it i m = Stop (Fault "parse_string") /\
     (i = 0 -> cJSON_ParseWithOpts can_malloc int_overflow fuel pow text 0 require m =
                 Stop (Fault "parse_string"))).
Proof.
  intros Hs Ht Hm. split; [by apply (count_short text i p d)|]. split.
  { intros b block Hb. rewrite (copy_short text i p d); [|done].
    by rewrite (proj2 (Z.leb_le _ _) Hb). }
  intros Hd. split; [by apply (string_short text can_malloc it i p d)|]. intros ->.
  pose proof Hs as (_ & _ & x1 & x2 & x3 & q & r & Hi & _).
  unfold cJSON_ParseWithOpts, cJSON_New_Item, allocate, bind at 1. rewrite Hm.
  set (m1 := mkMemory _ _ _ _ _ _). unfold bind at 1, modify. unfold bind at 1, skip.
  assert (rounds text = S (List.length text)) as Hn by done. rewrite {1}Hn loop_step.
  unfold bind at 1. rewrite (char_ok text 0 _ _ _ Hi). cbn [Z.eqb Pos.eqb negb andb Z.leb Z.compare Pos.compare Pos.compare_cont ret].
  unfold bind at 1. rewrite Hn. cbn [parse_value].
  do 3 (unfold bind at 1; rewrite (starts_not text 0 34 _ _ _ _ Hi); [|done]).
  unfold bind at 1. rewrite (char_ok text 0 _ _ _ Hi). cbn [Z.eqb Pos.eqb].
  by rewrite (string_short text can_malloc _ 0 p d).
Qed.

Lemma broken_short : short_escape (tail broken_text) 0 [] (replicate 39 65).
Proof.
  split; [by constructor|]. split; [by apply Forall_replicate|].
  exists 44, 34, 65, 34, [125; 0]. split; [|by left]. by split.
Qed.

Lemma short_escape_overflows_witness :
  cJSON_ParseWithOpts always int_min 100 one (tail broken_text) 0 1 no_memory_used =
    Stop (Fault "parse_string") /\
  cJSON_Parse always int_min 100 one broken_text 0 no_memory_used = Stop (Fault "parse_string").
Proof.
  split; [|by vm_compute].
  destruct (short_escape_overflows always int_min 100 one (tail broken_text) 0 0 1 [] (replicate 39 65)
    no_memory_used broken_short ltac:(by vm_compute) ltac:(done)) as (_ & _ & H).
  by apply H.
Defined.
